(* ===== verification/_CoqProject ===== *)
-Q . S2P
Prelude.v
CLib.v
EvAddr.v
HexText.v
JsonText.v
ListHead.v
Sock.v
Calendar.v
TimeComm.v
TimeFacts.v
DateFacts.v
ErrLog.v
Layout.v
NodeState.v
Deal.v
Device.v
Handlers.v
Dispatch.v
Login.v
DealProc.v
Grant.v
HandlersInv.v
Relay.v
Frames.v
ConnQueue.v
Workers.v
ThreadPool.v
Conn.v
MinHeap.v
EvBase.v
EvOps.v
EvLoop.v
EvSig.v
EvNew.v
EvInv.v
Deferred.v
EvOnce.v
EvRun.v
EvFacts.v
EvCheck.v
EvServe.v
Epoll.v
EpollFacts.v
EvPoll.v
EvStart.v
Poll.v
Select.v
EvThms.v
EvReinit.v
Backends.v
Buffer.v
BufferFacts.v
BufferOps.v
BufferMem.v
BufferThms.v
BufferSearch.v
BufferLines.v
BufferIO.v
BufferStream.v
Tagging.v
TagFacts.v
TagThms.v
AddrFacts.v
AddrText.v
AddrThms.v
