(* ===== verification/Prelude.v ===== *)
(** * TDM: a verified model of the terminal-device manager

    TDM is a server between mobile hot-spot terminals, a web server, a back
    end (deals and logs) and SIM pool managers. A terminal connects, logs in
    with its serial number, is granted a deal with a SIM card, and sends
    commands for the card, which the server passes on. The program under
    src/src and src/inc is modelled here, and of the vendored src/libevent the
    part that the server's event loop rests on.

    ** Parts of the program and the files that model them

    - [Prelude] (this file): machine integers, the type [res] of outcomes
      ([Ok] or the [fault] that ends the defined behaviour of the C program),
      the state monad [M], bounds-checked buffers ([mread], [mwrite],
      [patch]), the tactics and hint databases.
    - [CLib]: what the source uses of the C library (strings, strtok_r, atoi,
      the conversions of printf) with the lemmas on them.
    - [EvAddr]: the text functions of src/libevent/evutil.c and strlcpy.c:
      character classes, comparison without case, IPv4 and IPv6 addresses and
      ports as text and back. [AddrFacts], [AddrText], [AddrThms]: theorems.
    - [HexText]: src/src/pravitelib.c, hex text, AllTrim, ReadString.
    - [JsonText]: the text parsers of src/src/sock_base.c (Data_Coing,
      Get_Key_Value, Find_Str_By_Key).
    - [ListHead]: src/inc/list.h, pointer by pointer on a memory of list heads.
    - [Sock]: the socket functions of src/src/sock_base.c. The operating
      system is a script: the answers of the following calls, and the list of
      calls that were made ([event]). Every theorem is about all scripts, or
      says which answers it assumes.
    - [Calendar]: what src/src/timecomm.c uses of the C library's calendar
      (struct tm, localtime, mktime, strftime, strptime). The time zone is the
      record [clib]: its offset from UTC, the hours in which daylight saving
      time is in force, and the conversions of strftime and strptime that the
      source does not use by name.
    - [TimeComm]: src/src/timecomm.c, every function; [TimeFacts] and
      [DateFacts]: theorems about it.
    - [ErrLog]: src/src/errlog.c: message levels and log files, the lines of
      the error routines, PrintFormat, the lock file.
    - [Layout]: the structures of src/inc/tdm.h and sub_server_public.h as
      declarations from which offsets and sizes are computed with the rules of
      the x86-64 ABI; reads and writes of members of a byte array.
    - [NodeState]: the state of a command handler: the bytes of the terminal's
      node (struct Data_Spm), the log connections, the outside world.
    - [Deal]: the functions of src/src/common.c on a node: requests to the
      back end, its replies read into the node, log lines.
    - [Device]: the table of terminals of src/src/common.c (Data_Fd.head): a
      ring of nodes under list_mutex.
    - [Handlers]: the command handlers of src/src/TDM.c (Coding_With_...), one
      definition each, and their dispatcher Coding_With_Date.
    - [Dispatch]: from the bytes of a socket to a handler
      (Coding_With_Recv_Data, Client_Web_Manage and what they call).
    - [Login], [DealProc], [Grant], [HandlersInv], [Relay], [Frames]: theorems
      about the definitions of the last four files.
    - [ConnQueue]: the queues between threads of src/src/thread.c, their free
      list and notify pipes, and (Module [Barrier]) the start of the threads.
      [Workers]: these queues under every interleaving, against a machine of
      queues of texts.
    - [ThreadPool]: src/src/threadpool.c as a step relation over the critical
      sections of callers, workers and threadpool_destroy.
    - [Conn]: the connection objects and event handlers of src/src/TDM.c,
      thread_libevent_process of thread.c, TDM_init, run, main and its signal
      handler.
    - [MinHeap]: src/libevent/minheap-internal.h, the heap of the timeouts.
    - [EvBase], [EvOps], [EvLoop]: the event base of src/libevent (event.c,
      evmap.c): its queues and maps; event_add, event_del, event_active and
      the timeouts; setting up events and event_base_loop. What the C code
      calls through pointers is a class: [EvOps.Env] (the backend, signals,
      notification) and [EvLoop.LoopEnv] (dispatch and the callbacks).
    - [EvSig]: src/libevent/signal.c, over the class [HasSig] of backends that
      keep struct evsig_info.
    - [EvNew]: the configuration of a base, event_base_new and event_base_free,
      the checks event_base_assert_ok and evmap_check_integrity.
    - [Deferred]: the queue of deferred callbacks (defer-internal.h, event.c)
      beside a base; [EvOnce]: event_base_once, virtual events and
      event_base_init_common_timeout; [EvReinit]: event_reinit.
    - [Epoll]: src/libevent/epoll.c and the changelists of evmap.c. [Poll],
      [Select]: src/libevent/poll.c and select.c.
    - [EvInv] (the invariant of an event base, and the class [BackendOk] of
      what a backend promises), [EvRun], [EvFacts], [EvServe] (what the
      operations do on a base with the invariant), [EvCheck] (the invariant
      implies the library's own checks), [EpollFacts] (both epoll tables are
      instances of [BackendOk], as are those of [Poll] and [Select]), [EvPoll]
      (from the report of epoll_wait to the callbacks), [EvStart] (epoll_init,
      the base of a thread from event_init to its first rounds), [EvThms]
      (theorems and witnesses), [Backends] (witnesses for poll and select).
    - [Buffer]: the event buffers of src/libevent/buffer.c as lists of chains;
      [BufferFacts], [BufferOps]: the invariant of a buffer and what each
      operation does to its bytes; [BufferMem]: an operation depends on its own
      calls of malloc only; [BufferThms]: the operations refine those on byte
      strings; [BufferSearch]: searching and reading lines over the
      chains; [BufferLines]: against definitions on the byte string;
      [BufferIO]: reading from and writing to a socket, reserved space,
      printing, the end of a buffer; [BufferStream]: a buffer between a
      socket's input and output.
    - [Tagging]: src/libevent/event_tagging.c over the interface [Evbuf] of
      buffers with the laws [EvbufOk]; [TagFacts]: the coding of numbers and
      tags; [TagThms]: the round trip, and event buffers as an instance.

    ** How state and effects are represented

    A buffer is the list of its bytes, with its C size; a write or read past
    its end is [Fault Overrun] or [Fault Overread]. Heap objects that are
    linked by pointers (list heads, queue items, jobs, connections) are cells
    of a finite map; an access to a freed or unallocated cell is
    [Fault UseAfterFree]. Fields of a node that are strings are read as C
    strings, past the member if it has no NUL. int, char and short keep their
    widths ([s32], [u8], [u16]). Uninitialised memory (queue items after
    malloc, the tmd_pthread on the stack of socket_read_cb) is an argument.

    In libevent a TAILQ is the list of its elements, and struct event is split
    between two maps: its timeout and heap index ([MinHeap]), the rest
    ([EvBase.evs]). Clocks, allocations, epoll_ctl and epoll_wait answer from
    lists. The program installs no thread functions and no debug mode. A socket
    is the bytes that will arrive, the bytes that were sent, and the answers of
    ioctl, readv and writev.

    In this commit socket_read_cb does not use the tag of a terminal frame: the call
    of Coding_With_CMD_Data_Pool is inside #if 0. The handlers and
    Coding_With_CMD_Data_Pool are modelled as written; they are what that call
    would run.

    ** What the theorems show

    - Terminals: [Device.Get_Node_By_SN_spec] (the table is a map from serial
      numbers to nodes, found or appended), [Device.destory_list_uses_freed].
    - Login and deals: [Login.login_home_redirected],
      [Login.login_without_back_end], [DealProc.Deal_Proc_reply],
      [Grant.Get_Data_From_Deal_grants] (every member the deal sets, and no
      byte of the node outside them changes), [Deal.Send_Logs_Data_balanced].
    - Commands: [Relay.CMDTT_relays] (command and answer between terminal and
      card), [Relay.CMDTT_overruns], [HandlersInv.Coding_With_Date_keeps] (a
      handler changes only the members of the node listed for its command, for
      all inputs), [Frames] (web commands,
      refused frames, reads that overrun, the text of an address).
    - Threads: [Workers.workers_deliver] (under every interleaving and for all
      answers of the system the queues and the free list implement a machine of
      FIFO queues; round robin), [Barrier.barrier_waits_for_all],
      [ThreadPool.pool_is_fifo], [pool_is_safe], [pool_no_lost_wakeup],
      [destroy_drains] and [destroy_races_with_add] over all interleavings of
      critical sections, [Conn.accepted_is_served], [Conn.startup_ready] (whatever
      descriptors the system gives, when its calls do not fail),
      [Conn.do_accept_spins], [Conn.peer_close_ignored].
    - Time: [TimeFacts] (a time and its text are converted into each other,
      AddDays adds days, the length of a month is that of the calendar),
      [DateFacts] (dates are accepted exactly when the calendar has them,
      months are added with the day cut to the month, common part of two
      periods, the lunar date against an almanac written down apart from the
      table of the source, which is wrong in three years, [misprinted_days]).
    - Logs: [ErrLog.LogMsg_routes] (which file gets which line at which
      level), [LogMsg_drops], [SysErrMsg_line], [PrintFormat_overruns] (by
      one byte).
    - Timeouts: [MinHeap] (push, pop and erase keep the heap, its indices and
      its elements; pop returns the earliest timeout);
      [EvOnce.init_common_timeout_spec] (queues for one duration are found again
      and numbered).
    - Event base: [EvPoll.round_serves] (a round of the loop calls the callback
      of an event if and only if the kernel reports what it waits for),
      [EvThms.event_add_spec], [event_del_spec] (every queue, map
      and counter agrees with the flags of the events before and after, and
      the backend watches what the events ask for), [timeout_process_spec]
      (exactly the events that are due become active),
      [active_events_served] (callbacks run once each, in order),
      [changelist_flush_spec] (collecting any requests in a changelist and
      telling them together leaves the kernel watching what telling them at once
      does), [EvStart.setup_thread_serves] (from setup_thread through any number
      of rounds of the loop to the handler of the notify pipe),
      [EvCheck.assert_ok_passes] (the library's assertions hold on bases whose
      added events are initialised, with descriptors that are not negative, and
      that have no signal events),
      [Poll.poll_dispatch_spec], [Select.select_dispatch_spec] (the other
      backends report to exactly the events that wait),
      [Deferred.deferred_is_served] (a deferred callback waits for those before
      it only, however callbacks schedule each other),
      [EvReinit.event_reinit_restores] (a new backend watches what the old one
      watched).
    - Buffers: [BufferThms.evbuffer_refines] (a buffer is a byte string; an
      operation fails for want of memory only when a call of malloc of its own
      failed), [evbuffer_moves] (data moves whole between buffers),
      [BufferLines.evbuffer_readln_spec] (lines, wherever chains cut the text),
      [remove_buffer_aborts], [prepend_partly], [read_after_add_aborts] (where
      the code does otherwise), [BufferStream.evbuffer_stream] (what is read from
      a socket is what is sent, in order, for all answers of malloc and the
      kernel and wherever chains cut the data).
      [TagThms.tagged_round_trip] (records of all kinds are read as written).
    - Addresses: [AddrThms.sockaddr_text_round_trip] (what
      evutil_format_sockaddr_port prints evutil_parse_sockaddr_port reads),
      [inet_pton_total] (any text is read without leaving it or the arrays).
    - Text and sockets: hex round trip, configuration lookup, JSON lookup,
      list.h against lists, the sending loops, ownership of sockets.

    ** Bounds and fuel

    Loops that are not structural take fuel. Searches and copies over a string
    get its length plus one; loops that wait for the system get the number of
    answers in the script plus one, since each round uses at least one answer;
    the walk over the table gets the number of list heads plus one. The
    theorems show results [Ok], so this fuel is enough; do_accept, which need
    not return, takes its fuel as an argument and [do_accept_spins] is about
    every fuel.

    ** What is not modelled

    Of libevent: the parts that the program does not reach and that are not
    below the parts it uses, that is buffer events, DNS, HTTP, RPC, the rest of
    evutil.c (sockets, getaddrinfo) and the backends of other systems; of
    event.c the debug mode and evthread_make_base_notifiable, which need
    functions that the program does not install; of buffer.c the chains of
    files (mmap and sendfile), whose memory is the kernel's, and the parent and
    locks. The event base is modelled with common timeouts and signal events,
    but the theorems of [EvThms] are about bases that have none, as the
    program's have none, and about fewer than 2^30 descriptors and timeouts. The
    theorems on buffers are about chains that are not pinned (only overlapped
    I/O pins chains) and about less than 2^61 bytes; [evbuffer_stream] is about
    buffers that only the socket functions fill, since evbuffer_add before
    evbuffer_read can fail an assertion ([read_after_add_aborts]).
    evbuffer_remove_buffer and reserved space have definitions only.
    The files on connections and thread queues do not use this
    model: event_add and event_base_set are answers of their script. The
    handlers record a log call as the event [ELog], without the file it goes
    to. Diagnostics on stdout and stderr and the failure returns of
    threadpool_init are left out. A critical section is one step: the mutexes themselves
    are trusted.

    ** Possible extensions

    Callbacks that add and delete events during a round ([setup_thread_serves]
    is about callbacks that leave the base alone); the connections of
    [Conn] on the modelled event base; the pointers of the TAILQ macros against
    lists; the handlers' remaining branches (CFMD, logout, local report,
    heartbeat, VPN) as functional theorems. *)

From stdpp Require Import prelude gmap.
Open Scope Z_scope.
#[export] Set Warnings "-clear-no-such-hyp".

#[global] Arguments Z.eqb : simpl never.
#[global] Arguments Z.leb : simpl never.
#[global] Arguments Z.ltb : simpl never.
#[global] Arguments Z.modulo : simpl never.
#[global] Arguments Z.div : simpl never.
#[global] Arguments Z.add : simpl never.
#[global] Arguments Z.sub : simpl never.
#[global] Arguments Z.mul : simpl never.
#[global] Arguments Z.pow : simpl never.
#[global] Arguments Z.to_nat : simpl never.
#[global] Arguments Z.land : simpl never.
#[global] Arguments Z.shiftl : simpl never.
#[global] Arguments Z.shiftr : simpl never.

(** ** Machine integers (x86-64 Linux: char is signed, int 32, long 64) *)

Definition u8 (z : Z) : Z := z mod 256.
Definition u16 (z : Z) : Z := z mod 65536.
Definition u32 (z : Z) : Z := z mod 4294967296.
Definition u64 (z : Z) : Z := z mod 18446744073709551616.
Definition s8 (z : Z) : Z := (z + 128) mod 256 - 128.
Definition s32 (z : Z) : Z := (z + 2147483648) mod 4294967296 - 2147483648.
Definition s64 (z : Z) : Z :=
  (z + 9223372036854775808) mod 18446744073709551616 - 9223372036854775808.

Abbreviation bytes := (list Z).

Definition is_byte (z : Z) : Prop := 0 <= z < 256.

#[export] Instance is_byte_dec z : Decision (is_byte z).
Proof. unfold is_byte. apply _. Defined.

Abbreviation bytes_ok := (Forall is_byte).

(** ** Outcomes: a value, or the reason why the C program has no defined
    behaviour (or stops) at this point *)

Inductive fault :=
| Overrun        (* a write past the end of an object *)
| Overread       (* a read past the end of an object *)
| NullDeref      (* a NULL pointer is dereferenced *)
| UseAfterFree   (* a freed object is accessed *)
| AssertFailed   (* assert() aborts the process *)
| Exited         (* exit() ends the process *)
| Uninit         (* a variable is read before it has a value *)
| Blocked        (* the thread waits for another thread *)
| BadShift       (* a shift by the width of the type or more *)
| NoFuel.        (* the bound on a loop was too small *)

#[export] Instance fault_eq_dec : EqDecision fault.
Proof. solve_decision. Defined.

Inductive res (A : Type) :=
| Ok (a : A)
| Fault (f : fault).
Arguments Ok {A} a.
Arguments Fault {A} f.

#[export] Instance res_eq_dec `{EqDecision A} : EqDecision (res A).
Proof. solve_decision. Defined.

Definition res_bind {A B} (m : res A) (k : A -> res B) : res B :=
  match m with Ok a => k a | Fault f => Fault f end.

Definition is_ok {A} (m : res A) : bool :=
  match m with Ok _ => true | Fault _ => false end.

(** State and faults: the monad of every operation that changes state. *)
Definition M (S A : Type) : Type := S -> res (A * S).

Definition ret {S A} (a : A) : M S A := fun s => Ok (a, s).
Definition bind {S A B} (m : M S A) (k : A -> M S B) : M S B :=
  fun s => match m s with Ok (a, s') => k a s' | Fault f => Fault f end.
Definition fail {S A} (f : fault) : M S A := fun _ => Fault f.
Definition get {S} : M S S := fun s => Ok (s, s).
Definition put {S} (s : S) : M S unit := fun _ => Ok (tt, s).
Definition gets {S A} (f : S -> A) : M S A := fun s => Ok (f s, s).
Definition modify {S} (f : S -> S) : M S unit := fun s => Ok (tt, f s).
Definition lift {S A} (r : res A) : M S A :=
  fun s => match r with Ok a => Ok (a, s) | Fault f => Fault f end.
Definition when {S} (b : bool) (m : M S unit) : M S unit :=
  if b then m else ret tt.

Declare Scope tdm_scope.
Delimit Scope tdm_scope with tdm.
Notation "'let?' x := e 'in' k" := (res_bind e (fun x => k))
  (at level 10, x pattern, e at level 100, k at level 200) : tdm_scope.
Notation "x <- e ;; k" := (bind e (fun x => k))
  (at level 100, e at next level, right associativity) : tdm_scope.
Notation "'let!' x := e 'in' k" := (bind e (fun x => k))
  (at level 10, x pattern, e at level 100, k at level 200) : tdm_scope.
Notation "e ;; k" := (bind e (fun _ => k))
  (at level 100, right associativity) : tdm_scope.
Open Scope tdm_scope.

Section MonadLaws.
Context {S A B C : Type}.

Lemma bind_ok (m : M S A) (k : A -> M S B) s a s' :
  m s = Ok (a, s') -> bind m k s = k a s'.
Proof. unfold bind. by intros ->. Qed.

Lemma bind_fault (m : M S A) (k : A -> M S B) s f :
  m s = Fault f -> bind m k s = Fault f.
Proof. unfold bind. by intros ->. Qed.

Lemma bind_inv (m : M S A) (k : A -> M S B) s b s2 :
  bind m k s = Ok (b, s2) ->
  exists a s1, m s = Ok (a, s1) /\ k a s1 = Ok (b, s2).
Proof. unfold bind. destruct (m s) as [[a s1]|f]; [eauto|done]. Qed.

Lemma res_bind_inv (m : res A) (k : A -> res B) b :
  res_bind m k = Ok b -> exists a, m = Ok a /\ k a = Ok b.
Proof. destruct m; [eauto|done]. Qed.
End MonadLaws.

(** ** Buffers: reads and writes that stay inside an object of fixed size *)

Definition mread (src : bytes) (off n : nat) : res bytes :=
  if decide (off + n <= length src)%nat
  then Ok (take n (drop off src)) else Fault Overread.

(** [d] with the bytes from offset [off] on replaced by [s]. *)
Definition patch (d : bytes) (off : nat) (s : bytes) : bytes :=
  take off d ++ s ++ drop (off + length s) d.

Definition mwrite (dst : bytes) (off : nat) (s : bytes) : res bytes :=
  if decide (off + length s <= length dst)%nat
  then Ok (patch dst off s) else Fault Overrun.

Definition zeros (n : nat) : bytes := replicate n 0.

(** [b] followed by NUL bytes up to the size [n] of the array it fills. *)
Definition padded (n : nat) (b : bytes) : bytes := b ++ zeros (n - length b).

Section Buffers.
Implicit Types b d s : bytes.

Lemma mread_ok s off n :
  (off + n <= length s)%nat -> mread s off n = Ok (take n (drop off s)).
Proof. intros. unfold mread. by rewrite decide_True. Qed.

Lemma mread_length s off n b : mread s off n = Ok b -> length b = n.
Proof.
  unfold mread. case_decide; [|done]. intros [= <-].
  rewrite length_take, length_drop. lia.
Qed.

Lemma mwrite_ok d off s :
  (off + length s <= length d)%nat ->
  mwrite d off s = Ok (patch d off s).
Proof. intros. unfold mwrite. by rewrite decide_True. Qed.

Lemma mwrite_overrun d off s :
  (length d < off + length s)%nat -> mwrite d off s = Fault Overrun.
Proof. intros. unfold mwrite. rewrite decide_False; [done|lia]. Qed.

Lemma length_patch d off s :
  (off + length s <= length d)%nat -> length (patch d off s) = length d.
Proof. intros. unfold patch. rewrite !length_app, length_take, length_drop. lia. Qed.

Lemma mwrite_length d off s d' : mwrite d off s = Ok d' -> length d' = length d.
Proof. unfold mwrite. case_decide; [|done]. intros [= <-]. by apply length_patch. Qed.

Lemma mwrite_1 d k x : (k < length d)%nat -> mwrite d k [x] = Ok (<[k:=x]> d).
Proof.
  intros. rewrite mwrite_ok by (simpl; lia). f_equal. unfold patch. simpl.
  rewrite insert_take_drop by done. do 2 f_equal. f_equal. lia.
Qed.

Lemma patch_insert d k x s :
  (k < length d)%nat -> patch (<[k:=x]> d) (S k) s = patch d k (x :: s).
Proof.
  intros. unfold patch. rewrite insert_take_drop by done.
  rewrite take_app_ge by (rewrite length_take; lia). rewrite length_take.
  replace (S k - k `min` length d)%nat with 1%nat by lia. simpl.
  rewrite drop_app_ge by (rewrite length_take; lia). rewrite length_take.
  replace (S (k + length s) - k `min` length d)%nat with (S (length s)) by lia.
  simpl. rewrite drop_drop. rewrite <-app_assoc. simpl. do 3 f_equal. f_equal. lia.
Qed.

Lemma patch_nil d k : patch d k [] = d.
Proof. unfold patch. simpl. rewrite Nat.add_0_r. apply take_drop. Qed.

Lemma lookup_patch_other d k s (j : nat) :
  (k + length s <= length d)%nat -> (j < k \/ k + length s <= j)%nat ->
  patch d k s !! j = d !! j.
Proof.
  intros Hk [Hj|Hj]; unfold patch.
  - rewrite lookup_app_l by (rewrite length_take; lia). by rewrite lookup_take_lt.
  - rewrite lookup_app_r by (rewrite length_take; lia). rewrite length_take.
    rewrite lookup_app_r by lia. rewrite lookup_drop. f_equal. lia.
Qed.

Lemma mwrite_inv d off s d' :
  mwrite d off s = Ok d' -> (off + length s <= length d)%nat.
Proof. unfold mwrite. by case_decide. Qed.

Lemma mwrite_same d off s d' :
  mwrite d off s = Ok d' -> take (length s) (drop off d') = s.
Proof.
  unfold mwrite. case_decide; [|done]. intros [= <-]. unfold patch.
  rewrite drop_app_ge by (rewrite length_take; lia). rewrite length_take.
  replace (off - off `min` length d)%nat with 0%nat by lia.
  rewrite drop_0. by rewrite take_app_length.
Qed.

Lemma mwrite_other d off s d' (i : nat) :
  mwrite d off s = Ok d' -> (i < off \/ off + length s <= i)%nat ->
  d' !! i = d !! i.
Proof.
  unfold mwrite. case_decide; [|done]. intros [= <-] Hi. by apply lookup_patch_other.
Qed.

Lemma length_zeros n : length (zeros n) = n.
Proof. apply length_replicate. Qed.

Lemma mwrite_zeros n s :
  (length s <= n)%nat -> mwrite (zeros n) 0 s = Ok (padded n s).
Proof.
  intros. rewrite mwrite_ok; [|by rewrite length_zeros].
  unfold patch, padded, zeros. by rewrite drop_replicate.
Qed.

Lemma length_padded n b : (length b <= n)%nat -> length (padded n b) = n.
Proof. intros. unfold padded. rewrite length_app, length_zeros. lia. Qed.

Lemma bytes_ok_zeros n : bytes_ok (zeros n).
Proof. apply Forall_replicate. unfold is_byte. lia. Qed.

Lemma mwrite_bytes_ok d off s d' :
  bytes_ok d -> bytes_ok s -> mwrite d off s = Ok d' -> bytes_ok d'.
Proof.
  intros Hd Hs. unfold mwrite. case_decide; [|done]. intros [= <-].
  unfold patch. rewrite !Forall_app. split_and!; [by apply Forall_take|done|by apply Forall_drop].
Qed.

Lemma mread_bytes_ok s off n b :
  bytes_ok s -> mread s off n = Ok b -> bytes_ok b.
Proof.
  intros Hs. unfold mread. case_decide; [|done]. intros [= <-].
  by apply Forall_take, Forall_drop.
Qed.
End Buffers.

(** Induction two elements at a time. *)
Lemma list_pair_ind {A} (P : list A -> Prop) :
  P [] -> (forall a, P [a]) -> (forall a b l, P l -> P (a :: b :: l)) -> forall l, P l.
Proof.
  intros H0 H1 H2. fix IH 1. intros [|a [|b l]]; [exact H0|exact (H1 a)|].
  apply H2, IH.
Qed.

(** ** Little-endian integers in memory *)

Fixpoint le_enc (n : nat) (z : Z) : bytes :=
  match n with
  | O => []
  | S n' => z mod 256 :: le_enc n' (z / 256)
  end.

Fixpoint le_dec (b : bytes) : Z :=
  match b with
  | [] => 0
  | x :: b' => x + 256 * le_dec b'
  end.

Section LittleEndian.

Lemma length_le_enc n z : length (le_enc n z) = n.
Proof. revert z. induction n; intros; simpl; auto. Qed.

Lemma le_dec_enc n z : le_dec (le_enc n z) = z mod 256 ^ Z.of_nat n.
Proof.
  revert z. induction n as [|n IH]; intros z; [by rewrite Z.mod_1_r|].
  cbn [le_enc le_dec]. rewrite IH, Nat2Z.inj_succ, Z.pow_succ_r by lia.
  rewrite Z.rem_mul_r by lia. lia.
Qed.

Lemma le_enc_dec b : bytes_ok b -> le_enc (length b) (le_dec b) = b.
Proof.
  induction 1 as [|x b [Hx Hx'] _ IH]; [done|].
  simpl. f_equal.
  - rewrite Z.mul_comm, Z.mod_add by lia. by apply Z.mod_small.
  - rewrite Z.mul_comm, Z.div_add by lia. rewrite (Z.div_small x) by lia. done.
Qed.

Lemma le_enc_bytes_ok n z : bytes_ok (le_enc n z).
Proof.
  revert z. induction n; intros; simpl; constructor; auto.
  apply Z.mod_pos_bound. lia.
Qed.

Lemma le_dec_bound b : bytes_ok b -> 0 <= le_dec b < 256 ^ Z.of_nat (length b).
Proof.
  induction 1 as [|x b [Hx Hx'] _ IH]; [simpl; lia|].
  cbn [le_dec length]. rewrite Nat2Z.inj_succ, Z.pow_succ_r by lia. lia.
Qed.
End LittleEndian.

(** ** Bounds of the integer conversions *)

Lemma u8_range z : 0 <= u8 z < 256.
Proof. apply Z.mod_pos_bound. lia. Qed.

Lemma u8_id z : is_byte z -> u8 z = z.
Proof. apply Z.mod_small. Qed.

Lemma s32_id z : -2147483648 <= z < 2147483648 -> s32 z = z.
Proof. intros. unfold s32. rewrite Z.mod_small; lia. Qed.

Lemma s64_id z : -9223372036854775808 <= z < 9223372036854775808 -> s64 z = z.
Proof. intros. unfold s64. rewrite Z.mod_small; lia. Qed.

(** ** Automation *)

Create HintDb tdm.
Create Rewrite HintDb len.
#[export] Hint Resolve u8_range length_zeros bytes_ok_zeros le_enc_bytes_ok : tdm.
#[export] Hint Rewrite @length_app @length_take @length_drop @length_replicate
  @length_insert @length_map length_zeros length_le_enc : len.

(** [len]: side conditions about lengths of buffers. *)
Ltac len := autorewrite with len in *; simpl in *; lia.

(** [ok_inv H]: read off the intermediate results of a computation that
    ended without a fault. *)
Ltac ok_inv H :=
  repeat match type of H with
  | bind _ _ _ = Ok _ =>
      let a := fresh "a" in let s := fresh "s" in let E := fresh "E" in
      apply bind_inv in H as (a & s & E & H)
  | res_bind _ _ = Ok _ =>
      let a := fresh "a" in let E := fresh "E" in
      apply res_bind_inv in H as (a & E & H)
  end.

(** [by_cases]: split on every test of the goal, keep arithmetic facts. *)
Ltac by_cases :=
  repeat match goal with
  | |- context [if ?b then _ else _] => destruct b eqn:?
  end.
