(* ===== verification/CLib.v ===== *)
(** * The part of the C library the program uses

    Strings are the bytes of a buffer up to the first NUL; a string function
    applied to a buffer without NUL reads past it ([Fault Overread]).
    [strtok_r] works on the contents of its string: the callers tokenise
    private copies, so only the token and the saved rest are observable.
    [atoi]/[atol]/[atoll] are [strtol] with its saturation, truncated to the
    result type. The [fmt_*] functions are the conversions of [sprintf]. *)

From stdpp Require Import prelude gmap.
From S2P Require Import Prelude.
From stdpp Require Import strings.
Open Scope Z_scope.

(** A C string literal. *)
Fixpoint str (s : string) : bytes :=
  match s with
  | EmptyString => []
  | String a s' => Z.of_nat (Ascii.nat_of_ascii a) :: str s'
  end.

Fixpoint cstr (b : bytes) : bytes :=
  match b with
  | [] => []
  | c :: b' => if Z.eqb c 0 then [] else c :: cstr b'
  end.

Definition has_nul (b : bytes) : bool := existsb (Z.eqb 0) b.

(** The string stored in a buffer. *)
Definition cstring (b : bytes) : res bytes :=
  if has_nul b then Ok (cstr b) else Fault Overread.

(** Non-empty bytes without NUL: what a string can consist of. *)
Definition nonul (b : bytes) : Prop := Forall (fun c => c <> 0) b.

#[export] Instance nonul_dec b : Decision (nonul b).
Proof. unfold nonul. apply _. Defined.

Fixpoint is_prefix (p s : bytes) : bool :=
  match p, s with
  | [], _ => true
  | _, [] => false
  | a :: p', c :: s' => Z.eqb a c && is_prefix p' s'
  end.

(** strstr: the suffix that starts at the first occurrence of [key]. *)
Fixpoint strstr (s key : bytes) : option bytes :=
  if is_prefix key s then Some s
  else match s with
       | [] => None
       | _ :: s' => strstr s' key
       end.

Definition in_set (d : bytes) (c : Z) : bool := existsb (Z.eqb c) d.

Fixpoint span (p : Z -> bool) (s : bytes) : bytes * bytes :=
  match s with
  | [] => ([], [])
  | c :: s' => if p c then let '(a, b) := span p s' in (c :: a, b) else ([], s)
  end.

(** strtok_r: skip delimiters, take the token, save what follows its
    delimiter. *)
Definition strtok_r (s d : bytes) : option bytes * bytes :=
  let s1 := snd (span (in_set d) s) in
  match s1 with
  | [] => (None, [])
  | _ =>
      let '(tok, rest) := span (fun c => negb (in_set d c)) s1 in
      (Some tok, tail rest)
  end.

Definition is_space (c : Z) : bool := Z.eqb c 32 || (Z.leb 9 c && Z.leb c 13).
Definition is_digit (c : Z) : bool := Z.leb 48 c && Z.leb c 57.

Fixpoint digits_val (acc : Z) (s : bytes) : Z :=
  match s with
  | c :: s' => if is_digit c then digits_val (10 * acc + (c - 48)) s' else acc
  | [] => acc
  end.

Definition clamp64 (z : Z) : Z :=
  Z.max (-9223372036854775808) (Z.min 9223372036854775807 z).

(** strtol(s, NULL, 10), also strtoll: both are 64 bits wide here. *)
Definition strtol (s : bytes) : Z :=
  match snd (span is_space s) with
  | c :: s' =>
      if Z.eqb c 45 then clamp64 (- digits_val 0 s')
      else if Z.eqb c 43 then clamp64 (digits_val 0 s')
      else clamp64 (digits_val 0 (c :: s'))
  | [] => 0
  end.

Definition atoi (s : bytes) : Z := s32 (strtol s).
Definition atol (s : bytes) : Z := strtol s.
Definition atoll (s : bytes) : Z := strtol s.

(** memcmp(a, b, n) == 0 *)
Definition memeq (a b : bytes) (n : nat) : res bool :=
  let? x := mread a 0 n in
  let? y := mread b 0 n in
  Ok (bool_decide (x = y)).

(** memchr: the index of the byte *)
Fixpoint memchr (chr : Z) (s : bytes) : option nat :=
  match s with
  | [] => None
  | x :: s' => if Z.eqb x chr then Some 0%nat else S <$> memchr chr s'
  end.

(** memcmp: the difference of the first two bytes that differ *)
Fixpoint memcmp (s1 s2 : bytes) : Z :=
  match s1, s2 with
  | x :: s1', y :: s2' => if Z.eqb x y then memcmp s1' s2' else x - y
  | _, _ => 0
  end.

(** ** sprintf conversions *)

Fixpoint dec_digits (fuel : nat) (z : Z) (acc : bytes) : bytes :=
  match fuel with
  | O => acc
  | S f =>
      let acc' := 48 + z mod 10 :: acc in
      if Z.ltb z 10 then acc' else dec_digits f (z / 10) acc'
  end.

(** Twenty digits hold every 64-bit value. *)
Definition fmt_u (z : Z) : bytes := dec_digits 20 z [].
Definition fmt_d (z : Z) : bytes :=
  if Z.ltb z 0 then 45 :: fmt_u (- z) else fmt_u z.

(** %0wd: zeros between the sign and the digits. *)
Definition fmt_0d (w : nat) (z : Z) : bytes :=
  let d := fmt_u (Z.abs z) in
  if Z.ltb z 0 then 45 :: replicate (w - 1 - length d) 48 ++ d
  else replicate (w - length d) 48 ++ d.

(** ** Strings and buffers *)

Section Strings.
Implicit Types b s d key : bytes.

Lemma cstr_nonul s b : nonul s -> cstr (s ++ 0 :: b) = s.
Proof.
  induction 1 as [|c s Hc _ IH]; [done|]. simpl.
  destruct (Z.eqb_spec c 0); [done|]. by rewrite IH.
Qed.

Lemma cstr_id s : nonul s -> cstr s = s.
Proof.
  induction 1 as [|c s Hc _ IH]; [done|]. simpl.
  destruct (Z.eqb_spec c 0); [done|]. by rewrite IH.
Qed.

Lemma nonul_cstr b : nonul (cstr b).
Proof.
  induction b as [|c b IH]; simpl; [constructor|].
  destruct (Z.eqb_spec c 0); constructor; auto.
Qed.

Lemma has_nul_app a b : has_nul (a ++ b) = has_nul a || has_nul b.
Proof. unfold has_nul. apply existsb_app. Qed.

Lemma has_nul_nonul s : nonul s -> has_nul s = false.
Proof.
  induction 1 as [|c s Hc _ IH]; [done|]. simpl.
  by rewrite (proj2 (Z.eqb_neq 0 c)).
Qed.

Lemma has_nul_zeros n : (0 < n)%nat -> has_nul (zeros n) = true.
Proof. by destruct n; [lia|]. Qed.

Lemma cstr_length b : (length (cstr b) <= length b)%nat.
Proof. induction b as [|c b IH]; simpl; [lia|]. destruct (Z.eqb c 0); simpl; lia. Qed.

Lemma cstr_length_nul b : has_nul b = true -> (length (cstr b) < length b)%nat.
Proof.
  induction b as [|c b IH]; [done|]. cbn [has_nul existsb cstr length].
  rewrite (Z.eqb_sym 0 c). destruct (Z.eqb c 0); simpl; [lia|].
  intros H. specialize (IH H). lia.
Qed.

Lemma cstring_padded n s :
  nonul s -> (length s < n)%nat -> cstring (padded n s) = Ok s.
Proof.
  intros Hs Hn. unfold cstring, padded.
  rewrite has_nul_app, has_nul_zeros by lia. rewrite orb_true_r.
  destruct (n - length s)%nat as [|k] eqn:E; [lia|].
  change (zeros (S k)) with (0 :: zeros k). by rewrite cstr_nonul.
Qed.

Lemma cstring_full n s :
  nonul s -> length s = n -> cstring (padded n s) = Fault Overread.
Proof.
  intros Hs <-. unfold cstring, padded.
  rewrite Nat.sub_diag. change (zeros 0) with (@nil Z). rewrite app_nil_r.
  by rewrite has_nul_nonul.
Qed.

Lemma is_prefix_app key s : is_prefix key (key ++ s) = true.
Proof. induction key; simpl; [done|]. by rewrite Z.eqb_refl. Qed.

Lemma is_prefix_true key s :
  is_prefix key s = true -> exists r, s = key ++ r.
Proof.
  revert s. induction key as [|a key IH]; intros [|c s]; simpl; try done; eauto.
  intros [->%Z.eqb_eq [r ->]%IH]%andb_prop. eauto.
Qed.

Lemma strstr_inv s key r :
  strstr s key = Some r -> exists pre r', s = pre ++ r /\ r = key ++ r'.
Proof.
  induction s as [|c s IH]; simpl.
  - destruct (is_prefix key []) eqn:E; [|done]. intros [= <-].
    apply is_prefix_true in E as [r' ->]. by exists [], r'.
  - destruct (is_prefix key (c :: s)) eqn:E.
    + intros [= <-]. apply is_prefix_true in E as [r' E]. exists [], r'. by rewrite <-E.
    + intros (pre & r' & -> & ->)%IH. by exists (c :: pre), r'.
Qed.

(** A one-character key is found at its first occurrence. *)
Lemma strstr_char c s r :
  Forall (fun x => x <> c) s -> strstr (s ++ c :: r) [c] = Some (c :: r).
Proof.
  induction 1 as [|x s Hx _ IH]; simpl.
  - by rewrite Z.eqb_refl.
  - rewrite (proj2 (Z.eqb_neq c x)) by done. exact IH.
Qed.

Lemma span_app (p : Z -> bool) s r :
  Forall (fun c => p c = true) s ->
  span p (s ++ r) = (s ++ fst (span p r), snd (span p r)).
Proof.
  induction 1 as [|c s Hc _ IH]; simpl; [by destruct (span p r)|].
  rewrite Hc, IH. done.
Qed.

Lemma span_stop (p : Z -> bool) s c r :
  Forall (fun c => p c = true) s -> p c = false ->
  span p (s ++ c :: r) = (s, c :: r).
Proof.
  intros Hs Hc. rewrite span_app by done. simpl. rewrite Hc. simpl.
  by rewrite app_nil_r.
Qed.

Lemma span_all (p : Z -> bool) s :
  Forall (fun c => p c = true) s -> span p s = (s, []).
Proof. intros H. rewrite <-(app_nil_r s) at 1. rewrite span_app by done. simpl. by rewrite app_nil_r. Qed.

Lemma span_eq (p : Z -> bool) s : fst (span p s) ++ snd (span p s) = s.
Proof.
  induction s as [|c s IH]; [done|]. simpl.
  destruct (p c); [|done]. destruct (span p s). simpl in *. by rewrite IH.
Qed.

(** A token: the bytes up to the next delimiter. *)
Lemma strtok_r_token d tok c r :
  tok <> [] -> Forall (fun x => in_set d x = false) tok -> in_set d c = true ->
  strtok_r (tok ++ c :: r) d = (Some tok, r).
Proof.
  intros Hne Htok Hc. unfold strtok_r.
  destruct tok as [|x tok]; [done|].
  apply Forall_cons in Htok as [Hx Htok].
  cbn [app span snd]. rewrite Hx. cbn [snd span]. rewrite Hx. cbn [negb].
  rewrite (span_stop _ tok c r); [done| |by rewrite Hc].
  eapply Forall_impl; [exact Htok|]. simpl. by intros ? ->.
Qed.

(** The last token: everything that is left. *)
Lemma strtok_r_last d tok :
  tok <> [] -> Forall (fun x => in_set d x = false) tok ->
  strtok_r tok d = (Some tok, []).
Proof.
  intros Hne Htok. unfold strtok_r.
  destruct tok as [|x tok]; [done|].
  apply Forall_cons in Htok as [Hx Htok].
  cbn [app span snd]. rewrite Hx. cbn [snd span]. rewrite Hx. cbn [negb].
  rewrite (span_all _ tok); [done|].
  eapply Forall_impl; [exact Htok|]. simpl. by intros ? ->.
Qed.

(** Delimiters in front of the token are skipped. *)
Lemma strtok_r_skip d c s :
  in_set d c = true -> strtok_r (c :: s) d = strtok_r s d.
Proof.
  intros Hc. unfold strtok_r. cbn [span]. rewrite Hc.
  by destruct (span (in_set d) s).
Qed.

Lemma strtok_r_nil d : strtok_r [] d = (None, []).
Proof. done. Qed.

Lemma strtok_r_nonempty s d tok r :
  strtok_r s d = (Some tok, r) -> tok <> [].
Proof.
  unfold strtok_r.
  destruct (snd (span (in_set d) s)) as [|c s1] eqn:E; [done|].
  assert (in_set d c = false) as Hc.
  { clear -E. induction s as [|x s IH]; [done|]. simpl in E.
    destruct (in_set d x) eqn:Hx.
    - destruct (span (in_set d) s). by apply IH.
    - simpl in E. by injection E as -> ->. }
  simpl. rewrite Hc. simpl. destruct (span _ s1). by intros [= <- _].
Qed.
Lemma memcmp_zero s1 : forall s2, length s1 = length s2 -> memcmp s1 s2 = 0 <-> s1 = s2.
Proof.
  induction s1 as [|x s1 IH]; intros [|y s2] Hl; cbn [memcmp]; try done. injection Hl as Hl. destruct (Z.eqb_spec x y) as [->|Hn]; [rewrite (IH s2 Hl); split; congruence|].
  split; [lia|congruence].
Qed.
End Strings.

(** ** Numbers: what sprintf prints, strtol reads back *)

Section Numbers.

Lemma digits_val_app acc s t :
  Forall (fun c => is_digit c = true) s ->
  digits_val acc (s ++ t) = digits_val (digits_val acc s) t.
Proof.
  intros H. revert acc. induction H as [|c s Hc _ IH]; intros acc; [done|].
  simpl. by rewrite Hc.
Qed.

Lemma is_digit_mod z : is_digit (48 + z mod 10) = true.
Proof.
  pose proof (Z.mod_pos_bound z 10). unfold is_digit.
  rewrite (proj2 (Z.leb_le 48 _)), (proj2 (Z.leb_le _ 57)); lia || done.
Qed.

Lemma dec_digits_spec fuel z acc :
  0 <= z < 10 ^ Z.of_nat fuel ->
  exists d, dec_digits fuel z acc = d ++ acc /\ (0 < fuel -> d <> [])%nat /\
    Forall (fun c => is_digit c = true) d /\
    (forall a, digits_val a d = a * 10 ^ Z.of_nat (length d) + z) /\
    (length d <= fuel)%nat.
Proof.
  revert z acc. induction fuel as [|f IH]; intros z acc Hz.
  - exists []. split_and!; try done; try lia.
    intros a. simpl in *. change (10 ^ Z.of_nat 0) with 1 in *. lia.
  - rewrite Nat2Z.inj_succ, Z.pow_succ_r in Hz by lia.
    cbn [dec_digits]. destruct (Z.ltb_spec z 10) as [Hlt|Hge].
    + exists [48 + z mod 10]. split_and!; simpl; try done; try lia.
      * constructor; [apply is_digit_mod|constructor].
      * intros a. rewrite is_digit_mod. rewrite Z.mod_small by lia.
        change (10 ^ Z.of_nat 1) with 10. lia.
    + destruct (IH (z / 10) (48 + z mod 10 :: acc)) as (d & -> & Hne & Hd & Hv & Hl).
      { split; [apply Z.div_pos; lia|]. apply Z.div_lt_upper_bound; lia. }
      exists (d ++ [48 + z mod 10]). split_and!.
      * by rewrite <-app_assoc.
      * by destruct d.
      * rewrite Forall_app; split; [done|]. constructor; [apply is_digit_mod|constructor].
      * intros a. rewrite digits_val_app by done. simpl. rewrite is_digit_mod, Hv.
        rewrite length_app, Nat2Z.inj_add, Z.pow_add_r by lia.
        change (10 ^ Z.of_nat (length [48 + z mod 10])) with 10.
        pose proof (Z.div_mod z 10). lia.
      * rewrite length_app. simpl. lia.
Qed.

Lemma fmt_u_spec z :
  0 <= z < 10 ^ 20 ->
  fmt_u z <> [] /\ Forall (fun c => is_digit c = true) (fmt_u z) /\
  digits_val 0 (fmt_u z) = z /\ (length (fmt_u z) <= 20)%nat.
Proof.
  intros Hz. destruct (dec_digits_spec 20 z []) as (d & E & Hne & Hd & Hv & Hl); [done|].
  unfold fmt_u. rewrite E, app_nil_r. rewrite Hv, Z.mul_0_l.
  split_and!; [apply Hne; lia|done|lia|done].
Qed.

Lemma dec_digits_length n fuel z acc :
  (0 < n)%nat -> (n <= fuel)%nat -> 0 <= z < 10 ^ Z.of_nat n ->
  (length (dec_digits fuel z acc) <= n + length acc)%nat.
Proof.
  revert fuel z acc. induction n as [|n IH]; intros fuel z acc Hn Hf Hz; [lia|].
  destruct fuel as [|fuel]; [lia|]. cbn [dec_digits].
  destruct (Z.ltb_spec z 10); [simpl; lia|].
  rewrite Nat2Z.inj_succ, Z.pow_succ_r in Hz by lia.
  destruct n as [|n]; [change (10 ^ Z.of_nat 0) with 1 in Hz; lia|].
  etransitivity; [apply IH; [lia|lia|]|simpl; lia].
  split; [apply Z.div_pos; lia|]. apply Z.div_lt_upper_bound; lia.
Qed.

Lemma fmt_u_length n z :
  (0 < n <= 20)%nat -> 0 <= z < 10 ^ Z.of_nat n -> (length (fmt_u z) <= n)%nat.
Proof.
  intros Hn Hz. unfold fmt_u. etransitivity; [apply (dec_digits_length n); lia|].
  simpl. lia.
Qed.

Lemma clamp64_id z :
  -9223372036854775808 <= z <= 9223372036854775807 -> clamp64 z = z.
Proof. unfold clamp64. lia. Qed.

Lemma strtol_digits s :
  s <> [] -> Forall (fun c => is_digit c = true) s ->
  strtol s = clamp64 (digits_val 0 s).
Proof.
  intros Hne Hs. destruct s as [|c s]; [done|].
  pose proof (Forall_inv Hs) as Hc.
  unfold strtol. simpl. unfold is_digit in Hc.
  apply andb_prop in Hc as [Hc1%Z.leb_le Hc2%Z.leb_le].
  assert (is_space c = false) as ->.
  { unfold is_space. rewrite (proj2 (Z.eqb_neq c 32)) by lia.
    rewrite (proj2 (Z.leb_gt c 13)) by lia. by rewrite andb_false_r. }
  simpl. rewrite (proj2 (Z.eqb_neq c 45)), (proj2 (Z.eqb_neq c 43)) by lia.
  unfold is_digit. rewrite (proj2 (Z.leb_le 48 c)), (proj2 (Z.leb_le c 57)) by lia.
  done.
Qed.

Lemma strtol_fmt_u z :
  0 <= z <= 9223372036854775807 -> strtol (fmt_u z) = z.
Proof.
  intros Hz. destruct (fmt_u_spec z) as (Hne & Hd & Hv & _).
  { change (10 ^ 20) with 100000000000000000000. lia. }
  rewrite strtol_digits by done. rewrite Hv. apply clamp64_id. lia.
Qed.

Lemma strtol_fmt_d z :
  -9223372036854775808 <= z <= 9223372036854775807 -> strtol (fmt_d z) = z.
Proof.
  intros Hz. unfold fmt_d. destruct (Z.ltb_spec z 0) as [Hn|Hp]; [|apply strtol_fmt_u; lia].
  destruct (fmt_u_spec (- z)) as (Hne & Hd & Hv & _).
  { change (10 ^ 20) with 100000000000000000000. lia. }
  unfold strtol. simpl. rewrite Hv. rewrite Z.opp_involutive. apply clamp64_id. lia.
Qed.

Lemma atoi_fmt_d z : -2147483648 <= z < 2147483648 -> atoi (fmt_d z) = z.
Proof. intros. unfold atoi. rewrite strtol_fmt_d by lia. by apply s32_id. Qed.

Lemma digit_nonul s : Forall (fun c => is_digit c = true) s -> nonul s.
Proof.
  intros H. eapply Forall_impl; [exact H|]. intros c Hc ->. done.
Qed.

Lemma fmt_u_nonul z : 0 <= z < 10 ^ 20 -> nonul (fmt_u z).
Proof. intros H. apply digit_nonul. by apply fmt_u_spec. Qed.
End Numbers.

(** A printed number is at most 21 characters, none of them NUL. *)
Lemma dec_digits_text fuel z acc :
  exists d, dec_digits fuel z acc = d ++ acc /\ Forall (fun c => is_digit c = true) d /\
    (length d <= fuel)%nat.
Proof.
  revert z acc. induction fuel as [|f IH]; intros z acc; [by exists []|].
  cbn [dec_digits]. destruct (Z.ltb z 10).
  - exists [48 + z mod 10]. split_and!; [done|repeat constructor; apply is_digit_mod|simpl; lia].
  - destruct (IH (z / 10) (48 + z mod 10 :: acc)) as (d & -> & Hd & Hl).
    exists (d ++ [48 + z mod 10]). split_and!; [by rewrite <-app_assoc| |rewrite length_app; simpl; lia].
    rewrite Forall_app. split; [done|]. repeat constructor. apply is_digit_mod.
Qed.

(** [text n b]: at most [n] characters, none of them NUL. *)
Definition text (n : nat) (b : bytes) : Prop := nonul b /\ (length b <= n)%nat.

Lemma text_app n m a b : text n a -> text m b -> text (n + m) (a ++ b).
Proof. intros [? ?] [? ?]. split; [by apply Forall_app|rewrite length_app; lia]. Qed.

Lemma text_le n m b : (n <= m)%nat -> text n b -> text m b.
Proof. intros ? [? ?]. split; [done|lia]. Qed.

Lemma text_fmt_d z : text 21 (fmt_d z).
Proof.
  assert (Hu : forall y, text 20 (fmt_u y)).
  { intros y. unfold fmt_u. destruct (dec_digits_text 20 y []) as (d & -> & Hd & Hl).
    rewrite app_nil_r. split; [by apply digit_nonul|done]. }
  unfold fmt_d. destruct (Z.ltb z 0); [|apply (text_le 20); [lia|apply Hu]].
  destruct (Hu (- z)) as [Hn Hl]. split; [by apply Forall_cons|simpl; lia].
Qed.

Lemma text_const b : nonul b -> text (length b) b.
Proof. by split. Qed.

#[export] Hint Resolve nonul_cstr fmt_u_nonul : tdm.
