(* ===== verification/EvAddr.v ===== *)
(** * Addresses as text (evutil.c, strlcpy.c)

    The tables of characters, comparison without case, and the functions that
    print, read and compare socket addresses: evutil_inet_ntop,
    evutil_inet_pton, evutil_format_sockaddr_port, evutil_parse_sockaddr_port,
    evutil_sockaddr_cmp and evutil_sockaddr_is_loopback.

    A struct sockaddr is its bytes in memory: the family (little-endian), the
    port (big-endian), then for AF_INET the four bytes of the address and for
    AF_INET6 the flow information, the sixteen bytes and the scope. A string
    argument is its characters without the NUL, and a pointer into it the
    index of a character; reading behind the NUL is a fault. A caller's array
    is its bytes, the array [words] of evutil_inet_pton has no values at first
    and reading a word that was not set is a fault, and the text evutil_inet_ntop
    builds in [buf] is the bytes before [cp]. *)

From stdpp Require Import prelude gmap strings.
From S2P Require Import Prelude CLib.
Open Scope Z_scope.

Module EvAddr.

(** ** Classes of characters *)

Definition EVUTIL_ISALPHA_TABLE : list Z := [0; 0; 0x7fffffe; 0x7fffffe; 0; 0; 0; 0].
Definition EVUTIL_ISALNUM_TABLE : list Z := [0; 0x3ff0000; 0x7fffffe; 0x7fffffe; 0; 0; 0; 0].
Definition EVUTIL_ISSPACE_TABLE : list Z := [0x3e00; 0x1; 0; 0; 0; 0; 0; 0].
Definition EVUTIL_ISXDIGIT_TABLE : list Z := [0; 0x3ff0000; 0x7e; 0x7e; 0; 0; 0; 0].
Definition EVUTIL_ISDIGIT_TABLE : list Z := [0; 0x3ff0000; 0; 0; 0; 0; 0; 0].
Definition EVUTIL_ISPRINT_TABLE : list Z := [0; 0xffffffff; 0xffffffff; 0x7fffffff; 0; 0; 0; 0].
Definition EVUTIL_ISUPPER_TABLE : list Z := [0; 0; 0x7fffffe; 0; 0; 0; 0; 0].
Definition EVUTIL_ISLOWER_TABLE : list Z := [0; 0; 0; 0x7fffffe; 0; 0; 0; 0].

(** The body of IMPL_CTYPE_FN; 1 << 31 sets the sign bit, which the test
    with an unsigned word sees as bit 31. *)
Definition ctype (table : list Z) (c : Z) : bool :=
  let u := u8 c in
  negb (Z.eqb (Z.land (nth (Z.to_nat (Z.land (Z.shiftr u 5) 7)) table 0)
                      (u32 (Z.shiftl 1 (Z.land u 31)))) 0).

Definition EVUTIL_ISALPHA : Z -> bool := ctype EVUTIL_ISALPHA_TABLE.
Definition EVUTIL_ISALNUM : Z -> bool := ctype EVUTIL_ISALNUM_TABLE.
Definition EVUTIL_ISSPACE : Z -> bool := ctype EVUTIL_ISSPACE_TABLE.
Definition EVUTIL_ISDIGIT : Z -> bool := ctype EVUTIL_ISDIGIT_TABLE.
Definition EVUTIL_ISXDIGIT : Z -> bool := ctype EVUTIL_ISXDIGIT_TABLE.
Definition EVUTIL_ISPRINT : Z -> bool := ctype EVUTIL_ISPRINT_TABLE.
Definition EVUTIL_ISLOWER : Z -> bool := ctype EVUTIL_ISLOWER_TABLE.
Definition EVUTIL_ISUPPER : Z -> bool := ctype EVUTIL_ISUPPER_TABLE.

Definition EVUTIL_TOUPPER_TABLE : list Z := [
  0;1;2;3;4;5;6;7;8;9;10;11;12;13;14;15;
  16;17;18;19;20;21;22;23;24;25;26;27;28;29;30;31;
  32;33;34;35;36;37;38;39;40;41;42;43;44;45;46;47;
  48;49;50;51;52;53;54;55;56;57;58;59;60;61;62;63;
  64;65;66;67;68;69;70;71;72;73;74;75;76;77;78;79;
  80;81;82;83;84;85;86;87;88;89;90;91;92;93;94;95;
  96;65;66;67;68;69;70;71;72;73;74;75;76;77;78;79;
  80;81;82;83;84;85;86;87;88;89;90;123;124;125;126;127;
  128;129;130;131;132;133;134;135;136;137;138;139;140;141;142;143;
  144;145;146;147;148;149;150;151;152;153;154;155;156;157;158;159;
  160;161;162;163;164;165;166;167;168;169;170;171;172;173;174;175;
  176;177;178;179;180;181;182;183;184;185;186;187;188;189;190;191;
  192;193;194;195;196;197;198;199;200;201;202;203;204;205;206;207;
  208;209;210;211;212;213;214;215;216;217;218;219;220;221;222;223;
  224;225;226;227;228;229;230;231;232;233;234;235;236;237;238;239;
  240;241;242;243;244;245;246;247;248;249;250;251;252;253;254;255].

Definition EVUTIL_TOLOWER_TABLE : list Z := [
  0;1;2;3;4;5;6;7;8;9;10;11;12;13;14;15;
  16;17;18;19;20;21;22;23;24;25;26;27;28;29;30;31;
  32;33;34;35;36;37;38;39;40;41;42;43;44;45;46;47;
  48;49;50;51;52;53;54;55;56;57;58;59;60;61;62;63;
  64;97;98;99;100;101;102;103;104;105;106;107;108;109;110;111;
  112;113;114;115;116;117;118;119;120;121;122;91;92;93;94;95;
  96;97;98;99;100;101;102;103;104;105;106;107;108;109;110;111;
  112;113;114;115;116;117;118;119;120;121;122;123;124;125;126;127;
  128;129;130;131;132;133;134;135;136;137;138;139;140;141;142;143;
  144;145;146;147;148;149;150;151;152;153;154;155;156;157;158;159;
  160;161;162;163;164;165;166;167;168;169;170;171;172;173;174;175;
  176;177;178;179;180;181;182;183;184;185;186;187;188;189;190;191;
  192;193;194;195;196;197;198;199;200;201;202;203;204;205;206;207;
  208;209;210;211;212;213;214;215;216;217;218;219;220;221;222;223;
  224;225;226;227;228;229;230;231;232;233;234;235;236;237;238;239;
  240;241;242;243;244;245;246;247;248;249;250;251;252;253;254;255].

(** A char is signed: the results are -128 .. 127. *)
Definition EVUTIL_TOLOWER (c : Z) : Z := s8 (nth (Z.to_nat (u8 c)) EVUTIL_TOLOWER_TABLE 0).
Definition EVUTIL_TOUPPER (c : Z) : Z := s8 (nth (Z.to_nat (u8 c)) EVUTIL_TOUPPER_TABLE 0).

(** The strings are given with their NUL. *)
Fixpoint evutil_ascii_strcasecmp (s1 s2 : bytes) : res Z :=
  match s1, s2 with
  | x :: s1', y :: s2' =>
      let c1 := EVUTIL_TOLOWER x in
      let c2 := EVUTIL_TOLOWER y in
      if Z.ltb c1 c2 then Ok (-1)
      else if Z.ltb c2 c1 then Ok 1
      else if Z.eqb c1 0 then Ok 0
      else evutil_ascii_strcasecmp s1' s2'
  | _, _ => Fault Overread
  end.

Fixpoint evutil_ascii_strncasecmp (s1 s2 : bytes) (n : nat) : res Z :=
  match n with
  | O => Ok 0
  | S n' =>
      match s1, s2 with
      | x :: s1', y :: s2' =>
          let c1 := EVUTIL_TOLOWER x in
          let c2 := EVUTIL_TOLOWER y in
          if Z.ltb c1 c2 then Ok (-1)
          else if Z.ltb c2 c1 then Ok 1
          else if Z.eqb c1 0 then Ok 0
          else evutil_ascii_strncasecmp s1' s2' n'
      | _, _ => Fault Overread
      end
  end.

(** The cases of the switch: '0'..'9', 'A'..'F' and 'a'..'f'. *)
Definition evutil_hex_char_to_int (c : Z) : Z :=
  if Z.leb 48 c && Z.leb c 57 then c - 48
  else if Z.leb 65 c && Z.leb c 70 then c - 55
  else if Z.leb 97 c && Z.leb c 102 then c - 87
  else -1.

(** ** The parts of the C library that are used *)

(** %x *)
Definition hex_char (d : Z) : Z := if Z.ltb d 10 then 48 + d else 87 + d.

Fixpoint hex_digits (fuel : nat) (z : Z) (acc : bytes) : bytes :=
  match fuel with
  | O => acc
  | S f =>
      let acc' := hex_char (z mod 16) :: acc in
      if Z.ltb z 16 then acc' else hex_digits f (z / 16) acc'
  end.

(** Eight digits hold every unsigned int. *)
Definition fmt_x (z : Z) : bytes := hex_digits 8 z [].

(** vsnprintf into the [len] bytes of [dst] from [off] on, then the NUL that
    evutil_vsnprintf stores itself. [t]: the formatted text. *)
Definition evutil_snprintf (dst : bytes) (off len : nat) (t : bytes) : res (Z * bytes) :=
  match len with
  | O => Ok (0, dst)
  | S n =>
      let? dst := mwrite dst off (take n t ++ [0]) in
      let? dst := mwrite dst (off + n) [0] in
      Ok (Z.of_nat (length t), dst)
  end.

(** strlcpy of the string [src] into the [siz] bytes of [dst]. *)
Definition strlcpy (dst src : bytes) (siz : nat) : res (nat * bytes) :=
  match siz with
  | O => Ok (length src, dst)
  | S n => let? dst := mwrite dst 0 (take n src ++ [0]) in Ok (length src, dst)
  end.

(** The conversion %d of sscanf: the value and what follows it. A number that
    does not fit is clamped to a long and then cut to an int, as glibc does. *)
Definition scan_d (s : bytes) : option (Z * bytes) :=
  let s1 := snd (span is_space s) in
  let '(neg, s2) := match s1 with
                    | c :: r => if Z.eqb c 45 then (true, r) else if Z.eqb c 43 then (false, r) else (false, s1)
                    | [] => (false, s1)
                    end in
  match span is_digit s2 with
  | ([], _) => None
  | (d, r) => Some (s32 (clamp64 (if neg then - digits_val 0 d else digits_val 0 d)), r)
  end.

(** sscanf(s, dotted, ...) with the format of [n] numbers "%d" separated by
    dots and then "%c": the converted values in order. *)
Fixpoint scan_dotted (n : nat) (s : bytes) : list Z :=
  match n with
  | O => match s with c :: _ => [c] | [] => [] end
  | S n' =>
      match scan_d s with
      | None => []
      | Some (v, r) =>
          v :: match n' with
               | O => scan_dotted n' r
               | _ => match r with
                      | c :: r' => if Z.eqb c 46 then scan_dotted n' r' else []
                      | [] => []
                      end
               end
      end
  end.

(** The value of a digit in base 16. *)
Definition xdigit (c : Z) : option Z :=
  let v := evutil_hex_char_to_int c in if Z.ltb v 0 then None else Some v.

Fixpoint xdigits (acc : Z) (s : bytes) : Z * nat :=
  match s with
  | c :: s' =>
      match xdigit c with
      | Some v => prod_map id S (xdigits (16 * acc + v) s')
      | None => (acc, 0%nat)
      end
  | [] => (acc, 0%nat)
  end.

(** strtol(s, &next, 16) where s begins with a digit: the value and
    next - s. A prefix 0x is skipped when a digit follows it. *)
Definition strtol16 (s : bytes) : Z * nat :=
  let plain := prod_map clamp64 id (xdigits 0 s) in
  match s with
  | z :: x :: c :: _ =>
      if Z.eqb z 48 && (Z.eqb x 120 || Z.eqb x 88) && bool_decide (is_Some (xdigit c))
      then prod_map clamp64 (Nat.add 2) (xdigits 0 (drop 2 s))
      else plain
  | _ => plain
  end.

(** ** Printing an address *)

Definition AF_INET : Z := 2.
Definition AF_INET6 : Z := 10.

(** ntohl and htonl: the four bytes in the other order. *)
Definition ntohl (z : Z) : Z := le_dec (reverse (le_enc 4 z)).
Definition htonl : Z -> Z := ntohl.
Definition ntohs (z : Z) : Z := le_dec (reverse (le_enc 2 z)).
Definition htons : Z -> Z := ntohs.

(** The text of "%d.%d.%d.%d" *)
Definition fmt_quad (a b c d : Z) : bytes :=
  fmt_d a ++ [46] ++ fmt_d b ++ [46] ++ fmt_d c ++ [46] ++ fmt_d d.

Definition ntop_inet (s_addr : Z) (dst : bytes) (len : nat) : res (bool * bytes) :=
  let a := ntohl s_addr in
  let? (r, dst) := evutil_snprintf dst 0 len
    (fmt_quad (u8 (Z.land (Z.shiftr a 24) 255)) (u8 (Z.land (Z.shiftr a 16) 255))
              (u8 (Z.land (Z.shiftr a 8) 255)) (u8 (Z.land a 255))) in
  if Z.ltb r 0 || Z.leb (Z.of_nat len) r then Ok (false, dst) else Ok (true, dst).

(** The loop that fills words[8] from s6_addr. *)
Fixpoint words_of (s6 : bytes) : list Z :=
  match s6 with
  | hi :: lo :: r => u16 (Z.shiftl hi 8 + lo) :: words_of r
  | _ => []
  end.

(** words[i]; the array has eight elements. *)
Definition word (ws : list Z) (i : nat) : res Z :=
  match ws !! i with Some w => Ok w | None => Fault Overread end.

(** while (i<8 && words[i] == 0) ++i: how often *)
Fixpoint zero_run (ws : list Z) : nat :=
  match ws with
  | w :: ws' => if Z.eqb w 0 then S (zero_run ws') else 0%nat
  | [] => 0%nat
  end.

(** The loop that looks for the longest run of zeros. *)
Fixpoint longest_gap (fuel : nat) (ws : list Z) (i : nat) (pos : Z) (len : nat) : res (Z * nat) :=
  match fuel with
  | O => Fault NoFuel
  | S f =>
      if Nat.ltb i 8 then
        let? w := word ws i in
        if Z.eqb w 0 then
          let curGapLen := S (zero_run (drop (S i) ws)) in
          let '(pos, len) := if Nat.ltb len curGapLen then (Z.of_nat i, curGapLen) else (pos, len) in
          longest_gap f ws (i + curGapLen) pos len
        else longest_gap f ws (S i) pos len
      else Ok (pos, len)
  end.

(** sizeof(buf) *)
Definition BUF_SIZE : nat := 64.

(** *cp++ = c *)
Definition put_char (out : bytes) (c : Z) : res bytes :=
  if Nat.ltb (length out) BUF_SIZE then Ok (out ++ [c]) else Fault Overrun.

(** evutil_snprintf(cp, sizeof(buf)-(cp-buf), ...); cp += strlen(cp) *)
Definition put_text (out t : bytes) : res bytes :=
  if Nat.ltb (length out) BUF_SIZE
  then Ok (out ++ take (BUF_SIZE - length out - 1) t) else Fault Overread.

(** The loop that prints the words. *)
Fixpoint print_words (fuel : nat) (ws : list Z) (gap : Z) (i : nat) (out : bytes) : res bytes :=
  match fuel with
  | O => Fault NoFuel
  | S f =>
      if Nat.ltb i 8 then
        let? w := word ws i in
        if Z.eqb w 0 && Z.eqb gap (Z.of_nat i) then
          let? out := if Nat.eqb i 0 then put_char out 58 else Ok out in
          let? out := put_char out 58 in
          print_words f ws gap (i + zero_run (drop i ws)) out
        else
          let? out := put_text out (fmt_x w) in
          let? out := if negb (Nat.eqb i 7) then put_char out 58 else Ok out in
          print_words f ws gap (S i) out
      else Ok out
  end.

(** The end of both branches: the text goes to [dst]. *)
Definition copy_out (buf dst : bytes) (len : nat) : res (bool * bytes) :=
  if Nat.ltb len (length buf) then Ok (false, dst)
  else let? (_, dst) := strlcpy dst buf len in Ok (true, dst).

(** Is this an IPv4 address? *)
Definition is_v4 (ws : list Z) : bool :=
  match ws with
  | [w0; w1; w2; w3; w4; w5; w6; w7] =>
      Z.eqb w0 0 && Z.eqb w1 0 && Z.eqb w2 0 && Z.eqb w3 0 && Z.eqb w4 0 &&
      ((Z.eqb w5 0 && negb (Z.eqb w6 0) && negb (Z.eqb w7 0)) || Z.eqb w5 0xffff)
  | _ => false
  end.

(** The text put into buf. *)
Definition text6 (s6 : bytes) : res bytes :=
  let ws := words_of s6 in
  if is_v4 ws then
    let? q := mread s6 12 4 in
    let? w5 := word ws 5 in
    let quad := match q with [a; b; c; d] => fmt_quad a b c d | _ => [] end in
    if Z.eqb w5 0 then put_text [] ([58; 58] ++ quad)
    else put_text [] ([58; 58] ++ fmt_x w5 ++ [58] ++ quad)
  else
    let? (pos, len) := longest_gap 9 ws 0 (-1) 0 in
    let gap := if Nat.leb len 1 then -1 else pos in
    let? out := print_words 9 ws gap 0 [] in
    let? _ := put_char out 0 in
    Ok out.

Definition ntop_inet6 (s6 : bytes) (dst : bytes) (len : nat) : res (bool * bytes) :=
  let? buf := text6 s6 in
  copy_out buf dst len.

(** [src]: the bytes of the struct in_addr or in6_addr; the result is false
    for NULL, and [dst] afterwards. *)
Definition evutil_inet_ntop (af : Z) (src : bytes) (dst : bytes) (len : nat) : res (bool * bytes) :=
  if Z.eqb af AF_INET then
    let? a := mread src 0 4 in ntop_inet (le_dec a) dst len
  else if Z.eqb af AF_INET6 then
    let? a := mread src 0 16 in ntop_inet6 a dst len
  else Ok (false, dst).

(** ** Reading an address *)

(** *p for a pointer into a string *)
Definition char_at (s : bytes) (i : nat) : res Z :=
  if decide (i = length s) then Ok 0
  else match s !! i with Some c => Ok c | None => Fault Overread end.

Definition in_byte (b : Z) : bool := Z.leb 0 b && Z.leb b 255.

(** The value stored in s_addr; a << 24 is cut to an int. *)
Definition pton_inet (src dst : bytes) : res (Z * bytes) :=
  match scan_dotted 4 src with
  | [a; b; c; d] =>
      if in_byte a && in_byte b && in_byte c && in_byte d then
        let v := Z.lor (Z.lor (Z.lor (s32 (Z.shiftl a 24)) (Z.shiftl b 16)) (Z.shiftl c 8)) d in
        let? dst := mwrite dst 0 (le_enc 4 (htonl (u32 v))) in
        Ok (1, dst)
      else Ok (0, dst)
  | _ => Ok (0, dst)
  end.

(** for (eow = dot-1; eow >= src && EVUTIL_ISDIGIT( *eow); --eow) ; ++eow *)
Fixpoint digits_back (s : bytes) (i : nat) : nat :=
  match i with
  | O => 0%nat
  | S j => if EVUTIL_ISDIGIT (nth j s 0) then digits_back s j else i
  end.

(** Elements [off] .. [off+n-1] of the array words: read, and stored into. *)
Definition wread (ws : list (option Z)) (off n : nat) : res (list (option Z)) :=
  if decide (off + n <= length ws)%nat then Ok (take n (drop off ws)) else Fault Overread.

Definition wwrite (ws : list (option Z)) (off : nat) (vs : list (option Z)) : res (list (option Z)) :=
  if decide (off + length vs <= length ws)%nat
  then Ok (take off ws ++ vs ++ drop (off + length vs) ws) else Fault Overrun.

(** The variables of the loop. *)
Record pton_st := { sc_src : nat; sc_i : nat; sc_set : nat; sc_gap : option nat; sc_words : list (option Z) }.

(** The loop over the words: [None] where the function returns 0. *)
Fixpoint scan_words (fuel : nat) (s : bytes) (eow : nat) (st : pton_st) : res (option pton_st) :=
  match fuel with
  | O => Fault NoFuel
  | S f =>
      let '(Build_pton_st src i n gap ws) := st in
      if negb (Nat.ltb src eow) then Ok (Some st) else
      if Nat.ltb 7 i then Ok None else
      let? c := char_at s src in
      if EVUTIL_ISXDIGIT c then
        let '(r, k) := strtol16 (drop src s) in
        if Nat.ltb 4 k then Ok None else
        if Nat.eqb k 0 then Ok None else
        if Z.ltb r 0 || Z.ltb 65536 r then Ok None else
        let? ws := wwrite ws i [Some (u16 r)] in
        let src := (src + k)%nat in
        let? c := char_at s src in
        if negb (Z.eqb c 58) && negb (Nat.eqb src eow) then Ok None else
        scan_words f s eow (Build_pton_st (S src) (S i) (S n) gap ws)
      else if Z.eqb c 58 && Nat.ltb 0 i && bool_decide (gap = None) then
        scan_words f s eow (Build_pton_st (S src) i n (Some i) ws)
      else
        let? d := if Z.eqb c 58 && Nat.eqb i 0 then char_at s (S src) else Ok 0 in
        if Z.eqb c 58 && Nat.eqb i 0 && Z.eqb d 58 && bool_decide (gap = None) then
          scan_words f s eow (Build_pton_st (src + 2) i n (Some i) ws)
        else Ok None
  end.

(** The memmove and memset that open the gap. *)
Definition open_gap (ws : list (option Z)) (gap n tail : nat) : res (option (list (option Z))) :=
  let nToMove := Z.of_nat n - Z.of_nat tail - Z.of_nat gap in
  let gapLen := (8 - n)%nat in
  if Z.ltb nToMove 0 then Ok None
  else
    let? moved := wread ws gap (Z.to_nat nToMove) in
    let? ws := wwrite ws (gap + gapLen) moved in
    let? ws := wwrite ws gap (replicate gapLen (Some 0)) in
    Ok (Some ws).

(** The loop that stores the words into s6_addr. *)
Fixpoint word_bytes (ws : list (option Z)) : res bytes :=
  match ws with
  | [] => Ok []
  | None :: _ => Fault Uninit
  | Some w :: ws' => let? r := word_bytes ws' in Ok (u8 (Z.shiftr w 8) :: u8 (Z.land w 255) :: r)
  end.

(** The IPv4 address at the end of the words, into words[6] and words[7]:
    [None] where the function returns 0. *)
Definition pton_tail (s : bytes) (eow : nat) (ws : list (option Z)) : res (option (list (option Z))) :=
  match scan_dotted 4 (drop eow s) with
  | [b1; b2; b3; b4] =>
      if in_byte b1 && in_byte b2 && in_byte b3 && in_byte b4 then
        let? ws := wwrite ws 6 [Some (u16 (Z.lor (Z.shiftl b1 8) b2))] in
        let? ws := wwrite ws 7 [Some (u16 (Z.lor (Z.shiftl b3 8) b4))] in
        Ok (Some ws)
      else Ok None
  | _ => Ok None
  end.

(** From the loop over the words to the end; [tail]: 2 after a dot. *)
Definition pton_words (s dst : bytes) (eow tail : nat) (ws : list (option Z)) : res (Z * bytes) :=
  let? st := scan_words (S eow) s eow (Build_pton_st 0 0 tail None ws) in
  match st with
  | None => Ok (0, dst)
  | Some (Build_pton_st _ _ n gap ws) =>
      if Nat.ltb 8 n || (Nat.eqb n 8 && bool_decide (is_Some gap))
         || (Nat.ltb n 8 && bool_decide (gap = None)) then Ok (0, dst)
      else
        let? ws := match gap with Some g => open_gap ws g n tail | None => Ok (Some ws) end in
        match ws with
        | None => Ok (-1, dst)
        | Some ws =>
            let? b := word_bytes ws in
            let? dst := mwrite dst 0 b in
            Ok (1, dst)
        end
  end.

Definition pton_inet6 (s dst : bytes) : res (Z * bytes) :=
  let ws := replicate 8 None in
  match memchr 46 s with
  | Some O => Ok (0, dst)
  | None => pton_words s dst (length s) 0 ws
  | Some dot =>
      let eow := digits_back s dot in
      let? ws := pton_tail s eow ws in
      match ws with
      | None => Ok (0, dst)
      | Some ws => pton_words s dst eow 2 ws
      end
  end.

(** The result is the int returned, and [dst] afterwards. *)
Definition evutil_inet_pton (af : Z) (src dst : bytes) : res (Z * bytes) :=
  if Z.eqb af AF_INET then pton_inet src dst
  else if Z.eqb af AF_INET6 then pton_inet6 src dst
  else Ok (-1, dst).

(** ** Addresses with a port *)

Definition sizeof_sin : nat := 16.
Definition sizeof_sin6 : nat := 28.

Definition sa_family (sa : bytes) : res Z := let? b := mread sa 0 2 in Ok (le_dec b).
Definition sa_port (sa : bytes) : res Z := let? b := mread sa 2 2 in Ok (le_dec b).

(** A struct sockaddr_in or sockaddr_in6 that was cleared, with its family,
    port and address set. *)
Definition sin (port : Z) (addr : bytes) : bytes :=
  le_enc 2 AF_INET ++ le_enc 2 port ++ addr ++ zeros 8.
Definition sin6 (port : Z) (addr : bytes) : bytes :=
  le_enc 2 AF_INET6 ++ le_enc 2 port ++ zeros 4 ++ addr ++ zeros 4.

(** evutil_inet_pton, then the struct is copied to the caller: the int
    returned, [out] and *outlen afterwards. *)
Definition store_addr (af : Z) (size : nat) (mk : bytes -> bytes) (blank addr_part : bytes)
    (out : bytes) (outlen : Z) : res (Z * bytes * Z) :=
  let? (r, a) := evutil_inet_pton af addr_part blank in
  if negb (Z.eqb r 1) then Ok (-1, out, outlen)
  else if Z.ltb outlen (Z.of_nat size) then Ok (-1, out, outlen)
  else
    let? out := mwrite out 0 (zeros (Z.to_nat outlen)) in
    let? out := mwrite out 0 (mk a) in
    Ok (0, out, Z.of_nat size).

(** sizeof(buf) - 1 in evutil_parse_sockaddr_port *)
Definition PART_MAX : Z := 127.

(** The address and the port in the text: [None] where the function returns
    -1, else addr_part, port_part and is_ipv6. *)
Definition split_port (s : bytes) : option (bytes * option bytes * bool) :=
  let cp := memchr 58 s in
  if match s with c :: _ => Z.eqb c 91 | [] => false end then
    match memchr 93 s with
    | None => None
    | Some cp =>
        if Z.ltb PART_MAX (Z.of_nat cp - 1) then None
        else Some (take (cp - 1) (drop 1 s),
                   match s !! S cp with
                   | Some c => if Z.eqb c 58 then Some (drop (cp + 2) s) else None
                   | None => None
                   end, true)
    end
  else match cp with
       | Some cp =>
           match memchr 58 (drop (S cp) s) with
           | Some _ => Some (s, None, true)
           | None =>
               if Z.ltb PART_MAX (Z.of_nat cp) then None
               else Some (take cp s, Some (drop (S cp) s), false)
           end
       | None => Some (s, None, false)
       end.

Definition evutil_parse_sockaddr_port (s out : bytes) (outlen : Z) : res (Z * bytes * Z) :=
  match split_port s with
  | None => Ok (-1, out, outlen)
  | Some (addr_part, port_part, is_ipv6) =>
      let port := match port_part with None => 0 | Some p => atoi p end in
      if bool_decide (is_Some port_part) && (Z.leb port 0 || Z.ltb 65535 port) then Ok (-1, out, outlen)
      else if is_ipv6
      then store_addr AF_INET6 sizeof_sin6 (sin6 (htons port)) (zeros 16) addr_part out outlen
      else store_addr AF_INET sizeof_sin (sin (htons port)) (zeros 4) addr_part out outlen
  end.

(** [out] afterwards; the array b of 128 bytes has no values at first, which
    [zeros 128] stands for: it is read only after evutil_inet_ntop filled it. *)
Definition evutil_format_sockaddr_port (sa out : bytes) (outlen : nat) : res bytes :=
  let? family := sa_family sa in
  let other := let? (_, out) := evutil_snprintf out 0 outlen
                 (str "<addr with socktype " ++ fmt_d family ++ str ">") in Ok out in
  if Z.eqb family AF_INET then
    let? addr := mread sa 4 4 in
    let? (res, b) := evutil_inet_ntop AF_INET addr (zeros 128) 128 in
    let? port := sa_port sa in
    if res : bool then
      let? b := cstring b in
      let? (_, out) := evutil_snprintf out 0 outlen (b ++ [58] ++ fmt_d (ntohs port)) in
      Ok out
    else other
  else if Z.eqb family AF_INET6 then
    let? addr := mread sa 8 16 in
    let? (res, b) := evutil_inet_ntop AF_INET6 addr (zeros 128) 128 in
    let? port := sa_port sa in
    if res : bool then
      let? b := cstring b in
      let? (_, out) := evutil_snprintf out 0 outlen ([91] ++ b ++ [93; 58] ++ fmt_d (ntohs port)) in
      Ok out
    else other
  else other.

Definition evutil_sockaddr_cmp (sa1 sa2 : bytes) (include_port : bool) : res Z :=
  let? f1 := sa_family sa1 in
  let? f2 := sa_family sa2 in
  let ports :=
    if include_port then
      let? p1 := sa_port sa1 in
      let? p2 := sa_port sa2 in
      Ok (p1 - p2)
    else Ok 0 in
  if negb (Z.eqb (f1 - f2) 0) then Ok (f1 - f2)
  else if Z.eqb f1 AF_INET then
    let? a1 := mread sa1 4 4 in
    let? a2 := mread sa2 4 4 in
    if Z.ltb (le_dec a1) (le_dec a2) then Ok (-1)
    else if Z.ltb (le_dec a2) (le_dec a1) then Ok 1
    else ports
  else if Z.eqb f1 AF_INET6 then
    let? a1 := mread sa1 8 16 in
    let? a2 := mread sa2 8 16 in
    let r := memcmp a1 a2 in
    if negb (Z.eqb r 0) then Ok r else ports
  else Ok 1.

Definition LOOPBACK_S6 : bytes := zeros 15 ++ [1].

Definition evutil_sockaddr_is_loopback (sa : bytes) : res bool :=
  let? f := sa_family sa in
  if Z.eqb f AF_INET then
    let? a := mread sa 4 4 in
    Ok (Z.eqb (Z.land (ntohl (le_dec a)) 0xff000000) 0x7f000000)
  else if Z.eqb f AF_INET6 then
    let? a := mread sa 8 16 in
    Ok (Z.eqb (memcmp a LOOPBACK_S6) 0)
  else Ok false.

(** ** On concrete addresses *)

Definition shown (af : Z) (a : bytes) : res bytes :=
  let? (_, dst) := evutil_inet_ntop af a (zeros 64) 64 in cstring dst.

Example shown_v4 : shown AF_INET [192; 168; 0; 255] = Ok (str "192.168.0.255").
Proof. vm_compute. reflexivity. Qed.

Example shown_v6 : shown AF_INET6 [0x20;1;0xd;0xb8;0;0;0;0;0;1;0;0;0;0;0;1] = Ok (str "2001:db8::1:0:0:1").
Proof. vm_compute. reflexivity. Qed.

Example read_v6 : evutil_inet_pton AF_INET6 (str "2001:db8::1:0:0:1") (zeros 16)
  = Ok (1, [0x20;1;0xd;0xb8;0;0;0;0;0;1;0;0;0;0;0;1]).
Proof. vm_compute. reflexivity. Qed.

Example read_mapped : evutil_inet_pton AF_INET6 (str "::ffff:10.1.2.3") (zeros 16)
  = Ok (1, [0;0;0;0;0;0;0;0;0;0;255;255;10;1;2;3]).
Proof. vm_compute. reflexivity. Qed.

Example read_too_many : evutil_inet_pton AF_INET6 (str "1:2:3:4:5:6:7:8:9") (zeros 16) = Ok (0, zeros 16).
Proof. vm_compute. reflexivity. Qed.

Example parsed_port : evutil_parse_sockaddr_port (str "[::1]:8080") (zeros 28) 28
  = Ok (0, sin6 (htons 8080) LOOPBACK_S6, 28).
Proof. vm_compute. reflexivity. Qed.

Example names_compared : evutil_ascii_strcasecmp (str "Content" ++ [0]) (str "cONTENT" ++ [0]) = Ok 0.
Proof. vm_compute. reflexivity. Qed.

(** The trailing colon of an address of eight words is not refused. *)
Example trailing_colon_accepted :
  evutil_inet_pton AF_INET6 (str "1:2:3:4:5:6:7:8:") (zeros 16)
  = Ok (1, [0;1;0;2;0;3;0;4;0;5;0;6;0;7;0;8]).
Proof. vm_compute. reflexivity. Qed.

(** A word may be written with the prefix 0x. *)
Example hex_prefix_accepted :
  evutil_inet_pton AF_INET6 (str "0xab::") (zeros 16) = Ok (1, 0 :: 0xab :: zeros 14).
Proof. vm_compute. reflexivity. Qed.

(** What follows the closing bracket is ignored unless it is a colon. *)
Example text_after_bracket_ignored :
  evutil_parse_sockaddr_port (str "[::1]junk") (zeros 28) 28 = Ok (0, sin6 0 LOOPBACK_S6, 28).
Proof. vm_compute. reflexivity. Qed.

(** An address of three characters fits an array of three bytes, without its
    last character. *)
Example ntop_cuts_text :
  evutil_inet_ntop AF_INET6 LOOPBACK_S6 (zeros 3) 3 = Ok (true, str "::" ++ [0]).
Proof. vm_compute. reflexivity. Qed.

End EvAddr.
