(* ===== verification/HexText.v ===== *)
(** * src/pravitelib.c: hex text, trimming, the configuration file

    [str2Hex] and [Hex2String] convert between IMSI bytes and their hex text,
    [AllTrim] trims a line in place, [ReadString] looks a value up in the
    block/section/item configuration file. Buffers are byte lists; every
    read and write goes through the bounds-checked [mread]/[mwrite]. *)

From stdpp Require Import prelude gmap strings.
From S2P Require Import Prelude CLib.
Open Scope Z_scope.

Module Hex.

Definition List_Capital : bytes := str "0123456789ABCDEF".
Definition List_Small : bytes := str "0123456789abcdef".

(** The search loop over the sixteen digits: the index of [c], 16 if none. *)
Fixpoint nibble_from (cap small : bytes) (j c : Z) : Z :=
  match cap, small with
  | a :: cap', b :: small' =>
      if Z.eqb c a || Z.eqb c b then j else nibble_from cap' small' (j + 1) c
  | _, _ => j
  end.

Definition nibble (c : Z) : Z := nibble_from List_Capital List_Small 0 c.

(** One round per two characters; [i] indexes the source, [k] the result. *)
Fixpoint str2Hex_loop (fuel : nat) (src dst : bytes) (i k : nat) (src_len : Z)
  : res (Z * bytes) :=
  match fuel with
  | O => Fault NoFuel
  | S f =>
      let? buf := mread src i 2 in
      let? dst := mwrite dst k [0] in
      let j := nibble (nth 0 buf 0) in
      if Z.eqb j 16 then Ok (0, dst) else
      let? dst := mwrite dst k [u8 (Z.shiftl j 4)] in
      let j2 := nibble (nth 1 buf 0) in
      if Z.eqb j2 16 then Ok (0, dst) else
      let? dst := mwrite dst k [u8 (u8 (Z.shiftl j 4) + j2)] in
      if Z.ltb (Z.of_nat (i + 2)) src_len
      then str2Hex_loop f src dst (i + 2) (k + 1) src_len
      else Ok (1, dst)
  end.

Definition str2Hex (src dst : bytes) (src_len : Z) : res (Z * bytes) :=
  str2Hex_loop (S (Z.to_nat src_len)) src dst 0 0 src_len.

Definition hex_digit (t : Z) : Z := nth (Z.to_nat t) List_Capital 0.

Fixpoint Hex2String_loop (n : nat) (src dst : bytes) (i : nat) : res bytes :=
  match n with
  | O => mwrite dst (2 * i) [0]
  | S n' =>
      let? c := mread src i 1 in
      let temp := Z.land (Z.shiftr (nth 0 c 0) 4) 15 in
      let? dst := mwrite dst (2 * i) [hex_digit temp] in
      let temp := Z.land (nth 0 c 0) 15 in
      let? dst := mwrite dst (2 * i + 1) [hex_digit temp] in
      Hex2String_loop n' src dst (i + 1)
  end.

Definition Hex2String (src dst : bytes) (src_len : Z) : res (Z * bytes) :=
  let? dst := Hex2String_loop (Z.to_nat src_len) src dst 0 in
  Ok (2 * Z.of_nat (Z.to_nat src_len), dst).

(** *** Reference functions *)

Definition hex_byte (x : Z) : bytes := [hex_digit (x / 16); hex_digit (x mod 16)].
Definition hex_text (b : bytes) : bytes := b ≫= hex_byte.

Fixpoint unhex (s : bytes) : option bytes :=
  match s with
  | [] => Some []
  | a :: s1 =>
      match s1 with
      | [] => None
      | b :: s2 =>
          if Z.eqb (nibble a) 16 || Z.eqb (nibble b) 16 then None
          else cons (nibble a * 16 + nibble b) <$> unhex s2
      end
  end.

(** *** Lemmas *)

Lemma nibble_range c : 0 <= nibble c <= 16.
Proof.
  unfold nibble. simpl. by_cases; lia.
Qed.

Lemma sixteen (P : Z -> Prop) :
  P 0 -> P 1 -> P 2 -> P 3 -> P 4 -> P 5 -> P 6 -> P 7 -> P 8 -> P 9 ->
  P 10 -> P 11 -> P 12 -> P 13 -> P 14 -> P 15 -> forall z, 0 <= z < 16 -> P z.
Proof.
  intros. assert (z = 0 \/ z = 1 \/ z = 2 \/ z = 3 \/ z = 4 \/ z = 5 \/ z = 6 \/ z = 7 \/
    z = 8 \/ z = 9 \/ z = 10 \/ z = 11 \/ z = 12 \/ z = 13 \/ z = 14 \/ z = 15) as Hz by lia.
  by destruct_or! Hz; subst.
Qed.

Lemma nibble_hex_digit z : 0 <= z < 16 -> nibble (hex_digit z) = z.
Proof. revert z. apply sixteen; reflexivity. Qed.

Lemma hex_digit_nonul z : 0 <= z < 16 -> hex_digit z <> 0.
Proof. revert z. apply sixteen; discriminate. Qed.

Lemma length_hex_text b : length (hex_text b) = (2 * length b)%nat.
Proof. induction b as [|x b IH]; [done|]. simpl. rewrite IH. lia. Qed.

Lemma hex_text_nonul b : bytes_ok b -> nonul (hex_text b).
Proof.
  induction 1 as [|x b [H1 H2] _ IH]; [constructor|].
  change (hex_text (x :: b)) with (hex_digit (x / 16) :: hex_digit (x mod 16) :: hex_text b).
  pose proof (Z.mod_pos_bound x 16).
  constructor; [|constructor; [|done]]; apply hex_digit_nonul; [|lia].
  split; [apply Z.div_pos; lia|apply Z.div_lt_upper_bound; lia].
Qed.

Lemma unhex_hex_text b : bytes_ok b -> unhex (hex_text b) = Some b.
Proof.
  induction 1 as [|x b [H1 H2] _ IH]; [done|].
  assert (0 <= x / 16 < 16).
  { split; [apply Z.div_pos; lia|apply Z.div_lt_upper_bound; lia]. }
  pose proof (Z.mod_pos_bound x 16).
  change (unhex (hex_text (x :: b))) with
    (if Z.eqb (nibble (hex_digit (x / 16))) 16 || Z.eqb (nibble (hex_digit (x mod 16))) 16
     then None
     else cons (nibble (hex_digit (x / 16)) * 16 + nibble (hex_digit (x mod 16)))
            <$> unhex (hex_text b)).
  rewrite !nibble_hex_digit by lia.
  rewrite (proj2 (Z.eqb_neq (x / 16) 16)), (proj2 (Z.eqb_neq (x mod 16) 16)) by lia.
  rewrite IH. simpl. do 2 f_equal. pose proof (Z.div_mod x 16). lia.
Qed.

Lemma unhex_length s b : unhex s = Some b -> length s = (2 * length b)%nat.
Proof.
  revert b. induction s as [|a|a c s IH] using list_pair_ind; intros b; simpl.
  - by intros [= <-].
  - done.
  - destruct (_ || _); [done|]. destruct (unhex s) as [b'|] eqn:E; [|done].
    simpl. intros [= <-]. simpl. rewrite (IH b'); [lia|done].
Qed.

(** The pair of characters a round reads. *)
Lemma mread_pair (src : bytes) i a c s :
  drop i src = a :: c :: s -> mread src i 2 = Ok [a; c] /\ drop (i + 2) src = s.
Proof.
  intros E. split.
  - rewrite mread_ok; [by rewrite E|].
    apply (f_equal length) in E. rewrite length_drop in E. simpl in E. lia.
  - rewrite <-drop_drop, E. done.
Qed.

Lemma nibble_byte a c :
  nibble a <> 16 -> nibble c <> 16 ->
  u8 (u8 (Z.shiftl (nibble a) 4) + nibble c) = nibble a * 16 + nibble c.
Proof.
  intros Ha Hc. pose proof (nibble_range a). pose proof (nibble_range c).
  rewrite Z.shiftl_mul_pow2 by lia. change (2 ^ 4) with 16.
  rewrite (u8_id (nibble a * 16)) by (unfold is_byte; lia).
  apply u8_id. unfold is_byte. lia.
Qed.

(** The loop decodes the remaining characters [s], or stops at the first
    pair that is not hex, having touched only its part of the result. *)
Lemma str2Hex_loop_ok (s : bytes) : forall fuel src dst i k rest,
  drop i src = s ++ rest -> s <> [] -> (length s < 2 * fuel)%nat ->
  (exists m, length s = (2 * m)%nat) -> (2 * k + length s <= 2 * length dst)%nat ->
  match unhex s with
  | Some b => str2Hex_loop fuel src dst i k (Z.of_nat (i + length s)) = Ok (1, patch dst k b)
  | None => exists dst',
      str2Hex_loop fuel src dst i k (Z.of_nat (i + length s)) = Ok (0, dst') /\
      length dst' = length dst /\
      forall j, (j < k \/ 2 * k + length s <= 2 * j)%nat -> dst' !! j = dst !! j
  end.
Proof.
  induction s as [|a|a c s IH] using list_pair_ind;
    intros fuel src dst i k rest Hsrc Hne Hfuel [m Hm] Hdst; simpl in *; [done|lia|].
  destruct fuel as [|fuel]; [lia|].
  apply mread_pair in Hsrc as [Hrd Hdrop].
  cbn [str2Hex_loop]. rewrite Hrd. cbn [res_bind nth].
  rewrite mwrite_1 by lia. cbn [res_bind].
  destruct (Z.eqb_spec (nibble a) 16) as [Ea|Na]; simpl.
  { exists (<[k:=0]> dst). split_and!; [done|by rewrite length_insert|].
    intros j Hj. apply list_lookup_insert_ne. lia. }
  rewrite mwrite_1 by (rewrite length_insert; lia). simpl.
  destruct (Z.eqb_spec (nibble c) 16) as [Ec|Nc]; simpl.
  { eexists. split_and!; [done|by rewrite !length_insert|].
    intros j Hj. rewrite !list_lookup_insert_ne by lia. done. }
  rewrite mwrite_1 by (rewrite !length_insert; lia). simpl.
  rewrite !list_insert_insert_eq, nibble_byte by done.
  destruct s as [|c2 s].
  - simpl. rewrite (proj2 (Z.ltb_ge _ _)) by lia.
    by rewrite <-(patch_nil (<[k:=_]> dst) (S k)), patch_insert by lia.
  - rewrite (proj2 (Z.ltb_lt _ _)) by (simpl; lia).
    specialize (IH fuel src (<[k:=nibble a * 16 + nibble c]> dst) (i + 2)%nat (k + 1)%nat rest).
    replace (i + 2 + length (c2 :: s))%nat with (i + S (S (length (c2 :: s))))%nat in IH by lia.
    specialize (IH Hdrop ltac:(done) ltac:(simpl in *; lia)).
    specialize (IH ltac:(exists (m - 1)%nat; simpl in *; lia)).
    specialize (IH ltac:(rewrite length_insert; simpl in *; lia)).
    destruct (unhex (c2 :: s)) as [b|]; simpl.
    + cbn [length] in *. rewrite IH. rewrite Nat.add_1_r. by rewrite patch_insert by lia.
    + destruct IH as (dst' & E & Hl & Hj). exists dst'. cbn [length] in *.
      split_and!; [done| |].
      * by rewrite length_insert in Hl.
      * intros j H. rewrite Hj by (simpl in *; lia). apply list_lookup_insert_ne. lia.
Qed.

Lemma hex_byte_bits x :
  is_byte x -> Z.land (Z.shiftr x 4) 15 = x / 16 /\ Z.land x 15 = x mod 16.
Proof.
  intros [H1 H2]. change 15 with (Z.ones 4). rewrite !Z.land_ones by lia.
  rewrite Z.shiftr_div_pow2 by lia. change (2 ^ 4) with 16. split; [|done].
  apply Z.mod_small. split; [apply Z.div_pos; lia|apply Z.div_lt_upper_bound; lia].
Qed.

Lemma Hex2String_loop_ok (b : bytes) : forall src dst i rest,
  bytes_ok b -> drop i src = b ++ rest -> (2 * i + 2 * length b < length dst)%nat ->
  Hex2String_loop (length b) src dst i = Ok (patch dst (2 * i) (hex_text b ++ [0])).
Proof.
  induction b as [|x b IH]; intros src dst i rest Hb Hsrc Hdst.
  - simpl. rewrite mwrite_1 by (simpl in *; lia).
    by rewrite <-(patch_nil (<[_:=0]> dst) (S (2 * i))), patch_insert by (simpl in *; lia).
  - apply Forall_cons in Hb as [Hx Hb]. simpl in Hdst.
    assert (mread src i 1 = Ok [x]) as Hrd.
    { rewrite mread_ok; [by rewrite Hsrc|].
      apply (f_equal length) in Hsrc. rewrite length_drop in Hsrc. simpl in Hsrc. lia. }
    cbn [length Hex2String_loop]. rewrite Hrd. cbn [res_bind nth].
    destruct (hex_byte_bits x Hx) as [-> ->].
    rewrite mwrite_1 by lia. cbn [res_bind].
    rewrite mwrite_1 by (rewrite length_insert; lia). cbn [res_bind].
    rewrite (IH _ _ _ rest); [|done| |].
    + replace (2 * (i + 1))%nat with (S (S (2 * i))) by lia.
      replace (2 * i + 1)%nat with (S (2 * i)) by lia.
      rewrite patch_insert by (rewrite length_insert; lia).
      rewrite patch_insert by lia. done.
    + rewrite <-drop_drop, Hsrc. done.
    + rewrite !length_insert. lia.
Qed.

(** An odd length is rounded up: the last round reads the NUL as a digit. *)
Lemma str2Hex_loop_odd f src dst i k (h n : nat) :
  i = (2 * h)%nat ->
  str2Hex_loop f src dst i k (Z.of_nat (2 * n + 1)) =
  str2Hex_loop f src dst i k (Z.of_nat (2 * n + 2)).
Proof.
  revert dst i k h. induction f as [|f IH]; intros dst i k h ->; [done|].
  cbn [str2Hex_loop].
  destruct (mread _ _ _); cbn [res_bind]; [|done].
  destruct (mwrite _ _ _); cbn [res_bind]; [|done]. destruct (Z.eqb _ 16); [done|].
  destruct (mwrite _ _ _); cbn [res_bind]; [|done]. destruct (Z.eqb _ 16); [done|].
  destruct (mwrite _ _ _); cbn [res_bind]; [|done].
  destruct (Z.ltb_spec (Z.of_nat (2 * h + 2)) (Z.of_nat (2 * n + 1))),
    (Z.ltb_spec (Z.of_nat (2 * h + 2)) (Z.of_nat (2 * n + 2))); try lia; [|done].
  apply (IH _ _ _ (S h)). lia.
Qed.

Lemma unhex_snoc_nul s : unhex (s ++ [0]) = None.
Proof.
  induction s as [|a|a c s IH] using list_pair_ind; simpl; [done| |].
  - replace (Z.eqb (nibble a) 16 || Z.eqb (nibble 0) 16) with true; [done|].
    symmetry. apply orb_true_intro. by right.
  - destruct (_ || _); [done|]. by rewrite IH.
Qed.

Lemma unhex_odd s (m : nat) : length s = (2 * m + 1)%nat -> unhex s = None.
Proof.
  intros H. destruct (unhex s) as [b|] eqn:E; [|done].
  apply unhex_length in E. lia.
Qed.

(** Hex text followed by anything is decoded. *)
Lemma str2Hex_hex s b rest dst :
  unhex s = Some b -> s <> [] -> (length b <= length dst)%nat ->
  str2Hex (s ++ rest) dst (Z.of_nat (length s)) = Ok (1, patch dst 0 b).
Proof.
  intros Hs Hne Hdst. unfold str2Hex. rewrite Nat2Z.id. pose proof (unhex_length _ _ Hs) as Hl.
  pose proof (str2Hex_loop_ok s (S (length s)) (s ++ rest) dst 0 0 rest
    eq_refl Hne ltac:(lia) ltac:(exists (length b); lia)) as H.
  specialize (H ltac:(lia)). by rewrite Hs in H.
Qed.

(** [str2Hex] on a string of any length [s] (hex digits in either case)
    decodes it: 1 and the bytes when [s] is hex text of even length, 0
    otherwise; it never reads or writes outside the string, its NUL and the
    ceil(length/2) result bytes, which it leaves unchanged beyond. *)
Lemma str2Hex_decodes s rest dst :
  s <> [] -> (length s <= 2 * length dst)%nat ->
  match unhex s with
  | Some b => str2Hex (s ++ 0 :: rest) dst (Z.of_nat (length s)) = Ok (1, patch dst 0 b)
  | None => exists dst',
      str2Hex (s ++ 0 :: rest) dst (Z.of_nat (length s)) = Ok (0, dst') /\
      length dst' = length dst /\
      forall j, (length s <= 2 * j)%nat -> dst' !! j = dst !! j
  end.
Proof.
  intros Hne Hdst. unfold str2Hex. rewrite Nat2Z.id.
  destruct (Nat.Even_or_Odd (length s)) as [[m Hm]|[m Hm]].
  - pose proof (str2Hex_loop_ok s (S (length s)) (s ++ 0 :: rest) dst 0 0 (0 :: rest)
      eq_refl Hne ltac:(lia) ltac:(exists m; lia)) as H.
    specialize (H ltac:(lia)).
    destruct (unhex s); [done|].
    destruct H as (d & H1 & H2 & H3). exists d. split_and!; [done|done|].
    intros j ?. apply H3. lia.
  - rewrite (unhex_odd s m Hm).
    replace (Z.of_nat (length s)) with (Z.of_nat (2 * m + 1)) by lia.
    rewrite (str2Hex_loop_odd _ _ _ 0 0 0) by lia.
    pose proof (str2Hex_loop_ok (s ++ [0]) (S (length s)) (s ++ 0 :: rest) dst 0 0 rest) as H.
    rewrite unhex_snoc_nul, length_app in H. simpl in H.
    destruct H as (d & H1 & H2 & H3).
    + by rewrite <-app_assoc.
    + by destruct s.
    + lia.
    + exists (S m). lia.
    + lia.
    + exists d. replace (2 * m + 2)%nat with (length s + 1)%nat by lia.
      split_and!; [done|done|]. intros j ?. apply H3. lia.
Qed.

(** C39: Hex2String writes the upper-case hex text and its NUL, and str2Hex
    reads the same bytes back. *)
Theorem hex_round_trip b dst dst2 :
  bytes_ok b -> b <> [] -> (2 * length b < length dst)%nat ->
  (length b <= length dst2)%nat ->
  exists t, Hex2String b dst (Z.of_nat (length b)) = Ok (2 * Z.of_nat (length b), t) /\
    length t = length dst /\ cstring t = Ok (hex_text b) /\
    str2Hex t dst2 (2 * Z.of_nat (length b)) = Ok (1, patch dst2 0 b).
Proof.
  intros Hb Hne Hdst Hdst2. unfold Hex2String. rewrite Nat2Z.id.
  rewrite (Hex2String_loop_ok b b dst 0 []); [|done|by rewrite app_nil_r|lia].
  cbn [res_bind]. eexists. split_and!; [done| | |].
  - apply length_patch. rewrite length_app, length_hex_text. simpl. lia.
  - unfold patch. simpl. rewrite <-app_assoc. simpl. unfold cstring.
    rewrite has_nul_app. simpl. rewrite orb_true_r. f_equal.
    by apply cstr_nonul, hex_text_nonul.
  - unfold patch. rewrite <-app_assoc. cbn [take app].
    replace (2 * Z.of_nat (length b)) with (Z.of_nat (length (hex_text b)))
      by (rewrite length_hex_text; lia).
    pose proof (str2Hex_loop_ok (hex_text b) (S (length (hex_text b)))
      (hex_text b ++ 0 :: drop (2 * 0 + length (hex_text b ++ [0])) dst) dst2 0 0
      (0 :: drop (2 * 0 + length (hex_text b ++ [0])) dst) eq_refl) as H.
    rewrite unhex_hex_text in H by done. unfold str2Hex. rewrite Nat2Z.id.
    pose proof (length_hex_text b). apply H; clear H.
    + by destruct b.
    + lia.
    + by exists (length b).
    + lia.
Qed.

Lemma hex_round_trip_witness :
  exists t, Hex2String [69; 160] (zeros 19) 2 = Ok (4, t) /\
    length t = 19%nat /\ cstring t = Ok (str "45A0") /\
    str2Hex t (zeros 9) 4 = Ok (1, [69; 160; 0; 0; 0; 0; 0; 0; 0]).
Proof.
  apply (hex_round_trip [69; 160] (zeros 19) (zeros 9));
    [by repeat constructor|discriminate|simpl; lia|simpl; lia].
Defined.

End Hex.

Module Config.

(** *** AllTrim: the in-place loop over the buffer *)

Fixpoint AllTrim_loop (fuel : nat) (b : bytes) (i : nat) (iFirstChar : bool)
  (iFirstPos iEndPos : nat) : res (bytes * bool * nat * nat) :=
  match fuel with
  | O => Fault NoFuel
  | S f =>
      let? c := mread b i 1 in
      let c := nth 0 c 0 in
      if Z.eqb c 0 then Ok (b, iFirstChar, iFirstPos, iEndPos)
      else if negb iFirstChar then
        if negb (Z.eqb c 32) then
          let? b := mwrite b 0 [c] in
          AllTrim_loop f b (S i) true iFirstPos iFirstPos
        else AllTrim_loop f b (S i) false (S iFirstPos) iEndPos
      else
        let iEndPos := if negb (Z.eqb c 32) then i else iEndPos in
        let? b := mwrite b (i - iFirstPos) [c] in
        AllTrim_loop f b (S i) true iFirstPos iEndPos
  end.

Definition AllTrim (sBuf : option bytes) : res (option bytes) :=
  match sBuf with
  | None => Ok None
  | Some b =>
      let? (b, iFirstChar, iFirstPos, iEndPos) :=
        AllTrim_loop (S (length b)) b 0 false 0 0 in
      let? b := if negb iFirstChar then mwrite b 0 [0]
                else mwrite b (iEndPos - iFirstPos + 1) [0] in
      Ok (Some b)
  end.

(** *** get_file_size: [st_size] is what stat finds, [None] when it fails *)

Definition get_file_size (st_size : option Z) : Z :=
  match st_size with None => u64 (-1) | Some n => u64 n end.

(** *** ReadString: three nested loops over the lines of the file *)

Definition tolower (c : Z) : Z := if Z.leb 65 c && Z.leb c 90 then c + 32 else c.

(** strncasecmp(s, p, strlen(p)) == 0, with the part of [s] after [p]. *)
Fixpoint strip_ci (p s : bytes) : option bytes :=
  match p, s with
  | [], _ => Some s
  | a :: p', c :: s' =>
      if Z.eqb (tolower a) (tolower c) then strip_ci p' s' else None
  | _, [] => None
  end.

(** fgets(sLine, 1024, fp) followed by feof(fp): the line read, what is left
    of the file, and whether the end of the file was hit. *)
Fixpoint fgets_n (n : nat) (file : bytes) : bytes * bytes * bool :=
  match n with
  | O => ([], file, false)
  | S n' =>
      match file with
      | [] => ([], [], true)
      | c :: file' =>
          if Z.eqb c 10 then ([c], file', false)
          else let '(l, r, e) := fgets_n n' file' in (c :: l, r, e)
      end
  end.

Definition fgets (file : bytes) : bytes * bytes * bool := fgets_n 1023 file.

Definition skip_blank (s : bytes) : bytes :=
  snd (span (fun c => Z.eqb c 32 || Z.eqb c 9) s).

Definition starts_block (s : bytes) : bool := is_prefix (str "{$") s.

(** strchr + overwriting the character found with NUL. *)
Definition cut (c : Z) (s : bytes) : bytes := fst (span (fun x => negb (Z.eqb x c)) s).

(** The value text: comment and line end cut off, then AllTrim. *)
Definition item_value (s : bytes) : res bytes :=
  let s := cut 13 (cut 10 (cut 35 s)) in
  let? r := AllTrim (Some (s ++ [0])) in
  match r with Some b => cstring b | None => Fault NullDeref end.

Inductive mode := InFile | InBlock | InSection.

Section ReadString.
Variables sBlock sSection sItem : bytes.

(** What one line does in each of the loops: stay, descend, or return. *)
Inductive line_act := Stay | Enter (m : mode) | NotFound | Found (rest : bytes).

Definition read_line (m : mode) (sLine : bytes) : line_act :=
  let sTemp := skip_blank (cstr sLine) in
  match m with
  | InFile =>
      if starts_block sTemp then
        match strip_ci sBlock (drop 2 sTemp) with
        | Some (125 :: _) => Enter InBlock
        | _ => Stay
        end
      else Stay
  | InBlock =>
      if starts_block sTemp then NotFound
      else match sTemp with
           | 91 :: t =>
               match strip_ci sSection t with
               | Some (93 :: _) => Enter InSection
               | _ => Stay
               end
           | _ => Stay
           end
  | InSection =>
      if bool_decide (head sTemp = Some 91) || starts_block sTemp then NotFound
      else match strip_ci sItem sTemp with
           | Some t =>
               match skip_blank t with
               | 61 :: v => Found v
               | _ => Stay
               end
           | None => Stay
           end
  end.

Fixpoint ReadString_loop (fuel : nat) (m : mode) (file : bytes) : res (Z * bytes) :=
  match fuel with
  | O => Fault NoFuel
  | S f =>
      let '(sLine, rest, eof) := fgets file in
      if eof : bool then Ok (0, [])
      else match read_line m sLine with
           | Stay => ReadString_loop f m rest
           | Enter m' => ReadString_loop f m' rest
           | NotFound => Ok (0, [])
           | Found v => let? s := item_value v in Ok (1, s)
           end
  end.

(** The return value and, when it is 1, the string copied to sResult;
    [None] is a file that fopen cannot open. *)
Definition ReadString (sFile : option bytes) : res (Z * bytes) :=
  match sFile with
  | None => Ok (-1, [])
  | Some file => ReadString_loop (S (length file)) InFile file
  end.
End ReadString.

(** *** Reference functions *)

Definition drop_spaces (s : bytes) : bytes := snd (span (Z.eqb 32) s).
Definition trim (s : bytes) : bytes := reverse (drop_spaces (reverse (drop_spaces s))).

Definition rtrim (s : bytes) : bytes := reverse (drop_spaces (reverse s)).

(** *** AllTrim *)

Lemma rtrim_snoc s c : rtrim (s ++ [c]) = if Z.eqb c 32 then rtrim s else s ++ [c].
Proof.
  unfold rtrim, drop_spaces. rewrite reverse_snoc. cbn [span].
  rewrite (Z.eqb_sym 32 c). destruct (Z.eqb c 32) eqn:E.
  - by destruct (span (Z.eqb 32) (reverse s)).
  - simpl. by rewrite reverse_cons, reverse_involutive.
Qed.

Lemma rtrim_prefix s : exists w, s = rtrim s ++ w.
Proof.
  induction s as [|c s [w IH]] using rev_ind; [by exists []|].
  rewrite rtrim_snoc. destruct (Z.eqb c 32).
  - exists (w ++ [c]). by rewrite app_assoc, <-IH.
  - exists []. by rewrite app_nil_r.
Qed.

(** Moving a character down over [mid] keeps the rest of the line. *)
Lemma shift_write (done mid w : bytes) c :
  exists mid', mwrite (done ++ mid ++ c :: w) (length done) [c]
               = Ok (done ++ c :: mid' ++ w) /\ length mid' = length mid.
Proof.
  rewrite mwrite_1 by (rewrite !length_app; simpl; lia).
  rewrite insert_app_r_alt, Nat.sub_diag by done.
  destruct mid as [|x mid].
  - by exists [].
  - exists (mid ++ [c]). rewrite <-app_assoc. simpl.
    by rewrite length_app, Nat.add_1_r.
Qed.

Lemma mread_at (p : bytes) c w b n :
  b = p ++ c :: w -> n = length p -> mread b n 1 = Ok [c].
Proof.
  intros -> ->. rewrite mread_ok by (rewrite length_app; simpl; lia).
  by rewrite drop_app_length.
Qed.

Lemma AllTrim_tail todo : forall fuel done mid e r,
  nonul todo -> (length todo < fuel)%nat ->
  (length mid <= e)%nat -> (e - length mid + 1 = length (rtrim done))%nat ->
  exists mid' e',
    AllTrim_loop fuel (done ++ mid ++ todo ++ 0 :: r) (length mid + length done) true
      (length mid) e
    = Ok (done ++ todo ++ mid' ++ 0 :: r, true, length mid, e') /\
    length mid' = length mid /\
    (e' - length mid + 1 = length (rtrim (done ++ todo)))%nat.
Proof.
  induction todo as [|c todo IH]; intros fuel done mid e r Hn Hf He Hlen;
    (destruct fuel as [|fuel]; [simpl in Hf; lia|]).
  - exists mid, e. cbn [AllTrim_loop].
    rewrite (mread_at (done ++ mid) 0 r) by (by rewrite <-app_assoc || len).
    simpl. by rewrite app_nil_r.
  - apply Forall_cons in Hn as [Hc Hn].
    destruct (shift_write done mid (todo ++ 0 :: r) c) as (mid1 & Hw & Hl1).
    cbn [AllTrim_loop].
    rewrite (mread_at (done ++ mid) c (todo ++ 0 :: r)) by (by rewrite <-app_assoc || len).
    cbn [app res_bind nth].
    rewrite (proj2 (Z.eqb_neq c 0)) by done. cbn [negb].
    replace (length mid + length done - length mid)%nat with (length done) by lia.
    rewrite Hw. cbn [res_bind].
    edestruct (IH fuel (done ++ [c]) mid1) as (mid' & e' & E & Hl & He'); [done|simpl in Hf; lia|..].
    3:{ exists mid', e'. rewrite <-!app_assoc in E. cbn [app] in E.
        rewrite !length_app in E. cbn [length] in E. rewrite Hl1 in *.
        replace (S (length mid + length done))%nat
          with (length mid + (length done + 1))%nat by lia.
        rewrite E. split_and!; [done|done|]. by rewrite He', <-app_assoc. }
    + destruct (Z.eqb c 32); simpl; lia.
    + rewrite rtrim_snoc. destruct (Z.eqb c 32); simpl; [lia|]. rewrite length_app. simpl. lia.
Qed.

Lemma AllTrim_head todo : forall fuel k r,
  nonul todo -> (length todo < fuel)%nat ->
  let b := replicate k 32 ++ todo ++ 0 :: r in
  match drop_spaces todo with
  | [] => exists k', AllTrim_loop fuel b k false k 0 = Ok (b, false, k', 0%nat)
  | t => exists mid e,
      AllTrim_loop fuel b k false k 0 = Ok (t ++ mid ++ 0 :: r, true, length mid, e) /\
      (e - length mid + 1 = length (rtrim t))%nat /\
      (length t + length mid = k + length todo)%nat
  end.
Proof.
  induction todo as [|c todo IH]; intros fuel k r Hn Hf; simpl;
    (destruct fuel as [|fuel]; [simpl in Hf; lia|]).
  - exists k. cbn [AllTrim_loop].
    by rewrite (mread_at (replicate k 32) 0 r) by (done || by rewrite length_replicate).
  - apply Forall_cons in Hn as [Hc Hn].
    cbn [AllTrim_loop].
    rewrite (mread_at (replicate k 32) c (todo ++ 0 :: r))
      by (done || by rewrite length_replicate).
    cbn [app res_bind nth negb].
    rewrite (proj2 (Z.eqb_neq c 0)) by done.
    unfold drop_spaces. cbn [span]. rewrite (Z.eqb_sym 32 c).
    destruct (Z.eqb_spec c 32) as [->|Nc]; cbn [negb].
    + destruct (span (Z.eqb 32) todo) as [sp t] eqn:Es. cbn [snd].
      specialize (IH fuel (S k) r Hn ltac:(simpl in Hf; lia)).
      unfold drop_spaces in IH. rewrite Es in IH. cbn [snd] in IH.
      rewrite replicate_S_end, <-app_assoc in IH. cbn [app] in IH.
      destruct t as [|x t]; [exact IH|].
      destruct IH as (mid & e & E & He & Hl). exists mid, e.
      split_and!; [done|done|simpl in *; lia].
    + cbn [snd].
      destruct (shift_write [] (replicate k 32) (todo ++ 0 :: r) c) as (mid1 & Hw & Hl1).
      cbn [app length] in Hw. rewrite Hw. cbn [res_bind].
      rewrite length_replicate in *.
      destruct (AllTrim_tail todo fuel [c] mid1 k r) as (mid' & e' & E & Hl & He');
        [done|simpl in Hf; lia|lia| |].
      { rewrite Hl1, Nat.sub_diag.
        change [c] with ([] ++ [c]). rewrite rtrim_snoc.
        by rewrite (proj2 (Z.eqb_neq c 32)). }
      exists mid', e'. rewrite Hl, Hl1 in *. cbn [app length] in E.
      rewrite Nat.add_1_r in E. rewrite E. cbn [app].
      split_and!; [done|exact He'|simpl; lia].
Qed.

Lemma AllTrim_ok s r :
  nonul s ->
  exists w, AllTrim (Some (s ++ 0 :: r)) = Ok (Some (w ++ r)) /\
    length w = S (length s) /\ cstring (w ++ r) = Ok (trim s).
Proof.
  intros Hs. unfold AllTrim.
  pose proof (AllTrim_head s (S (length (s ++ 0 :: r))) 0 r Hs ltac:(rewrite length_app; lia)) as H.
  cbn [replicate app] in H. unfold trim. fold (rtrim (drop_spaces s)).
  destruct (drop_spaces s) as [|x t] eqn:Et.
  - destruct H as [k' Hloop]. cbn [app] in Hloop. rewrite Hloop. cbn [res_bind negb].
    rewrite mwrite_1 by (rewrite length_app; simpl; lia). cbn [res_bind].
    exists (<[0%nat:=0]> (s ++ [0])). split_and!.
    + replace (s ++ 0 :: r) with ((s ++ [0]) ++ r) by by rewrite <-app_assoc.
      by rewrite insert_app_l by (rewrite length_app; simpl; lia).
    + rewrite length_insert, length_app. simpl. lia.
    + by destruct s.
  - destruct H as (mid & e & -> & He & Hl). cbn [res_bind negb].
    rewrite He. destruct (rtrim_prefix (x :: t)) as [w Hw].
    set (p := rtrim (x :: t)) in *.
    change (x :: t ++ mid ++ 0 :: r) with ((x :: t) ++ mid ++ 0 :: r).
    rewrite Hw in *.
    rewrite mwrite_1 by (rewrite !length_app; simpl; lia). cbn [res_bind].
    exists (<[length p:=0]> ((p ++ w) ++ mid ++ [0])). split_and!.
    + replace ((p ++ w) ++ mid ++ 0 :: r) with (((p ++ w) ++ mid ++ [0]) ++ r)
        by by rewrite <-!app_assoc.
      by rewrite insert_app_l by (rewrite !length_app; simpl; lia).
    + rewrite length_insert, !length_app. rewrite length_app in Hl. simpl. simpl in Hl. lia.
    + assert (nonul p) as Hp.
      { pose proof (span_eq (Z.eqb 32) s) as Hsp. fold (drop_spaces s) in Hsp.
        rewrite Et in Hsp. rewrite <-Hsp in Hs.
        by apply Forall_app in Hs as [_ [Hs _]%Forall_app]. }
      rewrite <-!app_assoc, insert_app_r_alt, Nat.sub_diag by done.
      destruct (w ++ mid ++ [0]) as [|y z] eqn:Ew.
      { destruct w, mid; discriminate. }
      simpl. rewrite <-app_assoc. simpl. unfold cstring.
      rewrite has_nul_app. simpl. rewrite orb_true_r.
      by rewrite cstr_nonul.
Qed.

(** AllTrim removes the leading and trailing spaces of the string in its
    buffer, in place: the size of the buffer and the bytes after the string's
    NUL are unchanged, inner spaces are kept, NULL is ignored. *)
Lemma AllTrim_trims s r :
  nonul s ->
  AllTrim None = Ok None /\
  exists w, AllTrim (Some (s ++ 0 :: r)) = Ok (Some (w ++ r)) /\
    length w = S (length s) /\ cstring (w ++ r) = Ok (trim s).
Proof. intros Hs. split; [done|]. by apply AllTrim_ok. Qed.

(** *** ReadString *)

Lemma fgets_n_shorter n file l r :
  (0 < n)%nat -> fgets_n n file = (l, r, false) -> (length r < length file)%nat.
Proof.
  revert file l. induction n as [|n IH]; intros file l Hn; [lia|]. simpl.
  destruct file as [|c file]; [done|]. destruct (Z.eqb c 10).
  { intros [= _ <-]. simpl. lia. }
  destruct (fgets_n n file) as [[l' r'] e] eqn:E. intros [= _ -> ->].
  destruct n as [|n]; [|specialize (IH file l' ltac:(lia) E); simpl; lia].
  simpl in E. injection E as _ <-. simpl. lia.
Qed.

Lemma fgets_n_line l rest : forall m,
  Forall (fun c => c <> 10) l -> (length l <= m)%nat ->
  fgets_n (S m) (l ++ 10 :: rest) = (l ++ [10], rest, false).
Proof.
  induction l as [|c l IH]; intros m Hl Hm; [done|].
  apply Forall_cons in Hl as [Hc Hl]. destruct m as [|m]; [simpl in Hm; lia|].
  change (fgets_n (S (S m)) ((c :: l) ++ 10 :: rest)) with
    (if Z.eqb c 10 then ([c], l ++ 10 :: rest, false)
     else let '(l', r, e) := fgets_n (S m) (l ++ 10 :: rest) in (c :: l', r, e)).
  rewrite (proj2 (Z.eqb_neq c 10)) by done.
  rewrite IH; [done|done|simpl in Hm; lia].
Qed.

(** A line of the file: no newline, no NUL, short enough for the buffer. *)
Definition line_ok (l : bytes) : Prop :=
  Forall (fun c => c <> 10 /\ c <> 0) l /\ (length l <= 1022)%nat.

#[export] Instance line_ok_dec l : Decision (line_ok l).
Proof. unfold line_ok. apply _. Defined.

Lemma fgets_line l rest :
  line_ok l -> fgets (l ++ 10 :: rest) = (l ++ [10], rest, false).
Proof.
  intros [Hl Hlen]. apply (fgets_n_line l rest 1022); [|done].
  eapply Forall_impl; [exact Hl|]. by intros c [? ?].
Qed.

Lemma line_cstr l : line_ok l -> cstr (l ++ [10]) = l ++ [10].
Proof.
  intros [Hl _]. apply cstr_id. apply Forall_app. split; [|by repeat constructor].
  eapply Forall_impl; [exact Hl|]. by intros c [? ?].
Qed.

Lemma nonul_span_fst p s : nonul s -> nonul (fst (span p s)).
Proof. intros H. rewrite <-(span_eq p s) in H. by apply Forall_app in H as [? _]. Qed.

Lemma nonul_span_snd p s : nonul s -> nonul (snd (span p s)).
Proof. intros H. rewrite <-(span_eq p s) in H. by apply Forall_app in H as [_ ?]. Qed.

(** The value is what is left of comment and line end, trimmed. *)
Definition value_of (v : bytes) : bytes := trim (cut 13 (cut 10 (cut 35 v))).

Lemma item_value_ok v : nonul v -> item_value v = Ok (value_of v).
Proof.
  intros Hv. unfold item_value, value_of.
  set (s := cut 13 (cut 10 (cut 35 v))).
  assert (nonul s) as Hs by (do 3 apply nonul_span_fst; done).
  destruct (AllTrim_ok s [] Hs) as (w & -> & _ & Hc). exact Hc.
Qed.

Lemma strip_ci_nonul p s t : nonul s -> strip_ci p s = Some t -> nonul t.
Proof.
  revert s. induction p as [|a p IH]; intros s Hs; simpl; [by intros [= <-]|].
  destruct s as [|c s]; [done|]. destruct (Z.eqb _ _); [|done].
  apply IH. by apply Forall_cons in Hs as [_ ?].
Qed.

Lemma strip_ci_app p s : strip_ci p (p ++ s) = Some s.
Proof. induction p; simpl; [done|]. by rewrite Z.eqb_refl. Qed.

Lemma read_line_found_nonul sB sS sI m l v :
  read_line sB sS sI m l = Found v -> nonul v.
Proof.
  unfold read_line. set (t := skip_blank (cstr l)).
  assert (nonul t) as Ht by apply nonul_span_snd, nonul_cstr.
  destruct m.
  - by repeat case_match.
  - destruct (starts_block t); [done|].
    destruct t as [|c t]; [done|]. repeat case_match; done.
  - destruct (_ || _); [done|]. destruct (strip_ci sI t) as [u|] eqn:E; [|done].
    apply strip_ci_nonul in E; [|done].
    pose proof (nonul_span_snd (fun c => Z.eqb c 32 || Z.eqb c 9) u E) as Hu.
    fold (skip_blank u) in Hu. destruct (skip_blank u) as [|c w]; [done|].
    apply Forall_cons in Hu as [_ Hw]. repeat case_match; try done. by intros [= <-].
Qed.

Lemma ReadString_loop_total sB sS sI fuel : forall m file,
  (length file < fuel)%nat ->
  exists v, ReadString_loop sB sS sI fuel m file = Ok (0, []) \/
            ReadString_loop sB sS sI fuel m file = Ok (1, v).
Proof.
  induction fuel as [|f IH]; intros m file Hf; [lia|]. simpl.
  destruct (fgets file) as [[l r] e] eqn:E. destruct e; [by exists []; left|].
  apply fgets_n_shorter in E; [|lia].
  destruct (read_line _ _ _ _ _) eqn:Ea; [apply IH; lia|apply IH; lia|by exists []; left|].
  apply read_line_found_nonul, item_value_ok in Ea. rewrite Ea. simpl. eauto.
Qed.

Section Lookup.
Variables sBlock sSection sItem : bytes.

Let loop := ReadString_loop sBlock sSection sItem.
Let act := read_line sBlock sSection sItem.

Definition lines (ls : list bytes) : bytes := ls ≫= (fun l => l ++ [10]).

(** Lines the current loop only skips. *)
Definition skipped (m : mode) (l : bytes) : Prop :=
  line_ok l /\ act m (l ++ [10]) = Stay.

Lemma loop_skip m (ls : list bytes) (rest : bytes) fuel :
  Forall (skipped m) ls -> (length (lines ls ++ rest) < fuel)%nat ->
  exists fuel', loop fuel m (lines ls ++ rest) = loop fuel' m rest /\
                (length rest < fuel')%nat.
Proof.
  intros H. revert fuel. induction H as [|l ls [Hl Ha] _ IH]; intros fuel Hf.
  { exists fuel. split; [done|]. simpl in Hf. lia. }
  destruct fuel as [|fuel]; [lia|].
  replace (lines (l :: ls) ++ rest) with (l ++ 10 :: (lines ls ++ rest)) in *
    by (unfold lines; simpl; by rewrite <-!app_assoc).
  unfold loop at 1. cbn [ReadString_loop]. rewrite fgets_line by done.
  fold act. rewrite Ha. apply IH. rewrite length_app in Hf. simpl in Hf. lia.
Qed.

Lemma loop_enter m m' (l rest : bytes) fuel :
  line_ok l -> act m (l ++ [10]) = Enter m' ->
  (S (length l + length rest) < fuel)%nat ->
  exists fuel', loop fuel m (l ++ 10 :: rest) = loop fuel' m' rest /\
                (length rest < fuel')%nat.
Proof.
  intros Hl Ha Hf. destruct fuel as [|fuel]; [lia|]. exists fuel.
  unfold loop at 1. cbn [ReadString_loop]. rewrite fgets_line by done. fold act.
  rewrite Ha. split; [done|]. lia.
Qed.

Lemma line_head l c t :
  l = c :: t -> line_ok l -> Z.eqb c 32 || Z.eqb c 9 = false ->
  skip_blank (cstr (l ++ [10])) = l ++ [10].
Proof.
  intros -> Hl Hc. rewrite line_cstr by done.
  unfold skip_blank. simpl. by rewrite Hc.
Qed.

Lemma act_block b1 :
  line_ok (str "{$" ++ sBlock ++ 125 :: b1) ->
  act InFile ((str "{$" ++ sBlock ++ 125 :: b1) ++ [10]) = Enter InBlock.
Proof.
  intros Hl. unfold act, read_line.
  rewrite (line_head _ 123 (36 :: sBlock ++ 125 :: b1)) by done.
  simpl. rewrite drop_0, <-app_assoc. by rewrite strip_ci_app.
Qed.

Lemma act_section s1 :
  line_ok (91 :: sSection ++ 93 :: s1) ->
  act InBlock ((91 :: sSection ++ 93 :: s1) ++ [10]) = Enter InSection.
Proof.
  intros Hl. unfold act, read_line.
  rewrite (line_head _ 91 (sSection ++ 93 :: s1)) by done.
  simpl. rewrite <-app_assoc. by rewrite strip_ci_app.
Qed.

Lemma act_item c t v :
  sItem = c :: t -> Z.eqb c 32 || Z.eqb c 9 = false -> c <> 91 -> c <> 123 ->
  line_ok (sItem ++ 61 :: v) ->
  act InSection ((sItem ++ 61 :: v) ++ [10]) = Found (v ++ [10]).
Proof.
  intros HI Hc H1 H2 Hl. unfold act, read_line.
  rewrite (line_head _ c (t ++ 61 :: v)) by (done || by rewrite HI).
  rewrite <-app_assoc, strip_ci_app. rewrite HI. cbn [app head].
  rewrite bool_decide_false by congruence.
  change (starts_block (c :: ?x)) with (Z.eqb 123 c && is_prefix [36] x).
  by rewrite (proj2 (Z.eqb_neq 123 c)) by done.
Qed.
End Lookup.

Lemma cut_nl c v : Forall (fun x => x <> 10) v -> cut 10 (cut c (v ++ [10])) = cut 10 (cut c v).
Proof.
  intros Hv. unfold cut. induction v as [|x v IH]; simpl.
  - by destruct (negb (Z.eqb 10 c)).
  - apply Forall_cons in Hv as [Hx Hv]. specialize (IH Hv).
    destruct (negb (Z.eqb x c)); [|done].
    destruct (span (fun x => negb (Z.eqb x c)) (v ++ [10])) as [p1 q1],
      (span (fun x => negb (Z.eqb x c)) v) as [p2 q2]. simpl in *.
    destruct (negb (Z.eqb x 10)); [|done].
    destruct (span (fun x => negb (Z.eqb x 10)) p1),
      (span (fun x => negb (Z.eqb x 10)) p2). simpl in *. by rewrite IH.
Qed.

(** ReadString finds the item of the section of the block: after lines
    that the loops skip, a line [{$block}...], lines inside the block, a line
    [[section]...], lines inside the section and a line [item=value], the
    result is 1 and the value without comment, line end and outer spaces. *)
Lemma ReadString_finds sBlock sSection sItem pre mid mid2 b1 s1 c t v rest :
  sItem = c :: t -> Z.eqb c 32 || Z.eqb c 9 = false -> c <> 91 -> c <> 123 ->
  Forall (skipped sBlock sSection sItem InFile) pre ->
  Forall (skipped sBlock sSection sItem InBlock) mid ->
  Forall (skipped sBlock sSection sItem InSection) mid2 ->
  line_ok (str "{$" ++ sBlock ++ 125 :: b1) ->
  line_ok (91 :: sSection ++ 93 :: s1) ->
  line_ok (sItem ++ 61 :: v) ->
  ReadString sBlock sSection sItem
    (Some (lines pre ++ (str "{$" ++ sBlock ++ 125 :: b1) ++ 10 ::
           lines mid ++ (91 :: sSection ++ 93 :: s1) ++ 10 ::
           lines mid2 ++ (sItem ++ 61 :: v) ++ 10 :: rest))
  = Ok (1, value_of v).
Proof.
  intros HI Hc H1 H2 Hpre Hmid Hmid2 Hb Hs Hi. unfold ReadString.
  edestruct (loop_skip sBlock sSection sItem InFile pre) as (f1 & -> & Hf1); [done|lia|].
  edestruct (loop_enter sBlock sSection sItem InFile InBlock) as (f2 & -> & Hf2);
    [exact Hb|by apply act_block|by rewrite length_app in Hf1; simpl in *; lia|].
  edestruct (loop_skip sBlock sSection sItem InBlock mid) as (f3 & -> & Hf3); [done|lia|].
  edestruct (loop_enter sBlock sSection sItem InBlock InSection) as (f4 & -> & Hf4);
    [exact Hs|by apply act_section|by rewrite length_app in Hf3; simpl in *; lia|].
  edestruct (loop_skip sBlock sSection sItem InSection mid2) as (f5 & -> & Hf5); [done|lia|].
  destruct f5 as [|f5]; [lia|]. cbn [ReadString_loop].
  rewrite fgets_line, (act_item _ _ _ c t) by done.
  destruct Hi as [Hi _]. apply Forall_app in Hi as [_ [_ Hv]%Forall_cons].
  rewrite item_value_ok.
  - simpl. unfold value_of. rewrite cut_nl; [done|].
    eapply Forall_impl; [exact Hv|]. by intros ? [? ?].
  - apply Forall_app. split; [|by repeat constructor].
    eapply Forall_impl; [exact Hv|]. by intros ? [? ?].
Qed.

Lemma ReadString_finds_witness :
  ReadString (str "db") (str "login") (str "name")
    (Some (lines [str "# conf"] ++ (str "{$" ++ str "db" ++ 125 :: []) ++ 10 ::
           lines [] ++ (91 :: str "login" ++ 93 :: []) ++ 10 ::
           lines [str "host = x"] ++ (str "name" ++ 61 :: str "  cdma  # user") ++ 10 :: []))
  = Ok (1, str "cdma").
Proof.
  apply (ReadString_finds (str "db") (str "login") (str "name") [str "# conf"] []
    [str "host = x"] [] [] 110 (str "ame") (str "  cdma  # user") []);
    first [reflexivity | discriminate | (repeat constructor; vm_compute; congruence) | idtac].
Defined.

(** ReadString always returns: -1 when the file cannot be opened, else 0
    (not found) or 1; it neither loops nor leaves its buffers on any file. *)
Lemma ReadString_total sBlock sSection sItem file :
  ReadString sBlock sSection sItem None = Ok (-1, []) /\
  exists v, ReadString sBlock sSection sItem (Some file) = Ok (0, []) \/
            ReadString sBlock sSection sItem (Some file) = Ok (1, v).
Proof. split; [done|]. apply ReadString_loop_total. lia. Qed.

End Config.
