(* ===== verification/JsonText.v ===== *)
(** * src/sock_base.c: the reply and JSON text of the back-end servers

    [Data_Coing] splits a reply "head,type,num,result|[payload" into its
    fields, [Get_Key_Value] and [Find_Str_By_Key] look the value of a key up
    in JSON text. Source strings are buffers ([None] is NULL), destinations
    are buffers of their real size, so an overflow of a fixed-size local is a
    [Fault]. *)

From stdpp Require Import prelude gmap strings.
From S2P Require Import Prelude CLib.
Open Scope Z_scope.

Module Json.

Record Json_date := mkJson {
  Head : Z; JType : Z; Para_Num : Z; Result : Z; Len : Z;
  Data : bytes (* char Data[512] *)
}.

(** memset(&Data, 0, sizeof(Data)) *)
Definition Json_zero : Json_date := mkJson 0 0 0 0 0 (zeros 512).

(** The switch over the position [i] of a field. *)
Definition coing_field (i : nat) (v : Z) (d : Json_date) : Json_date :=
  match i with
  | 0 => mkJson v (JType d) (Para_Num d) (Result d) (Len d) (Data d)
  | 1 => mkJson (Head d) v (Para_Num d) (Result d) (Len d) (Data d)
  | 2 => mkJson (Head d) (JType d) v (Result d) (Len d) (Data d)
  | 3 => mkJson (Head d) (JType d) (Para_Num d) v (Len d) (Data d)
  | _ => d
  end%nat.

(** The inner while loop over the comma-separated fields. *)
Fixpoint coing_fields (fuel i : nat) (s : bytes) (d : Json_date) : res Json_date :=
  match fuel with
  | O => Fault NoFuel
  | S f =>
      match strtok_r s (str ",") with
      | (None, _) => Ok d
      | (Some p, rest) => coing_fields f (S i) rest (coing_field i (atoi p) d)
      end
  end.

(** The second pass through label ret: copy the payload. A payload of one
    byte makes Len -1, which memcpy takes as a huge size. *)
Definition coing_payload (p : bytes) (d : Json_date) : res Json_date :=
  let q := tail p in
  let len := Z.of_nat (length q) - 1 in
  if Z.ltb len 0 then Fault Overrun
  else
    let? data := mwrite (Data d) 0 (take (Z.to_nat len) q) in
    Ok (mkJson (Head d) (JType d) (Para_Num d) (Result d) len data).

Definition Data_Coing (Src : option bytes) (data : Json_date) : res (Z * Json_date) :=
  match Src with
  | None => Ok (-1, data)
  | Some src =>
      let? s := cstring src in
      if Nat.eqb (length s) 0 then Ok (-1, data)
      else
        match strtok_r s (str "|") with
        | (None, _) => Ok (Result data, data)
        | (Some p, outer) =>
            let? data := coing_fields (S (length p)) 0 p data in
            match strtok_r outer (str "[") with
            | (None, _) => Ok (Result data, data)
            | (Some p2, _) =>
                let? data := coing_payload p2 data in
                Ok (Result data, data)
            end
        end
  end.

Definition quote : bytes := [34].

(** The return value and the destination buffer. *)
Definition Get_Key_Value (Src : option bytes) (Key Dst : bytes) (Len : nat)
  : res (Z * bytes) :=
  let? Dst := mwrite Dst 0 (zeros Len) in
  match Src with
  | None => Ok (-1, Dst)
  | Some src =>
      let? s := cstring src in
      if Nat.eqb (length s) 0 then Ok (-1, Dst)
      else
        let? buff := mwrite (zeros 512) 0 s in
        let? b := cstring buff in
        match strstr b Key with
        | None => Ok (-2, Dst)
        | Some p =>
            match strstr p (str ":") with
            | None => Ok (-3, Dst)
            | Some p =>
                match strstr p quote with
                | None => Ok (-4, Dst)
                | Some p =>
                    match strtok_r p quote with
                    | (None, _) => Ok (-5, Dst)
                    | (Some p, _) =>
                        let? Dst := mwrite Dst 0 p in
                        Ok (0, Dst)
                    end
                end
            end
        end
  end.

Definition Find_Str_By_Key (Src : option bytes) (Key Dst : bytes) (len : nat)
  : res (Z * bytes) :=
  match Src with
  | None => Ok (-1, Dst)
  | Some src =>
      let? s := cstring src in
      let? Tmp := mwrite (zeros 1024) 0 s in
      let? t := cstring Tmp in
      match strstr t Key with
      | None => Ok (-1, Dst)
      | Some p =>
          match strtok_r p (str ":") with
          | (None, _) => Ok (-1, Dst)
          | (Some _, outer) =>
              match strtok_r outer quote with
              | (None, _) => Ok (-1, Dst)
              | (Some p, _) =>
                  let? Dst := mwrite Dst 0 (zeros len) in
                  let? Dst := mwrite Dst 0 p in
                  Ok (0, Dst)
              end
          end
      end
  end.

(** *** JSON text: the fields of one flat object with string values *)

Definition field (k v : bytes) : bytes :=
  34 :: k ++ 34 :: 58 :: 34 :: v ++ [34].

Definition fields (fs : list (bytes * bytes)) : bytes :=
  fs ≫= (fun '(k, v) => field k v ++ [44]).

(** An object that begins with the fields [fs], then has [k]: [v]. *)
Definition object (fs : list (bytes * bytes)) (k v rest : bytes) : bytes :=
  123 :: fields fs ++ field k v ++ rest.

(** A key is a non-empty word without JSON punctuation. *)
Definition word (k : bytes) : Prop :=
  k <> [] /\ Forall (fun c => c <> 0 /\ c <> 34 /\ c <> 44 /\ c <> 58 /\ c <> 123) k.

(** A value is a non-empty text without quotes. *)
Definition value (v : bytes) : Prop :=
  v <> [] /\ Forall (fun c => c <> 0 /\ c <> 34) v.

(** [k] is not part of the fields in front. *)
Definition fresh (k : bytes) (fs : list (bytes * bytes)) : Prop :=
  Forall (fun '(k', v') => strstr k' k = None /\ strstr v' k = None) fs.

(** *** Searching *)

Lemma is_prefix_seg key c s r :
  Forall (fun x => x <> c) key -> is_prefix key (s ++ c :: r) = is_prefix key s.
Proof.
  revert s. induction key as [|a key IH]; intros s Hk; [done|].
  apply Forall_cons in Hk as [Ha Hk].
  destruct s as [|x s]; simpl; [by rewrite (proj2 (Z.eqb_neq a c))|].
  by rewrite IH.
Qed.

(** A segment without the key that ends in a character the key does not
    have is skipped. *)
Lemma strstr_seg key c s r :
  key <> [] -> Forall (fun x => x <> c) key -> strstr s key = None ->
  strstr (s ++ c :: r) key = strstr r key.
Proof.
  intros Hne Hk. induction s as [|x s IH]; intros Hs.
  - simpl. change (c :: r) with ([] ++ c :: r). rewrite is_prefix_seg by done.
    by destruct key.
  - simpl in Hs |- *. change (x :: s ++ c :: r) with ((x :: s) ++ c :: r).
    rewrite is_prefix_seg by done.
    destruct (is_prefix key (x :: s)); [done|]. by apply IH.
Qed.

Lemma strstr_sep key c r :
  key <> [] -> Forall (fun x => x <> c) key -> strstr (c :: r) key = strstr r key.
Proof. intros. apply (strstr_seg key c [] r); [done|done|by destruct key]. Qed.

Lemma word_no k (c : Z) :
  word k -> c = 34 \/ c = 44 \/ c = 58 \/ c = 123 -> Forall (fun x => x <> c) k.
Proof. intros [_ H] Hc. eapply Forall_impl; [exact H|]. simpl. intros x Hx. lia. Qed.

Lemma strstr_fields k fs r :
  word k -> fresh k fs -> strstr (fields fs ++ r) k = strstr r k.
Proof.
  intros Hw. destruct (Hw) as [Hne _].
  induction 1 as [|[k' v'] fs [Hk Hv] _ IH]; [done|].
  change (fields ((k', v') :: fs)) with ((field k' v' ++ [44]) ++ fields fs).
  unfold field. cbn [app].
  repeat (rewrite <-app_assoc; cbn [app]).
  rewrite strstr_sep; [|done|apply word_no; auto].
  rewrite strstr_seg; [|done|apply word_no; auto|done].
  do 2 (rewrite strstr_sep; [|done|apply word_no; auto]).
  rewrite strstr_seg; [|done|apply word_no; auto|done].
  rewrite strstr_sep; [|done|apply word_no; auto].
  exact IH.
Qed.

Lemma strstr_here k r : strstr (k ++ r) k = Some (k ++ r).
Proof.
  destruct (k ++ r) eqn:E; simpl; rewrite <-E, is_prefix_app; done.
Qed.

(** The key of the object is found at its own field. *)
Lemma strstr_object fs k v rest :
  word k -> fresh k fs ->
  strstr (object fs k v rest) k = Some (k ++ 34 :: 58 :: 34 :: v ++ 34 :: rest).
Proof.
  intros Hw Hf. unfold object.
  destruct (Hw) as [Hne _].
  rewrite strstr_sep; [|done|apply word_no; auto].
  rewrite strstr_fields by done. unfold field. cbn [app].
  repeat (rewrite <-app_assoc; cbn [app]).
  rewrite strstr_sep; [|done|apply word_no; auto].
  apply strstr_here.
Qed.

(** From the key to the value: the colon, the quote, the token. *)
Lemma value_token v rest :
  value v -> strtok_r (34 :: v ++ 34 :: rest) quote = (Some v, rest).
Proof.
  intros [Hne Hv]. rewrite strtok_r_skip by done.
  apply strtok_r_token; [done| |done].
  eapply Forall_impl; [exact Hv|]. intros c [_ H]. simpl.
  by rewrite (proj2 (Z.eqb_neq c 34)).
Qed.

Lemma key_colon k r :
  word k -> strstr (k ++ 34 :: 58 :: r) (str ":") = Some (58 :: r).
Proof.
  intros Hk. change (k ++ 34 :: 58 :: r) with (k ++ [34] ++ 58 :: r).
  rewrite app_assoc. change (str ":") with [58]. apply strstr_char.
  apply Forall_app. split; [apply word_no; auto|by repeat constructor].
Qed.

(** *** Get_Key_Value *)

Lemma cstring_app s r : nonul s -> cstring (s ++ 0 :: r) = Ok s.
Proof.
  intros Hs. unfold cstring. rewrite has_nul_app. simpl. rewrite orb_true_r.
  by rewrite cstr_nonul.
Qed.

(** What is left of Get_Key_Value once the text is in the local buffer. *)
Lemma gkv_body s r Key Dst :
  nonul s -> s <> [] -> (length s < 512)%nat ->
  Get_Key_Value (Some (s ++ 0 :: r)) Key Dst (length Dst) =
  match strstr s Key with
  | None => Ok (-2, zeros (length Dst))
  | Some p =>
      match strstr p (str ":") with
      | None => Ok (-3, zeros (length Dst))
      | Some p =>
          match strstr p quote with
          | None => Ok (-4, zeros (length Dst))
          | Some p =>
              match strtok_r p quote with
              | (None, _) => Ok (-5, zeros (length Dst))
              | (Some p, _) =>
                  let? Dst := mwrite (zeros (length Dst)) 0 p in Ok (0, Dst)
              end
          end
      end
  end.
Proof.
  intros Hs Hne Hlen. unfold Get_Key_Value.
  rewrite mwrite_ok by (rewrite length_zeros; lia). cbn [res_bind].
  replace (patch Dst 0 (zeros (length Dst))) with (zeros (length Dst)).
  2:{ unfold patch. rewrite length_zeros, drop_ge by lia. simpl. by rewrite app_nil_r. }
  rewrite cstring_app by done. cbn [res_bind].
  rewrite (proj2 (Nat.eqb_neq (length s) 0)) by (destruct s; simpl; [done|lia]).
  rewrite (mwrite_zeros 512 s) by lia. cbn [res_bind].
  by rewrite cstring_padded by (done || lia).
Qed.

Lemma gkv_object fs k v rest r Dst :
  word k -> value v -> fresh k fs -> nonul (object fs k v rest) ->
  (length (object fs k v rest) < 512)%nat -> (length v <= length Dst)%nat ->
  Get_Key_Value (Some (object fs k v rest ++ 0 :: r)) k Dst (length Dst) =
  Ok (0, padded (length Dst) v).
Proof.
  intros Hk Hv Hf Hn Hlen Hd. rewrite gkv_body by done.
  rewrite strstr_object, key_colon by done.
  change (58 :: 34 :: v ++ 34 :: rest) with ([58] ++ 34 :: (v ++ 34 :: rest)).
  unfold quote at 1. rewrite strstr_char by by repeat constructor.
  rewrite value_token by done. by rewrite mwrite_zeros by lia.
Qed.

(** Get_Key_Value finds the value of a key: in JSON text whose earlier
    fields do not contain the key, the non-empty string value of the key is
    copied to the zero-filled destination and 0 is returned. *)
Lemma Get_Key_Value_finds fs k v rest r Dst :
  word k -> value v -> fresh k fs -> nonul (object fs k v rest) ->
  (length (object fs k v rest) < 512)%nat -> (length v <= length Dst)%nat ->
  Get_Key_Value (Some (object fs k v rest ++ 0 :: r)) k Dst (length Dst) =
  Ok (0, padded (length Dst) v).
Proof. apply gkv_object. Qed.

Lemma Get_Key_Value_finds_witness :
  Get_Key_Value
    (Some (object [(str "ifVPN", str "1")] (str "IMSI") (str "460023") (str "}]") ++ 0 :: []))
    (str "IMSI") (replicate 8 7) 8
  = Ok (0, str "460023" ++ [0; 0]).
Proof.
  apply (Get_Key_Value_finds [(str "ifVPN", str "1")] (str "IMSI") (str "460023")
    (str "}]") [] (replicate 8 7)).
  - split; [discriminate|]. repeat constructor; discriminate.
  - split; [discriminate|]. repeat constructor; discriminate.
  - repeat constructor; reflexivity.
  - repeat constructor; discriminate.
  - vm_compute. lia.
  - vm_compute. lia.
Defined.

(** An empty string value is not read as empty: Get_Key_Value skips both
    of its quotes and returns the separator up to the next quote. *)
Lemma Get_Key_Value_empty_value fs k sep rest r Dst :
  word k -> value sep -> fresh k fs -> nonul (object fs k [] (sep ++ 34 :: rest)) ->
  (length (object fs k [] (sep ++ 34%Z :: rest)) < 512)%nat ->
  (length sep <= length Dst)%nat ->
  Get_Key_Value (Some (object fs k [] (sep ++ 34 :: rest) ++ 0 :: r)) k Dst (length Dst) =
  Ok (0, padded (length Dst) sep).
Proof.
  intros Hk Hv Hf Hn Hlen Hd. rewrite gkv_body by done.
  rewrite strstr_object, key_colon by done. simpl app.
  change (58 :: 34 :: 34 :: sep ++ 34 :: rest) with ([58] ++ 34 :: (34 :: sep ++ 34 :: rest)).
  unfold quote at 1. rewrite strstr_char by by repeat constructor.
  rewrite strtok_r_skip by done. rewrite value_token by done.
  by rewrite mwrite_zeros by lia.
Qed.

Lemma Get_Key_Value_empty_value_witness :
  Get_Key_Value
    (Some (object [] (str "APN") [] (str "," ++ 34 :: str "x") ++ 0 :: []))
    (str "APN") (zeros 4) 4
  = Ok (0, [44; 0; 0; 0]).
Proof.
  apply (Get_Key_Value_empty_value [] (str "APN") (str ",") (str "x") [] (zeros 4)).
  - split; [discriminate|]. repeat constructor; discriminate.
  - split; [discriminate|]. repeat constructor; discriminate.
  - constructor.
  - repeat constructor; discriminate.
  - vm_compute. lia.
  - vm_compute. lia.
Defined.

(** *** Data_Coing *)

(** A reply field: non-empty, no separator of the reply. *)
Definition token (t : bytes) : Prop :=
  t <> [] /\ Forall (fun c => c <> 0 /\ c <> 44 /\ c <> 124) t.

Definition reply_head (a b c d : bytes) : bytes := a ++ 44 :: b ++ 44 :: c ++ 44 :: d.

Lemma token_comma t r : token t -> strtok_r (t ++ 44 :: r) (str ",") = (Some t, r).
Proof.
  intros [Hne Ht]. apply strtok_r_token; [done| |done].
  eapply Forall_impl; [exact Ht|]. intros x (_ & H & _).
  change (Z.eqb x 44 || false = false). by rewrite (proj2 (Z.eqb_neq x 44)).
Qed.

Lemma token_last t : token t -> strtok_r t (str ",") = (Some t, []).
Proof.
  intros [Hne Ht]. apply strtok_r_last; [done|].
  eapply Forall_impl; [exact Ht|]. intros x (_ & H & _).
  change (Z.eqb x 44 || false = false). by rewrite (proj2 (Z.eqb_neq x 44)).
Qed.

Lemma coing_fields_reply a b c d :
  token a -> token b -> token c -> token d ->
  coing_fields (S (length (reply_head a b c d))) 0 (reply_head a b c d) Json_zero
  = Ok (mkJson (atoi a) (atoi b) (atoi c) (atoi d) 0 (zeros 512)).
Proof.
  intros Ha Hb Hc Hd. unfold reply_head.
  assert (4 <= length (a ++ 44%Z :: b ++ 44%Z :: c ++ 44%Z :: d))%nat as Hl.
  { destruct Ha as [Ha _], a; [done|]. rewrite !length_app; simpl.
    rewrite !length_app; simpl. rewrite !length_app; simpl. lia. }
  destruct (length _) as [|[|[|[|n]]]]; try lia.
  cbn [coing_fields]. rewrite token_comma by done. cbn [coing_fields].
  rewrite token_comma by done. cbn [coing_fields]. rewrite token_comma by done.
  cbn [coing_fields]. rewrite token_last by done. done.
Qed.

Lemma nonul_token t : token t -> nonul t.
Proof. intros [_ H]. eapply Forall_impl; [exact H|]. by intros ? [? _]. Qed.

Lemma reply_head_bar a b c d r :
  token a -> token b -> token c -> token d ->
  strtok_r (reply_head a b c d ++ 124 :: r) (str "|") = (Some (reply_head a b c d), r).
Proof.
  intros Ha Hb Hc Hd. apply strtok_r_token; [by destruct Ha as [? _], a| |done].
  assert (forall t, token t -> Forall (fun x => in_set (str "|") x = false) t) as H.
  { intros t [_ Ht]. eapply Forall_impl; [exact Ht|]. intros x (_ & _ & Hx).
    change (Z.eqb x 124 || false = false). by rewrite (proj2 (Z.eqb_neq x 124)). }
  unfold reply_head. rewrite !Forall_app, !Forall_cons, !Forall_app, !Forall_cons, !Forall_app, !Forall_cons.
  split_and!; auto.
Qed.

(** A reply with the payload [p] after its opening bracket. *)
Definition reply (a b c d p : bytes) : bytes := reply_head a b c d ++ 124 :: 91 :: p.

Definition no_bracket (p : bytes) : Prop := Forall (fun c => c <> 0 /\ c <> 91) p.

Lemma reply_nonul a b c d p :
  token a -> token b -> token c -> token d -> no_bracket p -> nonul (reply a b c d p).
Proof.
  intros Ha Hb Hc Hd Hp. unfold reply, reply_head, nonul.
  repeat (rewrite Forall_app || rewrite Forall_cons).
  split_and!; first [by apply nonul_token | done | idtac].
  eapply Forall_impl; [exact Hp|]. by intros ? [? _].
Qed.

(** Data_Coing after the header: the rest is coing_payload. *)
Lemma Data_Coing_reply a b c d p r :
  token a -> token b -> token c -> token d -> no_bracket p -> p <> [] ->
  Data_Coing (Some (reply a b c d p ++ 0 :: r)) Json_zero =
  let? data := coing_payload p (mkJson (atoi a) (atoi b) (atoi c) (atoi d) 0 (zeros 512)) in
  Ok (Result data, data).
Proof.
  intros Ha Hb Hc Hd Hp Hne. unfold Data_Coing.
  rewrite cstring_app by by apply reply_nonul. cbn [res_bind].
  rewrite (proj2 (Nat.eqb_neq _ 0)).
  2:{ unfold reply, reply_head. rewrite !length_app. simpl. lia. }
  unfold reply. rewrite reply_head_bar by done.
  rewrite coing_fields_reply by done. cbn [res_bind].
  rewrite strtok_r_skip by done. rewrite strtok_r_last; [done|done|].
  eapply Forall_impl; [exact Hp|]. intros x [_ Hx].
  change (Z.eqb x 91 || false = false). by rewrite (proj2 (Z.eqb_neq x 91)).
Qed.

(** Data_Coing reads a reply "head,type,num,result|[payload": the four
    numbers go to their fields, the payload without its first and its last
    byte to Data, Len is its length, and the result code is returned. *)
Lemma Data_Coing_reads a b c d x mid e r :
  token a -> token b -> token c -> token d -> no_bracket (x :: mid ++ [e]) ->
  (length mid <= 512)%nat ->
  Data_Coing (Some (reply a b c d (x :: mid ++ [e]) ++ 0 :: r)) Json_zero =
  Ok (atoi d, mkJson (atoi a) (atoi b) (atoi c) (atoi d) (Z.of_nat (length mid))
                (padded 512 mid)).
Proof.
  intros Ha Hb Hc Hd Hp Hl. rewrite Data_Coing_reply by done.
  unfold coing_payload. cbn [tail]. rewrite length_app. cbn [length].
  replace (Z.of_nat (length mid + 1) - 1) with (Z.of_nat (length mid)) by lia.
  rewrite (proj2 (Z.ltb_ge _ 0)) by lia. rewrite Nat2Z.id, take_app_length.
  cbn [Data]. by rewrite mwrite_zeros by lia.
Qed.

Lemma Data_Coing_reads_witness :
  Data_Coing (Some (reply (str "1") (str "1001") (str "12") (str "0") (123 :: str "abc" ++ [125])
    ++ 0 :: [])) Json_zero
  = Ok (0, mkJson 1 1001 12 0 3 (padded 512 (str "abc"))).
Proof.
  apply (Data_Coing_reads (str "1") (str "1001") (str "12") (str "0") 123 (str "abc") 125 []);
    first [split; [discriminate|repeat constructor; discriminate]
          | (repeat constructor; discriminate) | (vm_compute; lia)].
Defined.

(** A reply whose payload is a single byte, or longer than 514 bytes,
    makes Data_Coing write outside its 512-byte Data array. *)
Lemma Data_Coing_overruns a b c d p r :
  token a -> token b -> token c -> token d -> no_bracket p ->
  length p = 1%nat \/ (514 < length p)%nat ->
  Data_Coing (Some (reply a b c d p ++ 0 :: r)) Json_zero = Fault Overrun.
Proof.
  intros Ha Hb Hc Hd Hp Hl.
  rewrite Data_Coing_reply by (done || by destruct p; [simpl in Hl; lia|]).
  unfold coing_payload. destruct p as [|x q]; [simpl in Hl; lia|]. cbn [tail].
  destruct (Z.ltb_spec (Z.of_nat (length q) - 1) 0) as [?|Hge]; [done|].
  rewrite mwrite_overrun; [done|]. cbn [Data]. rewrite length_zeros, length_take.
  simpl in Hl. lia.
Qed.

Lemma Data_Coing_overruns_witness :
  Data_Coing (Some (reply (str "1") (str "2") (str "3") (str "0") (str "x") ++ 0 :: [])) Json_zero
  = Fault Overrun.
Proof.
  apply (Data_Coing_overruns (str "1") (str "2") (str "3") (str "0") (str "x") []);
    first [split; [discriminate|repeat constructor; discriminate]
          | (repeat constructor; discriminate) | by left].
Defined.

(** *** Find_Str_By_Key *)

Lemma fsk_object fs k v rest r Dst len :
  word k -> value v -> fresh k fs -> nonul (object fs k v rest) ->
  (length (object fs k v rest) < 1024)%nat -> length Dst = len -> (length v <= len)%nat ->
  Find_Str_By_Key (Some (object fs k v rest ++ 0 :: r)) k Dst len = Ok (0, padded len v).
Proof.
  intros Hk Hv Hf Hn Hlen Hd Hl. unfold Find_Str_By_Key.
  rewrite cstring_app by done. cbn [res_bind].
  rewrite mwrite_zeros by lia. cbn [res_bind].
  rewrite cstring_padded by (done || lia). cbn [res_bind].
  rewrite strstr_object by done.
  change (k ++ 34 :: 58 :: 34 :: v ++ 34 :: rest) with (k ++ [34] ++ 58 :: 34 :: v ++ 34 :: rest).
  rewrite app_assoc, (strtok_r_token _ (k ++ [34])); [|by destruct k| |done].
  2:{ apply Forall_app. split; [|by repeat constructor].
      destruct Hk as [_ Hk]. eapply Forall_impl; [exact Hk|]. intros x Hx. simpl in Hx.
      change (Z.eqb x 58 || false = false). by rewrite (proj2 (Z.eqb_neq x 58)) by lia. }
  rewrite value_token by done.
  rewrite mwrite_ok by (rewrite length_zeros; lia). cbn [res_bind].
  replace (patch Dst 0 (zeros len)) with (zeros len).
  2:{ unfold patch. rewrite length_zeros, drop_ge by lia. simpl. by rewrite app_nil_r. }
  by rewrite mwrite_zeros by lia.
Qed.

(** Find_Str_By_Key, which reads the remote commands, finds the value of
    a key in JSON text in the same way; without the key it returns -1 and
    leaves the destination as it is. *)
Lemma Find_Str_By_Key_finds fs k v rest r Dst len :
  word k -> value v -> fresh k fs -> nonul (object fs k v rest) ->
  (length (object fs k v rest) < 1024)%nat -> length Dst = len -> (length v <= len)%nat ->
  Find_Str_By_Key (Some (object fs k v rest ++ 0 :: r)) k Dst len = Ok (0, padded len v) /\
  forall k', strstr (object fs k v rest) k' = None ->
    Find_Str_By_Key (Some (object fs k v rest ++ 0 :: r)) k' Dst len = Ok (-1, Dst).
Proof.
  intros Hk Hv Hf Hn Hlen Hd Hl. split; [by apply fsk_object|].
  intros k' Hk'. unfold Find_Str_By_Key.
  rewrite cstring_app by done. cbn [res_bind].
  rewrite mwrite_zeros by lia. cbn [res_bind].
  rewrite cstring_padded by (done || lia). cbn [res_bind]. by rewrite Hk'.
Qed.

End Json.
