(* ===== verification/ListHead.v ===== *)
(** * inc/list.h: intrusive circular doubly-linked lists

    The memory that holds [struct list_head] objects is a finite map from
    addresses to their next/prev pointers; an access to an address that is not
    allocated is a [UseAfterFree] fault. [ring h head xs] says that [head] is
    the head of a well-formed list with the entries [xs]; the theorems show
    that the operations implement the list operations on [xs]. *)

From stdpp Require Import prelude gmap.
From S2P Require Import Prelude.
Open Scope Z_scope.

Module DList.

Abbreviation loc := positive.

Record list_head := mkHead { next : loc; prev : loc }.

Abbreviation heap := (gmap loc list_head).

Definition load (h : heap) (a : loc) : res list_head :=
  match h !! a with Some n => Ok n | None => Fault UseAfterFree end.

(** a->next = b; and a->prev = b; *)
Definition set_next (a b : loc) (h : heap) : res heap :=
  let? n := load h a in Ok (<[a := mkHead b (prev n)]> h).
Definition set_prev (a b : loc) (h : heap) : res heap :=
  let? n := load h a in Ok (<[a := mkHead (next n) b]> h).

Definition INIT_LIST_HEAD (list : loc) (h : heap) : res heap :=
  let? h := set_next list list h in
  set_prev list list h.

Definition __list_add (new prv nxt : loc) (h : heap) : res heap :=
  let? h := set_prev nxt new h in
  let? h := set_next new nxt h in
  let? h := set_prev new prv h in
  set_next prv new h.

Definition list_prepend (new head : loc) (h : heap) : res heap :=
  let? n := load h head in __list_add new (next n) head h.

Definition clist_add (new head : loc) (h : heap) : res heap :=
  let? n := load h head in __list_add new head (next n) h.

Definition list_add_tail (new head : loc) (h : heap) : res heap :=
  let? n := load h head in __list_add new (prev n) head h.

Definition __list_del (prv nxt : loc) (h : heap) : res heap :=
  let? h := set_prev nxt prv h in
  set_next prv nxt h.

(** entry->prev->next = entry->next; entry->next->prev = entry->prev; *)
Definition list_del (entry : loc) (h : heap) : res heap :=
  let? n := load h entry in
  let? h := set_next (prev n) (next n) h in
  let? n := load h entry in
  set_prev (next n) (prev n) h.

Definition list_empty (head : loc) (h : heap) : res bool :=
  let? n := load h head in Ok (bool_decide (next n = head)).

Definition __list_splice (list head : loc) (h : heap) : res heap :=
  let? l := load h list in
  let first := next l in
  let last := prev l in
  let? hd := load h head in
  let at_ := next hd in
  let? h := set_prev first head h in
  let? h := set_next head first h in
  let? h := set_next last at_ h in
  set_prev at_ last h.

Definition list_splice (list head : loc) (h : heap) : res heap :=
  let? e := list_empty list h in
  if e : bool then Ok h else __list_splice list head h.

(** list_for_each(pos, head) with a body that changes a state [S] and the
    memory: for (pos = head->next; pos != head; pos = pos->next) body *)
Fixpoint for_each_from {S} (fuel : nat) (body : loc -> S * heap -> res (S * heap))
  (head pos : loc) (st : S * heap) : res (S * heap) :=
  match fuel with
  | O => Fault NoFuel
  | S f =>
      if decide (pos = head) then Ok st
      else
        let? st := body pos st in
        let? n := load (snd st) pos in
        for_each_from f body head (next n) st
  end.

Definition list_for_each {S} (fuel : nat) (body : loc -> S * heap -> res (S * heap))
  (head : loc) (st : S * heap) : res (S * heap) :=
  let? n := load (snd st) head in
  for_each_from fuel body head (next n) st.

(** *** Well-formed lists *)

Definition nxt (h : heap) (a : loc) : option loc := next <$> h !! a.
Definition prv (h : heap) (a : loc) : option loc := prev <$> h !! a.

Definition link (h : heap) (a b : loc) : Prop := nxt h a = Some b /\ prv h b = Some a.

(** Every element is linked with the one after it. *)
Fixpoint links (h : heap) (c : list loc) : Prop :=
  match c with
  | a :: c' => match c' with b :: _ => link h a b /\ links h c' | [] => True end
  | [] => True
  end.

Definition ring (h : heap) (head : loc) (xs : list loc) : Prop :=
  NoDup (head :: xs) /\ links h (head :: xs ++ [head]).

Lemma links_app h l1 p l2 :
  links h (l1 ++ p :: l2) <-> links h (l1 ++ [p]) /\ links h (p :: l2).
Proof.
  induction l1 as [|a l1 IH]; simpl; [naive_solver|].
  destruct l1 as [|b l1]; simpl in *; [naive_solver|]. rewrite IH. naive_solver.
Qed.

(** Only the next pointers of all but the last and the prev pointers of all
    but the first element matter. *)
Lemma links_frame h h' l p :
  links h (l ++ [p]) ->
  (forall a, a ∈ l -> nxt h' a = nxt h a) ->
  (forall b, b ∈ tail (l ++ [p]) -> prv h' b = prv h b) ->
  links h' (l ++ [p]).
Proof.
  induction l as [|a l IH]; intros Hl Hn Hp; [done|].
  destruct l as [|b l]; simpl in *.
  - destruct Hl as [[? ?] _]. unfold link. rewrite Hn, Hp by set_solver. done.
  - destruct Hl as [[? ?] Hl]. split.
    + unfold link. rewrite Hn, Hp by set_solver. done.
    + apply IH; [done| |]; intros; [apply Hn|apply Hp]; set_solver.
Qed.

Lemma nxt_insert h a n c : nxt (<[a:=n]> h) c = if decide (a = c) then Some (next n) else nxt h c.
Proof. unfold nxt. rewrite lookup_insert. by case_decide. Qed.
Lemma prv_insert h a n c : prv (<[a:=n]> h) c = if decide (a = c) then Some (prev n) else prv h c.
Proof. unfold prv. rewrite lookup_insert. by case_decide. Qed.

Lemma set_next_ok h a b :
  is_Some (h !! a) -> exists h', set_next a b h = Ok h' /\
    (forall c, nxt h' c = if decide (a = c) then Some b else nxt h c) /\
    (forall c, prv h' c = prv h c) /\ (forall c, is_Some (h' !! c) <-> is_Some (h !! c)).
Proof.
  intros [n Hn]. unfold set_next, load. rewrite Hn. simpl. eexists. split_and!; [done| | |].
  - intros c. by rewrite nxt_insert.
  - intros c. rewrite prv_insert. case_decide; [|done]. subst. unfold prv. by rewrite Hn.
  - intros c. rewrite lookup_insert. case_decide; [subst; rewrite Hn; naive_solver|done].
Qed.

Lemma set_prev_ok h a b :
  is_Some (h !! a) -> exists h', set_prev a b h = Ok h' /\
    (forall c, prv h' c = if decide (a = c) then Some b else prv h c) /\
    (forall c, nxt h' c = nxt h c) /\ (forall c, is_Some (h' !! c) <-> is_Some (h !! c)).
Proof.
  intros [n Hn]. unfold set_prev, load. rewrite Hn. simpl. eexists. split_and!; [done| | |].
  - intros c. by rewrite prv_insert.
  - intros c. rewrite nxt_insert. case_decide; [|done]. subst. unfold nxt. by rewrite Hn.
  - intros c. rewrite lookup_insert. case_decide; [subst; rewrite Hn; naive_solver|done].
Qed.

(** The elements of a ring are allocated. *)
Lemma ring_alloc h head xs a : ring h head xs -> a ∈ head :: xs -> is_Some (h !! a).
Proof.
  intros [_ Hl] Ha. assert (exists b, nxt h a = Some b) as [b Hb].
  { apply list_elem_of_split in Ha as (l1 & l2 & E).
    assert (head :: xs ++ [head] = l1 ++ a :: (l2 ++ [head])) as E2.
    { change (head :: xs ++ [head]) with ((head :: xs) ++ [head]). by rewrite E, <-app_assoc. }
    rewrite E2 in Hl. apply links_app in Hl as [_ Hl].
    destruct (l2 ++ [head]) as [|b l] eqn:E3; [by destruct l2|].
    simpl in Hl. destruct Hl as [[? ?] _]. by exists b. }
  unfold nxt in Hb. destruct (h !! a); [done|discriminate].
Qed.

(** A ring cut open between [xs1] and [xs2]: [p] is the last element of the
    first part, [q] the first element of the second. *)
Definition cut_at (head : loc) (xs1 xs2 : list loc) (p q : loc) : Prop :=
  (exists l1, head :: xs1 = l1 ++ [p]) /\ (exists l2, xs2 ++ [head] = q :: l2).

Lemma cut_exists head xs1 xs2 : exists p q, cut_at head xs1 xs2 p q.
Proof.
  destruct (exists_last (l := head :: xs1)) as (l1 & p & E); [done|].
  exists p. unfold cut_at. destruct xs2 as [|q xs2].
  - exists head. split; [by exists l1|]. by exists [].
  - exists q. split; [by exists l1|]. by exists (xs2 ++ [head]).
Qed.

Lemma ring_cut h head xs1 xs2 p q :
  ring h head (xs1 ++ xs2) -> cut_at head xs1 xs2 p q ->
  links h (head :: xs1) /\ link h p q /\ links h (xs2 ++ [head]).
Proof.
  intros [_ Hl] [[l1 E1] [l2 E2]].
  change (head :: (xs1 ++ xs2) ++ [head]) with ((head :: xs1 ++ xs2) ++ [head]) in Hl.
  change (head :: xs1 ++ xs2) with ((head :: xs1) ++ xs2) in Hl.
  rewrite <-app_assoc, E2, E1, <-app_assoc in Hl. rewrite E1, E2.
  cbn [app] in Hl. rewrite links_app in Hl. destruct Hl as [H1 H2].
  cbn [links] in H2. tauto.
Qed.

Lemma ring_join h head xs1 xs2 p q :
  NoDup (head :: xs1 ++ xs2) -> cut_at head xs1 xs2 p q ->
  links h (head :: xs1) -> link h p q -> links h (xs2 ++ [head]) ->
  ring h head (xs1 ++ xs2).
Proof.
  intros Hnd [[l1 E1] [l2 E2]] H1 H2 H3. split; [done|].
  change (head :: (xs1 ++ xs2) ++ [head]) with ((head :: xs1 ++ xs2) ++ [head]).
  change (head :: xs1 ++ xs2) with ((head :: xs1) ++ xs2).
  rewrite <-app_assoc. rewrite E1 in *. rewrite E2 in *.
  rewrite <-app_assoc. cbn [app]. rewrite links_app. split; [done|]. cbn [links]. tauto.
Qed.

Lemma cut_in head xs1 xs2 p q :
  cut_at head xs1 xs2 p q -> p ∈ head :: xs1 /\ q ∈ xs2 ++ [head].
Proof. intros [[l1 ->] [l2 ->]]. set_solver. Qed.

(** The parts of a cut ring survive changes to p->next and q->prev. *)
Lemma cut_frame h h' head xs1 xs2 p q :
  NoDup (head :: xs1 ++ xs2) -> cut_at head xs1 xs2 p q ->
  (forall a, a ∈ head :: xs1 ++ xs2 -> a <> p -> nxt h' a = nxt h a) ->
  (forall b, b ∈ head :: xs1 ++ xs2 -> b <> q -> prv h' b = prv h b) ->
  links h (head :: xs1) -> links h (xs2 ++ [head]) ->
  links h' (head :: xs1) /\ links h' (xs2 ++ [head]).
Proof.
  intros Hnd Hcut Hn Hp H1 H2. destruct (cut_in _ _ _ _ _ Hcut) as [Hpin Hqin].
  apply NoDup_cons in Hnd as [Hhd Hnd]. apply NoDup_app in Hnd as (Hnd1 & Hdis & Hnd2).
  destruct Hcut as [[l1 E1] [l2 E2]].
  assert (NoDup (l1 ++ [p])) as Hndp by (rewrite <-E1; apply NoDup_cons; set_solver).
  assert (NoDup (q :: l2)) as Hndq.
  { rewrite <-E2. apply NoDup_app. split_and!; [done|set_solver|apply NoDup_singleton]. }
  split.
  - rewrite E1 in *. apply (links_frame h); [done| |].
    + intros a Ha. apply Hn; [rewrite app_comm_cons, E1; set_solver|].
      intros ->. apply NoDup_app in Hndp as (_ & Hd & _). set_solver.
    + intros b Hb. rewrite <-E1 in Hb. simpl in Hb. apply Hp; set_solver.
  - apply (links_frame h); [done| |].
    + intros a Ha. apply Hn; set_solver.
    + intros b Hb. rewrite E2 in Hb. simpl in Hb. apply Hp.
      * assert (b ∈ xs2 ++ [head]) by (rewrite E2; set_solver). set_solver.
      * apply NoDup_cons in Hndq. set_solver.
Qed.

(** Inserting [new] between the two parts. *)
Lemma ring_insert h head xs1 xs2 p q new :
  ring h head (xs1 ++ xs2) -> cut_at head xs1 xs2 p q ->
  new ∉ head :: xs1 ++ xs2 -> is_Some (h !! new) ->
  exists h', __list_add new p q h = Ok h' /\ ring h' head (xs1 ++ new :: xs2).
Proof.
  intros Hr Hcut Hnew Hal. destruct (cut_in _ _ _ _ _ Hcut) as [Hpin Hqin].
  assert (is_Some (h !! p)) as Hp by (eapply ring_alloc; [done|set_solver]).
  assert (is_Some (h !! q)) as Hq by (eapply ring_alloc; [done|set_solver]).
  assert (p <> new /\ q <> new) as [Np Nq] by set_solver.
  destruct (ring_cut _ _ _ _ _ _ Hr Hcut) as (L1 & _ & L2). destruct Hr as [Hnd _].
  unfold __list_add.
  destruct (set_prev_ok h q new Hq) as (h1 & -> & Ep1 & En1 & Es1). cbn [res_bind].
  destruct (set_next_ok h1 new q) as (h2 & -> & En2 & Ep2 & Es2); [by apply Es1|]. cbn [res_bind].
  destruct (set_prev_ok h2 new p) as (h3 & -> & Ep3 & En3 & Es3); [by apply Es2, Es1|]. cbn [res_bind].
  destruct (set_next_ok h3 p new) as (h4 & -> & En4 & Ep4 & Es4); [by apply Es3, Es2, Es1|].
  exists h4. split; [done|].
  assert (forall c, nxt h4 c = if decide (p = c) then Some new
            else if decide (new = c) then Some q else nxt h c) as En.
  { intros c. by rewrite En4, En3, En2, En1. }
  assert (forall c, prv h4 c = if decide (new = c) then Some p
            else if decide (q = c) then Some new else prv h c) as Ep.
  { intros c. by rewrite Ep4, Ep3, Ep2, Ep1. }
  destruct (cut_frame h h4 head xs1 xs2 p q) as [F1 F2]; [done|done| | |done|done|].
  { intros a Ha Na. rewrite En. rewrite !decide_False by set_solver. done. }
  { intros b Hb Nb. rewrite Ep. rewrite !decide_False by set_solver. done. }
  apply (ring_join h4 head xs1 (new :: xs2) p new).
  - destruct Hcut. clear -Hnd Hnew. apply NoDup_cons in Hnd as [? Hnd].
    apply NoDup_app in Hnd as (? & ? & ?).
    apply NoDup_cons. split; [set_solver|]. apply NoDup_app. split_and!; [done|set_solver|].
    apply NoDup_cons. set_solver.
  - split; [apply Hcut|]. by exists (xs2 ++ [head]).
  - done.
  - split; [rewrite En; by rewrite decide_True|rewrite Ep; by rewrite decide_True].
  - destruct Hcut as [_ [l2 E2]]. change ((new :: xs2) ++ [head]) with (new :: (xs2 ++ [head])).
    rewrite E2 in *. cbn [links]. split; [|done]. split.
    + rewrite En. by rewrite decide_False, decide_True.
    + rewrite Ep. by rewrite decide_False, decide_True.
Qed.

(** Taking [e] out from between the two parts. *)
Lemma ring_remove h head xs1 xs2 e :
  ring h head (xs1 ++ e :: xs2) ->
  exists h', list_del e h = Ok h' /\ ring h' head (xs1 ++ xs2) /\
    (forall c, is_Some (h' !! c) <-> is_Some (h !! c)) /\
    nxt h' e = nxt h e /\ prv h' e = prv h e.
Proof.
  intros Hr. destruct (cut_exists head xs1 xs2) as (p & q & Hcut).
  destruct (cut_in _ _ _ _ _ Hcut) as [Hpin Hqin].
  destruct (Hr) as [Hnd _].
  assert ((e ∉ head :: xs1 ++ xs2) /\ NoDup (head :: xs1 ++ xs2)) as [He Hnd'].
  { apply NoDup_cons in Hnd as [Hh Hnd]. apply NoDup_app in Hnd as (N1 & Hd & N2).
    apply NoDup_cons in N2 as [N2 N3].
    split; [set_solver|]. apply NoDup_cons. split; [set_solver|].
    apply NoDup_app. split_and!; [done|set_solver|done]. }
  assert (is_Some (h !! p)) as Hp by (eapply ring_alloc; [done|set_solver]).
  assert (is_Some (h !! q)) as Hq by (eapply ring_alloc; [done|set_solver]).
  destruct (ring_cut h head xs1 (e :: xs2) p e) as (L1 & [Lp1 Lp2] & L2); [done| |].
  { split; [apply Hcut|]. by exists (xs2 ++ [head]). }
  assert (link h e q /\ links h (xs2 ++ [head])) as [[Lq1 Lq2] L3].
  { destruct Hcut as [_ [l2 E2]]. cbn [app] in L2. rewrite E2 in *. cbn [links] in L2. tauto. }
  destruct (h !! e) as [[ne pe]|] eqn:Ee; [|unfold nxt in Lq1; by rewrite Ee in Lq1].
  assert (ne = q /\ pe = p) as [-> ->].
  { unfold nxt in Lq1. unfold prv in Lp2. rewrite Ee in *. simpl in *. by simplify_eq. }
  unfold list_del. unfold load at 1. rewrite Ee. cbn [res_bind next prev].
  destruct (set_next_ok h p q Hp) as (h1 & -> & En1 & Ep1 & Es1). cbn [res_bind].
  assert (load h1 e = Ok (mkHead q p)) as Hld.
  { unfold load. pose proof (En1 e) as A. pose proof (Ep1 e) as B.
    rewrite decide_False in A by set_solver. unfold nxt, prv in A, B. rewrite Ee in A, B.
    destruct (h1 !! e) as [[? ?]|]; simpl in *; by simplify_eq. }
  rewrite Hld. cbn [res_bind next prev].
  destruct (set_prev_ok h1 q p) as (h2 & -> & Ep2 & En2 & Es2); [by apply Es1|].
  exists h2. split; [done|].
  assert (forall c, nxt h2 c = if decide (p = c) then Some q else nxt h c) as En.
  { intros c. by rewrite En2, En1. }
  assert (forall c, prv h2 c = if decide (q = c) then Some p else prv h c) as Ep.
  { intros c. by rewrite Ep2, Ep1. }
  split_and!.
  - destruct (cut_frame h h2 head xs1 xs2 p q) as [F1 F2]; [done|done| | |done|done|].
    { intros a Ha Na. rewrite En. by rewrite decide_False. }
    { intros b Hb Nb. rewrite Ep. by rewrite decide_False. }
    apply (ring_join h2 head xs1 xs2 p q); [done|done|done| |done].
    split; [rewrite En; by rewrite decide_True|rewrite Ep; by rewrite decide_True].
  - intros c. by rewrite Es2, Es1.
  - rewrite En. rewrite decide_False by set_solver. done.
  - rewrite Ep. rewrite decide_False by set_solver. done.
Qed.

Lemma ring_head h head xs :
  ring h head xs -> exists p q, h !! head = Some (mkHead q p) /\
    cut_at head [] xs head q /\ cut_at head xs [] p head.
Proof.
  intros Hr. destruct (cut_exists head [] xs) as (p1 & q & Hc1).
  destruct (cut_exists head xs []) as (p & q1 & Hc2).
  assert (p1 = head) as ->.
  { destruct Hc1 as [[l1 E] _]. by destruct l1 as [|? []]; simplify_eq/=. }
  assert (q1 = head) as ->.
  { destruct Hc2 as [_ [l2 E]]. by simplify_eq/=. }
  destruct (ring_cut h head [] xs head q) as (_ & [Hq _] & _); [done|done|].
  destruct (ring_cut h head xs [] p head) as (_ & [_ Hp] & _); [by rewrite app_nil_r|done|].
  exists p, q. unfold nxt in Hq. unfold prv in Hp.
  destruct (h !! head) as [[? ?]|]; simplify_eq/=. done.
Qed.

(** The traversal visits the entries in order, when the body leaves the
    memory of the list alone. *)
Lemma for_each_ring {S} (f : loc -> S -> S) head : forall xs1 xs2 h p q s fuel,
  ring h head (xs1 ++ xs2) -> cut_at head xs1 xs2 p q -> (length xs2 < fuel)%nat ->
  for_each_from fuel (fun pos '(s, h) => Ok (f pos s, h)) head q (s, h)
  = Ok (foldl (fun s pos => f pos s) s xs2, h).
Proof.
  intros xs1 xs2. revert xs1. induction xs2 as [|x xs2 IH]; intros xs1 h p q s fuel Hr Hcut Hf;
    (destruct fuel as [|fuel]; [simpl in Hf; lia|]); cbn [for_each_from].
  - destruct Hcut as [_ [l2 E]]. simplify_eq/=. by rewrite decide_True.
  - destruct Hcut as [Hc1 [l2 E]]. simplify_eq/=.
    destruct (Hr) as [Hnd _].
    rewrite decide_False; [|apply NoDup_cons in Hnd as [? _]; set_solver].
    destruct (cut_exists head (xs1 ++ [q]) xs2) as (p' & q' & Hc').
    assert (p' = q) as ->.
    { destruct Hc' as [[l E] _]. rewrite app_comm_cons in E. by apply app_inj_tail in E as [_ ->]. }
    rewrite (app_assoc xs1 [q] xs2 : xs1 ++ q :: xs2 = (xs1 ++ [q]) ++ xs2) in Hr.
    destruct (ring_cut _ _ _ _ _ _ Hr Hc') as (_ & [Hn _] & _).
    unfold nxt in Hn. unfold load. destruct (h !! q) as [[? ?]|]; simplify_eq/=.
    apply (IH (xs1 ++ [q]) _ q); [done|done|lia].
Qed.

(** *** Facts for clients of a ring *)

Lemma add_tail_ring h head xs new :
  ring h head xs -> new ∉ head :: xs -> is_Some (h !! new) ->
  exists h', list_add_tail new head h = Ok h' /\ ring h' head (xs ++ [new]).
Proof.
  intros Hr Hnew Hal. destruct (ring_head _ _ _ Hr) as (p & q & Hh & Hc1 & Hc2).
  unfold list_add_tail, load. rewrite Hh. cbn [res_bind next prev].
  apply (ring_insert h head xs [] p head new); [by rewrite app_nil_r|done| |done].
  by rewrite app_nil_r.
Qed.

(** The entry a traversal of [xs] starts with. *)
Definition first_of (head : loc) (xs : list loc) : loc :=
  match xs with [] => head | x :: _ => x end.

Lemma first_of_app head xs l2 q : xs ++ [head] = q :: l2 -> q = first_of head xs.
Proof. destruct xs; intros; simplify_eq/=; done. Qed.

Lemma ring_first h head xs :
  ring h head xs -> exists n, load h head = Ok n /\ next n = first_of head xs.
Proof.
  intros Hr. destruct (ring_head _ _ _ Hr) as (p & q & Hh & [_ [l2 E]] & _).
  exists (mkHead q p). unfold load. rewrite Hh. split; [done|]. by eapply first_of_app.
Qed.

Lemma ring_next h head xs1 x xs2 :
  ring h head (xs1 ++ x :: xs2) -> exists n, load h x = Ok n /\ next n = first_of head xs2.
Proof.
  intros Hr. destruct (cut_exists head (xs1 ++ [x]) xs2) as (p & q & Hc).
  assert (p = x) as ->.
  { destruct Hc as [[l E] _]. rewrite app_comm_cons in E. by apply app_inj_tail in E as [_ ->]. }
  rewrite (app_assoc xs1 [x] xs2 : xs1 ++ x :: xs2 = (xs1 ++ [x]) ++ xs2) in Hr.
  destruct (ring_cut _ _ _ _ _ _ Hr Hc) as (_ & [Hn _] & _).
  unfold nxt in Hn. unfold load. destruct (h !! x) as [n|]; [|done].
  exists n. split; [done|]. simpl in Hn. destruct Hc as [_ [l2 E]].
  injection Hn as ->. by eapply first_of_app.
Qed.

(** A ring only depends on the memory of its entries. *)
Lemma ring_fresh h head xs p n : ring h head xs -> p ∉ head :: xs -> ring (<[p := n]> h) head xs.
Proof.
  intros [Hnd Hl] Hp. split; [done|]. rewrite app_comm_cons in *.
  apply (links_frame h); [done| |].
  - intros a Ha. rewrite nxt_insert, decide_False; [done|]. set_solver.
  - intros b Hb. rewrite prv_insert, decide_False; [done|]. simpl in Hb. set_solver.
Qed.

Lemma ring_size h head xs : ring h head xs -> (length xs < size h)%nat.
Proof.
  intros Hr. destruct (Hr) as [Hnd _].
  assert (list_to_set (head :: xs) ⊆ dom h) as Hsub.
  { intros a Ha. apply elem_of_list_to_set in Ha. apply elem_of_dom. by eapply ring_alloc. }
  apply subseteq_size in Hsub. rewrite size_list_to_set in Hsub by done.
  rewrite size_dom in Hsub. simpl in Hsub. lia.
Qed.

(** List_add_tail appends and clist_add prepends an entry that is not in
    the list yet; the result is again a well-formed ring. *)
Lemma list_add_refines h head xs new :
  ring h head xs -> new ∉ head :: xs -> is_Some (h !! new) ->
  (exists h', list_add_tail new head h = Ok h' /\ ring h' head (xs ++ [new])) /\
  (exists h', clist_add new head h = Ok h' /\ ring h' head (new :: xs)).
Proof.
  intros Hr Hnew Hal. split; [by apply add_tail_ring|].
  destruct (ring_head _ _ _ Hr) as (p & q & Hh & Hc1 & Hc2).
  unfold clist_add, load. rewrite Hh. cbn [res_bind next prev].
  by apply (ring_insert h head [] xs head q new).
Qed.

(** List_del removes its entry from the ring and keeps the order of the
    others; the entry's own pointers stay as they were, so a loop may still
    read them. *)
Lemma list_del_refines h head xs1 e xs2 :
  ring h head (xs1 ++ e :: xs2) ->
  exists h', list_del e h = Ok h' /\ ring h' head (xs1 ++ xs2) /\
    nxt h' e = nxt h e /\ prv h' e = prv h e.
Proof. intros Hr. destruct (ring_remove _ _ _ _ _ Hr) as (h' & ? & ? & _ & ? & ?). eauto 10. Qed.

(** A two-entry list with a fresh entry 4, used by the examples. *)
Definition demo : heap :=
  {[ 1%positive := mkHead 2 3; 2%positive := mkHead 3 1; 3%positive := mkHead 1 2;
     4%positive := mkHead 4 4 ]}.

Lemma demo_ring : ring demo 1 [2; 3]%positive.
Proof.
  split; [apply (bool_decide_unpack _); by vm_compute|].
  simpl. split_and!; try done; by vm_compute.
Qed.

Lemma list_add_refines_witness :
  (exists h', list_add_tail 4 1 demo = Ok h' /\ ring h' 1 [2; 3; 4]%positive) /\
  (exists h', clist_add 4 1 demo = Ok h' /\ ring h' 1 [4; 2; 3]%positive).
Proof.
  apply (list_add_refines demo 1 [2; 3]%positive 4); [apply demo_ring|set_solver|].
  by exists (mkHead 4 4).
Defined.

Lemma list_del_refines_witness :
  exists h', list_del 3 demo = Ok h' /\ ring h' 1 [2]%positive /\
    nxt h' 3 = nxt demo 3 /\ prv h' 3 = prv demo 3.
Proof. apply (list_del_refines demo 1 [2]%positive 3 []). apply demo_ring. Defined.

(** List_prepend passes the neighbours in the wrong order: on a list of
    two or more entries it links the new entry behind the first one and drops
    all the others from the ring. *)
Lemma list_prepend_loses h head a b xs new :
  ring h head (a :: b :: xs) -> new ∉ head :: a :: b :: xs -> is_Some (h !! new) ->
  exists h', list_prepend new head h = Ok h' /\
    nxt h' head = Some a /\ nxt h' a = Some new /\ nxt h' new = Some head.
Proof.
  intros Hr Hnew Hal. destruct (ring_head _ _ _ Hr) as (p & q & Hh & [_ [l2 Hq]] & _).
  simplify_eq/=.
  assert (is_Some (h !! q)) as Hq by (eapply ring_alloc; [done|set_solver]).
  assert (q <> head /\ new <> head /\ new <> q) as (N1 & N2 & N3).
  { destruct Hr as [Hnd _]. apply NoDup_cons in Hnd as [? _]. set_solver. }
  unfold list_prepend, load. rewrite Hh. cbn [res_bind next]. unfold __list_add.
  destruct (set_prev_ok h head new) as (h1 & -> & Ep1 & En1 & Es1); [by rewrite Hh|].
  cbn [res_bind].
  destruct (set_next_ok h1 new head) as (h2 & -> & En2 & Ep2 & Es2); [by apply Es1|]. cbn [res_bind].
  destruct (set_prev_ok h2 new q) as (h3 & -> & Ep3 & En3 & Es3); [by apply Es2, Es1|]. cbn [res_bind].
  destruct (set_next_ok h3 q new) as (h4 & -> & En4 & Ep4 & Es4); [by apply Es3, Es2, Es1|].
  exists h4. split; [done|]. rewrite !En4, !En3, !En2, !En1.
  rewrite (decide_False (P := q = head)), (decide_False (P := new = head)) by done.
  rewrite (decide_True (P := q = q)), (decide_False (P := q = new)),
    (decide_True (P := new = new)) by done.
  split_and!; try done. unfold nxt. by rewrite Hh.
Qed.

Lemma list_prepend_loses_witness :
  exists h', list_prepend 4 1 demo = Ok h' /\
    nxt h' 1 = Some 2%positive /\ nxt h' 2 = Some 4%positive /\ nxt h' 4 = Some 1%positive.
Proof.
  apply (list_prepend_loses demo 1 2 3 [] 4); [apply demo_ring|set_solver|].
  by exists (mkHead 4 4).
Defined.

End DList.
