(* ===== verification/Sock.v ===== *)
(** * Sockets (src/src/sock_base.c)

    The operating system is a script: [inp] holds the answers the following
    system calls get, [out] the calls that were made, in order. A call of
    which the program uses the result takes the next answer; once the script
    is used up, calls fail with EBADF. Diagnostics on stdout and stderr
    (printf, perror) are left out. *)

From stdpp Require Import prelude gmap strings.
From S2P Require Import Prelude CLib.
Open Scope Z_scope.

Module Sock.

Record answer := mkAns { a_ret : Z; a_errno : Z; a_data : bytes }.

Definition a_num (v : Z) : answer := mkAns v 0 [].
Definition a_err (e : Z) : answer := mkAns (-1) e [].
Definition a_bytes (d : bytes) : answer := mkAns (Z.of_nat (length d)) 0 d.

Inductive event :=
| ESocket (fd : Z)
| EConnect (fd : Z) (ip : bytes) (port : Z)
| EBind (fd : Z)
| EListen (fd : Z) (n : Z)
| EAccept (fd : Z)
| EUnlink (path : bytes)
| ETimeo (fd sec : Z)
| ESelect (fd : Z)
| ESend (fd : Z) (sent : bytes)
| ERecv (fd : Z) (got : bytes)
| EClose (fd : Z)
| ELock (mutex : Z)
| EUnlock (mutex : Z)
| EJob (pool : Z) (job : bytes)
| ELog (level : Z)
| ESleep (sec : Z)
| EOpen (path : bytes)
| EFcntl (fd cmd arg : Z)
| ETruncate (fd : Z).

Record io := mkIo { out : list event; inp : list answer }.

Definition EINTR : Z := 4.
Definition EBADF : Z := 9.

Definition ERR_SELECT : Z := -10.
Definition ERR_IOCTL : Z := -11.
Definition ERR_SOCKET : Z := -12.
Definition ERR_BIND : Z := -13.
Definition ERR_LISTEN : Z := -14.
Definition ERR_ACCEPT : Z := -15.
Definition ERR_CONNECT : Z := -16.
Definition ERR_RECV : Z := -17.
Definition ERR_SEND : Z := -18.
Definition ERR_TIME_OUT : Z := -19.

(** ** System calls *)

Definition emit (e : event) : M io unit :=
  modify (fun w => mkIo (out w ++ [e]) (inp w)).

Definition answered : M io answer := fun w =>
  match inp w with
  | [] => Ok (a_err EBADF, w)
  | a :: r => Ok (a, mkIo (out w) r)
  end.

Definition sys_socket : M io Z :=
  let! a := answered in
  if Z.ltb (a_ret a) 0 then ret (-1)
  else emit (ESocket (a_ret a)) ;; ret (a_ret a).

Definition sys_connect (fd : Z) (ip : bytes) (port : Z) : M io Z :=
  let! a := answered in
  emit (EConnect fd ip port) ;;
  ret (if Z.ltb (a_ret a) 0 then -1 else 0).

Definition sys_bind (fd : Z) : M io Z :=
  let! a := answered in
  emit (EBind fd) ;; ret (if Z.ltb (a_ret a) 0 then -1 else 0).

Definition sys_listen (fd n : Z) : M io Z :=
  let! a := answered in
  emit (EListen fd n) ;; ret (if Z.ltb (a_ret a) 0 then -1 else 0).

Definition sys_accept : M io (Z * bytes) :=
  let! a := answered in
  if Z.ltb (a_ret a) 0 then ret (-1, [])
  else emit (EAccept (a_ret a)) ;; ret (a_ret a, a_data a).

(** setsockopt whose result the program looks at *)
Definition sys_sockopt (fd : Z) : M io Z :=
  let! a := answered in ret (if Z.ltb (a_ret a) 0 then -1 else 0).

Definition sys_select (fd : Z) : M io (Z * Z) :=
  let! a := answered in
  emit (ESelect fd) ;; ret (a_ret a, a_errno a).

Definition sys_time : M io Z :=
  let! a := answered in ret (a_ret a).

(** send and write: the kernel takes a prefix of the bytes offered. *)
Definition sys_send (fd : Z) (b : bytes) : M io Z :=
  let! a := answered in
  if Z.ltb (a_ret a) 0 then ret (-1)
  else
    let p := take (Z.to_nat (a_ret a)) b in
    emit (ESend fd p) ;; ret (Z.of_nat (length p)).

(** recv and read of at most [n] bytes. *)
Definition sys_recv (fd : Z) (n : nat) : M io (Z * bytes) :=
  let! a := answered in
  if Z.ltb (a_ret a) 0 then ret (-1, [])
  else
    let p := take n (a_data a) in
    emit (ERecv fd p) ;; ret (Z.of_nat (length p), p).

Definition sys_close (fd : Z) : M io unit := emit (EClose fd).

(** ** Connections *)

Definition ConnectToServer (sIpAddr : bytes) (iPort : Z) : M io Z :=
  let! iSockFd := sys_socket in
  if Z.ltb iSockFd 0 then ret ERR_SOCKET else
  let! r := sys_connect iSockFd sIpAddr (u16 iPort) in
  if Z.ltb r 0 then ret ERR_CONNECT else ret iSockFd.

Definition ConnectToServerTimeOut (sIpAddr : bytes) (iPort iTimeout : Z) : M io Z :=
  let! iSockFd := sys_socket in
  if Z.ltb iSockFd 0 then ret ERR_SOCKET else
  let! r := sys_connect iSockFd sIpAddr (u16 iPort) in
  if Z.ltb r 0 then ret ERR_CONNECT else
  emit (ETimeo iSockFd iTimeout) ;;
  ret iSockFd.

Definition Delay (sec ms : Z) : M io Z :=
  let! (r, _) := sys_select 0 in ret r.

Definition CreateListenService (iPortNo iMaxConnect : Z) : M io Z :=
  let! iSockFd := sys_socket in
  if Z.ltb iSockFd 0 then ret ERR_SOCKET else
  let! r := sys_sockopt iSockFd in
  if Z.eqb r (-1) then sys_close iSockFd ;; ret ERR_SOCKET else
  let! r := sys_bind iSockFd in
  if Z.ltb r 0 then sys_close iSockFd ;; ret ERR_BIND else
  let! r := sys_listen iSockFd iMaxConnect in
  if Z.ltb r 0 then sys_close iSockFd ;; ret ERR_LISTEN else
  ret iSockFd.

(** The address text of the peer (inet_ntoa) is the data of the answer. *)
Definition AcceptConnection (iServerSockFd : Z) (sClientIp : bytes) : M io (Z * bytes) :=
  let! (iSockFd, addr) := sys_accept in
  if Z.ltb iSockFd 0 then ret (ERR_ACCEPT, sClientIp) else
  let! ip := lift (mwrite sClientIp 0 (addr ++ [0])) in
  emit (ETimeo iSockFd 180) ;;
  ret (iSockFd, ip).

Definition UdpPutMsg (iSockFd : Z) (sIP : bytes) (iPort : Z) (sMsg : bytes) (iLen : Z) : M io Z :=
  let! b := lift (mread sMsg 0 (Z.to_nat iLen)) in
  let! iRet := sys_send iSockFd b in
  ret (if negb (Z.eqb iRet iLen) then -1 else 0).

(** sun_path holds 108 bytes. *)
Definition ConnectToProcess (Process_Path : bytes) : M io Z :=
  let! connect_fd := sys_socket in
  if Z.ltb connect_fd 0 then ret ERR_SOCKET else
  let! path := lift (mwrite (zeros 108) 0 (Process_Path ++ [0])) in
  let! r := sys_connect connect_fd Process_Path 0 in
  if Z.eqb r (-1) then sys_close connect_fd ;; ret ERR_CONNECT else
  ret connect_fd.

Definition CreateListenProcess (Process_Path : bytes) : M io Z :=
  let! lsn_fd := sys_socket in
  if Z.ltb lsn_fd 0 then ret ERR_SOCKET else
  emit (EUnlink Process_Path) ;;
  let! r := sys_bind lsn_fd in
  if Z.eqb r (-1)
  then sys_close lsn_fd ;; emit (EUnlink Process_Path) ;; ret ERR_BIND else
  let! r := sys_listen lsn_fd 1 in
  if Z.eqb r (-1)
  then sys_close lsn_fd ;; emit (EUnlink Process_Path) ;; ret ERR_LISTEN else
  ret lsn_fd.

Definition IsConnection (lsn_fd timeout : Z) : M io Z :=
  let! (r, _) := sys_select lsn_fd in
  if Z.eqb r 0 then ret 0
  else if negb (Z.eqb r 0) then ret lsn_fd
  else ret (-1).

Definition AcceptProcessConnection (lsn_fd : Z) : M io Z :=
  let! (apt_fd, _) := sys_accept in
  if Z.ltb apt_fd 0 then ret ERR_ACCEPT else ret apt_fd.

Definition Set_Recv_Sock_TimeOut (sockfd iTimeout : Z) : M io Z :=
  emit (ETimeo sockfd iTimeout) ;; ret 0.

(** ** Sending *)

(** sBuf + iPos, iLen - iPos bytes: a negative count is a huge size_t. *)
Definition offered (sBuf : bytes) (iPos iLen : Z) : res bytes :=
  if Z.ltb (iLen - iPos) 0 then Fault Overread
  else mread sBuf (Z.to_nat iPos) (Z.to_nat (iLen - iPos)).

Fixpoint PutMsgToSock_loop (fuel : nat) (iSockFd : Z) (sBuf : bytes) (iPos iLen : Z) : M io Z :=
  match fuel with
  | O => fail NoFuel
  | S f =>
      let! (iRtn, errno) := sys_select iSockFd in
      if Z.ltb iRtn 0 && negb (Z.eqb errno EINTR) then ret ERR_SELECT
      else if Z.eqb iRtn 0 then ret ERR_TIME_OUT
      else
        let! b := lift (offered sBuf iPos iLen) in
        let! iRtn := sys_send iSockFd b in
        if Z.ltb iRtn 0 then ret ERR_SEND
        else if Z.ltb (iPos + iRtn) iLen
        then PutMsgToSock_loop f iSockFd sBuf (iPos + iRtn) iLen
        else ret iLen
  end.

Definition PutMsgToSock (iSockFd : Z) (sBuf : bytes) (iLen : Z) : M io Z :=
  fun w => PutMsgToSock_loop (S (length (inp w))) iSockFd sBuf 0 iLen w.

Fixpoint PutMsgToProcess_loop (fuel : nat) (iSock : Z) (sBuf : bytes) (iPos iLen : Z) : M io Z :=
  match fuel with
  | O => fail NoFuel
  | S f =>
      let! b := lift (offered sBuf iPos iLen) in
      let! iRtn := sys_send iSock b in
      if Z.ltb iRtn 0 then ret ERR_SEND
      else if Z.ltb (iPos + iRtn) iLen
      then PutMsgToProcess_loop f iSock sBuf (iPos + iRtn) iLen
      else ret iLen
  end.

Definition PutMsgToProcess (iSock : Z) (sBuf : bytes) (iLen : Z) : M io Z :=
  fun w => PutMsgToProcess_loop (S (length (inp w))) iSock sBuf 0 iLen w.

(** ** Receiving *)

(** A received prefix stored at sBuf + iPos. *)
Definition stored (sBuf : bytes) (iPos : Z) (b : bytes) : res bytes :=
  if Z.ltb iPos 0 then Fault Overrun else mwrite sBuf (Z.to_nat iPos) b.

(** A size_t argument that comes from an int. *)
Definition size_of (n : Z) : res nat :=
  if Z.ltb n 0 then Fault Overrun else Ok (Z.to_nat n).

(** ioctl(FIONREAD) answers the number of bytes that can be read. *)
Fixpoint GetMsgFromSock_loop (fuel : nat) (iSockFd : Z) (sBuf : bytes) (iPos iLen iTimeOut : Z)
  : M io (Z * bytes) :=
  match fuel with
  | O => fail NoFuel
  | S f =>
      let! (iRtn, _) := sys_select iSockFd in
      if Z.ltb iRtn 0 then ret (ERR_SELECT, sBuf)
      else if Z.eqb iRtn 0 then ret (ERR_TIME_OUT, sBuf)
      else
        let! a := answered in
        if Z.ltb (a_ret a) 0 then ret (ERR_IOCTL, sBuf)
        else
          let iCurDataLen := a_ret a in
          let iLen := if Z.eqb iLen 0 then iCurDataLen else iLen in
          let iCurDataLen := if Z.ltb (iLen - iPos) iCurDataLen then iLen - iPos else iCurDataLen in
          let! n := lift (size_of iCurDataLen) in
          let! (iRtn, b) := sys_recv iSockFd n in
          let! sBuf := lift (stored sBuf iPos b) in
          if Z.leb iRtn 0 && (Z.ltb 0 iCurDataLen || Z.eqb iTimeOut 0)
          then ret (ERR_RECV, sBuf)
          else if Z.ltb (iPos + iRtn) iLen
          then GetMsgFromSock_loop f iSockFd sBuf (iPos + iRtn) iLen iTimeOut
          else
            let! sBuf := lift (stored sBuf iLen [0]) in
            ret (iLen, sBuf)
  end.

Definition GetMsgFromSock (iSockFd : Z) (sBuf : bytes) (iLen iTimeOut : Z) : M io (Z * bytes) :=
  fun w => GetMsgFromSock_loop (S (length (inp w))) iSockFd sBuf 0 iLen iTimeOut w.

Definition GetMsgFromSock1 (iSockFd : Z) (sBuf : bytes) (iLen iTimeOut : Z) : M io (Z * bytes) :=
  let! (iRtn, _) := sys_select iSockFd in
  if Z.ltb iRtn 0 then ret (ERR_SELECT, sBuf)
  else if Z.eqb iRtn 0 then ret (ERR_TIME_OUT, sBuf)
  else
    let! n := lift (size_of iLen) in
    let! (iRtn, b) := sys_recv iSockFd n in
    if Z.leb iRtn 0 then ret (ERR_RECV, sBuf)
    else
      let! sBuf := lift (mwrite sBuf 0 b) in
      let! sBuf := lift (mwrite sBuf (Z.to_nat iRtn) [0]) in
      ret (iRtn, sBuf).

(** The loop polls: a script that ends while it waits is [NoFuel]. *)
Fixpoint GetMsgFromProcess_loop (fuel : nat) (iSockFd : Z) (sBuf : bytes)
  (start iPos iLen iTimeOut : Z) : M io (Z * bytes) :=
  match fuel with
  | O => fail NoFuel
  | S f =>
      let! now := sys_time in
      if Z.ltb iTimeOut (now - start) && negb (Z.eqb iTimeOut 0)
      then ret (if negb (Z.eqb iPos 0) then iPos else ERR_TIME_OUT, sBuf)
      else
        let! n := lift (size_of (iLen - iPos)) in
        let! (iRtn, b) := sys_recv iSockFd n in
        let! sBuf := lift (stored sBuf iPos b) in
        if Z.eqb iRtn 0
        then let! sBuf := lift (stored sBuf iPos [0]) in ret (iPos, sBuf)
        else
          let iRtn := if Z.ltb iRtn 0 then 0 else iRtn in
          if Z.ltb (iPos + iRtn) iLen
          then GetMsgFromProcess_loop f iSockFd sBuf start (iPos + iRtn) iLen iTimeOut
          else
            let! sBuf := lift (stored sBuf (iPos + iRtn) [0]) in
            ret (iPos + iRtn, sBuf)
  end.

Definition GetMsgFromProcess (iSockFd : Z) (sBuf : bytes) (iLen iTimeOut : Z) : M io (Z * bytes) :=
  let! start := sys_time in
  fun w => GetMsgFromProcess_loop (S (length (inp w))) iSockFd sBuf start 0 iLen iTimeOut w.

(** Read and drop what the peer still sends, then close: sBuf has 2048 bytes. *)
Fixpoint WaitClose_loop (fuel : nat) (iSockID : Z) (sBuf : bytes) (iWaitSec : Z) : M io unit :=
  match fuel with
  | O => fail NoFuel
  | S f =>
      let! (r, sBuf) := GetMsgFromSock iSockID sBuf 0 iWaitSec in
      if Z.ltb 0 r then WaitClose_loop f iSockID sBuf iWaitSec
      else sys_close iSockID
  end.

Definition WaitClose (iSockID iWaitSec : Z) : M io unit :=
  fun w => WaitClose_loop (S (length (inp w))) iSockID (zeros 2048) iWaitSec w.

(** ** Addresses *)

(** gethostbyname + inet_ntoa: the address text, or no host. *)
Definition GetIPbyDNS (dns : bytes -> option bytes) (hostname IP : option bytes)
  : res (Z * option bytes) :=
  match hostname, IP with
  | Some h, Some ip =>
      match dns h with
      | Some t => let? ip := mwrite ip 0 (t ++ [0]) in Ok (0, Some ip)
      | None => Ok (-2, Some ip)
      end
  | _, _ => Ok (-1, IP)
  end.

(** The interfaces getifaddrs lists: [None] has a NULL ifa_addr. *)
Inductive ifaddr := Inet (text : bytes) | OtherFamily.

Fixpoint GetLocalIp (ifs : list (option ifaddr)) (ip : bytes) : res bytes :=
  match ifs with
  | [] => Ok ip
  | None :: _ => Fault NullDeref
  | Some OtherFamily :: r => GetLocalIp r ip
  | Some (Inet t) :: r =>
      if bool_decide (t = str "127.0.0.1") then GetLocalIp r ip
      else let? ip := mwrite ip 0 t in GetLocalIp r ip
  end.

(** ** What a run did *)

(** The bytes that went out on a descriptor. *)
Fixpoint sent (fd : Z) (es : list event) : bytes :=
  match es with
  | [] => []
  | ESend fd' b :: r => (if Z.eqb fd fd' then b else []) ++ sent fd r
  | _ :: r => sent fd r
  end.

(** The descriptors opened and not closed again. *)
Definition live_step (s : gset Z) (e : event) : gset Z :=
  match e with
  | ESocket fd | EAccept fd => {[fd]} ∪ s
  | EClose fd => s ∖ {[fd]}
  | _ => s
  end.

Definition live (es : list event) : gset Z := foldl live_step ∅ es.

(** [after w evs w']: [w'] is [w] after the further calls [evs]. *)
Definition after (w : io) (evs : list event) (w' : io) : Prop := out w' = out w ++ evs.

Lemma after_refl w : after w [] w.
Proof. unfold after. by rewrite app_nil_r. Qed.

Lemma after_trans w1 w2 w3 a b : after w1 a w2 -> after w2 b w3 -> after w1 (a ++ b) w3.
Proof. unfold after. intros H1 H2. by rewrite H2, H1, app_assoc. Qed.

Lemma sent_app fd a b : sent fd (a ++ b) = sent fd a ++ sent fd b.
Proof.
  induction a as [|e a IH]; [done|].
  destruct e; cbn [sent app]; rewrite ?IH, ?app_assoc; done.
Qed.

Lemma offered_ok sBuf iPos iLen :
  0 <= iPos <= iLen -> iLen <= Z.of_nat (length sBuf) ->
  offered sBuf iPos iLen = Ok (take (Z.to_nat (iLen - iPos)) (drop (Z.to_nat iPos) sBuf)).
Proof.
  intros. unfold offered. destruct (Z.ltb_spec (iLen - iPos) 0); [lia|].
  apply mread_ok. lia.
Qed.

(** One send of the rest of the buffer: it fails, or its bytes extend what
    was sent so far to a longer prefix of the buffer. *)
Lemma send_step fd sBuf iPos iLen w :
  0 <= iPos <= iLen -> iLen <= Z.of_nat (length sBuf) ->
  let b := take (Z.to_nat (iLen - iPos)) (drop (Z.to_nat iPos) sBuf) in
  exists r w',
    sys_send fd b w = Ok (r, w') /\ (length (inp w') <= length (inp w))%nat /\
    (inp w = [] -> r < 0) /\ (inp w <> [] -> length (inp w') < length (inp w))%nat /\
    exists evs, after w evs w' /\
    (r < 0 /\ sent fd evs = [] \/
     0 <= r <= iLen - iPos /\
     sent fd evs = take (Z.to_nat r) (drop (Z.to_nat iPos) sBuf)).
Proof.
  intros Hp Hl b. unfold sys_send, answered, bind, emit, modify, ret.
  destruct w as [o [|a r]]; simpl.
  - do 2 eexists. split_and!; [done|simpl; lia|lia|done|].
    exists []. split; [apply after_refl|]. left. split; [lia|done].
  - destruct (Z.ltb_spec (a_ret a) 0).
    + do 2 eexists. split_and!; [done|simpl; lia|done|simpl; lia|].
      exists []. split; [unfold after; by rewrite app_nil_r|]. left. split; [lia|done].
    + do 2 eexists. split_and!; [done|simpl; lia|done|simpl; lia|].
      eexists [_]. split; [done|]. right.
      assert (Hb : length b = Z.to_nat (iLen - iPos)) by (subst b; len).
      rewrite length_take. cbn [sent]. rewrite Z.eqb_refl, app_nil_r. split; [lia|].
      subst b. rewrite take_take. f_equal. len.
Qed.

(** What a sending loop promises from position [iPos] on. *)
Definition sends_rest (fd : Z) (sBuf : bytes) (iPos iLen : Z) (w : io) (o : res (Z * io)) : Prop :=
  exists r w' evs, o = Ok (r, w') /\ after w evs w' /\
    (r = iLen /\ take (Z.to_nat iPos) sBuf ++ sent fd evs = take (Z.to_nat iLen) sBuf \/
     r ∈ [ERR_SELECT; ERR_TIME_OUT; ERR_SEND] /\
     exists n, 0 <= n <= iLen /\
       take (Z.to_nat iPos) sBuf ++ sent fd evs = take (Z.to_nat n) sBuf).

Lemma sends_rest_stop fd sBuf iPos iLen w w' evs r :
  0 <= iPos <= iLen -> after w evs w' -> sent fd evs = [] ->
  r ∈ [ERR_SELECT; ERR_TIME_OUT; ERR_SEND] ->
  sends_rest fd sBuf iPos iLen w (Ok (r, w')).
Proof.
  intros Hp Ha Hs Hr. exists r, w', evs. split_and!; [done..|]. right. split; [done|].
  exists iPos. split; [lia|]. by rewrite Hs, app_nil_r.
Qed.

Lemma sends_rest_step fd sBuf iPos iLen r w w1 evs o :
  0 <= iPos -> 0 <= r -> after w evs w1 ->
  sent fd evs = take (Z.to_nat r) (drop (Z.to_nat iPos) sBuf) ->
  sends_rest fd sBuf (iPos + r) iLen w1 o -> sends_rest fd sBuf iPos iLen w o.
Proof.
  intros Hp Hr Ha Hs (r' & w' & evs' & -> & Ha' & H).
  assert (E : take (Z.to_nat iPos) sBuf ++ sent fd (evs ++ evs') =
              take (Z.to_nat (iPos + r)) sBuf ++ sent fd evs').
  { rewrite sent_app, Hs, app_assoc, take_take_drop. do 2 f_equal. lia. }
  exists r', w', (evs ++ evs'). split_and!; [done|by eapply after_trans|].
  rewrite E. naive_solver.
Qed.

Lemma sends_rest_done fd sBuf iLen w :
  0 <= iLen -> sends_rest fd sBuf iLen iLen w (Ok (iLen, w)).
Proof.
  intros. exists iLen, w, []. split_and!; [done|apply after_refl|]. left.
  split; [done|]. by rewrite app_nil_r.
Qed.

Lemma PutMsgToProcess_loop_spec fuel fd sBuf iPos iLen w :
  0 <= iPos <= iLen -> iLen <= Z.of_nat (length sBuf) -> (length (inp w) < fuel)%nat ->
  sends_rest fd sBuf iPos iLen w (PutMsgToProcess_loop fuel fd sBuf iPos iLen w).
Proof.
  revert iPos w. induction fuel as [|f IH]; intros iPos w Hp Hl Hf; [lia|].
  cbn [PutMsgToProcess_loop]. rewrite offered_ok by done.
  destruct (send_step fd sBuf iPos iLen w Hp Hl) as (r & w' & E & Hle & H0 & Hlt & evs & Ha & Hr).
  rewrite (bind_ok _ _ _ _ _ eq_refl), (bind_ok _ _ _ _ _ E).
  destruct (Z.ltb_spec r 0).
  { destruct Hr as [[_ Hs]|[? _]]; [|lia].
    eapply sends_rest_stop; [done..|unfold ERR_SEND; set_solver]. }
  destruct Hr as [[? _]|[Hr Hs]]; [lia|].
  eapply (sends_rest_step _ _ _ _ r); [lia|lia|done|done|].
  destruct (Z.ltb_spec (iPos + r) iLen).
  - apply IH; [lia|lia|]. destruct (decide (inp w = [])) as [Hw|Hw]; [apply H0 in Hw; lia|].
    specialize (Hlt Hw). lia.
  - replace (iPos + r) with iLen by lia. apply sends_rest_done. lia.
Qed.

Lemma select_step fd w :
  exists r e w', sys_select fd w = Ok ((r, e), w') /\ after w [ESelect fd] w' /\
    (inp w = [] -> r = -1 /\ e = EBADF) /\
    (inp w <> [] -> length (inp w') < length (inp w))%nat.
Proof.
  unfold sys_select, answered, bind, emit, modify, ret.
  destruct w as [o [|a r]]; simpl; do 3 eexists; (split; [done|]);
    (split; [done|]); split; try done; simpl; lia.
Qed.

Lemma PutMsgToSock_loop_spec fuel fd sBuf iPos iLen w :
  0 <= iPos <= iLen -> iLen <= Z.of_nat (length sBuf) -> (length (inp w) < fuel)%nat ->
  sends_rest fd sBuf iPos iLen w (PutMsgToSock_loop fuel fd sBuf iPos iLen w).
Proof.
  revert iPos w. induction fuel as [|f IH]; intros iPos w Hp Hl Hf; [lia|].
  cbn [PutMsgToSock_loop].
  destruct (select_step fd w) as (r0 & e & w0 & E0 & Ha0 & H00 & Hlt0).
  rewrite (bind_ok _ _ _ _ _ E0).
  destruct (Z.ltb r0 0 && negb (Z.eqb e EINTR)) eqn:Hsel.
  { eapply sends_rest_stop; [done|exact Ha0|done|set_solver]. }
  destruct (Z.eqb_spec r0 0).
  { eapply sends_rest_stop; [done|exact Ha0|done|set_solver]. }
  assert (Hw : inp w <> []).
  { intros Hw. destruct (H00 Hw) as [-> ->]. done. }
  specialize (Hlt0 Hw). rewrite offered_ok by done.
  destruct (send_step fd sBuf iPos iLen w0 Hp Hl) as (r & w' & E & Hle & _ & _ & evs & Ha & Hr).
  rewrite (bind_ok _ _ _ _ _ eq_refl), (bind_ok _ _ _ _ _ E).
  destruct (Z.ltb_spec r 0).
  { destruct Hr as [[_ Hs]|[? _]]; [|lia].
    eapply sends_rest_stop; [done|by eapply after_trans|by rewrite sent_app, Hs|set_solver]. }
  destruct Hr as [[? _]|[Hr Hs]]; [lia|].
  eapply (sends_rest_step _ _ _ _ r); [lia|lia|by eapply after_trans|by rewrite sent_app, Hs|].
  destruct (Z.ltb_spec (iPos + r) iLen).
  - apply IH; lia.
  - replace (iPos + r) with iLen by lia. apply sends_rest_done. lia.
Qed.

(** C40: PutMsgToSock and PutMsgToProcess always return; they return iLen only
    when the descriptor got exactly the iLen bytes of the buffer in order, and
    otherwise one of the error codes, after a prefix of the buffer. *)
Theorem put_sends_all fd sBuf iLen w :
  0 <= iLen <= Z.of_nat (length sBuf) ->
  sends_rest fd sBuf 0 iLen w (PutMsgToSock fd sBuf iLen w) /\
  sends_rest fd sBuf 0 iLen w (PutMsgToProcess fd sBuf iLen w).
Proof.
  intros. split; [apply PutMsgToSock_loop_spec|apply PutMsgToProcess_loop_spec]; lia.
Qed.

Definition script1 : io :=
  mkIo [] [a_num 1; a_num 2; a_err EINTR; a_num 1; a_num 1; a_num 9].

Lemma put_sends_all_witness :
  0 <= 4 <= Z.of_nat (length [7; 8; 9; 10; 11]) /\
  sends_rest 5 [7; 8; 9; 10; 11] 0 4 script1 (PutMsgToSock 5 [7; 8; 9; 10; 11] 4 script1) /\
  sends_rest 5 [7; 8; 9; 10; 11] 0 4 script1 (PutMsgToProcess 5 [7; 8; 9; 10; 11] 4 script1).
Proof. split; [simpl; lia|]. apply put_sends_all. simpl. lia. Defined.

(** A kernel that is ready each time and takes at least a byte. *)
Definition willing (w : io) (n : nat) : Prop :=
  exists ks rest, inp w = (ks ≫= fun k => [a_num 1; a_num k]) ++ rest /\
    length ks = n /\ Forall (fun k => 1 <= k) ks.

Lemma select_ready fd o i : sys_select fd (mkIo o (a_num 1 :: i)) = Ok ((1, 0), mkIo (o ++ [ESelect fd]) i).
Proof. done. Qed.

Lemma send_taken fd b o k i :
  1 <= k ->
  sys_send fd b (mkIo o (a_num k :: i)) =
  Ok (Z.of_nat (length (take (Z.to_nat k) b)), mkIo (o ++ [ESend fd (take (Z.to_nat k) b)]) i).
Proof.
  intros. unfold sys_send, bind, answered. cbn [inp a_num a_ret].
  destruct (Z.ltb_spec k 0); [lia|done].
Qed.

Lemma connect_accepted ip port sec fd o i :
  0 <= fd ->
  ConnectToServerTimeOut ip port sec (mkIo o (a_num fd :: a_num 0 :: i)) =
  Ok (fd, mkIo (o ++ [ESocket fd; EConnect fd ip (u16 port); ETimeo fd sec]) i).
Proof.
  intros. unfold ConnectToServerTimeOut, sys_socket, bind at 1 2, answered. cbn [inp a_num a_ret].
  destruct (Z.ltb_spec fd 0) as [|_]; [lia|]. unfold bind at 1, emit, modify, ret. cbn [inp out].
  destruct (Z.ltb_spec fd 0); [lia|].
  unfold sys_connect, answered, bind, emit, modify, ret. cbn [inp out a_ret].
  change (a_ret (a_num 0)) with 0. change (Z.ltb 0 0) with false. cbn [out inp]. change (Z.ltb 0 0) with false.
  cbn [out inp]. by rewrite <-!app_assoc.
Qed.

Lemma recv_bytes fd n t o i :
  sys_recv fd n (mkIo o (a_bytes t :: i)) =
  Ok ((Z.of_nat (length (take n t)), take n t), mkIo (o ++ [ERecv fd (take n t)]) i).
Proof.
  unfold sys_recv, bind, answered. cbn [inp a_bytes a_ret a_data].
  destruct (Z.ltb_spec (Z.of_nat (length t)) 0); [lia|done].
Qed.

Lemma PutMsgToSock_loop_completes n fuel fd sBuf iPos iLen w :
  0 <= iPos < iLen -> iLen <= Z.of_nat (length sBuf) -> (n <= fuel)%nat ->
  iLen - iPos <= Z.of_nat n -> willing w n ->
  exists w', PutMsgToSock_loop fuel fd sBuf iPos iLen w = Ok (iLen, w').
Proof.
  revert iPos fuel w. induction n as [|n IH]; intros iPos fuel w Hp Hl Hf Hn Hw; [lia|].
  destruct fuel as [|f]; [lia|]. destruct Hw as ([|k ks] & rest & Ew & Hks & Hall); [done|].
  destruct w as [o i]. simpl in Ew, Hks. subst i. apply Forall_cons in Hall as [Hk Hall].
  cbn [PutMsgToSock_loop]. rewrite (bind_ok _ _ _ _ _ (select_ready _ _ _)).
  change (Z.ltb 1 0) with false. change (Z.eqb 1 0) with false. cbn [andb].
  rewrite offered_ok, (bind_ok _ _ _ _ _ eq_refl) by lia.
  rewrite (bind_ok _ _ _ _ _ (send_taken _ _ _ _ _ Hk)).
  match goal with |- context [length ?b] =>
    assert (Hb : length b = (Z.to_nat k `min` Z.to_nat (iLen - iPos))%nat) by len end.
  rewrite Hb. destruct (Z.ltb_spec (Z.of_nat (Z.to_nat k `min` Z.to_nat (iLen - iPos))) 0); [lia|].
  destruct (Z.ltb_spec (iPos + Z.of_nat (Z.to_nat k `min` Z.to_nat (iLen - iPos))) iLen);
    [|eexists; unfold ret; done].
  apply IH; [lia|done|lia|lia|]. exists ks, rest. split_and!; [done|lia|done].
Qed.

(** PutMsgToSock delivers: when the socket is writable and takes at
    least one byte each time, iLen rounds are enough and iLen is returned. *)
Lemma PutMsgToSock_completes fd sBuf iLen w :
  0 < iLen <= Z.of_nat (length sBuf) -> willing w (Z.to_nat iLen) ->
  exists w', PutMsgToSock fd sBuf iLen w = Ok (iLen, w').
Proof.
  intros Hl Hw. apply (PutMsgToSock_loop_completes (Z.to_nat iLen)); try lia; [|done].
  destruct Hw as (ks & rest & -> & <- & _). rewrite length_app.
  enough (length ks <= length (ks ≫= fun k => [a_num 1; a_num k]))%nat by lia.
  clear. induction ks; csimpl; lia.
Qed.

Lemma PutMsgToSock_completes_witness :
  exists w', PutMsgToSock 5 [7; 8; 9] 2 (mkIo [] [a_num 1; a_num 1; a_num 1; a_num 1]) = Ok (2, w').
Proof.
  apply PutMsgToSock_completes; [simpl; lia|].
  exists [1; 1], []. split_and!; [done..|]. repeat constructor; lia.
Defined.

(** ** Descriptors *)

(** The outcome keeps no descriptor open but the one it returns. *)
Definition owns_result (w : io) (o : res (Z * io)) : Prop :=
  exists r w' evs, o = Ok (r, w') /\ after w evs w' /\
    (r < 0 /\ live evs = ∅ \/ 0 <= r /\ live evs = {[r]}).

(** [run_calls]: run the calls of the goal on every answer the script may hold. *)
Ltac run_calls :=
  repeat first
    [ progress (unfold bind, emit, modify, ret; cbn [inp out a_ret a_err])
    | progress unfold sys_socket, sys_sockopt, sys_bind, sys_listen, sys_connect, sys_close, answered
    | match goal with |- context [match ?i with [] => _ | _ :: _ => _ end] => destruct i end
    | match goal with |- context [Z.ltb ?a ?b] => destruct (Z.ltb_spec a b); try lia end
    | match goal with |- context [Z.eqb ?a ?b] => destruct (Z.eqb_spec a b); try lia end ].

Ltac owns_tac :=
  do 2 eexists; eexists;
  split; [reflexivity|]; split; [unfold after; cbn [out]; rewrite <-?app_assoc; first [reflexivity|by rewrite app_nil_r]|];
  cbn [app live foldl live_step];
  first [left; split; [done|set_solver]|right; split; [done|set_solver]].

Lemma CreateListenService_owns port n w : owns_result w (CreateListenService port n w).
Proof. destruct w as [o i]. unfold CreateListenService. run_calls; owns_tac. Qed.

Lemma CreateListenProcess_owns path w : owns_result w (CreateListenProcess path w).
Proof. destruct w as [o i]. unfold CreateListenProcess. run_calls; owns_tac. Qed.

(** The listening sockets own no more than they return: when
    CreateListenService or CreateListenProcess fails, the socket it made is
    closed, and when it succeeds the result is the one descriptor left open. *)
Lemma listen_owns port n path w :
  owns_result w (CreateListenService port n w) /\ owns_result w (CreateListenProcess path w).
Proof. split; [apply CreateListenService_owns|apply CreateListenProcess_owns]. Qed.

(** ConnectToServerTimeOut does not: when connect fails, it returns
    ERR_CONNECT and leaves the socket it made open, unknown to the caller;
    in every other case it owns what it returns. *)
Lemma ConnectToServerTimeOut_leaks ip port sec w :
  exists r w' evs, ConnectToServerTimeOut ip port sec w = Ok (r, w') /\ after w evs w' /\
    (r = ERR_SOCKET /\ live evs = ∅ \/
     r = ERR_CONNECT /\ (exists fd, 0 <= fd /\ live evs = {[fd]}) \/
     0 <= r /\ live evs = {[r]}).
Proof.
  destruct w as [o i]. unfold ConnectToServerTimeOut. run_calls; do 2 eexists; eexists;
  (split; [reflexivity|]); (split; [unfold after; cbn [out]; rewrite <-?app_assoc;
     first [reflexivity|by rewrite app_nil_r]|]);
  cbn [app live foldl live_step]; rewrite ?union_empty_r_L; eauto 8.
Qed.
End Sock.
