(* ===== verification/Calendar.v ===== *)
(** * The calendar of the C library: mktime, localtime, strftime

    What src/src/timecomm.c uses of <time.h>: the proleptic Gregorian
    calendar, broken-down time (struct tm), mktime with its normalisation of
    fields that are out of range, localtime, and the conversions of strftime.
    The time zone, and what the C library leaves open, are the record
    [clib], a parameter of everything that depends on it. *)

From stdpp Require Import prelude gmap strings.
From S2P Require Import Prelude CLib.
Open Scope Z_scope.

(** ** Days *)

Definition is_leap (y : Z) : bool :=
  (Z.eqb (y mod 4) 0 && negb (Z.eqb (y mod 100) 0)) || Z.eqb (y mod 400) 0.

(** Days from 1 January of year 1 to 1 January of year [y]. *)
Definition year_start (y : Z) : Z :=
  let p := y - 1 in 365 * p + p / 4 - p / 100 + p / 400.

(** The lengths of the months of a year. *)
Definition month_lengths (leap : bool) : list Z :=
  [31; if leap then 29 else 28; 31; 30; 31; 30; 31; 31; 30; 31; 30; 31].

(** Month [m] counts from 0, as tm_mon does. *)
Definition month_length (y m : Z) : Z :=
  nth (Z.to_nat m) (month_lengths (is_leap y)) 0.

Definition sum (l : list Z) : Z := foldr Z.add 0 l.

Definition month_start (y m : Z) : Z :=
  sum (take (Z.to_nat m) (month_lengths (is_leap y))).

(** 1 January 1970 *)
Definition epoch : Z := 719162.

(** Days since the epoch of day [d] of month [m] (from 0) of year [y]. *)
Definition day_number (y m d : Z) : Z :=
  year_start y + month_start y m + (d - 1) - epoch.

(** The year of the day [n] after 1 January of year 1. *)
Definition year_at (n : Z) : Z :=
  let y := n * 400 / 146097 + 1 in
  if Z.ltb n (year_start y) then y - 1
  else if Z.leb (year_start (y + 1)) n then y + 1 else y.

(** The month and its day for the day [r] (from 0) of a year. *)
Fixpoint month_at (ls : list Z) (m r : Z) : Z * Z :=
  match ls with
  | l :: ls' => if Z.ltb r l then (m, r + 1) else month_at ls' (m + 1) (r - l)
  | [] => (m, r + 1)
  end.

Definition civil (n : Z) : Z * Z * Z :=
  let n := n + epoch in
  let y := year_at n in
  let '(m, d) := month_at (month_lengths (is_leap y)) 0 (n - year_start y) in
  (y, m, d).

(** A day of the calendar. *)
Definition valid_day (y m d : Z) : Prop :=
  0 <= m < 12 /\ 1 <= d <= month_length y m.

#[export] Instance valid_day_dec y m d : Decision (valid_day y m d).
Proof. unfold valid_day. apply _. Defined.

Section Days.

Lemma leap_length y :
  year_start (y + 1) - year_start y = if is_leap y then 366 else 365.
Proof.
  unfold year_start, is_leap. cbn zeta.
  destruct (Z.eqb_spec (y mod 4) 0), (Z.eqb_spec (y mod 100) 0), (Z.eqb_spec (y mod 400) 0);
    cbn [andb orb negb]; Z.div_mod_to_equations; lia.
Qed.

Lemma year_at_spec n :
  year_start (year_at n) <= n < year_start (year_at n + 1).
Proof.
  unfold year_at. cbn zeta. set (y := n * 400 / 146097 + 1).
  assert (Hy : year_start y - 366 < n < year_start y + 2 * 365).
  { unfold year_start, y. cbn zeta. Z.div_mod_to_equations. lia. }
  pose proof (leap_length y) as L0. pose proof (leap_length (y - 1)) as L1.
  pose proof (leap_length (y + 1)) as L2. replace (y - 1 + 1) with y in * by lia.
  destruct (Z.ltb_spec n (year_start y)); [|destruct (Z.leb_spec (year_start (y + 1)) n)];
    destruct (is_leap y), (is_leap (y - 1)), (is_leap (y + 1));
    replace (y - 1 + 1) with y by lia; lia.
Qed.

Lemma year_start_mono x y : x <= y -> year_start x <= year_start y.
Proof. intros. unfold year_start. cbn zeta. Z.div_mod_to_equations. lia. Qed.

Lemma year_at_unique n y :
  year_start y <= n < year_start (y + 1) -> year_at n = y.
Proof.
  intros Hy. pose proof (year_at_spec n) as Hn. set (z := year_at n) in *.
  destruct (Z.lt_trichotomy z y) as [H|[H|H]]; [|done|].
  - pose proof (year_start_mono (z + 1) y). lia.
  - pose proof (year_start_mono (y + 1) z). lia.
Qed.

(** [month_at] finds the month of a list of positive lengths. *)
Lemma month_at_spec ls m r m' d :
  Forall (fun l => 0 < l) ls -> 0 <= r < sum ls -> month_at ls m r = (m', d) ->
  m <= m' < m + Z.of_nat (length ls) /\
  r = sum (take (Z.to_nat (m' - m)) ls) + (d - 1) /\
  1 <= d <= nth (Z.to_nat (m' - m)) ls 0.
Proof.
  intros Hl. revert m r. induction Hl as [|l ls Hl _ IH]; intros m r Hr; cbn [sum foldr] in Hr; [lia|].
  cbn [month_at length]. destruct (Z.ltb_spec r l) as [H|H].
  - intros [= <- <-]. rewrite Z.sub_diag. change (Z.to_nat 0) with 0%nat. cbn. lia.
  - intros E. apply IH in E as (? & ? & ?); [|fold (sum ls) in *; lia].
    replace (Z.to_nat (m' - m)) with (S (Z.to_nat (m' - (m + 1)))) by lia.
    cbn. fold (sum (take (Z.to_nat (m' - (m + 1))) ls)). lia.
Qed.

Lemma month_at_start ls m k d :
  Forall (fun l => 0 < l) ls -> (k < length ls)%nat -> 1 <= d <= nth k ls 0 ->
  month_at ls m (sum (take k ls) + (d - 1)) = (m + Z.of_nat k, d).
Proof.
  intros Hl. revert m k. induction Hl as [|l ls Hl Hls IH]; intros m k Hk Hd; cbn [length] in Hk; [lia|].
  destruct k as [|k]; cbn in Hd |- *.
  - destruct (Z.ltb_spec (0 + (d - 1)) l); [|lia]. f_equal; lia.
  - fold (sum (take k ls)).
    assert (0 <= sum (take k ls)).
    { clear -Hls. revert k. induction Hls; intros [|k]; cbn; try lia. fold (sum (take k l)). specialize (IHHls k). lia. }
    destruct (Z.ltb_spec (l + sum (take k ls) + (d - 1)) l); [lia|].
    replace (l + sum (take k ls) + (d - 1) - l) with (sum (take k ls) + (d - 1)) by lia.
    rewrite IH by lia. f_equal. lia.
Qed.

Lemma month_lengths_pos b : Forall (fun l => 0 < l) (month_lengths b).
Proof. unfold month_lengths. destruct b; repeat constructor. Qed.

Lemma year_sum y : sum (month_lengths (is_leap y)) = year_start (y + 1) - year_start y.
Proof. rewrite leap_length. by destruct (is_leap y). Qed.

(** A day of a month is a day of its year. *)
Lemma month_start_in y m d :
  valid_day y m d -> 0 <= month_start y m + (d - 1) < year_start (y + 1) - year_start y.
Proof.
  intros [Hm Hd]. rewrite leap_length. unfold month_start, month_length in *.
  assert (Hk : (Z.to_nat m < 12)%nat) by lia. clear Hm. revert Hd Hk. generalize (Z.to_nat m). intros k Hd Hk.
  destruct (is_leap y); do 12 (destruct k as [|k]; [cbn in Hd |- *; lia|]); lia.
Qed.

Lemma civil_day_number y m d :
  valid_day y m d -> civil (day_number y m d) = (y, m, d).
Proof.
  intros Hv. pose proof (month_start_in y m d Hv) as Hr. destruct Hv as [Hm Hd].
  unfold civil, day_number. cbn zeta.
  replace (year_start y + month_start y m + (d - 1) - epoch + epoch)
    with (year_start y + (month_start y m + (d - 1))) by lia.
  rewrite (year_at_unique _ y) by lia.
  replace (year_start y + (month_start y m + (d - 1)) - year_start y)
    with (month_start y m + (d - 1)) by lia.
  unfold month_start, month_length in *.
  rewrite month_at_start; [|apply month_lengths_pos|cbn; lia|done]. do 2 f_equal. lia.
Qed.

Lemma day_number_civil n y m d :
  civil n = (y, m, d) -> day_number y m d = n /\ valid_day y m d.
Proof.
  unfold civil. cbn zeta. pose proof (year_at_spec (n + epoch)) as Hy.
  set (z := year_at (n + epoch)) in *.
  destruct (month_at _ 0 _) as [m' d'] eqn:E. intros [= <- <- <-].
  apply month_at_spec in E as (Hm & Hr & Hd); [|apply month_lengths_pos|rewrite year_sum; lia].
  rewrite Z.sub_0_r in *. change (Z.of_nat (length _)) with 12 in Hm.
  unfold day_number, month_start, valid_day, month_length. lia.
Qed.
End Days.

(** ** Broken-down time *)

(** struct tm; tm_yday is not used by the program. *)
Record tm := mkTm {
  tm_year : Z; tm_mon : Z; tm_mday : Z; tm_hour : Z; tm_min : Z; tm_sec : Z; tm_wday : Z; tm_isdst : bool
}.

(** The time zone: [gmtoff] seconds east of Greenwich, and an hour more while
    daylight saving time is in force. What strftime leaves in the array when
    the result does not fit, its conversions other than Y, m, d, H, M and S,
    and strptime are those of the C library. *)
Record clib := mkClib {
  gmtoff : Z;
  dst : Z -> bool;
  leftover : bytes -> bytes;
  other_conv : Z -> tm -> bytes;
  strptime : bytes -> bytes -> option tm
}.

Section Library.
Context (L : clib).

(** Local time as seconds of the local calendar. *)
Definition local (t : Z) : Z := t + gmtoff L + (if dst L t then 3600 else 0).

Definition broken_down (w : Z) (isdst : bool) : tm :=
  let '(y, m, d) := civil (w / 86400) in
  let r := w mod 86400 in
  mkTm (y - 1900) m d (r / 3600) (r / 60 mod 60) (r mod 60) ((w / 86400 + 4) mod 7) isdst.

(** NULL when the year does not fit an int. *)
Definition localtime (t : Z) : option tm :=
  let x := broken_down (local t) (dst L t) in
  if Z.leb (-2147483648) (tm_year x) && Z.leb (tm_year x) 2147483647 then Some x else None.

(** The seconds a struct tm stands for, its members in any range. *)
Definition tm_seconds (x : tm) : Z :=
  let days := day_number (tm_year x + 1900 + tm_mon x / 12) (tm_mon x mod 12) (tm_mday x) in
  ((days * 24 + tm_hour x) * 60 + tm_min x) * 60 + tm_sec x.

(** The time and the normalised members; -1 when they do not fit. *)
Definition mktime (x : tm) : Z * tm :=
  let t := tm_seconds x - gmtoff L - (if tm_isdst x then 3600 else 0) in
  match localtime t with
  | Some x' => (t, x')
  | None => (-1, x)
  end.

(** strftime without the bound on the length. *)
Fixpoint strftime_text (fmt : bytes) (x : tm) : bytes :=
  match fmt with
  | 37 :: c :: fmt' =>
      (if Z.eqb c 89 then fmt_d (tm_year x + 1900)
       else if Z.eqb c 109 then fmt_0d 2 (tm_mon x + 1)
       else if Z.eqb c 100 then fmt_0d 2 (tm_mday x)
       else if Z.eqb c 72 then fmt_0d 2 (tm_hour x)
       else if Z.eqb c 77 then fmt_0d 2 (tm_min x)
       else if Z.eqb c 83 then fmt_0d 2 (tm_sec x)
       else other_conv L c x) ++ strftime_text fmt' x
  | c :: fmt' => c :: strftime_text fmt' x
  | [] => []
  end.

(** The result and the array [dst], of which [max] bytes may be used. *)
Definition strftime (d : bytes) (max : nat) (fmt : bytes) (x : tm) : res (Z * bytes) :=
  let s := strftime_text fmt x in
  if decide (length s < max)%nat then
    let? d := mwrite d 0 (s ++ [0]) in Ok (Z.of_nat (length s), d)
  else Ok (0, leftover L d).
End Library.

(** ** The two directions are inverse *)

Definition normal (x : tm) : Prop :=
  valid_day (tm_year x + 1900) (tm_mon x) (tm_mday x) /\
  0 <= tm_hour x < 24 /\ 0 <= tm_min x < 60 /\ 0 <= tm_sec x < 60.

#[export] Instance normal_dec x : Decision (normal x).
Proof. unfold normal. apply _. Defined.

(** The same day and time of day. *)
Definition same_time (x y : tm) : Prop :=
  tm_year x = tm_year y /\ tm_mon x = tm_mon y /\ tm_mday x = tm_mday y /\
  tm_hour x = tm_hour y /\ tm_min x = tm_min y /\ tm_sec x = tm_sec y.

#[export] Instance same_time_equiv : Equivalence same_time.
Proof. split; repeat intro; unfold same_time in *; intuition congruence. Qed.

Lemma normal_days x :
  normal x -> tm_seconds x =
    day_number (tm_year x + 1900) (tm_mon x) (tm_mday x) * 86400 +
    (tm_hour x * 3600 + tm_min x * 60 + tm_sec x).
Proof.
  intros [[Hm _] _]. unfold tm_seconds. rewrite Z.div_small, Z.mod_small, Z.add_0_r by lia. lia.
Qed.

Lemma broken_down_seconds x b : normal x -> same_time (broken_down (tm_seconds x) b) x.
Proof.
  intros Hx. rewrite normal_days by done. destruct Hx as (Hv & Hh & Hm & Hs).
  unfold broken_down. set (r := tm_hour x * 3600 + tm_min x * 60 + tm_sec x).
  assert (0 <= r < 86400) by lia.
  set (n := day_number _ _ _). assert (E1 : (n * 86400 + r) / 86400 = n) by (Z.div_mod_to_equations; lia).
  assert (E2 : (n * 86400 + r) mod 86400 = r) by (Z.div_mod_to_equations; lia).
  rewrite E1, E2. subst n. rewrite civil_day_number by done.
  unfold same_time. cbn. subst r. split_and!; [lia|done|done|..]; Z.div_mod_to_equations; lia.
Qed.

Lemma broken_down_normal w b : normal (broken_down w b).
Proof.
  unfold broken_down. destruct (civil (w / 86400)) as [[y m] d] eqn:E.
  apply day_number_civil in E as [_ Hv]. unfold normal. cbn.
  replace (y - 1900 + 1900) with y by lia. split_and!; [done|..]; Z.div_mod_to_equations; lia.
Qed.

Lemma seconds_broken_down w b : tm_seconds (broken_down w b) = w.
Proof.
  rewrite normal_days by apply broken_down_normal.
  unfold broken_down. destruct (civil (w / 86400)) as [[y m] d] eqn:E.
  apply day_number_civil in E as [E _]. cbn. replace (y - 1900 + 1900) with y by lia. rewrite E.
  Z.div_mod_to_equations. lia.
Qed.

#[export] Instance tm_seconds_proper : Proper (same_time ==> eq) tm_seconds.
Proof. intros x y (E1 & E2 & E3 & E4 & E5 & E6). unfold tm_seconds. by rewrite E1, E2, E3, E4, E5, E6. Qed.

Lemma broken_down_isdst w b : tm_isdst (broken_down w b) = b.
Proof. unfold broken_down. by destruct (civil _) as [[? ?] ?]. Qed.

(** Days are consecutive. *)
Lemma day_number_add y m d k : day_number y m (d + k) = day_number y m d + k.
Proof. unfold day_number. lia. Qed.

(** The day after the last day of a month is the first of the next. *)
Lemma next_month y m :
  0 <= m < 12 -> day_number (y + (m + 1) / 12) ((m + 1) mod 12) 1 = day_number y m (month_length y m) + 1.
Proof.
  intros Hm. destruct (decide (m = 11)) as [->|].
  - change ((11 + 1) / 12) with 1. change ((11 + 1) mod 12) with 0.
    pose proof (leap_length y). unfold day_number, month_start, month_length.
    change (Z.to_nat 0) with 0%nat. change (Z.to_nat 11) with 11%nat.
    destruct (is_leap y), (is_leap (y + 1)); cbn; lia.
  - rewrite Z.div_small, Z.mod_small, Z.add_0_r by lia. unfold day_number, month_start, month_length.
    assert (Hk : (Z.to_nat m < 11)%nat) by lia. rewrite Z2Nat.inj_add by lia. revert Hk.
    generalize (Z.to_nat m). intros k Hk. change (Z.to_nat 1) with 1%nat. rewrite Nat.add_1_r.
    destruct (is_leap y); do 11 (destruct k as [|k]; [cbn; lia|]); lia.
Qed.

Lemma month_length_range y m : 0 <= m < 12 -> 28 <= month_length y m <= 31.
Proof.
  intros Hm. unfold month_length. assert (Hk : (Z.to_nat m < 12)%nat) by lia. revert Hk.
  generalize (Z.to_nat m). intros k Hk.
  destruct (is_leap y); do 12 (destruct k as [|k]; [cbn; lia|]); lia.
Qed.

(** ** Text of numbers *)

Lemma dec_digits_width n fuel z acc :
  (0 < n <= fuel)%nat -> 10 ^ (Z.of_nat n - 1) <= z < 10 ^ Z.of_nat n ->
  length (dec_digits fuel z acc) = (n + length acc)%nat.
Proof.
  revert fuel z acc. induction n as [|n IH]; intros [|fuel] z acc Hn Hz; try lia. cbn [dec_digits].
  rewrite Nat2Z.inj_succ in Hz. replace (Z.succ (Z.of_nat n) - 1) with (Z.of_nat n) in Hz by lia.
  rewrite Z.pow_succ_r in Hz by lia. destruct n as [|n].
  - change (10 ^ Z.of_nat 0) with 1 in Hz. destruct (Z.ltb_spec z 10); [done|lia].
  - assert (10 ^ Z.of_nat (S n) = 10 * 10 ^ (Z.of_nat (S n) - 1)) as Hp.
    { rewrite <-Z.pow_succ_r by lia. f_equal. lia. }
    assert (0 < 10 ^ (Z.of_nat (S n) - 1)) by (apply Z.pow_pos_nonneg; lia).
    destruct (Z.ltb_spec z 10); [lia|].
    rewrite IH; [cbn; lia|lia|]. split; [apply Z.div_le_lower_bound|apply Z.div_lt_upper_bound]; lia.
Qed.

Lemma digits_val_zeros k s : digits_val 0 (replicate k 48 ++ s) = digits_val 0 s.
Proof. by induction k. Qed.

(** Numbers that fit are printed in exactly [w] digits and read back. *)
Lemma fmt_0d_spec w z :
  (0 < w <= 18)%nat -> 0 <= z < 10 ^ Z.of_nat w ->
  length (fmt_0d w z) = w /\ Forall (fun c => is_digit c = true) (fmt_0d w z) /\ strtol (fmt_0d w z) = z.
Proof.
  intros Hw Hz. assert (10 ^ Z.of_nat w <= 10 ^ 18) by (apply Z.pow_le_mono_r; lia).
  destruct (fmt_u_spec z) as (Hne & Hd & Hv & _); [lia|].
  pose proof (fmt_u_length w z ltac:(lia) Hz) as Hl.
  unfold fmt_0d. rewrite Z.abs_eq by lia. destruct (Z.ltb_spec z 0); [lia|].
  assert (Hf : Forall (fun c => is_digit c = true) (replicate (w - length (fmt_u z)) 48 ++ fmt_u z)).
  { rewrite Forall_app. split; [by apply Forall_replicate|done]. }
  split_and!; [rewrite length_app, length_replicate; lia|done|].
  rewrite strtol_digits; [|by destruct (fmt_u z); [|destruct (w - _)%nat]|done].
  rewrite digits_val_zeros, Hv. apply clamp64_id. change (10 ^ 18) with 1000000000000000000 in *. lia.
Qed.

Lemma atoi_fmt_0d w z :
  (0 < w <= 9)%nat -> 0 <= z < 10 ^ Z.of_nat w -> atoi (fmt_0d w z) = z.
Proof.
  intros Hw Hz. unfold atoi. destruct (fmt_0d_spec w z) as (_ & _ & ->); [lia|done|].
  assert (10 ^ Z.of_nat w <= 10 ^ 9) by (apply Z.pow_le_mono_r; lia).
  apply s32_id. change (10 ^ 9) with 1000000000 in *. lia.
Qed.

Lemma length_fmt_0d w z : (0 < w <= 18)%nat -> 0 <= z < 10 ^ Z.of_nat w -> length (fmt_0d w z) = w.
Proof. intros. by apply fmt_0d_spec. Qed.

(** A year of four digits needs no padding. *)
Lemma fmt_year y : 1000 <= y <= 9999 -> fmt_d y = fmt_0d 4 y.
Proof.
  intros Hy. unfold fmt_d, fmt_0d. destruct (Z.ltb_spec y 0); [lia|]. rewrite Z.abs_eq by lia.
  assert (length (fmt_u y) = 4%nat) as ->; [|done].
  unfold fmt_u. rewrite (dec_digits_width 4); [done|lia|].
  change (10 ^ (Z.of_nat 4 - 1)) with 1000. change (10 ^ Z.of_nat 4) with 10000. lia.
Qed.
