(* ===== verification/TimeComm.v ===== *)
(** * Dates and times (src/src/timecomm.c)

    Times are written "yyyymmddhhmmss". Every function is translated with the
    arrays it is given, so a caller's array that is too short is a fault. A
    static array of a function is an argument, and its new contents are the
    result. The C library is the parameter [L] ([Calendar]). The product
    day*24*60*60 is an int and wraps at 32 bits here. *)

From stdpp Require Import prelude gmap strings.
From S2P Require Import Prelude CLib Sock Calendar.
Import Sock.
Open Scope Z_scope.

Module TimeComm.

(** ** Strings *)

(** strncpy of [n] bytes from [src] + [off] into an array that is large
    enough: the bytes up to the first NUL, then NUL bytes. *)
Definition strncpy (src : bytes) (off n : nat) : res bytes :=
  let s := take n (drop off src) in
  if has_nul s then Ok (padded n (cstr s)) else mread src off n.

(** atoi of [n] bytes copied with strncpy and terminated. *)
Definition field (src : bytes) (off n : nat) : res Z :=
  let? b := strncpy src off n in Ok (atoi (cstr b)).

(** atoi of two bytes copied one by one and terminated. *)
Definition field2 (src : bytes) (off : nat) : res Z :=
  let? b := mread src off 2 in Ok (atoi (cstr b)).

(** sprintf and strcpy into [d]. *)
Definition sprintf_to (d text : bytes) : res bytes := mwrite d 0 (text ++ [0]).

(** %.wd: the sign is not counted. *)
Definition fmt_pd (w : nat) (z : Z) : bytes :=
  let d := fmt_u (Z.abs z) in
  (if Z.ltb z 0 then [45] else []) ++ replicate (w - length d) 48 ++ d.

(** strncmp on strings. *)
Fixpoint strncmp (a b : bytes) (n : nat) : comparison :=
  match n, a, b with
  | O, _, _ => Eq
  | _, [], [] => Eq
  | _, [], _ :: _ => Lt
  | _, _ :: _, [] => Gt
  | S n, x :: a, y :: b => if Z.eqb x y then strncmp a b n else Z.compare x y
  end.

Definition is_lt (c : comparison) : bool := match c with Lt => true | _ => false end.
Definition is_gt (c : comparison) : bool := match c with Gt => true | _ => false end.

Definition time_format : bytes := str "%Y%m%d%H%M%S".

(** The texts of the formats with six numbers. *)
Definition stamp (x : tm) : bytes :=
  fmt_0d 4 (tm_year x + 1900) ++ fmt_0d 2 (tm_mon x + 1) ++ fmt_0d 2 (tm_mday x) ++
  fmt_0d 2 (tm_hour x) ++ fmt_0d 2 (tm_min x) ++ fmt_0d 2 (tm_sec x).

Definition stamp_p (x : tm) : bytes :=
  fmt_pd 4 (1900 + tm_year x) ++ fmt_pd 2 (tm_mon x + 1) ++ fmt_pd 2 (tm_mday x) ++
  fmt_pd 2 (tm_hour x) ++ fmt_pd 2 (tm_min x) ++ fmt_pd 2 (tm_sec x).

(** With the characters for year, month, day, hour, minute and second, in the
    encoding of the source file (GBK). *)
Definition stamp_Ch (x : tm) : bytes :=
  fmt_0d 4 (tm_year x + 1900) ++ [196; 234] ++ fmt_0d 2 (tm_mon x + 1) ++ [212; 194] ++
  fmt_0d 2 (tm_mday x) ++ [200; 213] ++ fmt_0d 2 (tm_hour x) ++ [202; 177] ++
  fmt_0d 2 (tm_min x) ++ [183; 214] ++ fmt_0d 2 (tm_sec x) ++ [195; 235].

Definition stamp_pCh (x : tm) : bytes :=
  fmt_pd 4 (1900 + tm_year x) ++ [196; 234] ++ fmt_pd 2 (tm_mon x + 1) ++ [212; 194] ++
  fmt_pd 2 (tm_mday x) ++ [200; 213] ++ fmt_pd 2 (tm_hour x) ++ [202; 177] ++
  fmt_pd 2 (tm_min x) ++ [183; 214] ++ fmt_pd 2 (tm_sec x) ++ [195; 235].

(** The members a text "yyyymmddhhmmss" sets; tm_wday is set by mktime. *)
Definition text_tm (s : bytes) : res tm :=
  let? y := field s 0 4 in
  let? mo := field2 s 4 in
  let? d := field2 s 6 in
  let? h := field2 s 8 in
  let? mi := field2 s 10 in
  let? sec := field2 s 12 in
  Ok (mkTm (y - 1900) (mo - 1) d h mi sec 0 false).

Section Functions.
Context (L : clib).

(** ** From text to time *)

Definition GetTimet (sInTimes : bytes) : res Z :=
  let? x := text_tm sInTimes in Ok (fst (mktime L x)).

Definition GetTimetExt (sInTimes sFormat : bytes) : res Z :=
  let? s := cstring sInTimes in
  let? f := cstring sFormat in
  match strptime L s f with
  | None => Ok (-1)
  | Some x => Ok (fst (mktime L x))
  end.

Definition GetTimetValid (sInTimes : bytes) : res Z :=
  let? x := text_tm sInTimes in
  if Z.leb (tm_year x) 0 then Ok (-1)
  else if Z.ltb (tm_mon x) 0 || Z.ltb 11 (tm_mon x) then Ok (-1)
  else if Z.ltb (tm_mday x) 0 || Z.ltb 31 (tm_mday x) then Ok (-1)
  else if Z.ltb (tm_hour x) 0 || Z.ltb 23 (tm_hour x) then Ok (-1)
  else if Z.ltb (tm_min x) 0 || Z.ltb 59 (tm_min x) then Ok (-1)
  else if Z.ltb (tm_sec x) 0 || Z.ltb 59 (tm_sec x) then Ok (-1)
  else Ok (fst (mktime L x)).

(** ** The current time *)

Definition now_tm : M io tm :=
  let! t := sys_time in
  match localtime L t with Some x => ret x | None => fail NullDeref end.

Definition GetCurTimeStr (sOutTimes : bytes) : M io bytes :=
  let! x := now_tm in lift (sprintf_to sOutTimes (stamp_p x)).

Definition GetCurTimeStrCh (sOutTimes : bytes) : M io bytes :=
  let! x := now_tm in lift (sprintf_to sOutTimes (stamp_pCh x)).

(** sFormat == NULL || strlen(sFormat) == 0 *)
Definition given_format (sFormat : option bytes) : res bytes :=
  match sFormat with
  | None => Ok time_format
  | Some f => let? s := cstring f in Ok (match s with [] => time_format | _ => s end)
  end.

Definition GetCurTimeStrExt (sOutTimes : bytes) (sFormat : option bytes) : M io bytes :=
  let! t := sys_time in
  let! f := lift (given_format sFormat) in
  match localtime L t with
  | None => fail NullDeref
  | Some x =>
      let! (n, sTmp) := lift (strftime L (zeros 40) 40 f x) in
      if Z.leb n 0 then lift (sprintf_to sOutTimes (str "00000000000000"))
      else let! s := lift (cstring sTmp) in lift (sprintf_to sOutTimes s)
  end.

(** The static array sTime[32]. *)
Definition ReturnCurTimeStr (sTime : bytes) : M io bytes :=
  let! x := now_tm in lift (sprintf_to sTime (stamp x)).

(** The static array sTime[64]. *)
Definition ReturnCurTimeStrCh (sTime : bytes) : M io bytes :=
  let! x := now_tm in lift (sprintf_to sTime (stamp_Ch x)).

(** Whether the result is not NULL, and the static array sTime[64]. *)
Definition ReturnCurTimeStrExt (sTime : bytes) (sFormat : option bytes) : M io (bool * bytes) :=
  let! t := sys_time in
  let! f := lift (given_format sFormat) in
  match localtime L t with
  | None => fail NullDeref
  | Some x =>
      let! (n, sTime) := lift (strftime L sTime 64 f x) in
      ret (negb (Z.eqb n 0), sTime)
  end.

(** ** From time to text *)

(** The local time without the hour of daylight saving time. *)
Definition standard_tm (ttime : Z) : option tm :=
  match localtime L ttime with
  | None => None
  | Some x => if tm_isdst x then localtime L (ttime - 3600) else Some x
  end.

Definition GetTimetStr (sTime : bytes) (ttime : Z) : res (Z * bytes) :=
  match standard_tm ttime with
  | None => Ok (-1, sTime)
  | Some x =>
      let? (n, sTime) := strftime L sTime 15 time_format x in
      Ok (if Z.eqb n 0 then -1 else 0, sTime)
  end.

Definition GetTimetStrCh (ttime : Z) (sOut : bytes) : res (Z * bytes) :=
  match standard_tm ttime with
  | None => Ok (-1, sOut)
  | Some x => let? sOut := sprintf_to sOut (stamp_Ch x) in Ok (0, sOut)
  end.

Definition GetTimetStrExt (sTime : bytes) (ttime : Z) (sFormat : bytes) : res (Z * bytes) :=
  match standard_tm ttime with
  | None => Ok (-1, sTime)
  | Some x =>
      let? f := cstring sFormat in
      let? (n, sTmp) := strftime L (zeros 48) 47 f x in
      if Z.eqb n 0 then Ok (-1, sTime)
      else
        let? s := cstring sTmp in
        let? sTime := sprintf_to sTime s in Ok (0, sTime)
  end.

(** NULL, or the static array sTime[32], which is cleared first. *)
Definition ReturnTimetStr (ttime : Z) : res (option bytes) :=
  match standard_tm ttime with
  | None => Ok None
  | Some x =>
      let? (n, sTime) := strftime L (zeros 32) 15 time_format x in
      Ok (if Z.eqb n 0 then None else Some sTime)
  end.

Definition ReturnTimetStrCh (sTime : bytes) (ttime : Z) : res (option bytes) :=
  match standard_tm ttime with
  | None => Ok None
  | Some x => let? sTime := sprintf_to sTime (stamp_Ch x) in Ok (Some sTime)
  end.

Definition ReturnTimetStrExt (ttime : Z) (sFormat : bytes) : res (option bytes) :=
  match standard_tm ttime with
  | None => Ok None
  | Some x =>
      let? f := cstring sFormat in
      let? (n, sTime) := strftime L (zeros 32) 32 f x in
      Ok (if Z.eqb n 0 then None else Some sTime)
  end.

(** ** Days of the week, differences *)

Definition GetWeek (sDate : bytes) : res Z :=
  let? y := field sDate 0 4 in
  let? mo := field sDate 4 2 in
  let? d := field sDate 6 2 in
  let '(t, x) := mktime L (mkTm (y - 1900) (mo - 1) d 1 0 0 0 false) in
  Ok (if Z.eqb t (-1) then -1 else tm_wday x).

Definition DiffSeconds (sBeginDate sEndDate : bytes) : res Z :=
  let? e := GetTimet sEndDate in
  let? b := GetTimet sBeginDate in
  Ok (s32 (e - b)).

(** The cast binds tighter than the division. *)
Definition DiffDays (sBeginDate sEndDate : bytes) : res Z :=
  let? e := GetTimet sEndDate in
  let? b := GetTimet sBeginDate in
  Ok (Z.quot (s32 (e - b)) 86400 + 1).

Definition DiffMonths (sBeginDate sEndDate : bytes) : res Z :=
  let? y1 := field sEndDate 0 4 in
  let? y2 := field sBeginDate 0 4 in
  let? m1 := field sEndDate 4 2 in
  let? m2 := field sBeginDate 4 2 in
  Ok ((y1 - y2) * 12 + (m1 - m2)).

(** ** Adding days and seconds *)

(** sTmpDate[15]: a date is completed to midnight. *)
Definition with_time (sDate : bytes) : res bytes :=
  let? s := cstring sDate in
  if decide (length s < 14)%nat then
    let? b := strncpy sDate 0 8 in Ok (b ++ str "000000" ++ [0])
  else
    let? b := strncpy sDate 0 14 in Ok (b ++ [0]).

Definition add_days (sDate : bytes) (day : Z) : res Z :=
  let? sTmpDate := with_time sDate in
  let? t := GetTimet sTmpDate in
  Ok (t + s32 (day * 24 * 60 * 60)).

Definition AddDaysModified (sDate : bytes) (day : Z) : res bytes :=
  let? t := add_days sDate day in
  let? (_, sDate) := GetTimetStr sDate t in Ok sDate.

Definition AddDays (sOut sDate : bytes) (day : Z) : res bytes :=
  let? t := add_days sDate day in
  let? (_, sOut) := GetTimetStr sOut t in Ok sOut.

Definition ReturnAddDays (sDate : bytes) (day : Z) : res (option bytes) :=
  let? t := add_days sDate day in ReturnTimetStr t.

Definition AddSeconds (sOut sDate : bytes) (iSecond : Z) : res bytes :=
  let? t := GetTimet sDate in
  let? (_, sOut) := GetTimetStr sOut (t + iSecond) in Ok sOut.

Definition AddSecondsModified (sDate : bytes) (iSecond : Z) : res bytes :=
  let? t := GetTimet sDate in
  let? (_, sDate) := GetTimetStr sDate (t + iSecond) in Ok sDate.

Definition ReturnAddSeconds (sDate : bytes) (iSecond : Z) : res (option bytes) :=
  let? t := GetTimet sDate in ReturnTimetStr (t + iSecond).

(** ** Months *)

Definition GetMonthDays (sDate : bytes) : res Z :=
  let? y := field sDate 0 4 in
  let? m := field sDate 4 2 in
  let? sTmpDate := sprintf_to (zeros 15) (fmt_0d 4 y ++ fmt_0d 2 (m + 1) ++ str "01") in
  let? sTmpDate := AddDaysModified sTmpDate (-1) in
  field sTmpDate 6 2.

(** The body of the loops of AddMonth: the days of month iMonth + iLoop. *)
Definition month_days (sTmp : bytes) (iYear m : Z) : res (Z * bytes) :=
  let? sTmp := sprintf_to sTmp (fmt_0d 4 iYear ++ fmt_0d 2 m) in
  let? n := GetMonthDays sTmp in Ok (n, sTmp).

(** The months [ms]: the total, and the days of the last one. *)
Fixpoint total_days (ms : list Z) (sTmp : bytes) (iYear iTotalDay iTargetMonthDay : Z) : res (Z * Z) :=
  match ms with
  | [] => Ok (iTotalDay, iTargetMonthDay)
  | m :: ms =>
      let? (n, sTmp) := month_days sTmp iYear m in
      total_days ms sTmp iYear (iTotalDay + n) n
  end.

(** iMonth + iLoop for the values iLoop takes. *)
Definition loop_months (iMonth iMonthCount : Z) : list Z :=
  if Z.ltb 0 iMonthCount then (fun i => iMonth + Z.of_nat i) <$> seq 1 (Z.to_nat (iMonthCount - 1))
  else (fun i => iMonth - Z.of_nat i) <$> seq 1 (Z.to_nat (- iMonthCount - 1)).

Definition AddMonth (sDate : bytes) (iMonthCount : Z) : res Z :=
  let? tDate := GetTimet sDate in
  let? iYear := field sDate 0 4 in
  let? iMonth := field sDate 4 2 in
  let? iDay := field sDate 6 2 in
  let? iSourceMonthDay := GetMonthDays sDate in
  if Z.eqb iMonthCount 0 then Ok (s32 tDate)
  else
    let? s := cstring sDate in
    let? sTmp := sprintf_to (zeros 32) s in
    let? (iTotalDay, iTargetMonthDay) := total_days (loop_months iMonth iMonthCount) sTmp iYear 0 0 in
    let iTotalDay := iTotalDay - (iSourceMonthDay - iTargetMonthDay) in
    let iTotalDay := iTotalDay + (iSourceMonthDay - iDay) in
    Ok (s32 (if Z.ltb 0 iMonthCount then tDate + s32 (iTotalDay * 24 * 3600)
             else tDate - s32 (iTotalDay * 24 * 3600))).

(** ** Comparing *)

Definition IsDateBetween (sCheckedDate sBeginDate sEndDate : bytes) : res bool :=
  let? b := GetTimet sBeginDate in
  let? e := GetTimet sEndDate in
  let? c := GetTimet sCheckedDate in
  Ok (Z.leb b c && Z.leb c e).

Definition INCM_GeLe : Z := 0.
Definition INCM_GtLt : Z := 1.
Definition INCM_GeLt : Z := 2.
Definition INCM_GtLe : Z := 3.

Definition IsDateBetweenExt (sCheckedDate sBeginDate sEndDate : bytes) (includeMode : Z) : res bool :=
  let? b := GetTimet sBeginDate in
  let? e := GetTimet sEndDate in
  let? c := GetTimet sCheckedDate in
  Ok (if Z.eqb includeMode INCM_GeLe then Z.leb b c && Z.leb c e
      else if Z.eqb includeMode INCM_GtLt then Z.ltb b c && Z.ltb c e
      else if Z.eqb includeMode INCM_GeLt then Z.leb b c && Z.ltb c e
      else if Z.eqb includeMode INCM_GtLe then Z.ltb b c && Z.leb c e
      else Z.leb b c && Z.leb c e).

Definition IsValidDate (sCheckedDate sBeginDate sEndDate : bytes) : res bool :=
  IsDateBetween sCheckedDate sBeginDate sEndDate.

Definition DPM_DAY : Z := 0.
Definition DPM_HOUR : Z := 1.
Definition DPM_MIN : Z := 2.
Definition DPM_SEC : Z := 3.

(** strncpy of [n] bytes, terminated, then strncat of [zs]; the array has 15
    bytes and is zero before. *)
Definition cut_to (sDate : bytes) (n : nat) (zs : string) : res bytes :=
  let? b := strncpy sDate 0 n in Ok (padded 15 (cstr b ++ str zs)).

Definition IsValidDateExt (sCheckedDate sBeginDate sEndDate : bytes) (includeMode datePreMode : Z) : res bool :=
  let '(n, zs) :=
    if Z.eqb datePreMode DPM_HOUR then (10%nat, "0000"%string)
    else if Z.eqb datePreMode DPM_MIN then (12%nat, "00"%string)
    else if Z.eqb datePreMode DPM_SEC then (14%nat, EmptyString)
    else (8%nat, "000000"%string) in
  let? b := cut_to sBeginDate n zs in
  let? e := cut_to sEndDate n zs in
  let? c := cut_to sCheckedDate n zs in
  IsDateBetweenExt c b e includeMode.

(** ** Two periods *)

(** GetTimet of both ends, the smaller first. *)
Definition period (sBeginTime sEndTime : bytes) : res (Z * Z) :=
  let? b := GetTimet sBeginTime in
  let? e := GetTimet sEndTime in
  Ok (if Z.ltb e b then (e, b) else (b, e)).

(** if (sTime != NULL) GetTimetStr(sTime, t) *)
Definition write_time (sTime : option bytes) (t : Z) : res (option bytes) :=
  match sTime with
  | None => Ok None
  | Some d => let? (_, d) := GetTimetStr d t in Ok (Some d)
  end.

Definition GetTimeIntersection (sBeginTime1 sEndTime1 sBeginTime2 sEndTime2 : bytes)
    (sBeginTime sEndTime : option bytes) : res (bool * option bytes * option bytes) :=
  let? (b1, e1) := period sBeginTime1 sEndTime1 in
  let? (b2, e2) := period sBeginTime2 sEndTime2 in
  if Z.ltb e2 b1 || Z.ltb e1 b2 || Z.eqb b1 e1 || Z.eqb b2 e2 then Ok (false, sBeginTime, sEndTime)
  else
    let? sBeginTime := write_time sBeginTime (if Z.ltb b1 b2 then b2 else b1) in
    let? sEndTime := write_time sEndTime (if Z.ltb e1 e2 then e1 else e2) in
    Ok (true, sBeginTime, sEndTime).

Definition GetTimeUnion (sBeginTime1 sEndTime1 sBeginTime2 sEndTime2 : bytes)
    (sBeginTime sEndTime : option bytes) : res (bool * option bytes * option bytes) :=
  let? (b1, e1) := period sBeginTime1 sEndTime1 in
  let? (b2, e2) := period sBeginTime2 sEndTime2 in
  if Z.ltb e2 b1 || Z.ltb e1 b2 then Ok (false, sBeginTime, sEndTime)
  else
    let? sBeginTime := write_time sBeginTime (if Z.ltb b1 b2 then b1 else b2) in
    let? sEndTime := write_time sEndTime (if Z.ltb e1 e2 then e2 else e1) in
    Ok (true, sBeginTime, sEndTime).

(** ** The lunar calendar *)

Definition giDateOrig : Z := 7330.

Definition gaiDateTable : list Z :=
  [0x5f52; 0xe92; 0xd26; 0x352e; 0xa57; 0x8ad6; 0x35a; 0x6d5; 0x5b69; 0x749;
   0x693; 0x4a9b; 0x52b; 0xa5b; 0x2aae; 0x56a; 0x7dd5; 0xba4; 0xb49; 0x5d53;
   0xa95; 0x52d; 0x455d; 0xab5; 0x9baa; 0x5d2; 0xda5; 0xeeaa; 0xd4a; 0xc95;
   0x4a9e; 0x556; 0xad5; 0x2ada; 0x6d2; 0x6765; 0x725; 0x64b; 0x5657; 0xcab;
   0x55a; 0x356e; 0xb56; 0xbf52; 0xb52; 0xb25; 0xed2b; 0xa4b; 0x4ab; 0x52bb;
   0x5ad; 0xb6a; 0x2daa; 0xd92; 0x7ea5; 0xd25; 0xa55; 0xda5d; 0x4b6; 0x5b5; 0x36d6].

(** The month of a leap month, and what its length is shifted by. *)
Definition leap_of (bigSmallDist : Z) : Z * Z :=
  let leap := Z.shiftr bigSmallDist 12 in
  if Z.ltb 12 leap then (Z.land leap 7, 1) else (leap, 0).

(** The loop over iLoopMonth with [n] months left: iResult, or the days that
    are left. *)
Fixpoint lunar_months (n : nat) (iLoop leap leapShift iLoopMonth bigSmallDist iDayLeave : Z) : Z + Z :=
  match n with
  | O => inr iDayLeave
  | S n =>
      let count := Z.land bigSmallDist 1 + 29 - (if Z.eqb iLoopMonth leap then leapShift else 0) in
      if Z.ltb iDayLeave count then
        inl (Z.shiftl iLoop 9 + Z.shiftl iLoopMonth 5 + iDayLeave + 1)
      else
        let iDayLeave := iDayLeave - count in
        if Z.eqb iLoopMonth leap then
          let count := 29 + leapShift in
          if Z.ltb iDayLeave count then
            inl (Z.shiftl iLoop 9 + Z.shiftl iLoopMonth 5 + iDayLeave + 1 + Z.shiftl 1 21)
          else lunar_months n iLoop leap leapShift (iLoopMonth + 1) (Z.shiftr bigSmallDist 1) (iDayLeave - count)
        else lunar_months n iLoop leap leapShift (iLoopMonth + 1) (Z.shiftr bigSmallDist 1) iDayLeave
  end.

Fixpoint lunar_years (ts : list Z) (iLoop iDayLeave : Z) : option Z :=
  match ts with
  | [] => None
  | bigSmallDist :: ts =>
      let '(leap, leapShift) := leap_of bigSmallDist in
      match lunar_months 12 iLoop leap leapShift 1 bigSmallDist iDayLeave with
      | inl iResult => Some iResult
      | inr iDayLeave => lunar_years ts (iLoop + 1) iDayLeave
      end
  end.

Definition lunar_text (iResult : Z) : bytes :=
  fmt_0d 4 (Z.land (Z.shiftr iResult 9) 0xFFF) ++ fmt_0d 2 (Z.land (Z.shiftr iResult 5) 0xF) ++
  fmt_0d 2 (Z.land iResult 0x1F) ++ fmt_d (Z.land (Z.shiftr iResult 21) 1).

(** NULL, or the static array sResult[40]. *)
Definition SolarDay2LunarDay (sResult solarDay : bytes) : res (option bytes) :=
  let? t := GetTimet solarDay in
  let iDayLeave := s32 (Z.quot t (24 * 3600) - giDateOrig) in
  if Z.ltb iDayLeave 0 || Z.ltb 22295 iDayLeave then Ok None
  else
    match lunar_years gaiDateTable 0 iDayLeave with
    | None => Ok None
    | Some iResult => let? sResult := sprintf_to sResult (lunar_text iResult) in Ok (Some sResult)
    end.
End Functions.

(** ** Checking dates *)

(** The loop over the characters reached len. *)
Definition all_digits (s : bytes) : bool := forallb is_digit s.

Definition IsDate (sDate : bytes) : res bool :=
  let? s := cstring sDate in
  let len := Z.of_nat (length s) in
  Ok (if negb (Z.eqb (len mod 2) 0) || Z.ltb len 4 then false
      else if negb (all_digits s) then false
      else if is_lt (strncmp s (str "1900") 4) || is_gt (strncmp s (str "2999") 4) then false
      else if is_lt (strncmp (drop 4 s) (str "01") 2) || is_gt (strncmp (drop 4 s) (str "12") 2) then false
      else if is_lt (strncmp (drop 6 s) (str "01") 2) || is_gt (strncmp (drop 6 s) (str "31") 2) then false
      else true).

Definition Months : list Z := [31; 28; 31; 30; 31; 30; 31; 31; 30; 31; 30; 31].

(** Months[i] *)
Definition Months_at (i : Z) : res Z :=
  if Z.ltb i 0 then Fault Overread
  else match Months !! Z.to_nat i with Some l => Ok l | None => Fault Overread end.

(** (iyear%4==0 && iyear%100!=0) || iyear%400==0 *)
Definition leap_test (iyear : Z) : bool :=
  (Z.eqb (Z.rem iyear 4) 0 && negb (Z.eqb (Z.rem iyear 100) 0)) || Z.eqb (Z.rem iyear 400) 0.

Definition IsDateExt (sDate : bytes) : res bool :=
  let? s := cstring sDate in
  if negb (Nat.eqb (length s) 8) then Ok false
  else if negb (all_digits s) then Ok false
  else
    let? iyear := field sDate 0 4 in
    let? imon := field2 sDate 4 in
    let? iday := field2 sDate 6 in
    if Z.eqb iyear 0 then Ok false
    else if Z.ltb imon 1 || Z.ltb 12 imon then Ok false
    else if leap_test iyear && Z.eqb imon 2 then Ok (negb (Z.leb iday 0 || Z.ltb 29 iday))
    else let? l := Months_at (imon - 1) in Ok (negb (Z.leb iday 0 || Z.ltb l iday)).

(** if (++iMonth == 13) { iYear++; iMonth = 1; } *)
Definition month_up (ym : Z * Z) : Z * Z :=
  let '(y, m) := ym in if Z.eqb (m + 1) 13 then (y + 1, 1) else (y, m + 1).

(** if (--iMonth == 0) { iYear--; iMonth = 12; } *)
Definition month_down (ym : Z * Z) : Z * Z :=
  let '(y, m) := ym in if Z.eqb (m - 1) 0 then (y - 1, 12) else (y, m - 1).

(** The day is cut to the length of the month. *)
Definition clamp_day (iYear iMonth iDay : Z) : res Z :=
  if Z.eqb iMonth 2 && leap_test iYear then Ok (if Z.ltb 29 iDay then 29 else iDay)
  else if Z.eqb iMonth 2 then Ok (if Z.ltb 28 iDay then 28 else iDay)
  else let? l := Months_at (iMonth - 1) in Ok (if Z.ltb l iDay then l else iDay).

(** AddMonths once it has read the date. *)
Definition month_sum (sTemp : bytes) (iYear iMonth iDay iMonthCount : Z) : res bytes :=
  let '(iYear, iMonth) :=
    if Z.ltb 0 iMonthCount then Nat.iter (Z.to_nat iMonthCount) month_up (iYear, iMonth)
    else Nat.iter (Z.to_nat (- iMonthCount)) month_down (iYear, iMonth) in
  if Z.ltb 0 iDay then
    let? iDay := clamp_day iYear iMonth iDay in
    let? sTemp := sprintf_to sTemp (fmt_0d 4 iYear ++ fmt_0d 2 iMonth ++ fmt_0d 2 iDay) in
    mwrite sTemp 8 [0]
  else
    let? sTemp := sprintf_to sTemp (fmt_0d 4 iYear ++ fmt_0d 2 iMonth) in
    mwrite sTemp 6 [0].

(** The result is sDate itself, or the static array sTemp[9]. *)
Definition AddMonths (sTemp sDate : bytes) (iMonthCount : Z) : res bytes :=
  let? b := strncpy sDate 0 6 in
  let? sTemp := mwrite sTemp 0 (b ++ [0]) in
  let iYear := Z.quot (atoi (cstr sTemp)) 100 in
  let? rest := cstring (drop 4 sTemp) in
  let iMonth := atoi rest in
  let? c := mread sDate 6 1 in
  let? iDay := (if Z.eqb (nth 0 c 0) 0 then Ok 0
                else let? s := cstring (drop 6 sDate) in Ok (atoi s)) in
  if Z.eqb iMonthCount 0 then Ok sDate else month_sum sTemp iYear iMonth iDay iMonthCount.

(** ** Waiting *)

(** while (tCurTime < tDeadTime): each round asks for the time once. *)
Fixpoint wait_loop (fuel : nat) (tCurTime tDeadTime : Z) : M io unit :=
  if Z.ltb tCurTime tDeadTime then
    match fuel with
    | O => fail NoFuel
    | S f =>
        emit (ESleep 1) ;;
        let! t := sys_time in
        wait_loop f t tDeadTime
    end
  else ret tt.

Definition WaitSecond (iSecond : Z) : M io unit :=
  let iSecond := if Z.ltb iSecond 5 then 5 else iSecond in
  let! t := sys_time in
  fun w => wait_loop (length (inp w)) t (t + iSecond) w.
End TimeComm.
