(* ===== verification/TimeFacts.v ===== *)
(** * What the date functions compute (theorems about [TimeComm])

    Text and time are inverse, days and months are added in the calendar,
    the checks accept exactly the dates that exist. *)

From stdpp Require Import prelude gmap strings.
From S2P Require Import Prelude CLib Sock Calendar TimeComm.
Import Sock TimeComm.
Open Scope Z_scope.

Module TimeFacts.

(** ** Reading fields *)

Lemma take_drop_mid (a t b : bytes) : take (length t) (drop (length a) (a ++ t ++ b)) = t.
Proof. rewrite drop_app_length. apply take_app_length. Qed.

Lemma mread_mid (a t b : bytes) off n :
  off = length a -> n = length t -> mread (a ++ t ++ b) off n = Ok t.
Proof. intros -> ->. rewrite mread_ok by len. by rewrite take_drop_mid. Qed.

Lemma strncpy_mid (a t b : bytes) off n :
  nonul t -> off = length a -> n = length t -> strncpy (a ++ t ++ b) off n = Ok t.
Proof.
  intros Ht -> ->. unfold strncpy. cbn zeta. rewrite take_drop_mid, has_nul_nonul by done. by apply mread_mid.
Qed.

Lemma strncpy_first (t b : bytes) n : nonul t -> n = length t -> strncpy (t ++ b) 0 n = Ok t.
Proof. intros. by apply (strncpy_mid []). Qed.

Lemma cstring_text s r : nonul s -> cstring (s ++ 0 :: r) = Ok s.
Proof.
  intros Hs. unfold cstring. rewrite has_nul_app. cbn [has_nul existsb]. rewrite orb_true_r. by rewrite cstr_nonul.
Qed.

(** A number of [w] digits in a text. *)
Definition number (w : nat) (z : Z) : Prop := (0 < w <= 9)%nat /\ 0 <= z < 10 ^ Z.of_nat w.

Lemma number_text w z : number w z -> length (fmt_0d w z) = w /\ nonul (fmt_0d w z) /\ atoi (fmt_0d w z) = z.
Proof.
  intros [Hw Hz]. destruct (fmt_0d_spec w z) as (Hl & Hd & _); [lia|done|].
  split_and!; [done|by apply digit_nonul|by apply atoi_fmt_0d].
Qed.

(** [width]: lengths of texts made of numbers. *)
Ltac width :=
  rewrite ?length_app;
  repeat match goal with H : number ?w ?z |- context [length (fmt_0d ?w ?z)] =>
    rewrite (proj1 (number_text w z H)) end;
  done.

Lemma field_mid a w z b off n :
  number w z -> off = length a -> n = w -> field (a ++ fmt_0d w z ++ b) off n = Ok z.
Proof.
  intros Hn -> ->. destruct (number_text w z Hn) as (Hl & Hnn & Ha). unfold field.
  rewrite strncpy_mid by done. cbn [res_bind]. by rewrite cstr_id, Ha.
Qed.

Lemma field_first w z b n : number w z -> n = w -> field (fmt_0d w z ++ b) 0 n = Ok z.
Proof. intros. by apply (field_mid []). Qed.

Lemma field2_mid a z b off : number 2 z -> off = length a -> field2 (a ++ fmt_0d 2 z ++ b) off = Ok z.
Proof.
  intros Hn ->. destruct (number_text 2 z Hn) as (Hl & Hnn & Ha). unfold field2.
  rewrite mread_mid by done. cbn [res_bind]. by rewrite cstr_id, Ha.
Qed.

(** ** Times with a year of four digits *)

Definition in_years (lo hi : Z) (x : tm) : Prop := lo <= tm_year x + 1900 <= hi.

#[export] Instance in_years_dec lo hi x : Decision (in_years lo hi x).
Proof. unfold in_years. apply _. Defined.

(** Every member fits the digits it is printed with. *)
Definition readable (x : tm) : Prop :=
  number 4 (tm_year x + 1900) /\ number 2 (tm_mon x + 1) /\ number 2 (tm_mday x) /\
  number 2 (tm_hour x) /\ number 2 (tm_min x) /\ number 2 (tm_sec x).

#[export] Instance readable_dec x : Decision (readable x).
Proof. unfold readable, number. apply _. Defined.

Lemma normal_readable x : normal x -> in_years 0 9999 x -> readable x.
Proof.
  intros ([Hm Hd] & Hh & Hmi & Hs) Hy. unfold in_years in Hy.
  pose proof (month_length_range (tm_year x + 1900) (tm_mon x) Hm). unfold readable, number.
  change (10 ^ Z.of_nat 4) with 10000. change (10 ^ Z.of_nat 2) with 100. lia.
Qed.

Lemma normal_readable4 x : normal x -> in_years 1000 9999 x -> readable x.
Proof. intros Hx Hy. apply normal_readable; [done|]. unfold in_years in *. lia. Qed.
#[local] Hint Resolve normal_readable normal_readable4 : core.

Lemma length_stamp x : readable x -> length (stamp x) = 14%nat.
Proof.
  intros (N1 & N2 & N3 & N4 & N5 & N6). unfold stamp. width.
Qed.

Lemma nonul_stamp x : readable x -> nonul (stamp x).
Proof.
  intros (N1 & N2 & N3 & N4 & N5 & N6).
  unfold stamp, nonul. rewrite !Forall_app. split_and!; by apply number_text.
Qed.

(** [x] without what the text does not say. *)
Definition bare (x : tm) : tm :=
  mkTm (tm_year x) (tm_mon x) (tm_mday x) (tm_hour x) (tm_min x) (tm_sec x) 0 false.

Lemma text_tm_stamp x r : readable x -> text_tm (stamp x ++ r) = Ok (bare x).
Proof.
  intros (N1 & N2 & N3 & N4 & N5 & N6).
  unfold text_tm, stamp. rewrite <-!app_assoc.
  rewrite field_first by done. cbn [res_bind].
  rewrite (field2_mid (fmt_0d 4 _)) by (done || width). cbn [res_bind].
  rewrite (app_assoc (fmt_0d 4 _)).
  rewrite field2_mid by (done || width). cbn [res_bind].
  rewrite (app_assoc (fmt_0d 4 _ ++ _)).
  rewrite field2_mid by (done || width). cbn [res_bind].
  rewrite (app_assoc ((fmt_0d 4 _ ++ _) ++ _)).
  rewrite field2_mid by (done || width). cbn [res_bind].
  rewrite (app_assoc (((fmt_0d 4 _ ++ _) ++ _) ++ _)).
  rewrite field2_mid by (done || width). cbn [res_bind].
  unfold bare. repeat f_equal; lia.
Qed.

Lemma tm_seconds_bare x : tm_seconds (bare x) = tm_seconds x.
Proof. done. Qed.

(** ** The local clock *)

(** A range of years in which a year fits an int: about 30000 years. *)
Definition in_range (w : Z) : Prop := -1000000000000 <= w <= 1000000000000.

Lemma localtime_some L t :
  in_range (local L t) -> localtime L t = Some (broken_down (local L t) (dst L t)).
Proof.
  intros Hw. unfold localtime. cbn zeta.
  assert (Hy : -40000 <= tm_year (broken_down (local L t) (dst L t)) + 1900 <= 40000).
  { unfold broken_down, civil. set (n := local L t / 86400 + epoch). cbn zeta.
    destruct (month_at _ _ _) as [m d]. cbn [tm_year].
    assert (Hn : -13000000 <= n <= 13000000).
    { subst n. unfold in_range, epoch in *. Z.div_mod_to_equations. lia. }
    pose proof (year_at_spec n) as Hs. set (y := year_at n) in *.
    assert (13000000 < year_start 40000) as E1 by reflexivity.
    assert (year_start (-40000) < -13000000) as E2 by reflexivity.
    split.
    - destruct (decide (-40000 <= y)); [lia|]. pose proof (year_start_mono (y + 1) (-40000)). lia.
    - destruct (decide (y <= 40000)); [lia|]. pose proof (year_start_mono 40000 y). lia. }
  destruct (Z.leb_spec (-2147483648) (tm_year (broken_down (local L t) (dst L t)))); [|lia].
  destruct (Z.leb_spec (tm_year (broken_down (local L t) (dst L t))) 2147483647); [done|lia].
Qed.

(** The seconds of the years 0 to 9999. *)
Lemma years_seconds x :
  normal x -> in_years 0 9999 x -> -63000000000 <= tm_seconds x <= 254000000000.
Proof.
  intros Hx Hy. rewrite normal_days by done. destruct Hx as (Hv & Hh & Hm & Hs). unfold in_years in Hy.
  pose proof (month_start_in _ _ _ Hv). set (y := tm_year x + 1900) in *. unfold day_number, epoch.
  pose proof (year_start_mono 0 y). pose proof (year_start_mono (y + 1) 10000).
  assert (year_start 0 = -366) by reflexivity. assert (year_start 10000 = 3652059) by reflexivity. lia.
Qed.

(** mktime takes the members as standard time. *)
Lemma mktime_bare L x :
  -500000000000 <= tm_seconds x <= 500000000000 -> tm_isdst x = false ->
  fst (mktime L x) = tm_seconds x - gmtoff L.
Proof.
  intros Hx Hd. unfold mktime. rewrite Hd, Z.sub_0_r. rewrite localtime_some; [done|].
  unfold in_range, local. destruct (dst L _); lia.
Qed.

(** The seconds of a text, its members in range or not. *)
Lemma readable_seconds x : readable x -> -500000000000 <= tm_seconds x <= 500000000000.
Proof.
  intros (N1 & N2 & N3 & N4 & N5 & N6). unfold number in *. change (10 ^ Z.of_nat 4) with 10000 in *.
  change (10 ^ Z.of_nat 2) with 100 in *. unfold tm_seconds. cbn zeta.
  set (y := tm_year x + 1900 + tm_mon x / 12). assert (-1 <= y <= 10008) by (subst y; Z.div_mod_to_equations; lia).
  set (m := tm_mon x mod 12). assert (0 <= m < 12) by (subst m; Z.div_mod_to_equations; lia).
  assert (Hv : valid_day y m 1) by (split; [done|]; pose proof (month_length_range y m); lia).
  pose proof (month_start_in y m 1 Hv). unfold day_number, epoch.
  pose proof (year_start_mono (-1) y). pose proof (year_start_mono (y + 1) 10009).
  assert (-800 < year_start (-1)) by reflexivity. assert (year_start 10009 < 3700000) by reflexivity. lia.
Qed.

Lemma GetTimet_stamp L x r : readable x -> GetTimet L (stamp x ++ r) = Ok (tm_seconds x - gmtoff L).
Proof.
  intros Hx. unfold GetTimet. rewrite text_tm_stamp by done. cbn [res_bind].
  rewrite mktime_bare; [done| |done]. by apply readable_seconds.
Qed.

(** Not in the first hour of daylight saving time. *)
Definition steady (L : clib) (t : Z) : Prop := dst L t = true -> dst L (t - 3600) = true.

(** Standard time on the local clock. *)
Definition clock (L : clib) (t : Z) : tm := broken_down (t + gmtoff L) false.

Lemma clock_normal L t : normal (clock L t).
Proof. apply broken_down_normal. Qed.

Lemma same_clock w b : same_time (broken_down w b) (broken_down w false).
Proof. unfold broken_down. destruct (civil _) as [[y m] d]. done. Qed.

Lemma clock_range L t lo hi : in_years lo hi (clock L t) -> 0 <= lo -> hi <= 9999 ->
  -63000000000 <= t + gmtoff L <= 254000000000.
Proof.
  intros Hy Hl Hh. rewrite <-(seconds_broken_down (t + gmtoff L) false).
  apply years_seconds; [apply broken_down_normal|]. unfold in_years, clock in *. lia.
Qed.

Lemma standard_tm_clock L t lo hi :
  steady L t -> in_years lo hi (clock L t) -> 0 <= lo -> hi <= 9999 ->
  exists x, standard_tm L t = Some x /\ same_time x (clock L t).
Proof.
  intros Hs Hy Hl Hh. pose proof (clock_range L t lo hi Hy Hl Hh) as Hr.
  unfold standard_tm. rewrite localtime_some by (unfold in_range, local; destruct (dst L t); lia).
  rewrite broken_down_isdst. destruct (dst L t) eqn:Hd.
  - specialize (Hs Hd). rewrite localtime_some by (unfold in_range, local; rewrite Hs; lia).
    eexists. split; [done|]. unfold local. rewrite Hs.
    replace (t - 3600 + gmtoff L + 3600) with (t + gmtoff L) by lia. apply same_clock.
  - eexists. split; [done|]. unfold local. rewrite Hd, Z.add_0_r. apply same_clock.
Qed.

#[export] Instance stamp_proper : Proper (same_time ==> eq) stamp.
Proof. intros x y (E1 & E2 & E3 & E4 & E5 & E6). unfold stamp. by rewrite E1, E2, E3, E4, E5, E6. Qed.

Lemma strftime_stamp L x : in_years 1000 9999 x -> strftime_text L time_format x = stamp x.
Proof.
  intros Hy. change (strftime_text L time_format x) with
    (fmt_d (tm_year x + 1900) ++ fmt_0d 2 (tm_mon x + 1) ++ fmt_0d 2 (tm_mday x) ++
     fmt_0d 2 (tm_hour x) ++ fmt_0d 2 (tm_min x) ++ fmt_0d 2 (tm_sec x) ++ []).
  rewrite app_nil_r, fmt_year by done. done.
Qed.

Lemma strftime_run L d n x :
  normal x -> in_years 1000 9999 x -> (15 <= n)%nat -> (15 <= length d)%nat ->
  strftime L d n time_format x = Ok (14, patch d 0 (stamp x ++ [0])).
Proof.
  intros Hx Hy Hn Hd. assert (Hl : length (stamp x) = 14%nat).
  { apply length_stamp. auto. }
  unfold strftime. cbn zeta. rewrite strftime_stamp, decide_True by (done || lia).
  rewrite mwrite_ok by (rewrite length_app, Hl; simpl; lia). cbn [res_bind]. by rewrite Hl.
Qed.

Lemma patch_stamp d s : length s = 14%nat -> (15 <= length d)%nat -> patch d 0 (s ++ [0]) = s ++ 0 :: drop 15 d.
Proof. intros Hs Hd. unfold patch. rewrite length_app, Hs. cbn. by rewrite <-app_assoc. Qed.

Lemma GetTimetStr_run L d t :
  steady L t -> in_years 1000 9999 (clock L t) -> (15 <= length d)%nat ->
  GetTimetStr L d t = Ok (0, stamp (clock L t) ++ 0 :: drop 15 d).
Proof.
  intros Hs Hy Hd. destruct (standard_tm_clock L t 1000 9999) as (x & E & Hx); [done|done|lia|lia|].
  unfold GetTimetStr. rewrite E.
  assert (Hn : normal x /\ in_years 1000 9999 x).
  { pose proof (clock_normal L t). destruct Hx as (E1 & E2 & E3 & E4 & E5 & E6).
    unfold normal, in_years in *. by rewrite E1, E2, E3, E4, E5, E6. }
  destruct Hn. rewrite strftime_run by (done || lia). cbn [res_bind]. rewrite Hx.
  rewrite patch_stamp; [done|apply length_stamp; auto using clock_normal|done].
Qed.

Lemma clock_seconds L t : tm_seconds (clock L t) = t + gmtoff L.
Proof. apply seconds_broken_down. Qed.

(** C34: a time that GetTimetStr prints is read back by GetTimet as the same
    time, for the years 1000 to 9999 of the local clock (dates after 2038
    included), in a zone with one offset from UTC and, at times, one hour of
    daylight saving time, outside the first hour of that time. *)
Theorem time_text_round_trip L d t :
  steady L t -> in_years 1000 9999 (clock L t) -> (15 <= length d)%nat ->
  exists s, GetTimetStr L d t = Ok (0, s) /\ cstring s = Ok (stamp (clock L t)) /\ GetTimet L s = Ok t.
Proof.
  intros Hs Hy Hd. pose proof (clock_normal L t) as Hn. eexists. split; [by apply GetTimetStr_run|].
  split.
  - apply cstring_text, nonul_stamp. auto.
  - rewrite GetTimet_stamp by auto. f_equal. rewrite clock_seconds. lia.
Qed.

(** In the first hour of daylight saving time the text is an hour early. *)
Lemma GetTimetStr_dst_start L d t :
  dst L t = true -> dst L (t - 3600) = false -> in_years 1000 9999 (clock L (t - 3600)) -> (15 <= length d)%nat ->
  GetTimetStr L d t = GetTimetStr L d (t - 3600) /\
  exists s, GetTimetStr L d t = Ok (0, s) /\ GetTimet L s = Ok (t - 3600).
Proof.
  intros H1 H2 Hy Hd. pose proof (clock_range L (t - 3600) 1000 9999 Hy ltac:(lia) ltac:(lia)) as Hr.
  assert (E : GetTimetStr L d t = GetTimetStr L d (t - 3600)).
  { unfold GetTimetStr, standard_tm.
    rewrite (localtime_some L t) by (unfold in_range, local; rewrite H1; lia).
    rewrite (localtime_some L (t - 3600)) by (unfold in_range, local; rewrite H2; lia).
    by rewrite !broken_down_isdst, H1, H2. }
  split; [done|]. rewrite E. eexists.
  split; [apply GetTimetStr_run; [intros ?; congruence|done|done]|].
  rewrite GetTimet_stamp by auto using clock_normal. f_equal. rewrite clock_seconds. lia.
Qed.

(** Standard time, eight hours east. *)
Definition china : clib := mkClib 28800 (fun _ => false) id (fun _ _ => []) (fun _ _ => None).

Lemma time_text_round_trip_witness :
  exists s, GetTimetStr china (zeros 15) 1709136000 = Ok (0, s) /\
    cstring s = Ok (stamp (clock china 1709136000)) /\ GetTimet china s = Ok 1709136000.
Proof.
  apply (time_text_round_trip china (zeros 15) 1709136000); [discriminate|vm_compute; split; discriminate|].
  rewrite length_zeros. lia.
Defined.

(** ** Adding days *)

(** The characters of a date without the time. *)
Definition date8 (x : tm) : bytes :=
  fmt_0d 4 (tm_year x + 1900) ++ fmt_0d 2 (tm_mon x + 1) ++ fmt_0d 2 (tm_mday x).

Definition midnight (x : tm) : tm := mkTm (tm_year x) (tm_mon x) (tm_mday x) 0 0 0 0 false.

(** The text [s] holds the time [x], as "yyyymmddhhmmss" or "yyyymmdd". *)
Definition holds (s : bytes) (x : tm) : Prop :=
  (exists r, s = stamp x ++ 0 :: r) \/ (x = midnight x /\ exists r, s = date8 x ++ 0 :: r).

(** [y] is [n] days after [x], at the same time of day. *)
Definition days_later (x : tm) (n : Z) (y : tm) : Prop :=
  day_number (tm_year y + 1900) (tm_mon y) (tm_mday y) =
    day_number (tm_year x + 1900) (tm_mon x) (tm_mday x) + n /\
  tm_hour y = tm_hour x /\ tm_min y = tm_min x /\ tm_sec y = tm_sec x.

Lemma with_time_holds s x : readable x -> holds s x -> with_time s = Ok (stamp x ++ [0]).
Proof.
  intros Hx [[r ->]|[Hm [r ->]]]; unfold with_time.
  - rewrite cstring_text by (by apply nonul_stamp). cbn [res_bind]. rewrite decide_False by (rewrite length_stamp by done; lia).
    rewrite strncpy_first; [done|by apply nonul_stamp|by rewrite length_stamp].
  - destruct Hx as (N1 & N2 & N3 & _).
    assert (Hl : length (date8 x) = 8%nat).
    { unfold date8. width. }
    assert (Hn : nonul (date8 x)).
    { unfold date8, nonul. rewrite !Forall_app. split_and!; by apply number_text. }
    rewrite cstring_text by done. cbn [res_bind]. rewrite decide_True by lia.
    rewrite strncpy_first by done. cbn [res_bind]. rewrite Hm at 2.
    f_equal. unfold stamp, date8, midnight. cbn [tm_year tm_mon tm_mday tm_hour tm_min tm_sec].
    by rewrite <-!app_assoc.
Qed.

Lemma add_days_run L s x n :
  readable x -> holds s x -> -24855 <= n <= 24855 ->
  add_days L s n = Ok (tm_seconds x + n * 86400 - gmtoff L).
Proof.
  intros Hx Hs Hn. unfold add_days. rewrite (with_time_holds s x) by done. cbn [res_bind].
  rewrite GetTimet_stamp by done. cbn [res_bind]. rewrite s32_id by lia. f_equal. lia.
Qed.

Lemma days_later_seconds x n y :
  normal x -> normal y -> days_later x n y -> tm_seconds y = tm_seconds x + n * 86400.
Proof.
  intros Hx Hy (E & E1 & E2 & E3). rewrite !normal_days by done. rewrite E, E1, E2, E3. lia.
Qed.

(** The clock shows the time that was asked for. *)
Lemma clock_at L x : normal x -> same_time (clock L (tm_seconds x - gmtoff L)) x.
Proof.
  intros Hx. unfold clock. replace (tm_seconds x - gmtoff L + gmtoff L) with (tm_seconds x) by lia.
  by apply broken_down_seconds.
Qed.

Lemma same_years lo hi x y : same_time x y -> in_years lo hi y -> in_years lo hi x.
Proof. intros [E _]. unfold in_years. by rewrite E. Qed.

Lemma GetTimetStr_at L d x :
  normal x -> in_years 1000 9999 x -> steady L (tm_seconds x - gmtoff L) -> (15 <= length d)%nat ->
  GetTimetStr L d (tm_seconds x - gmtoff L) = Ok (0, stamp x ++ 0 :: drop 15 d).
Proof.
  intros Hx Hy Hs Hd. pose proof (clock_at L x Hx) as E.
  rewrite GetTimetStr_run by (done || by eapply same_years). by rewrite E.
Qed.

(** AddDays writes the date that is [n] days later, at the same time of
    day, whether the text has a time or is completed to midnight; the bound
    on [n] is the one of day*24*60*60 in an int. *)
Lemma AddDays_adds L sOut s x n y :
  normal x -> in_years 0 9999 x -> holds s x -> -24855 <= n <= 24855 ->
  normal y -> in_years 1000 9999 y -> days_later x n y ->
  steady L (tm_seconds y - gmtoff L) -> (15 <= length sOut)%nat ->
  AddDays L sOut s n = Ok (stamp y ++ 0 :: drop 15 sOut).
Proof.
  intros Hx Hxy Hh Hn Hy Hyy Hl Hs Ho. unfold AddDays. rewrite (add_days_run L s x n) by auto.
  cbn [res_bind]. rewrite <-(days_later_seconds x n y) by done.
  by rewrite GetTimetStr_at by done.
Qed.

(** The day before 1 March 2024 is 29 February. *)
Lemma AddDays_adds_witness :
  AddDays china (zeros 15) (str "20240301" ++ [0]) (-1) =
    Ok (stamp (mkTm 124 1 29 0 0 0 0 false) ++ 0 :: drop 15 (zeros 15)).
Proof.
  apply (AddDays_adds china (zeros 15) _ (mkTm 124 2 1 0 0 0 0 false));
    [by apply (bool_decide_unpack _)|by apply (bool_decide_unpack _)| |lia
    |by apply (bool_decide_unpack _)|by apply (bool_decide_unpack _)|repeat split|discriminate|rewrite length_zeros; lia].
  right. split; [done|]. by exists [].
Defined.

(** ** Lengths of months *)

Lemma year_month_fields y m r :
  number 4 y -> number 2 m ->
  field (fmt_0d 4 y ++ fmt_0d 2 m ++ r) 0 4 = Ok y /\ field (fmt_0d 4 y ++ fmt_0d 2 m ++ r) 4 2 = Ok m.
Proof. intros Hy Hm. split; [by apply field_first|apply field_mid; done || width]. Qed.

Lemma day_field x r : readable x -> field (stamp x ++ r) 6 2 = Ok (tm_mday x).
Proof.
  intros (N1 & N2 & N3 & _). unfold stamp. rewrite <-!app_assoc. rewrite (app_assoc (fmt_0d 4 _)).
  apply field_mid; done || width.
Qed.

(** The last day of a month, and the first of the next as GetMonthDays writes
    it: month 13 for January. *)
Definition last_day (y m : Z) : tm := mkTm (y - 1900) m (month_length y m) 0 0 0 0 false.
Definition first_of_next (y m : Z) : tm := mkTm (y - 1900) (m + 1) 1 0 0 0 0 false.

(** [members]: read the members of a time that is written out. *)
Ltac members :=
  unfold last_day, first_of_next in *;
  cbn [tm_year tm_mon tm_mday tm_hour tm_min tm_sec tm_isdst] in *;
  repeat match goal with |- context [?y - 1900 + 1900] => replace (y - 1900 + 1900) with y by lia end.

Lemma last_day_normal y m : 0 <= m < 12 -> normal (last_day y m).
Proof.
  intros Hm. pose proof (month_length_range y m Hm). unfold normal, valid_day. members. lia.
Qed.

Lemma last_day_seconds y m :
  0 <= m < 12 -> tm_seconds (first_of_next y m) + -1 * 86400 = tm_seconds (last_day y m).
Proof.
  intros Hm. rewrite (normal_days (last_day y m)) by (by apply last_day_normal).
  unfold tm_seconds. cbn zeta. members. rewrite next_month by done. lia.
Qed.

Lemma GetMonthDays_run L y m r :
  1000 <= y <= 9999 -> 0 <= m < 12 -> steady L (tm_seconds (last_day y m) - gmtoff L) ->
  GetMonthDays L (fmt_0d 4 y ++ fmt_0d 2 (m + 1) ++ r) = Ok (month_length y m).
Proof.
  intros Hy Hm Hs. unfold GetMonthDays.
  assert (Ny : number 4 y) by (unfold number; change (10 ^ Z.of_nat 4) with 10000; lia).
  assert (N2 : forall k, 0 <= k < 100 -> number 2 k)
    by (unfold number; change (10 ^ Z.of_nat 2) with 100; lia).
  destruct (year_month_fields y (m + 1) r) as [-> E]; [done|apply N2; lia|]. cbn [res_bind].
  rewrite E. cbn [res_bind]. clear E.
  set (x := first_of_next y m).
  assert (Hx : readable x).
  { unfold readable, x. members. split_and!; [done|apply N2; lia..]. }
  assert (Ex : fmt_0d 4 y ++ fmt_0d 2 (m + 1 + 1) ++ str "01" = date8 x).
  { unfold date8, x. by members. }
  rewrite Ex. assert (Hl : length (date8 x) = 8%nat).
  { destruct Hx as (? & ? & ? & _). unfold date8. width. }
  unfold sprintf_to. rewrite mwrite_zeros by (rewrite length_app, Hl; simpl; lia). cbn [res_bind].
  unfold padded. rewrite length_app, Hl, <-app_assoc. cbn [length app Nat.add Nat.sub].
  unfold AddDaysModified. rewrite (add_days_run L _ x) by (lia || done || (right; split; [done|by eexists])).
  cbn [res_bind]. unfold x. rewrite last_day_seconds by done.
  rewrite GetTimetStr_at; [|by apply last_day_normal| |done|rewrite length_app; fold x; rewrite Hl; simpl; lia].
  2: { unfold in_years. members. lia. }
  cbn [res_bind]. rewrite day_field; [done|]. apply normal_readable4; [by apply last_day_normal|].
  unfold in_years. members. lia.
Qed.

(** GetMonthDays is the length of the month in the Gregorian calendar,
    leap years included, although it goes through the text of the first day
    of the next month (month 13 for December). *)
Lemma GetMonthDays_spec L y m r :
  1000 <= y <= 9999 -> 0 <= m < 12 -> steady L (tm_seconds (last_day y m) - gmtoff L) ->
  GetMonthDays L (fmt_0d 4 y ++ fmt_0d 2 (m + 1) ++ r) = Ok (month_length y m).
Proof. apply GetMonthDays_run. Qed.

Lemma GetMonthDays_spec_witness :
  GetMonthDays china (fmt_0d 4 2024 ++ fmt_0d 2 (1 + 1) ++ [0]) = Ok (month_length 2024 1) /\ month_length 2024 1 = 29.
Proof. split; [|done]. apply (GetMonthDays_spec china 2024 1 [0]); [lia|lia|discriminate]. Defined.

(** ** Checks *)

(** The ranges GetTimetValid tests. *)
Definition fields_in_range (x : tm) : bool :=
  Z.ltb 0 (tm_year x) && (Z.leb 0 (tm_mon x) && Z.leb (tm_mon x) 11) &&
  (Z.leb 0 (tm_mday x) && Z.leb (tm_mday x) 31) && (Z.leb 0 (tm_hour x) && Z.leb (tm_hour x) 23) &&
  (Z.leb 0 (tm_min x) && Z.leb (tm_min x) 59) && (Z.leb 0 (tm_sec x) && Z.leb (tm_sec x) 59).

Lemma range_test a z b : Z.ltb z a || Z.ltb b z = negb (Z.leb a z && Z.leb z b).
Proof. by rewrite negb_andb, !Z.ltb_antisym. Qed.

(** GetTimetValid checks each member on its own, then returns what
    GetTimet does, else -1. *)
Lemma GetTimetValid_spec L x r :
  readable x ->
  GetTimetValid L (stamp x ++ r) =
    if fields_in_range x then GetTimet L (stamp x ++ r) else Ok (-1).
Proof.
  intros Hx. unfold GetTimetValid, GetTimet, fields_in_range. rewrite text_tm_stamp by done. cbn [res_bind].
  change (tm_year (bare x)) with (tm_year x). change (tm_mon (bare x)) with (tm_mon x).
  change (tm_mday (bare x)) with (tm_mday x). change (tm_hour (bare x)) with (tm_hour x).
  change (tm_min (bare x)) with (tm_min x). change (tm_sec (bare x)) with (tm_sec x).
  rewrite !range_test, Z.leb_antisym.
  destruct (Z.ltb 0 (tm_year x)), (Z.leb 0 (tm_mon x) && Z.leb (tm_mon x) 11),
    (Z.leb 0 (tm_mday x) && Z.leb (tm_mday x) 31), (Z.leb 0 (tm_hour x) && Z.leb (tm_hour x) 23),
    (Z.leb 0 (tm_min x) && Z.leb (tm_min x) 59), (Z.leb 0 (tm_sec x) && Z.leb (tm_sec x) 59); done.
Qed.

Lemma GetTimetValid_spec_witness :
  GetTimetValid china (stamp (mkTm 123 1 31 0 0 0 0 false) ++ [0]) =
    if fields_in_range (mkTm 123 1 31 0 0 0 0 false)
    then GetTimet china (stamp (mkTm 123 1 31 0 0 0 0 false) ++ [0]) else Ok (-1).
Proof. apply (GetTimetValid_spec china (mkTm 123 1 31 0 0 0 0 false) [0]). by apply (bool_decide_unpack _). Defined.

(** So 31 February is taken for 3 March. *)
Lemma GetTimetValid_february :
  GetTimetValid china (str "20230231000000" ++ [0]) = GetTimet china (str "20230303000000" ++ [0]).
Proof. reflexivity. Qed.

(** The day of the week counted from a Sunday. *)
Definition weekday (y m d : Z) : Z := (day_number y m d + 4) mod 7.

(** GetWeek is the day of the week, 0 for Sunday, for every date of the
    calendar whose first hour after midnight is not the time -1. *)
Lemma GetWeek_spec L y m d r :
  0 <= y <= 9999 -> valid_day y m d ->
  let t := tm_seconds (mkTm (y - 1900) m d 1 0 0 0 false) - gmtoff L in
  t <> -1 ->
  GetWeek L (fmt_0d 4 y ++ fmt_0d 2 (m + 1) ++ fmt_0d 2 d ++ r) = Ok (weekday y m d).
Proof.
  intros Hy Hv t Ht. set (x := mkTm (y - 1900) m d 1 0 0 0 false) in *.
  assert (Hn : normal x) by (unfold normal, x; members; lia || split; [done|lia]).
  assert (Hr : readable x) by (apply normal_readable; [done|]; unfold in_years, x; members; lia).
  pose proof Hr as (N1 & N2 & N3 & _). unfold x in N1, N2, N3. cbn [tm_year tm_mon tm_mday] in N1, N2, N3.
  replace (y - 1900 + 1900) with y in N1 by lia.
  unfold GetWeek. destruct (year_month_fields y (m + 1) (fmt_0d 2 d ++ r) N1 N2) as [-> E]. cbn [res_bind].
  rewrite E. cbn [res_bind]. rewrite (app_assoc (fmt_0d 4 y)), field_mid by (done || width). cbn [res_bind].
  replace (m + 1 - 1) with m by lia. fold x. unfold mktime.
  pose proof (readable_seconds x Hr).
  assert (Hrange : in_range (local L t)) by (unfold in_range, local; destruct (dst L t); subst t; lia).
  change (tm_isdst x) with false. cbn match. rewrite Z.sub_0_r. fold t. rewrite localtime_some by done.
  destruct (Z.eqb_spec t (-1)); [done|]. f_equal. unfold broken_down.
  assert (Ew : local L t / 86400 = day_number y m d).
  { unfold local. replace (t + gmtoff L) with (tm_seconds x) by lia. rewrite normal_days by done. unfold x. members.
    destruct (dst L t); Z.div_mod_to_equations; lia. }
  rewrite Ew. destruct (civil _) as [[? ?] ?]. done.
Qed.

Lemma GetWeek_spec_witness :
  GetWeek china (fmt_0d 4 2024 ++ fmt_0d 2 (1 + 1) ++ fmt_0d 2 29 ++ [0]) = Ok (weekday 2024 1 29) /\ weekday 2024 1 29 = 4.
Proof.
  split; [|done]. apply (GetWeek_spec china 2024 1 29 [0]); [lia|by apply (bool_decide_unpack _)|discriminate].
Defined.

(** ** Digits determine numbers *)

Lemma digits_val_inj s t a b :
  length s = length t -> Forall (fun c => is_digit c = true) s -> Forall (fun c => is_digit c = true) t ->
  digits_val a s = digits_val b t -> a = b /\ s = t.
Proof.
  revert t a b. induction s as [|c s IH]; intros [|e t] a b Hl Hs Ht; try done.
  inversion Hs as [|? ? Hc Hs']; inversion Ht as [|? ? He Ht']; subst. cbn [digits_val]. rewrite Hc, He.
  intros E. apply IH in E as [E ->]; [|by injection Hl|done|done].
  unfold is_digit in Hc, He. apply andb_prop in Hc as [?%Z.leb_le ?%Z.leb_le].
  apply andb_prop in He as [?%Z.leb_le ?%Z.leb_le]. split; [lia|f_equal; lia].
Qed.

Lemma digits_val_bound s :
  Forall (fun c => is_digit c = true) s -> 0 <= digits_val 0 s < 10 ^ Z.of_nat (length s).
Proof.
  intros Hs. enough (forall a, 0 <= a -> a * 10 ^ Z.of_nat (length s) <= digits_val a s < (a + 1) * 10 ^ Z.of_nat (length s))
    as H by (specialize (H 0); lia).
  induction Hs as [|c s Hc _ IH]; intros a Ha; [change (10 ^ Z.of_nat (length [])) with 1; cbn; lia|].
  cbn [digits_val length]. rewrite Hc, Nat2Z.inj_succ, Z.pow_succ_r by lia.
  unfold is_digit in Hc. apply andb_prop in Hc as [?%Z.leb_le ?%Z.leb_le].
  specialize (IH (10 * a + (c - 48)) ltac:(lia)). assert (0 < 10 ^ Z.of_nat (length s)) by (apply Z.pow_pos_nonneg; lia).
  nia.
Qed.

(** A text of digits is what its number prints. *)
Lemma digits_print w s :
  (0 < w <= 9)%nat -> length s = w -> Forall (fun c => is_digit c = true) s ->
  number w (atoi s) /\ s = fmt_0d w (atoi s).
Proof.
  intros Hw Hl Hs. pose proof (digits_val_bound s Hs) as Hb. rewrite Hl in Hb.
  assert (Hp : 10 ^ Z.of_nat w <= 10 ^ 9) by (apply Z.pow_le_mono_r; lia). change (10 ^ 9) with 1000000000 in Hp.
  assert (E : atoi s = digits_val 0 s).
  { unfold atoi. rewrite strtol_digits by (done || by destruct s; [simpl in Hl; lia|]).
    rewrite clamp64_id, s32_id by lia. done. }
  rewrite E. split; [by split|]. destruct (fmt_0d_spec w (digits_val 0 s)) as (Fl & Fd & _); [lia|done|].
  destruct (digits_val_inj s (fmt_0d w (digits_val 0 s)) 0 0) as [_ ?]; [lia|done|done| |done].
  pose proof (atoi_fmt_0d w (digits_val 0 s) ltac:(lia) Hb) as A. unfold atoi in A.
  rewrite strtol_digits in A; [|by destruct (fmt_0d w _); [simpl in Fl; lia|]|done].
  pose proof (digits_val_bound _ Fd) as Fb. rewrite Fl in Fb. rewrite clamp64_id, s32_id in A by lia. done.
Qed.
End TimeFacts.
