(* ===== verification/DateFacts.v ===== *)
(** * Dates, months and periods (theorems about [TimeComm])

    IsDateExt against the calendar, AddMonths against arithmetic on months,
    the loop of AddMonth, two periods of time, the lunar table against an
    almanac. *)

From stdpp Require Import prelude gmap strings.
From S2P Require Import Prelude CLib Sock Calendar TimeComm TimeFacts.
Import Sock TimeComm TimeFacts.
Open Scope Z_scope.

Module DateFacts.

(** ** Dates *)

(** The text of a date of the calendar, "yyyymmdd", in a year from 1. *)
Definition date_text (y m d : Z) : bytes := fmt_0d 4 y ++ fmt_0d 2 (m + 1) ++ fmt_0d 2 d.

Definition calendar_date (s : bytes) : Prop :=
  exists y m d, s = date_text y m d /\ 1 <= y <= 9999 /\ valid_day y m d.

Lemma leap_test_spec y : 0 <= y -> leap_test y = is_leap y.
Proof. intros. unfold leap_test, is_leap. by rewrite !Z.rem_mod_nonneg by lia. Qed.

Lemma Months_at_spec y m :
  0 <= m < 12 -> month_length y m <> 29 -> Months_at m = Ok (month_length y m).
Proof.
  intros Hm. unfold Months_at, month_length. destruct (Z.ltb_spec m 0); [lia|].
  assert (Hk : (Z.to_nat m < 12)%nat) by lia. revert Hk. generalize (Z.to_nat m). intros k Hk.
  destruct (is_leap y); do 12 (destruct k as [|k]; [done|]); lia.
Qed.

Lemma month_length_29 y m : 0 <= m < 12 -> month_length y m = 29 <-> is_leap y = true /\ m = 1.
Proof.
  intros Hm. unfold month_length. assert (Hk : (Z.to_nat m < 12)%nat) by lia.
  assert (Em : m = 1 <-> Z.to_nat m = 1%nat) by lia. rewrite Em. clear Hm Em. revert Hk.
  generalize (Z.to_nat m). intros k Hk.
  destruct (is_leap y); do 12 (destruct k as [|k]; [cbn; intuition (done || lia)|]); lia.
Qed.

Lemma valid_day_numbers y m d : 0 <= y <= 9999 -> valid_day y m d -> number 4 y /\ number 2 (m + 1) /\ number 2 d.
Proof.
  intros Hy [Hm Hd]. pose proof (month_length_range y m Hm). unfold number.
  change (10 ^ Z.of_nat 4) with 10000. change (10 ^ Z.of_nat 2) with 100. lia.
Qed.

Lemma number_digits w z : number w z -> Forall (fun c => is_digit c = true) (fmt_0d w z).
Proof. intros [Hw Hz]. apply fmt_0d_spec; lia. Qed.

(** The test of the day after the test of the month. *)
Lemma IsDateExt_tail (y m d : Z) :
  0 < y -> 0 <= m < 12 ->
  (if leap_test y && Z.eqb (m + 1) 2 then Ok (negb (Z.leb d 0 || Z.ltb 29 d))
   else let? l := Months_at (m + 1 - 1) in Ok (negb (Z.leb d 0 || Z.ltb l d)))
  = Ok (bool_decide (valid_day y m d)).
Proof.
  intros Hy Hm. rewrite leap_test_spec by lia. replace (m + 1 - 1) with m by lia.
  pose proof (month_length_29 y m Hm) as H29.
  assert (Hd : forall l, month_length y m = l -> negb (Z.leb d 0 || Z.ltb l d) = bool_decide (valid_day y m d)).
  { intros l <-. unfold valid_day. destruct (Z.leb_spec d 0), (Z.ltb_spec (month_length y m) d); cbn [orb negb];
      symmetry; rewrite ?bool_decide_eq_true, ?bool_decide_eq_false; lia. }
  destruct (is_leap y) eqn:E, (Z.eqb_spec (m + 1) 2); cbn [andb];
    try (rewrite (Months_at_spec y) by (done || (intros ?%H29; intuition (done || lia))); cbn [res_bind]; by rewrite Hd).
  rewrite Hd; [done|]. apply H29. split; [done|lia].
Qed.

Lemma date_text_fields y m d r :
  number 4 y -> number 2 (m + 1) -> number 2 d ->
  field (date_text y m d ++ r) 0 4 = Ok y /\ field2 (date_text y m d ++ r) 4 = Ok (m + 1) /\
  field2 (date_text y m d ++ r) 6 = Ok d.
Proof.
  intros N1 N2 N3. unfold date_text. rewrite <-!app_assoc.
  split_and!; [by apply field_first|apply field2_mid; done || width|].
  rewrite (app_assoc (fmt_0d 4 y)). apply field2_mid; done || width.
Qed.

Lemma eight_digits s :
  length s = 8%nat -> Forall (fun c => is_digit c = true) s ->
  exists y m d, s = date_text y m d /\ number 4 y /\ number 2 (m + 1) /\ number 2 d.
Proof.
  intros Hl Hf. rewrite <-(take_drop 4 s), <-(take_drop 2 (drop 4 s)), drop_drop in Hf.
  rewrite !Forall_app in Hf. destruct Hf as (F1 & F2 & F3).
  destruct (digits_print 4 (take 4 s)) as [N1 E1]; [lia|rewrite length_take; lia|done|].
  destruct (digits_print 2 (take 2 (drop 4 s))) as [N2 E2]; [lia|rewrite length_take, length_drop; lia|done|].
  destruct (digits_print 2 (drop (4 + 2) s)) as [N3 E3]; [lia|rewrite length_drop; lia|done|].
  exists (atoi (take 4 s)), (atoi (take 2 (drop 4 s)) - 1), (atoi (drop (4 + 2) s)).
  rewrite Z.sub_add. split; [|done].
  unfold date_text. by rewrite Z.sub_add, <-E1, <-E2, <-E3, <-drop_drop, !take_drop.
Qed.

Lemma date_text_inj y m d y' m' d' :
  number 4 y -> number 2 (m + 1) -> number 2 d -> number 4 y' -> number 2 (m' + 1) -> number 2 d' ->
  date_text y m d = date_text y' m' d' -> y = y' /\ m = m' /\ d = d'.
Proof.
  intros N1 N2 N3 M1 M2 M3 E.
  destruct (date_text_fields y m d [] N1 N2 N3) as (A & B & C).
  destruct (date_text_fields y' m' d' [] M1 M2 M3) as (A' & B' & C').
  rewrite E in A, B, C. rewrite A' in A. rewrite B' in B. rewrite C' in C. simplify_eq. lia.
Qed.

(** IsDateExt accepts exactly the eight-digit dates of the Gregorian
    calendar from year 1 on. *)
Lemma IsDateExt_spec s r :
  nonul s -> exists b, IsDateExt (s ++ 0 :: r) = Ok b /\ (b = true <-> calendar_date s).
Proof.
  intros Hs. unfold IsDateExt. rewrite cstring_text by done. cbn [res_bind].
  destruct (Nat.eqb_spec (length s) 8) as [Hl|Hl]; cbn [negb].
  2: { exists false. split; [done|]. split; [done|]. intros (y & m & d & -> & Hy & Hv).
       destruct (valid_day_numbers y m d) as (? & ? & ?); [lia|done|]. destruct Hl. unfold date_text. width. }
  unfold all_digits. destruct (forallb is_digit s) eqn:Hd; cbn [negb].
  2: { exists false. split; [done|]. split; [done|]. intros (y & m & d & -> & Hy & Hv). rewrite <-Hd.
       destruct (valid_day_numbers y m d) as (? & ? & ?); [lia|done|].
       rewrite forallb_forall. intros c Hc. apply list_elem_of_In in Hc. revert c Hc. rewrite <-Forall_forall.
       unfold date_text. rewrite !Forall_app. split_and!; by apply number_digits. }
  assert (Hf : Forall (fun c => is_digit c = true) s).
  { rewrite Forall_forall. intros c Hc%list_elem_of_In. by eapply forallb_forall in Hd. }
  destruct (eight_digits s Hl Hf) as (y & m & d & -> & N1 & N2 & N3). clear Hl Hd Hf Hs.
  destruct (date_text_fields y m d (0 :: r) N1 N2 N3) as (-> & -> & ->). cbn [res_bind].
  assert (Hinj : calendar_date (date_text y m d) <-> 1 <= y <= 9999 /\ valid_day y m d).
  { split; [|by exists y, m, d]. intros (y' & m' & d' & E & Hy & Hv).
    destruct (valid_day_numbers y' m' d') as (M1 & M2 & M3); [lia|done|].
    by destruct (date_text_inj _ _ _ _ _ _ N1 N2 N3 M1 M2 M3 E) as (-> & -> & ->). }
  destruct N1 as [_ N1]. change (10 ^ Z.of_nat 4) with 10000 in N1.
  destruct (Z.eqb_spec y 0); [exists false; split; [done|]; rewrite Hinj; intuition (done || lia)|].
  rewrite range_test. destruct (decide (0 <= m < 12)) as [Hm|Hm].
  - destruct (Z.leb_spec 1 (m + 1)), (Z.leb_spec (m + 1) 12); try lia. cbn [andb negb].
    rewrite IsDateExt_tail by lia. eexists. split; [done|]. rewrite bool_decide_eq_true, Hinj. intuition lia.
  - assert (~ valid_day y m d) by (intros [? _]; lia).
    destruct (Z.leb_spec 1 (m + 1)), (Z.leb_spec (m + 1) 12); try lia; cbn [andb negb];
      (exists false; split; [done|]; rewrite Hinj; intuition done).
Qed.

Lemma IsDateExt_spec_witness :
  exists b, IsDateExt (str "20240229" ++ 0 :: []) = Ok b /\ (b = true <-> calendar_date (str "20240229")).
Proof. apply (IsDateExt_spec (str "20240229") []). by apply (bool_decide_unpack _). Defined.

(** ** Months *)

(** The month [n] months after month [m] (from 0) of year [y]. *)
Definition months_later (y m n : Z) : Z * Z := ((12 * y + m + n) / 12, (12 * y + m + n) mod 12).

Lemma month_up_iter k y m :
  0 <= m < 12 ->
  Nat.iter k month_up (y, m + 1) = let '(y', m') := months_later y m (Z.of_nat k) in (y', m' + 1).
Proof.
  intros Hm. induction k as [|k IH]; unfold months_later in *.
  - cbn. f_equal; Z.div_mod_to_equations; lia.
  - change (Nat.iter (S k) month_up (y, m + 1)) with (month_up (Nat.iter k month_up (y, m + 1))).
    rewrite IH. unfold month_up. destruct (Z.eqb_spec ((12 * y + m + Z.of_nat k) mod 12 + 1 + 1) 13);
      f_equal; Z.div_mod_to_equations; lia.
Qed.

Lemma month_down_iter k y m :
  0 <= m < 12 ->
  Nat.iter k month_down (y, m + 1) = let '(y', m') := months_later y m (- Z.of_nat k) in (y', m' + 1).
Proof.
  intros Hm. induction k as [|k IH]; unfold months_later in *.
  - cbn. f_equal; Z.div_mod_to_equations; lia.
  - change (Nat.iter (S k) month_down (y, m + 1)) with (month_down (Nat.iter k month_down (y, m + 1))).
    rewrite IH. unfold month_down. destruct (Z.eqb_spec ((12 * y + m + - Z.of_nat k) mod 12 + 1 - 1) 0);
      f_equal; Z.div_mod_to_equations; lia.
Qed.

Lemma clamp_day_spec y m d :
  0 <= y -> 0 <= m < 12 -> clamp_day y (m + 1) d = Ok (Z.min d (month_length y m)).
Proof.
  intros Hy Hm. unfold clamp_day. rewrite leap_test_spec by done. replace (m + 1 - 1) with m by lia.
  pose proof (month_length_29 y m Hm) as H29.
  assert (Hc : forall l, month_length y m = l -> (if Z.ltb l d then l else d) = Z.min d (month_length y m)).
  { intros l <-. destruct (Z.ltb_spec (month_length y m) d); lia. }
  destruct (Z.eqb_spec (m + 1) 2) as [E|E]; cbn [andb].
  - assert (m = 1) as -> by lia. destruct (is_leap y) eqn:El; f_equal; apply Hc; unfold month_length; by rewrite El.
  - rewrite (Months_at_spec y) by (done || (intros ?%H29; lia)). cbn [res_bind]. by rewrite Hc.
Qed.

Lemma number_val w z : number w z -> digits_val 0 (fmt_0d w z) = z.
Proof.
  intros [Hw Hz]. unfold fmt_0d. destruct (Z.ltb_spec z 0); [lia|]. rewrite Z.abs_eq, digits_val_zeros by lia.
  assert (10 ^ Z.of_nat w <= 10 ^ 9) by (apply Z.pow_le_mono_r; lia). apply fmt_u_spec. lia.
Qed.

(** The year and month AddMonths reads from the first six characters. *)
Lemma six_digits y m :
  number 4 y -> number 2 (m + 1) ->
  Z.quot (atoi (fmt_0d 4 y ++ fmt_0d 2 (m + 1))) 100 = y.
Proof.
  intros N1 N2. pose proof (number_digits _ _ N1) as D1. pose proof (number_digits _ _ N2) as D2.
  assert (Hne : fmt_0d 4 y ++ fmt_0d 2 (m + 1) <> []) by (intros E%(f_equal length); revert E; width).
  unfold atoi. rewrite strtol_digits by (done || by apply Forall_app). rewrite digits_val_app by done. rewrite (number_val 4 y) by done.
  assert (Ev : digits_val y (fmt_0d 2 (m + 1)) = 100 * y + (m + 1)).
  { rewrite <-(number_val 2 (m + 1) N2) at 2. destruct (number_text 2 _ N2) as (Hl & _).
    destruct (fmt_0d 2 (m + 1)) as [|a [|b [|? ?]]]; try done. inversion D2 as [|? ? Ha D3]. inversion D3 as [|? ? Hb _].
    cbn. rewrite Ha, Hb. lia. }
  rewrite Ev. destruct N1 as [_ N1], N2 as [_ N2]. change (10 ^ Z.of_nat 4) with 10000 in N1. change (10 ^ Z.of_nat 2) with 100 in N2.
  rewrite clamp64_id, s32_id by lia. rewrite Z.quot_div_nonneg by lia. Z.div_mod_to_equations. lia.
Qed.

Lemma date_text_length y m d : number 4 y -> number 2 (m + 1) -> number 2 d -> length (date_text y m d) = 8%nat.
Proof. intros. unfold date_text. width. Qed.

Lemma ym_length y m : number 4 y -> number 2 (m + 1) -> length (fmt_0d 4 y ++ fmt_0d 2 (m + 1)) = 6%nat.
Proof. intros. width. Qed.

Lemma ym_nonul y m : number 4 y -> number 2 (m + 1) -> nonul (fmt_0d 4 y ++ fmt_0d 2 (m + 1)).
Proof. intros N1 N2. apply Forall_app. split; by apply number_text. Qed.

Lemma AddMonths_reads sTemp y m d r n :
  length sTemp = 9%nat -> number 4 y -> number 2 (m + 1) -> number 2 d -> n <> 0 ->
  exists sTemp', length sTemp' = 9%nat /\
    AddMonths sTemp (date_text y m d ++ 0 :: r) n = month_sum sTemp' y (m + 1) d n.
Proof.
  intros Hl N1 N2 N3 Hn. set (ym := fmt_0d 4 y ++ fmt_0d 2 (m + 1)).
  assert (Ed : date_text y m d ++ 0 :: r = ym ++ fmt_0d 2 d ++ 0 :: r).
  { unfold date_text, ym. by rewrite <-!app_assoc. }
  assert (Hym : length ym = 6%nat) by (by apply ym_length). assert (Hnn : nonul ym) by (by apply ym_nonul).
  unfold AddMonths. rewrite Ed. rewrite strncpy_first by done. cbn [res_bind].
  rewrite mwrite_ok by (rewrite length_app, Hym, Hl; simpl; lia). cbn [res_bind].
  assert (Ep : patch sTemp 0 (ym ++ [0]) = ym ++ 0 :: drop 7 sTemp).
  { unfold patch. rewrite length_app, Hym. cbn. by rewrite <-app_assoc. }
  rewrite Ep, cstr_nonul by done.
  rewrite (six_digits y m N1 N2 : Z.quot (atoi ym) 100 = y).
  assert (Em : drop 4 (ym ++ 0 :: drop 7 sTemp) = fmt_0d 2 (m + 1) ++ 0 :: drop 7 sTemp).
  { unfold ym. rewrite <-app_assoc. apply drop_app_length'. width. }
  rewrite Em, cstring_text by (by apply number_text). cbn [res_bind].
  destruct (number_text _ _ N2) as (_ & _ & ->). destruct (number_text _ _ N3) as (Ld & Nd & Ad).
  rewrite mread_ok by (rewrite !length_app, Hym, Ld; simpl; lia). cbn [res_bind].
  rewrite !drop_app_length' by done.
  assert (Hc : Z.eqb (nth 0 (take 1 (fmt_0d 2 d ++ 0 :: r)) 0) 0 = false).
  { destruct (fmt_0d 2 d) as [|c ?]; [done|]. cbn. apply Z.eqb_neq. by inversion Nd. }
  rewrite Hc, cstring_text by done. cbn [res_bind]. rewrite Ad.
  destruct (Z.eqb_spec n 0); [done|]. eexists. split; [|reflexivity].
  rewrite length_app, Hym. cbn. rewrite length_drop. lia.
Qed.

(** C35: AddMonths moves a date by [n] months, over the turns of years in
    both directions, and cuts the day to the length of the new month. *)
Theorem AddMonths_spec sTemp y m d n r :
  length sTemp = 9%nat -> 0 <= y <= 9999 -> valid_day y m d -> n <> 0 ->
  let '(y', m') := months_later y m n in
  0 <= y' <= 9999 ->
  AddMonths sTemp (date_text y m d ++ 0 :: r) n =
    Ok (date_text y' m' (Z.min d (month_length y' m')) ++ [0]).
Proof.
  intros Hl Hy Hv Hn. destruct (months_later y m n) as [y' m'] eqn:E. intros Hy'.
  destruct (valid_day_numbers y m d Hy Hv) as (N1 & N2 & N3).
  destruct (AddMonths_reads sTemp y m d r n Hl N1 N2 N3 Hn) as (sT & HsT & ->).
  assert (Hm' : 0 <= m' < 12) by (unfold months_later in E; simplify_eq; apply Z.mod_pos_bound; lia).
  destruct Hv as [Hm Hd]. unfold month_sum.
  assert (Ei : (if Z.ltb 0 n then Nat.iter (Z.to_nat n) month_up (y, m + 1)
    else Nat.iter (Z.to_nat (- n)) month_down (y, m + 1)) = (y', m' + 1)).
  { destruct (Z.ltb_spec 0 n).
    - rewrite month_up_iter, Z2Nat.id by lia. by rewrite E.
    - rewrite month_down_iter, Z2Nat.id, Z.opp_involutive by lia. by rewrite E. }
  rewrite Ei. destruct (Z.ltb_spec 0 d); [|lia]. rewrite clamp_day_spec by lia. cbn [res_bind].
  set (d' := Z.min d (month_length y' m')).
  assert (Hv' : valid_day y' m' d') by (split; [done|]; pose proof (month_length_range y' m' Hm'); lia).
  destruct (valid_day_numbers y' m' d' Hy' Hv') as (M1 & M2 & M3).
  pose proof (date_text_length y' m' d' M1 M2 M3) as L8. fold (date_text y' m' d').
  unfold sprintf_to. rewrite mwrite_ok by (rewrite length_app, L8; simpl; lia). cbn [res_bind].
  assert (Ep : patch sT 0 (date_text y' m' d' ++ [0]) = date_text y' m' d' ++ [0]).
  { unfold patch. rewrite length_app, L8. cbn. rewrite drop_ge by lia. by rewrite app_nil_r. }
  rewrite Ep, mwrite_ok by (rewrite length_app, L8; simpl; lia). f_equal. unfold patch.
  rewrite take_app_length' by done. cbn. rewrite drop_ge by (rewrite length_app, L8; simpl; lia). done.
Qed.

Lemma AddMonths_spec_witness :
  AddMonths (zeros 9) (date_text 2023 11 31 ++ 0 :: []) 2 = Ok (date_text 2024 1 29 ++ [0]).
Proof.
  apply (AddMonths_spec (zeros 9) 2023 11 31 2 []);
    [done|lia|by apply (bool_decide_unpack _)|done|by split].
Defined.

(** AddMonth with one month does not move forward: its loop runs while
    iLoop < iMonthCount, so not once, and the result is the last day of the
    month before, at the same time of day. *)
Lemma AddMonth_one_goes_back L x r :
  normal x -> in_years 1000 9999 x ->
  steady L (tm_seconds (last_day (tm_year x + 1900) (tm_mon x)) - gmtoff L) ->
  AddMonth L (stamp x ++ 0 :: r) 1 = Ok (s32 (tm_seconds x - gmtoff L - tm_mday x * 86400)).
Proof.
  intros Hx Hy Hs. pose proof (normal_readable4 x Hx Hy) as Hr. pose proof Hr as (N1 & N2 & N3 & _).
  pose proof Hx as ([Hm Hd] & _). pose proof (month_length_range (tm_year x + 1900) _ Hm) as Hlen.
  assert (Es : exists q, stamp x ++ 0 :: r = fmt_0d 4 (tm_year x + 1900) ++ fmt_0d 2 (tm_mon x + 1) ++ q).
  { unfold stamp. rewrite <-!app_assoc. by eexists. }
  destruct Es as [q Es]. destruct (year_month_fields _ _ q N1 N2) as [E1 E2].
  pose proof (GetMonthDays_run L (tm_year x + 1900) (tm_mon x) q Hy Hm Hs) as E3. rewrite <-Es in E1, E2, E3.
  unfold AddMonth. rewrite GetTimet_stamp by done. cbn [res_bind].
  rewrite E1. cbn [res_bind]. rewrite E2. cbn [res_bind]. rewrite day_field by done. cbn [res_bind].
  rewrite E3. cbn [res_bind]. change (Z.eqb 1 0) with false. cbn match.
  rewrite cstring_text by (by apply nonul_stamp). cbn [res_bind]. unfold sprintf_to.
  rewrite mwrite_ok by (rewrite length_app, length_stamp, length_zeros by done; simpl; lia). cbn [res_bind].
  change (loop_months (tm_mon x + 1) 1) with (@nil Z). cbn [total_days res_bind]. change (Z.ltb 0 1) with true. cbn match.
  do 2 f_equal. rewrite s32_id by lia. lia.
Qed.

Lemma AddMonth_one_goes_back_witness :
  AddMonth china (stamp (mkTm 123 0 15 0 0 0 0 false) ++ 0 :: []) 1 =
    Ok (s32 (tm_seconds (mkTm 123 0 15 0 0 0 0 false) - gmtoff china - 15 * 86400)).
Proof.
  apply (AddMonth_one_goes_back china (mkTm 123 0 15 0 0 0 0 false) []);
    [by apply (bool_decide_unpack _)|by apply (bool_decide_unpack _)|discriminate].
Defined.

(** ** Periods *)

(** A time that GetTimetStr prints as it is. *)
Definition printable (L : clib) (t : Z) : Prop := steady L t /\ in_years 1000 9999 (clock L t).

(** The times of a period, its ends in either order. *)
Definition between (a b t : Z) : Prop := Z.min a b <= t <= Z.max a b.

Lemma period_run L s s' a b :
  GetTimet L s = Ok a -> GetTimet L s' = Ok b -> period L s s' = Ok (Z.min a b, Z.max a b).
Proof.
  intros Ha Hb. unfold period. rewrite Ha. cbn [res_bind]. rewrite Hb. cbn [res_bind].
  destruct (Z.ltb_spec b a); do 2 f_equal; lia.
Qed.

Lemma printable_max L a b : printable L a -> printable L b -> printable L (Z.max a b).
Proof. intros. by destruct (Z.max_spec a b) as [[_ ->]|[_ ->]]. Qed.
Lemma printable_min L a b : printable L a -> printable L b -> printable L (Z.min a b).
Proof. intros. by destruct (Z.min_spec a b) as [[_ ->]|[_ ->]]. Qed.
#[local] Hint Resolve printable_max printable_min : core.

Lemma write_time_run L d t :
  printable L t -> (15 <= length d)%nat -> write_time L (Some d) t = Ok (Some (stamp (clock L t) ++ 0 :: drop 15 d)).
Proof. intros [Hs Hy] Hd. unfold write_time. by rewrite GetTimetStr_run. Qed.

Section Periods.
Context (L : clib) (s1 s2 s3 s4 : bytes) (t1 t2 t3 t4 : Z) (d1 d2 : bytes).
Context (H1 : GetTimet L s1 = Ok t1) (H2 : GetTimet L s2 = Ok t2) (H3 : GetTimet L s3 = Ok t3) (H4 : GetTimet L s4 = Ok t4).
Context (P1 : printable L t1) (P2 : printable L t2) (P3 : printable L t3) (P4 : printable L t4).
Context (D1 : (15 <= length d1)%nat) (D2 : (15 <= length d2)%nat).

(** GetTimeIntersection of two periods that are not single moments: when
    they have a time in common it writes the ends of exactly the common
    times, else it returns FALSE and writes nothing. *)
Lemma GetTimeIntersection_spec :
  t1 <> t2 -> t3 <> t4 ->
  ((exists t, between t1 t2 t /\ between t3 t4 t) ->
    exists lo hi, GetTimeIntersection L s1 s2 s3 s4 (Some d1) (Some d2) =
        Ok (true, Some (stamp (clock L lo) ++ 0 :: drop 15 d1), Some (stamp (clock L hi) ++ 0 :: drop 15 d2)) /\
      forall t, lo <= t <= hi <-> between t1 t2 t /\ between t3 t4 t) /\
  (~ (exists t, between t1 t2 t /\ between t3 t4 t) ->
    GetTimeIntersection L s1 s2 s3 s4 (Some d1) (Some d2) = Ok (false, Some d1, Some d2)).
Proof.
  intros N1 N2. unfold GetTimeIntersection. rewrite (period_run L s1 s2 t1 t2), (period_run L s3 s4 t3 t4) by done.
  cbn [res_bind]. unfold between.
  set (b1 := Z.min t1 t2) in *. set (e1 := Z.max t1 t2) in *. set (b2 := Z.min t3 t4) in *. set (e2 := Z.max t3 t4) in *.
  assert (b1 < e1 /\ b2 < e2) as [Hb1 Hb2] by lia.
  destruct (Z.eqb_spec b1 e1), (Z.eqb_spec b2 e2); try lia. rewrite !orb_false_r.
  split.
  - intros (t & Ht). destruct (Z.ltb_spec e2 b1), (Z.ltb_spec e1 b2); try lia. cbn [orb].
    assert (Eb : (if Z.ltb b1 b2 then b2 else b1) = Z.max b1 b2) by (destruct (Z.ltb_spec b1 b2); lia).
    assert (Ee : (if Z.ltb e1 e2 then e1 else e2) = Z.min e1 e2) by (destruct (Z.ltb_spec e1 e2); lia).
    rewrite Eb, Ee, !write_time_run by (auto 6; subst b1 e1 b2 e2; auto). cbn [res_bind].
    exists (Z.max b1 b2), (Z.min e1 e2). split; [done|]. lia.
  - intros Hn. destruct (Z.ltb_spec e2 b1), (Z.ltb_spec e1 b2); try done.
    destruct Hn. exists (Z.max b1 b2). lia.
Qed.

(** GetTimeUnion of two periods: when they have a time in common it
    writes the ends of exactly the times in one of them, else it returns FALSE
    and writes nothing. *)
Lemma GetTimeUnion_spec :
  ((exists t, between t1 t2 t /\ between t3 t4 t) ->
    exists lo hi, GetTimeUnion L s1 s2 s3 s4 (Some d1) (Some d2) =
        Ok (true, Some (stamp (clock L lo) ++ 0 :: drop 15 d1), Some (stamp (clock L hi) ++ 0 :: drop 15 d2)) /\
      forall t, lo <= t <= hi <-> between t1 t2 t \/ between t3 t4 t) /\
  (~ (exists t, between t1 t2 t /\ between t3 t4 t) ->
    GetTimeUnion L s1 s2 s3 s4 (Some d1) (Some d2) = Ok (false, Some d1, Some d2)).
Proof.
  unfold GetTimeUnion. rewrite (period_run L s1 s2 t1 t2), (period_run L s3 s4 t3 t4) by done.
  cbn [res_bind]. unfold between.
  set (b1 := Z.min t1 t2) in *. set (e1 := Z.max t1 t2) in *. set (b2 := Z.min t3 t4) in *. set (e2 := Z.max t3 t4) in *.
  assert (b1 <= e1 /\ b2 <= e2) as [Hb1 Hb2] by lia. split.
  - intros (t & Ht). destruct (Z.ltb_spec e2 b1), (Z.ltb_spec e1 b2); try lia. cbn [orb].
    assert (Eb : (if Z.ltb b1 b2 then b1 else b2) = Z.min b1 b2) by (destruct (Z.ltb_spec b1 b2); lia).
    assert (Ee : (if Z.ltb e1 e2 then e2 else e1) = Z.max e1 e2) by (destruct (Z.ltb_spec e1 e2); lia).
    rewrite Eb, Ee, !write_time_run by (auto 6; subst b1 e1 b2 e2; auto). cbn [res_bind].
    exists (Z.min b1 b2), (Z.max e1 e2). split; [done|]. lia.
  - intros Hn. destruct (Z.ltb_spec e2 b1), (Z.ltb_spec e1 b2); try done.
    destruct Hn. exists (Z.max b1 b2). lia.
Qed.
End Periods.

(** 1 to 10 March and 8 to 20 March 2024. *)
Definition march (d : Z) : tm := mkTm 124 2 d 0 0 0 0 false.
Definition march_t (d : Z) : Z := tm_seconds (march d) - 28800.

Lemma march_printable d : d = 1 \/ d = 8 \/ d = 10 \/ d = 20 -> printable china (march_t d).
Proof. intros [->|[->|[->| ->]]]; (split; [discriminate|vm_compute; split; discriminate]). Qed.

Lemma march_read d : d = 1 \/ d = 8 \/ d = 10 \/ d = 20 -> GetTimet china (stamp (march d) ++ [0]) = Ok (march_t d).
Proof. intros [->|[->|[->| ->]]]; reflexivity. Qed.

Lemma GetTimeIntersection_spec_witness :
  exists lo hi, GetTimeIntersection china (stamp (march 10) ++ [0]) (stamp (march 1) ++ [0])
      (stamp (march 8) ++ [0]) (stamp (march 20) ++ [0]) (Some (zeros 15)) (Some (zeros 15)) =
    Ok (true, Some (stamp (clock china lo) ++ [0]), Some (stamp (clock china hi) ++ [0])) /\
    forall t, lo <= t <= hi <-> between (march_t 10) (march_t 1) t /\ between (march_t 8) (march_t 20) t.
Proof.
  refine (proj1 (GetTimeIntersection_spec china _ _ _ _ (march_t 10) (march_t 1) (march_t 8) (march_t 20)
    (zeros 15) (zeros 15) _ _ _ _ _ _ _ _ _ _ _ _) _);
    try (by apply march_read; auto); try (by apply march_printable; auto); try (by rewrite length_zeros);
    try (by intros E; vm_compute in E).
  exists (march_t 8). split; vm_compute; split; discriminate.
Defined.

Lemma GetTimeUnion_spec_witness :
  exists lo hi, GetTimeUnion china (stamp (march 10) ++ [0]) (stamp (march 1) ++ [0])
      (stamp (march 8) ++ [0]) (stamp (march 20) ++ [0]) (Some (zeros 15)) (Some (zeros 15)) =
    Ok (true, Some (stamp (clock china lo) ++ [0]), Some (stamp (clock china hi) ++ [0])) /\
    forall t, lo <= t <= hi <-> between (march_t 10) (march_t 1) t \/ between (march_t 8) (march_t 20) t.
Proof.
  refine (proj1 (GetTimeUnion_spec china _ _ _ _ (march_t 10) (march_t 1) (march_t 8) (march_t 20)
    (zeros 15) (zeros 15) _ _ _ _ _ _ _ _ _ _) _);
    try (by apply march_read; auto); try (by apply march_printable; auto); try (by rewrite length_zeros).
  exists (march_t 8). split; vm_compute; split; discriminate.
Defined.

(** ** The lunar calendar *)

(** A month of the table: its year, number, whether it is a leap month, and
    its length. *)
Record lunar := mkLunar { l_year : Z; l_month : Z; l_leap : bool; l_days : Z }.

(** The months of a year: the leap month follows the month of its number. *)
Fixpoint year_months (n : nat) (y leap leapShift m dist : Z) : list lunar :=
  match n with
  | O => []
  | S n =>
      (if Z.eqb m leap
       then [mkLunar y m false (Z.land dist 1 + 29 - leapShift); mkLunar y m true (29 + leapShift)]
       else [mkLunar y m false (Z.land dist 1 + 29)])
      ++ year_months n y leap leapShift (m + 1) (Z.shiftr dist 1)
  end.

(** The years of the table. *)
Fixpoint table_years (ts : list Z) (y : Z) : list (list lunar) :=
  match ts with
  | [] => []
  | dist :: ts =>
      let '(leap, leapShift) := leap_of dist in
      year_months 12 y leap leapShift 1 dist :: table_years ts (y + 1)
  end.

(** The month and the day (from 1) of the day number [d]. *)
Fixpoint locate (ms : list lunar) (d : Z) : lunar * Z + Z :=
  match ms with
  | [] => inr d
  | x :: ms => if Z.ltb d (l_days x) then inl (x, d + 1) else locate ms (d - l_days x)
  end.

(** iResult *)
Definition packed (x : lunar) (d : Z) : Z :=
  Z.shiftl (l_year x) 9 + Z.shiftl (l_month x) 5 + d + (if l_leap x then Z.shiftl 1 21 else 0).

Lemma locate_app ms ms' d :
  locate (ms ++ ms') d = match locate ms d with inl r => inl r | inr d' => locate ms' d' end.
Proof. revert d. induction ms as [|x ms IH]; intros d; [done|]. cbn. by destruct (Z.ltb d (l_days x)). Qed.

Lemma lunar_months_locate n y leap sh m dist d :
  lunar_months n y leap sh m dist d =
    match locate (year_months n y leap sh m dist) d with inl (x, k) => inl (packed x k) | inr d' => inr d' end.
Proof.
  revert m dist d. induction n as [|n IH]; intros m dist d; [done|]. cbn [lunar_months year_months].
  destruct (Z.eqb m leap) eqn:E; cbn [app locate l_days].
  - destruct (Z.ltb d _); [unfold packed; cbn; f_equal; lia|].
    destruct (Z.ltb _ (29 + sh)); [unfold packed; cbn [l_year l_month l_leap]; f_equal; lia|]. apply IH.
  - rewrite Z.sub_0_r. destruct (Z.ltb d _); [unfold packed; cbn; f_equal; lia|]. apply IH.
Qed.

Lemma lunar_years_locate ts y d :
  lunar_years ts y d = match locate (concat (table_years ts y)) d with inl (x, k) => Some (packed x k) | inr _ => None end.
Proof.
  revert y d. induction ts as [|dist ts IH]; intros y d; [done|]. cbn [lunar_years table_years].
  destruct (leap_of dist) as [leap sh]. cbn [concat]. rewrite lunar_months_locate, locate_app.
  by destruct (locate (year_months _ _ _ _ _ _) d) as [[x k]|d'].
Qed.

Definition total (ms : list lunar) : Z := sum (l_days <$> ms).

Lemma total_nonneg ms : Forall (fun x => 0 < l_days x) ms -> 0 <= total ms.
Proof. induction 1 as [|x ms Hx _ IH]; [done|]. change (total (x :: ms)) with (l_days x + total ms). lia. Qed.

(** Within the total a month is found, and the day is one of its days. *)
Lemma locate_found ms d :
  Forall (fun x => 0 < l_days x) ms -> 0 <= d ->
  if Z.ltb d (total ms) then exists x k, locate ms d = inl (x, k) /\ x ∈ ms /\ 1 <= k <= l_days x
  else locate ms d = inr (d - total ms).
Proof.
  intros Hm. revert d. induction Hm as [|x ms Hx Hms IH]; intros d Hd; cbn [locate].
  - change (total []) with 0. destruct (Z.ltb_spec d 0); [lia|]. f_equal. lia.
  - assert (Et : total (x :: ms) = l_days x + total ms) by done. rewrite Et.
    destruct (Z.ltb_spec d (l_days x)) as [Hlt|Hge].
    + pose proof (total_nonneg ms Hms).
      destruct (Z.ltb_spec d (l_days x + total ms)); [|lia]. exists x, (d + 1). split_and!; [done|left|lia|lia].
    + specialize (IH (d - l_days x) ltac:(lia)).
      destruct (Z.ltb_spec (d - l_days x) (total ms)), (Z.ltb_spec d (l_days x + total ms)); try lia.
      * destruct IH as (y & k & -> & Hy & Hk). exists y, k. split_and!; [done|by right|lia|lia].
      * rewrite IH. f_equal. lia.
Qed.

Definition lunar_table : list lunar := concat (table_years gaiDateTable 0).

(** *** The almanac

    The lunar years 1990 to 2050, from the new moons in the time of China: the
    number of the month that a leap month follows (0: none), and the months in
    order, l with 30 and s with 29 days (108 is the letter l). *)
Definition almanac_rows : list (Z * bytes) :=
  [(5, str "slsslsslsllll"); (0, str "slsslsslslll"); (0, str "sllsslsslsll"); (3, str "sllslslsslsls");
   (0, str "lllslslsslsl"); (8, str "sllslsllsslsl"); (0, str "slsllslsllss"); (0, str "lslslsllslls");
   (5, str "lsslssllsllsl"); (0, str "lsslsslsllls"); (0, str "llsslsslslls"); (4, str "llslslsslslsl");
   (0, str "llslslsslsls"); (0, str "llsllslsslsl"); (2, str "slsllslslslsl"); (0, str "slslsllslsls");
   (7, str "lslslslsllsll"); (0, str "sslsslslllsl"); (0, str "lsslsslsllsl"); (5, str "llsslsslslsll");
   (0, str "lslslsslslsl"); (0, str "lsllslsslsls"); (4, str "lsllslslslsls"); (0, str "lslsllslslsl");
   (9, str "slslslsllslsl"); (0, str "slsslslllsls"); (0, str "lslsslsllsll"); (6, str "slslsslslslll");
   (0, str "slslsslslsll"); (0, str "lslslsslssll"); (4, str "slllslsslslsl"); (0, str "sllslslslsls");
   (0, str "lslsllslslsl"); (2, str "slssllsllslsl"); (0, str "slsslsllslls"); (6, str "lslsslslsllls");
   (0, str "lslsslssllls"); (0, str "llslsslsslls"); (5, str "lllslsslsslls"); (0, str "llslslslssll");
   (0, str "slsllslslsls"); (3, str "sllslsllslsls"); (0, str "lsslsllsllsl"); (11, str "slsslslslllsl");
   (0, str "slsslslsllsl"); (0, str "lslsslssllsl"); (6, str "llslsslsslsll"); (0, str "llslsslsslsl");
   (0, str "llslslslssls"); (5, str "llsllslslslss"); (0, str "lsllslsllsls"); (0, str "slslsllsllsl");
   (2, str "slsslslsllsll"); (0, str "slsslssllsll"); (7, str "lslsslsslslll"); (0, str "lslsslsslsll");
   (0, str "lslslslsslsl"); (5, str "lsllslslsslsl"); (0, str "sllsllslssls"); (0, str "lslsllsllsls");
   (3, str "slslslsllslls")].

(** The months of a row; [again]: the next month is the leap month. *)
Fixpoint row_months (y leap m : Z) (again : bool) (row : bytes) : list lunar :=
  match row with
  | [] => []
  | c :: row =>
      mkLunar y m again (if Z.eqb c 108 then 30 else 29) ::
      if Z.eqb m leap && negb again then row_months y leap m true row else row_months y leap (m + 1) false row
  end.

Fixpoint almanac_years (rows : list (Z * bytes)) (y : Z) : list (list lunar) :=
  match rows with
  | [] => []
  | (leap, row) :: rows => row_months y leap 1 false row :: almanac_years rows (y + 1)
  end.

(** The years count from 1990, as the answers do. *)
Definition almanac : list (list lunar) := almanac_years almanac_rows 0.

(** The first and the last new year's day: 27 January 1990 and 11 February 2051. *)
Definition first_day : Z := day_number 1990 0 27.
Definition end_day : Z := day_number 2051 1 11.

(** The lunar month and day of a day of the calendar. *)
Definition lunar_date (D : Z) : option (lunar * Z) :=
  match locate (concat almanac) (D - first_day) with inl r => Some r | inr _ => None end.

(** Years in which the table and the almanac differ: 2022, 2032 and 2050. *)
Definition misprinted : list Z := [32; 42; 60].

#[global] Instance lunar_eq_dec : EqDecision lunar.
Proof. solve_decision. Defined.

Definition same_year (y : Z) (a b : list lunar) : Prop :=
  total a = total b /\ Forall (fun x => l_year x = y) a /\ Forall (fun x => l_year x = y) b /\ (y ∈ misprinted \/ a = b).

Fixpoint agree (y : Z) (a b : list (list lunar)) : Prop :=
  match a, b with
  | [], [] => True
  | p :: a, q :: b => same_year y p q /\ agree (y + 1) a b
  | _, _ => False
  end.

#[global] Instance agree_dec y a b : Decision (agree y a b).
Proof. revert y b. induction a as [|p a IH]; intros y [|q b]; cbn [agree]; unfold same_year; apply _. Defined.

Lemma table_agrees : agree 0 (table_years gaiDateTable 0) almanac.
Proof. apply (bool_decide_unpack _). vm_compute. exact I. Qed.

(** The same day in two tables that agree. *)
Definition same_day (p q : lunar * Z + Z) : Prop :=
  match p, q with
  | inl (x, k), inl (x', k') => l_year x = l_year x' /\ (l_year x ∉ misprinted -> x = x' /\ k = k')
  | inr r, inr r' => r = r'
  | _, _ => False
  end.

Lemma agree_locate a b : forall y d,
  Forall (fun x => 0 < l_days x) (concat a) -> Forall (fun x => 0 < l_days x) (concat b) -> 0 <= d ->
  agree y a b -> same_day (locate (concat a) d) (locate (concat b) d).
Proof.
  revert b. induction a as [|p a IH]; intros [|q b] y d Ha Hb Hd G; cbn [agree] in G; try done.
  destruct G as [(T & Yp & Yq & E) G]. cbn [concat] in *. apply Forall_app in Ha as [Hp Ha], Hb as [Hq Hb].
  rewrite !locate_app. pose proof (locate_found p d Hp Hd) as Fp. pose proof (locate_found q d Hq Hd) as Fq. rewrite <-T in Fq.
  destruct (Z.ltb_spec d (total p)).
  - destruct Fp as (x & k & Ex & Hx & _), Fq as (x' & k' & Ex' & Hx' & _). rewrite Ex, Ex'.
    rewrite Forall_forall in Yp, Yq. cbn [same_day]. rewrite (Yp x Hx), (Yq x' Hx'). split; [done|].
    intros Hn. destruct E as [E| ->]; [done|]. rewrite Ex in Ex'. by injection Ex' as -> ->.
  - rewrite Fp, Fq. apply (IH b (y + 1)); [done|done|lia|done].
Qed.

(** Every month has 29 or 30 days, and the years and months fit the result. *)
Definition lunar_ok (x : lunar) : bool :=
  Z.leb 0 (l_year x) && Z.leb (l_year x) 60 && Z.leb 1 (l_month x) && Z.leb (l_month x) 12 &&
  Z.leb 29 (l_days x) && Z.leb (l_days x) 30.

Lemma lunar_table_ok : forallb lunar_ok lunar_table = true /\ total lunar_table = 22295.
Proof. vm_compute. done. Qed.

Lemma lunar_ok_spec x : x ∈ lunar_table -> 0 <= l_year x <= 60 /\ 1 <= l_month x <= 12 /\ 29 <= l_days x <= 30.
Proof.
  intros Hx%list_elem_of_In. pose proof (proj1 lunar_table_ok) as H. rewrite forallb_forall in H. apply H in Hx.
  unfold lunar_ok in Hx. repeat (apply andb_prop in Hx as [Hx ?%Z.leb_le]). apply Z.leb_le in Hx. lia.
Qed.

(** The text of a lunar date: year of the table, month, day, leap flag. *)
Definition lunar_line (x : lunar) (k : Z) : bytes :=
  fmt_0d 4 (l_year x) ++ fmt_0d 2 (l_month x) ++ fmt_0d 2 k ++ fmt_d (if l_leap x then 1 else 0).

Lemma land_mod a k n : 0 <= n -> k = Z.ones n -> Z.land a k = a mod 2 ^ n.
Proof. intros Hn ->. by apply Z.land_ones. Qed.

Lemma lunar_text_packed x k :
  0 <= l_year x <= 60 -> 1 <= l_month x <= 12 -> 1 <= k <= 30 -> lunar_text (packed x k) = lunar_line x k.
Proof.
  intros Hy Hm Hk. unfold lunar_text, lunar_line, packed.
  rewrite !Z.shiftr_div_pow2, !Z.shiftl_mul_pow2 by lia.
  rewrite (land_mod _ 4095 12), (land_mod _ 15 4), (land_mod _ 31 5), (land_mod _ 1 1) by done.
  change (2 ^ 9) with 512. change (2 ^ 5) with 32. change (2 ^ 21) with 2097152.
  change (2 ^ 12) with 4096. change (2 ^ 4) with 16. change (2 ^ 1) with 2.
  destruct (l_leap x); repeat f_equal; Z.div_mod_to_equations; lia.
Qed.

Lemma length_lunar_line x k : 0 <= l_year x <= 60 -> 1 <= l_month x <= 12 -> 1 <= k <= 30 -> length (lunar_line x k) = 9%nat.
Proof.
  intros Hy Hm Hk. assert (number 4 (l_year x)) by (unfold number; change (10 ^ Z.of_nat 4) with 10000; lia).
  assert (number 2 (l_month x) /\ number 2 k) as [? ?] by (unfold number; change (10 ^ Z.of_nat 2) with 100; lia).
  unfold lunar_line. destruct (l_leap x); width.
Qed.

Lemma almanac_ok : Forall (fun x => 0 < l_days x) (concat almanac).
Proof. apply (bool_decide_unpack _). vm_compute. exact I. Qed.

Lemma lunar_table_positive : Forall (fun x => 0 < l_days x) lunar_table.
Proof. rewrite Forall_forall. intros y Hy. apply lunar_ok_spec in Hy. lia. Qed.

(** C36: SolarDay2LunarDay gives the lunar date of a day from 27 January 1990
    (lunar new year) to 10 February 2051, the end of the lunar year 2050, and
    NULL for every other day. The lunar date, its year counted from 1990, its
    month, day and leap flag, is that of the almanac in all years but 2022,
    2032 and 2050, and in these the year is right. The day is the one after
    the day in UTC: in China, the day of the text until eight in the morning. *)
Theorem SolarDay2LunarDay_spec L sResult x r :
  readable x -> (10 <= length sResult)%nat ->
  let D := Z.quot (tm_seconds x - gmtoff L) 86400 + 1 in
  -2147483648 <= D - first_day < 2147483648 ->
  (first_day <= D < end_day ->
    exists m k m' k', lunar_date D = Some (m, k) /\ l_year m' = l_year m /\ (l_year m ∉ misprinted -> m' = m /\ k' = k) /\
      SolarDay2LunarDay L sResult (stamp x ++ r) = Ok (Some (patch sResult 0 (lunar_line m' k' ++ [0])))) /\
  (~ first_day <= D < end_day -> SolarDay2LunarDay L sResult (stamp x ++ r) = Ok None).
Proof.
  intros Hx Hl D Hd. unfold lunar_date. change first_day with 7331 in *. change end_day with 29626.
  set (d := D - 7331) in *. assert (Ed : Z.quot (tm_seconds x - gmtoff L) 86400 - giDateOrig = d) by (unfold d, D, giDateOrig; lia).
  unfold SolarDay2LunarDay. rewrite GetTimet_stamp by done. cbn [res_bind].
  change (24 * 3600) with 86400. rewrite Ed, s32_id by done. rewrite lunar_years_locate. fold lunar_table.
  pose proof lunar_table_ok as [_ Ht]. pose proof lunar_table_positive as Hp.
  split; intros Hr.
  - pose proof (locate_found lunar_table d Hp ltac:(lia)) as Hf. rewrite Ht in Hf.
    pose proof (agree_locate (table_years gaiDateTable 0) almanac 0 d Hp almanac_ok ltac:(lia) table_agrees) as G. fold lunar_table in G.
    destruct (Z.ltb_spec d 22295); [|lia]. destruct Hf as (m' & k' & E & Hin & Hk). apply lunar_ok_spec in Hin as (? & ? & ?).
    rewrite E in G |- *. destruct (locate (concat almanac) d) as [[m k]|]; [|done]. destruct G as [Gy G].
    exists m, k, m', k'. split_and!; [done|done|intros ?; apply G; by rewrite Gy|].
    destruct (Z.ltb_spec d 0), (Z.ltb_spec 22295 d); try lia. cbn [orb].
    rewrite lunar_text_packed by lia. unfold sprintf_to. rewrite mwrite_ok; [done|].
    rewrite length_app, length_lunar_line by lia. simpl. lia.
  - destruct (Z.ltb_spec d 0); [done|]. destruct (Z.ltb_spec 22295 d); [done|]. cbn [orb].
    pose proof (locate_found lunar_table d Hp ltac:(lia)) as Hf. rewrite Ht in Hf.
    destruct (Z.ltb_spec d 22295); [lia|]. by rewrite Hf.
Qed.

(** Lunar new year of 2024, in the year 34 of the table. *)
Lemma SolarDay2LunarDay_spec_witness :
  let D := Z.quot (tm_seconds (mkTm 124 1 10 0 0 0 0 false) - gmtoff china) 86400 + 1 in
  exists m k m' k', lunar_date D = Some (m, k) /\ l_year m' = l_year m /\ (l_year m ∉ misprinted -> m' = m /\ k' = k) /\
    SolarDay2LunarDay china (zeros 40) (stamp (mkTm 124 1 10 0 0 0 0 false) ++ [0]) =
      Ok (Some (patch (zeros 40) 0 (lunar_line m' k' ++ [0]))).
Proof.
  apply (SolarDay2LunarDay_spec china (zeros 40) (mkTm 124 1 10 0 0 0 0 false) [0]);
    [by apply (bool_decide_unpack _)|rewrite length_zeros; lia|vm_compute; split; discriminate || reflexivity
    |vm_compute; split; discriminate || reflexivity].
Defined.

(** In China the lunar date is that of the day in the text, until eight in
    the morning. *)
Lemma china_morning L x :
  gmtoff L = 28800 -> 0 <= tm_mon x < 12 -> 0 <= tm_hour x < 8 -> 0 <= tm_min x < 60 -> 0 <= tm_sec x < 60 ->
  let D := day_number (tm_year x + 1900) (tm_mon x) (tm_mday x) in
  1 <= D -> Z.quot (tm_seconds x - gmtoff L) 86400 + 1 = D.
Proof.
  intros HL Hm Hh Hmi Hs D HD. unfold tm_seconds. rewrite Z.div_small, Z.mod_small, Z.add_0_r by lia. fold D. rewrite HL.
  rewrite Z.quot_div_nonneg by lia. Z.div_mod_to_equations; lia.
Qed.

(** From eight on it is that of the next day. *)
Lemma lunar_day_in_utc :
  SolarDay2LunarDay china (zeros 40) (str "20240210000000" ++ [0]) =
    Ok (Some (patch (zeros 40) 0 (str "003401010" ++ [0]))) /\
  SolarDay2LunarDay china (zeros 40) (str "20240210120000" ++ [0]) =
    Ok (Some (patch (zeros 40) 0 (str "003401020" ++ [0]))).
Proof. vm_compute. done. Qed.

(** New year's days of the almanac, as they were and will be celebrated. *)
Example new_years :
  Forall (fun '(y, m, d) => (fun '(x, k) => (l_year x, l_month x, l_leap x, k)) <$> lunar_date (day_number y m d) = Some (y - 1990, 1, false, 1))
    [(1991, 1, 15); (1995, 0, 31); (2000, 1, 5); (2007, 1, 18); (2013, 1, 10); (2015, 1, 19); (2020, 0, 25); (2022, 1, 1);
     (2023, 0, 22); (2024, 1, 10); (2025, 0, 29); (2033, 0, 31); (2034, 1, 19); (2050, 0, 23)].
Proof. apply (bool_decide_unpack _). vm_compute. exact I. Qed.

(** The days of the wrong years: on 28 July 2022, the 30th of the sixth
    month, the first of the seventh is given; on 11 March 2032, the 30th of the
    first month, the first of the second; on 21 April 2050, the first of the
    leap month, the 30th of the third. *)
Lemma misprinted_days :
  (lunar_date (day_number 2022 6 28) = Some (mkLunar 32 6 false 30, 30) /\
   SolarDay2LunarDay china (zeros 40) (str "20220728000000" ++ [0]) = Ok (Some (patch (zeros 40) 0 (str "003207010" ++ [0])))) /\
  (lunar_date (day_number 2032 2 11) = Some (mkLunar 42 1 false 30, 30) /\
   SolarDay2LunarDay china (zeros 40) (str "20320311000000" ++ [0]) = Ok (Some (patch (zeros 40) 0 (str "004202010" ++ [0])))) /\
  (lunar_date (day_number 2050 3 21) = Some (mkLunar 60 3 true 30, 1) /\
   SolarDay2LunarDay china (zeros 40) (str "20500421000000" ++ [0]) = Ok (Some (patch (zeros 40) 0 (str "006003300" ++ [0])))).
Proof. vm_compute. done. Qed.

(** ** Waiting *)

(** The times the following calls of time() give. *)
Definition clock_answers (ts : list Z) : list answer := a_num <$> ts.

Lemma wait_loop_run ts t dead t' r o :
  t < dead -> Forall (fun t => t < dead) ts -> dead <= t' ->
  wait_loop (length ts + S (length r)) t dead (mkIo o (clock_answers (ts ++ [t']) ++ r)) =
    Ok (tt, mkIo (o ++ replicate (S (length ts)) (ESleep 1)) r).
Proof.
  intros Ht Hts. revert t o Ht. induction Hts as [|u ts Hu _ IH]; intros t o Ht Hd; cbn [length Nat.add wait_loop app].
  - destruct (Z.ltb_spec t dead); [|lia]. cbn. destruct (length r); cbn; destruct (Z.ltb_spec t' dead); done || lia.
  - destruct (Z.ltb_spec t dead); [|lia]. cbn. rewrite IH by done. rewrite <-app_assoc. done.
Qed.

(** WaitSecond returns as soon as time() has reached the deadline, at
    least five seconds ahead, after one sleep for every time before it. *)
Lemma WaitSecond_waits sec t0 ts t' r o :
  let dead := t0 + Z.max 5 sec in
  Forall (fun t => t < dead) ts -> dead <= t' ->
  WaitSecond sec (mkIo o (clock_answers (t0 :: ts ++ [t']) ++ r)) =
    Ok (tt, mkIo (o ++ replicate (S (length ts)) (ESleep 1)) r).
Proof.
  intros dead Hts Hd. unfold WaitSecond. replace (if Z.ltb sec 5 then 5 else sec) with (Z.max 5 sec)
    by (destruct (Z.ltb_spec sec 5); lia).
  unfold bind, sys_time, answered. cbn. unfold clock_answers. rewrite length_app, length_fmap, length_app. cbn.
  replace (length ts + 1 + length r)%nat with (length ts + S (length r))%nat by lia.
  apply wait_loop_run; [lia|done|done].
Qed.

Lemma WaitSecond_waits_witness :
  WaitSecond 2 (mkIo [] (clock_answers (100 :: [101; 104] ++ [105]) ++ [])) =
    Ok (tt, mkIo ([] ++ replicate 3 (ESleep 1)) []).
Proof. apply (WaitSecond_waits 2 100 [101; 104] 105 [] []); [repeat constructor|done]. Defined.
End DateFacts.
