(* ===== verification/ErrLog.v ===== *)
(** * Messages and log files (src/src/errlog.c)

    The level of messages, stdout and the two log files are the state. A
    message is given as the text vsprintf makes of the format and the
    arguments, and the first character of the format, which LogMsg tests.
    HAVE_VSNPRINTF is not defined in the source, so a text longer than the
    static array is an overrun. exit is [Fault Exited], abort
    [Fault AssertFailed]. *)

From stdpp Require Import prelude gmap strings.
From S2P Require Import Prelude CLib Sock Calendar TimeComm TimeFacts.
Import Sock TimeComm TimeFacts.
Open Scope Z_scope.

Module ErrLog.

Definition MSG_DEBUG : Z := 1.
Definition MSG_INFO : Z := 2.
Definition MSG_MONITOR : Z := 3.
Definition MSG_ALARM : Z := 4.
Definition MSG_ERROR : Z := 5.
Definition MSG_SMS : Z := 6.
Definition MAXLINE : nat := 4096.

(** The variables of the file: a log file is NULL, or what was appended to it. *)
Record log := mkLog {
  gsiLogMsgLevel : Z;
  LogFileNormal : option bytes;
  LogFileError : option bytes;
  stdout : bytes;
  l_io : io
}.

Abbreviation G := (M log).

Definition gio {A} (m : M io A) : G A := fun s =>
  match m (l_io s) with
  | Ok (a, w) => Ok (a, mkLog (gsiLogMsgLevel s) (LogFileNormal s) (LogFileError s) (stdout s) w)
  | Fault f => Fault f
  end.

Definition printf (b : bytes) : G unit :=
  modify (fun s => mkLog (gsiLogMsgLevel s) (LogFileNormal s) (LogFileError s) (stdout s ++ b) (l_io s)).

(** fprintf to a file that is open. *)
Definition to_normal (b : bytes) : G unit :=
  modify (fun s => mkLog (gsiLogMsgLevel s) ((fun f => f ++ b) <$> LogFileNormal s) (LogFileError s) (stdout s) (l_io s)).

Definition to_error (b : bytes) : G unit :=
  modify (fun s => mkLog (gsiLogMsgLevel s) (LogFileNormal s) ((fun f => f ++ b) <$> LogFileError s) (stdout s) (l_io s)).

(** A formatted message: the first character of the format, and the text. *)
Record message := mkMsg { fmt0 : Z; msg_text : bytes }.

Definition plain (s : string) : message := mkMsg (nth 0 (str s) 0) (str s).

Section Log.
Context (L : clib).

(** The text of ReturnCurTimeStr(). *)
Definition time_prefix : G bytes :=
  let! b := gio (ReturnCurTimeStr L (zeros 32)) in lift (cstring b).

(** The messages LogMsg returns on at once. enum MsgLevel is unsigned, so the
    comparison with the level is. *)
Definition ignored (set level : Z) : bool :=
  (negb (Z.eqb set (-1)) && Z.ltb (u32 level) (u32 set)) ||
  (negb (Z.eqb set (-1)) && (Z.ltb level MSG_DEBUG || Z.ltb MSG_SMS level) && negb (Z.eqb level 0)) ||
  (Z.eqb set (-1) && negb (Z.eqb level 0)).

(** Parts of LogMsg: the two log files. *)
Definition log_normal (m : message) : G unit :=
  let! f := gets LogFileNormal in
  match f with
  | None => ret tt
  | Some _ =>
      (if negb (Z.eqb (fmt0 m) 8) then
         let! t := time_prefix in to_normal (t ++ str "N:0:")
       else ret tt) ;;
      to_normal (msg_text m)
  end.

Definition log_error (m : message) : G unit :=
  let! f := gets LogFileError in
  match f with
  | None => ret tt
  | Some _ =>
      let! t := time_prefix in
      to_error (t ++ str "E:0:") ;;
      to_error (msg_text m)
  end.

Definition LogMsg (level : Z) (m : message) : G unit :=
  let! set := gets gsiLogMsgLevel in
  if ignored set level then ret tt
  else
    lift (sprintf_to (zeros MAXLINE) (msg_text m)) ;;
    if negb (Z.eqb set (-1)) then
      when (Z.leb (u32 set) (u32 level)) (printf (str ">" ++ msg_text m)) ;;
      when (Z.leb MSG_MONITOR level && Z.leb level MSG_SMS)
        (when (Z.eqb level MSG_MONITOR) (log_normal m) ;;
         when (Z.eqb level MSG_ALARM || Z.eqb level MSG_ERROR || Z.eqb level MSG_SMS) (log_error m))
    else
      when ((Z.leb MSG_DEBUG level && Z.leb level MSG_SMS) || Z.eqb level 0) (printf (str ">" ++ msg_text m)).

Definition SetMsgLevel (newlevel : Z) : G Z :=
  let! old := gets gsiLogMsgLevel in
  modify (fun s => mkLog newlevel (LogFileNormal s) (LogFileError s) (stdout s) (l_io s)) ;;
  ret old.

(** fopen(name, "a") *)
Definition fopen : G (option bytes) :=
  let! a := gio answered in ret (if Z.ltb (a_ret a) 0 then None else Some []).

Definition RegisterLogMsg (iMsgLevel : Z) : G unit :=
  if Z.ltb iMsgLevel MSG_DEBUG || Z.ltb MSG_SMS iMsgLevel then
    LogMsg 0 (plain "MsgLevel is out of range!") ;; fail Exited
  else
    SetMsgLevel iMsgLevel ;;
    let! n := fopen in
    modify (fun s => mkLog (gsiLogMsgLevel s) n (LogFileError s) (stdout s) (l_io s)) ;;
    let! e := fopen in
    modify (fun s => mkLog (gsiLogMsgLevel s) (LogFileNormal s) e (stdout s) (l_io s)).

(** ** Errors *)

(** The array ellipsis[60]: sixty characters and no NUL. *)
Definition ellipsis : bytes := replicate 60 46.

(** strncat(d + n, ellipsis, cnt): [n] is the length of the string in [d]. *)
Definition strncat_dots (d : bytes) (n : nat) (cnt : Z) : res bytes :=
  let cnt := u64 cnt in
  if Z.ltb 60 cnt then Fault Overread
  else mwrite d n (take (Z.to_nat cnt) ellipsis ++ [0]).

(** do_err; [strerror] is the text for the saved errno. *)
Definition do_err (errnoflag : bool) (text strerror : bytes) : G unit :=
  let! buf := lift (sprintf_to (zeros MAXLINE) text) in
  let n := length text in
  let! buf := lift (if errnoflag then
      let? buf := strncat_dots buf n (60 - Z.of_nat n) in
      mwrite buf 60 (str ": " ++ strerror ++ [0])
    else Ok buf) in
  let! s := lift (cstring buf) in
  let! buf := lift (mwrite buf (length s) [10; 0]) in
  let! s := lift (cstring buf) in
  printf s ;;
  LogMsg MSG_MONITOR (mkMsg 37 s).

Definition SysErrMsg (text strerror : bytes) : G unit := do_err true text strerror.
Definition SysErrExit (text strerror : bytes) : G unit := do_err true text strerror ;; fail Exited.
Definition SysErrDump (text strerror : bytes) : G unit := do_err true text strerror ;; fail AssertFailed.
Definition ErrMsg (text : bytes) : G unit := do_err false text [].
Definition ErrExit (text : bytes) : G unit := do_err false text [] ;; fail Exited.
Definition ErrDump (text : bytes) : G unit := do_err false text [] ;; fail AssertFailed.

(** ** Formatted lines *)

Definition MAX_MSG_LENGTH : nat := 99.

(** for (i = 0; i < iMaxLen; i++) strcat(sTemp, "."), then strcat(sBuf, sTemp)
    and sprintf(sBuf, "%s[%s]", sBuf, time). *)
Definition fill_line (sBuf : bytes) : G bytes :=
  let! s := lift (cstring sBuf) in
  let iMaxLen := Z.of_nat MAX_MSG_LENGTH - Z.of_nat (length s) - 21 in
  if Z.ltb 0 iMaxLen then
    let dots := replicate (Z.to_nat iMaxLen) 46 in
    lift (mwrite (zeros MAX_MSG_LENGTH) 0 (dots ++ [0])) ;;
    let! sBuf := lift (mwrite sBuf (length s) (dots ++ [0])) in
    let! (ok, t) := gio (ReturnCurTimeStrExt L (zeros 64) (Some (str "%Y-%m-%d %H:%M:%S" ++ [0]))) in
    if ok then
      let! t := lift (cstring t) in
      lift (sprintf_to sBuf (s ++ dots ++ str "[" ++ t ++ str "]"))
    else fail NullDeref
  else ret sBuf.

(** The line is the format of LogMsg: a % in it takes arguments that were not
    passed. *)
Definition as_format (s : bytes) : res message :=
  if in_set s 37 then Fault Overread else Ok (mkMsg (nth 0 s 0) s).

Definition E_MSG : Z := 1.

(** The end of PrintFormat: the line is logged. *)
Definition send_line (en_ : Z) (s : bytes) : G unit :=
  let! m := lift (as_format s) in
  if Z.eqb en_ E_MSG then LogMsg MSG_ERROR m ;; fail Exited
  else LogMsg MSG_MONITOR m.

(** PrintFormat with an array sBuf of [size] bytes. *)
Definition PrintFormat_in (size : nat) (en_ : Z) (text : bytes) : G unit :=
  let! sBuf := lift (sprintf_to (zeros size) text) in
  let! sBuf := fill_line sBuf in
  let! s := lift (cstring sBuf) in
  send_line en_ s.

Definition PrintFormat : Z -> bytes -> G unit := PrintFormat_in MAX_MSG_LENGTH.

(** ** The lock file *)

Definition sDefaultDir : bytes := str "/var/lock/".

(** sFileName[128] *)
Definition lock_name (sFile : bytes) : res bytes :=
  let dir := if in_set sFile 47 then [] else sDefaultDir in
  let suffix :=
    if decide (length sFile < 5)%nat then str ".lck"
    else match strstr sFile (str ".lck") with Some _ => [] | None => str ".lck" end in
  let name := dir ++ sFile ++ suffix in
  let? _ := sprintf_to (zeros 128) name in Ok name.

Definition EACCES : Z := 13.
Definition EAGAIN : Z := 11.
Definition F_SETLK : Z := 6.
Definition F_GETFD : Z := 1.
Definition F_SETFD : Z := 2.
Definition FD_CLOEXEC : Z := 1.

(** fcntl: the answer's value and errno; the argument of F_SETLK is a write
    lock on the whole file, shown as 0. *)
Definition sys_fcntl (fd cmd arg : Z) : M io (Z * Z) :=
  let! a := answered in
  emit (EFcntl fd cmd arg) ;; ret (a_ret a, a_errno a).

(** "The same process is already running!", in the encoding of the source. *)
Definition already_running : bytes :=
  [210; 209; 190; 173; 211; 208; 207; 224; 205; 172; 181; 196; 189; 248; 179; 204; 212; 218; 214; 180; 208; 208; 33].

(** The message for a directory that cannot be written, around sDefaultDir. *)
Definition not_writable : bytes :=
  [199; 235; 193; 170; 207; 181; 185; 220; 192; 237; 212; 177; 163; 172; 202; 185; 196; 191; 194; 188] ++
  sDefaultDir ++ [182; 212; 211; 195; 187; 167; 191; 201; 208; 180].

(** [strerror] is the text of an errno. *)
Definition RegLockFile (strerror : Z -> bytes) (sFile : bytes) : G Z :=
  let! sFileName := lift (lock_name sFile) in
  let! a := gio (let! a := answered in emit (EOpen sFileName) ;; ret a) in
  let fd := a_ret a in
  if Z.ltb fd 0 then
    LogMsg MSG_MONITOR (mkMsg 37 (sFileName ++ str ":" ++ strerror (a_errno a))) ;;
    LogMsg MSG_MONITOR (mkMsg 199 not_writable) ;;
    fail Exited
  else
    let! (r, e) := gio (sys_fcntl fd F_SETLK 0) in
    when (Z.ltb r 0 && (Z.eqb e EACCES || Z.eqb e EAGAIN)) (PrintFormat E_MSG already_running) ;;
    gio (emit (ETruncate fd)) ;;
    let! t := time_prefix in
    let! _ := lift (sprintf_to (zeros 256) (t ++ [10])) in
    gio (sys_send fd (t ++ [10])) ;;
    let! pid := gio answered in
    let line := fmt_d (a_ret pid) ++ [10] ++ sFileName ++ [10] in
    let! _ := lift (sprintf_to (zeros 256) line) in
    gio (sys_send fd line) ;;
    let! (flags, _) := gio (sys_fcntl fd F_GETFD 0) in
    gio (sys_fcntl fd F_SETFD (Z.lor flags FD_CLOEXEC)) ;;
    ret 1.

(** ** What LogMsg writes *)

(** The local time at [t], as text. *)
Definition now (t : Z) : tm := broken_down (local L t) (dst L t).

(** [s] with the answers [i] left. *)
Definition with_io (s : log) (w : io) : log :=
  mkLog (gsiLogMsgLevel s) (LogFileNormal s) (LogFileError s) (stdout s) w.

Lemma now_localtime t : in_years 0 9999 (now t) -> localtime L t = Some (now t).
Proof.
  intros Hy. apply localtime_some. pose proof (years_seconds (now t) (broken_down_normal _ _) Hy) as Hs.
  unfold now in Hs. rewrite seconds_broken_down in Hs. unfold in_range. lia.
Qed.

Lemma time_prefix_run s o t i :
  l_io s = mkIo o (a_num t :: i) -> in_years 0 9999 (now t) ->
  time_prefix s = Ok (stamp (now t), with_io s (mkIo o i)).
Proof.
  intros Hs Hy. pose proof (normal_readable (now t) (broken_down_normal _ _) Hy) as Hr.
  unfold time_prefix, bind at 1, gio, ReturnCurTimeStr, now_tm, sys_time, bind, answered. rewrite Hs. cbn [inp out ret a_ret a_num].
  rewrite now_localtime by done. unfold ret, lift, sprintf_to.
  rewrite mwrite_ok by (rewrite length_app, length_stamp, length_zeros by done; simpl; lia).
  rewrite patch_stamp by (by rewrite ?length_stamp, ?length_zeros; try lia).
  rewrite cstring_text by (by apply nonul_stamp). done.
Qed.

(** What a message at [level] adds to an open log file. *)
Definition normal_line (level : Z) (m : message) (t : Z) : bytes :=
  if Z.eqb level MSG_MONITOR then stamp (now t) ++ str "N:0:" ++ msg_text m else [].
Definition error_line (level : Z) (m : message) (t : Z) : bytes :=
  if Z.ltb MSG_MONITOR level then stamp (now t) ++ str "E:0:" ++ msg_text m else [].

Lemma u32_id z : 0 <= z < 4294967296 -> u32 z = z.
Proof. apply Z.mod_small. Qed.

Lemma ignored_spec set level :
  1 <= set <= 6 -> 0 <= level < 4294967296 -> ignored set level = Z.ltb level set || Z.ltb MSG_SMS level.
Proof.
  intros Hs Hl. unfold ignored, MSG_DEBUG, MSG_SMS. rewrite !u32_id by lia.
  destruct (Z.eqb_spec set (-1)); [lia|]. cbn [negb andb]. rewrite orb_false_r.
  destruct (Z.ltb_spec level set), (Z.ltb_spec level 1), (Z.ltb_spec 6 level), (Z.eqb_spec level 0); done || lia.
Qed.

(** The file lines when the time is known. *)
Lemma log_normal_run s fn m x s' :
  fmt0 m <> 8 -> LogFileNormal s = Some fn -> time_prefix s = Ok (x, s') ->
  log_normal m s = Ok (tt, mkLog (gsiLogMsgLevel s') ((fun f => f ++ x ++ str "N:0:" ++ msg_text m) <$> LogFileNormal s')
    (LogFileError s') (stdout s') (l_io s')).
Proof.
  intros Hm Hf E. unfold log_normal, bind at 1, gets. rewrite Hf. destruct (Z.eqb_spec (fmt0 m) 8); [done|]. cbn [negb].
  unfold bind. rewrite E. unfold to_normal, modify. cbn. do 3 f_equal. destruct (LogFileNormal s'); [|done].
  cbn. by rewrite <-!app_assoc.
Qed.

Lemma log_error_run s fe m x s' :
  LogFileError s = Some fe -> time_prefix s = Ok (x, s') ->
  log_error m s = Ok (tt, mkLog (gsiLogMsgLevel s') (LogFileNormal s')
    ((fun f => f ++ x ++ str "E:0:" ++ msg_text m) <$> LogFileError s') (stdout s') (l_io s')).
Proof.
  intros Hf E. unfold log_error, bind at 1, gets. rewrite Hf.
  unfold bind. rewrite E. unfold to_error, modify. cbn. do 3 f_equal. destruct (LogFileError s'); [|done].
  cbn. by rewrite <-!app_assoc.
Qed.

(** Also a message that would go to a log file is dropped below the level. *)
Lemma LogMsg_drops level m s :
  1 <= gsiLogMsgLevel s <= 6 -> MSG_MONITOR <= level < gsiLogMsgLevel s -> LogMsg level m s = Ok (tt, s).
Proof.
  unfold MSG_MONITOR. intros Hset Hl. unfold LogMsg, bind at 1, gets. rewrite ignored_spec by lia.
  by rewrite (proj2 (Z.ltb_lt _ _)) by lia.
Qed.

(** C37: with the level set from MSG_DEBUG to MSG_SMS and both log files
    open, LogMsg drops the messages below the level (and unknown ones) without
    effect and prints every other one. A printed MSG_MONITOR is added with the
    time to the normal file, MSG_ALARM, MSG_ERROR and MSG_SMS to the error
    file, and MSG_DEBUG and MSG_INFO to no file. *)
Theorem LogMsg_routes level m s o t i fn fe :
  1 <= gsiLogMsgLevel s <= 6 -> 0 <= level < 4294967296 -> fmt0 m <> 8 -> (length (msg_text m) < MAXLINE)%nat ->
  LogFileNormal s = Some fn -> LogFileError s = Some fe ->
  l_io s = mkIo o (a_num t :: i) -> in_years 0 9999 (now t) ->
  LogMsg level m s = Ok (tt,
    if Z.ltb level (gsiLogMsgLevel s) || Z.ltb MSG_SMS level then s
    else mkLog (gsiLogMsgLevel s) (Some (fn ++ normal_line level m t)) (Some (fe ++ error_line level m t))
      (stdout s ++ str ">" ++ msg_text m)
      (mkIo o (if Z.ltb level MSG_MONITOR then a_num t :: i else i))).
Proof.
  intros Hset Hlevel Hf Ht Hn He Hio Hy. unfold LogMsg, bind at 1, gets. rewrite ignored_spec by done.
  destruct (Z.ltb level (gsiLogMsgLevel s) || Z.ltb MSG_SMS level) eqn:Ei; [done|].
  apply orb_false_elim in Ei as [Ei1%Z.ltb_ge Ei2%Z.ltb_ge]. unfold MSG_SMS in Ei2.
  unfold bind at 1, lift, sprintf_to. rewrite mwrite_ok by (rewrite length_app, length_zeros; simpl; lia).
  destruct (Z.eqb_spec (gsiLogMsgLevel s) (-1)); [lia|]. cbn [negb]. rewrite !u32_id by lia.
  destruct (Z.leb_spec (gsiLogMsgLevel s) level); [|lia]. cbn [when].
  destruct s as [set fn0 fe0 so w]. cbn [LogFileNormal LogFileError l_io gsiLogMsgLevel stdout] in *. subst fn0 fe0 w.
  unfold bind at 1, printf, modify. cbn [LogFileNormal LogFileError l_io gsiLogMsgLevel stdout].
  set (s1 := mkLog _ _ _ _ _).
  assert (Hp : time_prefix s1 = Ok (stamp (now t), with_io s1 (mkIo o i))) by (by apply time_prefix_run).
  assert (Hlv : level = 1 \/ level = 2 \/ level = 3 \/ level = 4 \/ level = 5 \/ level = 6) by lia.
  destruct Hlv as [-> | [-> | [-> | Hlv]]].
  - cbn. unfold normal_line, error_line. cbn. by rewrite !app_nil_r.
  - cbn. unfold normal_line, error_line. cbn. by rewrite !app_nil_r.
  - change (when _ _ s1) with ((log_normal m ;; ret tt) s1).
    rewrite (bind_ok _ _ _ _ _ (log_normal_run s1 fn m _ _ Hf eq_refl Hp)).
    unfold normal_line, error_line. cbn. by rewrite app_nil_r.
  - assert (E : (when (Z.leb MSG_MONITOR level && Z.leb level MSG_SMS)
        (when (Z.eqb level MSG_MONITOR) (log_normal m) ;;
         when (Z.eqb level MSG_ALARM || Z.eqb level MSG_ERROR || Z.eqb level MSG_SMS) (log_error m)) s1) = log_error m s1)
      by (by destruct Hlv as [-> | [-> | ->]]).
    rewrite E, (log_error_run s1 fe m _ _ eq_refl Hp). unfold normal_line, error_line.
    by destruct Hlv as [-> | [-> | ->]]; cbn; rewrite app_nil_r.
Qed.

(** ** Errors of system calls *)

(** The text is filled with dots to column 60, then the error follows. *)
Definition error_text (text strerror : bytes) : bytes :=
  text ++ replicate (60 - length text) 46 ++ str ": " ++ strerror ++ [10].

(** Writing behind the first part of an array. *)
Lemma mwrite_end (s r q : bytes) k :
  k = length s -> (length q <= length r)%nat -> mwrite (s ++ r) k q = Ok (s ++ q ++ drop (length q) r).
Proof.
  intros -> Hq. rewrite mwrite_ok by (rewrite length_app; lia). unfold patch.
  by rewrite take_app_length, drop_app_add.
Qed.

Lemma do_err_line (text strerror : bytes) :
  nonul text -> nonul strerror -> (length text <= 60)%nat -> (length strerror <= 4000)%nat ->
  exists buf, (let? buf := sprintf_to (zeros MAXLINE) text in
     let? buf := strncat_dots buf (length text) (60 - Z.of_nat (length text)) in
     mwrite buf 60 (str ": " ++ strerror ++ [0])) = Ok buf /\
    cstring buf = Ok (text ++ replicate (60 - length text) 46 ++ str ": " ++ strerror) /\
    exists buf', mwrite buf (length (text ++ replicate (60 - length text) 46 ++ str ": " ++ strerror)) [10; 0] = Ok buf' /\
    cstring buf' = Ok (error_text text strerror).
Proof.
  intros Ht He Hl Hs. unfold sprintf_to.
  change (zeros MAXLINE) with ([] ++ zeros MAXLINE). rewrite mwrite_end by (done || (rewrite length_app, length_zeros; cbn [length]; unfold MAXLINE; lia)).
  cbn [res_bind app]. rewrite <-app_assoc.
  unfold strncat_dots. cbn zeta. unfold u64. rewrite Z.mod_small by lia.
  destruct (Z.ltb_spec 60 (60 - Z.of_nat (length text))); [lia|].
  set (dots := replicate (60 - length text) 46).
  assert (Ed : take (Z.to_nat (60 - Z.of_nat (length text))) ellipsis = dots).
  { unfold ellipsis, dots. rewrite take_replicate. f_equal. lia. }
  assert (Ld : length dots = (60 - length text)%nat) by apply length_replicate.
  rewrite Ed. set (r1 := [0] ++ drop (length (text ++ [0])) (zeros MAXLINE)).
  assert (L1 : length r1 = (4096 - length text)%nat).
  { unfold r1. rewrite length_app, length_drop, length_zeros, length_app. cbn [length]. unfold MAXLINE. lia. }
  rewrite mwrite_end by (done || (rewrite length_app, Ld; cbn [length]; lia)). cbn [res_bind].
  rewrite <-(app_assoc dots), (app_assoc text). set (r2 := [0] ++ _).
  assert (L2 : length r2 = 4036%nat).
  { unfold r2. rewrite length_app, length_drop, length_app, Ld, L1. cbn [length]. lia. }
  assert (L60 : length (text ++ dots) = 60%nat) by (rewrite length_app, Ld; lia).
  rewrite mwrite_end by (done || (rewrite !length_app, L2; cbn [length str]; lia)).
  set (r3 := drop _ r2).
  assert (L3 : (33 <= length r3)%nat).
  { unfold r3. rewrite length_drop, L2, !length_app. cbn [length str]. lia. }
  eexists. split; [done|].
  assert (Hn : nonul (text ++ dots ++ str ": " ++ strerror)).
  { unfold nonul. rewrite !Forall_app. split_and!; [done|by apply Forall_replicate|repeat constructor; done|done]. }
  assert (E : (text ++ dots) ++ (str ": " ++ strerror ++ [0]) ++ r3 = (text ++ dots ++ str ": " ++ strerror) ++ 0 :: r3)
    by (by rewrite <-!app_assoc).
  rewrite E. split; [by apply cstring_text|].
  rewrite mwrite_end by (done || (cbn [length]; lia)). eexists. split; [done|].
  destruct r3 as [|c r3]; [simpl in L3; lia|]. cbn [length drop]. rewrite drop_0.
  replace ((text ++ dots ++ str ": " ++ strerror) ++ [10; 0] ++ r3) with (error_text text strerror ++ 0 :: r3)
    by (unfold error_text; fold dots; by rewrite <-!app_assoc).
  apply cstring_text. unfold error_text, nonul in *. fold dots. rewrite !Forall_app in *. split_and!; try apply Hn.
  repeat constructor. done.
Qed.

(** SysErrMsg prints the text, filled with dots to column 60, and the
    error text, on stdout and through LogMsg; a text of more than 60
    characters makes strncat read past ellipsis, which has no NUL. *)
Lemma SysErrMsg_line text strerror s :
  nonul text -> nonul strerror -> (length strerror <= 4000)%nat -> (length text < MAXLINE)%nat ->
  SysErrMsg text strerror s =
    if decide (length text <= 60)%nat
    then (printf (error_text text strerror) ;; LogMsg MSG_MONITOR (mkMsg 37 (error_text text strerror))) s
    else Fault Overread.
Proof.
  intros Ht He Hs Hl. unfold SysErrMsg, do_err. case_decide as Hd.
  - destruct (do_err_line text strerror) as (buf & E1 & E2 & buf' & E3 & E4); [done..|].
    destruct (sprintf_to (zeros MAXLINE) text) as [b0|] eqn:E0; [|done]. cbn [res_bind] in E1.
    unfold bind at 1, lift. cbn zeta. unfold bind at 1. rewrite E1. unfold bind at 1. rewrite E2.
    unfold bind at 1. rewrite E3. unfold bind at 1. rewrite E4. done.
  - unfold bind at 1, lift, sprintf_to. rewrite mwrite_ok by (rewrite length_app, length_zeros; cbn [length]; lia).
    unfold bind at 1, strncat_dots. cbn zeta.
    assert (Hu : 60 < u64 (60 - Z.of_nat (length text))).
    { unfold u64. unfold MAXLINE in Hl. rewrite <-(Z.mod_add _ 1), Z.mod_small by lia. lia. }
    destruct (Z.ltb_spec 60 (u64 (60 - Z.of_nat (length text)))); [done|lia].
Qed.

(** ** Lines with the time *)

(** "%Y-%m-%d %H:%M:%S" *)
Definition iso (x : tm) : bytes :=
  fmt_0d 4 (tm_year x + 1900) ++ [45] ++ fmt_0d 2 (tm_mon x + 1) ++ [45] ++ fmt_0d 2 (tm_mday x) ++ [32] ++
  fmt_0d 2 (tm_hour x) ++ [58] ++ fmt_0d 2 (tm_min x) ++ [58] ++ fmt_0d 2 (tm_sec x).

Lemma iso_text x : readable x -> length (iso x) = 19%nat /\ nonul (iso x).
Proof.
  intros (N1 & N2 & N3 & N4 & N5 & N6). split; [unfold iso; width|].
  unfold iso, nonul. rewrite !Forall_app. split_and!; first [by apply number_text|by repeat constructor].
Qed.

Lemma strftime_iso x :
  in_years 1000 9999 x -> strftime_text L (str "%Y-%m-%d %H:%M:%S") x = iso x.
Proof.
  intros Hy. change (strftime_text L (str "%Y-%m-%d %H:%M:%S") x) with
    (fmt_d (tm_year x + 1900) ++ [45] ++ fmt_0d 2 (tm_mon x + 1) ++ [45] ++ fmt_0d 2 (tm_mday x) ++ [32] ++
     fmt_0d 2 (tm_hour x) ++ [58] ++ fmt_0d 2 (tm_min x) ++ [58] ++ fmt_0d 2 (tm_sec x) ++ []).
  rewrite app_nil_r, fmt_year by done. done.
Qed.

Lemma in_years_0 x : in_years 1000 9999 x -> in_years 0 9999 x.
Proof. unfold in_years. lia. Qed.
#[local] Hint Resolve in_years_0 : core.

Lemma ReturnCurTimeStrExt_run o t i :
  in_years 1000 9999 (now t) ->
  exists b, ReturnCurTimeStrExt L (zeros 64) (Some (str "%Y-%m-%d %H:%M:%S" ++ [0])) (mkIo o (a_num t :: i)) =
    Ok ((true, b), mkIo o i) /\ cstring b = Ok (iso (now t)).
Proof.
  intros Hy. pose proof (normal_readable4 (now t) (broken_down_normal _ _) Hy) as Hr.
  destruct (iso_text _ Hr) as [Hl Hn].
  unfold ReturnCurTimeStrExt, bind at 1, sys_time, bind at 1, answered. cbn [inp out ret a_ret a_num].
  unfold bind at 1, lift at 1, ret, given_format. rewrite cstring_text by (by apply (bool_decide_unpack _)). cbn [res_bind].
  rewrite now_localtime by auto. unfold bind, lift, strftime.
  change (match str "%Y-%m-%d %H:%M:%S" with [] => time_format | _ :: _ => str "%Y-%m-%d %H:%M:%S" end)
    with (str "%Y-%m-%d %H:%M:%S").
  cbn zeta. rewrite strftime_iso, Hl by done. rewrite decide_True by lia.
  rewrite mwrite_ok by (rewrite length_app, Hl, length_zeros; cbn [length]; lia). cbn [res_bind].
  eexists. split; [done|]. unfold patch. cbn [take app]. rewrite <-app_assoc. by apply cstring_text.
Qed.

(** The line of PrintFormat: 78 characters, and the time in brackets. *)
Definition print_line (text : bytes) (t : Z) : bytes :=
  text ++ replicate (78 - length text) 46 ++ str "[" ++ iso (now t) ++ str "]".

Lemma length_print_line text t : in_years 1000 9999 (now t) -> (length text < 78)%nat -> length (print_line text t) = 99%nat.
Proof.
  intros Hy Hl. destruct (iso_text (now t) (normal_readable4 (now t) (broken_down_normal _ _) Hy)) as [Li _].
  unfold print_line. rewrite !length_app, length_replicate, Li. cbn [length str]. lia.
Qed.

(** fill_line in an array of 99 or 100 bytes comes to its last sprintf, of the
    line. *)
Lemma fill_line_ends text r s o t i :
  nonul text -> (length text < 78)%nat -> (98 <= length text + length r <= 99)%nat ->
  l_io s = mkIo o (a_num t :: i) -> in_years 1000 9999 (now t) ->
  exists d, length d = (length text + S (length r))%nat /\
    fill_line (text ++ 0 :: r) s = lift (sprintf_to d (print_line text t)) (with_io s (mkIo o i)).
Proof.
  intros Ht Hl Hr Hio Hy.
  unfold fill_line, bind at 1, lift at 1. rewrite cstring_text by done. cbn zeta. change (Z.of_nat MAX_MSG_LENGTH) with 99.
  destruct (Z.ltb_spec 0 (99 - Z.of_nat (length text) - 21)); [|lia].
  replace (Z.to_nat (99 - Z.of_nat (length text) - 21)) with (78 - length text)%nat by lia.
  set (dots := replicate (78 - length text) 46). assert (Ld : length dots = (78 - length text)%nat) by apply length_replicate.
  unfold bind at 1, lift at 1. rewrite mwrite_ok by (rewrite length_app, Ld, length_zeros; cbn [length]; unfold MAX_MSG_LENGTH; lia).
  unfold bind at 1, lift at 1. rewrite mwrite_end by (done || (rewrite length_app, Ld; cbn [length]; lia)).
  destruct (ReturnCurTimeStrExt_run o t i Hy) as (b & E & Eb).
  unfold bind at 1, gio at 1. rewrite Hio, E. cbn match. unfold bind at 1, lift at 1. rewrite Eb.
  exists (text ++ (dots ++ [0]) ++ drop (length (dots ++ [0])) (0 :: r)). split; [|reflexivity].
  rewrite !length_app, length_drop, Ld. cbn [length]. lia.
Qed.

Lemma sprintf_empty text n : (length text < n)%nat -> sprintf_to (zeros n) text = Ok (text ++ 0 :: drop (S (length text)) (zeros n)).
Proof.
  intros H. unfold sprintf_to. rewrite mwrite_ok by (rewrite length_app, length_zeros; cbn [length]; lia).
  unfold patch. cbn [take app]. rewrite <-app_assoc, length_app. cbn [app length]. by rewrite Nat.add_1_r.
Qed.

(** PrintFormat up to its last sprintf. *)
Lemma PrintFormat_ends n en text s o t i :
  (99 <= n <= 100)%nat -> nonul text -> (length text < 78)%nat -> l_io s = mkIo o (a_num t :: i) -> in_years 1000 9999 (now t) ->
  exists d, length d = n /\
    PrintFormat_in n en text s =
      bind (lift (sprintf_to d (print_line text t))) (fun d' => bind (lift (cstring d')) (send_line en)) (with_io s (mkIo o i)).
Proof.
  intros Hn Ht Hl Hio Hy. set (r := drop (S (length text)) (zeros n)).
  assert (Lr : length r = (n - S (length text))%nat) by (unfold r; by rewrite length_drop, length_zeros).
  destruct (fill_line_ends text r s o t i) as (d & Ld & E); [done|done|lia|done|done|].
  exists d. split; [lia|]. unfold PrintFormat_in, bind at 1, lift at 1. rewrite sprintf_empty by lia. fold r.
  unfold bind at 1. rewrite E. done.
Qed.

(** C38: PrintFormat with a text of fewer than 78 characters always writes
    exactly one byte past its array sBuf[99] (in the years 1000 to 9999): the
    text and the dots have 78 characters, the time in brackets 21, and then
    there is the NUL. In an array of 100 bytes the line fits and is logged. *)
Theorem PrintFormat_overruns en text s o t i :
  nonul text -> (length text < 78)%nat -> l_io s = mkIo o (a_num t :: i) -> in_years 1000 9999 (now t) ->
  PrintFormat en text s = Fault Overrun /\
  PrintFormat_in (S MAX_MSG_LENGTH) en text s = send_line en (print_line text t) (with_io s (mkIo o i)).
Proof.
  intros Ht Hl Hio Hy. pose proof (length_print_line text t Hy Hl) as Lp. unfold PrintFormat, MAX_MSG_LENGTH. split.
  - destruct (PrintFormat_ends 99 en text s o t i) as (d & Ld & ->); [lia|done..|].
    unfold bind, lift, sprintf_to. rewrite mwrite_overrun; [done|]. rewrite length_app, Lp. cbn [length]. lia.
  - destruct (PrintFormat_ends 100 en text s o t i) as (d & Ld & ->); [lia|done..|].
    unfold bind at 1, lift at 1, sprintf_to. rewrite mwrite_ok by (rewrite length_app, Lp; cbn [length]; lia).
    assert (Nl : nonul (print_line text t)).
    { destruct (iso_text (now t) (normal_readable4 (now t) (broken_down_normal _ _) Hy)) as [_ Ni].
      unfold print_line, nonul. rewrite !Forall_app. split_and!; [done|by apply Forall_replicate|by repeat constructor|done|by repeat constructor]. }
    unfold bind, lift, patch. rewrite take_0, <-app_assoc. cbn [app]. by rewrite cstring_text.
Qed.

(** ** The lock file *)

Lemma gio_bind {A B} (m : M io A) (k : A -> G B) s a w :
  m (l_io s) = Ok (a, w) -> bind (gio m) k s = k a (with_io s w).
Proof. intros E. unfold bind, gio. by rewrite E. Qed.

Lemma gio_next {A B} (m : M io A) (k : A -> G B) s w a w' :
  m w = Ok (a, w') -> bind (gio m) k (with_io s w) = k a (with_io s w').
Proof. intros E. by rewrite (gio_bind m k _ a w'). Qed.

Lemma time_prefix_next s o t i :
  in_years 0 9999 (now t) -> time_prefix (with_io s (mkIo o (a_num t :: i))) = Ok (stamp (now t), with_io s (mkIo o i)).
Proof. intros Hy. by rewrite (time_prefix_run (with_io s (mkIo o (a_num t :: i))) o t i). Qed.

Lemma lock_name_length sFile name : lock_name sFile = Ok name -> (length name < 128)%nat.
Proof.
  unfold lock_name. cbn zeta. set (n := _ ++ _ ++ _). intros (b & E & [= <-])%res_bind_inv.
  apply mwrite_inv in E. rewrite length_app, length_zeros in E. cbn [length] in E. lia.
Qed.

Lemma sys_send_all fd b v o i :
  Z.of_nat (length b) <= v -> sys_send fd b (mkIo o (a_num v :: i)) = Ok (Z.of_nat (length b), mkIo (o ++ [ESend fd b]) i).
Proof.
  intros Hv. unfold sys_send, bind, answered. cbn. destruct (Z.ltb_spec v 0); [lia|]. by rewrite take_ge by lia.
Qed.

(** The second line written to the lock file. *)
Definition lock_line (pid : Z) (name : bytes) : bytes := fmt_d pid ++ [10] ++ name ++ [10].

(** The answers of the calls of RegLockFile, and the calls. *)
Definition lock_answers (fd r e t n1 pid n2 flags x : Z) : list answer :=
  [a_num fd; mkAns r e []; a_num t; a_num n1; a_num pid; a_num n2; a_num flags; a_num x].
Definition lock_calls (name : bytes) (fd t pid flags : Z) : list event :=
  [EOpen name; EFcntl fd F_SETLK 0; ETruncate fd; ESend fd (stamp (now t) ++ [10]); ESend fd (lock_line pid name);
   EFcntl fd F_GETFD 0; EFcntl fd F_SETFD (Z.lor flags FD_CLOEXEC)].

(** [call]: run the next system call. *)
Ltac call := erewrite gio_next by reflexivity; cbn [out inp].

(** RegLockFile registers the process: the lock file is opened, locked
    and emptied, the time, the process id and the name are written, and the
    descriptor is closed on exec. It does so whenever fcntl does not fail with
    EACCES or EAGAIN, also when the lock was not given for another reason. *)
Lemma RegLockFile_registers strerror sFile name s o fd r e t n1 pid n2 flags x i :
  lock_name sFile = Ok name ->
  l_io s = mkIo o (lock_answers fd r e t n1 pid n2 flags x ++ i) ->
  0 <= fd -> (r < 0 -> e <> EACCES /\ e <> EAGAIN) -> in_years 0 9999 (now t) ->
  15 <= n1 -> Z.of_nat (length (lock_line pid name)) <= n2 ->
  RegLockFile strerror sFile s = Ok (1, with_io s (mkIo (o ++ lock_calls name fd t pid flags) i)).
Proof.
  intros Hn Hio Hfd Hlock Hy H1 H2. pose proof (lock_name_length _ _ Hn) as Hl.
  pose proof (normal_readable (now t) (broken_down_normal _ _) Hy) as Hr. pose proof (length_stamp _ Hr) as Ls.
  destruct (text_fmt_d pid) as [_ Hp].
  unfold RegLockFile, bind at 1, lift at 1. rewrite Hn.
  rewrite (gio_bind _ _ _ (a_num fd) (mkIo (o ++ [EOpen name]) (drop 1 (lock_answers fd r e t n1 pid n2 flags x) ++ i)))
    by (by rewrite Hio). cbn [lock_answers drop app]. cbn zeta. change (a_ret (a_num fd)) with fd.
  destruct (Z.ltb_spec fd 0); [lia|].
  call. cbn match.
  assert (Hw : Z.ltb r 0 && (Z.eqb e EACCES || Z.eqb e EAGAIN) = false).
  { destruct (Z.ltb_spec r 0); [|done]. destruct Hlock as [? ?]; [done|]. cbn [andb].
    destruct (Z.eqb_spec e EACCES); [done|]. by destruct (Z.eqb_spec e EAGAIN). }
  cbn [a_ret a_errno]. rewrite Hw. change (when false ?m) with (@ret log unit tt). unfold bind at 1, ret at 1.
  call.
  unfold bind at 1. rewrite time_prefix_next by done.
  unfold bind at 1, lift at 1, sprintf_to.
  rewrite mwrite_ok by (rewrite !length_app, Ls, length_zeros; cbn [length]; lia).
  erewrite gio_next by (apply sys_send_all; rewrite length_app, Ls; cbn [length]; lia).
  call. cbn zeta. change (a_ret (a_num pid)) with pid.
  change (fmt_d pid ++ 10 :: name ++ [10]) with (lock_line pid name).
  assert (Hll : (length (lock_line pid name) <= 151)%nat) by (unfold lock_line; rewrite !length_app; cbn [length]; lia).
  unfold bind at 1, lift at 1. rewrite mwrite_ok by (rewrite length_app, length_zeros; cbn [length]; lia).
  erewrite gio_next by (by apply sys_send_all).
  call. cbn match. call.
  unfold ret. do 3 f_equal. unfold lock_calls. cbn [out]. by rewrite <-!app_assoc.
Qed.
End Log.

Lemma LogMsg_routes_witness :
  LogMsg china MSG_ERROR (plain "no socket") (mkLog MSG_MONITOR (Some []) (Some []) [] (mkIo [] [a_num 1709136000])) =
    Ok (tt, mkLog MSG_MONITOR (Some ([] ++ normal_line china MSG_ERROR (plain "no socket") 1709136000))
      (Some ([] ++ error_line china MSG_ERROR (plain "no socket") 1709136000)) ([] ++ str ">" ++ str "no socket") (mkIo [] [])).
Proof.
  apply (LogMsg_routes china MSG_ERROR (plain "no socket")
    (mkLog MSG_MONITOR (Some []) (Some []) [] (mkIo [] [a_num 1709136000])) [] 1709136000 [] [] []);
    [split; discriminate|by split|discriminate|apply Nat.ltb_lt; reflexivity|done|done|done|vm_compute; split; discriminate].
Defined.

Lemma SysErrMsg_line_witness :
  SysErrMsg china (str "connect") (str "refused") (mkLog MSG_MONITOR None None [] (mkIo [] [])) =
    if decide (length (str "connect") <= 60)%nat
    then (printf (error_text (str "connect") (str "refused")) ;;
          LogMsg china MSG_MONITOR (mkMsg 37 (error_text (str "connect") (str "refused"))))
         (mkLog MSG_MONITOR None None [] (mkIo [] []))
    else Fault Overread.
Proof.
  apply (SysErrMsg_line china (str "connect") (str "refused"));
    [by apply (bool_decide_unpack _)|by apply (bool_decide_unpack _)|apply Nat.leb_le; reflexivity|apply Nat.ltb_lt; reflexivity].
Defined.

Lemma PrintFormat_overruns_witness :
  let s := mkLog MSG_MONITOR None None [] (mkIo [] [a_num 1709136000]) in
  PrintFormat china E_MSG already_running s = Fault Overrun /\
  PrintFormat_in china (S MAX_MSG_LENGTH) E_MSG already_running s =
    send_line china E_MSG (print_line china already_running 1709136000) (with_io s (mkIo [] [])).
Proof.
  apply (PrintFormat_overruns china E_MSG already_running (mkLog MSG_MONITOR None None [] (mkIo [] [a_num 1709136000])) [] 1709136000 []);
    [by apply (bool_decide_unpack _)|apply Nat.ltb_lt; reflexivity|done|vm_compute; split; discriminate].
Defined.

(** The line of 99 characters. *)
Example already_running_line : print_line china already_running 1709136000 =
  already_running ++ replicate 55 46 ++ str "[2024-02-29 00:00:00]".
Proof. by vm_compute. Qed.

Lemma RegLockFile_registers_witness :
  lock_name (str "tdm") = Ok (str "/var/lock/tdm.lck") /\
  RegLockFile china (fun _ => []) (str "tdm")
      (mkLog MSG_MONITOR None None [] (mkIo [] (lock_answers 5 0 0 1709136000 15 77 21 0 0 ++ []))) =
    Ok (1, with_io (mkLog MSG_MONITOR None None [] (mkIo [] (lock_answers 5 0 0 1709136000 15 77 21 0 0 ++ [])))
      (mkIo ([] ++ lock_calls china (str "/var/lock/tdm.lck") 5 1709136000 77 0) [])).
Proof.
  split; [reflexivity|].
  apply (RegLockFile_registers china (fun _ => []) (str "tdm") (str "/var/lock/tdm.lck")
    (mkLog MSG_MONITOR None None [] (mkIo [] (lock_answers 5 0 0 1709136000 15 77 21 0 0 ++ [])))
    [] 5 0 0 1709136000 15 77 21 0 0 []);
    [reflexivity|reflexivity|lia|lia|vm_compute; split; discriminate|lia|vm_compute; discriminate].
Defined.
End ErrLog.
