(* ===== verification/Layout.v ===== *)
(** * Structures in memory (src/inc/tdm.h, src/inc/sub_server_public.h)

    The handlers copy frames over structures, write past arrays into the
    neighbouring member and store an int into a short, so a structure is its
    bytes, and a member is an offset and a size. A declaration lists the
    members with their C types; [layout] computes the offsets with the
    alignment rules of the x86-64 ABI. *)

From stdpp Require Import prelude gmap strings.
From S2P Require Import Prelude CLib.
Open Scope Z_scope.

(** ** Declarations and their layout *)

Inductive ctype :=
| TInt (size : Z)           (* an integer or pointer, aligned to its size *)
| TArr (n : Z)              (* char[n] *)
| TSub (size align : Z).    (* a nested structure *)

Definition size_of_type (t : ctype) : Z :=
  match t with TInt s => s | TArr n => n | TSub s _ => s end.

Definition align_of_type (t : ctype) : Z :=
  match t with TInt s => s | TArr _ => 1 | TSub _ a => a end.

Definition align_up (off a : Z) : Z := (off + a - 1) / a * a.

Record field := mkField { f_off : Z; f_size : Z }.

Definition decl := list (string * ctype).

Fixpoint layout (off : Z) (ms : decl) : list (string * field) :=
  match ms with
  | [] => []
  | (n, t) :: ms' =>
      let o := align_up off (align_of_type t) in
      (n, mkField o (size_of_type t)) :: layout (o + size_of_type t) ms'
  end.

Definition align_of (ms : decl) : Z :=
  foldr (fun m a => Z.max (align_of_type (snd m)) a) 1 ms.

Definition end_of (ms : decl) : Z :=
  foldl (fun o m => align_up o (align_of_type (snd m)) + size_of_type (snd m)) 0 ms.

Definition sizeof (ms : decl) : Z := align_up (end_of ms) (align_of ms).

(** The member of that name; a name that is not declared has size -1. *)
Fixpoint find_field (n : string) (l : list (string * field)) : field :=
  match l with
  | [] => mkField 0 (-1)
  | (m, f) :: l' => if String.eqb n m then f else find_field n l'
  end.

Definition member (ms : decl) (n : string) : field := find_field n (layout 0 ms).

(** A member of a nested structure. *)
Definition inside (base f : field) : field := mkField (f_off base + f_off f) (f_size f).

(** ** Access *)

Definition fbytes (F : field) (d : bytes) : bytes :=
  take (Z.to_nat (f_size F)) (drop (Z.to_nat (f_off F)) d).

Definition fget (F : field) (d : bytes) : Z := le_dec (fbytes F d).

Definition fset (F : field) (z : Z) (d : bytes) : bytes :=
  patch d (Z.to_nat (f_off F)) (le_enc (Z.to_nat (f_size F)) z).

Definition fits (F : field) (d : bytes) : Prop :=
  0 <= f_off F /\ 0 <= f_size F /\ f_off F + f_size F <= Z.of_nat (length d).

Definition disjoint (F G : field) : Prop :=
  f_off F + f_size F <= f_off G \/ f_off G + f_size G <= f_off F.

(** memcpy to the member: the bytes may run on into the next members. *)
Definition fcpy (F : field) (b : bytes) (d : bytes) : res bytes :=
  mwrite d (Z.to_nat (f_off F)) b.

(** The C string that starts at the member. *)
Definition fstr (F : field) (d : bytes) : res bytes := cstring (drop (Z.to_nat (f_off F)) d).

Section Fields.
Implicit Types F G : field.

Lemma length_fset F z d : fits F d -> length (fset F z d) = length d.
Proof. intros (?&?&?). apply length_patch. rewrite length_le_enc. lia. Qed.

Lemma fits_length F d d' : length d' = length d -> fits F d -> fits F d'.
Proof. unfold fits. intros ->. done. Qed.

Lemma length_fbytes F d : fits F d -> length (fbytes F d) = Z.to_nat (f_size F).
Proof. intros (?&?&?). unfold fbytes. len. Qed.

Lemma fbytes_patch_same d off (b : bytes) sz :
  (off + length b <= length d)%nat -> sz = length b ->
  take sz (drop off (patch d off b)) = b.
Proof.
  intros H ->. unfold patch. rewrite drop_app_ge by len. rewrite length_take.
  replace (off - off `min` length d)%nat with 0%nat by lia. rewrite drop_0.
  by rewrite take_app_length.
Qed.

Lemma fbytes_patch_other F d (off : nat) (b : bytes) :
  fits F d -> (off + length b <= length d)%nat ->
  f_off F + f_size F <= Z.of_nat off \/ Z.of_nat (off + length b) <= f_off F ->
  fbytes F (patch d off b) = fbytes F d.
Proof.
  intros (?&?&?) Hb Hd. unfold fbytes. apply list_eq. intros i.
  destruct (decide (i < Z.to_nat (f_size F))%nat).
  - rewrite !lookup_take_lt, !lookup_drop by done. apply lookup_patch_other; lia.
  - rewrite !lookup_take_ge by lia. done.
Qed.

Lemma fbytes_fset_same F z d :
  fits F d -> fbytes F (fset F z d) = le_enc (Z.to_nat (f_size F)) z.
Proof.
  intros (?&?&?). unfold fbytes, fset. apply fbytes_patch_same; rewrite length_le_enc; lia.
Qed.

Lemma fbytes_fset_other F G z d :
  fits F d -> fits G d -> disjoint F G -> fbytes F (fset G z d) = fbytes F d.
Proof.
  intros HF (?&?&?) Hd. unfold fset.
  apply fbytes_patch_other; rewrite ?length_le_enc; [done|lia|].
  destruct Hd; lia.
Qed.

Lemma fget_fset_same F z d :
  fits F d -> fget F (fset F z d) = z mod 256 ^ f_size F.
Proof.
  intros H. unfold fget. rewrite fbytes_fset_same, le_dec_enc by done.
  destruct H as (?&?&?). by rewrite Z2Nat.id.
Qed.

Lemma fget_fset_other F G z d :
  fits F d -> fits G d -> disjoint F G -> fget F (fset G z d) = fget F d.
Proof. intros. unfold fget. by rewrite fbytes_fset_other. Qed.

Lemma fcpy_ok F b d :
  0 <= f_off F -> f_off F + Z.of_nat (length b) <= Z.of_nat (length d) ->
  fcpy F b d = Ok (patch d (Z.to_nat (f_off F)) b).
Proof. intros. apply mwrite_ok. lia. Qed.

Lemma fcpy_length F b d d' : fcpy F b d = Ok d' -> length d' = length d.
Proof. apply mwrite_length. Qed.

Lemma fset_bytes_ok F z d : bytes_ok d -> bytes_ok (fset F z d).
Proof.
  intros. unfold fset, patch. rewrite !Forall_app.
  split_and!; [by apply Forall_take|apply le_enc_bytes_ok|by apply Forall_drop].
Qed.

Lemma fget_bound F d : bytes_ok d -> fits F d -> 0 <= fget F d < 256 ^ f_size F.
Proof.
  intros Hb Hf. unfold fget.
  assert (bytes_ok (fbytes F d)) by (apply Forall_take, Forall_drop, Hb).
  pose proof (le_dec_bound _ H) as Hl. rewrite length_fbytes in Hl by done.
  destruct Hf as (?&?&?). by rewrite Z2Nat.id in Hl by done.
Qed.
End Fields.

(** ** The structures *)

Definition imsi_info : decl :=
  [("IP", TArr 16); ("APN", TArr 64); ("Vusim_Active_Num", TArr 126);
   ("speedType", TInt 1); ("NeedFile", TInt 1); ("Selnet", TArr 8); ("IMEI", TInt 8);
   ("Port", TInt 2); ("SimBank_ID", TInt 1); ("Channel_ID", TInt 1);
   ("ifRoam", TInt 1); ("IsNet", TInt 1); ("IsApn", TInt 1); ("Vusim_Active_Flag", TInt 1)]%string.

(** The list links at the end are modelled by the list of the table. *)
Definition Data_Spm : decl :=
  [("socket_spm", TInt 4); ("fd1", TInt 4); ("len", TInt 1); ("cnt", TInt 1);
   ("state", TInt 1); ("Result", TInt 1); ("sIMSI", TArr 18); ("vir_flag", TInt 1);
   ("ifVPN", TInt 1); ("SN", TArr 16); ("take_time", TInt 2); ("type", TInt 1);
   ("CMD_TAG", TInt 1); ("new_start_flag", TInt 1); ("locale_flag", TInt 1);
   ("tt_cnt", TInt 1); ("IMSI", TArr 9); ("version", TInt 4); ("versionAPK", TInt 4);
   ("Buff", TArr 256); ("lastTime", TInt 8); ("outtime", TInt 8); ("TT_time", TInt 8);
   ("speedStr", TArr 40); ("lastStart", TInt 1); ("orderType", TInt 1);
   ("factoryFlag", TInt 1); ("vpn", TInt 1); ("MCC", TInt 2); ("minite_Remain", TInt 2);
   ("threshold", TInt 2); ("dataLimit", TInt 2); ("start_time", TInt 8);
   ("ServerInfo", TArr 128); ("ifTest", TInt 4); ("vpnc", TArr 127); ("vpn_flag", TInt 1);
   ("node", TSub (sizeof imsi_info) (align_of imsi_info)); ("pool", TInt 8)]%string.

Definition AccessAuth_Def : decl :=
  [("MCC", TInt 4); ("MNC", TInt 4); ("CID", TInt 4); ("LAC", TInt 4);
   ("FirmwareVer", TInt 4); ("MIP_ListVer", TInt 4); ("DeviceSN", TArr 22);
   ("flag", TInt 1); ("LastIMSI", TArr 9)]%string.

Definition HB_NEW_t : decl :=
  [("MCC", TInt 2); ("MNC", TInt 1); ("Sig_Strength", TInt 1); ("LAC", TInt 4);
   ("CID", TInt 4); ("Local_DataUsed", TInt 4)]%string.

Definition Vsim_UpLoad_Flow : decl :=
  [("Vsim_Imsi", TArr 9); ("_3g_status", TInt 1); ("_3g_strength", TInt 1);
   ("Wifi_State", TInt 1); ("Upload_Flow_Id", TInt 4); ("Up_Flow_All", TInt 4);
   ("Down_Flow_All", TInt 4); ("Day_Used", TInt 4); ("Wifi_count", TInt 1);
   ("Battery", TInt 1); ("Mcc", TInt 4); ("Mnc", TInt 4); ("Lac", TInt 4); ("Cid", TInt 4);
   ("Roam_Up_Flow_All", TInt 4); ("Roam_Down_Flow_All", TInt 4); ("Roam_Day_Used", TInt 4);
   ("Roam_3g_Strength", TInt 4); ("remain_min", TInt 4); ("Flow_All", TInt 4);
   ("Network_Type", TInt 4); ("Last_Cyc_Used", TInt 4)]%string.

Definition Tell_Server_Bill : decl :=
  [("SN", TArr 16); ("Vsim_Action_State", TInt 1); ("Imsi", TArr 9); ("Version", TArr 10);
   ("MCC", TInt 4); ("minitues", TInt 4); ("ApkVersion", TInt 4); ("ICCID", TArr 20)]%string.

Definition Device_Logout : decl := [("SN", TArr 16); ("Imsi", TArr 9)]%string.

Definition heartBeatWithData_t : decl :=
  [("IMSI", TArr 9); ("SN", TArr 15); ("FirmwareVer", TInt 4)]%string.

Definition Node_Data : decl :=
  [("CMD_TAG", TInt 4); ("fd", TInt 4); ("len", TInt 4); ("SN", TArr 16);
   ("IMSI", TArr 12); ("Buff", TArr 256)]%string.

Definition TD_Result_t : decl :=
  [("NeedFile", TInt 1); ("RequestFlag", TInt 1); ("UpdateFlag", TInt 1);
   ("Vusim_Active_Flag", TInt 1); ("Data_Clr_Flag", TInt 1); ("Unused", TArr 2);
   ("imsi", TArr 9); ("threshold_data", TInt 2); ("dataSpeed", TInt 2);
   ("minite_Remain", TInt 4); ("byteRemain", TInt 2); ("system_id", TInt 1);
   ("channel_id", TInt 1); ("IP", TArr 4); ("threshold_battery", TInt 1);
   ("reserve", TArr 3)]%string.

Definition Rqst_Low_Vsim : decl := [("SN", TArr 16); ("Mcc", TInt 4)]%string.

Definition Data_IP : decl :=
  [("ip", TArr 4); ("port", TInt 2); ("system_id", TInt 1); ("channel_id", TInt 1);
   ("SN", TInt 4)]%string.

Definition Deal_t : decl := [("SN", TInt 8); ("MCC", TInt 2); ("IMSI", TArr 9)]%string.

Definition Con_Data : decl := [("config", TArr 40); ("vpn", TArr 200)]%string.

Definition Release_Vpn : decl := [("SN", TArr 16); ("Vpn", TArr 50)]%string.

Definition Rqst_Vpn_Profile : decl := [("SN", TArr 16); ("VpnType", TInt 1)]%string.

Definition Log_Data : decl := [("SN", TArr 16); ("Buff", TArr 1004); ("len", TInt 4)]%string.

Definition Tdm_to_Spm : decl :=
  [("Cmd", TInt 4); ("len", TInt 4); ("imsi", TArr 9); ("buff", TArr 127);
   ("SimBank_ID", TInt 4); ("Channel_ID", TInt 4)]%string.

Definition TD_ComProtocl_RecvFrame_t : decl :=
  [("Cmd_TAG", TInt 1); ("FrameSize", TInt 1); ("Frame_Data", TArr 512)]%string.

Definition TD_ComProtocl_SendFrame_t : decl :=
  [("Cmd_TAG", TInt 1); ("FrameSizeL", TInt 1); ("FrameSizeH", TInt 1); ("Result", TInt 1);
   ("Frame_Data", TArr 1024)]%string.

Definition TT_RESULT_t : decl := [("Len", TInt 1); ("ReData", TArr 128)]%string.

Definition spm_size : Z := Eval vm_compute in sizeof Data_Spm.

(** A member of the node of Data_Spm. *)
Definition node_member (n : string) : field := inside (member Data_Spm "node") (member imsi_info n).

(** A member of the structure the handlers see in Buff. *)
Definition in_Buff (ms : decl) (n : string) : field := inside (member Data_Spm "Buff") (member ms n).

(** The sizes of the structures as the compiler lays them out. *)
Lemma sizes :
  sizeof imsi_info = 232 /\ sizeof Data_Spm = 920 /\ sizeof AccessAuth_Def = 56 /\
  sizeof TD_Result_t = 36 /\ sizeof Data_IP = 12 /\ sizeof Log_Data = 1024 /\
  sizeof Tdm_to_Spm = 152 /\ sizeof Deal_t = 24 /\ sizeof Tell_Server_Bill = 68 /\
  sizeof heartBeatWithData_t = 28.
Proof. done. Qed.

(** ** Members by name, with their offsets computed *)

(** Data_Spm *)
Module Spm.
Definition socket_spm : field := Eval vm_compute in member Data_Spm "socket_spm".
Definition fd1 : field := Eval vm_compute in member Data_Spm "fd1".
Definition len : field := Eval vm_compute in member Data_Spm "len".
Definition cnt : field := Eval vm_compute in member Data_Spm "cnt".
Definition state : field := Eval vm_compute in member Data_Spm "state".
Definition Result : field := Eval vm_compute in member Data_Spm "Result".
Definition sIMSI : field := Eval vm_compute in member Data_Spm "sIMSI".
Definition vir_flag : field := Eval vm_compute in member Data_Spm "vir_flag".
Definition ifVPN : field := Eval vm_compute in member Data_Spm "ifVPN".
Definition SN : field := Eval vm_compute in member Data_Spm "SN".
Definition take_time : field := Eval vm_compute in member Data_Spm "take_time".
Definition type : field := Eval vm_compute in member Data_Spm "type".
Definition CMD_TAG : field := Eval vm_compute in member Data_Spm "CMD_TAG".
Definition new_start_flag : field := Eval vm_compute in member Data_Spm "new_start_flag".
Definition locale_flag : field := Eval vm_compute in member Data_Spm "locale_flag".
Definition tt_cnt : field := Eval vm_compute in member Data_Spm "tt_cnt".
Definition IMSI : field := Eval vm_compute in member Data_Spm "IMSI".
Definition version : field := Eval vm_compute in member Data_Spm "version".
Definition versionAPK : field := Eval vm_compute in member Data_Spm "versionAPK".
Definition Buff : field := Eval vm_compute in member Data_Spm "Buff".
Definition lastTime : field := Eval vm_compute in member Data_Spm "lastTime".
Definition outtime : field := Eval vm_compute in member Data_Spm "outtime".
Definition TT_time : field := Eval vm_compute in member Data_Spm "TT_time".
Definition speedStr : field := Eval vm_compute in member Data_Spm "speedStr".
Definition lastStart : field := Eval vm_compute in member Data_Spm "lastStart".
Definition orderType : field := Eval vm_compute in member Data_Spm "orderType".
Definition factoryFlag : field := Eval vm_compute in member Data_Spm "factoryFlag".
Definition vpn : field := Eval vm_compute in member Data_Spm "vpn".
Definition MCC : field := Eval vm_compute in member Data_Spm "MCC".
Definition minite_Remain : field := Eval vm_compute in member Data_Spm "minite_Remain".
Definition threshold : field := Eval vm_compute in member Data_Spm "threshold".
Definition dataLimit : field := Eval vm_compute in member Data_Spm "dataLimit".
Definition start_time : field := Eval vm_compute in member Data_Spm "start_time".
Definition ServerInfo : field := Eval vm_compute in member Data_Spm "ServerInfo".
Definition ifTest : field := Eval vm_compute in member Data_Spm "ifTest".
Definition vpnc : field := Eval vm_compute in member Data_Spm "vpnc".
Definition vpn_flag : field := Eval vm_compute in member Data_Spm "vpn_flag".
Definition node : field := Eval vm_compute in member Data_Spm "node".
Definition pool : field := Eval vm_compute in member Data_Spm "pool".
End Spm.

(** the node inside Data_Spm *)
Module Node.
Definition IP : field := Eval vm_compute in node_member "IP".
Definition APN : field := Eval vm_compute in node_member "APN".
Definition Vusim_Active_Num : field := Eval vm_compute in node_member "Vusim_Active_Num".
Definition speedType : field := Eval vm_compute in node_member "speedType".
Definition NeedFile : field := Eval vm_compute in node_member "NeedFile".
Definition Selnet : field := Eval vm_compute in node_member "Selnet".
Definition IMEI : field := Eval vm_compute in node_member "IMEI".
Definition Port : field := Eval vm_compute in node_member "Port".
Definition SimBank_ID : field := Eval vm_compute in node_member "SimBank_ID".
Definition Channel_ID : field := Eval vm_compute in node_member "Channel_ID".
Definition ifRoam : field := Eval vm_compute in node_member "ifRoam".
Definition IsNet : field := Eval vm_compute in node_member "IsNet".
Definition IsApn : field := Eval vm_compute in node_member "IsApn".
Definition Vusim_Active_Flag : field := Eval vm_compute in node_member "Vusim_Active_Flag".
End Node.

(** the login data the terminal left in Buff of Data_Spm *)
Module AA.
Definition MCC : field := Eval vm_compute in in_Buff AccessAuth_Def "MCC".
Definition MNC : field := Eval vm_compute in in_Buff AccessAuth_Def "MNC".
Definition CID : field := Eval vm_compute in in_Buff AccessAuth_Def "CID".
Definition LAC : field := Eval vm_compute in in_Buff AccessAuth_Def "LAC".
Definition FirmwareVer : field := Eval vm_compute in in_Buff AccessAuth_Def "FirmwareVer".
Definition MIP_ListVer : field := Eval vm_compute in in_Buff AccessAuth_Def "MIP_ListVer".
Definition DeviceSN : field := Eval vm_compute in in_Buff AccessAuth_Def "DeviceSN".
Definition flag : field := Eval vm_compute in in_Buff AccessAuth_Def "flag".
Definition LastIMSI : field := Eval vm_compute in in_Buff AccessAuth_Def "LastIMSI".
End AA.

(** the heart beat in Buff *)
Module HbNew.
Definition MCC : field := Eval vm_compute in in_Buff HB_NEW_t "MCC".
Definition MNC : field := Eval vm_compute in in_Buff HB_NEW_t "MNC".
Definition Sig_Strength : field := Eval vm_compute in in_Buff HB_NEW_t "Sig_Strength".
Definition LAC : field := Eval vm_compute in in_Buff HB_NEW_t "LAC".
Definition CID : field := Eval vm_compute in in_Buff HB_NEW_t "CID".
Definition Local_DataUsed : field := Eval vm_compute in in_Buff HB_NEW_t "Local_DataUsed".
End HbNew.

(** the flow report in Buff *)
Module Flow.
Definition Vsim_Imsi : field := Eval vm_compute in in_Buff Vsim_UpLoad_Flow "Vsim_Imsi".
Definition _3g_status : field := Eval vm_compute in in_Buff Vsim_UpLoad_Flow "_3g_status".
Definition _3g_strength : field := Eval vm_compute in in_Buff Vsim_UpLoad_Flow "_3g_strength".
Definition Wifi_State : field := Eval vm_compute in in_Buff Vsim_UpLoad_Flow "Wifi_State".
Definition Upload_Flow_Id : field := Eval vm_compute in in_Buff Vsim_UpLoad_Flow "Upload_Flow_Id".
Definition Up_Flow_All : field := Eval vm_compute in in_Buff Vsim_UpLoad_Flow "Up_Flow_All".
Definition Down_Flow_All : field := Eval vm_compute in in_Buff Vsim_UpLoad_Flow "Down_Flow_All".
Definition Day_Used : field := Eval vm_compute in in_Buff Vsim_UpLoad_Flow "Day_Used".
Definition Wifi_count : field := Eval vm_compute in in_Buff Vsim_UpLoad_Flow "Wifi_count".
Definition Battery : field := Eval vm_compute in in_Buff Vsim_UpLoad_Flow "Battery".
Definition Mcc : field := Eval vm_compute in in_Buff Vsim_UpLoad_Flow "Mcc".
Definition Mnc : field := Eval vm_compute in in_Buff Vsim_UpLoad_Flow "Mnc".
Definition Lac : field := Eval vm_compute in in_Buff Vsim_UpLoad_Flow "Lac".
Definition Cid : field := Eval vm_compute in in_Buff Vsim_UpLoad_Flow "Cid".
Definition Roam_Up_Flow_All : field := Eval vm_compute in in_Buff Vsim_UpLoad_Flow "Roam_Up_Flow_All".
Definition Roam_Down_Flow_All : field := Eval vm_compute in in_Buff Vsim_UpLoad_Flow "Roam_Down_Flow_All".
Definition Roam_Day_Used : field := Eval vm_compute in in_Buff Vsim_UpLoad_Flow "Roam_Day_Used".
Definition Roam_3g_Strength : field := Eval vm_compute in in_Buff Vsim_UpLoad_Flow "Roam_3g_Strength".
Definition remain_min : field := Eval vm_compute in in_Buff Vsim_UpLoad_Flow "remain_min".
Definition Flow_All : field := Eval vm_compute in in_Buff Vsim_UpLoad_Flow "Flow_All".
Definition Network_Type : field := Eval vm_compute in in_Buff Vsim_UpLoad_Flow "Network_Type".
Definition Last_Cyc_Used : field := Eval vm_compute in in_Buff Vsim_UpLoad_Flow "Last_Cyc_Used".
End Flow.

(** Tell_Server_Bill *)
Module Bill.
Definition SN : field := Eval vm_compute in member Tell_Server_Bill "SN".
Definition Vsim_Action_State : field := Eval vm_compute in member Tell_Server_Bill "Vsim_Action_State".
Definition Imsi : field := Eval vm_compute in member Tell_Server_Bill "Imsi".
Definition Version : field := Eval vm_compute in member Tell_Server_Bill "Version".
Definition MCC : field := Eval vm_compute in member Tell_Server_Bill "MCC".
Definition minitues : field := Eval vm_compute in member Tell_Server_Bill "minitues".
Definition ApkVersion : field := Eval vm_compute in member Tell_Server_Bill "ApkVersion".
Definition ICCID : field := Eval vm_compute in member Tell_Server_Bill "ICCID".
End Bill.

(** Device_Logout *)
Module Logout.
Definition SN : field := Eval vm_compute in member Device_Logout "SN".
Definition Imsi : field := Eval vm_compute in member Device_Logout "Imsi".
End Logout.

(** heartBeatWithData_t *)
Module Beat.
Definition IMSI : field := Eval vm_compute in member heartBeatWithData_t "IMSI".
Definition SN : field := Eval vm_compute in member heartBeatWithData_t "SN".
Definition FirmwareVer : field := Eval vm_compute in member heartBeatWithData_t "FirmwareVer".
End Beat.

(** Node_Data *)
Module Job.
Definition CMD_TAG : field := Eval vm_compute in member Node_Data "CMD_TAG".
Definition fd : field := Eval vm_compute in member Node_Data "fd".
Definition len : field := Eval vm_compute in member Node_Data "len".
Definition SN : field := Eval vm_compute in member Node_Data "SN".
Definition IMSI : field := Eval vm_compute in member Node_Data "IMSI".
Definition Buff : field := Eval vm_compute in member Node_Data "Buff".
End Job.

(** TD_Result_t *)
Module Res.
Definition NeedFile : field := Eval vm_compute in member TD_Result_t "NeedFile".
Definition RequestFlag : field := Eval vm_compute in member TD_Result_t "RequestFlag".
Definition UpdateFlag : field := Eval vm_compute in member TD_Result_t "UpdateFlag".
Definition Vusim_Active_Flag : field := Eval vm_compute in member TD_Result_t "Vusim_Active_Flag".
Definition Data_Clr_Flag : field := Eval vm_compute in member TD_Result_t "Data_Clr_Flag".
Definition Unused : field := Eval vm_compute in member TD_Result_t "Unused".
Definition imsi : field := Eval vm_compute in member TD_Result_t "imsi".
Definition threshold_data : field := Eval vm_compute in member TD_Result_t "threshold_data".
Definition dataSpeed : field := Eval vm_compute in member TD_Result_t "dataSpeed".
Definition minite_Remain : field := Eval vm_compute in member TD_Result_t "minite_Remain".
Definition byteRemain : field := Eval vm_compute in member TD_Result_t "byteRemain".
Definition system_id : field := Eval vm_compute in member TD_Result_t "system_id".
Definition channel_id : field := Eval vm_compute in member TD_Result_t "channel_id".
Definition IP : field := Eval vm_compute in member TD_Result_t "IP".
Definition threshold_battery : field := Eval vm_compute in member TD_Result_t "threshold_battery".
Definition reserve : field := Eval vm_compute in member TD_Result_t "reserve".
End Res.

(** Rqst_Low_Vsim *)
Module LowV.
Definition SN : field := Eval vm_compute in member Rqst_Low_Vsim "SN".
Definition Mcc : field := Eval vm_compute in member Rqst_Low_Vsim "Mcc".
End LowV.

(** Data_IP *)
Module Dip.
Definition ip : field := Eval vm_compute in member Data_IP "ip".
Definition port : field := Eval vm_compute in member Data_IP "port".
Definition system_id : field := Eval vm_compute in member Data_IP "system_id".
Definition channel_id : field := Eval vm_compute in member Data_IP "channel_id".
Definition SN : field := Eval vm_compute in member Data_IP "SN".
End Dip.

(** Deal_t *)
Module DealRq.
Definition SN : field := Eval vm_compute in member Deal_t "SN".
Definition MCC : field := Eval vm_compute in member Deal_t "MCC".
Definition IMSI : field := Eval vm_compute in member Deal_t "IMSI".
End DealRq.

(** Release_Vpn *)
Module Rel.
Definition SN : field := Eval vm_compute in member Release_Vpn "SN".
Definition Vpn : field := Eval vm_compute in member Release_Vpn "Vpn".
End Rel.

(** Log_Data *)
Module Log.
Definition SN : field := Eval vm_compute in member Log_Data "SN".
Definition Buff : field := Eval vm_compute in member Log_Data "Buff".
Definition len : field := Eval vm_compute in member Log_Data "len".
End Log.

(** Tdm_to_Spm *)
Module ToSpm.
Definition Cmd : field := Eval vm_compute in member Tdm_to_Spm "Cmd".
Definition len : field := Eval vm_compute in member Tdm_to_Spm "len".
Definition imsi : field := Eval vm_compute in member Tdm_to_Spm "imsi".
Definition buff : field := Eval vm_compute in member Tdm_to_Spm "buff".
Definition SimBank_ID : field := Eval vm_compute in member Tdm_to_Spm "SimBank_ID".
Definition Channel_ID : field := Eval vm_compute in member Tdm_to_Spm "Channel_ID".
End ToSpm.

(** TD_ComProtocl_SendFrame_t *)
Module Snd.
Definition Cmd_TAG : field := Eval vm_compute in member TD_ComProtocl_SendFrame_t "Cmd_TAG".
Definition FrameSizeL : field := Eval vm_compute in member TD_ComProtocl_SendFrame_t "FrameSizeL".
Definition FrameSizeH : field := Eval vm_compute in member TD_ComProtocl_SendFrame_t "FrameSizeH".
Definition Result : field := Eval vm_compute in member TD_ComProtocl_SendFrame_t "Result".
Definition Frame_Data : field := Eval vm_compute in member TD_ComProtocl_SendFrame_t "Frame_Data".
End Snd.
