(* ===== verification/NodeState.v ===== *)
(** * The state a handler works on

    A handler runs on one device node (struct Data_Spm, in place), the
    descriptors of the log connections (Data_Fd.Logs_Fd) and the outside
    world. [rd]/[rds]/[rdb]/[wr]/[cpy] are the accesses to the members of the
    node, [io_] runs a system call. *)

From stdpp Require Import prelude gmap strings.
From S2P Require Import Prelude CLib Layout Sock ErrLog.
Import Sock.
Open Scope Z_scope.

Record hst := mkH { nd : bytes; logs : list Z; w_io : io }.

Abbreviation H A := (M hst A).

Definition io_ {A} (m : M io A) : H A := fun s =>
  match m (w_io s) with
  | Ok (a, w) => Ok (a, mkH (nd s) (logs s) w)
  | Fault f => Fault f
  end.

(** The node as a whole, and its members: unsigned, signed 8/32 bits, bytes. *)
Definition rd (F : field) : H Z := gets (fun s => fget F (nd s)).
Definition rd8 (F : field) : H Z := gets (fun s => s8 (fget F (nd s))).
Definition rd32 (F : field) : H Z := gets (fun s => s32 (fget F (nd s))).
Definition rdb (F : field) : H bytes := gets (fun s => fbytes F (nd s)).

(** The bytes from the member to the end of the node. *)
Definition rdtail (F : field) : H bytes := gets (fun s => drop (Z.to_nat (f_off F)) (nd s)).

(** The C string at the member. *)
Definition rdstr (F : field) : H bytes := fun s =>
  match fstr F (nd s) with Ok b => Ok (b, s) | Fault f => Fault f end.

Definition wr (F : field) (z : Z) : H unit :=
  modify (fun s => mkH (fset F z (nd s)) (logs s) (w_io s)).

(** memcpy to the member, running on into the following ones. *)
Definition cpy (F : field) (b : bytes) : H unit := fun s =>
  match fcpy F b (nd s) with
  | Ok d => Ok (tt, mkH d (logs s) (w_io s))
  | Fault f => Fault f
  end.

(** A library function that fills the memory from the member on. *)
Definition fill {A} (F : field) (f : bytes -> res (A * bytes)) : H A := fun s =>
  match f (drop (Z.to_nat (f_off F)) (nd s)) with
  | Ok (a, b) => Ok (a, mkH (take (Z.to_nat (f_off F)) (nd s) ++ b) (logs s) (w_io s))
  | Fault e => Fault e
  end.

Abbreviation MSG_MONITOR := ErrLog.MSG_MONITOR.
Abbreviation MSG_ERROR := ErrLog.MSG_ERROR.

Definition LogMsg (level : Z) : H unit := io_ (emit (ELog level)).

(** sprintf into a zeroed array of [n] bytes: the array. *)
Definition sprintf (n : nat) (text : bytes) : res bytes := mwrite (zeros n) 0 (text ++ [0]).

Lemma sprintf_text n m t :
  text m t -> (m < n)%nat -> sprintf n t = Ok (padded n t) /\ cstring (padded n t) = Ok t.
Proof.
  intros [Hn Hl] Hm. split; [|apply cstring_padded; [done|lia]].
  unfold sprintf. rewrite mwrite_zeros by len. f_equal. unfold padded.
  rewrite <-app_assoc. f_equal. rewrite length_app. simpl.
  replace (n - length t)%nat with (S (n - (length t + 1))) by lia. done.
Qed.

(** [text_tac]: bound the length of a formatted text piece by piece. *)
Ltac text_tac :=
  repeat match goal with
  | |- text _ (_ ++ _) => eapply text_app
  | |- text _ (fmt_d _) => apply text_fmt_d
  | |- text _ (str _) => apply text_const; vm_compute; repeat constructor; discriminate
  | H : text _ ?b |- text _ ?b => exact H
  end.

(** ** What an access leaves alone *)

(** A node has the size of its structure. *)
Definition node_ok (d : bytes) : Prop := length d = Z.to_nat spm_size.

(** The node of a terminal whose structure was just cleared. *)
Definition node0 : bytes := zeros (Z.to_nat (spm_size)).

Lemma node0_ok : node_ok node0.
Proof. apply length_zeros. Qed.

(** [keeps P m]: every result of [m] has the property if the start has. *)
Definition keeps {A} (P : hst -> Prop) (m : H A) : Prop :=
  forall s a s', P s -> m s = Ok (a, s') -> P s'.

Section Keeps.
Context (P : hst -> Prop).

Lemma keeps_ret {A} (a : A) : keeps P (ret a).
Proof. intros s a' s' HP [= <- <-]. done. Qed.

Lemma keeps_bind {A B} (m : H A) (k : A -> H B) :
  keeps P m -> (forall a, keeps P (k a)) -> keeps P (bind m k).
Proof. intros Hm Hk s b s2 HP E. apply bind_inv in E as (a & s1 & E1 & E2). eapply Hk; [|done]. by eapply Hm. Qed.

Lemma keeps_gets {A} (f : hst -> A) : keeps P (gets f).
Proof. intros s a' s' HP [= <- <-]. done. Qed.

Lemma keeps_lift {A} (r : res A) : keeps P (lift r).
Proof. intros s a s' HP. unfold lift. destruct r; [intros [= <- <-]|]; done. Qed.

Lemma keeps_fail {A} f : keeps P (fail f : H A).
Proof. intros s a s' HP E. done. Qed.

Lemma keeps_rdstr F : keeps P (rdstr F).
Proof. intros s a s' HP. unfold rdstr. destruct (fstr F (nd s)); [intros [= <- <-]|]; done. Qed.

Lemma keeps_if {A} (b : bool) (m1 m2 : H A) :
  keeps P m1 -> keeps P m2 -> keeps P (if b then m1 else m2).
Proof. by destruct b. Qed.
End Keeps.

Create HintDb keeps.
#[export] Hint Resolve keeps_ret keeps_bind keeps_gets keeps_lift keeps_fail keeps_rdstr keeps_if : keeps.

(** The structure of the node. *)
Definition st_ok (s : hst) : Prop := node_ok (nd s).

Definition declared (F : field) : bool :=
  Z.leb 0 (f_off F) && Z.leb 0 (f_size F) && Z.leb (f_off F + f_size F) (spm_size).

Lemma declared_fits F d : declared F = true -> node_ok d -> fits F d.
Proof.
  unfold declared, node_ok, fits. intros Hd Hl.
  apply andb_prop in Hd as [Hd ?]. apply andb_prop in Hd as [? ?].
  rewrite Hl. unfold spm_size in *. lia.
Qed.

Lemma keeps_wr F z : declared F = true -> keeps st_ok (wr F z).
Proof.
  intros HF s a s' Hs [= <- <-]. pose proof (declared_fits F _ HF Hs) as Hf.
  unfold st_ok, node_ok. cbn [nd]. by rewrite length_fset.
Qed.

Lemma keeps_io {A} (m : M io A) : keeps st_ok (io_ m).
Proof. intros s a s' Hs. unfold io_. destruct (m (w_io s)) as [[? ?]|]; [intros [= <- <-]|]; done. Qed.

Lemma keeps_cpy F b : keeps st_ok (cpy F b).
Proof.
  intros s a s' Hs. unfold cpy. destruct (fcpy F b (nd s)) as [d|] eqn:E; [|done].
  intros [= <- <-]. unfold st_ok, node_ok. cbn [nd]. by rewrite (fcpy_length _ _ _ _ E).
Qed.

Lemma keeps_fill {A} F (f : bytes -> res (A * bytes)) :
  (forall b a b', f b = Ok (a, b') -> length b' = length b) -> keeps st_ok (fill F f).
Proof.
  intros Hf s a s' Hs. unfold fill.
  destruct (f (drop (Z.to_nat (f_off F)) (nd s))) as [[x b]|] eqn:E; [|done].
  intros [= <- <-]. apply Hf in E. unfold st_ok, node_ok in *. cbn [nd]. len.
Qed.
#[export] Hint Resolve keeps_io keeps_wr keeps_cpy keeps_fill : keeps.

(** ** Reading a member back *)

Definition apart (F G : field) : bool :=
  Z.leb (f_off F + f_size F) (f_off G) || Z.leb (f_off G + f_size G) (f_off F).

Lemma apart_disjoint F G : apart F G = true -> disjoint F G.
Proof. unfold apart, disjoint. intros [H%Z.leb_le|H%Z.leb_le]%orb_prop; lia. Qed.

Section Members.
Implicit Types F G : field.

Lemma node_fset F z d : declared F = true -> node_ok d -> node_ok (fset F z d).
Proof. intros HF Hd. unfold node_ok. rewrite length_fset; [done|by apply declared_fits]. Qed.

Lemma nget_same F z d :
  declared F = true -> node_ok d -> fget F (fset F z d) = z mod 256 ^ f_size F.
Proof. intros. apply fget_fset_same. by apply declared_fits. Qed.

Lemma nget_other F G z d :
  declared F = true -> declared G = true -> apart F G = true -> node_ok d ->
  fget F (fset G z d) = fget F d.
Proof. intros. apply fget_fset_other; [by apply declared_fits..|by apply apart_disjoint]. Qed.

Lemma nbytes_other F G z d :
  declared F = true -> declared G = true -> apart F G = true -> node_ok d ->
  fbytes F (fset G z d) = fbytes F d.
Proof. intros. apply fbytes_fset_other; [by apply declared_fits..|by apply apart_disjoint]. Qed.

(** Byte [i] is not in [F]; a write to [F] leaves it alone. *)
Definition outside (i : nat) (F : field) : Prop :=
  Z.of_nat i < f_off F \/ f_off F + f_size F <= Z.of_nat i.

Lemma fset_byte i F z d : node_ok d -> declared F = true -> outside i F -> fset F z d !! i = d !! i.
Proof.
  intros Hd HF Ho. destruct (declared_fits F d HF Hd) as (?&?&?).
  unfold fset. apply lookup_patch_other; rewrite length_le_enc; unfold outside in Ho; lia.
Qed.

(** A copy of [n] bytes to the start of member [G]. *)
Lemma node_patch (G : field) b d :
  node_ok d -> 0 <= f_off G -> f_off G + Z.of_nat (length b) <= spm_size ->
  node_ok (patch d (Z.to_nat (f_off G)) b).
Proof. unfold node_ok. intros Hd H0 Hb. rewrite length_patch; [done|]. rewrite Hd. lia. Qed.

Lemma nget_patch F G b d :
  declared F = true -> node_ok d -> 0 <= f_off G ->
  f_off G + Z.of_nat (length b) <= spm_size ->
  f_off F + f_size F <= f_off G \/ f_off G + Z.of_nat (length b) <= f_off F ->
  fget F (patch d (Z.to_nat (f_off G)) b) = fget F d.
Proof.
  intros HF Hd H0 Hb Hdis. unfold fget. rewrite fbytes_patch_other; [done|by apply declared_fits| |lia].
  unfold node_ok in Hd. lia.
Qed.
End Members.

Create HintDb node.
#[export] Hint Resolve node_fset node_patch : node.

(** [node_side]: the side conditions of the lemmas above. *)
Ltac node_side :=
  lazymatch goal with
  | |- node_ok _ => eauto 40 with node
  | |- _ = true => reflexivity
  end.

(** [member_simp]: read members of a node through the writes to others. *)
Ltac member_simp :=
  repeat first
    [ rewrite nget_same by node_side
    | rewrite nget_other by node_side ].

(** ** Running a handler step by step *)

Lemma rd_run {B} F (k : Z -> H B) s : bind (rd F) k s = k (fget F (nd s)) s.
Proof. done. Qed.
Lemma rd8_run {B} F (k : Z -> H B) s : bind (rd8 F) k s = k (s8 (fget F (nd s))) s.
Proof. done. Qed.
Lemma rd32_run {B} F (k : Z -> H B) s : bind (rd32 F) k s = k (s32 (fget F (nd s))) s.
Proof. done. Qed.
Lemma rdb_run {B} F (k : bytes -> H B) s : bind (rdb F) k s = k (fbytes F (nd s)) s.
Proof. done. Qed.
Lemma rdtail_run {B} F (k : bytes -> H B) s :
  bind (rdtail F) k s = k (drop (Z.to_nat (f_off F)) (nd s)) s.
Proof. done. Qed.
Lemma wr_run {B} F z (k : unit -> H B) d l w :
  bind (wr F z) k (mkH d l w) = k tt (mkH (fset F z d) l w).
Proof. done. Qed.
Lemma ret_run {A B} (a : A) (k : A -> H B) s : bind (ret a) k s = k a s.
Proof. done. Qed.
Lemma emit_io_run {B} e (k : unit -> H B) d l o i :
  bind (io_ (emit e)) k (mkH d l (mkIo o i)) = k tt (mkH d l (mkIo (o ++ [e]) i)).
Proof. done. Qed.
Lemma io_run {A B} (m : M io A) a w' (k : A -> H B) d l w :
  m w = Ok (a, w') -> bind (io_ m) k (mkH d l w) = k a (mkH d l w').
Proof. intros E. unfold bind, io_. cbn [w_io]. by rewrite E. Qed.
Lemma lift_run {A B} (r : res A) a (k : A -> H B) s : r = Ok a -> bind (lift r) k s = k a s.
Proof. by intros ->. Qed.
Lemma cpy_run {B} F b (k : unit -> H B) d l w :
  node_ok d -> 0 <= f_off F -> f_off F + Z.of_nat (length b) <= spm_size ->
  bind (cpy F b) k (mkH d l w) = k tt (mkH (patch d (Z.to_nat (f_off F)) b) l w).
Proof. intros Hd H0 Hb. unfold bind, cpy. cbn [nd]. rewrite fcpy_ok; [done|done|]. unfold node_ok in Hd. lia. Qed.

Lemma bind_assoc {A B C} (m : H A) (f : A -> H B) (g : B -> H C) s :
  bind (bind m f) g s = bind m (fun a => bind (f a) g) s.
Proof. unfold bind. by destruct (m s) as [[? ?]|]. Qed.

(** [run]: make the next step of a handler on a state [mkH d l (mkIo o i)]. *)
Ltac run :=
  cbn [nd logs w_io negb andb];
  repeat (first
    [ rewrite bind_assoc
    | rewrite rd_run | rewrite rd8_run | rewrite rd32_run | rewrite rdb_run | rewrite rdtail_run
    | rewrite wr_run | rewrite ret_run | rewrite emit_io_run ]; cbn [nd logs w_io negb andb]).

(** A string member whose terminator lies inside the member. *)
Lemma fstr_fbytes F d s r :
  fits F d -> fbytes F d = s ++ 0 :: r -> nonul s -> fstr F d = Ok s.
Proof.
  intros (?&?&?) Hb Hs. unfold fstr, cstring.
  assert (E : drop (Z.to_nat (f_off F)) d =
              s ++ 0 :: r ++ drop (Z.to_nat (f_size F)) (drop (Z.to_nat (f_off F)) d)).
  { rewrite <-(take_drop (Z.to_nat (f_size F)) (drop (Z.to_nat (f_off F)) d)) at 1.
    fold (fbytes F d). rewrite Hb. by rewrite <-app_assoc. }
  rewrite E. rewrite cstr_nonul by done.
  unfold has_nul. rewrite existsb_app. cbn [existsb]. by rewrite orb_true_r.
Qed.
