(* ===== verification/Deal.v ===== *)
(** * The deal of a terminal (src/src/common.c)

    Log lines and requests to the back end, the reply of the back end read
    into the node, and the allocation of a SIM card to a terminal that logs
    in. Node pointers of the source are the node of the state; strings that
    the source passes as pointers into the node are read from it. *)

From stdpp Require Import prelude gmap strings.
From S2P Require Import Prelude CLib Layout Sock HexText JsonText NodeState.
Import Sock.
Open Scope Z_scope.

Module Deal.

(** ** Error codes *)

Definition UnrecognizedDevSN : Z := 1.
Definition NoDealForDevSN : Z := 2.
Definition OutOfService : Z := 3.
Definition NoSimUsable : Z := 4.
Definition MallocErr : Z := 5.
Definition IpChange : Z := 6.
Definition LowPower : Z := 7.
Definition SockErr : Z := 8.

Definition Log_IP : bytes := str "112.74.141.241".
Definition ServerPort : Z := 8090.
Definition Web_IP : bytes := str "218.17.107.11".
Definition Web_Port : Z := 10162.
Definition SOCKET_NUM : Z := 10.

Definition Test_IP : bytes :=
  str "218.17.107.11:11111,120.24.221.252:8070,120.24.221.252:8070,DOMAINNAME:test.easy2go.cn".
Definition Master_IP : bytes :=
  str "218.17.107.11:11113,120.24.221.252:8070,120.24.221.252:8070,DOMAINNAME:test.easy2go.cn".

(** The return value is the member Result after the switch. *)
Definition SIM_Allocate_Err (Errcode : Z) : H Z :=
  (if Z.eqb Errcode SockErr
   then wr Spm.factoryFlag 1 ;; wr Spm.Result SockErr
   else if Z.leb UnrecognizedDevSN Errcode && Z.leb Errcode LowPower
   then wr Spm.Result Errcode
   else ret tt) ;;
  rd8 Spm.Result.

(** Net_Type_Code: the name written to Dst and the generation returned. *)
Definition network_name (networkType : Z) : option (bytes * Z) :=
  match networkType with
  | 1 => Some (str "GPRS", 2)
  | 2 => Some (str "EDGE", 2)
  | 3 => Some (str "UMTS", 3)
  | 4 => Some (str "CMDA", 2)
  | 5 => Some (str "EVDO_0", 3)
  | 6 => Some (str "EVDO_A", 3)
  | 7 => Some (str "1xRTT", 2)
  | 8 => Some (str "HSDPA", 3)
  | 9 => Some (str "HSUPA", 3)
  | 10 => Some (str "HSPA", 3)
  | 11 => Some (str "IDEN", 2)
  | 12 => Some (str "EVDO_B", 3)
  | 13 => Some (str "LTE", 4)
  | 14 => Some (str "EHRPD", 3)
  | 15 => Some (str "HSPAP", 3)
  | _ => None
  end.

Definition getNetworkType (networkType : Z) (Dst : bytes) : res (Z * bytes) :=
  match network_name networkType with
  | Some (name, gen) => let? Dst := mwrite Dst 0 name in Ok (gen, Dst)
  | None => Ok (0, Dst)
  end.

(** ** Requests to the back end *)

(** Close_Socket_Fd on a member of the node. *)
Definition Close_Socket_Fd (F : field) : H unit :=
  let! fd := rd32 F in
  if Z.ltb 0 fd then io_ (sys_close fd) ;; wr F 0 else ret tt.

(** [Src] is the text of the request, [Dst] the receive buffer. *)
Definition Send_Sim_Data (Src Dst : bytes) (len : Z) : H (Z * bytes) :=
  let! fd := io_ (ConnectToServerTimeOut Log_IP ServerPort 2) in
  if Z.leb fd 0 then LogMsg MSG_ERROR ;; ret (-1, Dst)
  else
    io_ (Set_Recv_Sock_TimeOut fd 2) ;;
    let! r := io_ (sys_send fd Src) in
    if Z.leb r 0 then LogMsg MSG_ERROR ;; ret (-1, Dst)
    else
      let! n := lift (size_of len) in
      let! (r, b) := io_ (sys_recv fd n) in
      let! Dst := lift (mwrite Dst 0 b) in
      io_ (sys_close fd) ;;
      ret (r, Dst).

(** The log connection [num] of Data_Fd.Logs_Fd. *)
Definition rdlog (num : Z) : H Z := fun s =>
  if Z.ltb num 0 then Fault Overread
  else match logs s !! Z.to_nat num with
       | Some fd => Ok (fd, s)
       | None => Fault Overread
       end.

Definition wrlog (num fd : Z) : H unit :=
  modify (fun s => mkH (nd s) (<[Z.to_nat num := fd]> (logs s)) (w_io s)).

Definition ReConectJavaServer (num : Z) : H Z :=
  let! fd := rdlog num in
  if Z.leb fd 0 then
    let! fd := io_ (ConnectToServerTimeOut Log_IP ServerPort 3) in
    wrlog num fd ;;
    if Z.leb fd 0 then LogMsg MSG_ERROR ;; ret (-1)
    else io_ (Set_Recv_Sock_TimeOut fd 1) ;; ret 0
  else ret 0.

Definition close_log (num : Z) : H unit :=
  let! fd := rdlog num in
  if Z.ltb 0 fd then io_ (sys_close fd) ;; wrlog num 0 else ret tt.

(** From label lk on; [retry] while count is 0. *)
Fixpoint send_log (retry : bool) (again : nat) (Src : bytes) (num : Z) : H unit :=
  match again with
  | O => fail NoFuel
  | S again' =>
      let! r := ReConectJavaServer num in
      if negb (Z.eqb r 0) then LogMsg MSG_ERROR
      else
        let! fd := rdlog num in
        let! r := io_ (sys_send fd Src) in
        if Z.leb r 0 then
          close_log num ;;
          if retry then send_log false again' Src num
          else LogMsg MSG_ERROR
        else
          let! (r, _) := io_ (sys_recv fd 512) in
          if Z.leb r 0 then LogMsg MSG_ERROR ;; close_log num
          else ret tt
  end.

(** Mutex [num] is Data_Fd.Logs_mutex[num]; [Src] holds [len] bytes. *)
Definition Send_Logs_Data (Src : bytes) (num : Z) : H Z :=
  io_ (emit (ELock num)) ;;
  send_log true 2 Src num ;;
  io_ (emit (EUnlock num)) ;;
  ret 0.

Definition VPN_Log (SN vpn : bytes) (Result code type : Z) : H Z :=
  let! now := io_ sys_time in
  let text := str "45445445,2001,7|{'SN':'" ++ SN ++ str "','type':'07','TTContext':'" ++ vpn
    ++ str "','ContextLen':'" ++ fmt_d type ++ str "','gSta':'" ++ fmt_d code
    ++ str "','battery':'" ++ fmt_d Result ++ str "','lastTime':'" ++ fmt_d now ++ str "'}&&" in
  let! buff := lift (sprintf 256 text) in
  let! b := lift (cstring buff) in
  let num := Z.rem (atoll SN) SOCKET_NUM in
  Send_Logs_Data b num.

(** Stubs of the source: they never find anything. *)
Definition Get_Low_simcards : Z := -1.
Definition GetVPN_From_SimPool : Z := 0.
Definition SetVPN_Status : Z := 0.
Definition Get_Data_IP_SN : Z := 0.

(** ** Log lines *)

(** threadpool_add_job asserts that there is a pool. *)
Definition threadpool_add_job (pool : Z) (job : bytes) : H unit :=
  if Z.eqb pool 0 then fail AssertFailed else io_ (emit (EJob pool job)).

(** Log_Data: memset, the serial number, the text, its length. *)
Definition log_item (sn15 text : bytes) : res bytes :=
  let d := zeros (Z.to_nat (sizeof Log_Data)) in
  let? d := fcpy Log.SN sn15 d in
  let? d := fcpy Log.Buff (text ++ [0]) d in
  let? t := fstr Log.Buff d in
  Ok (fset Log.len (Z.of_nat (length t)) d).

Definition queue_log (sn15 text : bytes) : H unit :=
  let! d := lift (log_item sn15 text) in
  let! pool := rd Spm.pool in
  threadpool_add_job pool d.

(** The 15 bytes at the member SN. *)
Definition sn15 : H bytes := let! b := rdb Spm.SN in ret (take 15 b).

Definition Heart_Log_Pack (now : Z) : H bytes :=
  let! sn := rdstr Spm.SN in
  let! imsi := rdstr Spm.sIMSI in
  let! mcc := rd HbNew.MCC in
  let! mnc := rd HbNew.MNC in
  let! lac := rd32 HbNew.LAC in
  let! cid := rd32 HbNew.CID in
  let! used := rd32 HbNew.Local_DataUsed in
  let! sig := rd HbNew.Sig_Strength in
  ret (str "45445445,2002,6|{'SN':'" ++ sn ++ str "','location':'" ++ fmt_d mcc ++ str "."
    ++ fmt_d mnc ++ str "." ++ fmt_d lac ++ str "." ++ fmt_d cid ++ str "','dayUsedFlow':'"
    ++ fmt_d used ++ str "','roamGStrenth':'" ++ fmt_d sig ++ str "','IMSI':'" ++ imsi
    ++ str "','lastTime':'" ++ fmt_d now ++ str "'}&&").

(** A flow counter: in units of 1024 from firmware 1601080936 on; the
    product is computed in 32 bits. *)
Definition flow (version v : Z) : Z :=
  if Z.leb 1601080936 version then u32 (v * 1024) else v.

Definition Local_Log_Pack (now : Z) : H bytes :=
  let! sn := rdstr Spm.SN in
  let! imsi := rdstr Spm.sIMSI in
  let! version := rd Spm.version in
  let! nt := rd32 Flow.Network_Type in
  let! (_, net) := lift (getNetworkType nt (zeros 12)) in
  let! net := lift (cstring net) in
  let! rem := rd Flow.remain_min in
  (if Z.leb rem 0 then wr Flow.remain_min 1440 else ret tt) ;;
  let! up := rd Flow.Up_Flow_All in
  let! down := rd Flow.Down_Flow_All in
  let! day := rd Flow.Day_Used in
  let! mcc := rd32 Flow.Mcc in
  let! mnc := rd32 Flow.Mnc in
  let! lac := rd32 Flow.Lac in
  let! cid := rd32 Flow.Cid in
  let! id := rd32 Flow.Upload_Flow_Id in
  let! wc := rd Flow.Wifi_count in
  let! bat := rd Flow.Battery in
  let! ws := rd Flow.Wifi_State in
  let! st := rd Flow._3g_status in
  let! sg := rd Flow._3g_strength in
  let! rem := rd32 Flow.remain_min in
  let! rs := rd32 Flow.Roam_3g_Strength in
  let! ru := rd32 Flow.Roam_Up_Flow_All in
  let! rdn := rd32 Flow.Roam_Down_Flow_All in
  let! rday := rd32 Flow.Roam_Day_Used in
  let! all := rd32 Flow.Flow_All in
  ret (str "45445445,2001,20|{'SN':'" ++ sn ++ str "','location':'" ++ fmt_d mcc ++ str "."
    ++ fmt_d mnc ++ str "." ++ fmt_d lac ++ str "." ++ fmt_d cid
    ++ str "','UploadFlowCount':'" ++ fmt_d id ++ str "','wifiCount':'" ++ fmt_d wc
    ++ str "','battery':'" ++ fmt_d bat ++ str "','wifiState':'" ++ fmt_d (ws * 2)
    ++ str "','gSta':'" ++ fmt_d st ++ str "','gStrenth':'" ++ fmt_d sg
    ++ str "','upFlowAll':'" ++ fmt_d (flow version up)
    ++ str "','downFlowAll':'" ++ fmt_d (flow version down)
    ++ str "','dayUsedFlow':'" ++ fmt_d (flow version day)
    ++ str "','minsRemaining':'" ++ fmt_d rem ++ str "','roamGStrenth':'" ++ fmt_d rs
    ++ str "','roamUpFlowAll':'" ++ fmt_d ru ++ str "','roamDownFlowAll':'" ++ fmt_d rdn
    ++ str "','roamDayUsedFlow':'" ++ fmt_d rday ++ str "','FlowDistinction':'" ++ fmt_d all
    ++ str "','IMSI':'" ++ imsi ++ str "','TTContext':'" ++ net
    ++ str "','lastTime':'" ++ fmt_d now ++ str "'}&&").

Definition Local_Confirm_Pack (sn imsi Version : bytes) (apkversion : Z) (iccid : bytes) (now : Z) : bytes :=
  str "45445445,2003,7|{'SN':'" ++ sn ++ str "','version':'" ++ fmt_d (atoi Version)
    ++ str "','IMSI':'" ++ imsi ++ str "','versionAPK':'" ++ fmt_d apkversion
    ++ str "','TTContext':'" ++ iccid ++ str "','lastTime':'" ++ fmt_d now ++ str "'}&&".

(** The C library prints a NULL string as (null). *)
Definition LOG_OUT_Log_Pack (sn sIMSI : bytes) (now : Z) : bytes :=
  let imsi := if bool_decide (sIMSI = str "000000000000000000") then str "(null)" else sIMSI in
  str "45445445,2006,3|{'SN':'" ++ sn ++ str "','IMSI':'" ++ imsi
    ++ str "','lastTime':'" ++ fmt_d now ++ str "'}&&".

(** sn and imsi are the members SN and sIMSI; imsi[18] is vir_flag. *)
Definition TT_Log_Pack_Data (cnt : Z) (Buff : bytes) (len : Z) : H Z :=
  let! TT_buf := lift (if Z.ltb 0 len
                       then let? (_, t) := Hex.Hex2String Buff (zeros 160) len in Ok t
                       else Ok (zeros 160)) in
  wr Spm.vir_flag 0 ;;
  let! s15 := sn15 in
  let! sn := rdstr Spm.SN in
  let! imsi := rdstr Spm.sIMSI in
  let! tt_text := lift (cstring TT_buf) in
  let! now := io_ sys_time in
  queue_log s15 (str "45445445,2005,7|{'SN':'" ++ sn ++ str "','TTCnt':'" ++ fmt_d cnt
    ++ str "','IMSI':'" ++ imsi ++ str "','TTContext':'" ++ tt_text
    ++ str "','ContextLen':'" ++ fmt_d len ++ str "','lastTime':'" ++ fmt_d now ++ str "'}&&") ;;
  ret 0.

(** ** The reply of the back end *)

(** The code of the reply, and Dst with the payload copied over it when the
    code is 0. A request that could not be sent gives -1, which is not 0, so
    the zeroed receive buffer is read as a reply. *)
Definition Get_Deal_From_SimPool_socket (buff Dst : bytes) : H (Z * bytes) :=
  let! (r, recvbuff) := Send_Sim_Data buff (zeros 1024) 1024 in
  if negb (Z.eqb r 0) then
    let! (_, Data) := lift (Json.Data_Coing (Some recvbuff) Json.Json_zero) in
    if Z.eqb (Json.Result Data) 0 then
      let! t := lift (cstring (Json.Data Data)) in
      let! Dst := lift (mwrite Dst 0 t) in
      ret (Json.Result Data, Dst)
    else ret (Json.Result Data, Dst)
  else ret (0, Dst).

(** [sIMSI] is the memory from the IMSI text on. *)
Definition Set_SimCards_Status (sIMSI : bytes) : H Z :=
  let! same := lift (memeq sIMSI (str "000000000000000000") 18) in
  if same : bool then ret 0 else
  let! t := lift (cstring sIMSI) in
  let! buff := lift (sprintf 256 (str "45445,1005,2|{'IMSI':'" ++ t ++ str "','serverIp':''}&&")) in
  let! b := lift (cstring buff) in
  let! (r, _) := Send_Sim_Data b (zeros 128) (Z.of_nat (length b)) in
  ret r.

(** The login request; p is the login data in Buff. *)
Definition Login_Log_Pack_Data (Data : Z) : H bytes :=
  let! sn := rdstr Spm.SN in
  let! now := io_ sys_time in
  let! mcc := rd Spm.MCC in
  let! mnc := rd32 AA.MNC in
  let! lac := rd32 AA.LAC in
  let! cid := rd32 AA.CID in
  let! fw := rd32 AA.FirmwareVer in
  let! apk := rd32 Spm.versionAPK in
  let! dsn := rdb AA.DeviceSN in
  let! tk := rd Spm.take_time in
  let text := str "333,1001,12|{'SN':'" ++ sn ++ str "','nowtime':'" ++ fmt_d now
    ++ str "','MCC':'" ++ fmt_d mcc ++ str "','MNC':'" ++ fmt_d mnc ++ str "','LAC':'" ++ fmt_d lac
    ++ str "','CID':'" ++ fmt_d cid ++ str "','Data':'" ++ fmt_d Data
    ++ str "','firmWareVer':'" ++ fmt_d fw ++ str "','firmWareAPKVer':'" ++ fmt_d apk
    ++ str "','battery':'" ++ fmt_d (s8 (nth 21 dsn 0)) ++ str "','minsRemaining':'" ++ fmt_d tk
    ++ str "','tdmIpPort':'" ++ Web_IP ++ str ":" ++ fmt_d Web_Port
    ++ str "','serverCode':'0'}&&" in
  let! buff := lift (sprintf 512 text) in
  lift (cstring buff).

Definition Get_Deal_From_SimPool (Src Dst : bytes) : H (Z * bytes) :=
  let! (cnt, Dst) := Get_Deal_From_SimPool_socket Src Dst in
  if negb (Z.eqb cnt 0) then
    LogMsg MSG_ERROR ;;
    let! r := SIM_Allocate_Err
      (if Z.eqb cnt 1 then LowPower else if Z.eqb cnt 2 then OutOfService else NoSimUsable) in
    ret (r, Dst)
  else ret (0, Dst).

(** Get_Key_Value into a local Key[64]: its string, if there is a value. *)
Definition key_value (Src : bytes) (name : string) : res (option bytes) :=
  let? (r, Key) := Json.Get_Key_Value (Some Src) (str name) (zeros 64) 64 in
  if Z.eqb r 0 then let? t := cstring Key in Ok (Some t) else Ok None.

Definition Get_Key_Value_Int (Src : bytes) (name : string) : res Z :=
  let? k := key_value Src name in
  match k with Some t => Ok (atoi t) | None => Ok 0 end.

Definition Get_Key_Value_VPN (Src : bytes) : H unit :=
  let! v := lift (Get_Key_Value_Int Src "ifVPN") in
  wr Spm.vpn v ;;
  let! vpn := rd Spm.vpn in
  match vpn with
  | 0 => wr Spm.ifVPN 0
  | 1 => wr Spm.ifVPN 8
  | 2 => wr Spm.ifVPN 16
  | _ => ret tt
  end.

Definition Get_Key_Value_Factory (Src : bytes) : H Z :=
  let! v := lift (Get_Key_Value_Int Src "factoryFlag") in
  wr Spm.factoryFlag v ;;
  let! f := rd Spm.factoryFlag in
  (if Z.eqb f 1 then
     let! _ := fill Spm.ServerInfo
       (fun d => Json.Get_Key_Value (Some Src) (str "serverInfo") d 128) in
     let! si := rdstr Spm.ServerInfo in
     if Nat.ltb (length si) 10 then wr Spm.factoryFlag 0 else ret tt
   else ret tt) ;;
  rd Spm.factoryFlag.

Definition Get_Key_Value_IMEI (Src : bytes) : H unit :=
  let! k := lift (key_value Src "IMEI") in
  match k with Some t => wr Node.IMEI (atoll t) | None => ret tt end.

(** Port is a short, the store is that of an int: it also sets SimBank_ID
    and Channel_ID. *)
Definition Port_as_int : field := mkField (f_off Node.Port) 4.

Definition Get_Key_Value_IPAndPort (Src : bytes) (name : string) : H unit :=
  let! k := lift (key_value Src name) in
  match k with
  | None => ret tt
  | Some t =>
      let '(p, rest) := strtok_r t (str ":") in
      match p with Some p => cpy Node.IP p | None => ret tt end ;;
      match strtok_r rest (str ":") with
      | (Some p, _) => wr Port_as_int (atoi p)
      | (None, _) => ret tt
      end
  end.

Definition Get_Key_Value_Str_Type (Src : bytes) (name : string) : H unit :=
  let! k := lift (key_value Src name) in
  match k with
  | None => ret tt
  | Some t =>
      let '(p, rest) := strtok_r t (str "-") in
      match p with Some p => wr Node.SimBank_ID (atoi p) | None => ret tt end ;;
      match strtok_r rest (str "-") with
      | (Some p, _) => wr Node.Channel_ID (atoi p)
      | (None, _) => ret tt
      end
  end.

Definition Get_Key_Value_Str (Src : bytes) (name : string) (F : field) (len : nat) : H Z :=
  let! k := lift (key_value Src name) in
  match k with
  | None => ret 0
  | Some t => if Nat.ltb len (length t) then cpy F t ;; ret 1 else ret 0
  end.

(** The first two bytes of the character the back end sends for "no". *)
Definition no_mark : bytes := [229; 144].

(** The second lookup fills the same Key; its memset comes first, so a
    missing number leaves the flag set. *)
Definition Get_Key_Value_Vusim_Active_Flag (Src : bytes) : H Z :=
  let! k := lift (key_value Src "SIMIfActivated") in
  match k with
  | Some t => wr Node.Vusim_Active_Flag (if is_prefix no_mark t then 1 else 0)
  | None => ret tt
  end ;;
  let! f := rd Node.Vusim_Active_Flag in
  (if Z.eqb f 1 then
     let! k := lift (key_value Src "Vusim_Active_Num") in
     match k with
     | Some t => if Nat.ltb 9 (length t) then cpy Node.Vusim_Active_Num t
                 else wr Node.Vusim_Active_Flag 0
     | None => ret tt
     end
   else ret tt) ;;
  rd Node.Vusim_Active_Flag.

(** str2Hex reads the array Key[64] and fills the memory at IMSI. *)
Definition Get_Key_Value_IMSI (Src : bytes) : H unit :=
  let! k := lift (key_value Src "IMSI") in
  match k with
  | None => ret tt
  | Some t =>
      cpy Spm.sIMSI t ;;
      let! _ := fill Spm.IMSI (fun d => Hex.str2Hex (padded 64 t) d (Z.of_nat (length t))) in
      ret tt
  end.

Definition int_to (F : field) (Src : bytes) (name : string) : H unit :=
  let! v := lift (Get_Key_Value_Int Src name) in wr F v.

Definition Get_Data_From_Deal (Src : bytes) : H Z :=
  int_to Spm.minite_Remain Src "minsRemaining" ;;
  int_to Spm.lastStart Src "lastStart" ;;
  int_to Spm.ifTest Src "ifTest" ;;
  int_to Spm.orderType Src "orderType" ;;
  int_to Node.ifRoam Src "ifRoam" ;;
  int_to Node.speedType Src "speedType" ;;
  int_to Node.NeedFile Src "fileUpdate" ;;
  let! apn := Get_Key_Value_Str Src "APN" Node.APN 3 in
  wr Node.IsApn apn ;;
  Get_Key_Value_VPN Src ;;
  Get_Key_Value_Factory Src ;;
  Get_Key_Value_IPAndPort Src "IPAndPort" ;;
  Get_Key_Value_Str_Type Src "slotNumber" ;;
  Get_Key_Value_Str Src "speedStr" Spm.speedStr 4 ;;
  Get_Key_Value_Vusim_Active_Flag Src ;;
  Get_Key_Value_IMEI Src ;;
  Get_Key_Value_IMSI Src ;;
  let! sel := Get_Key_Value_Str Src "Selnet" Node.Selnet 4 in
  (if negb (Z.eqb sel 0) then wr Node.IsNet 2 else ret tt) ;;
  let! sp := rd Node.speedType in
  (if Z.eqb sp 1 then wr Node.speedType 4 else ret tt) ;;
  wr Spm.Result 0 ;;
  rd Spm.factoryFlag.

(** while((p = strtok(p, "."))) para->ip[i++] = atoi(p) *)
Fixpoint ip_fields (fuel i : nat) (s : bytes) (d : bytes) : res bytes :=
  match fuel with
  | O => Fault NoFuel
  | S f =>
      match strtok_r s (str ".") with
      | (None, _) => Ok d
      | (Some p, rest) =>
          let? d := mwrite d i [u8 (atoi p)] in ip_fields f (S i) rest d
      end
  end.

(** [para] is a Data_IP, its first member the four bytes ip. *)
Definition Set_Dada_IP (para : bytes) (ip : option bytes) : res (Z * bytes) :=
  match ip with
  | None => Ok (-1, para)
  | Some ip =>
      let? t := cstring ip in
      let? simip := mwrite (zeros 20) 0 t in
      let? s := cstring simip in
      let? para := ip_fields (S (length s)) 0 s para in
      Ok (0, para)
  end.

(** ** Requests about the deal *)

Definition Get_SpeedStr_From_Socket : H Z :=
  let! sn := rdstr Spm.SN in
  let! mcc := rd Spm.MCC in
  let! buff := lift (sprintf 128 (str "45445445,3002,2|{'SN':'" ++ sn ++ str "','MCC':'" ++ fmt_d mcc ++ str "'}&&")) in
  let! b := lift (cstring buff) in
  let! (cnt, Dst) := Get_Deal_From_SimPool_socket b (zeros 256) in
  (if Z.eqb cnt 0 then Get_Key_Value_Str Dst "speedStr" Spm.speedStr 4 else ret 0) ;;
  LogMsg MSG_MONITOR ;;
  ret cnt.

Definition Set_Deal_From_SimPool (sn : bytes) (userCountry : Z) : H Z :=
  let! buff := lift (sprintf 128 (str "45445445,3001,2|{'SN':'" ++ sn ++ str "','MCC':'" ++ fmt_d userCountry ++ str "'}&&")) in
  let! b := lift (cstring buff) in
  let! (cnt, _) := Get_Deal_From_SimPool_socket b (zeros 256) in
  ret cnt.

(** buff is the member config of a Con_Data. *)
Definition Get_Config_By_MCC (buff : bytes) : H bytes :=
  let! sp := rdstr Spm.speedStr in
  if Nat.ltb 5 (length sp) then
    let! b := rdb Spm.speedStr in lift (mwrite buff 0 b)
  else Get_SpeedStr_From_Socket ;; ret buff.

Definition is_home (mcc : Z) : bool := Z.eqb mcc 454 || Z.eqb mcc 455 || Z.eqb mcc 460.

Definition Get_Deal_From_Remote (Data : Z) : H Z :=
  Close_Socket_Fd Spm.socket_spm ;;
  let! m := rd32 AA.MCC in
  (if Z.eqb m 0 then wr AA.MCC 460 else ret tt) ;;
  let! m := rd32 AA.MCC in
  let! mcc := rd Spm.MCC in
  (if negb (Z.eqb m mcc) then wr Spm.MCC m else ret tt) ;;
  let! mcc := rd Spm.MCC in
  if is_home mcc then
    wr Spm.factoryFlag 1 ;;
    cpy Spm.ServerInfo Test_IP ;;
    SIM_Allocate_Err IpChange
  else
    cpy Spm.ServerInfo Master_IP ;;
    let! buff := Login_Log_Pack_Data Data in
    let! (cnt, Dst) := Get_Deal_From_SimPool buff (zeros 1024) in
    if Z.eqb cnt 0 then
      let! f := Get_Data_From_Deal Dst in
      if negb (Z.eqb f 0) then SIM_Allocate_Err IpChange else ret cnt
    else ret cnt.

Definition deal_request (Type_ : Z) (sn : bytes) (MCC now : Z) : bytes :=
  if negb (Z.eqb Type_ 0)
  then str "45445445,3003,3|{'SN':'" ++ sn ++ str "','MCC':'" ++ fmt_d MCC
         ++ str "','nowtime':'" ++ fmt_d now ++ str "'}&&"
  else str "333,1001,12|{'SN':'" ++ sn ++ str "','nowtime':'" ++ fmt_d now
         ++ str "','MCC':'" ++ fmt_d MCC
         ++ str "','MNC':'0','LAC':'0','CID':'0','Data':'0','firmWareVer':'0','firmWareAPKVer':'0','battery':'100','minsRemaining':'0','tdmIpPort':'"
         ++ Web_IP ++ str ":" ++ fmt_d Web_Port ++ str "','serverCode':'0'}&&".

Definition Deal_Proc (MCC Type_ : Z) : H Z :=
  let MCC := if Z.eqb MCC 0 then 460 else MCC in
  wr Spm.minite_Remain 0 ;;
  let! sn := rdstr Spm.SN in
  let! now := io_ sys_time in
  let! buff := lift (sprintf 356 (deal_request Type_ sn MCC now)) in
  let! b := lift (cstring buff) in
  let! (cnt, Dst) := Get_Deal_From_SimPool b (zeros 1024) in
  (if Z.eqb cnt 0 then
     int_to Spm.lastStart Dst "lastStart" ;;
     int_to Spm.minite_Remain Dst "minsRemaining" ;;
     let! ls := rd Spm.lastStart in
     if Z.eqb Type_ 0 && Z.eqb ls 1 then wr Spm.minite_Remain 1440 else ret tt
   else if negb (Z.eqb cnt OutOfService) then
     wr Spm.minite_Remain (if negb (Z.eqb Type_ 0) then -1 else 1)
   else ret tt) ;;
  ret 0.

(** The login data is in Buff; DeviceSN + 19, DeviceSN + 16 and LastIMSI. *)
Definition SIM_Allocate_Proc : H Z :=
  let! dsn := rdb AA.DeviceSN in
  wr Spm.take_time (le_dec (take 2 (drop 19 dsn))) ;;
  let data_size := le_dec (take 2 (drop 16 dsn)) in
  let! li := rdb AA.LastIMSI in
  wr Spm.versionAPK (le_dec (take 4 li)) ;;
  Get_Deal_From_Remote data_size.

(** ** The log connections *)

Definition is_lock (e : event) : bool :=
  match e with ELock _ | EUnlock _ => true | _ => false end.

Definition is_send (e : event) : bool := match e with ESend _ _ => true | _ => false end.

Definition sends (evs : list event) : nat := length (filter (fun e => is_send e = true) evs).

(** A run between lock and unlock of log connection [num]: at most [k]
    sends, no lock operation, and only that connection changes. *)
Definition log_run {A} (num : Z) (k : nat) (s : hst) (o : res (A * hst)) : Prop :=
  exists a s' evs, o = Ok (a, s') /\ nd s' = nd s /\ after (w_io s) evs (w_io s') /\
    Forall (fun e => is_lock e = false) evs /\ (sends evs <= k)%nat /\
    length (logs s') = length (logs s) /\
    forall j, j <> Z.to_nat num -> logs s' !! j = logs s !! j.

Lemma log_run_ok {A} num k s (a : A) s' evs :
  nd s' = nd s -> logs s' = logs s -> after (w_io s) evs (w_io s') ->
  Forall (fun e => is_lock e = false) evs -> (sends evs <= k)%nat ->
  log_run num k s (Ok (a, s')).
Proof. intros ? Hl ? ? ?. exists a, s', evs. rewrite Hl. done. Qed.

Lemma log_run_ret {A} num k s (a : A) : log_run num k s (Ok (a, s)).
Proof. apply log_run_ok with []; [done|done|apply after_refl|constructor|unfold sends; simpl; lia]. Qed.

Lemma log_run_le {A} num k k' s (o : res (A * hst)) :
  (k <= k')%nat -> log_run num k s o -> log_run num k' s o.
Proof. intros ? (a & s' & evs & ? & ? & ? & ? & ? & ?). exists a, s', evs. split_and!; [done..|lia|naive_solver|naive_solver]. Qed.

Lemma sends_app a b : sends (a ++ b) = (sends a + sends b)%nat.
Proof. unfold sends. by rewrite filter_app, length_app. Qed.

Lemma log_run_bind {A B} num k1 k2 s (m : H A) (f : A -> H B) :
  log_run num k1 s (m s) ->
  (forall a s', m s = Ok (a, s') -> length (logs s') = length (logs s) ->
     log_run num k2 s' (f a s')) ->
  log_run num (k1 + k2) s (bind m f s).
Proof.
  intros (a & s1 & e1 & E1 & N1 & A1 & L1 & S1 & Len1 & O1) H2.
  rewrite (bind_ok _ _ _ _ _ E1).
  destruct (H2 a s1 E1 Len1) as (b & s2 & e2 & -> & N2 & A2 & L2 & S2 & Len2 & O2).
  exists b, s2, (e1 ++ e2). split_and!.
  - done.
  - congruence.
  - by eapply after_trans.
  - by apply Forall_app.
  - rewrite sends_app. lia.
  - congruence.
  - intros j Hj. rewrite O2, O1 by done. done.
Qed.

(** A system call that makes the events [evs]. *)
Lemma log_run_io {A} num k (m : M io A) s a w evs :
  m (w_io s) = Ok (a, w) -> after (w_io s) evs w ->
  Forall (fun e => is_lock e = false) evs -> (sends evs <= k)%nat ->
  log_run num k s (io_ m s).
Proof. intros E ? ? ?. unfold io_. rewrite E. by apply log_run_ok with evs. Qed.

Lemma rdlog_ok num s :
  0 <= num < Z.of_nat (length (logs s)) -> exists fd, rdlog num s = Ok (fd, s).
Proof.
  intros Hn. unfold rdlog. destruct (Z.ltb_spec num 0); [lia|].
  destruct (lookup_lt_is_Some_2 (logs s) (Z.to_nat num)) as [fd Hfd]; [lia|].
  exists fd. by rewrite Hfd.
Qed.

Lemma rdlog_run num s : 0 <= num < Z.of_nat (length (logs s)) -> log_run num 0 s (rdlog num s).
Proof. intros Hn. destruct (rdlog_ok num s Hn) as [fd ->]. apply log_run_ret. Qed.

Lemma wrlog_run num fd s : log_run num 0 s (wrlog num fd s).
Proof.
  eexists _, _, []. unfold wrlog, modify. split_and!; [done|done|apply after_refl|constructor|done| |].
  - cbn [logs]. by rewrite length_insert.
  - intros j Hj. cbn [logs]. by rewrite list_lookup_insert_ne.
Qed.

(** What the calls do to the trace. *)
Ltac one_call :=
  unfold sys_send, sys_recv, sys_close, sys_time, answered, emit, modify, bind, ret; cbn [inp out a_ret a_err a_errno a_data];
  repeat match goal with
  | |- context [match ?i with [] => _ | _ :: _ => _ end] => destruct i; cbn [inp out a_ret a_err a_errno a_data]
  | |- context [Z.ltb ?a ?b] => destruct (Z.ltb a b)
  end.

Lemma send_events fd b w :
  exists r w' evs, sys_send fd b w = Ok (r, w') /\ after w evs w' /\
    Forall (fun e => is_lock e = false) evs /\ (sends evs <= 1)%nat.
Proof.
  destruct w as [o i]. one_call;
    (eexists _, _, []; split; [done|]; split; [apply after_refl|]; split; [constructor|unfold sends; simpl; lia]) ||
    (eexists _, _, []; split; [done|]; split; [unfold after; by rewrite app_nil_r|]; split; [constructor|unfold sends; simpl; lia]) ||
    (eexists _, _, [_]; split; [done|]; split; [done|]; split; [by repeat constructor|done]).
Qed.

Lemma recv_events fd n w :
  exists r b w' evs, sys_recv fd n w = Ok ((r, b), w') /\ after w evs w' /\
    Forall (fun e => is_lock e = false) evs /\ (sends evs <= 0)%nat.
Proof.
  destruct w as [o i]. one_call;
    (eexists _, _, _, []; split; [done|]; split; [apply after_refl|]; split; [constructor|unfold sends; simpl; lia]) ||
    (eexists _, _, _, []; split; [done|]; split; [unfold after; by rewrite app_nil_r|]; split; [constructor|unfold sends; simpl; lia]) ||
    (eexists _, _, _, [_]; split; [done|]; split; [done|]; split; [by repeat constructor|done]).
Qed.

Lemma emit_run num e s : is_lock e = false -> is_send e = false -> log_run num 0 s (io_ (emit e) s).
Proof.
  intros Hl Hs. eapply log_run_io; [reflexivity|done|by repeat constructor|].
  unfold sends. cbn. by rewrite Hs.
Qed.

Lemma connect_events ip port sec w :
  exists r w' evs, ConnectToServerTimeOut ip port sec w = Ok (r, w') /\ after w evs w' /\
    Forall (fun e => is_lock e = false) evs /\ (sends evs <= 0)%nat.
Proof.
  destruct w as [o i]. unfold ConnectToServerTimeOut. run_calls; do 2 eexists; eexists;
  (split; [reflexivity|]); (split; [unfold after; cbn [out]; rewrite <-?app_assoc;
     first [reflexivity|by rewrite app_nil_r]|]);
  (split; [repeat first [apply Forall_nil_2|apply Forall_cons_2; [done|]]|apply le_n]).
Qed.

Lemma connect_run num ip port sec s : log_run num 0 s (io_ (ConnectToServerTimeOut ip port sec) s).
Proof.
  destruct (connect_events ip port sec (w_io s)) as (r & w' & evs & E & ? & ? & ?).
  by eapply log_run_io.
Qed.

Lemma ReConectJavaServer_run num s :
  0 <= num < Z.of_nat (length (logs s)) -> log_run num 0 s (ReConectJavaServer num s).
Proof.
  intros Hn. unfold ReConectJavaServer. apply (log_run_bind _ 0 0); [by apply rdlog_run|].
  intros fd s1 _ _. destruct (Z.leb fd 0); [|apply log_run_ret].
  apply (log_run_bind _ 0 0); [apply connect_run|]. intros fd2 s2 _ _.
  apply (log_run_bind _ 0 0); [apply wrlog_run|]. intros _ s3 _ _.
  destruct (Z.leb fd2 0); apply (log_run_bind _ 0 0).
  - by apply emit_run.
  - intros. apply log_run_ret.
  - by eapply log_run_io with (evs := [ETimeo fd2 1]); [reflexivity|done|repeat constructor|].
  - intros. apply log_run_ret.
Qed.

Lemma close_log_run num s :
  0 <= num < Z.of_nat (length (logs s)) -> log_run num 0 s (close_log num s).
Proof.
  intros Hn. unfold close_log. apply (log_run_bind _ 0 0); [by apply rdlog_run|].
  intros fd s1 _ _. destruct (Z.ltb 0 fd); [|apply log_run_ret].
  apply (log_run_bind _ 0 0); [by apply emit_run|]. intros. apply wrlog_run.
Qed.

(** One pass from label lk on sends at most once, then does the rest. *)
Lemma send_pass_run Src num (rest : H unit) (n : nat) s :
  (forall s', length (logs s') = length (logs s) -> log_run num n s' (rest s')) ->
  0 <= num < Z.of_nat (length (logs s)) ->
  log_run num (1 + n) s (bind (ReConectJavaServer num) (fun r =>
    if negb (Z.eqb r 0) then LogMsg MSG_ERROR
    else
      let! fd := rdlog num in
      let! r := io_ (sys_send fd Src) in
      if Z.leb r 0 then close_log num ;; rest
      else
        let! (r, _) := io_ (sys_recv fd 512) in
        if Z.leb r 0 then LogMsg MSG_ERROR ;; close_log num
        else ret tt) s).
Proof.
  intros Hrest Hn. apply (log_run_bind _ 0 (1 + n)); [by apply ReConectJavaServer_run|].
  intros r s1 _ L1. destruct (negb (Z.eqb r 0)); [apply log_run_le with 0%nat; [lia|by apply emit_run]|].
  apply (log_run_bind _ 0 (1 + n)); [apply rdlog_run; lia|]. intros fd s2 _ L2.
  apply (log_run_bind _ 1 n).
  { destruct (send_events fd Src (w_io s2)) as (r2 & w' & evs & E & ? & ? & ?). by eapply log_run_io. }
  intros r2 s3 _ L3. destruct (Z.leb r2 0).
  - apply (log_run_bind _ 0 n); [apply close_log_run; lia|]. intros _ s4 _ L4. apply Hrest. lia.
  - apply log_run_le with (0 + 0)%nat; [lia|]. apply log_run_bind.
    { destruct (recv_events fd 512 (w_io s3)) as (r3 & b & w' & evs & E & ? & ? & ?). by eapply log_run_io. }
    intros [r3 b] s4 _ L4. destruct (Z.leb r3 0); [|apply log_run_ret].
    apply (log_run_bind _ 0 0); [by apply emit_run|]. intros _ s5 _ L5. apply close_log_run. lia.
Qed.

Lemma send_log_run Src num s :
  0 <= num < Z.of_nat (length (logs s)) -> log_run num 2 s (send_log true 2 Src num s).
Proof.
  intros Hn. cbn [send_log]. apply (send_pass_run Src num _ 1); [|done].
  intros s' L'. apply (send_pass_run Src num (LogMsg MSG_ERROR) 0); [|lia].
  intros. by apply emit_run.
Qed.

(** C9: Send_Logs_Data always returns 0, whatever the network does: it
    takes and releases the mutex of its connection once, tries the send at
    most twice, and changes neither the node nor another connection. *)
Theorem Send_Logs_Data_balanced Src num s :
  0 <= num < Z.of_nat (length (logs s)) ->
  exists s' evs, Send_Logs_Data Src num s = Ok (0, s') /\ nd s' = nd s /\
    after (w_io s) ([ELock num] ++ evs ++ [EUnlock num]) (w_io s') /\
    Forall (fun e => is_lock e = false) evs /\ (sends evs <= 2)%nat /\
    forall j, j <> Z.to_nat num -> logs s' !! j = logs s !! j.
Proof.
  intros Hn. unfold Send_Logs_Data. rewrite (bind_ok _ _ _ _ _ eq_refl).
  set (s1 := mkH _ _ _).
  destruct (send_log_run Src num s1) as (a & s2 & evs & E & N & A & L & K & Len & O); [done|].
  rewrite (bind_ok _ _ _ _ _ E). rewrite (bind_ok _ _ _ _ _ eq_refl).
  eexists _, evs. split; [reflexivity|]. cbn [nd logs w_io]. split_and!; [done| |done|done|done].
  eapply after_trans; [|eapply after_trans; [exact A|]]; done.
Qed.

Lemma Send_Logs_Data_balanced_witness :
  let s := mkH node0 [0; 0; 0; 0; 0; 0; 0; 0; 0; 0] (mkIo [] [a_num 7; a_num 0; a_err 32; a_num 8; a_num 0; a_num 5]) in
  exists s' evs, Send_Logs_Data (str "hello") 3 s = Ok (0, s') /\ nd s' = nd s /\
    after (w_io s) ([ELock 3] ++ evs ++ [EUnlock 3]) (w_io s') /\
    Forall (fun e => is_lock e = false) evs /\ (sends evs <= 2)%nat /\
    forall j, j <> Z.to_nat 3 -> logs s' !! j = logs s !! j.
Proof. intros s. apply Send_Logs_Data_balanced. simpl. lia. Defined.
End Deal.
