(* ===== verification/Device.v ===== *)
(** * The table of terminals (src/src/common.c)

    Every terminal that talked to the server has a node. The nodes are linked
    by their list_head members into the list Data_Fd.head; here the links are
    a [DList] heap and the other members are the bytes of the node, both at
    the address of the list_head. malloc takes an answer of the script. *)

From stdpp Require Import prelude gmap strings.
From S2P Require Import Prelude CLib ListHead Layout Sock NodeState Deal.
Import Sock Deal.
Open Scope Z_scope.

Module Device.

Abbreviation loc := DList.loc.

Record world := mkW {
  cells : gmap loc bytes;      (* the nodes, by the address of their links *)
  lnk : DList.heap;            (* the links of the nodes and of the head *)
  w_logs : list Z;             (* Data_Fd.Logs_Fd *)
  w_sys : io
}.

Abbreviation W A := (M world A).

(** &Data_Fd.head *)
Definition head : loc := 1%positive.

(** The number that stands for Data_Fd.list_mutex. *)
Definition list_mutex : Z := 100.

Definition wio {A} (m : M io A) : W A := fun w =>
  match m (w_sys w) with
  | Ok (a, i) => Ok (a, mkW (cells w) (lnk w) (w_logs w) i)
  | Fault f => Fault f
  end.

(** A handler run on the node at [p]. *)
Definition on_node {A} (p : loc) (m : H A) : W A := fun w =>
  match cells w !! p with
  | None => Fault UseAfterFree
  | Some d =>
      match m (mkH d (w_logs w) (w_sys w)) with
      | Ok (a, s) => Ok (a, mkW (<[p := nd s]> (cells w)) (lnk w) (logs s) (w_io s))
      | Fault f => Fault f
      end
  end.

Definition Is_Valid_SN (SN : option bytes) : res bool :=
  let? n := match SN with
            | Some b => let? t := cstring b in Ok (u64 (atoll t))
            | None => Ok 0
            end in
  Ok ((Z.ltb 172150210000000 n && Z.ltb n 172150211000000)
      || (Z.ltb 860172008100000 n && Z.ltb n 860172009000000)).

(** memset and socket_spm = -1 *)
Definition Init_Data_Spm : bytes := fset Spm.socket_spm (-1) node0.

(** list_for_each with a return in its body. *)
Fixpoint find_SN (fuel : nat) (w : world) (SN : bytes) (pos : loc) : res (option loc) :=
  match fuel with
  | O => Fault NoFuel
  | S f =>
      if decide (pos = head) then Ok None
      else
        match cells w !! pos with
        | None => Fault UseAfterFree
        | Some d =>
            let? same := memeq (fbytes Spm.SN d) SN 15 in
            if same : bool then Ok (Some pos)
            else
              let? n := DList.load (lnk w) pos in
              find_SN f w SN (DList.next n)
        end
  end.

Definition get_data_list_by_SN (SN : bytes) : W (option loc) := fun w =>
  match (let? n := DList.load (lnk w) head in
         find_SN (S (size (lnk w))) w SN (DList.next n)) with
  | Ok r => Ok (r, w)
  | Fault f => Fault f
  end.

(** malloc(sizeof(Data_Spm)): a fresh address, or NULL. The node and its
    links have no contents yet; they are written before they are read. *)
Definition malloc_node : W (option loc) := fun w =>
  match answered (w_sys w) with
  | Fault f => Fault f
  | Ok (a, i) =>
      if Z.ltb (a_ret a) 0 then Ok (None, mkW (cells w) (lnk w) (w_logs w) i)
      else
        let p := fresh (dom (lnk w)) in
        Ok (Some p, mkW (<[p := node0]> (cells w)) (<[p := DList.mkHead p p]> (lnk w)) (w_logs w) i)
  end.

Definition put_node (p : loc) (d : bytes) : W unit :=
  modify (fun w => mkW (<[p := d]> (cells w)) (lnk w) (w_logs w) (w_sys w)).

(** list_add_tail(&node->list, &Data_Fd.head) *)
Definition append_node (p : loc) : W unit := fun w =>
  match DList.list_add_tail p head (lnk w) with
  | Ok h => Ok (tt, mkW (cells w) h (w_logs w) (w_sys w))
  | Fault f => Fault f
  end.

(** A new node with the given contents and the first 15 bytes of SN. *)
Definition set_node (p : loc) (init SN : bytes) : W (option loc) :=
  let! s := lift (mread SN 0 15) in
  let! d := lift (fcpy Spm.SN s init) in
  put_node p d ;;
  append_node p ;;
  ret (Some p).

Definition new_node (init SN : bytes) : W (option loc) :=
  let! q := malloc_node in
  match q with
  | None => wio (emit (ELog MSG_ERROR)) ;; ret None
  | Some p => set_node p init SN
  end.

Definition Get_Node_By_SN (SN : bytes) : W (option loc) :=
  let! ok := lift (Is_Valid_SN (Some SN)) in
  if negb ok then ret None else
  wio (emit (ELock list_mutex)) ;;
  let! q := get_data_list_by_SN SN in
  let! q := match q with
            | Some p => ret (Some p)
            | None => new_node Init_Data_Spm SN
            end in
  wio (emit (EUnlock list_mutex)) ;;
  match q with
  | Some p => on_node p (Close_Socket_Fd Spm.socket_spm) ;; ret (Some p)
  | None => ret None
  end.

Definition Set_Device_SN_VPN (SN vpn : bytes) (vpn_flag : Z) : W Z :=
  wio (emit (ELock list_mutex)) ;;
  let! q := get_data_list_by_SN SN in
  let! q := match q with
            | Some p => ret (Some p)
            | None => new_node node0 SN
            end in
  match q with
  | Some p =>
      let! t := lift (cstring vpn) in
      on_node p (cpy Spm.vpnc t ;; wr Spm.vpn_flag vpn_flag)
  | None => ret tt
  end ;;
  wio (emit (EUnlock list_mutex)) ;;
  ret 0.

(** The result and the buffer vpn. *)
Definition Get_VPN_From_SN_List (SN vpn : bytes) : W (Z * bytes) :=
  wio (emit (ELock list_mutex)) ;;
  let! q := get_data_list_by_SN SN in
  let! r := match q with
            | Some p => on_node p (
                let! t := rdstr Spm.vpnc in
                let! f := rd Spm.vpn_flag in
                if Nat.ltb 10 (length t) && Z.eqb f 1
                then let! v := lift (mwrite vpn 0 t) in ret (1, v)
                else ret (0, vpn))
            | None => ret (0, vpn)
            end in
  wio (emit (EUnlock list_mutex)) ;;
  ret r.

(** The body of the loop of destory_list: unlink the node and free it. *)
Definition destroy_body (pos : loc) (st : gmap loc bytes * DList.heap)
  : res (gmap loc bytes * DList.heap) :=
  let? h := DList.list_del pos (snd st) in
  Ok (delete pos (fst st), delete pos h).

Definition destory_list : W unit :=
  wio (emit (ELock list_mutex)) ;;
  (fun w =>
     match DList.list_for_each (S (size (lnk w))) destroy_body head (cells w, lnk w) with
     | Ok (c, h) => Ok (tt, mkW c h (w_logs w) (w_sys w))
     | Fault f => Fault f
     end) ;;
  wio (emit (EUnlock list_mutex)).

Fixpoint connect_logs (n : nat) : M io (list Z) :=
  match n with
  | O => ret []
  | S n' =>
      let! fd := ConnectToServerTimeOut Log_IP ServerPort 3 in
      let! r := connect_logs n' in ret (fd :: r)
  end.

(** ConnectToMysqlInit: the log connections and the empty list. *)
Definition ConnectToMysqlInit (ifs : list (option ifaddr)) : W unit :=
  let! _ := lift (GetLocalIp ifs (zeros 16)) in
  let! fds := wio (connect_logs (Z.to_nat SOCKET_NUM)) in
  (fun w =>
     match DList.INIT_LIST_HEAD head (<[head := DList.mkHead head head]> (lnk w)) with
     | Ok h => Ok (tt, mkW (cells w) h fds (w_sys w))
     | Fault f => Fault f
     end).

Fixpoint close_logs (fds : list Z) : M io (list Z) :=
  match fds with
  | [] => ret []
  | fd :: r =>
      (if Z.ltb 0 fd then sys_close fd else ret tt) ;;
      let! r' := close_logs r in
      ret ((if Z.ltb 0 fd then 0 else fd) :: r')
  end.

Definition ConnectToMysqlDeInit : W unit :=
  (fun w =>
     match close_logs (w_logs w) (w_sys w) with
     | Ok (fds, i) => Ok (tt, mkW (cells w) (lnk w) fds i)
     | Fault f => Fault f
     end) ;;
  destory_list.

(** ** The invariant of the table *)

(** The serial number of a node: 15 digits. *)
Definition key (d : bytes) : bytes := take 15 (fbytes Spm.SN d).

Definition key_at (w : world) (p : loc) : option bytes := key <$> cells w !! p.

(** [xs] are the addresses of the nodes in list order. *)
Record table_ok (w : world) (xs : list loc) : Prop := mkTable {
  t_ring : DList.ring (lnk w) head xs;
  t_cells : forall p, p ∈ xs <-> is_Some (cells w !! p);
  t_nodes : forall p d, cells w !! p = Some d -> node_ok d;
  t_keys : NoDup (key_at w <$> xs)
}.

(** The specification of the lookup: the first node with that number. *)
Fixpoint lookup_SN (w : world) (xs : list loc) (SN : bytes) : option loc :=
  match xs with
  | [] => None
  | p :: xs' => if decide (key_at w p = Some (take 15 SN)) then Some p else lookup_SN w xs' SN
  end.

Lemma lookup_SN_some w xs SN p :
  lookup_SN w xs SN = Some p -> p ∈ xs /\ key_at w p = Some (take 15 SN).
Proof. induction xs as [|q xs IH]; simpl; [done|]. case_decide; [intros [= ->]; set_solver|set_solver]. Qed.

Lemma lookup_SN_none w xs SN :
  lookup_SN w xs SN = None -> Some (take 15 SN) ∉ key_at w <$> xs.
Proof.
  induction xs as [|q xs IH]; simpl; [set_solver|]. case_decide; [done|]. intros Hn.
  apply not_elem_of_cons. split; [done|by apply IH].
Qed.

Lemma lookup_SN_ext w w' xs SN :
  (forall p, p ∈ xs -> key_at w' p = key_at w p) -> lookup_SN w' xs SN = lookup_SN w xs SN.
Proof.
  induction xs as [|q xs IH]; intros Hk; simpl; [done|].
  rewrite Hk by set_solver. rewrite IH by set_solver. done.
Qed.

Lemma lookup_SN_snoc w xs p SN :
  lookup_SN w xs SN = None -> key_at w p = Some (take 15 SN) ->
  lookup_SN w (xs ++ [p]) SN = Some p.
Proof.
  induction xs as [|q xs IH]; simpl; intros Hn Hk; [by rewrite decide_True|].
  case_decide; [done|]. by apply IH.
Qed.

Lemma SN_fits d : node_ok d -> fits Spm.SN d.
Proof. by apply declared_fits. Qed.

Lemma find_SN_spec w SN : forall xs2 xs1 fuel,
  table_ok w (xs1 ++ xs2) -> (15 <= length SN)%nat -> (length xs2 < fuel)%nat ->
  find_SN fuel w SN (DList.first_of head xs2) = Ok (lookup_SN w xs2 SN).
Proof.
  induction xs2 as [|x xs2 IH]; intros xs1 fuel Ht HSN Hf;
    (destruct fuel as [|fuel]; [simpl in Hf; lia|]); cbn [find_SN DList.first_of lookup_SN].
  { by rewrite decide_True. }
  assert (Hx : x <> head).
  { destruct Ht as [[Hnd _] _ _ _]. apply NoDup_cons in Hnd as [Hh _]. set_solver. }
  rewrite decide_False by done.
  destruct (proj1 (t_cells _ _ Ht x)) as [d Hd]; [set_solver|]. rewrite Hd.
  pose proof (SN_fits d (t_nodes _ _ Ht x d Hd)) as Hfit.
  assert (HL : length (fbytes Spm.SN d) = 16%nat) by (rewrite length_fbytes; done).
  unfold memeq. rewrite !mread_ok by lia. cbn [res_bind]. rewrite !drop_0.
  unfold key_at. rewrite Hd. cbn [fmap option_fmap option_map]. fold (key d).
  case_bool_decide as Hk.
  - rewrite decide_True by (by f_equal). done.
  - rewrite decide_False by (intros [= ?]; done).
    destruct (DList.ring_next _ _ _ _ _ (t_ring _ _ Ht)) as (n & -> & Hn). cbn [res_bind]. rewrite Hn.
    apply (IH (xs1 ++ [x])); [by rewrite <-app_assoc|done|simpl in Hf; lia].
Qed.

Lemma get_data_list_by_SN_spec w xs SN :
  table_ok w xs -> (15 <= length SN)%nat ->
  get_data_list_by_SN SN w = Ok (lookup_SN w xs SN, w).
Proof.
  intros Ht HSN. unfold get_data_list_by_SN.
  destruct (DList.ring_first _ _ _ (t_ring _ _ Ht)) as (n & -> & Hn). cbn [res_bind]. rewrite Hn.
  rewrite (find_SN_spec w SN xs []); [done|done|done|].
  pose proof (DList.ring_size _ _ _ (t_ring _ _ Ht)). lia.
Qed.

(** ** Changes that keep the invariant *)

Lemma SN_room d (s : bytes) :
  node_ok d -> (length s <= 16)%nat -> (Z.to_nat (f_off Spm.SN) + length s <= length d)%nat.
Proof. unfold node_ok. intros -> Hs. unfold spm_size, Spm.SN. cbn [f_off]. lia. Qed.

Lemma key_patch d s :
  node_ok d -> length s = 15%nat -> key (patch d (Z.to_nat (f_off Spm.SN)) s) = s.
Proof.
  intros Hd Hs. unfold key, fbytes. rewrite take_take.
  apply fbytes_patch_same; [|rewrite Hs; done]. apply SN_room; [done|lia].
Qed.

(** The key is not touched by writes to members beside SN. *)
Lemma key_fset F z d :
  node_ok d -> declared F = true -> disjoint Spm.SN F -> key (fset F z d) = key d.
Proof.
  intros Hd HF Hdis. unfold key. rewrite fbytes_fset_other; [done|by apply SN_fits| |done].
  by apply declared_fits.
Qed.

Lemma key_at_insert w p d h l i q :
  key_at (mkW (<[p := d]> (cells w)) h l i) q = if decide (p = q) then Some (key d) else key_at w q.
Proof. unfold key_at. cbn [cells]. case_decide; simplify_map_eq; done. Qed.

Lemma table_ok_sys w xs l i : table_ok w xs -> table_ok (mkW (cells w) (lnk w) l i) xs.
Proof. intros [? ? ? ?]. by split. Qed.

(** A node changed in place, with the same serial number. *)
Lemma table_ok_update w xs p d d' l i :
  table_ok w xs -> cells w !! p = Some d -> node_ok d' -> key d' = key d ->
  table_ok (mkW (<[p := d']> (cells w)) (lnk w) l i) xs.
Proof.
  intros [Hr Hc Hn Hk] Hd Hd' Hkey.
  assert (Hsame : forall q, key_at (mkW (<[p := d']> (cells w)) (lnk w) l i) q = key_at w q).
  { intros q. rewrite key_at_insert. case_decide; [subst q|done]. unfold key_at. by rewrite Hd, Hkey. }
  split; cbn [cells lnk]; [done| | |].
  - intros q. rewrite Hc. destruct (decide (p = q)) as [->|]; simplify_map_eq; [|done].
    split; intros _; eauto.
  - intros q e. rewrite lookup_insert_Some. intros [[-> <-]|[_ He]]; [done|by eapply Hn].
  - erewrite list_fmap_ext; [exact Hk|]. intros ? q _. apply Hsame.
Qed.

(** A new node at the end of the list. *)
Lemma table_ok_append w xs p d n l i h :
  table_ok w xs -> p ∉ dom (lnk w) -> node_ok d -> Some (key d) ∉ key_at w <$> xs ->
  DList.list_add_tail p head (<[p := n]> (lnk w)) = Ok h ->
  table_ok (mkW (<[p := d]> (cells w)) h l i) (xs ++ [p]).
Proof.
  intros [Hr Hc Hn Hk] Hp Hd Hfresh Hadd.
  assert (Hpx : p ∉ head :: xs).
  { intros Hin. apply Hp, elem_of_dom. by eapply DList.ring_alloc. }
  destruct (DList.add_tail_ring (<[p := n]> (lnk w)) head xs p) as (h' & Hadd' & Hr').
  { by apply DList.ring_fresh. } { done. } { simplify_map_eq. eauto. }
  rewrite Hadd in Hadd'. injection Hadd' as <-.
  split; cbn [cells lnk]; [done| | |].
  - intros q. destruct (decide (p = q)) as [->|]; simplify_map_eq.
    + split; [eauto|]. intros _. set_solver.
    + rewrite <-Hc. set_solver.
  - intros q e. rewrite lookup_insert_Some. intros [[-> <-]|[_ He]]; [done|by eapply Hn].
  - rewrite fmap_app. cbn [fmap list_fmap]. rewrite key_at_insert, decide_True by done.
    rewrite (list_fmap_ext _ (key_at w) xs).
    + apply NoDup_app. split_and!; [done| |apply NoDup_singleton].
      intros k Hin ->%list_elem_of_singleton. done.
    + intros j q Hj. rewrite key_at_insert, decide_False; [done|].
      intros ->. apply Hpx. apply list_elem_of_lookup_2 in Hj. set_solver.
Qed.

(** ** Find or create *)

Lemma malloc_node_spec w :
  (exists i, malloc_node w = Ok (None, mkW (cells w) (lnk w) (w_logs w) i)) \/
  (exists p i, p ∉ dom (lnk w) /\ malloc_node w =
     Ok (Some p, mkW (<[p := node0]> (cells w)) (<[p := DList.mkHead p p]> (lnk w)) (w_logs w) i)).
Proof.
  unfold malloc_node, answered. destruct (w_sys w) as [o [|a r]]; cbn [inp out]; [by left; eauto|].
  destruct (Z.ltb (a_ret a) 0); [by left; eauto|]. right. do 2 eexists. split; [|done]. apply is_fresh.
Qed.

Lemma ring_fresh_loc w xs p : table_ok w xs -> p ∉ dom (lnk w) -> p ∉ head :: xs.
Proof. intros Ht Hp Hin. apply Hp, elem_of_dom. eapply DList.ring_alloc; [apply (t_ring _ _ Ht)|done]. Qed.

Lemma set_node_spec w xs p init SN i :
  table_ok w xs -> lookup_SN w xs SN = None -> node_ok init -> (15 <= length SN)%nat ->
  p ∉ dom (lnk w) ->
  exists w', set_node p init SN
      (mkW (<[p := node0]> (cells w)) (<[p := DList.mkHead p p]> (lnk w)) (w_logs w) i) = Ok (Some p, w') /\
    table_ok w' (xs ++ [p]) /\
    cells w' = <[p := patch init (Z.to_nat (f_off Spm.SN)) (take 15 SN)]> (cells w).
Proof.
  intros Ht Hnone Hinit HSN Hp. pose proof (ring_fresh_loc _ _ _ Ht Hp) as Hpx.
  assert (Hroom : (Z.to_nat (f_off Spm.SN) + length (take 15 SN) <= length init)%nat)
    by (apply SN_room; [done|rewrite length_take; lia]).
  unfold set_node. rewrite mread_ok, drop_0, (bind_ok _ _ _ _ _ eq_refl) by lia.
  unfold fcpy. rewrite mwrite_ok, (bind_ok _ _ _ _ _ eq_refl) by done.
  unfold put_node, modify. rewrite (bind_ok _ _ _ _ _ eq_refl). cbn [cells lnk w_logs w_sys].
  set (d := patch init _ _). rewrite insert_insert_eq.
  destruct (DList.add_tail_ring (<[p := DList.mkHead p p]> (lnk w)) head xs p) as (h & Hadd & _).
  { by apply DList.ring_fresh; [apply Ht|]. } { done. } { simplify_map_eq. eauto. }
  eexists. split; [|split].
  - unfold append_node, bind, ret. cbn [cells lnk w_logs w_sys]. rewrite Hadd. done.
  - eapply table_ok_append; [done|done| | |done].
    + unfold node_ok, d. by rewrite length_patch.
    + unfold d. rewrite key_patch; [by apply lookup_SN_none|done|rewrite length_take; lia].
  - done.
Qed.

(** What the creation of a node does when malloc succeeds or fails. *)
Lemma new_node_spec w xs init SN :
  table_ok w xs -> lookup_SN w xs SN = None -> node_ok init -> (15 <= length SN)%nat ->
  (exists w', new_node init SN w = Ok (None, w') /\ cells w' = cells w /\ lnk w' = lnk w) \/
  (exists p w', new_node init SN w = Ok (Some p, w') /\ p ∉ xs /\ table_ok w' (xs ++ [p]) /\
     cells w' = <[p := patch init (Z.to_nat (f_off Spm.SN)) (take 15 SN)]> (cells w)).
Proof.
  intros Ht Hnone Hinit HSN. unfold new_node.
  destruct (malloc_node_spec w) as [[i Hm]|(p & i & Hp & Hm)]; rewrite (bind_ok _ _ _ _ _ Hm).
  - left. eexists. done.
  - right. destruct (set_node_spec w xs p init SN i) as (w' & Hw' & ? & ?); [done..|].
    exists p, w'. pose proof (ring_fresh_loc _ _ _ Ht Hp). set_solver.
Qed.

(** Close_Socket_Fd on the node of a terminal. *)
Lemma close_spm_node p d w :
  cells w !! p = Some d ->
  exists w', on_node p (Close_Socket_Fd Spm.socket_spm) w = Ok (tt, w') /\ lnk w' = lnk w /\
    cells w' = <[p := if Z.ltb 0 (s32 (fget Spm.socket_spm d))
                      then fset Spm.socket_spm 0 d else d]> (cells w).
Proof.
  intros Hd. unfold on_node. rewrite Hd. unfold Close_Socket_Fd, rd32, gets, bind. cbn [nd].
  destruct (Z.ltb 0 (s32 (fget Spm.socket_spm d))); eexists; (split; [reflexivity|]); done.
Qed.

(** The node a terminal gets: the one it has, its socket to the SIM pool
    closed, or a new one. *)
Definition closed (d : bytes) : bytes :=
  if Z.ltb 0 (s32 (fget Spm.socket_spm d)) then fset Spm.socket_spm 0 d else d.

Definition created (SN : bytes) : bytes :=
  patch Init_Data_Spm (Z.to_nat (f_off Spm.SN)) (take 15 SN).

Lemma Init_ok : node_ok Init_Data_Spm.
Proof. unfold node_ok, Init_Data_Spm. rewrite length_fset; [apply node0_ok|]. by apply declared_fits, node0_ok. Qed.

Lemma closed_ok d : node_ok d -> node_ok (closed d) /\ key (closed d) = key d.
Proof.
  intros Hd. unfold closed. case_match; [|done]. split.
  - unfold node_ok. rewrite length_fset; [done|]. by apply declared_fits.
  - apply key_fset; [done|done|]. right. done.
Qed.

Lemma created_closed SN : closed (created SN) = created SN.
Proof.
  unfold closed, created.
  assert (E : fget Spm.socket_spm (patch Init_Data_Spm (Z.to_nat (f_off Spm.SN)) (take 15 SN)) = 4294967295).
  { unfold fget. rewrite fbytes_patch_other; [reflexivity| | |left; done].
    - by apply declared_fits, Init_ok.
    - apply SN_room; [apply Init_ok|rewrite length_take; lia]. }
  by rewrite E.
Qed.

(** Everything Get_Node_By_SN does for a valid serial number. *)
Definition gets_node (w : world) (xs : list loc) (SN : bytes) (q : option loc) (w' : world) : Prop :=
  match lookup_SN w xs SN with
  | Some p =>
      q = Some p /\ table_ok w' xs /\ lookup_SN w' xs SN = Some p /\
      exists d, cells w !! p = Some d /\ cells w' = <[p := closed d]> (cells w)
  | None =>
      (q = None /\ table_ok w' xs /\ cells w' = cells w) \/
      (exists p, q = Some p /\ p ∉ xs /\ table_ok w' (xs ++ [p]) /\
         lookup_SN w' (xs ++ [p]) SN = Some p /\ cells w' = <[p := created SN]> (cells w))
  end.

Lemma gets_node_found w xs SN p w0 l i :
  table_ok w xs -> lookup_SN w xs SN = Some p -> cells w0 = cells w -> lnk w0 = lnk w ->
  exists d w', cells w !! p = Some d /\
    on_node p (Close_Socket_Fd Spm.socket_spm) (mkW (cells w0) (lnk w0) l i) = Ok (tt, w') /\
    table_ok w' xs /\ lookup_SN w' xs SN = Some p /\ cells w' = <[p := closed d]> (cells w).
Proof.
  intros Ht Hl Hc Hk. rewrite Hc, Hk. destruct (lookup_SN_some _ _ _ _ Hl) as [Hin _].
  destruct (proj1 (t_cells _ _ Ht p) Hin) as [d Hd].
  destruct (close_spm_node p d (mkW (cells w) (lnk w) l i)) as (w' & Hw' & Hlnk & Hcells); [done|].
  exists d, w'. cbn [cells lnk] in *. fold (closed d) in Hcells.
  pose proof (closed_ok d (t_nodes _ _ Ht _ _ Hd)) as [Ho Hkey].
  pose proof (table_ok_update w xs p d (closed d) (w_logs w') (w_sys w') Ht Hd Ho Hkey) as Ht'.
  destruct w' as [c k l' i']. cbn [cells lnk w_logs w_sys] in *. subst c k.
  split_and!; [done|done|done| |done].
  rewrite <-Hl. apply lookup_SN_ext. intros q _. rewrite key_at_insert.
  case_decide; [subst q|done]. unfold key_at. by rewrite Hd, Hkey.
Qed.

(** C1: Get_Node_By_SN, for a serial number in the valid ranges and a
    well-formed table, returns the node of that terminal if there is one (its
    socket to the SIM pool closed), else appends one new initialised node, or
    returns NULL when malloc fails; no other node changes, the list stays a
    ring without duplicate serial numbers, and the next lookup of the number
    finds the node returned. *)
Theorem Get_Node_By_SN_spec w xs SN :
  table_ok w xs -> (15 <= length SN)%nat -> Is_Valid_SN (Some SN) = Ok true ->
  exists q w', Get_Node_By_SN SN w = Ok (q, w') /\ gets_node w xs SN q w'.
Proof.
  intros Ht HSN Hv. unfold Get_Node_By_SN, gets_node. rewrite Hv.
  rewrite (bind_ok _ _ _ _ _ eq_refl). cbn [negb]. rewrite (bind_ok _ _ _ _ _ eq_refl).
  set (w1 := mkW _ _ _ _).
  assert (Ht1 : table_ok w1 xs) by (by apply table_ok_sys).
  rewrite (bind_ok _ _ _ _ _ (get_data_list_by_SN_spec w1 xs SN Ht1 HSN)).
  assert (Hl1 : lookup_SN w1 xs SN = lookup_SN w xs SN) by (by apply lookup_SN_ext).
  rewrite Hl1. destruct (lookup_SN w xs SN) as [p|] eqn:Hl.
  - rewrite (bind_ok _ _ _ _ _ eq_refl), (bind_ok _ _ _ _ _ eq_refl).
    destruct (gets_node_found w xs SN p w1 (w_logs w1)
      (mkIo (out (w_sys w1) ++ [EUnlock list_mutex]) (inp (w_sys w1)))) as (d & w' & Hd & E & ? & ? & ?);
      [done..|].
    rewrite (bind_ok _ _ _ _ _ E). eauto 10.
  - rewrite <-Hl in *.
    destruct (new_node_spec w1 xs Init_Data_Spm SN) as [(w2 & E & Hc & Hk)|(p & w2 & E & Hp & Ht2 & Hc)];
      [done|by rewrite Hl1|apply Init_ok|done| |]; rewrite (bind_ok _ _ _ _ _ E).
    + rewrite (bind_ok _ _ _ _ _ eq_refl). do 2 eexists. split; [done|]. rewrite Hl. left.
      split_and!; [done| |exact Hc].
      change (table_ok (mkW (cells w2) (lnk w2) (w_logs w2) (mkIo (out (w_sys w2) ++ [EUnlock list_mutex]) (inp (w_sys w2)))) xs).
      rewrite Hc, Hk. by apply table_ok_sys.
    + rewrite (bind_ok _ _ _ _ _ eq_refl).
      assert (Hkp : key_at w2 p = Some (take 15 SN)).
      { unfold key_at. rewrite Hc. simplify_map_eq. f_equal.
        apply key_patch; [apply Init_ok|rewrite length_take; lia]. }
      assert (Hl2 : lookup_SN w2 (xs ++ [p]) SN = Some p).
      { apply lookup_SN_snoc; [|done]. rewrite <-Hl. symmetry. apply lookup_SN_ext.
        intros q Hq. unfold key_at. rewrite Hc. rewrite lookup_insert_ne; [done|]. set_solver. }
      destruct (gets_node_found w2 (xs ++ [p]) SN p w2 (w_logs w2)
        (mkIo (out (w_sys w2) ++ [EUnlock list_mutex]) (inp (w_sys w2)))) as (d & w' & Hd & E' & ? & ? & Hc');
        [done..|].
      rewrite (bind_ok _ _ _ _ _ E'). do 2 eexists. split; [done|]. rewrite Hl. right.
      exists p. split_and!; [done..|]. rewrite Hc in Hd. simplify_map_eq.
      change (patch Init_Data_Spm (Z.to_nat 32) (take 15 SN)) with (created SN) in *.
      rewrite created_closed in Hc'. rewrite Hc', Hc. by rewrite insert_insert_eq.
Qed.

(** The table after ConnectToMysqlInit, and a terminal's serial number. *)
Definition empty_table : world :=
  mkW ∅ {[ head := DList.mkHead head head ]} [] (mkIo [] [a_num 1]).

Definition sn1 : bytes := str "172150210000937" ++ [0].

Lemma empty_table_ok : table_ok empty_table [].
Proof.
  split.
  - split; [apply NoDup_singleton|]. split; done.
  - intros p. split; [set_solver|]. intros [? [=]].
  - intros p d [=].
  - apply NoDup_nil_2.
Qed.

Lemma Get_Node_By_SN_spec_witness :
  exists q w', Get_Node_By_SN sn1 empty_table = Ok (q, w') /\ gets_node empty_table [] sn1 q w'.
Proof.
  apply (Get_Node_By_SN_spec empty_table [] sn1); [apply empty_table_ok|simpl; lia|reflexivity].
Defined.

(** Destory_list frees each node and then reads its link to find the
    next one: with at least one terminal in the table it uses freed memory. *)
Lemma destory_list_uses_freed w xs :
  table_ok w xs -> xs <> [] -> destory_list w = Fault UseAfterFree.
Proof.
  intros Ht Hne. destruct xs as [|x xs]; [done|].
  unfold destory_list. rewrite (bind_ok _ _ _ _ _ eq_refl). unfold bind. cbn [cells lnk w_logs w_sys].
  unfold DList.list_for_each. cbn [snd].
  destruct (DList.ring_first _ _ _ (t_ring _ _ Ht)) as (n & -> & Hn). cbn [res_bind]. rewrite Hn.
  assert (Hx : x <> head).
  { destruct Ht as [[Hnd _] _ _ _]. apply NoDup_cons in Hnd as [Hh _]. set_solver. }
  cbn [DList.for_each_from DList.first_of]. rewrite decide_False by done.
  unfold destroy_body at 1. cbn [snd fst].
  destruct (DList.ring_remove (lnk w) head [] xs x (t_ring _ _ Ht)) as (h' & -> & _). cbn [res_bind snd].
  unfold DList.load. by rewrite lookup_delete_eq.
Qed.

Definition one_node : world :=
  mkW {[ 2%positive := created sn1 ]}
      {[ head := DList.mkHead 2 2; 2%positive := DList.mkHead head head ]} [] (mkIo [] []).

Lemma one_node_ok : table_ok one_node [2%positive].
Proof.
  split.
  - split; [apply NoDup_cons; split; [|apply NoDup_singleton]|repeat split].
    rewrite list_elem_of_singleton. done.
  - intros p. rewrite list_elem_of_singleton. unfold one_node. cbn [cells].
    rewrite lookup_singleton_is_Some. naive_solver.
  - intros p d. unfold one_node. cbn [cells]. rewrite lookup_singleton_Some. intros [_ <-].
    unfold node_ok, created. rewrite length_patch; [apply Init_ok|].
    apply SN_room; [apply Init_ok|rewrite length_take; lia].
  - apply NoDup_singleton.
Qed.

Lemma destory_list_uses_freed_witness : destory_list one_node = Fault UseAfterFree.
Proof. apply (destory_list_uses_freed one_node [2%positive]); [apply one_node_ok|done]. Defined.
End Device.
