(* ===== verification/Handlers.v ===== *)
(** * The command handlers (src/src/TDM.c)

    Each handler works on the node of the terminal ([hst]) and answers on the
    terminal's socket. Frames and local arrays are byte lists of their C
    size, so a copy past the end of one is a [Fault Overrun]. *)

From stdpp Require Import prelude gmap strings.
From S2P Require Import Prelude CLib Layout Sock HexText JsonText NodeState Deal.
Import Sock Deal.
Open Scope Z_scope.

Module Handlers.

(** ** Tags *)

Definition TAG_IP : Z := 2.
Definition TAG_ACCESS_AUTH : Z := 129.
Definition TAG_SIMFILE_REQUEST : Z := 130.
Definition TAG_CMDTT : Z := 131.
Definition TAG_HB : Z := 132.
Definition TAG_CFMD : Z := 133.
Definition TAG_ADN : Z := 134.
Definition TAG_LOCAL_STA : Z := 135.
Definition TAG_SWAP_VUSIM : Z := 137.
Definition TAG_GET_APN_INFO : Z := 138.
Definition TAG_HB_NEW : Z := 139.
Definition TAG_UPDATE_ROAM : Z := 141.
Definition TAG_RESULT_ACCESS_AUTH : Z := 145.
Definition TAG_RESULT_CMDTT : Z := 147.
Definition TAG_HB_RET : Z := 148.
Definition TAG_LOCAL_STA_RET : Z := 151.
Definition TAG_MSG : Z := 153.
Definition TAG_LIMIT_SPEED_CMD : Z := 154.
Definition TAG_HB_NEW_RET : Z := 155.
Definition TAG_LOGOUT : Z := 156.
Definition TAG_APN : Z := 157.
Definition TAG_AUTONET : Z := 158.
Definition TAG_LOW_VSIM : Z := 159.
Definition TAG_SHUTDOWN_CMD : Z := 160.
Definition TAG_REMOTE_RESET_PWD_CMD : Z := 161.
Definition TAG_REINSERT_VSIM_CMD : Z := 162.
Definition TAG_VPN_CMD : Z := 163.
Definition TAG_VPN_PROFILE_RQST : Z := 165.
Definition TAG_VPN_RELEASE_CMD : Z := 166.
Definition TAG_DEAL : Z := 176.
Definition TAG_DEAL_RET : Z := 177.
Definition TAG_WEB_RET : Z := 65.

Definition AA_RESULT_STATE_SUCCESS : Z := 49.
Definition AA_RESULT_STATE_FAIL : Z := 50.
Definition MASK_NUM : Z := 31.
Definition LEN_OF_IMSI : Z := 9.

(** ** Frames *)

(** A reply frame: tag, low and high size byte, result, data. *)
Definition set_byte (off : nat) (v : Z) (buf : bytes) : res bytes := mwrite buf off [u8 v].

(** write(fd, buf, n) *)
Definition write_n (fd : Z) (buf : bytes) (n : Z) : M io unit :=
  let! k := lift (size_of n) in
  let! b := lift (mread buf 0 k) in
  let! _ := sys_send fd b in ret tt.

(** [para] is the frame, 1028 bytes; [Src] is not read when len is 0. *)
Definition PickUp_Web_Data (para : bytes) (len : Z) (Src : bytes) (fd : Z) : M io Z :=
  let! para := lift (set_byte 1 len para) in
  let sendbytes := 4 + len in
  let! para := lift (if Z.ltb 0 len
                     then let? b := mread Src 0 (Z.to_nat len) in mwrite para 4 b
                     else Ok para) in
  let! k := lift (size_of sendbytes) in
  let! b := lift (mread para 0 k) in
  let! SendBuf := lift (mwrite (zeros 512) 0 b) in
  (if Z.ltb 0 fd then write_n fd SendBuf sendbytes else ret tt) ;;
  ret 0.

Definition frame0 (tag : Z) : bytes := u8 tag :: zeros 1027.

Definition Coding_With_TT_Reinsert (fd CMD_TAG : Z) : M io Z :=
  PickUp_Web_Data (frame0 CMD_TAG) 0 [] fd ;; ret 0.

(** while(Result > 255) Result = Result - 256; *)
Fixpoint below256 (fuel : nat) (r : Z) : Z :=
  match fuel with
  | O => r
  | S f => if Z.ltb 255 r then below256 f (r - 256) else r
  end.

Definition wrap_result (r : Z) : Z := below256 (Z.to_nat (r / 256)) r.

(** Src is the structure TT_RESULT_t: its data starts at ReData. *)
Definition TT_Result_Pack (Src : option bytes) (Dst : bytes) (num CMD Result : Z) : res (Z * bytes) :=
  let? Dst := set_byte 0 CMD Dst in
  let? Dst := set_byte 2 0 Dst in
  let? Dst := set_byte 1 num Dst in
  let? Dst := set_byte 3 (wrap_result Result) Dst in
  let? Dst := match Src with
              | None => Ok Dst
              | Some s => let? b := mread s 1 (Z.to_nat num) in mwrite Dst 4 b
              end in
  Ok (4 + num, Dst).

Definition TT_Result_Pack1 (Src : option bytes) (Dst : bytes) (len CMD Result : Z) : res (Z * bytes) :=
  let? Dst := set_byte 0 CMD Dst in
  let? Dst := set_byte 2 0 Dst in
  let? Dst := set_byte 1 len Dst in
  let? Dst := set_byte 3 (wrap_result Result) Dst in
  let? Dst := match Src with
              | None => Ok Dst
              | Some s => let? b := mread s 0 (Z.to_nat len) in mwrite Dst 4 b
              end in
  Ok (4 + len, Dst).

Definition TT_Info_Process (Src Dst : bytes) (iLen : Z) : res (Z * bytes) :=
  let? b := mread Src 0 (Z.to_nat iLen) in
  let? Dst := mwrite Dst 1 b in
  Ok (iLen, Dst).

(** The success branch: the structure TD_Result_t of the reply. *)
Definition auth_result : H bytes :=
  let! ip := rdtail Node.IP in
  let! (_, para1) := lift (Set_Dada_IP (zeros (Z.to_nat (sizeof Data_IP))) (Some ip)) in
  let! imsi := rdb Spm.IMSI in
  let! rem := rd Spm.minite_Remain in
  let! nf := rd Node.NeedFile in
  let! ot := rd Spm.orderType in
  let! ls := rd Spm.lastStart in
  let! apn := rd Node.IsApn in
  let! net := rd Node.IsNet in
  let! sp := rd Node.speedType in
  let! vpn := rd Spm.ifVPN in
  LogMsg MSG_MONITOR ;;
  let! roam := rd Node.ifRoam in
  let! th := rd Spm.threshold in
  let! act := rd Node.Vusim_Active_Flag in
  let! bank := rd Node.SimBank_ID in
  let! chan := rd Node.Channel_ID in
  let! port := rd Node.Port in
  let para := zeros (Z.to_nat (sizeof TD_Result_t)) in
  let! para := lift (fcpy Res.imsi imsi para) in
  let para := fset Res.minite_Remain rem para in
  let para := fset Res.NeedFile nf para in
  let para := if negb (Z.eqb ot 2) then fset Res.Data_Clr_Flag ls para else para in
  let mask := Z.land MASK_NUM (Z.lor (Z.lor (Z.lor apn net) sp) vpn) in
  let! para := lift (fcpy Res.Unused [u8 mask; u8 roam] para) in
  let para := fset Res.threshold_data th para in
  let para := fset Res.Vusim_Active_Flag act para in
  let! para := lift (fcpy Res.IP (fbytes Dip.ip para1) para) in
  let para := fset Res.threshold_battery 6 para in
  let para := fset Res.system_id bank para in
  let para := fset Res.channel_id chan para in
  ret (fset Res.byteRemain port para).

(** The size of the frame and the frame, in an array of 1024 bytes. *)
Definition AccessAuth_Result_Pack (dst : bytes) : H (Z * bytes) :=
  let! dst := lift (set_byte 0 TAG_RESULT_ACCESS_AUTH dst) in
  let! r := rd8 Spm.Result in
  if Z.ltb 0 r then
    let! dst := lift (set_byte 2 0 dst) in
    let! dst := lift (set_byte 1 1 dst) in
    let! dst := lift (set_byte 3 AA_RESULT_STATE_FAIL dst) in
    let! dst := lift (set_byte 4 (if Z.eqb r SockErr then IpChange else r) dst) in
    let! ff := rd Spm.factoryFlag in
    if Z.eqb ff 1 then
      let! si := rdstr Spm.ServerInfo in
      let! dst := lift (mwrite dst 5 si) in
      ret (5 + Z.of_nat (length si), dst)
    else ret (5, dst)
  else
    let! para := auth_result in
    let! dst := lift (set_byte 2 0 dst) in
    let! dst := lift (set_byte 3 AA_RESULT_STATE_SUCCESS dst) in
    let! dst := lift (set_byte 1 (sizeof TD_Result_t) dst) in
    let! dst := lift (mwrite dst 4 para) in
    ret (4 + sizeof TD_Result_t, dst).

(** ** The SIM pool manager *)

Definition dotted (a b c d : Z) : bytes :=
  fmt_d a ++ str "." ++ fmt_d b ++ str "." ++ fmt_d c ++ str "." ++ fmt_d d.

(** The address of the SIM card that the terminal appended to its data:
    the last 12 bytes, which start before Buff when len is below 12. *)
Definition take_appended_address : H unit :=
  let! len := rd Spm.len in
  let len1 := len - sizeof Data_IP in
  let! d := gets nd in
  let! para1 := lift (mread d (Z.to_nat (f_off Spm.Buff + len1)) (Z.to_nat (sizeof Data_IP))) in
  let ip := fbytes Dip.ip para1 in
  cpy Node.IP (dotted (nth 0 ip 0) (nth 1 ip 0) (nth 2 ip 0) (nth 3 ip 0) ++ [0]) ;;
  wr Node.Port (fget Dip.port para1) ;;
  wr Node.SimBank_ID (fget Dip.system_id para1) ;;
  wr Node.Channel_ID (fget Dip.channel_id para1) ;;
  wr Spm.len len1.

(** The socket to use (0: none), the request in Dst and its size: -1, the
    value the callers start with, when it was not made. *)
Definition PickUp_Data_Spm (Dst : bytes) : H (Z * bytes * Z) :=
  let! tag := rd Spm.CMD_TAG in
  let! buf := rdb Spm.Buff in
  let! len := rd Spm.len in
  (if Z.eqb tag TAG_CMDTT && negb (Z.eqb (nth 5 buf 0) (len - 6))
   then take_appended_address else ret tt) ;;
  let! sock := rd32 Spm.socket_spm in
  let! port := rd Node.Port in
  let! dead := (if Z.leb sock 0 && Z.ltb 0 port then
       let! ip := rdstr Node.IP in
       let! fd := io_ (ConnectToServerTimeOut ip port 2) in
       wr Spm.socket_spm fd ;;
       let! sock := rd32 Spm.socket_spm in
       if Z.leb sock 0 then
         LogMsg MSG_ERROR ;;
         let! si := rdtail Spm.sIMSI in
         Set_SimCards_Status si ;; ret true
       else ret false
     else ret false) in
  if dead : bool then ret (0, Dst, -1) else
  let! tag := rd Spm.CMD_TAG in
  let! len := rd Spm.len in
  let! bank := rd8 Node.SimBank_ID in
  let! chan := rd8 Node.Channel_ID in
  let! buf := rdb Spm.Buff in
  let! imsi := rdb Spm.IMSI in
  let Data := zeros (Z.to_nat (sizeof Tdm_to_Spm)) in
  let Data := fset ToSpm.Channel_ID chan
    (fset ToSpm.SimBank_ID bank (fset ToSpm.len len (fset ToSpm.Cmd tag Data))) in
  let! Data := lift (if Z.ltb 0 len then fcpy ToSpm.buff (take (Z.to_nat len) buf) Data else Ok Data) in
  let! Data := lift (fcpy ToSpm.imsi imsi Data) in
  let! Dst := lift (mwrite Dst 0 Data) in
  let! sock := rd32 Spm.socket_spm in
  ret (sock, Dst, sizeof Tdm_to_Spm).

(** The number of bytes received (or an error) and the receive buffer. *)
Definition Data_Coding_Spm (Src : bytes) (len : Z) (Dst : bytes) : H (Z * bytes) :=
  let! sock := rd32 Spm.socket_spm in
  let! k := lift (size_of len) in
  let! b := lift (mread Src 0 k) in
  let! r := io_ (sys_send sock b) in
  let! (sendbytes, Dst) :=
    (if Z.leb r 0 then LogMsg MSG_ERROR ;; ret (-12, Dst)
     else
       let! (n, Dst) := io_ (GetMsgFromSock sock Dst 0 2) in
       if Z.leb n 0 then LogMsg MSG_ERROR ;; ret (-13, Dst) else ret (n, Dst)) in
  (if Z.leb sendbytes 0 then
     (if Z.ltb 0 sock then io_ (sys_close sock) else ret tt) ;;
     wr Spm.socket_spm (-1)
   else ret tt) ;;
  ret (sendbytes, Dst).

(** write to the terminal's socket *)
Definition answer_fd1 (buf : bytes) (n : Z) : H unit :=
  let! fd := rd32 Spm.fd1 in io_ (write_n fd buf n).

Definition Send_Change_IP : H Z :=
  let! buff := lift (set_byte 0 TAG_IP (zeros 4)) in
  let! mcc := rd Spm.MCC in
  (if is_home mcc
   then let! sn := rdstr Spm.SN in Set_Deal_From_SimPool sn mcc
   else ret 0) ;;
  wr Spm.factoryFlag 0 ;;
  wr Spm.Result 0 ;;
  answer_fd1 buff 4 ;;
  ret 0.

(** Hex2String(src, para->sIMSI, 9): 18 digits and the NUL at vir_flag. *)
Definition show_IMSI (src : bytes) : H unit :=
  let! _ := fill Spm.sIMSI (fun d => Hex.Hex2String src d LEN_OF_IMSI) in ret tt.

(** ** Heart beats and reports *)

Definition Coding_With_HB : H Z :=
  let! len := rd Spm.len in
  (if negb (Z.eqb len 0) then
     let! buf := rdb Spm.Buff in
     let hb := take (Z.to_nat (sizeof heartBeatWithData_t)) buf in
     cpy Spm.IMSI (fbytes Beat.IMSI hb) ;;
     cpy Spm.SN (fbytes Beat.SN hb) ;;
     let! imsi := rdb Spm.IMSI in
     show_IMSI imsi
   else ret tt) ;;
  ret 0.

Definition Coding_With_NewHB : H Z :=
  let! s15 := sn15 in
  wr Spm.type 1 ;;
  let! now := io_ sys_time in
  let! text := Heart_Log_Pack now in
  queue_log s15 text ;;
  ret 0.

Definition Coding_With_Local : H Z :=
  let! s15 := sn15 in
  wr Spm.type 2 ;;
  let! now := io_ sys_time in
  let! text := Local_Log_Pack now in
  queue_log s15 text ;;
  ret 0.

(** Four bytes from minite_Remain on: it and the threshold. *)
Definition remain4 : H bytes := let! d := rdtail Spm.minite_Remain in ret (take 4 d).

Definition Coding_With_CFMD_Soeckt (version MCC Vsim_Action_State : Z) : H Z :=
  let length_ := if Z.leb 1601080936 version then 40 else sizeof Con_Data in
  (if negb (Z.eqb MCC 0) then Deal_Proc MCC 1 else ret 0) ;;
  let! m4 := remain4 in
  let! buff := lift (mwrite (zeros 256) 0 m4) in
  let! rem := rd Spm.minite_Remain in
  let! (buff, len) :=
    (if negb (Z.eqb rem 0) && (Z.eqb Vsim_Action_State 0 || Z.eqb Vsim_Action_State 2)
        && negb (Z.eqb MCC 0) then
       let! Data := Get_Config_By_MCC (zeros (Z.to_nat (sizeof Con_Data))) in
       let! buff := lift (mwrite buff 4 (take (Z.to_nat length_) Data)) in
       let len := 4 + length_ in
       if Z.leb 1605041005 version then
         let! it := rdb Spm.ifTest in
         let! buff := lift (mwrite buff (Z.to_nat len) it) in
         ret (buff, len + 4)
       else ret (buff, len)
     else ret (buff, 4)) in
  let! (sendbytes, sBuff) := lift (TT_Result_Pack1 (Some buff) (zeros 256) len TAG_CFMD 0) in
  answer_fd1 sBuff sendbytes ;;
  ret 0.

Definition Coding_With_CFMD : H Z :=
  let! len := rd Spm.len in
  let! buf := rdb Spm.Buff in
  let! bill := lift (mwrite (zeros (Z.to_nat (sizeof Tell_Server_Bill))) 0 (take (Z.to_nat len) buf)) in
  cpy Spm.SN (take 15 (fbytes Bill.SN bill)) ;;
  let! Version := lift (cstring (fbytes Bill.Version bill ++ [0; 0])) in
  wr Spm.version (atol Version) ;;
  let! s15 := sn15 in
  let! iccid := lift (cstring (fbytes Bill.ICCID bill ++ [0; 0; 0; 0])) in
  let! version := rd Spm.version in
  let MCC := s32 (fget Bill.MCC bill) in
  let state := fget Bill.Vsim_Action_State bill in
  Coding_With_CFMD_Soeckt version MCC state ;;
  show_IMSI (fbytes Bill.Imsi bill) ;;
  wr Spm.versionAPK (fget Bill.ApkVersion bill) ;;
  (if negb (Z.eqb MCC 0) then wr Spm.MCC MCC else ret tt) ;;
  wr Spm.state state ;;
  (if Z.eqb state 0 || Z.eqb state 2 then wr Spm.locale_flag 1 else ret tt) ;;
  Close_Socket_Fd Spm.socket_spm ;;
  let! sn := rdstr Spm.SN in
  let! imsi := rdstr Spm.sIMSI in
  let! apk := rd32 Spm.versionAPK in
  let! now := io_ sys_time in
  queue_log s15 (Local_Confirm_Pack sn imsi Version apk iccid now) ;;
  ret 0.

(** ** Other commands *)

Definition Coding_With_Low_Vsim : H Z :=
  let! fd := rd32 Spm.fd1 in
  let! buf := rdb Spm.Buff in
  let! num := rd Spm.len in
  let! low := lift (mwrite (zeros (Z.to_nat (sizeof Rqst_Low_Vsim))) 0 (take (Z.to_nat num) buf)) in
  let sendbytes := Get_Low_simcards in
  let! (sendbytes, SendBuf) := lift
    (if Z.eqb sendbytes 1
     then TT_Result_Pack1 (Some (zeros 10)) (zeros 128) 9 TAG_LOW_VSIM sendbytes
     else TT_Result_Pack1 None (zeros 128) 0 TAG_LOW_VSIM sendbytes) in
  io_ (PutMsgToSock fd SendBuf sendbytes) ;;
  ret 0.

(** Five bytes from minite_Remain on; the last one is replaced by 1. *)
Definition Coding_With_Deal : H Z :=
  let! buf := rdb Spm.Buff in
  let dd := take (Z.to_nat (sizeof Deal_t)) buf in
  let! SendBuf := lift (set_byte 0 TAG_DEAL_RET (zeros 256)) in
  let! SendBuf := lift (set_byte 3 0 SendBuf) in
  let! SendBuf := lift (set_byte 1 5 SendBuf) in
  show_IMSI (fbytes DealRq.IMSI dd) ;;
  Deal_Proc (fget DealRq.MCC dd) 0 ;;
  let! d := rdtail Spm.minite_Remain in
  let! SendBuf := lift (mwrite SendBuf 4 (take 5 d)) in
  let! SendBuf := lift (set_byte 8 1 SendBuf) in
  LogMsg MSG_MONITOR ;;
  answer_fd1 SendBuf 9 ;;
  ret 0.

Definition Coding_With_VPN_RQST : H Z :=
  let! SendBuf := lift (set_byte 0 TAG_VPN_PROFILE_RQST (zeros 256)) in
  let! (SendBuf, size) :=
    (if negb (Z.eqb GetVPN_From_SimPool 0) then
       let! vpnc := rdstr Spm.vpnc in
       let n := u8 (Z.of_nat (length vpnc)) in
       let! b := lift (set_byte 1 n SendBuf) in
       let! b := lift (mwrite b 4 (take (Z.to_nat n) vpnc)) in
       ret (b, n)
     else
       let! b := lift (set_byte 3 1 SendBuf) in
       ret (b, 0)) in
  answer_fd1 SendBuf (size + 4) ;;
  ret 0.

Definition Coding_With_VPN_CMD : H Z :=
  let! buf := rdb Spm.Buff in
  let Data := take (Z.to_nat (sizeof Release_Vpn)) buf in
  let! SendBuf := lift (set_byte 0 TAG_VPN_RELEASE_CMD (zeros 48)) in
  answer_fd1 SendBuf 4 ;;
  let! vpn := lift (fstr Rel.Vpn Data) in
  if Nat.leb (length vpn) 5 then ret 0 else
  wr Spm.vpn_flag 0 ;;
  let! sn := lift (fstr Rel.SN Data) in
  VPN_Log sn vpn 1 0 1 ;;
  ret 0.

Definition Coding_With_LogOut : H Z :=
  let! buf := rdb Spm.Buff in
  let lo := take (Z.to_nat (sizeof Device_Logout)) buf in
  show_IMSI (fbytes Logout.Imsi lo) ;;
  let! fd := rd32 Spm.fd1 in
  (if Z.ltb 0 fd then wr Spm.fd1 0 else ret tt) ;;
  let! now := io_ sys_time in
  let! outtime := gets (fun s => s64 (fget Spm.outtime (nd s))) in
  if Z.leb (now - outtime) 25 then ret 0 else
  wr Spm.outtime now ;;
  let! sn := lift (fstr Logout.SN lo) in
  let! imsi := rdstr Spm.sIMSI in
  let! now2 := io_ sys_time in
  queue_log (take 15 (fbytes Logout.SN lo)) (LOG_OUT_Log_Pack sn imsi now2) ;;
  let! sock := rd32 Spm.socket_spm in
  (if Z.ltb 0 sock then io_ (sys_close sock) ;; wr Spm.socket_spm 0 else ret tt) ;;
  ret 0.

(** A text of the node sent back: ADN, APN and the network selection. *)
Definition send_text (tag : Z) (size : nat) (F : field) (socket_fd : Z) : H Z :=
  let! t := rdstr F in
  let n := u8 (Z.of_nat (length t)) in
  let! b := lift (set_byte 0 tag (zeros size)) in
  let! b := lift (set_byte 1 n b) in
  let! b := lift (mwrite b 4 (take (Z.to_nat n) t)) in
  io_ (write_n socket_fd b (n + 4)) ;;
  ret 0.

Definition Coding_With_ADN (socket_fd : Z) : H Z := send_text TAG_ADN 258 Node.Vusim_Active_Num socket_fd.
Definition Coding_With_APN (socket_fd : Z) : H Z := send_text TAG_GET_APN_INFO 1024 Node.APN socket_fd.
Definition Coding_with_Selnet (socket_fd : Z) : H Z := send_text TAG_AUTONET 1024 Node.Selnet socket_fd.

(** ** Transparent transmission to the SIM card *)

Definition is_reinsert (r : Z) : bool :=
  (Z.leb 1 r && Z.leb r 4) || (Z.leb 6 r && Z.leb r 8).
Definition is_busy (r : Z) : bool := Z.eqb r 5 || (Z.leb 9 r && Z.leb r 11).

Definition Coding_With_CMDTT : H Z :=
  wr Spm.type 1 ;;
  let! buf := rdb Spm.Buff in
  wr Spm.tt_cnt (nth 0 buf 0) ;;
  let! imsi := rdb Spm.IMSI in
  show_IMSI imsi ;;
  let! (sock, SendBuf, sendbytes) := PickUp_Data_Spm (zeros 256) in
  wr Spm.socket_spm sock ;;
  let! (sendbytes, RecvBuf) :=
    (if Z.ltb 1 sendbytes then Data_Coding_Spm SendBuf sendbytes (zeros 520)
     else ret (0, zeros 520)) in
  let! buf := rdb Spm.Buff in
  let b0 := nth 0 buf 0 in
  let! cnt := rd Spm.tt_cnt in
  (if Z.eqb sendbytes 1 then
     let result := nth 0 RecvBuf 0 in
     let! (sendbytes, RecvBuf) :=
       (if is_reinsert result then
          let! (n, b) := lift (TT_Result_Pack None RecvBuf 1 TAG_RESULT_CMDTT b0) in
          let! si := rdtail Spm.sIMSI in
          Set_SimCards_Status si ;;
          wr Spm.Result 3 ;;
          ret (n, b)
        else if is_busy result then lift (TT_Result_Pack None RecvBuf 2 TAG_RESULT_CMDTT b0)
        else ret (sendbytes, RecvBuf)) in
     answer_fd1 RecvBuf sendbytes ;;
     TT_Log_Pack_Data cnt RecvBuf (- result)
   else if Z.ltb 1 sendbytes then
     let! got := lift (mread RecvBuf 0 (Z.to_nat sendbytes)) in
     let! tmp_buff := lift (mwrite (zeros 128) 0 got) in
     let! (n, SendBuf) := lift (TT_Info_Process RecvBuf (zeros 256) sendbytes) in
     let! (n, RecvBuf) := lift (TT_Result_Pack (Some SendBuf) (zeros 520) n TAG_RESULT_CMDTT b0) in
     answer_fd1 RecvBuf n ;;
     TT_Log_Pack_Data cnt tmp_buff sendbytes
   else
     let! (n, RecvBuf) := lift (TT_Result_Pack None RecvBuf 1 TAG_RESULT_CMDTT b0) in
     answer_fd1 RecvBuf n ;;
     TT_Log_Pack_Data cnt RecvBuf 0) ;;
  ret 0.

Definition Coding_With_ACCESS_AUTH : H Z :=
  SIM_Allocate_Proc ;;
  let! (sendbytes, SendBuf) := AccessAuth_Result_Pack (zeros 1024) in
  let! fd := rd32 Spm.fd1 in
  (if negb (Z.eqb fd 0) then io_ (write_n fd SendBuf sendbytes) else ret tt) ;;
  wr Spm.type 1 ;;
  ret 0.

Definition Coding_With_SIMFILE_REQUEST : H Z :=
  let! (sock, SendBuf, sendbytes) := PickUp_Data_Spm (zeros 1024) in
  wr Spm.socket_spm sock ;;
  let! (sendbytes, RecvBuf) :=
    (if Z.ltb 1 sendbytes then Data_Coding_Spm SendBuf sendbytes (zeros 1024)
     else ret (0, zeros 1024)) in
  (if Z.leb sendbytes 5 then
     let! si := rdtail Spm.sIMSI in Set_SimCards_Status si
   else answer_fd1 RecvBuf sendbytes ;; ret 0) ;;
  ret 0.

(** ** Dispatch on the tag *)

Definition Coding_With_Date (CMD_TAG : Z) : H unit :=
  let run (m : H Z) : H unit := m ;; ret tt in
  if Z.eqb CMD_TAG TAG_ACCESS_AUTH then run Coding_With_ACCESS_AUTH
  else if Z.eqb CMD_TAG TAG_SIMFILE_REQUEST then run Coding_With_SIMFILE_REQUEST
  else if Z.eqb CMD_TAG TAG_IP then run Send_Change_IP
  else if Z.eqb CMD_TAG TAG_CMDTT then run Coding_With_CMDTT
  else if Z.eqb CMD_TAG TAG_HB then run Coding_With_HB
  else if Z.eqb CMD_TAG TAG_HB_NEW then run Coding_With_NewHB
  else if Z.eqb CMD_TAG TAG_CFMD then run Coding_With_CFMD
  else if Z.eqb CMD_TAG TAG_LOCAL_STA then run Coding_With_Local
  else if Z.eqb CMD_TAG TAG_LOGOUT then run Coding_With_LogOut
  else if Z.eqb CMD_TAG TAG_LOW_VSIM then run Coding_With_Low_Vsim
  else if Z.eqb CMD_TAG TAG_DEAL then run Coding_With_Deal
  else if Z.eqb CMD_TAG TAG_VPN_PROFILE_RQST then run Coding_With_VPN_RQST
  else if Z.eqb CMD_TAG TAG_VPN_RELEASE_CMD then run Coding_With_VPN_CMD
  else ret tt.
End Handlers.
