(* ===== verification/Dispatch.v ===== *)
(** * From the socket to the handlers (src/src/TDM.c)

    A readable socket: the bytes are read into buf[512] and copied to the
    caller's TempBuf[256]; text with "sn" is a remote command of the web
    server, anything else a frame of a terminal, checked by its tag and
    unpacked into the per-connection record tmd_pthread. The web commands and
    the frame handlers look the terminal up in the table of [Device]. *)

From stdpp Require Import prelude gmap strings.
From S2P Require Import Prelude CLib Layout Sock HexText JsonText ListHead NodeState Deal Device Handlers.
Import Sock Deal Device Handlers.
Open Scope Z_scope.

Module Dispatch.

(** tmd_pthread: SN[16] with the four bytes of padding that follow it; node
    is a pointer into the table. *)
Record tmd_pthread := mkT {
  num : Z;
  t_SN : bytes;
  t_node : option loc;
  t_IMSI : bytes;      (* 12 bytes *)
  t_pool : Z
}.

Record dst := mkD { thr : tmd_pthread; TempBuf : bytes; wd : world }.

Abbreviation D A := (M dst A).

Definition dw {A} (m : W A) : D A := fun s =>
  match m (wd s) with
  | Ok (a, w) => Ok (a, mkD (thr s) (TempBuf s) w)
  | Fault f => Fault f
  end.

Definition dio {A} (m : M io A) : D A := dw (wio m).

Definition set_num (n : Z) : D unit :=
  modify (fun s => let t := thr s in
    mkD (mkT n (t_SN t) (t_node t) (t_IMSI t) (t_pool t)) (TempBuf s) (wd s)).

Definition set_node (q : option loc) : D unit :=
  modify (fun s => let t := thr s in
    mkD (mkT (num t) (t_SN t) q (t_IMSI t) (t_pool t)) (TempBuf s) (wd s)).

(** memcpy or sprintf to para->SN, para->IMSI and TempBuf *)
Definition put_SN (b : bytes) : D unit := fun s =>
  let t := thr s in
  match mwrite (t_SN t) 0 b with
  | Ok b' => Ok (tt, mkD (mkT (num t) b' (t_node t) (t_IMSI t) (t_pool t)) (TempBuf s) (wd s))
  | Fault f => Fault f
  end.

Definition put_IMSI (b : bytes) : D unit := fun s =>
  let t := thr s in
  match mwrite (t_IMSI t) 0 b with
  | Ok b' => Ok (tt, mkD (mkT (num t) (t_SN t) (t_node t) b' (t_pool t)) (TempBuf s) (wd s))
  | Fault f => Fault f
  end.

Definition put_Temp (b : bytes) : D unit := fun s =>
  match mwrite (TempBuf s) 0 b with
  | Ok b' => Ok (tt, mkD (thr s) b' (wd s))
  | Fault f => Fault f
  end.

Definition valid_SN : D bool := let! t := gets thr in lift (Is_Valid_SN (Some (t_SN t))).

(** [p_Recv] is buf[512] seen as a frame: tag, size, data. *)
Definition Cmd_TAG_of (buf : bytes) : Z := nth 0 buf 0.
Definition FrameSize_of (buf : bytes) : Z := nth 1 buf 0.
Definition frame_data (buf : bytes) (off n : Z) : res bytes :=
  if Z.ltb (2 + off) 0 then Fault Overread else mread buf (Z.to_nat (2 + off)) (Z.to_nat n).

(** ** Frames that are answered at once *)

Definition Coding_With_HB_Socket (buf : bytes) (fd : Z) : D Z :=
  dio (write_n fd [TAG_HB_RET; 0; 0; 0] 4) ;;
  let! b := lift (frame_data buf 0 (FrameSize_of buf)) in
  put_Temp b ;;
  let! sn := lift (frame_data buf (f_off Beat.SN) 15) in
  put_SN sn ;;
  let! ok := valid_SN in
  ret (if ok : bool then TAG_HB else -1).

Definition Coding_With_NewHB_Socket (buf : bytes) (fd : Z) : D Z :=
  dio (write_n fd [TAG_HB_NEW_RET; 0; 0; 0] 4) ;;
  set_num (FrameSize_of buf) ;;
  let! b := lift (frame_data buf 0 (FrameSize_of buf)) in
  put_Temp b ;;
  ret 0.

Definition Coding_With_VPN_CMD_Socket (fd : Z) : D Z :=
  dio (write_n fd [TAG_VPN_RELEASE_CMD; 0; 0; 1] 4) ;; ret 0.

Definition Coding_With_LogOut_Socket (fd : Z) : D Z :=
  dio (write_n fd [TAG_LOGOUT; 0; 0; 0] 4) ;; ret 0.

(** para->node, looked up when it is NULL *)
Definition fetch_node : D (option loc) :=
  let! t := gets thr in
  match t_node t with
  | Some p => ret (Some p)
  | None =>
      let! q := dw (Get_Node_By_SN (t_SN t)) in
      set_node q ;; ret q
  end.

(** The number in the report is an int; the tag becomes 10. *)
Definition Coding_With_Local_Socket (buf : bytes) (fd : Z) : D Z :=
  let! b := lift (frame_data buf 0 9) in
  put_IMSI b ;;
  let! b := lift (frame_data buf 0 (FrameSize_of buf)) in
  put_Temp b ;;
  set_num (FrameSize_of buf) ;;
  let! tb := gets TempBuf in
  let cnt := s32 (fget (member Vsim_UpLoad_Flow "Upload_Flow_Id") tb) in
  let Battery := fget (member Vsim_UpLoad_Flow "Battery") tb in
  dio (write_n fd [TAG_LOCAL_STA_RET; 0; 0; u8 (wrap_result cnt)] 4) ;;
  (if Z.ltb Battery 3 && negb (Z.eqb Battery 0)
   then dio (Coding_With_TT_Reinsert fd TAG_SHUTDOWN_CMD) else ret 0) ;;
  let! q := fetch_node in
  let! t := gets thr in
  match q with
  | None => ret tt
  | Some p => dw (on_node p (
      wr Spm.pool (t_pool t) ;;
      wr Spm.len (num t) ;;
      wr Spm.fd1 fd ;;
      let! im := rdb Spm.IMSI in
      (if negb (Z.eqb (nth 0 im 0) 128) then cpy Spm.IMSI (take 9 (t_IMSI t)) else ret tt) ;;
      cpy Spm.Buff tb ;;
      Coding_With_Local ;; ret tt))
  end ;;
  ret 10.

Definition Coding_With_Out_Sql (CMD_TAG fd : Z) : D Z :=
  let! q := fetch_node in
  match q with
  | None => ret 0
  | Some p => dw (on_node p
      (if Z.eqb CMD_TAG TAG_AUTONET then Coding_with_Selnet fd
       else if Z.eqb CMD_TAG TAG_GET_APN_INFO then Coding_With_APN fd
       else if Z.eqb CMD_TAG TAG_ADN then Coding_With_ADN fd
       else ret 0))
  end ;;
  ret 10.

Definition Coding_With_Frame_Data (buf : bytes) : D unit :=
  let! b := lift (frame_data buf 0 (FrameSize_of buf)) in
  put_Temp b ;;
  set_num (FrameSize_of buf) ;;
  if Z.eqb (Cmd_TAG_of buf) TAG_ACCESS_AUTH then
    let! sn := lift (frame_data buf (f_off (member AccessAuth_Def "DeviceSN")) 16) in
    put_SN sn
  else ret tt.

(** The web command number that is sent as a tag. *)
Definition Web_SWAP_VUSIM : Z := 9.

(** The serial number built from the number a SIM frame carries. *)
Definition tt_SN (n : Z) : bytes :=
  (if Z.ltb n 210000000 then str "860172" else str "172150") ++ fmt_0d 9 (s32 n).

Definition is_virtual (imsi : bytes) : bool :=
  Z.eqb (nth 0 imsi 0) 128 && (Z.ltb 144 (nth 1 imsi 0) && Z.leb (nth 1 imsi 0) 153).

Definition Coding_With_TT_Data (buf : bytes) (socket_fd : Z) : D unit :=
  let! b := lift (frame_data buf 0 9) in
  put_IMSI b ;;
  let! t := gets thr in
  let! b := lift (frame_data buf 9 (num t)) in
  put_Temp b ;;
  let! sn := lift (cstring (t_SN t)) in
  let! tb := gets TempBuf in
  (if Nat.ltb (length sn) 10 && is_virtual (t_IMSI t) && negb (Z.eqb (nth 5 tb 0) (num t - 6)) then
     let! data := lift (frame_data buf (FrameSize_of buf - sizeof Data_IP) (sizeof Data_IP)) in
     put_SN (tt_SN (fget Dip.SN data) ++ [0])
   else ret tt) ;;
  let! ok := valid_SN in
  if ok : bool then ret tt else dio (Coding_With_TT_Reinsert socket_fd Web_SWAP_VUSIM) ;; ret tt.

Definition Coding_With_CMD_Data_Pack (buf : bytes) (fd CMD_TAG : Z) : D Z :=
  let! b := lift (frame_data buf 0 (FrameSize_of buf)) in
  put_Temp b ;;
  set_num (FrameSize_of buf) ;;
  let! sn15 := lift (frame_data buf 0 15) in
  (if Z.eqb CMD_TAG TAG_VPN_PROFILE_RQST then put_SN sn15
   else if Z.eqb CMD_TAG TAG_VPN_RELEASE_CMD then
     put_SN sn15 ;; Coding_With_VPN_CMD_Socket fd ;; ret tt
   else if Z.eqb CMD_TAG TAG_DEAL then
     let! b8 := lift (frame_data buf 0 8) in put_SN (fmt_u (le_dec b8) ++ [0])
   else if Z.eqb CMD_TAG TAG_LOW_VSIM then put_SN sn15
   else if Z.eqb CMD_TAG TAG_LOGOUT then
     put_SN sn15 ;; Coding_With_LogOut_Socket fd ;; ret tt
   else if Z.eqb CMD_TAG TAG_CFMD then put_SN sn15
   else ret tt) ;;
  let! ok := valid_SN in
  ret (if ok : bool then CMD_TAG else -1).

(** ** Remote commands of the web server *)

Record Web_Data := mkWeb { w_type : Z; w_num : Z }.

(** Find_Str_By_Key into Dst[56]: its array if there is a value. *)
Definition find_str (src : bytes) (name : string) : res (option bytes) :=
  let? (r, Dst) := Json.Find_Str_By_Key (Some src) (str name) (zeros 56) 56 in
  if Z.eqb r 0 then Ok (Some Dst) else Ok None.

Definition is_text_type (t : Z) : bool := Z.eqb t 8 || Z.eqb t 10 || Z.eqb t 11 || Z.eqb t 15.

(** The record, the serial number sn[16] and the text dst[256]. *)
Definition getValue (src : bytes) : res (Web_Data * bytes * bytes) :=
  let? k := find_str src "sn" in
  let? sn := match k with Some D => mwrite (zeros 16) 0 (take 15 D) | None => Ok (zeros 16) end in
  let? k := find_str src "type" in
  let? ty := match k with Some D => let? t := cstring D in Ok (u8 (atoi t)) | None => Ok 0 end in
  let? k := find_str src "num" in
  match k with
  | None => Ok (mkWeb ty 0, sn, zeros 256)
  | Some D =>
      let? t := cstring D in
      if is_text_type ty
      then let? d := mwrite (zeros 256) 0 t in Ok (mkWeb ty 0, sn, d)
      else Ok (mkWeb ty (u8 (atoi t)), sn, zeros 256)
  end.

(** What a command sends: its tag and data ([None]: nothing). *)
Inductive web_payload := Numbers | Text | Nothing.

Definition in_range (a b x : Z) : bool := Z.leb a x && Z.leb x b.

Definition web_command (ty : Z) : option (Z * web_payload) :=
  if in_range 1 2 ty then Some (TAG_WEB_RET, Numbers)
  else if in_range 3 7 ty || Z.eqb ty 17 || Z.eqb ty 18 || in_range 110 123 ty || in_range 218 223 ty
  then Some (TAG_UPDATE_ROAM, Numbers)
  else if Z.eqb ty 8 then Some (TAG_MSG, Text)
  else if Z.eqb ty 9 then Some (TAG_SWAP_VUSIM, Nothing)
  else if Z.eqb ty 10 then Some (TAG_LIMIT_SPEED_CMD, Text)
  else if Z.eqb ty 11 then Some (TAG_APN, Text)
  else if Z.eqb ty 15 then Some (TAG_VPN_CMD, Text)
  else if Z.eqb ty 12 then Some (TAG_AUTONET, Text)
  else if Z.eqb ty 13 then Some (TAG_REINSERT_VSIM_CMD, Nothing)
  else if Z.eqb ty 14 then Some (TAG_SHUTDOWN_CMD, Nothing)
  else if Z.eqb ty 16 then Some (TAG_REMOTE_RESET_PWD_CMD, Nothing)
  else None.

Definition Client_Web_Manage (RecvBuf : bytes) (iclient_sock : Z) : W Z :=
  let! (para1, sn, dst) := lift (getValue RecvBuf) in
  let! q := get_data_list_by_SN sn in
  let! fd := match q with
             | Some p => on_node p (rd32 Spm.fd1)
             | None => ret 0
             end in
  if Z.ltb 0 fd then
    wio (write_n iclient_sock (str "ok" ++ [10]) 3) ;;
    match web_command (w_type para1) with
    | None => ret 0
    | Some (tag, Numbers) => wio (PickUp_Web_Data (frame0 tag) 2 [w_type para1; w_num para1] fd)
    | Some (tag, Text) =>
        let! t := lift (cstring dst) in
        wio (PickUp_Web_Data (frame0 tag) (Z.of_nat (length t)) dst fd)
    | Some (tag, Nothing) => wio (PickUp_Web_Data (frame0 tag) 0 [] fd)
    end ;;
    ret 0
  else
    wio (write_n iclient_sock (str "faild" ++ [10]) 6) ;;
    ret (-2).

(** ** Reading a socket *)

Definition known_tags : list Z :=
  [TAG_ACCESS_AUTH; TAG_SIMFILE_REQUEST; TAG_CMDTT; TAG_HB_NEW; TAG_VPN_PROFILE_RQST;
   TAG_VPN_RELEASE_CMD; TAG_DEAL; TAG_LOW_VSIM; TAG_LOGOUT; TAG_CFMD; TAG_LOCAL_STA;
   TAG_HB; TAG_AUTONET; TAG_GET_APN_INFO; TAG_ADN; TAG_IP].

Definition Cmd_Test (CMD_TAG : Z) : Z :=
  if Z.leb CMD_TAG 0 then -1
  else if existsb (Z.eqb CMD_TAG) known_tags then CMD_TAG else -1.

(** The switch over the tag of a known frame. *)
Definition unpack_frame (buf : bytes) (fd CMD_TAG : Z) : D Z :=
  if Z.eqb CMD_TAG TAG_ACCESS_AUTH || Z.eqb CMD_TAG TAG_SIMFILE_REQUEST
  then Coding_With_Frame_Data buf ;; ret CMD_TAG
  else if Z.eqb CMD_TAG TAG_CMDTT then Coding_With_TT_Data buf fd ;; ret CMD_TAG
  else if Z.eqb CMD_TAG TAG_HB_NEW then Coding_With_NewHB_Socket buf fd ;; ret CMD_TAG
  else if existsb (Z.eqb CMD_TAG)
      [TAG_VPN_PROFILE_RQST; TAG_VPN_RELEASE_CMD; TAG_DEAL; TAG_LOW_VSIM; TAG_LOGOUT; TAG_CFMD]
  then Coding_With_CMD_Data_Pack buf fd CMD_TAG
  else if Z.eqb CMD_TAG TAG_LOCAL_STA then Coding_With_Local_Socket buf fd
  else if Z.eqb CMD_TAG TAG_HB then Coding_With_HB_Socket buf fd
  else if existsb (Z.eqb CMD_TAG) [TAG_AUTONET; TAG_GET_APN_INFO; TAG_ADN]
  then Coding_With_Out_Sql CMD_TAG fd
  else ret CMD_TAG.

Definition Coding_With_Recv_Data (fd : Z) : D Z :=
  let! (len, got) := dio (sys_recv fd 512) in
  if Z.leb len 0 then ret (-1) else
  let! buf := lift (mwrite (zeros 512) 0 got) in
  put_Temp got ;;
  let! text := lift (cstring buf) in
  match strstr text (str "sn") with
  | Some _ => dw (Client_Web_Manage buf fd) ;; ret (-1)
  | None =>
      let CMD_TAG := Cmd_Test (Cmd_TAG_of buf) in
      if Z.eqb CMD_TAG (-1) then ret (-1) else
      let n := if Z.eqb (FrameSize_of buf) 0 then 0 else FrameSize_of buf - 9 in
      set_num (if Z.ltb n 0 then 0 else n) ;;
      unpack_frame buf fd CMD_TAG
  end.

(** ** The job of a terminal frame *)

(** arg is a Node_Data. *)
Definition Coding_With_CMD_Data_Pool (para : option bytes) : W unit :=
  match para with
  | None => ret tt
  | Some j =>
      let! q := Get_Node_By_SN (fbytes Job.SN j) in
      match q with
      | None => ret tt
      | Some p => on_node p (
          wr Spm.CMD_TAG (fget Job.CMD_TAG j) ;;
          wr Spm.fd1 (fget Job.fd j) ;;
          wr Spm.len (fget Job.len j) ;;
          cpy Spm.Buff (fbytes Job.Buff j) ;;
          let! im := rdb Spm.IMSI in
          (if negb (Z.eqb (nth 0 im 0) 128) then cpy Spm.IMSI (take 9 (fbytes Job.IMSI j)) else ret tt) ;;
          Coding_With_Date (s32 (fget Job.CMD_TAG j)))
      end
  end.

(** The node forgets its sockets; the connection is closed. *)
Definition Destory_Node (para : tmd_pthread) (socket_fd : Z) : W unit :=
  match t_node para with
  | None => ret tt
  | Some p => on_node p (
      wr Spm.fd1 0 ;;
      let! s := rd32 Spm.socket_spm in
      if Z.ltb 0 s then io_ (sys_close s) ;; wr Spm.socket_spm 0 else ret tt)
  end ;;
  wio (sys_close socket_fd).
End Dispatch.
