(* ===== verification/Login.v ===== *)
(** * The login of a terminal (src/src/common.c, src/src/TDM.c)

    Properties of SIM_Allocate_Proc and of the reply frame
    AccessAuth_Result_Pack: the redirection of home networks, a deal granted
    by the back end, and what happens when the back end cannot be reached. *)

From stdpp Require Import prelude gmap strings.
From S2P Require Import Prelude CLib Layout Sock HexText JsonText NodeState Deal Handlers.
Import Sock Deal Handlers.
Open Scope Z_scope.

Module Login.

(** ** Home networks *)

(** The network the terminal reports, with the default 460. *)
Definition login_mcc (d : bytes) : Z :=
  let m := s32 (fget AA.MCC d) in if Z.eqb m 0 then 460 else m.

(** SIM_Allocate_Proc after its first three assignments. *)
Definition login_node (d : bytes) : bytes :=
  fset Spm.versionAPK (le_dec (take 4 (fbytes AA.LastIMSI d)))
    (fset Spm.take_time (le_dec (take 2 (drop 19 (fbytes AA.DeviceSN d)))) d).

Definition login_size (d : bytes) : Z := le_dec (take 2 (drop 16 (fbytes AA.DeviceSN d))).

Lemma SIM_Allocate_Proc_run d l w :
  node_ok d ->
  SIM_Allocate_Proc (mkH d l w) = Get_Deal_From_Remote (login_size d) (mkH (login_node d) l w).
Proof.
  intros Hd. unfold SIM_Allocate_Proc. run. unfold login_node.
  rewrite (nbytes_other AA.LastIMSI) by node_side. done.
Qed.

Lemma login_node_ok d : node_ok d -> node_ok (login_node d).
Proof. intros. unfold login_node. eauto with node. Qed.
#[local] Hint Resolve login_node_ok : node.

(** Close_Socket_Fd on socket_spm: the node and the calls. *)
Definition closed_spm (d : bytes) : bytes :=
  if Z.ltb 0 (s32 (fget Spm.socket_spm d)) then fset Spm.socket_spm 0 d else d.

Definition close_calls (d : bytes) : list event :=
  let s := s32 (fget Spm.socket_spm d) in if Z.ltb 0 s then [EClose s] else [].

Lemma closed_spm_ok d : node_ok d -> node_ok (closed_spm d).
Proof. intros. unfold closed_spm. case_match; eauto with node. Qed.
#[local] Hint Resolve closed_spm_ok : node.

Lemma closed_spm_get F d :
  node_ok d -> declared F = true -> apart F Spm.socket_spm = true ->
  fget F (closed_spm d) = fget F d.
Proof. intros. unfold closed_spm. case_match; [by apply nget_other|done]. Qed.

Lemma close_run {B} (k : unit -> H B) d l o i :
  bind (Close_Socket_Fd Spm.socket_spm) k (mkH d l (mkIo o i)) =
  k tt (mkH (closed_spm d) l (mkIo (o ++ close_calls d) i)).
Proof.
  unfold Close_Socket_Fd, closed_spm, close_calls. run.
  destruct (Z.ltb 0 (s32 (fget Spm.socket_spm d))); run; [done|]. by rewrite app_nil_r.
Qed.

(** The node once its MCC is known. *)
Definition mcc_node (d : bytes) : bytes :=
  let d1 := closed_spm (login_node d) in
  let d2 := if Z.eqb (s32 (fget AA.MCC d)) 0 then fset AA.MCC 460 d1 else d1 in
  if Z.eqb (login_mcc d) (fget Spm.MCC d) then d2 else fset Spm.MCC (login_mcc d) d2.

Lemma mcc_node_ok d : node_ok d -> node_ok (mcc_node d).
Proof. intros. unfold mcc_node. repeat case_match; eauto with node. Qed.
#[local] Hint Resolve mcc_node_ok : node.

Lemma mcc_node_bytes F d :
  node_ok d -> declared F = true ->
  forallb (apart F) [Spm.socket_spm; AA.MCC; Spm.MCC; Spm.versionAPK; Spm.take_time] = true ->
  fbytes F (mcc_node d) = fbytes F d.
Proof.
  intros Hd HF Ha. cbn [forallb] in Ha. rewrite !andb_true_iff in Ha. destruct Ha as (A1&A2&A3&A4&A5&_).
  unfold mcc_node, closed_spm. repeat case_match; repeat (rewrite nbytes_other by eauto 10 with node);
  unfold login_node; by repeat (rewrite nbytes_other by eauto 10 with node).
Qed.

Lemma mcc_node_MCC d : node_ok d -> 0 <= login_mcc d < 65536 -> fget Spm.MCC (mcc_node d) = login_mcc d.
Proof.
  intros Hd Hm. unfold mcc_node. destruct (Z.eqb_spec (login_mcc d) (fget Spm.MCC d)) as [E|E].
  - rewrite E. case_match; [rewrite nget_other by node_side|];
    rewrite closed_spm_get by node_side; unfold login_node; by member_simp.
  - rewrite nget_same by (reflexivity || (case_match; eauto with node)).
    change (256 ^ f_size Spm.MCC) with 65536. by apply Z.mod_small.
Qed.

(** What follows once the MCC is known. *)
Definition ask_back_end (Data : Z) : H Z :=
  cpy Spm.ServerInfo Master_IP ;;
  let! buff := Login_Log_Pack_Data Data in
  let! (cnt, Dst) := Get_Deal_From_SimPool buff (zeros 1024) in
  if Z.eqb cnt 0 then
    let! f := Get_Data_From_Deal Dst in
    if negb (Z.eqb f 0) then SIM_Allocate_Err IpChange else ret cnt
  else ret cnt.

Lemma login_run d l o i :
  node_ok d -> 0 <= login_mcc d < 65536 ->
  SIM_Allocate_Proc (mkH d l (mkIo o i)) =
  (if is_home (login_mcc d) then
     wr Spm.factoryFlag 1 ;; cpy Spm.ServerInfo Test_IP ;; SIM_Allocate_Err IpChange
   else ask_back_end (login_size d)) (mkH (mcc_node d) l (mkIo (o ++ close_calls d) i)).
Proof.
  intros Hd Hm. rewrite SIM_Allocate_Proc_run by done.
  unfold Get_Deal_From_Remote. rewrite close_run. run.
  set (d1 := closed_spm (login_node d)).
  assert (Hd1 : node_ok d1) by (subst d1; eauto with node).
  assert (Em : fget AA.MCC d1 = fget AA.MCC d).
  { subst d1. rewrite closed_spm_get by node_side. unfold login_node. by member_simp. }
  assert (Es : fget Spm.MCC d1 = fget Spm.MCC d).
  { subst d1. rewrite closed_spm_get by node_side. unfold login_node. by member_simp. }
  assert (Ec : close_calls (login_node d) = close_calls d).
  { unfold close_calls, login_node. by member_simp. }
  rewrite Ec, Em.
  set (d2 := if Z.eqb (s32 (fget AA.MCC d)) 0 then fset AA.MCC 460 d1 else d1).
  assert (Hd2 : node_ok d2) by (subst d2; case_match; eauto with node).
  assert (Em2 : s32 (fget AA.MCC d2) = login_mcc d).
  { subst d2. unfold login_mcc. destruct (Z.eqb (s32 (fget AA.MCC d)) 0); [by rewrite nget_same|by rewrite Em]. }
  assert (Es2 : fget Spm.MCC d2 = fget Spm.MCC d).
  { subst d2. case_match; [by rewrite nget_other|done]. }
  transitivity ((let! m := rd32 AA.MCC in
    let! mcc := rd Spm.MCC in
    (if negb (Z.eqb m mcc) then wr Spm.MCC m else ret tt) ;;
    let! mcc := rd Spm.MCC in
    if is_home mcc then
      wr Spm.factoryFlag 1 ;; cpy Spm.ServerInfo Test_IP ;; SIM_Allocate_Err IpChange
    else ask_back_end (login_size d)) (mkH d2 l (mkIo (o ++ close_calls d) i))).
  { subst d2. by destruct (Z.eqb (s32 (fget AA.MCC d)) 0). }
  run. rewrite Em2, Es2. pose proof (mcc_node_MCC d Hd Hm) as Hmcc.
  unfold mcc_node in *. fold d1 d2 in Hmcc |- *.
  destruct (Z.eqb (login_mcc d) (fget Spm.MCC d)); cbn [negb]; run; by rewrite Hmcc.
Qed.

Lemma write_n_run {B} fd buf n b (k : unit -> H B) d l o a i :
  0 <= n -> mread buf 0 (Z.to_nat n) = Ok b -> n <= a_ret a ->
  bind (io_ (write_n fd buf n)) k (mkH d l (mkIo o (a :: i))) =
  k tt (mkH d l (mkIo (o ++ [ESend fd b]) i)).
Proof.
  intros Hn Hb Ha. pose proof (mread_length _ _ _ _ Hb) as Hl.
  unfold bind, io_. cbn [w_io]. unfold write_n, size_of, sys_send, answered, bind, lift, emit, modify, ret.
  destruct (Z.ltb_spec n 0); [lia|]. rewrite Hb. cbn [inp out].
  destruct (Z.ltb_spec (a_ret a) 0); [lia|]. cbn [inp out]. rewrite take_ge by lia. done.
Qed.

Lemma home_range m : is_home m = true -> m = 454 \/ m = 455 \/ m = 460.
Proof. unfold is_home. rewrite !orb_true_iff, !Z.eqb_eq. lia. Qed.

Lemma Test_IP_length : length Test_IP = 86%nat.
Proof. done. Qed.

Lemma Test_IP_nonul : nonul Test_IP.
Proof. unfold nonul. vm_compute. repeat constructor; discriminate. Qed.

(** The node of a terminal that is redirected. *)
Definition home_node (d : bytes) : bytes :=
  fset Spm.Result IpChange
    (patch (fset Spm.factoryFlag 1 (mcc_node d)) (Z.to_nat (f_off Spm.ServerInfo)) Test_IP).

Lemma home_allocate d l o i :
  node_ok d -> is_home (login_mcc d) = true ->
  SIM_Allocate_Proc (mkH d l (mkIo o i)) =
    Ok (IpChange, mkH (home_node d) l (mkIo (o ++ close_calls d) i)) /\
  node_ok (home_node d) /\ fget Spm.Result (home_node d) = IpChange /\
  fget Spm.factoryFlag (home_node d) = 1 /\ fget Spm.MCC (home_node d) = login_mcc d /\
  fbytes Spm.ServerInfo (home_node d) = Test_IP ++ drop 86 (fbytes Spm.ServerInfo d).
Proof.
  intros Hd Hh. pose proof (home_range _ Hh) as Hm.
  rewrite login_run by (done || lia). rewrite Hh. run.
  assert (N1 : node_ok (fset Spm.factoryFlag 1 (mcc_node d))) by eauto with node.
  rewrite cpy_run by (done || rewrite ?Test_IP_length; done).
  set (d2 := patch _ _ _).
  assert (N2 : node_ok d2) by (apply node_patch; [done|done|rewrite Test_IP_length; done]).
  unfold SIM_Allocate_Err. change (Z.eqb IpChange SockErr) with false. run.
  change (Z.leb UnrecognizedDevSN IpChange && Z.leb IpChange LowPower) with true. run.
  assert (R : fget Spm.Result (fset Spm.Result IpChange d2) = IpChange) by (by rewrite nget_same).
  split_and!.
  - unfold rd8, gets. cbn [nd]. rewrite R. done.
  - unfold home_node. eauto with node.
  - done.
  - unfold home_node. rewrite nget_other by done. rewrite nget_patch; [|done|done|done|rewrite Test_IP_length; done|left; done].
    by rewrite nget_same by eauto with node.
  - unfold home_node. rewrite nget_other by done. rewrite nget_patch; [|done|done|done|rewrite Test_IP_length; done|left; done].
    rewrite nget_other by eauto with node. apply mcc_node_MCC; [done|lia].
  - unfold home_node. rewrite nbytes_other by done. fold d2.
    rewrite <-(mcc_node_bytes Spm.ServerInfo d) by done.
    rewrite <-(nbytes_other Spm.ServerInfo Spm.factoryFlag 1 (mcc_node d)) by eauto with node.
    subst d2. set (e := fset Spm.factoryFlag 1 (mcc_node d)) in *. unfold fbytes, patch, node_ok in *.
    rewrite drop_app_ge by (rewrite length_take; lia).
    replace (Z.to_nat (f_off Spm.ServerInfo) - length (take (Z.to_nat (f_off Spm.ServerInfo)) e))%nat with 0%nat
      by (rewrite length_take, N1; done).
    rewrite drop_0, take_app_ge by (rewrite Test_IP_length; unfold Spm.ServerInfo; cbn [f_size]; lia).
    f_equal. rewrite Test_IP_length, <-drop_drop.
    change (Z.to_nat (f_size Spm.ServerInfo)) with (86 + 42)%nat. by rewrite <-take_drop_commute.
Qed.

(** ** The reply frame *)

Lemma set_byte_ok (off : nat) v buf :
  (off < length buf)%nat -> set_byte off v buf = Ok (<[off := u8 v]> buf).
Proof. apply mwrite_1. Qed.

(** The frame of a refused login: tag, size 1, result, code, server list. *)
Definition refusal (code : Z) (info : bytes) : bytes :=
  [TAG_RESULT_ACCESS_AUTH; 1; 0; AA_RESULT_STATE_FAIL; u8 code] ++ info.

Lemma take_mwrite_zeros (hd : bytes) n (b : bytes) rest :
  rest = zeros n -> (length b <= n)%nat ->
  mwrite (hd ++ rest) (length hd) b = Ok (hd ++ b ++ zeros (n - length b)).
Proof.
  intros -> Hb. rewrite mwrite_ok by (rewrite length_app, length_zeros; lia).
  f_equal. unfold patch. rewrite take_app_length.
  rewrite drop_app_add. unfold zeros. by rewrite drop_replicate.
Qed.

Lemma refuse_run {B} (k : Z * bytes -> H B) d l w code info r :
  s8 (fget Spm.Result d) = code -> 0 < code -> code <> SockErr -> fget Spm.factoryFlag d = 1 ->
  fits Spm.ServerInfo d -> fbytes Spm.ServerInfo d = info ++ 0 :: r -> nonul info -> (length info <= 127)%nat ->
  exists frame, bind (AccessAuth_Result_Pack (zeros 1024)) k (mkH d l w) =
    k (5 + Z.of_nat (length info), frame) (mkH d l w) /\
    frame = refusal code info ++ zeros (1019 - length info).
Proof.
  intros Hr Hc Hs Hf Hfit Hb Hn Hl. eexists. split; [|reflexivity].
  unfold AccessAuth_Result_Pack. run.
  rewrite (lift_run _ (TAG_RESULT_ACCESS_AUTH :: zeros 1023)) by reflexivity. run. rewrite Hr.
  destruct (Z.ltb_spec 0 code); [|lia]. destruct (Z.eqb_spec code SockErr); [done|]. run.
  rewrite (lift_run _ (TAG_RESULT_ACCESS_AUTH :: zeros 1023)) by reflexivity. run.
  rewrite (lift_run _ (TAG_RESULT_ACCESS_AUTH :: 1 :: zeros 1022)) by reflexivity. run.
  rewrite (lift_run _ (TAG_RESULT_ACCESS_AUTH :: 1 :: 0 :: AA_RESULT_STATE_FAIL :: zeros 1020)) by reflexivity. run.
  rewrite (lift_run _ (refusal code [] ++ zeros 1019)) by reflexivity. run.
  rewrite Hf. change (Z.eqb 1 1) with true. run.
  rewrite (bind_ok (rdstr Spm.ServerInfo) _ _ info (mkH d l w)).
  2: { unfold rdstr. cbn [nd]. by rewrite (fstr_fbytes _ _ info r). }
  run. rewrite (lift_run _ (refusal code [] ++ info ++ zeros (1019 - length info))).
  2: { change 5%nat with (length (refusal code [])). apply take_mwrite_zeros; [done|lia]. }
  run. by rewrite app_assoc.
Qed.

(** C10: a terminal that logs in from a home network (MCC 454, 455, 460, or
    none) is refused with code IpChange and sent the server list, without a
    request to the back end: beside closing an old socket the only call is
    the write of the frame. *)
Theorem login_home_redirected d l o a i r :
  node_ok d -> is_home (login_mcc d) = true -> s32 (fget Spm.fd1 d) <> 0 ->
  drop 86 (fbytes Spm.ServerInfo d) = 0 :: r -> 91 <= a_ret a ->
  exists d', Coding_With_ACCESS_AUTH (mkH d l (mkIo o (a :: i))) =
      Ok (0, mkH d' l (mkIo (o ++ close_calls d ++
        [ESend (s32 (fget Spm.fd1 d)) (refusal IpChange Test_IP)]) i)) /\
    node_ok d' /\ fget Spm.Result d' = IpChange /\ fget Spm.factoryFlag d' = 1 /\
    fget Spm.MCC d' = login_mcc d.
Proof.
  intros Hd Hh Hfd Hs Ha. destruct (home_allocate d l o (a :: i) Hd Hh) as (E & N & R & F & Mc & SI).
  unfold Coding_With_ACCESS_AUTH. rewrite (bind_ok _ _ _ _ _ E).
  assert (Efd : fget Spm.fd1 (home_node d) = fget Spm.fd1 d).
  { unfold home_node, fget. rewrite nbytes_other; [|done..|].
    2: { apply node_patch; [eauto with node|done|rewrite Test_IP_length; done]. }
    rewrite fbytes_patch_other; [|apply declared_fits; eauto with node| |left; done].
    2: { pose proof (node_fset Spm.factoryFlag 1 (mcc_node d) eq_refl (mcc_node_ok d Hd)) as Hn.
         unfold node_ok in Hn. rewrite Hn, Test_IP_length. unfold spm_size, Spm.ServerInfo. cbn [f_off]. lia. }
    rewrite nbytes_other by eauto with node. by rewrite mcc_node_bytes. }
  rewrite Hs in SI.
  destruct (refuse_run (fun '(sendbytes, SendBuf) => let! fd := rd32 Spm.fd1 in
      (if negb (Z.eqb fd 0) then io_ (write_n fd SendBuf sendbytes) else ret tt) ;;
      wr Spm.type 1 ;; ret 0)
      (home_node d) l (mkIo (o ++ close_calls d) (a :: i)) IpChange Test_IP r) as (frame & Ef & ->);
    [by rewrite R|done|done|done|by apply declared_fits|done|apply Test_IP_nonul|rewrite Test_IP_length; lia|].
  rewrite Ef. run. rewrite Efd. destruct (Z.eqb_spec (s32 (fget Spm.fd1 d)) 0); [done|]. cbn [negb].
  rewrite (write_n_run _ _ _ (refusal IpChange Test_IP)); [|done| |done].
  2: { reflexivity. }
  rewrite wr_run. eexists. split; [unfold ret; rewrite <-app_assoc; reflexivity|].
  split_and!; [eauto with node|..]; by rewrite nget_other.
Qed.

(** A terminal in network 460 on socket 9. *)
Definition home_terminal : bytes := fset AA.MCC 460 (fset Spm.fd1 9 node0).

Lemma login_home_redirected_witness :
  exists d', Coding_With_ACCESS_AUTH (mkH home_terminal [] (mkIo [] [a_num 91])) =
      Ok (0, mkH d' [] (mkIo ([] ++ close_calls home_terminal ++ [ESend (s32 (fget Spm.fd1 home_terminal)) (refusal IpChange Test_IP)]) [])) /\
    node_ok d' /\ fget Spm.Result d' = IpChange /\ fget Spm.factoryFlag d' = 1 /\
    fget Spm.MCC d' = login_mcc home_terminal.
Proof.
  apply (login_home_redirected _ _ _ _ _ (zeros 41)); [reflexivity|reflexivity|discriminate|reflexivity|discriminate].
Defined.

(** ** The back end cannot be reached *)

Lemma key_value_empty name : key_value (zeros 1024) name = Ok None.
Proof. reflexivity. Qed.

Lemma int_to_empty {B} F name (k : unit -> H B) d l w :
  bind (int_to F (zeros 1024) name) k (mkH d l w) = k tt (mkH (fset F 0 d) l w).
Proof. reflexivity. Qed.

Lemma str_empty {B} name F n (k : Z -> H B) d l w :
  bind (Get_Key_Value_Str (zeros 1024) name F n) k (mkH d l w) = k 0 (mkH d l w).
Proof. reflexivity. Qed.

(** The members an empty deal clears. *)
Definition no_deal (d : bytes) : bytes :=
  let d := fset Spm.minite_Remain 0 d in
  let d := fset Spm.lastStart 0 d in
  let d := fset Spm.ifTest 0 d in
  let d := fset Spm.orderType 0 d in
  let d := fset Node.ifRoam 0 d in
  let d := fset Node.speedType 0 d in
  let d := fset Node.NeedFile 0 d in
  let d := fset Node.IsApn 0 d in
  let d := fset Spm.vpn 0 d in
  let d := fset Spm.ifVPN 0 d in
  let d := fset Spm.factoryFlag 0 d in
  fset Spm.Result 0 d.

Lemma Get_Data_From_Deal_empty d l w :
  node_ok d -> Get_Data_From_Deal (zeros 1024) (mkH d l w) = Ok (0, mkH (no_deal d) l w).
Proof.
  intros Hd. unfold Get_Data_From_Deal. rewrite !int_to_empty, str_empty. run.
  unfold Get_Key_Value_VPN. rewrite bind_assoc, (lift_run _ 0) by reflexivity. run.
  rewrite nget_same by node_side. change (0 mod 256 ^ f_size Spm.vpn) with 0. run.
  unfold Get_Key_Value_Factory. rewrite bind_assoc, (lift_run _ 0) by reflexivity. run.
  rewrite nget_same by node_side.
  change (Z.eqb (0 mod 256 ^ f_size Spm.factoryFlag) 1) with false. run.
  unfold Get_Key_Value_IPAndPort, Get_Key_Value_Str_Type.
  rewrite bind_assoc, (lift_run _ None) by reflexivity. run.
  rewrite (lift_run _ None) by reflexivity. run. rewrite str_empty.
  unfold Get_Key_Value_Vusim_Active_Flag. rewrite bind_assoc, (lift_run _ None) by reflexivity. run.
  destruct (Z.eqb _ 1); run; rewrite ?(lift_run (key_value _ "Vusim_Active_Num") None) by reflexivity; run;
  unfold Get_Key_Value_IMEI, Get_Key_Value_IMSI;
  rewrite bind_assoc, (lift_run _ None) by reflexivity; run;
  rewrite (lift_run _ None) by reflexivity; run; rewrite str_empty;
  change (Z.eqb 0 0) with true; run;
  (rewrite nget_other by node_side);
  repeat (rewrite (nget_other Node.speedType) by node_side);
  (rewrite nget_same by node_side);
  change (Z.eqb (0 mod 256 ^ f_size Node.speedType) 1) with false; run;
  unfold rd, gets; cbn [nd];
  (rewrite nget_other by node_side);
  (rewrite nget_same by node_side); done.
Qed.

(** The request text of a login, for a terminal with serial number [sn]. *)
Definition asked_node (d : bytes) : bytes :=
  patch (mcc_node d) (Z.to_nat (f_off Spm.ServerInfo)) Master_IP.

Lemma Master_IP_length : length Master_IP = 86%nat.
Proof. done. Qed.

Lemma asked_node_ok d : node_ok d -> node_ok (asked_node d).
Proof. intros. apply node_patch; [eauto with node|done|rewrite Master_IP_length; done]. Qed.
#[local] Hint Resolve asked_node_ok : node.

Lemma asked_node_SN d : node_ok d -> fbytes Spm.SN (asked_node d) = fbytes Spm.SN d.
Proof.
  intros Hd. unfold asked_node. rewrite fbytes_patch_other.
  - by rewrite mcc_node_bytes.
  - apply declared_fits; [done|eauto with node].
  - pose proof (mcc_node_ok d Hd) as Hn. unfold node_ok in Hn. rewrite Hn, Master_IP_length.
    unfold spm_size, Spm.ServerInfo. cbn [f_off]. lia.
  - left. done.
Qed.

(** The login request is sent whole: it fits the 512 bytes of its buffer. *)
Lemma Login_Log_Pack_Data_run {B} Data sn r (k : bytes -> H B) d l o a i :
  node_ok d -> fbytes Spm.SN d = sn ++ 0 :: r -> nonul sn ->
  exists req, nonul req /\ (length req < 512)%nat /\
    bind (Login_Log_Pack_Data Data) k (mkH d l (mkIo o (a :: i))) = k req (mkH d l (mkIo o i)).
Proof.
  intros Hd Hsn Hn. unfold Login_Log_Pack_Data. run.
  assert (HL : (length sn <= 15)%nat).
  { assert (E : length (fbytes Spm.SN d) = 16%nat) by (rewrite length_fbytes; [done|by apply declared_fits]).
    rewrite Hsn, length_app in E. simpl in E. lia. }
  rewrite (bind_ok (rdstr Spm.SN) _ _ sn (mkH d l (mkIo o (a :: i)))).
  2: { unfold rdstr. cbn [nd]. rewrite (fstr_fbytes _ _ sn r); [done|by apply declared_fits|done|done]. }
  run. rewrite (bind_ok (io_ sys_time) _ _ (a_ret a) (mkH d l (mkIo o i))) by done. run.
  match goal with |- context [sprintf 512 ?t] => set (req := t) end.
  assert (Ht : text 480 req).
  { assert (Hs : text 15 sn) by done. assert (Hw : text 13 Web_IP) by (apply text_const; vm_compute; repeat constructor; discriminate).
    assert (Hp : text 5 (fmt_d Web_Port)) by (split; vm_compute; [repeat constructor; discriminate|lia]).
    eapply text_le; [|subst req; text_tac]. vm_compute. lia. }
  destruct (sprintf_text 512 480 req Ht) as [E1 E2]; [lia|].
  exists req. destruct Ht as [? ?]. split_and!; [done|lia|].
  rewrite (lift_run _ _ _ _ E1). by rewrite (lift_run _ _ _ _ E2).
Qed.

(** The SIM pool answers "no deal data" with code 0 when there is no
    connection: the zeroed buffer is read as a reply. *)
Lemma no_socket_reply {B} req (k : Z * bytes -> H B) d l w c o i :
  ConnectToServerTimeOut Log_IP ServerPort 2 w = Ok (c, mkIo o i) -> c <= 0 ->
  bind (Get_Deal_From_SimPool req (zeros 1024)) k (mkH d l w) =
  k (0, zeros 1024) (mkH d l (mkIo (o ++ [ELog MSG_ERROR]) i)).
Proof.
  intros Hw Hc. unfold Get_Deal_From_SimPool, Get_Deal_From_SimPool_socket, Send_Sim_Data.
  rewrite !bind_assoc. rewrite (bind_ok (io_ _) _ _ c (mkH d l (mkIo o i))).
  2: { unfold io_. cbn [w_io]. by rewrite Hw. }
  destruct (Z.leb_spec c 0); [|lia]. cbn match.
  unfold LogMsg. run. change (Z.eqb (-1) 0) with false. run.
  rewrite (lift_run _ (-1, Json.Json_zero)) by reflexivity. run.
  change (Z.eqb (Json.Result Json.Json_zero) 0) with true. run.
  rewrite (lift_run _ []) by reflexivity. run.
  rewrite (lift_run _ (zeros 1024)) by reflexivity. run.
  change (Z.eqb (Json.Result Json.Json_zero) 0) with true. run. done.
Qed.

(** C11: when the connection to the back end fails, the login of a terminal
    in any other network is granted: SIM_Allocate_Proc returns 0 and sets
    Result to 0, the code of success, with no minutes, and no request is
    ever sent (the only later event is the error log). *)
Theorem login_without_back_end d l o a i sn r c o' i' :
  node_ok d -> 0 <= login_mcc d < 65536 -> is_home (login_mcc d) = false ->
  fbytes Spm.SN d = sn ++ 0 :: r -> nonul sn ->
  ConnectToServerTimeOut Log_IP ServerPort 2 (mkIo (o ++ close_calls d) i) = Ok (c, mkIo o' i') ->
  c <= 0 ->
  exists d', SIM_Allocate_Proc (mkH d l (mkIo o (a :: i))) =
      Ok (0, mkH d' l (mkIo (o' ++ [ELog MSG_ERROR]) i')) /\
    node_ok d' /\ fget Spm.Result d' = 0 /\ fget Spm.minite_Remain d' = 0 /\
    fget Spm.factoryFlag d' = 0.
Proof.
  intros Hd Hm Hh Hsn Hn Hw Hc. rewrite login_run by done. rewrite Hh. unfold ask_back_end.
  rewrite cpy_run; [|eauto with node|done|rewrite Master_IP_length; done]. fold (asked_node d).
  assert (N : node_ok (asked_node d)) by eauto with node.
  destruct (Login_Log_Pack_Data_run (login_size d) sn r (fun buff =>
      let! (cnt, Dst) := Get_Deal_From_SimPool buff (zeros 1024) in
      if Z.eqb cnt 0 then
        let! f := Get_Data_From_Deal Dst in
        if negb (Z.eqb f 0) then SIM_Allocate_Err IpChange else ret cnt
      else ret cnt) (asked_node d) l (o ++ close_calls d) a i) as (req & _ & _ & ->);
    [done|by rewrite asked_node_SN|done|].
  rewrite (no_socket_reply _ _ _ _ _ c o' i') by done. change (Z.eqb 0 0) with true. cbn match.
  rewrite (bind_ok _ _ _ _ _ (Get_Data_From_Deal_empty _ _ _ N)). change (negb (Z.eqb 0 0)) with false. cbn match.
  exists (no_deal (asked_node d)). split; [done|].
  unfold no_deal. split_and!; [eauto 40 with node|by member_simp..].
Qed.

(** A terminal in network 310; connect is refused. *)
Definition roaming_terminal : bytes := patch (fset AA.MCC 310 node0) 32 (str "172150210000937").

Lemma login_without_back_end_witness :
  exists d', SIM_Allocate_Proc (mkH roaming_terminal [] (mkIo [] [a_num 1600000000; a_num 7; a_err 111])) =
      Ok (0, mkH d' [] (mkIo ([ESocket 7; EConnect 7 Log_IP 8090] ++ [ELog MSG_ERROR]) [])) /\
    node_ok d' /\ fget Spm.Result d' = 0 /\ fget Spm.minite_Remain d' = 0 /\ fget Spm.factoryFlag d' = 0.
Proof.
  apply (login_without_back_end _ _ _ _ [a_num 7; a_err 111] (str "172150210000937") [] ERR_CONNECT);
    [reflexivity|split; [discriminate|reflexivity]|reflexivity|reflexivity
    |vm_compute; repeat constructor; discriminate|reflexivity|discriminate].
Defined.
End Login.
