(* ===== verification/DealProc.v ===== *)
(** * Deal queries against a back end that answers (src/src/common.c)

    One exchange with the back end, and what Deal_Proc makes of its reply. *)

From stdpp Require Import prelude gmap strings.
From S2P Require Import Prelude CLib Layout Sock HexText JsonText NodeState Deal.
Import Sock Deal.
Open Scope Z_scope.

Module DealProc.

(** ** One exchange *)

(** The answers of a back end that accepts the connection, takes [n] bytes
    of the request and replies [t]. *)
Definition exchange (fd n : Z) (t : bytes) : list answer := [a_num fd; a_num 0; a_num n; a_bytes t].

Definition exchange_calls (fd n : Z) (req t : bytes) : list event :=
  [ESocket fd; EConnect fd Log_IP ServerPort; ETimeo fd 2; ETimeo fd 2;
   ESend fd (take (Z.to_nat n) req); ERecv fd t; EClose fd].

Lemma Send_Sim_Data_run {B} req (k : Z * bytes -> H B) fd n t d l o i :
  0 < fd -> 0 < n -> req <> [] -> t <> [] -> (length t <= 1024)%nat ->
  bind (Send_Sim_Data req (zeros 1024) 1024) k (mkH d l (mkIo o (exchange fd n t ++ i))) =
  k (Z.of_nat (length t), padded 1024 t) (mkH d l (mkIo (o ++ exchange_calls fd n req t) i)).
Proof.
  intros Hfd Hn Hreq Ht Hl. unfold Send_Sim_Data, exchange. cbn [app].
  rewrite bind_assoc, (io_run _ _ _ _ _ _ _ (connect_accepted _ _ _ _ _ _ (Z.lt_le_incl _ _ Hfd))).
  destruct (Z.leb_spec fd 0); [lia|]. rewrite bind_assoc.
  rewrite (io_run (Set_Recv_Sock_TimeOut fd 2) _ _ _ _ _ _ eq_refl). cbn [out inp].
  rewrite bind_assoc, (io_run _ _ _ _ _ _ _ (send_taken fd req _ n _ ltac:(lia))).
  destruct (Z.leb_spec (Z.of_nat (length (take (Z.to_nat n) req))) 0) as [Hz|].
  { destruct req; [done|]. rewrite length_take in Hz. simpl in Hz. lia. }
  rewrite bind_assoc, (lift_run _ (Z.to_nat 1024)) by done.
  rewrite bind_assoc, (io_run _ _ _ _ _ _ _ (recv_bytes _ _ _ _ _)).
  rewrite take_ge by (change (Z.to_nat 1024) with 1024%nat; lia).
  rewrite bind_assoc, (lift_run _ _ _ _ (mwrite_zeros _ _ Hl)).
  unfold sys_close. run. unfold exchange_calls. rewrite <-!app_assoc. done.
Qed.

(** The code and the payload of a reply. *)
Definition reply_reads (t : bytes) (code : Z) (p : bytes) : Prop :=
  exists c J, Json.Data_Coing (Some (padded 1024 t)) Json.Json_zero = Ok (c, J) /\
    Json.Result J = code /\ cstring (Json.Data J) = Ok p.




(** The text Dst holds after the exchange: a payload only with code 0. *)
Definition deal_text (n : nat) (code : Z) (p : bytes) : bytes :=
  if Z.eqb code 0 then padded n p else zeros n.

Lemma socket_reply_run {B} req (k : Z * bytes -> H B) m fd n t code p d l o i :
  0 < fd -> 0 < n -> req <> [] -> t <> [] -> (length t <= 1024)%nat -> (length p <= m)%nat ->
  reply_reads t code p ->
  bind (Get_Deal_From_SimPool_socket req (zeros m)) k (mkH d l (mkIo o (exchange fd n t ++ i))) =
  k (code, deal_text m code p) (mkH d l (mkIo (o ++ exchange_calls fd n req t) i)).
Proof.
  intros Hfd Hn Hreq Ht Hl Hp (c & J & HJ & <- & Hd). unfold Get_Deal_From_SimPool_socket.
  rewrite bind_assoc, Send_Sim_Data_run by done.
  destruct (Z.eqb_spec (Z.of_nat (length t)) 0); [destruct t; [done|simpl in *; lia]|]. cbn [negb].
  rewrite bind_assoc, (lift_run _ _ _ _ HJ). unfold deal_text.
  destruct (Z.eqb (Json.Result J) 0).
  - rewrite bind_assoc, (lift_run _ _ _ _ Hd). rewrite bind_assoc, (lift_run _ (padded m p)).
    + done.
    + by apply mwrite_zeros.
  - done.
Qed.

(** The error the reply code stands for. *)
Definition code_error (code : Z) : Z :=
  if Z.eqb code 1 then LowPower else if Z.eqb code 2 then OutOfService else NoSimUsable.

Definition refused (code : Z) (d : bytes) : bytes :=
  if Z.eqb code 0 then d else fset Spm.Result (code_error code) d.

Definition pool_result (code : Z) : Z := if Z.eqb code 0 then 0 else code_error code.

Definition pool_calls (code : Z) (evs : list event) : list event :=
  if Z.eqb code 0 then evs else evs ++ [ELog MSG_ERROR].

Lemma code_error_range code : 3 <= code_error code <= 7.
Proof. unfold code_error, LowPower, OutOfService, NoSimUsable. repeat case_match; lia. Qed.

Lemma pool_reply_run {B} req (k : Z * bytes -> H B) m fd n t code p d l o i :
  0 < fd -> 0 < n -> req <> [] -> t <> [] -> (length t <= 1024)%nat -> (length p <= m)%nat ->
  reply_reads t code p -> node_ok d ->
  bind (Get_Deal_From_SimPool req (zeros m)) k (mkH d l (mkIo o (exchange fd n t ++ i))) =
  k (pool_result code, deal_text m code p)
    (mkH (refused code d) l (mkIo (o ++ pool_calls code (exchange_calls fd n req t)) i)).
Proof.
  intros Hfd Hn Hreq Ht Hl Hp Hr Hd. unfold Get_Deal_From_SimPool.
  rewrite bind_assoc, (socket_reply_run _ _ _ _ _ _ code p) by done.
  unfold pool_result, refused, pool_calls. destruct (Z.eqb code 0); [done|]. cbn [negb].
  unfold LogMsg. run. fold (code_error code). pose proof (code_error_range code).
  unfold SIM_Allocate_Err, UnrecognizedDevSN, LowPower, SockErr in *.
  destruct (Z.eqb_spec (code_error code) 8); [lia|].
  destruct (Z.leb_spec 1 (code_error code)); [|lia]. destruct (Z.leb_spec (code_error code) 7); [|lia].
  cbn [andb]. run. rewrite nget_same by node_side.
  rewrite <-app_assoc. change (256 ^ f_size Spm.Result) with 256.
  rewrite Z.mod_small by lia.
  replace (s8 (code_error code)) with (code_error code); [done|].
  unfold s8. rewrite Z.mod_small; lia.
Qed.

(** ** Deal_Proc *)

Lemma SN_text d sn r : node_ok d -> fbytes Spm.SN d = sn ++ 0 :: r -> nonul sn -> text 15 sn.
Proof.
  intros Hd Hsn Hn. split; [done|].
  assert (E : length (fbytes Spm.SN d) = 16%nat) by (rewrite length_fbytes; [done|by apply declared_fits]).
  rewrite Hsn, length_app in E. simpl in E. lia.
Qed.

Lemma deal_request_text Type_ sn MCC now : text 15 sn -> text 330 (deal_request Type_ sn MCC now).
Proof.
  intros Hs. assert (Hw : text 13 Web_IP) by (apply text_const; vm_compute; repeat constructor; discriminate).
  unfold deal_request. destruct (negb (Z.eqb Type_ 0));
    (eapply text_le; [|text_tac]; vm_compute; lia).
Qed.

Lemma deal_request_nonempty Type_ sn MCC now : deal_request Type_ sn MCC now <> [].
Proof. unfold deal_request. by destruct (negb (Z.eqb Type_ 0)). Qed.

(** The minutes the node has after the query: those of the reply; all day for
    the last day of a deal asked with TAG_DEAL; none when the deal is over;
    for any other refusal -1 (as 16 bits) or 1. *)
Definition minutes (Type_ code lastStart mins : Z) : Z :=
  if Z.eqb code 0 then if Z.eqb Type_ 0 && Z.eqb (u8 lastStart) 1 then 1440 else u16 mins
  else if Z.eqb code 2 then 0
  else if negb (Z.eqb Type_ 0) then 65535 else 1.

(** What the reply says about the deal. *)
Definition deal_values (p : bytes) (lastStart mins : Z) : Prop :=
  Get_Key_Value_Int (padded 1024 p) "lastStart" = Ok lastStart /\
  Get_Key_Value_Int (padded 1024 p) "minsRemaining" = Ok mins.

Definition asked_mcc (MCC : Z) : Z := if Z.eqb MCC 0 then 460 else MCC.

(** The node after the reply was used. *)
Definition dealt (Type_ code lastStart mins : Z) (d : bytes) : bytes :=
  if Z.eqb code 0 then
    let d1 := fset Spm.minite_Remain mins (fset Spm.lastStart lastStart d) in
    if Z.eqb Type_ 0 && Z.eqb (u8 lastStart) 1 then fset Spm.minite_Remain 1440 d1 else d1
  else if negb (Z.eqb (code_error code) OutOfService) then
    fset Spm.minite_Remain (if negb (Z.eqb Type_ 0) then -1 else 1) d
  else d.

Lemma dealt_minutes Type_ code ls mins d :
  node_ok d -> fget Spm.minite_Remain d = 0 ->
  node_ok (dealt Type_ code ls mins d) /\
  fget Spm.minite_Remain (dealt Type_ code ls mins d) = minutes Type_ code ls mins.
Proof.
  intros Hd H0. unfold dealt, minutes, code_error.
  destruct (Z.eqb_spec code 0); [destruct (Z.eqb Type_ 0 && Z.eqb (u8 ls) 1)|].
  - split; [eauto with node|by rewrite nget_same by node_side].
  - split; [eauto with node|by rewrite nget_same by node_side].
  - destruct (Z.eqb_spec code 1); [|destruct (Z.eqb_spec code 2)]; cbn [negb].
    + replace (Z.eqb code 2) with false by (symmetry; apply Z.eqb_neq; lia).
      change (Z.eqb LowPower OutOfService) with false. cbn [negb].
      split; [eauto with node|rewrite nget_same by node_side]. by destruct (Z.eqb Type_ 0).
    + change (Z.eqb OutOfService OutOfService) with true. done.
    + change (Z.eqb NoSimUsable OutOfService) with false. cbn [negb].
      split; [eauto with node|rewrite nget_same by node_side]. by destruct (Z.eqb Type_ 0).
Qed.

(** C3: Deal_Proc asks the back end once and sets the remaining minutes from
    its reply, on every branch: granted, last day, deal over, refused. *)
Theorem Deal_Proc_reply Type_ MCC d l o a fd n t code p ls mins sn r i :
  node_ok d -> fbytes Spm.SN d = sn ++ 0 :: r -> nonul sn ->
  0 < fd -> 0 < n -> t <> [] -> (length t <= 1024)%nat -> (length p <= 1024)%nat ->
  reply_reads t code p -> deal_values p ls mins ->
  exists d', Deal_Proc MCC Type_ (mkH d l (mkIo o (a :: exchange fd n t ++ i))) =
      Ok (0, mkH d' l (mkIo (o ++ pool_calls code
        (exchange_calls fd n (deal_request Type_ sn (asked_mcc MCC) (a_ret a)) t)) i)) /\
    node_ok d' /\ fget Spm.minite_Remain d' = minutes Type_ code ls mins.
Proof.
  intros Hd Hsn Hn Hfd Hs Ht Hl Hp Hr [Hls Hmins]. unfold Deal_Proc. run.
  set (d1 := fset Spm.minite_Remain 0 d).
  assert (N1 : node_ok d1) by (subst d1; eauto with node).
  assert (S1 : fbytes Spm.SN d1 = sn ++ 0 :: r) by (subst d1; by rewrite nbytes_other).
  rewrite (bind_ok (rdstr Spm.SN) _ _ sn (mkH d1 l (mkIo o (a :: exchange fd n t ++ i)))).
  2: { unfold rdstr. cbn [nd]. rewrite (fstr_fbytes _ _ sn r); [done|by apply declared_fits|done|done]. }
  rewrite (io_run sys_time (a_ret a) (mkIo o (exchange fd n t ++ i))) by done.
  fold (asked_mcc MCC).
  destruct (sprintf_text 356 330 _ (deal_request_text Type_ sn (asked_mcc MCC) (a_ret a) (SN_text _ _ _ Hd Hsn Hn)))
    as [E1 E2]; [lia|].
  rewrite (lift_run _ _ _ _ E1), (lift_run _ _ _ _ E2).
  rewrite (pool_reply_run _ _ _ _ _ _ code p); [|done|done|apply deal_request_nonempty|done..].
  set (w := mkIo _ _).
  set (d2 := refused code d1).
  assert (N2 : node_ok d2) by (subst d2; unfold refused; case_match; eauto with node).
  assert (M2 : fget Spm.minite_Remain d2 = 0).
  { subst d2 d1. unfold refused. case_match; by member_simp. }
  exists (dealt Type_ code ls mins d2). split; [|by apply dealt_minutes].
  unfold dealt, pool_result, deal_text. destruct (Z.eqb_spec code 0) as [E0|E0].
  - change (Z.eqb 0 0) with true. cbn match. unfold int_to.
    rewrite !bind_assoc, (lift_run _ _ _ _ Hls). run.
    rewrite (lift_run _ _ _ _ Hmins). run. rewrite nget_other by node_side.
    rewrite nget_same by node_side. change (ls mod 256 ^ f_size Spm.lastStart) with (u8 ls).
    destruct (Z.eqb Type_ 0 && Z.eqb (u8 ls) 1); done.
  - pose proof (code_error_range code). destruct (Z.eqb_spec (code_error code) 0); [lia|].
    destruct (negb (Z.eqb (code_error code) OutOfService)); done.
Qed.

(** A reply with code 0: 120 minutes left, not the last day. *)
Definition pair_text (k v : string) : bytes := [34] ++ str k ++ [34; 58; 34] ++ str v ++ [34].

Definition payload1 : bytes := pair_text "lastStart" "0" ++ [44] ++ pair_text "minsRemaining" "120".

Definition reply1 : bytes := str "45445,3003,3,0|[{" ++ payload1 ++ str "}".

Definition terminal1 : bytes := patch node0 32 (str "172150210000937").

Lemma reply1_reads : reply_reads reply1 0 payload1.
Proof. eexists _, _. split; [vm_compute; reflexivity|]. split; [reflexivity|]. vm_compute. reflexivity. Qed.

Lemma Deal_Proc_reply_witness :
  exists d', Deal_Proc 310 1 (mkH terminal1 [] (mkIo [] (a_num 1600000000 :: exchange 7 500 reply1 ++ []))) =
      Ok (0, mkH d' [] (mkIo ([] ++ pool_calls 0
        (exchange_calls 7 500 (deal_request 1 (str "172150210000937") (asked_mcc 310) 1600000000) reply1)) [])) /\
    node_ok d' /\ fget Spm.minite_Remain d' = minutes 1 0 0 120.
Proof.
  apply (Deal_Proc_reply 1 310 terminal1 [] [] (a_num 1600000000) 7 500 reply1 0 payload1 0 120 (str "172150210000937") []);
    [reflexivity|reflexivity|vm_compute; repeat constructor; discriminate|reflexivity|reflexivity
    |discriminate|vm_compute; lia|vm_compute; lia|exact reply1_reads|split; vm_compute; reflexivity].
Defined.
End DealProc.
