(* ===== verification/Grant.v ===== *)
(** * A deal granted by the back end (src/src/common.c)

    Get_Data_From_Deal on a reply that has all the values: what the node of
    the terminal holds afterwards. *)

From stdpp Require Import prelude gmap strings.
From S2P Require Import Prelude CLib Layout Sock HexText JsonText NodeState Deal.
Import Sock Deal.
Open Scope Z_scope.

Module Grant.

(** The values of a reply and the sizes the members have room for. *)
Record offer := mkOffer {
  o_mins : Z; o_last : Z; o_test : Z; o_order : Z; o_roam : Z; o_speed : Z; o_file : Z;
  o_vpn : Z; o_apn : bytes; o_ip : bytes; o_port : bytes; o_bank : bytes; o_chan : bytes;
  o_str : bytes; o_act : bytes; o_imei : bytes; o_imsi : bytes; o_net : bytes
}.

(** Parts separated by a character that does not occur in them. *)
Definition part (c : Z) (b : bytes) : Prop := b <> [] /\ Forall (fun x => x <> c) b.

Record offers (Src : bytes) (v : offer) : Prop := mkOffers {
  v_mins : Get_Key_Value_Int Src "minsRemaining" = Ok (o_mins v);
  v_last : Get_Key_Value_Int Src "lastStart" = Ok (o_last v);
  v_test : Get_Key_Value_Int Src "ifTest" = Ok (o_test v);
  v_order : Get_Key_Value_Int Src "orderType" = Ok (o_order v);
  v_roam : Get_Key_Value_Int Src "ifRoam" = Ok (o_roam v);
  v_speed : Get_Key_Value_Int Src "speedType" = Ok (o_speed v);
  v_file : Get_Key_Value_Int Src "fileUpdate" = Ok (o_file v);
  v_apn : key_value Src "APN" = Ok (Some (o_apn v)) /\ (3 < length (o_apn v) <= 64)%nat;
  v_vpn : Get_Key_Value_Int Src "ifVPN" = Ok (o_vpn v);
  v_fact : Get_Key_Value_Int Src "factoryFlag" = Ok 0;
  v_ip : key_value Src "IPAndPort" = Ok (Some (o_ip v ++ 58 :: o_port v)) /\
         part 58 (o_ip v) /\ part 58 (o_port v) /\ (length (o_ip v) <= 16)%nat;
  v_slot : key_value Src "slotNumber" = Ok (Some (o_bank v ++ 45 :: o_chan v)) /\
           part 45 (o_bank v) /\ part 45 (o_chan v);
  v_str : key_value Src "speedStr" = Ok (Some (o_str v)) /\ (4 < length (o_str v) <= 40)%nat;
  v_act : key_value Src "SIMIfActivated" = Ok (Some (o_act v)) /\ is_prefix no_mark (o_act v) = false;
  v_imei : key_value Src "IMEI" = Ok (Some (o_imei v));
  v_imsi : key_value Src "IMSI" = Ok (Some (o_imsi v)) /\ length (o_imsi v) = 18%nat /\
           is_Some (Hex.unhex (o_imsi v));
  v_net : key_value Src "Selnet" = Ok (Some (o_net v)) /\ (4 < length (o_net v) <= 8)%nat
}.

(** The member [F] starts with the bytes [b]. *)
Definition starts (F : field) (b d : bytes) : Prop :=
  fbytes (mkField (f_off F) (Z.of_nat (length b))) d = b.

(** The VPN mark of the reply frame. *)
Definition vpn_mark (v old : Z) : Z :=
  if Z.eqb (u8 v) 0 then 0 else if Z.eqb (u8 v) 1 then 8 else if Z.eqb (u8 v) 2 then 16 else old.

(** What the node holds afterwards. *)
Record granted (v : offer) (old d : bytes) : Prop := mkGranted {
  g_mins : fget Spm.minite_Remain d = u16 (o_mins v);
  g_last : fget Spm.lastStart d = u8 (o_last v);
  g_test : fget Spm.ifTest d = u32 (o_test v);
  g_order : fget Spm.orderType d = u8 (o_order v);
  g_roam : fget Node.ifRoam d = u8 (o_roam v);
  g_speed : fget Node.speedType d = if Z.eqb (u8 (o_speed v)) 1 then 4 else u8 (o_speed v);
  g_file : fget Node.NeedFile d = u8 (o_file v);
  g_vpn : fget Spm.vpn d = u8 (o_vpn v) /\ fget Spm.ifVPN d = vpn_mark (o_vpn v) (fget Spm.ifVPN old);
  g_fact : fget Spm.factoryFlag d = 0;
  g_apn : fget Node.IsApn d = 1 /\ starts Node.APN (o_apn v) d;
  g_ip : starts Node.IP (o_ip v) d /\ fget Node.Port d = u16 (atoi (o_port v));
  g_slot : fget Node.SimBank_ID d = u8 (atoi (o_bank v)) /\ fget Node.Channel_ID d = u8 (atoi (o_chan v));
  g_str : starts Spm.speedStr (o_str v) d;
  g_act : fget Node.Vusim_Active_Flag d = 0;
  g_imei : fget Node.IMEI d = u64 (atoll (o_imei v));
  g_imsi : fbytes Spm.sIMSI d = o_imsi v /\ Hex.unhex (o_imsi v) = Some (fbytes Spm.IMSI d);
  g_net : fget Node.IsNet d = 2 /\ starts Node.Selnet (o_net v) d;
  g_result : fget Spm.Result d = 0
}.

(** The member [F] as far as a text of the length of [t] fills it. *)
Definition filled (F : field) (t : bytes) : field := mkField (f_off F) (Z.of_nat (length t)).

(** The bytes the deal may change: the members of the numbers and flags (the
    port is stored as an int, over SimBank_ID and Channel_ID too), and of the
    members for texts the bytes that the text fills. *)
Definition places (v : offer) : list field :=
  [Spm.minite_Remain; Spm.lastStart; Spm.ifTest; Spm.orderType; Node.ifRoam; Node.speedType; Node.NeedFile;
   filled Node.APN (o_apn v); Node.IsApn; Spm.vpn; Spm.ifVPN; Spm.factoryFlag; filled Node.IP (o_ip v); Port_as_int;
   Node.SimBank_ID; Node.Channel_ID; filled Spm.speedStr (o_str v); Node.Vusim_Active_Flag; Node.IMEI;
   Spm.sIMSI; Spm.IMSI; filled Node.Selnet (o_net v); Node.IsNet; Spm.Result].

Section Run.
Context {B : Type} (Src : bytes) (v : offer) (d : bytes) (l : list Z) (w : io).

Lemma int_to_run F name z (k : unit -> H B) :
  Get_Key_Value_Int Src name = Ok z ->
  bind (int_to F Src name) k (mkH d l w) = k tt (mkH (fset F z d) l w).
Proof. intros E. unfold int_to. by rewrite bind_assoc, (lift_run _ _ _ _ E). Qed.

Lemma str_run name F (n : nat) t (k : Z -> H B) :
  key_value Src name = Ok (Some t) -> (n < length t)%nat -> node_ok d ->
  0 <= f_off F -> f_off F + Z.of_nat (length t) <= spm_size ->
  bind (Get_Key_Value_Str Src name F n) k (mkH d l w) = k 1 (mkH (patch d (Z.to_nat (f_off F)) t) l w).
Proof.
  intros E Hn Hd H0 Hl. unfold Get_Key_Value_Str. rewrite bind_assoc, (lift_run _ _ _ _ E).
  rewrite (proj2 (Nat.ltb_lt _ _) Hn). by rewrite bind_assoc, cpy_run.
Qed.

Lemma part_token c b r : part c b -> strtok_r (b ++ c :: r) [c] = (Some b, r).
Proof.
  intros [Hne Hb]. apply strtok_r_token; [done| |unfold in_set; simpl; by rewrite Z.eqb_refl].
  eapply Forall_impl; [exact Hb|]. intros x Hx. unfold in_set. simpl. by rewrite (proj2 (Z.eqb_neq x c)).
Qed.

Lemma part_last c b : part c b -> strtok_r b [c] = (Some b, []).
Proof.
  intros [Hne Hb]. apply strtok_r_last; [done|].
  eapply Forall_impl; [exact Hb|]. intros x Hx. unfold in_set. simpl. by rewrite (proj2 (Z.eqb_neq x c)).
Qed.

Lemma ip_run name ip port (k : unit -> H B) :
  key_value Src name = Ok (Some (ip ++ 58 :: port)) -> part 58 ip -> part 58 port ->
  (length ip <= 16)%nat -> node_ok d ->
  bind (Get_Key_Value_IPAndPort Src name) k (mkH d l w) =
  k tt (mkH (fset Port_as_int (atoi port) (patch d (Z.to_nat (f_off Node.IP)) ip)) l w).
Proof.
  intros E Hi Hp Hl Hd. unfold Get_Key_Value_IPAndPort. rewrite bind_assoc, (lift_run _ _ _ _ E).
  change (str ":") with [58]. rewrite part_token by done. rewrite bind_assoc, cpy_run; [|done|done|].
  - rewrite part_last by done. done.
  - unfold Node.IP, spm_size. cbn [f_off]. lia.
Qed.

Lemma slot_run name b c (k : unit -> H B) :
  key_value Src name = Ok (Some (b ++ 45 :: c)) -> part 45 b -> part 45 c ->
  bind (Get_Key_Value_Str_Type Src name) k (mkH d l w) =
  k tt (mkH (fset Node.Channel_ID (atoi c) (fset Node.SimBank_ID (atoi b) d)) l w).
Proof.
  intros E Hb Hc. unfold Get_Key_Value_Str_Type. rewrite bind_assoc, (lift_run _ _ _ _ E).
  change (str "-") with [45]. rewrite part_token by done. run. rewrite part_last by done. done.
Qed.

Lemma imsi_run (k : unit -> H B) t b :
  key_value Src "IMSI" = Ok (Some t) -> length t = 18%nat -> Hex.unhex t = Some b -> node_ok d ->
  bind (Get_Key_Value_IMSI Src) k (mkH d l w) =
  k tt (mkH (patch (patch d (Z.to_nat (f_off Spm.sIMSI)) t) (Z.to_nat (f_off Spm.IMSI)) b) l w).
Proof.
  intros E Hl Hb Hd. unfold Get_Key_Value_IMSI. rewrite bind_assoc, (lift_run _ _ _ _ E).
  pose proof (Hex.unhex_length _ _ Hb) as Hlb.
  rewrite bind_assoc, cpy_run; [|done|done|rewrite Hl; done].
  set (d1 := patch d _ t).
  assert (N1 : length d1 = Z.to_nat spm_size) by (apply node_patch; [done|done|rewrite Hl; done]).
  unfold fill, bind. cbn [nd logs w_io].
  rewrite (Hex.str2Hex_hex t b (zeros (64 - length t))); [|done|by destruct t|].
  2: { rewrite length_drop, N1. unfold spm_size, Spm.IMSI. cbn [f_off]. lia. }
  cbn [nd logs w_io ret]. unfold ret. do 2 f_equal. unfold patch.
  rewrite take_0, drop_drop. done.
Qed.
End Run.

(** ** The node, piece by piece *)

Definition vpn_node (v : Z) (d : bytes) : bytes :=
  let d := fset Spm.vpn v d in
  if Z.eqb (u8 v) 0 then fset Spm.ifVPN 0 d
  else if Z.eqb (u8 v) 1 then fset Spm.ifVPN 8 d
  else if Z.eqb (u8 v) 2 then fset Spm.ifVPN 16 d else d.

Lemma vpn_run {B} Src z d l w (k : unit -> H B) :
  Get_Key_Value_Int Src "ifVPN" = Ok z -> node_ok d ->
  bind (Get_Key_Value_VPN Src) k (mkH d l w) = k tt (mkH (vpn_node z d) l w).
Proof.
  intros E Hd. unfold Get_Key_Value_VPN. rewrite bind_assoc, (lift_run _ _ _ _ E). run.
  rewrite nget_same by node_side. change (z mod 256 ^ f_size Spm.vpn) with (u8 z). unfold vpn_node.
  destruct (u8 z) as [|[[p|p|]|[p|p|]|]|p]; done.
Qed.

Lemma vpn_node_ok v d : node_ok d -> node_ok (vpn_node v d).
Proof. intros. unfold vpn_node. repeat case_match; eauto with node. Qed.

Lemma vpn_node_get F v d :
  node_ok d -> declared F = true -> apart F Spm.vpn = true -> apart F Spm.ifVPN = true ->
  fbytes F (vpn_node v d) = fbytes F d.
Proof. intros. unfold vpn_node. repeat case_match; by repeat rewrite nbytes_other by eauto with node. Qed.

Lemma vpn_node_mark v d : node_ok d -> fget Spm.ifVPN (vpn_node v d) = vpn_mark v (fget Spm.ifVPN d).
Proof. intros. unfold vpn_node, vpn_mark. repeat case_match; by member_simp. Qed.
#[local] Hint Resolve vpn_node_ok : node.

(** The integers and the APN. *)
Definition node1 (v : offer) (d : bytes) : bytes :=
  let d := fset Spm.minite_Remain (o_mins v) d in
  let d := fset Spm.lastStart (o_last v) d in
  let d := fset Spm.ifTest (o_test v) d in
  let d := fset Spm.orderType (o_order v) d in
  let d := fset Node.ifRoam (o_roam v) d in
  let d := fset Node.speedType (o_speed v) d in
  let d := fset Node.NeedFile (o_file v) d in
  let d := patch d (Z.to_nat (f_off Node.APN)) (o_apn v) in
  fset Node.IsApn 1 d.

(** VPN, factory flag, the address of the SIM card, the speed text. *)
Definition node2 (v : offer) (d : bytes) : bytes :=
  let d := vpn_node (o_vpn v) d in
  let d := fset Spm.factoryFlag 0 d in
  let d := fset Port_as_int (atoi (o_port v)) (patch d (Z.to_nat (f_off Node.IP)) (o_ip v)) in
  let d := fset Node.Channel_ID (atoi (o_chan v)) (fset Node.SimBank_ID (atoi (o_bank v)) d) in
  patch d (Z.to_nat (f_off Spm.speedStr)) (o_str v).

(** Activation, IMEI, IMSI, network selection, result. *)
Definition node3 (v : offer) (b d : bytes) : bytes :=
  let d := fset Node.Vusim_Active_Flag 0 d in
  let d := fset Node.IMEI (atoll (o_imei v)) d in
  let d := patch (patch d (Z.to_nat (f_off Spm.sIMSI)) (o_imsi v)) (Z.to_nat (f_off Spm.IMSI)) b in
  let d := fset Node.IsNet 2 (patch d (Z.to_nat (f_off Node.Selnet)) (o_net v)) in
  let d := if Z.eqb (u8 (o_speed v)) 1 then fset Node.speedType 4 d else d in
  fset Spm.Result 0 d.

(** [room]: the copies stay inside the node. *)
Ltac room :=
  first [done | unfold spm_size, Node.APN, Node.IP, Node.Selnet, Spm.speedStr, Spm.sIMSI, Spm.IMSI; cbn [f_off]; lia].

(** A copy inside member [G] leaves the members apart from [G] alone. *)
Lemma bytes_patch F (G : field) (c : bytes) d :
  node_ok d -> declared F = true -> declared G = true -> apart F G = true ->
  Z.of_nat (length c) <= f_size G ->
  fbytes F (patch d (Z.to_nat (f_off G)) c) = fbytes F d.
Proof.
  intros Hd HF HG Ha Hc. apply apart_disjoint in Ha.
  destruct (declared_fits F d HF Hd) as (?&?&?), (declared_fits G d HG Hd) as (?&?&?).
  apply fbytes_patch_other; [done|lia|]. unfold disjoint in Ha. lia.
Qed.

Lemma take_patch F (c : bytes) d :
  node_ok d -> declared F = true -> Z.of_nat (length c) <= f_size F ->
  take (length c) (fbytes F (patch d (Z.to_nat (f_off F)) c)) = c.
Proof.
  intros Hd HF Hc. destruct (declared_fits F d HF Hd) as (?&?&?).
  unfold fbytes. rewrite take_take. apply fbytes_patch_same; lia.
Qed.

Lemma starts_intro F (c : bytes) d :
  Z.of_nat (length c) <= f_size F -> take (length c) (fbytes F d) = c -> starts F c d.
Proof.
  intros Hc Ht. unfold starts. rewrite <-Ht at 2. unfold fbytes. cbn [f_off f_size].
  rewrite take_take, Nat2Z.id. f_equal. lia.
Qed.

(** [fsz]: a copied text fits its member. *)
Ltac fsz := unfold Node.APN, Node.IP, Node.Selnet, Spm.speedStr, Spm.sIMSI, Spm.IMSI; cbn [f_size]; lia.

(** [deep]: read a member through all the writes to other members. *)
Ltac node_in :=
  repeat first [ assumption | apply vpn_node_ok | apply node_fset; [reflexivity|] | apply node_patch; [|room|room] ].

Ltac deep :=
  repeat first
    [ rewrite nbytes_other by (first [eassumption|reflexivity|node_in])
    | rewrite vpn_node_get by (first [eassumption|reflexivity|node_in])
    | rewrite bytes_patch; [|node_in|first [eassumption|reflexivity]|reflexivity|first [eassumption|reflexivity]|fsz] ].

Lemma get_same F z d : node_ok d -> declared F = true -> le_dec (fbytes F (fset F z d)) = z mod 256 ^ f_size F.
Proof. intros. by apply nget_same. Qed.

(** [got]: a member set by one of the writes. *)
Ltac got := deep; rewrite get_same by (first [reflexivity|node_in]); reflexivity.

(** A copy that fills a member. *)
Lemma whole_patch F (c : bytes) d :
  node_ok d -> declared F = true -> length c = Z.to_nat (f_size F) ->
  fbytes F (patch d (Z.to_nat (f_off F)) c) = c.
Proof.
  intros Hd HF Hc. destruct (declared_fits F d HF Hd) as (?&?&?).
  apply fbytes_patch_same; lia.
Qed.

Section Sizes.
Context (Src : bytes) (v : offer) (b : bytes) (Hv : offers Src v) (Hb : Hex.unhex (o_imsi v) = Some b).

Lemma lengths :
  (length (o_apn v) <= 64)%nat /\ (length (o_ip v) <= 16)%nat /\ (length (o_str v) <= 40)%nat /\
  length (o_imsi v) = 18%nat /\ length b = 9%nat /\ (length (o_net v) <= 8)%nat.
Proof.
  pose proof (Hex.unhex_length _ _ Hb). destruct Hv as [].
  destruct v_apn0, v_ip0 as (_&_&_&?), v_str0, v_imsi0 as (_&?&_), v_net0. split_and!; lia.
Qed.

Lemma node1_ok d : node_ok d -> node_ok (node1 v d).
Proof. intros. pose proof lengths as (?&?&?&?&?&?). unfold node1. apply node_fset; [done|]. apply node_patch; [eauto 20 with node|room|room]. Qed.

Lemma node2_ok d : node_ok d -> node_ok (node2 v d).
Proof.
  intros. pose proof lengths as (?&?&?&?&?&?). unfold node2. apply node_patch; [|room|room].
  do 3 (apply node_fset; [done|]). apply node_patch; [eauto 20 with node|room|room].
Qed.

Lemma node3_ok d : node_ok d -> node_ok (node3 v b d).
Proof.
  intros. pose proof lengths as (?&?&?&?&?&?). unfold node3.
  assert (N : node_ok (fset Node.IsNet 2 (patch (patch (patch (fset Node.IMEI (atoll (o_imei v)) (fset Node.Vusim_Active_Flag 0 d))
    (Z.to_nat (f_off Spm.sIMSI)) (o_imsi v)) (Z.to_nat (f_off Spm.IMSI)) b) (Z.to_nat (f_off Node.Selnet)) (o_net v)))).
  { apply node_fset; [done|]. apply node_patch; [|room|room]. apply node_patch; [|room|room].
    apply node_patch; [eauto with node|room|room]. }
  case_match; eauto with node.
Qed.

Definition regions1 : list field :=
  [Spm.minite_Remain; Spm.lastStart; Spm.ifTest; Spm.orderType; Node.ifRoam; Node.speedType;
   Node.NeedFile; Node.APN; Node.IsApn].
Definition regions2 : list field :=
  [Spm.vpn; Spm.ifVPN; Spm.factoryFlag; Node.IP; Port_as_int; Node.SimBank_ID; Node.Channel_ID; Spm.speedStr].
Definition regions3 : list field :=
  [Node.Vusim_Active_Flag; Node.IMEI; Spm.sIMSI; Spm.IMSI; Node.Selnet; Node.IsNet; Node.speedType; Spm.Result].

Ltac region_hyps Ha :=
  cbn [forallb regions1 regions2 regions3] in Ha; rewrite ?andb_true_iff in Ha; decompose [and] Ha; clear Ha.

Lemma node1_other F d :
  node_ok d -> declared F = true -> forallb (apart F) regions1 = true ->
  fbytes F (node1 v d) = fbytes F d.
Proof. intros Hd HF Ha. pose proof lengths as (?&?&?&?&?&?). region_hyps Ha. unfold node1. by deep. Qed.

Lemma node2_other F d :
  node_ok d -> declared F = true -> forallb (apart F) regions2 = true ->
  fbytes F (node2 v d) = fbytes F d.
Proof. intros Hd HF Ha. pose proof lengths as (?&?&?&?&?&?). region_hyps Ha. unfold node2. by deep. Qed.

Lemma node3_other F d :
  node_ok d -> declared F = true -> forallb (apart F) regions3 = true ->
  fbytes F (node3 v b d) = fbytes F d.
Proof.
  intros Hd HF Ha. pose proof lengths as (?&?&?&?&?&?). region_hyps Ha. unfold node3. case_match; by deep.
Qed.

(** The port is set by an int store over Port and the two bytes after it. *)
Lemma port_low z d : node_ok d -> fget Node.Port (fset Port_as_int z d) = u16 z.
Proof.
  intros Hd. unfold fget.
  assert (E : fbytes Node.Port (fset Port_as_int z d) = take 2 (fbytes Port_as_int (fset Port_as_int z d))).
  { unfold fbytes. rewrite take_take. done. }
  rewrite E, fbytes_fset_same by (by apply declared_fits).
  change (Z.to_nat (f_size Port_as_int)) with 4%nat. cbn [le_enc take le_dec]. unfold u16.
  change 65536 with (256 * 256). rewrite Z.rem_mul_r by lia. lia.
Qed.

Ltac through :=
  try (rewrite node3_other by (reflexivity || assumption));
  try (rewrite node2_other by (reflexivity || assumption)).

Lemma granted_all d : node_ok d -> granted v d (node3 v b (node2 v (node1 v d))).
Proof.
  intros Hd. pose proof lengths as (?&?&?&?&?&?).
  pose proof (node1_ok d Hd) as N1. pose proof (node2_ok _ N1) as N2.
  split; unfold fget.
  - through. unfold node1. got.
  - through. unfold node1. got.
  - through. unfold node1. got.
  - through. unfold node1. got.
  - through. unfold node1. got.
  - unfold node3. case_match.
    + got.
    + deep. through. unfold node1. got.
  - through. unfold node1. got.
  - split; through; unfold node2; deep.
    { unfold vpn_node. repeat case_match; deep; rewrite get_same by (first [reflexivity|node_in]); reflexivity. }
    change (le_dec (fbytes Spm.ifVPN (vpn_node (o_vpn v) (node1 v d))))
      with (fget Spm.ifVPN (vpn_node (o_vpn v) (node1 v d))).
    rewrite vpn_node_mark by done. unfold fget. by rewrite node1_other.
  - through. unfold node2. got.
  - split; [through; unfold node1; got|]. apply starts_intro; [fsz|]. through.
    unfold node1. deep. apply take_patch; [node_in|done|fsz].
  - split; [apply starts_intro; [fsz|]|]; through; unfold node2; deep.
    + apply take_patch; [node_in|done|fsz].
    + apply port_low. node_in.
  - split; through; unfold node2; got.
  - apply starts_intro; [fsz|]. through. unfold node2. apply take_patch; [node_in|done|fsz].
  - unfold node3. case_match; got.
  - unfold node3. case_match; got.
  - rewrite Hb. split; [|f_equal; symmetry]; unfold node3; case_match; deep;
      apply whole_patch; first [done|by node_in].
  - split; [unfold node3; case_match; got|]. apply starts_intro; [fsz|].
    unfold node3. case_match; deep; (apply take_patch; [node_in|done|fsz]).
  - unfold node3. case_match; got.
Qed.
Lemma patch_byte i (G : field) (c : bytes) d :
  node_ok d -> declared G = true -> Z.of_nat (length c) <= f_size G -> outside i (filled G c) ->
  patch d (Z.to_nat (f_off G)) c !! i = d !! i.
Proof.
  intros Hd HG Hc Ho. destruct (declared_fits G d HG Hd) as (?&?&?).
  unfold outside, filled in Ho. cbn [f_off f_size] in Ho. apply lookup_patch_other; lia.
Qed.

Lemma vpn_byte i z d :
  node_ok d -> outside i Spm.vpn -> outside i Spm.ifVPN -> vpn_node z d !! i = d !! i.
Proof.
  intros Hd H1 H2. unfold vpn_node. repeat case_match; rewrite ?fset_byte by (done || eauto with node); done.
Qed.

(** [bytewise]: read a byte through all the writes to other places. *)
Ltac bytewise :=
  repeat first
    [ rewrite fset_byte by (first [eassumption|reflexivity|node_in])
    | rewrite vpn_byte by (first [eassumption|node_in])
    | rewrite patch_byte; [|node_in|reflexivity|fsz|eassumption] ].

Lemma granted_frame d i :
  node_ok d -> Forall (outside i) (places v) -> node3 v b (node2 v (node1 v d)) !! i = d !! i.
Proof.
  intros Hd Ho. pose proof lengths as (?&?&?&Li&Lb&?).
  pose proof (node1_ok d Hd) as N1. pose proof (node2_ok _ N1) as N2.
  assert (Hs : outside i (filled Spm.sIMSI (o_imsi v)) <-> outside i Spm.sIMSI) by (unfold outside, filled; cbn [f_off f_size]; by rewrite Li).
  assert (Hi : outside i (filled Spm.IMSI b) <-> outside i Spm.IMSI) by (unfold outside, filled; cbn [f_off f_size]; by rewrite Lb).
  unfold places in Ho. rewrite !Forall_cons, <-Hs, <-Hi in Ho. decompose [and] Ho. clear Ho.
  transitivity (node2 v (node1 v d) !! i); [unfold node3; case_match; bytewise; done|].
  transitivity (node1 v d !! i); [unfold node2; bytewise; done|].
  unfold node1. bytewise. done.
Qed.
End Sizes.

(** The whole function on a complete reply. *)
Lemma Get_Data_From_Deal_run Src v b d l w :
  offers Src v -> Hex.unhex (o_imsi v) = Some b -> node_ok d ->
  Get_Data_From_Deal Src (mkH d l w) = Ok (0, mkH (node3 v b (node2 v (node1 v d))) l w).
Proof.
  intros Hv Hb Hd. pose proof (lengths Src v b Hv Hb) as (?&?&?&?&?&?).
  pose proof (node1_ok Src v b Hv Hb d Hd) as N1. pose proof (node2_ok Src v b Hv Hb _ N1) as N2.
  pose proof (granted_all Src v b Hv Hb d Hd) as Hg.
  destruct (Hv) as [E1 E2 E3 E4 E5 E6 E7 [E8 L8] E9 E10 (E11&P1&P2&L11) (E12&P3&P4) [E13 L13] [E14 A14] E15 (E16&L16&_) [E17 L17]].
  unfold Get_Data_From_Deal.
  rewrite (int_to_run _ _ _ _ _ _ _ _ E1), (int_to_run _ _ _ _ _ _ _ _ E2), (int_to_run _ _ _ _ _ _ _ _ E3),
    (int_to_run _ _ _ _ _ _ _ _ E4), (int_to_run _ _ _ _ _ _ _ _ E5), (int_to_run _ _ _ _ _ _ _ _ E6),
    (int_to_run _ _ _ _ _ _ _ _ E7).
  rewrite (str_run _ _ _ _ _ _ _ (o_apn v));
    [|done|lia|eauto 20 with node|done|unfold spm_size, Node.APN; cbn [f_off]; lia].
  rewrite wr_run. change (fset Node.IsApn 1 _) with (node1 v d).
  rewrite (vpn_run _ _ _ _ _ _ E9 N1).
  unfold Get_Key_Value_Factory. rewrite bind_assoc, (lift_run _ _ _ _ E10). run.
  rewrite nget_same by eauto with node. change (Z.eqb (0 mod 256 ^ f_size Spm.factoryFlag) 1) with false. run.
  rewrite (ip_run _ _ _ _ _ (o_ip v) (o_port v)); [|done..|eauto with node].
  rewrite (slot_run _ _ _ _ _ (o_bank v) (o_chan v)) by done.
  rewrite (str_run _ _ _ _ _ _ _ (o_str v)); [|done|lia| |done|unfold spm_size, Spm.speedStr; cbn [f_off]; lia].
  2: { do 3 (apply node_fset; [done|]). apply node_patch; [eauto with node|done|unfold spm_size, Node.IP; cbn [f_off]; lia]. }
  change (patch (fset Node.Channel_ID _ _) _ _) with (node2 v (node1 v d)).
  set (d2 := node2 v (node1 v d)) in *.
  unfold Get_Key_Value_Vusim_Active_Flag. rewrite bind_assoc, (lift_run _ _ _ _ E14). rewrite A14. run.
  rewrite nget_same by eauto with node. change (Z.eqb (0 mod 256 ^ f_size Node.Vusim_Active_Flag) 1) with false. run.
  unfold Get_Key_Value_IMEI. rewrite bind_assoc, (lift_run _ _ _ _ E15). run.
  rewrite (imsi_run _ _ _ _ _ (o_imsi v) b); [|done..|eauto with node].
  rewrite (str_run _ _ _ _ _ _ _ (o_net v)); [|done|lia|node_in|done|room].
  change (negb (Z.eqb 1 0)) with true. cbn match. run.
  match goal with |- context [fget Node.speedType ?e] =>
    assert (Es : fget Node.speedType e = u8 (o_speed v)) end.
  { unfold fget. deep. unfold d2. rewrite (node2_other Src v b) by done. unfold node1. got. }
  rewrite Es. unfold node3. destruct (Z.eqb (u8 (o_speed v)) 1); run; unfold rd, gets; cbn [nd];
    unfold fget; deep; unfold d2, node2; deep; rewrite get_same by (reflexivity || node_in); done.
Qed.

(** C4: from a complete reply of the back end Get_Data_From_Deal fills the
    node: the numbers of the deal at the width of their members, the APN, the
    address, port and slot of the SIM card, the speed text, the IMSI as text
    and as bytes, the network selection; it clears Result, keeps the size of
    the node and makes no system call. Every byte of the node outside these
    places is left as it was; the port is stored as an int, over Port and the
    members SimBank_ID and Channel_ID behind it, which are set afterwards. *)
Theorem Get_Data_From_Deal_grants Src v d l w :
  offers Src v -> node_ok d ->
  exists d', Get_Data_From_Deal Src (mkH d l w) = Ok (0, mkH d' l w) /\ node_ok d' /\ granted v d d' /\
    (forall i, Forall (outside i) (places v) -> d' !! i = d !! i).
Proof.
  intros Hv Hd. destruct (v_imsi _ _ Hv) as (_ & _ & [b Hb]).
  eexists. split; [by apply Get_Data_From_Deal_run|].
  split; [|split; [by eapply granted_all|intros i; by eapply granted_frame]].
  eapply node3_ok; [done..|]. eapply node2_ok; [done..|]. by eapply node1_ok.
Qed.

(** A complete reply. *)
Definition pair_text (k v : string) : bytes := [34] ++ str k ++ [34; 58; 34] ++ str v ++ [34; 44].

Definition deal1 : bytes := padded 1024
  (pair_text "minsRemaining" "1440" ++ pair_text "lastStart" "1" ++ pair_text "ifTest" "0" ++
   pair_text "orderType" "2" ++ pair_text "ifRoam" "1" ++ pair_text "speedType" "1" ++
   pair_text "fileUpdate" "0" ++ pair_text "APN" "3gnet" ++ pair_text "ifVPN" "1" ++
   pair_text "factoryFlag" "0" ++ pair_text "IPAndPort" "10.0.0.7:10000" ++
   pair_text "slotNumber" "3-12" ++ pair_text "speedStr" "10-20-30" ++
   pair_text "SIMIfActivated" "yes" ++ pair_text "IMEI" "865081234567890" ++
   pair_text "IMSI" "809460011234567890" ++ pair_text "Selnet" "46001").

Definition offer1 : offer :=
  mkOffer 1440 1 0 2 1 1 0 1 (str "3gnet") (str "10.0.0.7") (str "10000") (str "3") (str "12")
    (str "10-20-30") (str "yes") (str "865081234567890") (str "809460011234567890") (str "46001").

Lemma offer1_ok : offers deal1 offer1.
Proof.
  split; try (vm_compute; reflexivity);
    repeat split; try (vm_compute; reflexivity); try discriminate;
    try (vm_compute; lia); try (vm_compute; repeat constructor; discriminate).
  vm_compute. eauto.
Qed.

Lemma Get_Data_From_Deal_grants_witness :
  exists d', Get_Data_From_Deal deal1 (mkH node0 [] (mkIo [] [])) = Ok (0, mkH d' [] (mkIo [] [])) /\
    node_ok d' /\ granted offer1 node0 d' /\ (forall i, Forall (outside i) (places offer1) -> d' !! i = node0 !! i).
Proof. apply Get_Data_From_Deal_grants; [apply offer1_ok|apply node0_ok]. Defined.
End Grant.
