(* ===== verification/HandlersInv.v ===== *)
(** * What every handler may change (src/src/TDM.c)

    Each command has a list of places of the node, [writes]; its handler
    changes no byte outside of them, whatever the terminal and the servers
    sent. The places are the members that the handler sets; where a text of
    a reply is copied without a look at the size of its member, the place is
    as long as the text can be. *)

From stdpp Require Import prelude gmap strings.
From S2P Require Import Prelude CLib Layout Sock HexText JsonText NodeState Deal Handlers.
Import Sock Deal Handlers.
Open Scope Z_scope.

Module HandlersInv.

(** ** The bytes a call may change *)

(** [F] lies inside one of the places [ws]. *)
Definition covers (ws : list field) (F : field) : bool :=
  existsb (fun W => Z.leb (f_off W) (f_off F) && Z.leb (f_off F + f_size F) (f_off W + f_size W)) ws.

(** The first [n] bytes from member [F] on, and all bytes from it on. *)
Definition upto (F : field) (n : Z) : field := mkField (f_off F) n.
Definition from (F : field) : field := upto F spm_size.

Lemma covers_out i ws F : Forall (outside i) ws -> covers ws F = true -> outside i F.
Proof.
  intros Ho. unfold covers. rewrite existsb_exists. intros (W & Hin & H).
  apply andb_prop in H as [H1%Z.leb_le H2%Z.leb_le].
  rewrite Forall_forall in Ho. apply list_elem_of_In, Ho in Hin. unfold outside in *. lia.
Qed.

Lemma covers_trans vs ws F : covers vs F = true -> forallb (covers ws) vs = true -> covers ws F = true.
Proof.
  unfold covers at 1. rewrite existsb_exists, forallb_forall. intros (W & Hin & H) Ha. specialize (Ha W Hin).
  unfold covers in *. rewrite existsb_exists in *. destruct Ha as (U & Hu & H'). exists U. split; [done|].
  rewrite !andb_true_iff, !Z.leb_le in *. lia.
Qed.

Lemma covers_all vs ws us : forallb (covers vs) us = true -> forallb (covers ws) vs = true -> forallb (covers ws) us = true.
Proof. rewrite !(forallb_forall _ us). intros H Ha F HF. by eapply covers_trans; [apply H|]. Qed.

(** ** The library functions write inside their destination *)

Lemma Get_Key_Value_length Src Key Dst n a Dst' :
  Json.Get_Key_Value Src Key Dst n = Ok (a, Dst') -> length Dst' = length Dst.
Proof.
  unfold Json.Get_Key_Value. intros H. apply res_bind_inv in H as (d & E & H).
  apply mwrite_length in E. rewrite <-E. clear E.
  repeat match type of H with
  | res_bind _ _ = Ok _ => apply res_bind_inv in H as (? & ? & H)
  | match ?x with _ => _ end = Ok _ => destruct x
  | Ok _ = Ok _ => injection H as _ <-
  end; try done; by eapply mwrite_length.
Qed.

(** The value of a key is read into Key[64]. *)
Lemma key_value_short Src name t : key_value Src name = Ok (Some t) -> (length t <= 63)%nat.
Proof.
  unfold key_value. intros H. apply res_bind_inv in H as ([r Key] & E & H).
  apply Get_Key_Value_length in E. rewrite length_zeros in E.
  destruct (Z.eqb r 0); [|done]. apply res_bind_inv in H as (u & Ec & H). injection H as ->.
  unfold cstring in Ec. destruct (has_nul Key) eqn:En; [|done]. injection Ec as <-.
  pose proof (cstr_length_nul Key En). lia.
Qed.

(** str2Hex writes one byte per two characters. *)
Lemma str2Hex_loop_frame fuel src : forall dst i k n a dst',
  Hex.str2Hex_loop fuel src dst i k n = Ok (a, dst') ->
  length dst' = length dst /\
  forall j, (k < j)%nat -> n <= Z.of_nat (i + 2 * (j - k)) -> dst' !! j = dst !! j.
Proof.
  induction fuel as [|f IH]; intros dst i k n a dst'; cbn [Hex.str2Hex_loop]; [done|]. intros H.
  apply res_bind_inv in H as (b & _ & H). apply res_bind_inv in H as (d1 & E1 & H).
  destruct (Z.eqb _ 16).
  { injection H as _ <-. split; [by eapply mwrite_length|]. intros j Hj _. eapply mwrite_other; [done|]. simpl. lia. }
  apply res_bind_inv in H as (d2 & E2 & H).
  assert (L2 : length d2 = length dst) by (apply mwrite_length in E1, E2; congruence).
  assert (F2 : forall j, (k < j)%nat -> d2 !! j = dst !! j).
  { intros j Hj. rewrite (mwrite_other _ _ _ _ _ E2), (mwrite_other _ _ _ _ _ E1); [done|simpl; lia..]. }
  destruct (Z.eqb _ 16); [injection H as _ <-; split; [done|intros; by apply F2]|].
  apply res_bind_inv in H as (d3 & E3 & H).
  assert (L3 : length d3 = length dst) by (apply mwrite_length in E3; congruence).
  assert (F3 : forall j, (k < j)%nat -> d3 !! j = dst !! j).
  { intros j Hj. rewrite (mwrite_other _ _ _ _ _ E3) by (simpl; lia). by apply F2. }
  destruct (Z.ltb_spec (Z.of_nat (i + 2)) n); [|injection H as _ <-; split; [done|intros; by apply F3]].
  apply IH in H as [L H]. split; [congruence|]. intros j Hj Hn. rewrite H by lia. by apply F3.
Qed.

(** Hex2String writes two digits per byte and the NUL. *)
Lemma Hex2String_loop_frame n src : forall dst i dst',
  Hex.Hex2String_loop n src dst i = Ok dst' ->
  length dst' = length dst /\ (bytes_ok dst -> bytes_ok dst') /\
  forall j, (2 * (i + n) < j)%nat -> dst' !! j = dst !! j.
Proof.
  assert (D : forall t, is_byte (Hex.hex_digit t)).
  { intros t. unfold Hex.hex_digit. destruct (decide (Z.to_nat t < length Hex.List_Capital)%nat) as [Hl|Hl].
    - assert (Hb : bytes_ok Hex.List_Capital) by (apply (bool_decide_eq_true_1 (bytes_ok _)); vm_compute; reflexivity).
      rewrite Forall_forall in Hb. apply Hb, list_elem_of_In, nth_In. lia.
    - rewrite nth_overflow by lia. done. }
  induction n as [|n IH]; intros dst i dst'; cbn [Hex.Hex2String_loop]; intros H.
  - split_and!; [by eapply mwrite_length|intros; eapply mwrite_bytes_ok; [done| |done]; by repeat constructor|].
    intros j Hj. eapply mwrite_other; [done|]. simpl. lia.
  - apply res_bind_inv in H as (c & _ & H). apply res_bind_inv in H as (d1 & E1 & H).
    apply res_bind_inv in H as (d2 & E2 & H). apply IH in H as (L & B & F). split_and!.
    + apply mwrite_length in E1, E2. congruence.
    + intros Hd. apply B. eapply mwrite_bytes_ok; [|by apply Forall_singleton|exact E2].
      eapply mwrite_bytes_ok; [done|by apply Forall_singleton|exact E1].
    + intros j Hj. rewrite F, (mwrite_other _ _ _ _ _ E2), (mwrite_other _ _ _ _ _ E1); [done|simpl; lia..].
Qed.

Lemma span_length p s : (length (span p s).1 <= length s)%nat /\ (length (span p s).2 <= length s)%nat.
Proof.
  induction s as [|c s IH]; cbn [span]; [done|]. destruct (p c); [|cbn; lia].
  destruct (span p s) as [u v]. cbn in *. lia.
Qed.

Lemma strtok_length s d t r : strtok_r s d = (Some t, r) -> (length t <= length s)%nat.
Proof.
  unfold strtok_r. pose proof (span_length (in_set d) s) as [_ Hs].
  destruct (span (in_set d) s) as [u [|c s1]]; [done|]. cbn [snd] in *.
  pose proof (span_length (fun c => negb (in_set d c)) (c :: s1)) as [Ht _].
  destruct (span (fun c => negb (in_set d c)) (c :: s1)) as [tok rest]. cbn [fst] in Ht. intros [= <- _]. lia.
Qed.

Lemma length_fbytes_le F d : (length (fbytes F d) <= Z.to_nat (f_size F))%nat.
Proof. unfold fbytes. rewrite length_take. lia. Qed.

(** ** Calls that leave a byte alone *)

(** Byte [i] of the node is [x]. *)
Definition frozen (i : nat) (x : option Z) (s : hst) : Prop := node_ok (nd s) /\ nd s !! i = x.

Section Frozen.
Context (ws : list field) (i : nat) (x : option Z) (Ho : Forall (outside i) ws).

Lemma frozen_wr F z : declared F = true -> covers ws F = true -> keeps (frozen i x) (wr F z).
Proof.
  intros HF Hc s a s' [Hs Hx] [= <- <-]. split; cbn [nd]; [by apply node_fset|].
  rewrite fset_byte; [done|done|done|by eapply covers_out].
Qed.

Lemma frozen_cpy n F b :
  (length b <= n)%nat -> 0 <= f_off F -> covers ws (upto F (Z.of_nat n)) = true -> keeps (frozen i x) (cpy F b).
Proof.
  intros Hl H0 Hc s a s' [Hs Hx] E. unfold cpy, fcpy in E.
  destruct (mwrite (nd s) _ b) as [d|] eqn:Em; [|done]. injection E as _ <-. split; cbn [nd].
  - unfold node_ok. by rewrite (mwrite_length _ _ _ _ Em).
  - apply (covers_out i) in Hc; [|exact Ho]. unfold outside, upto in Hc. cbn [f_off f_size] in Hc.
    rewrite (mwrite_other _ _ _ _ _ Em) by lia. done.
Qed.

Lemma frozen_fill {A} n F (f : bytes -> res (A * bytes)) :
  (forall b a b', (length b <= Z.to_nat spm_size)%nat -> f b = Ok (a, b') ->
    length b' = length b /\ forall j, (n <= j)%nat -> b' !! j = b !! j) ->
  declared F = true -> covers ws (upto F (Z.of_nat n)) = true -> keeps (frozen i x) (fill F f).
Proof.
  intros Hf HF Hc s a s' [Hs Hx] E. unfold fill in E.
  destruct (f _) as [[u b]|] eqn:Ef; [|done]. injection E as _ <-. apply Hf in Ef as [L Hj]; [|rewrite length_drop, Hs; lia]. cbn [nd].
  destruct (declared_fits F _ HF Hs) as (H0 & H1 & H2). unfold frozen, node_ok in *. cbn [nd].
  rewrite length_drop in L. split; [rewrite length_app, length_take, L; lia|].
  apply (covers_out i) in Hc; [|exact Ho]. unfold outside, upto in Hc. cbn [f_off f_size] in Hc.
  rewrite <-Hx, <-(take_drop (Z.to_nat (f_off F)) (nd s)) at 1.
  destruct (decide (i < Z.to_nat (f_off F))%nat) as [Hi|Hi].
  - rewrite take_drop, lookup_app_l by (rewrite length_take; lia). by rewrite lookup_take_lt.
  - rewrite take_drop, lookup_app_r by (rewrite length_take; lia). rewrite length_take_le by lia.
    rewrite Hj, lookup_drop by lia. f_equal. lia.
Qed.

Lemma frozen_io {A} (m : M io A) : keeps (frozen i x) (io_ m).
Proof. intros s a s' Hs. unfold io_. destruct (m (w_io s)) as [[? ?]|]; [intros [= <- <-]|]; done. Qed.

Lemma frozen_rdlog num : keeps (frozen i x) (rdlog num).
Proof.
  intros s a s' Hs. unfold rdlog. destruct (Z.ltb num 0); [done|].
  destruct (logs s !! Z.to_nat num); [intros [= <- <-]|]; done.
Qed.

Lemma frozen_wrlog num fd : keeps (frozen i x) (wrlog num fd).
Proof. intros s a s' Hs [= <- <-]. done. Qed.

Lemma keeps_lift_bind {A B} P (r : res A) (k : A -> H B) :
  (forall a, r = Ok a -> keeps P (k a)) -> keeps P (bind (lift r) k).
Proof. intros Hk s b s' HP E. apply bind_inv in E as (a & s1 & E1 & E2). unfold lift in E1. destruct r; [|done]. injection E1 as -> ->. by eapply Hk. Qed.

#[local] Hint Resolve frozen_io frozen_rdlog frozen_wrlog : keeps.

(** [allowed]: the places of a part are among those of the whole. *)
Ltac allowed :=
  match goal with
  | Hw : forallb (covers ws) ?big = true |- covers ws ?F = true => apply (covers_trans big); [vm_compute; reflexivity|exact Hw]
  | Hw : forallb (covers ws) ?big = true |- forallb (covers ws) _ = true => apply (covers_all big); [vm_compute; reflexivity|exact Hw]
  end.
#[local] Hint Extern 0 (forallb (covers _) _ = true) => allowed : keeps.
#[local] Hint Extern 0 (covers _ _ = true) => allowed : keeps.

(** [keep]: descend through the steps of a handler. *)
Ltac keep :=
  repeat match goal with
  | |- keeps _ (bind (lift _) _) => apply keeps_lift_bind; intros ? ?
  | |- keeps _ (bind _ _) => apply keeps_bind; [|intros ?]
  | |- keeps _ (match ?x with _ => _ end) => destruct x eqn:?
  | |- keeps _ (let '(_, _) := ?x in _) => destruct x eqn:?
  | |- keeps _ (rd _) => apply keeps_gets
  | |- keeps _ (rd8 _) => apply keeps_gets
  | |- keeps _ (rd32 _) => apply keeps_gets
  | |- keeps _ (rdb _) => apply keeps_gets
  | |- keeps _ (rdtail _) => apply keeps_gets
  | |- keeps _ (wr _ _) => apply frozen_wr; [reflexivity|allowed]
  | |- keeps _ _ => solve [auto with keeps]
  end.

(** A text of a reply: at most 63 bytes. *)
Lemma frozen_value F Src name t :
  key_value Src name = Ok (Some t) -> 0 <= f_off F -> covers ws (upto F 63) = true -> keeps (frozen i x) (cpy F t).
Proof. intros E H0 Hc. apply (frozen_cpy 63); [by eapply key_value_short|done|done]. Qed.

Lemma frozen_Str Src name F len :
  0 <= f_off F -> covers ws (upto F 63) = true -> keeps (frozen i x) (Get_Key_Value_Str Src name F len).
Proof. intros H0 Hc. unfold Get_Key_Value_Str. keep; eapply frozen_value; (done || (subst; eassumption)). Qed.
#[local] Hint Extern 1 (keeps _ (Get_Key_Value_Str _ _ _ _)) => apply frozen_Str; [vm_compute; discriminate|allowed] : keeps.

Lemma frozen_int F a b : declared F = true -> covers ws F = true -> keeps (frozen i x) (int_to F a b).
Proof. intros. unfold int_to. keep. by apply frozen_wr. Qed.
#[local] Hint Extern 1 (keeps _ (int_to _ _ _)) => apply frozen_int; [reflexivity|allowed] : keeps.

Lemma frozen_Close F : declared F = true -> covers ws F = true -> keeps (frozen i x) (Close_Socket_Fd F).
Proof. intros. unfold Close_Socket_Fd. keep. by apply frozen_wr. Qed.
#[local] Hint Extern 1 (keeps _ (Close_Socket_Fd _)) => apply frozen_Close; [reflexivity|allowed] : keeps.

(** *** Calls that change nothing in the node *)

Lemma frozen_Send_Sim_Data Src Dst n : keeps (frozen i x) (Send_Sim_Data Src Dst n).
Proof. unfold Send_Sim_Data, LogMsg. keep. Qed.
#[local] Hint Resolve frozen_Send_Sim_Data : keeps.

Lemma frozen_send_log n : forall retry Src num, keeps (frozen i x) (send_log retry n Src num).
Proof.
  induction n as [|n IH]; intros; cbn [send_log]; [apply keeps_fail|].
  unfold ReConectJavaServer, close_log, LogMsg. keep.
Qed.
Lemma frozen_VPN_Log a b c d e : keeps (frozen i x) (VPN_Log a b c d e).
Proof. unfold VPN_Log, Send_Logs_Data. pose proof frozen_send_log. keep. Qed.
Lemma frozen_queue_log a b : keeps (frozen i x) (queue_log a b).
Proof. unfold queue_log, threadpool_add_job. keep. Qed.
Lemma frozen_socket_reply a b : keeps (frozen i x) (Get_Deal_From_SimPool_socket a b).
Proof. unfold Get_Deal_From_SimPool_socket. keep. Qed.
Lemma frozen_Status a : keeps (frozen i x) (Set_SimCards_Status a).
Proof. unfold Set_SimCards_Status. keep. Qed.
Lemma frozen_sn15 : keeps (frozen i x) sn15.
Proof. unfold sn15. keep. Qed.
Lemma frozen_Heart n : keeps (frozen i x) (Heart_Log_Pack n).
Proof. unfold Heart_Log_Pack. keep. Qed.
Lemma frozen_Login a : keeps (frozen i x) (Login_Log_Pack_Data a).
Proof. unfold Login_Log_Pack_Data. keep. Qed.
Lemma frozen_answer a b : keeps (frozen i x) (answer_fd1 a b).
Proof. unfold answer_fd1. keep. Qed.
Lemma frozen_auth a : keeps (frozen i x) (AccessAuth_Result_Pack a).
Proof. unfold AccessAuth_Result_Pack, auth_result, LogMsg. keep. Qed.
#[local] Hint Resolve frozen_VPN_Log frozen_queue_log frozen_socket_reply frozen_Status frozen_sn15 frozen_Heart
  frozen_Login frozen_answer frozen_auth : keeps.

(** *** Calls that set members *)

Lemma frozen_Err c :
  forallb (covers ws) [Spm.factoryFlag; Spm.Result] = true -> keeps (frozen i x) (SIM_Allocate_Err c).
Proof. intros Hw. unfold SIM_Allocate_Err. keep. Qed.

Lemma frozen_refused c :
  Z.eqb c SockErr = false -> forallb (covers ws) [Spm.Result] = true -> keeps (frozen i x) (SIM_Allocate_Err c).
Proof. intros E Hw. unfold SIM_Allocate_Err. rewrite E. keep. Qed.

Lemma frozen_pool a b :
  forallb (covers ws) [Spm.Result] = true -> keeps (frozen i x) (Get_Deal_From_SimPool a b).
Proof.
  intros Hw. unfold Get_Deal_From_SimPool, LogMsg. keep.
  apply frozen_refused; [by repeat case_match|allowed].
Qed.
Lemma frozen_Set_Deal a b : keeps (frozen i x) (Set_Deal_From_SimPool a b).
Proof. unfold Set_Deal_From_SimPool. keep. Qed.
#[local] Hint Resolve frozen_pool frozen_Set_Deal frozen_Err : keeps.

Lemma frozen_Speed :
  forallb (covers ws) [upto Spm.speedStr 63] = true -> keeps (frozen i x) Get_SpeedStr_From_Socket.
Proof. intros Hw. unfold Get_SpeedStr_From_Socket, LogMsg. keep. Qed.
#[local] Hint Resolve frozen_Speed : keeps.
Lemma frozen_Config a :
  forallb (covers ws) [upto Spm.speedStr 63] = true -> keeps (frozen i x) (Get_Config_By_MCC a).
Proof. intros Hw. unfold Get_Config_By_MCC. keep. Qed.
Lemma frozen_Deal_Proc a b :
  forallb (covers ws) [Spm.minite_Remain; Spm.lastStart; Spm.Result] = true -> keeps (frozen i x) (Deal_Proc a b).
Proof. intros Hw. unfold Deal_Proc. keep. Qed.
Lemma frozen_TT_Log a b c : forallb (covers ws) [Spm.vir_flag] = true -> keeps (frozen i x) (TT_Log_Pack_Data a b c).
Proof. intros Hw. unfold TT_Log_Pack_Data. keep. Qed.
Lemma frozen_Local n : forallb (covers ws) [Flow.remain_min] = true -> keeps (frozen i x) (Local_Log_Pack n).
Proof. intros Hw. unfold Local_Log_Pack. keep. Qed.
#[local] Hint Resolve frozen_Config frozen_Deal_Proc frozen_TT_Log frozen_Local : keeps.

(** 18 digits and the NUL. *)
Lemma frozen_show src :
  forallb (covers ws) [upto Spm.sIMSI 19] = true -> keeps (frozen i x) (show_IMSI src).
Proof.
  intros Hw. unfold show_IMSI. apply keeps_bind; [|intros ?; keep]. apply (frozen_fill 19); [|reflexivity|allowed].
  intros b a b' _ H. unfold Hex.Hex2String in H. apply res_bind_inv in H as (d & E & H). injection H as _ <-.
  apply Hex2String_loop_frame in E as (L & _ & F). split; [done|]. intros j Hj. apply F.
  change (Z.to_nat LEN_OF_IMSI) with 9%nat. lia.
Qed.
#[local] Hint Resolve frozen_show : keeps.

(** What the reply with the deal may set. *)
Definition deal_places : list field :=
  [Spm.minite_Remain; Spm.lastStart; Spm.ifTest; Spm.orderType; Spm.vpn; Spm.ifVPN; Spm.factoryFlag;
   upto Spm.speedStr 63; upto Spm.sIMSI 63; upto Spm.IMSI 32; Spm.Result; from Spm.ServerInfo].

Lemma frozen_deal a : forallb (covers ws) deal_places = true -> keeps (frozen i x) (Get_Data_From_Deal a).
Proof.
  intros Hw. unfold Get_Data_From_Deal, Get_Key_Value_VPN, Get_Key_Value_Factory, Get_Key_Value_IPAndPort,
    Get_Key_Value_Str_Type, Get_Key_Value_Vusim_Active_Flag, Get_Key_Value_IMEI, Get_Key_Value_IMSI.
  keep.
  - apply (frozen_fill (Z.to_nat spm_size)); [|reflexivity|allowed]. intros b u b' Hl E.
    apply Get_Key_Value_length in E. split; [done|]. intros j Hj. by rewrite !lookup_ge_None_2 by lia.
  - apply (frozen_cpy 63); [|vm_compute; discriminate|allowed].
    etrans; [by eapply strtok_length|]. eapply key_value_short. by subst.
  - eapply frozen_value; [by subst|vm_compute; discriminate|allowed].
  - eapply frozen_value; [by subst|vm_compute; discriminate|allowed].
  - apply (frozen_fill 32); [|reflexivity|allowed]. intros b u b' _ E.
    apply str2Hex_loop_frame in E as [L F]. split; [done|]. intros j Hj. apply F; [lia|].
    assert (length l <= 63)%nat by (eapply key_value_short; by subst). lia.
Qed.
#[local] Hint Resolve frozen_deal : keeps.

Lemma frozen_Remote a :
  forallb (covers ws) (Spm.socket_spm :: AA.MCC :: Spm.MCC :: deal_places) = true ->
  keeps (frozen i x) (Get_Deal_From_Remote a).
Proof.
  intros Hw. unfold Get_Deal_From_Remote. keep; (apply (frozen_cpy 128); [vm_compute; lia|vm_compute; discriminate|allowed]).
Qed.
#[local] Hint Resolve frozen_Remote : keeps.

Lemma frozen_CFMD_Soeckt a b c :
  forallb (covers ws) [Spm.minite_Remain; Spm.lastStart; Spm.Result; upto Spm.speedStr 63] = true ->
  keeps (frozen i x) (Coding_With_CFMD_Soeckt a b c).
Proof. intros Hw. unfold Coding_With_CFMD_Soeckt, remain4. keep. Qed.
#[local] Hint Resolve frozen_CFMD_Soeckt : keeps.

(** *** The request to the SIM card *)

(** The node as memory: its members are bytes. *)
Definition frozen_bytes (s : hst) : Prop := frozen i x s /\ bytes_ok (nd s).

(** [leads P Q m]: from [P] every result of [m] has [Q]. *)
Definition leads {A} (P Q : hst -> Prop) (m : H A) : Prop := forall s a s', P s -> m s = Ok (a, s') -> Q s'.

Lemma leads_bind {A B} P Q R (m : H A) (k : A -> H B) :
  leads P Q m -> (forall a, leads Q R (k a)) -> leads P R (bind m k).
Proof. intros Hm Hk s b s2 HP E. apply bind_inv in E as (a & s1 & E1 & E2). eapply Hk; [|done]. by eapply Hm. Qed.

Lemma leads_weaken {A} (P P' Q : hst -> Prop) (m : H A) : (forall s, P s -> P' s) -> leads P' Q m -> leads P Q m.
Proof. intros HP Hm s a s' Hs. apply Hm. by apply HP. Qed.

Lemma bytes_gets {A} (f : hst -> A) : leads frozen_bytes frozen_bytes (gets f).
Proof. intros s a s' HP [= <- <-]. done. Qed.

Lemma bytes_wr F z : declared F = true -> covers ws F = true -> leads frozen_bytes frozen_bytes (wr F z).
Proof.
  intros HF Hc s a s' [Hs Hb] E. split; [by eapply (frozen_wr F z HF Hc)|].
  injection E as _ <-. by apply fset_bytes_ok.
Qed.

Lemma bytes_show src :
  forallb (covers ws) [upto Spm.sIMSI 19] = true -> leads frozen_bytes frozen_bytes (show_IMSI src).
Proof.
  intros Hw s a s' [Hs Hb] E. split; [by eapply (frozen_show src Hw)|].
  unfold show_IMSI in E. apply bind_inv in E as (u & s1 & E & [= _ <-]). unfold fill in E.
  destruct (Hex.Hex2String _ _ _) as [[v d]|] eqn:Eh; [|done]. injection E as _ <-. cbn [nd].
  unfold Hex.Hex2String in Eh. apply res_bind_inv in Eh as (d' & E & [= _ ->]).
  apply Hex2String_loop_frame in E as (_ & B & _). apply Forall_app. split; [by apply Forall_take|].
  apply B. by apply Forall_drop.
Qed.

Lemma byte_digits c : is_byte c -> (length (fmt_d c) <= 3)%nat.
Proof.
  intros Hc. assert (Ht : forallb (fun c => Nat.leb (length (fmt_d c)) 3) (Z.of_nat <$> seq 0 256) = true) by (vm_compute; reflexivity).
  rewrite forallb_forall in Ht. apply Nat.leb_le, Ht, list_elem_of_In, list_elem_of_fmap.
  exists (Z.to_nat c). unfold is_byte in Hc. split; [lia|]. apply elem_of_seq. lia.
Qed.

Lemma nth_byte b n : bytes_ok b -> is_byte (nth n b 0).
Proof.
  intros Hb. destruct (decide (n < length b)%nat); [|rewrite nth_overflow by lia; done].
  rewrite Forall_forall in Hb. by apply Hb, list_elem_of_In, nth_In.
Qed.

Definition card_places : list field := [Spm.len; Node.IP; Node.Port; Node.SimBank_ID; Node.Channel_ID].

Lemma appended_leads :
  forallb (covers ws) card_places = true -> leads frozen_bytes (frozen i x) take_appended_address.
Proof.
  intros Hw s a s' [Hs Hb] E. unfold take_appended_address in E.
  apply bind_inv in E as (len & s1 & [= <- <-] & E). cbn zeta in E.
  apply bind_inv in E as (d & s1 & [= <- <-] & E).
  apply bind_inv in E as (para & s1 & E1 & E). unfold lift in E1. destruct (mread _ _ _) as [b|] eqn:Er; [|done].
  injection E1 as -> ->. apply mread_bytes_ok in Er; [|done].
  assert (Hip : bytes_ok (fbytes Dip.ip para)) by (by apply Forall_take, Forall_drop).
  eapply keeps_bind; [| |exact Hs|exact E].
  - apply (frozen_cpy 16); [|vm_compute; discriminate|allowed]. unfold dotted. rewrite !length_app.
    pose proof (fun n => byte_digits _ (nth_byte _ n Hip)) as Hd.
    pose proof (Hd 0%nat). pose proof (Hd 1%nat). pose proof (Hd 2%nat). pose proof (Hd 3%nat).
    change (length (str ".")) with 1%nat. cbn [length]. lia.
  - intros ?. cbv beta. keep.
Qed.

Lemma PickUp_leads a :
  forallb (covers ws) (Spm.socket_spm :: card_places) = true -> leads frozen_bytes (frozen i x) (PickUp_Data_Spm a).
Proof.
  intros Hw. unfold PickUp_Data_Spm.
  do 3 (eapply leads_bind; [apply bytes_gets|intros ?]).
  eapply leads_bind; [|intros ?; change (keeps (frozen i x)) with (leads (frozen i x) (frozen i x) (A := (Z * bytes * Z)))].
  - destruct (_ && _); [apply appended_leads; allowed|]. intros s u s' [Hs _] [= _ <-]. done.
  - match goal with |- leads ?P ?P ?m => change (keeps P m) end. unfold LogMsg. keep.
Qed.

(** ** The places of each command *)

Lemma frozen_Coding_Spm a b c :
  forallb (covers ws) [Spm.socket_spm] = true -> keeps (frozen i x) (Data_Coding_Spm a b c).
Proof. intros Hw. unfold Data_Coding_Spm, LogMsg. keep. Qed.
#[local] Hint Resolve frozen_Coding_Spm : keeps.

Definition writes (CMD_TAG : Z) : list field :=
  if Z.eqb CMD_TAG TAG_ACCESS_AUTH then
    Spm.socket_spm :: AA.MCC :: Spm.MCC :: Spm.take_time :: Spm.versionAPK :: Spm.type :: deal_places
  else if Z.eqb CMD_TAG TAG_SIMFILE_REQUEST then Spm.socket_spm :: card_places
  else if Z.eqb CMD_TAG TAG_IP then [Spm.factoryFlag; Spm.Result]
  else if Z.eqb CMD_TAG TAG_CMDTT then
    Spm.type :: Spm.tt_cnt :: upto Spm.sIMSI 19 :: Spm.Result :: Spm.socket_spm :: card_places
  else if Z.eqb CMD_TAG TAG_HB then [Spm.IMSI; Spm.SN; upto Spm.sIMSI 19]
  else if Z.eqb CMD_TAG TAG_HB_NEW then [Spm.type]
  else if Z.eqb CMD_TAG TAG_CFMD then
    [Spm.SN; Spm.version; Spm.minite_Remain; Spm.lastStart; Spm.Result; upto Spm.speedStr 63; upto Spm.sIMSI 19;
     Spm.versionAPK; Spm.MCC; Spm.state; Spm.locale_flag; Spm.socket_spm]
  else if Z.eqb CMD_TAG TAG_LOCAL_STA then [Spm.type; Flow.remain_min]
  else if Z.eqb CMD_TAG TAG_LOGOUT then [upto Spm.sIMSI 19; Spm.fd1; Spm.outtime; Spm.socket_spm]
  else if Z.eqb CMD_TAG TAG_DEAL then [upto Spm.sIMSI 19; Spm.minite_Remain; Spm.lastStart; Spm.Result]
  else if Z.eqb CMD_TAG TAG_VPN_RELEASE_CMD then [Spm.vpn_flag]
  else [].

Lemma leads_keeps {A} (m : H A) : keeps (frozen i x) m -> leads frozen_bytes (frozen i x) m.
Proof. intros Hk s a s' [Hs _]. by apply Hk. Qed.

Lemma CMDTT_leads :
  forallb (covers ws) (writes TAG_CMDTT) = true -> leads frozen_bytes (frozen i x) Coding_With_CMDTT.
Proof.
  intros Hw. unfold Coding_With_CMDTT.
  eapply leads_bind; [apply bytes_wr; [reflexivity|allowed]|intros ?].
  eapply leads_bind; [apply bytes_gets|intros ?].
  eapply leads_bind; [apply bytes_wr; [reflexivity|allowed]|intros ?].
  eapply leads_bind; [apply bytes_gets|intros ?].
  eapply leads_bind; [apply bytes_show; allowed|intros ?].
  eapply leads_bind; [apply PickUp_leads; allowed|intros [[sock SendBuf] sendbytes]].
  match goal with |- leads ?P ?P ?m => change (keeps P m) end. cbn zeta. keep.
Qed.

Lemma SIMFILE_leads :
  forallb (covers ws) (writes TAG_SIMFILE_REQUEST) = true -> leads frozen_bytes (frozen i x) Coding_With_SIMFILE_REQUEST.
Proof.
  intros Hw. unfold Coding_With_SIMFILE_REQUEST.
  eapply leads_bind; [apply PickUp_leads; allowed|intros [[sock SendBuf] sendbytes]].
  match goal with |- leads ?P ?P ?m => change (keeps P m) end. keep.
Qed.

Lemma frozen_ACCESS_AUTH :
  forallb (covers ws) (writes TAG_ACCESS_AUTH) = true -> keeps (frozen i x) Coding_With_ACCESS_AUTH.
Proof. intros Hw. unfold Coding_With_ACCESS_AUTH, SIM_Allocate_Proc. keep. Qed.

Lemma frozen_Change_IP : forallb (covers ws) (writes TAG_IP) = true -> keeps (frozen i x) Send_Change_IP.
Proof. intros Hw. unfold Send_Change_IP. keep. Qed.

Lemma frozen_HB : forallb (covers ws) (writes TAG_HB) = true -> keeps (frozen i x) Coding_With_HB.
Proof.
  intros Hw. unfold Coding_With_HB. cbn zeta. keep.
  - apply (frozen_cpy 9); [apply (length_fbytes_le Beat.IMSI)|vm_compute; discriminate|allowed].
  - apply (frozen_cpy 16); [etrans; [apply (length_fbytes_le Beat.SN)|vm_compute; lia]|vm_compute; discriminate|allowed].
Qed.

Lemma frozen_NewHB : forallb (covers ws) (writes TAG_HB_NEW) = true -> keeps (frozen i x) Coding_With_NewHB.
Proof. intros Hw. unfold Coding_With_NewHB. keep. Qed.

Lemma frozen_CFMD : forallb (covers ws) (writes TAG_CFMD) = true -> keeps (frozen i x) Coding_With_CFMD.
Proof.
  intros Hw. unfold Coding_With_CFMD. cbn zeta. keep.
  apply (frozen_cpy 15); [rewrite length_take; lia|vm_compute; discriminate|allowed].
Qed.

Lemma frozen_Local_STA : forallb (covers ws) (writes TAG_LOCAL_STA) = true -> keeps (frozen i x) Coding_With_Local.
Proof. intros Hw. unfold Coding_With_Local. keep. Qed.

Lemma frozen_LogOut : forallb (covers ws) (writes TAG_LOGOUT) = true -> keeps (frozen i x) Coding_With_LogOut.
Proof. intros Hw. unfold Coding_With_LogOut. cbn zeta. keep. Qed.

Lemma frozen_Low_Vsim : keeps (frozen i x) Coding_With_Low_Vsim.
Proof. unfold Coding_With_Low_Vsim. cbn zeta. keep. Qed.

Lemma frozen_Deal : forallb (covers ws) (writes TAG_DEAL) = true -> keeps (frozen i x) Coding_With_Deal.
Proof. intros Hw. unfold Coding_With_Deal, LogMsg. cbn zeta. keep. Qed.

Lemma frozen_VPN_RQST : keeps (frozen i x) Coding_With_VPN_RQST.
Proof. unfold Coding_With_VPN_RQST. cbn zeta. keep. Qed.

Lemma frozen_VPN_CMD : forallb (covers ws) (writes TAG_VPN_RELEASE_CMD) = true -> keeps (frozen i x) Coding_With_VPN_CMD.
Proof. intros Hw. unfold Coding_With_VPN_CMD. cbn zeta. keep. Qed.
End Frozen.

(** The handler of [CMD_TAG], started in [s], returns in [s']. *)
Definition handles (CMD_TAG : Z) (s s' : hst) : Prop := exists u, Coding_With_Date CMD_TAG s = Ok (u, s').

Lemma run_leads {A} P Q (m : H A) : leads P Q m -> leads P Q (m ;; ret tt).
Proof. intros Hm. eapply leads_bind; [exact Hm|]. intros a s u s' HQ [= _ <-]. done. Qed.

Lemma Coding_With_Date_leads CMD_TAG i x :
  Forall (outside i) (writes CMD_TAG) -> leads (frozen_bytes i x) (frozen i x) (Coding_With_Date CMD_TAG).
Proof.
  intros Ho. unfold Coding_With_Date.
  repeat match goal with |- leads _ _ (if Z.eqb CMD_TAG ?t then _ else _) =>
    destruct (Z.eqb_spec CMD_TAG t) as [->|?]; [apply run_leads|] end.
  all: first
    [ eapply CMDTT_leads | eapply SIMFILE_leads | apply leads_keeps; first
      [ eapply frozen_ACCESS_AUTH | eapply frozen_Change_IP | eapply frozen_HB | eapply frozen_NewHB | eapply frozen_CFMD
      | eapply frozen_Local_STA | eapply frozen_LogOut | eapply frozen_Low_Vsim | eapply frozen_Deal
      | eapply frozen_VPN_RQST | eapply frozen_VPN_CMD | apply keeps_ret ] ]; first [exact Ho | reflexivity].
Qed.

(** C8: a handler that returns leaves a node of the size of its structure in
    which no byte outside the places of its command, [writes], has changed,
    whatever the terminal and the servers sent. So the new heart beat sets the
    member type only, the old one the identities it carries and the text of
    the IMSI, a request for the VPN profile nothing, and no command but a
    logout changes the terminal's socket fd1. *)
Theorem Coding_With_Date_keeps CMD_TAG s s' :
  node_ok (nd s) -> bytes_ok (nd s) -> handles CMD_TAG s s' ->
  node_ok (nd s') /\ forall i, Forall (outside i) (writes CMD_TAG) -> nd s' !! i = nd s !! i.
Proof.
  intros Hs Hb [u E].
  assert (Hf : forall i, Forall (outside i) (writes CMD_TAG) -> frozen i (nd s !! i) s').
  { intros i Ho. eapply (Coding_With_Date_leads CMD_TAG i _ Ho); [|exact E]. by split. }
  split; [|intros i Ho; by apply Hf].
  apply (Hf 4096%nat). apply Forall_forall. intros F HF. right.
  assert (Hall : forallb (fun F => Z.leb (f_off F + f_size F) 4096) (writes CMD_TAG) = true).
  { unfold writes. repeat case_match; vm_compute; reflexivity. }
  rewrite forallb_forall in Hall. apply list_elem_of_In, Hall, Z.leb_le in HF. exact HF.
Qed.

Lemma Coding_With_Date_keeps_witness :
  let s := mkH node0 [] (mkIo [] [a_num 4]) in
  node_ok (nd s) /\ bytes_ok (nd s) /\
  exists s', handles TAG_VPN_RELEASE_CMD s s' /\ node_ok (nd s') /\
    forall i, Forall (outside i) (writes TAG_VPN_RELEASE_CMD) -> nd s' !! i = nd s !! i.
Proof.
  intros s. assert (Hb : bytes_ok (nd s)) by apply bytes_ok_zeros.
  split; [apply node0_ok|]. split; [exact Hb|].
  destruct (Coding_With_Date TAG_VPN_RELEASE_CMD s) as [[u s']|] eqn:E; [|vm_compute in E; discriminate].
  assert (Hh : handles TAG_VPN_RELEASE_CMD s s') by (exists u; exact E).
  exists s'. split; [exact Hh|].
  exact (Coding_With_Date_keeps TAG_VPN_RELEASE_CMD s s' node0_ok Hb Hh).
Defined.
End HandlersInv.
