(* ===== verification/Relay.v ===== *)
(** * Transparent transmission (src/src/TDM.c)

    A terminal sends a command for its SIM card; the server passes it to the
    SIM pool manager and the card's answer back to the terminal. *)

From stdpp Require Import prelude gmap strings.
From S2P Require Import Prelude CLib Layout Sock HexText JsonText NodeState Deal Handlers.
Import Sock Deal Handlers.
Open Scope Z_scope.

Module Relay.

(** ** The text of the IMSI *)

(** The node once the text of the IMSI is in sIMSI, its NUL in vir_flag. *)
Definition shown (d : bytes) : bytes :=
  patch d (Z.to_nat (f_off Spm.sIMSI)) (Hex.hex_text (fbytes Spm.IMSI d) ++ [0]).

Lemma IMSI_length d : node_ok d -> length (fbytes Spm.IMSI d) = 9%nat.
Proof. intros. rewrite length_fbytes; [done|by apply declared_fits]. Qed.

Lemma shown_room d : node_ok d ->
  (Z.to_nat (f_off Spm.sIMSI) + length (Hex.hex_text (fbytes Spm.IMSI d) ++ [0%Z]) <= length d)%nat.
Proof.
  intros Hd. rewrite length_app, Hex.length_hex_text, IMSI_length by done.
  unfold node_ok in Hd. rewrite Hd. unfold spm_size, Spm.sIMSI. cbn [f_off length]. lia.
Qed.

Lemma shown_ok d : node_ok d -> node_ok (shown d).
Proof. intros Hd. unfold node_ok, shown. rewrite length_patch; [done|by apply shown_room]. Qed.
#[local] Hint Resolve shown_ok : node.

(** The members after sIMSI and vir_flag are as before. *)
Lemma shown_bytes F d :
  node_ok d -> declared F = true -> Z.leb 31 (f_off F) || Z.leb (f_off F + f_size F) 12 = true ->
  fbytes F (shown d) = fbytes F d.
Proof.
  intros Hd HF Ha. unfold shown. apply fbytes_patch_other; [by apply declared_fits|by apply shown_room|].
  rewrite length_app, Hex.length_hex_text, IMSI_length by done.
  apply orb_prop in Ha as [Ha%Z.leb_le|Ha%Z.leb_le]; unfold Spm.sIMSI; cbn [f_off length]; lia.
Qed.

Lemma show_run {B} (k : unit -> H B) d l w :
  node_ok d -> bytes_ok (fbytes Spm.IMSI d) ->
  bind (show_IMSI (fbytes Spm.IMSI d)) k (mkH d l w) = k tt (mkH (shown d) l w).
Proof.
  intros Hd Hb. unfold show_IMSI, fill, bind. cbn [nd logs w_io].
  pose proof (IMSI_length d Hd) as HL. unfold Hex.Hex2String, LEN_OF_IMSI.
  change (Z.to_nat 9) with 9%nat. rewrite <-HL.
  rewrite (Hex.Hex2String_loop_ok _ _ _ 0 []); [|done|by rewrite app_nil_r|].
  2: { rewrite length_drop, HL. unfold node_ok in Hd. rewrite Hd. unfold spm_size, Spm.sIMSI. cbn [f_off]. lia. }
  cbn [res_bind]. unfold ret. cbn [nd logs w_io]. do 2 f_equal. unfold shown, patch.
  rewrite take_0, drop_drop. do 2 f_equal.
Qed.

(** sIMSI is a string again. *)
Lemma shown_text d : node_ok d -> bytes_ok (fbytes Spm.IMSI d) ->
  fstr Spm.sIMSI (shown d) = Ok (Hex.hex_text (fbytes Spm.IMSI d)).
Proof.
  intros Hd Hb. unfold fstr, shown, patch.
  assert (E : drop (Z.to_nat (f_off Spm.sIMSI)) (take (Z.to_nat (f_off Spm.sIMSI)) d) = []).
  { apply drop_ge. rewrite length_take. lia. }
  rewrite drop_app_ge by (rewrite length_take; lia).
  replace (Z.to_nat (f_off Spm.sIMSI) - length (take (Z.to_nat (f_off Spm.sIMSI)) d))%nat with 0%nat.
  2: { rewrite length_take. unfold node_ok in Hd. rewrite Hd. unfold spm_size, Spm.sIMSI. cbn [f_off]. lia. }
  rewrite drop_0, <-app_assoc. cbn [app]. apply Json.cstring_app. by apply Hex.hex_text_nonul.
Qed.

(** ** The request to the SIM pool manager *)

(** A node with an open connection to the SIM pool manager and a command of
    [n] bytes that has no address appended. *)
Record ready (d : bytes) (sock n : Z) : Prop := mkReady {
  r_node : node_ok d;
  r_bytes : bytes_ok (fbytes Spm.IMSI d) /\ bytes_ok (fbytes Spm.Buff d);
  r_sock : s32 (fget Spm.socket_spm d) = sock /\ 0 < sock < 2147483648;
  r_len : fget Spm.len d = n /\ 0 < n <= 127;
  r_tag : fget Spm.CMD_TAG d = TAG_CMDTT;
  r_plain : nth 5 (fbytes Spm.Buff d) 0 = n - 6
}.

(** Tdm_to_Spm as it goes out. *)
Definition request (d : bytes) : bytes :=
  let D := fset ToSpm.Channel_ID (s8 (fget Node.Channel_ID d))
    (fset ToSpm.SimBank_ID (s8 (fget Node.SimBank_ID d))
      (fset ToSpm.len (fget Spm.len d) (fset ToSpm.Cmd (fget Spm.CMD_TAG d)
        (zeros (Z.to_nat (sizeof Tdm_to_Spm)))))) in
  patch (patch D (Z.to_nat (f_off ToSpm.buff)) (take (Z.to_nat (fget Spm.len d)) (fbytes Spm.Buff d)))
    (Z.to_nat (f_off ToSpm.imsi)) (fbytes Spm.IMSI d).

Lemma pick_up {B} (k : Z * bytes * Z -> H B) d l w sock n :
  ready d sock n ->
  bind (PickUp_Data_Spm (zeros 256)) k (mkH d l w) = k (sock, padded 256 (request d), 152) (mkH d l w) /\
  length (request d) = 152%nat.
Proof.
  intros [Hd _ [Hs Hs2] [Hn Hn2] Ht Hp].
  set (D0 := fset ToSpm.Channel_ID (s8 (fget Node.Channel_ID d))
    (fset ToSpm.SimBank_ID (s8 (fget Node.SimBank_ID d))
      (fset ToSpm.len (fget Spm.len d) (fset ToSpm.Cmd (fget Spm.CMD_TAG d)
        (zeros (Z.to_nat (sizeof Tdm_to_Spm))))))).
  assert (L0 : length D0 = 152%nat).
  { subst D0. rewrite !length_fset; [reflexivity|..]; unfold fits; rewrite ?length_fset;
      try (unfold fits; rewrite ?length_fset); done || (split; [done|]; done). }
  assert (LB : length (fbytes Spm.Buff d) = 256%nat) by (rewrite length_fbytes; [done|by apply declared_fits]).
  set (D1 := patch D0 (Z.to_nat (f_off ToSpm.buff)) (take (Z.to_nat (fget Spm.len d)) (fbytes Spm.Buff d))).
  assert (R1 : (Z.to_nat (f_off ToSpm.buff) + length (take (Z.to_nat (fget Spm.len d)) (fbytes Spm.Buff d)) <= length D0)%nat).
  { rewrite L0, length_take, LB, Hn. unfold ToSpm.buff. cbn [f_off]. lia. }
  assert (L1 : length D1 = 152%nat) by (subst D1; by rewrite length_patch).
  assert (R2 : (Z.to_nat (f_off ToSpm.imsi) + length (fbytes Spm.IMSI d) <= length D1)%nat).
  { rewrite L1, IMSI_length by done. unfold ToSpm.imsi. cbn [f_off]. lia. }
  assert (L2 : length (request d) = 152%nat) by (unfold request; fold D0 D1; by rewrite length_patch).
  split; [|done]. unfold PickUp_Data_Spm. run. rewrite Ht, Hp, Hn, !Z.eqb_refl. run.
  rewrite Hs. destruct (Z.leb_spec sock 0); [lia|]. run. fold D0.
  replace (0 <? fget Spm.len d) with true by (symmetry; apply Z.ltb_lt; lia).
  erewrite lift_run by (apply fcpy_ok; [done|lia]). fold D1. run.
  erewrite lift_run by (apply fcpy_ok; [done|lia]). run.
  erewrite lift_run by (apply mwrite_zeros; change (patch _ _ _) with (request d); lia). run.
  rewrite Hs. do 3 f_equal.
Qed.

(** ** The answer of the card *)

(** What the SIM pool manager and the kernel answer: all of the request is
    taken, the answer [t] arrives at once. *)
Definition spm_script (t : bytes) : list answer :=
  [a_num 152; a_num 1; a_num (Z.of_nat (length t)); a_bytes t].

Definition spm_calls (sock : Z) (rq t : bytes) : list event :=
  [ESend sock rq; ESelect sock; ERecv sock t].

Lemma padded_snoc n t : (length t < n)%nat -> mwrite (padded n t) (length t) [0] = Ok (padded n t).
Proof.
  intros. rewrite mwrite_1 by (rewrite length_padded; lia). f_equal. unfold padded.
  rewrite insert_app_r_alt, Nat.sub_diag by lia. f_equal.
  destruct (n - length t)%nat eqn:E; [lia|done].
Qed.

Lemma padded_read n m t : length t = m -> (m <= n)%nat -> mread (padded n t) 0 m = Ok t.
Proof.
  intros <- ?. rewrite mread_ok by (rewrite length_padded; lia). rewrite drop_0. unfold padded.
  by rewrite take_app_length.
Qed.

Lemma GetMsg_run sock n t sec o i :
  t <> [] -> (length t < n)%nat ->
  GetMsgFromSock sock (zeros n) 0 sec (mkIo o (a_num 1 :: a_num (Z.of_nat (length t)) :: a_bytes t :: i)) =
  Ok ((Z.of_nat (length t), padded n t), mkIo (o ++ [ESelect sock; ERecv sock t]) i).
Proof.
  intros Ht Hn. unfold GetMsgFromSock. cbn [GetMsgFromSock_loop].
  rewrite (bind_ok _ _ _ _ _ (select_ready _ _ _)).
  change (Z.ltb 1 0) with false. change (Z.eqb 1 0) with false. cbn match.
  assert (Hp : (0 < length t)%nat) by (destruct t; [done|simpl; lia]).
  unfold bind at 1, answered. cbn [inp out a_num a_ret].
  destruct (Z.ltb_spec (Z.of_nat (length t)) 0); [lia|]. change (Z.eqb 0 0) with true. cbn match.
  rewrite Z.sub_0_r, Z.ltb_irrefl.
  unfold size_of. destruct (Z.ltb_spec (Z.of_nat (length t)) 0); [lia|].
  rewrite Nat2Z.id. unfold bind at 1, lift at 1.
  rewrite (bind_ok _ _ _ _ _ (recv_bytes _ _ _ _ _)). rewrite firstn_all.
  unfold stored. change (Z.ltb 0 0) with false. change (Z.to_nat 0) with 0%nat.
  rewrite mwrite_zeros by lia. unfold bind at 1, lift at 1.
  destruct (Z.leb_spec (Z.of_nat (length t)) 0); [lia|]. cbn [andb].
  rewrite Z.ltb_irrefl. destruct (Z.ltb_spec (Z.of_nat (length t)) 0); [lia|].
  rewrite Nat2Z.id, padded_snoc by lia. unfold bind, lift, ret. by rewrite <-app_assoc.
Qed.

Lemma exchange_run {B} (k : Z * bytes -> H B) d l o i sock rq t :
  s32 (fget Spm.socket_spm d) = sock -> length rq = 152%nat -> t <> [] -> (length t < 520)%nat ->
  bind (Data_Coding_Spm (padded 256 rq) 152 (zeros 520)) k (mkH d l (mkIo o (spm_script t ++ i))) =
  k (Z.of_nat (length t), padded 520 t) (mkH d l (mkIo (o ++ spm_calls sock rq t) i)).
Proof.
  intros Hs Hq Ht Hl. unfold Data_Coding_Spm, spm_script. run. rewrite Hs.
  erewrite lift_run by reflexivity. run.
  erewrite lift_run by (apply padded_read; [exact Hq|lia]). run. cbn [app].
  erewrite io_run by (apply send_taken; lia). run.
  rewrite take_ge, Hq by (rewrite Hq; lia). change (Z.leb (Z.of_nat 152) 0) with false. cbn match. run.
  erewrite io_run by (by apply GetMsg_run). run.
  assert (Hp : (0 < length t)%nat) by (destruct t; [done|simpl; lia]).
  destruct (Z.leb_spec (Z.of_nat (length t)) 0); [lia|]. run.
  destruct (Z.leb_spec (Z.of_nat (length t)) 0); [lia|]. run. by rewrite <-app_assoc.
Qed.

(** ** The frame to the terminal *)

(** The loop subtracts 256 until a byte is left. *)
Lemma below256_mod fuel r : 0 <= r -> r / 256 <= Z.of_nat fuel -> below256 fuel r = r mod 256.
Proof.
  revert r. induction fuel as [|f IH]; intros r H0 Hf; cbn [below256].
  - rewrite Z.mod_small; [done|]. assert (r / 256 = 0) as E by (pose proof (Z.div_pos r 256); lia).
    apply Z.div_small_iff in E; lia.
  - destruct (Z.ltb_spec 255 r).
    + rewrite IH; [| lia |].
      * replace r with (r - 256 + 1 * 256) at 2 by lia. by rewrite Z.mod_add.
      * replace r with (r - 256 + 1 * 256) in Hf by lia. rewrite Z.div_add in Hf by lia. lia.
    + by rewrite Z.mod_small by lia.
Qed.

Lemma wrap_result_mod r : 0 <= r -> wrap_result r = r mod 256.
Proof. intros. apply below256_mod; [done|]. pose proof (Z.div_pos r 256). lia. Qed.

Definition frame (tag b0 : Z) (t : bytes) : bytes := [tag; Z.of_nat (length t); 0; b0] ++ t.

Lemma pack_run t b0 :
  (length t < 256)%nat -> is_byte b0 ->
  (let? (n, SendBuf) := TT_Info_Process (padded 520 t) (zeros 256) (Z.of_nat (length t)) in
   TT_Result_Pack (Some SendBuf) (zeros 520) n TAG_RESULT_CMDTT b0) =
  Ok (4 + Z.of_nat (length t), padded 520 (frame TAG_RESULT_CMDTT b0 t)).
Proof.
  intros Hl Hb. unfold TT_Info_Process. rewrite Nat2Z.id, (padded_read _ (length t)) by lia.
  cbn [res_bind]. rewrite mwrite_ok by (rewrite length_zeros; lia). cbn [res_bind].
  unfold TT_Result_Pack, set_byte, is_byte in *. rewrite wrap_result_mod by lia.
  rewrite Nat2Z.id. unfold u8. rewrite (Z.mod_small b0) by lia. rewrite (Z.mod_small b0) by lia.
  rewrite (Z.mod_small (Z.of_nat (length t))) by lia.
  set (z := zeros 520). assert (Lz : length z = 520%nat) by apply length_zeros.
  rewrite mwrite_1 by lia. cbn [res_bind]. rewrite mwrite_1 by len. cbn [res_bind].
  rewrite mwrite_1 by len. cbn [res_bind]. rewrite mwrite_1 by len. cbn [res_bind].
  rewrite mread_ok by (rewrite length_patch; rewrite length_zeros; lia).
  rewrite fbytes_patch_same by (rewrite ?length_zeros; lia). cbn [res_bind].
  rewrite mwrite_ok by len. cbn [res_bind]. do 2 f_equal.
  change z with (0 :: 0 :: 0 :: 0 :: zeros 516). unfold patch, padded, frame.
  cbn [insert list_insert take app Nat.add skipn length]. rewrite take_0. unfold zeros.
  rewrite drop_replicate. change (TAG_RESULT_CMDTT mod 256) with TAG_RESULT_CMDTT.
  change (0 mod 256) with 0. cbn [app]. do 6 f_equal.
Qed.

(** ** The log line *)

(** A member whose first bytes were written. *)
Lemma fbytes_patch_start F d b :
  fits F d -> (length b <= Z.to_nat (f_size F))%nat ->
  fbytes F (patch d (Z.to_nat (f_off F)) b) = b ++ drop (length b) (fbytes F d).
Proof.
  intros (?&?&?) Hb. unfold fbytes, patch. rewrite drop_app_ge by (rewrite length_take; lia).
  rewrite length_take.
  replace (Z.to_nat (f_off F) - Z.to_nat (f_off F) `min` length d)%nat with 0%nat by lia.
  rewrite drop_0, take_app_ge by lia. f_equal.
  rewrite <-(drop_drop d), take_drop_commute. f_equal. f_equal. lia.
Qed.

Definition tt_log (sn imsi tt_text : bytes) (cnt len now : Z) : bytes :=
  str "45445445,2005,7|{'SN':'" ++ sn ++ str "','TTCnt':'" ++ fmt_d cnt
    ++ str "','IMSI':'" ++ imsi ++ str "','TTContext':'" ++ tt_text
    ++ str "','ContextLen':'" ++ fmt_d len ++ str "','lastTime':'" ++ fmt_d now ++ str "'}&&".

Lemma log_item_ok s15 t m : length s15 = 15%nat -> text m t -> (m < 1004)%nat ->
  exists job, log_item s15 t = Ok job /\ fstr Log.Buff job = Ok t /\
    fget Log.len job = Z.of_nat (length t) /\ take 15 job = s15.
Proof.
  intros Hs [Hn Hl] Hm. unfold log_item.
  set (d0 := zeros (Z.to_nat (sizeof Log_Data))).
  assert (L0 : length d0 = 1024%nat) by apply length_zeros.
  rewrite fcpy_ok by (unfold Log.SN; cbn [f_off]; lia). cbn [res_bind].
  set (d1 := patch d0 _ s15).
  assert (L1 : length d1 = 1024%nat).
  { subst d1. unfold Log.SN; cbn [f_off]. rewrite length_patch; lia. }
  rewrite fcpy_ok by (unfold Log.Buff; cbn [f_off]; rewrite ?length_app; simpl; lia). cbn [res_bind].
  set (d2 := patch d1 _ _).
  assert (R2 : (Z.to_nat (f_off Log.Buff) + length (t ++ [0%Z]) <= length d1)%nat).
  { unfold Log.Buff; cbn [f_off]; rewrite length_app; simpl; lia. }
  assert (L2 : length d2 = 1024%nat) by (subst d2; by rewrite length_patch).
  assert (F1 : forall F d, length d = 1024%nat -> 0 <= f_off F -> 0 <= f_size F ->
     f_off F + f_size F <= 1024 -> fits F d) by (intros; unfold fits; lia).
  assert (B2 : fbytes Log.Buff d2 = t ++ 0 :: drop (S (length t)) (fbytes Log.Buff d1)).
  { subst d2. rewrite fbytes_patch_start; [|by apply F1|].
    - rewrite <-app_assoc, length_app. cbn [length app]. do 3 f_equal. lia.
    - rewrite length_app. unfold Log.Buff. cbn [f_size length]. lia. }
  rewrite (fstr_fbytes Log.Buff d2 t _ (F1 Log.Buff d2 L2 ltac:(done) ltac:(done) ltac:(done)) B2 Hn).
  cbn [res_bind]. eexists. split; [done|]. split_and!.
  - eapply fstr_fbytes; [|rewrite fbytes_fset_other; [exact B2|..]|done];
      try (apply F1; [rewrite ?length_fset by (by apply F1)|..]; done). by left.
  - rewrite fget_fset_same by (by apply F1). apply Z.mod_small. split; [lia|].
    unfold Log.len. cbn [f_size]. change (256 ^ 4) with 4294967296. lia.
  - set (S15 := mkField 0 15).
    change (fbytes S15 (fset Log.len (Z.of_nat (length t)) d2) = s15).
    rewrite fbytes_fset_other; [|by apply F1..|by left].
    subst d2. rewrite fbytes_patch_other; [|by apply F1|done|by left].
    subst d1. change (Z.to_nat (f_off Log.SN)) with (Z.to_nat (f_off S15)).
    rewrite fbytes_patch_start; [|by apply F1|rewrite Hs; done].
    rewrite drop_ge, app_nil_r; [done|]. unfold fbytes. rewrite length_take, length_drop, L0, Hs. done.
Qed.

(** The text of the IMSI with its NUL, which is the member vir_flag. *)
Definition imsi_nul : field := mkField 12 19.

Lemma imsi_fstr d s : node_ok d -> fbytes imsi_nul d = s ++ [0] -> nonul s -> fstr Spm.sIMSI d = Ok s.
Proof.
  intros Hd Hb Hn. change (fstr Spm.sIMSI d) with (fstr imsi_nul d).
  eapply fstr_fbytes; [by apply declared_fits|exact Hb|done].
Qed.

Lemma shown_nul d : node_ok d -> fbytes imsi_nul (shown d) = Hex.hex_text (fbytes Spm.IMSI d) ++ [0].
Proof.
  intros Hd. unfold shown, fbytes at 1. apply fbytes_patch_same; [by apply shown_room|].
  rewrite length_app, Hex.length_hex_text, IMSI_length by done. done.
Qed.

(** Clearing vir_flag again changes nothing. *)
Lemma vir_flag_nul d s : node_ok d -> fbytes imsi_nul d = s ++ [0] -> length s = 18%nat -> fset Spm.vir_flag 0 d = d.
Proof.
  intros Hd Hb Hs. unfold fset, patch, Spm.vir_flag. cbn [f_off f_size]. change (le_enc _ 0) with [0].
  rewrite <-(take_drop 30 d) at 3. f_equal. cbn [length].
  assert (E : d !! 30%nat = Some 0).
  { assert (E : fbytes imsi_nul d !! 18%nat = Some 0) by (rewrite Hb, lookup_app_r, Hs by lia; done).
    unfold fbytes in E. rewrite lookup_take_lt, lookup_drop in E by (unfold imsi_nul; cbn [f_size]; lia). exact E. }
  change (Z.to_nat 30) with 30%nat. symmetry. exact (drop_S _ _ _ E).
Qed.

(** What the log of a terminal needs. *)
Definition loggable (d sn r : bytes) (pool : Z) : Prop :=
  fbytes Spm.SN d = sn ++ 0 :: r /\ nonul sn /\ fget Spm.pool d = pool /\ pool <> 0.

Lemma rdstr_run {B} F s (k : bytes -> H B) d l w :
  fstr F d = Ok s -> bind (rdstr F) k (mkH d l w) = k s (mkH d l w).
Proof. intros E. unfold bind, rdstr. cbn [nd]. by rewrite E. Qed.

Lemma tt_log_text sn imsi t cnt now m : text 15 sn -> text 18 imsi -> text 158 t -> text 700 (tt_log sn imsi t cnt m now).
Proof. intros. unfold tt_log. eapply text_le; [|text_tac]. vm_compute. lia. Qed.

Lemma tt_log_run {B} (k : Z -> H B) d l o a i sn r pool imsi t cnt :
  node_ok d -> loggable d sn r pool -> fbytes imsi_nul d = imsi ++ [0] -> nonul imsi -> length imsi = 18%nat ->
  bytes_ok t -> (1 <= length t <= 79)%nat ->
  exists job, bind (TT_Log_Pack_Data cnt (padded 128 t) (Z.of_nat (length t))) k (mkH d l (mkIo o (a :: i))) =
      k 0 (mkH d l (mkIo (o ++ [EJob pool job]) i)) /\
    fstr Log.Buff job = Ok (tt_log sn imsi (Hex.hex_text t) cnt (Z.of_nat (length t)) (a_ret a)).
Proof.
  intros Hd (Hsn & Hn & Hp & Hp0) Hi Hin Hil Ht Hl. unfold TT_Log_Pack_Data.
  destruct (Z.ltb_spec 0 (Z.of_nat (length t))); [|lia]. unfold Hex.Hex2String. rewrite Nat2Z.id.
  rewrite (Hex.Hex2String_loop_ok t _ _ 0 (zeros (128 - length t))); [|done|done|rewrite length_zeros; lia].
  cbn [res_bind]. run. erewrite lift_run by done. run.
  assert (LS : length (fbytes Spm.SN d) = 16%nat) by (rewrite length_fbytes; [done|by apply declared_fits]).
  assert (HsT : text 15 sn).
  { split; [done|]. rewrite Hsn, length_app in LS. simpl in LS. lia. }
  rewrite (vir_flag_nul _ _ Hd Hi Hil).

  assert (HtT : text 158 (Hex.hex_text t)).
  { split; [by apply Hex.hex_text_nonul|]. rewrite Hex.length_hex_text. lia. }
  destruct (log_item_ok (take 15 (fbytes Spm.SN d))
    (tt_log sn imsi (Hex.hex_text t) cnt (Z.of_nat (length t)) (a_ret a)) 700) as (job & Ej & Bj & _).
  { rewrite length_take, LS. done. }
  { apply tt_log_text; [done|split; [done|lia]|done]. }
  { lia. }
  exists job. split; [|done]. unfold sn15. run.
  erewrite rdstr_run by (eapply fstr_fbytes; [by apply declared_fits|exact Hsn|done]). run.
  erewrite rdstr_run by (by apply imsi_fstr). run.
  erewrite lift_run by (unfold patch; rewrite take_0, <-app_assoc; apply Json.cstring_app, HtT). run.
  erewrite (io_run sys_time) by reflexivity. run. unfold queue_log. run.
  erewrite lift_run by exact Ej. run. rewrite Hp. unfold threadpool_add_job.
  destruct (Z.eqb_spec pool 0); [done|]. by run.
Qed.

(** ** The whole command *)

(** The members the relay reads. *)
Definition relay_members : list field :=
  [Spm.IMSI; Spm.Buff; Spm.socket_spm; Spm.len; Spm.CMD_TAG; Node.Channel_ID; Node.SimBank_ID;
   Spm.SN; Spm.pool; Spm.fd1].

Definition same_members (d d' : bytes) : Prop :=
  node_ok d' /\ Forall (fun F => fbytes F d' = fbytes F d) relay_members.

Lemma same_shown d b0 :
  node_ok d -> same_members d (shown (fset Spm.tt_cnt b0 (fset Spm.type 1 d))).
Proof.
  intros Hd. set (d1 := fset Spm.type 1 d). set (d2 := fset Spm.tt_cnt b0 d1).
  assert (N1 : node_ok d1) by (subst d1; eauto with node).
  assert (N2 : node_ok d2) by (subst d2; eauto with node).
  split; [eauto with node|].
  repeat (apply Forall_cons; split; [rewrite shown_bytes by done; subst d2 d1;
    by rewrite !nbytes_other by (done || node_side)|]). done.
Qed.

Lemma same_fget d d' F : same_members d d' -> F ∈ relay_members -> fget F d' = fget F d.
Proof. intros [_ H] HF. unfold fget. rewrite Forall_forall in H. by rewrite (H F HF). Qed.

Lemma same_ready d d' sock n : same_members d d' -> ready d sock n -> ready d' sock n /\ request d' = request d.
Proof.
  intros S [Hd Hb Hs Hn Ht Hp]. pose proof S as [N F]. unfold relay_members in F.
  repeat (apply Forall_cons in F as [? F]).
  assert (G : forall X, fbytes X d' = fbytes X d -> fget X d' = fget X d) by (unfold fget; by intros X ->).
  split; [split; unfold fget in *; congruence|].
  unfold request. rewrite !(G Node.Channel_ID), !(G Node.SimBank_ID), !(G Spm.len), !(G Spm.CMD_TAG) by done. congruence.
Qed.

(** The sequence byte of the command. *)
Definition seq_byte (d : bytes) : Z := nth 0 (fbytes Spm.Buff d) 0.

Lemma seq_byte_range d sock n : ready d sock n -> is_byte (seq_byte d).
Proof.
  intros R. destruct (r_bytes _ _ _ R) as [_ HB]. unfold seq_byte.
  destruct (fbytes Spm.Buff d); [done|]. by apply Forall_cons in HB as [? _].
Qed.

(** The node before the request is made, and after. *)
Definition marked (d : bytes) : bytes := shown (fset Spm.tt_cnt (seq_byte d) (fset Spm.type 1 d)).
Definition asked (d : bytes) (sock : Z) : bytes := fset Spm.socket_spm sock (marked d).

Lemma marked_ok d : node_ok d -> node_ok (marked d).
Proof. intros. apply (same_shown d (seq_byte d)). done. Qed.
#[local] Hint Resolve marked_ok : node.

Lemma marked_IMSI d : node_ok d ->
  fbytes Spm.IMSI (fset Spm.tt_cnt (seq_byte d) (fset Spm.type 1 d)) = fbytes Spm.IMSI d.
Proof. intros. by rewrite !nbytes_other by (done || node_side). Qed.

Lemma asked_bytes d sock F :
  node_ok d -> F ∈ [Spm.Buff; Spm.SN; Spm.pool; Spm.fd1] -> fbytes F (asked d sock) = fbytes F d.
Proof.
  intros Hd HF. pose proof (same_shown d (seq_byte d) Hd) as [N S]. rewrite Forall_forall in S.
  unfold asked. rewrite nbytes_other; [apply S|..|by apply marked_ok].
  all: repeat (apply elem_of_cons in HF as [->|HF]; [by vm_compute; repeat constructor|]); by apply elem_of_nil in HF.
Qed.

Lemma asked_socket d sock n : ready d sock n -> s32 (fget Spm.socket_spm (asked d sock)) = sock.
Proof.
  intros R. destruct (r_sock _ _ _ R) as [_ Hs]. unfold asked.
  rewrite nget_same by (first [done|apply marked_ok, R]).
  change (256 ^ f_size Spm.socket_spm) with 4294967296.
  rewrite (Z.mod_small sock) by lia. unfold s32. rewrite Z.mod_small; lia.
Qed.

Lemma asked_cnt d sock n : ready d sock n -> fget Spm.tt_cnt (asked d sock) = seq_byte d.
Proof.
  intros R. pose proof (r_node _ _ _ R) as Hd. pose proof (seq_byte_range _ _ _ R) as Hr. unfold asked.
  rewrite nget_other by (done || node_side). unfold fget, marked. rewrite shown_bytes by (done || node_side).
  rewrite fbytes_fset_same by (apply declared_fits; [done|node_side]). rewrite le_dec_enc.
  apply Z.mod_small. exact Hr.
Qed.

Lemma asked_imsi d sock : node_ok d ->
  fbytes imsi_nul (asked d sock) = Hex.hex_text (fbytes Spm.IMSI d) ++ [0].
Proof.
  intros Hd. unfold asked. rewrite nbytes_other by (done || node_side).
  unfold marked. by rewrite shown_nul, marked_IMSI by (done || node_side).
Qed.

Lemma asked_loggable d sock sn r pool : node_ok d -> loggable d sn r pool -> loggable (asked d sock) sn r pool.
Proof.
  intros Hd. unfold loggable, fget. rewrite !asked_bytes by (done || (vm_compute; repeat constructor)). done.
Qed.

Lemma length_frame tag b0 t : length (frame tag b0 t) = (4 + length t)%nat.
Proof. done. Qed.

Lemma write_run fd n b k o i :
  0 <= k -> k = Z.of_nat (length b) -> 0 < k -> (length b <= n)%nat ->
  write_n fd (padded n b) k (mkIo o (a_num k :: i)) = Ok (tt, mkIo (o ++ [ESend fd b]) i).
Proof.
  intros H0 Hk Hp Hn. unfold write_n, size_of. destruct (Z.ltb_spec k 0); [lia|].
  unfold bind at 1, lift at 1. rewrite (padded_read n) by lia. unfold bind at 1, lift at 1.
  erewrite bind_ok by (apply send_taken; lia). by rewrite take_ge by lia.
Qed.

(** What is left to do once an answer of several bytes is in RecvBuf. *)
Definition pass_back (b0 cnt : Z) (t : bytes) : H Z :=
  let! got := lift (mread (padded 520 t) 0 (length t)) in
  let! tmp_buff := lift (mwrite (zeros 128) 0 got) in
  let! (n, SendBuf) := lift (TT_Info_Process (padded 520 t) (zeros 256) (Z.of_nat (length t))) in
  let! (n, RecvBuf) := lift (TT_Result_Pack (Some SendBuf) (zeros 520) n TAG_RESULT_CMDTT b0) in
  answer_fd1 RecvBuf n ;;
  TT_Log_Pack_Data cnt tmp_buff (Z.of_nat (length t)) ;;
  ret 0.

Lemma CMDTT_answered d l o i sock n t :
  ready d sock n -> (2 <= length t < 520)%nat ->
  Coding_With_CMDTT (mkH d l (mkIo o (spm_script t ++ i))) =
  pass_back (seq_byte d) (seq_byte d) t (mkH (asked d sock) l (mkIo (o ++ spm_calls sock (request d) t) i)).
Proof.
  intros R Hl. pose proof (r_node _ _ _ R) as Hd. destruct (r_bytes _ _ _ R) as [HbI _].
  assert (NT : t <> []) by (intros ->; simpl in Hl; lia).
  destruct (same_ready d (marked d) _ _ (same_shown _ _ Hd) R) as [R2 Q2].
  unfold Coding_With_CMDTT. run.
  rewrite (nbytes_other Spm.Buff) by (done || node_side). fold (seq_byte d).
  rewrite show_run by (first [node_side|by rewrite marked_IMSI]). fold (marked d). run.
  rewrite (proj1 (pick_up _ (marked d) l _ _ _ R2)). cbn beta iota. run. fold (asked d sock).
  change (Z.ltb 1 152) with true. cbn match. rewrite Q2.
  rewrite (exchange_run _ _ _ _ _ sock); [|by eapply asked_socket|by apply (pick_up (fun _ => ret tt) _ l (mkIo o []) _ _ R)|done|lia].
  run. rewrite asked_bytes by (done || (vm_compute; repeat constructor)). fold (seq_byte d).
  erewrite asked_cnt by done.
  destruct (Z.eqb_spec (Z.of_nat (length t)) 1); [lia|]. destruct (Z.ltb_spec 1 (Z.of_nat (length t))); [|lia].
  unfold pass_back. rewrite Nat2Z.id. run.
  rewrite (lift_run (mread _ _ _) t), (lift_run (mread _ _ _) t) by (apply padded_read; lia). run.
  destruct (mwrite (zeros 128) 0 t) as [tb|f]; [|done]. rewrite !(lift_run (Ok tb) tb) by done. run.
  destruct (TT_Info_Process _ _ _) as [[n2 b2]|f]; [|done]. rewrite !(lift_run (Ok (n2, b2)) (n2, b2)) by done. run.
  destruct (TT_Result_Pack _ _ _ _ _) as [[n3 b3]|f]; [|done]. rewrite !(lift_run (Ok (n3, b3)) (n3, b3)) by done. by run.
Qed.

(** The first steps of [pass_back], for an answer that fits. *)
Lemma pass_back_run d sock n l o i fd t :
  ready d sock n -> s32 (fget Spm.fd1 d) = fd -> (2 <= length t <= 128)%nat ->
  pass_back (seq_byte d) (seq_byte d) t (mkH (asked d sock) l (mkIo o (a_num (4 + Z.of_nat (length t)) :: i))) =
  (TT_Log_Pack_Data (seq_byte d) (padded 128 t) (Z.of_nat (length t)) ;; ret 0)
    (mkH (asked d sock) l (mkIo (o ++ [ESend fd (frame TAG_RESULT_CMDTT (seq_byte d) t)]) i)).
Proof.
  intros R Hfd Hl. pose proof (r_node _ _ _ R) as Hd. unfold pass_back.
  erewrite lift_run by (apply padded_read; lia). run. erewrite lift_run by (apply mwrite_zeros; lia). run.
  destruct (res_bind_inv _ _ _ (pack_run t (seq_byte d) ltac:(lia) (seq_byte_range _ _ _ R))) as ([n2 b2] & E1 & E2).
  erewrite lift_run by exact E1. run. erewrite lift_run by exact E2. run. unfold answer_fd1. run.
  unfold fget. rewrite asked_bytes by (done || (vm_compute; repeat constructor)). fold (fget Spm.fd1 d). rewrite Hfd.
  by erewrite io_run by (apply write_run; rewrite ?length_frame; lia).
Qed.

Lemma Hex2String_overruns n : forall src dst i,
  (length dst <= 2 * (i + n))%nat -> (i + n <= length src)%nat ->
  Hex.Hex2String_loop n src dst i = Fault Overrun.
Proof.
  induction n as [|n IH]; intros src dst i Hd Hs; cbn [Hex.Hex2String_loop].
  - apply mwrite_overrun. simpl. lia.
  - rewrite mread_ok by lia. cbn [res_bind].
    destruct (decide (2 * i + 1 < length dst)%nat).
    + do 2 (rewrite mwrite_1 by (rewrite ?length_insert; lia); cbn [res_bind]).
      apply IH; rewrite ?length_insert; lia.
    + destruct (decide (2 * i < length dst)%nat).
      * rewrite mwrite_1 by lia. cbn [res_bind].
        by rewrite mwrite_overrun by (rewrite length_insert; simpl; lia).
      * by rewrite mwrite_overrun by (simpl; lia).
Qed.

(** C2: a command is relayed when the connection to the SIM pool manager is
    open, the command has 1 to 127 bytes with no address behind them, and the
    answer has 2 to 79 bytes: the SIM pool manager gets the request with the
    terminal's data and IMSI, the terminal gets the card's answer in one frame
    with the sequence byte of its command, and one line with the answer in hex
    text goes to the log. *)
Theorem CMDTT_relays d l o i sock n sn r pool fd t a :
  ready d sock n -> loggable d sn r pool -> s32 (fget Spm.fd1 d) = fd ->
  bytes_ok t -> (2 <= length t <= 79)%nat ->
  exists d' job,
    Coding_With_CMDTT (mkH d l (mkIo o (spm_script t ++ a_num (4 + Z.of_nat (length t)) :: a :: i))) =
      Ok (0, mkH d' l (mkIo (o ++ spm_calls sock (request d) t ++
        [ESend fd (frame TAG_RESULT_CMDTT (seq_byte d) t); EJob pool job]) i)) /\
    node_ok d' /\
    fstr Log.Buff job = Ok (tt_log sn (Hex.hex_text (fbytes Spm.IMSI d)) (Hex.hex_text t)
      (seq_byte d) (Z.of_nat (length t)) (a_ret a)).
Proof.
  intros R Lg Hfd Ht Hl. pose proof (r_node _ _ _ R) as Hd. destruct (r_bytes _ _ _ R) as [HbI _].
  assert (N3 : node_ok (asked d sock)) by (unfold asked; eauto with node).
  destruct (tt_log_run (fun _ => ret 0) (asked d sock) l
    ((o ++ spm_calls sock (request d) t) ++ [ESend fd (frame TAG_RESULT_CMDTT (seq_byte d) t)]) a i
    sn r pool (Hex.hex_text (fbytes Spm.IMSI d)) t (seq_byte d)) as (job & Ej & Bj);
    [done|by apply asked_loggable|by apply asked_imsi|by apply Hex.hex_text_nonul
    |by rewrite Hex.length_hex_text, IMSI_length|done|lia|].
  exists (asked d sock), job. split; [|done].
  erewrite CMDTT_answered by (done || lia). erewrite pass_back_run by (done || lia).
  rewrite Ej. unfold ret. by rewrite <-!app_assoc.
Qed.

(** A terminal with a SELECT command of 8 bytes, and a card that answers 9F0F. *)
Definition terminal2 : bytes :=
  fset Spm.CMD_TAG TAG_CMDTT (fset Spm.len 8 (fset Spm.socket_spm 5 (fset Spm.fd1 9 (fset Spm.pool 1
    (patch (patch node0 32 (str "172150210000937")) (Z.to_nat (f_off Spm.Buff)) [7; 160; 164; 0; 0; 2; 63; 0]))))).

Lemma terminal2_ready : ready terminal2 5 8.
Proof.
  split; [reflexivity|split; apply (bool_decide_eq_true_1 (Forall is_byte _)); vm_compute; reflexivity
    |split; vm_compute; [reflexivity|split; reflexivity]
    |split; vm_compute; [reflexivity|split; [reflexivity|discriminate]]|reflexivity|reflexivity].
Qed.

Lemma CMDTT_relays_witness :
  exists d' job,
    Coding_With_CMDTT (mkH terminal2 [] (mkIo [] (spm_script [159; 15] ++ a_num 6 :: a_num 1600000000 :: []))) =
      Ok (0, mkH d' [] (mkIo ([] ++ spm_calls 5 (request terminal2) [159; 15] ++
        [ESend 9 (frame TAG_RESULT_CMDTT (seq_byte terminal2) [159; 15]); EJob 1 job]) [])) /\
    node_ok d' /\
    fstr Log.Buff job = Ok (tt_log (str "172150210000937") (Hex.hex_text (fbytes Spm.IMSI terminal2)) (Hex.hex_text [159; 15])
      (seq_byte terminal2) 2 1600000000).
Proof.
  apply (CMDTT_relays terminal2 [] [] [] 5 8 (str "172150210000937") [] 1 9 [159; 15] (a_num 1600000000)).
  - exact terminal2_ready.
  - split_and!; [reflexivity|vm_compute; repeat constructor; discriminate|reflexivity|discriminate].
  - reflexivity.
  - repeat constructor; vm_compute; try discriminate; reflexivity.
  - simpl; lia.
Defined.

(** An answer of 80 bytes or more (up to the size of the receive buffer)
    runs over a local array: its hex text does not fit TT_buf[160], and from
    129 bytes on the answer itself does not fit tmp_buff[128]. *)
Lemma CMDTT_overruns d l o i sock n t :
  ready d sock n -> (80 <= length t < 520)%nat ->
  Coding_With_CMDTT (mkH d l (mkIo o (spm_script t ++ a_num (4 + Z.of_nat (length t)) :: i))) = Fault Overrun.
Proof.
  intros R Hl. erewrite CMDTT_answered by (done || lia).
  destruct (decide (length t <= 128)%nat).
  - erewrite pass_back_run by (done || lia). unfold TT_Log_Pack_Data.
    destruct (Z.ltb_spec 0 (Z.of_nat (length t))); [|lia]. unfold Hex.Hex2String.
    rewrite Hex2String_overruns by (rewrite ?length_zeros, ?length_padded; lia). done.
  - unfold pass_back. erewrite lift_run by (apply padded_read; lia). run.
    by rewrite mwrite_overrun by (rewrite length_zeros; lia).
Qed.

Lemma CMDTT_overruns_witness :
  Coding_With_CMDTT (mkH terminal2 [] (mkIo [] (spm_script (zeros 80) ++ a_num 84 :: []))) = Fault Overrun.
Proof.
  apply (CMDTT_overruns terminal2 [] [] [] 5 8 (zeros 80)); [exact terminal2_ready|rewrite length_zeros; lia].
Defined.
End Relay.
