(* ===== verification/Frames.v ===== *)
(** * What the frames and the web commands do (src/src/TDM.c)

    Properties of [Dispatch] and of single handlers: reading a socket, the
    commands of the web server, the address of a SIM card in text and bytes. *)

From stdpp Require Import prelude gmap strings.
From S2P Require Import Prelude CLib Layout Sock HexText JsonText ListHead NodeState Deal Device Handlers Dispatch.
Import Sock Deal Device Handlers Dispatch.
Open Scope Z_scope.

Module Frames.

(** ** Addresses *)

Lemma byte_text a : is_byte a ->
  fmt_d a <> [] /\ Forall (fun x => in_set (str ".") x = false) (fmt_d a) /\ atoi (fmt_d a) = a /\ text 3 (fmt_d a).
Proof.
  intros Ha. unfold is_byte in Ha. assert (E : fmt_d a = fmt_u a).
  { unfold fmt_d. by destruct (Z.ltb_spec a 0); [lia|]. }
  destruct (fmt_u_spec a) as (Hne & Hd & _ & _); [lia|]. rewrite atoi_fmt_d by lia. rewrite E.
  split_and!; [done| |done|].
  - eapply Forall_impl; [exact Hd|]. intros c Hc. unfold is_digit in Hc. apply andb_prop in Hc as [H1%Z.leb_le H2%Z.leb_le].
    unfold in_set. change (str ".") with [46]. cbn [existsb]. destruct (Z.eqb_spec c 46); [lia|done].
  - split; [by apply digit_nonul|]. apply fmt_u_length; lia.
Qed.

Lemma ip_token f i a r d :
  is_byte a -> (i < length d)%nat ->
  ip_fields (S f) i (fmt_d a ++ 46 :: r) d = ip_fields f (S i) r (<[i := a]> d).
Proof.
  intros Ha Hi. destruct (byte_text a Ha) as (Hne & Hd & Hat & _). unfold is_byte in Ha. cbn [ip_fields].
  rewrite (strtok_r_token _ (fmt_d a) 46 r) by done. rewrite Hat. unfold u8. rewrite Z.mod_small by lia.
  by rewrite mwrite_1.
Qed.

Lemma ip_last f i a d :
  is_byte a -> (i < length d)%nat -> ip_fields (S (S f)) i (fmt_d a) d = Ok (<[i := a]> d).
Proof.
  intros Ha Hi. destruct (byte_text a Ha) as (Hne & Hd & Hat & _). unfold is_byte in Ha. cbn [ip_fields].
  rewrite (strtok_r_last _ (fmt_d a)) by done. rewrite Hat. unfold u8. rewrite Z.mod_small by lia.
  rewrite mwrite_1 by done. done.
Qed.

(** Four bytes. *)
Definition address (a b c d : Z) : Prop := is_byte a /\ is_byte b /\ is_byte c /\ is_byte d.

Lemma dotted_text a b c d : is_byte a -> is_byte b -> is_byte c -> is_byte d -> text 15 (dotted a b c d).
Proof.
  intros Ha Hb Hc Hd. unfold dotted.
  assert (Hp : text 1 (str ".")) by (apply text_const; vm_compute; repeat constructor; discriminate).
  change 15%nat with (3 + (1 + (3 + (1 + (3 + (1 + 3))))))%nat.
  repeat apply text_app; try done; by apply byte_text.
Qed.

(** The address PickUp_Data_Spm prints from four bytes is read back as
    these four bytes by Set_Dada_IP. *)
Lemma Set_Dada_IP_round_trip a b c d para r :
  address a b c d -> (4 <= length para)%nat ->
  Set_Dada_IP para (Some (dotted a b c d ++ 0 :: r)) = Ok (0, patch para 0 [a; b; c; d]).
Proof.
  intros (Ha & Hb & Hc & Hd) Hp. destruct (dotted_text a b c d Ha Hb Hc Hd) as [Hn Hl]. unfold Set_Dada_IP.
  rewrite Json.cstring_app by done. cbn [res_bind]. rewrite mwrite_zeros by lia. cbn [res_bind].
  rewrite cstring_padded by (done || lia). cbn [res_bind].
  assert (Hlen : (4 <= length (dotted a b c d))%nat).
  { unfold dotted. destruct (byte_text a Ha) as [? _]. destruct (fmt_d a); [done|]. rewrite !length_app. cbn. lia. }
  destruct (length (dotted a b c d)) as [|[|[|[|n]]]] eqn:En; [lia..|].
  unfold dotted. change (str ".") with [46]. cbn [app].
  rewrite ip_token by (done || lia). rewrite ip_token by (done || (rewrite length_insert; lia)).
  rewrite ip_token by (done || (rewrite !length_insert; lia)). rewrite ip_last by (done || (rewrite !length_insert; lia)).
  cbn [res_bind]. do 2 f_equal. destruct para as [|? [|? [|? [|? para]]]]; cbn in Hp; try lia. done.
Qed.

Lemma Set_Dada_IP_round_trip_witness :
  Set_Dada_IP (zeros 12) (Some (dotted 10 0 255 7 ++ [0])) = Ok (0, patch (zeros 12) 0 [10; 0; 255; 7]).
Proof.
  apply (Set_Dada_IP_round_trip 10 0 255 7 (zeros 12) []);
    [unfold address, is_byte; lia|rewrite length_zeros; lia].
Defined.

(** ** Reading a socket *)

(** The state after [got] was read on [fd]. *)
Definition read_state (fd : Z) (got : bytes) (s : dst) (i : list answer) : world :=
  let w := wd s in
  mkW (cells w) (lnk w) (w_logs w) (mkIo (out (w_sys w) ++ [ERecv fd got]) i).

Lemma recv_run {B} (k : Z * bytes -> D B) fd got s i :
  inp (w_sys (wd s)) = a_bytes got :: i -> (length got <= 512)%nat ->
  bind (dio (sys_recv fd 512)) k s = k (Z.of_nat (length got), got) (mkD (thr s) (TempBuf s) (read_state fd got s i)).
Proof.
  intros Hi Hl. unfold bind at 1, dio, dw, wio. destruct (w_sys (wd s)) as [o inp'] eqn:E. cbn [inp] in Hi. subst inp'.
  rewrite recv_bytes, take_ge by lia. unfold read_state. rewrite E. done.
Qed.

(** What a read of buf[512] can give and TempBuf cannot hold. *)
Definition oversized (got : bytes) : Prop := (256 < length got <= 512)%nat.

(** The string in the receive buffer is the one in the bytes received. *)
Lemma cstr_pad got m : (0 < m)%nat -> cstr (got ++ zeros m) = cstr got.
Proof.
  intros Hm. induction got as [|c got IH]; cbn [app cstr].
  - destruct m; [lia|done].
  - by rewrite IH.
Qed.

(** A read of more than 256 bytes overruns the caller's TempBuf[256]. *)
Lemma Recv_Data_overruns fd got s i :
  inp (w_sys (wd s)) = a_bytes got :: i -> length (TempBuf s) = 256%nat -> oversized got ->
  Coding_With_Recv_Data fd s = Fault Overrun.
Proof.
  intros Hi Hb Hl. unfold oversized in Hl. unfold Coding_With_Recv_Data. rewrite (recv_run _ _ got _ i Hi) by lia.
  destruct (Z.leb_spec (Z.of_nat (length got)) 0); [lia|].
  erewrite bind_ok by (unfold lift; rewrite mwrite_zeros by lia; reflexivity).
  unfold bind at 1, put_Temp. cbn [TempBuf]. by rewrite mwrite_overrun by lia.
Qed.

Definition idle_thread (i : list answer) : dst :=
  mkD (mkT 0 (zeros 20) None (zeros 12) 0) (zeros 256)
    (mkW (cells empty_table) (lnk empty_table) (w_logs empty_table) (mkIo [] i)).

Lemma Recv_Data_overruns_witness :
  Coding_With_Recv_Data 9 (idle_thread [a_bytes (zeros 300)]) = Fault Overrun.
Proof.
  apply (Recv_Data_overruns 9 (zeros 300) _ []); [reflexivity|apply length_zeros|unfold oversized; rewrite length_zeros; lia].
Defined.

(** A frame with an unknown tag is refused: the result is -1 and, apart
    from the bytes copied to TempBuf, nothing changes and nothing is sent. *)
Lemma unknown_tag_refused fd got s i :
  inp (w_sys (wd s)) = a_bytes got :: i -> length (TempBuf s) = 256%nat -> (0 < length got <= 256)%nat ->
  strstr (cstr got) (str "sn") = None -> nth 0 got 0 ∉ known_tags ->
  Coding_With_Recv_Data fd s = Ok (-1, mkD (thr s) (patch (TempBuf s) 0 got) (read_state fd got s i)).
Proof.
  intros Hi Hb Hl Hsn Htag. unfold Coding_With_Recv_Data. rewrite (recv_run _ _ got _ i Hi) by lia.
  destruct (Z.leb_spec (Z.of_nat (length got)) 0); [lia|].
  erewrite bind_ok by (unfold lift; rewrite mwrite_zeros by lia; reflexivity).
  erewrite bind_ok by (unfold put_Temp; cbn [TempBuf]; rewrite mwrite_ok by lia; reflexivity).
  assert (Hc : cstring (padded 512 got) = Ok (cstr got)).
  { unfold cstring, padded. rewrite has_nul_app, has_nul_zeros by lia. rewrite orb_true_r. f_equal.
    apply cstr_pad. lia. }
  erewrite bind_ok by (unfold lift; rewrite Hc; reflexivity). rewrite Hsn.
  assert (Ht : Cmd_TAG_of (padded 512 got) = nth 0 got 0) by (destruct got; [cbn in Hl; lia|done]).
  rewrite Ht. unfold Cmd_Test. destruct (Z.leb_spec (nth 0 got 0) 0); [done|].
  assert (Hk : existsb (Z.eqb (nth 0 got 0)) known_tags = false).
  { apply not_true_is_false. intros (t & Hin & E%Z.eqb_eq)%existsb_exists. apply Htag. rewrite E. by apply list_elem_of_In. }
  by rewrite Hk.
Qed.

Lemma unknown_tag_refused_witness :
  exists s', Coding_With_Recv_Data 9 (idle_thread [a_bytes [200; 1; 5]]) = Ok (-1, s').
Proof.
  eexists. apply (unknown_tag_refused 9 [200; 1; 5] _ []);
    [reflexivity|apply length_zeros|cbn; lia|reflexivity|].
  intros Hin. apply (bool_decide_eq_true_2 _) in Hin. vm_compute in Hin. discriminate.
Defined.

(** ** Commands of the web server *)

Definition web_frame (tag : Z) (data : bytes) : bytes := [u8 tag; Z.of_nat (length data); 0; 0] ++ data.

Lemma set_byte_frame0 tag n : is_byte n -> set_byte 1 n (frame0 tag) = Ok (u8 tag :: n :: zeros 1026).
Proof.
  intros Hn. unfold set_byte, frame0. replace (u8 n) with n by (unfold u8; unfold is_byte in Hn; rewrite Z.mod_small; lia).
  rewrite mwrite_1 by (cbn [length]; rewrite length_zeros; lia). done.
Qed.

Lemma PickUp_Web_Data_run tag Src data fd o K i :
  mread Src 0 (length data) = Ok data -> (length data < 256)%nat -> 0 < fd -> 4 + Z.of_nat (length data) <= K ->
  PickUp_Web_Data (frame0 tag) (Z.of_nat (length data)) Src fd (mkIo o (a_num K :: i)) =
  Ok (0, mkIo (o ++ [ESend fd (web_frame tag data)]) i).
Proof.
  intros Hr Hl Hfd HK. unfold PickUp_Web_Data. rewrite set_byte_frame0 by (unfold is_byte; lia).
  erewrite bind_ok by reflexivity. cbn zeta.
  assert (Ep : (if Z.ltb 0 (Z.of_nat (length data))
    then let? b := mread Src 0 (Z.to_nat (Z.of_nat (length data))) in mwrite (u8 tag :: Z.of_nat (length data) :: zeros 1026) 4 b
    else Ok (u8 tag :: Z.of_nat (length data) :: zeros 1026)) = Ok (web_frame tag data ++ zeros (1024 - length data))).
  { rewrite Nat2Z.id, Hr. cbn [res_bind].
    assert (E : patch (u8 tag :: Z.of_nat (length data) :: zeros 1026) 4 data = web_frame tag data ++ zeros (1024 - length data)).
    { unfold patch, web_frame. change (zeros 1026) with (0 :: 0 :: zeros 1024). cbn [take app Nat.add drop]. rewrite take_0.
      cbn [app]. do 5 f_equal. unfold zeros. by rewrite drop_replicate. }
    destruct (Z.ltb_spec 0 (Z.of_nat (length data))).
    - rewrite mwrite_ok by (cbn [length]; rewrite length_zeros; lia). by rewrite E.
    - destruct data; [|cbn in *; lia]. rewrite <-E. by rewrite patch_nil. }
  erewrite bind_ok by (unfold lift; rewrite Ep; reflexivity).
  erewrite bind_ok by (unfold lift, size_of; destruct (Z.ltb_spec (4 + Z.of_nat (length data)) 0); [lia|reflexivity]).
  assert (Lf : length (web_frame tag data) = Z.to_nat (4 + Z.of_nat (length data))) by (unfold web_frame; cbn; lia).
  assert (Er : mread (web_frame tag data ++ zeros (1024 - length data)) 0 (Z.to_nat (4 + Z.of_nat (length data))) = Ok (web_frame tag data)).
  { rewrite mread_ok by (rewrite length_app; lia). rewrite drop_0, <-Lf. by rewrite take_app_length. }
  erewrite bind_ok by (unfold lift; rewrite Er; reflexivity).
  erewrite bind_ok by (unfold lift; rewrite mwrite_zeros by lia; reflexivity).
  destruct (Z.ltb_spec 0 fd); [|lia].
  assert (Ew : write_n fd (padded 512 (web_frame tag data)) (4 + Z.of_nat (length data)) (mkIo o (a_num K :: i)) =
    Ok (tt, mkIo (o ++ [ESend fd (web_frame tag data)]) i)).
  { unfold write_n. erewrite bind_ok by (unfold lift, size_of; destruct (Z.ltb_spec (4 + Z.of_nat (length data)) 0); [lia|reflexivity]).
    erewrite bind_ok by (unfold lift; rewrite mread_ok by (rewrite length_padded; lia); reflexivity).
    rewrite drop_0, <-Lf. unfold padded. rewrite take_app_length.
    erewrite bind_ok by (apply send_taken; lia). unfold ret. rewrite take_ge; [done|]. rewrite Lf. lia. }
  by erewrite bind_ok by exact Ew.
Qed.

(** The parts of a result of getValue; the text is only taken for types 8,
    10, 11 and 15. *)
Lemma getValue_parts src para1 sn d :
  getValue src = Ok (para1, sn, d) ->
  length sn = 16%nat /\ length d = 256%nat /\ (is_text_type (w_type para1) = false -> d = zeros 256).
Proof.
  unfold getValue. intros E. apply res_bind_inv in E as (k1 & _ & E). apply res_bind_inv in E as (sn' & Hsn & E).
  assert (Ls : length sn' = 16%nat).
  { destruct k1; [|by injection Hsn as <-]. apply mwrite_length in Hsn. by rewrite Hsn, length_zeros. }
  apply res_bind_inv in E as (k2 & _ & E). apply res_bind_inv in E as (ty & _ & E).
  apply res_bind_inv in E as ([D|] & _ & E); [|simplify_eq; by rewrite length_zeros].
  apply res_bind_inv in E as (t & _ & E). destruct (is_text_type ty) eqn:Et.
  - apply res_bind_inv in E as (d' & Hd & E). simplify_eq. apply mwrite_length in Hd. rewrite length_zeros in Hd.
    split_and!; [done|done|]. cbn [w_type]. by rewrite Et.
  - simplify_eq. by rewrite length_zeros.
Qed.

(** What the frame of a command carries. *)
Definition web_data (para1 : Web_Data) (t : bytes) (k : web_payload) : bytes :=
  match k with Numbers => [w_type para1; w_num para1] | Text => t | Nothing => [] end.

(** The terminal with serial number [sn] is in the table and connected. *)
Definition online (w : world) (sn : bytes) (fd : Z) : Prop :=
  exists xs p d, table_ok w xs /\ lookup_SN w xs sn = Some p /\ cells w !! p = Some d /\ s32 (fget Spm.fd1 d) = fd.

Lemma cstring_read d t : cstring d = Ok t -> mread d 0 (length t) = Ok t.
Proof.
  unfold cstring. destruct (has_nul d) eqn:Hn; [|done]. intros [= <-]. rewrite mread_ok by (pose proof (cstr_length d); lia).
  rewrite drop_0. f_equal. clear Hn. induction d as [|c d IH]; cbn [cstr length take]; [done|].
  destruct (Z.eqb c 0); [done|]. cbn [length take]. by rewrite IH.
Qed.

Lemma find_online sn fd w : online w sn fd -> (15 <= length sn)%nat ->
  exists p, get_data_list_by_SN sn w = Ok (Some p, w) /\ on_node p (rd32 Spm.fd1) w = Ok (fd, w).
Proof.
  intros (xs & p & d & Ht & Hl & Hp & Hfd) Hs. exists p. split.
  - rewrite (get_data_list_by_SN_spec w xs sn Ht Hs). by rewrite Hl.
  - unfold on_node. rewrite Hp. unfold rd32, gets. cbn [nd logs w_io]. rewrite Hfd, insert_id by done. by destruct w.
Qed.

Lemma web_delivers RecvBuf cl w para1 sn dst t tag kind fd K i :
  getValue RecvBuf = Ok (para1, sn, dst) -> cstring dst = Ok t -> web_command (w_type para1) = Some (tag, kind) ->
  online w sn fd -> 0 < fd -> inp (w_sys w) = a_num 3 :: a_num K :: i -> 260 <= K ->
  Client_Web_Manage RecvBuf cl w = Ok (0, mkW (cells w) (lnk w) (w_logs w)
    (mkIo (out (w_sys w) ++ [ESend cl (str "ok" ++ [10]); ESend fd (web_frame tag (web_data para1 t kind))]) i)).
Proof.
  intros Hg Ht Hw Ho Hfd Hi HK. destruct (getValue_parts _ _ _ _ Hg) as (Ls & Ld & _).
  destruct (find_online _ _ _ Ho) as (p & E1 & E2); [lia|].
  assert (Lt : (length t < 256)%nat).
  { unfold cstring in Ht. destruct (has_nul dst) eqn:Hn; [|done]. injection Ht as <-.
    apply cstr_length_nul in Hn. lia. }
  unfold Client_Web_Manage. erewrite bind_ok by (unfold lift; rewrite Hg; reflexivity). cbn beta iota.
  erewrite bind_ok by exact E1. cbn beta iota. erewrite bind_ok by exact E2.
  destruct (Z.ltb_spec 0 fd); [|lia].
  destruct w as [cs lk lg [o inp']]. cbn [w_sys inp out cells lnk w_logs] in *. subst inp'.
  set (o1 := o ++ [ESend cl (str "ok" ++ [10])]).
  assert (W1 : wio (write_n cl (str "ok" ++ [10]) 3) (mkW cs lk lg (mkIo o (a_num 3 :: a_num K :: i))) =
    Ok (tt, mkW cs lk lg (mkIo o1 (a_num K :: i)))) by reflexivity.
  erewrite bind_ok by exact W1. rewrite Hw.
  assert (Run : forall Src data, mread Src 0 (length data) = Ok data -> (length data < 256)%nat ->
    wio (PickUp_Web_Data (frame0 tag) (Z.of_nat (length data)) Src fd) (mkW cs lk lg (mkIo o1 (a_num K :: i))) =
    Ok (0, mkW cs lk lg (mkIo (o ++ [ESend cl (str "ok" ++ [10]); ESend fd (web_frame tag data)]) i))).
  { intros Src data Hr Hd. unfold wio. cbn [w_sys]. rewrite PickUp_Web_Data_run by (done || lia). subst o1. by rewrite <-app_assoc. }
  destruct kind.
  - erewrite bind_ok by (apply (Run _ [w_type para1; w_num para1]); [reflexivity|cbn; lia]). done.
  - erewrite bind_ok by (erewrite bind_ok by (unfold lift; rewrite Ht; reflexivity); apply Run; [by apply cstring_read|done]). done.
  - erewrite bind_ok by (apply (Run _ []); [reflexivity|cbn; lia]). done.
Qed.

(** C32: a command of the web server is delivered: the server answers "ok"
    and the terminal gets one frame with the tag and the data of the command. *)
Theorem web_command_delivered RecvBuf cl w para1 sn dst t tag kind fd K i :
  getValue RecvBuf = Ok (para1, sn, dst) -> cstring dst = Ok t -> web_command (w_type para1) = Some (tag, kind) ->
  online w sn fd -> 0 < fd -> inp (w_sys w) = a_num 3 :: a_num K :: i -> 260 <= K ->
  Client_Web_Manage RecvBuf cl w = Ok (0, mkW (cells w) (lnk w) (w_logs w)
    (mkIo (out (w_sys w) ++ [ESend cl (str "ok" ++ [10]); ESend fd (web_frame tag (web_data para1 t kind))]) i)).
Proof. apply web_delivers. Qed.

(** The network-selection command (type 12) loses its text: getValue
    copies the text for types 8, 10, 11 and 15 only, so the frame that goes to
    the terminal carries no data, whatever the web server sent. *)
Lemma autonet_text_lost RecvBuf cl w para1 sn dst fd K i :
  getValue RecvBuf = Ok (para1, sn, dst) -> w_type para1 = 12 ->
  online w sn fd -> 0 < fd -> inp (w_sys w) = a_num 3 :: a_num K :: i -> 260 <= K ->
  Client_Web_Manage RecvBuf cl w = Ok (0, mkW (cells w) (lnk w) (w_logs w)
    (mkIo (out (w_sys w) ++ [ESend cl (str "ok" ++ [10]); ESend fd (web_frame TAG_AUTONET [])]) i)).
Proof.
  intros Hg Hty Ho Hfd Hi HK. destruct (getValue_parts _ _ _ _ Hg) as (_ & _ & Hz).
  apply (web_delivers _ _ _ para1 sn dst [] TAG_AUTONET Text fd K i); try done; [|by rewrite Hty].
  rewrite Hz by (by rewrite Hty). apply (cstring_padded 256 []); [constructor|cbn; lia].
Qed.

(** A terminal with an open connection, and requests of the web server. *)
Definition connected : bytes := fset Spm.fd1 9 (created sn1).

Definition connected_table (i : list answer) : world :=
  mkW {[ 2%positive := connected ]} (lnk one_node) [] (mkIo [] i).

Lemma connected_ok i : table_ok (connected_table i) [2%positive].
Proof.
  destruct one_node_ok as [Hr _ Hn _]. split.
  - exact Hr.
  - intros p. rewrite list_elem_of_singleton. unfold connected_table. cbn [cells].
    rewrite lookup_singleton_is_Some. naive_solver.
  - intros p d. unfold connected_table. cbn [cells]. rewrite lookup_singleton_Some. intros [_ <-].
    apply node_fset; [reflexivity|]. by apply (Hn 2%positive).
  - apply NoDup_singleton.
Qed.

Lemma connected_online i : online (connected_table i) sn1 9.
Proof.
  exists [2%positive], 2%positive, connected. split; [apply connected_ok|]. split; [vm_compute; reflexivity|].
  split; [reflexivity|vm_compute; reflexivity].
Qed.

Definition pair_of (k v : string) : bytes := [34] ++ str k ++ [34; 58; 34] ++ str v ++ [34].

Definition web_request (ty n : string) : bytes :=
  padded 512 ([123] ++ pair_of "sn" "172150210000937" ++ [44] ++ pair_of "type" ty ++ [44] ++ pair_of "num" n ++ [125]).

Lemma web_command_delivered_witness :
  Client_Web_Manage (web_request "8" "hello") 5 (connected_table [a_num 3; a_num 260]) =
  Ok (0, mkW (cells (connected_table [])) (lnk one_node) []
    (mkIo ([] ++ [ESend 5 (str "ok" ++ [10]); ESend 9 (web_frame TAG_MSG (str "hello"))]) [])).
Proof.
  apply (web_command_delivered (web_request "8" "hello") 5 (connected_table [a_num 3; a_num 260]) (mkWeb 8 0) sn1
    (padded 256 (str "hello")) (str "hello") TAG_MSG Text 9 260 []).
  - vm_compute. reflexivity.
  - vm_compute. reflexivity.
  - reflexivity.
  - exact (connected_online _).
  - lia.
  - reflexivity.
  - lia.
Defined.

Lemma autonet_text_lost_witness :
  Client_Web_Manage (web_request "12" "46001") 5 (connected_table [a_num 3; a_num 260]) =
  Ok (0, mkW (cells (connected_table [])) (lnk one_node) []
    (mkIo ([] ++ [ESend 5 (str "ok" ++ [10]); ESend 9 (web_frame TAG_AUTONET [])]) [])).
Proof.
  apply (autonet_text_lost (web_request "12" "46001") 5 (connected_table [a_num 3; a_num 260]) (mkWeb 12 (u8 46001)) sn1 (zeros 256) 9 260 []).
  - vm_compute. reflexivity.
  - reflexivity.
  - exact (connected_online _).
  - lia.
  - reflexivity.
  - lia.
Defined.
End Frames.
