(* ===== verification/ConnQueue.v ===== *)
(** * Queues between the threads (src/src/thread.c)

    The main thread hands accepted connections to RT_POOL_NUM threads, and
    these hand what they read to POOL_NUM workers. Each thread has a queue of
    items (singly linked, head and tail) and a notify pipe; the items come
    from a free list shared by the threads of one side. Items are cells of a
    memory; a critical section (a mutex held) is one step. The connection
    side and the worker side have the same structure, [side]. *)

From stdpp Require Import prelude gmap strings.
From S2P Require Import Prelude CLib Sock.
Import Sock.
Open Scope Z_scope.

Module ConnQueue.

Abbreviation loc := positive.

Inductive conn_states :=
| conn_listening | conn_new_cmd | conn_waiting | conn_read | conn_parse_cmd | conn_write
| conn_nread | conn_swallow | conn_closing | conn_mwrite | conn_closed | conn_max_state.

#[export] Instance conn_states_eq_dec : EqDecision conn_states.
Proof. solve_decision. Defined.

Inductive conn_queue_item_modes := queue_new_conn | queue_redispatch.

Record conn_queue_item := mkItem {
  sfd : Z;
  init_state : conn_states;
  event_flags : Z;
  mode : conn_queue_item_modes;
  buff : bytes;
  next : option loc
}.

Definition DATA_BUFFER_SIZE : Z := 1024.
Definition ITEMS_PER_ALLOC : nat := 128.
Definition RT_POOL_NUM : Z := 20.
Definition POOL_NUM : Z := 10.

(** memset(item, 0, sizeof(CQ_ITEM)) *)
Definition item0 : conn_queue_item :=
  mkItem 0 conn_listening 0 queue_new_conn (zeros (Z.to_nat DATA_BUFFER_SIZE)) None.

Definition set_next (it : conn_queue_item) (n : option loc) : conn_queue_item :=
  mkItem (sfd it) (init_state it) (event_flags it) (mode it) (buff it) n.

Record conn_queue := mkCQ { head : option loc; tail : option loc }.

(** One side: the memory of its items, the free list, the queue and the
    unread bytes of the notify pipe of each thread, the thread used last. *)
Record side := mkSide {
  items : gmap loc conn_queue_item;
  freelist : option loc;
  queues : list conn_queue;
  pipes : list bytes;
  last_thread : Z;
  os : io
}.

Abbreviation Q A := (M side A).

Definition qio {A} (m : M io A) : Q A := fun s =>
  match m (os s) with
  | Ok (a, w) => Ok (a, mkSide (items s) (freelist s) (queues s) (pipes s) (last_thread s) w)
  | Fault f => Fault f
  end.

Definition load (p : loc) : Q conn_queue_item := fun s =>
  match items s !! p with Some it => Ok (it, s) | None => Fault UseAfterFree end.

Definition store (p : loc) (it : conn_queue_item) : Q unit := fun s =>
  match items s !! p with
  | Some _ => Ok (tt, mkSide (<[p := it]> (items s)) (freelist s) (queues s) (pipes s) (last_thread s) (os s))
  | None => Fault UseAfterFree
  end.

Definition set_free (l : option loc) : Q unit :=
  modify (fun s => mkSide (items s) l (queues s) (pipes s) (last_thread s) (os s)).

Definition set_last (t : Z) : Q unit :=
  modify (fun s => mkSide (items s) (freelist s) (queues s) (pipes s) t (os s)).

(** threads + tid *)
Definition queue_of (tid : Z) : Q conn_queue := fun s =>
  if Z.ltb tid 0 then Fault Overread else
  match queues s !! Z.to_nat tid with Some c => Ok (c, s) | None => Fault Overread end.

Definition set_queue (tid : Z) (c : conn_queue) : Q unit :=
  modify (fun s => mkSide (items s) (freelist s) (<[Z.to_nat tid := c]> (queues s)) (pipes s) (last_thread s) (os s)).

(** ** Items *)

Section Alloc.
(** What malloc leaves in the cells of a new block. *)
Context (junk : loc -> conn_queue_item).

(** item[i - 1].next = &item[i], and the last one points to [rest]. *)
Fixpoint link_block (b : list loc) (rest : option loc) (h : gmap loc conn_queue_item) : gmap loc conn_queue_item :=
  match b with
  | [] => h
  | x :: r =>
      let n := match r with [] => rest | y :: _ => Some y end in
      <[x := set_next (junk x) n]> (link_block r rest h)
  end.

(** malloc of a block: the first item for the caller, the others in front of
    the free list. *)
Definition alloc_block : Q (option loc) := fun s =>
  match answered (os s) with
  | Fault f => Fault f
  | Ok (a, w) =>
      if Z.ltb (a_ret a) 0
      then Ok (None, mkSide (items s) (freelist s) (queues s) (pipes s) (last_thread s) w)
      else
        match fresh_list ITEMS_PER_ALLOC (dom (items s)) with
        | [] => Fault NullDeref
        | x :: r =>
            let h := link_block r (freelist s) (<[x := junk x]> (items s)) in
            Ok (Some x, mkSide h (List.hd_error r) (queues s) (pipes s) (last_thread s) w)
        end
  end.

Definition cqi_new_base : Q (option loc) :=
  let! l := gets freelist in
  let! item := match l with
               | Some p => let! it := load p in set_free (next it) ;; ret (Some p)
               | None => alloc_block
               end in
  match item with
  | None => ret None
  | Some p => store p item0 ;; ret (Some p)
  end.

Definition cqi_free_base (item : loc) : Q unit :=
  let! l := gets freelist in
  let! it := load item in
  store item (set_next it l) ;;
  set_free (Some item).

(** ** Queues *)

Definition cq_push (tid : Z) (item : loc) : Q unit :=
  let! it := load item in
  store item (set_next it None) ;;
  let! cq := queue_of tid in
  match tail cq with
  | None => set_queue tid (mkCQ (Some item) (Some item))
  | Some t =>
      let! it := load t in
      store t (set_next it (Some item)) ;;
      set_queue tid (mkCQ (head cq) (Some item))
  end.

Definition cq_pop (tid : Z) : Q (option loc) :=
  let! cq := queue_of tid in
  match head cq with
  | None => ret None
  | Some p =>
      let! it := load p in
      set_queue tid (mkCQ (next it) (match next it with None => None | Some _ => tail cq end)) ;;
      ret (Some p)
  end.

Definition cq_init : conn_queue := mkCQ None None.

(** write(thread->notify_send_fd, buf, 1): one byte, unless it fails. *)
Definition notify (tid c : Z) : Q unit := fun s =>
  match answered (os s) with
  | Fault f => Fault f
  | Ok (a, w) =>
      let p := pipes s in
      let p' := if Z.eqb (a_ret a) 1 then alter (fun b => b ++ [c]) (Z.to_nat tid) p else p in
      Ok (tt, mkSide (items s) (freelist s) (queues s) p' (last_thread s) w)
  end.

(** ** Handing over *)

Definition dispatch_conn_new (fd : Z) (st : conn_states) (flags : Z) : Q unit :=
  let! item := cqi_new_base in
  match item with
  | None => qio (sys_close fd)
  | Some p =>
      let! last := gets last_thread in
      let tid := Z.rem (last + 1) RT_POOL_NUM in
      set_last tid ;;
      let! it := load p in
      store p (mkItem fd st flags queue_new_conn (buff it) (next it)) ;;
      cq_push tid p ;;
      notify tid 99
  end.

(** [text] is the C string at the argument. *)
Definition conn_new_func_worker (text : bytes) : Q unit :=
  let! item := cqi_new_base in
  match item with
  | None => ret tt
  | Some p =>
      let! last := gets last_thread in
      let tid := Z.rem (last + 1) POOL_NUM in
      set_last tid ;;
      let! it := load p in
      let! b := lift (mwrite (buff it) 0 text) in
      store p (mkItem (sfd it) (init_state it) (event_flags it) (mode it) b (next it)) ;;
      cq_push tid p ;;
      notify tid 108
  end.

(** One byte of the notify pipe, if there is one. *)
Definition read_pipe (tid : Z) : Q (option Z) := fun s =>
  match pipes s !! Z.to_nat tid with
  | Some (c :: r) =>
      Ok (Some c, mkSide (items s) (freelist s) (queues s) (<[Z.to_nat tid := r]> (pipes s)) (last_thread s) (os s))
  | _ => Ok (None, s)
  end.

(** The text the worker prints. *)
Definition work_func (tid : Z) : Q (option bytes) :=
  let! c := read_pipe tid in
  match c with
  | None => ret None
  | Some c =>
      let! item := cq_pop tid in
      match item with
      | None => ret None
      | Some p =>
          let! it := load p in
          let! shown := (if Z.eqb c 108 then let! t := lift (cstring (buff it)) in ret (Some t) else ret None) in
          cqi_free_base p ;;
          ret shown
      end
  end.
End Alloc.

(** ** Starting the threads *)

(** A call of which a failure ends the process. *)
Definition or_exit : M io unit :=
  let! a := answered in
  if Z.ltb (a_ret a) 0 then fail Exited else ret tt.

(** setup_thread: event_init, event_add, malloc of the queue. *)
Definition setup_thread : M io conn_queue := or_exit ;; or_exit ;; or_exit ;; ret cq_init.

(** pipe, then setup_thread, for each thread. *)
Fixpoint setup_threads (n : nat) : M io (list conn_queue) :=
  match n with
  | O => ret []
  | S m =>
      or_exit ;;
      let! c := setup_thread in
      let! r := setup_threads m in
      ret (c :: r)
  end.

(** pthread_create for each thread. *)
Fixpoint create_workers (n : nat) : M io unit :=
  match n with O => ret tt | S m => or_exit ;; create_workers m end.

(** calloc, the threads with their queues, then the workers. *)
Definition thread_init (nthreads : Z) : M io side := fun w =>
  match (or_exit ;;
         let! qs := setup_threads (Z.to_nat nthreads) in
         create_workers (Z.to_nat nthreads) ;; ret qs) w with
  | Ok (qs, w') => Ok (mkSide ∅ None qs (replicate (length qs) []) (-1) w', w')
  | Fault f => Fault f
  end.

(** ** What the memory of a side holds *)

Abbreviation entry := (loc * conn_queue_item)%type.

(** The cells of a chain, with what they hold apart from the link. *)
Fixpoint chain (h : gmap loc conn_queue_item) (p : option loc) (es : list entry) : Prop :=
  match es with
  | [] => p = None
  | (x, e) :: r => p = Some x /\ exists it, h !! x = Some it /\ set_next it None = e /\ chain h (next it) r
  end.

Definition holds (h : gmap loc conn_queue_item) (e : entry) : Prop :=
  exists it, h !! e.1 = Some it /\ set_next it None = e.2.

Definition queue_rep (h : gmap loc conn_queue_item) (c : conn_queue) (es : list entry) : Prop :=
  chain h (head c) es /\ tail c = fst <$> last es.

(** The free list, the items a thread is working on and the queues own all
    cells, each exactly once. *)
Definition cells (fl held : list entry) (qs : list (list entry)) : list loc :=
  (fl ++ held ++ concat qs).*1.

Record rep (s : side) (fl held : list entry) (qs : list (list entry)) : Prop := mkRep {
  rep_free : chain (items s) (freelist s) fl;
  rep_held : Forall (holds (items s)) held;
  rep_queues : Forall2 (queue_rep (items s)) (queues s) qs;
  rep_nodup : NoDup (cells fl held qs);
  rep_all : forall x, x ∈ cells fl held qs <-> is_Some (items s !! x)
}.

Lemma chain_ext h h' es : forall p,
  (forall x, x ∈ es.*1 -> h' !! x = h !! x) -> chain h p es -> chain h' p es.
Proof.
  induction es as [|[x e] r IH]; intros p He; [done|]. intros [-> (it & Hx & Ht & Hc)].
  split; [done|]. exists it. rewrite He by (cbn; set_solver). split_and!; [done..|].
  apply IH; [|done]. intros y Hy. apply He. cbn. set_solver.
Qed.

Lemma chain_insert h x it es p : x ∉ es.*1 -> chain h p es -> chain (<[x := it]> h) p es.
Proof. intros Hx. apply chain_ext. intros y Hy. rewrite lookup_insert_ne; [done|set_solver]. Qed.

Lemma holds_insert h x it e : x <> e.1 -> holds h e -> holds (<[x := it]> h) e.
Proof. intros Hx (i & Hi & Hn). exists i. by rewrite lookup_insert_ne. Qed.

Lemma queue_insert h x it c es : x ∉ es.*1 -> queue_rep h c es -> queue_rep (<[x := it]> h) c es.
Proof. intros Hx [Hc Ht]. split; [by apply chain_insert|done]. Qed.

(** Appending a cell behind the last one. *)
Lemma chain_snoc h es t et x e it : forall p,
  chain h p (es ++ [(t, et)]) -> NoDup ((es ++ [(t, et)]).*1) -> h !! t = Some it -> x ∉ (es ++ [(t, et)]).*1 ->
  h !! x = Some e -> next e = None ->
  chain (<[t := set_next it (Some x)]> h) p ((es ++ [(t, et)]) ++ [(x, set_next e None)]).
Proof.
  induction es as [|[y ey] r IH]; intros p Hc Hnd Ht Hx He Hn; cbn in *.
  - destruct Hc as [-> (i & Hi & Hs & _)]. split; [done|]. rewrite lookup_insert_eq.
    assert (i = it) as -> by congruence. eexists. split_and!; [done|done|done|].
    exists e. rewrite lookup_insert_ne by set_solver. by rewrite Hn.
  - apply NoDup_cons in Hnd as [Hy Hnd]. rewrite fmap_app in Hy. cbn in Hy. destruct Hc as [-> (i & Hi & Hs & Hc)].
    split; [done|]. exists i. rewrite lookup_insert_ne by set_solver. split_and!; [done..|].
    apply IH; try done. by apply not_elem_of_cons in Hx as [_ Hx].
Qed.

Lemma queues_ext h h' cs qs :
  Forall2 (queue_rep h) cs qs -> (forall x, x ∈ (concat qs).*1 -> h' !! x = h !! x) ->
  Forall2 (queue_rep h') cs qs.
Proof.
  induction 1 as [|c q cs qs [Hc Ht] _ IH]; intros He; [constructor|]. cbn in He. rewrite fmap_app in He.
  constructor.
  - split; [|done]. eapply chain_ext; [|done]. intros x Hx. apply He. apply elem_of_app. by left.
  - apply IH. intros x Hx. apply He. apply elem_of_app. by right.
Qed.

Lemma concat_insert_perm (qs : list (list entry)) i q : qs !! i = Some q ->
  exists rest, concat qs ≡ₚ q ++ rest /\ forall q', concat (<[i := q']> qs) ≡ₚ q' ++ rest.
Proof.
  revert i. induction qs as [|p qs IH]; intros [|i] Hi; simplify_eq/=.
  - by exists (concat qs).
  - destruct (IH i Hi) as (rest & Hr & Hr'). exists (p ++ rest). split.
    + rewrite Hr. by rewrite !app_assoc, (Permutation_app_comm p q).
    + intros q'. rewrite Hr'. by rewrite !app_assoc, (Permutation_app_comm p q').
Qed.

(** One queue changes, and cells that belong to no other queue. *)
Lemma queues_update h h' cs qs tid q c' q' :
  Forall2 (queue_rep h) cs qs -> qs !! tid = Some q ->
  (forall x, x ∈ (concat (<[tid := []]> qs)).*1 -> h' !! x = h !! x) -> queue_rep h' c' q' ->
  Forall2 (queue_rep h') (<[tid := c']> cs) (<[tid := q']> qs).
Proof.
  intros HF Hq He Hr. rewrite <-(list_insert_insert_eq cs tid c' cq_init), <-(list_insert_insert_eq qs tid q' []).
  apply Forall2_insert; [|done]. eapply queues_ext; [|exact He]. apply Forall2_insert; [done|]. by split.
Qed.

Lemma chain_holds h p es y e : chain h p es -> (y, e) ∈ es -> holds h (y, e).
Proof.
  revert p. induction es as [|[z ez] r IH]; intros p Hc Hin; [by apply elem_of_nil in Hin|].
  destruct Hc as [_ (it & Hi & Hs & Hc)]. apply elem_of_cons in Hin as [[= -> ->]|Hin]; [by exists it|by eapply IH].
Qed.

(** Cells that are owned in another way, with the same entries. *)
Lemma cells_perm fl held qs fl' held' qs' :
  fl ++ held ++ concat qs ≡ₚ fl' ++ held' ++ concat qs' -> cells fl held qs ≡ₚ cells fl' held' qs'.
Proof. intros Hp. unfold cells. by rewrite Hp. Qed.

Lemma rep_take s fl x e held qs i q :
  rep s fl ((x, e) :: held) qs -> qs !! i = Some q ->
  exists rest, concat qs ≡ₚ q ++ rest /\ (forall q', concat (<[i := q']> qs) ≡ₚ q' ++ rest) /\
    NoDup (x :: q.*1 ++ rest.*1 ++ fl.*1 ++ held.*1).
Proof.
  intros R Hq. destruct (concat_insert_perm qs i q Hq) as (rest & Hr & Hr'). exists rest. split_and!; [done..|].
  pose proof (rep_nodup _ _ _ _ R) as Hnd. revert Hnd. unfold cells. rewrite Hr.
  rewrite !fmap_app. cbn. rewrite <-Permutation_middle.
  by rewrite (Permutation_app_comm fl.*1), <-!app_assoc, (Permutation_app_comm held.*1), <-!app_assoc.
Qed.

Lemma rep_move s s' fl held qs fl' held' qs' :
  rep s fl held qs -> cells fl held qs ≡ₚ cells fl' held' qs' ->
  (forall x, is_Some (items s' !! x) <-> is_Some (items s !! x)) ->
  chain (items s') (freelist s') fl' -> Forall (holds (items s')) held' ->
  Forall2 (queue_rep (items s')) (queues s') qs' -> rep s' fl' held' qs'.
Proof.
  intros R Hp Hs Hf Hh Hq. split; [done..| |].
  - rewrite <-Hp. apply R.
  - intros x. rewrite <-Hp, Hs. apply R.
Qed.

Lemma insert_some (h : gmap loc conn_queue_item) x it y :
  is_Some (h !! x) -> is_Some (<[x := it]> h !! y) <-> is_Some (h !! y).
Proof. intros Hx. destruct (decide (x = y)) as [->|]; [rewrite lookup_insert_eq|by rewrite lookup_insert_ne]. by split. Qed.

Lemma held_ext h h' held :
  (forall x, x ∈ held.*1 -> h' !! x = h !! x) -> Forall (holds h) held -> Forall (holds h') held.
Proof.
  intros He. rewrite !Forall_forall. intros HF e Hin. destruct (HF e Hin) as (it & Hi & Hs).
  exists it. split; [|done]. rewrite He; [done|]. by apply list_elem_of_fmap_2.
Qed.

(** The memory changes only in cells of [xs]. *)
Definition same_but (xs : list loc) (h h' : gmap loc conn_queue_item) : Prop :=
  forall y, y ∉ xs -> h' !! y = h !! y.

(** The queue that [cq_push] makes of [q], in the memory it leaves. *)
Lemma push_queue h x e c q :
  queue_rep h c q -> NoDup q.*1 -> x ∉ q.*1 -> is_Some (h !! x) -> set_next e None = e ->
  exists h' hd, same_but (x :: q.*1) h h' /\ (forall y, is_Some (h' !! y) <-> is_Some (h !! y)) /\
    queue_rep h' (mkCQ hd (Some x)) (q ++ [(x, e)]) /\
    (match tail c with
     | None => h' = <[x := e]> h /\ hd = Some x
     | Some t => hd = head c /\ exists it, <[x := e]> h !! t = Some it /\ h' = <[t := set_next it (Some x)]> (<[x := e]> h)
     end).
Proof.
  intros [Hc Ht] Hnd Hx Hsx Hs.
  assert (Hn : next e = None) by (rewrite <-Hs; done).
  destruct q as [|e0 q0 _] using rev_ind.
  - rewrite Ht. cbn. exists (<[x := e]> h), (Some x). split; [|split; [|split; [|done]]].
    + intros y Hy. rewrite lookup_insert_ne; [done|set_solver].
    + intros y. by apply insert_some.
    + split; [|done]. split; [done|]. exists e. by rewrite lookup_insert_eq.
  - destruct e0 as [t et]. rewrite last_snoc in Ht. cbn in Ht. rewrite Ht.
    assert (Htx : t <> x) by (rewrite fmap_app in Hx; set_solver).
    destruct (chain_holds _ _ _ t et Hc) as (it & Hi & Hsi); [set_solver|]. cbn in Hi.
    set (h1 := <[x := e]> h). assert (H1 : h1 !! t = Some it) by (subst h1; by rewrite lookup_insert_ne).
    exists (<[t := set_next it (Some x)]> h1), (head c). split; [|split; [|split; [split|split]]].
    + intros y Hy. rewrite fmap_app in Hy. subst h1. rewrite !lookup_insert_ne; [done|set_solver..].
    + intros y. rewrite insert_some by (by rewrite H1). by apply insert_some.
    + rewrite <-Hs. apply (chain_snoc h1); [by apply chain_insert|done|done|done|by subst h1; rewrite lookup_insert_eq|done].
    + cbn. by rewrite last_snoc.
    + done.
    + by exists it.
Qed.

(** [rest_same s s']: nothing outside the memory, the free list and the
    queues changes. *)
Definition rest_same (s s' : side) : Prop :=
  pipes s' = pipes s /\ last_thread s' = last_thread s /\ os s' = os s.

Lemma load_run s x it : items s !! x = Some it -> load x s = Ok (it, s).
Proof. intros Hx. unfold load. by rewrite Hx. Qed.

Lemma store_run s x it : is_Some (items s !! x) ->
  store x it s = Ok (tt, mkSide (<[x := it]> (items s)) (freelist s) (queues s) (pipes s) (last_thread s) (os s)).
Proof. intros [i Hx]. unfold store. by rewrite Hx. Qed.

Lemma queue_run s fl held qs tid q :
  rep s fl held qs -> 0 <= tid -> qs !! Z.to_nat tid = Some q ->
  exists c, queues s !! Z.to_nat tid = Some c /\ queue_of tid s = Ok (c, s) /\ queue_rep (items s) c q.
Proof.
  intros R H0 Hq. destruct (Forall2_lookup_r _ _ _ _ _ (rep_queues _ _ _ _ R) Hq) as (c & Hc & Hr).
  exists c. split_and!; [done| |done]. unfold queue_of. destruct (Z.ltb_spec tid 0); [lia|]. by rewrite Hc.
Qed.

Lemma cq_push_rep s fl x e held qs tid q :
  rep s fl ((x, e) :: held) qs -> 0 <= tid -> qs !! Z.to_nat tid = Some q ->
  exists s', cq_push tid x s = Ok (tt, s') /\ rest_same s s' /\
    rep s' fl held (<[Z.to_nat tid := q ++ [(x, e)]]> qs).
Proof.
  intros R H0 Hq. destruct (rep_take _ _ _ _ _ _ _ _ R Hq) as (rest & Hr & Hr' & Hnd).
  pose proof (rep_held _ _ _ _ R) as [(it & Hi & Hs) Hh]%Forall_cons. cbn in Hi, Hs.
  apply NoDup_cons in Hnd as [Hx Hnd]. apply NoDup_app in Hnd as (Hndq & Hdis & _).
  assert (Se : set_next e None = e) by (rewrite <-Hs; done).
  destruct (queue_run _ _ _ _ _ _ R H0 Hq) as (c & Hc & Ec & Rc).
  destruct (push_queue (items s) x e c q) as (h' & hd & Hsame & Hsome & Rq & Hcase);
    [done|done|set_solver|by rewrite Hi|done|].
  assert (Rep : rep (mkSide h' (freelist s) (<[Z.to_nat tid := mkCQ hd (Some x)]> (queues s)) (pipes s) (last_thread s) (os s))
    fl held (<[Z.to_nat tid := q ++ [(x, e)]]> qs)).
  { eapply rep_move; [exact R| |exact Hsome|..]; cbn [items freelist queues].
    - apply cells_perm. rewrite Hr', Hr. cbn. rewrite <-Permutation_middle. rewrite <-!app_assoc.
      rewrite !(Permutation_app_comm q), !app_assoc. cbn. rewrite <-!app_assoc. cbn. by rewrite !Permutation_middle.
    - eapply chain_ext; [|apply R]. intros y Hy. apply Hsame. set_solver.
    - eapply held_ext; [|exact Hh]. intros y Hy. apply Hsame. set_solver.
    - eapply queues_update; [apply R|exact Hq| |done]. intros y Hy. rewrite Hr' in Hy. apply Hsame. set_solver. }
  eexists. split; [|split; [|exact Rep]]; [|done].
  unfold cq_push. erewrite bind_ok by (apply load_run; exact Hi). rewrite Hs.
  erewrite bind_ok by (apply store_run; by rewrite Hi).
  erewrite bind_ok by (unfold queue_of in *; destruct (Z.ltb_spec tid 0); [lia|]; cbn [queues]; by rewrite Hc).
  destruct (tail c) as [t|].
  - destruct Hcase as (-> & it' & Hit & ->). erewrite bind_ok by (by apply load_run).
    erewrite bind_ok by (apply store_run; cbn [items]; by rewrite Hit). done.
  - by destruct Hcase as [-> ->].
Qed.

Lemma cq_pop_empty s fl held qs tid :
  rep s fl held qs -> 0 <= tid -> qs !! Z.to_nat tid = Some [] -> cq_pop tid s = Ok (None, s).
Proof.
  intros R H0 Hq. destruct (queue_run _ _ _ _ _ _ R H0 Hq) as (c & Hc & Ec & [Rc _]).
  unfold cq_pop. erewrite bind_ok by exact Ec. cbn in Rc. by rewrite Rc.
Qed.

Lemma cq_pop_rep s fl x e held qs tid q :
  rep s fl held qs -> 0 <= tid -> qs !! Z.to_nat tid = Some ((x, e) :: q) ->
  exists s', cq_pop tid s = Ok (Some x, s') /\ rest_same s s' /\
    rep s' fl ((x, e) :: held) (<[Z.to_nat tid := q]> qs).
Proof.
  intros R H0 Hq. destruct (queue_run _ _ _ _ _ _ R H0 Hq) as (c & Hc & Ec & [[Hh (it & Hi & Hs & Hch)] Ht]).
  eexists. split.
  { unfold cq_pop. erewrite bind_ok by exact Ec. rewrite Hh.
    erewrite bind_ok by (apply load_run; exact Hi). done. }
  split; [done|]. destruct (concat_insert_perm _ _ _ Hq) as (rest & Hr & Hr').
  eapply rep_move; [exact R|..]; cbn [items freelist queues].
  - apply cells_perm. rewrite Hr', Hr. cbn. by rewrite <-!Permutation_middle.
  - done.
  - apply R.
  - apply Forall_cons. split; [by exists it|apply R].
  - apply Forall2_insert; [apply R|]. split; [exact Hch|]. cbn. destruct q as [|[y ey] q]; cbn in Hch.
    + by rewrite Hch.
    + destruct Hch as [-> _]. rewrite Ht. by rewrite !last_cons_cons.
Qed.

Lemma held_apart s fl x e held qs :
  rep s fl ((x, e) :: held) qs -> x ∉ fl.*1 ++ held.*1 ++ (concat qs).*1.
Proof.
  intros R. pose proof (rep_nodup _ _ _ _ R) as Hnd. unfold cells in Hnd. rewrite !fmap_app in Hnd. cbn in Hnd.
  rewrite <-Permutation_middle in Hnd. by apply NoDup_cons in Hnd as [Hx _].
Qed.

Lemma cqi_free_rep s fl x e held qs :
  rep s fl ((x, e) :: held) qs ->
  exists s', cqi_free_base x s = Ok (tt, s') /\ rest_same s s' /\ rep s' ((x, e) :: fl) held qs.
Proof.
  intros R. pose proof (rep_held _ _ _ _ R) as [(it & Hi & Hs) Hh]%Forall_cons. cbn in Hi, Hs.
  pose proof (held_apart _ _ _ _ _ _ R) as Hx.
  eexists. split.
  { unfold cqi_free_base. erewrite bind_ok by reflexivity. erewrite bind_ok by (apply load_run; exact Hi).
    erewrite bind_ok by (apply store_run; by rewrite Hi). done. }
  split; [done|]. eapply rep_move; [exact R|..]; cbn [items freelist queues].
  - apply cells_perm. cbn. by rewrite <-Permutation_middle.
  - intros y. apply insert_some. by rewrite Hi.
  - split; [done|]. eexists. rewrite lookup_insert_eq. split_and!; [done|by rewrite <-Hs|].
    apply chain_insert; [set_solver|apply R].
  - eapply held_ext; [|exact Hh]. intros y Hy. rewrite lookup_insert_ne; [done|set_solver].
  - eapply queues_ext; [apply R|]. intros y Hy. rewrite lookup_insert_ne; [done|set_solver].
Qed.

(** The contents of an item that a thread holds are written. *)
Lemma store_rep s fl x e held qs it :
  rep s fl ((x, e) :: held) qs ->
  exists s', store x it s = Ok (tt, s') /\ rest_same s s' /\ rep s' fl ((x, set_next it None) :: held) qs.
Proof.
  intros R. pose proof (rep_held _ _ _ _ R) as [(i & Hi & Hs) Hh]%Forall_cons. cbn in Hi, Hs.
  pose proof (held_apart _ _ _ _ _ _ R) as Hx.
  eexists. split; [apply store_run; by rewrite Hi|]. split; [done|].
  eapply rep_move; [exact R|..]; cbn [items freelist queues].
  - unfold cells. rewrite !fmap_app. done.
  - intros y. apply insert_some. by rewrite Hi.
  - apply chain_insert; [set_solver|apply R].
  - apply Forall_cons. split; [exists it; by rewrite lookup_insert_eq|].
    eapply held_ext; [|exact Hh]. intros y Hy. rewrite lookup_insert_ne; [done|set_solver].
  - eapply queues_ext; [apply R|]. intros y Hy. rewrite lookup_insert_ne; [done|set_solver].
Qed.

Section AllocRep.
Context (junk : loc -> conn_queue_item).

Definition fresh_entries (r : list loc) : list entry := (fun y => (y, set_next (junk y) None)) <$> r.

Lemma fresh_entries_fst r : (fresh_entries r).*1 = r.
Proof. unfold fresh_entries. rewrite <-list_fmap_compose. apply list_fmap_id. Qed.

Lemma link_other r rest h y : y ∉ r -> link_block junk r rest h !! y = h !! y.
Proof. induction r as [|x r IH]; intros Hy; [done|]. cbn [link_block]. rewrite lookup_insert_ne by set_solver. apply IH. set_solver. Qed.

Lemma link_some r rest h y : is_Some (link_block junk r rest h !! y) <-> y ∈ r \/ is_Some (h !! y).
Proof.
  induction r as [|x r IH]; [set_solver|]. cbn [link_block]. destruct (decide (x = y)) as [->|Hn].
  - rewrite lookup_insert_eq. set_solver.
  - rewrite lookup_insert_ne, IH by done. set_solver.
Qed.

Lemma link_chain r h : NoDup r -> chain (link_block junk r None h) (List.hd_error r) (fresh_entries r).
Proof.
  induction r as [|x r IH]; intros Hnd; [done|]. apply NoDup_cons in Hnd as [Hx Hnd].
  cbn [List.hd_error fresh_entries fmap list_fmap chain link_block]. split; [done|].
  eexists. rewrite lookup_insert_eq. split_and!; [done|done|]. cbn [next set_next].
  apply chain_insert; [by rewrite fresh_entries_fst|]. destruct r; by apply IH.
Qed.

(** Memory is available: the free list is not empty, or malloc succeeds. *)
Definition can_alloc (s : side) (fl : list entry) : Prop :=
  fl <> [] \/ exists a i, inp (os s) = a :: i /\ 0 <= a_ret a.

(** Apart from what the system answered. *)
Definition queues_same (s s' : side) : Prop :=
  pipes s' = pipes s /\ last_thread s' = last_thread s /\ out (os s') = out (os s).

(** The cells of a new block are owned by nobody else. *)
Lemma block_rep s held qs x r w :
  rep s [] held qs -> NoDup (x :: r) -> (forall y, y ∈ x :: r -> y ∉ dom (items s)) ->
  rep (mkSide (link_block junk r None (<[x := junk x]> (items s))) (List.hd_error r) (queues s) (pipes s) (last_thread s) w)
    (fresh_entries r) ((x, set_next (junk x) None) :: held) qs.
Proof.
  intros R Hnd Hfr. apply NoDup_cons in Hnd as [Hx Hnd].
  assert (Hold : forall y, y ∈ cells [] held qs -> y ∉ x :: r).
  { intros y Hy Hin. apply (Hfr y Hin). apply elem_of_dom. by apply R. }
  assert (Hsame : forall y, y ∈ cells [] held qs -> link_block junk r None (<[x := junk x]> (items s)) !! y = items s !! y).
  { intros y Hy%Hold. rewrite link_other, lookup_insert_ne; set_solver. }
  unfold cells in *. rewrite fmap_app in *. cbn in *.
  split; cbn [items freelist queues].
  - by apply link_chain.
  - apply Forall_cons. split.
    + exists (junk x). by rewrite link_other, lookup_insert_eq.
    + eapply held_ext; [|apply R]. intros y Hy. apply Hsame. rewrite fmap_app. set_solver.
  - eapply queues_ext; [apply R|]. intros y Hy. apply Hsame. rewrite fmap_app. set_solver.
  - unfold cells. rewrite fmap_app, fresh_entries_fst. cbn. apply NoDup_app. split_and!; [done| |].
    + intros y Hy. apply not_elem_of_cons. split; [set_solver|]. intros Hin. apply (Hold y Hin). set_solver.
    + apply NoDup_cons. split; [|apply R]. intros Hin. apply (Hold x Hin). set_solver.
  - intros y. rewrite link_some. unfold cells. rewrite fmap_app, fresh_entries_fst. cbn.
    rewrite elem_of_app, elem_of_cons. pose proof (rep_all _ _ _ _ R y) as Hy. unfold cells in Hy. cbn in Hy. rewrite Hy.
    destruct (decide (x = y)) as [->|]; [rewrite lookup_insert_eq|rewrite lookup_insert_ne by done]; naive_solver.
Qed.

(** The free list and the answers that are left once an item is taken: malloc
    is asked only when the free list is empty. *)
Definition taken (s s' : side) (fl fl' : list entry) : Prop :=
  match fl with
  | [] => (S (length fl') = ITEMS_PER_ALLOC)%nat /\ exists a, inp (os s) = a :: inp (os s')
  | _ :: r => fl' = r /\ inp (os s') = inp (os s)
  end.

Lemma taken_inp s s' fl fl' : taken s s' fl fl' -> inp (os s') = inp (os s) \/ exists a, inp (os s) = a :: inp (os s').
Proof. destruct fl; intros [? ?]; [by right|by left]. Qed.

Lemma take_free s fl held qs :
  rep s fl held qs -> can_alloc s fl ->
  exists p e s' fl',
    (match freelist s with
     | Some p => let! it := load p in set_free (next it) ;; ret (Some p)
     | None => alloc_block junk
     end) s = Ok (Some p, s') /\ rep s' fl' ((p, e) :: held) qs /\ queues_same s s' /\ taken s s' fl fl'.
Proof.
  intros R Ha. pose proof (rep_free _ _ _ _ R) as Hf. destruct fl as [|[x e] fl].
  - cbn in Hf. rewrite Hf. destruct Ha as [|(a & i & Hi & Ha)]; [done|]. unfold alloc_block, answered.
    rewrite Hi. destruct (Z.ltb_spec (a_ret a) 0); [lia|].
    pose proof (length_fresh_list ITEMS_PER_ALLOC (dom (items s))) as Hlen.
    pose proof (NoDup_fresh_list ITEMS_PER_ALLOC (dom (items s))) as Hnd.
    pose proof (fresh_list_is_fresh ITEMS_PER_ALLOC (dom (items s))) as Hfr.
    destruct (fresh_list ITEMS_PER_ALLOC (dom (items s))) as [|x r]; [done|].
    exists x, (set_next (junk x) None). eexists _, (fresh_entries r). split; [done|].
    assert (S (length (fresh_entries r)) = ITEMS_PER_ALLOC) as Hfe by (unfold fresh_entries; by rewrite length_fmap).
    split; [|split; [done|split; [exact Hfe|cbn [os inp]; eauto]]]. rewrite Hf. by apply block_rep.
  - destruct Hf as [-> (it & Hi & Hs & Hc)]. exists x, e. eexists _, fl. split.
    { erewrite bind_ok by (apply load_run; exact Hi). done. }
    split; [|split; [done|by split]].
    eapply rep_move; [exact R|..]; cbn [items freelist queues]; [|done|done| |apply R].
    + apply cells_perm. cbn. by rewrite Permutation_middle.
    + apply Forall_cons. split; [by exists it|apply R].
Qed.

(** A new item is cleared and belongs to the caller only. *)
Lemma cqi_new_rep s fl held qs :
  rep s fl held qs -> can_alloc s fl ->
  exists p s' fl', cqi_new_base junk s = Ok (Some p, s') /\ rep s' fl' ((p, item0) :: held) qs /\ queues_same s s' /\ taken s s' fl fl'.
Proof.
  intros R Ha. destruct (take_free _ _ _ _ R Ha) as (p & e & s1 & fl' & E1 & R1 & S1 & I1).
  destruct (store_rep _ _ _ _ _ _ item0 R1) as (s2 & E2 & S2 & R2).
  exists p, s2, fl'. split_and!.
  - unfold cqi_new_base. erewrite bind_ok by reflexivity. erewrite bind_ok by exact E1.
    cbn beta iota. by erewrite bind_ok by exact E2.
  - exact R2.
  - destruct S1 as (? & ? & ?), S2 as (? & ? & ?). split_and!; congruence.
  - destruct S2 as (_ & _ & O2). unfold taken. by rewrite O2.
Qed.
End AllocRep.

(** ** The promise: FIFO queues *)

(** What a client of one side sees: the entries of each queue, the unread
    notifications, and the thread used last. *)
Record fifo := mkFifo { f_queues : list (list conn_queue_item); f_pipes : list bytes; f_last : Z }.

Definition fifo_push (n : Z) (it : conn_queue_item) (c : Z) (a : fifo) : fifo :=
  let tid := Z.rem (f_last a + 1) n in
  mkFifo (alter (fun q => q ++ [it]) (Z.to_nat tid) (f_queues a))
    (alter (fun b => b ++ [c]) (Z.to_nat tid) (f_pipes a)) tid.

Definition fifo_pop (tid : Z) (a : fifo) : option conn_queue_item * fifo :=
  match f_pipes a !! Z.to_nat tid, f_queues a !! Z.to_nat tid with
  | Some (_ :: b), Some q =>
      (List.hd_error q, mkFifo (<[Z.to_nat tid := List.tl q]> (f_queues a)) (<[Z.to_nat tid := b]> (f_pipes a)) (f_last a))
  | _, _ => (None, a)
  end.

(** [s] implements [a] with [n] threads; no thread holds an item. *)
Definition models (n : Z) (s : side) (a : fifo) : Prop :=
  exists fl qs, rep s fl [] qs /\ f_queues a = (fun q => q.*2) <$> qs /\ f_pipes a = pipes s /\
    f_last a = last_thread s /\ length qs = Z.to_nat n /\ length (pipes s) = Z.to_nat n /\ -1 <= last_thread s < n.

(** The next [k] answers of the system are successes: malloc gives memory
    and write takes its byte. *)
Definition succeeding (k : nat) (w : io) : Prop := exists i, inp w = replicate k (a_num 1) ++ i.

Lemma succeeding_tail k w w' :
  succeeding (S k) w -> inp w' = inp w \/ (exists a, inp w = a :: inp w') ->
  exists m, (k <= m)%nat /\ succeeding m w'.
Proof.
  intros [i Hi] [Hw|[a Hw]].
  - exists (S k). split; [lia|]. exists i. congruence.
  - exists k. split; [lia|]. exists i. rewrite Hw in Hi. by injection Hi.
Qed.

Lemma succeeding_le k m w : (k <= m)%nat -> succeeding m w -> succeeding k w.
Proof.
  intros Hk [i Hi]. exists (replicate (m - k) (a_num 1) ++ i). rewrite app_assoc, <-replicate_add.
  by replace (k + (m - k))%nat with m by lia.
Qed.

(** The next [k] answers of the system are no failures. *)
Definition willing (k : nat) (w : io) : Prop :=
  (k <= length (inp w))%nat /\ Forall (fun a => 0 <= a_ret a) (take k (inp w)).

Lemma willing_answer k w : willing (S k) w ->
  exists a w', answered w = Ok (a, w') /\ 0 <= a_ret a /\ out w' = out w /\ inp w = a :: inp w'.
Proof.
  intros [Hk Hf]. unfold answered. destruct (inp w) as [|a i]; [by cbn in Hk; lia|].
  apply Forall_cons in Hf as [Ha _]. eexists _, _. split_and!; [reflexivity|done|done|done].
Qed.

(** [n] answers later, with nothing sent. *)
Definition after (n : nat) (w w' : io) : Prop := inp w' = drop n (inp w) /\ out w' = out w.

Lemma after_more a b w1 w2 w3 : after a w1 w2 -> after b w2 w3 -> after (a + b) w1 w3.
Proof. intros [E1 O1] [E2 O2]. split; [by rewrite E2, E1, drop_drop|by rewrite O2]. Qed.

Lemma willing_drop n k w w' : willing (n + k) w -> after n w w' -> willing k w'.
Proof.
  intros [Hk Hf] [E _]. unfold willing. rewrite E, length_drop. split; [lia|].
  rewrite take_drop_commute. by apply Forall_drop.
Qed.

Lemma succeeding_willing k w : succeeding k w -> willing k w.
Proof.
  intros [i Hi]. unfold willing. rewrite Hi, length_app, length_replicate. split; [lia|].
  rewrite take_app_length' by by rewrite length_replicate. by apply Forall_replicate.
Qed.

Lemma succeeding_alloc k s fl : succeeding (S k) (os s) -> can_alloc s fl.
Proof. intros [i Hi]. right. eexists _, _. split; [exact Hi|]. done. Qed.

Lemma next_thread n last : 0 < n -> -1 <= last < n -> 0 <= Z.rem (last + 1) n < n.
Proof. intros Hn Hl. rewrite Z.rem_mod_nonneg by lia. apply Z.mod_pos_bound. lia. Qed.

Lemma notify_ok tid c s k :
  succeeding (S k) (os s) ->
  exists w, notify tid c s = Ok (tt, mkSide (items s) (freelist s) (queues s)
    (alter (fun b => b ++ [c]) (Z.to_nat tid) (pipes s)) (last_thread s) w) /\ succeeding k w /\ out w = out (os s).
Proof.
  intros [i Hi]. unfold notify, answered. rewrite Hi. cbn [replicate app]. eexists. split; [reflexivity|].
  split; [by exists i|done].
Qed.

Lemma rep_pipes s fl held qs ps t w :
  rep s fl held qs -> rep (mkSide (items s) (freelist s) (queues s) ps t w) fl held qs.
Proof. by intros [? ? ? ? ?]. Qed.

Lemma alter_insert {A} (f : A -> A) (l : list A) i x : l !! i = Some x -> alter f i l = <[i := f x]> l.
Proof. revert i. induction l as [|y l IH]; intros [|i] Hi; simplify_eq/=; [done|]. f_equal. by apply IH. Qed.

(** An item the caller has filled is queued for the next thread. *)
Lemma hand_over n s fl qs x e c k tid :
  rep s fl [(x, e)] qs -> 0 < n -> 0 <= tid < n -> length qs = Z.to_nat n -> length (pipes s) = Z.to_nat n ->
  succeeding (S k) (os s) -> last_thread s = tid ->
  exists s', (cq_push tid x ;; notify tid c) s = Ok (tt, s') /\ succeeding k (os s') /\
    models n s' (mkFifo (alter (fun q => q ++ [e]) (Z.to_nat tid) ((fun q => q.*2) <$> qs))
      (alter (fun b => b ++ [c]) (Z.to_nat tid) (pipes s)) tid).
Proof.
  intros R Hn Ht Hl Hp Hs Hlast.
  destruct (lookup_lt_is_Some_2 qs (Z.to_nat tid)) as [q Hq]; [lia|].
  destruct (cq_push_rep s fl x e [] qs tid q R) as (s1 & E1 & (P1 & L1 & O1) & R1); [lia|done|].
  destruct (notify_ok tid c s1 k) as (w & E2 & Sw & _); [by rewrite O1|].
  eexists. split; [by erewrite bind_ok by exact E1|]. split; [exact Sw|].
  exists fl, (<[Z.to_nat tid := q ++ [(x, e)]]> qs). cbn [f_queues f_pipes f_last pipes last_thread].
  split_and!.
  - by apply rep_pipes.
  - rewrite list_fmap_insert, fmap_app. cbn. erewrite alter_insert by (by rewrite list_lookup_fmap, Hq). done.
  - by rewrite P1.
  - congruence.
  - by rewrite length_insert.
  - by rewrite length_alter, P1.
  - lia.
  - lia.
Qed.

(** The thread the next item goes to. *)
Definition next_tid (n : Z) (s : side) : Z := Z.rem (last_thread s + 1) n.

(** A cleared item of the caller's own, the next thread chosen. *)
Lemma next_item junk n k s a :
  models n s a -> 0 < n -> succeeding (S (S k)) (os s) ->
  exists p s1 fl qs it, cqi_new_base junk s = Ok (Some p, s1) /\ last_thread s1 = last_thread s /\
    rep (mkSide (items s1) (freelist s1) (queues s1) (pipes s1) (next_tid n s) (os s1)) fl [(p, item0)] qs /\
    items s1 !! p = Some it /\ set_next it None = item0 /\
    f_queues a = (fun q => q.*2) <$> qs /\ f_pipes a = pipes s1 /\ length qs = Z.to_nat n /\
    length (pipes s1) = Z.to_nat n /\ succeeding (S k) (os s1) /\ 0 <= next_tid n s < n.
Proof.
  intros (fl & qs & R & Aq & Ap & Al & Lq & Lp & Hl) Hn Hs.
  destruct (cqi_new_rep junk s fl [] qs R) as (p & s1 & fl1 & E1 & R1 & (P1 & L1 & _) & I1); [by eapply succeeding_alloc|].
  destruct (succeeding_tail _ _ _ Hs (taken_inp _ _ _ _ I1)) as (m & Hm & Hs1).
  pose proof (rep_held _ _ _ _ R1) as [(it & Hi & Hit) _]%Forall_cons. cbn in Hi, Hit.
  exists p, s1, fl1, qs, it. rewrite P1. split_and!; try done.
  - by rewrite <-P1; apply rep_pipes.
  - by eapply succeeding_le.
  - by apply next_thread.
  - by apply next_thread.
Qed.

(** The item is filled, queued and the thread notified. *)
Lemma fill_and_hand_over n s fl qs p it e c k a tid :
  rep s fl [(p, item0)] qs -> set_next it None = e -> f_queues a = (fun q => q.*2) <$> qs -> f_pipes a = pipes s ->
  length qs = Z.to_nat n -> length (pipes s) = Z.to_nat n -> succeeding (S k) (os s) -> 0 <= tid < n ->
  last_thread s = tid -> tid = Z.rem (f_last a + 1) n ->
  exists s', (store p it ;; cq_push tid p ;; notify tid c) s = Ok (tt, s') /\ succeeding k (os s') /\
    models n s' (fifo_push n e c a).
Proof.
  intros R Hit Aq Ap Lq Lp Hs Ht Hl Hf.
  destruct (store_rep s fl p item0 [] qs it R) as (s3 & E3 & (P3 & L3 & O3) & R3). rewrite Hit in R3.
  destruct (hand_over n s3 fl qs p e c k tid) as (s4 & E4 & S4 & M4);
    [done|lia|done|done|by rewrite P3|by rewrite O3|by rewrite L3|].
  exists s4. split_and!; [by erewrite bind_ok by exact E3|done|].
  unfold fifo_push. rewrite <-Hf, Aq, Ap. by rewrite P3 in M4.
Qed.

(** dispatch_conn_new gives the connection to the thread after the one used
    last: it is appended to that thread's queue and the thread is notified. *)
Lemma dispatch_push junk fd st flags k s a :
  models RT_POOL_NUM s a -> succeeding (S (S k)) (os s) ->
  exists s', dispatch_conn_new junk fd st flags s = Ok (tt, s') /\ succeeding k (os s') /\
    models RT_POOL_NUM s' (fifo_push RT_POOL_NUM (mkItem fd st flags queue_new_conn (zeros 1024) None) 99 a).
Proof.
  intros M Hs. destruct (next_item junk _ _ _ _ M eq_refl Hs)
    as (p & s1 & fl & qs & it & E1 & L1 & R2 & Hi & Hit & Aq & Ap & Lq & Lp & Hs1 & Ht).
  assert (Hb : buff it = zeros 1024) by (by injection Hit).
  eapply fill_and_hand_over with (it := mkItem fd st flags queue_new_conn (buff it) (next it))
    (e := mkItem fd st flags queue_new_conn (zeros 1024) None) in R2 as (s' & E & S' & M');
    [|by rewrite <-Hb|exact Aq|exact Ap|exact Lq|exact Lp|exact Hs1|exact Ht|done|
     by unfold next_tid; destruct M as (? & ? & _ & _ & _ & -> & _)].
  exists s'. split_and!; [|done|done].
  unfold dispatch_conn_new. erewrite bind_ok by exact E1. cbn beta iota. erewrite bind_ok by reflexivity.
  rewrite L1. erewrite bind_ok by reflexivity. by erewrite bind_ok by (apply load_run; exact Hi).
Qed.

(** The item that carries a text to a worker. *)
Definition text_item (t : bytes) : conn_queue_item :=
  mkItem 0 conn_listening 0 queue_new_conn (padded 1024 t) None.

(** conn_new_func_worker hands a text to the next worker in the same way. *)
Lemma worker_push junk t k s a :
  models POOL_NUM s a -> succeeding (S (S k)) (os s) -> (length t <= 1024)%nat ->
  exists s', conn_new_func_worker junk t s = Ok (tt, s') /\ succeeding k (os s') /\
    models POOL_NUM s' (fifo_push POOL_NUM (text_item t) 108 a).
Proof.
  intros M Hs Hlen. destruct (next_item junk _ _ _ _ M eq_refl Hs)
    as (p & s1 & fl & qs & it & E1 & L1 & R2 & Hi & Hit & Aq & Ap & Lq & Lp & Hs1 & Ht).
  assert (Hb : buff it = zeros 1024) by (by injection Hit).
  eapply fill_and_hand_over with (it := mkItem (sfd it) (init_state it) (event_flags it) (mode it) (padded 1024 t) (next it)) (e := text_item t)
    in R2 as (s' & E & S' & M'); [|by injection Hit as -> -> -> -> _|exact Aq|exact Ap|exact Lq|exact Lp|exact Hs1|exact Ht|done|
     by unfold next_tid; destruct M as (? & ? & _ & _ & _ & -> & _)].
  exists s'. split_and!; [|done|done].
  unfold conn_new_func_worker. erewrite bind_ok by exact E1. cbn beta iota. erewrite bind_ok by reflexivity.
  rewrite L1. erewrite bind_ok by reflexivity. erewrite bind_ok by (apply load_run; exact Hi).
  rewrite Hb, mwrite_zeros by done. by erewrite bind_ok by reflexivity.
Qed.

(** ** Taking items out *)

(** A notification is read and the item behind it taken; once the item is
    given back, the side implements the shorter queue. [w] is what the use of
    the item did to the outside world. *)
Lemma take_next n s a tid c b e q :
  models n s a -> 0 <= tid < n -> f_pipes a !! Z.to_nat tid = Some (c :: b) -> f_queues a !! Z.to_nat tid = Some (e :: q) ->
  exists p it s1 s2, read_pipe tid s = Ok (Some c, s1) /\ cq_pop tid s1 = Ok (Some p, s2) /\ os s2 = os s /\
    items s2 !! p = Some it /\ set_next it None = e /\
    forall w, exists s3, cqi_free_base p (mkSide (items s2) (freelist s2) (queues s2) (pipes s2) (last_thread s2) w) = Ok (tt, s3) /\
      os s3 = w /\ models n s3 (snd (fifo_pop tid a)).
Proof.
  intros (fl & qs & R & Aq & Ap & Al & Lq & Lp & Hl) Ht Hp Hq.
  rewrite Aq, list_lookup_fmap in Hq. destruct (qs !! Z.to_nat tid) as [es|] eqn:Eq; [|done].
  destruct es as [|[p e'] es]; [done|]. cbn in Hq. injection Hq as -> Hq.
  set (s1 := mkSide (items s) (freelist s) (queues s) (<[Z.to_nat tid := b]> (pipes s)) (last_thread s) (os s)).
  destruct (cq_pop_rep s1 fl p e [] qs tid es) as (s2 & E2 & (P2 & L2 & O2) & R2); [by apply rep_pipes|lia|done|].
  pose proof (rep_held _ _ _ _ R2) as [(it & Hi & Hit) _]%Forall_cons. cbn in Hi, Hit.
  exists p, it, s1, s2. split_and!; try done.
  { unfold read_pipe. rewrite Ap in Hp. by rewrite Hp. }
  intros w. destruct (cqi_free_rep (mkSide (items s2) (freelist s2) (queues s2) (pipes s2) (last_thread s2) w)
    fl p e [] (<[Z.to_nat tid := es]> qs)) as (s3 & E3 & (P3 & L3 & O3) & R3); [by apply rep_pipes|].
  exists s3. split_and!; [done|done|]. exists ((p, e) :: fl), (<[Z.to_nat tid := es]> qs).
  unfold fifo_pop. rewrite Hp, Aq, list_lookup_fmap, Eq. cbn [fmap option_fmap option_map list_fmap snd List.tl f_queues f_pipes f_last].
  cbn [pipes last_thread] in P3, L3. rewrite P3, P2, L3, L2. cbn [pipes last_thread s1].
  split_and!; try done; try lia.
  - by rewrite list_fmap_insert.
  - by rewrite Ap.
  - by rewrite length_insert.
  - by rewrite length_insert.
Qed.

(** A worker shows the text at the front of its queue and gives the item back. *)
Lemma worker_pop s a tid b t q :
  models POOL_NUM s a -> 0 <= tid < POOL_NUM -> nonul t -> (length t < 1024)%nat ->
  f_pipes a !! Z.to_nat tid = Some (108 :: b) -> f_queues a !! Z.to_nat tid = Some (text_item t :: q) ->
  exists s', work_func tid s = Ok (Some t, s') /\ os s' = os s /\ models POOL_NUM s' (snd (fifo_pop tid a)).
Proof.
  intros M Ht Hn Hl Hp Hq. destruct (take_next _ _ _ _ _ _ _ _ M Ht Hp Hq) as (p & it & s1 & s2 & E1 & E2 & O & Hi & Hit & F).
  destruct (F (os s2)) as (s3 & E3 & O3 & M3). exists s3. split_and!; [|congruence|done].
  unfold work_func. erewrite bind_ok by exact E1. cbn beta iota. erewrite bind_ok by exact E2. cbn beta iota.
  erewrite bind_ok by (apply load_run; exact Hi). change (Z.eqb 108 108) with true. cbn match.
  assert (Hb : buff it = padded 1024 t) by (by injection Hit). rewrite Hb.
  erewrite bind_ok by (erewrite bind_ok by (unfold lift; rewrite cstring_padded by done; reflexivity); reflexivity).
  destruct s2. by erewrite bind_ok by exact E3.
Qed.

(** ** Starting up *)

Lemma or_exit_ok k w : willing (S k) w -> exists w', or_exit w = Ok (tt, w') /\ after 1 w w'.
Proof.
  intros (a & w' & E & Ha & Ho & Hi)%willing_answer. exists w'. unfold or_exit. erewrite bind_ok by exact E.
  destruct (Z.ltb_spec (a_ret a) 0); [lia|]. split; [done|split; [by rewrite Hi|done]].
Qed.

Lemma setup_threads_ok n : forall k w, willing (4 * n + k) w ->
  exists w', setup_threads n w = Ok (replicate n cq_init, w') /\ after (4 * n) w w'.
Proof.
  induction n as [|n IH]; intros k w Hs; [exists w; by repeat split|].
  replace (4 * S n + k)%nat with (S (S (S (S (4 * n + k)))))%nat in Hs by lia.
  destruct (or_exit_ok _ _ Hs) as (w1 & E1 & I1). pose proof (willing_drop 1 _ _ _ Hs I1) as S1.
  destruct (or_exit_ok _ _ S1) as (w2 & E2 & I2). pose proof (willing_drop 1 _ _ _ S1 I2) as S2.
  destruct (or_exit_ok _ _ S2) as (w3 & E3 & I3). pose proof (willing_drop 1 _ _ _ S2 I3) as S3.
  destruct (or_exit_ok _ _ S3) as (w4 & E4 & I4). pose proof (willing_drop 1 _ _ _ S3 I4) as S4.
  destruct (IH _ _ S4) as (w5 & E5 & I5). exists w5. split.
  - cbn [setup_threads]. erewrite bind_ok by exact E1. unfold setup_thread.
    erewrite bind_ok by (erewrite bind_ok by exact E2; erewrite bind_ok by exact E3; by erewrite bind_ok by exact E4).
    by erewrite bind_ok by exact E5.
  - replace (4 * S n)%nat with (1 + (1 + (1 + (1 + 4 * n))))%nat by lia. repeat (eapply after_more; [eassumption|]). done.
Qed.

Lemma create_workers_ok n : forall k w, willing (n + k) w ->
  exists w', create_workers n w = Ok (tt, w') /\ after n w w'.
Proof.
  induction n as [|n IH]; intros k w Hs; [exists w; by repeat split|].
  destruct (or_exit_ok _ _ Hs) as (w1 & E1 & I1). pose proof (willing_drop 1 _ _ _ Hs I1) as S1.
  destruct (IH _ _ S1) as (w2 & E2 & I2). exists w2. split.
  - cbn [create_workers]. by erewrite bind_ok by exact E1.
  - exact (after_more 1 n _ _ _ I1 I2).
Qed.

Definition fifo0 (n : nat) : fifo := mkFifo (replicate n []) (replicate n []) (-1).

(** A side whose threads have just started. *)
Definition side0 (n : nat) (w : io) : side := mkSide ∅ None (replicate n cq_init) (replicate n []) (-1) w.

Lemma side0_models n w : (0 < n)%nat -> models (Z.of_nat n) (side0 n w) (fifo0 n).
Proof.
  intros Hn. exists [], (replicate n []). rewrite Nat2Z.id.
  cbn [side0 pipes last_thread items freelist queues fifo0 f_queues f_pipes f_last].
  assert (C : concat (replicate n ([] : list entry)) = []) by (clear; by induction n).
  split_and!; try lia; try apply length_replicate; [|by rewrite fmap_replicate|done].
  split; cbn [side0 items freelist queues]; unfold cells; rewrite ?C; [done|constructor| |constructor|].
  - apply Forall2_replicate; by split.
  - intros x. cbn. rewrite lookup_empty. split; [set_solver|by intros [? ?]].
Qed.

Lemma thread_init_run n k w : willing (1 + 5 * n + k) w ->
  exists w', thread_init (Z.of_nat n) w = Ok (side0 n w', w') /\ after (1 + 5 * n) w w'.
Proof.
  intros Hs. replace (1 + 5 * n + k)%nat with (S (4 * n + (n + k)))%nat in Hs by lia.
  destruct (or_exit_ok _ _ Hs) as (w1 & E1 & I1). pose proof (willing_drop 1 _ _ _ Hs I1) as S1.
  destruct (setup_threads_ok _ _ _ S1) as (w2 & E2 & I2). pose proof (willing_drop _ _ _ _ S1 I2) as S2.
  destruct (create_workers_ok _ _ _ S2) as (w3 & E3 & I3). exists w3. split.
  - unfold thread_init. rewrite Nat2Z.id. erewrite bind_ok by exact E1. erewrite bind_ok by exact E2.
    erewrite bind_ok by exact E3. unfold ret. by rewrite length_replicate.
  - replace (1 + 5 * n)%nat with (1 + (4 * n + n))%nat by lia. repeat (eapply after_more; [eassumption|]). done.
Qed.
End ConnQueue.

(** ** Waiting until every thread runs

    thread_init waits until each worker has registered. The workers' critical
    section (register_thread_initialized) and each pass of the main thread
    through wait_for_thread_registration are the steps; pthread_cond_wait may
    also return without a signal. *)

Module Barrier.

Inductive main_pc := Entering | Sleeping | Woken | Passed.

Record barrier := mkBar { registered : list bool; init_count : Z; main : main_pc }.

Definition start (n : nat) : barrier := mkBar (replicate n false) 0 Entering.

(** lock; init_count++; pthread_cond_signal; unlock *)
Definition register_thread_initialized (i : nat) (s : barrier) : barrier :=
  mkBar (<[i := true]> (registered s)) (init_count s + 1)
    (match main s with Sleeping => Woken | pc => pc end).

(** while (init_count < nthreads) pthread_cond_wait: one test. *)
Definition wait_for_thread_registration (n : Z) (s : barrier) : barrier :=
  mkBar (registered s) (init_count s) (if Z.ltb (init_count s) n then Sleeping else Passed).

Inductive step (n : nat) : barrier -> barrier -> Prop :=
| step_register i s : registered s !! i = Some false -> step n s (register_thread_initialized i s)
| step_wait s : main s = Entering \/ main s = Woken -> step n s (wait_for_thread_registration (Z.of_nat n) s)
| step_spurious s : main s = Sleeping -> step n s (mkBar (registered s) (init_count s) Woken).

Definition reachable (n : nat) (s : barrier) : Prop := rtc (step n) (start n) s.

Fixpoint count (l : list bool) : Z :=
  match l with [] => 0 | b :: r => (if b then 1 else 0) + count r end.

Record inv (n : nat) (s : barrier) : Prop := mkInv {
  inv_len : length (registered s) = n;
  inv_count : init_count s = count (registered s);
  inv_sleep : main s = Sleeping -> init_count s < Z.of_nat n;
  inv_passed : main s = Passed -> Z.of_nat n <= init_count s
}.

Lemma count_set l i : l !! i = Some false -> count (<[i := true]> l) = count l + 1.
Proof.
  revert i. induction l as [|b l IH]; intros [|i] Hi; simplify_eq/=; [lia|]. rewrite (IH _ Hi). lia.
Qed.

Lemma count_le l : count l <= Z.of_nat (length l).
Proof. induction l as [|[] l IH]; cbn [count length]; lia. Qed.

Lemma count_full l : Z.of_nat (length l) <= count l -> Forall (fun b => b = true) l.
Proof.
  induction l as [|b l IH]; intros Hl; [constructor|]. cbn [count length] in Hl. pose proof (count_le l).
  destruct b; [|lia]. constructor; [done|]. apply IH. lia.
Qed.

Lemma count_missing l : count l < Z.of_nat (length l) -> exists i, l !! i = Some false.
Proof.
  induction l as [|b l IH]; intros Hl; cbn [count length] in Hl; [lia|]. destruct b; [|by exists 0%nat].
  destruct IH as [i Hi]; [lia|by exists (S i)].
Qed.

Lemma barrier_inv_step n s s' : inv n s -> step n s s' -> inv n s'.
Proof.
  intros [Hl Hc Hs Hp] Hst. destruct Hst as [i s Hi|s Hm|s Hm]; split; cbn; try done.
  - by rewrite length_insert.
  - by rewrite count_set, Hc.
  - by destruct (main s).
  - intros E. destruct (main s); try done. specialize (Hp eq_refl). lia.
  - destruct (Z.ltb_spec (init_count s) (Z.of_nat n)); done.
  - destruct (Z.ltb_spec (init_count s) (Z.of_nat n)); done.
Qed.

Lemma barrier_inv_reachable n s : reachable n s -> inv n s.
Proof.
  apply rtc_ind_r; [|intros; by eapply barrier_inv_step].
  split; cbn; [apply length_replicate| |done|done].
  by induction n as [|n IH].
Qed.

(** C15: the main thread leaves thread_init only after all threads have
    registered, and it cannot sleep for ever: while it sleeps, some thread has
    not registered yet, and the registration of a thread wakes it. *)
Theorem barrier_waits_for_all n s :
  reachable n s ->
  (main s = Passed -> Forall (fun b => b = true) (registered s)) /\
  (main s = Sleeping -> exists i, registered s !! i = Some false /\ main (register_thread_initialized i s) = Woken).
Proof.
  intros [Hl Hc Hs Hp]%barrier_inv_reachable. split.
  - intros E. apply count_full. rewrite Hl, <-Hc. by apply Hp.
  - intros E. destruct (count_missing (registered s)) as [i Hi]; [rewrite Hl, <-Hc; by apply Hs|].
    exists i. split; [done|]. cbn. by rewrite E.
Qed.

Lemma barrier_waits_for_all_witness :
  let s := mkBar [false; true] 1 Sleeping in
  reachable 2 s /\ (main s = Passed -> Forall (fun b => b = true) (registered s)) /\
  (main s = Sleeping -> exists i, registered s !! i = Some false /\ main (register_thread_initialized i s) = Woken).
Proof.
  assert (R : reachable 2 (mkBar [false; true] 1 Sleeping)).
  { eapply rtc_l; [apply (step_register 2 1); reflexivity|].
    eapply rtc_l; [apply step_wait; left; reflexivity|]. apply rtc_refl. }
  split; [exact R|]. apply (barrier_waits_for_all 2 _ R).
Defined.
End Barrier.
