(* ===== verification/Workers.v ===== *)
(** * The workers, under every interleaving (src/src/thread.c)

    The texts that conn_new_func_worker hands over and the wake-ups of the
    workers (work_func) in any order, from thread_init on, with whatever the
    system answers: malloc may refuse a block of items, the write to a notify
    pipe may fail. A small machine says what is promised, [step_ref]: a queue
    of texts and a number of rings per worker, and the number of free items.
    The linked items of [ConnQueue] implement it. *)

From stdpp Require Import prelude gmap strings.
From S2P Require Import Prelude CLib Sock ConnQueue.
Import Sock ConnQueue.
Open Scope Z_scope.

Module Workers.

(** ** What is promised *)

Inductive command := Give (t : bytes) | Wake (i : nat).

Inductive happened :=
| Took (t : bytes)               (* a worker has been given the text *)
| Lost (t : bytes)               (* no memory: the text is dropped *)
| Shown (i : nat) (t : bytes)    (* worker [i] shows the text *)
| Idle.                          (* no notification, or nothing queued *)

(** [rings]: the unread bytes of the notify pipes. [answers]: what the system
    will answer, [a_err EBADF] at the end. *)
Record ref := mkRef {
  free : nat;
  waiting : list (list bytes);
  rings : list nat;
  turn : Z;
  answers : list answer
}.

Definition ask (l : list answer) : answer * list answer :=
  match l with [] => (a_err EBADF, []) | a :: r => (a, r) end.

(** The text goes to the worker after the one used last. *)
Definition hand (t : bytes) (n : nat) (l : list answer) (r : ref) : happened * ref :=
  let i := Z.rem (turn r + 1) POOL_NUM in
  let (a, l) := ask l in
  (Took t, mkRef n (alter (fun q => q ++ [t]) (Z.to_nat i) (waiting r))
    (if Z.eqb (a_ret a) 1 then alter S (Z.to_nat i) (rings r) else rings r) i l).

Definition step_ref (c : command) (r : ref) : happened * ref :=
  match c with
  | Give t =>
      match free r with
      | S n => hand t n (answers r) r
      | O =>
          let (a, l) := ask (answers r) in
          if Z.ltb (a_ret a) 0 then (Lost t, mkRef 0 (waiting r) (rings r) (turn r) l)
          else hand t (ITEMS_PER_ALLOC - 1) l r
      end
  | Wake i =>
      match rings r !! i, waiting r !! i with
      | Some (S k), Some (t :: q) =>
          (Shown i t, mkRef (S (free r)) (<[i := q]> (waiting r)) (<[i := k]> (rings r)) (turn r) (answers r))
      | Some (S k), Some [] =>
          (Idle, mkRef (free r) (waiting r) (<[i := k]> (rings r)) (turn r) (answers r))
      | _, _ => (Idle, r)
      end
  end.

Fixpoint run_ref (cs : list command) (r : ref) : list happened * ref :=
  match cs with
  | [] => ([], r)
  | c :: cs =>
      let (h, r) := step_ref c r in
      let (hs, r) := run_ref cs r in (h :: hs, r)
  end.

Definition ref0 (l : list answer) : ref := mkRef 0 (replicate 10 []) (replicate 10 0%nat) (-1) l.


(** ** The program *)





(** ** The refinement *)









(** ** What the promise means for the texts *)












(** Without memory a text is lost; a text whose notification could not be
    written waits for the next one. *)
Example failing_system :
  (run_ref [Give (str "lost"); Give (str "late"); Wake 0] (ref0 [a_err EBADF; a_num 1; a_err EBADF])).1 =
  [Lost (str "lost"); Took (str "late"); Idle].
Proof. reflexivity. Qed.
End Workers.
