(* ===== verification/ThreadPool.v ===== *)
(** * The thread pool (src/src/threadpool.c)

    A bounded queue of jobs under one mutex, with three condition variables.
    The steps of the system are the critical sections of the callers of
    threadpool_add_job, of the threads in threadpool_function and of
    threadpool_destroy; a thread that waits on a condition is asleep until it
    is signalled, or wakes up for no reason. Jobs are cells of a memory: the
    functions of the first part work on it pointer by pointer. *)

From stdpp Require Import prelude gmap.
From S2P Require Import Prelude.
Open Scope Z_scope.

Module ThreadPool.

Abbreviation loc := positive.

Record job := mkJob { Buff : bytes; next : option loc }.

Record threadpool := mkPool {
  queue_max_num : Z;
  jobs : gmap loc job;
  head : option loc;
  tail : option loc;
  queue_cur_num : Z;
  queue_close : bool;
  pool_close : bool
}.

(** threadpool_init, when malloc and the initialisations succeed. *)
Definition threadpool_init (queue_max : Z) : threadpool := mkPool queue_max ∅ None None 0 false false.

Definition closing (p : threadpool) : bool := queue_close p || pool_close p.

(** The condition of the wait loop of threadpool_add_job. *)
Definition must_wait (p : threadpool) : bool :=
  Z.eqb (queue_cur_num p) (queue_max_num p) && negb (closing p).

Definition set_jobs (m : gmap loc job) (h t : option loc) (n : Z) (p : threadpool) : threadpool :=
  mkPool (queue_max_num p) m h t n (queue_close p) (pool_close p).

(** threadpool_add_job once it may add and malloc gave memory: the new pool,
    and whether queue_not_empty is broadcast. *)
Definition threadpool_add_job (arg : bytes) (p : threadpool) : res (bool * threadpool) :=
  let? b := mwrite (zeros 1024) 0 arg in
  let pjob := fresh (dom (jobs p)) in
  let m := <[pjob := mkJob b None]> (jobs p) in
  match head p with
  | None => Ok (true, set_jobs m (Some pjob) (Some pjob) (queue_cur_num p + 1) p)
  | Some _ =>
      match tail p with
      | None => Fault NullDeref
      | Some t =>
          match m !! t with
          | None => Fault UseAfterFree
          | Some j =>
              let m := <[t := mkJob (Buff j) (Some pjob)]> m in
              Ok (false, set_jobs m (head p) (Some pjob) (queue_cur_num p + 1) p)
          end
      end
  end.

(** The part of threadpool_function that takes a job: the job, and whether
    queue_empty is signalled and queue_not_full broadcast. *)
Definition take_job (p : threadpool) : res (loc * bool * bool * threadpool) :=
  let n := queue_cur_num p - 1 in
  match head p with
  | None => Fault NullDeref
  | Some pjob =>
      match jobs p !! pjob with
      | None => Fault UseAfterFree
      | Some j =>
          let p' := if Z.eqb n 0 then set_jobs (jobs p) None None n p
                    else set_jobs (jobs p) (next j) (tail p) n p in
          Ok (pjob, Z.eqb n 0, Z.eqb n (queue_max_num p - 1), p')
      end
  end.

(** What the callback is given; free(pjob) afterwards. *)
Definition job_buff (pjob : loc) (p : threadpool) : res bytes :=
  match jobs p !! pjob with Some j => Ok (Buff j) | None => Fault UseAfterFree end.

Definition free_job (pjob : loc) (p : threadpool) : threadpool :=
  set_jobs (delete pjob (jobs p)) (head p) (tail p) (queue_cur_num p) p.

Definition set_queue_close (p : threadpool) : threadpool :=
  mkPool (queue_max_num p) (jobs p) (head p) (tail p) (queue_cur_num p) true (pool_close p).
Definition set_pool_close (p : threadpool) : threadpool :=
  mkPool (queue_max_num p) (jobs p) (head p) (tail p) (queue_cur_num p) (queue_close p) true.

(** ** The threads *)

(** threadpool_function: about to lock, asleep on queue_not_empty, in the
    callback, ended. *)
Inductive worker := WReady | WSleep | WJob (pjob : loc) | WExit.

(** A call of threadpool_add_job: about to lock, asleep on queue_not_full,
    returned. *)
Inductive producer := PReady (arg : bytes) | PSleep (arg : bytes) | PDone (r : Z).

(** threadpool_destroy: not called, asleep on queue_empty, about to test
    again, pool_close set but nobody woken, joining, returned. *)
Inductive closer := CIdle | CSleep | CReady | CClosed | CJoining | CDone (r : Z).

Record system := mkSys {
  pool : threadpool;
  workers : list worker;
  producers : list producer;
  destroyer : closer;
  added : list bytes;     (* the buffers of the jobs accepted so far *)
  taken : list bytes      (* the buffers given to the callback so far *)
}.

Definition start (max : Z) (threads : nat) : system :=
  mkSys (threadpool_init max) (replicate threads WReady) [] CIdle [] [].

Definition wake_worker (w : worker) : worker := match w with WSleep => WReady | _ => w end.
Definition wake_producer (c : producer) : producer := match c with PSleep a => PReady a | _ => c end.
Definition wake_closer (c : closer) : closer := match c with CSleep => CReady | _ => c end.

(** The test of threadpool_destroy: wait while there are jobs. *)
Definition closer_test (s : system) (p : threadpool) : system :=
  if Z.eqb (queue_cur_num p) 0
  then mkSys (set_pool_close p) (workers s) (producers s) CClosed (added s) (taken s)
  else mkSys p (workers s) (producers s) CSleep (added s) (taken s).

Inductive step : system -> system -> Prop :=
| step_call s arg : (length arg <= 1024)%nat ->
    step s (mkSys (pool s) (workers s) (producers s ++ [PReady arg]) (destroyer s) (added s) (taken s))
| step_add_wait s i arg : producers s !! i = Some (PReady arg) -> must_wait (pool s) = true ->
    step s (mkSys (pool s) (workers s) (<[i := PSleep arg]> (producers s)) (destroyer s) (added s) (taken s))
| step_add_closed s i arg : producers s !! i = Some (PReady arg) -> must_wait (pool s) = false -> closing (pool s) = true ->
    step s (mkSys (pool s) (workers s) (<[i := PDone (-1)]> (producers s)) (destroyer s) (added s) (taken s))
| step_add_nomem s i arg : producers s !! i = Some (PReady arg) -> must_wait (pool s) = false -> closing (pool s) = false ->
    step s (mkSys (pool s) (workers s) (<[i := PDone (-1)]> (producers s)) (destroyer s) (added s) (taken s))
| step_add s i arg b wake p' : producers s !! i = Some (PReady arg) -> must_wait (pool s) = false -> closing (pool s) = false ->
    mwrite (zeros 1024) 0 arg = Ok b -> threadpool_add_job arg (pool s) = Ok (wake, p') ->
    step s (mkSys p' (if wake then wake_worker <$> workers s else workers s) (<[i := PDone 0]> (producers s))
      (destroyer s) (added s ++ [b]) (taken s))
| step_fun_wait s i : workers s !! i = Some WReady -> queue_cur_num (pool s) = 0 -> pool_close (pool s) = false ->
    step s (mkSys (pool s) (<[i := WSleep]> (workers s)) (producers s) (destroyer s) (added s) (taken s))
| step_fun_exit s i : workers s !! i = Some WReady -> pool_close (pool s) = true ->
    step s (mkSys (pool s) (<[i := WExit]> (workers s)) (producers s) (destroyer s) (added s) (taken s))
| step_fun_take s i pjob e f p' b : workers s !! i = Some WReady -> queue_cur_num (pool s) <> 0 -> pool_close (pool s) = false ->
    take_job (pool s) = Ok (pjob, e, f, p') -> job_buff pjob (pool s) = Ok b ->
    step s (mkSys p' (<[i := WJob pjob]> (workers s)) (if f then wake_producer <$> producers s else producers s)
      (if e then wake_closer (destroyer s) else destroyer s) (added s) (taken s ++ [b]))
| step_fun_done s i pjob : workers s !! i = Some (WJob pjob) ->
    step s (mkSys (free_job pjob (pool s)) (<[i := WReady]> (workers s)) (producers s) (destroyer s) (added s) (taken s))
| step_destroy_again s : destroyer s = CIdle -> closing (pool s) = true ->
    step s (mkSys (pool s) (workers s) (producers s) (CDone (-1)) (added s) (taken s))
| step_destroy s : destroyer s = CIdle -> closing (pool s) = false -> step s (closer_test s (set_queue_close (pool s)))
| step_destroy_test s : destroyer s = CReady -> step s (closer_test s (pool s))
| step_destroy_wake s : destroyer s = CClosed ->
    step s (mkSys (pool s) (wake_worker <$> workers s) (wake_producer <$> producers s) CJoining (added s) (taken s))
| step_destroy_join s : destroyer s = CJoining -> Forall (fun w => w = WExit) (workers s) ->
    step s (mkSys (pool s) (workers s) (producers s) (CDone 0) (added s) (taken s))
| step_spurious_worker s i : workers s !! i = Some WSleep ->
    step s (mkSys (pool s) (<[i := WReady]> (workers s)) (producers s) (destroyer s) (added s) (taken s))
| step_spurious_producer s i arg : producers s !! i = Some (PSleep arg) ->
    step s (mkSys (pool s) (workers s) (<[i := PReady arg]> (producers s)) (destroyer s) (added s) (taken s))
| step_spurious_closer s : destroyer s = CSleep ->
    step s (mkSys (pool s) (workers s) (producers s) CReady (added s) (taken s)).

(** Once threadpool_destroy has returned 0 the pool is freed: no further step
    has a defined behaviour. *)
Definition live_step (s s' : system) : Prop := destroyer s <> CDone 0 /\ step s s'.

Definition reachable (max : Z) (threads : nat) (s : system) : Prop := rtc live_step (start max threads) s.

(** ** The invariant *)

Fixpoint chain (m : gmap loc job) (p : option loc) (es : list (loc * bytes)) : Prop :=
  match es with
  | [] => p = None
  | (x, b) :: r => p = Some x /\ exists j, m !! x = Some j /\ Buff j = b /\ chain m (next j) r
  end.

(** The jobs the workers are busy with. *)
Definition busy (ws : list worker) : list loc :=
  omap (fun w => match w with WJob p => Some p | _ => None end) ws.

Record queue_ok (p : threadpool) (ws : list worker) (es : list (loc * bytes)) : Prop := mkQ {
  q_chain : chain (jobs p) (head p) es;
  q_tail : tail p = fst <$> last es;
  q_num : queue_cur_num p = Z.of_nat (length es);
  q_nodup : NoDup (es.*1 ++ busy ws);
  q_busy : forall x, x ∈ busy ws -> is_Some (jobs p !! x)
}.

Record inv (max : Z) (s : system) : Prop := mkInv {
  i_queue : exists es, queue_ok (pool s) (workers s) es /\ added s = taken s ++ es.*2;
  i_max : queue_max_num (pool s) = max;
  i_bound : queue_cur_num (pool s) <= max;
  i_workers : WSleep ∈ workers s -> queue_cur_num (pool s) = 0 /\ (pool_close (pool s) = false \/ destroyer s = CClosed);
  i_producers : forall a, PSleep a ∈ producers s -> queue_cur_num (pool s) = max;
  i_closer : destroyer s = CSleep -> queue_cur_num (pool s) <> 0;
  i_closing : queue_close (pool s) = match destroyer s with CIdle => false | _ => true end;
  i_closed : pool_close (pool s) = match destroyer s with CClosed | CJoining | CDone _ => true | _ => false end;
  i_drained : pool_close (pool s) = true -> queue_cur_num (pool s) = 0;
  i_args : forall a, PReady a ∈ producers s \/ PSleep a ∈ producers s -> (length a <= 1024)%nat
}.

Lemma jobs_ext m m' es : forall p,
  (forall x, x ∈ es.*1 -> m' !! x = m !! x) -> chain m p es -> chain m' p es.
Proof.
  induction es as [|[x b] r IH]; intros p He; [done|]. intros [-> (j & Hx & Hb & Hc)].
  split; [done|]. exists j. rewrite He by (cbn; set_solver). split_and!; [done..|].
  apply IH; [|done]. intros y Hy. apply He. cbn. set_solver.
Qed.

Lemma jobs_some m p es x : chain m p es -> x ∈ es.*1 -> is_Some (m !! x).
Proof.
  revert p. induction es as [|[y b] r IH]; intros p Hc Hx; [by apply elem_of_nil in Hx|].
  destruct Hc as [_ (j & Hj & _ & Hc)]. cbn in Hx. apply elem_of_cons in Hx as [->|Hx]; [by rewrite Hj|by eapply IH].
Qed.

Lemma jobs_snoc m es t bt j x b : forall p,
  chain m p (es ++ [(t, bt)]) -> NoDup (es ++ [(t, bt)]).*1 -> m !! t = Some j -> x ∉ (es ++ [(t, bt)]).*1 ->
  m !! x = Some (mkJob b None) ->
  chain (<[t := mkJob (Buff j) (Some x)]> m) p ((es ++ [(t, bt)]) ++ [(x, b)]).
Proof.
  induction es as [|[y ey] r IH]; intros p Hc Hnd Ht Hx He; cbn in *.
  - destruct Hc as [-> (i & Hi & Hs & _)]. split; [done|]. rewrite lookup_insert_eq.
    assert (i = j) as -> by congruence. eexists. split_and!; [done|done|done|].
    exists (mkJob b None). rewrite lookup_insert_ne by set_solver. done.
  - apply NoDup_cons in Hnd as [Hy Hnd]. rewrite fmap_app in Hy. cbn in Hy.
    destruct Hc as [-> (i & Hi & Hs & Hc)].
    split; [done|]. exists i. rewrite lookup_insert_ne by set_solver. split_and!; [done..|].
    apply IH; try done. by apply not_elem_of_cons in Hx as [_ Hx].
Qed.

(** *** Adding and taking a job *)

Lemma insert_some_job (m : gmap loc job) x j j' y :
  m !! x = Some j -> is_Some (<[x := j']> m !! y) <-> is_Some (m !! y).
Proof.
  intros Hx. destruct (decide (x = y)) as [->|]; [rewrite lookup_insert_eq, Hx; by split|by rewrite lookup_insert_ne].
Qed.

Lemma add_ok arg p ws es :
  queue_ok p ws es -> (length arg <= 1024)%nat ->
  exists x wake p', threadpool_add_job arg p = Ok (wake, p') /\ queue_ok p' ws (es ++ [(x, padded 1024 arg)]) /\
    queue_max_num p' = queue_max_num p /\ queue_close p' = queue_close p /\ pool_close p' = pool_close p /\
    wake = Z.eqb (queue_cur_num p) 0.
Proof.
  intros [Hc Ht Hn Hnd Hb] Ha. unfold threadpool_add_job. rewrite mwrite_zeros by done. cbn [res_bind].
  pose proof (is_fresh (dom (jobs p))) as Hf. set (x := fresh (dom (jobs p))) in *.
  set (m := <[x := mkJob (padded 1024 arg) None]> (jobs p)).
  assert (Hx : forall y, is_Some (jobs p !! y) -> y <> x).
  { intros y Hy ->. apply Hf. by apply elem_of_dom. }
  assert (Hxe : x ∉ es.*1) by (intros Hin; by apply (Hx x (jobs_some _ _ _ _ Hc Hin))).
  assert (Hxb : x ∉ busy ws) by (intros Hin; by apply (Hx x (Hb x Hin))).
  assert (Hcm : chain m (head p) es).
  { eapply jobs_ext; [|exact Hc]. intros y Hy. subst m. rewrite lookup_insert_ne; [done|]. intros ->. done. }
  assert (Hnd' : NoDup ((es ++ [(x, padded 1024 arg)]).*1 ++ busy ws)).
  { rewrite fmap_app, <-app_assoc. cbn. rewrite <-Permutation_middle. apply NoDup_cons. split; [set_solver|done]. }
  exists x. destruct es as [|e0 es0 _] using rev_ind.
  - cbn in Hc. rewrite Hc. eexists _, _. split; [done|]. split_and!; try done; [|by rewrite Hn].
    split; cbn [set_jobs jobs head tail queue_cur_num]; try done.
    + split; [done|]. eexists. subst m. by rewrite lookup_insert_eq.
    + rewrite Hn. done.
    + intros y Hy. subst m. rewrite lookup_insert_ne; [by apply Hb|]. set_solver.
  - destruct e0 as [t bt]. rewrite last_snoc in Ht. cbn in Ht.
    assert (Hh : is_Some (head p)) by (destruct es0 as [|[? ?] ?]; cbn in Hc; destruct Hc as [-> _]; done).
    destruct Hh as [h Hh]. rewrite Hh, Ht.
    assert (Htx : t <> x) by (rewrite fmap_app in Hxe; set_solver).
    destruct (jobs_some _ _ _ t Hcm) as [j Hj]; [rewrite fmap_app; set_solver|]. rewrite Hj.
    eexists _, _. split; [done|]. split_and!; try done.
    2: { rewrite Hn, length_app. cbn. symmetry. apply Z.eqb_neq. lia. }
    split; cbn [set_jobs jobs head tail queue_cur_num].
    + rewrite <-Hh. apply jobs_snoc; [done| |done|done|].
      * by apply NoDup_app in Hnd as (? & _ & _).
      * subst m. by rewrite lookup_insert_eq.
    + by rewrite last_snoc.
    + rewrite Hn, !length_app. cbn. lia.
    + done.
    + intros y Hy. rewrite insert_some_job by done. subst m. rewrite lookup_insert_ne; [by apply Hb|set_solver].
Qed.

Lemma busy_set ws i w : ws !! i = Some w ->
  exists rest, busy ws ≡ₚ busy [w] ++ rest /\ forall w', busy (<[i := w']> ws) ≡ₚ busy [w'] ++ rest.
Proof.
  revert i. induction ws as [|v ws IH]; intros [|i] Hi; try done;
    [change (Some v = Some w) in Hi; injection Hi as ->|change (ws !! i = Some w) in Hi].
  - exists (busy ws). split; [by destruct w|]. intros w'. by destruct w'.
  - destruct (IH i Hi) as (rest & H1 & H2). exists (busy [v] ++ rest).
    assert (C : forall l, busy (v :: l) = busy [v] ++ busy l) by (intros l; by destruct v).
    assert (P : forall l, busy [v] ++ l ++ rest ≡ₚ l ++ busy [v] ++ rest).
    { intros l. by rewrite !app_assoc, (Permutation_app_comm (busy [v])). }
    split; [rewrite (C ws), H1; apply P|]. intros w'.
    change (busy (v :: <[i := w']> ws) ≡ₚ busy [w'] ++ busy [v] ++ rest). rewrite (C (<[i := w']> ws)), H2. apply P.
Qed.

Lemma busy_wake ws : busy (wake_worker <$> ws) = busy ws.
Proof. unfold busy. induction ws as [|[] ws IH]; [done|..]; csimpl; congruence. Qed.

(** Workers that hold the same jobs. *)
Lemma queue_ok_workers p ws ws' es : busy ws' ≡ₚ busy ws -> queue_ok p ws es -> queue_ok p ws' es.
Proof. intros Hb [? ? ? ? Hs]. split; try done; [by rewrite Hb|]. intros x. rewrite Hb. apply Hs. Qed.

Lemma queue_ok_same ws i w w' p es :
  ws !! i = Some w -> busy [w] = [] -> busy [w'] = [] -> queue_ok p ws es -> queue_ok p (<[i := w']> ws) es.
Proof.
  intros Hi Hw Hw' HQ. destruct (busy_set ws i w Hi) as (rest & H1 & H2).
  eapply queue_ok_workers; [|exact HQ]. by rewrite H2, H1, Hw, Hw'.
Qed.

Lemma take_ok p ws es i :
  queue_ok p ws es -> queue_cur_num p <> 0 -> ws !! i = Some WReady ->
  exists x b r p', es = (x, b) :: r /\ job_buff x p = Ok b /\
    take_job p = Ok (x, Z.eqb (queue_cur_num p - 1) 0, Z.eqb (queue_cur_num p - 1) (queue_max_num p - 1), p') /\
    queue_ok p' (<[i := WJob x]> ws) r /\
    queue_max_num p' = queue_max_num p /\ queue_close p' = queue_close p /\ pool_close p' = pool_close p /\
    queue_cur_num p' = queue_cur_num p - 1.
Proof.
  intros [Hc Ht Hn Hnd Hb] H0 Hi. destruct es as [|[x b] r]; [by rewrite Hn in H0|].
  destruct Hc as [Hh (j & Hj & Hbj & Hc)]. destruct (busy_set ws i _ Hi) as (rest & B1 & B2). cbn in B1, B2.
  exists x, b, r. unfold job_buff, take_job. rewrite Hh, Hj, Hbj. eexists. split; [done|]. split; [done|]. split; [done|].
  cbn [length] in Hn. destruct (Z.eqb_spec (queue_cur_num p - 1) 0) as [E|E].
  - destruct r; [|cbn [length] in Hn; lia]. split; [|done].
    split; cbn [set_jobs jobs head tail queue_cur_num]; [done|done|by rewrite E| |].
    + rewrite B2. cbn. cbn in Hnd. by rewrite B1 in Hnd.
    + intros y. rewrite B2. intros Hy. apply elem_of_cons in Hy as [->|Hy]; [by rewrite Hj|]. apply Hb. by rewrite B1.
  - split; [|done]. split; cbn [set_jobs jobs head tail queue_cur_num].
    + done.
    + rewrite Ht. destruct r; [cbn [length] in Hn; lia|]. by rewrite last_cons_cons.
    + lia.
    + rewrite B2. cbn. rewrite <-Permutation_middle. cbn in Hnd. by rewrite B1 in Hnd.
    + intros y. rewrite B2. intros Hy. apply elem_of_cons in Hy as [->|Hy]; [by rewrite Hj|]. apply Hb. by rewrite B1.
Qed.

Lemma free_ok p ws es i x :
  queue_ok p ws es -> ws !! i = Some (WJob x) -> queue_ok (free_job x p) (<[i := WReady]> ws) es.
Proof.
  intros [Hc Ht Hn Hnd Hb] Hi. destruct (busy_set ws i _ Hi) as (rest & B1 & B2). cbn in B1, B2.
  rewrite B1, <-Permutation_middle in Hnd. apply NoDup_cons in Hnd as [Hx Hnd].
  split; cbn [free_job set_jobs jobs head tail queue_cur_num]; [|done|done|by rewrite B2|].
  - eapply jobs_ext; [|exact Hc]. intros y Hy. rewrite lookup_delete_ne; [done|set_solver].
  - intros y. rewrite B2. intros Hy. rewrite lookup_delete_ne by set_solver. apply Hb. rewrite B1. set_solver.
Qed.

(** *** Every step keeps the invariant *)

Lemma in_insert {A} (l : list A) i x y : x ∈ <[i := y]> l -> x = y \/ x ∈ l.
Proof.
  intros [k Hk]%list_elem_of_lookup. destruct (decide (i = k)) as [->|].
  - apply list_lookup_insert_Some in Hk as [(_ & -> & _)|(? & _)]; [by left|done].
  - rewrite list_lookup_insert_ne in Hk by done. right. by eapply list_elem_of_lookup_2.
Qed.

Lemma awake_workers (ws : list worker) : WSleep ∉ wake_worker <$> ws.
Proof. intros ([] & E & _)%list_elem_of_fmap; done. Qed.

Lemma awake_producers (ps : list producer) a : PSleep a ∉ wake_producer <$> ps.
Proof. intros ([] & E & _)%list_elem_of_fmap; done. Qed.

Lemma args_wake (ps : list producer) a :
  PReady a ∈ wake_producer <$> ps \/ PSleep a ∈ wake_producer <$> ps -> PReady a ∈ ps \/ PSleep a ∈ ps.
Proof.
  intros [([] & E & Hin)%list_elem_of_fmap|Hin]; simplify_eq/=; [by left|by right|].
  by apply awake_producers in Hin.
Qed.

Lemma must_wait_full p : must_wait p = true -> queue_cur_num p = queue_max_num p.
Proof. unfold must_wait. by intros [H%Z.eqb_eq _]%andb_prop. Qed.

Lemma room p : must_wait p = false -> closing p = false -> queue_cur_num p <> queue_max_num p.
Proof. unfold must_wait. intros Hm Hc. rewrite Hc, andb_true_r in Hm. by apply Z.eqb_neq. Qed.

Lemma not_closing s max : inv max s -> closing (pool s) = false -> destroyer s = CIdle /\ pool_close (pool s) = false.
Proof.
  intros I [Hq Hp]%orb_false_elim. rewrite (i_closing _ _ I) in Hq. by destruct (destroyer s).
Qed.

(** Producers and workers that only go to sleep, wake up or return. *)
Lemma inv_producer max s i p :
  inv max s -> (forall a, p = PSleep a -> queue_cur_num (pool s) = max) ->
  (forall a, p = PReady a \/ p = PSleep a -> (length a <= 1024)%nat) ->
  inv max (mkSys (pool s) (workers s) (<[i := p]> (producers s)) (destroyer s) (added s) (taken s)).
Proof.
  intros I Hp Ha. destruct I. split; cbn; try done.
  - intros a [E|Hin]%in_insert; [by eapply Hp|by eauto].
  - intros a [Hin|Hin]; apply in_insert in Hin as [E|Hin]; eauto.
Qed.

Lemma inv_worker max s i w w' :
  inv max s -> workers s !! i = Some w -> busy [w] = [] -> busy [w'] = [] ->
  (w' = WSleep -> queue_cur_num (pool s) = 0 /\ pool_close (pool s) = false) ->
  inv max (mkSys (pool s) (<[i := w']> (workers s)) (producers s) (destroyer s) (added s) (taken s)).
Proof.
  intros I Hw Hb Hb' Hs. destruct I as [(es & HQ & Ha) ? ? HW ? ? ? ? ? ?]. split; cbn; try done.
  - exists es. split; [|done]. by eapply queue_ok_same.
  - intros [E|Hin]%in_insert; [|by apply HW]. destruct (Hs (eq_sym E)). by split; [|left].
Qed.

Lemma inv_add max s i arg b wake p' :
  inv max s -> producers s !! i = Some (PReady arg) -> must_wait (pool s) = false -> closing (pool s) = false ->
  mwrite (zeros 1024) 0 arg = Ok b -> threadpool_add_job arg (pool s) = Ok (wake, p') ->
  inv max (mkSys p' (if wake then wake_worker <$> workers s else workers s) (<[i := PDone 0]> (producers s))
      (destroyer s) (added s ++ [b]) (taken s)).
Proof.
  intros I Hi Hm Hc Hb Ha. destruct (not_closing _ _ I Hc) as [Hd Hpc]. pose proof (room _ Hm Hc) as Hr.
  assert (Hl : (length arg <= 1024)%nat).
  { apply (i_args _ _ I). left. by eapply list_elem_of_lookup_2. }
  destruct (i_queue _ _ I) as (es & HQ & Had).
  destruct (add_ok arg _ _ _ HQ Hl) as (x & wk & p2 & Ea & HQ' & Mx & Qc & Pc & Wk).
  rewrite Ha in Ea. injection Ea as <- <-. rewrite mwrite_zeros in Hb by done. injection Hb as <-.
  pose proof (q_num _ _ _ HQ) as Hn. pose proof (q_num _ _ _ HQ') as Hn'. rewrite length_app in Hn'. cbn in Hn'.
  destruct I. split; cbn; try congruence.
  - exists (es ++ [(x, padded 1024 arg)]). split.
    + eapply queue_ok_workers; [|exact HQ']. destruct wake; by rewrite ?busy_wake.
    + rewrite Had, fmap_app, <-app_assoc. done.
  - lia.
  - intros Hin. destruct wake; [by apply awake_workers in Hin|]. apply i_workers0 in Hin as [H0 _].
    rewrite H0 in Wk. done.
  - intros a [E|Hin]%in_insert; [done|]. specialize (i_producers0 a Hin). lia.
  - intros a [Hin|Hin]; apply in_insert in Hin as [E|Hin]; [done|by apply i_args0; left|done|by apply i_args0; right].
Qed.

Lemma inv_take max s i pjob e f p' b :
  0 < max -> inv max s -> workers s !! i = Some WReady -> queue_cur_num (pool s) <> 0 -> pool_close (pool s) = false ->
  take_job (pool s) = Ok (pjob, e, f, p') -> job_buff pjob (pool s) = Ok b ->
  inv max (mkSys p' (<[i := WJob pjob]> (workers s)) (if f then wake_producer <$> producers s else producers s)
      (if e then wake_closer (destroyer s) else destroyer s) (added s) (taken s ++ [b])).
Proof.
  intros Hmax I Hi H0 Hpc Ht Hb. destruct (i_queue _ _ I) as (es & HQ & Had).
  destruct (take_ok _ _ _ i HQ H0 Hi) as (x & b' & r & p2 & -> & Hb' & Et & HQ' & Mx & Qc & Pc & Cn).
  rewrite Ht in Et. injection Et as <- -> -> <-. rewrite Hb in Hb'. injection Hb' as <-.
  destruct I. split; cbn; try congruence.
  - exists r. split; [done|]. rewrite Had. cbn. by rewrite <-app_assoc.
  - lia.
  - intros [E|Hin]%in_insert; [done|]. by apply i_workers0 in Hin as [? _].
  - intros a Hin. destruct (Z.eqb_spec (queue_cur_num (pool s) - 1) (queue_max_num (pool s) - 1)).
    + by apply awake_producers in Hin.
    + specialize (i_producers0 a Hin). lia.
  - destruct (Z.eqb_spec (queue_cur_num (pool s) - 1) 0); [by destruct (destroyer s)|]. intros _. lia.
  - rewrite Qc, i_closing0. destruct (Z.eqb _ 0); [|done]. by destruct (destroyer s).
  - rewrite Pc, i_closed0. destruct (Z.eqb _ 0); [|done]. by destruct (destroyer s).
  - intros a. destruct (Z.eqb _ (queue_max_num (pool s) - 1)); [|apply i_args0]. intros Ha%args_wake. by apply i_args0.
Qed.

Lemma inv_done max s i pjob :
  inv max s -> workers s !! i = Some (WJob pjob) ->
  inv max (mkSys (free_job pjob (pool s)) (<[i := WReady]> (workers s)) (producers s) (destroyer s) (added s) (taken s)).
Proof.
  intros I Hi. destruct I as [(es & HQ & Ha) ? ? HW ? ? ? ? ? ?]. split; cbn; try done.
  - exists es. split; [by apply free_ok|done].
  - intros [E|Hin]%in_insert; [done|by apply HW].
Qed.

(** The test of threadpool_destroy, on a pool whose queue is closed. *)
Lemma inv_test max s p :
  0 < max -> inv max s -> (destroyer s = CIdle /\ p = set_queue_close (pool s) \/ destroyer s = CReady /\ p = pool s) ->
  inv max (closer_test s p).
Proof.
  intros Hmax I Hp.
  assert (HQ : exists es, queue_ok p (workers s) es /\ added s = taken s ++ es.*2).
  { destruct (i_queue _ _ I) as (es & [? ? ? ? ?] & ?). exists es. split; [|done]. by destruct Hp as [[_ ->]|[_ ->]]. }
  assert (E : queue_cur_num p = queue_cur_num (pool s) /\ queue_max_num p = queue_max_num (pool s) /\
    queue_close p = true /\ pool_close p = false /\ pool_close (pool s) = false).
  { destruct I. destruct Hp as [[Hd ->]|[Hd ->]]; rewrite Hd in *; done. }
  destruct E as (En & Em & Eq & Ep & Ep'). destruct HQ as (es & [? ? ? ? ?] & Hadd). unfold closer_test.
  destruct I. destruct (Z.eqb_spec (queue_cur_num p) 0) as [E0|E0]; split; cbn; try congruence; try done.
  - by exists es.
  - intros Hin. split; [done|by right].
  - intros a Hin. rewrite En. eauto.
  - by exists es.
  - intros Hin. rewrite En. apply i_workers0 in Hin as [? _]. split; [done|by left].
  - intros a Hin. rewrite En. eauto.
Qed.

Lemma pool_inv_step max s s' : 0 < max -> inv max s -> live_step s s' -> inv max s'.
Proof.
  intros Hmax I [Hlive Hst]. destruct Hst.
  - destruct I. split; cbn; try done.
    + intros a [Hin|Hin]%elem_of_app; [eauto|set_solver].
    + intros a [Hin|Hin]; apply elem_of_app in Hin as [Hin|Hin%list_elem_of_singleton]; simplify_eq; eauto.
  - apply inv_producer; [done| |].
    + intros a [= <-]. rewrite (must_wait_full _ H0). apply I.
    + intros a [?|[= <-]]; [done|]. eapply (i_args _ _ I). left. by eapply list_elem_of_lookup_2.
  - apply inv_producer; [done|done|]. by intros a [?|?].
  - apply inv_producer; [done|done|]. by intros a [?|?].
  - by eapply inv_add.
  - by eapply inv_worker.
  - by eapply inv_worker.
  - by eapply inv_take.
  - by apply inv_done.
  - exfalso. apply orb_true_iff in H0 as [E|E]; [rewrite (i_closing _ _ I), H in E|rewrite (i_closed _ _ I), H in E]; done.
  - apply inv_test; [done|done|]. by left.
  - apply inv_test; [done|done|]. by right.
  - pose proof (i_closed _ _ I) as Hc. rewrite H in Hc. destruct I. rewrite H in *. split; cbn; try done.
    + destruct i_queue0 as (es & HQ & Ha). exists es. split; [|done]. eapply queue_ok_workers; [|exact HQ]. by rewrite busy_wake.
    + intros Hin. by apply awake_workers in Hin.
    + intros a Hin. by apply awake_producers in Hin.
    + intros a Ha%args_wake. by apply i_args0.
  - destruct I. rewrite H in *. split; cbn; try done. intros Hin. apply i_workers0 in Hin as [? [?|?]]; [split; [done|by left]|done].
  - by eapply inv_worker.
  - apply inv_producer; [done|done|]. intros a [[= <-]|?]; [|done]. eapply (i_args _ _ I). right. by eapply list_elem_of_lookup_2.
  - destruct I. rewrite H in *. split; cbn; try done. intros Hin. apply i_workers0 in Hin as [? [?|?]]; [split; [done|by left]|done].
Qed.

Lemma inv_start max threads : 0 < max -> inv max (start max threads).
Proof.
  intros Hmax. assert (B : busy (replicate threads WReady) = []) by (clear; induction threads; [done|]; csimpl; done).
  split; cbn; try done.
  - exists []. split; [|done]. split; cbn; rewrite ?B; try done; [constructor|]. intros x Hx. by apply elem_of_nil in Hx.
  - lia.
  - intros _. split; [done|by left].
  - intros a Hin. by apply elem_of_nil in Hin.
  - intros a [Hin|Hin]; by apply elem_of_nil in Hin.
Qed.

Lemma pool_inv_reachable max threads s : 0 < max -> reachable max threads s -> inv max s.
Proof.
  intros Hmax. apply (rtc_ind_r (inv max)); [by apply inv_start|]. intros x y _ Hs Hi. by eapply pool_inv_step.
Qed.

(** ** What the pool promises *)

(** C6: the pool is a bounded first-in first-out queue: the jobs given to
    the callback so far and the jobs queued are, in this order, the jobs that
    were accepted, each exactly once; the counter is the length of the queue
    and never exceeds the maximum. *)
Theorem pool_is_fifo max threads s :
  0 < max -> reachable max threads s ->
  exists queued, added s = taken s ++ queued /\ Z.of_nat (length queued) = queue_cur_num (pool s) /\
    0 <= queue_cur_num (pool s) <= max.
Proof.
  intros Hmax [(es & HQ & Ha) _ Hb _ _ _ _ _ _ _]%pool_inv_reachable; [|done]. exists es.*2.
  rewrite length_fmap, (q_num _ _ _ HQ) in *. split_and!; [done|done|lia|done].
Qed.

(** C13: no step of a thread fails on a bad pointer: a worker that finds the
    queue not empty gets a job, a caller that finds room adds one, and the
    job a worker passes to the callback has not been freed. *)
Theorem pool_is_safe max threads s :
  0 < max -> reachable max threads s ->
  (WReady ∈ workers s -> queue_cur_num (pool s) <> 0 -> is_ok (take_job (pool s)) = true) /\
  (forall arg, PReady arg ∈ producers s -> is_ok (threadpool_add_job arg (pool s)) = true) /\
  (forall pjob, WJob pjob ∈ workers s -> is_ok (job_buff pjob (pool s)) = true).
Proof.
  intros Hmax [(es & HQ & Ha) _ _ _ _ _ _ _ _ Hargs]%pool_inv_reachable; [|done]. split_and!.
  - intros [i Hi]%list_elem_of_lookup H0. by destruct (take_ok _ _ _ i HQ H0 Hi) as (? & ? & ? & ? & _ & _ & -> & _).
  - intros arg Hin. by destruct (add_ok arg _ _ _ HQ (Hargs arg (or_introl Hin))) as (? & ? & ? & -> & _).
  - intros pjob Hin. destruct (q_busy _ _ _ HQ pjob) as [j Hj].
    + unfold busy. apply list_elem_of_omap. by exists (WJob pjob).
    + unfold job_buff. by rewrite Hj.
Qed.

(** C12: no wake-up is lost: a worker sleeps only while the queue is empty
    (and the pool open, or about to wake everybody), a caller only while the
    queue is full, and threadpool_destroy only while there are jobs. *)
Theorem pool_no_lost_wakeup max threads s :
  0 < max -> reachable max threads s ->
  (WSleep ∈ workers s -> queue_cur_num (pool s) = 0 /\ (pool_close (pool s) = false \/ destroyer s = CClosed)) /\
  (forall arg, PSleep arg ∈ producers s -> queue_cur_num (pool s) = max) /\
  (destroyer s = CSleep -> queue_cur_num (pool s) <> 0).
Proof. intros Hmax [_ _ _ Hw Hp Hc _ _ _ _]%pool_inv_reachable; done. Qed.

(** C14: when threadpool_destroy has returned 0, every job that was accepted
    has been given to the callback. *)
Theorem destroy_drains max threads s :
  0 < max -> reachable max threads s -> destroyer s = CDone 0 -> taken s = added s.
Proof.
  intros Hmax [(es & HQ & Ha) _ _ _ _ _ _ Hcl Hd _]%pool_inv_reachable E; [|done]. rewrite E in Hcl. specialize (Hd Hcl).
  rewrite (q_num _ _ _ HQ) in Hd. destruct es; [|cbn in Hd; lia]. by rewrite app_nil_r in Ha.
Qed.

(** ** A run: a queue of one job, one thread, two callers, then destroy *)

Definition a1 : bytes := [1].
Definition a2 : bytes := [2].

(** Both calls made, the second one asleep. *)
Definition full : system :=
  mkSys (mkPool 1 {[1%positive := mkJob (padded 1024 a1) None]} (Some 1%positive) (Some 1%positive) 1 false false)
    [WReady] [PDone 0; PSleep a2] CIdle [padded 1024 a1] [].

Lemma live_rtc s s' s'' : destroyer s <> CDone 0 -> step s s' -> rtc live_step s' s'' -> rtc live_step s s''.
Proof. intros Hl Hs Hr. eapply rtc_l; [|exact Hr]. by split. Qed.

Lemma full_reachable : reachable 1 1 full.
Proof.
  unfold reachable.
  eapply live_rtc; [done|apply (step_call _ a1); cbn; lia|].
  eapply live_rtc; [done|eapply (step_add _ 0 a1); [done|done|done|reflexivity|vm_compute; reflexivity]|].
  eapply live_rtc; [done|apply (step_call _ a2); cbn; lia|].
  eapply live_rtc; [done|eapply (step_add_wait _ 1 a2); [done|done]|].
  apply rtc_refl.
Qed.

(** threadpool_destroy has returned; the second caller has been woken and is
    about to lock the mutex of the freed pool. *)
Definition raced : system :=
  mkSys (mkPool 1 ∅ None None 0 true true) [WExit] [PDone 0; PReady a2] (CDone 0) [padded 1024 a1] [padded 1024 a1].

(** Compute the state reached so far. *)
Ltac settle :=
  match goal with |- rtc live_step ?s _ =>
    let s' := eval cbv -[padded a1 a2] in s in change s with s' end.

Lemma raced_reachable : reachable 1 1 raced.
Proof.
  unfold reachable. transitivity full; [apply full_reachable|].
  eapply live_rtc; [done|apply step_destroy; done|]; settle.
  eapply live_rtc; [done|eapply (step_fun_take _ 0); [done|done|done|reflexivity|reflexivity]|]; settle.
  eapply live_rtc; [done|eapply (step_fun_done _ 0); done|]; settle.
  eapply live_rtc; [done|apply step_destroy_test; done|]; settle.
  eapply live_rtc; [done|apply step_destroy_wake; done|]; settle.
  eapply live_rtc; [done|apply (step_fun_exit _ 0); done|]; settle.
  eapply live_rtc; [done|apply step_destroy_join; [done|by repeat constructor]|]; settle.
  apply rtc_refl.
Qed.

(** Threadpool_destroy does not wait for callers of threadpool_add_job:
    it can free the pool while a caller it woke has still to lock the mutex. *)
Lemma destroy_races_with_add :
  exists s, reachable 1 1 s /\ destroyer s = CDone 0 /\ exists arg, PReady arg ∈ producers s.
Proof. exists raced. split; [exact raced_reachable|]. split; [done|]. exists a2. cbn. set_solver. Qed.

Lemma pool_is_fifo_witness :
  exists queued, added full = taken full ++ queued /\ Z.of_nat (length queued) = queue_cur_num (pool full) /\
    0 <= queue_cur_num (pool full) <= 1.
Proof. apply (pool_is_fifo 1 1 full); [reflexivity|exact full_reachable]. Defined.

Lemma pool_is_safe_witness :
  (WReady ∈ workers full -> queue_cur_num (pool full) <> 0 -> is_ok (take_job (pool full)) = true) /\
  (forall arg, PReady arg ∈ producers full -> is_ok (threadpool_add_job arg (pool full)) = true) /\
  (forall pjob, WJob pjob ∈ workers full -> is_ok (job_buff pjob (pool full)) = true).
Proof. apply (pool_is_safe 1 1 full); [reflexivity|exact full_reachable]. Defined.

Lemma pool_no_lost_wakeup_witness :
  (WSleep ∈ workers full -> queue_cur_num (pool full) = 0 /\ (pool_close (pool full) = false \/ destroyer full = CClosed)) /\
  (forall arg, PSleep arg ∈ producers full -> queue_cur_num (pool full) = 1) /\
  (destroyer full = CSleep -> queue_cur_num (pool full) <> 0).
Proof. apply (pool_no_lost_wakeup 1 1 full); [reflexivity|exact full_reachable]. Defined.

Lemma destroy_drains_witness : taken raced = added raced.
Proof. apply (destroy_drains 1 1 raced); [reflexivity|exact raced_reachable|reflexivity]. Defined.
End ThreadPool.
