(* ===== verification/Conn.v ===== *)
(** * Connections (src/src/TDM.c, thread_libevent_process of src/src/thread.c)

    The table of connections, indexed by descriptor, and the event handlers:
    the listening connection accepts and hands over to a thread, the thread
    makes the connection object, a readable connection is read and its bytes
    handed to a worker. The state of the server joins the table of terminals
    ([Device.world], which carries the outside world), the two sides of
    [ConnQueue] and the connection objects. *)

From stdpp Require Import prelude gmap strings.
From S2P Require Import Prelude CLib Layout Sock NodeState Deal Device Handlers Dispatch ConnQueue.
Import Sock Device.
Open Scope Z_scope.

Module Conn.
Import ConnQueue.

Record conn := mkConn {
  c_sfd : Z;
  c_state : conn_states;
  c_last_cmd_time : Z;
  c_ev_flags : Z;
  c_which : Z;
  c_item : bool;              (* item is not NULL *)
  c_thread : option Z
}.

Record server := mkServer {
  conns : list (option loc);          (* max_fds entries *)
  objs : gmap loc conn;               (* the conn objects *)
  rt : side;                          (* the threads that read *)
  wk : side;                          (* the workers *)
  dev : world
}.

Abbreviation V A := (M server A).

Definition sys (s : server) : io := w_sys (dev s).

Definition set_sys (w : world) (i : io) : world := mkW (Device.cells w) (lnk w) (w_logs w) i.

Definition vio {A} (m : M io A) : V A := fun s =>
  match m (sys s) with
  | Ok (a, i) => Ok (a, mkServer (conns s) (objs s) (rt s) (wk s) (set_sys (dev s) i))
  | Fault f => Fault f
  end.

(** An operation on one side, with the outside world of the server. *)
Definition with_os (q : side) (i : io) : side :=
  mkSide (items q) (freelist q) (queues q) (pipes q) (last_thread q) i.

Definition on_rt {A} (m : Q A) : V A := fun s =>
  match m (with_os (rt s) (sys s)) with
  | Ok (a, q) => Ok (a, mkServer (conns s) (objs s) q (wk s) (set_sys (dev s) (os q)))
  | Fault f => Fault f
  end.

Definition on_wk {A} (m : Q A) : V A := fun s =>
  match m (with_os (wk s) (sys s)) with
  | Ok (a, q) => Ok (a, mkServer (conns s) (objs s) (rt s) q (set_sys (dev s) (os q)))
  | Fault f => Fault f
  end.

Definition obj (p : loc) : V conn := fun s =>
  match objs s !! p with Some c => Ok (c, s) | None => Fault UseAfterFree end.

Definition set_obj (p : loc) (c : conn) : V unit :=
  modify (fun s => mkServer (conns s) (<[p := c]> (objs s)) (rt s) (wk s) (dev s)).

Definition set_conns (fd : Z) (q : option loc) : V unit := fun s =>
  if Z.ltb fd 0 then Fault Overrun else
  if decide (Z.to_nat fd < length (conns s))%nat
  then Ok (tt, mkServer (<[Z.to_nat fd := q]> (conns s)) (objs s) (rt s) (wk s) (dev s))
  else Fault Overrun.

Definition get_conns (fd : Z) : V (option loc) := fun s =>
  if Z.ltb fd 0 then Fault Overread else
  match conns s !! Z.to_nat fd with Some q => Ok (q, s) | None => Fault Overread end.

Definition assert_ (b : bool) : V unit := if b then ret tt else fail AssertFailed.

(** ** Making and closing connections *)


(** calloc of an object: all members 0. *)
Definition conn0 : conn := mkConn 0 conn_listening 0 0 0 false None.

Definition with_sfd (c : conn) (fd : Z) : conn :=
  mkConn fd (c_state c) (c_last_cmd_time c) (c_ev_flags c) (c_which c) (c_item c) (c_thread c).

Definition conn_new (fd : Z) (st : conn_states) (flags : Z) : V (option loc) :=
  assert_ (Z.leb 0 fd) ;;
  let! q := get_conns fd in
  let! q := (match q with
    | Some p => ret (Some p)
    | None =>
        let! a := vio answered in             (* calloc *)
        if Z.ltb (a_ret a) 0 then ret None else
        let! s := get in
        let p := fresh (dom (objs s)) in
        set_obj p (with_sfd conn0 fd) ;;
        set_conns fd (Some p) ;;
        ret (Some p)
    end) in
  match q with
  | None => ret None
  | Some p =>
      let! now := vio sys_time in
      let! c := obj p in
      set_obj p (mkConn (c_sfd c) st now flags (c_which c) (c_item c) (c_thread c)) ;;
      let! a := vio answered in               (* event_add *)
      if Z.eqb (a_ret a) (-1) then ret None else ret (Some p)
  end.

Definition state_num (st : conn_states) : Z :=
  match st with
  | conn_listening => 0 | conn_new_cmd => 1 | conn_waiting => 2 | conn_read => 3 | conn_parse_cmd => 4
  | conn_write => 5 | conn_nread => 6 | conn_swallow => 7 | conn_closing => 8 | conn_mwrite => 9
  | conn_closed => 10 | conn_max_state => 11
  end.

Definition conn_set_state (p : loc) (st : conn_states) : V unit :=
  assert_ (Z.leb 0 (state_num st) && Z.ltb (state_num st) 11) ;;
  let! c := obj p in
  set_obj p (mkConn (c_sfd c) st (c_last_cmd_time c) (c_ev_flags c) (c_which c) (c_item c) (c_thread c)).

Definition conn_free (q : option loc) : V unit :=
  match q with
  | None => ret tt
  | Some p =>
      let! c := obj p in
      let! s := get in
      assert_ (Z.leb 0 (c_sfd c) && Z.ltb (c_sfd c) (Z.of_nat (length (conns s)))) ;;
      set_conns (c_sfd c) None ;;
      modify (fun s => mkServer (conns s) (delete p (objs s)) (rt s) (wk s) (dev s))
  end.

Definition conn_release_items (p : loc) : V unit :=
  let! c := obj p in
  if c_item c
  then set_obj p (mkConn (c_sfd c) (c_state c) (c_last_cmd_time c) (c_ev_flags c) (c_which c) false (c_thread c))
  else ret tt.

Definition conn_cleanup (p : loc) : V unit := conn_release_items p.

(** event_del, then the object is marked closed and the socket closed. *)
Definition conn_close (p : loc) : V unit :=
  conn_cleanup p ;;
  conn_set_state p conn_closed ;;
  let! c := obj p in
  vio (sys_close (c_sfd c)).

(** ** The threads that read *)

Definition thread_libevent_process (tid : Z) : V unit :=
  let! c := on_rt (read_pipe tid) in
  match c with
  | None => ret tt
  | Some c =>
      if Z.eqb c 99 then
        let! item := on_rt (cq_pop tid) in
        match item with
        | None => ret tt
        | Some p =>
            let! it := on_rt (load p) in
            (match mode it with
             | queue_new_conn =>
                 let! q := conn_new (sfd it) (init_state it) (event_flags it) in
                 match q with
                 | None => vio (sys_close (sfd it))
                 | Some k =>
                     let! c := obj k in
                     set_obj k (mkConn (c_sfd c) (c_state c) (c_last_cmd_time c) (c_ev_flags c) (c_which c) (c_item c) (Some tid))
                 end
             | queue_redispatch => ret tt
             end) ;;
            on_rt (cqi_free_base p)
        end
      else ret tt
  end.

(** ** Events *)

Section Handlers.
(** What malloc leaves in new queue items, and the tmd_pthread that
    socket_read_cb leaves uninitialised on its stack. *)
Context (junk : loc -> conn_queue_item) (para : Dispatch.tmd_pthread).

(** fcntl on a bad descriptor fails. *)
Definition setnonblocking (fd : Z) : M io Z :=
  if Z.ltb fd 0 then ret (-1)
  else let! a := answered in ret (if Z.ltb (a_ret a) 0 then -1 else 0).

(** The tag Coding_With_Recv_Data returns is not used. *)
Definition socket_read_cb (p : loc) : V unit :=
  let! c := obj p in
  let! TempBuf := (fun s =>
    match Dispatch.Coding_With_Recv_Data (c_sfd c) (Dispatch.mkD para (zeros 256) (dev s)) with
    | Ok (_, d) => Ok (Dispatch.TempBuf d, mkServer (conns s) (objs s) (rt s) (wk s) (Dispatch.wd d))
    | Fault f => Fault f
    end) in
  let! text := lift (cstring TempBuf) in
  on_wk (conn_new_func_worker junk text).

Definition EV_READ : Z := 2.
Definition EV_PERSIST : Z := 16.

Fixpoint do_accept (fuel : nat) (p : loc) : V unit :=
  match fuel with
  | O => fail NoFuel
  | S f =>
      let! c := obj p in
      match c_state c with
      | conn_listening =>
          let! (fd, _) := vio sys_accept in
          let! r := vio (setnonblocking fd) in
          if negb (Z.eqb r 0) then vio (sys_close fd) ;; do_accept f p
          else on_rt (dispatch_conn_new junk fd conn_new_cmd (Z.lor EV_READ EV_PERSIST))
      | conn_new_cmd => socket_read_cb p
      | _ => ret tt
      end
  end.

Definition event_handler (fuel : nat) (fd which : Z) (p : loc) : V unit :=
  let! c := obj p in
  set_obj p (mkConn (c_sfd c) (c_state c) (c_last_cmd_time c) (c_ev_flags c) which (c_item c) (c_thread c)) ;;
  if negb (Z.eqb fd (c_sfd c)) then conn_close p else do_accept fuel p.
End Handlers.

(** ** Start-up *)




(** ** The process *)

Definition SIGINT : Z := 2.
Definition SIGABRT : Z := 6.
Definition SIGSEGV : Z := 11.



Definition sigexit (dunno : Z) : V unit :=
  when (Z.eqb dunno SIGABRT || Z.eqb dunno SIGINT || Z.eqb dunno SIGSEGV) (vio (emit (ELog MSG_MONITOR))) ;;
  fail Exited.


(** ** The table of connections *)

(** An entry of the table points to an object made for its descriptor. *)
Definition table_ok (s : server) : Prop :=
  forall i p, conns s !! i = Some (Some p) -> exists c, objs s !! p = Some c /\ c_sfd c = Z.of_nat i.

Lemma table_inj s i j p : table_ok s -> conns s !! i = Some (Some p) -> conns s !! j = Some (Some p) -> i = j.
Proof.
  intros T Hi Hj. destruct (T _ _ Hi) as (c & Hc & E). destruct (T _ _ Hj) as (c' & Hc' & E'). simplify_eq. lia.
Qed.

(** At most [n] answers later, with nothing sent. *)
Definition spent (n : nat) (w w' : io) : Prop := exists m, (m <= n)%nat /\ after m w w'.

Lemma spent_willing n k w w' : spent n w w' -> willing (n + k) w -> willing k w'.
Proof.
  intros (m & Hm & A) W. replace (n + k)%nat with (m + (n - m + k))%nat in W by lia.
  destruct (willing_drop _ _ _ _ W A) as [Hk Hf]. split; [lia|]. eapply (Forall_take _ k) in Hf.
  by rewrite take_take, Nat.min_l in Hf by lia.
Qed.

Lemma spent_succeeding n k w w' : spent n w w' -> succeeding (n + k) w -> succeeding k w'.
Proof.
  intros (m & Hm & [A _]) [i Hi]. exists (replicate (n - m) (a_num 1) ++ i).
  rewrite A, Hi. replace (n + k)%nat with (m + (k + (n - m)))%nat by lia. rewrite !replicate_add, <-!app_assoc.
  by rewrite drop_app_length' by by rewrite length_replicate.
Qed.

(** The object of a descriptor: the one in the table, or a new one. *)
Lemma conn_object s fd k :
  table_ok s -> 0 <= fd < Z.of_nat (length (conns s)) -> willing (S k) (sys s) ->
  exists p c s', objs s' !! p = Some c /\ c_sfd c = fd /\ conns s' = <[Z.to_nat fd := Some p]> (conns s) /\
    (forall q, conns s !! Z.to_nat fd = Some (Some q) -> q = p) /\
    (forall q, q <> p -> objs s' !! q = objs s !! q) /\ table_ok s' /\ rt s' = rt s /\ wk s' = wk s /\
    spent 1 (sys s) (sys s') /\
    (let! q := get_conns fd in
     match q with
     | Some p => ret (Some p)
     | None =>
        let! a := vio answered in
        if Z.ltb (a_ret a) 0 then ret None else
        let! s := get in
        let p := fresh (dom (objs s)) in
        set_obj p (with_sfd conn0 fd) ;;
        set_conns fd (Some p) ;;
        ret (Some p)
     end) s = Ok (Some p, s').
Proof.
  intros T Hfd Hs. destruct (lookup_lt_is_Some_2 (conns s) (Z.to_nat fd)) as [q Hq]; [lia|].
  assert (G : get_conns fd s = Ok (q, s)).
  { unfold get_conns. destruct (Z.ltb_spec fd 0); [lia|]. by rewrite Hq. }
  destruct q as [p|].
  - destruct (T _ _ Hq) as (c & Hc & Ec). exists p, c, s. rewrite list_insert_id by done. split_and!; try done; [lia| | |].
    + intros q Hq'. congruence.
    + exists 0%nat. split; [lia|by split].
    + by erewrite bind_ok by exact G.
  - destruct (willing_answer _ _ Hs) as (a & w' & Ha & Hnn & Ho & Hi). set (p := fresh (dom (objs s))).
    assert (Hp : objs s !! p = None) by (apply not_elem_of_dom, is_fresh).
    exists p, (with_sfd conn0 fd).
    exists (mkServer (<[Z.to_nat fd := Some p]> (conns s)) (<[p := with_sfd conn0 fd]> (objs s)) (rt s) (wk s)
      (set_sys (dev s) w')). cbn [objs conns rt wk].
    split_and!; try done.
    + by rewrite lookup_insert_eq.
    + intros q Hq'. congruence.
    + intros q Hq'. by rewrite lookup_insert_ne.
    + intros j q Hj. cbn [conns objs] in *. destruct (decide (j = Z.to_nat fd)) as [->|Hn].
      * rewrite list_lookup_insert_eq in Hj by lia. injection Hj as <-. rewrite lookup_insert_eq.
        eexists. split; [done|]. cbn. lia.
      * rewrite list_lookup_insert_ne in Hj by done. destruct (T _ _ Hj) as (c & Hc & Ec).
        exists c. rewrite lookup_insert_ne; [done|]. intros <-. congruence.
    + exists 1%nat. split; [lia|]. split; [|done]. cbn [sys dev w_sys set_sys]. by rewrite Hi.
    + erewrite bind_ok by exact G. cbn beta iota.
      erewrite bind_ok by (unfold vio; rewrite Ha; reflexivity). cbn beta iota.
      destruct (Z.ltb_spec (a_ret a) 0); [lia|].
      erewrite bind_ok by reflexivity. cbn zeta. erewrite bind_ok by reflexivity.
      erewrite bind_ok; [reflexivity|]. unfold set_conns. cbn [conns]. destruct (Z.ltb_spec fd 0); [lia|].
      by rewrite decide_True by lia.
Qed.

Lemma bind_assoc_V {A B C} (m : V A) (f : A -> V B) (g : B -> V C) s :
  bind m (fun a => bind (f a) g) s = bind (bind m f) g s.
Proof. unfold bind. by destruct (m s) as [[? ?]|]. Qed.

Lemma bind_bind_V {A B C} (m : V A) (f : A -> V B) (g : B -> V C) s :
  bind (bind m f) g s = bind m (fun a => bind (f a) g) s.
Proof. unfold bind. by destruct (m s) as [[? ?]|]. Qed.

Lemma vio_ok {A B} (m : M io A) (f : A -> V B) s a i :
  m (sys s) = Ok (a, i) ->
  bind (vio m) f s = f a (mkServer (conns s) (objs s) (rt s) (wk s) (set_sys (dev s) i)).
Proof. intros E. unfold bind, vio. by rewrite E. Qed.

Lemma answered_ok k w : succeeding (S k) w ->
  exists w', answered w = Ok (a_num 1, w') /\ succeeding k w' /\ out w' = out w.
Proof. intros [i Hi]. unfold answered. rewrite Hi. cbn. eexists. split; [reflexivity|]. by split; [exists i|]. Qed.

(** Writing an object that keeps its descriptor. *)
Lemma table_set s s' p c c' :
  table_ok s -> objs s !! p = Some c -> c_sfd c' = c_sfd c -> conns s' = conns s -> objs s' = <[p := c']> (objs s) ->
  table_ok s'.
Proof.
  intros T Hp Hc E1 E2 j q Hj. rewrite E1 in Hj. destruct (T _ _ Hj) as (d & Hd & Ed). rewrite E2.
  destruct (decide (p = q)) as [->|]; [rewrite lookup_insert_eq|by rewrite lookup_insert_ne by done; exists d].
  exists c'. split; [done|]. congruence.
Qed.

(** A connection [p] for descriptor [fd] in state [st]; the others as in [s]. *)
Record has_conn (s s' : server) (fd : Z) (st : conn_states) (flags : Z) (tid : option Z) (p : loc) : Prop := mkHas {
  hc_obj : exists c, objs s' !! p = Some c /\ c_sfd c = fd /\ c_state c = st /\ c_ev_flags c = flags /\
             match tid with Some t => c_thread c = Some t | None => True end;
  hc_table : conns s' = <[Z.to_nat fd := Some p]> (conns s);
  hc_reuse : forall q, conns s !! Z.to_nat fd = Some (Some q) -> q = p;
  hc_others : forall q, q <> p -> objs s' !! q = objs s !! q;
  hc_ok : table_ok s'
}.

Lemma conn_new_ok s fd st flags k :
  table_ok s -> 0 <= fd < Z.of_nat (length (conns s)) -> willing (3 + k) (sys s) ->
  exists p s', conn_new fd st flags s = Ok (Some p, s') /\ has_conn s s' fd st flags None p /\
    rt s' = rt s /\ wk s' = wk s /\ spent 3 (sys s) (sys s').
Proof.
  intros T Hfd Hs. destruct (conn_object s fd (2 + k) T Hfd Hs)
    as (p & c & s1 & Hp & Hc & Et & Er & Eo & T1 & R1 & W1 & Sp & E).
  pose proof (spent_willing 1 (2 + k) _ _ Sp Hs) as Hs1. destruct Sp as (m & Hm & [Im Om]).
  destruct (willing_answer _ _ Hs1) as (a2 & w2 & A2 & N2 & O2 & I2).
  assert (S2 : willing (1 + k) w2) by (eapply (willing_drop 1); [exact Hs1|split; [by rewrite I2|done]]).
  destruct (willing_answer _ _ S2) as (a3 & w3 & A3 & N3 & O3 & I3).
  set (c' := mkConn (c_sfd c) st (a_ret a2) flags (c_which c) (c_item c) (c_thread c)).
  exists p, (mkServer (conns s1) (<[p := c']> (objs s1)) (rt s1) (wk s1) (set_sys (dev s1) w3)).
  split_and!; [|split|done|done|]; cbn [objs conns].
  - unfold conn_new. erewrite bind_ok by (unfold assert_; destruct (Z.leb_spec 0 fd); [reflexivity|lia]).
    rewrite bind_assoc_V. erewrite bind_ok by exact E. cbn beta iota.
    erewrite vio_ok by (unfold sys_time; erewrite bind_ok by exact A2; reflexivity).
    erewrite bind_ok by (unfold obj; cbn [objs]; rewrite Hp; reflexivity).
    erewrite bind_ok by reflexivity. erewrite vio_ok by exact A3.
    by destruct (Z.eqb_spec (a_ret a3) (-1)); [lia|].
  - exists c'. rewrite lookup_insert_eq. split_and!; done.
  - done.
  - done.
  - intros q Hq. rewrite lookup_insert_ne by done. by apply Eo.
  - by eapply (table_set s1 _ p c c').
  - exists (m + 2)%nat. split; [lia|]. cbn [sys dev w_sys set_sys]. split; [|by rewrite O3, O2].
    rewrite <-drop_drop, <-Im, I2. cbn [drop]. by rewrite I3.
Qed.

(** ** Serving an accepted connection *)

Lemma on_rt_ok {A B} (m : Q A) (f : A -> V B) s a q :
  m (with_os (rt s) (sys s)) = Ok (a, q) ->
  bind (on_rt m) f s = f a (mkServer (conns s) (objs s) q (wk s) (set_sys (dev s) (os q))).
Proof. intros E. unfold bind, on_rt. by rewrite E. Qed.

Lemma with_os_id q : with_os q (os q) = q.
Proof. by destruct q. Qed.

Lemma read_pipe_os tid q c q' : read_pipe tid q = Ok (c, q') -> os q' = os q.
Proof. unfold read_pipe. intros E. repeat case_match; by simplify_eq. Qed.

Lemma models_os n q i a : models n q a -> models n (with_os q i) a.
Proof. intros (fl & qs & R & H). exists fl, qs. split; [by apply rep_pipes|exact H]. Qed.

(** The object that has just been made is given its thread. *)
Lemma has_conn_thread s s1 s2 fd st flags p c tid :
  has_conn s s1 fd st flags None p -> objs s1 !! p = Some c -> conns s2 = conns s1 ->
  objs s2 = <[p := mkConn (c_sfd c) (c_state c) (c_last_cmd_time c) (c_ev_flags c) (c_which c) (c_item c) (Some tid)]> (objs s1) ->
  has_conn s s2 fd st flags (Some tid) p.
Proof.
  intros [(c' & Hc' & E1 & E2 & E3 & _) Ht Hr Ho Hk] Hc Ec Eo. rewrite Hc in Hc'. injection Hc' as <-. split.
  - eexists. rewrite Eo, lookup_insert_eq. split; [done|]. done.
  - congruence.
  - done.
  - intros q Hq. rewrite Eo, lookup_insert_ne by done. by apply Ho.
  - eapply (table_set s1 _ p c); [done|done| |done|exact Eo]; done.
Qed.

Lemma process_serves s a tid b fd st flags buf q k :
  models RT_POOL_NUM (rt s) a -> 0 <= tid < RT_POOL_NUM -> table_ok s -> 0 <= fd < Z.of_nat (length (conns s)) ->
  f_pipes a !! Z.to_nat tid = Some (99 :: b) ->
  f_queues a !! Z.to_nat tid = Some (mkItem fd st flags queue_new_conn buf None :: q) -> succeeding (3 + k) (sys s) ->
  exists p s', thread_libevent_process tid s = Ok (tt, s') /\ has_conn s s' fd st flags (Some tid) p /\
    models RT_POOL_NUM (rt s') (snd (fifo_pop tid a)).
Proof.
  intros M Ht T Hfd Hp Hq Hs.
  destruct (take_next _ _ _ _ _ _ _ _ (models_os _ _ (sys s) _ M) Ht Hp Hq) as (x & it & q1 & q2 & E1 & E2 & O2 & Hi & Hit & F).
  pose proof (read_pipe_os _ _ _ _ E1) as O1. cbn [os with_os] in O1, O2.
  set (s2 := mkServer (conns s) (objs s) q2 (wk s) (set_sys (dev s) (sys s))).
  destruct (conn_new_ok s2 fd st flags k T Hfd (succeeding_willing _ _ Hs)) as (p & s3 & E3 & HC & R3 & W3 & _).
  destruct (hc_obj _ _ _ _ _ _ _ HC) as (c & Hc & _).
  set (s4 := mkServer (conns s3) (<[p := mkConn (c_sfd c) (c_state c) (c_last_cmd_time c) (c_ev_flags c) (c_which c) (c_item c) (Some tid)]> (objs s3))
    (rt s3) (wk s3) (dev s3)).
  destruct (F (sys s3)) as (q5 & E5 & O5 & M5).
  exists p, (mkServer (conns s4) (objs s4) q5 (wk s4) (set_sys (dev s4) (os q5))). split_and!; [| |exact M5].
  - unfold thread_libevent_process. erewrite on_rt_ok by exact E1. cbn beta iota.
    change (Z.eqb 99 99) with true. cbn beta iota.
    erewrite on_rt_ok by (cbn [rt sys dev w_sys set_sys]; rewrite with_os_id; exact E2). cbn beta iota.
    erewrite on_rt_ok by (cbn [rt sys dev w_sys set_sys]; rewrite with_os_id; apply load_run; exact Hi).
    cbn [conns objs wk dev set_sys]. rewrite O2.
    assert (Em : mode it = queue_new_conn /\ sfd it = fd /\ init_state it = st /\ event_flags it = flags)
      by (by injection Hit as -> -> -> -> _). destruct Em as (-> & -> & -> & ->).
    fold s2. rewrite bind_bind_V. erewrite bind_ok by exact E3. cbn beta iota.
    rewrite bind_bind_V. erewrite bind_ok by (unfold obj; rewrite Hc; reflexivity).
    erewrite bind_ok by reflexivity. fold s4.
    unfold on_rt. change (rt s4) with (rt s3). change (sys s4) with (sys s3). rewrite R3.
    change (rt s2) with q2. unfold with_os. by rewrite E5.
  - eapply has_conn_thread; [|exact Hc|done|done]. by destruct HC.
Qed.

(** The listening connection [l] is ready and a client with descriptor [fd] waits. *)
Definition incoming (s : server) (l : loc) (fd : Z) (k : nat) : Prop :=
  (exists c, objs s !! l = Some c /\ c_state c = conn_listening) /\
  exists i, inp (sys s) = a_num fd :: replicate k (a_num 1) ++ i.

Lemma accept_dispatches junk para f l fd k s a :
  incoming s l fd (3 + k) -> 0 <= fd -> models RT_POOL_NUM (rt s) a ->
  exists s', do_accept junk para (S f) l s = Ok (tt, s') /\ conns s' = conns s /\ objs s' = objs s /\ wk s' = wk s /\
    succeeding k (sys s') /\
    models RT_POOL_NUM (rt s') (fifo_push RT_POOL_NUM (mkItem fd conn_new_cmd 18 queue_new_conn (zeros 1024) None) 99 a).
Proof.
  intros [(c & Hc & Hst) (i & Hi)] Hfd M.
  set (w1 := mkIo (out (sys s) ++ [EAccept fd]) (replicate (3 + k) (a_num 1) ++ i)).
  assert (A1 : sys_accept (sys s) = Ok ((fd, []), w1)).
  { unfold sys_accept, bind, answered. rewrite Hi. cbn [a_num a_ret]. by destruct (Z.ltb_spec fd 0); [lia|]. }
  set (w2 := mkIo (out w1) (replicate (2 + k) (a_num 1) ++ i)).
  assert (A2 : setnonblocking fd w1 = Ok (0, w2)).
  { unfold setnonblocking. by destruct (Z.ltb_spec fd 0); [lia|]. }
  destruct (dispatch_push junk fd conn_new_cmd 18 k (with_os (rt s) w2) a) as (q & E & S & M');
    [by apply models_os|by exists i|].
  exists (mkServer (conns s) (objs s) q (wk s) (set_sys (dev s) (os q))). split_and!; try done.
  cbn [do_accept]. erewrite bind_ok by (unfold obj; rewrite Hc; reflexivity). rewrite Hst.
  erewrite vio_ok by exact A1. cbn beta iota. erewrite vio_ok by exact A2. change (negb (Z.eqb 0 0)) with false. cbn beta iota.
  unfold on_rt. cbn [rt sys dev w_sys set_sys conns objs wk].
  change (Z.lor EV_READ EV_PERSIST) with 18. by rewrite E.
Qed.

(** The two steps that bring a client to its thread. *)
Definition accept_then_process junk para (l : loc) (tid : Z) : V unit :=
  do_accept junk para 1 l ;; thread_libevent_process tid.

(** C7: a client is served: the listening connection accepts it and hands it
    to the thread after the one used last; that thread, idle before, makes a
    connection object for its descriptor (the one in the table, if there is
    one) in the state conn_new_cmd, owned by the thread, and gives the queue
    item back. All other connections stay as they are. *)
Theorem accepted_is_served junk para s l fd k a tid :
  incoming s l fd (6 + k) -> models RT_POOL_NUM (rt s) a -> table_ok s -> 0 <= fd < Z.of_nat (length (conns s)) ->
  tid = Z.rem (f_last a + 1) RT_POOL_NUM -> f_queues a !! Z.to_nat tid = Some [] -> f_pipes a !! Z.to_nat tid = Some [] ->
  exists p s' a', accept_then_process junk para l tid s = Ok (tt, s') /\
    has_conn s s' fd conn_new_cmd (Z.lor EV_READ EV_PERSIST) (Some tid) p /\
    models RT_POOL_NUM (rt s') a' /\ f_queues a' !! Z.to_nat tid = Some [] /\ f_pipes a' !! Z.to_nat tid = Some [] /\
    f_last a' = tid.
Proof.
  intros Hin M T Hfd Et Hq Hp.
  destruct (accept_dispatches junk para 0 l fd (3 + k) s a Hin ltac:(lia) M) as (s1 & E1 & C1 & O1 & W1 & S1 & M1).
  assert (Ht : 0 <= tid < RT_POOL_NUM).
  { rewrite Et. destruct M as (? & ? & _ & _ & _ & -> & _ & _ & ?). by apply next_thread. }
  set (a1 := fifo_push _ _ _ a) in M1.
  assert (Q1 : f_queues a1 !! Z.to_nat tid = Some [mkItem fd conn_new_cmd 18 queue_new_conn (zeros 1024) None]).
  { subst a1. unfold fifo_push. cbn [f_queues]. by rewrite <-Et, list_lookup_alter_eq, Hq. }
  assert (P1 : f_pipes a1 !! Z.to_nat tid = Some [99]).
  { subst a1. unfold fifo_push. cbn [f_pipes]. by rewrite <-Et, list_lookup_alter_eq, Hp. }
  destruct (process_serves s1 a1 tid [] fd conn_new_cmd 18 (zeros 1024) [] k M1 Ht) as (p & s2 & E2 & HC & M2);
    [intros i q; rewrite C1, O1; apply T|by rewrite C1|done|done|done|].
  exists p, s2, (snd (fifo_pop tid a1)). split_and!; [|by destruct HC; split; rewrite <-?C1, <-?O1|done|..].
  - unfold accept_then_process. by erewrite bind_ok by exact E1.
  - unfold fifo_pop. rewrite P1, Q1. apply list_lookup_insert_eq. by eapply lookup_lt_Some.
  - unfold fifo_pop. rewrite P1, Q1. apply list_lookup_insert_eq. by eapply lookup_lt_Some.
  - unfold fifo_pop. by rewrite P1, Q1.
Qed.

(** ** A start state *)

Definition io_ok (n : nat) : list answer := replicate n (a_num 1).

(** The listening connection 3, no other one; nothing queued. *)
Definition listening : server :=
  mkServer (<[3%nat := Some 1%positive]> (replicate 16 None)) {[1%positive := with_sfd conn0 3]}
    (side0 20 (mkIo [] [])) (side0 10 (mkIo [] [])) (set_sys empty_table (mkIo [] (a_num 7 :: io_ok 6))).

Lemma listening_ok : table_ok listening.
Proof.
  intros i p Hi. unfold listening in *. cbn [conns objs] in *. destruct (decide (i = 3%nat)) as [->|Hn].
  - rewrite list_lookup_insert_eq in Hi by (rewrite length_replicate; lia). injection Hi as <-. by eexists.
  - rewrite list_lookup_insert_ne in Hi by done. by apply lookup_replicate in Hi as [? _].
Qed.

Definition no_para : Dispatch.tmd_pthread := Dispatch.mkT 0 (zeros 20) None (zeros 12) 0.

Lemma accepted_is_served_witness :
  exists p s' a', accept_then_process (fun _ => item0) no_para 1 0 listening = Ok (tt, s') /\
    has_conn listening s' 7 conn_new_cmd (Z.lor EV_READ EV_PERSIST) (Some 0) p /\
    models RT_POOL_NUM (rt s') a' /\ f_queues a' !! 0%nat = Some [] /\ f_pipes a' !! 0%nat = Some [] /\ f_last a' = 0.
Proof.
  apply (accepted_is_served (fun _ => item0) no_para listening 1 7 0 (fifo0 20) 0).
  - split; [eexists; split; reflexivity|]. exists []. reflexivity.
  - apply (side0_models 20). lia.
  - exact listening_ok.
  - cbn. lia.
  - reflexivity.
  - reflexivity.
  - reflexivity.
Defined.

(** ** A failing accept *)

(** The client went away before it was accepted: accept fails. *)
Definition failing (i : list answer) : Prop := Forall (fun a => a_ret a < 0) i.

Lemma failing_accept w : failing (inp w) ->
  exists w', sys_accept w = Ok ((-1, []), w') /\ failing (inp w').
Proof.
  intros Hf. unfold sys_accept, bind, answered. destruct (inp w) as [|x i] eqn:E.
  - exists w. split; [done|]. rewrite E. constructor.
  - apply Forall_cons in Hf as [Hx Hf]. exists (mkIo (out w) i). split; [|done].
    by destruct (Z.ltb_spec (a_ret x) 0); [|lia].
Qed.

(** When accept fails on the listening connection, do_accept tries again
    without end: as long as accept fails it does not return, whatever the
    number of rounds. *)
Lemma do_accept_spins junk para fuel l c s :
  objs s !! l = Some c -> c_state c = conn_listening -> failing (inp (sys s)) ->
  do_accept junk para fuel l s = Fault NoFuel.
Proof.
  revert s. induction fuel as [|f IH]; intros s Hc Hst Hf; [done|].
  cbn [do_accept]. erewrite bind_ok by (unfold obj; rewrite Hc; reflexivity). rewrite Hst.
  destruct (failing_accept _ Hf) as (w & A & Hw). erewrite vio_ok by exact A. cbn beta iota.
  erewrite (vio_ok (setnonblocking (-1))) by reflexivity. change (negb (Z.eqb (-1) 0)) with true. cbn beta iota.
  erewrite (vio_ok (sys_close (-1))) by reflexivity. by apply IH.
Qed.

Lemma do_accept_spins_witness :
  do_accept (fun _ => item0) no_para 100 1
    (mkServer (conns listening) (objs listening) (rt listening) (wk listening) (set_sys empty_table (mkIo [] [a_err 11]))) = Fault NoFuel.
Proof.
  apply (do_accept_spins (fun _ => item0) no_para 100 1 (with_sfd conn0 3)); [reflexivity|reflexivity|].
  repeat constructor.
Defined.

(** ** Events *)

Definition released (c : conn) : conn :=
  mkConn (c_sfd c) (c_state c) (c_last_cmd_time c) (c_ev_flags c) (c_which c) false (c_thread c).

Lemma release_run p c s : objs s !! p = Some c ->
  conn_release_items p s = Ok (tt, mkServer (conns s) (<[p := released c]> (objs s)) (rt s) (wk s) (dev s)).
Proof.
  intros Hc. unfold conn_release_items. erewrite bind_ok by (unfold obj; rewrite Hc; reflexivity).
  destruct (c_item c) eqn:Ei; [done|]. unfold ret. rewrite insert_id; [by destruct s|].
  rewrite Hc. destruct c. cbn in Ei. by subst.
Qed.

Definition closed_conn (c : conn) : conn :=
  mkConn (c_sfd c) conn_closed (c_last_cmd_time c) (c_ev_flags c) (c_which c) false (c_thread c).

Lemma conn_close_run p c s : objs s !! p = Some c ->
  conn_close p s = Ok (tt, mkServer (conns s) (<[p := closed_conn c]> (objs s)) (rt s) (wk s)
    (set_sys (dev s) (mkIo (out (sys s) ++ [EClose (c_sfd c)]) (inp (sys s))))).
Proof.
  intros Hc. unfold conn_close, conn_cleanup. erewrite bind_ok by (by apply release_run).
  set (s1 := mkServer _ _ _ _ _). assert (H1 : objs s1 !! p = Some (released c)) by (cbn; by rewrite lookup_insert_eq).
  assert (E2 : conn_set_state p conn_closed s1 =
    Ok (tt, mkServer (conns s) (<[p := closed_conn c]> (objs s)) (rt s) (wk s) (dev s))).
  { unfold conn_set_state. erewrite bind_ok by reflexivity.
    erewrite bind_ok by (unfold obj; rewrite H1; reflexivity). unfold set_obj, modify. subst s1. cbn [conns objs rt wk dev].
    by rewrite insert_insert_eq. }
  erewrite bind_ok by exact E2. erewrite bind_ok by (unfold obj; cbn [objs]; rewrite lookup_insert_eq; reflexivity).
  done.
Qed.

(** An event for another descriptor closes the connection: its object is
    marked closed and keeps its place in the table, its socket is closed. *)
Lemma event_mismatch_closes junk para fuel fd which p c s :
  objs s !! p = Some c -> fd <> c_sfd c -> table_ok s ->
  exists s' c', event_handler junk para fuel fd which p s = Ok (tt, s') /\
    objs s' = <[p := c']> (objs s) /\ c_state c' = conn_closed /\ c_sfd c' = c_sfd c /\ c_item c' = false /\
    conns s' = conns s /\ sys s' = mkIo (out (sys s) ++ [EClose (c_sfd c)]) (inp (sys s)) /\ table_ok s'.
Proof.
  intros Hc Hfd T.
  set (c1 := mkConn (c_sfd c) (c_state c) (c_last_cmd_time c) (c_ev_flags c) which (c_item c) (c_thread c)).
  set (s1 := mkServer (conns s) (<[p := c1]> (objs s)) (rt s) (wk s) (dev s)).
  assert (H1 : objs s1 !! p = Some c1) by (cbn; by rewrite lookup_insert_eq).
  eexists _, (closed_conn c1). split.
  { unfold event_handler. erewrite bind_ok by (unfold obj; rewrite Hc; reflexivity).
    erewrite bind_ok by reflexivity. fold c1. destruct (Z.eqb_spec fd (c_sfd c)); [done|]. cbn [negb].
    change (mkServer _ _ _ _ _) with s1. by apply conn_close_run. }
  cbn [objs conns s1]. rewrite insert_insert_eq. split_and!; try done.
  by eapply (table_set s _ p c (closed_conn c1)).
Qed.

(** A peer that closes its side is not noticed: read gives 0, and
    socket_read_cb leaves the connection object and the table as they are and
    hands an empty text to a worker, so the descriptor stays open and
    registered for reading. *)
Lemma peer_close_ignored junk para p c k s a i :
  objs s !! p = Some c -> models POOL_NUM (wk s) a ->
  inp (sys s) = a_bytes [] :: replicate (2 + k) (a_num 1) ++ i ->
  exists s', socket_read_cb junk para p s = Ok (tt, s') /\ objs s' = objs s /\ conns s' = conns s /\
    models POOL_NUM (wk s') (fifo_push POOL_NUM (text_item []) 108 a).
Proof.
  intros Hc M Hi. set (w1 := mkIo (out (sys s) ++ [ERecv (c_sfd c) []]) (replicate (2 + k) (a_num 1) ++ i)).
  destruct (worker_push junk [] k (with_os (wk s) w1) a) as (q & E & S & M'); [by apply models_os|by exists i|cbn; lia|].
  exists (mkServer (conns s) (objs s) (rt s) q (set_sys (dev s) (os q))). split_and!; try done.
  assert (R : Dispatch.Coding_With_Recv_Data (c_sfd c) (Dispatch.mkD para (zeros 256) (dev s)) =
    Ok (-1, Dispatch.mkD para (zeros 256) (set_sys (dev s) w1))).
  { unfold Dispatch.Coding_With_Recv_Data, Dispatch.dio, Dispatch.dw, wio. unfold bind at 1. cbn [Dispatch.wd].
    destruct (sys s) as [o inp'] eqn:Es. unfold sys in Es. rewrite Es. cbn [inp] in Hi. rewrite Hi.
    by rewrite recv_bytes. }
  unfold socket_read_cb. erewrite bind_ok by (unfold obj; rewrite Hc; reflexivity).
  erewrite bind_ok by (rewrite R; reflexivity).
  erewrite bind_ok by reflexivity. unfold on_wk. cbn [wk sys dev w_sys set_sys conns objs rt Dispatch.wd].
  change (cstr (Dispatch.TempBuf _)) with ([] : bytes). by rewrite E.
Qed.

Lemma peer_close_ignored_witness :
  let s := mkServer (conns listening) {[1%positive := mkConn 7 conn_new_cmd 1 18 2 false (Some 0)]} (rt listening)
    (wk listening) (set_sys empty_table (mkIo [] (a_bytes [] :: io_ok 2))) in
  exists s', socket_read_cb (fun _ => item0) no_para 1 s = Ok (tt, s') /\ objs s' = objs s /\ conns s' = conns s /\
    models POOL_NUM (wk s') (fifo_push POOL_NUM (text_item []) 108 (fifo0 10)).
Proof.
  cbv zeta. apply (peer_close_ignored (fun _ => item0) no_para 1 (mkConn 7 conn_new_cmd 1 18 2 false (Some 0)) 0 _ _ []);
    [reflexivity|apply (side0_models 10); lia|reflexivity].
Defined.

(** ** The server after its start *)






End Conn.
