(* ===== verification/MinHeap.v ===== *)
(** * The heap of timeouts (src/libevent/minheap-internal.h)

    The event loop keeps the events that have a timeout in a binary heap: an
    array of pointers to events, of which each knows its own index. The array
    [p] has its allocated size; a slot that was never written holds nothing.
    unsigned is 32 bits wide. The answers of mm_realloc are a list. *)

From stdpp Require Import prelude gmap.
From S2P Require Import Prelude.
Open Scope Z_scope.

Module MinHeap.

Abbreviation loc := positive.

(** The members of struct event the heap uses: the timeout (seconds and
    microseconds) and the index. *)
Record event := mkEv { tv_sec : Z; tv_usec : Z; min_heap_idx : Z }.

Record min_heap := mkHeap { p : list (option loc); n : Z; a : Z }.

(** The heap, the events in memory, and whether the next calls of mm_realloc
    succeed. *)
Record state := mkSt { hp : min_heap; evs : gmap loc event; mem : list bool }.

Abbreviation T := (M state).

Definition load (e : loc) : T event := fun s =>
  match evs s !! e with Some v => Ok (v, s) | None => Fault UseAfterFree end.

Definition set_idx (e : loc) (i : Z) : T unit :=
  let! v := load e in
  modify (fun s => mkSt (hp s) (<[e := mkEv (tv_sec v) (tv_usec v) i]> (evs s)) (mem s)).

(** s->p[i] *)
Definition slot (i : Z) : T loc := fun s =>
  match p (hp s) !! Z.to_nat i with
  | Some (Some l) => Ok (l, s)
  | Some None => Fault Overread
  | None => Fault Overread
  end.

(** (s->p[i] = e)->ev_timeout_pos.min_heap_idx = i *)
Definition place (i : Z) (e : loc) : T unit :=
  let! s := get in
  (if decide (Z.to_nat i < length (p (hp s)))%nat
   then put (mkSt (mkHeap (<[Z.to_nat i := Some e]> (p (hp s))) (n (hp s)) (a (hp s))) (evs s) (mem s))
   else fail Overrun) ;;
  set_idx e i.

Definition set_n (k : Z) : T unit :=
  modify (fun s => mkSt (mkHeap (p (hp s)) k (a (hp s))) (evs s) (mem s)).

(** evutil_timercmp(a, b, >) *)
Definition timer_gt (x y : event) : bool :=
  if Z.eqb (tv_sec x) (tv_sec y) then Z.ltb (tv_usec y) (tv_usec x) else Z.ltb (tv_sec y) (tv_sec x).

Definition min_heap_elem_greater (x y : loc) : T bool :=
  let! v := load x in let! w := load y in ret (timer_gt v w).

Definition min_heap_ctor : min_heap := mkHeap [] 0 0.
Definition min_heap_elem_init (e : loc) : T unit := set_idx e (-1).
Definition min_heap_empty (s : state) : bool := Z.eqb 0 (n (hp s)).
Definition min_heap_size (s : state) : Z := n (hp s).

Definition min_heap_top : T (option loc) :=
  let! k := gets (fun s => n (hp s)) in
  if Z.eqb k 0 then ret None else let! e := slot 0 in ret (Some e).

Definition min_heap_elt_is_top (e : loc) : T bool :=
  let! v := load e in ret (Z.eqb (min_heap_idx v) 0).

(** while (hole_index && min_heap_elem_greater(s->p[parent], e)) *)
Fixpoint shift_up_loop (fuel : nat) (hole_index : Z) (e : loc) : T unit :=
  match fuel with
  | O => fail NoFuel
  | S f =>
      if Z.eqb hole_index 0 then place hole_index e
      else
        let parent := u32 (hole_index - 1) / 2 in
        let! q := slot parent in
        let! g := min_heap_elem_greater q e in
        if g then place hole_index q ;; shift_up_loop f parent e
        else place hole_index e
  end.

Definition min_heap_shift_up_ (hole_index : Z) (e : loc) : T unit :=
  shift_up_loop (S (Z.to_nat hole_index)) hole_index e.

(** while (min_child <= s->n) *)
Fixpoint shift_down_loop (fuel : nat) (hole_index : Z) (e : loc) : T unit :=
  match fuel with
  | O => fail NoFuel
  | S f =>
      let min_child := u32 (2 * (hole_index + 1)) in
      let! k := gets (fun s => n (hp s)) in
      if Z.leb min_child k then
        let! before := (if Z.eqb min_child k then ret true
          else
            let! x := slot min_child in
            let! y := slot (min_child - 1) in
            min_heap_elem_greater x y) in
        let min_child := if before : bool then min_child - 1 else min_child in
        let! c := slot min_child in
        let! g := min_heap_elem_greater e c in
        if g then place hole_index c ;; shift_down_loop f min_child e
        else place hole_index e
      else place hole_index e
  end.

Definition min_heap_shift_down_ (hole_index : Z) (e : loc) : T unit := fun s =>
  shift_down_loop (S (Z.to_nat (n (hp s)))) hole_index e s.

(** The new slots of the array hold nothing. *)
Definition min_heap_reserve (k : Z) : T Z :=
  let! s := get in
  if Z.ltb (a (hp s)) k then
    let a' := if Z.eqb (a (hp s)) 0 then 8 else u32 (a (hp s) * 2) in
    let a' := if Z.ltb a' k then k else a' in
    match mem s with
    | true :: m =>
        put (mkSt (mkHeap (p (hp s) ++ replicate (Z.to_nat (a' - a (hp s))) None) (n (hp s)) a') (evs s) m) ;;
        ret 0
    | _ => put (mkSt (hp s) (evs s) (tail (mem s))) ;; ret (-1)
    end
  else ret 0.

Definition min_heap_push (e : loc) : T Z :=
  let! k := gets (fun s => n (hp s)) in
  let! r := min_heap_reserve (u32 (k + 1)) in
  if negb (Z.eqb r 0) then ret (-1)
  else
    set_n (u32 (k + 1)) ;;
    min_heap_shift_up_ k e ;;
    ret 0.

Definition min_heap_pop : T (option loc) :=
  let! k := gets (fun s => n (hp s)) in
  if Z.eqb k 0 then ret None
  else
    let! e := slot 0 in
    set_n (k - 1) ;;
    let! last := slot (k - 1) in
    min_heap_shift_down_ 0 last ;;
    set_idx e (-1) ;;
    ret (Some e).

(** The test of min_heap_erase: is the parent of slot [i] later than [last]? *)
Definition must_rise (i : Z) (last : loc) : T bool :=
  if Z.ltb 0 i then let! q := slot ((i - 1) / 2) in min_heap_elem_greater q last else ret false.

Definition min_heap_erase (e : loc) : T Z :=
  let! v := load e in
  let i := min_heap_idx v in
  if Z.eqb i (-1) then ret (-1)
  else
    let! k := gets (fun s => n (hp s)) in
    set_n (u32 (k - 1)) ;;
    let! last := slot (u32 (k - 1)) in
    let! up := must_rise i last in
    (if up : bool then min_heap_shift_up_ i last else min_heap_shift_down_ i last) ;;
    set_idx e (-1) ;;
    ret 0.

(** ** The order of timeouts *)

Abbreviation key := (Z * Z)%type.

Definition kgt (x y : key) : bool :=
  if Z.eqb (fst x) (fst y) then Z.ltb (snd y) (snd x) else Z.ltb (fst y) (fst x).

Definition kle (x y : key) : Prop := kgt x y = false.

Lemma kle_spec x y : kle x y <-> fst x < fst y \/ (fst x = fst y /\ snd x <= snd y).
Proof.
  unfold kle, kgt. destruct (Z.eqb_spec (fst x) (fst y)).
  - rewrite Z.ltb_ge. lia.
  - rewrite Z.ltb_ge. lia.
Qed.

Lemma kle_refl x : kle x x.
Proof. rewrite kle_spec. lia. Qed.
Lemma kle_trans x y z : kle x y -> kle y z -> kle x z.
Proof. rewrite !kle_spec. lia. Qed.
Lemma kgt_le x y : kgt x y = true -> kle y x.
Proof.
  unfold kgt. rewrite kle_spec. destruct (Z.eqb_spec (fst x) (fst y)); rewrite Z.ltb_lt; lia.
Qed.
#[local] Hint Resolve kle_refl kgt_le : core.

(** [K] gives the timeouts of the events in memory. *)
Definition agrees (K : loc -> key) (E : gmap loc event) : Prop :=
  forall l v, E !! l = Some v -> K l = (tv_sec v, tv_usec v).

(** ** The array with a hole *)

Definition at_ (s : state) (i : nat) (l : loc) : Prop := p (hp s) !! i = Some (Some l).
Definition size (s : state) : nat := Z.to_nat (n (hp s)).

Definition child (q i : nat) : Prop := (i = 2 * q + 1 \/ i = 2 * q + 2)%nat.

(** The slots below the size, except [h], hold the events [S], each of which
    knows its index. *)
Record slots (S : loc -> Prop) (h : nat) (s : state) : Prop := {
  s_n : 0 <= n (hp s) <= 1073741824;
  s_room : (size s <= length (p (hp s)))%nat;
  s_idx : forall i, (i < size s)%nat -> i <> h ->
    exists l v, at_ s i l /\ evs s !! l = Some v /\ min_heap_idx v = Z.of_nat i;
  s_set : forall l, S l <-> exists i, (i < size s)%nat /\ i <> h /\ at_ s i l
}.

(** Parents are not later than children, and around the hole the parent of
    the hole is not later than its children. *)
Record ordered (K : loc -> key) (h : nat) (s : state) : Prop := {
  o_pair : forall q i x y, child q i -> (i < size s)%nat -> i <> h -> q <> h ->
    at_ s q x -> at_ s i y -> kle (K x) (K y);
  o_hole : forall g c x y, child g h -> child h c -> (c < size s)%nat ->
    at_ s g x -> at_ s c y -> kle (K x) (K y)
}.

(** What the operations leave alone: all but the slots and indices. *)
Record framed (S : loc -> Prop) (s s' : state) : Prop := {
  f_n : n (hp s') = n (hp s);
  f_a : a (hp s') = a (hp s);
  f_len : length (p (hp s')) = length (p (hp s));
  f_mem : mem s' = mem s;
  f_out : forall l, ~ S l -> evs s' !! l = evs s !! l;
  f_dom : forall l, is_Some (evs s !! l) -> is_Some (evs s' !! l)
}.

#[local] Instance framed_refl S : Reflexive (framed S).
Proof. by split. Qed.

Lemma framed_trans S s1 s2 s3 : framed S s1 s2 -> framed S s2 s3 -> framed S s1 s3.
Proof.
  intros [E1 E2 E3 E4 E5 E6] [D1 D2 D3 D4 D5 D6]. split; try congruence; [|by auto].
  intros l Hl. by rewrite D5, E5.
Qed.

Lemma framed_mono (S S' : loc -> Prop) s s' : (forall l, S l -> S' l) -> framed S s s' -> framed S' s s'.
Proof. intros HS [E1 E2 E3 E4 E5 E6]. split; try done. intros l Hl. apply E5. auto.
Qed.

(** The state after [place]. *)
Definition placed (h : nat) (l : loc) (v : event) (s : state) : state :=
  mkSt (mkHeap (<[h := Some l]> (p (hp s))) (n (hp s)) (a (hp s)))
    (<[l := mkEv (tv_sec v) (tv_usec v) (Z.of_nat h)]> (evs s)) (mem s).

Lemma place_run h l v s :
  (h < length (p (hp s)))%nat -> evs s !! l = Some v -> place (Z.of_nat h) l s = Ok (tt, placed h l v s).
Proof.
  intros Hh Hl. unfold place, bind at 1, get. rewrite Nat2Z.id, decide_True by done.
  unfold bind at 1, put, set_idx, bind, load. cbn. by rewrite Hl.
Qed.

Lemma placed_at h l v s i x : at_ (placed h l v s) i x <->
  (i = h /\ (h < length (p (hp s)))%nat /\ x = l) \/ (i <> h /\ at_ s i x).
Proof.
  unfold at_, placed. cbn. destruct (decide (i = h)) as [->|Hi].
  - destruct (decide (h < length (p (hp s)))%nat).
    + rewrite list_lookup_insert_eq by done. naive_solver.
    + rewrite list_insert_ge by lia. rewrite lookup_ge_None_2 by lia. naive_solver.
  - rewrite list_lookup_insert_ne by done. naive_solver.
Qed.

Lemma placed_agrees K h l v s : evs s !! l = Some v -> agrees K (evs s) -> agrees K (evs (placed h l v s)).
Proof.
  intros Hl HK x w. unfold placed. cbn. rewrite lookup_insert_Some. intros [[<- <-]|[_ E]]; [|by apply HK].
  cbn. by apply HK.
Qed.

(** Two slots do not hold the same event. *)
Lemma slots_inj S h s i j l :
  slots S h s -> (i < size s)%nat -> (j < size s)%nat -> i <> h -> j <> h -> at_ s i l -> at_ s j l -> i = j.
Proof.
  intros [_ _ Hi _] Li Lj Hih Hjh Ai Aj.
  destruct (Hi i Li Hih) as (x & v & Ax & Ex & Ix). destruct (Hi j Lj Hjh) as (y & w & Ay & Ey & Iy).
  unfold at_ in *. simplify_eq. lia.
Qed.

Lemma placed_framed (S : loc -> Prop) h l v s : S l -> framed S s (placed h l v s).
Proof.
  intros Hl. split; try done; cbn; [apply length_insert| |].
  - intros x Hx. rewrite lookup_insert_ne; [done|]. by intros ->.
  - intros x Hx. rewrite lookup_insert_is_Some. destruct (decide (l = x)); auto.
Qed.

Section Hole.
Context (K : loc -> key) (S : loc -> Prop) (h : nat) (s : state).
Context (HS : slots S h s) (HO : ordered K h s) (Hh : (h < size s)%nat).

Let Hlen : (h < length (p (hp s)))%nat.
Proof. pose proof (s_room _ _ _ HS). lia. Qed.

(** The hole is filled with an event that is not in the heap. *)
Lemma slots_fill e v :
  ~ S e -> evs s !! e = Some v -> slots (fun l => l = e \/ S l) (size s) (placed h e v s).
Proof.
  intros He Hv. destruct HS as [Hn Hr Hi Hset]. split; try done.
  - cbn. by rewrite length_insert.
  - intros i Li _. change (size (placed h e v s)) with (size s) in Li. destruct (decide (i = h)) as [->|Hih].
    + exists e, (mkEv (tv_sec v) (tv_usec v) (Z.of_nat h)). rewrite placed_at. split_and!; [by left| |done].
      cbn. apply lookup_insert_eq.
    + destruct (Hi i Li Hih) as (l & w & Al & El & Il). exists l, w. rewrite placed_at. split_and!; [by right| |done].
      cbn. rewrite lookup_insert_ne; [done|]. intros ->. apply He, Hset. eauto.
  - intros l. change (size (placed h e v s)) with (size s). split.
    + intros [->|Hl]; [exists h; split_and!; [done|lia|rewrite placed_at; by left]|].
      apply Hset in Hl as (i & Li & Hih & Al). exists i. split_and!; [done|lia|]. rewrite placed_at. by right.
    + intros (i & Li & _ & Al). apply placed_at in Al as [(-> & _ & ->)|[Hih Al]]; [by left|]. right. apply Hset. eauto.
Qed.

Lemma ordered_fill e v :
  (forall g x, child g h -> at_ s g x -> kle (K x) (K e)) ->
  (forall c y, child h c -> (c < size s)%nat -> at_ s c y -> kle (K e) (K y)) ->
  ordered K (size s) (placed h e v s).
Proof.
  intros Hup Hdown. split; change (size (placed h e v s)) with (size s).
  - intros q i x y Hc Li _ _ Ax Ay. apply placed_at in Ax as [(-> & _ & ->)|[Hq Ax]].
    + apply placed_at in Ay as [(-> & _ & ->)|[Hi Ay]]; [by apply kle_refl|]. by eapply Hdown.
    + apply placed_at in Ay as [(-> & _ & ->)|[Hi Ay]]; [by eapply Hup|]. by eapply (o_pair K h s HO).
  - intros g c x y _ Hc Lc. unfold child in Hc. lia.
Qed.

(** The event of another slot moves to the hole. *)
Lemma slots_move h' l v :
  (h' < size s)%nat -> h' <> h -> at_ s h' l -> evs s !! l = Some v -> slots S h' (placed h l v s).
Proof.
  intros Hh' Hne Hl Hv. destruct HS as [Hn Hr Hi Hset]. split; try done.
  - cbn. by rewrite length_insert.
  - intros i Li Hih'. change (size (placed h l v s)) with (size s) in Li. destruct (decide (i = h)) as [->|Hih].
    + exists l, (mkEv (tv_sec v) (tv_usec v) (Z.of_nat h)). rewrite placed_at. split_and!; [by left| |done].
      cbn. apply lookup_insert_eq.
    + destruct (Hi i Li Hih) as (x & w & Ax & Ex & Ix). exists x, w. rewrite placed_at. split_and!; [by right| |done].
      cbn. rewrite lookup_insert_ne; [done|]. intros ->. by destruct Hih'; eapply (slots_inj S h s).
  - intros x. change (size (placed h l v s)) with (size s). rewrite Hset. split.
    + intros (i & Li & Hih & Ax). destruct (decide (i = h')) as [->|].
      * exists h. split_and!; [done|done|]. rewrite placed_at. left. unfold at_ in *. by simplify_eq.
      * exists i. split_and!; [done|done|]. rewrite placed_at. by right.
    + intros (i & Li & Hih & Ax). apply placed_at in Ax as [(-> & _ & ->)|[Hih' Ax]]; eauto.
Qed.

(** Upward: the parent moves down into the hole. *)
Lemma ordered_up q x v : child q h -> at_ s q x -> ordered K q (placed h x v s).
Proof.
  intros Hq Ax. assert (Hqh : q <> h) by (unfold child in Hq; lia).
  split; change (size (placed h x v s)) with (size s).
  - intros g i y z Hc Li Hi Hg Ay Az. apply placed_at in Az as [(-> & _ & ->)|[Hih Az]].
    + assert (g = q) by (unfold child in *; lia). done.
    + apply placed_at in Ay as [(-> & _ & ->)|[Hgh Ay]]; [by eapply (o_hole K h s HO)|by eapply (o_pair K h s HO)].
  - intros g c y z Hg Hc Lc Ay Az.
    apply placed_at in Ay as [(-> & _ & ->)|[Hgh Ay]]; [unfold child in *; lia|].
    assert (Hyx : kle (K y) (K x)) by (eapply (o_pair K h s HO g q); [done|unfold child in *; lia|done..]).
    apply placed_at in Az as [(-> & _ & ->)|[Hch Az]]; [done|].
    eapply kle_trans; [exact Hyx|]. by eapply (o_pair K h s HO q c).
Qed.

(** Downward: the smaller child moves up into the hole. *)
Lemma ordered_down c x v :
  child h c -> (c < size s)%nat -> at_ s c x ->
  (forall d y, child h d -> (d < size s)%nat -> at_ s d y -> kle (K x) (K y)) ->
  ordered K c (placed h x v s).
Proof.
  intros Hc Lc Ax Hmin. assert (Hch : c <> h) by (unfold child in Hc; lia).
  split; change (size (placed h x v s)) with (size s).
  - intros g i y z Hg Li Hi Hgc Ay Az. apply placed_at in Az as [(-> & _ & ->)|[Hih Az]].
    + apply placed_at in Ay as [(-> & _ & ->)|[Hgh Ay]]; [by apply kle_refl|]. by eapply (o_hole K h s HO g c).
    + apply placed_at in Ay as [(-> & _ & ->)|[Hgh Ay]]; [by eapply Hmin|by eapply (o_pair K h s HO)].
  - intros g d y z Hg Hd Ld Ay Az. assert (g = h) as -> by (unfold child in *; lia).
    apply placed_at in Ay as [(_ & _ & ->)|[? _]]; [|done].
    apply placed_at in Az as [(-> & _ & _)|[Hdh Az]]; [unfold child in *; lia|].
    by eapply (o_pair K h s HO c d).
Qed.
End Hole.

(** ** The two loops *)

(** A heap of the events [S]: all slots filled and ordered. *)
Record heap_ok (K : loc -> key) (S : loc -> Prop) (s : state) : Prop := {
  k_slots : slots S (size s) s;
  k_ord : ordered K (size s) s;
  k_times : agrees K (evs s)
}.

Lemma heap_slot_run s i l : at_ s i l -> slot (Z.of_nat i) s = Ok (l, s).
Proof. unfold at_, slot. rewrite Nat2Z.id. by intros ->. Qed.

Lemma greater_run K x y s v w :
  agrees K (evs s) -> evs s !! x = Some v -> evs s !! y = Some w ->
  min_heap_elem_greater x y s = Ok (kgt (K x) (K y), s).
Proof.
  intros HK Ex Ey. unfold min_heap_elem_greater, bind, load. rewrite Ex, Ey. unfold ret.
  by rewrite (HK _ _ Ex), (HK _ _ Ey).
Qed.

(** Filling the hole ends both loops. *)
Lemma fill_hole K S h e v s :
  slots S h s -> ordered K h s -> agrees K (evs s) -> (h < size s)%nat -> ~ S e -> evs s !! e = Some v ->
  (forall g x, child g h -> at_ s g x -> kle (K x) (K e)) ->
  (forall c y, child h c -> (c < size s)%nat -> at_ s c y -> kle (K e) (K y)) ->
  exists s', place (Z.of_nat h) e s = Ok (tt, s') /\ heap_ok K (fun l => l = e \/ S l) s' /\
    framed (fun l => l = e \/ S l) s s'.
Proof.
  intros HS HO HK Hh He Hv Hup Hdown. exists (placed h e v s). split_and!.
  - apply place_run; [|done]. pose proof (s_room _ _ _ HS). lia.
  - split; change (size (placed h e v s)) with (size s); [by apply slots_fill|by eapply ordered_fill|by apply placed_agrees].
  - apply placed_framed. by left.
Qed.

Lemma parent_of h : (0 < h)%nat -> Z.of_nat h <= 1073741824 ->
  exists q, u32 (Z.of_nat h - 1) / 2 = Z.of_nat q /\ child q h.
Proof.
  intros Hh Hb. exists ((h - 1) / 2)%nat. unfold u32, child. rewrite Z.mod_small by lia.
  rewrite Nat2Z.inj_div, Nat2Z.inj_sub by lia. split; [done|].
  assert (Hd : Z.of_nat ((h - 1) / 2) = (Z.of_nat h - 1) / 2) by (rewrite Nat2Z.inj_div, Nat2Z.inj_sub by lia; done).
  Z.div_mod_to_equations. lia.
Qed.

Lemma shift_up_spec K S e v fuel : forall h s,
  slots S h s -> ordered K h s -> agrees K (evs s) -> (h < size s)%nat -> (h < fuel)%nat ->
  ~ S e -> evs s !! e = Some v ->
  (forall c y, child h c -> (c < size s)%nat -> at_ s c y -> kle (K e) (K y)) ->
  exists s', shift_up_loop fuel (Z.of_nat h) e s = Ok (tt, s') /\ heap_ok K (fun l => l = e \/ S l) s' /\
    framed (fun l => l = e \/ S l) s s'.
Proof.
  induction fuel as [|f IH]; intros h s HS HO HK Hh Hf He Hv Hdown; [lia|]. cbn [shift_up_loop].
  destruct (Z.eqb_spec (Z.of_nat h) 0) as [Hz|Hz].
  { eapply fill_hole; try done. intros g x Hg. unfold child in Hg. lia. }
  pose proof (s_n _ _ _ HS) as Hn. destruct (parent_of h) as (q & -> & Hq); [lia|unfold size in Hh; lia|].
  assert (Hqh : (q < size s)%nat /\ q <> h /\ (q < f)%nat) by (unfold child in Hq; lia). destruct Hqh as (Lq & Hqh & Hqf).
  destruct (s_idx _ _ _ HS q Lq Hqh) as (x & w & Ax & Ex & _).
  rewrite (bind_ok _ _ _ _ _ (heap_slot_run s q x Ax)), (bind_ok _ _ _ _ _ (greater_run K x e s w v HK Ex Hv)).
  destruct (kgt (K x) (K e)) eqn:Hg.
  - rewrite (bind_ok _ _ _ _ _ (place_run h x w s ltac:(pose proof (s_room _ _ _ HS); lia) Ex)).
    assert (Sx : S x) by (apply (s_set _ _ _ HS); eauto).
    destruct (IH q (placed h x w s)) as (s' & E & Hok & Hfr); try done.
    + by apply slots_move with (h := h).
    + by eapply ordered_up.
    + by apply placed_agrees.
    + cbn. rewrite lookup_insert_ne; [done|]. by intros ->.
    + intros c y Hc Lc Ay. apply placed_at in Ay as [(-> & _ & ->)|[Hch Ay]]; [by apply kgt_le|].
      eapply kle_trans; [apply kgt_le; exact Hg|]. by eapply (o_pair K h s HO q c).
    + exists s'. split_and!; [done|done|]. eapply framed_trans; [|exact Hfr]. apply placed_framed. by right.
  - eapply fill_hole; try done. intros g y Hgh Ay. assert (g = q) as -> by (unfold child in *; lia).
    unfold at_ in *. by simplify_eq.
Qed.

Lemma gets_n s : gets (fun s => n (hp s)) s = Ok (n (hp s), s).
Proof. done. Qed.

(** The smaller child of the hole, as the loop finds it. *)
Lemma min_child_run K S h s :
  slots S h s -> agrees K (evs s) -> (2 * h + 1 < size s)%nat ->
  exists (before : bool) c x w,
    (if Z.eqb (2 * (Z.of_nat h + 1)) (n (hp s)) then ret true
     else let! x := slot (2 * (Z.of_nat h + 1)) in let! y := slot (2 * (Z.of_nat h + 1) - 1) in
       min_heap_elem_greater x y) s = Ok (before, s) /\
    (if before then 2 * (Z.of_nat h + 1) - 1 else 2 * (Z.of_nat h + 1)) = Z.of_nat c /\
    child h c /\ (c < size s)%nat /\ at_ s c x /\ evs s !! x = Some w /\
    forall d y, child h d -> (d < size s)%nat -> at_ s d y -> kle (K x) (K y).
Proof.
  intros HS HK Lc. pose proof (s_n _ _ _ HS) as Hn.
  destruct (s_idx _ _ _ HS (2 * h + 1)%nat) as (x & v & Ax & Ex & _); [done|lia|].
  destruct (Z.eqb_spec (2 * (Z.of_nat h + 1)) (n (hp s))) as [E|E].
  { exists true, (2 * h + 1)%nat, x, v. split_and!; [done|lia|unfold child; lia|done|done|done|].
    intros d y Hd Ld Ay. assert (d = 2 * h + 1)%nat as -> by (unfold child, size in *; lia).
    unfold at_ in *. simplify_eq. apply kle_refl. }
  destruct (s_idx _ _ _ HS (2 * h + 2)%nat) as (y & w & Ay & Ey & _); [unfold size in *; lia|lia|].
  exists (kgt (K y) (K x)).
  replace (2 * (Z.of_nat h + 1)) with (Z.of_nat (2 * h + 2)) by lia.
  rewrite (bind_ok _ _ _ _ _ (heap_slot_run s _ y Ay)). replace (Z.of_nat (2 * h + 2) - 1) with (Z.of_nat (2 * h + 1)) by lia.
  rewrite (bind_ok _ _ _ _ _ (heap_slot_run s _ x Ax)), (greater_run K y x s w v) by done.
  assert (Hd : forall d z, child h d -> at_ s d z -> z = x \/ z = y).
  { intros d z [-> | ->] Az; unfold at_ in *; simplify_eq; auto. }
  destruct (kgt (K y) (K x)) eqn:G.
  - exists (2 * h + 1)%nat, x, v. split_and!; [done|done|unfold child; lia|done|done|done|].
    intros d z Hc _ Az. destruct (Hd d z Hc Az) as [-> | ->]; [apply kle_refl|by apply kgt_le].
  - exists (2 * h + 2)%nat, y, w. split_and!; [done|done|unfold child; lia|unfold size in *; lia|done|done|].
    intros d z Hc _ Az. destruct (Hd d z Hc Az) as [-> | ->]; [done|apply kle_refl].
Qed.

Lemma shift_down_spec K S e v fuel : forall h s,
  slots S h s -> ordered K h s -> agrees K (evs s) -> (h < size s)%nat -> (size s < h + fuel)%nat ->
  ~ S e -> evs s !! e = Some v ->
  (forall g x, child g h -> at_ s g x -> kle (K x) (K e)) ->
  exists s', shift_down_loop fuel (Z.of_nat h) e s = Ok (tt, s') /\ heap_ok K (fun l => l = e \/ S l) s' /\
    framed (fun l => l = e \/ S l) s s'.
Proof.
  induction fuel as [|f IH]; intros h s HS HO HK Hh Hf He Hv Hup; [lia|]. cbn [shift_down_loop].
  pose proof (s_n _ _ _ HS) as Hn. unfold u32. rewrite Z.mod_small by (unfold size in *; lia).
  cbn zeta. rewrite (bind_ok _ _ _ _ _ (gets_n s)).
  destruct (Z.leb_spec (2 * (Z.of_nat h + 1)) (n (hp s))) as [Hle|Hgt].
  2: { eapply fill_hole; try done. intros c y Hc Lc. unfold child, size in *. lia. }
  destruct (min_child_run K S h s) as (before & c & x & w & E1 & E2 & Hc & Lc & Ax & Ex & Hmin);
    [done|done|unfold size in *; lia|].
  rewrite (bind_ok _ _ _ _ _ E1). rewrite E2, (bind_ok _ _ _ _ _ (heap_slot_run s c x Ax)).
  rewrite (bind_ok _ _ _ _ _ (greater_run K e x s v w HK Hv Ex)).
  assert (Hch : c <> h) by (unfold child in Hc; lia). assert (Sx : S x) by (apply (s_set _ _ _ HS); eauto).
  destruct (kgt (K e) (K x)) eqn:Hg.
  - rewrite (bind_ok _ _ _ _ _ (place_run h x w s ltac:(pose proof (s_room _ _ _ HS); lia) Ex)).
    destruct (IH c (placed h x w s)) as (s' & E & Hok & Hfr); try done.
    + by apply slots_move with (h := h).
    + by eapply ordered_down.
    + by apply placed_agrees.
    + change (size (placed h x w s)) with (size s). unfold child in Hc. lia.
    + cbn. rewrite lookup_insert_ne; [done|]. by intros ->.
    + intros g y Hgc Ay. assert (g = h) as -> by (unfold child in *; lia).
      apply placed_at in Ay as [(_ & _ & ->)|[? _]]; [by apply kgt_le|done].
    + exists s'. split_and!; [done|done|]. eapply framed_trans; [|exact Hfr]. apply placed_framed. by right.
  - eapply fill_hole; try done. intros d y Hd Ld Ay. eapply kle_trans; [exact Hg|]. by eapply Hmin.
Qed.

(** A hole at the end: the event is written behind the heap. *)
Lemma shift_down_end K S e v s :
  heap_ok K S s -> (size s < length (p (hp s)))%nat -> ~ S e -> evs s !! e = Some v ->
  exists s', min_heap_shift_down_ (Z.of_nat (size s)) e s = Ok (tt, s') /\ heap_ok K S s' /\
    framed (fun l => l = e \/ S l) s s' /\ is_Some (evs s' !! e).
Proof.
  intros [HS HO HK] Hl He Hv. pose proof (s_n _ _ _ HS) as Hn.
  unfold min_heap_shift_down_. cbn [shift_down_loop]. unfold u32. rewrite Z.mod_small by (unfold size; lia).
  cbn zeta. rewrite (bind_ok _ _ _ _ _ (gets_n s)).
  destruct (Z.leb_spec (2 * (Z.of_nat (size s) + 1)) (n (hp s))); [unfold size in *; lia|].
  exists (placed (size s) e v s). split_and!; [by apply place_run| |by apply placed_framed; left|cbn; by rewrite lookup_insert_eq].
  destruct HS as [_ Hr Hi Hset], HO as [O1 O2]. split; [|split|by apply placed_agrees]; change (size (placed (size s) e v s)) with (size s).
  - split; [done|cbn; by rewrite length_insert| |].
    + intros i Li Hne. destruct (Hi i Li Hne) as (l & w & Al & El & Il). exists l, w. rewrite placed_at.
      split_and!; [by right| |done]. cbn. rewrite lookup_insert_ne; [done|]. intros ->. apply He, Hset. eauto.
    + intros l. rewrite Hset. change (size (placed (size s) e v s)) with (size s).
      split; intros (i & Li & Hne & Al); exists i; (split_and!; [done|done|]); rewrite placed_at in *; naive_solver.
  - intros q i x y Hc Li Hi' Hq Ax Ay. rewrite placed_at in Ax, Ay. eapply (O1 q i); naive_solver.
  - intros g c x y _ Hc Lc. unfold child in Hc. lia.
Qed.

(** ** Taking events out *)

Lemma heap_ext K S S' s : (forall l, S l <-> S' l) -> heap_ok K S s -> heap_ok K S' s.
Proof.
  intros E [[H1 H2 H3 H4] HO HK]. split; [|done|done]. split; try done. intros l. by rewrite <-E.
Qed.

(** --s->n *)
Definition shrunk (s : state) : state := mkSt (mkHeap (p (hp s)) (n (hp s) - 1) (a (hp s))) (evs s) (mem s).

Lemma size_shrunk K S s : heap_ok K S s -> (0 < size s)%nat -> size s = Datatypes.S (size (shrunk s)).
Proof. intros [HS _ _] Hn. unfold size, shrunk in *. cbn. lia. Qed.

Lemma heap_shrunk K S s last :
  heap_ok K S s -> (0 < size s)%nat -> at_ s (size (shrunk s)) last -> heap_ok K (fun l => S l /\ l <> last) (shrunk s).
Proof.
  intros Hk Hn Hl. pose proof (size_shrunk K S s Hk Hn) as Hsz. destruct Hk as [HS HO HK].
  pose proof HS as [H1 H2 H3 H4]. split; [split|split|done].
  - cbn. unfold size in Hn. lia.
  - change (p (hp (shrunk s))) with (p (hp s)). lia.
  - intros i Li _. apply (H3 i); lia.
  - intros l. rewrite H4. split.
    + intros ((i & Li & Hi & Al) & Hne). 
      assert (i <> size (shrunk s)) by (intros ->; unfold at_ in *; by simplify_eq).
      exists i. split_and!; [lia|done|done].
    + intros (i & Li & Hi & Al). split; [exists i; split_and!; [lia|lia|done]|]. intros ->.
      assert (i = size (shrunk s)); [|lia]. eapply (slots_inj S (size s) s); try done; lia.
  - intros q i x y Hc Li Hi Hq Ax Ay. eapply (o_pair _ _ _ HO q i); try done; unfold child in *; lia.
  - intros g c x y Hg Hc Lc. unfold child in *. lia.
Qed.

(** An event is lifted out of its slot. *)
Lemma heap_dig K S s i e :
  heap_ok K S s -> (i < size s)%nat -> at_ s i e ->
  slots (fun l => S l /\ l <> e) i s /\ ordered K i s.
Proof.
  intros [HS HO HK] Li Ae. pose proof HS as [H1 H2 H3 H4]. split; split; try done.
  - intros j Lj _. apply H3; lia.
  - intros l. rewrite H4. split.
    + intros ((j & Lj & Hj & Al) & Hne). exists j. split_and!; [done| |done]. intros ->. unfold at_ in *. by simplify_eq.
    + intros (j & Lj & Hj & Al). split; [exists j; split_and!; [done|lia|done]|]. intros ->.
      destruct Hj. eapply (slots_inj S (size s) s); try done; lia.
  - intros q j x y Hc Lj Hj Hq Ax Ay. eapply (o_pair _ _ _ HO q j); try done; unfold child in *; lia.
  - intros g c x y Hg Hc Lc Ax Ay. eapply kle_trans.
    + eapply (o_pair _ _ _ HO g i x e); try done; unfold child in *; lia.
    + eapply (o_pair _ _ _ HO i c e y); try done; unfold child in *; lia.
Qed.

(** The index of an event that is not in the heap. *)
Lemma heap_set_idx K S s e v i :
  heap_ok K S s -> ~ S e -> evs s !! e = Some v ->
  set_idx e i s = Ok (tt, mkSt (hp s) (<[e := mkEv (tv_sec v) (tv_usec v) i]> (evs s)) (mem s)) /\
  heap_ok K S (mkSt (hp s) (<[e := mkEv (tv_sec v) (tv_usec v) i]> (evs s)) (mem s)).
Proof.
  intros [[H1 H2 H3 H4] [O1 O2] HK] He Hv. split; [unfold set_idx, bind, load; by rewrite Hv|].
  split; [split|split|]; try done.
  - intros j Lj Hj. destruct (H3 j Lj Hj) as (l & w & Al & El & Il). exists l, w. split_and!; [done| |done].
    cbn. rewrite lookup_insert_ne; [done|]. intros ->. apply He, H4. eauto.
  - intros l w. cbn. rewrite lookup_insert_Some. intros [[<- <-]|[_ E]]; [cbn|]; by apply HK.
Qed.

(** ** The invariant and the operations *)

(** A heap of the events [S]: the array has its size, and exactly the events
    outside the heap have the index -1. *)
Record keeps (s s' : state) : Prop := {
  kp_a : a (hp s') = a (hp s);
  kp_mem : mem s' = mem s;
  kp_dom : forall l, is_Some (evs s !! l) -> is_Some (evs s' !! l)
}.

Record timeheap (K : loc -> key) (S : loc -> Prop) (s : state) : Prop := {
  t_ok : heap_ok K S s;
  t_cap : Z.of_nat (length (p (hp s))) = a (hp s);
  t_out : forall l v, evs s !! l = Some v -> ~ S l -> min_heap_idx v = -1
}.

Lemma heap_root K S s e :
  heap_ok K S s -> (0 < size s)%nat -> at_ s 0 e -> forall l, S l -> kle (K e) (K l).
Proof.
  intros [HS HO HK] Hn He l Hl. apply (s_set _ _ _ HS) in Hl as (i & Li & _ & Al).
  revert l Al. induction i as [i IH] using lt_wf_ind. intros l Al. destruct (decide (i = 0%nat)) as [->|Hi].
  { unfold at_ in *. simplify_eq. apply kle_refl. }
  pose proof (s_n _ _ _ HS). destruct (parent_of i) as (q & _ & Hq); [lia|unfold size in Li; lia|].
  destruct (s_idx _ _ _ HS q) as (x & w & Ax & _ & _); [unfold child in Hq; lia..|].
  eapply kle_trans; [eapply (IH q); [unfold child in Hq; lia|unfold child in Hq; lia|exact Ax]|].
  eapply (o_pair _ _ _ HO q i); try done; unfold child in Hq; lia.
Qed.

(** The state after an event was taken out: its index is -1, the others are
    as the loops left them. *)
Lemma timeheap_after K S s s1 s2 e :
  timeheap K S s -> S e -> framed S s1 s2 -> evs s1 = evs s -> a (hp s1) = a (hp s) -> p (hp s1) = p (hp s) -> mem s1 = mem s ->
  heap_ok K (fun l => S l /\ l <> e) s2 ->
  exists s', set_idx e (-1) s2 = Ok (tt, s') /\ timeheap K (fun l => S l /\ l <> e) s' /\
    n (hp s') = n (hp s1) /\ keeps s s'.
Proof.
  intros [Hok Hcap Hout] He [F1 F2 F3 F4 F5 F6] Ee Ea Ep Em H2.
  destruct (F6 e) as [v Hv].
  { rewrite Ee. apply (s_set _ _ _ (k_slots _ _ _ Hok)) in He as (i & Li & Hi & Ai).
    destruct (s_idx _ _ _ (k_slots _ _ _ Hok) i Li Hi) as (l & w & Al & El & _). unfold at_ in *. simplify_eq. eauto. }
  destruct (heap_set_idx K _ s2 e v (-1) H2 ltac:(naive_solver) Hv) as [E H3].
  eexists. split; [exact E|]. split_and!; [|done|].
  - split; [done|cbn; congruence|].
    intros l w. cbn. rewrite lookup_insert_Some. intros [[<- <-]|[Hne El]] Hl; [done|].
    assert (~ S l) by naive_solver. apply (Hout l w); [|done]. by rewrite <-Ee, <-F5.
  - split; cbn; [congruence|congruence|]. intros l Hl. rewrite lookup_insert_is_Some.
    destruct (decide (e = l)); [by left|right]. split; [done|]. apply F6. by rewrite Ee.
Qed.

Lemma set_n_shrunk s : set_n (n (hp s) - 1) s = Ok (tt, shrunk s).
Proof. done. Qed.

Lemma at_shrunk s i l : at_ (shrunk s) i l <-> at_ s i l.
Proof. done. Qed.

(** The parts of [heap_ok] that both operations use. *)
Lemma heap_at K S s i :
  heap_ok K S s -> (i < size s)%nat -> exists l v, at_ s i l /\ S l /\ evs s !! l = Some v /\ min_heap_idx v = Z.of_nat i.
Proof.
  intros [HS _ _] Li. destruct (s_idx _ _ _ HS i Li ltac:(lia)) as (l & v & Al & El & Il).
  exists l, v. split_and!; [done| |done|done]. apply (s_set _ _ _ HS). exists i. split_and!; [done|lia|done].
Qed.

Lemma must_rise_run K S s i last w :
  heap_ok K S s -> (i <= size s)%nat -> evs s !! last = Some w -> Z.of_nat i <= 1073741824 ->
  exists up, must_rise (Z.of_nat i) last s = Ok (up, s) /\
    if up : bool then exists q x, child q i /\ at_ s q x /\ kgt (K x) (K last) = true
    else forall q x, child q i -> at_ s q x -> kle (K x) (K last).
Proof.
  intros Hk Li El Hb. unfold must_rise. destruct (Z.ltb_spec 0 (Z.of_nat i)) as [Hi|Hi].
  2: { exists false. split; [done|]. intros q x Hq. unfold child in Hq. lia. }
  destruct (parent_of i) as (q & Eq & Hq); [lia|done|]. unfold u32 in Eq. rewrite Z.mod_small in Eq by lia. rewrite Eq.
  destruct (heap_at K S s q Hk) as (x & v & Ax & _ & Ex & _); [unfold child in Hq; lia|].
  rewrite (bind_ok _ _ _ _ _ (heap_slot_run s q x Ax)), (greater_run K x last s v w (k_times _ _ _ Hk) Ex El).
  eexists. split; [done|]. destruct (kgt (K x) (K last)) eqn:G; [by exists q, x|].
  intros q' x' Hq' Ax'. assert (q' = q) as -> by (unfold child in *; lia). unfold at_ in *. by simplify_eq.
Qed.

(** The last event takes the place of the event in slot [i]. *)
Lemma replace_run K S s i e last w :
  heap_ok K S s -> (i < size s)%nat -> at_ s i e -> at_ s (size (shrunk s)) last -> evs s !! last = Some w ->
  exists up s2, must_rise (Z.of_nat i) last (shrunk s) = Ok (up, shrunk s) /\
    (if up : bool then min_heap_shift_up_ (Z.of_nat i) last else min_heap_shift_down_ (Z.of_nat i) last) (shrunk s) = Ok (tt, s2) /\
    framed S (shrunk s) s2 /\ heap_ok K (fun l => S l /\ l <> e) s2.
Proof.
  intros Hok Li Ae Al El. pose proof (k_slots _ _ _ Hok) as HS. pose proof (s_n _ _ _ HS) as Hn.
  pose proof (size_shrunk K S s Hok ltac:(lia)) as Hs1. pose proof (heap_shrunk K S s last Hok ltac:(lia) Al) as H1.
  destruct (must_rise_run K _ (shrunk s) i last w H1) as (up & Er & Hup); [lia|done|unfold size in Li; lia|].
  exists up. destruct (heap_at K S s i Hok Li) as (e' & v & Ae' & Se & _). assert (e' = e) as -> by (unfold at_ in *; by simplify_eq).
  destruct (heap_at K S s (size (shrunk s)) Hok) as (l' & v' & Al' & Sl & _); [lia|].
  assert (l' = last) as -> by (unfold at_ in *; by simplify_eq).
  destruct (decide (i = size (shrunk s))) as [Ez|Ez].
  - assert (last = e) as -> by (rewrite Ez in Ae; unfold at_ in *; by simplify_eq).
    assert (up = false) as ->.
    { destruct up; [|done]. destruct Hup as (q & x & Hq & Ax & G).
      assert (kle (K x) (K e)) as Hle; [|unfold kle in Hle; congruence].
      eapply (o_pair _ _ _ (k_ord _ _ _ Hok) q i); try done; unfold child in Hq; lia. }
    destruct (shift_down_end K _ e w (shrunk s) H1) as (s2 & E2 & Hk2 & Hf2 & _);
      [pose proof (s_room _ _ _ HS); change (p (hp (shrunk s))) with (p (hp s)); lia|naive_solver|done|].
    rewrite <-Ez in E2. exists s2. split_and!; [done|done| |done]. eapply framed_mono; [|exact Hf2]. naive_solver.
  - destruct (heap_dig K _ (shrunk s) i e H1) as [D1 D2]; [lia|done|].
    assert (Hne : last <> e) by (intros ->; destruct Ez; eapply (slots_inj S (size s) s); try done; lia).
    assert (Hext : forall l, l = last \/ (S l /\ l <> last) /\ l <> e <-> S l /\ l <> e)
      by (intros l; destruct (decide (l = last)) as [->|]; naive_solver).
    assert (Hrun : exists s2, (if up then min_heap_shift_up_ (Z.of_nat i) last else min_heap_shift_down_ (Z.of_nat i) last) (shrunk s) =
        Ok (tt, s2) /\ heap_ok K (fun l => l = last \/ (S l /\ l <> last) /\ l <> e) s2 /\
        framed (fun l => l = last \/ (S l /\ l <> last) /\ l <> e) (shrunk s) s2).
    { destruct up.
      - destruct Hup as (q & x & Hq & Ax & G). unfold min_heap_shift_up_. rewrite Nat2Z.id.
        apply (shift_up_spec K _ last w _ i (shrunk s) D1 D2); [exact (k_times _ _ _ Hok)|lia|lia|naive_solver|done|].
        intros c y Hc Lc Ay. eapply kle_trans; [apply kgt_le; exact G|]. by eapply (o_hole _ _ _ D2 q c).
      - apply (shift_down_spec K _ last w _ i (shrunk s) D1 D2); [exact (k_times _ _ _ Hok)|lia|fold (size (shrunk s)); lia|naive_solver|done|exact Hup]. }
    destruct Hrun as (s2 & E2 & Hk2 & Hf2). exists s2. split_and!; [done|done| |exact (heap_ext _ _ _ _ Hext Hk2)].
    eapply framed_mono; [|exact Hf2]. naive_solver.
Qed.

(** min_heap_pop on an empty heap gives NULL; else it takes out an event
    with the earliest timeout, and the rest is a heap of exactly the others. *)
Lemma min_heap_pop_spec K S s :
  timeheap K S s ->
  if min_heap_empty s then min_heap_pop s = Ok (None, s) /\ (forall l, ~ S l)
  else exists e s', min_heap_pop s = Ok (Some e, s') /\ S e /\ (forall l, S l -> kle (K e) (K l)) /\
    timeheap K (fun l => S l /\ l <> e) s'.
Proof.
  intros Ht. pose proof Ht as [Hok Hcap Hout]. pose proof (k_slots _ _ _ Hok) as HS. pose proof (s_n _ _ _ HS) as Hn.
  unfold min_heap_empty, min_heap_pop. rewrite (bind_ok _ _ _ _ _ (gets_n s)), (Z.eqb_sym 0).
  destruct (Z.eqb_spec (n (hp s)) 0) as [E|E].
  { split; [done|]. intros l (i & Li & _)%(s_set _ _ _ HS). unfold size in Li. lia. }
  assert (Hsz : (0 < size s)%nat) by (unfold size; lia). pose proof (size_shrunk K S s Hok Hsz) as Hs1.
  destruct (heap_at K S s 0 Hok Hsz) as (e & v & Ae & Se & _).
  destruct (heap_at K S s (size (shrunk s)) Hok) as (last & w & Al & _ & El & _); [lia|].
  change 0 with (Z.of_nat 0) at 1. rewrite (bind_ok _ _ _ _ _ (heap_slot_run s 0 e Ae)).
  rewrite (bind_ok _ _ _ _ _ (set_n_shrunk s)).
  replace (n (hp s) - 1) with (Z.of_nat (size (shrunk s))) by (unfold size, shrunk; cbn; lia).
  rewrite (bind_ok _ _ _ _ _ (heap_slot_run (shrunk s) _ last Al)).
  destruct (replace_run K S s 0 e last w) as (up & s2 & Er & E2 & Hf2 & Hk2); [done..|].
  assert (up = false) as -> by (unfold must_rise in Er; cbn in Er; by injection Er).
  change 0 with (Z.of_nat 0). rewrite (bind_ok _ _ _ _ _ E2).
  destruct (timeheap_after K S s (shrunk s) s2 e Ht Se Hf2 eq_refl eq_refl eq_refl eq_refl Hk2) as (s' & E3 & Ht' & Hn' & Hkp).
  rewrite (bind_ok _ _ _ _ _ E3). exists e, s'. split_and!; [done|done|by eapply heap_root|done].
Qed.

(** An event of the heap is taken out. *)
Lemma erase_run K S s e :
  timeheap K S s -> S e ->
  exists s', min_heap_erase e s = Ok (0, s') /\ timeheap K (fun l => S l /\ l <> e) s' /\
    n (hp s') = n (hp s) - 1 /\ keeps s s'.
Proof.
  intros Ht Se. pose proof Ht as [Hok Hcap Hout]. pose proof (k_slots _ _ _ Hok) as HS. pose proof (s_n _ _ _ HS) as Hn.
  apply (s_set _ _ _ HS) in Se as Hi. destruct Hi as (i & Li & _ & Ai).
  destruct (heap_at K S s i Hok Li) as (e' & v & Ae' & _ & Ev & Iv). assert (e' = e) as -> by (unfold at_ in *; by simplify_eq).
  assert (Eld : load e s = Ok (v, s)) by (unfold load; by rewrite Ev).
  unfold min_heap_erase. rewrite (bind_ok _ _ _ _ _ Eld). cbn zeta. rewrite Iv. destruct (Z.eqb_spec (Z.of_nat i) (-1)); [lia|].
  rewrite (bind_ok _ _ _ _ _ (gets_n s)). pose proof (size_shrunk K S s Hok ltac:(lia)) as Hs1.
  destruct (heap_at K S s (size (shrunk s)) Hok) as (last & w & Al & _ & El & _); [lia|].
  unfold u32. rewrite !Z.mod_small by (unfold size in Li; lia). rewrite (bind_ok _ _ _ _ _ (set_n_shrunk s)).
  replace (n (hp s) - 1) with (Z.of_nat (size (shrunk s))) by (unfold size, shrunk in *; cbn in *; lia).
  rewrite (bind_ok _ _ _ _ _ (heap_slot_run (shrunk s) _ last Al)).
  destruct (replace_run K S s i e last w) as (up & s2 & Er & E2 & Hf2 & Hk2); [done..|].
  rewrite (bind_ok _ _ _ _ _ Er), (bind_ok _ _ _ _ _ E2).
  destruct (timeheap_after K S s (shrunk s) s2 e Ht Se Hf2 eq_refl eq_refl eq_refl eq_refl Hk2) as (s' & E3 & Ht' & Hn' & Hkp).
  rewrite (bind_ok _ _ _ _ _ E3). exists s'. split_and!; [done|done|rewrite Hn'; unfold size, shrunk; cbn; unfold size in Li; lia|done].
Qed.

(** min_heap_erase takes exactly the given event out of the heap,
    wherever it is, and refuses an event that is not in it. *)
Lemma min_heap_erase_spec K S s e v :
  timeheap K S s -> evs s !! e = Some v ->
  (S e -> exists s', min_heap_erase e s = Ok (0, s') /\ timeheap K (fun l => S l /\ l <> e) s') /\
  (~ S e -> min_heap_erase e s = Ok (-1, s)).
Proof.
  intros Ht Ev. split.
  - intros Se. destruct (erase_run K S s e Ht Se) as (s' & E & Ht' & _). eauto.
  - intros Se. unfold min_heap_erase, bind at 1, load. rewrite Ev. by rewrite (t_out _ _ _ Ht e v Ev Se).
Qed.

(** ** Putting an event in *)

(** More slots at the end of the array. *)
Lemma heap_more K S s q a' m :
  heap_ok K S s -> heap_ok K S (mkSt (mkHeap (p (hp s) ++ q) (n (hp s)) a') (evs s) m).
Proof.
  intros [[H1 H2 H3 H4] [O1 O2] HK]. set (s1 := mkSt _ _ _).
  assert (Hat : forall i l, (i < size s)%nat -> at_ s1 i l <-> at_ s i l).
  { intros i l Li. unfold at_, s1. cbn. by rewrite lookup_app_l by lia. }
  split; [split|split|done]; change (size s1) with (size s).
  - done.
  - cbn. rewrite length_app. lia.
  - intros i Li Hi. destruct (H3 i Li Hi) as (l & v & Al & ?). exists l, v. by rewrite Hat.
  - intros l. rewrite H4. split; intros (i & Li & Hi & Al); exists i; (split_and!; [done|done|]); by apply (Hat i).
  - intros g i x y Hc Li Hi Hg Ax Ay. rewrite Hat in Ax, Ay by (unfold child in *; lia). by eapply (O1 g i).
  - intros g c x y _ Hc Lc. unfold child in Hc. lia.
Qed.

Lemma timeheap_mem K S s m : timeheap K S s -> timeheap K S (mkSt (hp s) (evs s) m).
Proof. intros [[[H1 H2 H3 H4] [O1 O2] HK] Hc Ho]. split; [|done|done]. by split; [split|split|]. Qed.

Lemma reserve_run K S s :
  timeheap K S s -> n (hp s) < 1073741824 ->
  exists r s', min_heap_reserve (n (hp s) + 1) s = Ok (r, s') /\ timeheap K S s' /\ evs s' = evs s /\ n (hp s') = n (hp s) /\
    ((r = 0 /\ n (hp s') < a (hp s')) \/ (r = -1 /\ hp s' = hp s /\ a (hp s) = n (hp s) /\ head (mem s) <> Some true)).
Proof.
  intros Ht Hn. pose proof Ht as [Hok Hcap Hout]. pose proof (s_n _ _ _ (k_slots _ _ _ Hok)) as H0.
  pose proof (s_room _ _ _ (k_slots _ _ _ Hok)) as Hr. unfold size in Hr.
  unfold min_heap_reserve, bind at 1, get. destruct (Z.ltb_spec (a (hp s)) (n (hp s) + 1)) as [Hlt|Hge].
  2: { exists 0, s. split_and!; [done|done|done|done|left; lia]. }
  cbn zeta. unfold u32. rewrite Z.mod_small by lia. set (a1 := if Z.eqb (a (hp s)) 0 then 8 else a (hp s) * 2).
  set (a2 := if Z.ltb a1 (n (hp s) + 1) then n (hp s) + 1 else a1).
  assert (Ha : n (hp s) < a2 /\ a (hp s) <= a2).
  { unfold a2. destruct (Z.ltb_spec a1 (n (hp s) + 1)); unfold a1 in *; destruct (Z.eqb_spec (a (hp s)) 0); lia. }
  destruct (mem s) as [|[|] m] eqn:Em.
  - do 2 eexists. split; [reflexivity|]. split_and!; [by apply timeheap_mem|done|done|right; split_and!; [done|done|lia|done]].
  - do 2 eexists. split; [reflexivity|]. split_and!; [|done|done|left; split; [done|]; cbn; lia].
    split; [by apply heap_more| |done]. cbn. rewrite length_app, length_replicate. lia.
  - do 2 eexists. split; [reflexivity|]. split_and!; [by apply timeheap_mem|done|done|right; split_and!; [done|done|lia|done]].
Qed.

(** s->n++ : the new slot is the hole. *)
Lemma heap_grown K S s :
  heap_ok K S s -> n (hp s) < 1073741824 -> (size s < length (p (hp s)))%nat ->
  let s1 := mkSt (mkHeap (p (hp s)) (n (hp s) + 1) (a (hp s))) (evs s) (mem s) in
  size s1 = Datatypes.S (size s) /\ slots S (size s) s1 /\ ordered K (size s) s1.
Proof.
  intros [[H1 H2 H3 H4] [O1 O2] HK] Hn Hl s1. assert (Hs : size s1 = Datatypes.S (size s)) by (unfold size, s1; cbn; lia).
  split; [done|]. split; split.
  - cbn. lia.
  - change (p (hp s1)) with (p (hp s)). lia.
  - intros i Li Hi. apply (H3 i); lia.
  - intros l. rewrite H4. rewrite Hs. split; intros (i & Li & Hi & Al); exists i; (split_and!; [lia|lia|done]).
  - intros q i x y Hc Li Hi Hq Ax Ay. eapply (O1 q i); try done. lia.
  - intros g c x y Hg Hc Lc. unfold child in *. lia.
Qed.

Lemma reserve_enough s k : k <= a (hp s) -> min_heap_reserve k s = Ok (0, s).
Proof. intros Hk. unfold min_heap_reserve, bind, get. destruct (Z.ltb_spec (a (hp s)) k); [lia|done]. Qed.

(** There is room for a new event. *)
Lemma push_run K S s e v :
  timeheap K S s -> evs s !! e = Some v -> ~ S e -> n (hp s) < 1073741824 -> n (hp s) < a (hp s) ->
  exists s', min_heap_push e s = Ok (0, s') /\ timeheap K (fun l => l = e \/ S l) s' /\
    n (hp s') = n (hp s) + 1 /\ keeps s s'.
Proof.
  intros Ht Ev He Hn Ha. pose proof Ht as [Hok Hcap Hout]. pose proof (s_n _ _ _ (k_slots _ _ _ Hok)) as H0.
  unfold min_heap_push. rewrite (bind_ok _ _ _ _ _ (gets_n s)). unfold u32. rewrite !Z.mod_small by lia.
  rewrite (bind_ok _ _ _ _ _ (reserve_enough s (n (hp s) + 1) ltac:(lia))). change (negb (Z.eqb 0 0)) with false. cbn match.
  set (s2 := mkSt (mkHeap (p (hp s)) (n (hp s) + 1) (a (hp s))) (evs s) (mem s)).
  rewrite (bind_ok _ _ _ _ _ (eq_refl : set_n (n (hp s) + 1) s = Ok (tt, s2))).
  destruct (heap_grown K S s Hok Hn) as (Hsz & HS2 & HO2); [unfold size; lia|]. fold s2 in Hsz, HS2, HO2.
  replace (n (hp s)) with (Z.of_nat (size s)) by (unfold size; lia). unfold min_heap_shift_up_. rewrite Nat2Z.id.
  destruct (shift_up_spec K S e v (Datatypes.S (size s)) (size s) s2 HS2 HO2) as (s3 & E3 & Hk3 & [F1 F2 F3 F4 F5 F6]);
    [exact (k_times _ _ _ Hok)|lia|lia|done|done|intros c y Hc Lc; unfold child in Hc; lia|].
  rewrite (bind_ok _ _ _ _ _ E3). exists s3. split_and!; [done| |rewrite F1; cbn; unfold size; lia|by split].
  split; [done|rewrite F3, F2; exact Hcap|]. intros l w El Hl. rewrite F5 in El by done. apply (Hout l w El). naive_solver.
Qed.

(** min_heap_push puts a new event into the heap, growing the array when
    it is full, and changes nothing when the memory for that is refused. *)
Lemma min_heap_push_spec K S s e v :
  timeheap K S s -> evs s !! e = Some v -> ~ S e -> n (hp s) < 1073741824 ->
  exists r s', min_heap_push e s = Ok (r, s') /\
    ((r = 0 /\ timeheap K (fun l => l = e \/ S l) s') \/
     (r = -1 /\ timeheap K S s' /\ hp s' = hp s /\ evs s' = evs s /\ a (hp s) = n (hp s) /\ head (mem s) <> Some true)).
Proof.
  intros Ht Ev He Hn. pose proof (s_n _ _ _ (k_slots _ _ _ (t_ok _ _ _ Ht))) as H0.
  destruct (reserve_run K S s Ht Hn) as (r & s1 & E1 & Ht1 & Ee & En & Hr).
  assert (Er : u32 (n (hp s) + 1) = n (hp s) + 1) by (unfold u32; apply Z.mod_small; lia).
  destruct Hr as [[-> Ha]|(-> & Eh & Ea & Em)].
  - destruct (push_run K S s1 e v Ht1) as (s' & E & Ht' & _); [by rewrite Ee|done|lia|done|].
    exists 0, s'. split; [|by left]. revert E. unfold min_heap_push. rewrite !(bind_ok _ _ _ _ _ (gets_n _)), En, Er.
    rewrite (bind_ok _ _ _ _ _ E1), <-En. by rewrite (bind_ok _ _ _ _ _ (reserve_enough s1 (n (hp s1) + 1) ltac:(lia))).
  - exists (-1), s1. split; [|by right]. unfold min_heap_push. by rewrite (bind_ok _ _ _ _ _ (gets_n _)), Er, (bind_ok _ _ _ _ _ E1).
Qed.

(** min_heap_top: the event pop would take, and no change. *)
Lemma min_heap_top_run K S s :
  timeheap K S s ->
  exists r, min_heap_top s = Ok (r, s) /\
    match r with None => forall l, ~ S l | Some e => S e /\ forall l, S l -> kle (K e) (K l) end.
Proof.
  intros [Hok _ _]. pose proof (s_n _ _ _ (k_slots _ _ _ Hok)) as Hn. unfold min_heap_top.
  rewrite (bind_ok _ _ _ _ _ (gets_n s)). destruct (Z.eqb_spec (n (hp s)) 0) as [E|E].
  - exists None. split; [done|]. intros l (i & Li & _)%(s_set _ _ _ (k_slots _ _ _ Hok)). unfold size in Li. lia.
  - assert (Hsz : (0 < size s)%nat) by (unfold size; lia). destruct (heap_at K S s 0 Hok Hsz) as (e & v & Ae & Se & _).
    exists (Some e). change 0 with (Z.of_nat 0). rewrite (bind_ok _ _ _ _ _ (heap_slot_run s 0 e Ae)).
    split; [done|]. split; [done|by eapply heap_root].
Qed.

(** ** Concrete heaps *)

(** A heap that has just been constructed. *)
Lemma timeheap_empty K E m :
  agrees K E -> (forall l v, E !! l = Some v -> min_heap_idx v = -1) ->
  timeheap K (fun _ => False) (mkSt min_heap_ctor E m).
Proof.
  intros HK Hi. set (s := mkSt _ _ _). assert (Hs : size s = 0%nat) by reflexivity.
  split; [|done|by intros l v El _; eapply Hi]. split; [split|split|done]; rewrite ?Hs.
  - cbn. lia.
  - cbn. lia.
  - intros i Li. lia.
  - intros l. split; [done|]. intros (i & Li & _). lia.
  - intros q i x y _ Li. lia.
  - intros g c x y _ _ Lc. lia.
Qed.

(** Two events: the second is due first. *)
Definition ev1 : event := mkEv 20 0 1.
Definition ev2 : event := mkEv 10 500 0.
Definition two : state := mkSt (mkHeap [Some 2%positive; Some 1%positive; None] 2 3) {[1%positive := ev1; 2%positive := ev2]} [].
Definition two_keys (l : loc) : key := if Pos.eqb l 1 then (20, 0) else (10, 500).
Definition two_set (l : loc) : Prop := l = 1%positive \/ l = 2%positive.

Lemma two_lookup l v : evs two !! l = Some v -> (l = 1%positive /\ v = ev1) \/ (l = 2%positive /\ v = ev2).
Proof.
  cbn. rewrite lookup_insert_Some, lookup_singleton_Some. naive_solver.
Qed.

Lemma two_at i l : at_ two i l <-> (i = 0%nat /\ l = 2%positive) \/ (i = 1%nat /\ l = 1%positive).
Proof. unfold at_. cbn. destruct i as [|[|[|i]]]; cbn; naive_solver. Qed.

Lemma timeheap_two : timeheap two_keys two_set two.
Proof.
  assert (Hs : size two = 2%nat) by reflexivity. split; [split; [split|split|]|done|].
  - cbn. lia.
  - rewrite Hs. cbn. lia.
  - rewrite Hs. intros [|[|i]] Li _; [exists 2%positive, ev2|exists 1%positive, ev1|lia]; by split_and!.
  - rewrite Hs. intros l. unfold two_set. split.
    + intros [-> | ->]; [exists 1%nat|exists 0%nat]; (split_and!; [lia|lia|]); rewrite two_at; auto.
    + intros (i & _ & _ & Al). apply two_at in Al. naive_solver.
  - intros q i x y Hc _ _ _ Ax Ay. apply two_at in Ax, Ay. unfold child in Hc.
    destruct Ax as [[-> ->]|[-> ->]], Ay as [[-> ->]|[-> ->]]; try lia. done.
  - rewrite Hs. intros g c x y _ Hc Lc. unfold child in Hc. lia.
  - intros l v El. by apply two_lookup in El as [[-> ->]|[-> ->]].
  - intros l v El Hl. destruct Hl. apply two_lookup in El. unfold two_set. naive_solver.
Qed.

Lemma min_heap_pop_spec_witness :
  timeheap two_keys two_set two /\
  exists e s', min_heap_pop two = Ok (Some e, s') /\ two_set e /\ (forall l, two_set l -> kle (two_keys e) (two_keys l)) /\
    timeheap two_keys (fun l => two_set l /\ l <> e) s'.
Proof. split; [exact timeheap_two|]. exact (min_heap_pop_spec two_keys two_set two timeheap_two). Defined.

Lemma min_heap_erase_spec_witness :
  exists s', min_heap_erase 1 two = Ok (0, s') /\ timeheap two_keys (fun l => two_set l /\ l <> 1%positive) s'.
Proof.
  apply (proj1 (min_heap_erase_spec two_keys two_set two 1 ev1 timeheap_two ltac:(reflexivity))). by left.
Defined.

Lemma min_heap_push_spec_witness :
  let E := {[5%positive := mkEv 30 0 (-1)]} in
  let s := mkSt min_heap_ctor E [true] in
  exists r s', min_heap_push 5 s = Ok (r, s') /\
    ((r = 0 /\ timeheap (fun _ => (30, 0)) (fun l => l = 5%positive \/ False) s') \/
     (r = -1 /\ timeheap (fun _ => (30, 0)) (fun _ => False) s' /\ hp s' = hp s /\ evs s' = evs s /\
      a (hp s) = n (hp s) /\ head (mem s) <> Some true)).
Proof.
  apply (min_heap_push_spec (fun _ => (30, 0)) (fun _ => False) (mkSt min_heap_ctor {[5%positive := mkEv 30 0 (-1)]} [true]) 5 (mkEv 30 0 (-1)));
    [|reflexivity|tauto|reflexivity].
  apply timeheap_empty; intros l v [<- <-]%lookup_singleton_Some; done.
Defined.
End MinHeap.
