(* ===== verification/EvBase.v ===== *)
(** * Events and their queues (src/libevent: event-internal.h, event.c, evmap.c)

    The state of an event base: the events in memory, the queue of the added
    events, the queues of the active events by priority, the map from file
    descriptors to events, the heap of timeouts, the clocks and the flags of
    the loop. struct event is split in two: the timeout and its index in the
    heap are in the memory of [MinHeap], the other members in [evs]. A TAILQ is
    the list of its elements. [B] is the state behind the function table of the
    backend ([eventop]); the answers of mm_calloc and mm_realloc are the list
    [mem] of [MinHeap].

    The program sets no thread functions and no debug mode, so the debug macros
    are empty; whether another thread runs the loop is kept as [id_fn]. *)

From stdpp Require Import prelude gmap.
From S2P Require Import Prelude MinHeap.
Open Scope Z_scope.

Module EvBase.

Abbreviation loc := MinHeap.loc.

(** struct timeval: seconds and microseconds. *)
Abbreviation timeval := (Z * Z)%type.

Definition EVLIST_TIMEOUT : Z := 0x01.
Definition EVLIST_INSERTED : Z := 0x02.
Definition EVLIST_ACTIVE : Z := 0x08.
Definition EVLIST_INTERNAL : Z := 0x10.
Definition EVLIST_INIT : Z := 0x80.
Definition EVLIST_ALL : Z := 0xf09f.

Definition EV_TIMEOUT : Z := 0x01.
Definition EV_READ : Z := 0x02.
Definition EV_WRITE : Z := 0x04.
Definition EV_SIGNAL : Z := 0x08.
Definition EV_PERSIST : Z := 0x10.
Definition EV_ET : Z := 0x20.

Definition EV_CLOSURE_NONE : Z := 0.
Definition EV_CLOSURE_SIGNAL : Z := 1.
Definition EV_CLOSURE_PERSIST : Z := 2.

(** x & m, as a condition *)
Definition has (x m : Z) : bool := negb (Z.eqb (Z.land x m) 0).

(** struct event without ev_timeout and ev_timeout_pos. [ev_base] is whether
    the pointer to this base is set; [ev_pncalls] is whether it points to the
    counter of the running event_signal_closure. *)
Record event := mkEvent {
  ev_fd : Z; ev_base : bool; ev_events : Z; ev_res : Z; ev_flags : Z; ev_pri : Z; ev_closure : Z;
  ev_io_timeout : timeval; ev_ncalls : Z; ev_pncalls : bool; ev_callback : Z; ev_arg : Z }.

Definition set_flags (f : Z) (v : event) : event :=
  mkEvent (ev_fd v) (ev_base v) (ev_events v) (ev_res v) f (ev_pri v) (ev_closure v)
    (ev_io_timeout v) (ev_ncalls v) (ev_pncalls v) (ev_callback v) (ev_arg v).
Definition set_res (r : Z) (v : event) : event :=
  mkEvent (ev_fd v) (ev_base v) (ev_events v) r (ev_flags v) (ev_pri v) (ev_closure v)
    (ev_io_timeout v) (ev_ncalls v) (ev_pncalls v) (ev_callback v) (ev_arg v).
Definition set_io_timeout (t : timeval) (v : event) : event :=
  mkEvent (ev_fd v) (ev_base v) (ev_events v) (ev_res v) (ev_flags v) (ev_pri v) (ev_closure v)
    t (ev_ncalls v) (ev_pncalls v) (ev_callback v) (ev_arg v).
Definition set_calls (n : Z) (p : bool) (v : event) : event :=
  mkEvent (ev_fd v) (ev_base v) (ev_events v) (ev_res v) (ev_flags v) (ev_pri v) (ev_closure v)
    (ev_io_timeout v) n p (ev_callback v) (ev_arg v).
Definition set_pri (p : Z) (v : event) : event :=
  mkEvent (ev_fd v) (ev_base v) (ev_events v) (ev_res v) (ev_flags v) p (ev_closure v)
    (ev_io_timeout v) (ev_ncalls v) (ev_pncalls v) (ev_callback v) (ev_arg v).

(** The events on one descriptor and how many of them read and write. *)
Record evmap_io := mkIo { io_events : list loc; nread : Z; nwrite : Z }.

(** A queue of events that wait for the same duration, with the event that
    stands for its first element in the heap. *)
Record common_timeout_list := mkCtl { ctl_events : list loc; ctl_duration : timeval; ctl_timeout_event : loc }.

(** The queues of a base with their counters. *)
Record queues := mkQs {
  eventqueue : list loc; activequeues : list (list loc); io : list (option evmap_io);
  sigmap : list (option (list loc)); commons : list common_timeout_list;
  event_count : Z; event_count_active : Z; virtual_event_count : Z }.

(** Clocks: [mono] and [wall] are the next answers of clock_gettime (seconds
    and nanoseconds) and gettimeofday; [None] is a failure. *)
Record clock := mkClk {
  event_tv : timeval; tv_cache : timeval; tv_clock_diff : timeval; last_updated_clock_diff : Z;
  use_monotonic : bool; no_cache_time : bool; mono : list (option (Z * Z)); wall : list (option timeval) }.

(** Flags of the loop and of threads. [ncalls] is the local counter of the
    running event_signal_closure. *)
Record control := mkCtrl {
  event_gotterm : bool; event_break : bool; event_continue : bool; event_running_priority : Z; running_loop : bool;
  current_event : option loc; current_event_waiters : Z; ncalls : Z;
  id_fn : option Z; th_owner_id : Z; is_notify_pending : bool }.

Record base (B : Type) := mkBase {
  th : MinHeap.state; evs : gmap loc event; qs : queues; clk : clock; ctrl : control; evbase : B }.
Arguments mkBase {B}. Arguments th {B}. Arguments evs {B}. Arguments qs {B}. Arguments clk {B}.
Arguments ctrl {B}. Arguments evbase {B}.

(** The members of struct eventop that change the watched events: descriptor,
    old events, new events. *)
Record eventop (B : Type) := mkOp { op_add : Z -> Z -> Z -> M B Z; op_del : Z -> Z -> Z -> M B Z }.
Arguments mkOp {B}. Arguments op_add {B}. Arguments op_del {B}.

(** ** Times *)

(** evutil_timeradd, evutil_timersub, evutil_timercmp *)
Definition timeradd (x y : timeval) : timeval :=
  let s := s64 (fst x + fst y) in let u := snd x + snd y in
  if Z.leb 1000000 u then (s64 (s + 1), u - 1000000) else (s, u).
Definition timersub (x y : timeval) : timeval :=
  let s := s64 (fst x - fst y) in let u := snd x - snd y in
  if Z.ltb u 0 then (s64 (s - 1), u + 1000000) else (s, u).
Definition tv_gt (x y : timeval) : bool := MinHeap.kgt x y.
Definition tv_lt (x y : timeval) : bool := MinHeap.kgt y x.
Definition tv_le (x y : timeval) : bool := negb (MinHeap.kgt x y).
Definition tv_ge (x y : timeval) : bool := negb (MinHeap.kgt y x).

Definition MICROSECONDS_MASK : Z := 0x000fffff.
Definition COMMON_TIMEOUT_IDX_MASK : Z := 0x0ff00000.
Definition COMMON_TIMEOUT_IDX_SHIFT : Z := 20.
Definition COMMON_TIMEOUT_MASK : Z := 0xf0000000.
Definition COMMON_TIMEOUT_MAGIC : Z := 0x50000000.

Definition COMMON_TIMEOUT_IDX (tv : timeval) : Z :=
  Z.shiftr (Z.land (snd tv) COMMON_TIMEOUT_IDX_MASK) COMMON_TIMEOUT_IDX_SHIFT.

Definition masked (tv : timeval) : timeval := (fst tv, Z.land (snd tv) MICROSECONDS_MASK).
Definition magic (tv : timeval) : Z := Z.ldiff (snd tv) MICROSECONDS_MASK.

Definition is_common_timeout (tv : timeval) (q : queues) : bool :=
  if negb (Z.eqb (Z.land (snd tv) COMMON_TIMEOUT_MASK) COMMON_TIMEOUT_MAGIC) then false
  else Z.ltb (COMMON_TIMEOUT_IDX tv) (Z.of_nat (length (commons q))).

Definition is_same_common_timeout (x y : timeval) : bool := Z.eqb (magic x) (magic y).

(** ** Access to the state *)

Section Access.
Context {B : Type}.
Abbreviation T := (M (base B)).

Definition set_th (h : MinHeap.state) (b : base B) : base B := mkBase h (evs b) (qs b) (clk b) (ctrl b) (evbase b).
Definition set_evs (m : gmap loc event) (b : base B) : base B := mkBase (th b) m (qs b) (clk b) (ctrl b) (evbase b).
Definition set_qs (q : queues) (b : base B) : base B := mkBase (th b) (evs b) q (clk b) (ctrl b) (evbase b).
Definition set_clk (c : clock) (b : base B) : base B := mkBase (th b) (evs b) (qs b) c (ctrl b) (evbase b).
Definition set_ctrl (c : control) (b : base B) : base B := mkBase (th b) (evs b) (qs b) (clk b) c (evbase b).
Definition set_evbase (x : B) (b : base B) : base B := mkBase (th b) (evs b) (qs b) (clk b) (ctrl b) x.

Definition heap {A} (m : MinHeap.T A) : T A := fun b =>
  match m (th b) with Ok (a, h) => Ok (a, set_th h b) | Fault f => Fault f end.
Definition backend {A} (m : M B A) : T A := fun b =>
  match m (evbase b) with Ok (a, x) => Ok (a, set_evbase x b) | Fault f => Fault f end.

Definition rd (e : loc) : T event := fun b =>
  match evs b !! e with Some v => Ok (v, b) | None => Fault UseAfterFree end.
Definition upd (e : loc) (f : event -> event) : T unit :=
  let! v := rd e in modify (fun b => set_evs (<[e := f v]> (evs b)) b).

(** ev->ev_timeout *)
Definition timeout_of (e : loc) : T timeval := fun b =>
  match MinHeap.evs (th b) !! e with
  | Some v => Ok ((MinHeap.tv_sec v, MinHeap.tv_usec v), b)
  | None => Fault UseAfterFree
  end.
Definition set_timeout (e : loc) (t : timeval) : T unit := fun b =>
  match MinHeap.evs (th b) !! e with
  | Some v =>
      Ok (tt, set_th (MinHeap.mkSt (MinHeap.hp (th b))
        (<[e := MinHeap.mkEv (fst t) (snd t) (MinHeap.min_heap_idx v)]> (MinHeap.evs (th b))) (MinHeap.mem (th b))) b)
  | None => Fault UseAfterFree
  end.

Definition qset (f : queues -> queues) : T unit := modify (fun b => set_qs (f (qs b)) b).
Definition cset (f : control -> control) : T unit := modify (fun b => set_ctrl (f (ctrl b)) b).

(** mm_calloc, mm_realloc: does the call get memory? *)
Definition alloc : T bool := fun b =>
  let h := th b in
  Ok (match MinHeap.mem h with x :: _ => x | [] => false end,
      set_th (MinHeap.mkSt (MinHeap.hp h) (MinHeap.evs h) (tail (MinHeap.mem h))) b).
End Access.

(** TAILQ_REMOVE: an element that is not linked has no neighbours to write to. *)
Definition tq_remove (e : loc) (q : list loc) : res (list loc) :=
  if decide (e ∈ q) then Ok (filter (fun x => x <> e) q) else Fault UseAfterFree.

Definition put_eventqueue (l : list loc) (q : queues) : queues :=
  mkQs l (activequeues q) (io q) (sigmap q) (commons q) (event_count q) (event_count_active q) (virtual_event_count q).
Definition put_active (l : list (list loc)) (n : Z) (q : queues) : queues :=
  mkQs (eventqueue q) l (io q) (sigmap q) (commons q) (event_count q) n (virtual_event_count q).
Definition put_io (l : list (option evmap_io)) (q : queues) : queues :=
  mkQs (eventqueue q) (activequeues q) l (sigmap q) (commons q) (event_count q) (event_count_active q) (virtual_event_count q).
Definition put_sigmap (l : list (option (list loc))) (q : queues) : queues :=
  mkQs (eventqueue q) (activequeues q) (io q) l (commons q) (event_count q) (event_count_active q) (virtual_event_count q).
Definition put_commons (l : list common_timeout_list) (q : queues) : queues :=
  mkQs (eventqueue q) (activequeues q) (io q) (sigmap q) l (event_count q) (event_count_active q) (virtual_event_count q).
Definition put_count (n : Z) (q : queues) : queues :=
  mkQs (eventqueue q) (activequeues q) (io q) (sigmap q) (commons q) n (event_count_active q) (virtual_event_count q).

Definition put_continue (x : bool) (c : control) : control :=
  mkCtrl (event_gotterm c) (event_break c) x (event_running_priority c) (running_loop c) (current_event c)
    (current_event_waiters c) (ncalls c) (id_fn c) (th_owner_id c) (is_notify_pending c).
Definition put_notify_pending (x : bool) (c : control) : control :=
  mkCtrl (event_gotterm c) (event_break c) (event_continue c) (event_running_priority c) (running_loop c) (current_event c)
    (current_event_waiters c) (ncalls c) (id_fn c) (th_owner_id c) x.
Definition put_ncalls (n : Z) (c : control) : control :=
  mkCtrl (event_gotterm c) (event_break c) (event_continue c) (event_running_priority c) (running_loop c) (current_event c)
    (current_event_waiters c) n (id_fn c) (th_owner_id c) (is_notify_pending c).
Definition put_current (e : option loc) (n : Z) (c : control) : control :=
  mkCtrl (event_gotterm c) (event_break c) (event_continue c) (event_running_priority c) (running_loop c) e
    n (ncalls c) (id_fn c) (th_owner_id c) (is_notify_pending c).

(** ** The clock of a base *)

Definition put_cache (t : timeval) (c : clock) : clock :=
  mkClk (event_tv c) t (tv_clock_diff c) (last_updated_clock_diff c) (use_monotonic c) (no_cache_time c) (mono c) (wall c).
Definition put_event_tv (t : timeval) (c : clock) : clock :=
  mkClk t (tv_cache c) (tv_clock_diff c) (last_updated_clock_diff c) (use_monotonic c) (no_cache_time c) (mono c) (wall c).

(** CLOCK_SYNC_INTERVAL *)
Definition CLOCK_SYNC_INTERVAL : Z := -1.

(** The result and the clock afterwards; [None] is -1 with *tp not written. *)
Definition gettime_ (c : clock) : res (option timeval * clock) :=
  if negb (Z.eqb (fst (tv_cache c)) 0) then Ok (Some (tv_cache c), c)
  else if use_monotonic c then
    let c1 := mkClk (event_tv c) (tv_cache c) (tv_clock_diff c) (last_updated_clock_diff c) (use_monotonic c)
      (no_cache_time c) (tail (mono c)) (wall c) in
    match mono c with
    | Some (s, ns) :: _ =>
        let tp := (s, ns / 1000) in
        if Z.ltb (last_updated_clock_diff c + CLOCK_SYNC_INTERVAL) s then
          match wall c with
          | Some tv :: w =>
              Ok (Some tp, mkClk (event_tv c) (tv_cache c) (timersub tv tp) s (use_monotonic c) (no_cache_time c) (tail (mono c)) w)
          | _ => Fault Uninit
          end
        else Ok (Some tp, c1)
    | _ => Ok (None, c1)
    end
  else
    let c1 := mkClk (event_tv c) (tv_cache c) (tv_clock_diff c) (last_updated_clock_diff c) (use_monotonic c)
      (no_cache_time c) (mono c) (tail (wall c)) in
    match wall c with Some tv :: _ => Ok (Some tv, c1) | _ => Ok (None, c1) end.

Section Ops.
Context {B : Type}.
Abbreviation T := (M (base B)).

Definition gettime : T (option timeval) := fun b =>
  match gettime_ (clk b) with Ok (t, c) => Ok (t, set_clk c b) | Fault f => Fault f end.

(** gettime(base, &now) where the result is not tested. *)
Definition now_ : T timeval :=
  let! t := gettime in match t with Some t => ret t | None => fail Uninit end.

Definition kset (f : clock -> clock) : T unit := modify (fun b => set_clk (f (clk b)) b).

Definition clear_time_cache : T unit := kset (fun c => put_cache (0, snd (tv_cache c)) c).

Definition update_time_cache : T unit :=
  clear_time_cache ;;
  let! off := gets (fun b : base B => no_cache_time (clk b)) in
  if off : bool then ret tt
  else let! t := gettime in match t with Some t => kset (put_cache t) | None => ret tt end.

(** ** Threads *)

Definition EVBASE_IN_THREAD (c : control) : bool :=
  match id_fn c with None => true | Some i => Z.eqb (th_owner_id c) i end.
Definition EVBASE_NEED_NOTIFY (c : control) : bool :=
  match id_fn c with None => false | Some i => running_loop c && negb (Z.eqb (th_owner_id c) i) end.

(** [fn] is base->th_notify_fn. *)
Definition evthread_notify_base (fn : option (M B Z)) : T Z :=
  match fn with
  | None => ret (-1)
  | Some f =>
      let! c := gets ctrl in
      if is_notify_pending c then ret 0
      else cset (put_notify_pending true) ;; backend f
  end.

(** Wait until the callback of [e] is done, if another thread runs it. *)
Definition wait_for (e : loc) : T unit :=
  let! c := gets ctrl in
  if bool_decide (current_event c = Some e) && negb (EVBASE_IN_THREAD c)
  then cset (fun c => put_current (current_event c) (current_event_waiters c + 1) c) ;; fail Blocked
  else ret tt.

(** if (ev->ev_ncalls && ev->ev_pncalls) *ev->ev_pncalls = 0 *)
Definition abort_loop (v : event) : T unit :=
  if negb (Z.eqb (ev_ncalls v) 0) && ev_pncalls v then cset (put_ncalls 0) else ret tt.

(** ** Queues *)

(** TAILQ_REMOVE on a queue of the base *)
Definition on_active (p : Z) (f : list loc -> res (list loc)) (d : Z) : T unit :=
  let! q := gets qs in
  match activequeues q !! Z.to_nat p with
  | None => fail Overrun
  | Some l => let! l' := lift (f l) in qset (put_active (<[Z.to_nat p := l']> (activequeues q)) (event_count_active q + d))
  end.

(** The links of a queue of common timeouts share their memory with the heap
    index: the low half of tqe_next. [addr] gives that half of the address of
    an event. *)
Fixpoint relink (addr : loc -> Z) (q : list loc) : T unit :=
  match q with
  | [] => ret tt
  | e :: q' => heap (MinHeap.set_idx e (match q' with [] => 0 | x :: _ => addr x end)) ;; relink addr q'
  end.

Definition get_common_timeout_list (tv : timeval) : T common_timeout_list := fun b =>
  match commons (qs b) !! Z.to_nat (COMMON_TIMEOUT_IDX tv) with Some c => Ok (c, b) | None => Fault Overread end.

Definition set_ctl_events (addr : loc -> Z) (i : nat) (c : common_timeout_list) (l : list loc) : T unit :=
  qset (fun q => put_commons (<[i := mkCtl l (ctl_duration c) (ctl_timeout_event c)]> (commons q)) q) ;;
  relink addr l.

(** From the end of the queue (the list is given reversed) to the first event
    that is not later. *)
Fixpoint inorder (e : loc) (t : timeval) (rev : list loc) : T (list loc) :=
  match rev with
  | [] => ret [e]
  | x :: rev' =>
      let! u := timeout_of x in
      if negb (is_same_common_timeout u t) then fail AssertFailed
      else if tv_ge t u then ret (e :: rev)
      else let! r := inorder e t rev' in ret (x :: r)
  end.

Definition insert_common_timeout_inorder (addr : loc -> Z) (i : nat) (c : common_timeout_list) (e : loc) : T unit :=
  let! t := timeout_of e in
  let! r := inorder e t (reverse (ctl_events c)) in
  set_ctl_events addr i c (reverse r).

(** ~ev->ev_flags & EVLIST_INTERNAL *)
Definition counted (v : event) : bool := has (Z.lnot (ev_flags v)) EVLIST_INTERNAL.

(** switch (queue) of event_queue_remove *)
Definition queue_take (addr : loc -> Z) (e : loc) (v : event) (queue : Z) : T unit :=
  if Z.eqb queue EVLIST_INSERTED then
    let! q := gets qs in
    let! l := lift (tq_remove e (eventqueue q)) in
    qset (put_eventqueue l)
  else if Z.eqb queue EVLIST_ACTIVE then on_active (ev_pri v) (tq_remove e) (-1)
  else if Z.eqb queue EVLIST_TIMEOUT then
    let! t := timeout_of e in
    let! q := gets qs in
    if is_common_timeout t q then
      let! c := get_common_timeout_list t in
      let! l := lift (tq_remove e (ctl_events c)) in
      set_ctl_events addr (Z.to_nat (COMMON_TIMEOUT_IDX t)) c l
    else let! _ := heap (MinHeap.min_heap_erase e) in ret tt
  else fail Exited.

Definition event_queue_remove (addr : loc -> Z) (e : loc) (queue : Z) : T unit :=
  let! v := rd e in
  if negb (has (ev_flags v) queue) then fail Exited
  else
    when (counted v) (qset (fun q => put_count (event_count q - 1) q)) ;;
    upd e (fun v => set_flags (Z.ldiff (ev_flags v) queue) v) ;;
    queue_take addr e v queue.

(** switch (queue) of event_queue_insert *)
Definition queue_put (addr : loc -> Z) (e : loc) (v : event) (queue : Z) : T unit :=
  if Z.eqb queue EVLIST_INSERTED then qset (fun q => put_eventqueue (eventqueue q ++ [e]) q)
  else if Z.eqb queue EVLIST_ACTIVE then on_active (ev_pri v) (fun l => Ok (l ++ [e])) 1
  else if Z.eqb queue EVLIST_TIMEOUT then
    let! t := timeout_of e in
    let! q := gets qs in
    if is_common_timeout t q then
      let! c := get_common_timeout_list t in
      insert_common_timeout_inorder addr (Z.to_nat (COMMON_TIMEOUT_IDX t)) c e
    else let! _ := heap (MinHeap.min_heap_push e) in ret tt
  else fail Exited.

Definition event_queue_insert (addr : loc -> Z) (e : loc) (queue : Z) : T unit :=
  let! v := rd e in
  if has (ev_flags v) queue then
    if has queue EVLIST_ACTIVE then ret tt else fail Exited
  else
    when (counted v) (qset (fun q => put_count (event_count q + 1) q)) ;;
    upd e (fun v => set_flags (Z.lor (ev_flags v) queue) v) ;;
    queue_put addr e v queue.

(** ** The map from descriptors and signals to events *)

(** while (nentries <= slot) nentries <<= 1 *)
Fixpoint grow_to (fuel : nat) (nentries slot : Z) : res Z :=
  match fuel with
  | O => Fault NoFuel
  | S f => if Z.leb nentries slot then grow_to f (s32 (nentries * 2)) slot else Ok nentries
  end.

(** The array for [slot], or [None] when there is no memory. *)
Definition evmap_make_space {X} (entries : list (option X)) (slot : Z) : T (option (list (option X))) :=
  let n := Z.of_nat (length entries) in
  if Z.leb n slot then
    let! k := lift (grow_to 32 (if Z.eqb n 0 then 32 else n) slot) in
    let! ok := alloc in
    if ok : bool then ret (Some (entries ++ replicate (Z.to_nat (k - n)) None)) else ret None
  else ret (Some entries).

(** GET_SIGNAL_SLOT_AND_CTOR: the entry, allocated if there is none. *)
Definition slot_and_ctor {X} (entries : list (option X)) (slot : Z) (init : X) : T (option X) :=
  if Z.ltb slot 0 then fail Overrun
  else match entries !! Z.to_nat slot with
  | Some (Some x) => ret (Some x)
  | Some None => let! ok := alloc in ret (if ok : bool then Some init else None)
  | None => fail Overrun
  end.

(** Events that some event of the entry already waits for. *)
Definition old_events (c : evmap_io) : Z :=
  Z.lor (if Z.eqb (nread c) 0 then 0 else EV_READ) (if Z.eqb (nwrite c) 0 then 0 else EV_WRITE).

Definition put_entry (fd : Z) (c : evmap_io) : T unit :=
  qset (fun q => put_io (<[Z.to_nat fd := Some c]> (io q)) q).

Definition readers (v : event) : Z := if has (ev_events v) EV_READ then 1 else 0.
Definition writers (v : event) : Z := if has (ev_events v) EV_WRITE then 1 else 0.

(** The events that the first event of their kind on the entry [c] asks for,
    and those that the last one gives up. *)
Definition newly (v : event) (c : evmap_io) : Z :=
  Z.lor (if Z.eqb (readers v) 1 && Z.eqb (nread c) 0 then EV_READ else 0)
        (if Z.eqb (writers v) 1 && Z.eqb (nwrite c) 0 then EV_WRITE else 0).
Definition lastly (v : event) (c : evmap_io) : Z :=
  Z.lor (if Z.eqb (readers v) 1 && Z.eqb (nread c) 1 then EV_READ else 0)
        (if Z.eqb (writers v) 1 && Z.eqb (nwrite c) 1 then EV_WRITE else 0).

(** evmap_io_add from the entry on. *)
Definition io_add_entry (evsel : eventop B) (fd : Z) (e : loc) (v : event) (c : evmap_io) : T Z :=
  let res := newly v c in
  if Z.ltb 0xffff (nread c + readers v) || Z.ltb 0xffff (nwrite c + writers v) then ret (-1)
  else
    let! x := (if Z.eqb res 0 then ret 0
       else backend (op_add evsel (ev_fd v) (old_events c) (Z.lor (Z.land (ev_events v) EV_ET) res))) in
    if Z.eqb x (-1) then ret (-1)
    else
      put_entry fd (mkIo (io_events c ++ [e]) (u16 (nread c + readers v)) (u16 (nwrite c + writers v))) ;;
      ret (if Z.eqb res 0 then 0 else 1).

Definition evmap_io_add (evsel : eventop B) (fd : Z) (e : loc) : T Z :=
  let! v := rd e in
  if negb (Z.eqb fd (ev_fd v)) then fail AssertFailed
  else if Z.ltb fd 0 then ret 0
  else
    let! q := gets qs in
    let! sp := evmap_make_space (io q) fd in
    match sp with
    | None => ret (-1)
    | Some entries =>
        qset (put_io entries) ;;
        let! ctx := slot_and_ctor entries fd (mkIo [] 0 0) in
        match ctx with
        | None => ret (-1)
        | Some c => put_entry fd c ;; io_add_entry evsel fd e v c
        end
    end.

(** evmap_io_del from the entry on. *)
Definition io_del_entry (evsel : eventop B) (fd : Z) (e : loc) (v : event) (c : evmap_io) : T Z :=
  if Z.ltb (nread c - readers v) 0 || Z.ltb (nwrite c - writers v) 0 then fail AssertFailed
  else
    let res := lastly v c in
    let! x := (if Z.eqb res 0 then ret 0 else backend (op_del evsel (ev_fd v) (old_events c) res)) in
    if Z.eqb x (-1) then ret (-1)
    else
      let! l := lift (tq_remove e (io_events c)) in
      put_entry fd (mkIo l (nread c - readers v) (nwrite c - writers v)) ;;
      ret (if Z.eqb res 0 then 0 else 1).

Definition evmap_io_del (evsel : eventop B) (fd : Z) (e : loc) : T Z :=
  if Z.ltb fd 0 then ret 0
  else
    let! v := rd e in
    if negb (Z.eqb fd (ev_fd v)) then fail AssertFailed
    else
      let! q := gets qs in
      match io q !! Z.to_nat fd with
      | None => ret (-1)
      | Some None => fail NullDeref
      | Some (Some c) => io_del_entry evsel fd e v c
      end.
End Ops.
End EvBase.
