(* ===== verification/EvOps.v ===== *)
(** * Adding, deleting and activating events (src/libevent/event.c, evmap.c)

    The operations on one event, and those the loop performs for the timeouts.
    What the C code reaches through function pointers or leaves to other parts
    is the class [Env]: the backend, the signal backend, th_notify_fn, and the
    low halves of the addresses of events. *)

From stdpp Require Import prelude gmap.
From S2P Require Import Prelude MinHeap EvBase.
Open Scope Z_scope.

Module EvOps.
Import EvBase.

Class Env (B : Type) := {
  evsel : eventop B;
  evsig_add : Z -> M (base B) Z;
  evsig_del : Z -> M (base B) Z;
  th_notify_fn : option (M B Z);
  addr : loc -> Z
}.

Section Ops.
Context {B : Type} `{!Env B}.
Abbreviation T := (M (base B)).

(** ** Signals *)

Definition evmap_signal_add (sig : Z) (e : loc) : T Z :=
  let! q := gets qs in
  let! sp := evmap_make_space (sigmap q) sig in
  match sp with
  | None => ret (-1)
  | Some entries =>
      qset (put_sigmap entries) ;;
      let! ctx := slot_and_ctor entries sig [] in
      match ctx with
      | None => ret (-1)
      | Some l =>
          qset (fun q => put_sigmap (<[Z.to_nat sig := Some l]> (sigmap q)) q) ;;
          let! v := rd e in
          let! x := (match l with [] => evsig_add (ev_fd v) | _ => ret 0 end) in
          if (match l with [] => Z.eqb x (-1) | _ => false end) then ret (-1)
          else
            qset (fun q => put_sigmap (<[Z.to_nat sig := Some (l ++ [e])]> (sigmap q)) q) ;;
            ret 1
      end
  end.

Definition evmap_signal_del (sig : Z) (e : loc) : T Z :=
  let! q := gets qs in
  if Z.ltb sig 0 then fail Overread
  else match sigmap q !! Z.to_nat sig with
  | None => ret (-1)
  | Some None => fail NullDeref
  | Some (Some l) =>
      let! v := rd e in
      let alone := bool_decide (head l = last l) in
      let! x := (if alone then evsig_del (ev_fd v) else ret 0) in
      if alone && Z.eqb x (-1) then ret (-1)
      else
        let! l' := lift (tq_remove e l) in
        qset (fun q => put_sigmap (<[Z.to_nat sig := Some l']> (sigmap q)) q) ;;
        ret 1
  end.

(** ** One event *)

Definition event_active_nolock (e : loc) (res nc : Z) : T unit :=
  let! v := rd e in
  if has (ev_flags v) EVLIST_ACTIVE then upd e (fun v => set_res (Z.lor (ev_res v) res) v)
  else
    upd e (set_res res) ;;
    let! c := gets ctrl in
    when (Z.ltb (ev_pri v) (event_running_priority c)) (cset (put_continue true)) ;;
    when (has (ev_events v) EV_SIGNAL) (wait_for e ;; upd e (set_calls nc false)) ;;
    event_queue_insert addr e EVLIST_ACTIVE ;;
    let! c := gets ctrl in
    when (EVBASE_NEED_NOTIFY c) (let! _ := evthread_notify_base th_notify_fn in ret tt).

(** if (ev->ev_flags & queue) event_queue_remove(base, ev, queue) *)
Definition remove_if (e : loc) (queue : Z) : T unit :=
  let! v := rd e in when (has (ev_flags v) queue) (event_queue_remove addr e queue).

(** Add the event to, or delete it from, the map it belongs to. *)
Definition evmap_add (e : loc) (v : event) : T Z :=
  if has (ev_events v) (Z.lor EV_READ EV_WRITE) then evmap_io_add evsel (ev_fd v) e
  else if has (ev_events v) EV_SIGNAL then evmap_signal_add (ev_fd v) e
  else ret 0.
Definition evmap_del (e : loc) (v : event) : T Z :=
  if has (ev_events v) (Z.lor EV_READ EV_WRITE) then evmap_io_del evsel (ev_fd v) e
  else evmap_signal_del (ev_fd v) e.

(** if (res != -1 && notify && EVBASE_NEED_NOTIFY(base)) *)
Definition notify_if (res : Z) (notify : bool) : T unit :=
  let! c := gets ctrl in
  when (negb (Z.eqb res (-1)) && notify && EVBASE_NEED_NOTIFY c)
    (let! _ := evthread_notify_base th_notify_fn in ret tt).

Definition event_del_internal (e : loc) : T Z :=
  let! v := rd e in
  if negb (ev_base v) then ret (-1)
  else
    wait_for e ;;
    if negb (Z.eqb (Z.ldiff (ev_flags v) EVLIST_ALL) 0) then fail AssertFailed
    else
      when (has (ev_events v) EV_SIGNAL) (abort_loop v) ;;
      remove_if e EVLIST_TIMEOUT ;;
      remove_if e EVLIST_ACTIVE ;;
      let! v := rd e in
      let! res := (if has (ev_flags v) EVLIST_INSERTED
         then event_queue_remove addr e EVLIST_INSERTED ;; evmap_del e v
         else ret 0) in
      let notify := Z.eqb res 1 in
      let res := if Z.eqb res 1 then 0 else res in
      notify_if res notify ;;
      ret res.

(** The time at which a timeout [tv] is due. *)
Definition due (now tv : timeval) (common absolute : bool) : timeval :=
  if absolute then tv
  else if common then let t := timeradd now (masked tv) in (fst t, Z.lor (snd t) (magic tv))
  else timeradd now tv.

(** The part of event_add_internal for a timeout; the result is whether the
    loop has to be notified. *)
Definition add_timeout (schedule : common_timeout_list -> loc -> T unit) (e : loc) (tv : timeval) (absolute : bool) : T bool :=
  let! v := rd e in
  when (Z.eqb (ev_closure v) EV_CLOSURE_PERSIST && negb absolute) (upd e (set_io_timeout tv)) ;;
  let! n1 := (if has (ev_flags v) EVLIST_TIMEOUT
     then let! top := heap (MinHeap.min_heap_elt_is_top e) in
          event_queue_remove addr e EVLIST_TIMEOUT ;; ret top
     else ret false) in
  when (has (ev_flags v) EVLIST_ACTIVE && has (ev_res v) EV_TIMEOUT)
    (when (has (ev_events v) EV_SIGNAL) (abort_loop v) ;; event_queue_remove addr e EVLIST_ACTIVE) ;;
  let! now := now_ in
  let! q := gets qs in
  let common := is_common_timeout tv q in
  set_timeout e (due now tv common absolute) ;;
  event_queue_insert addr e EVLIST_TIMEOUT ;;
  if common then
    let! t := timeout_of e in
    let! c := get_common_timeout_list t in
    when (bool_decide (head (ctl_events c) = Some e)) (schedule c e) ;;
    ret n1
  else
    let! top := heap (MinHeap.min_heap_elt_is_top e) in
    ret (n1 || top).

Definition event_add_gen (schedule : common_timeout_list -> loc -> T unit) (e : loc) (tv : option timeval) (absolute : bool) : T Z :=
  let! v := rd e in
  if negb (Z.eqb (Z.ldiff (ev_flags v) EVLIST_ALL) 0) then fail AssertFailed
  else
    let! room := (match tv with
       | Some _ =>
           if has (ev_flags v) EVLIST_TIMEOUT then ret 0
           else let! k := heap (gets MinHeap.min_heap_size) in heap (MinHeap.min_heap_reserve (u32 (1 + k)))
       | None => ret 0
       end) in
    if Z.eqb room (-1) then ret (-1)
    else
      when (has (ev_events v) EV_SIGNAL) (wait_for e) ;;
      let! res := (if has (ev_events v) (Z.lor (Z.lor EV_READ EV_WRITE) EV_SIGNAL)
           && negb (has (ev_flags v) (Z.lor EVLIST_INSERTED EVLIST_ACTIVE))
         then let! r := evmap_add e v in
              when (negb (Z.eqb r (-1))) (event_queue_insert addr e EVLIST_INSERTED) ;; ret r
         else ret 0) in
      let n1 := Z.eqb res 1 in
      let res := if Z.eqb res 1 then 0 else res in
      let! n2 := (match tv with
         | Some t => if Z.eqb res (-1) then ret false else add_timeout schedule e t absolute
         | None => ret false
         end) in
      notify_if res (n1 || n2) ;;
      ret res.

(** The timeout of the event that stands for a queue of common timeouts has no
    magic bits, so that event is not itself in such a queue. *)
Definition common_timeout_schedule (c : common_timeout_list) (hd : loc) : T unit :=
  let! t := timeout_of hd in
  let! _ := event_add_gen (fun _ _ => fail NoFuel) (ctl_timeout_event c) (Some (masked t)) true in
  ret tt.

Definition event_add_internal : loc -> option timeval -> bool -> T Z := event_add_gen common_timeout_schedule.

Definition event_add (e : loc) (tv : option timeval) : T Z :=
  let! v := rd e in if negb (ev_base v) then ret (-1) else event_add_internal e tv false.
Definition event_del (e : loc) : T Z :=
  let! v := rd e in if negb (ev_base v) then ret (-1) else event_del_internal e.
Definition event_active (e : loc) (res nc : Z) : T unit :=
  let! v := rd e in if negb (ev_base v) then ret tt else event_active_nolock e res nc.

(** ** Activation by descriptor or signal *)

Fixpoint activate_each (what : event -> Z) (nc : Z) (l : list loc) : T unit :=
  match l with
  | [] => ret tt
  | e :: l' =>
      let! v := rd e in
      when (negb (Z.eqb (what v) 0)) (event_active_nolock e (what v) nc) ;;
      activate_each what nc l'
  end.

Definition evmap_io_active (fd events : Z) : T unit :=
  let! q := gets qs in
  if Z.ltb fd 0 then fail Overread
  else match io q !! Z.to_nat fd with
  | Some (Some c) => activate_each (fun v => Z.land (ev_events v) events) 1 (io_events c)
  | _ => fail AssertFailed
  end.

Definition evmap_signal_active (sig nc : Z) : T unit :=
  let! q := gets qs in
  if Z.ltb sig 0 then fail Overread
  else match sigmap q !! Z.to_nat sig with
  | None => fail AssertFailed
  | Some None => fail NullDeref
  | Some (Some l) => activate_each (fun _ => EV_SIGNAL) nc l
  end.

(** ** Timeouts *)

(** How long the backend may wait; [None] is forever. *)
Definition timeout_next : T (option timeval) :=
  let! top := heap MinHeap.min_heap_top in
  match top with
  | None => ret None
  | Some e =>
      let! now := now_ in
      let! t := timeout_of e in
      if tv_le t now then ret (Some (0, 0))
      else
        let d := timersub t now in
        if Z.ltb (fst d) 0 || Z.ltb (snd d) 0 then fail AssertFailed else ret (Some d)
  end.

(** The first [k] elements of the heap, from index [i]. *)
Fixpoint shift_heap (off : timeval) (k : nat) (i : Z) : T unit :=
  match k with
  | O => ret tt
  | S k' =>
      let! e := heap (MinHeap.slot i) in
      let! t := timeout_of e in
      set_timeout e (timersub t off) ;;
      shift_heap off k' (i + 1)
  end.

Fixpoint shift_common (off : timeval) (i : Z) (l : list loc) : T unit :=
  match l with
  | [] => ret tt
  | e :: l' =>
      let! t := timeout_of e in
      let d := timersub (masked t) off in
      set_timeout e (fst d, Z.lor (snd d) (Z.lor COMMON_TIMEOUT_MAGIC (Z.shiftl i COMMON_TIMEOUT_IDX_SHIFT))) ;;
      shift_common off i l'
  end.

Fixpoint shift_commons (off : timeval) (i : Z) (cs : list common_timeout_list) : T unit :=
  match cs with
  | [] => ret tt
  | c :: cs' => shift_common off i (ctl_events c) ;; shift_commons off (i + 1) cs'
  end.

(** The clock went backwards: all timeouts move with it. *)
Definition timeout_correct : T unit :=
  let! c := gets clk in
  if use_monotonic c then ret tt
  else
    let! tv := now_ in
    let! c := gets clk in
    if tv_ge tv (event_tv c) then kset (put_event_tv tv)
    else
      let off := timersub (event_tv c) tv in
      let! n := heap (gets MinHeap.min_heap_size) in
      shift_heap off (Z.to_nat n) 0 ;;
      let! q := gets qs in
      shift_commons off 0 (commons q) ;;
      kset (put_event_tv tv).

Fixpoint process_timeouts (fuel : nat) (now : timeval) : T unit :=
  match fuel with
  | O => fail NoFuel
  | S f =>
      let! top := heap MinHeap.min_heap_top in
      match top with
      | None => ret tt
      | Some e =>
          let! t := timeout_of e in
          if tv_gt t now then ret tt
          else
            let! _ := event_del_internal e in
            event_active_nolock e EV_TIMEOUT 1 ;;
            process_timeouts f now
      end
  end.

Definition timeout_process : T unit :=
  let! n := heap (gets MinHeap.min_heap_size) in
  if Z.eqb n 0 then ret tt
  else let! now := now_ in process_timeouts (S (Z.to_nat n)) now.

(** The callback of the event that stands for queue [i] of common timeouts.
    [fuel]: every round takes an event off the queue. *)
Fixpoint run_common (fuel : nat) (i : nat) (now : timeval) : T unit :=
  match fuel with
  | O => fail NoFuel
  | S f =>
      let! q := gets qs in
      match commons q !! i with
      | None => fail UseAfterFree
      | Some c =>
          match ctl_events c with
          | [] => ret tt
          | e :: _ =>
              let! t := timeout_of e in
              if tv_gt (masked t) now then common_timeout_schedule c e
              else
                let! _ := event_del_internal e in
                event_active_nolock e EV_TIMEOUT 1 ;;
                run_common f i now
          end
      end
  end.

Definition common_timeout_callback (i : nat) : T unit :=
  let! now := now_ in
  let! q := gets qs in
  run_common (match commons q !! i with Some c => S (length (ctl_events c)) | None => 1%nat end) i now.
End Ops.
End EvOps.
