(* ===== verification/EvLoop.v ===== *)
(** * The event loop (src/libevent/event.c)

    Setting up events, running the callbacks of the active events, and
    event_base_loop. [LoopEnv] adds to [Env] what the loop calls: the dispatch
    function of the backend, evsig_set_base if signals are added
    ([resume_signals]), and the callbacks, by address,
    with descriptor, result and argument. *)

From stdpp Require Import prelude gmap.
From S2P Require Import Prelude MinHeap EvBase EvOps.
Open Scope Z_scope.

Module EvLoop.
Import EvBase EvOps.

Class LoopEnv (B : Type) := {
  loop_env :: Env B;
  dispatch : option timeval -> M (base B) Z;
  resume_signals : M (base B) unit;
  call : Z -> Z -> Z -> Z -> M (base B) unit
}.

Definition EVLOOP_ONCE : Z := 0x01.
Definition EVLOOP_NONBLOCK : Z := 0x02.

Definition put_loop (term brk cont : bool) (c : control) : control :=
  mkCtrl term brk cont (event_running_priority c) (running_loop c) (current_event c)
    (current_event_waiters c) (ncalls c) (id_fn c) (th_owner_id c) (is_notify_pending c).
Definition put_running (x : bool) (c : control) : control :=
  mkCtrl (event_gotterm c) (event_break c) (event_continue c) (event_running_priority c) x (current_event c)
    (current_event_waiters c) (ncalls c) (id_fn c) (th_owner_id c) (is_notify_pending c).
Definition put_priority (p : Z) (c : control) : control :=
  mkCtrl (event_gotterm c) (event_break c) (event_continue c) p (running_loop c) (current_event c)
    (current_event_waiters c) (ncalls c) (id_fn c) (th_owner_id c) (is_notify_pending c).
Definition put_owner (i : Z) (c : control) : control :=
  mkCtrl (event_gotterm c) (event_break c) (event_continue c) (event_running_priority c) (running_loop c) (current_event c)
    (current_event_waiters c) (ncalls c) (id_fn c) i (is_notify_pending c).

(** ** Setting up events *)

Definition event_get_closure (events : Z) : Z :=
  if has events EV_SIGNAL then EV_CLOSURE_SIGNAL
  else if has events EV_PERSIST then EV_CLOSURE_PERSIST else EV_CLOSURE_NONE.

Section Loop.
Context {B : Type} `{!LoopEnv B}.
Abbreviation T := (M (base B)).

Definition nactivequeues (q : queues) : Z := Z.of_nat (length (activequeues q)).

(** event_assign with this base, or with no base at all. *)
Definition event_assign (e : loc) (has_base : bool) (fd events callback arg : Z) : T Z :=
  let! v := rd e in
  let v1 := mkEvent fd has_base events 0 EVLIST_INIT (ev_pri v) (ev_closure v) (ev_io_timeout v) 0 false callback arg in
  if has events EV_SIGNAL && has events (Z.lor EV_READ EV_WRITE) then upd e (fun _ => v1) ;; ret (-1)
  else
    let! q := gets qs in
    let iot := if has events EV_SIGNAL then ev_io_timeout v
               else if has events EV_PERSIST then (0, 0) else ev_io_timeout v in
    let pri := if has_base then u8 (nactivequeues q / 2) else ev_pri v in
    upd e (fun _ => mkEvent fd has_base events 0 EVLIST_INIT pri (event_get_closure events) iot 0 false callback arg) ;;
    heap (MinHeap.min_heap_elem_init e) ;;
    ret 0.

Definition event_base_set (e : loc) : T Z :=
  let! v := rd e in
  if negb (Z.eqb (ev_flags v) EVLIST_INIT) then ret (-1)
  else
    let! q := gets qs in
    upd e (fun v => mkEvent (ev_fd v) true (ev_events v) (ev_res v) (ev_flags v) (u8 (nactivequeues q / 2)) (ev_closure v)
      (ev_io_timeout v) (ev_ncalls v) (ev_pncalls v) (ev_callback v) (ev_arg v)) ;;
    ret 0.

(** The new memory is a parameter: what it holds before event_assign. *)
Definition event_new (v0 : event) (t0 : MinHeap.event) (fd events callback arg : Z) : T (option loc) :=
  let! ok := alloc in
  if negb ok then ret None
  else
    let! m := gets evs in
    let! h := gets th in
    let e := fresh (dom m ∪ dom (MinHeap.evs h)) in
    modify (fun b : base B => set_th (MinHeap.mkSt (MinHeap.hp h) (<[e := t0]> (MinHeap.evs h)) (MinHeap.mem h)) (set_evs (<[e := v0]> m) b)) ;;
    let! r := event_assign e true fd events callback arg in
    if Z.ltb r 0 then
      modify (fun b : base B => set_th (MinHeap.mkSt (MinHeap.hp h) (delete e (MinHeap.evs (th b))) (MinHeap.mem h)) (set_evs (delete e (evs b)) b)) ;;
      ret None
    else ret (Some e).

Definition event_free (e : loc) : T unit :=
  let! _ := event_del e in
  modify (fun b : base B =>
    set_th (MinHeap.mkSt (MinHeap.hp (th b)) (delete e (MinHeap.evs (th b))) (MinHeap.mem (th b))) (set_evs (delete e (evs b)) b)).

Definition event_priority_set (e : loc) (pri : Z) : T Z :=
  let! v := rd e in
  if has (ev_flags v) EVLIST_ACTIVE then ret (-1)
  else
    let! q := gets qs in
    if Z.ltb pri 0 || Z.leb (nactivequeues q) pri then ret (-1)
    else upd e (set_pri (u8 pri)) ;; ret 0.

(** The events that are pending, and the time of the timeout when it is asked
    for and pending. *)
Definition event_pending (e : loc) (ev : Z) : T (Z * option timeval) :=
  let! v := rd e in
  if negb (ev_base v) then ret (0, None)
  else
    let flags := Z.lor (Z.lor
      (if has (ev_flags v) EVLIST_INSERTED then Z.land (ev_events v) (Z.lor (Z.lor EV_READ EV_WRITE) EV_SIGNAL) else 0)
      (if has (ev_flags v) EVLIST_ACTIVE then ev_res v else 0))
      (if has (ev_flags v) EVLIST_TIMEOUT then EV_TIMEOUT else 0) in
    let ev := Z.land ev (Z.lor (Z.lor (Z.lor EV_TIMEOUT EV_READ) EV_WRITE) EV_SIGNAL) in
    if has (Z.land flags ev) EV_TIMEOUT then
      let! t := timeout_of e in
      let! c := gets clk in
      ret (Z.land flags ev, Some (timeradd (tv_clock_diff c) (masked t)))
    else ret (Z.land flags ev, None).

Definition event_base_priority_init (npriorities : Z) : T Z :=
  let! q := gets qs in
  if negb (Z.eqb (event_count_active q) 0) || Z.ltb npriorities 1 || Z.leb 256 npriorities then ret (-1)
  else if Z.eqb npriorities (nactivequeues q) then ret 0
  else
    let! ok := alloc in
    if ok : bool then
      qset (fun q => put_active (replicate (Z.to_nat npriorities) []) (event_count_active q) q) ;; ret 0
    else qset (fun q => put_active [] (event_count_active q) q) ;; ret (-1).

(** ** Callbacks *)

Definition call_event (v : event) : T unit := call (ev_callback v) (ev_fd v) (ev_res v) (ev_arg v).

(** while (ncalls) ... ; the counter is in [ctrl]. *)
Fixpoint signal_calls (fuel : nat) (e : loc) : T unit :=
  match fuel with
  | O => fail NoFuel
  | S f =>
      let! c := gets ctrl in
      if Z.eqb (ncalls c) 0 then ret tt
      else
        let n := ncalls c - 1 in
        cset (put_ncalls n) ;;
        upd e (fun v => set_calls n (if Z.eqb n 0 then false else ev_pncalls v) v) ;;
        let! v := rd e in
        call_event v ;;
        let! c := gets ctrl in
        if event_break c then
          when (negb (Z.eqb (ncalls c) 0)) (upd e (fun v => set_calls (ev_ncalls v) false v))
        else signal_calls f e
  end.

Definition event_signal_closure (e : loc) : T unit :=
  let! v := rd e in
  cset (put_ncalls (ev_ncalls v)) ;;
  when (negb (Z.eqb (ev_ncalls v) 0)) (upd e (fun v => set_calls (ev_ncalls v) true v)) ;;
  signal_calls (S (Z.to_nat (ev_ncalls v))) e.

(** When a persistent event runs again. *)
Definition run_at (v : event) (t now : timeval) (q : queues) : timeval :=
  let common := is_common_timeout t q in
  let delay := if common then masked (ev_io_timeout v) else ev_io_timeout v in
  let usec_mask := if common then magic (ev_io_timeout v) else 0 in
  let relative_to := if has (ev_res v) EV_TIMEOUT then (if common then masked t else t) else now in
  let r := timeradd relative_to delay in
  let r := if tv_lt r now then timeradd now delay else r in
  (fst r, Z.lor (snd r) usec_mask).

Definition event_persist_closure (e : loc) : T unit :=
  let! v := rd e in
  when (negb (Z.eqb (fst (ev_io_timeout v)) 0) || negb (Z.eqb (snd (ev_io_timeout v)) 0))
    (let! t := timeout_of e in
     if negb (is_same_common_timeout t (ev_io_timeout v)) then fail AssertFailed
     else
       let! now := now_ in
       let! q := gets qs in
       let! _ := event_add_internal e (Some (run_at v t now q)) true in
       ret tt) ;;
  let! v := rd e in
  call_event v.

(** One event of an active queue: take it off, and run its callback. *)
Definition run_event (e : loc) : T bool :=
  let! v := rd e in
  (if has (ev_events v) EV_PERSIST then event_queue_remove addr e EVLIST_ACTIVE
   else let! _ := event_del_internal e in ret tt) ;;
  let! v := rd e in
  let counts := negb (has (ev_flags v) EVLIST_INTERNAL) in
  cset (put_current (Some e) 0) ;;
  (if Z.eqb (ev_closure v) EV_CLOSURE_SIGNAL then event_signal_closure e
   else if Z.eqb (ev_closure v) EV_CLOSURE_PERSIST then event_persist_closure e
   else call_event v) ;;
  cset (put_current None 0) ;;
  ret counts.

(** [p] is the index of the queue, -1 the result for event_break. Callbacks may
    activate further events of the queue, so the number of rounds is not
    bounded by its length. *)
Fixpoint event_process_active_single_queue (fuel : nat) (p : nat) (count : Z) : T Z :=
  match fuel with
  | O => fail NoFuel
  | S f =>
      let! q := gets qs in
      match activequeues q !! p with
      | None => fail Overread
      | Some [] => ret count
      | Some (e :: _) =>
          let! counts := run_event e in
          let count := if counts : bool then count + 1 else count in
          let! c := gets ctrl in
          if event_break c then ret (-1)
          else if event_continue c then ret count
          else event_process_active_single_queue f p count
      end
  end.

(** The queues from priority [p] on, [k] of them. The call of
    event_process_deferred_callbacks that follows is in [Deferred]. *)
Fixpoint process_queues (fuel k p : nat) (c : Z) : T Z :=
  match k with
  | O => ret c
  | S k' =>
      let! q := gets qs in
      match activequeues q !! p with
      | None => fail Overread
      | Some [] => process_queues fuel k' (S p) c
      | Some (_ :: _) =>
          cset (put_priority (Z.of_nat p)) ;;
          let! c := event_process_active_single_queue fuel p 0 in
          if Z.ltb c 0 then ret (-1)
          else if Z.ltb 0 c then ret c
          else process_queues fuel k' (S p) c
      end
  end.

Definition event_process_active (fuel : nat) : T Z :=
  let! q := gets qs in
  let! c := process_queues fuel (length (activequeues q)) 0 0 in
  cset (put_priority (-1)) ;;
  ret c.

(** ** The loop *)

Definition event_haveevents (q : queues) : bool := Z.ltb 0 (virtual_event_count q) || Z.ltb 0 (event_count q).

(** N_ACTIVE_CALLBACKS: [Deferred] adds the deferred callbacks, of which
    this program has none. *)
Definition N_ACTIVE_CALLBACKS (q : queues) : Z := event_count_active q.

(** One round: the result when the loop ends, else whether [done] is set. *)
Definition loop_round (fuel : nat) (flags : Z) : T (Z + bool) :=
  cset (fun c => put_loop (event_gotterm c) (event_break c) false c) ;;
  let! c := gets ctrl in
  if event_gotterm c || event_break c then ret (inl 0)
  else
    timeout_correct ;;
    let! q := gets qs in
    let! tv := (if Z.eqb (N_ACTIVE_CALLBACKS q) 0 && negb (has flags EVLOOP_NONBLOCK) then timeout_next else ret (Some (0, 0))) in
    if negb (event_haveevents q) && Z.eqb (N_ACTIVE_CALLBACKS q) 0 then ret (inl 1)
    else
      let! t := gettime in
      (match t with Some t => kset (put_event_tv t) | None => ret tt end) ;;
      clear_time_cache ;;
      let! r := dispatch tv in
      if Z.eqb r (-1) then ret (inl (-1))
      else
        update_time_cache ;;
        timeout_process ;;
        let! q := gets qs in
        if negb (Z.eqb (N_ACTIVE_CALLBACKS q) 0) then
          let! n := event_process_active fuel in
          let! q := gets qs in
          ret (inr (has flags EVLOOP_ONCE && Z.eqb (N_ACTIVE_CALLBACKS q) 0 && negb (Z.eqb n 0)))
        else ret (inr (has flags EVLOOP_NONBLOCK)).

Fixpoint loop_rounds (rounds fuel : nat) (flags : Z) : T Z :=
  match rounds with
  | O => fail NoFuel
  | S k =>
      let! r := loop_round fuel flags in
      match r with
      | inl v => ret v
      | inr true => ret 0
      | inr false => loop_rounds k fuel flags
      end
  end.

(** [rounds] bounds the rounds and [fuel] the callbacks of a round: the loop of
    a server does not end by itself. *)
Definition event_base_loop (rounds fuel : nat) (flags : Z) : T Z :=
  let! c := gets ctrl in
  if running_loop c then ret (-1)
  else
    cset (put_running true) ;;
    clear_time_cache ;;
    resume_signals ;;
    cset (fun c => put_owner (match id_fn c with Some i => i | None => 1 end) c) ;;
    cset (fun c => put_loop false false (event_continue c) c) ;;
    let! r := loop_rounds rounds fuel flags in
    clear_time_cache ;;
    cset (put_running false) ;;
    ret r.

Definition event_base_loopbreak : T Z :=
  cset (fun c => put_loop (event_gotterm c) true (event_continue c) c) ;;
  let! c := gets ctrl in
  if EVBASE_NEED_NOTIFY c then evthread_notify_base th_notify_fn else ret 0.

Definition event_loopexit_cb : T unit := cset (fun c => put_loop true (event_break c) (event_continue c) c).
End Loop.
End EvLoop.
