(* ===== verification/EvSig.v ===== *)
(** * Signals as events (src/libevent/signal.c)

    A signal handler writes the number of the signal to a socket pair; the
    internal event ev_signal reads it in the loop and activates the events of
    that signal. [HasSig]: where the state behind a backend keeps struct
    evsig_info, the three static variables of the file (with whether evsig_base
    is this base), and the system: the installed handlers, the answers of
    sigaction, socketpair and recv, and the bytes sent. *)

From stdpp Require Import prelude gmap.
From S2P Require Import Prelude MinHeap EvBase EvOps EvLoop.
Open Scope Z_scope.

Module EvSig.
Import EvBase EvOps EvLoop.

Definition NSIG : Z := 65.

(** sh_old holds the saved handlers; its length is sh_old_max. *)
Record evsig_info := mkSigInfo {
  ev_signal : loc; ev_signal_pair : Z * Z; ev_signal_added : bool; ev_n_signals_added : Z; sh_old : list (option Z) }.

(** [evsig_base]: [None] is NULL, [Some true] this base. A handler is a number,
    0 the default action. [received]: what recv gives, an error or bytes. *)
Record signals := mkSignals {
  sig : evsig_info; evsig_base : option bool; evsig_base_n_signals_added : Z; evsig_base_fd : Z;
  handlers : gmap Z Z; sigactions : list bool; pairs : list (option (Z * Z)); received : list (Z + bytes); sent : list (Z * Z) }.

Class HasSig (B : Type) := { get_sig : B -> signals; put_sig : signals -> B -> B }.

Definition set_sig (i : evsig_info) (s : signals) : signals :=
  mkSignals i (evsig_base s) (evsig_base_n_signals_added s) (evsig_base_fd s) (handlers s) (sigactions s) (pairs s) (received s) (sent s).
Definition set_globals (b : option bool) (n fd : Z) (s : signals) : signals :=
  mkSignals (sig s) b n fd (handlers s) (sigactions s) (pairs s) (received s) (sent s).
Definition set_sh_old (l : list (option Z)) (i : evsig_info) : evsig_info :=
  mkSigInfo (ev_signal i) (ev_signal_pair i) (ev_signal_added i) (ev_n_signals_added i) l.
Definition set_pair (p : Z * Z) (i : evsig_info) : evsig_info :=
  mkSigInfo (ev_signal i) p (ev_signal_added i) (ev_n_signals_added i) (sh_old i).
Definition set_signal_added (x : bool) (i : evsig_info) : evsig_info :=
  mkSigInfo (ev_signal i) (ev_signal_pair i) x (ev_n_signals_added i) (sh_old i).
Definition set_n_signals (n : Z) (i : evsig_info) : evsig_info :=
  mkSigInfo (ev_signal i) (ev_signal_pair i) (ev_signal_added i) n (sh_old i).

(** evutil_socketpair takes an answer. *)
Definition take_pair (s : signals) : signals :=
  mkSignals (sig s) (evsig_base s) (evsig_base_n_signals_added s) (evsig_base_fd s) (handlers s) (sigactions s) (tail (pairs s)) (received s) (sent s).

(** The numbers of the two functions of this file that are called through
    pointers. *)
Definition evsig_handler_addr : Z := -2.
Definition evsig_cb_addr : Z := -3.

Definition EAGAIN : Z := 11.
Definition EINTR : Z := 4.

(** ** The system *)

(** sigaction: the handler before, or [None] for -1. *)
Definition sigaction (signo handler : Z) (s : signals) : option Z * signals :=
  let s' h := mkSignals (sig s) (evsig_base s) (evsig_base_n_signals_added s) (evsig_base_fd s) h (tail (sigactions s)) (pairs s) (received s) (sent s) in
  match sigactions s with
  | false :: _ => (None, s' (handlers s))
  | _ => (Some (default 0 (handlers s !! signo)), s' (<[signo := handler]> (handlers s)))
  end.

(** evsig_handler, when signal [signo] arrives: one byte to the socket. *)
Definition evsig_handler (signo : Z) (s : signals) : signals :=
  match evsig_base s with
  | None => s
  | Some _ =>
      mkSignals (sig s) (evsig_base s) (evsig_base_n_signals_added s) (evsig_base_fd s) (handlers s) (sigactions s) (pairs s) (received s)
        (sent s ++ [(evsig_base_fd s, u8 signo)])
  end.

Section Sig.
Context {B : Type} `{!HasSig B} (op : eventop B) (notify_fn : option (M B Z)) (ad : loc -> Z).
Abbreviation T := (M (base B)).

Definition siget : T signals := gets (fun b : base B => get_sig (evbase b)).
Definition siset (f : signals -> signals) : T unit :=
  modify (fun b : base B => set_evbase (put_sig (f (get_sig (evbase b))) (evbase b)) b).
Definition siupd (f : evsig_info -> evsig_info) : T unit := siset (fun s => set_sig (f (sig s)) s).

(** ev_signal waits for a descriptor: event_add and event_del do not come back
    to this file for it. *)
Definition io_env : Env B :=
  {| evsel := op; evsig_add := fun _ => fail AssertFailed; evsig_del := fun _ => fail AssertFailed; th_notify_fn := notify_fn; addr := ad |}.

Definition evsig_set_base : T unit :=
  siset (fun s => set_globals (Some true) (ev_n_signals_added (sig s)) (fst (ev_signal_pair (sig s))) s).

(** When the loop starts: if (ev_signal_added && ev_n_signals_added). *)
Definition resume : T unit :=
  let! s := siget in
  when (ev_signal_added (sig s) && negb (Z.eqb (ev_n_signals_added (sig s)) 0)) evsig_set_base.

(** event_sock_err(1, ...) ends the process. *)
Definition evsig_init : T Z :=
  let! s := siget in
  siset take_pair ;;
  match pairs s with
  | Some p :: _ =>
      siupd (set_pair p) ;;
      siupd (set_sh_old []) ;;
      let e := ev_signal (sig s) in
      let! _ := event_assign e true (snd p) (Z.lor EV_READ EV_PERSIST) evsig_cb_addr 0 in
      upd e (fun v => set_flags (Z.lor (ev_flags v) EVLIST_INTERNAL) v) ;;
      let! _ := event_priority_set e 0 in
      ret 0
  | _ => fail Exited
  end.

(** sh_old with room for [evsignal], and that entry filled with uninitialised
    memory; [None] when an allocation fails. *)
Definition make_room (evsignal : Z) : T bool :=
  let! s := siget in
  if Z.leb (Z.of_nat (length (sh_old (sig s)))) evsignal then
    let! ok := alloc in
    if ok : bool then
      siupd (fun i => set_sh_old (sh_old i ++ replicate (Z.to_nat (evsignal + 1) - length (sh_old i)) None) i) ;; ret true
    else ret false
  else ret true.

Definition _evsig_set_handler (evsignal handler : Z) : T Z :=
  let! room := make_room evsignal in
  if negb room then ret (-1)
  else
    let! ok := alloc in
    if negb ok then siupd (fun i => set_sh_old (<[Z.to_nat evsignal := None]> (sh_old i)) i) ;; ret (-1)
    else
      let! s := siget in
      let '(old, s') := sigaction evsignal handler s in
      siset (fun _ => s') ;;
      siupd (fun i => set_sh_old (<[Z.to_nat evsignal := old]> (sh_old i)) i) ;;
      ret (match old with Some _ => 0 | None => -1 end).

Definition evsig_add (evsignal : Z) : T Z :=
  if negb (Z.leb 0 evsignal && Z.ltb evsignal NSIG) then fail AssertFailed
  else
    siset (fun s => let i := set_n_signals (ev_n_signals_added (sig s) + 1) (sig s) in
      set_globals (Some true) (ev_n_signals_added i) (fst (ev_signal_pair i)) (set_sig i s)) ;;
    let err : T Z :=
      siset (fun s => set_globals (evsig_base s) (evsig_base_n_signals_added s - 1) (evsig_base_fd s)
        (set_sig (set_n_signals (ev_n_signals_added (sig s) - 1) (sig s)) s)) ;;
      ret (-1) in
    let! r := _evsig_set_handler evsignal evsig_handler_addr in
    if Z.eqb r (-1) then err
    else
      let! s := siget in
      if ev_signal_added (sig s) then ret 0
      else
        let! r := @event_add B io_env (ev_signal (sig s)) None in
        if negb (Z.eqb r 0) then err
        else siupd (set_signal_added true) ;; ret 0.

(** The saved handler is installed again; sigaction(sig, NULL, NULL) only asks. *)
Definition _evsig_restore_handler (evsignal : Z) : T Z :=
  let! s := siget in
  match sh_old (sig s) !! Z.to_nat evsignal with
  | None => fail Overread
  | Some sh =>
      siupd (fun i => set_sh_old (<[Z.to_nat evsignal := None]> (sh_old i)) i) ;;
      let! s := siget in
      match sh with
      | Some h => let '(r, s') := sigaction evsignal h s in siset (fun _ => s') ;; ret (match r with Some _ => 0 | None => -1 end)
      | None => ret 0
      end
  end.

Definition evsig_del (evsignal : Z) : T Z :=
  if negb (Z.leb 0 evsignal && Z.ltb evsignal NSIG) then fail AssertFailed
  else
    siset (fun s => set_globals (evsig_base s) (evsig_base_n_signals_added s - 1) (evsig_base_fd s)
      (set_sig (set_n_signals (ev_n_signals_added (sig s) - 1) (sig s)) s)) ;;
    _evsig_restore_handler evsignal.

(** The environment of a base whose signals are those of this file. *)
Definition sig_env : Env B :=
  {| evsel := op; EvOps.evsig_add := evsig_add; EvOps.evsig_del := evsig_del; th_notify_fn := notify_fn; addr := ad |}.

(** ncaught after the bytes [l] *)
Fixpoint catch (l : bytes) (ncaught : gmap Z Z) : gmap Z Z :=
  match l with
  | [] => ncaught
  | c :: l' => catch l' (if Z.ltb (u8 c) NSIG then <[u8 c := default 0 (ncaught !! u8 c) + 1]> ncaught else ncaught)
  end.

(** while (1): each round uses one answer of recv. *)
Fixpoint drain (l : list (Z + bytes)) (ncaught : gmap Z Z) : T (gmap Z Z) :=
  match l with
  | [] => fail Blocked
  | a :: l' =>
      siset (fun s => mkSignals (sig s) (evsig_base s) (evsig_base_n_signals_added s) (evsig_base_fd s) (handlers s) (sigactions s) (pairs s) l' (sent s)) ;;
      match a with
      | inl err => if Z.eqb err EINTR || Z.eqb err EAGAIN then ret ncaught else fail Exited
      | inr [] => ret ncaught
      | inr l1 => drain l' (catch l1 ncaught)
      end
  end.

Fixpoint raise (k : nat) (i : Z) (ncaught : gmap Z Z) : T unit :=
  match k with
  | O => ret tt
  | S k' =>
      let n := default 0 (ncaught !! i) in
      when (negb (Z.eqb n 0)) (@evmap_signal_active B sig_env i n) ;;
      raise k' (i + 1) ncaught
  end.

Definition evsig_cb : T unit :=
  let! s := siget in
  let! ncaught := drain (received s) ∅ in
  raise (Z.to_nat NSIG) 0 ncaught.

Fixpoint restore_all (k : nat) (i : Z) : T unit :=
  match k with
  | O => ret tt
  | S k' =>
      let! s := siget in
      when (match sh_old (sig s) !! Z.to_nat i with Some (Some _) => true | _ => false end)
        (let! _ := _evsig_restore_handler i in ret tt) ;;
      restore_all k' (i + 1)
  end.

Definition evsig_dealloc : T unit :=
  let! s := siget in
  when (ev_signal_added (sig s)) (let! _ := @event_del B sig_env (ev_signal (sig s)) in siupd (set_signal_added false)) ;;
  upd (ev_signal (sig s)) (fun v => set_flags (Z.ldiff (ev_flags v) EVLIST_INIT) v) ;;
  restore_all (Z.to_nat NSIG) 0 ;;
  siset (fun s => match evsig_base s with Some true => set_globals None 0 (-1) s | _ => s end) ;;
  siupd (set_pair (-1, -1)) ;;
  siupd (set_sh_old []).
End Sig.
End EvSig.
