(* ===== verification/EvNew.v ===== *)
(** * Making, checking and freeing an event base (src/libevent/event.c)

    event_base_new with its configuration and the choice of the backend,
    event_base_free, and the checks that the library has for its own data
    (event_base_assert_ok, evmap_check_integrity). The backends are a
    list of [method]s; the environment of the process is the predicate
    [getenv]. The program installs no thread functions, so the base has no lock
    and no notification event: th_notify_fd[0] is -1. *)

From stdpp Require Import prelude gmap.
From S2P Require Import Prelude CLib EvAddr MinHeap EvBase EvOps EvLoop EvSig.
Open Scope Z_scope.

Module EvNew.
Import EvBase EvOps EvLoop.
Import EvSig (HasSig, get_sig, put_sig, mkSigInfo, set_sig).

(** ** Configuration *)

Definition EVENT_BASE_FLAG_IGNORE_ENV : Z := 0x02.
Definition EVENT_BASE_FLAG_NO_CACHE_TIME : Z := 0x08.

(** [avoid]: the names of the entries, in order. *)
Record event_config := mkCfg { avoid : list bytes; n_cpus_hint : Z; require_features : Z; cfg_flags : Z }.

(** [ok]: mm_calloc succeeds. *)
Definition event_config_new (ok : bool) : option event_config := if ok then Some (mkCfg [] 0 0 0) else None.

Definition event_config_is_avoided_method (cfg : event_config) (name : bytes) : bool :=
  existsb (fun x => bool_decide (x = name)) (avoid cfg).

Definition event_config_set_flag (cfg : option event_config) (flag : Z) : Z * option event_config :=
  match cfg with
  | None => (-1, None)
  | Some c => (0, Some (mkCfg (avoid c) (n_cpus_hint c) (require_features c) (Z.lor (cfg_flags c) flag)))
  end.

(** [ok1], [ok2]: mm_malloc and mm_strdup succeed. *)
Definition event_config_avoid_method (ok1 ok2 : bool) (c : event_config) (name : bytes) : Z * event_config :=
  if negb ok1 then (-1, c) else if negb ok2 then (-1, c)
  else (0, mkCfg (avoid c ++ [name]) (n_cpus_hint c) (require_features c) (cfg_flags c)).

Definition event_config_require_features (cfg : option event_config) (features : Z) : Z * option event_config :=
  match cfg with
  | None => (-1, None)
  | Some c => (0, Some (mkCfg (avoid c) (n_cpus_hint c) features (cfg_flags c)))
  end.

Definition event_config_set_num_cpus_hint (cfg : option event_config) (cpus : Z) : Z * option event_config :=
  match cfg with
  | None => (-1, None)
  | Some c => (0, Some (mkCfg (avoid c) cpus (require_features c) (cfg_flags c)))
  end.

(** The text in environment[64]: EVENT_NO and the name, cut to 63 characters,
    in capitals from index 8 on. *)
Definition environment (name : bytes) : bytes :=
  let t := take 63 ([69; 86; 69; 78; 84; 95; 78; 79] ++ name) in take 8 t ++ map (fun c => u8 (EvAddr.EVUTIL_TOUPPER c)) (drop 8 t).

Definition event_is_method_disabled (getenv : bytes -> bool) (name : bytes) : bool := getenv (environment name).

(** The first call asks for the monotonic clock. *)
Definition detect_monotonic (initialized : bool) (c : clock) : clock :=
  if initialized then c
  else mkClk (event_tv c) (tv_cache c) (tv_clock_diff c) (last_updated_clock_diff c)
    (match mono c with Some _ :: _ => true | _ => use_monotonic c end) (no_cache_time c) (tail (mono c)) (wall c).

(** TAILQ_NEXT of [e] *)
Fixpoint tq_next (e : loc) (l : list loc) : option loc :=
  match l with
  | [] => None
  | x :: l' => if decide (x = e) then head l' else tq_next e l'
  end.

Section New.
Context {B : Type} `{!HasSig B}.
Abbreviation T := (M (base B)).
(** [changelist_init]: event_changelist_init on the changelist of the base,
    which is kept behind the backend. [sig_ev]: the address of sig.ev_signal. *)
Context (notify_fn : option (M B Z)) (ad : loc -> Z) (changelist_init : M B unit) (sig_ev : loc).

(** A base that has chosen the functions [op]. *)
Definition env_of (op : eventop B) : Env B := EvSig.sig_env op notify_fn ad.

(** An entry of eventops. [m_init] is given base->flags; its result is NULL or
    base->evsel afterwards. *)
Record method := mkMethod {
  m_name : bytes; m_features : Z; m_op : eventop B; m_init : Z -> T (option (eventop B)); m_dealloc : T unit }.

(** ** Freeing a base *)

(** One of the loops over a queue: [sel] is the queue, which event_del changes
    while the loop runs. *)
Fixpoint del_queue (op : eventop B) (sel : queues -> list loc) (fuel : nat) (ev : option loc) : T unit :=
  match ev with
  | None => ret tt
  | Some e =>
      match fuel with
      | O => fail NoFuel
      | S f =>
          let! q := gets qs in
          let next := tq_next e (sel q) in
          let! v := rd e in
          when (negb (has (ev_flags v) EVLIST_INTERNAL)) (let! _ := @event_del B (env_of op) e in ret tt) ;;
          del_queue op sel f next
      end
  end.

Definition del_all (op : eventop B) (sel : queues -> list loc) : T unit :=
  let! q := gets qs in
  del_queue op sel (length (sel q)) (head (sel q)).

Fixpoint del_timeouts (op : eventop B) (fuel : nat) : T unit :=
  let! top := heap MinHeap.min_heap_top in
  match top with
  | None => ret tt
  | Some e =>
      match fuel with
      | O => fail NoFuel
      | S f => let! _ := @event_del B (env_of op) e in del_timeouts op f
      end
  end.

(** The events of queue [i] of common timeouts. *)
Definition common_events (i : nat) (q : queues) : list loc :=
  match commons q !! i with Some c => ctl_events c | None => [] end.

Fixpoint del_commons (op : eventop B) (cs : list common_timeout_list) (i : nat) : T unit :=
  match cs with
  | [] => ret tt
  | c :: cs' =>
      let! _ := @event_del B (env_of op) (ctl_timeout_event c) in
      del_all op (common_events i) ;;
      del_commons op cs' (S i)
  end.

Definition active_queue (i : nat) (q : queues) : list loc := default [] (activequeues q !! i).

Fixpoint del_active (op : eventop B) (k i : nat) : T unit :=
  match k with
  | O => ret tt
  | S k' => del_all op (active_queue i) ;; del_active op k' (S i)
  end.

Definition assert_that (x : bool) : T unit := if x then ret tt else fail AssertFailed.

Definition is_nil {A} (l : list A) : bool := match l with [] => true | _ => false end.

Definition event_base_free (op : eventop B) (dealloc : option (T unit)) : T unit :=
  del_all op eventqueue ;;
  let! n := heap (gets MinHeap.min_heap_size) in
  del_timeouts op (Z.to_nat n) ;;
  let! q := gets qs in
  del_commons op (commons q) 0 ;;
  del_active op (length (activequeues q)) 0 ;;
  match dealloc with Some d => d | None => ret tt end ;;
  let! q := gets qs in
  assert_that (forallb is_nil (activequeues q)) ;;
  let! h := heap (gets MinHeap.min_heap_empty) in
  assert_that h ;;
  assert_that (is_nil (eventqueue q)) ;;
  qset (fun q => put_io [] (put_sigmap [] q)) ;;
  backend changelist_init.

(** ** Making a base *)

(** mm_calloc and the initialisers: the members of the new base, with the
    memory of its event ev_signal; other events, allocations, clocks and
    backend are those of the process. *)
Definition fresh_base (b : base B) : base B :=
  mkBase (MinHeap.mkSt MinHeap.min_heap_ctor (<[sig_ev := MinHeap.mkEv 0 0 0]> (MinHeap.evs (th b))) (MinHeap.mem (th b)))
    (<[sig_ev := mkEvent 0 false 0 0 0 0 0 (0, 0) 0 false 0 0]> (evs b)) (mkQs [] [] [] [] [] 0 0 0)
    (mkClk (0, 0) (0, 0) (0, 0) 0 (use_monotonic (clk b)) false (mono (clk b)) (wall (clk b)))
    (mkCtrl false false false 0 false None 0 0 (id_fn (ctrl b)) 0 false)
    (put_sig (set_sig (mkSigInfo sig_ev (-1, -1) false 0 []) (get_sig (evbase b))) (evbase b)).

Definition put_no_cache (x : bool) (c : clock) : clock :=
  mkClk (event_tv c) (tv_cache c) (tv_clock_diff c) (last_updated_clock_diff c) (use_monotonic c) x (mono c) (wall c).

Definition skipped (getenv : bytes -> bool) (cfg : option event_config) (m : method) : bool :=
  match cfg with
  | Some c => event_config_is_avoided_method c (m_name m) ||
              negb (Z.eqb (Z.land (m_features m) (require_features c)) (require_features c))
  | None => false
  end ||
  (negb (match cfg with Some c => has (cfg_flags c) EVENT_BASE_FLAG_IGNORE_ENV | None => false end) &&
   event_is_method_disabled getenv (m_name m)).

Fixpoint choose_method (getenv : bytes -> bool) (cfg : option event_config) (l : list method) : T (option (method * eventop B)) :=
  match l with
  | [] => ret None
  | m :: l' =>
      if skipped getenv cfg m then choose_method getenv cfg l'
      else
        let! r := m_init m (match cfg with Some c => cfg_flags c | None => 0 end) in
        match r with Some op => ret (Some (m, op)) | None => choose_method getenv cfg l' end
  end.

(** [eventops]: the table of backends. [None] is NULL. *)
Definition event_base_new_with_config (eventops : list method) (getenv : bytes -> bool) (initialized : bool)
    (cfg : option event_config) : T (option (method * eventop B)) :=
  let! ok := alloc in
  if negb ok then ret None
  else
    modify fresh_base ;;
    kset (detect_monotonic initialized) ;;
    let! t := gettime in
    (match t with Some t => kset (put_event_tv t) | None => ret tt end) ;;
    kset (put_no_cache (match cfg with Some c => has (cfg_flags c) EVENT_BASE_FLAG_NO_CACHE_TIME | None => false end)) ;;
    backend changelist_init ;;
    let! r := choose_method getenv cfg eventops in
    match r with
    | None => event_base_free (mkOp (fun _ _ _ => fail NullDeref) (fun _ _ _ => fail NullDeref)) None ;; ret None
    | Some (m, op) =>
        let! r := event_base_priority_init 1 in
        if Z.ltb r 0 then event_base_free op (Some (m_dealloc m)) ;; ret None
        else ret (Some (m, op))
    end.

Definition event_base_new (eventops : list method) (getenv : bytes -> bool) (initialized : bool) : T (option (method * eventop B)) :=
  let! ok := alloc in
  match event_config_new ok with
  | None => ret None
  | Some cfg => event_base_new_with_config eventops getenv initialized (Some cfg)
  end.

(** event_errx ends the process. *)
Definition event_init (eventops : list method) (getenv : bytes -> bool) (initialized : bool) : T (method * eventop B) :=
  let! r := event_base_new_with_config eventops getenv initialized None in
  match r with None => fail Exited | Some x => ret x end.

(** ** The library's own checks *)

Definition EVLIST_X_SIGFOUND : Z := 0x1000.
Definition EVLIST_X_IOFOUND : Z := 0x2000.

(** The first loop over eventqueue: the events are added, and are not marked
    as found. *)
Fixpoint check_queue (l : list loc) : T unit :=
  match l with
  | [] => ret tt
  | e :: l' =>
      let! v := rd e in
      assert_that (has (ev_flags v) EVLIST_INSERTED) ;;
      assert_that (has (ev_flags v) EVLIST_INIT) ;;
      upd e (fun v => set_flags (Z.ldiff (ev_flags v) (Z.lor EVLIST_X_SIGFOUND EVLIST_X_IOFOUND)) v) ;;
      check_queue l'
  end.

(** The events of entry [i]: not found before, and of this descriptor or signal. *)
Fixpoint check_entry (found i : Z) (l : list loc) : T unit :=
  match l with
  | [] => ret tt
  | e :: l' =>
      let! v := rd e in
      assert_that (negb (has (ev_flags v) found)) ;;
      assert_that (Z.eqb (ev_fd v) i) ;;
      upd e (fun v => set_flags (Z.lor (ev_flags v) found) v) ;;
      check_entry found i l'
  end.

(** All entries from index [i] on; the result counts the events. *)
Fixpoint check_entries (found i : Z) (ls : list (list loc)) (n : Z) : T Z :=
  match ls with
  | [] => ret n
  | l :: ls' => check_entry found i l ;; check_entries found (i + 1) ls' (n + Z.of_nat (length l))
  end.

(** The last loop: every event was found, and the numbers agree. *)
Fixpoint check_found (l : list loc) (nio nsignals : Z) : T (Z * Z) :=
  match l with
  | [] => ret (nio, nsignals)
  | e :: l' =>
      let! v := rd e in
      let io := has (ev_events v) (Z.lor EV_READ EV_WRITE) in
      let sig := has (ev_events v) EV_SIGNAL in
      assert_that (negb io || has (ev_flags v) EVLIST_X_IOFOUND) ;;
      assert_that (negb sig || has (ev_flags v) EVLIST_X_SIGFOUND) ;;
      check_found l' (if io then nio - 1 else nio) (if sig then nsignals - 1 else nsignals)
  end.

Definition entry_events (x : option evmap_io) : list loc := match x with Some c => io_events c | None => [] end.

Definition evmap_check_integrity : T unit :=
  let! q := gets qs in
  check_queue (eventqueue q) ;;
  let! nio := check_entries EVLIST_X_IOFOUND 0 (map entry_events (io q)) 0 in
  let! nsig := check_entries EVLIST_X_SIGFOUND 0 (map (default []) (sigmap q)) 0 in
  let! (nio, nsig) := check_found (eventqueue q) nio nsig in
  assert_that (Z.eqb nio 0) ;;
  assert_that (Z.eqb nsig 0).

(** The heap from index [i] on, [k] slots. *)
Fixpoint check_heap (k : nat) (i : Z) : T unit :=
  match k with
  | O => ret tt
  | S k' =>
      let! e := heap (MinHeap.slot i) in
      let! pe := heap (MinHeap.slot (Z.quot (i - 1) 2)) in
      let! v := rd e in
      assert_that (has (ev_flags v) EV_TIMEOUT) ;;
      let! pt := timeout_of pe in
      let! t := timeout_of e in
      assert_that (tv_le pt t) ;;
      let! h := heap (MinHeap.load e) in
      assert_that (Z.eqb (MinHeap.min_heap_idx h) i) ;;
      check_heap k' (i + 1)
  end.

(** Queue [i] of common timeouts; [last] is the timeout of the event before. *)
Fixpoint check_common (i : Z) (last : option timeval) (l : list loc) : T unit :=
  match l with
  | [] => ret tt
  | e :: l' =>
      let! t := timeout_of e in
      assert_that (match last with Some u => tv_le u t | None => true end) ;;
      let! v := rd e in
      assert_that (has (ev_flags v) EV_TIMEOUT) ;;
      let! q := gets qs in
      assert_that (is_common_timeout t q) ;;
      assert_that (Z.eqb (COMMON_TIMEOUT_IDX t) i) ;;
      check_common i (Some t) l'
  end.

Fixpoint check_commons (i : Z) (cs : list common_timeout_list) : T unit :=
  match cs with
  | [] => ret tt
  | c :: cs' => check_common i None (ctl_events c) ;; check_commons (i + 1) cs'
  end.

Definition event_base_assert_ok : T unit :=
  evmap_check_integrity ;;
  let! n := heap (gets MinHeap.min_heap_size) in
  check_heap (Z.to_nat (s32 n) - 1) 1 ;;
  let! q := gets qs in
  check_commons 0 (commons q).
End New.
End EvNew.
