(* ===== verification/EvInv.v ===== *)
(** * The invariant of an event base

    The flags of every event say on which queues it is; the counters are the
    sizes of the queues; the heap holds the events with a timeout; every
    descriptor's entry lists its events and counts readers and writers; and
    the backend watches exactly what these counts ask for. [BackendOk] is what
    a backend promises. *)

From stdpp Require Import prelude gmap.
From S2P Require Import Prelude MinHeap EvBase EvOps.
Open Scope Z_scope.

Module EvInv.
Import EvBase EvOps.

(** ** Bits *)

Lemma has_lor f q x : has (Z.lor f q) x = has f x || has q x.
Proof.
  unfold has. rewrite Z.land_lor_distr_l. destruct (Z.eqb_spec (Z.lor (Z.land f x) (Z.land q x)) 0) as [E|E].
  - apply Z.lor_eq_0_iff in E as [-> ->]. done.
  - destruct (Z.eqb_spec (Z.land f x) 0) as [E1|]; [|done]. destruct (Z.eqb_spec (Z.land q x) 0) as [E2|]; [|done].
    by rewrite E1, E2 in E.
Qed.

Lemma has_ldiff f q x : Z.land q x = 0 -> has (Z.ldiff f q) x = has f x.
Proof.
  intros H. unfold has. do 2 f_equal. apply Z.bits_inj'. intros n Hn.
  rewrite !Z.land_spec, Z.ldiff_spec. assert (E : Z.testbit (Z.land q x) n = false) by (by rewrite H, Z.bits_0).
  rewrite Z.land_spec in E. by destruct (Z.testbit f n), (Z.testbit q n), (Z.testbit x n).
Qed.

Lemma has_ldiff_same f q : has (Z.ldiff f q) q = false.
Proof.
  unfold has. replace (Z.land (Z.ldiff f q) q) with 0; [done|]. symmetry. apply Z.bits_inj'. intros n Hn.
  rewrite Z.land_spec, Z.ldiff_spec, Z.bits_0. by destruct (Z.testbit f n), (Z.testbit q n).
Qed.

Lemma has_lnot_lor f q x : Z.land q x = 0 -> has (Z.lnot (Z.lor f q)) x = has (Z.lnot f) x.
Proof.
  intros H. unfold has. do 2 f_equal. apply Z.bits_inj'. intros n Hn.
  rewrite !Z.land_spec, !Z.lnot_spec, Z.lor_spec by done. assert (E : Z.testbit (Z.land q x) n = false) by (by rewrite H, Z.bits_0).
  rewrite Z.land_spec in E. by destruct (Z.testbit f n), (Z.testbit q n), (Z.testbit x n).
Qed.

Lemma has_lnot_ldiff f q x : Z.land q x = 0 -> has (Z.lnot (Z.ldiff f q)) x = has (Z.lnot f) x.
Proof.
  intros H. unfold has. do 2 f_equal. apply Z.bits_inj'. intros n Hn.
  rewrite !Z.land_spec, !Z.lnot_spec, Z.ldiff_spec by done. assert (E : Z.testbit (Z.land q x) n = false) by (by rewrite H, Z.bits_0).
  rewrite Z.land_spec in E. by destruct (Z.testbit f n), (Z.testbit q n), (Z.testbit x n).
Qed.

Lemma ldiff_lor f q m : Z.ldiff f m = 0 -> Z.ldiff q m = 0 -> Z.ldiff (Z.lor f q) m = 0.
Proof.
  intros H1 H2. apply Z.bits_inj'. intros n Hn. rewrite Z.ldiff_spec, Z.lor_spec, Z.bits_0.
  assert (E1 : Z.testbit (Z.ldiff f m) n = false) by (by rewrite H1, Z.bits_0).
  assert (E2 : Z.testbit (Z.ldiff q m) n = false) by (by rewrite H2, Z.bits_0).
  rewrite Z.ldiff_spec in E1, E2. by destruct (Z.testbit f n), (Z.testbit q n), (Z.testbit m n).
Qed.

Lemma ldiff_ldiff f q m : Z.ldiff f m = 0 -> Z.ldiff (Z.ldiff f q) m = 0.
Proof.
  intros H1. apply Z.bits_inj'. intros n Hn. rewrite !Z.ldiff_spec, Z.bits_0.
  assert (E1 : Z.testbit (Z.ldiff f m) n = false) by (by rewrite H1, Z.bits_0).
  rewrite Z.ldiff_spec in E1. by destruct (Z.testbit f n), (Z.testbit q n), (Z.testbit m n).
Qed.

(** ** What the flags of an event say *)

(** [e] is in memory and on the queue(s) [q]. *)
Definition on (m : gmap loc event) (q : Z) (e : loc) : Prop :=
  exists v, m !! e = Some v /\ has (ev_flags v) q = true.

Definition weight (v : event) : Z :=
  if counted v then
    Z.b2z (has (ev_flags v) EVLIST_TIMEOUT) + Z.b2z (has (ev_flags v) EVLIST_INSERTED) + Z.b2z (has (ev_flags v) EVLIST_ACTIVE)
  else 0.

(** The number of places on queues that non-internal events take. *)
Definition total (m : gmap loc event) : Z := map_fold (fun _ v n => weight v + n) 0 m.

Lemma total_insert m e v : m !! e = None -> total (<[e := v]> m) = weight v + total m.
Proof. intros He. unfold total. rewrite map_fold_insert_L; [done| |done]. intros. lia. Qed.

Lemma total_update m e v v' : m !! e = Some v -> total (<[e := v']> m) = total m - weight v + weight v'.
Proof.
  intros He. rewrite <-(insert_delete_id m e v He) at 2. rewrite <-(insert_delete_eq m e v').
  rewrite !total_insert by apply lookup_delete_eq. lia.
Qed.

(** The three queues. *)
Definition is_queue (q : Z) : Prop := q = EVLIST_TIMEOUT \/ q = EVLIST_INSERTED \/ q = EVLIST_ACTIVE.

Lemma queue_bits : is_queue EVLIST_TIMEOUT /\ is_queue EVLIST_INSERTED /\ is_queue EVLIST_ACTIVE.
Proof. unfold is_queue. auto. Qed.

(** ** One event is marked or unmarked *)

Definition marked (q : Z) (v : event) : event := set_flags (Z.lor (ev_flags v) q) v.
Definition unmarked (q : Z) (v : event) : event := set_flags (Z.ldiff (ev_flags v) q) v.

Lemma counted_marked q v : is_queue q -> counted (marked q v) = counted v.
Proof. intros Hq. unfold counted. cbn. apply has_lnot_lor. by destruct Hq as [->|[->| ->]]. Qed.
Lemma counted_unmarked q v : is_queue q -> counted (unmarked q v) = counted v.
Proof. intros Hq. unfold counted. cbn. apply has_lnot_ldiff. by destruct Hq as [->|[->| ->]]. Qed.

Lemma has_marked q x v : has (ev_flags (marked q v)) x = has (ev_flags v) x || has q x.
Proof. apply has_lor. Qed.
Lemma has_unmarked q x v : is_queue q -> is_queue x ->
  has (ev_flags (unmarked q v)) x = has (ev_flags v) x && negb (Z.eqb q x).
Proof.
  intros Hq Hx. cbn. destruct (Z.eqb_spec q x) as [->|Hne].
  - by rewrite has_ldiff_same, andb_false_r.
  - rewrite has_ldiff, andb_true_r; [done|].
    destruct Hq as [->|[->| ->]], Hx as [->|[->| ->]]; try done; by destruct Hne.
Qed.
Lemma has_queue q x : is_queue q -> is_queue x -> has q x = Z.eqb q x.
Proof. by intros [->|[->| ->]] [->|[->| ->]]. Qed.

Lemma weight_marked q v : is_queue q -> has (ev_flags v) q = false ->
  weight (marked q v) = weight v + (if counted v then 1 else 0).
Proof.
  intros Hq Hf. unfold weight. rewrite counted_marked by done. destruct (counted v); [|done]. rewrite !has_marked.
  destruct Hq as [->|[->| ->]]; rewrite Hf; repeat destruct (has (ev_flags v) _); reflexivity.
Qed.

Lemma weight_unmarked q v : is_queue q -> has (ev_flags v) q = true ->
  weight (unmarked q v) = weight v - (if counted v then 1 else 0).
Proof.
  intros Hq Hf. unfold weight. rewrite counted_unmarked by done. destruct (counted v); [|done].
  rewrite !has_unmarked by (try done; unfold is_queue; auto).
  destruct Hq as [->|[->| ->]]; rewrite Hf; repeat destruct (has (ev_flags v) _); reflexivity.
Qed.

Lemma on_marked m q x e v e' : is_queue q -> is_queue x -> m !! e = Some v ->
  on (<[e := marked q v]> m) x e' <-> on m x e' \/ (x = q /\ e' = e).
Proof.
  intros Hq Hx Hv. unfold on. destruct (decide (e' = e)) as [->|Hne].
  - rewrite lookup_insert_eq. split.
    + intros (w & [= <-] & Hw). rewrite has_marked, (has_queue q x) in Hw by done. destruct (Z.eqb_spec q x) as [->|]; [by right|].
      rewrite orb_false_r in Hw. left. eauto.
    + intros [(w & Hw & Hf)|[-> _]]; eexists; (split; [done|]); rewrite has_marked.
      * assert (w = v) as -> by congruence. by rewrite Hf.
      * by rewrite (has_queue q q), Z.eqb_refl, orb_true_r.
  - rewrite lookup_insert_ne by done. naive_solver.
Qed.

Lemma on_unmarked m q x e v e' : is_queue q -> is_queue x -> m !! e = Some v ->
  on (<[e := unmarked q v]> m) x e' <-> on m x e' /\ ~ (x = q /\ e' = e).
Proof.
  intros Hq Hx Hv. unfold on. destruct (decide (e' = e)) as [->|Hne].
  - rewrite lookup_insert_eq. split.
    + intros (w & [= <-] & Hw). rewrite has_unmarked in Hw by done. apply andb_true_iff in Hw as [Hw Hne].
      split; [eauto|]. intros [-> _]. by rewrite Z.eqb_refl in Hne.
    + intros [(w & Hw & Hf) Hn]. eexists. split; [done|]. rewrite has_unmarked by done. assert (w = v) as -> by congruence.
      rewrite Hf. destruct (Z.eqb_spec q x) as [->|]; [|done]. by destruct Hn.
  - rewrite lookup_insert_ne by done. naive_solver.
Qed.

(** [e] is active with priority [p]. *)
Definition active_at (m : gmap loc event) (p : Z) (e : loc) : Prop :=
  exists v, m !! e = Some v /\ has (ev_flags v) EVLIST_ACTIVE = true /\ ev_pri v = p.

Lemma active_at_on m p e v : m !! e = Some v -> active_at m p e <-> on m EVLIST_ACTIVE e /\ ev_pri v = p.
Proof. intros Hv. unfold active_at, on. naive_solver. Qed.

Lemma active_at_ne m p e v' e' : e' <> e -> active_at (<[e := v']> m) p e' <-> active_at m p e'.
Proof. intros Hne. unfold active_at. by rewrite lookup_insert_ne. Qed.

Lemma active_at_marked m q p e v e' : is_queue q -> m !! e = Some v ->
  active_at (<[e := marked q v]> m) p e' <-> active_at m p e' \/ (q = EVLIST_ACTIVE /\ e' = e /\ ev_pri v = p).
Proof.
  intros Hq Hv. destruct (decide (e' = e)) as [->|Hne]; [|rewrite active_at_ne by done; naive_solver].
  rewrite (active_at_on _ p e (marked q v)) by apply lookup_insert_eq.
  rewrite (active_at_on m p e v Hv), on_marked by (done || (unfold is_queue; auto)). cbn. naive_solver.
Qed.

Lemma active_at_unmarked m q p e v e' : is_queue q -> m !! e = Some v ->
  active_at (<[e := unmarked q v]> m) p e' <-> active_at m p e' /\ ~ (q = EVLIST_ACTIVE /\ e' = e).
Proof.
  intros Hq Hv. destruct (decide (e' = e)) as [->|Hne]; [|rewrite active_at_ne by done; naive_solver].
  rewrite (active_at_on _ p e (unmarked q v)) by apply lookup_insert_eq.
  rewrite (active_at_on m p e v Hv), on_unmarked by (done || (unfold is_queue; auto)). cbn. naive_solver.
Qed.

(** ** The queues *)

Definition rw : Z := Z.lor EV_READ EV_WRITE.

(** An event of a base with [n] priorities. The program uses no signal events. *)
Record ev_ok (n : nat) (v : event) : Prop := {
  eo_flags : Z.ldiff (ev_flags v) EVLIST_ALL = 0;
  eo_pri : 0 <= ev_pri v < Z.of_nat n;
  eo_nosig : has (ev_events v) EV_SIGNAL = false;
  eo_base : ev_base v = true;
  eo_fd : ev_fd v < 1073741824;
  eo_ins : has (ev_flags v) EVLIST_INSERTED = true -> has (ev_events v) rw = true
}.

Record queues_ok (m : gmap loc event) (q : queues) : Prop := {
  q_ev : forall e v, m !! e = Some v -> ev_ok (length (activequeues q)) v;
  q_ins_nd : NoDup (eventqueue q);
  q_ins : forall e, e ∈ eventqueue q <-> on m EVLIST_INSERTED e;
  q_act_nd : forall p l, activequeues q !! p = Some l -> NoDup l;
  q_act : forall p l e, activequeues q !! p = Some l -> e ∈ l <-> active_at m (Z.of_nat p) e;
  q_commons : commons q = [];
  q_count : event_count q = total m;
  q_cact : event_count_active q = Z.of_nat (sum_list_with length (activequeues q))
}.

Lemma ev_ok_marked n q v : is_queue q -> (q = EVLIST_INSERTED -> has (ev_events v) rw = true) -> ev_ok n v -> ev_ok n (marked q v).
Proof.
  intros Hq Hi [H1 H2 H3 H4 H5 H6]. split; try done.
  - cbn. apply ldiff_lor; [done|]. by destruct Hq as [->|[->| ->]].
  - rewrite has_marked. destruct (has (ev_flags v) EVLIST_INSERTED); [auto|]. cbn. destruct Hq as [->|[->| ->]]; [done|auto|done].
Qed.
Lemma ev_ok_unmarked n q v : is_queue q -> ev_ok n v -> ev_ok n (unmarked q v).
Proof.
  intros Hq [H1 H2 H3 H4 H5 H6]. split; try done; [cbn; by apply ldiff_ldiff|].
  rewrite has_unmarked by (done || apply queue_bits). intros [Hf _]%andb_true_iff. auto.
Qed.

Definition bump (v : event) (d : Z) (q : queues) : queues :=
  put_count (event_count q + (if counted v then d else 0)) q.

Lemma bump_when (v : event) (d : Z) (q : queues) :
  (if counted v then put_count (event_count q + d) q else q) = bump v d q.
Proof. unfold bump. destruct (counted v); [done|]. destruct q. cbn. by rewrite Z.add_0_r. Qed.

Lemma all_update (m : gmap loc event) (P : event -> Prop) e v' :
  (forall e v, m !! e = Some v -> P v) -> P v' -> forall x w, <[e := v']> m !! x = Some w -> P w.
Proof. intros HP Hv' x w. rewrite lookup_insert_Some. naive_solver. Qed.

Lemma total_marked m q e v : is_queue q -> m !! e = Some v -> has (ev_flags v) q = false ->
  total (<[e := marked q v]> m) = total m + (if counted v then 1 else 0).
Proof. intros. rewrite (total_update m e v), weight_marked by done. lia. Qed.
Lemma total_unmarked m q e v : is_queue q -> m !! e = Some v -> has (ev_flags v) q = true ->
  total (<[e := unmarked q v]> m) = total m + (if counted v then -1 else 0).
Proof. intros. rewrite (total_update m e v), weight_unmarked by done. destruct (counted v); lia. Qed.

Lemma on_has m q e v : m !! e = Some v -> on m q e <-> has (ev_flags v) q = true.
Proof. unfold on. naive_solver. Qed.

Lemma sum_length_insert (ls : list (list loc)) p l l' :
  ls !! p = Some l -> Z.of_nat (sum_list_with length (<[p := l']> ls)) = Z.of_nat (sum_list_with length ls) - Z.of_nat (length l) + Z.of_nat (length l').
Proof.
  revert p. induction ls as [|k ls IH]; intros [|p] Hl; try done.
  - injection Hl as ->. cbn. lia.
  - change (<[S p := l']> (k :: ls)) with (k :: <[p := l']> ls). specialize (IH p Hl). cbn [sum_list_with]. lia.
Qed.

Lemma filter_notin (e : loc) (l : list loc) : e ∉ l -> filter (fun x => x <> e) l = l.
Proof.
  induction l as [|x l IH]; [done|]. intros [Hx Hl]%not_elem_of_cons. rewrite filter_cons, decide_True by done. f_equal. auto.
Qed.

Lemma length_remove (e : loc) (l : list loc) : NoDup l -> e ∈ l -> Z.of_nat (length (filter (fun x => x <> e) l)) = Z.of_nat (length l) - 1.
Proof.
  induction 1 as [|x l Hx Hnd IH]; [by intros ?%not_elem_of_nil|]. rewrite elem_of_cons, filter_cons.
  destruct (decide (x = e)) as [->|Hne].
  - intros _. rewrite decide_False by tauto. rewrite filter_notin by done. cbn. lia.
  - intros [->|He]; [done|]. rewrite decide_True by done. cbn. specialize (IH He). lia.
Qed.

Section Mark.
Context (m : gmap loc event) (q : queues) (e : loc) (v : event).
Context (HQ : queues_ok m q) (Hv : m !! e = Some v).

Local Ltac qs_tac := destruct queue_bits as (QT & QI & QA).

Lemma mark_inserted : has (ev_flags v) EVLIST_INSERTED = false -> has (ev_events v) rw = true ->
  queues_ok (<[e := marked EVLIST_INSERTED v]> m) (put_eventqueue (eventqueue q ++ [e]) (bump v 1 q)).
Proof.
  intros Hf Hrw. qs_tac. destruct HQ as [H1 H2 H3 H4 H5 H6 H7 H8]. split; cbn; try done.
  - eapply all_update; [done|]. apply ev_ok_marked; [done|done|eauto].
  - apply NoDup_app. split_and!; [done| |apply NoDup_singleton]. intros x Hx ->%list_elem_of_singleton.
    apply H3 in Hx. apply (on_has _ _ _ v) in Hx; [congruence|done].
  - intros x. rewrite elem_of_app, list_elem_of_singleton, H3, (on_marked _ _ _ _ v) by done. naive_solver.
  - intros p l x Hl. rewrite (H5 p l x Hl), (active_at_marked _ _ _ _ v) by done. naive_solver.
  - by rewrite H7, (total_marked _ _ _ v).
Qed.

Lemma unmark_inserted : has (ev_flags v) EVLIST_INSERTED = true ->
  tq_remove e (eventqueue q) = Ok (filter (fun x => x <> e) (eventqueue q)) /\
  queues_ok (<[e := unmarked EVLIST_INSERTED v]> m) (put_eventqueue (filter (fun x => x <> e) (eventqueue q)) (bump v (-1) q)).
Proof.
  intros Hf. qs_tac. destruct HQ as [H1 H2 H3 H4 H5 H6 H7 H8]. split; [|split; cbn; try done].
  - unfold tq_remove. rewrite decide_True; [done|]. apply H3. by exists v.
  - eapply all_update; [done|]. apply ev_ok_unmarked; [done|eauto].
  - by apply NoDup_filter.
  - intros x. rewrite list_elem_of_filter, H3, (on_unmarked _ _ _ _ v) by done. naive_solver.
  - intros p l x Hl. rewrite (H5 p l x Hl), (active_at_unmarked _ _ _ _ v) by done. naive_solver.
  - by rewrite H7, (total_unmarked _ _ _ v).
Qed.

Lemma mark_timeout : has (ev_flags v) EVLIST_TIMEOUT = false ->
  queues_ok (<[e := marked EVLIST_TIMEOUT v]> m) (bump v 1 q).
Proof.
  intros Hf. qs_tac. destruct HQ as [H1 H2 H3 H4 H5 H6 H7 H8]. split; cbn; try done.
  - eapply all_update; [done|]. apply ev_ok_marked; [done|done|eauto].
  - intros x. rewrite H3, (on_marked _ _ _ _ v) by done. naive_solver.
  - intros p l x Hl. rewrite (H5 p l x Hl), (active_at_marked _ _ _ _ v) by done. naive_solver.
  - by rewrite H7, (total_marked _ _ _ v).
Qed.

Lemma unmark_timeout : has (ev_flags v) EVLIST_TIMEOUT = true ->
  queues_ok (<[e := unmarked EVLIST_TIMEOUT v]> m) (bump v (-1) q).
Proof.
  intros Hf. qs_tac. destruct HQ as [H1 H2 H3 H4 H5 H6 H7 H8]. split; cbn; try done.
  - eapply all_update; [done|]. apply ev_ok_unmarked; [done|eauto].
  - intros x. rewrite H3, (on_unmarked _ _ _ _ v) by done. naive_solver.
  - intros p l x Hl. rewrite (H5 p l x Hl), (active_at_unmarked _ _ _ _ v) by done. naive_solver.
  - by rewrite H7, (total_unmarked _ _ _ v).
Qed.

Context (l : list loc) (Hl : activequeues q !! Z.to_nat (ev_pri v) = Some l).

Lemma pri_eq : Z.of_nat (Z.to_nat (ev_pri v)) = ev_pri v.
Proof using HQ Hv. pose proof (eo_pri _ _ (q_ev _ _ HQ e v Hv)). lia. Qed.

Lemma mark_active : has (ev_flags v) EVLIST_ACTIVE = false ->
  queues_ok (<[e := marked EVLIST_ACTIVE v]> m)
    (put_active (<[Z.to_nat (ev_pri v) := l ++ [e]]> (activequeues q)) (event_count_active q + 1) (bump v 1 q)).
Proof.
  intros Hf. qs_tac. pose proof pri_eq as Ep. destruct HQ as [H1 H2 H3 H4 H5 H6 H7 H8]. split; cbn; try done.
  - rewrite length_insert. eapply all_update; [done|]. apply ev_ok_marked; [done|done|eauto].
  - intros x. rewrite H3, (on_marked _ _ _ _ v) by done. naive_solver.
  - intros p k. rewrite list_lookup_insert_Some. intros [(<- & <- & _)|[_ Hk]]; [|eauto].
    apply NoDup_app. split_and!; [eauto| |apply NoDup_singleton]. intros x Hx ->%list_elem_of_singleton.
    apply (H5 _ _ _ Hl) in Hx as (w & Hw & Ha & _). congruence.
  - intros p k x. rewrite (active_at_marked _ _ _ _ v) by done. rewrite list_lookup_insert_Some. intros [(<- & <- & _)|[Hp Hk]].
    + rewrite elem_of_app, list_elem_of_singleton, (H5 _ _ x Hl), Ep. naive_solver.
    + rewrite (H5 p k x Hk). split; [by left|]. intros [?|(_ & _ & E)]; [done|]. lia.
  - by rewrite H7, (total_marked _ _ _ v).
  - rewrite (sum_length_insert _ _ _ _ Hl), H8, length_app. cbn. lia.
Qed.

Lemma unmark_active : has (ev_flags v) EVLIST_ACTIVE = true ->
  tq_remove e l = Ok (filter (fun x => x <> e) l) /\
  queues_ok (<[e := unmarked EVLIST_ACTIVE v]> m)
    (put_active (<[Z.to_nat (ev_pri v) := filter (fun x => x <> e) l]> (activequeues q)) (event_count_active q + -1) (bump v (-1) q)).
Proof.
  intros Hf. qs_tac. pose proof pri_eq as Ep. destruct HQ as [H1 H2 H3 H4 H5 H6 H7 H8].
  assert (Hin : e ∈ l) by (apply (H5 _ _ _ Hl); exists v; by rewrite Ep).
  split; [by unfold tq_remove; rewrite decide_True|split; cbn; try done].
  - rewrite length_insert. eapply all_update; [done|]. apply ev_ok_unmarked; [done|eauto].
  - intros x. rewrite H3, (on_unmarked _ _ _ _ v) by done. naive_solver.
  - intros p k. rewrite list_lookup_insert_Some. intros [(<- & <- & _)|[_ Hk]]; [|eauto]. apply NoDup_filter. eauto.
  - intros p k x. rewrite (active_at_unmarked _ _ _ _ v) by done. rewrite list_lookup_insert_Some. intros [(<- & <- & _)|[Hp Hk]].
    + rewrite list_elem_of_filter, (H5 _ _ x Hl). naive_solver.
    + rewrite (H5 p k x Hk). split; [|by intros []]. intros Ha. split; [done|]. intros [_ ->]. destruct Ha as (w & Hw & _ & E).
      assert (w = v) as -> by congruence. lia.
  - by rewrite H7, (total_unmarked _ _ _ v).
  - rewrite (sum_length_insert _ _ _ _ Hl), H8, length_remove by eauto. lia.
Qed.
End Mark.

(** ** Descriptors *)

(** What a backend promises: it watches [watched x fd] on a descriptor; add and
    del change that by the given events, or fail with -1 and change nothing. *)
Class BackendOk {B : Type} (op : eventop B) := {
  b_inv : B -> Prop;
  watched : B -> Z -> Z;
  add_ok : forall x fd old ev, b_inv x -> 0 <= fd < 1073741824 -> old = watched x fd -> Z.land ev rw <> 0 -> has ev EV_SIGNAL = false ->
    exists r x', op_add op fd old ev x = Ok (r, x') /\ b_inv x' /\
      ((r = 0 /\ forall k, 0 <= k -> watched x' k = if Z.eqb k fd then Z.lor old (Z.land ev rw) else watched x k) \/
       (r = -1 /\ forall k, 0 <= k -> watched x' k = watched x k));
  del_ok : forall x fd old ev, b_inv x -> 0 <= fd < 1073741824 -> old = watched x fd -> ev <> 0 -> Z.land old ev = ev ->
    exists r x', op_del op fd old ev x = Ok (r, x') /\ b_inv x' /\
      ((r = 0 /\ forall k, 0 <= k -> watched x' k = if Z.eqb k fd then Z.ldiff old ev else watched x k) \/
       (r = -1 /\ forall k, 0 <= k -> watched x' k = watched x k))
}.

(** Does event [e] ask for [k]? *)
Definition wants (m : gmap loc event) (k : Z) (e : loc) : bool :=
  match m !! e with Some v => has (ev_events v) k | None => false end.
Definition count (m : gmap loc event) (k : Z) (l : list loc) : Z :=
  Z.of_nat (length (filter (fun e => wants m k e = true) l)).

(** [e] is in [I], and waits for reading or writing on [fd]. *)
Definition on_fd (I : loc -> Prop) (m : gmap loc event) (fd : Z) (e : loc) : Prop :=
  I e /\ exists v, m !! e = Some v /\ has (ev_events v) rw = true /\ ev_fd v = fd.

Record entry_ok (I : loc -> Prop) (m : gmap loc event) (fd : Z) (c : evmap_io) : Prop := {
  en_nd : NoDup (io_events c);
  en_in : forall e, e ∈ io_events c <-> on_fd I m fd e;
  en_r : nread c = count m EV_READ (io_events c);
  en_w : nwrite c = count m EV_WRITE (io_events c);
  en_bound : nread c <= 65535 /\ nwrite c <= 65535
}.

Definition entry (io : list (option evmap_io)) (fd : Z) : option evmap_io := mjoin (io !! Z.to_nat fd).

Record io_ok (I : loc -> Prop) (m : gmap loc event) (io : list (option evmap_io)) (w : Z -> Z) : Prop := {
  i_entry : forall fd c, 0 <= fd -> entry io fd = Some c -> entry_ok I m fd c;
  i_in : forall fd e, 0 <= fd -> on_fd I m fd e -> is_Some (entry io fd);
  i_watch : forall fd, 0 <= fd -> w fd = match entry io fd with Some c => old_events c | None => 0 end
}.

(** The entries depend on the events and descriptors of the events only. *)
Definition same_io (m m' : gmap loc event) : Prop :=
  forall e, (fun v => (ev_events v, ev_fd v)) <$> m !! e = (fun v => (ev_events v, ev_fd v)) <$> m' !! e.

#[local] Instance same_io_refl : Reflexive same_io.
Proof. by intros m e. Qed.

Lemma same_io_update m e v v' : m !! e = Some v -> ev_events v' = ev_events v -> ev_fd v' = ev_fd v -> same_io m (<[e := v']> m).
Proof.
  intros Hv E1 E2 x. destruct (decide (x = e)) as [->|Hx]; [|by rewrite lookup_insert_ne].
  rewrite lookup_insert_eq, Hv. cbn. by rewrite E1, E2.
Qed.

Lemma same_io_trans m1 m2 m3 : same_io m1 m2 -> same_io m2 m3 -> same_io m1 m3.
Proof. intros H1 H2 e. by rewrite (H1 e). Qed.

Lemma same_io_wants m m' k e : same_io m m' -> wants m k e = wants m' k e.
Proof.
  intros H. specialize (H e). unfold wants. destruct (m !! e), (m' !! e); try done. cbn in H. by simplify_eq/=; f_equal.
Qed.

Lemma same_io_on_fd I m m' fd e : same_io m m' -> on_fd I m fd e <-> on_fd I m' fd e.
Proof.
  intros H. specialize (H e). unfold on_fd. destruct (m !! e), (m' !! e); cbn in H; simplify_eq; naive_solver congruence.
Qed.

Lemma count_ext m m' k l : (forall e, e ∈ l -> wants m k e = wants m' k e) -> count m k l = count m' k l.
Proof.
  intros H. unfold count. do 2 f_equal. induction l as [|e l IH]; [done|]. rewrite !filter_cons.
  rewrite (H e) by set_solver. rewrite IH; [done|]. intros x Hx. apply H. set_solver.
Qed.

Lemma io_ok_ext I I' m m' l w : (forall e, I e <-> I' e) -> same_io m m' -> io_ok I m l w -> io_ok I' m' l w.
Proof.
  intros HI Hm [H1 H2 H3].
  assert (Hon : forall fd e, on_fd I m fd e <-> on_fd I' m' fd e).
  { intros fd e. rewrite (same_io_on_fd I m m') by done. unfold on_fd. by rewrite HI. }
  split; [|intros fd e ?; rewrite <-Hon; eauto|done]. intros fd c Hfd Hc. destruct (H1 fd c Hfd Hc) as [E1 E2 E3 E4 E5].
  split; try done; [by intros e; rewrite E2|rewrite E3|rewrite E4]; apply count_ext; intros; by apply same_io_wants.
Qed.

Lemma count_app m k l e : count m k (l ++ [e]) = count m k l + Z.b2z (wants m k e).
Proof.
  unfold count. rewrite filter_app, length_app. destruct (wants m k e) eqn:E.
  - rewrite filter_cons, decide_True by done. cbn. lia.
  - rewrite filter_cons, decide_False by congruence. cbn. lia.
Qed.

Lemma count_remove m k l e : NoDup l -> e ∈ l -> count m k (filter (fun x => x <> e) l) = count m k l - Z.b2z (wants m k e).
Proof.
  induction 1 as [|x l Hx Hnd IH]; [by intros ?%not_elem_of_nil|]. rewrite elem_of_cons.
  assert (Hc : forall y, count m k (y :: l) = Z.b2z (wants m k y) + count m k l).
  { intros y. unfold count. destruct (wants m k y) eqn:E;
      [rewrite filter_cons, decide_True by done|rewrite filter_cons, decide_False by congruence]; cbn; lia. }
  rewrite filter_cons. destruct (decide (x = e)) as [->|Hne].
  - intros _. rewrite decide_False by tauto. rewrite filter_notin, Hc by done. lia.
  - intros [->|He]; [done|]. rewrite decide_True by done. specialize (IH He). rewrite Hc.
    revert IH. unfold count. rewrite filter_cons. destruct (wants m k x) eqn:E;
      [rewrite decide_True by done|rewrite decide_False by congruence]; cbn; lia.
Qed.

Lemma count_nonneg m k l : 0 <= count m k l.
Proof. unfold count. lia. Qed.

Lemma entry_insert l fd x k : 0 <= fd -> 0 <= k -> (Z.to_nat fd < length l)%nat ->
  entry (<[Z.to_nat fd := x]> l) k = if Z.eqb k fd then x else entry l k.
Proof.
  intros Hf Hk Hl. unfold entry. destruct (Z.eqb_spec k fd) as [->|Hne].
  - by rewrite list_lookup_insert_eq.
  - rewrite list_lookup_insert_ne by lia. done.
Qed.

Lemma entry_grow l n k : entry (l ++ replicate n None) k = entry l k.
Proof.
  unfold entry. destruct (decide (Z.to_nat k < length l)%nat) as [H|H]; [by rewrite lookup_app_l|].
  rewrite lookup_app_r by lia. rewrite (lookup_ge_None_2 l) by lia.
  destruct (replicate n None !! (Z.to_nat k - length l)%nat) as [y|] eqn:E; [|done]. by apply lookup_replicate in E as [-> _].
Qed.

Lemma io_ok_grow I m l w n : io_ok I m l w -> io_ok I m (l ++ replicate n None) w.
Proof. intros [H1 H2 H3]. split; intros fd; rewrite entry_grow; eauto. Qed.

(** The entry [c] of [fd] is written. *)
Lemma io_ok_put I I' m l w w' fd c :
  io_ok I m l w -> 0 <= fd -> (Z.to_nat fd < length l)%nat -> entry_ok I' m fd c ->
  (forall k e, k <> fd -> on_fd I m k e <-> on_fd I' m k e) ->
  (forall k, 0 <= k -> w' k = if Z.eqb k fd then old_events c else w k) ->
  io_ok I' m (<[Z.to_nat fd := Some c]> l) w'.
Proof.
  intros [H1 H2 H3] Hfd Hl Hc Hk Hw. split.
  - intros k x Hk0. rewrite entry_insert by done. destruct (Z.eqb_spec k fd) as [->|Hne]; [by intros [= <-]|].
    intros Hx. destruct (H1 k x Hk0 Hx) as [E1 E2 E3 E4 E5]. split; try done. intros e. by rewrite E2, Hk.
  - intros k e Hk0 He. rewrite entry_insert by done. destruct (Z.eqb_spec k fd); [eauto|]. apply (H2 k e Hk0). by apply Hk.
  - intros k Hk0. rewrite entry_insert, Hw by done. destruct (Z.eqb_spec k fd); [done|]. by apply H3.
Qed.

Lemma io_ok_empty I m l w fd :
  io_ok I m l w -> 0 <= fd -> (Z.to_nat fd < length l)%nat -> entry l fd = None ->
  io_ok I m (<[Z.to_nat fd := Some (mkIo [] 0 0)]> l) w.
Proof.
  intros HI Hfd Hl He. eapply io_ok_put; try done.
  - split; try done; [apply NoDup_nil_2|]. intros e. split; [by intros ?%not_elem_of_nil|].
    intros Ho. destruct (i_in _ _ _ _ HI fd e Hfd Ho) as [c Hc]. congruence.
  - intros k Hk. destruct (Z.eqb_spec k fd) as [->|]; [|done]. by rewrite (i_watch _ _ _ _ HI), He.
Qed.

Lemma rw_nonneg v : 0 <= readers v /\ 0 <= writers v.
Proof. unfold readers, writers. destruct (has _ EV_READ), (has _ EV_WRITE); lia. Qed.

Lemma wants_rw m e v : m !! e = Some v -> Z.b2z (wants m EV_READ e) = readers v /\ Z.b2z (wants m EV_WRITE e) = writers v.
Proof. intros Hv. unfold wants, readers, writers. rewrite Hv. by destruct (has (ev_events v) EV_READ), (has (ev_events v) EV_WRITE). Qed.

Section Entry.
Context (I : loc -> Prop) (m : gmap loc event) (fd : Z) (e : loc) (v : event) (c : evmap_io).
Context (Hc : entry_ok I m fd c) (Hv : m !! e = Some v) (Hfd : ev_fd v = fd) (Hrw : has (ev_events v) rw = true).

Lemma entry_add : ~ I e -> nread c + readers v <= 65535 -> nwrite c + writers v <= 65535 ->
  entry_ok (fun x => x = e \/ I x) m fd (mkIo (io_events c ++ [e]) (nread c + readers v) (nwrite c + writers v)).
Proof.
  intros He Hr Hw. destruct Hc as [H1 H2 H3 H4 H5]. destruct (wants_rw m e v Hv) as [E1 E2]. split; cbn.
  - apply NoDup_app. split_and!; [done| |apply NoDup_singleton]. intros x Hx ->%list_elem_of_singleton. apply H2 in Hx as [Hx _]. done.
  - intros x. rewrite elem_of_app, list_elem_of_singleton, H2. unfold on_fd. naive_solver.
  - rewrite count_app, E1. congruence.
  - rewrite count_app, E2. congruence.
  - done.
Qed.

Lemma entry_del : I e ->
  tq_remove e (io_events c) = Ok (filter (fun x => x <> e) (io_events c)) /\ readers v <= nread c /\ writers v <= nwrite c /\
  entry_ok (fun x => I x /\ x <> e) m fd (mkIo (filter (fun x => x <> e) (io_events c)) (nread c - readers v) (nwrite c - writers v)).
Proof.
  intros He. destruct Hc as [H1 H2 H3 H4 H5]. destruct (wants_rw m e v Hv) as [E1 E2].
  assert (Hin : e ∈ io_events c) by (apply H2; split; [done|]; eauto).
  pose proof (count_nonneg m EV_READ (filter (fun x => x <> e) (io_events c))) as C1.
  pose proof (count_nonneg m EV_WRITE (filter (fun x => x <> e) (io_events c))) as C2.
  rewrite count_remove in C1, C2 by done. split_and!; [by unfold tq_remove; rewrite decide_True|lia|lia|]. split; cbn.
  - by apply NoDup_filter.
  - intros x. rewrite list_elem_of_filter, H2. unfold on_fd. naive_solver.
  - rewrite count_remove, E1 by done. congruence.
  - rewrite count_remove, E2 by done. congruence.
  - pose proof (rw_nonneg v). lia.
Qed.

Lemma old_newly l : old_events (mkIo l (nread c + readers v) (nwrite c + writers v)) = Z.lor (old_events c) (newly v c).
Proof.
  pose proof (count_nonneg m EV_READ (io_events c)). pose proof (count_nonneg m EV_WRITE (io_events c)).
  destruct Hc as [_ _ H3 H4 _]. unfold old_events, newly, readers, writers. cbn [nread nwrite].
  destruct (has _ EV_READ), (has _ EV_WRITE), (Z.eqb_spec (nread c) 0), (Z.eqb_spec (nwrite c) 0); cbn;
    repeat match goal with |- context [Z.eqb ?x 0] => destruct (Z.eqb_spec x 0); try lia end; done.
Qed.

Lemma old_lastly l : readers v <= nread c -> writers v <= nwrite c ->
  old_events (mkIo l (nread c - readers v) (nwrite c - writers v)) = Z.ldiff (old_events c) (lastly v c) /\
  Z.land (old_events c) (lastly v c) = lastly v c.
Proof.
  intros Hr Hw. unfold old_events, lastly, readers, writers in *. cbn [nread nwrite].
  destruct (has _ EV_READ), (has _ EV_WRITE), (Z.eqb_spec (nread c) 0), (Z.eqb_spec (nwrite c) 0),
    (Z.eqb_spec (nread c) 1), (Z.eqb_spec (nwrite c) 1); cbn; try lia;
    repeat match goal with |- context [Z.eqb ?x 0] => destruct (Z.eqb_spec x 0); try lia end; done.
Qed.

Lemma land_et_newly : Z.land (Z.lor (Z.land (ev_events v) EV_ET) (newly v c)) rw = newly v c.
Proof.
  rewrite Z.land_lor_distr_l, <-Z.land_assoc. change (Z.land EV_ET rw) with 0. rewrite Z.land_0_r, Z.lor_0_l.
  unfold newly. by destruct (_ && _), (_ && _).
Qed.
End Entry.
End EvInv.
