(* ===== verification/Deferred.v ===== *)
(** * Deferred callbacks (src/libevent: defer-internal.h, event.c)

    The queue of the callbacks that run after the active events of a round.
    The state is an event base together with its defer_queue and the struct
    deferred_cb in memory. What a deferred callback does is a list of calls of
    this interface and of event_base_loopbreak; it may depend on all that was
    called before. The locks of the queue are empty in a program without
    thread functions.

    [event_process_active] is the function of event.c with its last call,
    which [EvLoop] leaves out; [active_without_deferred] says that the two
    agree while nothing is deferred. *)

From stdpp Require Import prelude gmap.
From S2P Require Import Prelude MinHeap EvBase EvOps EvLoop EvInv.
Open Scope Z_scope.

Module Deferred.
Import EvBase EvOps EvLoop EvInv.

Record deferred_cb := mkCb { queued : bool; cb : Z; cb_arg : Z }.

(** [notify] is whether notify_fn is notify_base_cbq_callback with this base,
    or NULL. *)
Record deferred_cb_queue := mkQueue { active_count : Z; notify : bool; deferred_cb_list : list loc }.

(** [current] is whether current_base is this base, or NULL; [called] are the
    callbacks that ran, with their arguments. *)
Record deferred := mkDef { cells : gmap loc deferred_cb; defer_queue : deferred_cb_queue; current : bool; called : list (loc * Z) }.

Definition put_cells (m : gmap loc deferred_cb) (d : deferred) : deferred := mkDef m (defer_queue d) (current d) (called d).
Definition put_queue (q : deferred_cb_queue) (d : deferred) : deferred := mkDef (cells d) q (current d) (called d).
Definition put_called (l : list (loc * Z)) (d : deferred) : deferred := mkDef (cells d) (defer_queue d) (current d) l.

(** The calls that a deferred callback makes. *)
Inductive act := Schedule (c : loc) | Cancel (c : loc) | Break.

Definition MAX_DEFERRED : nat := 16.

(** memset and TAILQ_INIT; event_base_new_with_config sets notify_fn later. *)
Definition event_deferred_cb_queue_init : deferred_cb_queue := mkQueue 0 false [].

Section Ops.
Context {B : Type} `{!EvLoop.LoopEnv B}.
Abbreviation T := (M (base B * deferred)).

Definition onbase {A} (m : M (base B) A) : T A := fun s =>
  match m (fst s) with Ok (a, b) => Ok (a, (b, snd s)) | Fault f => Fault f end.
Definition dset (f : deferred -> deferred) : T unit := modify (fun s => (fst s, f (snd s))).
Definition dget : T deferred := gets snd.
Definition cell (c : loc) : T deferred_cb :=
  let! d := dget in match cells d !! c with Some x => ret x | None => fail UseAfterFree end.
Definition put_cell (c : loc) (x : deferred_cb) : T unit := dset (fun d => put_cells (<[c := x]> (cells d)) d).

Definition notify_base_cbq_callback : M (base B) unit :=
  let! c := gets ctrl in
  when (EVBASE_NEED_NOTIFY c) (let! _ := evthread_notify_base th_notify_fn in ret tt).

(** The memory is there; its members are set. *)
Definition event_deferred_cb_init (c : loc) (fn arg : Z) : T unit :=
  let! _ := cell c in put_cell c (mkCb false fn arg).

(** [queue] is whether a queue is given; NULL means that of current_base. *)
Definition event_deferred_cb_cancel (queue : bool) (c : loc) : T unit :=
  let! d := dget in
  if negb queue && negb (current d) then ret tt
  else
    let! x := cell c in
    when (queued x)
      (let q := defer_queue d in
       let! l := lift (tq_remove c (deferred_cb_list q)) in
       dset (put_queue (mkQueue (s32 (active_count q - 1)) (notify q) l)) ;;
       put_cell c (mkCb false (cb x) (cb_arg x))).

Definition event_deferred_cb_schedule (queue : bool) (c : loc) : T unit :=
  let! d := dget in
  if negb queue && negb (current d) then ret tt
  else
    let! x := cell c in
    when (negb (queued x))
      (put_cell c (mkCb true (cb x) (cb_arg x)) ;;
       let q := defer_queue d in
       dset (put_queue (mkQueue (s32 (active_count q + 1)) (notify q) (deferred_cb_list q ++ [c]))) ;;
       when (notify q) (onbase notify_base_cbq_callback)).

(** What the function at an address does, given its arguments and the calls
    so far. *)
Context (acts : Z -> loc -> Z -> list (loc * Z) -> list act).

Definition do_act (a : act) : T unit :=
  match a with
  | Schedule c => event_deferred_cb_schedule true c
  | Cancel c => event_deferred_cb_cancel true c
  | Break => let! _ := onbase EvLoop.event_base_loopbreak in ret tt
  end.
Fixpoint do_acts (l : list act) : T unit :=
  match l with [] => ret tt | a :: l' => do_act a ;; do_acts l' end.

(** cb->cb(cb, cb->arg) *)
Definition call_deferred (c : loc) : T unit :=
  let! x := cell c in
  let! d := dget in
  dset (put_called (called d ++ [(c, cb_arg x)])) ;;
  do_acts (acts (cb x) c (cb_arg x) (called d)).

(** [k] more callbacks may run. *)
Fixpoint deferred_loop (k : nat) (count : Z) : T Z :=
  match k with
  | O => ret count
  | S k' =>
      let! d := dget in
      match deferred_cb_list (defer_queue d) with
      | [] => ret count
      | c :: _ =>
          let! x := cell c in
          put_cell c (mkCb false (cb x) (cb_arg x)) ;;
          let! l := lift (tq_remove c (deferred_cb_list (defer_queue d))) in
          dset (fun d => put_queue (mkQueue (s32 (active_count (defer_queue d) - 1)) (notify (defer_queue d)) l) d) ;;
          call_deferred c ;;
          let! brk := onbase (gets (fun b => event_break (ctrl b))) in
          if brk : bool then ret (-1) else deferred_loop k' (count + 1)
      end
  end.

Definition event_process_deferred_callbacks : T Z := deferred_loop MAX_DEFERRED 0.

Definition event_process_active (fuel : nat) : T Z :=
  let! q := onbase (gets qs) in
  let! c := onbase (EvLoop.process_queues fuel (length (activequeues q)) 0 0) in
  if Z.ltb c 0 then onbase (cset (EvLoop.put_priority (-1))) ;; ret (-1)
  else
    let! _ := event_process_deferred_callbacks in
    onbase (cset (EvLoop.put_priority (-1))) ;;
    ret c.

(** N_ACTIVE_CALLBACKS *)
Definition N_ACTIVE_CALLBACKS (q : queues) (d : deferred_cb_queue) : Z := event_count_active q + active_count d.

(** [r] rounds of the loop in which only deferred callbacks run. *)
Fixpoint deferred_rounds (r : nat) : T unit :=
  match r with O => ret tt | S r' => let! _ := event_process_deferred_callbacks in deferred_rounds r' end.
End Ops.

(** ** The invariant *)

(** The callbacks marked as queued are those on the list, each once, and the
    counter counts them. *)
Record wf (d : deferred) : Prop := {
  wf_nodup : NoDup (deferred_cb_list (defer_queue d));
  wf_queued c : c ∈ deferred_cb_list (defer_queue d) <-> exists x, cells d !! c = Some x /\ queued x = true;
  wf_count : active_count (defer_queue d) = Z.of_nat (length (deferred_cb_list (defer_queue d)));
  wf_few : Z.of_nat (size (cells d)) < 2147483648 }.

(** The same callbacks are in memory, with the same functions and arguments. *)
Definition same_code (d d' : deferred) : Prop :=
  forall c, (fun x => (cb x, cb_arg x)) <$> cells d' !! c = (fun x => (cb x, cb_arg x)) <$> cells d !! c.

Lemma same_code_trans d1 d2 d3 : same_code d1 d2 -> same_code d2 d3 -> same_code d1 d3.
Proof. intros H1 H2 c. by rewrite H2, H1. Qed.

Lemma same_code_cell d d' c x : same_code d d' -> cells d !! c = Some x ->
  exists x', cells d' !! c = Some x' /\ cb x' = cb x /\ cb_arg x' = cb_arg x.
Proof. intros H E. specialize (H c). rewrite E in H. destruct (cells d' !! c) as [x'|]; simplify_eq/=. eauto. Qed.

Lemma wf_list_few d : wf d -> Z.of_nat (length (deferred_cb_list (defer_queue d))) <= Z.of_nat (size (cells d)).
Proof.
  intros [Hn Hq _ _]. rewrite <- (size_list_to_set (C := gset loc)) by done. rewrite <- (size_dom (D := gset loc)).
  apply inj_le, subseteq_size. intros c Hc. apply elem_of_list_to_set, Hq in Hc as (x & E & _).
  by apply elem_of_dom_2 in E.
Qed.

(** The state after [c] is put at the end of the list, or taken off it. *)
Definition enqueued (c : loc) (x : deferred_cb) (d : deferred) : deferred :=
  let q := defer_queue d in
  mkDef (<[c := mkCb true (cb x) (cb_arg x)]> (cells d)) (mkQueue (active_count q + 1) (notify q) (deferred_cb_list q ++ [c])) (current d) (called d).
Definition dequeued (c : loc) (x : deferred_cb) (d : deferred) : deferred :=
  let q := defer_queue d in
  mkDef (<[c := mkCb false (cb x) (cb_arg x)]> (cells d))
    (mkQueue (active_count q - 1) (notify q) (filter (fun y => y <> c) (deferred_cb_list q))) (current d) (called d).

Lemma same_code_insert d d' c x q : cells d !! c = Some x -> cells d' = <[c := mkCb q (cb x) (cb_arg x)]> (cells d) -> same_code d d'.
Proof. intros E E' y. rewrite E'. destruct (decide (y = c)) as [->|]; [by rewrite lookup_insert_eq, E|by rewrite lookup_insert_ne]. Qed.

Lemma size_cells_insert (m : gmap loc deferred_cb) c x y : m !! c = Some x -> size (<[c := y]> m) = size m.
Proof. intros E. by apply map_size_insert_Some. Qed.

Lemma enqueued_wf c x d : wf d -> cells d !! c = Some x -> queued x = false -> wf (enqueued c x d).
Proof.
  intros Hw E Hx. assert (Hc : c ∉ deferred_cb_list (defer_queue d)).
  { intros (y & Ey & Hy)%(wf_queued d Hw). congruence. }
  split; cbn.
  - apply NoDup_app. split_and!; [apply Hw| |apply NoDup_singleton]. intros y Hy ->%list_elem_of_singleton. done.
  - intros y. rewrite elem_of_app, list_elem_of_singleton. destruct (decide (y = c)) as [->|Hn].
    + rewrite lookup_insert_eq. split; [eauto|intros _; by right].
    + rewrite lookup_insert_ne by done. rewrite <- (wf_queued d Hw y). split; [by intros [?|?]|by left].
  - rewrite length_app, (wf_count d Hw). cbn. lia.
  - rewrite (size_cells_insert _ _ _ _ E). apply Hw.
Qed.

Lemma dequeued_wf c x d : wf d -> cells d !! c = Some x -> queued x = true -> wf (dequeued c x d).
Proof.
  intros Hw E Hx. assert (Hc : c ∈ deferred_cb_list (defer_queue d)) by (apply (wf_queued d Hw); eauto).
  split; cbn.
  - apply NoDup_filter, Hw.
  - intros y. rewrite list_elem_of_filter. destruct (decide (y = c)) as [->|Hn].
    + rewrite lookup_insert_eq. split; [tauto|]. intros (z & [= <-] & ?). done.
    + rewrite lookup_insert_ne by done. rewrite <- (wf_queued d Hw y). tauto.
  - rewrite (length_remove c _ (wf_nodup d Hw) Hc), (wf_count d Hw). lia.
  - rewrite (size_cells_insert _ _ _ _ E). apply Hw.
Qed.

(** ** What the operations do *)

Section Run.
Context {B : Type} `{!LoopEnv B} (acts : Z -> loc -> Z -> list (loc * Z) -> list act).
Implicit Types (b : base B) (d : deferred).

Lemma cell_run c x b d : cells d !! c = Some x -> cell c (b, d) = Ok (x, (b, d)).
Proof. intros E. unfold cell, bind, dget, gets. cbn. by rewrite E. Qed.

Lemma no_threads_notify b : id_fn (ctrl b) = None -> notify_base_cbq_callback b = Ok (tt, b).
Proof. intros E. unfold notify_base_cbq_callback, bind, gets, EVBASE_NEED_NOTIFY. by rewrite E. Qed.

(** [x] does not move back in the list. *)
Definition not_later (x : loc) d d' : Prop := forall k, deferred_cb_list (defer_queue d) !! k = Some x ->
  exists k', (k' <= k)%nat /\ deferred_cb_list (defer_queue d') !! k' = Some x.

Lemma not_later_trans x d1 d2 d3 : not_later x d1 d2 -> not_later x d2 d3 -> not_later x d1 d3.
Proof. intros H1 H2 k Hk. destruct (H1 k Hk) as (k2 & ? & Hk2). destruct (H2 k2 Hk2) as (k3 & ? & Hk3). exists k3. split; [lia|done]. Qed.

Lemma lookup_without (c x : loc) (l : list loc) : forall k, l !! k = Some x -> x <> c -> exists k', (k' <= k)%nat /\ filter (fun y => y <> c) l !! k' = Some x.
Proof.
  induction l as [|y l IH]; intros [|k] Hk Hn; cbn in Hk; simplify_eq; rewrite filter_cons.
  - rewrite decide_True by done. exists 0%nat. split; [lia|done].
  - destruct (IH k Hk Hn) as (k' & ? & Hk'). case_decide; [exists (S k')|exists k']; (split; [lia|done]).
Qed.

(** What the calls of a callback may leave changed, and that they keep [x]. *)
Record kept (x : loc) d d' : Prop := {
  kept_wf : wf d'; kept_code : same_code d d'; kept_called : called d' = called d; kept_place : not_later x d d' }.

Lemma deferred_kept_refl x d : wf d -> kept x d d.
Proof. intros Hw. split; [done|done|done|]. intros k Hk. exists k. split; [lia|done]. Qed.

Lemma deferred_kept_trans x d1 d2 d3 : kept x d1 d2 -> kept x d2 d3 -> kept x d1 d3.
Proof. intros [] []. split; [done|by eapply same_code_trans|congruence|by eapply not_later_trans]. Qed.

Lemma schedule_run x c b d : wf d -> id_fn (ctrl b) = None -> is_Some (cells d !! c) ->
  exists d', event_deferred_cb_schedule true c (b, d) = Ok (tt, (b, d')) /\ kept x d d'.
Proof.
  intros Hw Hi [y E]. destruct (queued y) eqn:Ey.
  - exists d. split; [|by apply deferred_kept_refl]. unfold event_deferred_cb_schedule. unfold bind at 1, dget, gets. cbn [negb andb].
    rewrite (bind_ok _ _ _ _ _ (cell_run c y b d E)). by rewrite Ey.
  - exists (enqueued c y d). split.
    + unfold event_deferred_cb_schedule. unfold bind at 1, dget, gets. cbn [negb andb snd].
      rewrite (bind_ok _ _ _ _ _ (cell_run c y b d E)). rewrite Ey. cbn [negb when]. unfold put_cell, dset, modify, bind. cbn -[s32].
      pose proof (enqueued_wf c y d Hw E Ey) as Hw'. pose proof (wf_count _ Hw') as Hc. cbn in Hc. rewrite s32_id by (rewrite Hc; pose proof (wf_list_few _ Hw'); pose proof (wf_few _ Hw'); cbn in *; lia).
      unfold enqueued. destruct (notify (defer_queue d)); [|done]. cbn [when]. unfold onbase. cbn [fst snd]. by rewrite (no_threads_notify b Hi).
    + split; [by apply enqueued_wf|by eapply same_code_insert|done|]. intros k Hk. exists k. split; [lia|]. by apply lookup_app_l_Some.
Qed.

Lemma cancel_run x c b d : wf d -> is_Some (cells d !! c) -> c <> x ->
  exists d', event_deferred_cb_cancel true c (b, d) = Ok (tt, (b, d')) /\ kept x d d'.
Proof.
  intros Hw [y E] Hx. destruct (queued y) eqn:Ey.
  - exists (dequeued c y d). split.
    + unfold event_deferred_cb_cancel. unfold bind at 1, dget, gets. cbn [negb andb snd].
      rewrite (bind_ok _ _ _ _ _ (cell_run c y b d E)). rewrite Ey. cbn [when]. unfold tq_remove.
      rewrite decide_True by (apply (wf_queued d Hw); eauto). unfold put_cell, dset, modify, bind, lift. cbn -[s32].
      rewrite s32_id by (rewrite (wf_count d Hw); pose proof (wf_list_few d Hw); pose proof (wf_few d Hw); lia). done.
    + split; [by apply dequeued_wf|by eapply same_code_insert|done|]. intros k Hk. apply lookup_without; [done|congruence].
  - exists d. split; [|by apply deferred_kept_refl]. unfold event_deferred_cb_cancel. unfold bind at 1, dget, gets. cbn [negb andb].
    rewrite (bind_ok _ _ _ _ _ (cell_run c y b d E)). by rewrite Ey.
Qed.

(** A call that uses callbacks in memory, does not cancel [x] and does not
    break the loop. *)
Definition friendly (x : loc) d (a : act) : Prop :=
  match a with Schedule c => is_Some (cells d !! c) | Cancel c => is_Some (cells d !! c) /\ c <> x | Break => False end.

Lemma friendly_same x d d' a : same_code d d' -> friendly x d a -> friendly x d' a.
Proof.
  intros Hs. assert (Hd : forall c, is_Some (cells d !! c) -> is_Some (cells d' !! c)).
  { intros c [y E]. destruct (same_code_cell d d' c y Hs E) as (? & -> & _). eauto. }
  destruct a; cbn; naive_solver.
Qed.

Lemma do_acts_run x l b : id_fn (ctrl b) = None -> forall d, wf d -> Forall (friendly x d) l ->
  exists d', do_acts l (b, d) = Ok (tt, (b, d')) /\ kept x d d'.
Proof.
  intros Hi. induction l as [|a l IH]; intros d Hw Hl; [exists d; split; [done|by apply deferred_kept_refl]|].
  apply Forall_cons in Hl as [Ha Hl].
  assert (exists d1, do_act a (b, d) = Ok (tt, (b, d1)) /\ kept x d d1) as (d1 & E1 & K1).
  { destruct a; [by apply schedule_run|apply cancel_run; naive_solver|done]. }
  destruct (IH d1 (kept_wf _ _ _ K1)) as (d2 & E2 & K2).
  { eapply Forall_impl; [exact Hl|]. intros ?. apply friendly_same, K1. }
  exists d2. split; [|by eapply deferred_kept_trans]. cbn [do_acts]. by rewrite (bind_ok _ _ _ _ _ E1).
Qed.

(** ** The loop *)

Definition benign (x : loc) d : Prop := forall fn c arg log, Forall (friendly x d) (acts fn c arg log).

Lemma benign_same x d d' : same_code d d' -> benign x d -> benign x d'.
Proof. intros Hs Hb fn c arg log. eapply Forall_impl; [apply Hb|]. intros a. by apply friendly_same. Qed.

(** The first callback of the list is taken off and runs. *)
Lemma run_first x c y l b d : wf d -> id_fn (ctrl b) = None -> event_break (ctrl b) = false -> benign x d ->
  deferred_cb_list (defer_queue d) = c :: l -> cells d !! c = Some y ->
  exists d', (forall k n, deferred_loop acts (S k) n (b, d) = deferred_loop acts k (n + 1) (b, d')) /\
    wf d' /\ same_code d d' /\ called d' = called d ++ [(c, cb_arg y)] /\
    (forall k, l !! k = Some x -> exists k', (k' <= k)%nat /\ deferred_cb_list (defer_queue d') !! k' = Some x).
Proof.
  intros Hw Hi Hb Hg El Ey. set (d1 := dequeued c y d).
  assert (Hq : queued y = true). { assert (Hc : c ∈ deferred_cb_list (defer_queue d)) by (rewrite El; left). apply (wf_queued d Hw) in Hc as (? & ? & ?). congruence. }
  assert (Hl : deferred_cb_list (defer_queue d1) = l).
  { cbn. rewrite El, filter_cons, decide_False by tauto. apply filter_notin. pose proof (wf_nodup d Hw) as Hn. rewrite El in Hn. by apply NoDup_cons in Hn as [? _]. }
  assert (Hw1 : wf d1) by by apply dequeued_wf. set (d2 := put_called (called d ++ [(c, cb_arg y)]) d1).
  assert (S1 : same_code d d1) by by eapply same_code_insert.
  destruct (do_acts_run x (acts (cb y) c (cb_arg y) (called d)) b Hi d2) as (d' & E & [Kw Ks Kc Kp]).
  { by destruct Hw1; split. }
  { apply (benign_same x d d2 S1 Hg). }
  exists d'. split_and!; [|done|by eapply (same_code_trans d d1)|done|].
  - intros k n. cbn [deferred_loop]. unfold bind at 1, dget, gets. cbn [snd]. rewrite El.
    rewrite (bind_ok _ _ _ _ _ (cell_run c y b d Ey)). unfold put_cell, dset, modify, tq_remove. rewrite decide_True by left.
    unfold bind at 1 2 3, lift. cbn [fst snd]. cbn -[s32 deferred_loop call_deferred].
    rewrite s32_id by (rewrite (wf_count d Hw); pose proof (wf_list_few d Hw); pose proof (wf_few d Hw); lia).
    match goal with |- bind _ _ (b, ?s) = _ => replace s with d1 by (unfold d1, dequeued; rewrite El; reflexivity) end.
    assert (Ec : call_deferred acts c (b, d1) = Ok (tt, (b, d'))).
    { unfold call_deferred. rewrite (bind_ok _ _ _ _ _ (cell_run c (mkCb false (cb y) (cb_arg y)) b d1 (lookup_insert_eq _ _ _))). exact E. }
    rewrite (bind_ok _ _ _ _ _ Ec). unfold bind, onbase, gets. cbn. by rewrite Hb.
  - intros k Hk. apply Kp. cbn. cbn in Hl. by rewrite Hl.
Qed.

(** At most [n] callbacks ran; [x], which was at place [k], is among them or
    [n] places nearer. *)
Definition progress (x : loc) (arg : Z) (n k : nat) d d' : Prop := exists l, called d' = called d ++ l /\ (length l <= n)%nat /\
  ((exists j, (j <= k)%nat /\ l !! j = Some (x, arg)) \/
   (exists k', deferred_cb_list (defer_queue d') !! k' = Some x /\ (k' + n <= k)%nat)).

Lemma loop_safe x b n : id_fn (ctrl b) = None -> event_break (ctrl b) = false -> forall d m, wf d -> benign x d ->
  exists r d' l, deferred_loop acts n m (b, d) = Ok (r, (b, d')) /\ wf d' /\ same_code d d' /\
    called d' = called d ++ l /\ r = m + Z.of_nat (length l) /\ (length l <= n)%nat.
Proof.
  intros Hi Hb. induction n as [|n IH]; intros d m Hw Hg.
  { exists m, d, []. rewrite app_nil_r. cbn. split_and!; [done|done|done|done|lia|lia]. }
  destruct (deferred_cb_list (defer_queue d)) as [|c l] eqn:El.
  { exists m, d, []. rewrite app_nil_r. cbn. unfold bind, dget, gets. cbn. rewrite El. split_and!; [done|done|done|done|lia|lia]. }
  assert (exists y, cells d !! c = Some y) as [y Ey].
  { destruct (proj1 (wf_queued d Hw c)) as (y & ? & _); [rewrite El; left|eauto]. }
  destruct (run_first x c y l b d) as (d1 & E1 & W1 & S1 & C1 & _); [done..|].
  destruct (IH d1 (m + 1) W1 (benign_same x d d1 S1 Hg)) as (r & d2 & l2 & E2 & W2 & S2 & C2 & -> & L2).
  exists (m + 1 + Z.of_nat (length l2)), d2, ((c, cb_arg y) :: l2). rewrite E1, C2, C1, <- app_assoc.
  split_and!; [done|done|by eapply same_code_trans|done|cbn; lia|cbn; lia].
Qed.

Lemma loop_progress x arg b n : id_fn (ctrl b) = None -> event_break (ctrl b) = false -> forall d m k y, wf d -> benign x d ->
  deferred_cb_list (defer_queue d) !! k = Some x -> cells d !! x = Some y -> cb_arg y = arg ->
  exists r d', deferred_loop acts n m (b, d) = Ok (r, (b, d')) /\ wf d' /\ same_code d d' /\ progress x arg n k d d'.
Proof.
  intros Hi Hb. induction n as [|n IH]; intros d m k y Hw Hg Hk Ey Ha.
  { exists m, d. split_and!; [done|done|done|]. exists []. rewrite app_nil_r. split_and!; [done|done|]. right. exists k. split; [done|lia]. }
  destruct (deferred_cb_list (defer_queue d)) as [|c l] eqn:El; [done|].
  assert (exists z, cells d !! c = Some z) as [z Ez].
  { destruct (proj1 (wf_queued d Hw c)) as (z & ? & _); [rewrite El; left|eauto]. }
  destruct (run_first x c z l b d) as (d1 & E1 & W1 & S1 & C1 & P1); [done..|]. rewrite E1.
  destruct k as [|k]; cbn in Hk.
  - injection Hk as ->. destruct (loop_safe x b n Hi Hb d1 (m + 1) W1 (benign_same x d d1 S1 Hg)) as (r & d2 & l2 & E2 & W2 & S2 & C2 & _ & L2).
    exists r, d2. split_and!; [done|done|by eapply same_code_trans|]. exists ((x, cb_arg z) :: l2). rewrite C2, C1, <- app_assoc. split_and!; [done|cbn; lia|].
    left. exists 0%nat. split; [lia|]. cbn. congruence.
  - destruct (P1 k Hk) as (k1 & ? & Hk1). destruct (same_code_cell d d1 x y S1 Ey) as (y1 & Ey1 & _ & Ha1).
    destruct (IH d1 (m + 1) k1 y1 W1 (benign_same x d d1 S1 Hg) Hk1 Ey1) as (r & d2 & E2 & W2 & S2 & l2 & C2 & L2 & P2); [congruence|].
    exists r, d2. split_and!; [done|done|by eapply same_code_trans|]. exists ((c, cb_arg z) :: l2). rewrite C2, C1, <- app_assoc. split_and!; [done|cbn; lia|].
    destruct P2 as [(j & ? & Hj)|(k2 & ? & ?)]; [left; exists (S j); split; [lia|done]|right; exists k2; split; [done|lia]].
Qed.

Lemma rounds_safe x b r : id_fn (ctrl b) = None -> event_break (ctrl b) = false -> forall d, wf d -> benign x d ->
  exists d' l, deferred_rounds acts r (b, d) = Ok (tt, (b, d')) /\ wf d' /\ called d' = called d ++ l.
Proof.
  intros Hi Hb. induction r as [|r IH]; intros d Hw Hg; [exists d, []; by rewrite app_nil_r|].
  destruct (loop_safe x b MAX_DEFERRED Hi Hb d 0 Hw Hg) as (c & d1 & l1 & E1 & W1 & S1 & C1 & _).
  destruct (IH d1 W1 (benign_same x d d1 S1 Hg)) as (d2 & l2 & E2 & W2 & C2). exists d2, (l1 ++ l2).
  cbn [deferred_rounds]. rewrite (bind_ok _ _ _ _ _ E1), C2, C1, app_assoc. done.
Qed.

Lemma rounds_progress x arg b r : id_fn (ctrl b) = None -> event_break (ctrl b) = false -> forall d k y, wf d -> benign x d ->
  deferred_cb_list (defer_queue d) !! k = Some x -> cells d !! x = Some y -> cb_arg y = arg -> (k < 16 * r)%nat ->
  exists d' l j, deferred_rounds acts r (b, d) = Ok (tt, (b, d')) /\ wf d' /\ called d' = called d ++ l /\
    (j <= k)%nat /\ l !! j = Some (x, arg).
Proof.
  intros Hi Hb. induction r as [|r IH]; intros d k y Hw Hg Hk Ey Ha Hr; [lia|].
  destruct (loop_progress x arg b MAX_DEFERRED Hi Hb d 0 k y Hw Hg Hk Ey Ha) as (c & d1 & E1 & W1 & S1 & l1 & C1 & L1 & P1).
  cbn [deferred_rounds]. rewrite (bind_ok _ _ _ _ _ E1). destruct P1 as [(j & Hj & Lj)|(k1 & Hk1 & Hle)].
  - destruct (rounds_safe x b r Hi Hb d1 W1 (benign_same x d d1 S1 Hg)) as (d2 & l2 & E2 & W2 & C2).
    exists d2, (l1 ++ l2), j. rewrite C2, C1, app_assoc. split_and!; [done|done|done|done|by apply lookup_app_l_Some].
  - destruct (same_code_cell d d1 x y S1 Ey) as (y1 & Ey1 & _ & Ha1).
    destruct (IH d1 k1 y1 W1 (benign_same x d d1 S1 Hg) Hk1 Ey1) as (d2 & l2 & j & E2 & W2 & C2 & Hj & Lj); [congruence|unfold MAX_DEFERRED in Hle; lia|].
    exists d2, (l1 ++ l2), (length l1 + j)%nat. rewrite C2, C1, app_assoc.
    split_and!; [done|done|done|lia|by rewrite lookup_app_r, Nat.add_comm, Nat.add_sub by lia].
Qed.
End Run.

Lemma process_queues_least {B : Type} `{!LoopEnv B} fuel k : forall p c (b b' : base B) r,
  -1 <= c -> process_queues fuel k p c b = Ok (r, b') -> -1 <= r.
Proof.
  induction k as [|k IH]; intros p c b b' r Hc H; cbn [process_queues] in H; [by injection H as <- <-|].
  apply bind_inv in H as (q & b0 & [= <- <-] & H). destruct (activequeues (qs b) !! p) as [[|e l]|]; [by eapply IH| |done].
  apply bind_inv in H as ([] & b1 & _ & H). apply bind_inv in H as (c1 & b2 & _ & H).
  destruct (Z.ltb_spec c1 0); [by injection H as <- <-|]. destruct (Z.ltb_spec 0 c1); [injection H as <- <-; lia|].
  eapply IH; [|exact H]. lia.
Qed.

(** While nothing is deferred, the last call of event_process_active does
    nothing: the model of [EvLoop] is that of the function. *)
Lemma active_without_deferred {B : Type} `{!LoopEnv B} acts fuel (b b' : base B) d c :
  deferred_cb_list (defer_queue d) = [] -> EvLoop.event_process_active fuel b = Ok (c, b') ->
  event_process_active acts fuel (b, d) = Ok (c, (b', d)).
Proof.
  intros El. unfold EvLoop.event_process_active, event_process_active. intros (q & b0 & [= <- <-] & H)%bind_inv.
  apply bind_inv in H as (c1 & b1 & E1 & H). apply bind_inv in H as ([] & b2 & [= <-] & [= <- <-]).
  rewrite (bind_ok _ _ (b, d) (qs b) (b, d)) by done. unfold onbase at 1, bind at 1. cbn [fst snd]. rewrite E1.
  pose proof (process_queues_least fuel _ 0 0 b b1 c1 ltac:(lia) E1). destruct (Z.ltb_spec c1 0); [by replace c1 with (-1) by lia|].
  unfold event_process_deferred_callbacks, MAX_DEFERRED. cbn [deferred_loop]. unfold bind, dget, gets. cbn [fst snd]. by rewrite El.
Qed.

(** C24: A deferred callback at place [k] of the queue is called within the
    next k / 16 + 1 rounds of the loop, after at most [k] others and with its
    own argument, even if callbacks schedule themselves and others again and
    again; the flags, the list and the counter of the queue stay consistent.
    Callbacks here do not cancel it and do not break the loop. *)
Theorem deferred_is_served {B : Type} `{!LoopEnv B} acts x y k r (b : base B) d :
  wf d -> id_fn (ctrl b) = None -> event_break (ctrl b) = false -> benign acts x d ->
  deferred_cb_list (defer_queue d) !! k = Some x -> cells d !! x = Some y -> (k < 16 * r)%nat ->
  exists d' l j, deferred_rounds acts r (b, d) = Ok (tt, (b, d')) /\ wf d' /\ called d' = called d ++ l /\
    (j <= k)%nat /\ l !! j = Some (x, cb_arg y).
Proof. intros Hw Hi Hb Hg Hk Ey Hr. by eapply rounds_progress. Qed.

(** Two callbacks of which both schedule the first again. *)
Definition ex_env : LoopEnv unit := {|
  loop_env := {| evsel := mkOp (fun _ _ _ => ret 0) (fun _ _ _ => ret 0); evsig_add _ := ret 0; evsig_del _ := ret 0;
                 th_notify_fn := None; addr _ := 0 |};
  dispatch _ := ret 0; resume_signals := ret tt; call _ _ _ _ := ret tt |}.
Definition ex_base : base unit := mkBase (MinHeap.mkSt (MinHeap.mkHeap [] 0 0) ∅ []) ∅ (mkQs [] [] [] [] [] 0 0 0)
  (mkClk (0, 0) (0, 0) (0, 0) 0 false false [] []) (mkCtrl false false false (-1) true None 0 0 None 0 false) tt.
Definition ex_deferred : deferred :=
  mkDef {[ 1%positive := mkCb true 7 70; 2%positive := mkCb true 8 80 ]} (mkQueue 2 true [1%positive; 2%positive]) true [].

Lemma deferred_is_served_witness :
  exists d' l j, @deferred_rounds unit ex_env (fun _ _ _ _ => [Schedule 1%positive]) 1 (ex_base, ex_deferred) = Ok (tt, (ex_base, d')) /\ wf d' /\
    called d' = [] ++ l /\ (j <= 1)%nat /\ l !! j = Some (2%positive, 80).
Proof.
  refine (@deferred_is_served unit ex_env (fun _ _ _ _ => [Schedule 1%positive]) 2%positive (mkCb true 8 80) 1 1 ex_base ex_deferred _ _ _ _ _ _ _);
    [|reflexivity|reflexivity| |reflexivity|reflexivity|lia].
  - split; [apply (bool_decide_unpack _); reflexivity| |reflexivity|reflexivity].
    intros c. cbn. rewrite !elem_of_cons. setoid_rewrite lookup_insert_Some. setoid_rewrite lookup_singleton_Some. split.
    + intros [->|[->|?%elem_of_nil]]; [eexists; split; [left; done|done]|eexists; split; [right; done|done]|done].
    + intros (x & [[<- _]|[_ [<- _]]] & _); auto.
  - intros fn c arg log. constructor; [|constructor]. eexists. reflexivity.
Defined.
End Deferred.
