(* ===== verification/EvOnce.v ===== *)
(** * Events that run once, and common timeouts (src/libevent/event.c)

    event_base_once and event_base_loopexit, the virtual events of a base, and
    event_base_init_common_timeout, which gives a base a queue for the events
    that wait for one duration. The state is an event base together with the
    struct event_once in memory and the length of the array of queues. *)

From stdpp Require Import prelude gmap.
From S2P Require Import Prelude MinHeap EvBase EvOps EvLoop.
Open Scope Z_scope.

Module EvOnce.
Import EvBase EvOps EvLoop.

(** [onces]: the callback and argument behind the event of a struct
    event_once. *)
Record extra := mkExtra { onces : gmap loc (Z * Z); n_common_timeouts_allocated : Z }.

Definition MAX_COMMON_TIMEOUTS : Z := 256.

(** The numbers of the functions of event.c that are called through pointers. *)
Definition event_once_cb_addr : Z := -4.
Definition event_loopexit_cb_addr : Z := -5.
Definition common_timeout_callback_addr : Z := -6.

(** A struct event that mm_calloc made. *)
Definition zero_event : event := mkEvent 0 false 0 0 0 0 0 (0, 0) 0 false 0 0.

Section Once.
Context {B : Type} `{!LoopEnv B}.
Abbreviation T := (M (base B * extra)).

Definition onb {A} (m : M (base B) A) : T A := fun s =>
  match m (fst s) with Ok (a, b) => Ok (a, (b, snd s)) | Fault f => Fault f end.
Definition xset (f : extra -> extra) : T unit := modify (fun s => (fst s, f (snd s))).

(** mm_calloc of a structure that holds an event. *)
Definition calloc_event : M (base B) (option loc) :=
  let! ok := alloc in
  if negb ok then ret None
  else
    let! m := gets evs in
    let! h := gets th in
    let e := fresh (dom m ∪ dom (MinHeap.evs h)) in
    modify (fun b : base B =>
      set_th (MinHeap.mkSt (MinHeap.hp h) (<[e := MinHeap.mkEv 0 0 0]> (MinHeap.evs h)) (MinHeap.mem h)) (set_evs (<[e := zero_event]> m) b)) ;;
    ret (Some e).

(** mm_free of the structure. *)
Definition free_event (e : loc) : M (base B) unit :=
  modify (fun b : base B =>
    set_th (MinHeap.mkSt (MinHeap.hp (th b)) (delete e (MinHeap.evs (th b))) (MinHeap.mem (th b))) (set_evs (delete e (evs b)) b)).

Definition evtimer_assign (e : loc) (cb arg : Z) : M (base B) Z := event_assign e true (-1) 0 cb arg.

Definition put_once (e : loc) (cb arg : Z) : T unit :=
  xset (fun x => mkExtra (<[e := (cb, arg)]> (onces x)) (n_common_timeouts_allocated x)).
Definition free_once (e : loc) : T unit :=
  onb (free_event e) ;; xset (fun x => mkExtra (delete e (onces x)) (n_common_timeouts_allocated x)).

(** The callback of the event of [e]. *)
Definition event_once_cb (fd events : Z) (e : loc) : T unit :=
  let! s := get in
  match onces (snd s) !! e with
  | None => fail UseAfterFree
  | Some (cb, arg) => onb (call cb fd events arg) ;; free_once e
  end.

Definition event_base_once (fd events callback arg : Z) (tv : option timeval) : T Z :=
  if has events (Z.lor EV_SIGNAL EV_PERSIST) then ret (-1)
  else
    let! o := onb calloc_event in
    match o with
    | None => ret (-1)
    | Some e =>
        put_once e callback arg ;;
        let add (tv : option timeval) : T Z :=
          let! res := onb (event_add e tv) in
          if negb (Z.eqb res 0) then free_once e ;; ret res else ret 0 in
        if Z.eqb events EV_TIMEOUT then
          let! _ := onb (evtimer_assign e event_once_cb_addr (Zpos e)) in
          add (Some (default (0, 0) tv))
        else if has events (Z.lor EV_READ EV_WRITE) then
          let! _ := onb (event_assign e true fd (Z.land events (Z.lor EV_READ EV_WRITE)) event_once_cb_addr (Zpos e)) in
          add tv
        else free_once e ;; ret (-1)
    end.

(** [base]: the argument of event_loopexit_cb. *)
Definition event_base_loopexit (base : Z) (tv : option timeval) : T Z :=
  event_base_once (-1) EV_TIMEOUT event_loopexit_cb_addr base tv.

(** ** Questions about the loop, virtual events *)

Definition event_base_got_break : M (base B) bool := gets (fun b => event_break (ctrl b)).
Definition event_base_got_exit : M (base B) bool := gets (fun b => event_gotterm (ctrl b)).

Definition put_virtual (n : Z) (q : queues) : queues :=
  mkQs (eventqueue q) (activequeues q) (io q) (sigmap q) (commons q) (event_count q) (event_count_active q) n.

Definition event_base_add_virtual : M (base B) unit := qset (fun q => put_virtual (virtual_event_count q + 1) q).

Definition event_base_del_virtual : M (base B) unit :=
  let! q := gets qs in
  if negb (Z.ltb 0 (virtual_event_count q)) then fail AssertFailed
  else
    qset (put_virtual (virtual_event_count q - 1)) ;;
    let! c := gets ctrl in
    when (Z.eqb (virtual_event_count q - 1) 0 && EVBASE_NEED_NOTIFY c)
      (let! _ := evthread_notify_base th_notify_fn in ret tt).

(** ** Common timeouts *)

(** A duration with too many microseconds is brought into order. *)
Definition normal_duration (q : queues) (d : timeval) : timeval :=
  if Z.ltb 1000000 (snd d) then
    let u := if is_common_timeout d q then Z.land (snd d) MICROSECONDS_MASK else snd d in
    (fst d + Z.quot u 1000000, Z.rem u 1000000)
  else d.

(** The queues from index [i] on: the first one for this duration. *)
Fixpoint find_common (d : timeval) (l : list common_timeout_list) : option common_timeout_list :=
  match l with
  | [] => None
  | c :: l' =>
      if Z.eqb (fst d) (fst (ctl_duration c)) && Z.eqb (snd d) (Z.land (snd (ctl_duration c)) MICROSECONDS_MASK)
      then Some c else find_common d l'
  end.

(** The duration of queue number [n], with the mark of common timeouts. *)
Definition common_duration (d : timeval) (n : Z) : timeval :=
  (fst d, Z.lor (Z.lor (snd d) COMMON_TIMEOUT_MAGIC) (Z.shiftl n COMMON_TIMEOUT_IDX_SHIFT)).

(** EVUTIL_ASSERT(is_common_timeout(result, base)) *)
Definition checked (d : timeval) : T (option timeval) :=
  let! q := onb (gets qs) in
  if is_common_timeout d q then ret (Some d) else fail AssertFailed.

(** mm_realloc of the array, when it is full. *)
Definition room_for_queue (n : Z) : T bool :=
  let! s := get in
  if Z.eqb (n_common_timeouts_allocated (snd s)) n then
    let! ok := onb alloc in
    if ok : bool then xset (fun x => mkExtra (onces x) (if Z.ltb n 16 then 16 else n * 2)) ;; ret true else ret false
  else ret true.

(** [None] is NULL. *)
Definition event_base_init_common_timeout (duration : timeval) : T (option timeval) :=
  let! q := onb (gets qs) in
  let d := normal_duration q duration in
  let n := Z.of_nat (length (commons q)) in
  match find_common d (commons q) with
  | Some c => if is_common_timeout (ctl_duration c) q then checked (ctl_duration c) else fail AssertFailed
  | None =>
      if Z.eqb n MAX_COMMON_TIMEOUTS then ret None
      else
        let! ok := room_for_queue n in
        if negb ok then ret None
        else
          let! o := onb calloc_event in
          match o with
          | None => ret None
          | Some e =>
              let! _ := onb (evtimer_assign e common_timeout_callback_addr n) in
              onb (upd e (fun v => set_flags (Z.lor (ev_flags v) EVLIST_INTERNAL) v)) ;;
              let! _ := onb (event_priority_set e 0) in
              onb (qset (fun q => put_commons (commons q ++ [mkCtl [] (common_duration d n) e]) q)) ;;
              checked (common_duration d n)
          end
  end.
End Once.

(** ** The mark of a common timeout *)

Lemma land_shiftl x m k : 0 <= k -> Z.land x (Z.shiftl m k) = Z.shiftl (Z.land (Z.shiftr x k) m) k.
Proof.
  intros Hk. apply Z.bits_inj'. intros n Hn. rewrite Z.land_spec, !Z.shiftl_spec by done.
  destruct (Z.ltb_spec n k) as [Hl|Hl]; [by rewrite !(Z.testbit_neg_r _ (n - k)), andb_false_r by lia|].
  rewrite Z.land_spec, Z.shiftr_spec by lia. by rewrite Z.sub_add.
Qed.

Lemma shiftr_small x k : 0 <= k -> 0 <= x < 2 ^ k -> Z.shiftr x k = 0.
Proof. intros Hk Hx. rewrite Z.shiftr_div_pow2 by done. by apply Z.div_small. Qed.

(** Microseconds [u] and number [n] can be read back. *)
Lemma common_duration_bits s u n : 0 <= u < 2 ^ 20 -> 0 <= n < 256 ->
  let d := common_duration (s, u) n in
  Z.land (snd d) MICROSECONDS_MASK = u /\ Z.land (snd d) COMMON_TIMEOUT_MASK = COMMON_TIMEOUT_MAGIC /\ COMMON_TIMEOUT_IDX d = n.
Proof.
  intros Hu Hn. unfold COMMON_TIMEOUT_IDX, common_duration, COMMON_TIMEOUT_IDX_SHIFT. cbn [snd fst].
  change COMMON_TIMEOUT_MAGIC with (Z.shiftl 0x500 20). rewrite <- !Z.lor_assoc, <- !Z.shiftl_lor.
  set (h := Z.lor 0x500 n). set (x := Z.lor u (Z.shiftl h 20)).
  assert (Hx : Z.shiftr x 20 = h).
  { unfold x. rewrite Z.shiftr_lor, shiftr_small, Z.lor_0_l, Z.shiftr_shiftl_l by (done || lia). change (20 - 20) with 0. by rewrite Z.shiftl_0_r. }
  split_and!.
  - unfold x. rewrite Z.land_lor_distr_l. change MICROSECONDS_MASK with (Z.ones 20). rewrite !Z.land_ones, Z.shiftl_mul_pow2, Z.mod_mul, Z.lor_0_r by lia.
    by apply Z.mod_small.
  - change COMMON_TIMEOUT_MASK with (Z.shiftl 0xf00 20). rewrite land_shiftl, Hx by lia. f_equal. unfold h. rewrite Z.land_lor_distr_l.
    change 0xf00 with (Z.shiftl 0xf 8) at 2. rewrite land_shiftl, (shiftr_small n), Z.land_0_l by lia. reflexivity.
  - rewrite Z.shiftr_land, Hx. change (Z.shiftr COMMON_TIMEOUT_IDX_MASK 20) with (Z.ones 8). unfold h. rewrite Z.land_lor_distr_l, (Z.land_ones n) by lia.
    rewrite Z.mod_small by lia. reflexivity.
Qed.

(** The queues are numbered: the duration of each tells its place. *)
Definition commons_ok (q : queues) : Prop := (length (commons q) <= 256)%nat /\
  forall i c, commons q !! i = Some c -> exists d, ctl_duration c = common_duration d (Z.of_nat i) /\ 0 <= snd d < 2 ^ 20.

Lemma commons_are_common q i c : commons_ok q -> commons q !! i = Some c ->
  is_common_timeout (ctl_duration c) q = true /\ COMMON_TIMEOUT_IDX (ctl_duration c) = Z.of_nat i.
Proof.
  intros [Hl Hq] Hc. pose proof (lookup_lt_Some _ _ _ Hc) as Hi. destruct (Hq i c Hc) as ([s u] & -> & Hu). cbn in Hu.
  destruct (common_duration_bits s u (Z.of_nat i)) as (_ & E2 & E3); [done|lia|]. split; [|done].
  unfold is_common_timeout. rewrite E2, E3, Z.eqb_refl. cbn [negb]. apply Z.ltb_lt. lia.
Qed.

Lemma find_common_some d l c : find_common d l = Some c ->
  exists i : nat, l !! i = Some c /\ fst (ctl_duration c) = fst d /\ Z.land (snd (ctl_duration c)) MICROSECONDS_MASK = snd d.
Proof.
  induction l as [|x l IH]; [done|]. cbn. destruct (Z.eqb_spec (fst d) (fst (ctl_duration x))); cbn [andb].
  1: destruct (Z.eqb_spec (snd d) (Z.land (snd (ctl_duration x)) MICROSECONDS_MASK)).
  1: intros [= <-]; exists 0%nat; by split_and!.
  all: intros (i & ? & ? & ?)%IH; exists (S i); by split_and!.
Qed.

Lemma find_common_none d l : find_common d l = None -> forall i c, l !! i = Some c ->
  (fst (ctl_duration c), Z.land (snd (ctl_duration c)) MICROSECONDS_MASK) <> d.
Proof.
  induction l as [|x l IH]; [done|]. cbn. destruct (Z.eqb_spec (fst d) (fst (ctl_duration x))); cbn [andb].
  1: destruct (Z.eqb_spec (snd d) (Z.land (snd (ctl_duration x)) MICROSECONDS_MASK)); [done|].
  all: intros Hn [|i] c Hc; [injection Hc as <-; intros <-; done|by eapply IH].
Qed.

(** Room for another queue. *)
Lemma commons_ok_snoc q d e : commons_ok q -> (length (commons q) < 256)%nat -> 0 <= snd d < 2 ^ 20 ->
  commons_ok (put_commons (commons q ++ [mkCtl [] (common_duration d (Z.of_nat (length (commons q)))) e]) q).
Proof.
  intros [Hl Hq] Hn Hd. split; [cbn; rewrite length_app; cbn; lia|]. intros i c. cbn. rewrite lookup_app_Some.
  intros [Hc|[Hi Hc]]; [eauto|]. apply list_lookup_singleton_Some in Hc as [Hi0 <-]. exists d. cbn.
  replace i with (length (commons q)) by lia. done.
Qed.
Section Common.
Context {B : Type} `{!LoopEnv B}.
Implicit Types (b : base B) (x : extra).

Lemma calloc_event_run b : exists o b', calloc_event b = Ok (o, b') /\ qs b' = qs b /\
  match o with None => evs b' = evs b | Some e => evs b !! e = None /\ evs b' = <[e := zero_event]> (evs b) /\ is_Some (MinHeap.evs (th b') !! e) end.
Proof.
  unfold calloc_event, alloc, bind, gets. destruct (MinHeap.mem (th b)) as [|[] m]; cbn; try (do 2 eexists; by split_and!).
  do 2 eexists. split; [reflexivity|]. cbn. split_and!; [done| |done|].
  - apply not_elem_of_dom. intros He. eapply (is_fresh (dom (evs b) ∪ dom (MinHeap.evs (th b)))), elem_of_union_l, He.
  - rewrite lookup_insert_eq. eauto.
Qed.

(** evtimer_assign, the flag EVLIST_INTERNAL and event_priority_set on an
    event in memory: no queue changes. *)
Lemma prepare_run b e v n : evs b !! e = Some v -> is_Some (MinHeap.evs (th b) !! e) -> exists b',
  (let! _ := evtimer_assign e common_timeout_callback_addr n in
   upd e (fun v => set_flags (Z.lor (ev_flags v) EVLIST_INTERNAL) v) ;;
   let! _ := event_priority_set e 0 in ret tt) b = Ok (tt, b') /\ qs b' = qs b.
Proof.
  intros Hv [h Hh]. unfold evtimer_assign, event_assign, event_priority_set, upd, rd, heap, MinHeap.min_heap_elem_init, MinHeap.set_idx, MinHeap.load, bind, gets, modify, ret.
  rewrite Hv. cbn -[has]. change (has 0 EV_SIGNAL) with false. cbn [andb]. rewrite Hv. cbn -[has]. rewrite Hh. cbn -[has].
  rewrite lookup_insert_eq. cbn -[has]. rewrite lookup_insert_eq. cbn -[has].
  destruct (has _ EVLIST_ACTIVE); [by eexists|]. destruct (_ || _); [by eexists|]. cbn -[has set_flags]. rewrite lookup_insert_eq. by eexists.
Qed.

Lemma onb_bind {A C} (m : M (base B) A) (k : A -> M (base B * extra) C) b x a b' :
  m b = Ok (a, b') -> bind (onb m) k (b, x) = k a (b', x).
Proof. intros E. unfold bind, onb. cbn [fst snd]. by rewrite E. Qed.

Lemma checked_run d b x : is_common_timeout d (qs b) = true -> checked d (b, x) = Ok (Some d, (b, x)).
Proof. intros H. unfold checked. rewrite (onb_bind _ _ b x (qs b) b eq_refl). by rewrite H. Qed.

Lemma room_for_queue_run n b x : exists ok b' x', room_for_queue n (b, x) = Ok (ok, (b', x')) /\ qs b' = qs b.
Proof.
  unfold room_for_queue, bind at 1, get. cbn [snd]. destruct (Z.eqb _ n); [|by exists true, b, x].
  destruct (MinHeap.mem (th b)) as [|[] m] eqn:E; unfold bind, onb, alloc; cbn; rewrite E; by do 3 eexists.
Qed.

(** The queue at the end. *)
Lemma new_queue_run d b x e v : commons_ok (qs b) -> (length (commons (qs b)) < 256)%nat -> 0 <= snd d < 2 ^ 20 ->
  evs b !! e = Some v -> is_Some (MinHeap.evs (th b) !! e) ->
  let n := Z.of_nat (length (commons (qs b))) in
  exists b', (let! _ := onb (evtimer_assign e common_timeout_callback_addr n) in
     onb (upd e (fun v => set_flags (Z.lor (ev_flags v) EVLIST_INTERNAL) v)) ;;
     let! _ := onb (event_priority_set e 0) in
     onb (qset (fun q => put_commons (commons q ++ [mkCtl [] (common_duration d n) e]) q)) ;;
     checked (common_duration d n)) (b, x) = Ok (Some (common_duration d n), (b', x)) /\
    qs b' = put_commons (commons (qs b) ++ [mkCtl [] (common_duration d n) e]) (qs b).
Proof.
  intros Hok Hl Hd Hv Hh n. destruct (prepare_run b e v n Hv Hh) as (b3 & E & Hq).
  apply bind_inv in E as (r1 & b1 & E1 & E). apply bind_inv in E as ([] & b2 & E2 & E). apply bind_inv in E as (r3 & b3' & E3 & [= <-]).
  rewrite (onb_bind _ _ _ _ _ _ E1), (onb_bind _ _ _ _ _ _ E2), (onb_bind _ _ _ _ _ _ E3).
  set (q' := put_commons (commons (qs b3') ++ [mkCtl [] (common_duration d n) e]) (qs b3')).
  rewrite (onb_bind _ _ _ _ tt (set_qs q' b3')) by done. exists (set_qs q' b3').
  assert (Eq : q' = put_commons (commons (qs b) ++ [mkCtl [] (common_duration d n) e]) (qs b)) by (unfold q'; by rewrite Hq).
  split; [|exact Eq]. apply checked_run. cbn. rewrite Eq.
  eapply (commons_are_common _ (length (commons (qs b))) (mkCtl [] (common_duration d n) e)).
  - by apply commons_ok_snoc.
  - cbn. by apply list_lookup_middle.
Qed.

(** What event_base_init_common_timeout answers: NULL, with the queues as they
    were, or the marked duration of the queue for [duration], which is found or
    put at the end. *)
Lemma init_common_timeout_spec duration b x : commons_ok (qs b) -> 0 <= snd (normal_duration (qs b) duration) < 2 ^ 20 ->
  exists r b' x', event_base_init_common_timeout duration (b, x) = Ok (r, (b', x')) /\ commons_ok (qs b') /\
    match r with
    | None => commons (qs b') = commons (qs b)
    | Some t => masked t = normal_duration (qs b) duration /\ is_common_timeout t (qs b') = true /\
        commons (qs b) `prefix_of` commons (qs b') /\
        exists c, commons (qs b') !! Z.to_nat (COMMON_TIMEOUT_IDX t) = Some c /\ ctl_duration c = t
    end.
Proof.
  intros Hok Hd. unfold event_base_init_common_timeout. rewrite (onb_bind _ _ b x (qs b) b eq_refl).
  destruct (find_common (normal_duration (qs b) duration) (commons (qs b))) as [c|] eqn:Ef.
  - apply find_common_some in Ef as (i & Hc & E1 & E2). destruct (commons_are_common (qs b) i c Hok Hc) as [Hi Ei].
    rewrite Hi, checked_run by done. exists (Some (ctl_duration c)), b, x. split_and!; [done|done| |done|done|].
    + unfold masked. rewrite E1, E2. by destruct (normal_duration _ _).
    + exists c. rewrite Ei, Nat2Z.id. done.
  - destruct (Z.eqb_spec (Z.of_nat (length (commons (qs b)))) MAX_COMMON_TIMEOUTS) as [|Hn]; [by exists None, b, x|].
    assert (Hl : (length (commons (qs b)) < 256)%nat) by (pose proof (proj1 Hok); unfold MAX_COMMON_TIMEOUTS in Hn; lia).
    destruct (room_for_queue_run (Z.of_nat (length (commons (qs b)))) b x) as (ok & b1 & x1 & E1 & Q1). rewrite (bind_ok _ _ _ _ _ E1).
    destruct ok; cbn [negb]; [|exists None, b1, x1; by rewrite Q1].
    destruct (calloc_event_run b1) as (o & b2 & E2 & Q2 & Ho). rewrite (onb_bind _ _ _ _ _ _ E2). rewrite Q1 in Q2.
    destruct o as [e|]; [|exists None, b2, x1; by rewrite Q2]. destruct Ho as (_ & He & Hh).
    assert (Hok2 : commons_ok (qs b2)) by by rewrite Q2.
    destruct (new_queue_run (normal_duration (qs b) duration) b2 x1 e zero_event Hok2) as (b3 & E3 & Q3); [by rewrite Q2|done|by rewrite He, lookup_insert_eq|done|].
    rewrite Q2 in E3, Q3. rewrite E3. destruct (normal_duration (qs b) duration) as [s u] eqn:En. cbn [snd] in Hd.
    destruct (common_duration_bits s u (Z.of_nat (length (commons (qs b))))) as (B1 & B2 & B3); [done|lia|].
    pose proof (commons_ok_snoc (qs b) (s, u) e Hok Hl Hd) as Hok3.
    eexists _, b3, x1. split; [reflexivity|]. rewrite Q3. split; [exact Hok3|]. split_and!.
    + unfold masked. by rewrite B1.
    + apply (commons_are_common _ (length (commons (qs b))) (mkCtl [] (common_duration (s, u) (Z.of_nat (length (commons (qs b))))) e) Hok3).
      cbn. by apply list_lookup_middle.
    + cbn. by apply prefix_app_r.
    + eexists. split; [|shelve]. rewrite B3, Nat2Z.id. cbn. by apply list_lookup_middle.
      Unshelve. done.
Qed.
End Common.
End EvOnce.
