(* ===== verification/EvRun.v ===== *)
(** * The operations on the queues and maps keep the invariant

    [base_ok K b]: the base [b] is well-formed, and the events with a timeout
    are due at the times [K]. *)

From stdpp Require Import prelude gmap.
From S2P Require Import Prelude MinHeap EvBase EvOps EvInv.
Open Scope Z_scope.

Module EvRun.
Import EvBase EvOps EvInv.

Section Run.
Context {B : Type} `{!Env B} `{!BackendOk (evsel (B := B))}.
Implicit Types b : base B.

(** [base_inv I K b]: the entries of the descriptors hold the events [I]. *)
Record base_inv (I : loc -> Prop) (K : loc -> timeval) (b : base B) : Prop := {
  b_queues : queues_ok (evs b) (qs b);
  b_dom : forall e, is_Some (evs b !! e) -> is_Some (MinHeap.evs (th b) !! e);
  b_heap : MinHeap.timeheap K (on (evs b) EVLIST_TIMEOUT) (th b);
  b_io : io_ok I (evs b) (io (qs b)) (watched (evbase b));
  b_thread : id_fn (ctrl b) = None;
  b_back : b_inv (evbase b)
}.

(** They hold the events that are added. *)
Definition base_ok (K : loc -> timeval) (b : base B) : Prop := base_inv (on (evs b) EVLIST_INSERTED) K b.

(** ** Access *)

Lemma rd_event_run b e v : evs b !! e = Some v -> rd e b = Ok (v, b).
Proof. unfold rd. by intros ->. Qed.

Lemma upd_run b e v f : evs b !! e = Some v -> upd e f b = Ok (tt, set_evs (<[e := f v]> (evs b)) b).
Proof. intros Hv. unfold upd. by rewrite (bind_ok _ _ _ _ _ (rd_event_run b e v Hv)). Qed.

Lemma heap_run {A} (m : MinHeap.T A) b a h : m (th b) = Ok (a, h) -> heap m b = Ok (a, set_th h b).
Proof. unfold heap. by intros ->. Qed.

Lemma backend_run {A} (m : M B A) b a x : m (evbase b) = Ok (a, x) -> backend m b = Ok (a, set_evbase x b).
Proof. unfold backend. by intros ->. Qed.

Lemma set_th_same b : set_th (th b) b = b.
Proof. by destruct b. Qed.

Lemma gets_run {A} (f : base B -> A) b : gets f b = Ok (f b, b).
Proof. done. Qed.

Definition set_mem (m : list bool) (b : base B) : base B :=
  set_th (MinHeap.mkSt (MinHeap.hp (th b)) (MinHeap.evs (th b)) m) b.

Lemma alloc_run b : exists r m, alloc b = Ok (r, set_mem m b).
Proof. unfold alloc, set_mem. eauto. Qed.

(** ** Space in the map of descriptors *)

Lemma grow_to_run fuel n slot :
  0 < n -> slot < 1073741824 -> slot < n * 2 ^ Z.of_nat fuel -> exists k, grow_to (S fuel) n slot = Ok k /\ slot < k /\ n <= k.
Proof.
  revert n. induction fuel as [|f IH]; intros n Hn Hs Hf; simpl grow_to at 1.
  - change (2 ^ Z.of_nat 0) with 1 in Hf. destruct (Z.leb_spec n slot); [lia|]. exists n. split_and!; [done|lia|lia].
  - destruct (Z.leb_spec n slot); [|exists n; split_and!; [done|lia|lia]].
    replace (s32 (n * 2)) with (n * 2) by (symmetry; apply s32_id; lia).
    rewrite Nat2Z.inj_succ, Z.pow_succ_r in Hf by lia. destruct (IH (n * 2)) as (k & E & Hk & Hn2); [lia|lia|lia|].
    exists k. split_and!; [exact E|lia|lia].
Qed.

Lemma make_space_run {X} (entries : list (option X)) slot b :
  0 <= slot < 1073741824 ->
  exists r m, evmap_make_space entries slot b = Ok (r, set_mem m b) /\
    (r = None \/ exists n, r = Some (entries ++ replicate n None) /\ (Z.to_nat slot < length (entries ++ replicate n (@None X)))%nat).
Proof.
  intros Hs. unfold evmap_make_space. cbn zeta. destruct (Z.leb_spec (Z.of_nat (length entries)) slot) as [Hl|Hl].
  - set (k0 := if Z.eqb _ 0 then 32 else _).
    assert (Hk0 : 0 < k0 /\ Z.of_nat (length entries) <= k0) by (unfold k0; destruct (Z.eqb_spec (Z.of_nat (length entries)) 0); lia).
    destruct (grow_to_run 31 k0 slot) as (k & E & Hk & Hkk); [lia|lia|change (2 ^ Z.of_nat 31) with 2147483648; lia|].
    unfold bind at 1, lift. change 32%nat with (S 31). rewrite E. destruct (alloc_run b) as (r & m & Ea).
    rewrite (bind_ok _ _ _ _ _ Ea). destruct r; do 2 eexists; (split; [reflexivity|]); [right|by left].
    eexists. split; [done|]. rewrite length_app, length_replicate. lia.
  - exists (Some entries), (MinHeap.mem (th b)). split; [by destruct b as [[] ? ? ? ? ?]|]. right. exists 0%nat. rewrite app_nil_r. split; [done|lia].
Qed.

(** ** Adding to and deleting from the map of descriptors *)

(** Only the map, the backend and the answers of the allocator may differ. *)
Record io_step (b b' : base B) : Prop := {
  is_evs : evs b' = evs b;
  is_clk : clk b' = clk b;
  is_ctrl : ctrl b' = ctrl b;
  is_hp : MinHeap.hp (th b') = MinHeap.hp (th b);
  is_th : MinHeap.evs (th b') = MinHeap.evs (th b);
  is_qs : qs b' = put_io (io (qs b')) (qs b);
  is_inv : b_inv (evbase b')
}.

Definition map_ok (I : loc -> Prop) (b : base B) : Prop := io_ok I (evs b) (io (qs b)) (watched (evbase b)).

Lemma io_ok_neg I I' m l w e v :
  m !! e = Some v -> ev_fd v < 0 -> (forall x, x <> e -> I x <-> I' x) -> io_ok I m l w -> io_ok I' m l w.
Proof.
  intros Hv Hfd HI [H1 H2 H3].
  assert (Hon : forall fd x, 0 <= fd -> on_fd I m fd x <-> on_fd I' m fd x).
  { intros fd x Hf. unfold on_fd. destruct (decide (x = e)) as [->|Hne]; [|by rewrite HI].
    split; intros (_ & w' & Hw & _ & E); simplify_eq; lia. }
  split; [|intros fd x Hf; rewrite <-Hon by done; eauto|done]. intros fd c Hf Hc. destruct (H1 fd c Hf Hc) as [E1 E2 E3 E4 E5].
  split; try done. intros x. by rewrite E2, Hon.
Qed.

Lemma io_ok_watch I m l w w' : (forall k, 0 <= k -> w' k = w k) -> io_ok I m l w -> io_ok I m l w'.
Proof. intros Hw [H1 H2 H3]. split; try done. intros fd Hf. rewrite Hw by done. auto. Qed.

Lemma et_zero v c : newly v c <> 0 -> Z.land (Z.lor (Z.land (ev_events v) EV_ET) (newly v c)) rw <> 0.
Proof. by rewrite land_et_newly. Qed.

Lemma et_nosig v c : has (Z.lor (Z.land (ev_events v) EV_ET) (newly v c)) EV_SIGNAL = false.
Proof.
  rewrite has_lor. apply orb_false_iff. split.
  - unfold has. rewrite <-Z.land_assoc. change (Z.land EV_ET EV_SIGNAL) with 0. by rewrite Z.land_0_r.
  - unfold newly. by destruct (_ && _), (_ && _).
Qed.

Lemma io_add_entry_run I b e v c :
  map_ok I b -> b_inv (evbase b) -> evs b !! e = Some v -> 0 <= ev_fd v -> ev_fd v < 1073741824 -> has (ev_events v) rw = true -> ~ I e ->
  entry (io (qs b)) (ev_fd v) = Some c ->
  exists r b', io_add_entry evsel (ev_fd v) e v c b = Ok (r, b') /\ io_step b b' /\
    ((r = -1 /\ map_ok I b') \/ ((r = 0 \/ r = 1) /\ map_ok (fun x => x = e \/ I x) b')).
Proof.
  intros HI Hx Hv Hfd Hmax Hrw He Hc. pose proof (i_entry _ _ _ _ HI _ _ Hfd Hc) as Hen.
  pose proof (i_watch _ _ _ _ HI _ Hfd) as Hw. rewrite Hc in Hw. pose proof (rw_nonneg v) as Hnn.
  pose proof (count_nonneg (evs b) EV_READ (io_events c)) as N1. pose proof (count_nonneg (evs b) EV_WRITE (io_events c)) as N2.
  rewrite <-(en_r _ _ _ _ Hen) in N1. rewrite <-(en_w _ _ _ _ Hen) in N2.
  unfold io_add_entry. cbn zeta. destruct (Z.ltb_spec 0xffff (nread c + readers v)) as [|Hr]; cbn [orb].
  { exists (-1), b. split_and!; [done|by split; try (by destruct (qs b))|by left]. }
  destruct (Z.ltb_spec 0xffff (nwrite c + writers v)) as [|Hwr].
  { exists (-1), b. split_and!; [done|by split; try (by destruct (qs b))|by left]. }
  unfold u16. rewrite !Z.mod_small by lia. pose proof (entry_add I (evs b) (ev_fd v) e v c Hen Hv eq_refl Hrw He Hr Hwr) as Hadd.
  assert (Hlen : (Z.to_nat (ev_fd v) < length (io (qs b)))%nat).
  { unfold entry in Hc. destruct (io (qs b) !! Z.to_nat (ev_fd v)) eqn:E; [|done]. by apply lookup_lt_Some in E. }
  assert (Hother : forall k x, k <> ev_fd v -> on_fd I (evs b) k x <-> on_fd (fun x => x = e \/ I x) (evs b) k x)
    by (unfold on_fd; intros k x Hk; naive_solver).
  destruct (Z.eqb_spec (newly v c) 0) as [En|En].
  - rewrite (bind_ok _ _ _ _ _ (eq_refl : ret 0 b = Ok (0, b))). change (Z.eqb 0 (-1)) with false. cbn match.
    do 2 eexists. split; [reflexivity|]. split; [by split|]. right. split; [by left|].
    eapply (io_ok_put I); try done. intros k Hk. cbn. destruct (Z.eqb_spec k (ev_fd v)) as [->|]; [|done].
    by rewrite (old_newly _ _ _ v _ Hen), En, Z.lor_0_r.
  - destruct (add_ok (evbase b) (ev_fd v) (old_events c) (Z.lor (Z.land (ev_events v) EV_ET) (newly v c)) Hx) as (r & x' & E & Hx' & Hr');
      [done|done|by apply et_zero|apply et_nosig|]. rewrite (bind_ok _ _ _ _ _ (backend_run _ _ _ _ E)). destruct Hr' as [[-> Hw']|[-> Hw']].
    + change (Z.eqb 0 (-1)) with false. cbn match. do 2 eexists. split; [reflexivity|]. split; [by split|]. right. split; [by right|].
      eapply (io_ok_put I); try done. intros k Hk. cbn. rewrite Hw', land_et_newly by done.
      destruct (Z.eqb_spec k (ev_fd v)); [|done]. by rewrite (old_newly _ _ _ v _ Hen).
    + do 2 eexists. split; [reflexivity|]. split; [split; try done; by destruct b as [? ? [] ? ? ?]|]. left. split; [done|].
      eapply io_ok_watch; [|exact HI]. done.
Qed.

Lemma io_step_refl b : b_inv (evbase b) -> io_step b b.
Proof. split; try done. by destruct (qs b). Qed.

Lemma io_step_trans b1 b2 b3 : io_step b1 b2 -> io_step b2 b3 -> io_step b1 b3.
Proof.
  intros [E1 E2 E3 E4 E5 E6 E7] [D1 D2 D3 D4 D5 D6 D7]. split; try congruence. rewrite D6, E6. by destruct (qs b1).
Qed.

(** The array and the entry of a descriptor are there, or there is no memory. *)
Lemma evmap_io_add_run I b e v :
  map_ok I b -> b_inv (evbase b) -> evs b !! e = Some v -> ev_fd v < 1073741824 -> has (ev_events v) rw = true -> ~ I e ->
  exists r b', evmap_io_add evsel (ev_fd v) e b = Ok (r, b') /\ io_step b b' /\
    ((r = -1 /\ map_ok I b') \/ ((r = 0 \/ r = 1) /\ map_ok (fun x => x = e \/ I x) b')).
Proof.
  intros HI Hx Hv Hfd Hrw He. unfold evmap_io_add. rewrite (bind_ok _ _ _ _ _ (rd_event_run b e v Hv)), Z.eqb_refl. cbn [negb].
  destruct (Z.ltb_spec (ev_fd v) 0) as [Hneg|Hpos].
  { exists 0, b. split_and!; [done|by apply io_step_refl|]. right. split; [by left|].
    eapply (io_ok_neg I _ _ _ _ e v); try done. naive_solver. }
  rewrite (bind_ok _ _ _ _ _ (gets_run qs b)).
  destruct (make_space_run (io (qs b)) (ev_fd v) b) as (sp & m1 & E1 & Hsp); [lia|]. rewrite (bind_ok _ _ _ _ _ E1).
  destruct Hsp as [->|(n & -> & Hlen)].
  { exists (-1), (set_mem m1 b). split_and!; [done|split; try done; by destruct b as [? ? [] ? ? ?]|by left]. }
  set (l := io (qs b) ++ replicate n None) in *. set (b1 := set_qs (put_io l (qs b)) (set_mem m1 b)).
  rewrite (bind_ok _ _ _ _ _ (eq_refl : qset (put_io l) (set_mem m1 b) = Ok (tt, b1))).
  assert (HI1 : map_ok I b1) by (by apply io_ok_grow). assert (Hs1 : io_step b b1) by (by split).
  unfold slot_and_ctor. destruct (Z.ltb_spec (ev_fd v) 0); [lia|].
  destruct (l !! Z.to_nat (ev_fd v)) as [[c|]|] eqn:El; [| |by apply lookup_ge_None_1 in El; lia].
  - rewrite (bind_ok _ _ _ _ _ (eq_refl : ret (Some c) b1 = Ok (Some c, b1))).
    assert (Ep : put_entry (ev_fd v) c b1 = Ok (tt, b1)).
    { unfold put_entry, qset, modify. cbn. rewrite list_insert_id by done. done. }
    rewrite (bind_ok _ _ _ _ _ Ep). destruct (io_add_entry_run I b1 e v c HI1 Hx Hv Hpos Hfd Hrw He) as (r & b' & E & Hs & Hr).
    { unfold entry. cbn. by rewrite El. }
    exists r, b'. split_and!; [done|by eapply io_step_trans|done].
  - destruct (alloc_run b1) as (r & m2 & Ea).
    unfold bind at 1. unfold bind at 1. rewrite Ea. unfold ret at 1. destruct r; cbn match.
    2: { exists (-1), (set_mem m2 b1). split_and!; [done|by split|by left]. }
    set (b2 := set_qs (put_io (<[Z.to_nat (ev_fd v) := Some (mkIo [] 0 0)]> l) (qs b)) (set_mem m2 b1)).
    rewrite (bind_ok _ _ _ _ _ (eq_refl : put_entry (ev_fd v) (mkIo [] 0 0) (set_mem m2 b1) = Ok (tt, b2))).
    assert (HI2 : map_ok I b2).
    { apply io_ok_empty; try done. unfold entry. by rewrite El. }
    destruct (io_add_entry_run I b2 e v (mkIo [] 0 0) HI2 Hx Hv Hpos Hfd Hrw He) as (r & b' & E & Hs & Hr).
    { change (io (qs b2)) with (<[Z.to_nat (ev_fd v) := Some (mkIo [] 0 0)]> l). by rewrite entry_insert, Z.eqb_refl. }
    exists r, b'. split_and!; [done| |done]. eapply io_step_trans; [|exact Hs]. by split.
Qed.

(** Deleting fails only when the backend refuses; the entry is then unchanged. *)
Lemma evmap_io_del_run I b e v :
  map_ok I b -> b_inv (evbase b) -> evs b !! e = Some v -> ev_fd v < 1073741824 -> has (ev_events v) rw = true -> I e ->
  exists r b', evmap_io_del evsel (ev_fd v) e b = Ok (r, b') /\ io_step b b' /\
    ((r = -1 /\ map_ok I b') \/ ((r = 0 \/ r = 1) /\ map_ok (fun x => I x /\ x <> e) b')).
Proof.
  intros HI Hx Hv Hmax Hrw He. unfold evmap_io_del. destruct (Z.ltb_spec (ev_fd v) 0) as [Hneg|Hpos].
  { exists 0, b. split_and!; [done|by apply io_step_refl|]. right. split; [by left|].
    eapply (io_ok_neg I _ _ _ _ e v); try done. naive_solver. }
  rewrite (bind_ok _ _ _ _ _ (rd_event_run b e v Hv)), Z.eqb_refl. cbn [negb]. rewrite (bind_ok _ _ _ _ _ (gets_run qs b)).
  destruct (i_in _ _ _ _ HI (ev_fd v) e Hpos) as [c Hc]; [split; eauto|].
  pose proof (i_entry _ _ _ _ HI _ _ Hpos Hc) as Hen. pose proof (i_watch _ _ _ _ HI _ Hpos) as Hw. rewrite Hc in Hw.
  unfold entry in Hc. destruct (io (qs b) !! Z.to_nat (ev_fd v)) as [o|] eqn:El; [|done]. cbn in Hc. subst o.
  destruct (entry_del I (evs b) (ev_fd v) e v c Hen Hv eq_refl Hrw He) as (Eq & Hr & Hwr & Hdel).
  destruct (old_lastly v c (filter (fun x => x <> e) (io_events c)) Hr Hwr) as [Eo Ea].
  unfold io_del_entry. destruct (Z.ltb_spec (nread c - readers v) 0); [lia|]. destruct (Z.ltb_spec (nwrite c - writers v) 0); [lia|].
  cbn [orb]. cbn zeta.
  assert (Hother : forall k x, k <> ev_fd v -> on_fd I (evs b) k x <-> on_fd (fun x => I x /\ x <> e) (evs b) k x)
    by (unfold on_fd; intros k x Hk; naive_solver).
  assert (Hlen : (Z.to_nat (ev_fd v) < length (io (qs b)))%nat) by (by apply lookup_lt_Some in El).
  destruct (Z.eqb_spec (lastly v c) 0) as [En|En].
  - rewrite (bind_ok _ _ _ _ _ (eq_refl : ret 0 b = Ok (0, b))). change (Z.eqb 0 (-1)) with false. cbn match.
    unfold lift at 1. rewrite Eq. do 2 eexists. split; [reflexivity|]. split; [by split|]. right. split; [by left|].
    eapply (io_ok_put I); try done. intros k Hk. cbn. destruct (Z.eqb_spec k (ev_fd v)) as [->|]; [|done].
    by rewrite Eo, En, Z.ldiff_0_r.
  - destruct (del_ok (evbase b) (ev_fd v) (old_events c) (lastly v c) Hx) as (r & x' & E & Hx' & Hr'); [done..|].
    rewrite (bind_ok _ _ _ _ _ (backend_run _ _ _ _ E)). destruct Hr' as [[-> Hw']|[-> Hw']].
    + change (Z.eqb 0 (-1)) with false. cbn match. unfold lift at 1. rewrite Eq.
      do 2 eexists. split; [reflexivity|]. split; [by split|]. right. split; [by right|].
      eapply (io_ok_put I); try done. intros k Hk. cbn. rewrite Hw' by done. by destruct (Z.eqb_spec k (ev_fd v)).
    + do 2 eexists. split; [reflexivity|]. split; [split; try done; by destruct b as [? ? [] ? ? ?]|]. left. split; [done|].
      eapply io_ok_watch; [|exact HI]. done.
Qed.

(** ** Queues *)

Definition with_queue (e : loc) (v' : event) (q : queues) (b : base B) : base B :=
  mkBase (th b) (<[e := v']> (evs b)) q (clk b) (ctrl b) (evbase b).

Lemma queue_insert_run b e v queue :
  evs b !! e = Some v -> has (ev_flags v) queue = false ->
  event_queue_insert addr e queue b = queue_put addr e v queue (with_queue e (marked queue v) (bump v 1 (qs b)) b).
Proof.
  intros Hv Hf. unfold event_queue_insert. rewrite (bind_ok _ _ _ _ _ (rd_event_run b e v Hv)), Hf.
  assert (E : (when (counted v) (qset (fun q => put_count (event_count q + 1) q)) : M (base B) unit) b = Ok (tt, set_qs (bump v 1 (qs b)) b)).
  { rewrite <-bump_when. destruct (counted v); [done|]. by destruct b. }
  rewrite (bind_ok _ _ _ _ _ E). by rewrite (bind_ok _ _ _ _ _ (upd_run (set_qs (bump v 1 (qs b)) b) e v _ Hv)).
Qed.

Lemma queue_remove_run b e v queue :
  evs b !! e = Some v -> has (ev_flags v) queue = true ->
  event_queue_remove addr e queue b = queue_take addr e v queue (with_queue e (unmarked queue v) (bump v (-1) (qs b)) b).
Proof.
  intros Hv Hf. unfold event_queue_remove. rewrite (bind_ok _ _ _ _ _ (rd_event_run b e v Hv)), Hf. cbn [negb].
  assert (E : (when (counted v) (qset (fun q => put_count (event_count q - 1) q)) : M (base B) unit) b = Ok (tt, set_qs (bump v (-1) (qs b)) b)).
  { rewrite <-bump_when. destruct (counted v); [done|]. by destruct b. }
  rewrite (bind_ok _ _ _ _ _ E). by rewrite (bind_ok _ _ _ _ _ (upd_run (set_qs (bump v (-1) (qs b)) b) e v _ Hv)).
Qed.

Lemma not_common t (q : queues) : commons q = [] -> is_common_timeout t q = false.
Proof.
  intros E. unfold is_common_timeout. rewrite E. destruct (negb _); [done|]. apply Z.ltb_ge. cbn.
  apply Z.shiftr_nonneg. apply Z.land_nonneg. by right.
Qed.

Lemma active_list b e v : queues_ok (evs b) (qs b) -> evs b !! e = Some v ->
  exists l, activequeues (qs b) !! Z.to_nat (ev_pri v) = Some l.
Proof. intros HQ Hv. pose proof (eo_pri _ _ (q_ev _ _ HQ e v Hv)). apply lookup_lt_is_Some. lia. Qed.

(** Everything but the flags of [e] and the queues is as before. *)
Record flag_step (e : loc) (v' : event) (b b' : base B) : Prop := {
  fs_evs : evs b' = <[e := v']> (evs b);
  fs_clk : clk b' = clk b;
  fs_ctrl : ctrl b' = ctrl b;
  fs_io : io (qs b') = io (qs b);
  fs_evbase : evbase b' = evbase b
}.

Local Ltac which_queue :=
  unfold queue_put, queue_take;
  change (Z.eqb EVLIST_INSERTED EVLIST_INSERTED) with true; change (Z.eqb EVLIST_ACTIVE EVLIST_INSERTED) with false;
  change (Z.eqb EVLIST_TIMEOUT EVLIST_INSERTED) with false; change (Z.eqb EVLIST_ACTIVE EVLIST_ACTIVE) with true;
  change (Z.eqb EVLIST_TIMEOUT EVLIST_ACTIVE) with false; change (Z.eqb EVLIST_TIMEOUT EVLIST_TIMEOUT) with true;
  cbn match.

Lemma insert_inserted_run b e v :
  queues_ok (evs b) (qs b) -> evs b !! e = Some v -> has (ev_flags v) EVLIST_INSERTED = false -> has (ev_events v) rw = true ->
  exists b', event_queue_insert addr e EVLIST_INSERTED b = Ok (tt, b') /\
    queues_ok (evs b') (qs b') /\ flag_step e (marked EVLIST_INSERTED v) b b' /\ th b' = th b.
Proof.
  intros HQ Hv Hf Hrw. rewrite (queue_insert_run b e v) by done. eexists. split; [reflexivity|].
  split; [exact (mark_inserted _ _ _ _ HQ Hv Hf Hrw)|]. by split.
Qed.

Lemma remove_inserted_run b e v :
  queues_ok (evs b) (qs b) -> evs b !! e = Some v -> has (ev_flags v) EVLIST_INSERTED = true ->
  exists b', event_queue_remove addr e EVLIST_INSERTED b = Ok (tt, b') /\
    queues_ok (evs b') (qs b') /\ flag_step e (unmarked EVLIST_INSERTED v) b b' /\ th b' = th b.
Proof.
  intros HQ Hv Hf. rewrite (queue_remove_run b e v) by done. destruct (unmark_inserted _ _ _ _ HQ Hv Hf) as [E Hq].
  which_queue. unfold bind, gets, lift. cbn. rewrite E. eexists. split; [reflexivity|]. split; [exact Hq|]. by split.
Qed.

Lemma insert_active_run b e v :
  queues_ok (evs b) (qs b) -> evs b !! e = Some v -> has (ev_flags v) EVLIST_ACTIVE = false ->
  exists b', event_queue_insert addr e EVLIST_ACTIVE b = Ok (tt, b') /\
    queues_ok (evs b') (qs b') /\ flag_step e (marked EVLIST_ACTIVE v) b b' /\ th b' = th b /\
    length (activequeues (qs b')) = length (activequeues (qs b)).
Proof.
  intros HQ Hv Hf. rewrite (queue_insert_run b e v) by done. destruct (active_list b e v HQ Hv) as [l Hl].
  which_queue. unfold on_active, bind, gets, lift. cbn. rewrite Hl. eexists. split; [reflexivity|].
  split; [exact (mark_active _ _ _ _ HQ Hv _ Hl Hf)|]. split_and!; [by split|done|]. cbn. apply length_insert.
Qed.

Lemma remove_active_run b e v :
  queues_ok (evs b) (qs b) -> evs b !! e = Some v -> has (ev_flags v) EVLIST_ACTIVE = true ->
  exists b', event_queue_remove addr e EVLIST_ACTIVE b = Ok (tt, b') /\
    queues_ok (evs b') (qs b') /\ flag_step e (unmarked EVLIST_ACTIVE v) b b' /\ th b' = th b /\
    forall l, activequeues (qs b) !! Z.to_nat (ev_pri v) = Some l ->
      activequeues (qs b') = <[Z.to_nat (ev_pri v) := filter (fun x => x <> e) l]> (activequeues (qs b)).
Proof.
  intros HQ Hv Hf. rewrite (queue_remove_run b e v) by done. destruct (active_list b e v HQ Hv) as [l Hl].
  destruct (unmark_active _ _ _ _ HQ Hv _ Hl Hf) as [E Hq].
  which_queue. unfold on_active, bind, gets, lift. cbn. rewrite Hl, E. eexists. split; [reflexivity|].
  split_and!; [exact Hq|by split|done|]. intros l' Hl'. by injection Hl' as <-.
Qed.

Lemma timeheap_ext K (S S' : loc -> Prop) s : (forall l, S l <-> S' l) -> MinHeap.timeheap K S s -> MinHeap.timeheap K S' s.
Proof.
  intros HS [H1 H2 H3]. split; [by eapply MinHeap.heap_ext|done|]. intros l v Hl Hn. apply (H3 l v Hl). by rewrite HS.
Qed.

Lemma timeout_of_run b e t : MinHeap.evs (th b) !! e = Some t -> timeout_of e b = Ok ((MinHeap.tv_sec t, MinHeap.tv_usec t), b).
Proof. unfold timeout_of. by intros ->. Qed.

Lemma remove_timeout_run K b e v :
  queues_ok (evs b) (qs b) -> MinHeap.timeheap K (on (evs b) EVLIST_TIMEOUT) (th b) ->
  evs b !! e = Some v -> is_Some (MinHeap.evs (th b) !! e) -> has (ev_flags v) EVLIST_TIMEOUT = true ->
  exists b', event_queue_remove addr e EVLIST_TIMEOUT b = Ok (tt, b') /\
    queues_ok (evs b') (qs b') /\ flag_step e (unmarked EVLIST_TIMEOUT v) b b' /\
    MinHeap.timeheap K (on (evs b') EVLIST_TIMEOUT) (th b') /\
    MinHeap.n (MinHeap.hp (th b')) = MinHeap.n (MinHeap.hp (th b)) - 1 /\ MinHeap.keeps (th b) (th b').
Proof.
  intros HQ HT Hv [t Ht] Hf. rewrite (queue_remove_run b e v) by done.
  destruct (MinHeap.erase_run K _ (th b) e HT) as (h & E & HT' & Hn & Hk); [by exists v|].
  which_queue. set (b1 := with_queue _ _ _ b). rewrite (bind_ok _ _ _ _ _ (timeout_of_run b1 e t Ht)), (bind_ok _ _ _ _ _ (gets_run qs b1)), not_common by apply HQ.
  rewrite (bind_ok _ _ _ _ _ (heap_run (MinHeap.min_heap_erase e) b1 _ _ E)).
  eexists. split; [reflexivity|]. split; [exact (unmark_timeout _ _ _ _ HQ Hv Hf)|]. split; [by split|]. split; [|by split].
  eapply timeheap_ext; [|exact HT']. intros l. cbn. rewrite (on_unmarked _ _ _ _ v) by (done || apply queue_bits). naive_solver.
Qed.

Lemma insert_timeout_run K b e v :
  queues_ok (evs b) (qs b) -> MinHeap.timeheap K (on (evs b) EVLIST_TIMEOUT) (th b) ->
  evs b !! e = Some v -> is_Some (MinHeap.evs (th b) !! e) -> has (ev_flags v) EVLIST_TIMEOUT = false ->
  MinHeap.n (MinHeap.hp (th b)) < 1073741824 -> MinHeap.n (MinHeap.hp (th b)) < MinHeap.a (MinHeap.hp (th b)) ->
  exists b', event_queue_insert addr e EVLIST_TIMEOUT b = Ok (tt, b') /\
    queues_ok (evs b') (qs b') /\ flag_step e (marked EVLIST_TIMEOUT v) b b' /\
    MinHeap.timeheap K (on (evs b') EVLIST_TIMEOUT) (th b') /\ MinHeap.keeps (th b) (th b').
Proof.
  intros HQ HT Hv [t Ht] Hf Hn Ha. rewrite (queue_insert_run b e v) by done.
  destruct (MinHeap.push_run K _ (th b) e t HT Ht) as (h & E & HT' & Hn' & Hk); [|done|done|].
  { intros He. apply (on_has _ _ _ v Hv) in He. congruence. }
  which_queue. set (b1 := with_queue _ _ _ b). rewrite (bind_ok _ _ _ _ _ (timeout_of_run b1 e t Ht)), (bind_ok _ _ _ _ _ (gets_run qs b1)), not_common by apply HQ.
  rewrite (bind_ok _ _ _ _ _ (heap_run (MinHeap.min_heap_push e) b1 _ _ E)).
  eexists. split; [reflexivity|]. split; [exact (mark_timeout _ _ _ _ HQ Hv Hf)|]. split; [by split|]. split; [|done].
  eapply timeheap_ext; [|exact HT']. intros l. cbn. rewrite (on_marked _ _ _ _ v) by (done || apply queue_bits). naive_solver.
Qed.
End Run.
End EvRun.
