(* ===== verification/EvFacts.v ===== *)
(** * What adding, deleting and activating an event do

    Theorems about event_active_nolock, event_del_internal, event_add_internal
    and timeout_process on a well-formed base ([EvRun.base_ok]). *)

From stdpp Require Import prelude gmap.
From S2P Require Import Prelude MinHeap EvBase EvOps EvInv EvRun.
Open Scope Z_scope.

Module EvFacts.
Import EvBase EvOps EvInv EvRun.

(** The queues of an event after event_del_internal. *)
Definition cleared (v : event) : event := unmarked EVLIST_INSERTED (unmarked EVLIST_ACTIVE (unmarked EVLIST_TIMEOUT v)).

(** The event after event_active_nolock. *)
Definition activated (res : Z) (v : event) : event :=
  if has (ev_flags v) EVLIST_ACTIVE then set_res (Z.lor (ev_res v) res) v else marked EVLIST_ACTIVE (set_res res v).

Lemma unmarked_noop q v : has (ev_flags v) q = false -> unmarked q v = v.
Proof.
  intros H. unfold unmarked. assert (E : Z.ldiff (ev_flags v) q = ev_flags v).
  { unfold has in H. apply negb_false_iff, Z.eqb_eq in H. apply Z.bits_inj'. intros n Hn. rewrite Z.ldiff_spec.
    assert (E : Z.testbit (Z.land (ev_flags v) q) n = false) by (by rewrite H, Z.bits_0). rewrite Z.land_spec in E.
    by destruct (Z.testbit (ev_flags v) n), (Z.testbit q n). }
  rewrite E. by destruct v.
Qed.

Section Facts.
Context {B : Type} `{!Env B} `{!BackendOk (evsel (B := B))}.
Implicit Types b : base B.

(** ** Members that no queue depends on *)

Record same_place (v v' : event) : Prop := {
  sp_fd : ev_fd v' = ev_fd v; sp_base : ev_base v' = ev_base v; sp_events : ev_events v' = ev_events v;
  sp_flags : ev_flags v' = ev_flags v; sp_pri : ev_pri v' = ev_pri v }.

Lemma queues_ok_upd m q e v v' : queues_ok m q -> m !! e = Some v -> same_place v v' -> queues_ok (<[e := v']> m) q.
Proof.
  intros [H1 H2 H3 H4 H5 H6 H7 H8] Hv [P1 P2 P3 P4 P5].
  assert (Hon : forall x y, on (<[e := v']> m) x y <-> on m x y).
  { intros x y. unfold on. destruct (decide (y = e)) as [->|]; [|by rewrite lookup_insert_ne].
    rewrite lookup_insert_eq, Hv. split; intros (w & [= <-] & Hw); eexists; (split; [done|]); congruence. }
  assert (Hat : forall p y, active_at (<[e := v']> m) p y <-> active_at m p y).
  { intros p y. unfold active_at. destruct (decide (y = e)) as [->|]; [|by rewrite lookup_insert_ne].
    rewrite lookup_insert_eq, Hv. split; intros (w & [= <-] & Hw & Hp); eexists; (split_and!; [done|congruence|congruence]). }
  assert (Ew : weight v' = weight v) by (unfold weight, counted; by rewrite P4).
  split; try done.
  - eapply all_update; [done|]. destruct (H1 e v Hv) as [E1 E2 E3 E4 E5 E6]. split; rewrite ?P1, ?P2, ?P3, ?P4, ?P5; done.
  - intros x. by rewrite Hon.
  - intros p l x Hl. rewrite Hat. eauto.
  - rewrite (total_update m e v) by done. lia.
Qed.

(** A step that changes the flags of [e] but not whether it is added or has a
    timeout, and leaves the heap. *)
Lemma base_inv_flag I K b b' e v v' :
  base_inv I K b -> evs b !! e = Some v -> flag_step e v' b b' -> queues_ok (evs b') (qs b') -> th b' = th b ->
  ev_events v' = ev_events v -> ev_fd v' = ev_fd v -> has (ev_flags v') EVLIST_TIMEOUT = has (ev_flags v) EVLIST_TIMEOUT ->
  base_inv I K b'.
Proof.
  intros [H1 H2 H3 H4 H5 H6] Hv [F1 F2 F3 F4 F5] HQ Et E1 E2 E3. split; try congruence.
  - rewrite F1, Et. intros x. rewrite lookup_insert_is_Some. intros [->|[_ Hx]]; eauto.
  - rewrite Et, F1. eapply timeheap_ext; [|exact H3]. intros x. unfold on. destruct (decide (x = e)) as [->|]; [|by rewrite lookup_insert_ne].
    rewrite lookup_insert_eq, Hv. split; intros (w & [= <-] & Hw); eexists; (split; [done|]); congruence.
  - rewrite F1, F4, F5. eapply io_ok_ext; [|by eapply same_io_update|exact H4]. done.
Qed.

Lemma on_unchanged m q e v v' x : m !! e = Some v -> has (ev_flags v') q = has (ev_flags v) q -> on (<[e := v']> m) q x <-> on m q x.
Proof.
  intros Hv E. unfold on. destruct (decide (x = e)) as [->|]; [|by rewrite lookup_insert_ne].
  rewrite lookup_insert_eq, Hv. split; intros (w & [= <-] & Hw); eexists; (split; [done|]); congruence.
Qed.

Lemma base_inv_ext I I' K b : (forall x, I x <-> I' x) -> base_inv I K b -> base_inv I' K b.
Proof. intros HI [H1 H2 H3 H4 H5 H6]. split; try done. by eapply io_ok_ext. Qed.

Lemma base_inv_upd I K b e v v' : base_inv I K b -> evs b !! e = Some v -> same_place v v' -> base_inv I K (set_evs (<[e := v']> (evs b)) b).
Proof.
  intros H Hv HP. pose proof HP as [P1 P2 P3 P4 P5]. eapply (base_inv_flag I K b _ e v v'); try done.
  - cbn. eapply queues_ok_upd; [apply H|done|done].
  - by rewrite P4.
Qed.

(** ** Activation *)

Lemma put_continue_inv I K b x : base_inv I K b -> base_inv I K (set_ctrl (put_continue x (ctrl b)) b).
Proof. intros [H1 H2 H3 H4 H5 H6]. by split. Qed.

(** Activating touches the event, its queue and the flag of the loop only. *)
Record activation (e : loc) (v' : event) (b b' : base B) : Prop := {
  ac_evs : evs b' = <[e := v']> (evs b);
  ac_th : th b' = th b;
  ac_clk : clk b' = clk b;
  ac_ctrl : ctrl b' = put_continue (event_continue (ctrl b')) (ctrl b);
  ac_evbase : evbase b' = evbase b;
  ac_idle : event_running_priority (ctrl b) <= 0 -> ctrl b' = ctrl b;
  ac_len : length (activequeues (qs b')) = length (activequeues (qs b))
}.

Lemma active_run I K b e v res nc :
  base_inv I K b -> evs b !! e = Some v ->
  exists b', event_active_nolock e res nc b = Ok (tt, b') /\ base_inv I K b' /\ activation e (activated res v) b b'.
Proof.
  intros H Hv. unfold event_active_nolock, activated. rewrite (bind_ok _ _ _ _ _ (rd_event_run b e v Hv)).
  destruct (has (ev_flags v) EVLIST_ACTIVE) eqn:Ha.
  { rewrite (upd_run b e v _ Hv). eexists. split; [reflexivity|]. split; [by eapply base_inv_upd|].
    split; try done. cbn. by destruct (ctrl b). }
  rewrite (bind_ok _ _ _ _ _ (upd_run b e v _ Hv)). set (b1 := set_evs _ b).
  assert (H1 : base_inv I K b1) by (by eapply base_inv_upd). rewrite (bind_ok _ _ _ _ _ (gets_run ctrl b1)).
  set (x := Z.ltb (ev_pri v) (event_running_priority (ctrl b1)) || event_continue (ctrl b1)).
  assert (E : (when (Z.ltb (ev_pri v) (event_running_priority (ctrl b1))) (cset (put_continue true)) : M (base B) unit) b1 =
     Ok (tt, set_ctrl (put_continue x (ctrl b1)) b1)).
  { unfold x. destruct (Z.ltb _ _); [done|]. by destruct b as [? ? ? ? [] ?]. }
  rewrite (bind_ok _ _ _ _ _ E). rewrite (eo_nosig _ _ (q_ev _ _ (b_queues _ _ _ H) e v Hv)).
  set (b2 := set_ctrl _ b1). rewrite (bind_ok _ _ _ _ _ (eq_refl : when false _ b2 = Ok (tt, b2))).
  assert (H2 : base_inv I K b2) by (by apply put_continue_inv).
  assert (Hv2 : evs b2 !! e = Some (set_res res v)) by apply lookup_insert_eq.
  destruct (insert_active_run b2 e _ (b_queues _ _ _ H2) Hv2 Ha) as (b' & E3 & HQ & HF & Et & El).
  rewrite (bind_ok _ _ _ _ _ E3), (bind_ok _ _ _ _ _ (gets_run ctrl b')). pose proof HF as [F1 F2 F3 F4 F5].
  unfold EVBASE_NEED_NOTIFY. rewrite F3. change (id_fn (ctrl b2)) with (id_fn (ctrl b)). rewrite (b_thread _ _ _ H).
  exists b'. split; [done|]. split.
  - eapply (base_inv_flag I K b2 b' e (set_res res v)); try done. rewrite has_marked. apply orb_false_r.
  - split; [|exact Et|exact F2|by rewrite F3|exact F5| |exact El]; [rewrite F1; cbn; apply insert_insert_eq|].
    intros Hi. rewrite F3. pose proof (eo_pri _ _ (q_ev _ _ (b_queues _ _ _ H) e v Hv)). cbn. unfold x, b1. cbn.
    rewrite (proj2 (Z.ltb_ge _ _)) by lia. by destruct (ctrl b).
Qed.

(** ** Deletion *)

(** As [base_inv_flag], where the heap has changed. *)
Lemma base_inv_heap I K K' b b' e v v' :
  base_inv I K b -> evs b !! e = Some v -> flag_step e v' b b' -> queues_ok (evs b') (qs b') ->
  (forall x, is_Some (MinHeap.evs (th b) !! x) -> is_Some (MinHeap.evs (th b') !! x)) ->
  MinHeap.timeheap K' (on (evs b') EVLIST_TIMEOUT) (th b') ->
  ev_events v' = ev_events v -> ev_fd v' = ev_fd v -> base_inv I K' b'.
Proof.
  intros [H1 H2 H3 H4 H5 H6] Hv [F1 F2 F3 F4 F5] HQ Hd HT E1 E2. split; try congruence.
  - rewrite F1. intros x. rewrite lookup_insert_is_Some. intros [->|[_ Hx]]; eauto.
  - rewrite F1, F4, F5. eapply io_ok_ext; [|by eapply same_io_update|exact H4]. done.
Qed.

(** Taking [e], which was [v], off queues changes its flags, the queues and
    the heap only. *)
Record removal (e : loc) (v v' : event) (b b' : base B) : Prop := {
  rm_evs : evs b' = <[e := v']> (evs b);
  rm_clk : clk b' = clk b;
  rm_ctrl : ctrl b' = ctrl b;
  rm_a : MinHeap.a (MinHeap.hp (th b')) = MinHeap.a (MinHeap.hp (th b));
  rm_dom : forall x, is_Some (MinHeap.evs (th b) !! x) -> is_Some (MinHeap.evs (th b') !! x);
  rm_n : MinHeap.n (MinHeap.hp (th b')) =
    MinHeap.n (MinHeap.hp (th b)) - (if has (ev_flags v) EVLIST_TIMEOUT && negb (has (ev_flags v') EVLIST_TIMEOUT) then 1 else 0)
}.

Lemma removal_trans e v1 v2 v3 b1 b2 b3 :
  evs b1 !! e = Some v1 -> (has (ev_flags v1) EVLIST_TIMEOUT = false -> has (ev_flags v2) EVLIST_TIMEOUT = false) ->
  (has (ev_flags v2) EVLIST_TIMEOUT = false -> has (ev_flags v3) EVLIST_TIMEOUT = false) ->
  removal e v1 v2 b1 b2 -> removal e v2 v3 b2 b3 -> removal e v1 v3 b1 b3.
Proof.
  intros Hv H12 H23 [E1 E2 E3 E4 E5 E6] [D1 D2 D3 D4 D5 D6]. split; try congruence; [| |].
  - rewrite D1, E1. apply insert_insert_eq.
  - auto.
  - rewrite D6, E6. destruct (has (ev_flags v1) _), (has (ev_flags v2) _), (has (ev_flags v3) _); cbn; try lia; naive_solver.
Qed.

Lemma removal_refl e v b : evs b !! e = Some v -> removal e v v b b.
Proof.
  intros Hv. split; try done; [by rewrite insert_id|]. destruct (has (ev_flags v) EVLIST_TIMEOUT); cbn; lia.
Qed.

Lemma remove_if_run I K b e v q :
  base_inv I K b -> evs b !! e = Some v -> q = EVLIST_TIMEOUT \/ q = EVLIST_ACTIVE ->
  exists b', remove_if e q b = Ok (tt, b') /\ base_inv I K b' /\ removal e v (unmarked q v) b b' /\ evbase b' = evbase b /\ io (qs b') = io (qs b).
Proof.
  intros H Hv Hq. unfold remove_if. rewrite (bind_ok _ _ _ _ _ (rd_event_run b e v Hv)).
  destruct (has (ev_flags v) q) eqn:Hf.
  2: { rewrite (unmarked_noop q v Hf). exists b. split_and!; try done. by apply removal_refl. }
  destruct Hq as [-> | ->].
  - destruct (remove_timeout_run K b e v (b_queues _ _ _ H) (b_heap _ _ _ H) Hv (b_dom _ _ _ H e ltac:(eauto)) Hf) as (b' & E & HQ & HF & HT & Hn & Hk).
    exists b'. split_and!; [done| |split; try apply HF; [apply Hk|apply Hk|]|apply HF|apply HF].
    + eapply (base_inv_heap I K K b b' e v); try done. apply Hk.
    + rewrite Hf, has_unmarked by apply queue_bits. rewrite Z.eqb_refl, andb_false_r. cbn. lia.
  - destruct (remove_active_run b e v (b_queues _ _ _ H) Hv Hf) as (b' & E & HQ & HF & Et & _).
    assert (Eu : has (ev_flags (unmarked EVLIST_ACTIVE v)) EVLIST_TIMEOUT = has (ev_flags v) EVLIST_TIMEOUT)
      by (rewrite has_unmarked by apply queue_bits; apply andb_true_r).
    exists b'. split_and!; [done| |split; try apply HF; [by rewrite Et|by rewrite Et|]|apply HF|apply HF].
    + by eapply (base_inv_flag I K b b' e v).
    + rewrite Eu, Et. destruct (has (ev_flags v) EVLIST_TIMEOUT); cbn; lia.
Qed.

Lemma io_step_inv I I' K b b' : base_inv I K b -> io_step b b' -> map_ok I' b' -> base_inv I' K b'.
Proof.
  intros [A1 A2 A3 A4 A5 A6] [S1 S2 S3 S4 S5 S6 S7] HI. split; try done.
  - rewrite S1, S6. destruct A1 as [Q1 Q2 Q3 Q4 Q5 Q6 Q7 Q8]. by split.
  - rewrite S1, S5. done.
  - rewrite S1. destruct A3 as [[[K1 K2 K3 K4] [K5 K6] K7] C1 C2]. unfold MinHeap.size, MinHeap.at_ in *.
    split; [split; [split|split|]| |]; unfold MinHeap.size, MinHeap.at_; rewrite ?S4, ?S5; done.
  - by rewrite S3.
Qed.

(** Every added event is in an entry. *)
Definition covers (I : loc -> Prop) (b : base B) : Prop := forall x, on (evs b) EVLIST_INSERTED x -> I x.

(** The entries after a deletion with result [r]. *)
Definition without (I : loc -> Prop) (e : loc) (v : event) (r : Z) (x : loc) : Prop :=
  I x /\ ~ (r <> -1 /\ has (ev_flags v) EVLIST_INSERTED = true /\ x = e).

(** The descriptor part of a deletion: done, or refused by the backend; then
    the entry still holds the event. *)
Lemma del_map_run I K b e v :
  base_inv I K b -> covers I b -> evs b !! e = Some v ->
  exists r b', (if has (ev_flags v) EVLIST_INSERTED
      then event_queue_remove addr e EVLIST_INSERTED ;; evmap_del e v else ret 0) b = Ok (r, b') /\
    removal e v (unmarked EVLIST_INSERTED v) b b' /\ base_inv (without I e v r) K b' /\
    (r = 0 \/ r = 1 \/ (r = -1 /\ has (ev_flags v) EVLIST_INSERTED = true)).
Proof.
  intros H HI Hv. destruct (has (ev_flags v) EVLIST_INSERTED) eqn:Hf.
  2: { exists 0, b. rewrite (unmarked_noop _ v Hf). split_and!; [done|by apply removal_refl| |by left].
       eapply base_inv_ext; [|exact H]. unfold without. rewrite Hf. naive_solver. }
  pose proof (eo_ins _ _ (q_ev _ _ (b_queues _ _ _ H) e v Hv) Hf) as Hrw.
  destruct (remove_inserted_run b e v (b_queues _ _ _ H) Hv Hf) as (b1 & E1 & HQ & HF & Et). pose proof HF as [F1 F2 F3 F4 F5].
  rewrite (bind_ok _ _ _ _ _ E1). unfold evmap_del. change (Z.lor EV_READ EV_WRITE) with rw. rewrite Hrw.
  assert (Eu : has (ev_flags (unmarked EVLIST_INSERTED v)) EVLIST_TIMEOUT = has (ev_flags v) EVLIST_TIMEOUT)
    by (rewrite has_unmarked by apply queue_bits; apply andb_true_r).
  assert (H1 : base_inv I K b1) by (by eapply (base_inv_flag _ K b b1 e v)).
  assert (Hv1 : evs b1 !! e = Some (unmarked EVLIST_INSERTED v)) by (rewrite F1; apply lookup_insert_eq).
  destruct (evmap_io_del_run I b1 e _ (b_io _ _ _ H1) (b_back _ _ _ H1) Hv1 (eo_fd _ _ (q_ev _ _ (b_queues _ _ _ H) e v Hv)) Hrw) as (r & b' & E2 & HS & Hr); [apply HI; by exists v|].
  pose proof HS as [S1 S2 S3 S4 S5 S6 S7]. pose proof (fun J => io_step_inv _ J K b1 b' H1 HS) as HJ.
  exists r, b'. split_and!; [done| | |].
  - split; [congruence|congruence|congruence|by rewrite S4, Et|by rewrite S5, Et|].
    rewrite Eu, S4, Et. destruct (has (ev_flags v) EVLIST_TIMEOUT); cbn; lia.
  - destruct Hr as [[-> Hm]|[Hr Hm]]; (eapply base_inv_ext; [|by apply HJ]); unfold without; rewrite Hf; [naive_solver|].
    intros x. destruct Hr as [-> | ->]; naive_solver lia.
  - naive_solver.
Qed.

Lemma unmarked_false q x v : is_queue q -> is_queue x -> has (ev_flags v) x = false -> has (ev_flags (unmarked q v)) x = false.
Proof. intros Hq Hx Hf. by rewrite has_unmarked, Hf. Qed.

Lemma cleared_flags q v : is_queue q -> has (ev_flags (cleared v)) q = false.
Proof.
  intros Hq. unfold cleared. rewrite !has_unmarked by (done || apply queue_bits).
  destruct Hq as [->|[->| ->]]; cbn; rewrite ?andb_false_r; done.
Qed.

Lemma notify_if_run b r x : id_fn (ctrl b) = None -> notify_if r x b = Ok (tt, b).
Proof.
  intros Hi. unfold notify_if. rewrite (bind_ok _ _ _ _ _ (gets_run ctrl b)). unfold EVBASE_NEED_NOTIFY. by rewrite Hi, andb_false_r.
Qed.

Lemma wait_for_run b e : id_fn (ctrl b) = None -> wait_for e b = Ok (tt, b).
Proof.
  intros Hi. unfold wait_for. rewrite (bind_ok _ _ _ _ _ (gets_run ctrl b)). unfold EVBASE_IN_THREAD. by rewrite Hi, andb_false_r.
Qed.

Lemma del_run I K b e v :
  base_inv I K b -> covers I b -> evs b !! e = Some v ->
  exists r b', event_del_internal e b = Ok (r, b') /\ removal e v (cleared v) b b' /\ base_inv (without I e v r) K b' /\
    (r = 0 \/ (r = -1 /\ has (ev_flags v) EVLIST_INSERTED = true)).
Proof.
  intros H HI Hv. pose proof (q_ev _ _ (b_queues _ _ _ H) e v Hv) as Hev. unfold event_del_internal.
  rewrite (bind_ok _ _ _ _ _ (rd_event_run b e v Hv)), (eo_base _ _ Hev). cbn [negb].
  rewrite (bind_ok _ _ _ _ _ (wait_for_run b e (b_thread _ _ _ H))), (eo_flags _ _ Hev). change (negb (Z.eqb 0 0)) with false. cbn match.
  rewrite (eo_nosig _ _ Hev), (bind_ok _ _ _ _ _ (eq_refl : when false _ b = Ok (tt, b))).
  destruct (remove_if_run _ K b e v EVLIST_TIMEOUT H Hv) as (b1 & E1 & H1 & R1 & Eb1 & Ei1); [by left|]. rewrite (bind_ok _ _ _ _ _ E1).
  assert (Hv1 : evs b1 !! e = Some (unmarked EVLIST_TIMEOUT v)) by (rewrite (rm_evs _ _ _ _ _ R1); apply lookup_insert_eq).
  destruct (remove_if_run _ K b1 e _ EVLIST_ACTIVE H1 Hv1) as (b2 & E2 & H2 & R2 & Eb2 & Ei2); [by right|]. rewrite (bind_ok _ _ _ _ _ E2).
  set (v2 := unmarked EVLIST_ACTIVE (unmarked EVLIST_TIMEOUT v)) in *.
  assert (Hv2 : evs b2 !! e = Some v2) by (rewrite (rm_evs _ _ _ _ _ R2); apply lookup_insert_eq).
  assert (R12 : removal e v v2 b b2).
  { eapply removal_trans; [exact Hv| | |exact R1|exact R2]; apply unmarked_false; apply queue_bits. }
  assert (Ei : has (ev_flags v2) EVLIST_INSERTED = has (ev_flags v) EVLIST_INSERTED).
  { unfold v2. rewrite !has_unmarked by apply queue_bits. cbn. by rewrite !andb_true_r. }
  assert (HI2 : covers I b2).
  { intros x Hx. apply HI. rewrite (rm_evs _ _ _ _ _ R12) in Hx. by eapply on_unchanged. }
  rewrite (bind_ok _ _ _ _ _ (rd_event_run b2 e v2 Hv2)).
  destruct (del_map_run I K b2 e v2 H2 HI2 Hv2) as (r & b' & E3 & R3 & H3 & Hr). rewrite (bind_ok _ _ _ _ _ E3). cbn zeta.
  assert (R : removal e v (cleared v) b b').
  { eapply removal_trans; [exact Hv| | |exact R12|exact R3].
    - intros Hf. by do 2 (apply unmarked_false; [apply queue_bits..|]).
    - apply unmarked_false; apply queue_bits. }
  assert (Hid : id_fn (ctrl b') = None) by (rewrite (rm_ctrl _ _ _ _ _ R); apply H).
  rewrite (bind_ok _ _ _ _ _ (notify_if_run b' _ _ Hid)). do 2 eexists. split; [reflexivity|]. split; [done|].
  rewrite <-Ei. destruct Hr as [->|[->|(-> & Hf)]]; (split; [|naive_solver]); (eapply base_inv_ext; [|exact H3]);
    intros x; unfold without; rewrite Ei; cbn; naive_solver lia.
Qed.

Lemma covers_on b : covers (on (evs b) EVLIST_INSERTED) b.
Proof. by intros x. Qed.

Lemma covers_without I b b' e v r : covers I b -> removal e v (cleared v) b b' -> covers (without I e v r) b'.
Proof.
  intros HI R x. rewrite (rm_evs _ _ _ _ _ R). intros (w & Hw & Hf). destruct (decide (x = e)) as [->|Hne].
  - rewrite lookup_insert_eq in Hw. injection Hw as <-. rewrite cleared_flags in Hf by apply queue_bits. done.
  - rewrite lookup_insert_ne in Hw by done. split; [apply HI; by exists w|naive_solver].
Qed.

(** When the backend does not refuse, the entries hold what is added. *)
Lemma del_ok_base K b b' e v :
  evs b !! e = Some v -> removal e v (cleared v) b b' -> base_inv (without (on (evs b) EVLIST_INSERTED) e v 0) K b' -> base_ok K b'.
Proof.
  intros Hv R H. eapply base_inv_ext; [|exact H]. intros x. rewrite (rm_evs _ _ _ _ _ R). unfold without.
  destruct (decide (x = e)) as [->|Hne].
  - unfold on at 2. rewrite lookup_insert_eq. split.
    + intros [Hx Hn]. apply (on_has _ _ _ v Hv) in Hx. destruct Hn. done.
    + intros (w & [= <-] & Hf). rewrite cleared_flags in Hf by apply queue_bits. done.
  - unfold on. rewrite lookup_insert_ne by done. naive_solver.
Qed.

(** ** A new timeout *)

Definition retime (K : loc -> timeval) (e : loc) (t : timeval) (x : loc) : timeval := if decide (x = e) then t else K x.

Lemma timeheap_retime K S h e w t :
  MinHeap.timeheap K S h -> ~ S e -> MinHeap.evs h !! e = Some w ->
  MinHeap.timeheap (retime K e t) S
    (MinHeap.mkSt (MinHeap.hp h) (<[e := MinHeap.mkEv (fst t) (snd t) (MinHeap.min_heap_idx w)]> (MinHeap.evs h)) (MinHeap.mem h)).
Proof.
  intros [[[H1 H2 H3 H4] [O1 O2] HK] Hc Ho] He Hw. set (h' := MinHeap.mkSt _ _ _).
  assert (Hk : forall i x, (i < MinHeap.size h)%nat -> MinHeap.at_ h i x -> retime K e t x = K x).
  { intros i x Li Ax. unfold retime. rewrite decide_False; [done|]. intros ->. apply He, H4. exists i. split_and!; [done|lia|done]. }
  split; [split; [split|split|]|done|].
  - done.
  - done.
  - intros i Li Hi. destruct (H3 i Li Hi) as (l & v & Al & El & Il). exists l, v. split_and!; [done| |done].
    cbn. rewrite lookup_insert_ne; [done|]. intros <-. apply He, H4. eauto.
  - done.
  - change (MinHeap.size h') with (MinHeap.size h). intros q i x y Hch Li Hi Hq Ax Ay.
    rewrite (Hk q x), (Hk i y) by (done || unfold MinHeap.child in Hch; lia). by eapply (O1 q i).
  - change (MinHeap.size h') with (MinHeap.size h). intros g c x y _ Hch Lc. unfold MinHeap.child in Hch. lia.
  - intros l v. cbn. rewrite lookup_insert_Some. unfold retime. intros [[<- <-]|[Hne Hl]].
    + rewrite decide_True by done. by destruct t.
    + rewrite decide_False by done. by apply HK.
  - intros l v. cbn. rewrite lookup_insert_Some. intros [[<- <-]|[Hne Hl]] Hn; [by apply (Ho e w)|by apply (Ho l v)].
Qed.

Lemma retime_run I K b e v t :
  base_inv I K b -> evs b !! e = Some v -> has (ev_flags v) EVLIST_TIMEOUT = false ->
  exists h, set_timeout e t b = Ok (tt, set_th h b) /\ base_inv I (retime K e t) (set_th h b) /\ MinHeap.hp h = MinHeap.hp (th b).
Proof.
  intros H Hv Hf. destruct (b_dom _ _ _ H e) as [w Hw]; [eauto|]. unfold set_timeout. rewrite Hw. eexists. split; [reflexivity|].
  split; [|done]. destruct H as [H1 H2 H3 H4 H5 H6]. split; try done.
  - intros x Hx. cbn. rewrite lookup_insert_is_Some. destruct (decide (e = x)); [by left|right; split; [done|auto]].
  - apply timeheap_retime; [done| |done]. intros He. apply (on_has _ _ _ v Hv) in He. congruence.
Qed.

Lemma heap_room I K b : base_inv I K b -> 0 <= MinHeap.n (MinHeap.hp (th b)) <= MinHeap.a (MinHeap.hp (th b)).
Proof.
  intros H. destruct (b_heap _ _ _ H) as [[[H1 H2 _ _] _ _] Hc _]. unfold MinHeap.size in H2. lia.
Qed.

Lemma remove_queue_run I K b e v q :
  base_inv I K b -> evs b !! e = Some v -> q = EVLIST_TIMEOUT \/ q = EVLIST_ACTIVE -> has (ev_flags v) q = true ->
  exists b', event_queue_remove addr e q b = Ok (tt, b') /\ base_inv I K b' /\ removal e v (unmarked q v) b b'.
Proof.
  intros H Hv Hq Hf. destruct (remove_if_run I K b e v q H Hv Hq) as (b' & E & H' & R & _). exists b'. split_and!; [|done|done].
  revert E. unfold remove_if. by rewrite (bind_ok _ _ _ _ _ (rd_event_run b e v Hv)), Hf.
Qed.

(** The event after add_timeout. *)
Definition timed (v : event) (tv : timeval) (absolute : bool) : event :=
  let v1 := if Z.eqb (ev_closure v) EV_CLOSURE_PERSIST && negb absolute then set_io_timeout tv v else v in
  let v2 := unmarked EVLIST_TIMEOUT v1 in
  let v3 := if has (ev_flags v) EVLIST_ACTIVE && has (ev_res v) EV_TIMEOUT then unmarked EVLIST_ACTIVE v2 else v2 in
  marked EVLIST_TIMEOUT v3.

Lemma is_top_run b e v I K : base_inv I K b -> evs b !! e = Some v -> exists x, heap (MinHeap.min_heap_elt_is_top e) b = Ok (x, b).
Proof.
  intros H Hv. destruct (b_dom _ _ _ H e) as [w Hw]; [eauto|]. eexists.
  rewrite (heap_run _ b (Z.eqb (MinHeap.min_heap_idx w) 0) (th b)); [by rewrite set_th_same|].
  unfold MinHeap.min_heap_elt_is_top, bind, MinHeap.load. by rewrite Hw.
Qed.

Lemma now_run b now c : gettime_ (clk b) = Ok (Some now, c) -> now_ b = Ok (now, set_clk c b).
Proof. intros E. unfold now_, bind, gettime. by rewrite E. Qed.

Section AddTimeout.
Context (I : loc -> Prop) (K : loc -> timeval) (e : loc).

(** Well-formed, with event [v], and room for one more timeout. *)
Record ready (v : event) (c : clock) (b b' : base B) : Prop := {
  rdy_inv : base_inv I K b';
  rdy_evs : evs b' = <[e := v]> (evs b);
  rdy_clk : clk b' = c;
  rdy_ctrl : ctrl b' = ctrl b;
  rdy_n : MinHeap.n (MinHeap.hp (th b')) < 1073741824;
  rdy_a : MinHeap.n (MinHeap.hp (th b')) < MinHeap.a (MinHeap.hp (th b'))
}.

Lemma ready_ev v c b b' : ready v c b b' -> evs b' !! e = Some v.
Proof. intros H. rewrite (rdy_evs _ _ _ _ H). apply lookup_insert_eq. Qed.

(** An old timeout is taken out first. *)
Lemma drop_timeout b b1 v c :
  base_inv I K b1 -> evs b1 = <[e := v]> (evs b) -> clk b1 = c -> ctrl b1 = ctrl b -> MinHeap.n (MinHeap.hp (th b1)) < 1073741824 ->
  (has (ev_flags v) EVLIST_TIMEOUT = false -> MinHeap.n (MinHeap.hp (th b1)) < MinHeap.a (MinHeap.hp (th b1))) ->
  exists x b2, (if has (ev_flags v) EVLIST_TIMEOUT
     then let! top := heap (MinHeap.min_heap_elt_is_top e) in event_queue_remove addr e EVLIST_TIMEOUT ;; ret top
     else ret false) b1 = Ok (x, b2) /\ ready (unmarked EVLIST_TIMEOUT v) c b b2.
Proof.
  intros H E1 E2 E3 Hn Ha. assert (Hv : evs b1 !! e = Some v) by (rewrite E1; apply lookup_insert_eq).
  destruct (has (ev_flags v) EVLIST_TIMEOUT) eqn:Hf.
  2: { exists false, b1. split; [done|]. rewrite (unmarked_noop _ v Hf). split; auto. }
  destruct (is_top_run b1 e v I K H Hv) as [x Ex]. rewrite (bind_ok _ _ _ _ _ Ex).
  destruct (remove_queue_run I K b1 e v EVLIST_TIMEOUT H Hv) as (b2 & E & H2 & [R1 R2 R3 R4 R5 R6]); [by left|done|].
  rewrite (bind_ok _ _ _ _ _ E). exists x, b2. split; [done|]. pose proof (heap_room _ _ _ H).
  rewrite Hf, has_unmarked, Z.eqb_refl, andb_false_r in R6 by apply queue_bits. cbn in R6.
  split; [done| |congruence|congruence|lia|lia]. rewrite R1, E1. apply insert_insert_eq.
Qed.

(** An activation by the old timeout is taken back. *)
Lemma drop_active b b2 v c x :
  ready v c b b2 -> has (ev_flags v) EVLIST_ACTIVE = x ->
  exists b3, (when (x && has (ev_res v) EV_TIMEOUT)
      (when (has (ev_events v) EV_SIGNAL) (abort_loop v) ;; event_queue_remove addr e EVLIST_ACTIVE) : M (base B) unit) b2 = Ok (tt, b3) /\
    ready (if x && has (ev_res v) EV_TIMEOUT then unmarked EVLIST_ACTIVE v else v) c b b3.
Proof.
  intros H Hx. pose proof (ready_ev _ _ _ _ H) as Hv. destruct H as [H1 H2 H3 H4 H5 H6].
  destruct (x && has (ev_res v) EV_TIMEOUT) eqn:Ex; [|by exists b2].
  apply andb_true_iff in Ex as [-> _]. unfold when at 1.
  rewrite (eo_nosig _ _ (q_ev _ _ (b_queues _ _ _ H1) e v Hv)), (bind_ok _ _ _ _ _ (eq_refl : when false _ b2 = Ok (tt, b2))).
  destruct (remove_queue_run I K b2 e v EVLIST_ACTIVE H1 Hv) as (b3 & E & H3' & [R1 R2 R3 R4 R5 R6]); [by right|done|].
  assert (Eu : has (ev_flags (unmarked EVLIST_ACTIVE v)) EVLIST_TIMEOUT = has (ev_flags v) EVLIST_TIMEOUT)
    by (rewrite has_unmarked by apply queue_bits; apply andb_true_r).
  rewrite Eu in R6. assert (En : MinHeap.n (MinHeap.hp (th b3)) = MinHeap.n (MinHeap.hp (th b2))).
  { rewrite R6. destruct (has (ev_flags v) EVLIST_TIMEOUT); cbn; lia. }
  exists b3. split; [done|]. split; [done| |congruence|congruence|lia|lia]. rewrite R1, H2. apply insert_insert_eq.
Qed.
End AddTimeout.

Lemma add_timeout_run I K b e v schedule tv absolute now c :
  base_inv I K b -> evs b !! e = Some v -> gettime_ (clk b) = Ok (Some now, c) -> MinHeap.n (MinHeap.hp (th b)) < 1073741824 ->
  (has (ev_flags v) EVLIST_TIMEOUT = false -> MinHeap.n (MinHeap.hp (th b)) < MinHeap.a (MinHeap.hp (th b))) ->
  exists x b', add_timeout schedule e tv absolute b = Ok (x, b') /\
    base_inv I (retime K e (due now tv false absolute)) b' /\ evs b' = <[e := timed v tv absolute]> (evs b) /\ clk b' = c /\ ctrl b' = ctrl b.
Proof.
  intros H Hv Hc Hn Ha. unfold add_timeout. rewrite (bind_ok _ _ _ _ _ (rd_event_run b e v Hv)).
  set (v1 := if Z.eqb (ev_closure v) EV_CLOSURE_PERSIST && negb absolute then set_io_timeout tv v else v).
  assert (HP : same_place v v1) by (unfold v1; by destruct (_ && _)).
  set (b1 := set_evs (<[e := v1]> (evs b)) b).
  assert (E1 : (when (Z.eqb (ev_closure v) EV_CLOSURE_PERSIST && negb absolute) (upd e (set_io_timeout tv)) : M (base B) unit) b = Ok (tt, b1)).
  { unfold b1, v1. destruct (_ && _); [by apply upd_run|]. rewrite insert_id by done. by destruct b. }
  rewrite (bind_ok _ _ _ _ _ E1). pose proof HP as [P1 P2 P3 P4 P5]. rewrite <-P4.
  destruct (drop_timeout I K e b b1 v1 (clk b)) as (x & b2 & E2 & H2); [by eapply base_inv_upd|done..|by rewrite P4|].
  rewrite (bind_ok _ _ _ _ _ E2). set (v2 := unmarked EVLIST_TIMEOUT v1) in *.
  assert (Ea : has (ev_flags v2) EVLIST_ACTIVE = has (ev_flags v1) EVLIST_ACTIVE)
    by (unfold v2; rewrite has_unmarked by apply queue_bits; apply andb_true_r).
  destruct (drop_active I K e b b2 v2 (clk b) _ H2 Ea) as (b3 & E3 & H3).
  assert (Er : ev_res v2 = ev_res v) by (unfold v2, v1; by destruct (_ && _)).
  assert (Ee : ev_events v2 = ev_events v) by exact P3.
  assert (Ec : abort_loop v = abort_loop v2 :> M (base B) unit) by (unfold v2, v1; by destruct (_ && _)).
  rewrite <-Er, <-Ee, Ec, (bind_ok _ _ _ _ _ E3).
  set (v3 := if _ && _ then unmarked EVLIST_ACTIVE v2 else v2) in *.
  pose proof (ready_ev _ _ _ _ _ _ _ H3) as Hv3. destruct H3 as [I3 V3 C3 L3 N3 A3].
  assert (Hnow : gettime_ (clk b3) = Ok (Some now, c)) by (by rewrite C3). rewrite (bind_ok _ _ _ _ _ (now_run b3 now c Hnow)).
  set (b4 := set_clk c b3). assert (I4 : base_inv I K b4) by (destruct I3; by split).
  rewrite (bind_ok _ _ _ _ _ (gets_run qs b4)). cbn zeta. rewrite not_common by apply I4.
  assert (Ht3 : has (ev_flags v3) EVLIST_TIMEOUT = false).
  { assert (Ht2 : has (ev_flags v2) EVLIST_TIMEOUT = false)
      by (unfold v2; rewrite has_unmarked by apply queue_bits; by rewrite Z.eqb_refl, andb_false_r).
    unfold v3. destruct (has (ev_flags v1) EVLIST_ACTIVE && has (ev_res v2) EV_TIMEOUT); [|done]. by apply unmarked_false; [apply queue_bits..|]. }
  destruct (retime_run I K b4 e v3 (due now tv false absolute) I4 Hv3 Ht3) as (h & E5 & I5 & Eh).
  rewrite (bind_ok _ _ _ _ _ E5). set (b5 := set_th h b4) in *.
  destruct (insert_timeout_run _ b5 e v3 (b_queues _ _ _ I5) (b_heap _ _ _ I5) Hv3 (b_dom _ _ _ I5 e ltac:(by exists v3)) Ht3) as (b6 & E6 & HQ & HF & HT & Hk);
    [cbn; by rewrite Eh|cbn; by rewrite Eh|]. rewrite (bind_ok _ _ _ _ _ E6). pose proof HF as [F1 F2 F3 F4 F5].
  assert (I6 : base_inv I (retime K e (due now tv false absolute)) b6) by (eapply (base_inv_heap I _ _ b5 b6 e v3); try done; apply Hk).
  assert (Hv6 : evs b6 !! e = Some (marked EVLIST_TIMEOUT v3)) by (rewrite F1; apply lookup_insert_eq).
  destruct (is_top_run b6 e _ _ _ I6 Hv6) as [y Ey]. rewrite (bind_ok _ _ _ _ _ Ey). do 2 eexists. split; [reflexivity|].
  split_and!; [done| |by rewrite F2|by rewrite F3]. rewrite F1. cbn. rewrite V3, insert_insert_eq. do 2 f_equal.
  unfold timed, v3. fold v1. fold v2. by rewrite Er, P4.
Qed.

(** ** Adding an event *)

(** The event after it is put in the map, if it has to be. *)
Definition listed (v : event) : event :=
  if has (ev_events v) rw && negb (has (ev_flags v) (Z.lor EVLIST_INSERTED EVLIST_ACTIVE)) then marked EVLIST_INSERTED v else v.

(** The event after event_add_internal. *)
Definition added (v : event) (tv : option timeval) (absolute : bool) : event :=
  match tv with Some t => timed (listed v) t absolute | None => listed v end.

Lemma has_lor_r x p q : has x (Z.lor p q) = has x p || has x q.
Proof. unfold has. rewrite !(Z.land_comm x). apply has_lor. Qed.

Lemma add_map_run K b e v :
  base_ok K b -> evs b !! e = Some v ->
  exists r b', (if has (ev_events v) (Z.lor (Z.lor EV_READ EV_WRITE) EV_SIGNAL) && negb (has (ev_flags v) (Z.lor EVLIST_INSERTED EVLIST_ACTIVE))
      then let! r := evmap_add e v in when (negb (Z.eqb r (-1))) (event_queue_insert addr e EVLIST_INSERTED) ;; ret r
      else ret 0) b = Ok (r, b') /\
    base_ok K b' /\ clk b' = clk b /\ ctrl b' = ctrl b /\ MinHeap.hp (th b') = MinHeap.hp (th b) /\
    ((r = -1 /\ evs b' = evs b) \/ ((r = 0 \/ r = 1) /\ evs b' = <[e := listed v]> (evs b))).
Proof.
  intros H Hv. pose proof (q_ev _ _ (b_queues _ _ _ H) e v Hv) as Hev. unfold listed.
  rewrite has_lor_r, (eo_nosig _ _ Hev), orb_false_r. change (Z.lor EV_READ EV_WRITE) with rw.
  destruct (has (ev_events v) rw && _) eqn:Ec.
  2: { exists 0, b. split_and!; try done. right. split; [by left|]. by rewrite insert_id. }
  apply andb_true_iff in Ec as [Hrw Hf]. rewrite has_lor_r, negb_orb in Hf. apply andb_true_iff in Hf as [Hi%negb_true_iff _].
  unfold evmap_add. change (Z.lor EV_READ EV_WRITE) with rw. rewrite Hrw.
  destruct (evmap_io_add_run _ b e v (b_io _ _ _ H) (b_back _ _ _ H) Hv (eo_fd _ _ Hev) Hrw) as (r & b1 & E1 & HS & Hr).
  { intros He. apply (on_has _ _ _ v Hv) in He. congruence. }
  rewrite (bind_ok _ _ _ _ _ E1). pose proof HS as [S1 S2 S3 S4 S5 S6 S7]. destruct Hr as [[-> Hm]|[Hr Hm]].
  - exists (-1), b1. split; [done|]. split_and!; try done; [|by left]. eapply io_step_inv; [exact H|done|]. by rewrite S1.
  - pose proof (io_step_inv _ _ K b b1 H HS Hm) as H1. assert (Hv1 : evs b1 !! e = Some v) by (by rewrite S1).
    destruct (insert_inserted_run b1 e v (b_queues _ _ _ H1) Hv1 Hi Hrw) as (b2 & E2 & HQ & HF & Et). pose proof HF as [F1 F2 F3 F4 F5].
    assert (Er : Z.eqb r (-1) = false) by (destruct Hr as [-> | ->]; done). rewrite Er. cbn [negb]. unfold when at 1.
    rewrite (bind_ok _ _ _ _ _ E2). exists r, b2. split; [done|].
    split_and!; [|congruence|congruence|by rewrite Et|right; split; [done|congruence]].
    eapply base_inv_ext; [|eapply (base_inv_flag _ K b1 b2 e v); try done].
    + intros x. cbn. rewrite F1, (on_marked _ _ _ _ v), S1 by (done || apply queue_bits). naive_solver.
    + rewrite has_marked. apply orb_false_r.
Qed.

(** Room in the heap for a timeout of [v]. *)
Lemma reserve_step K b v (tv : option timeval) :
  base_ok K b -> MinHeap.n (MinHeap.hp (th b)) < 1073741824 ->
  exists r b1, (match tv with
     | Some _ => if has (ev_flags v) EVLIST_TIMEOUT then ret 0
         else let! k := heap (gets MinHeap.min_heap_size) in heap (MinHeap.min_heap_reserve (u32 (1 + k)))
     | None => ret 0 end : M (base B) Z) b = Ok (r, b1) /\
    base_ok K b1 /\ evs b1 = evs b /\ clk b1 = clk b /\ ctrl b1 = ctrl b /\ MinHeap.n (MinHeap.hp (th b1)) = MinHeap.n (MinHeap.hp (th b)) /\
    (r = -1 \/ (r = 0 /\ (tv <> None -> has (ev_flags v) EVLIST_TIMEOUT = false -> MinHeap.n (MinHeap.hp (th b1)) < MinHeap.a (MinHeap.hp (th b1))))).
Proof.
  intros H Hn. destruct tv as [t|]; [|exists 0, b; split_and!; try done; by right].
  destruct (has (ev_flags v) EVLIST_TIMEOUT); [exists 0, b; split_and!; try done; by right|].
  rewrite (bind_ok _ _ _ _ _ (heap_run (gets MinHeap.min_heap_size) b _ _ eq_refl)), set_th_same. unfold MinHeap.min_heap_size.
  pose proof (heap_room _ _ _ H) as Hr. replace (u32 (1 + _)) with (MinHeap.n (MinHeap.hp (th b)) + 1) by (unfold u32; rewrite Z.mod_small; lia).
  destruct (MinHeap.reserve_run K _ (th b) (b_heap _ _ _ H) Hn) as (r & h & E & HT & Ee & En & Hres).
  exists r, (set_th h b). split; [by apply heap_run|]. split_and!; try done.
  - destruct H as [H1 H2 H3 H4 H5 H6]. split; try done. intros x Hx. cbn. rewrite Ee. auto.
  - destruct Hres as [[-> Ha]|[-> _]]; [by right|by left].
Qed.

Lemma add_run K b e v tv absolute now c :
  base_ok K b -> evs b !! e = Some v -> (is_Some tv -> gettime_ (clk b) = Ok (Some now, c)) -> MinHeap.n (MinHeap.hp (th b)) < 1073741824 ->
  exists r b', event_add_internal e tv absolute b = Ok (r, b') /\ ctrl b' = ctrl b /\
    ((r = -1 /\ base_ok K b' /\ evs b' = evs b) \/
     (r = 0 /\ evs b' = <[e := added v tv absolute]> (evs b) /\
      base_ok (match tv with Some t => retime K e (due now t false absolute) | None => K end) b')).
Proof.
  intros H Hv Hc Hn. pose proof (q_ev _ _ (b_queues _ _ _ H) e v Hv) as Hev.
  unfold event_add_internal, event_add_gen. rewrite (bind_ok _ _ _ _ _ (rd_event_run b e v Hv)), (eo_flags _ _ Hev).
  change (negb (Z.eqb 0 0)) with false. cbn match.
  destruct (reserve_step K b v tv H Hn) as (r1 & b1 & E1 & H1 & V1 & C1 & L1 & N1 & Hr1). rewrite (bind_ok _ _ _ _ _ E1).
  destruct Hr1 as [->|[-> Ha]]; [exists (-1), b1; by split_and!; [| |left]|]. change (Z.eqb 0 (-1)) with false. cbn match.
  rewrite (eo_nosig _ _ Hev), (bind_ok _ _ _ _ _ (eq_refl : when false _ b1 = Ok (tt, b1))).
  assert (Hv1 : evs b1 !! e = Some v) by (by rewrite V1).
  destruct (add_map_run K b1 e v H1 Hv1) as (r2 & b2 & E2 & H2 & C2 & L2 & P2 & Hr2). rewrite (bind_ok _ _ _ _ _ E2). cbn zeta.
  destruct Hr2 as [[-> V2]|[Hr2 V2]].
  { change (Z.eqb (-1) 1) with false. cbn match. change (Z.eqb (-1) (-1)) with true. cbn match.
    assert (Em : (match tv with Some _ => ret false | None => ret false end : M (base B) bool) b2 = Ok (false, b2)) by (by destruct tv).
    rewrite (bind_ok _ _ _ _ _ Em), (bind_ok _ _ _ _ _ (notify_if_run b2 _ _ (b_thread _ _ _ H2))).
    exists (-1), b2. split; [done|]. split; [congruence|]. left. split_and!; [done|done|congruence]. }
  assert (Er : (if Z.eqb r2 1 then 0 else r2) = 0) by (destruct Hr2 as [-> | ->]; done). rewrite Er. change (Z.eqb 0 (-1)) with false. cbn match.
  assert (Hv2 : evs b2 !! e = Some (listed v)) by (rewrite V2; apply lookup_insert_eq).
  destruct tv as [t|].
  - specialize (Hc (mk_is_Some _ _ eq_refl)). assert (Ef : has (ev_flags (listed v)) EVLIST_TIMEOUT = has (ev_flags v) EVLIST_TIMEOUT).
    { unfold listed. destruct (has (ev_events v) rw && _); [|done]. rewrite has_marked. apply orb_false_r. }
    destruct (add_timeout_run _ K b2 e (listed v) common_timeout_schedule t absolute now c H2 Hv2) as (x & b3 & E3 & H3 & V3 & C3 & L3);
      [by rewrite C2, C1|by rewrite P2, N1|rewrite Ef, P2; intros; by apply Ha|].
    rewrite (bind_ok _ _ _ _ _ E3), (bind_ok _ _ _ _ _ (notify_if_run b3 _ _ (b_thread _ _ _ H3))).
    exists 0, b3. split; [done|]. split; [congruence|]. right. split; [done|].
    assert (V : evs b3 = <[e := added v (Some t) absolute]> (evs b)) by (rewrite V3, V2, V1; apply insert_insert_eq).
    split; [done|]. eapply base_inv_ext; [|exact H3]. intros x'. rewrite V3. symmetry. eapply on_unchanged; [done|].
    unfold timed. rewrite has_marked. cbn [has]. change (has EVLIST_TIMEOUT EVLIST_INSERTED) with false. rewrite orb_false_r.
    destruct (has (ev_flags (listed v)) EVLIST_ACTIVE && _), (_ && negb absolute); rewrite ?has_unmarked by apply queue_bits; cbn; by rewrite ?andb_true_r.
  - rewrite (bind_ok _ _ _ _ _ (eq_refl : ret false b2 = Ok (false, b2))), (bind_ok _ _ _ _ _ (notify_if_run b2 _ _ (b_thread _ _ _ H2))).
    exists 0, b2. split; [done|]. split; [congruence|]. right. split_and!; [done|by rewrite V2, V1|done].
Qed.

(** ** Timeouts that have passed *)

(** An event after timeout_process at time [now]. *)
Definition expired (K : loc -> timeval) (now : timeval) (e : loc) (v : event) : event :=
  if has (ev_flags v) EVLIST_TIMEOUT && tv_le (K e) now then activated EV_TIMEOUT (cleared v) else v.

Lemma top_run I K b :
  base_inv I K b -> exists r, heap MinHeap.min_heap_top b = Ok (r, b) /\
    match r with
    | None => forall x, ~ on (evs b) EVLIST_TIMEOUT x
    | Some e => on (evs b) EVLIST_TIMEOUT e /\ timeout_of e b = Ok (K e, b) /\
        (forall x, on (evs b) EVLIST_TIMEOUT x -> MinHeap.kle (K e) (K x))
    end.
Proof.
  intros H. destruct (MinHeap.min_heap_top_run K _ (th b) (b_heap _ _ _ H)) as (r & E & Hr).
  exists r. rewrite (heap_run _ b r (th b) E), set_th_same. split; [done|]. destruct r as [e|]; [|done]. destruct Hr as [He Hmin].
  split_and!; [done| |done]. destruct He as (v & Hv & _). destruct (b_dom _ _ _ H e) as [w Hw]; [eauto|].
  rewrite (timeout_of_run b e w Hw). by rewrite (MinHeap.k_times _ _ _ (MinHeap.t_ok _ _ _ (b_heap _ _ _ H)) e w Hw).
Qed.

Lemma later_trans x y now : MinHeap.kle x y -> tv_gt x now = true -> tv_le y now = false.
Proof.
  unfold tv_gt, tv_le, MinHeap.kle, MinHeap.kgt. intros H1 H2.
  destruct (Z.eqb_spec (fst x) (fst y)), (Z.eqb_spec (fst x) (fst now)), (Z.eqb_spec (fst y) (fst now)); cbn in *;
    try rewrite Z.ltb_lt in H2; try rewrite Z.ltb_ge in H1; apply negb_false_iff, Z.ltb_lt; lia.
Qed.

(** What timeout_process does to the events of [b]. *)
Record timeouts_done (K : loc -> timeval) (now : timeval) (I : loc -> Prop) (b b' : base B) : Prop := {
  td_evs : forall e, evs b' !! e = expired K now e <$> evs b !! e;
  td_inv : exists J, base_inv J K b' /\ covers J b' /\ (forall x, J x -> I x);
  td_clk : clk b' = clk b
}.

Lemma activated_insert_flag v q : is_queue q -> q <> EVLIST_ACTIVE ->
  has (ev_flags (activated EV_TIMEOUT (cleared v))) q = false.
Proof.
  intros Hq Hne. unfold activated. rewrite cleared_flags by apply queue_bits. rewrite has_marked.
  change (ev_flags (set_res EV_TIMEOUT (cleared v))) with (ev_flags (cleared v)). rewrite cleared_flags by done.
  rewrite has_queue by (done || apply queue_bits). cbn. by apply Z.eqb_neq.
Qed.

Lemma process_run now fuel : forall I K b,
  base_inv I K b -> covers I b -> (Z.to_nat (MinHeap.n (MinHeap.hp (th b))) < fuel)%nat ->
  exists b', process_timeouts fuel now b = Ok (tt, b') /\ timeouts_done K now I b b'.
Proof.
  induction fuel as [|f IH]; intros I K b H HI Hf; [lia|]. cbn [process_timeouts].
  assert (Hstop : (forall x, on (evs b) EVLIST_TIMEOUT x -> tv_le (K x) now = false) -> timeouts_done K now I b b).
  { intros Hx. split; [|by exists I|done]. intros e. destruct (evs b !! e) as [v|] eqn:Hv; [|done]. cbn. f_equal. unfold expired.
    destruct (has (ev_flags v) EVLIST_TIMEOUT) eqn:Ht; [|done]. rewrite Hx; [done|]. by exists v. }
  destruct (top_run I K b H) as ([e|] & Et & Hr); rewrite (bind_ok _ _ _ _ _ Et).
  2: { exists b. split; [done|]. apply Hstop. intros x Hx. by apply Hr in Hx. }
  destruct Hr as (He & Eto & Hmin). rewrite (bind_ok _ _ _ _ _ Eto). destruct (tv_gt (K e) now) eqn:Eg.
  { exists b. split; [done|]. apply Hstop. intros x Hx. by eapply later_trans; [apply Hmin|]. }
  destruct He as (v & Hv & Ht). destruct (del_run I K b e v H HI Hv) as (r & b1 & E1 & R1 & H1 & _).
  rewrite (bind_ok _ _ _ _ _ E1). assert (Hv1 : evs b1 !! e = Some (cleared v)) by (rewrite (rm_evs _ _ _ _ _ R1); apply lookup_insert_eq).
  destruct (active_run _ K b1 e (cleared v) EV_TIMEOUT 1 H1 Hv1) as (b2 & E2 & H2 & [A1 A2 A3 A4 _ _ _]). rewrite (bind_ok _ _ _ _ _ E2).
  assert (V2 : evs b2 = <[e := activated EV_TIMEOUT (cleared v)]> (evs b)) by (rewrite A1, (rm_evs _ _ _ _ _ R1); apply insert_insert_eq).
  assert (C2 : covers (without I e v r) b2).
  { intros x Hx. apply (covers_without I b b1 e v r HI R1). rewrite A1 in Hx. eapply on_unchanged; [exact Hv1| |exact Hx].
    rewrite activated_insert_flag, cleared_flags by (done || apply queue_bits). done. }
  destruct (IH _ K b2 H2 C2) as (b' & E3 & [T1 (J & J1 & J2 & J3) T3]).
  { rewrite A2, (rm_n _ _ _ _ _ R1), Ht, cleared_flags by apply queue_bits. cbn. pose proof (heap_room _ _ _ H1) as Hn.
    rewrite (rm_n _ _ _ _ _ R1), Ht, cleared_flags in Hn by apply queue_bits. cbn in Hn. lia. }
  exists b'. split; [done|]. split.
  - intros x. rewrite T1, V2. destruct (decide (x = e)) as [->|Hne]; [|by rewrite lookup_insert_ne].
    rewrite lookup_insert_eq, Hv. cbn. f_equal. unfold expired at 1. rewrite activated_insert_flag by (done || apply queue_bits).
    unfold expired. rewrite Ht. unfold tv_le. unfold tv_gt in Eg. by rewrite Eg.
  - exists J. split_and!; [done|done|]. intros x Hx. apply J3 in Hx as [Hx _]. done.
  - rewrite T3, A3. apply R1.
Qed.

Lemma timeout_process_run I K b now c :
  base_inv I K b -> covers I b -> gettime_ (clk b) = Ok (Some now, c) ->
  exists b', timeout_process b = Ok (tt, b') /\ timeouts_done K now I (set_clk c b) b' \/
    (timeout_process b = Ok (tt, b) /\ forall x, ~ on (evs b) EVLIST_TIMEOUT x).
Proof.
  intros H HI Hc. unfold timeout_process. rewrite (bind_ok _ _ _ _ _ (heap_run (gets MinHeap.min_heap_size) b _ _ eq_refl)), set_th_same.
  unfold MinHeap.min_heap_size. destruct (Z.eqb_spec (MinHeap.n (MinHeap.hp (th b))) 0) as [E|E].
  - exists b. right. split; [done|]. intros x Hx. apply (MinHeap.s_set _ _ _ (MinHeap.k_slots _ _ _ (MinHeap.t_ok _ _ _ (b_heap _ _ _ H)))) in Hx as (i & Li & _).
    unfold MinHeap.size in Li. lia.
  - rewrite (bind_ok _ _ _ _ _ (now_run b now c Hc)).
    destruct (process_run now (S (Z.to_nat (MinHeap.n (MinHeap.hp (th b))))) I K (set_clk c b)) as (b' & Ep & Hd); [destruct H; by split|done|cbn; lia|].
    exists b'. left. done.
Qed.
End Facts.
End EvFacts.
