(* ===== verification/EvCheck.v ===== *)
(** * The library's own checks pass (event_base_assert_ok)

    On a base with the invariant [EvRun.base_ok], evmap_check_integrity and
    event_base_assert_ok find nothing wrong: none of their assertions fails.
    They mark events in the bits EVLIST_X_IOFOUND and EVLIST_X_SIGFOUND. *)

From stdpp Require Import prelude gmap.
From S2P Require Import Prelude MinHeap EvBase EvOps EvLoop EvSig EvNew EvInv EvRun EvFacts.
Open Scope Z_scope.

Module EvCheck.
Import EvBase EvOps EvNew EvInv EvRun EvFacts.
Import EvSig (HasSig).

(** The bits that the checks write. *)
Definition X_bits : Z := Z.lor EVLIST_X_SIGFOUND EVLIST_X_IOFOUND.

(** [v'] is [v] up to these bits. *)
Record marked_only (v v' : event) : Prop := {
  mo_same : v' = set_flags (ev_flags v') v;
  mo_flags : forall q, Z.land X_bits q = 0 -> has (ev_flags v') q = has (ev_flags v) q }.

#[local] Instance marked_only_refl : Reflexive marked_only.
Proof. intros v. by split; [destruct v|]. Qed.
#[local] Instance marked_only_trans : Transitive marked_only.
Proof. intros u v w [F1 F2] [G1 G2]. split; [rewrite G1, F1; done|]. intros q Hq. by rewrite G2, F2. Qed.

Definition unfound (v : event) : event := set_flags (Z.ldiff (ev_flags v) X_bits) v.
Definition found (x : Z) (v : event) : event := set_flags (Z.lor (ev_flags v) x) v.

Lemma land_sub x q : Z.land X_bits q = 0 -> Z.land x X_bits = x -> Z.land x q = 0.
Proof. intros H <-. by rewrite <-Z.land_assoc, H, Z.land_0_r. Qed.

Lemma unfound_only v : marked_only v (unfound v).
Proof.
  split; [done..|]. intros q Hq. cbn. unfold has. do 2 f_equal. apply Z.bits_inj'. intros n Hn.
  assert (E : Z.testbit (Z.land X_bits q) n = false) by (by rewrite Hq, Z.bits_0). rewrite Z.land_spec in E.
  rewrite !Z.land_spec, Z.ldiff_spec. destruct (Z.testbit X_bits n), (Z.testbit q n); cbn in *; rewrite ?andb_true_r, ?andb_false_r; done.
Qed.

Lemma found_only x v : Z.land x X_bits = x -> marked_only v (found x v).
Proof.
  intros Hx. split; [done..|]. intros q Hq. cbn. rewrite has_lor. unfold has at 2. by rewrite (land_sub x q), orb_false_r.
Qed.

Lemma unfound_has v q : Z.land q X_bits = q -> has (ev_flags (unfound v)) q = false.
Proof.
  intros Hq. cbn. unfold has. apply negb_false_iff, Z.eqb_eq. apply Z.bits_inj'. intros n Hn. rewrite Z.bits_0, Z.land_spec, Z.ldiff_spec.
  destruct (Z.testbit q n) eqn:E; [|by rewrite andb_false_r]. rewrite <-Hq, Z.land_spec in E. apply andb_true_iff in E as [_ ->]. by rewrite andb_false_r.
Qed.

Lemma found_has v x : x <> 0 -> has (ev_flags (found x v)) x = true.
Proof. intros Hx. cbn. rewrite has_lor. unfold has at 2. rewrite Z.land_diag, (proj2 (Z.eqb_neq x 0)) by done. apply orb_true_r. Qed.

(** An event after the checks: those on eventqueue have been found. *)
Definition after_check (v : event) : event :=
  if has (ev_flags v) EVLIST_INSERTED then found EVLIST_X_IOFOUND (unfound v) else v.

Lemma checked_only v : marked_only v (after_check v).
Proof.
  unfold after_check. destruct (has (ev_flags v) EVLIST_INSERTED); [|done].
  etransitivity; [apply unfound_only|by apply found_only].
Qed.

Section Check.
Context {B : Type} `{!HasSig B}.
Implicit Types b : base B.

(** A change of the events of [l] only. *)
Definition mapped (f : event -> event) (l : list loc) (m m' : gmap loc event) : Prop :=
  forall e, m' !! e = (if decide (e ∈ l) then f else id) <$> m !! e.

Lemma mapped_nil f m : mapped f [] m m.
Proof. intros e. rewrite decide_False by apply not_elem_of_nil. by rewrite option_fmap_id. Qed.

Lemma mapped_cons f e l v m m' :
  e ∉ l -> m !! e = Some v -> mapped f l (<[e := f v]> m) m' -> mapped f (e :: l) m m'.
Proof.
  intros He Hv Hm x. rewrite Hm. destruct (decide (x = e)) as [->|Hx].
  - rewrite decide_False, decide_True, lookup_insert_eq, Hv by (done || set_solver). done.
  - rewrite lookup_insert_ne by done. destruct (decide (x ∈ l)); [by rewrite decide_True by set_solver|by rewrite decide_False by set_solver].
Qed.

Lemma assert_true b : assert_that true b = Ok (tt, b).
Proof. done. Qed.

Lemma check_queue_run l : forall b,
  NoDup l -> (forall e, e ∈ l -> exists v, evs b !! e = Some v /\ has (ev_flags v) EVLIST_INSERTED = true /\ has (ev_flags v) EVLIST_INIT = true) ->
  exists m', check_queue l b = Ok (tt, set_evs m' b) /\ mapped unfound l (evs b) m'.
Proof.
  induction l as [|e l IH]; intros b Hnd Hl; cbn [check_queue].
  { exists (evs b). split; [by destruct b|apply mapped_nil]. }
  apply NoDup_cons in Hnd as [He Hnd]. destruct (Hl e) as (v & Hv & H1 & H2); [set_solver|].
  rewrite (bind_ok _ _ _ _ _ (rd_event_run b e v Hv)), H1, (bind_ok _ _ _ _ _ (assert_true b)), H2, (bind_ok _ _ _ _ _ (assert_true b)).
  rewrite (bind_ok _ _ _ _ _ (upd_run b e v _ Hv)).
  destruct (IH (set_evs (<[e := unfound v]> (evs b)) b) Hnd) as (m' & E & Hm).
  { intros x Hx. cbn. rewrite lookup_insert_ne by (by intros ->). apply Hl. set_solver. }
  exists m'. split; [exact E|]. by eapply mapped_cons.
Qed.

Lemma check_entry_run x i l : forall b,
  NoDup l -> (forall e, e ∈ l -> exists v, evs b !! e = Some v /\ has (ev_flags v) x = false /\ ev_fd v = i) ->
  exists m', check_entry x i l b = Ok (tt, set_evs m' b) /\ mapped (found x) l (evs b) m'.
Proof.
  induction l as [|e l IH]; intros b Hnd Hl; cbn [check_entry].
  { exists (evs b). split; [by destruct b|apply mapped_nil]. }
  apply NoDup_cons in Hnd as [He Hnd]. destruct (Hl e) as (v & Hv & H1 & H2); [set_solver|].
  rewrite (bind_ok _ _ _ _ _ (rd_event_run b e v Hv)), H1, H2, Z.eqb_refl, !(bind_ok _ _ _ _ _ (assert_true b)).
  rewrite (bind_ok _ _ _ _ _ (upd_run b e v _ Hv)).
  destruct (IH (set_evs (<[e := found x v]> (evs b)) b) Hnd) as (m' & E & Hm).
  { intros y Hy. cbn. rewrite lookup_insert_ne by (by intros ->). apply Hl. set_solver. }
  exists m'. split; [exact E|]. by eapply mapped_cons.
Qed.

(** The lists of the entries from [i] on hold events of their own descriptor. *)
Definition entries_of (m : gmap loc event) (x i : Z) (ls : list (list loc)) : Prop :=
  forall j l, ls !! j = Some l -> NoDup l /\ forall e, e ∈ l -> exists v, m !! e = Some v /\ has (ev_flags v) x = false /\ ev_fd v = i + Z.of_nat j.

Lemma entries_of_tail m m' x i l ls :
  mapped (found x) l m m' -> entries_of m x i (l :: ls) -> entries_of m' x (i + 1) ls.
Proof.
  intros Hm H j k Hk. destruct (H 0%nat l eq_refl) as [_ H0]. destruct (H (S j) k Hk) as [Hnd Hj]. split; [done|].
  intros e He. destruct (Hj e He) as (v & Hv & Hx & Hf). exists v. rewrite Hm, Hv. rewrite decide_False.
  - split_and!; [done|done|lia].
  - intros He0. destruct (H0 e He0) as (w & Hw & _ & Hf0). assert (w = v) as -> by congruence. lia.
Qed.

Lemma entries_fresh m x i l ls e : entries_of m x i (l :: ls) -> e ∈ l -> e ∉ concat ls.
Proof.
  intros H He Hc. apply list_elem_of_In, in_concat in Hc as (k & Hk & He'). apply list_elem_of_In in He'.
  apply list_elem_of_In, list_elem_of_lookup in Hk as [j Hj]. destruct (H 0%nat l eq_refl) as [_ H0].
  destruct (H (S j) k Hj) as [_ H1]. destruct (H0 e He) as (v & Hv & _ & Hf), (H1 e He') as (w & Hw & _ & Hf'). simplify_eq. lia.
Qed.

Lemma entries_nodup m x ls : forall i, entries_of m x i ls -> NoDup (concat ls).
Proof.
  induction ls as [|l ls IH]; intros i H; [apply NoDup_nil_2|]. cbn. apply NoDup_app. split_and!.
  - by apply (H 0%nat).
  - intros e He. by eapply entries_fresh.
  - apply (IH (i + 1)). intros j k Hk. destruct (H (S j) k Hk) as [Hnd Hj]. split; [done|]. intros e He.
    destruct (Hj e He) as (v & ? & ? & ?). exists v. split_and!; [done|done|lia].
Qed.

Lemma check_entries_run x ls : forall i n b,
  entries_of (evs b) x i ls ->
  exists m', check_entries x i ls n b = Ok (n + Z.of_nat (length (concat ls)), set_evs m' b) /\ mapped (found x) (concat ls) (evs b) m'.
Proof.
  induction ls as [|l ls IH]; intros i n b H; cbn [check_entries].
  { exists (evs b). split; [|apply mapped_nil]. unfold ret. cbn. rewrite Z.add_0_r. by destruct b. }
  destruct (H 0%nat l eq_refl) as [Hnd H0]. destruct (check_entry_run x i l b Hnd) as (m1 & E1 & M1).
  { intros e He. destruct (H0 e He) as (v & ? & ? & ?). exists v. split_and!; [done|done|lia]. }
  rewrite (bind_ok _ _ _ _ _ E1).
  destruct (IH (i + 1) (n + Z.of_nat (length l)) (set_evs m1 b)) as (m2 & E2 & M2); [by eapply entries_of_tail|].
  exists m2. split; [rewrite E2; cbn [concat]; rewrite length_app; do 2 f_equal; lia|]. cbn [concat]. intros e. rewrite M2. cbn [evs set_evs]. rewrite M1.
  destruct (decide (e ∈ l)) as [Hl|Hl].
  - rewrite decide_False by (by eapply entries_fresh). rewrite decide_True by set_solver. by rewrite option_fmap_id.
  - rewrite option_fmap_id. destruct (decide (e ∈ concat ls)); [by rewrite decide_True by set_solver|by rewrite decide_False by set_solver].
Qed.

Lemma check_found_run l : forall nio nsig b,
  (forall e, e ∈ l -> exists v, evs b !! e = Some v /\ has (ev_events v) rw = true /\ has (ev_events v) EV_SIGNAL = false /\ has (ev_flags v) EVLIST_X_IOFOUND = true) ->
  check_found l nio nsig b = Ok ((nio - Z.of_nat (length l), nsig), b).
Proof.
  induction l as [|e l IH]; intros nio nsig b Hl; cbn [check_found]; [cbn; by rewrite Z.sub_0_r|].
  destruct (Hl e) as (v & Hv & H1 & H2 & H3); [set_solver|]. rewrite (bind_ok _ _ _ _ _ (rd_event_run b e v Hv)).
  change (Z.lor EV_READ EV_WRITE) with rw. rewrite H1, H2, H3. cbn [negb orb]. rewrite !(bind_ok _ _ _ _ _ (assert_true b)).
  rewrite IH; [do 3 f_equal; cbn [length]; lia|]. intros x Hx. apply Hl. set_solver.
Qed.

Lemma concat_nils (ls : list (list loc)) : Forall (fun l => l = []) ls -> concat ls = [].
Proof. induction 1 as [|l ls -> _ IH]; [done|exact IH]. Qed.

Context (notify_fn : option (M B Z)) (ad : loc -> Z) (op : eventop B).
#[local] Instance check_env : Env B := env_of notify_fn ad op.
Context `{!BackendOk op}.
#[local] Instance check_backend : BackendOk (evsel (B := B)) := BackendOk0.

(** What the checks ask for beyond the invariant: the added events are
    initialised and have a descriptor, and there are no signal events. *)
Record checkable (b : base B) : Prop := {
  ck_init : forall e v, evs b !! e = Some v -> has (ev_flags v) EVLIST_INSERTED = true -> has (ev_flags v) EVLIST_INIT = true /\ 0 <= ev_fd v;
  ck_sig : Forall (fun x => default [] x = []) (sigmap (qs b))
}.

Lemma io_entries K b m :
  base_ok K b -> mapped unfound (eventqueue (qs b)) (evs b) m -> entries_of m EVLIST_X_IOFOUND 0 (map entry_events (io (qs b))).
Proof.
  intros H Hm j l Hj. rewrite list_lookup_fmap in Hj. apply fmap_Some in Hj as (x & Hx & ->). destruct x as [c|]; cbn; [|split; [apply NoDup_nil_2|set_solver]].
  pose proof (i_entry _ _ _ _ (b_io _ _ _ H) (Z.of_nat j) c ltac:(lia)) as En. unfold entry in En. rewrite Nat2Z.id, Hx in En. specialize (En eq_refl).
  split; [apply En|]. intros e [Hi (v & Hv & _ & Hf)]%(en_in _ _ _ _ En). exists (unfound v).
  rewrite Hm, Hv, decide_True by (by apply (q_ins _ _ (b_queues _ _ _ H))). split_and!; [done|by apply unfound_has|cbn; lia].
Qed.

Lemma io_listed K b e : base_ok K b -> checkable b -> e ∈ concat (map entry_events (io (qs b))) <-> e ∈ eventqueue (qs b).
Proof.
  intros H C. pose proof (b_queues _ _ _ H) as HQ. pose proof (b_io _ _ _ H) as HI. rewrite (q_ins _ _ HQ), list_elem_of_In, in_concat. split.
  - intros (l & Hl & He). apply in_map_iff in Hl as ([c|] & <- & Hc); [|done]. apply list_elem_of_In in He.
    apply list_elem_of_In, list_elem_of_lookup in Hc as [j Hj].
    pose proof (i_entry _ _ _ _ HI (Z.of_nat j) c ltac:(lia)) as En. unfold entry in En. rewrite Nat2Z.id, Hj in En.
    by apply (en_in _ _ _ _ (En eq_refl)) in He as [Hi _].
  - intros Hon. pose proof Hon as (v & Hv & Hf). destruct (ck_init _ C e v Hv Hf) as [_ Hfd].
    assert (Hd : on_fd (on (evs b) EVLIST_INSERTED) (evs b) (ev_fd v) e).
    { split; [done|]. exists v. split_and!; [done| |done]. by apply (q_ev _ _ HQ e v Hv). }
    destruct (i_in _ _ _ _ HI (ev_fd v) e Hfd Hd) as [c Hc]. pose proof (i_entry _ _ _ _ HI _ c Hfd Hc) as En.
    exists (io_events c). split; [|by apply list_elem_of_In, (en_in _ _ _ _ En)]. apply in_map_iff. exists (Some c). split; [done|].
    unfold entry in Hc. apply list_elem_of_In, list_elem_of_lookup. exists (Z.to_nat (ev_fd v)). by destruct (io (qs b) !! Z.to_nat (ev_fd v)) as [[]|]; simplify_eq/=.
Qed.

Lemma integrity_run K b :
  base_ok K b -> checkable b ->
  evmap_check_integrity b = Ok (tt, set_evs (after_check <$> evs b) b).
Proof.
  intros H C. pose proof (b_queues _ _ _ H) as HQ. unfold evmap_check_integrity. rewrite (bind_ok _ _ _ _ _ (gets_run qs b)).
  destruct (check_queue_run (eventqueue (qs b)) b (q_ins_nd _ _ HQ)) as (m1 & E1 & M1).
  { intros e (v & Hv & Hf)%(q_ins _ _ HQ). exists v. destruct (ck_init _ C e v Hv Hf). done. }
  rewrite (bind_ok _ _ _ _ _ E1). pose proof (io_entries K b m1 H M1) as He1. set (ls := map entry_events (io (qs b))) in *.
  destruct (check_entries_run EVLIST_X_IOFOUND ls 0 0 (set_evs m1 b) He1) as (m2 & E2 & M2). rewrite (bind_ok _ _ _ _ _ E2).
  set (ss := map (default []) (sigmap (qs b))). assert (Hss : Forall (fun l => l = []) ss) by (apply Forall_map, (ck_sig _ C)).
  destruct (check_entries_run EVLIST_X_SIGFOUND ss 0 0 (set_evs m2 (set_evs m1 b))) as (m3 & E3 & M3).
  { intros j l Hj. rewrite (proj1 (Forall_lookup _ _) Hss j l Hj). split; [apply NoDup_nil_2|set_solver]. }
  rewrite (concat_nils ss Hss) in E3, M3. rewrite (bind_ok _ _ _ _ _ E3).
  assert (V3 : forall e, m3 !! e = m2 !! e) by (intros e; rewrite M3, decide_False by apply not_elem_of_nil; by rewrite option_fmap_id).
  assert (Hp : length (concat ls) = length (eventqueue (qs b))).
  { apply Permutation_length, NoDup_Permutation; [by eapply entries_nodup|apply HQ|]. intros e. by apply (io_listed K). }
  assert (Hall : forall e, e ∈ eventqueue (qs b) -> exists v, m3 !! e = Some v /\ has (ev_events v) rw = true /\
    has (ev_events v) EV_SIGNAL = false /\ has (ev_flags v) EVLIST_X_IOFOUND = true).
  { intros e He. pose proof He as (v & Hv & Hf)%(q_ins _ _ HQ). exists (found EVLIST_X_IOFOUND (unfound v)).
    rewrite V3, M2. cbn [evs set_evs]. rewrite M1, Hv, decide_True, decide_True by (done || by apply (io_listed K)).
    pose proof (q_ev _ _ HQ e v Hv) as Ho. split_and!; [done|by apply Ho|by apply Ho|by apply found_has]. }
  rewrite (bind_ok _ _ _ _ _ (check_found_run (eventqueue (qs b)) _ _ (set_evs m3 (set_evs m2 (set_evs m1 b))) Hall)), Hp.
  rewrite Z.add_0_l, Z.sub_diag. enough (m3 = after_check <$> evs b) as -> by done. apply map_eq. intros e.
  rewrite lookup_fmap, V3, M2. cbn [evs set_evs]. rewrite M1. destruct (evs b !! e) as [v|] eqn:Hv; [|by repeat destruct (decide _)]. cbn.
  unfold after_check. destruct (has (ev_flags v) EVLIST_INSERTED) eqn:Hf.
  - assert (He : e ∈ eventqueue (qs b)) by (apply (q_ins _ _ HQ); by exists v).
    by rewrite !decide_True by (done || by apply (io_listed K)).
  - assert (He : e ∉ eventqueue (qs b)) by (intros (w & Hw & Hw')%(q_ins _ _ HQ); congruence).
    rewrite !decide_False; [done|done|]. intros Hx%(io_listed K); done.
Qed.

Lemma check_heap_run K (S : loc -> Prop) b :
  MinHeap.heap_ok K S (th b) -> (forall e, S e -> exists v, evs b !! e = Some v /\ has (ev_flags v) EV_TIMEOUT = true) ->
  forall k i, (1 <= i)%nat -> (i + k <= MinHeap.size (th b))%nat -> check_heap k (Z.of_nat i) b = Ok (tt, b).
Proof.
  intros HK HS k. induction k as [|k IH]; intros i Hi Hk; cbn [check_heap]; [done|].
  pose proof (MinHeap.s_n _ _ _ (MinHeap.k_slots _ _ _ HK)) as Hn.
  destruct (MinHeap.heap_at K S (th b) i HK ltac:(lia)) as (e & h & Ae & Se & Eh & Ih).
  destruct (MinHeap.parent_of i) as (q & Eq & Hc); [lia|unfold MinHeap.size in Hk; lia|].
  assert (Hq : Z.quot (Z.of_nat i - 1) 2 = Z.of_nat q).
  { rewrite Z.quot_div_nonneg by lia. rewrite <-Eq. unfold u32. rewrite Z.mod_small; [done|]. unfold MinHeap.size in Hk. lia. }
  assert (Hqi : (q < i)%nat) by (unfold MinHeap.child in Hc; lia).
  destruct (MinHeap.heap_at K S (th b) q HK ltac:(lia)) as (pe & ph & Ap & Sp & Ep & _). destruct (HS e Se) as (v & Hv & Hf).
  rewrite (bind_ok _ _ _ _ _ (heap_run _ b _ _ (MinHeap.heap_slot_run _ _ _ Ae))), set_th_same, Hq.
  rewrite (bind_ok _ _ _ _ _ (heap_run _ b _ _ (MinHeap.heap_slot_run _ _ _ Ap))), set_th_same.
  rewrite (bind_ok _ _ _ _ _ (rd_event_run b e v Hv)), Hf, (bind_ok _ _ _ _ _ (assert_true b)).
  rewrite (bind_ok _ _ _ _ _ (timeout_of_run b pe ph Ep)), (bind_ok _ _ _ _ _ (timeout_of_run b e h Eh)).
  rewrite <-(MinHeap.k_times _ _ _ HK pe ph Ep), <-(MinHeap.k_times _ _ _ HK e h Eh).
  assert (Hle : tv_le (K pe) (K e) = true).
  { unfold tv_le. apply negb_true_iff. apply (MinHeap.o_pair _ _ _ (MinHeap.k_ord _ _ _ HK) q i pe e Hc); [lia|lia|lia|done|done]. }
  rewrite Hle, (bind_ok _ _ _ _ _ (assert_true b)).
  assert (El : heap (MinHeap.load e) b = Ok (h, b)).
  { rewrite (heap_run _ b h (th b)); [by rewrite set_th_same|]. unfold MinHeap.load. by rewrite Eh. }
  rewrite (bind_ok _ _ _ _ _ El), Ih, Z.eqb_refl, (bind_ok _ _ _ _ _ (assert_true b)).
  replace (Z.of_nat i + 1) with (Z.of_nat (i + 1)) by lia. apply IH; lia.
Qed.

(** C23: the checks the library has for its own data (event_base_assert_ok
    and evmap_check_integrity) pass on every base with the invariant whose
    added events are initialised and have a descriptor that is not negative
    and which has no signal events ([checkable]): no assertion fails, and
    nothing changes but the two mark bits in the flags of the events on
    eventqueue. *)
Theorem assert_ok_passes K b :
  base_ok K b -> checkable b ->
  event_base_assert_ok b = Ok (tt, set_evs (after_check <$> evs b) b) /\ forall v, marked_only v (after_check v).
Proof.
  intros H C. split; [|exact checked_only]. pose proof (integrity_run K b H C) as E. set (m' := after_check <$> evs b) in *. unfold event_base_assert_ok.
  rewrite (bind_ok _ _ _ _ _ E), (bind_ok _ _ _ _ _ (heap_run (gets MinHeap.min_heap_size) (set_evs m' b) _ _ eq_refl)), set_th_same.
  pose proof (MinHeap.t_ok _ _ _ (b_heap _ _ _ H)) as HK. pose proof (MinHeap.s_n _ _ _ (MinHeap.k_slots _ _ _ HK)) as Hn.
  assert (Hs : forall e, on (evs b) EVLIST_TIMEOUT e -> exists v, m' !! e = Some v /\ has (ev_flags v) EV_TIMEOUT = true).
  { intros e (v & Hv & Hf). exists (after_check v). subst m'. rewrite lookup_fmap, Hv. split; [done|]. by rewrite (mo_flags _ _ (checked_only v)). }
  unfold MinHeap.min_heap_size. change (th (set_evs m' b)) with (th b). rewrite s32_id by lia.
  assert (Eh : check_heap (Z.to_nat (MinHeap.n (MinHeap.hp (th b))) - 1) 1 (set_evs m' b) = Ok (tt, set_evs m' b)).
  { destruct (decide (Z.to_nat (MinHeap.n (MinHeap.hp (th b))) <= 1)%nat) as [Hz|Hz].
    - by replace (Z.to_nat (MinHeap.n (MinHeap.hp (th b))) - 1)%nat with 0%nat by lia.
    - apply (check_heap_run K _ (set_evs m' b) HK Hs _ 1); [lia|]. unfold MinHeap.size. cbn. lia. }
  rewrite (bind_ok _ _ _ _ _ Eh), (bind_ok _ _ _ _ _ (gets_run qs _)). cbn [qs set_evs].
  by rewrite (q_commons _ _ (b_queues _ _ _ H)).
Qed.
End Check.
End EvCheck.
