(* ===== verification/EvServe.v ===== *)
(** * Running the callbacks of active events

    The server's events are persistent and have no timeout of their own. For
    callbacks that leave the base alone, the loop over the active events calls
    each of them once, in the order in which they became active, those of the
    most urgent priority only. [note] is what a callback does to the world
    behind the backend; it shows the calls and their order. *)

From stdpp Require Import prelude gmap.
From S2P Require Import Prelude MinHeap EvBase EvOps EvLoop EvInv EvRun EvFacts.
Open Scope Z_scope.

Module EvServe.
Import EvBase EvOps EvLoop EvInv EvRun EvFacts.

(** A persistent event without a timeout. *)
Definition persistent (v : event) : Prop :=
  has (ev_events v) EV_PERSIST = true /\ ev_closure v = EV_CLOSURE_PERSIST /\ ev_io_timeout v = (0, 0).

Definition internal (m : gmap loc event) (e : loc) : bool :=
  match m !! e with Some v => has (ev_flags v) EVLIST_INTERNAL | None => false end.

Section Serve.
Context {B : Type} `{!LoopEnv B} `{!BackendOk (evsel (B := B))}.
Context (note : Z -> Z -> Z -> Z -> B -> B).

(** The callbacks only leave a note. *)
Record quiet : Prop := {
  qu_call : forall cb fd r a b, call cb fd r a b = Ok (tt, set_evbase (note cb fd r a (evbase b)) b);
  qu_inv : forall cb fd r a x, b_inv x -> b_inv (note cb fd r a x);
  qu_watch : forall cb fd r a x k, watched (note cb fd r a x) k = watched x k
}.
Context (Hq : quiet).
Implicit Types b : base B.

(** The note of the callback of [e]. *)
Definition noted (m : gmap loc event) (x : B) (e : loc) : B :=
  match m !! e with Some v => note (ev_callback v) (ev_fd v) (ev_res v) (ev_arg v) x | None => x end.

Lemma base_inv_note I K b cb fd r a : base_inv I K b -> base_inv I K (set_evbase (note cb fd r a (evbase b)) b).
Proof.
  intros [H1 H2 H3 H4 H5 H6]. split; try done; [|by apply (qu_inv Hq)].
  eapply io_ok_watch; [|exact H4]. intros k _. apply (qu_watch Hq).
Qed.

Lemma base_inv_current I K b e n : base_inv I K b -> base_inv I K (set_ctrl (put_current e n (ctrl b)) b).
Proof. intros [H1 H2 H3 H4 H5 H6]. by split. Qed.

(** The flags of the loop that a quiet callback leaves alone. *)
Definition same_flags (c c' : control) : Prop :=
  event_break c' = event_break c /\ event_continue c' = event_continue c /\ event_gotterm c' = event_gotterm c.

(** What running quiet callbacks leaves alone. *)
Record undisturbed (b b' : base B) : Prop := {
  un_flags : same_flags (ctrl b) (ctrl b');
  un_len : length (activequeues (qs b')) = length (activequeues (qs b));
  un_th : th b' = th b;
  un_clk : clk b' = clk b
}.

Lemma run_event_run I K b p e l v :
  base_inv I K b -> activequeues (qs b) !! p = Some (e :: l) -> evs b !! e = Some v -> persistent v ->
  exists b', run_event e b = Ok (negb (has (ev_flags v) EVLIST_INTERNAL), b') /\ base_inv I K b' /\
    activequeues (qs b') !! p = Some l /\ evs b' = <[e := unmarked EVLIST_ACTIVE v]> (evs b) /\
    evbase b' = noted (evs b) (evbase b) e /\ undisturbed b b'.
Proof.
  intros H Hp Hv (P1 & P2 & P3). pose proof (b_queues _ _ _ H) as HQ.
  destruct (proj1 (q_act _ _ HQ p (e :: l) e Hp) ltac:(set_solver)) as (v' & Hv' & Ha & Epri). rewrite Hv in Hv'. injection Hv' as <-.
  unfold run_event. rewrite (bind_ok _ _ _ _ _ (rd_event_run b e v Hv)), P1.
  destruct (remove_active_run b e v HQ Hv Ha) as (b1 & E1 & HQ1 & HF & Et & Hact). rewrite (bind_ok _ _ _ _ _ E1).
  pose proof HF as [F1 F2 F3 F4 F5]. set (v1 := unmarked EVLIST_ACTIVE v) in *.
  assert (Hv1 : evs b1 !! e = Some v1) by (rewrite F1; apply lookup_insert_eq). rewrite (bind_ok _ _ _ _ _ (rd_event_run b1 e v1 Hv1)). cbn zeta.
  assert (H1 : base_inv I K b1).
  { eapply (base_inv_flag I K b b1 e v); try done. unfold v1. rewrite has_unmarked by apply queue_bits. apply andb_true_r. }
  set (b2 := set_ctrl (put_current (Some e) 0 (ctrl b1)) b1). rewrite (bind_ok _ _ _ _ _ (eq_refl : cset (put_current (Some e) 0) b1 = Ok (tt, b2))).
  change (ev_closure v1) with (ev_closure v). rewrite P2. change (Z.eqb EV_CLOSURE_PERSIST EV_CLOSURE_SIGNAL) with false.
  change (Z.eqb EV_CLOSURE_PERSIST EV_CLOSURE_PERSIST) with true. cbn match. unfold event_persist_closure at 1.
  set (b3 := set_evbase (note (ev_callback v) (ev_fd v) (ev_res v) (ev_arg v) (evbase b2)) b2).
  assert (Ec : (let! v := rd e in
     when (negb (Z.eqb (fst (ev_io_timeout v)) 0) || negb (Z.eqb (snd (ev_io_timeout v)) 0))
       (let! t := timeout_of e in
        if negb (is_same_common_timeout t (ev_io_timeout v)) then fail AssertFailed
        else let! now := now_ in let! q := gets qs in
             let! _ := event_add_internal e (Some (run_at v t now q)) true in ret tt) ;;
     let! v := rd e in call_event v) b2 = Ok (tt, b3)).
  { rewrite (bind_ok _ _ _ _ _ (rd_event_run b2 e v1 Hv1)). change (ev_io_timeout v1) with (ev_io_timeout v). rewrite P3.
    change (negb (Z.eqb (fst (0, 0)) 0) || negb (Z.eqb (snd (0, 0)) 0)) with false.
    rewrite (bind_ok _ _ _ _ _ (eq_refl : when false _ b2 = Ok (tt, b2))), (bind_ok _ _ _ _ _ (rd_event_run b2 e v1 Hv1)). apply (qu_call Hq). }
  rewrite (bind_ok _ _ _ _ _ Ec). eexists. split; [|split; [|split; [|split; [|split]]]].
  - assert (Ei : has (ev_flags v1) EVLIST_INTERNAL = has (ev_flags v) EVLIST_INTERNAL) by (apply has_ldiff; done).
    rewrite Ei. reflexivity.
  - apply base_inv_current. apply base_inv_note. apply base_inv_current. exact H1.
  - cbn. assert (Hpp : Z.to_nat (ev_pri v) = p) by lia. rewrite Hpp in Hact. rewrite (Hact _ Hp), list_lookup_insert_eq by (by apply lookup_lt_Some in Hp).
    pose proof (q_act_nd _ _ HQ p _ Hp) as [Hn _]%NoDup_cons. rewrite filter_cons, decide_False by tauto. by rewrite filter_notin.
  - exact F1.
  - unfold noted. rewrite Hv. cbn. by rewrite F5.
  - split; [split_and!; cbn; by rewrite F3| |done|done]. cbn. destruct (active_list b e v HQ Hv) as [k Hk]. rewrite (Hact k Hk). apply length_insert.
Qed.

(** The number of events that are not the library's own. *)
Definition outside (m : gmap loc event) (l : list loc) : Z := Z.of_nat (length (filter (fun e => internal m e = false) l)).

(** The events [l] are no longer active. *)
Definition calmed (m : gmap loc event) (l : list loc) (e : loc) : option event :=
  if decide (e ∈ l) then unmarked EVLIST_ACTIVE <$> m !! e else m !! e.

Lemma noted_ext m m' l x : (forall e, e ∈ l -> m !! e = m' !! e) -> foldl (noted m) x l = foldl (noted m') x l.
Proof.
  revert x. induction l as [|e l IH]; intros x He; [done|]. cbn. unfold noted at 2 4. rewrite (He e) by set_solver.
  apply IH. intros y Hy. apply He. set_solver.
Qed.

Lemma outside_ext m m' l : (forall e, e ∈ l -> m !! e = m' !! e) -> outside m l = outside m' l.
Proof.
  intros He. unfold outside. do 2 f_equal. induction l as [|e l IH]; [done|]. rewrite !filter_cons.
  assert (E : internal m e = internal m' e) by (unfold internal; by rewrite (He e) by set_solver). rewrite E.
  rewrite IH; [done|]. intros y Hy. apply He. set_solver.
Qed.

Lemma single_queue_run I K p l : forall fuel count b,
  base_inv I K b -> activequeues (qs b) !! p = Some l -> (length l < fuel)%nat ->
  (forall e v, e ∈ l -> evs b !! e = Some v -> persistent v) -> event_break (ctrl b) = false -> event_continue (ctrl b) = false ->
  exists b', event_process_active_single_queue fuel p count b = Ok (count + outside (evs b) l, b') /\ base_inv I K b' /\
    activequeues (qs b') !! p = Some [] /\ evbase b' = foldl (noted (evs b)) (evbase b) l /\
    (forall e, evs b' !! e = calmed (evs b) l e) /\ undisturbed b b'.
Proof.
  induction l as [|e l IH]; intros [|fuel] count b H Hp Hf Hpers Hb Hc; cbn in Hf; try lia; cbn [event_process_active_single_queue];
    rewrite (bind_ok _ _ _ _ _ (gets_run qs b)), Hp.
  { exists b. split; [unfold ret; do 2 f_equal; unfold outside; cbn; lia|]. by split_and!. }
  pose proof (b_queues _ _ _ H) as HQ. pose proof (q_act_nd _ _ HQ p _ Hp) as [He Hnd]%NoDup_cons.
  destruct (proj1 (q_act _ _ HQ p (e :: l) e Hp) ltac:(set_solver)) as (v & Hv & Ha & Epri).
  destruct (run_event_run I K b p e l v H Hp Hv) as (b1 & E1 & H1 & Hp1 & V1 & X1 & [(C1 & C2 & C3) C4 C5 C6]); [apply (Hpers e v); [set_solver|done]|].
  rewrite (bind_ok _ _ _ _ _ E1). cbn zeta. rewrite (bind_ok _ _ _ _ _ (gets_run ctrl b1)), C1, Hb, C2, Hc.
  assert (Hsame : forall y, y ∈ l -> evs b1 !! y = evs b !! y).
  { intros y Hy. rewrite V1, lookup_insert_ne; [done|]. by intros ->. }
  destruct (IH fuel (if negb (has (ev_flags v) EVLIST_INTERNAL) then count + 1 else count) b1 H1 Hp1) as (b' & E & H' & Hp' & X' & V' & [(D1 & D2 & D3) D4 D5 D6]);
    [lia| |congruence|congruence|].
  { intros y w Hy. rewrite (Hsame y Hy). apply Hpers. set_solver. }
  exists b'. split_and!; [| |done| | |].
  - rewrite E. do 2 f_equal. rewrite (outside_ext (evs b1) (evs b) l Hsame). unfold outside. rewrite filter_cons.
    assert (Ei : internal (evs b) e = has (ev_flags v) EVLIST_INTERNAL) by (unfold internal; by rewrite Hv). rewrite Ei.
    destruct (has (ev_flags v) EVLIST_INTERNAL); [by rewrite decide_False|]. rewrite decide_True by done. cbn [length negb]. lia.
  - done.
  - rewrite X', X1. cbn. apply noted_ext. done.
  - intros y. rewrite V'. unfold calmed. destruct (decide (y = e)) as [->|Hne].
    + rewrite decide_False, decide_True by (done || set_solver). by rewrite V1, lookup_insert_eq, Hv.
    + rewrite V1, lookup_insert_ne by done. destruct (decide (y ∈ l)); [by rewrite decide_True by set_solver|by rewrite decide_False by set_solver].
  - split; [split_and!|..]; congruence.
Qed.

(** Queues without active events are passed over. *)
Lemma skip_queues fuel b q : forall k p,
  (forall j, (p <= j < q)%nat -> activequeues (qs b) !! j = Some []) -> (p <= q)%nat ->
  process_queues fuel (q - p + k) p 0 b = process_queues fuel k q 0 b.
Proof.
  intros k p. remember (q - p)%nat as d eqn:Ed. revert p Ed. induction d as [|d IH]; intros p Ed Hj Hle.
  { assert (p = q) as -> by lia. done. }
  change (S d + k)%nat with (S (d + k)). cbn [process_queues]. rewrite (bind_ok _ _ _ _ _ (gets_run qs b)), (Hj p) by lia.
  apply IH; [lia|intros j ?; apply Hj; lia|lia].
Qed.

Lemma calmed_on K m m' l x : (forall e, m' !! e = calmed m l e) -> K <> EVLIST_ACTIVE -> is_queue K -> on m K x <-> on m' K x.
Proof.
  intros Hm Hne Hk. unfold on. rewrite Hm. unfold calmed. destruct (decide (x ∈ l)) as [Hx|]; [|done].
  destruct (m !! x) as [v|]; cbn; [|naive_solver].
  assert (E : has (ev_flags (unmarked EVLIST_ACTIVE v)) K = has (ev_flags v) K).
  { rewrite has_unmarked by (done || apply queue_bits). rewrite (proj2 (Z.eqb_neq _ _)) by done. apply andb_true_r. }
  split; intros (w & [= <-] & Hw); eexists; (split; [done|]); congruence.
Qed.

Lemma process_active_run K b q l fuel :
  base_ok K b -> (forall j, (j < q)%nat -> activequeues (qs b) !! j = Some []) -> activequeues (qs b) !! q = Some l -> (length l < fuel)%nat ->
  (forall e v, e ∈ l -> evs b !! e = Some v -> persistent v) -> 0 < outside (evs b) l ->
  event_break (ctrl b) = false -> event_continue (ctrl b) = false ->
  exists b', event_process_active fuel b = Ok (outside (evs b) l, b') /\ base_ok K b' /\
    evbase b' = foldl (noted (evs b)) (evbase b) l /\ (forall e, evs b' !! e = calmed (evs b) l e) /\
    undisturbed b b' /\ event_running_priority (ctrl b') = -1.
Proof.
  intros H Hj Hp Hf Hpers Ho Hb Hc. unfold event_process_active. rewrite (bind_ok _ _ _ _ _ (gets_run qs b)).
  pose proof (lookup_lt_Some _ _ _ Hp) as Hlen. remember (length (activequeues (qs b)) - q - 1)%nat as k eqn:Ek.
  replace (length (activequeues (qs b))) with (q - 0 + S k)%nat by lia.
  assert (Eq : exists b1, process_queues fuel (q - 0 + S k) 0 0 b = Ok (outside (evs b) l, b1) /\ base_inv (on (evs b) EVLIST_INSERTED) K b1 /\
     evbase b1 = foldl (noted (evs b)) (evbase b) l /\ (forall e, evs b1 !! e = calmed (evs b) l e) /\ undisturbed b b1).
  { rewrite (skip_queues fuel b q (S k) 0) by (lia || intros; apply Hj; lia). cbn [process_queues].
    rewrite (bind_ok _ _ _ _ _ (gets_run qs b)), Hp. destruct l as [|e0 l]; [done|].
    set (b0 := set_ctrl (put_priority (Z.of_nat q) (ctrl b)) b). rewrite (bind_ok _ _ _ _ _ (eq_refl : cset (put_priority (Z.of_nat q)) b = Ok (tt, b0))).
    assert (H0 : base_inv (on (evs b) EVLIST_INSERTED) K b0) by (destruct H; by split).
    destruct (single_queue_run _ K q (e0 :: l) fuel 0 b0 H0 Hp Hf Hpers Hb Hc) as (b1 & E1 & H1 & _ & X1 & V1 & [U1 U2 U3 U4]).
    rewrite (bind_ok _ _ _ _ _ E1). change (evs b0) with (evs b). rewrite Z.add_0_l. rewrite (proj2 (Z.ltb_ge _ _)), (proj2 (Z.ltb_lt _ _)) by lia.
    exists b1. by split_and!. }
  destruct Eq as (b1 & E1 & H1 & X1 & V1 & [U1 U2 U3 U4]). rewrite (bind_ok _ _ _ _ _ E1). eexists. split; [reflexivity|].
  split_and!; [|done|done|by split|done].
  apply (base_inv_ext (on (evs b) EVLIST_INSERTED)); [|destruct H1; by split].
  intros x. by apply (calmed_on _ _ _ l); [|..|apply queue_bits].
Qed.
End Serve.
End EvServe.
