(* ===== verification/Epoll.v ===== *)
(** * The epoll backend (src/libevent/epoll.c and the changelists of evmap.c)

    The kernel's side is the set of watched descriptors with their masks. Of
    the errors of epoll_ctl, EEXIST and ENOENT follow from that set, and EBADF
    and EPERM do not occur for a descriptor that is in it (descriptors stay
    open while they are watched); all others, and those for descriptors that
    are not in it, come from a list of answers. epoll_wait answers from a list
    too; without an answer it waits for ever.

    Two tables of functions use this file: [epollops] tells the kernel about
    every change at once, [epollops_changelist] collects the changes and tells
    the kernel before it waits. Both keep the promise [BackendOk]. *)

From stdpp Require Import prelude gmap.
From S2P Require Import Prelude MinHeap EvBase EvOps EvLoop EvSig EvInv.
Open Scope Z_scope.

Module Epoll.
Import EvBase EvOps.
Import EvSig (signals, HasSig).

Definition EPOLLIN : Z := 0x001.
Definition EPOLLOUT : Z := 0x004.
Definition EPOLLERR : Z := 0x008.
Definition EPOLLHUP : Z := 0x010.
Definition EPOLLET : Z := 0x80000000.
Definition EPOLL_CTL_ADD : Z := 1.
Definition EPOLL_CTL_DEL : Z := 2.
Definition EPOLL_CTL_MOD : Z := 3.
Definition EPERM : Z := 1.
Definition ENOENT : Z := 2.
Definition EINTR : Z := 4.
Definition EBADF : Z := 9.
Definition EEXIST : Z := 17.

Definition EV_CHANGE_ADD : Z := 0x01.
Definition EV_CHANGE_DEL : Z := 0x02.

Record event_change := mkCh { ch_fd : Z; ch_old : Z; read_change : Z; write_change : Z }.

(** struct epollop, the changelist of the base with the index (plus one) of the
    change of each descriptor, the kernel's set, and the answers to come:
    epoll_ctl, epoll_wait (an error, or descriptors with their events), and
    mm_realloc for the changelist. [waited] is the last time-out given; [sg] is
    what signal.c keeps. *)
Record epollop := mkEp {
  nevents : Z; changes : list event_change; changes_size : Z; idxplus1 : gmap Z Z; kern : gmap Z Z;
  ctls : list Z; waits : list (Z + list (Z * Z)); ch_mem : list bool; waited : option Z; sg : signals }.

Abbreviation U := (M epollop).

Definition set_kern (k : gmap Z Z) (x : epollop) : epollop :=
  mkEp (nevents x) (changes x) (changes_size x) (idxplus1 x) k (ctls x) (waits x) (ch_mem x) (waited x) (sg x).
Definition set_ctls (l : list Z) (x : epollop) : epollop :=
  mkEp (nevents x) (changes x) (changes_size x) (idxplus1 x) (kern x) l (waits x) (ch_mem x) (waited x) (sg x).
Definition set_changes (l : list event_change) (m : gmap Z Z) (x : epollop) : epollop :=
  mkEp (nevents x) l (changes_size x) m (kern x) (ctls x) (waits x) (ch_mem x) (waited x) (sg x).
Definition set_room (n : Z) (l : list bool) (x : epollop) : epollop :=
  mkEp (nevents x) (changes x) n (idxplus1 x) (kern x) (ctls x) (waits x) l (waited x) (sg x).
Definition set_waits (w : list (Z + list (Z * Z))) (t : Z) (x : epollop) : epollop :=
  mkEp (nevents x) (changes x) (changes_size x) (idxplus1 x) (kern x) (ctls x) w (ch_mem x) (Some t) (sg x).
Definition set_nevents (n : Z) (x : epollop) : epollop :=
  mkEp n (changes x) (changes_size x) (idxplus1 x) (kern x) (ctls x) (waits x) (ch_mem x) (waited x) (sg x).

#[export] Instance epoll_sig : HasSig epollop :=
  { get_sig := sg;
    put_sig := fun s x => mkEp (nevents x) (changes x) (changes_size x) (idxplus1 x) (kern x) (ctls x) (waits x) (ch_mem x) (waited x) s }.

(** ** The kernel *)

(** What the set alone says: the error (0: none) and the set afterwards. *)
Definition ctl_kern (op fd mask : Z) (k : gmap Z Z) : Z * gmap Z Z :=
  let there := bool_decide (is_Some (k !! fd)) in
  if Z.eqb op EPOLL_CTL_ADD then (if there then (EEXIST, k) else (0, <[fd := mask]> k))
  else if Z.eqb op EPOLL_CTL_MOD then (if there then (0, <[fd := mask]> k) else (ENOENT, k))
  else (if there then (0, delete fd k) else (ENOENT, k)).

(** Can the answer [a] be given for [fd]? *)
Definition ctl_answer (a fd : Z) (k : gmap Z Z) : bool :=
  negb (Z.eqb a 0) && negb (Z.eqb a EEXIST) && negb (Z.eqb a ENOENT) &&
  negb ((Z.eqb a EBADF || Z.eqb a EPERM) && bool_decide (is_Some (k !! fd))).

(** The result is errno, 0 for success. *)
Definition epoll_ctl (op fd mask : Z) : U Z := fun x =>
  let a := match ctls x with a :: _ => a | [] => 0 end in
  let x' := set_ctls (tail (ctls x)) x in
  if ctl_answer a fd (kern x) then Ok (a, x')
  else let '(err, k) := ctl_kern op fd mask (kern x) in Ok (err, set_kern k x').

(** ** Telling the kernel *)

(** The operation and the mask for a change; mask 0: nothing to do. *)
Definition change_op (ch : event_change) : Z * Z :=
  if has (read_change ch) EV_CHANGE_ADD || has (write_change ch) EV_CHANGE_ADD then
    let r := if has (read_change ch) EV_CHANGE_ADD then EPOLLIN
             else if has (read_change ch) EV_CHANGE_DEL then 0
             else if has (ch_old ch) EV_READ then EPOLLIN else 0 in
    let w := if has (write_change ch) EV_CHANGE_ADD then EPOLLOUT
             else if has (write_change ch) EV_CHANGE_DEL then 0
             else if has (ch_old ch) EV_WRITE then EPOLLOUT else 0 in
    let et := if has (Z.lor (read_change ch) (write_change ch)) EV_ET then EPOLLET else 0 in
    (if Z.eqb (ch_old ch) 0 then EPOLL_CTL_ADD else EPOLL_CTL_MOD, Z.lor (Z.lor r w) et)
  else if has (read_change ch) EV_CHANGE_DEL then
    if has (write_change ch) EV_CHANGE_DEL then (EPOLL_CTL_DEL, Z.lor EPOLLIN EPOLLOUT)
    else if has (ch_old ch) EV_WRITE then (EPOLL_CTL_MOD, EPOLLOUT)
    else (EPOLL_CTL_DEL, EPOLLIN)
  else if has (write_change ch) EV_CHANGE_DEL then
    if has (ch_old ch) EV_READ then (EPOLL_CTL_MOD, EPOLLIN) else (EPOLL_CTL_DEL, EPOLLOUT)
  else (EPOLL_CTL_DEL, 0).

Definition epoll_apply_one_change (ch : event_change) : U Z :=
  let '(op, events) := change_op ch in
  if Z.eqb events 0 then ret 0
  else
    let! err := epoll_ctl op (ch_fd ch) events in
    if Z.eqb err 0 then ret 0
    else if Z.eqb op EPOLL_CTL_MOD && Z.eqb err ENOENT then
      let! err := epoll_ctl EPOLL_CTL_ADD (ch_fd ch) events in ret (if Z.eqb err 0 then 0 else -1)
    else if Z.eqb op EPOLL_CTL_ADD && Z.eqb err EEXIST then
      let! err := epoll_ctl EPOLL_CTL_MOD (ch_fd ch) events in ret (if Z.eqb err 0 then 0 else -1)
    else if Z.eqb op EPOLL_CTL_DEL && (Z.eqb err ENOENT || Z.eqb err EBADF || Z.eqb err EPERM) then ret 0
    else ret (-1).

Definition epoll_nochangelist_add (fd old events : Z) : U Z :=
  epoll_apply_one_change (mkCh fd old
    (if has events EV_READ then Z.lor EV_CHANGE_ADD (Z.land events EV_ET) else 0)
    (if has events EV_WRITE then Z.lor EV_CHANGE_ADD (Z.land events EV_ET) else 0)).

Definition epoll_nochangelist_del (fd old events : Z) : U Z :=
  epoll_apply_one_change (mkCh fd old
    (if has events EV_READ then EV_CHANGE_DEL else 0) (if has events EV_WRITE then EV_CHANGE_DEL else 0)).

Definition epollops : eventop epollop := mkOp epoll_nochangelist_add epoll_nochangelist_del.

(** ** Changelists *)

Definition event_changelist_grow : U Z := fun x =>
  let n := if Z.ltb (changes_size x) 64 then 64 else s32 (changes_size x * 2) in
  match ch_mem x with
  | true :: l => Ok (0, set_room n l x)
  | l => Ok (-1, set_room (changes_size x) (tail l) x)
  end.

(** The index of the change for [fd], made if there is none. *)
Definition event_changelist_get_or_construct (fd old : Z) : U (option nat) := fun x =>
  let i := default 0 (idxplus1 x !! fd) in
  if Z.eqb i 0 then
    let n := Z.of_nat (length (changes x)) in
    if Z.ltb (changes_size x) n then Fault AssertFailed
    else
      (let! r := (if Z.eqb n (changes_size x) then event_changelist_grow else ret 0) in
       if Z.ltb r 0 then ret None
       else
         modify (fun x => set_changes (changes x ++ [mkCh fd old 0 0]) (<[fd := n + 1]> (idxplus1 x)) x) ;;
         ret (Some (length (changes x)))) x
  else
    match changes x !! Z.to_nat (i - 1) with
    | None => Fault Overread
    | Some ch => if Z.eqb (ch_fd ch) fd then Ok (Some (Z.to_nat (i - 1)), x) else Fault AssertFailed
    end.

Definition set_change (i : nat) (f : event_change -> event_change) : U unit := fun x =>
  match changes x !! i with
  | None => Fault Overrun
  | Some ch => Ok (tt, set_changes (<[i := f ch]> (changes x)) (idxplus1 x) x)
  end.

Definition added_change (events : Z) (ch : event_change) : event_change :=
  let c := Z.lor EV_CHANGE_ADD (Z.land events (Z.lor (Z.lor EV_ET EV_PERSIST) EV_SIGNAL)) in
  mkCh (ch_fd ch) (ch_old ch)
    (if has events (Z.lor EV_READ EV_SIGNAL) then c else read_change ch)
    (if has events EV_WRITE then c else write_change ch).

Definition event_changelist_add (fd old events : Z) : U Z :=
  let! i := event_changelist_get_or_construct fd old in
  match i with
  | None => ret (-1)
  | Some i => set_change i (added_change events) ;; ret 0
  end.

Definition deleted_change (events : Z) (ch : event_change) : event_change :=
  mkCh (ch_fd ch) (ch_old ch)
    (if has events (Z.lor EV_READ EV_SIGNAL) then
       (if negb (has (ch_old ch) (Z.lor EV_READ EV_SIGNAL)) && has (read_change ch) EV_CHANGE_ADD then 0 else EV_CHANGE_DEL)
     else read_change ch)
    (if has events EV_WRITE then
       (if negb (has (ch_old ch) EV_WRITE) && has (write_change ch) EV_CHANGE_ADD then 0 else EV_CHANGE_DEL)
     else write_change ch).

Definition event_changelist_del (fd old events : Z) : U Z :=
  let! i := event_changelist_get_or_construct fd old in
  match i with
  | None => ret (-1)
  | Some i => set_change i (deleted_change events) ;; ret 0
  end.

Definition epollops_changelist : eventop epollop := mkOp event_changelist_add event_changelist_del.

Fixpoint apply_each (l : list event_change) (r : Z) : U Z :=
  match l with
  | [] => ret r
  | ch :: l' => let! x := epoll_apply_one_change ch in apply_each l' (if Z.ltb x 0 then -1 else r)
  end.

Definition epoll_apply_changes : U Z := let! x := get in apply_each (changes x) 0.

(** Every change is known under its own index. *)
Fixpoint clear_idx (l : list event_change) (i : Z) : U unit :=
  match l with
  | [] => ret tt
  | ch :: l' =>
      let! x := get in
      if Z.eqb (default 0 (idxplus1 x !! ch_fd ch)) (i + 1)
      then modify (fun x => set_changes (changes x) (<[ch_fd ch := 0]> (idxplus1 x)) x) ;; clear_idx l' (i + 1)
      else fail AssertFailed
  end.

Definition event_changelist_remove_all : U unit :=
  let! x := get in
  clear_idx (changes x) 0 ;;
  modify (fun x => set_changes [] (idxplus1 x) x).

(** ** Waiting *)

Definition MAX_NEVENT : Z := 4096.
Definition MAX_EPOLL_TIMEOUT_MSEC : Z := 35 * 60 * 1000.
Definition MAX_SECONDS_IN_MSEC_LONG : Z := (9223372036854775807 - 999) / 1000.

Definition evutil_tv_to_msec (tv : timeval) : Z :=
  if Z.ltb 1000000 (snd tv) || Z.ltb MAX_SECONDS_IN_MSEC_LONG (fst tv) then -1
  else fst tv * 1000 + Z.quot (snd tv + 999) 1000.

(** The time-out for epoll_wait; -1 is for ever. *)
Definition wait_msec (tv : option timeval) : Z :=
  match tv with
  | None => -1
  | Some tv =>
      let t := evutil_tv_to_msec tv in
      if Z.ltb t 0 || Z.ltb MAX_EPOLL_TIMEOUT_MSEC t then MAX_EPOLL_TIMEOUT_MSEC else t
  end.

Definition epoll_wait (timeout : Z) : U (Z + list (Z * Z)) := fun x =>
  match waits x with
  | [] => Fault Blocked
  | a :: w => Ok (a, set_waits w timeout x)
  end.

(** The events of libevent for a mask of epoll. *)
Definition what_events (what : Z) : Z :=
  if has what (Z.lor EPOLLHUP EPOLLERR) then Z.lor EV_READ EV_WRITE
  else Z.lor (if has what EPOLLIN then EV_READ else 0) (if has what EPOLLOUT then EV_WRITE else 0).

Section Dispatch.
Context `{!Env epollop}.

Fixpoint report (l : list (Z * Z)) : M (base epollop) unit :=
  match l with
  | [] => ret tt
  | (fd, what) :: l' =>
      when (negb (Z.eqb (what_events what) 0)) (evmap_io_active fd (Z.lor (what_events what) EV_ET)) ;;
      report l'
  end.

Definition epoll_dispatch (tv : option timeval) : M (base epollop) Z :=
  let! _ := backend epoll_apply_changes in
  backend event_changelist_remove_all ;;
  let! res := backend (epoll_wait (wait_msec tv)) in
  match res with
  | inl err => ret (if Z.eqb err EINTR then 0 else -1)
  | inr l =>
      let! x := gets evbase in
      if Z.ltb (nevents x) (Z.of_nat (length l)) then fail AssertFailed
      else
        report l ;;
        let! x := gets evbase in
        when (Z.eqb (Z.of_nat (length l)) (nevents x) && Z.ltb (nevents x) MAX_NEVENT)
          (let! ok := alloc in
           when ok (backend (modify (fun x => set_nevents (nevents x * 2) x)))) ;;
        ret 0
  end.
End Dispatch.
End Epoll.
