(* ===== verification/EpollFacts.v ===== *)
(** * Both epoll tables keep what a backend promises

    [epollops] and [epollops_changelist] are instances of [EvInv.BackendOk]:
    the events watched on a descriptor are those that were added and not
    deleted. With a changelist that includes the changes the kernel has not
    been told yet; [epoll_apply_changes] tells it exactly those. *)

From stdpp Require Import prelude gmap.
From S2P Require Import Prelude MinHeap EvBase EvOps EvInv Epoll.
Open Scope Z_scope.

Module EpollFacts.
Import EvBase EvOps EvInv Epoll.

(** ** What the kernel watches *)

Definition mask_events (m : Z) : Z := Z.lor (if has m EPOLLIN then EV_READ else 0) (if has m EPOLLOUT then EV_WRITE else 0).
Definition kernel_watch (k : gmap Z Z) (fd : Z) : Z := match k !! fd with Some m => mask_events m | None => 0 end.

(** The events a descriptor has after a change. *)
Definition wanted (ch : event_change) : Z :=
  Z.lor (if has (read_change ch) EV_CHANGE_ADD then EV_READ else if has (read_change ch) EV_CHANGE_DEL then 0 else Z.land (ch_old ch) EV_READ)
        (if has (write_change ch) EV_CHANGE_ADD then EV_WRITE else if has (write_change ch) EV_CHANGE_DEL then 0 else Z.land (ch_old ch) EV_WRITE).

Definition told (k : gmap Z Z) (c : list Z) (x : epollop) : epollop := set_kern k (set_ctls c x).

Lemma ctl_cases op fd mask x :
  let a := match ctls x with a :: _ => a | [] => 0 end in
  let c := tail (ctls x) in
  (ctl_answer a fd (kern x) = true /\ epoll_ctl op fd mask x = Ok (a, told (kern x) c x)) \/
  epoll_ctl op fd mask x = Ok (fst (ctl_kern op fd mask (kern x)), told (snd (ctl_kern op fd mask (kern x))) c x).
Proof.
  cbn zeta. unfold epoll_ctl. destruct (ctl_answer _ _ _) eqn:E; [left|right].
  - split; [done|]. by destruct x.
  - by destruct (ctl_kern op fd mask (kern x)).
Qed.

Lemma ctl_answer_spec a fd k : ctl_answer a fd k = true ->
  a <> 0 /\ a <> EEXIST /\ a <> ENOENT /\ (is_Some (k !! fd) -> a <> EBADF /\ a <> EPERM).
Proof.
  unfold ctl_answer. intros [[[H1 H2]%andb_true_iff H3]%andb_true_iff H4]%andb_true_iff.
  apply negb_true_iff, Z.eqb_neq in H1, H2, H3. apply negb_true_iff in H4. split_and!; [done..|].
  intros Hk. rewrite bool_decide_true, andb_true_r in H4 by done. apply orb_false_iff in H4 as [?%Z.eqb_neq ?%Z.eqb_neq]. done.
Qed.

(** epoll_ctl of a descriptor: what it can answer, by operation. *)
Lemma ctl_set op fd mask x : op = EPOLL_CTL_ADD \/ op = EPOLL_CTL_MOD ->
  exists err k c, epoll_ctl op fd mask x = Ok (err, told k c x) /\
    ((err = 0 /\ k = <[fd := mask]> (kern x)) \/ (err <> 0 /\ k = kern x)).
Proof.
  intros Hop. destruct (ctl_cases op fd mask x) as [[Ha E]|E]; rewrite E; do 3 eexists; (split; [done|]).
  - apply ctl_answer_spec in Ha as (? & _). by right.
  - unfold ctl_kern. destruct Hop as [-> | ->]; cbn; case_bool_decide; cbn; [by right|by left|by left|by right].
Qed.

Lemma ctl_del fd mask x :
  exists err k c, epoll_ctl EPOLL_CTL_DEL fd mask x = Ok (err, told k c x) /\
    ((err = 0 /\ k = delete fd (kern x)) \/
     (err <> 0 /\ k = kern x /\ ((err = ENOENT \/ err = EBADF \/ err = EPERM) -> kern x !! fd = None))).
Proof.
  destruct (ctl_cases EPOLL_CTL_DEL fd mask x) as [[Ha E]|E]; rewrite E; do 3 eexists; (split; [done|]).
  - apply ctl_answer_spec in Ha as (? & ? & ? & Hp). right. split_and!; [done..|]. intros He. apply eq_None_not_Some. naive_solver.
  - unfold ctl_kern. cbn. case_bool_decide as Hk; cbn; [by left|]. right. split_and!; [done..|]. intros _. by apply eq_None_not_Some.
Qed.

(** The three ways in which a change ends. *)
Lemma apply_set ch op mask x :
  change_op ch = (op, mask) -> op = EPOLL_CTL_ADD \/ op = EPOLL_CTL_MOD -> mask <> 0 ->
  exists r k c, epoll_apply_one_change ch x = Ok (r, told k c x) /\
    ((r = 0 /\ k = <[ch_fd ch := mask]> (kern x)) \/ (r = -1 /\ k = kern x)).
Proof.
  intros Ech Hop Hm. unfold epoll_apply_one_change. rewrite Ech. rewrite (proj2 (Z.eqb_neq mask 0) Hm).
  destruct (ctl_set op (ch_fd ch) mask x Hop) as (err & k & c & E & Hr). rewrite (bind_ok _ _ _ _ _ E).
  destruct Hr as [[-> ->]|[Hne ->]].
  { do 3 eexists. split; [reflexivity|]. by left. }
  rewrite (proj2 (Z.eqb_neq err 0) Hne).
  assert (Hretry : forall op', op' = EPOLL_CTL_ADD \/ op' = EPOLL_CTL_MOD ->
    exists r k c', (let! err := epoll_ctl op' (ch_fd ch) mask in ret (if Z.eqb err 0 then 0 else -1)) (told (kern x) c x) = Ok (r, told k c' x) /\
      ((r = 0 /\ k = <[ch_fd ch := mask]> (kern x)) \/ (r = -1 /\ k = kern x))).
  { intros op' Hop'. destruct (ctl_set op' (ch_fd ch) mask (told (kern x) c x) Hop') as (err2 & k2 & c2 & E2 & Hr2).
    rewrite (bind_ok _ _ _ _ _ E2). exists (if Z.eqb err2 0 then 0 else -1), k2, c2. split; [done|].
    destruct Hr2 as [[-> ->]|[Hne2 ->]]; [by left|]. rewrite (proj2 (Z.eqb_neq err2 0) Hne2). by right. }
  assert (Hd : Z.eqb op EPOLL_CTL_DEL = false) by (by destruct Hop as [-> | ->]).
  destruct (Z.eqb op EPOLL_CTL_MOD && Z.eqb err ENOENT); [apply Hretry; by left|].
  destruct (Z.eqb op EPOLL_CTL_ADD && Z.eqb err EEXIST); [apply Hretry; by right|]. rewrite Hd. cbn [andb].
  do 3 eexists. split; [reflexivity|]. by right.
Qed.

Lemma apply_del ch mask x :
  change_op ch = (EPOLL_CTL_DEL, mask) -> mask <> 0 ->
  exists r k c, epoll_apply_one_change ch x = Ok (r, told k c x) /\
    ((r = 0 /\ k = delete (ch_fd ch) (kern x)) \/ (r = -1 /\ k = kern x)).
Proof.
  intros Ech Hm. unfold epoll_apply_one_change. rewrite Ech, (proj2 (Z.eqb_neq mask 0) Hm).
  destruct (ctl_del (ch_fd ch) mask x) as (err & k & c & E & Hr). rewrite (bind_ok _ _ _ _ _ E).
  destruct Hr as [[-> ->]|(Hne & -> & Hn)].
  { do 3 eexists. split; [reflexivity|]. by left. }
  rewrite (proj2 (Z.eqb_neq err 0) Hne). change (Z.eqb EPOLL_CTL_DEL EPOLL_CTL_MOD) with false.
  change (Z.eqb EPOLL_CTL_DEL EPOLL_CTL_ADD) with false. change (Z.eqb EPOLL_CTL_DEL EPOLL_CTL_DEL) with true. cbn [andb].
  destruct (Z.eqb_spec err ENOENT), (Z.eqb_spec err EBADF), (Z.eqb_spec err EPERM); cbn [orb]; do 3 eexists; (split; [reflexivity|]);
    try (left; split; [done|]; symmetry; apply delete_id; apply Hn; tauto); by right.
Qed.

Definition small (z : Z) : Prop := z = 0 \/ z = EV_READ \/ z = EV_WRITE \/ z = rw.

Lemma small_lor (p q : bool) : small (Z.lor (if p then EV_READ else 0) (if q then EV_WRITE else 0)).
Proof. unfold small, rw. destruct p, q; cbn; auto. Qed.

Lemma kernel_watch_small k fd : small (kernel_watch k fd).
Proof. unfold kernel_watch. destruct (k !! fd); [apply small_lor|]. by left. Qed.

(** Setting the mask of a change gives the events it asks for; when the change
    removes the descriptor, or does nothing, it asks for no events, or for the
    old ones. *)
Lemma change_op_spec ch : small (ch_old ch) ->
  let '(op, mask) := change_op ch in
  ((op = EPOLL_CTL_ADD \/ op = EPOLL_CTL_MOD) /\ mask <> 0 /\ mask_events mask = wanted ch) \/
  (op = EPOLL_CTL_DEL /\ mask <> 0 /\ wanted ch = 0) \/ (mask = 0 /\ wanted ch = ch_old ch).
Proof.
  intros Ho. unfold change_op, wanted.
  destruct (has (read_change ch) EV_CHANGE_ADD), (has (read_change ch) EV_CHANGE_DEL), (has (write_change ch) EV_CHANGE_ADD),
    (has (write_change ch) EV_CHANGE_DEL), (has (Z.lor (read_change ch) (write_change ch)) EV_ET);
    destruct Ho as [->|[->|[->| ->]]]; cbn;
    solve [left; split_and!; [(by left) || by right|done|done] | right; left; split_and!; done | right; right; split; done].
Qed.

Lemma apply_one_run ch x :
  ch_old ch = kernel_watch (kern x) (ch_fd ch) ->
  exists r k c, epoll_apply_one_change ch x = Ok (r, told k c x) /\
    ((r = 0 /\ forall fd, kernel_watch k fd = if Z.eqb fd (ch_fd ch) then wanted ch else kernel_watch (kern x) fd) \/ (r = -1 /\ k = kern x)).
Proof.
  intros Ho. pose proof (change_op_spec ch) as Hc. rewrite Ho in Hc. specialize (Hc (kernel_watch_small _ _)).
  destruct (change_op ch) as [op mask] eqn:Ech. destruct Hc as [(Hop & Hm & Hw)|[(-> & Hm & Hw)|[-> Hw]]].
  - destruct (apply_set ch op mask x Ech Hop Hm) as (r & k & c & E & Hr). exists r, k, c. split; [done|].
    destruct Hr as [[-> ->]|[-> ->]]; [left|by right]. split; [done|]. intros fd. unfold kernel_watch.
    destruct (Z.eqb_spec fd (ch_fd ch)) as [->|Hne]; [by rewrite lookup_insert_eq|by rewrite lookup_insert_ne].
  - destruct (apply_del ch mask x Ech Hm) as (r & k & c & E & Hr). exists r, k, c. split; [done|].
    destruct Hr as [[-> ->]|[-> ->]]; [left|by right]. split; [done|]. intros fd. unfold kernel_watch.
    destruct (Z.eqb_spec fd (ch_fd ch)) as [->|Hne]; [by rewrite lookup_delete_eq|by rewrite lookup_delete_ne].
  - exists 0, (kern x), (ctls x). unfold epoll_apply_one_change. rewrite Ech. split; [by destruct x|]. left. split; [done|].
    intros fd. destruct (Z.eqb_spec fd (ch_fd ch)) as [->|]; [|done]. by rewrite Hw.
Qed.

(** ** Telling the kernel at once *)

(** Bits of a mask that is part of another. *)
Lemma small_bits z : small z -> z = Z.lor (if has z EV_READ then EV_READ else 0) (if has z EV_WRITE then EV_WRITE else 0).
Proof. by intros [->|[->|[->| ->]]]. Qed.

Lemma has_add_et (p : bool) (z : Z) : has (if p then Z.lor EV_CHANGE_ADD (Z.land z EV_ET) else 0) EV_CHANGE_ADD = p.
Proof.
  destruct p; [|done]. rewrite has_lor. done.
Qed.

Lemma has_add_et_del (p : bool) (z : Z) : has (if p then Z.lor EV_CHANGE_ADD (Z.land z EV_ET) else 0) EV_CHANGE_DEL = false.
Proof.
  destruct p; [|done]. rewrite has_lor. change (has EV_CHANGE_ADD EV_CHANGE_DEL) with false. cbn [orb]. unfold has.
  rewrite <-Z.land_assoc. change (Z.land EV_ET EV_CHANGE_DEL) with 0. by rewrite Z.land_0_r.
Qed.

Lemma land_small z : Z.land z rw = Z.lor (if has z EV_READ then EV_READ else 0) (if has z EV_WRITE then EV_WRITE else 0).
Proof.
  assert (Hb : forall k, 0 <= k -> Z.land z (2 ^ k) = if has z (2 ^ k) then 2 ^ k else 0).
  { intros k Hk. unfold has. assert (E : Z.land z (2 ^ k) = if Z.testbit z k then 2 ^ k else 0).
    { apply Z.bits_inj'. intros n Hn. rewrite Z.land_spec. destruct (Z.testbit z k) eqn:Et.
      - destruct (Z.eqb_spec n k) as [->|Hne]; [by rewrite Et|]. rewrite Z.pow2_bits_false by lia. apply andb_false_r.
      - rewrite Z.bits_0. destruct (Z.eqb_spec n k) as [->|Hne]; [by rewrite Et|]. rewrite Z.pow2_bits_false by lia. apply andb_false_r. }
    rewrite E. destruct (Z.testbit z k); [|done]. destruct (Z.eqb_spec (2 ^ k) 0) as [E0|]; [|done]. pose proof (Z.pow_pos_nonneg 2 k). lia. }
  pose proof (Hb 1 ltac:(lia)) as H1. pose proof (Hb 2 ltac:(lia)) as H2. change (2 ^ 1) with EV_READ in H1. change (2 ^ 2) with EV_WRITE in H2.
  unfold rw. by rewrite Z.land_lor_distr_r, H1, H2.
Qed.

Lemma wanted_add fd old ev : small old ->
  wanted (mkCh fd old (if has ev EV_READ then Z.lor EV_CHANGE_ADD (Z.land ev EV_ET) else 0)
                      (if has ev EV_WRITE then Z.lor EV_CHANGE_ADD (Z.land ev EV_ET) else 0)) = Z.lor old (Z.land ev rw).
Proof.
  intros Ho. unfold wanted. cbn [read_change write_change ch_old]. rewrite !has_add_et, !has_add_et_del, land_small.
  destruct (has ev EV_READ), (has ev EV_WRITE); by destruct Ho as [->|[->|[->| ->]]].
Qed.

Lemma wanted_del fd old ev : small old -> Z.land old ev = ev ->
  wanted (mkCh fd old (if has ev EV_READ then EV_CHANGE_DEL else 0) (if has ev EV_WRITE then EV_CHANGE_DEL else 0)) = Z.ldiff old ev.
Proof.
  intros Ho Hs. assert (Hev : Z.land ev rw = ev).
  { transitivity (Z.land (Z.land old ev) rw); [by rewrite Hs|]. rewrite <-Z.land_assoc, (Z.land_comm ev rw), Z.land_assoc.
    replace (Z.land old rw) with old; [done|]. by destruct Ho as [->|[->|[->| ->]]]. }
  rewrite land_small in Hev. unfold wanted. cbn [read_change write_change ch_old].
  destruct (has ev EV_READ), (has ev EV_WRITE); rewrite <-Hev; by destruct Ho as [->|[->|[->| ->]]].
Qed.

#[export, refine] Instance epollops_ok : BackendOk epollops := {
  b_inv := fun _ => True;
  watched := fun x => kernel_watch (kern x)
}.
Proof.
  - intros x fd old ev _ Hfd -> Hev _. cbn [op_add epollops]. unfold epoll_nochangelist_add.
    destruct (apply_one_run (mkCh fd (kernel_watch (kern x) fd) (if has ev EV_READ then Z.lor EV_CHANGE_ADD (Z.land ev EV_ET) else 0)
      (if has ev EV_WRITE then Z.lor EV_CHANGE_ADD (Z.land ev EV_ET) else 0)) x eq_refl) as (r & k & c & E & Hr).
    exists r, (told k c x). split_and!; [done|done|]. destruct Hr as [[-> Hw]|[-> ->]]; [left|by right]. split; [done|].
    intros n _. cbn. rewrite Hw. cbn [ch_fd]. by rewrite wanted_add by apply kernel_watch_small.
  - intros x fd old ev _ Hfd -> Hev Hs. cbn [op_del epollops]. unfold epoll_nochangelist_del.
    destruct (apply_one_run (mkCh fd (kernel_watch (kern x) fd) (if has ev EV_READ then EV_CHANGE_DEL else 0)
      (if has ev EV_WRITE then EV_CHANGE_DEL else 0)) x eq_refl) as (r & k & c & E & Hr).
    exists r, (told k c x). split_and!; [done|done|]. destruct Hr as [[-> Hw]|[-> ->]]; [left|by right]. split; [done|].
    intros n _. cbn. rewrite Hw. cbn [ch_fd]. by rewrite wanted_del by (done || apply kernel_watch_small).
Defined.

(** ** Collecting the changes *)

(** The change that is collected for a descriptor. *)
Definition pending (x : epollop) (fd : Z) : option event_change :=
  match idxplus1 x !! fd with Some n => if Z.eqb n 0 then None else changes x !! Z.to_nat (n - 1) | None => None end.

Definition effective (x : epollop) (fd : Z) : Z :=
  match pending x fd with Some ch => wanted ch | None => kernel_watch (kern x) fd end.

Record changes_ok (x : epollop) : Prop := {
  c_idx : forall i ch, changes x !! i = Some ch -> idxplus1 x !! ch_fd ch = Some (Z.of_nat i + 1);
  c_back : forall fd n, idxplus1 x !! fd = Some n -> n <> 0 ->
    0 < n /\ exists ch, changes x !! Z.to_nat (n - 1) = Some ch /\ ch_fd ch = fd;
  c_old : forall i ch, changes x !! i = Some ch -> ch_old ch = kernel_watch (kern x) (ch_fd ch);
  c_fd : forall i ch, changes x !! i = Some ch -> 0 <= ch_fd ch < 1073741824;
  c_size : Z.of_nat (length (changes x)) <= changes_size x
}.

Lemma pending_at x i ch : changes_ok x -> changes x !! i = Some ch -> pending x (ch_fd ch) = Some ch.
Proof.
  intros H Hi. unfold pending. rewrite (c_idx _ H i ch Hi). destruct (Z.eqb_spec (Z.of_nat i + 1) 0); [lia|].
  replace (Z.to_nat (Z.of_nat i + 1 - 1)) with i by lia. done.
Qed.

Lemma pending_fd x fd ch : changes_ok x -> pending x fd = Some ch -> ch_fd ch = fd /\ exists i, changes x !! i = Some ch.
Proof.
  intros H. unfold pending. destruct (idxplus1 x !! fd) as [n|] eqn:E; [|done]. destruct (Z.eqb_spec n 0) as [|Hn]; [done|].
  intros Hc. destruct (c_back _ H fd n E Hn) as (_ & ch' & Hc' & Hf). simplify_eq. split; [done|]. eauto.
Qed.

Lemma wanted_small ch : small (ch_old ch) -> small (wanted ch).
Proof.
  intros Ho. unfold wanted, small. destruct (has (read_change ch) EV_CHANGE_ADD), (has (read_change ch) EV_CHANGE_DEL),
    (has (write_change ch) EV_CHANGE_ADD), (has (write_change ch) EV_CHANGE_DEL), Ho as [E|[E|[E|E]]]; rewrite ?E; cbn; auto.
Qed.

Lemma effective_small x fd : changes_ok x -> small (effective x fd).
Proof.
  intros H. unfold effective. destruct (pending x fd) as [ch|] eqn:E; [|apply kernel_watch_small].
  destruct (pending_fd x fd ch H E) as (_ & i & Hi). apply wanted_small. rewrite (c_old _ H i ch Hi). apply kernel_watch_small.
Qed.

Lemma changes_nodup x : changes_ok x -> NoDup (ch_fd <$> changes x).
Proof.
  intros H. apply NoDup_alt. intros i j z Hi Hj. rewrite list_lookup_fmap_Some in Hi, Hj.
  destruct Hi as (c1 & Hz1 & H1), Hj as (c2 & Hz2 & H2). pose proof (c_idx _ H _ _ H1) as I1. pose proof (c_idx _ H _ _ H2) as I2.
  rewrite <-Hz1 in I1. rewrite <-Hz2 in I2. rewrite I1 in I2. injection I2 as I2. lia.
Qed.

(** There are fewer changes than descriptors. *)
Lemma changes_bound x fd : changes_ok x -> pending x fd = None -> 0 <= fd < 1073741824 -> Z.of_nat (length (changes x)) < 1073741824.
Proof.
  intros H Hp Hfd. assert (Hnd : NoDup (fd :: (ch_fd <$> changes x))).
  { apply NoDup_cons. split.
    - intros (ch & -> & [i Hi]%list_elem_of_lookup)%list_elem_of_fmap. rewrite (pending_at x i ch H Hi) in Hp. done.
    - by apply changes_nodup. }
  assert (Hin : forall z, z ∈ fd :: (ch_fd <$> changes x) -> z ∈ seqZ 0 1073741824).
  { intros z [->|(ch & -> & [i Hi]%list_elem_of_lookup)%list_elem_of_fmap]%elem_of_cons; apply elem_of_seqZ; [lia|]. pose proof (c_fd _ H i ch Hi). lia. }
  apply (NoDup_submseteq _ _ Hnd) in Hin. apply submseteq_length in Hin. rewrite length_seqZ in Hin. cbn [length] in Hin.
  rewrite length_fmap in Hin. lia.
Qed.

(** A new change, at the end of the list, that asks for nothing new. *)
Lemma changes_append x fd n m :
  changes_ok x -> pending x fd = None -> 0 <= fd < 1073741824 -> Z.of_nat (length (changes x)) < n ->
  let x' := set_changes (changes x ++ [mkCh fd (effective x fd) 0 0]) (<[fd := Z.of_nat (length (changes x)) + 1]> (idxplus1 x)) (set_room n m x) in
  changes_ok x' /\ (forall k, effective x' k = effective x k) /\ changes x' !! length (changes x) = Some (mkCh fd (effective x fd) 0 0).
Proof.
  intros H Hp Hfd Hn x'. set (ch := mkCh fd (effective x fd) 0 0).
  assert (Hl : forall i c, changes x' !! i = Some c -> (changes x !! i = Some c /\ ch_fd c <> fd) \/ (i = length (changes x) /\ c = ch)).
  { intros i c Hc. unfold x' in Hc. cbn in Hc. apply lookup_app_Some in Hc as [Hc|[Hi Hc]].
    - left. split; [done|]. intros Hf. rewrite <-Hf, (pending_at x i c H Hc) in Hp. done.
    - right. apply list_lookup_singleton_Some in Hc as [Hi' <-]. split; [lia|done]. }
  assert (Hend : changes x' !! length (changes x) = Some ch) by (unfold x'; cbn; by apply list_lookup_middle).
  assert (Ew : effective x fd = kernel_watch (kern x) fd) by (unfold effective; by rewrite Hp).
  assert (H' : changes_ok x').
  { split.
    - intros i c Hc. destruct (Hl i c Hc) as [[Hi Hf]|[-> ->]]; unfold x'; cbn; [rewrite lookup_insert_ne by done; by apply (c_idx _ H)|apply lookup_insert_eq].
    - intros k j. unfold x'. cbn. rewrite lookup_insert_Some. intros [[<- <-]|[Hne Hj]] Hj0.
      + split; [lia|]. exists ch. split; [|done]. replace (Z.to_nat (Z.of_nat (length (changes x)) + 1 - 1)) with (length (changes x)) by lia. done.
      + destruct (c_back _ H k j Hj Hj0) as (? & c & Hc & Hf). split; [done|]. exists c. split; [|done]. by apply lookup_app_l_Some.
    - intros i c Hc. destruct (Hl i c Hc) as [[Hi Hf]|[-> ->]]; [by apply (c_old _ H i)|done].
    - intros i c Hc. destruct (Hl i c Hc) as [[Hi Hf]|[-> ->]]; [by apply (c_fd _ H i)|done].
    - unfold x'. cbn. rewrite length_app. cbn. lia. }
  split_and!; [done| |done]. intros k. destruct (decide (k = fd)) as [->|Hne].
  - unfold effective at 1. pose proof (pending_at x' _ ch H' Hend) as Hq. cbn [ch ch_fd] in Hq. rewrite Hq.
    pose proof (effective_small x fd H) as Hs. unfold wanted. cbn. by destruct Hs as [E|[E|[E|E]]]; rewrite E.
  - unfold effective. assert (Eq : pending x' k = pending x k).
    { unfold pending, x'. cbn. rewrite lookup_insert_ne by done. destruct (idxplus1 x !! k) as [j|] eqn:Ej; [|done].
      destruct (Z.eqb_spec j 0) as [|Hj]; [done|]. destruct (c_back _ H k j Ej Hj) as (_ & c & Hc & _). rewrite lookup_app_l by (by apply lookup_lt_Some in Hc). done. }
    rewrite Eq. done.
Qed.

Lemma changes_room x n m : changes_ok x -> changes_size x <= n -> changes_ok (set_room n m x) /\ forall k, effective (set_room n m x) k = effective x k.
Proof. intros [H1 H2 H3 H4 H5] Hn. split; [|done]. split; try done. cbn. lia. Qed.

Lemma grow_run x : changes_size x < 1073741824 ->
  exists r n l, event_changelist_grow x = Ok (r, set_room n l x) /\ ((r = 0 /\ changes_size x < n) \/ (r = -1 /\ n = changes_size x)).
Proof.
  intros Hs. unfold event_changelist_grow. cbn zeta. set (n := if Z.ltb (changes_size x) 64 then 64 else s32 (changes_size x * 2)).
  destruct (ch_mem x) as [|[|] l]; do 3 eexists; (split; [reflexivity|]); [by right|left|by right]. split; [done|].
  unfold n. destruct (Z.ltb_spec (changes_size x) 64); [lia|]. rewrite s32_id by lia. lia.
Qed.

Lemma get_or_construct_run x fd old :
  changes_ok x -> 0 <= fd < 1073741824 -> old = effective x fd ->
  exists r x', event_changelist_get_or_construct fd old x = Ok (r, x') /\ changes_ok x' /\ (forall k, effective x' k = effective x k) /\
    (r = None \/ exists i ch, r = Some i /\ changes x' !! i = Some ch /\ ch_fd ch = fd).
Proof.
  intros H Hfd ->. unfold event_changelist_get_or_construct. cbn zeta. destruct (Z.eqb_spec (default 0 (idxplus1 x !! fd)) 0) as [E0|E0].
  - assert (Hp : pending x fd = None).
    { unfold pending. destruct (idxplus1 x !! fd) as [n|]; [|done]. cbn in E0. by subst. }
    pose proof (changes_bound x fd H Hp Hfd) as Hb. destruct (Z.ltb_spec (changes_size x) (Z.of_nat (length (changes x)))); [pose proof (c_size _ H); lia|].
    destruct (Z.eqb_spec (Z.of_nat (length (changes x))) (changes_size x)) as [Efull|Hroom].
    + destruct (grow_run x) as (r & n & l & Eg & Hg); [lia|]. rewrite (bind_ok _ _ _ _ _ Eg). destruct Hg as [[-> Hn]|[-> ->]].
      * destruct (changes_append x fd n l H Hp Hfd) as (H1 & H2 & H3); [lia|].
        do 2 eexists. split; [reflexivity|]. split_and!; [exact H1|exact H2|right]. do 2 eexists. split_and!; [done|exact H3|done].
      * destruct (changes_room x (changes_size x) l H) as [H1 H2]; [lia|].
        do 2 eexists. split; [reflexivity|]. split_and!; [exact H1|exact H2|by left].
    + destruct (changes_append x fd (changes_size x) (ch_mem x) H Hp Hfd) as (H1 & H2 & H3); [lia|].
      rewrite (bind_ok _ _ _ _ _ (eq_refl : ret 0 x = Ok (0, x))). exists (Some (length (changes x))). eexists. split; [reflexivity|].
      replace (set_room (changes_size x) (ch_mem x) x) with x in * by (by destruct x).
      split_and!; [exact H1|exact H2|right]. do 2 eexists. split_and!; [done|exact H3|done].
  - destruct (idxplus1 x !! fd) as [n|] eqn:En; [|done]. cbn in *. destruct (c_back _ H fd n En E0) as (Hn & ch & Hc & Hf).
    rewrite Hc, (proj2 (Z.eqb_eq _ _) Hf). do 2 eexists. split; [reflexivity|]. split_and!; [done|done|]. right. eauto.
Qed.

Lemma set_change_run x i ch f :
  changes_ok x -> changes x !! i = Some ch -> ch_fd (f ch) = ch_fd ch -> ch_old (f ch) = ch_old ch ->
  exists x', set_change i f x = Ok (tt, x') /\ changes_ok x' /\
    forall k, effective x' k = if Z.eqb k (ch_fd ch) then wanted (f ch) else effective x k.
Proof.
  intros H Hi Hf Ho. unfold set_change. rewrite Hi. eexists. split; [reflexivity|]. set (x' := set_changes _ _ _).
  assert (Hl : forall j c, changes x' !! j = Some c -> exists c0, changes x !! j = Some c0 /\ ch_fd c = ch_fd c0 /\ ch_old c = ch_old c0).
  { intros j c. unfold x'. cbn. rewrite list_lookup_insert_Some. intros [(<- & <- & _)|[_ Hc]]; eauto. }
  assert (Hg : forall j c, changes x !! j = Some c -> exists c', changes x' !! j = Some c' /\ ch_fd c' = ch_fd c /\ (j <> i -> c' = c)).
  { intros j c Hc. unfold x'. cbn. destruct (decide (j = i)) as [->|Hne].
    - rewrite list_lookup_insert_eq by (by apply lookup_lt_Some in Hc). eexists. split_and!; [done|congruence|done].
    - rewrite list_lookup_insert_ne by done. eauto. }
  assert (H' : changes_ok x').
  { split.
    - intros j c Hc. destruct (Hl j c Hc) as (c0 & Hc0 & -> & _). by apply (c_idx _ H).
    - intros k n Hk Hn. destruct (c_back _ H k n Hk Hn) as (? & c & Hc & Hfc). split; [done|]. destruct (Hg _ _ Hc) as (c' & ? & ? & _). exists c'. split; [done|congruence].
    - intros j c Hc. destruct (Hl j c Hc) as (c0 & Hc0 & -> & ->). by apply (c_old _ H j).
    - intros j c Hc. destruct (Hl j c Hc) as (c0 & Hc0 & -> & _). by apply (c_fd _ H j).
    - unfold x'. cbn. rewrite length_insert. apply H. }
  split; [done|]. intros k. assert (Hi' : changes x' !! i = Some (f ch)) by (unfold x'; cbn; apply list_lookup_insert_eq; by apply lookup_lt_Some in Hi).
  destruct (Z.eqb_spec k (ch_fd ch)) as [->|Hne].
  - unfold effective. rewrite <-Hf, (pending_at x' i (f ch) H' Hi'). done.
  - unfold effective. destruct (pending x k) as [c|] eqn:Ep.
    + destruct (pending_fd x k c H Ep) as (Hk & j & Hj). destruct (Hg j c Hj) as (c' & Hj' & Hfc & Hsame).
      assert (c' = c) as -> by (apply Hsame; intros ->; simplify_eq). by rewrite <-Hk, (pending_at x' j c H' Hj').
    + assert (Eq : pending x' k = None); [|by rewrite Eq]. apply eq_None_not_Some. intros [c Hc].
      destruct (pending_fd x' k c H' Hc) as (Hk & j & Hj). destruct (Hl j c Hj) as (c0 & Hj0 & Hfc & _).
      rewrite <-Hk, Hfc, (pending_at x j c0 H Hj0) in Ep. done.
Qed.

Lemma wanted_added ev ch : small (ch_old ch) -> has ev EV_SIGNAL = false ->
  wanted (added_change ev ch) = Z.lor (wanted ch) (Z.land ev rw).
Proof.
  intros Ho Hs. unfold wanted, added_change. cbn [read_change write_change ch_old]. set (c := Z.lor EV_CHANGE_ADD _).
  assert (Ea : has c EV_CHANGE_ADD = true) by (unfold c; by rewrite has_lor).
  assert (Hread : has ev (Z.lor EV_READ EV_SIGNAL) = has ev EV_READ).
  { unfold has in *. rewrite Z.land_lor_distr_r. apply negb_false_iff, Z.eqb_eq in Hs. by rewrite Hs, Z.lor_0_r. }
  rewrite Hread, land_small. destruct (has ev EV_READ), (has ev EV_WRITE); rewrite ?Ea;
  destruct (has (read_change ch) EV_CHANGE_ADD), (has (read_change ch) EV_CHANGE_DEL),
    (has (write_change ch) EV_CHANGE_ADD), (has (write_change ch) EV_CHANGE_DEL), Ho as [E|[E|[E|E]]]; rewrite ?E; done.
Qed.

Local Ltac eval_has :=
  repeat match goal with |- context [has ?a ?b] =>
    let v := eval vm_compute in (has a b) in
    match v with true => change (has a b) with true | false => change (has a b) with false end end.

Lemma wanted_deleted ev ch : small (ch_old ch) -> Z.land (wanted ch) ev = ev -> wanted (deleted_change ev ch) = Z.ldiff (wanted ch) ev.
Proof.
  intros Ho Hs. pose proof (wanted_small ch Ho) as Hw. assert (Hev : small ev).
  { assert (Hl : Z.land ev rw = ev).
    { transitivity (Z.land (Z.land (wanted ch) ev) rw); [by rewrite Hs|]. rewrite <-Z.land_assoc, (Z.land_comm ev rw), Z.land_assoc.
      replace (Z.land (wanted ch) rw) with (wanted ch); [done|]. by destruct Hw as [->|[->|[->| ->]]]. }
    rewrite <-Hl, land_small. apply small_lor. }
  revert Hs. unfold wanted, deleted_change. cbn [read_change write_change ch_old].
  destruct (has (read_change ch) EV_CHANGE_ADD) eqn:E1, (has (read_change ch) EV_CHANGE_DEL) eqn:E2,
    (has (write_change ch) EV_CHANGE_ADD) eqn:E3, (has (write_change ch) EV_CHANGE_DEL) eqn:E4;
    destruct Ho as [E|[E|[E|E]]]; rewrite ?E; destruct Hev as [->|[->|[->| ->]]];
    try (intros Hs; discriminate Hs); intros _; eval_has; cbn [negb andb]; rewrite ?E1, ?E2, ?E3, ?E4; eval_has; done.
Qed.

#[export, refine] Instance epollops_changelist_ok : BackendOk epollops_changelist := {
  b_inv := changes_ok;
  watched := effective
}.
Proof.
  - intros x fd old ev H Hfd Ho Hev Hs. cbn [op_add epollops_changelist]. unfold event_changelist_add.
    destruct (get_or_construct_run x fd old H Hfd Ho) as (r & x1 & E1 & H1 & Ef & Hr). rewrite (bind_ok _ _ _ _ _ E1).
    destruct Hr as [->|(i & ch & -> & Hi & Hf)]; [exists (-1), x1; split_and!; [done|done|right; auto]|].
    destruct (set_change_run x1 i ch (added_change ev) H1 Hi) as (x2 & E2 & H2 & Ef2); [done..|].
    rewrite (bind_ok _ _ _ _ _ E2). exists 0, x2. split_and!; [done|done|]. left. split; [done|]. intros k _. rewrite Ef2, Hf, Ef.
    destruct (Z.eqb_spec k fd) as [->|]; [|done]. rewrite wanted_added; [|rewrite (c_old _ H1 i ch Hi); apply kernel_watch_small|done].
    f_equal. rewrite Ho, <-Ef. unfold effective. by rewrite <-Hf, (pending_at x1 i ch H1 Hi).
  - intros x fd old ev H Hfd Ho Hev Hs. cbn [op_del epollops_changelist]. unfold event_changelist_del.
    destruct (get_or_construct_run x fd old H Hfd Ho) as (r & x1 & E1 & H1 & Ef & Hr). rewrite (bind_ok _ _ _ _ _ E1).
    destruct Hr as [->|(i & ch & -> & Hi & Hf)]; [exists (-1), x1; split_and!; [done|done|right; auto]|].
    destruct (set_change_run x1 i ch (deleted_change ev) H1 Hi) as (x2 & E2 & H2 & Ef2); [done..|].
    rewrite (bind_ok _ _ _ _ _ E2). exists 0, x2. split_and!; [done|done|]. left. split; [done|]. intros k _. rewrite Ef2, Hf, Ef.
    destruct (Z.eqb_spec k fd) as [->|]; [|done].
    assert (Ew : wanted ch = old) by (rewrite Ho, <-Ef; unfold effective; by rewrite <-Hf, (pending_at x1 i ch H1 Hi)).
    rewrite wanted_deleted, Ew; [done|rewrite (c_old _ H1 i ch Hi); apply kernel_watch_small|by rewrite Ew].
Defined.

(** ** Telling the kernel later *)

(** What the kernel watches when the changes [l] have been applied to it. *)
Lemma apply_each_run l : forall r x,
  NoDup (ch_fd <$> l) -> (forall ch, ch ∈ l -> ch_old ch = kernel_watch (kern x) (ch_fd ch)) -> r = 0 \/ r = -1 ->
  exists r' k c, apply_each l r x = Ok (r', told k c x) /\ (r' = 0 \/ r' = -1) /\
    (r' = 0 -> r = 0 /\ (forall ch, ch ∈ l -> kernel_watch k (ch_fd ch) = wanted ch) /\
      forall fd, fd ∉ (ch_fd <$> l) -> kernel_watch k fd = kernel_watch (kern x) fd).
Proof.
  induction l as [|ch l IH]; intros r x Hnd Hold Hr; cbn [apply_each].
  { exists r, (kern x), (ctls x). split; [by destruct x|]. split; [done|]. intros ->. split_and!; [done| |done]. by intros ? ?%not_elem_of_nil. }
  apply NoDup_cons in Hnd as [Hch Hnd]. destruct (apply_one_run ch x) as (r1 & k1 & c1 & E1 & H1); [apply Hold; set_solver|].
  rewrite (bind_ok _ _ _ _ _ E1).
  assert (Hsame : forall fd, fd <> ch_fd ch -> kernel_watch k1 fd = kernel_watch (kern x) fd).
  { intros fd Hfd. destruct H1 as [[_ H1]|[_ ->]]; [|done]. rewrite H1. by rewrite (proj2 (Z.eqb_neq _ _) Hfd). }
  destruct (IH (if Z.ltb r1 0 then -1 else r) (told k1 c1 x)) as (r2 & k2 & c2 & E2 & Hr2 & H2); [done| | |].
  - intros c Hc. cbn. rewrite Hsame; [apply Hold; set_solver|]. intros E. apply Hch. rewrite <-E. apply list_elem_of_fmap. eauto.
  - destruct H1 as [[-> _]|[-> _]]; [exact Hr|by right].
  - exists r2, k2, c2. split; [exact E2|]. split; [done|]. intros E0. destruct (H2 E0) as (Hr0 & Hw & Ho).
    destruct H1 as [[-> H1]|[-> _]]; [|done]. split_and!; [done| |].
    + intros c [->|Hc]%elem_of_cons; [|by apply Hw]. rewrite Ho by done. cbn. by rewrite H1, Z.eqb_refl.
    + intros fd [Hf Hl]%not_elem_of_cons. rewrite Ho by done. by apply Hsame.
Qed.

(** Every change is taken off the list. *)
Lemma clear_idx_run l : forall i x,
  NoDup (ch_fd <$> l) -> (forall j ch, l !! j = Some ch -> idxplus1 x !! ch_fd ch = Some (i + Z.of_nat j + 1)) ->
  exists m, clear_idx l i x = Ok (tt, set_changes (changes x) m x) /\
    forall fd, m !! fd = if decide (fd ∈ (ch_fd <$> l)) then Some 0 else idxplus1 x !! fd.
Proof.
  induction l as [|ch l IH]; intros i x Hnd Hidx; cbn [clear_idx].
  { exists (idxplus1 x). split; [by destruct x|]. intros fd. by rewrite decide_False by apply not_elem_of_nil. }
  apply NoDup_cons in Hnd as [Hch Hnd]. unfold bind at 1, get. rewrite (Hidx 0%nat ch eq_refl). cbn [default].
  replace (i + Z.of_nat 0 + 1) with (i + 1) by lia. cbn [from_option]. rewrite Z.eqb_refl.
  unfold bind at 1, modify. set (x1 := set_changes _ _ _). destruct (IH (i + 1) x1 Hnd) as (m & E & Hm).
  { intros j c Hj. unfold x1. cbn. rewrite lookup_insert_ne.
    - rewrite (Hidx (S j) c Hj). f_equal. lia.
    - intros Ef. apply Hch. rewrite Ef. apply list_elem_of_fmap. exists c. split; [done|]. by eapply list_elem_of_lookup_2. }
  exists m. split; [exact E|]. intros fd. rewrite Hm. rewrite fmap_cons. unfold x1. cbn.
  destruct (decide (fd ∈ ch_fd <$> l)) as [Hin|Hin]; [by rewrite decide_True by set_solver|].
  destruct (decide (fd = ch_fd ch)) as [->|Hne]; [rewrite lookup_insert_eq, decide_True by set_solver; done|].
  rewrite lookup_insert_ne, decide_False by (done || set_solver). done.
Qed.

Lemma flush_run x :
  changes_ok x ->
  exists r k c m x', epoll_apply_changes x = Ok (r, told k c x) /\ event_changelist_remove_all (told k c x) = Ok (tt, x') /\
    x' = set_changes [] m (told k c x) /\ changes_ok x' /\ (r = 0 \/ r = -1) /\
    (r = 0 -> forall fd, kernel_watch (kern x') fd = effective x fd).
Proof.
  intros H. pose proof (changes_nodup x H) as Hnd. unfold epoll_apply_changes, bind, get.
  destruct (apply_each_run (changes x) 0 x Hnd) as (r & k & c & E & Hr & H0); [|by left|].
  { intros ch [i Hi]%list_elem_of_lookup. by apply (c_old _ H i). }
  destruct (clear_idx_run (changes x) 0 (told k c x) Hnd) as (m & Em & Hm); [intros j ch Hj; exact (c_idx _ H j ch Hj)|].
  exists r, k, c, m. eexists. split; [done|]. split; [unfold event_changelist_remove_all, bind, get; cbn [changes told set_kern set_ctls]; by rewrite Em|].
  assert (Hnone : forall fd n, m !! fd = Some n -> n = 0).
  { intros fd n Hn. rewrite Hm in Hn. destruct (decide _) as [|Hd]; [by injection Hn as <-|]. destruct (decide (n = 0)) as [|Hn0]; [done|].
    destruct (c_back _ H fd n Hn Hn0) as (_ & ch & Hc & <-). destruct Hd. apply list_elem_of_fmap. exists ch. split; [done|]. by eapply list_elem_of_lookup_2. }
  split; [done|]. split_and!; [|done|].
  - split; cbn; try done; [|pose proof (c_size _ H); lia]. intros fd n Hn Hn0. by apply Hnone in Hn.
  - intros ->. destruct (H0 eq_refl) as (_ & Hw & Ho). intros fd. cbn. unfold effective. destruct (pending x fd) as [ch|] eqn:Ep.
    + destruct (pending_fd x fd ch H Ep) as (<- & i & Hi). apply Hw. by eapply list_elem_of_lookup_2.
    + apply Ho. intros (ch & -> & [i Hi]%list_elem_of_lookup)%list_elem_of_fmap. by rewrite (pending_at x i ch H Hi) in Ep.
Qed.

(** ** A sequence of requests *)

(** What evmap.c asks of a backend for descriptor [r_fd]. *)
Record request := mkReq { r_add : bool; r_fd : Z; r_events : Z }.

(** The events that are asked for on each descriptor. *)
Abbreviation asked := (gmap Z Z).
Definition have (h : asked) (fd : Z) : Z := default 0 (h !! fd).
Definition ask (r : request) (h : asked) : asked :=
  <[r_fd r := if r_add r then Z.lor (have h (r_fd r)) (Z.land (r_events r) rw) else Z.ldiff (have h (r_fd r)) (r_events r)]> h.

(** One request after the other, until one fails. *)
Fixpoint tell (op : eventop epollop) (rs : list request) (h : asked) : U (bool * asked) :=
  match rs with
  | [] => ret (true, h)
  | r :: rs =>
      let old := have h (r_fd r) in
      let! n := (if r_add r then op_add op (r_fd r) old (r_events r) else op_del op (r_fd r) old (r_events r)) in
      if Z.eqb n 0 then tell op rs (ask r h) else ret (false, h)
  end.

(** What evmap.c sees to: reading or writing is added, and what is deleted had
    been added. *)
Definition request_ok (r : request) (h : asked) : Prop :=
  0 <= r_fd r < 1073741824 /\
  if r_add r then Z.land (r_events r) rw <> 0 /\ has (r_events r) EV_SIGNAL = false
  else r_events r <> 0 /\ Z.land (have h (r_fd r)) (r_events r) = r_events r.
Fixpoint requests_ok (rs : list request) (h : asked) : Prop :=
  match rs with [] => True | r :: rs => request_ok r h /\ requests_ok rs (ask r h) end.

Lemma have_ask r h fd :
  have (ask r h) fd = if Z.eqb fd (r_fd r) then
    (if r_add r then Z.lor (have h (r_fd r)) (Z.land (r_events r) rw) else Z.ldiff (have h (r_fd r)) (r_events r))
  else have h fd.
Proof.
  unfold have at 1, ask. destruct (Z.eqb_spec fd (r_fd r)) as [->|Hn]; [by rewrite lookup_insert_eq|by rewrite lookup_insert_ne].
Qed.

Lemma request_run (op : eventop epollop) `{!BackendOk op} r h x :
  b_inv x -> (forall fd, 0 <= fd -> watched x fd = have h fd) -> request_ok r h ->
  exists n x', (if r_add r then op_add op (r_fd r) (have h (r_fd r)) (r_events r)
                else op_del op (r_fd r) (have h (r_fd r)) (r_events r)) x = Ok (n, x') /\ b_inv x' /\
    ((n = 0 /\ forall fd, 0 <= fd -> watched x' fd = have (ask r h) fd) \/
     (n = -1 /\ forall fd, 0 <= fd -> watched x' fd = have h fd)).
Proof.
  intros Hi Hw [Hfd Hr]. assert (Ho : have h (r_fd r) = watched x (r_fd r)) by (by rewrite Hw by lia).
  destruct (r_add r) eqn:Ea; destruct Hr as [H1 H2].
  - destruct (add_ok x (r_fd r) _ (r_events r) Hi Hfd Ho H1 H2) as (n & x' & E & Hi' & Hn). exists n, x'. split_and!; [done|done|].
    destruct Hn as [[-> Hn]|[-> Hn]]; [left|right]; (split; [done|]); intros fd Hf; rewrite Hn by done; [|by apply Hw].
    rewrite have_ask, Ea. destruct (Z.eqb_spec fd (r_fd r)) as [->|]; [done|by apply Hw].
  - destruct (del_ok x (r_fd r) _ (r_events r) Hi Hfd Ho H1 H2) as (n & x' & E & Hi' & Hn). exists n, x'. split_and!; [done|done|].
    destruct Hn as [[-> Hn]|[-> Hn]]; [left|right]; (split; [done|]); intros fd Hf; rewrite Hn by done; [|by apply Hw].
    rewrite have_ask, Ea. destruct (Z.eqb_spec fd (r_fd r)) as [->|]; [done|by apply Hw].
Qed.

(** Either table does what it is asked. *)
Lemma tell_run (op : eventop epollop) `{!BackendOk op} rs : forall h x,
  b_inv x -> (forall fd, 0 <= fd -> watched x fd = have h fd) -> requests_ok rs h ->
  exists ok h' x', tell op rs h x = Ok ((ok, h'), x') /\ b_inv x' /\ (forall fd, 0 <= fd -> watched x' fd = have h' fd) /\
    (ok = true -> h' = foldl (fun h r => ask r h) h rs).
Proof.
  induction rs as [|r rs IH]; intros h x Hi Hw Hr; cbn [tell]; [by exists true, h, x|]. destruct Hr as [H1 H2].
  destruct (request_run op r h x Hi Hw H1) as (n & x1 & E & Hi1 & Hn). cbn zeta. rewrite (bind_ok _ _ _ _ _ E).
  destruct Hn as [[-> Hw1]|[-> Hw1]]; cbn [Z.eqb].
  - destruct (IH (ask r h) x1 Hi1 Hw1 H2) as (ok & h' & x' & E' & R). by exists ok, h', x'.
  - exists false, h, x1. done.
Qed.

(** A kernel that refuses nothing carries out every change. *)
Lemma apply_one_willing ch x :
  ctls x = [] -> small (ch_old ch) -> exists k, epoll_apply_one_change ch x = Ok (0, told k [] x).
Proof.
  intros Hc Ho. pose proof (change_op_spec ch Ho) as Hop. unfold epoll_apply_one_change. destruct (change_op ch) as [op mask].
  assert (E : forall op y, ctls y = [] -> epoll_ctl op (ch_fd ch) mask y =
    Ok (fst (ctl_kern op (ch_fd ch) mask (kern y)), told (snd (ctl_kern op (ch_fd ch) mask (kern y))) [] y)).
  { intros o y Hy. unfold epoll_ctl. rewrite Hy. cbn [tail]. change (ctl_answer 0 (ch_fd ch) (kern y)) with false. cbn match.
    by destruct (ctl_kern o (ch_fd ch) mask (kern y)). }
  assert (Hnil : told (kern x) [] x = x) by (unfold told, set_kern, set_ctls; rewrite <-Hc; by destruct x).
  destruct (Z.eqb_spec mask 0) as [|Hm]; [exists (kern x); by rewrite Hnil|].
  assert (Hops : op = EPOLL_CTL_ADD \/ op = EPOLL_CTL_MOD \/ op = EPOLL_CTL_DEL) by tauto. clear Hop.
  rewrite (bind_ok _ _ _ _ _ (E op x Hc)).
  assert (Hk : ctl_kern op (ch_fd ch) mask (kern x) =
    if bool_decide (is_Some (kern x !! ch_fd ch)) then
      (if Z.eqb op EPOLL_CTL_ADD then (EEXIST, kern x) else if Z.eqb op EPOLL_CTL_MOD then (0, <[ch_fd ch := mask]> (kern x)) else (0, delete (ch_fd ch) (kern x)))
    else (if Z.eqb op EPOLL_CTL_ADD then (0, <[ch_fd ch := mask]> (kern x)) else (ENOENT, kern x))).
  { unfold ctl_kern. by destruct (bool_decide _), (Z.eqb op EPOLL_CTL_ADD), (Z.eqb op EPOLL_CTL_MOD). }
  rewrite Hk. assert (Hbs : kern (told (kern x) [] x) = kern x) by done.
  destruct (bool_decide _) eqn:Hb; destruct Hops as [->|[->| ->]]; try (by eexists).
  - change (exists k, (let! err := epoll_ctl EPOLL_CTL_MOD (ch_fd ch) mask in ret (if Z.eqb err 0 then 0 else -1)) (told (kern x) [] x) = Ok (0, told k [] x)).
    rewrite (bind_ok _ _ _ _ _ (E EPOLL_CTL_MOD (told (kern x) [] x) eq_refl)), Hbs. unfold ctl_kern. rewrite Hb. by eexists.
  - change (exists k, (let! err := epoll_ctl EPOLL_CTL_ADD (ch_fd ch) mask in ret (if Z.eqb err 0 then 0 else -1)) (told (kern x) [] x) = Ok (0, told k [] x)).
    rewrite (bind_ok _ _ _ _ _ (E EPOLL_CTL_ADD (told (kern x) [] x) eq_refl)), Hbs. unfold ctl_kern. rewrite Hb. by eexists.
Qed.

Lemma apply_each_willing l : forall r x,
  ctls x = [] -> (forall ch, ch ∈ l -> small (ch_old ch)) -> exists k, apply_each l r x = Ok (r, told k [] x).
Proof.
  induction l as [|ch l IH]; intros r x Hc Hs; cbn [apply_each].
  { exists (kern x). unfold told, set_kern, set_ctls. rewrite <-Hc. by destruct x. }
  destruct (apply_one_willing ch x Hc) as [k E]; [apply Hs; set_solver|]. rewrite (bind_ok _ _ _ _ _ E).
  destruct (IH r (told k [] x) eq_refl) as [k' E']; [intros c Hcl; apply Hs; set_solver|]. by exists k'.
Qed.

Lemma tell_willing rs : forall h x,
  ctls x = [] -> (forall fd, 0 <= fd -> kernel_watch (kern x) fd = have h fd) -> requests_ok rs h ->
  exists x', tell epollops rs h x = Ok ((true, foldl (fun h r => ask r h) h rs), x').
Proof.
  induction rs as [|r rs IH]; intros h x Hc Hw Hr; cbn [tell]; [by exists x|]. destruct Hr as [H1 H2]. pose proof H1 as [Hfd _].
  destruct (request_run epollops r h x (I : @b_inv _ _ epollops_ok x) Hw H1) as (n & x1 & E & _ & Hn). cbn zeta.
  assert (W : exists k, n = 0 /\ x1 = told k [] x).
  { assert (Hs : small (have h (r_fd r))) by (rewrite <-Hw by lia; apply kernel_watch_small).
    destruct (r_add r); cbn [op_add op_del epollops] in E;
      [unfold epoll_nochangelist_add in E|unfold epoll_nochangelist_del in E];
      match type of E with epoll_apply_one_change ?ch _ = _ => destruct (apply_one_willing ch x Hc Hs) as [k Ek] end;
      exists k; rewrite Ek in E; by injection E as <- <-. }
  destruct W as (k & -> & ->). rewrite (bind_ok _ _ _ _ _ E). cbn [Z.eqb]. destruct Hn as [[_ Hw1]|[? _]]; [|done].
  destruct (IH (ask r h) (told k [] x) eq_refl Hw1 H2) as [x' E']. exists x'. exact E'.
Qed.

(** Collecting changes tells the kernel nothing. *)
Lemma collect_quiet fd old f x r x' :
  (let! i := event_changelist_get_or_construct fd old in
   match i with None => ret (-1) | Some i => set_change i f ;; ret 0 end) x = Ok (r, x') ->
  kern x' = kern x /\ ctls x' = ctls x.
Proof.
  intros E. apply bind_inv in E as (i & x1 & E1 & E2).
  assert (H1 : kern x1 = kern x /\ ctls x1 = ctls x).
  { unfold event_changelist_get_or_construct in E1. destruct (Z.eqb _ 0).
    - destruct (Z.ltb _ _); [done|]. apply bind_inv in E1 as (n & y & Ey & E1).
      assert (Hy : kern y = kern x /\ ctls y = ctls x).
      { destruct (Z.eqb _ _); [|by injection Ey as _ <-]. unfold event_changelist_grow in Ey. by destruct (ch_mem x) as [|[] l]; injection Ey as _ <-. }
      destruct (Z.ltb n 0); [by injection E1 as _ <-|]. by injection E1 as _ <-.
    - destruct (changes x !! _); [|done]. destruct (Z.eqb _ fd); [|done]. by injection E1 as _ <-. }
  destruct i as [i|]; [|by injection E2 as _ <-]. apply bind_inv in E2 as (u & x2 & E2 & [= _ <-]).
  unfold set_change in E2. destruct (changes x1 !! i); [|done]. by injection E2 as _ <-.
Qed.

Lemma tell_quiet rs : forall h x ok h' x',
  tell epollops_changelist rs h x = Ok ((ok, h'), x') -> kern x' = kern x /\ ctls x' = ctls x.
Proof.
  induction rs as [|r rs IH]; intros h x ok h' x' E; cbn [tell] in E; [by injection E as _ _ <-|]. cbn zeta in E.
  apply bind_inv in E as (n & x1 & E1 & E). assert (H1 : kern x1 = kern x /\ ctls x1 = ctls x).
  { destruct (r_add r); cbn [op_add op_del epollops_changelist] in E1; [unfold event_changelist_add in E1|unfold event_changelist_del in E1]; by apply collect_quiet in E1. }
  destruct (Z.eqb n 0); [|by injection E as _ _ <-]. apply IH in E as [-> ->]. exact H1.
Qed.
End EpollFacts.
