(* ===== verification/EvPoll.v ===== *)
(** * From the kernel's report to the callbacks (epoll.c, evmap.c, event.c)

    What epoll_wait reports makes exactly the events active that wait for it
    ([reported]), and one round of event_base_loop runs their callbacks. *)

From stdpp Require Import prelude gmap.
From S2P Require Import Prelude MinHeap EvBase EvOps EvLoop EvInv EvRun EvFacts EvServe Epoll EpollFacts.
Open Scope Z_scope.

Module EvPoll.
Import EvBase EvOps EvLoop EvInv EvRun EvFacts EvServe Epoll EpollFacts.

(** The event after evmap_io_active: [events] happened on its descriptor. *)
Definition woken (events : Z) (v : event) : event :=
  let r := Z.land (ev_events v) events in if Z.eqb r 0 then v else activated r v.

(** Is the event in the entry of [fd]? *)
Definition listens (fd : Z) (v : event) : bool := has (ev_flags v) EVLIST_INSERTED && Z.eqb (ev_fd v) fd.

Definition woken_on (fd events : Z) (v : event) : event := if listens fd v then woken events v else v.

(** What an activation leaves alone. *)
Record same_event (v v' : event) : Prop := {
  se_fd : ev_fd v' = ev_fd v; se_events : ev_events v' = ev_events v; se_closure : ev_closure v' = ev_closure v;
  se_io : ev_io_timeout v' = ev_io_timeout v; se_pri : ev_pri v' = ev_pri v;
  se_cb : ev_callback v' = ev_callback v; se_arg : ev_arg v' = ev_arg v;
  se_flags : forall q, Z.land EVLIST_ACTIVE q = 0 -> has (ev_flags v') q = has (ev_flags v) q }.

#[export] Instance same_event_refl : Reflexive same_event.
Proof. by intros v. Qed.
#[export] Instance same_event_trans : Transitive same_event.
Proof.
  intros u v w [F1 F2 F3 F4 F5 F6 F7 F8] [G1 G2 G3 G4 G5 G6 G7 G8]. split; try congruence.
  intros q Hq. rewrite G8 by done. auto.
Qed.

Lemma activated_same r v : same_event v (activated r v).
Proof.
  unfold activated. destruct (has (ev_flags v) EVLIST_ACTIVE); [done|]. split; try done.
  intros q Hq. cbn. rewrite has_lor. unfold has at 2. by rewrite Hq, orb_false_r.
Qed.

Lemma woken_same events v : same_event v (woken events v).
Proof. unfold woken. destruct (Z.eqb _ 0); [done|apply activated_same]. Qed.

Lemma woken_on_same fd events v : same_event v (woken_on fd events v).
Proof. unfold woken_on. destruct (listens fd v); [apply woken_same|done]. Qed.

Section Poll.
Context {B : Type} `{!Env B} `{!BackendOk (evsel (B := B))}.
Implicit Types b : base B.

(** Outside of the callbacks an activation changes events and queues only. *)
Record wakes (b b' : base B) : Prop := {
  wk_th : th b' = th b;
  wk_clk : clk b' = clk b;
  wk_ctrl : event_running_priority (ctrl b) <= 0 -> ctrl b' = ctrl b;
  wk_evbase : evbase b' = evbase b;
  wk_len : length (activequeues (qs b')) = length (activequeues (qs b))
}.

Lemma wakes_refl b : wakes b b.
Proof. by split. Qed.

Lemma wakes_trans b1 b2 b3 : wakes b1 b2 -> wakes b2 b3 -> wakes b1 b3.
Proof.
  intros [F1 F2 F3 F4 F5] [G1 G2 G3 G4 G5]. split; try congruence. intros Hp. rewrite <-(F3 Hp). apply G3. by rewrite (F3 Hp).
Qed.

Lemma activate_each_run I K events l : forall b,
  base_inv I K b -> NoDup l -> (forall e, e ∈ l -> is_Some (evs b !! e)) ->
  exists b', activate_each (fun v => Z.land (ev_events v) events) 1 l b = Ok (tt, b') /\ base_inv I K b' /\ wakes b b' /\
    forall e, evs b' !! e = (if decide (e ∈ l) then woken events else id) <$> evs b !! e.
Proof.
  induction l as [|e l IH]; intros b H Hnd Hin; cbn [activate_each].
  { exists b. split_and!; [done|done|apply wakes_refl|]. intros e. rewrite decide_False by apply not_elem_of_nil. by rewrite option_fmap_id. }
  apply NoDup_cons in Hnd as [He Hnd]. destruct (Hin e) as [v Hv]; [set_solver|].
  rewrite (bind_ok _ _ _ _ _ (rd_event_run b e v Hv)).
  assert (H1 : exists b1, when (negb (Z.eqb (Z.land (ev_events v) events) 0)) (event_active_nolock e (Z.land (ev_events v) events) 1) b = Ok (tt, b1) /\
    base_inv I K b1 /\ wakes b b1 /\ evs b1 = <[e := woken events v]> (evs b)).
  { unfold woken. destruct (Z.eqb _ 0); cbn [negb when].
    - exists b. split_and!; [done|done|apply wakes_refl|]. by rewrite insert_id.
    - destruct (active_run I K b e v (Z.land (ev_events v) events) 1 H Hv) as (b1 & E1 & H1 & [A1 A2 A3 A4 A5 A6 A7]).
      exists b1. split_and!; [done|done|by split|done]. }
  destruct H1 as (b1 & E1 & H1 & W1 & V1). rewrite (bind_ok _ _ _ _ _ E1).
  destruct (IH b1 H1 Hnd) as (b' & E & H' & W & V).
  { intros x Hx. rewrite V1, lookup_insert_is_Some. destruct (decide (e = x)); [by left|right]. split; [done|]. apply Hin. set_solver. }
  exists b'. split_and!; [done|done|by eapply wakes_trans|]. intros x. rewrite V, V1. destruct (decide (x = e)) as [->|Hx].
  - rewrite lookup_insert_eq, decide_False, decide_True, Hv by (done || set_solver). done.
  - rewrite lookup_insert_ne by done. destruct (decide (x ∈ l)); [by rewrite decide_True by set_solver|by rewrite decide_False by set_solver].
Qed.

(** A descriptor that the backend watches has an entry. *)
Lemma watched_entry I K b fd :
  base_inv I K b -> 0 <= fd -> watched (evbase b) fd <> 0 ->
  exists c, io (qs b) !! Z.to_nat fd = Some (Some c) /\ entry_ok I (evs b) fd c.
Proof.
  intros H Hfd Hw. pose proof (b_io _ _ _ H) as [I1 I2 I3]. specialize (I3 fd Hfd). specialize (I1 fd). unfold entry in *.
  destruct (io (qs b) !! Z.to_nat fd) as [[c|]|]; cbn in *; [|congruence..]. exists c. auto.
Qed.

Lemma base_ok_same K b b' : base_inv (on (evs b) EVLIST_INSERTED) K b' ->
  (forall e, (fun v => has (ev_flags v) EVLIST_INSERTED) <$> evs b' !! e = (fun v => has (ev_flags v) EVLIST_INSERTED) <$> evs b !! e) -> base_ok K b'.
Proof.
  intros H HV. eapply base_inv_ext; [|exact H]. intros x. specialize (HV x). unfold on.
  destruct (evs b !! x), (evs b' !! x); cbn in HV; simplify_eq; naive_solver congruence.
Qed.

Lemma io_active_run K b fd events :
  base_ok K b -> 0 <= fd -> watched (evbase b) fd <> 0 ->
  exists b', evmap_io_active fd events b = Ok (tt, b') /\ base_ok K b' /\ wakes b b' /\
    forall e, evs b' !! e = woken_on fd events <$> evs b !! e.
Proof.
  intros H Hfd Hw. destruct (watched_entry _ K b fd H Hfd Hw) as (c & Hc & En). unfold evmap_io_active.
  rewrite (bind_ok _ _ _ _ _ (gets_run qs b)), (proj2 (Z.ltb_ge _ _)), Hc by done.
  destruct (activate_each_run _ K events (io_events c) b H (en_nd _ _ _ _ En)) as (b' & E & H' & W & V).
  { intros e [_ (v & Hv & _)]%(en_in _ _ _ _ En). eauto. }
  assert (V' : forall e, evs b' !! e = woken_on fd events <$> evs b !! e).
  { intros e. rewrite V. destruct (evs b !! e) as [v|] eqn:Hv; [|done]. cbn. f_equal. unfold woken_on.
    assert (Hl : e ∈ io_events c <-> listens fd v = true).
    { rewrite (en_in _ _ _ _ En). unfold on_fd, listens, on. rewrite Hv, andb_true_iff, Z.eqb_eq.
      pose proof (eo_ins _ _ (q_ev _ _ (b_queues _ _ _ H) e v Hv)). naive_solver. }
    destruct (decide (e ∈ io_events c)), (listens fd v); naive_solver. }
  exists b'. split_and!; [done| |done|done]. eapply base_ok_same; [exact H'|]. intros e. rewrite V'.
  destruct (evs b !! e); [|done]. cbn. f_equal. by apply woken_on_same.
Qed.
End Poll.

(** What a report does to an event. *)
Definition hears (v : event) (r : Z * Z) : event :=
  if Z.eqb (what_events (snd r)) 0 then v else woken_on (fst r) (Z.lor (what_events (snd r)) EV_ET) v.
Definition reported (l : list (Z * Z)) (v : event) : event := foldl hears v l.

Lemma reported_same l : forall v, same_event v (reported l v).
Proof.
  induction l as [|r l IH]; intros v; [done|]. change (reported (r :: l) v) with (reported l (hears v r)).
  etransitivity; [|apply IH]. unfold hears. destruct (Z.eqb _ 0); [done|apply woken_on_same].
Qed.

(** Does the report name an event that [v] waits for on its descriptor? *)
Definition wants_report (v : event) (r : Z * Z) : bool :=
  negb (Z.eqb (what_events (snd r)) 0) && listens (fst r) v && has (ev_events v) (Z.lor (what_events (snd r)) EV_ET).
Definition ready (l : list (Z * Z)) (v : event) : bool := existsb (wants_report v) l.

Lemma wants_report_same v v' r : same_event v v' -> wants_report v' r = wants_report v r.
Proof. intros [F1 F2 F3 F4 F5 F6 F7 F8]. unfold wants_report, listens. by rewrite F1, F2, F8. Qed.

Lemma hears_active v r : has (ev_flags (hears v r)) EVLIST_ACTIVE = has (ev_flags v) EVLIST_ACTIVE || wants_report v r.
Proof.
  unfold hears, wants_report, woken_on, woken. destruct (Z.eqb (what_events (snd r)) 0); [by rewrite orb_false_r|].
  destruct (listens (fst r) v); [|by rewrite orb_false_r]. unfold has at 3. destruct (Z.eqb _ 0); [by rewrite orb_false_r|]. unfold activated.
  destruct (has (ev_flags v) EVLIST_ACTIVE) eqn:Ha; [done|]. rewrite has_marked. apply orb_true_r.
Qed.

Lemma reported_active l : forall v, has (ev_flags (reported l v)) EVLIST_ACTIVE = has (ev_flags v) EVLIST_ACTIVE || ready l v.
Proof.
  induction l as [|r l IH]; intros v; [by rewrite orb_false_r|]. change (reported (r :: l) v) with (reported l (hears v r)).
  rewrite IH, hears_active, <-orb_assoc. f_equal. cbn. f_equal.
  clear IH. induction l as [|x l IH]; [done|]. cbn. f_equal; [|exact IH]. apply wants_report_same. apply (reported_same [r]).
Qed.

Lemma ready_inserted l v : ready l v = true -> has (ev_flags v) EVLIST_INSERTED = true.
Proof.
  intros (r & _ & [[_ Hl]%andb_true_iff _]%andb_true_iff)%existsb_exists. by apply andb_true_iff in Hl as [Hl _].
Qed.

(** ** The server's environment: epoll without a changelist *)

Section Round.
Context (sig_add sig_del : Z -> M (base epollop) Z) (notify_fn : option (M epollop Z)) (ad : loc -> Z).
Context (sig_base : M (base epollop) unit) (cb : Z -> Z -> Z -> Z -> M (base epollop) unit).

#[local] Instance epoll_env : Env epollop :=
  { evsel := epollops; evsig_add := sig_add; evsig_del := sig_del; th_notify_fn := notify_fn; addr := ad }.
#[local] Instance epoll_loop : LoopEnv epollop :=
  { loop_env := epoll_env; dispatch := epoll_dispatch; resume_signals := sig_base; call := cb }.
#[local] Instance epoll_backend : BackendOk evsel := epollops_ok.
Implicit Types b : base epollop.

(** epoll_wait reports descriptors that are watched. *)
Definition from_kernel (k : gmap Z Z) (l : list (Z * Z)) : Prop := forall fd what, (fd, what) ∈ l -> 0 <= fd /\ kernel_watch k fd <> 0.

Lemma report_run K l : forall b,
  base_ok K b -> from_kernel (kern (evbase b)) l ->
  exists b', report l b = Ok (tt, b') /\ base_ok K b' /\ wakes b b' /\ forall e, evs b' !! e = reported l <$> evs b !! e.
Proof.
  induction l as [|[fd what] l IH]; intros b H Hl; cbn [report].
  { exists b. split_and!; [done|done|apply wakes_refl|]. intros e. by rewrite option_fmap_id. }
  assert (H1 : exists b1, when (negb (Z.eqb (what_events what) 0)) (evmap_io_active fd (Z.lor (what_events what) EV_ET)) b = Ok (tt, b1) /\
    base_ok K b1 /\ wakes b b1 /\ forall e, evs b1 !! e = (fun v => hears v (fd, what)) <$> evs b !! e).
  { unfold hears. cbn [fst snd]. destruct (Z.eqb _ 0); cbn [negb when].
    - exists b. split_and!; [done|done|apply wakes_refl|]. intros e. by rewrite option_fmap_id.
    - destruct (Hl fd what) as [Hfd Hw]; [set_solver|]. by apply io_active_run. }
  destruct H1 as (b1 & E1 & H1 & W1 & V1). rewrite (bind_ok _ _ _ _ _ E1).
  destruct (IH b1 H1) as (b' & E & H' & W & V).
  { rewrite (wk_evbase _ _ W1). intros f w Hf. apply (Hl f w). set_solver. }
  exists b'. split_and!; [done|done|by eapply wakes_trans|]. intros e. rewrite V, V1, <-option_fmap_compose. done.
Qed.

(** The backend after a dispatch: one answer is used, and there may be more
    room for the next. *)
Definition waited_for (tv : option timeval) (w : list (Z + list (Z * Z))) (n : Z) (x : epollop) : epollop :=
  set_nevents n (set_waits w (wait_msec tv) x).

Lemma base_ok_backend K b x : base_ok K b -> kern x = kern (evbase b) -> base_ok K (set_evbase x b).
Proof. intros [H1 H2 H3 H4 H5 H6] Hk. split; try done. eapply io_ok_watch; [|exact H4]. intros k _. cbn. by rewrite Hk. Qed.

Lemma base_ok_mem K b m : base_ok K b -> base_ok K (set_mem m b).
Proof.
  intros H. apply (io_step_inv (on (evs b) EVLIST_INSERTED) (on (evs b) EVLIST_INSERTED) K b); [done| |apply H].
  split; try done. by destruct b as [? ? [] ? ? ?].
Qed.

(** More room for the next report, if there is memory. *)
Lemma grow_room_run K b (full : bool) :
  base_ok K b ->
  exists n b', when full (let! ok := alloc in when ok (backend (modify (fun x => set_nevents (nevents x * 2) x)))) b = Ok (tt, b') /\
    (0 <= nevents (evbase b) -> nevents (evbase b) <= n) /\ base_ok K b' /\ evbase b' = set_nevents n (evbase b) /\ ctrl b' = ctrl b /\ clk b' = clk b /\ MinHeap.hp (th b') = MinHeap.hp (th b) /\
    qs b' = qs b /\ evs b' = evs b.
Proof.
  intros H. assert (Hn : evbase b = set_nevents (nevents (evbase b)) (evbase b)) by (by destruct b as [? ? ? ? ? []]).
  destruct full; [|exists (nevents (evbase b)), b; by split_and!]. cbn [when]. destruct (alloc_run b) as ([] & m & E); rewrite (bind_ok _ _ _ _ _ E).
  - exists (nevents (evbase b) * 2), (set_evbase (set_nevents (nevents (evbase b) * 2) (evbase b)) (set_mem m b)).
    split_and!; try done; [lia|]. apply base_ok_backend; [by apply base_ok_mem|done].
  - exists (nevents (evbase b)), (set_mem m b). split_and!; try done. by apply base_ok_mem.
Qed.

Lemma dispatch_run K b tv l w :
  base_ok K b -> changes (evbase b) = [] -> waits (evbase b) = inr l :: w -> Z.of_nat (length l) <= nevents (evbase b) ->
  from_kernel (kern (evbase b)) l ->
  exists n b', epoll_dispatch tv b = Ok (0, b') /\ nevents (evbase b) <= n /\ base_ok K b' /\ evbase b' = waited_for tv w n (evbase b) /\
    (event_running_priority (ctrl b) <= 0 -> ctrl b' = ctrl b) /\ clk b' = clk b /\ MinHeap.hp (th b') = MinHeap.hp (th b) /\
    length (activequeues (qs b')) = length (activequeues (qs b)) /\ forall e, evs b' !! e = reported l <$> evs b !! e.
Proof.
  intros H Hch Hw Hn Hl. unfold epoll_dispatch.
  assert (E1 : backend epoll_apply_changes b = Ok (0, b)).
  { rewrite (backend_run _ b 0 (evbase b)); [by destruct b|]. unfold epoll_apply_changes, bind, get. by rewrite Hch. }
  assert (E2 : backend event_changelist_remove_all b = Ok (tt, b)).
  { rewrite (backend_run _ b tt (evbase b)); [by destruct b|]. unfold event_changelist_remove_all, bind, get. rewrite Hch. cbn.
    unfold modify, set_changes. rewrite <-Hch. by destruct (evbase b). }
  set (b1 := set_evbase (set_waits w (wait_msec tv) (evbase b)) b).
  assert (E3 : backend (epoll_wait (wait_msec tv)) b = Ok (inr l, b1)).
  { apply backend_run. unfold epoll_wait. by rewrite Hw. }
  rewrite (bind_ok _ _ _ _ _ E1), (bind_ok _ _ _ _ _ E2), (bind_ok _ _ _ _ _ E3), (bind_ok _ _ _ _ _ (gets_run evbase b1)).
  cbn [nevents b1 evbase set_evbase set_waits]. rewrite (proj2 (Z.ltb_ge _ _)) by done.
  destruct (report_run K l b1) as (b2 & E4 & H2 & [W1 W2 W3 W4 W5] & V); [by apply base_ok_backend|done|].
  rewrite (bind_ok _ _ _ _ _ E4), (bind_ok _ _ _ _ _ (gets_run evbase b2)).
  destruct (grow_room_run K b2 (Z.eqb (Z.of_nat (length l)) (nevents (evbase b2)) && Z.ltb (nevents (evbase b2)) MAX_NEVENT) H2)
    as (n & b3 & E5 & G3 & H3 & X & C1 & C2 & C3 & C4 & C5).
  rewrite (bind_ok _ _ _ _ _ E5). exists n, b3. split_and!; [done|rewrite W4 in G3; apply G3; cbn; lia|done|by rewrite X, W4|intros Hp; rewrite C1; by apply W3|by rewrite C2, W2| | |].
  - by rewrite C3, W1.
  - by rewrite C4, W5.
  - intros e. rewrite C5. apply V.
Qed.

(** ** The clocks *)

(** The clocks answer at least [n] more times. *)
Definition answers (n : nat) (c : clock) : Prop :=
  use_monotonic c = true /\ (n <= length (mono c))%nat /\ (n <= length (wall c))%nat /\ Forall is_Some (mono c) /\ Forall is_Some (wall c).

Lemma gettime_answers n c : answers (S n) c -> exists t c', gettime_ c = Ok (Some t, c') /\ answers n c'.
Proof.
  intros (Hu & Lm & Lw & Hm & Hw). unfold gettime_. destruct (negb _).
  { exists (tv_cache c), c. split; [done|]. split_and!; (done || lia). }
  rewrite Hu. destruct (mono c) as [|m ms]; [cbn in Lm; lia|]. destruct (wall c) as [|x ws]; [cbn in Lw; lia|]. cbn in Lm, Lw.
  apply Forall_cons in Hm as [[[s ns] ->] Hm]. apply Forall_cons in Hw as [[tv ->] Hw]. cbn [tail].
  destruct (Z.ltb _ s); do 2 eexists; (split; [reflexivity|]); split_and!; cbn; try done; try lia. by apply Forall_cons.
Qed.

Lemma gettime_run n b : answers (S n) (clk b) -> exists t c, gettime b = Ok (Some t, set_clk c b) /\ answers n c.
Proof. intros H. destruct (gettime_answers n (clk b) H) as (t & c & E & Hc). exists t, c. split; [|done]. unfold gettime. by rewrite E. Qed.

Lemma update_time_cache_run n b : answers (S n) (clk b) -> exists c, update_time_cache b = Ok (tt, set_clk c b) /\ answers n c.
Proof.
  intros H. unfold update_time_cache, clear_time_cache. set (c1 := put_cache (0, snd (tv_cache (clk b))) (clk b)).
  rewrite (bind_ok _ _ _ _ _ (eq_refl : kset (fun c => put_cache (0, snd (tv_cache c)) c) b = Ok (tt, set_clk c1 b))), (bind_ok _ _ _ _ _ (gets_run _ _)).
  destruct (no_cache_time _).
  { exists c1. split; [done|]. destruct H as (H1 & H2 & H3 & H4 & H5). split_and!; cbn; (done || lia). }
  destruct (gettime_run n (set_clk c1 b) H) as (t & c & E & Hc). rewrite (bind_ok _ _ _ _ _ E). by exists (put_cache t c).
Qed.

Lemma base_ok_clk K b c : base_ok K b -> base_ok K (set_clk c b).
Proof. intros [H1 H2 H3 H4 H5 H6]. by split. Qed.
Lemma base_ok_ctrl K b c : base_ok K b -> id_fn c = id_fn (ctrl b) -> base_ok K (set_ctrl c b).
Proof. intros [H1 H2 H3 H4 H5 H6] Hc. split; try done. cbn. congruence. Qed.

(** ** A base without timeouts *)

Lemma no_timeouts_next b : MinHeap.n (MinHeap.hp (th b)) = 0 -> timeout_next b = Ok (None, b).
Proof.
  intros Hn. unfold timeout_next. assert (E : heap MinHeap.min_heap_top b = Ok (None, b)); [|by rewrite (bind_ok _ _ _ _ _ E)].
  rewrite (heap_run _ b None (th b)); [by rewrite set_th_same|]. unfold MinHeap.min_heap_top, bind, gets. by rewrite Hn.
Qed.

Lemma no_timeouts_process b : MinHeap.n (MinHeap.hp (th b)) = 0 -> timeout_process b = Ok (tt, b).
Proof.
  intros Hn. unfold timeout_process. rewrite (bind_ok _ _ _ _ _ (heap_run (gets MinHeap.min_heap_size) b _ _ eq_refl)), set_th_same.
  unfold MinHeap.min_heap_size. by rewrite Hn.
Qed.

Lemma total_weight (m : gmap loc event) e v : m !! e = Some v -> weight v <= total m.
Proof.
  assert (Hn : forall k, 0 <= total k).
  { intros k. induction k as [|x w k Hx IH] using map_ind; [done|]. rewrite total_insert by done.
    enough (0 <= weight w) by lia. unfold weight. destruct (counted w), (has (ev_flags w) EVLIST_TIMEOUT), (has (ev_flags w) EVLIST_INSERTED), (has (ev_flags w) EVLIST_ACTIVE); cbn; lia. }
  intros He. rewrite <-(insert_delete_id m e v He), total_insert by apply lookup_delete_eq. specialize (Hn (delete e m)). lia.
Qed.

(** An event of the server: persistent, without a timeout, not internal. *)
Definition plain (v : event) : Prop := persistent v /\ has (ev_flags v) EVLIST_INTERNAL = false.

Lemma plain_counted v : plain v -> counted v = true.
Proof.
  intros [_ Hi]. unfold counted, has in *. apply negb_false_iff, Z.eqb_eq in Hi. apply negb_true_iff, Z.eqb_neq. intros Hn.
  pose proof (Z.land_lor_distr_l (ev_flags v) (Z.lnot (ev_flags v)) EVLIST_INTERNAL) as E. by rewrite Z.lor_lnot_diag, Hi, Hn in E.
Qed.

Lemma plain_same v v' : same_event v v' -> plain v -> plain v'.
Proof.
  intros [F1 F2 F3 F4 F5 F6 F7 F8] [(P1 & P2 & P3) P4]. unfold plain, persistent. rewrite F2, F3, F4, F8 by done. done.
Qed.

(** Between two rounds: one priority, no event active, no timeouts, and at
    least one event added. *)
Record waiting (K : loc -> timeval) (b : base epollop) : Prop := {
  wt_ok : base_ok K b;
  wt_none : MinHeap.n (MinHeap.hp (th b)) = 0;
  wt_queue : activequeues (qs b) = [[]];
  wt_go : event_gotterm (ctrl b) = false /\ event_break (ctrl b) = false;
  wt_prio : event_running_priority (ctrl b) <= 0;
  wt_plain : forall e v, evs b !! e = Some v -> has (ev_flags v) EVLIST_INSERTED = true -> plain v;
  wt_added : exists e, on (evs b) EVLIST_INSERTED e;
  wt_changes : changes (evbase b) = []
}.

Lemma waiting_count K b : waiting K b -> 0 < event_count (qs b) /\ event_count_active (qs b) = 0.
Proof.
  intros H. pose proof (b_queues _ _ _ (wt_ok _ _ H)) as HQ. split; [|by rewrite (q_cact _ _ HQ), (wt_queue _ _ H)].
  destruct (wt_added _ _ H) as (e & v & Hv & Hf). rewrite (q_count _ _ HQ). pose proof (total_weight _ e v Hv) as Hw.
  enough (0 < weight v) by lia. unfold weight. rewrite (plain_counted v (wt_plain _ _ H e v Hv Hf)), Hf.
  destruct (has (ev_flags v) EVLIST_TIMEOUT), (has (ev_flags v) EVLIST_ACTIVE); cbn; lia.
Qed.

Lemma waiting_calm K b e v : waiting K b -> evs b !! e = Some v -> has (ev_flags v) EVLIST_ACTIVE = false.
Proof.
  intros H Hv. pose proof (b_queues _ _ _ (wt_ok _ _ H)) as HQ. apply not_true_iff_false. intros Ha. apply (not_elem_of_nil e).
  apply (q_act _ _ HQ 0); [by rewrite (wt_queue _ _ H)|]. exists v. split_and!; [done|done|].
  pose proof (eo_pri _ _ (q_ev _ _ HQ e v Hv)) as Hp. rewrite (wt_queue _ _ H) in Hp. cbn in Hp. lia.
Qed.

(** The end of a round: the callbacks. *)
Definition round_end (fuel : nat) (flags : Z) : M (base epollop) (Z + bool) :=
  let! q := gets qs in
  if negb (Z.eqb (N_ACTIVE_CALLBACKS q) 0) then
    let! n := event_process_active fuel in
    let! q := gets qs in
    ret (inr (has flags EVLOOP_ONCE && Z.eqb (N_ACTIVE_CALLBACKS q) 0 && negb (Z.eqb n 0)))
  else ret (inr (has flags EVLOOP_NONBLOCK)).

(** The base after the kernel's report. *)
Record polled (K : loc -> timeval) (l : list (Z * Z)) (w : list (Z + list (Z * Z))) (k : nat) (n : Z) (b b' : base epollop) : Prop := {
  po_ok : base_ok K b';
  po_none : MinHeap.n (MinHeap.hp (th b')) = 0;
  po_len : length (activequeues (qs b')) = 1%nat;
  po_go : event_gotterm (ctrl b') = false /\ event_break (ctrl b') = false /\ event_continue (ctrl b') = false;
  po_prio : event_running_priority (ctrl b') <= 0;
  po_evs : forall e, evs b' !! e = reported l <$> evs b !! e;
  po_evbase : evbase b' = waited_for None w n (evbase b);
  po_clk : answers k (clk b')
}.

Lemma round_polls K b l w k fuel :
  waiting K b -> answers (2 + k) (clk b) -> waits (evbase b) = inr l :: w -> Z.of_nat (length l) <= nevents (evbase b) ->
  from_kernel (kern (evbase b)) l ->
  exists n b', loop_round fuel 0 b = round_end fuel 0 b' /\ nevents (evbase b) <= n /\ polled K l w k n b b'.
Proof.
  intros H Hc Hw Hn Hl. pose proof (waiting_count K b H) as [Hev Hact]. destruct (wt_go _ _ H) as [Hg Hb].
  unfold loop_round. set (c0 := put_loop (event_gotterm (ctrl b)) (event_break (ctrl b)) false (ctrl b)). set (b0 := set_ctrl c0 b).
  rewrite (bind_ok _ _ _ _ _ (eq_refl : cset (fun c => put_loop (event_gotterm c) (event_break c) false c) b = Ok (tt, b0))),
    (bind_ok _ _ _ _ _ (gets_run ctrl b0)). cbn [ctrl b0 set_ctrl c0 put_loop event_gotterm event_break]. rewrite Hg, Hb. cbn [orb].
  assert (Etc : timeout_correct b0 = Ok (tt, b0)).
  { unfold timeout_correct. rewrite (bind_ok _ _ _ _ _ (gets_run clk b0)). change (clk b0) with (clk b). by destruct Hc as (-> & _). }
  rewrite (bind_ok _ _ _ _ _ Etc), (bind_ok _ _ _ _ _ (gets_run qs b0)). change (qs b0) with (qs b). unfold N_ACTIVE_CALLBACKS at 1 2, event_haveevents.
  rewrite Hact, (proj2 (Z.ltb_lt 0 (event_count (qs b)))), orb_true_r by done.
  change (Z.eqb 0 0 && negb (has 0 EVLOOP_NONBLOCK)) with true. cbn match.
  rewrite (bind_ok _ _ _ _ _ (no_timeouts_next b0 (wt_none _ _ H))). cbn [negb andb].
  destruct (gettime_run (S k) b0 Hc) as (t & c1 & Eg & Hc1). rewrite (bind_ok _ _ _ _ _ Eg).
  set (b1 := set_clk (put_event_tv t c1) (set_clk c1 b0)). rewrite (bind_ok _ _ _ _ _ (eq_refl : kset (put_event_tv t) (set_clk c1 b0) = Ok (tt, b1))).
  set (b2 := set_clk (put_cache (0, snd (tv_cache (clk b1))) (clk b1)) b1). rewrite (bind_ok _ _ _ _ _ (eq_refl : clear_time_cache b1 = Ok (tt, b2))).
  assert (H2 : base_ok K b2) by (do 3 apply base_ok_clk; apply base_ok_ctrl; [apply H|done]).
  destruct (dispatch_run K b2 None l w H2 (wt_changes _ _ H) Hw Hn Hl) as (n & b3 & Ed & G3 & H3 & X3 & C3 & K3 & T3 & L3 & V3).
  assert (C3' : ctrl b3 = c0) by (apply C3; change (event_running_priority (ctrl b) <= 0); exact (wt_prio _ _ H)).
  rewrite (bind_ok _ _ _ _ _ (Ed : @dispatch _ epoll_loop None b2 = Ok (0, b3))). change (Z.eqb 0 (-1)) with false. cbn match.
  destruct (update_time_cache_run k b3) as (c4 & Eu & Hc4); [rewrite K3; exact Hc1|]. rewrite (bind_ok _ _ _ _ _ Eu).
  assert (Hn4 : MinHeap.n (MinHeap.hp (th b3)) = 0) by (rewrite T3; apply H).
  rewrite (bind_ok _ _ _ _ _ (no_timeouts_process (set_clk c4 b3) Hn4)). exists n, (set_clk c4 b3). split; [reflexivity|]. split; [exact G3|].
  split; try done.
  - by apply base_ok_clk.
  - cbn. rewrite L3. change (qs b2) with (qs b). by rewrite (wt_queue _ _ H).
  - cbn. rewrite C3'. by split_and!.
  - cbn. rewrite C3'. apply H.
Qed.

(** Who is active after the report, as the list of the one queue. *)
Lemma polled_queue K l w k n b b' :
  waiting K b -> polled K l w k n b b' ->
  exists q, activequeues (qs b') = [q] /\ NoDup q /\ event_count_active (qs b') = Z.of_nat (length q) /\
    forall e, e ∈ q <-> exists v, evs b !! e = Some v /\ ready l v = true.
Proof.
  intros H0 H. pose proof (b_queues _ _ _ (po_ok _ _ _ _ _ _ _ H)) as HQ. pose proof (po_len _ _ _ _ _ _ _ H) as Hlen.
  destruct (activequeues (qs b')) as [|q [|]] eqn:Eq; try done. exists q.
  assert (Hq : activequeues (qs b') !! 0%nat = Some q) by (by rewrite Eq). split_and!; [done|by eapply (q_act_nd _ _ HQ)| |].
  - rewrite (q_cact _ _ HQ), Eq. cbn. lia.
  - intros e. rewrite (q_act _ _ HQ 0 q e Hq). unfold active_at. rewrite (po_evs _ _ _ _ _ _ _ H). destruct (evs b !! e) as [v|] eqn:Hv; cbn; [|naive_solver].
    assert (Hv' : evs b' !! e = Some (reported l v)) by (by rewrite (po_evs _ _ _ _ _ _ _ H), Hv).
    pose proof (eo_pri _ _ (q_ev _ _ HQ e _ Hv')) as Hp. rewrite Eq in Hp. cbn in Hp.
    pose proof (reported_active l v) as Ha. rewrite (waiting_calm K b e v H0 Hv) in Ha. cbn in Ha.
    split; [intros (x & [= <-] & Hx & _); exists v; split; [done|congruence]|].
    intros (x & [= <-] & Hx). exists (reported l v). split_and!; [done|congruence|lia].
Qed.

Lemma length_of_domain (m : gmap loc event) (q : list loc) : NoDup q -> (forall e, e ∈ q -> is_Some (m !! e)) -> (length q <= size m)%nat.
Proof.
  intros Hnd Hq. rewrite <-size_dom, <-(size_list_to_set (C := gset loc) q Hnd). apply subseteq_size.
  intros e He%elem_of_list_to_set. by apply elem_of_dom, Hq.
Qed.

(** ** One round *)

Context (note : Z -> Z -> Z -> Z -> epollop -> epollop) (Hquiet : quiet note).
Context (note_changes : forall c f r a x, changes x = [] -> changes (note c f r a x) = []).

(** The event after its callback. *)
Definition rested (l : list (Z * Z)) (v : event) : event := unmarked EVLIST_ACTIVE (reported l v).

Lemma noted_changes m q : forall x, changes x = [] -> changes (foldl (noted note m) x q) = [].
Proof.
  induction q as [|e q IH]; intros x Hx; [done|]. cbn. apply IH. unfold noted. destruct (m !! e); [by apply note_changes|done].
Qed.

Lemma rested_flags l v q : is_queue q ->
  has (ev_flags (rested l v)) q = has (ev_flags v) q && negb (Z.eqb EVLIST_ACTIVE q).
Proof.
  intros Hq. unfold rested. rewrite has_unmarked by (done || apply queue_bits). destruct (Z.eqb_spec q EVLIST_ACTIVE) as [->|Hne].
  - by rewrite !andb_false_r.
  - rewrite (proj2 (Z.eqb_neq EVLIST_ACTIVE q)) by done. f_equal. apply (se_flags _ _ (reported_same l v)). by destruct Hq as [->|[->| ->]].
Qed.

Lemma rested_plain l v : plain v -> plain (rested l v).
Proof.
  intros Hp. apply (plain_same _ _ (reported_same l v)) in Hp as [(P1 & P2 & P3) P4]. split; [done|]. unfold rested. cbn.
  by rewrite has_ldiff.
Qed.

Lemma waiting_again K l b b' :
  waiting K b -> base_ok K b' -> MinHeap.n (MinHeap.hp (th b')) = 0 -> length (activequeues (qs b')) = 1%nat ->
  event_gotterm (ctrl b') = false /\ event_break (ctrl b') = false -> event_running_priority (ctrl b') <= 0 ->
  (forall e, evs b' !! e = rested l <$> evs b !! e) -> changes (evbase b') = [] -> waiting K b'.
Proof.
  intros H H1 H2 H3 H4 H5 H6 H7. split; try done.
  - destruct (activequeues (qs b')) as [|q [|]] eqn:Eq; try done. f_equal. apply elem_of_nil_inv. intros e He.
    apply (q_act _ _ (b_queues _ _ _ H1) 0 q e) in He as (v & Hv & Ha & _); [|by rewrite Eq].
    rewrite H6 in Hv. apply fmap_Some in Hv as (v0 & _ & ->). rewrite rested_flags in Ha by apply queue_bits. by rewrite andb_false_r in Ha.
  - intros e v. rewrite H6. intros (v0 & Hv0 & ->)%fmap_Some Hi. rewrite rested_flags in Hi by apply queue_bits.
    apply andb_true_iff in Hi as [Hi _]. apply rested_plain. by apply (wt_plain _ _ H e).
  - destruct (wt_added _ _ H) as (e & v & Hv & Hi). exists e, (rested l v). rewrite H6, Hv. split; [done|]. by rewrite rested_flags, Hi by apply queue_bits.
Qed.

Lemma plain_outside m q : (forall e, e ∈ q -> exists v, m !! e = Some v /\ plain v) -> outside m q = Z.of_nat (length q).
Proof.
  intros Hq. unfold outside. f_equal. induction q as [|e q IH]; [done|]. rewrite filter_cons.
  destruct (Hq e) as (v & Hv & [_ Hi]); [set_solver|]. rewrite decide_True by (unfold internal; by rewrite Hv). cbn. f_equal. apply IH.
  intros x Hx. apply Hq. set_solver.
Qed.

Lemma round_run K b l w k fuel :
  waiting K b -> answers (2 + k) (clk b) -> waits (evbase b) = inr l :: w -> Z.of_nat (length l) <= nevents (evbase b) ->
  from_kernel (kern (evbase b)) l -> (size (evs b) < fuel)%nat ->
  exists n q b', loop_round fuel 0 b = Ok (inr false, b') /\ waiting K b' /\ answers k (clk b') /\ nevents (evbase b) <= n /\ NoDup q /\
    (forall e, e ∈ q <-> exists v, evs b !! e = Some v /\ ready l v = true) /\
    evbase b' = foldl (noted note (reported l <$> evs b)) (waited_for None w n (evbase b)) q /\
    forall e, evs b' !! e = rested l <$> evs b !! e.
Proof.
  intros H Hc Hw Hn Hl Hf. destruct (round_polls K b l w k fuel H Hc Hw Hn Hl) as (n & b1 & E & Gn & P).
  destruct (polled_queue K l w k n b b1 H P) as (q & Eq & Hnd & Hcnt & Hin). exists n, q. rewrite E. unfold round_end.
  pose proof P as [P1 P2 P3 (G1 & G2 & G3) P5 P6 P7 P8].
  assert (Hrest : forall e v, e ∉ q -> evs b !! e = Some v -> rested l v = reported l v).
  { intros e v He Hv. apply unmarked_noop. rewrite reported_active, (waiting_calm K b e v H Hv). apply not_true_iff_false. intros Hr. apply He, Hin. eauto. }
  rewrite (bind_ok _ _ _ _ _ (gets_run qs b1)). unfold N_ACTIVE_CALLBACKS at 1. rewrite Hcnt.
  destruct q as [|e0 q].
  { cbn. exists b1. assert (V : forall e, evs b1 !! e = rested l <$> evs b !! e).
    { intros e. rewrite P6. destruct (evs b !! e) as [v|] eqn:Hv; [|done]. cbn. f_equal. symmetry. apply (Hrest e); [apply not_elem_of_nil|done]. }
    split_and!; try done. eapply waiting_again; try done. rewrite P7. apply H. }
  set (q1 := e0 :: q) in *. assert (Hpl : forall e, e ∈ q1 -> exists v, evs b1 !! e = Some v /\ plain v).
  { intros e (v & Hv & Hr)%Hin. exists (reported l v). rewrite P6, Hv. split; [done|]. eapply plain_same; [apply reported_same|].
    apply (wt_plain _ _ H e v Hv), (ready_inserted l v Hr). }
  assert (Hlen : (length q1 <= size (evs b))%nat).
  { apply length_of_domain; [done|]. intros e (v & Hv & _)%Hin. eauto. }
  destruct (process_active_run note Hquiet K b1 0 q1 fuel) as (b2 & E2 & H2 & X2 & V2 & [(U1 & U2 & U3) U4 U5 U6] & U7); try done; try lia.
  - by rewrite Eq.
  - intros e v He Hv. destruct (Hpl e He) as (v' & Hv' & [Hp _]). congruence.
  - rewrite plain_outside by done. cbn. lia.
  - change (negb (Z.eqb (Z.of_nat (length q1)) 0)) with true. cbn match. rewrite (bind_ok _ _ _ _ _ E2), (bind_ok _ _ _ _ _ (gets_run qs b2)).
    assert (V : forall e, evs b2 !! e = rested l <$> evs b !! e).
    { intros e. rewrite V2. unfold calmed. rewrite P6. destruct (evs b !! e) as [v|] eqn:Hv; [|by destruct (decide _)]. cbn.
      destruct (decide (e ∈ q1)) as [He|He]; [done|]. f_equal. symmetry. by apply (Hrest e). }
    assert (X : evbase b2 = foldl (noted note (reported l <$> evs b)) (waited_for None w n (evbase b)) q1).
    { rewrite X2, P7. apply (noted_ext note Hquiet). intros e _. by rewrite P6, lookup_fmap. }
    exists b2. split_and!; try done; [|by rewrite U6]. eapply waiting_again; try done; try congruence.
    + split; congruence.
    + lia.
    + rewrite X. apply noted_changes. apply H.
Qed.

(** C16: in one round of event_base_loop (persistent events without
    timeouts, one priority, callbacks that leave the base alone) the callback
    of an event is called, exactly once, if and only if epoll_wait reports
    something that the event waits for on its descriptor; it gets the
    descriptor and what was reported. After the round no event is active, no
    other member of an event has changed but the result, and the base waits
    for the next report. *)
Theorem round_serves K b l w k fuel :
  waiting K b -> answers (2 + k) (clk b) -> waits (evbase b) = inr l :: w -> Z.of_nat (length l) <= nevents (evbase b) ->
  from_kernel (kern (evbase b)) l -> (size (evs b) < fuel)%nat ->
  exists n q b', loop_round fuel 0 b = Ok (inr false, b') /\ waiting K b' /\ answers k (clk b') /\ NoDup q /\
    (forall e, e ∈ q <-> exists v, evs b !! e = Some v /\ ready l v = true) /\
    evbase b' = foldl (noted note (reported l <$> evs b)) (waited_for None w n (evbase b)) q /\
    forall e, evs b' !! e = rested l <$> evs b !! e.
Proof. intros H1 H2 H3 H4 H5 H6. destruct (round_run K b l w k fuel H1 H2 H3 H4 H5 H6) as (n & q & b' & E & W & A & _ & R). by exists n, q, b'. Qed.
End Round.
End EvPoll.
