(* ===== verification/EvStart.v ===== *)
(** * Starting a thread's event base (event.c, epoll.c, thread.c)

    epoll_init and epoll_dealloc, and what setup_thread and conn_new do with
    the library: event_init, event_set, event_base_set, event_add. The theorems
    follow a thread from there to its first callback. *)

From stdpp Require Import prelude gmap.
From S2P Require Import Prelude MinHeap EvBase EvOps EvLoop EvSig EvNew EvInv EvRun EvFacts EvServe Epoll EpollFacts EvPoll.
Open Scope Z_scope.

Module EvStart.
Import EvBase EvOps EvLoop EvNew EvInv EvRun EvFacts EvServe Epoll EpollFacts EvPoll.
Import EvSig (HasSig, signals, sig, pairs, evsig_init, evsig_dealloc, sig_env).

(** ** The backend *)

Definition INITIAL_NEVENT : Z := 32.
Definition EVENT_BASE_FLAG_EPOLL_USE_CHANGELIST : Z := 0x10.

Definition event_changelist_init : M epollop unit := modify (fun x => set_room 0 (ch_mem x) (set_changes [] ∅ x)).

(** The text EVENT_EPOLL_USE_CHANGELIST *)
Definition use_changelist : bytes :=
  [69; 86; 69; 78; 84; 95; 69; 80; 79; 76; 76; 95; 85; 83; 69; 95; 67; 72; 65; 78; 71; 69; 76; 73; 83; 84].

Section Start.
Context (notify_fn : option (M epollop Z)) (ad : loc -> Z) (sig_ev : loc).
Context (getenv : bytes -> bool).
Abbreviation T := (M (base epollop)).

(** [create]: epoll_create succeeds; the new descriptor watches nothing. *)
Definition epoll_init (create : bool) (flags : Z) : T (option (eventop epollop)) :=
  if negb create then ret None
  else
    let! ok := alloc in
    if negb ok then ret None
    else
      let! ok := alloc in
      if negb ok then ret None
      else
        backend (modify (fun x => set_nevents INITIAL_NEVENT (set_kern ∅ x))) ;;
        let op := if has flags EVENT_BASE_FLAG_EPOLL_USE_CHANGELIST ||
                     (negb (has flags EVENT_BASE_FLAG_IGNORE_ENV) && getenv use_changelist)
                  then epollops_changelist else epollops in
        let! _ := evsig_init in
        ret (Some op).

Definition epoll_dealloc : T unit :=
  evsig_dealloc epollops notify_fn ad ;;
  backend (modify (fun x => set_nevents 0 (set_kern ∅ x))).

Definition epoll_method (create : bool) : method :=
  mkMethod [101; 112; 111; 108; 108] 3 epollops (epoll_init create) epoll_dealloc.

(** ** The server *)

(** [cur]: current_base is not NULL. *)
Definition event_set (e : loc) (cur : bool) (fd events callback arg : Z) : T unit :=
  let! r := event_assign e cur fd events callback arg in
  if Z.eqb r 0 then ret tt else fail AssertFailed.

(** event_set, event_base_set, event_add of setup_thread and of conn_new, with
    the result of event_add. *)
Definition watch (op : eventop epollop) (e : loc) (cur : bool) (fd events callback arg : Z) : T Z :=
  event_set e cur fd events callback arg ;;
  let! _ := event_base_set e in
  @event_add epollop (sig_env op notify_fn ad) e None.

(** setup_thread without its queue: the base of a thread, and the event of its
    notify pipe. *)
Definition setup_base (create initialized : bool) (e : loc) (fd handler me : Z) : T unit :=
  let! (_, op) := event_init notify_fn ad event_changelist_init sig_ev [epoll_method create] getenv initialized in
  let! r := watch op e true fd (Z.lor EV_READ EV_PERSIST) handler me in
  if Z.eqb r (-1) then fail Exited else ret tt.

(** ** Memory that becomes an event *)

#[local] Instance start_env : Env epollop := sig_env epollops notify_fn ad.
#[local] Instance start_backend : BackendOk evsel := epollops_ok.
Implicit Types b : base epollop.

(** The base without the memory of event [e]. *)
Definition forget (e : loc) (b : base epollop) : base epollop :=
  set_th (MinHeap.mkSt (MinHeap.hp (th b)) (delete e (MinHeap.evs (th b))) (MinHeap.mem (th b))) (set_evs (delete e (evs b)) b).

Lemma timeheap_add K (S : loc -> Prop) s e h :
  MinHeap.evs s !! e = None -> ~ S e -> MinHeap.min_heap_idx h = -1 -> MinHeap.timeheap K S s ->
  MinHeap.timeheap (retime K e (MinHeap.tv_sec h, MinHeap.tv_usec h)) S (MinHeap.mkSt (MinHeap.hp s) (<[e := h]> (MinHeap.evs s)) (MinHeap.mem s)).
Proof.
  intros He Hn Hi [[[S1 S2 S3 S4] [O1 O2] HK] Hc Ho].
  assert (Hr : forall l i, (i < MinHeap.size s)%nat -> MinHeap.at_ s i l -> retime K e (MinHeap.tv_sec h, MinHeap.tv_usec h) l = K l).
  { intros l i Li Al. unfold retime. rewrite decide_False; [done|]. intros ->. apply Hn, S4. exists i. split_and!; [done|lia|done]. }
  split; [split; [split|split|]| |]; try done.
  - intros i Li Hi'. destruct (S3 i Li Hi') as (l & v & Al & El & Il). exists l, v. split_and!; [done| |done]. cbn. rewrite lookup_insert_ne; [done|]. by intros <-; congruence.
  - intros q i x y Hc' Li Hi' Hq' Ax Ay. rewrite (Hr x q), (Hr y i); try done; [by eapply O1|]. unfold MinHeap.child in Hc'. unfold MinHeap.size in *. cbn in *. lia.
  - intros g c x y Hg Hc' Lc Ax Ay. change (MinHeap.size _) with (MinHeap.size s) in *. unfold MinHeap.child in *. lia.
  - intros l v. cbn. rewrite lookup_insert_Some. unfold retime. intros [[<- <-]|[Hne El]]; [by rewrite decide_True|]. rewrite decide_False by done. by apply HK.
  - intros l v. cbn. rewrite lookup_insert_Some. intros [[<- <-]|[Hne El]] Hl; [done|]. eauto.
Qed.

(** An event on no queue. *)
Definition idle (v : event) : Prop := forall q, is_queue q -> has (ev_flags v) q = false.

Lemma idle_weight v : idle v -> weight v = 0.
Proof. intros Hi. unfold weight. rewrite !Hi by apply queue_bits. by destruct (counted v). Qed.

Lemma on_add m e v q x : m !! e = None -> idle v -> is_queue q -> on (<[e := v]> m) q x <-> on m q x.
Proof.
  intros He Hi Hq. unfold on. destruct (decide (x = e)) as [->|Hne]; [|by rewrite lookup_insert_ne].
  rewrite lookup_insert_eq, He. split; [|naive_solver]. intros (w & [= <-] & Hf). by rewrite Hi in Hf.
Qed.

Lemma active_at_add m e v p x : m !! e = None -> idle v -> active_at (<[e := v]> m) p x <-> active_at m p x.
Proof.
  intros He Hi. unfold active_at. destruct (decide (x = e)) as [->|Hne]; [|by rewrite lookup_insert_ne].
  rewrite lookup_insert_eq, He. split; [|naive_solver]. intros (w & [= <-] & Hf & _). by rewrite Hi in Hf by apply queue_bits.
Qed.

Lemma remember K b e v h :
  base_ok K (forget e b) -> evs b !! e = Some v -> MinHeap.evs (th b) !! e = Some h -> MinHeap.min_heap_idx h = -1 ->
  ev_ok (length (activequeues (qs b))) v -> idle v ->
  base_ok (retime K e (MinHeap.tv_sec h, MinHeap.tv_usec h)) b.
Proof.
  intros [H1 H2 H3 H4 H5 H6] Hv Hh Hi Hok Hid.
  assert (Hm : evs b = <[e := v]> (delete e (evs b))) by (by rewrite insert_delete_id).
  assert (Hn : delete e (evs b) !! e = None) by apply lookup_delete_eq.
  assert (Hon : forall q x, is_queue q -> on (evs b) q x <-> on (delete e (evs b)) q x) by (intros q x Hq; rewrite <-(on_add _ e v q x Hn Hid Hq); by rewrite insert_delete_id).
  destruct (queue_bits) as (QT & QI & QA). destruct H1 as [Q1 Q2 Q3 Q4 Q5 Q6 Q7 Q8]. cbn in Q1, Q3, Q5, Q7.
  split; [split| | | | |]; try done.
  - intros x w. rewrite Hm, lookup_insert_Some. intros [[<- <-]|[_ Hw]]; [done|]. by apply (Q1 x).
  - intros x. rewrite Hon by done. apply Q3.
  - intros p l x Hl. rewrite (Q5 p l x Hl), <-(active_at_add _ e v (Z.of_nat p) x Hn Hid). by rewrite insert_delete_id.
  - rewrite Q7. symmetry. transitivity (total (<[e := v]> (delete e (evs b)))); [by rewrite insert_delete_id|]. by rewrite total_insert, idle_weight.
  - intros x [w Hw]. destruct (decide (x = e)) as [->|Hne]; [by exists h|]. destruct (H2 x) as [y Hy]; cbn in *.
    + rewrite lookup_delete_ne by done. eauto.
    + rewrite lookup_delete_ne in Hy by done. eauto.
  - eapply timeheap_ext; [intros l; symmetry; by apply Hon|]. cbn in H3.
    replace (th b) with (MinHeap.mkSt (MinHeap.hp (th b)) (<[e := h]> (delete e (MinHeap.evs (th b)))) (MinHeap.mem (th b)))
      by (rewrite insert_delete_id by done; by destruct (th b)).
    eapply (timeheap_add K _ _ e h) in H3; [exact H3|apply lookup_delete_eq| |done].
    intros (w & Hw & _). by rewrite Hn in Hw.
  - cbn in H4. destruct H4 as [I1 I2 I3].
    assert (Hfd : forall fd x, on_fd (on (delete e (evs b)) EVLIST_INSERTED) (delete e (evs b)) fd x <-> on_fd (on (evs b) EVLIST_INSERTED) (evs b) fd x).
    { intros fd x. unfold on_fd. rewrite Hon by done. split; intros [Ho (w & Hw & Hr)]; (split; [done|]); exists w; (split; [|done]).
      - by apply lookup_delete_Some in Hw as [_ Hw].
      - apply lookup_delete_Some. split; [|done]. intros <-. destruct Ho as (w' & Hw' & _). by rewrite Hn in Hw'. }
    split; [|intros fd x Hf Hx; apply (I2 fd x Hf); by apply Hfd|done]. intros fd c Hf Hc. destruct (I1 fd c Hf Hc) as [N1 N2 N3 N4 N5].
    assert (Hcnt : forall k, count (evs b) k (io_events c) = count (delete e (evs b)) k (io_events c)).
    { intros k. apply count_ext. intros x Hx%N2. unfold wants.
      destruct Hx as [(w & Hw & _) _]. apply lookup_delete_Some in Hw as [Hne Hw]. by rewrite lookup_delete_ne. }
    split; try done; [intros x; by rewrite N2|by rewrite Hcnt|by rewrite Hcnt].
Qed.

(** ** event_assign *)

(** The event after event_assign with a base; persistent io events. *)
Definition assigned (n : nat) (fd events callback arg : Z) : event :=
  mkEvent fd true events 0 EVLIST_INIT (u8 (Z.of_nat n / 2)) EV_CLOSURE_PERSIST (0, 0) 0 false callback arg.

Definition with_event (e : loc) (v : event) (h : MinHeap.event) (b : base epollop) : base epollop :=
  set_th (MinHeap.mkSt (MinHeap.hp (th b)) (<[e := h]> (MinHeap.evs (th b))) (MinHeap.mem (th b))) (set_evs (<[e := v]> (evs b)) b).

Lemma assign_run b e v h fd events callback arg :
  evs b !! e = Some v -> MinHeap.evs (th b) !! e = Some h -> has events EV_SIGNAL = false -> has events EV_PERSIST = true ->
  event_assign e true fd events callback arg b =
    Ok (0, with_event e (assigned (length (activequeues (qs b))) fd events callback arg) (MinHeap.mkEv (MinHeap.tv_sec h) (MinHeap.tv_usec h) (-1)) b).
Proof.
  intros Hv Hh Hs Hp. unfold event_assign. rewrite (bind_ok _ _ _ _ _ (rd_event_run b e v Hv)), Hs. cbn [andb]. rewrite (bind_ok _ _ _ _ _ (gets_run qs b)).
  cbn zeta. rewrite (bind_ok _ _ _ _ _ (upd_run b e v _ Hv)), Hp. unfold event_get_closure. rewrite Hs, Hp.
  set (b1 := set_evs _ b). assert (E : heap (MinHeap.min_heap_elem_init e) b1 =
    Ok (tt, set_th (MinHeap.mkSt (MinHeap.hp (th b)) (<[e := MinHeap.mkEv (MinHeap.tv_sec h) (MinHeap.tv_usec h) (-1)]> (MinHeap.evs (th b))) (MinHeap.mem (th b))) b1)).
  { apply heap_run. unfold MinHeap.min_heap_elem_init, MinHeap.set_idx, bind, MinHeap.load. change (th b1) with (th b). by rewrite Hh. }
  by rewrite (bind_ok _ _ _ _ _ E).
Qed.

(** The event of a base for its signals. *)
Definition signal_event (fd : Z) : event :=
  set_flags (Z.lor EVLIST_INIT EVLIST_INTERNAL) (assigned 0 fd (Z.lor EV_READ EV_PERSIST) EvSig.evsig_cb_addr 0).

Lemma evsig_init_run b v h p ps :
  evs b !! EvSig.ev_signal (sig (sg (evbase b))) = Some v -> MinHeap.evs (th b) !! EvSig.ev_signal (sig (sg (evbase b))) = Some h ->
  pairs (sg (evbase b)) = Some p :: ps -> activequeues (qs b) = [] ->
  exists s, evsig_init b = Ok (0, with_event (EvSig.ev_signal (sig (sg (evbase b)))) (signal_event (snd p)) (MinHeap.mkEv (MinHeap.tv_sec h) (MinHeap.tv_usec h) (-1))
    (set_evbase (EvSig.put_sig s (evbase b)) b)).
Proof.
  intros Hv Hh Hp Ha. set (e := EvSig.ev_signal (sig (sg (evbase b)))) in *. unfold evsig_init.
  rewrite (bind_ok _ _ _ _ _ (eq_refl : @EvSig.siget epollop epoll_sig b = Ok (sg (evbase b), b))). rewrite Hp. fold e.
  set (s1 := EvSig.take_pair (sg (evbase b))). set (b1 := set_evbase (EvSig.put_sig s1 (evbase b)) b).
  rewrite (bind_ok _ _ _ _ _ (eq_refl : @EvSig.siset epollop epoll_sig EvSig.take_pair b = Ok (tt, b1))).
  set (s2 := EvSig.set_sig (EvSig.set_pair p (sig (sg (evbase b1)))) (sg (evbase b1))).
  set (b2 := set_evbase (EvSig.put_sig s2 (evbase b1)) b1). rewrite (bind_ok _ _ _ _ _ (eq_refl : @EvSig.siupd epollop epoll_sig (EvSig.set_pair p) b1 = Ok (tt, b2))).
  set (s3 := EvSig.set_sig (EvSig.set_sh_old [] (sig s2)) s2).
  set (b3 := set_evbase (EvSig.put_sig s3 (evbase b2)) b2). rewrite (bind_ok _ _ _ _ _ (eq_refl : @EvSig.siupd epollop epoll_sig (EvSig.set_sh_old []) b2 = Ok (tt, b3))).
  rewrite (bind_ok _ _ _ _ _ (assign_run b3 e v h (snd p) (Z.lor EV_READ EV_PERSIST) EvSig.evsig_cb_addr 0 Hv Hh eq_refl eq_refl)). change (activequeues (qs b3)) with (activequeues (qs b)). rewrite Ha.
  set (b4 := with_event _ _ _ b3). assert (Hv4 : evs b4 !! e = Some (assigned 0 (snd p) (Z.lor EV_READ EV_PERSIST) EvSig.evsig_cb_addr 0)) by apply lookup_insert_eq.
  rewrite (bind_ok _ _ _ _ _ (upd_run b4 e _ _ Hv4)). set (b5 := set_evs _ b4).
  assert (Hv5 : evs b5 !! e = Some (signal_event (snd p))) by apply lookup_insert_eq.
  assert (E5 : event_priority_set e 0 b5 = Ok (-1, b5)).
  { unfold event_priority_set. rewrite (bind_ok _ _ _ _ _ (rd_event_run b5 e _ Hv5)).
    change (has (ev_flags (signal_event (snd p))) EVLIST_ACTIVE) with false. cbn match. rewrite (bind_ok _ _ _ _ _ (gets_run qs b5)).
    unfold nactivequeues. change (activequeues (qs b5)) with (activequeues (qs b)). by rewrite Ha. }
  rewrite (bind_ok _ _ _ _ _ E5). exists s3. unfold ret. do 2 f_equal. unfold b5, b4, with_event, set_evs, set_th. cbn. rewrite insert_insert_eq. done.
Qed.

(** ** What an operation leaves alone *)

Definition frames {S A X} (f : S -> X) (m : M S A) : Prop := forall s a s', m s = Ok (a, s') -> f s' = f s.

Lemma frame_bind {S A C X} (f : S -> X) (m : M S A) (k : A -> M S C) : frames f m -> (forall a, frames f (k a)) -> frames f (bind m k).
Proof. intros Hm Hk s c s2 (a & s1 & E1 & E2)%bind_inv. rewrite (Hk _ _ _ _ E2). by eapply Hm. Qed.
Lemma frame_ret {S A X} (f : S -> X) (a : A) : frames f (ret a).
Proof. by intros s a' s' [= _ <-]. Qed.
Lemma frame_fail {S A X} (f : S -> X) w : frames f (fail w : M S A).
Proof. by intros s a' s'. Qed.
Lemma frame_gets {S A X} (f : S -> X) (g : S -> A) : frames f (gets g).
Proof. by intros s a' s' [= _ <-]. Qed.
Lemma frame_lift {S A X} (f : S -> X) (r : res A) : frames f (lift r).
Proof. intros s a' s'. unfold lift. destruct r; [|done]. by intros [= _ <-]. Qed.
Lemma frame_modify {S X} (f : S -> X) (g : S -> S) : (forall s, f (g s) = f s) -> frames f (modify g).
Proof. intros Hg s a' s' [= _ <-]. apply Hg. Qed.
Lemma frame_when {S X} (f : S -> X) c (m : M S unit) : frames f m -> frames f (when c m).
Proof. intros Hm. destruct c; [exact Hm|apply frame_ret]. Qed.

(** The members that event_add without a timeout does not touch. *)
Definition outer (b : base epollop) : list event_change * Z * list (Z + list (Z * Z)) * list (list loc) * MinHeap.min_heap * clock :=
  (changes (evbase b), nevents (evbase b), waits (evbase b), activequeues (qs b), MinHeap.hp (th b), clk b).

Lemma frame_rd e : frames outer (rd e).
Proof. intros b a b'. unfold rd. destruct (evs b !! e); [|done]. by intros [= _ <-]. Qed.
Lemma frame_alloc : frames outer alloc.
Proof. by intros b a b' [= _ <-]. Qed.

Create HintDb frame.
Hint Resolve frame_ret frame_fail frame_gets frame_lift frame_when frame_rd frame_alloc : frame.

Ltac framing := repeat first
  [ solve [auto with frame]
  | apply frame_bind; [|intros ?]
  | apply frame_when
  | apply frame_modify; done
  | match goal with |- frames _ (match ?x with _ => _ end) => destruct x end ].

Lemma frame_add fd old ev : frames outer (backend (op_add epollops fd old ev)).
Proof.
  intros b a b'. unfold backend. cbn [op_add epollops]. unfold epoll_nochangelist_add.
  destruct (epoll_apply_one_change _ _) as [[r x]|] eqn:E; [|done]. intros [= _ <-].
  enough (X : changes x = changes (evbase b) /\ nevents x = nevents (evbase b) /\ waits x = waits (evbase b)).
  { destruct X as (X1 & X2 & X3). unfold outer. cbn. by rewrite X1, X2, X3. }
  revert E. generalize (evbase b). clear b. intros y E.
  assert (Hk : frames (fun x => (changes x, nevents x, waits x)) (epoll_apply_one_change (mkCh fd old
    (if has ev EV_READ then Z.lor EV_CHANGE_ADD (Z.land ev EV_ET) else 0) (if has ev EV_WRITE then Z.lor EV_CHANGE_ADD (Z.land ev EV_ET) else 0)))).
  { assert (Hc : forall o f m, frames (fun x => (changes x, nevents x, waits x)) (epoll_ctl o f m)).
    { intros o f m z n z'. unfold epoll_ctl. destruct (ctl_answer _ _ _); [by intros [= _ <-]|]. destruct (ctl_kern _ _ _ _). by intros [= _ <-]. }
    unfold epoll_apply_one_change. destruct (change_op _). framing. }
  specialize (Hk _ _ _ E). by simplify_eq.
Qed.

Hint Resolve frame_add : frame.

Lemma event_add_outer b e v r b' :
  notify_fn = None -> evs b !! e = Some v -> ev_base v = true -> has (ev_events v) (Z.lor EV_READ EV_WRITE) = true -> has (ev_events v) EV_SIGNAL = false ->
  event_add e None b = Ok (r, b') -> outer b' = outer b.
Proof.
  intros Hn Hv Hb Hrw Hs. unfold event_add, event_add_internal, event_add_gen. rewrite (bind_ok _ _ _ _ _ (rd_event_run b e v Hv)), Hb. cbn [negb].
  rewrite (bind_ok _ _ _ _ _ (rd_event_run b e v Hv)). unfold evmap_add. rewrite Hrw, Hs.
  match goal with |- ?m b = _ -> _ => enough (Hm : frames outer m) by apply Hm end.
  unfold evmap_io_add, evmap_make_space, slot_and_ctor, io_add_entry, put_entry, event_queue_insert, queue_put, upd, qset, notify_if, evthread_notify_base.
  change (Z.eqb EVLIST_INSERTED EVLIST_INSERTED) with true. change th_notify_fn with notify_fn. change evsel with epollops. rewrite Hn. cbn match. framing.
Qed.

(** ** event_init *)

(** The state in which setup_thread calls event_init for a thread: [e] is the
    memory of its event, allocations and the socket pair of the signals
    succeed, the clock answers, and the environment of the process does not
    change the choice of the backend. *)
Record starting (initialized : bool) (e : loc) (b : base epollop) : Prop := {
  st_evs : exists v, evs b = {[e := v]};
  st_heap : exists h, MinHeap.evs (th b) = {[e := h]};
  st_other : e <> sig_ev;
  st_mem : exists ms, MinHeap.mem (th b) = true :: true :: true :: true :: ms;
  st_pair : exists p ps, pairs (sg (evbase b)) = Some p :: ps /\ snd p < 1073741824;
  st_clock : exists now c, gettime_ (detect_monotonic initialized (clk (fresh_base sig_ev b))) = Ok (Some now, c);
  st_thread : id_fn (ctrl b) = None;
  st_env : getenv (environment [101; 112; 111; 108; 108]) = false /\ getenv use_changelist = false
}.

(** The new base: one priority, nothing added, and the events [m] in memory. *)
Definition new_base (m : gmap loc event) (hm : gmap loc MinHeap.event) (ms : list bool) (c : clock) (x : epollop) : base epollop :=
  mkBase (MinHeap.mkSt MinHeap.min_heap_ctor hm ms) m (mkQs [] [[]] [] [] [] 0 0 0) c (mkCtrl false false false 0 false None 0 0 None 0 false) x.

Lemma alloc_true b ms : MinHeap.mem (th b) = true :: ms -> alloc b = Ok (true, set_mem ms b).
Proof. intros Hm. unfold alloc, set_mem. by rewrite Hm. Qed.

Lemma epoll_init_run b v h p ps ms :
  evs b !! EvSig.ev_signal (sig (sg (evbase b))) = Some v -> MinHeap.evs (th b) !! EvSig.ev_signal (sig (sg (evbase b))) = Some h ->
  pairs (sg (evbase b)) = Some p :: ps -> activequeues (qs b) = [] -> MinHeap.mem (th b) = true :: true :: ms -> getenv use_changelist = false ->
  exists x, epoll_init true 0 b = Ok (Some epollops,
      with_event (EvSig.ev_signal (sig (sg (evbase b)))) (signal_event (snd p)) (MinHeap.mkEv (MinHeap.tv_sec h) (MinHeap.tv_usec h) (-1)) (set_evbase x (set_mem ms b))) /\
    kern x = ∅ /\ changes x = changes (evbase b) /\ nevents x = INITIAL_NEVENT.
Proof.
  intros Hv Hh Hp Ha Hm He. unfold epoll_init. cbn [negb]. rewrite (bind_ok _ _ _ _ _ (alloc_true b _ Hm)). cbn [negb].
  rewrite (bind_ok _ _ _ _ _ (alloc_true (set_mem (true :: ms) b) ms eq_refl)). cbn [negb].
  set (x1 := set_nevents INITIAL_NEVENT (set_kern ∅ (evbase b))). set (b1 := set_evbase x1 (set_mem ms (set_mem (true :: ms) b))).
  rewrite (bind_ok _ _ _ _ _ (eq_refl : backend (modify (fun x => set_nevents INITIAL_NEVENT (set_kern ∅ x))) (set_mem ms (set_mem (true :: ms) b)) = Ok (tt, b1))).
  rewrite He, andb_false_r. change (has 0 EVENT_BASE_FLAG_EPOLL_USE_CHANGELIST) with false. cbn [orb].
  destruct (evsig_init_run b1 v h p ps Hv Hh Hp Ha) as (s & E). rewrite (bind_ok _ _ _ _ _ E). exists (EvSig.put_sig s x1). split; [done|]. by split_and!.
Qed.

Lemma priority_init_run b ms :
  qs b = mkQs [] [] [] [] [] 0 0 0 -> MinHeap.mem (th b) = true :: ms ->
  event_base_priority_init 1 b = Ok (0, set_qs (mkQs [] [[]] [] [] [] 0 0 0) (set_mem ms b)).
Proof.
  intros Hq Hm. unfold event_base_priority_init. rewrite (bind_ok _ _ _ _ _ (gets_run qs b)), Hq. cbn match.
  change (negb _ || _ || _) with false. change (Z.eqb 1 _) with false. cbn match. rewrite (bind_ok _ _ _ _ _ (alloc_true b ms Hm)).
  unfold qset, bind, modify, ret. change (qs (set_mem ms b)) with (qs b). by rewrite Hq.
Qed.

Lemma base_new_run initialized e b :
  starting initialized e b ->
  exists v h fd ms c x, event_base_new_with_config notify_fn ad event_changelist_init sig_ev [epoll_method true] getenv initialized None b =
    Ok (Some (epoll_method true, epollops),
      new_base (<[sig_ev := signal_event fd]> {[e := v]}) (<[sig_ev := MinHeap.mkEv 0 0 (-1)]> {[e := h]}) ms c x) /\
    fd < 1073741824 /\ kern x = ∅ /\ changes x = [] /\ nevents x = INITIAL_NEVENT.
Proof.
  intros [[v Hv] [h Hh] Ho [ms Hm] (p & ps & Hp & Hfd) (now & c & Hc) Ht [He1 He2]]. exists v, h, (snd p), ms.
  unfold event_base_new_with_config. rewrite (bind_ok _ _ _ _ _ (alloc_true b _ Hm)). cbn [negb].
  set (b1 := fresh_base sig_ev (set_mem (true :: true :: true :: ms) b)). rewrite (bind_ok _ _ _ _ _ (eq_refl : modify (fresh_base sig_ev) _ = Ok (tt, b1))).
  set (b2 := set_clk (detect_monotonic initialized (clk b1)) b1). rewrite (bind_ok _ _ _ _ _ (eq_refl : kset (detect_monotonic initialized) b1 = Ok (tt, b2))).
  assert (Eg : gettime b2 = Ok (Some now, set_clk c b2)) by (unfold gettime; change (clk b2) with (detect_monotonic initialized (clk (fresh_base sig_ev b))); by rewrite Hc).
  rewrite (bind_ok _ _ _ _ _ Eg). set (c3 := put_no_cache false (put_event_tv now c)). set (b3 := set_clk c3 b2).
  rewrite (bind_ok _ _ _ _ _ (eq_refl : kset (put_event_tv now) (set_clk c b2) = Ok (tt, set_clk (put_event_tv now c) b2))).
  rewrite (bind_ok _ _ _ _ _ (eq_refl : kset (put_no_cache false) (set_clk (put_event_tv now c) b2) = Ok (tt, b3))).
  set (x4 := set_room 0 (ch_mem (evbase b3)) (set_changes [] ∅ (evbase b3))). set (b4 := set_evbase x4 b3).
  rewrite (bind_ok _ _ _ _ _ (eq_refl : backend event_changelist_init b3 = Ok (tt, b4))).
  destruct (epoll_init_run b4 (mkEvent 0 false 0 0 0 0 0 (0, 0) 0 false 0 0) (MinHeap.mkEv 0 0 0) p ps (true :: ms)) as (x & E & Hk & Hch & Hne);
    [apply lookup_insert_eq|apply lookup_insert_eq|exact Hp|done|done|done|].
  assert (E5 : choose_method getenv None [epoll_method true] b4 = Ok (Some (epoll_method true, epollops),
    with_event sig_ev (signal_event (snd p)) (MinHeap.mkEv 0 0 (-1)) (set_evbase x (set_mem (true :: ms) b4)))).
  { cbn [choose_method]. unfold skipped, event_is_method_disabled. change (m_name (epoll_method true)) with [101; 112; 111; 108; 108]. rewrite He1. cbn [negb orb andb].
    by rewrite (bind_ok _ _ _ _ _ (E : m_init (epoll_method true) 0 b4 = _)). }
  rewrite (bind_ok _ _ _ _ _ E5). set (b5 := with_event _ _ _ _).
  assert (E6 : event_base_priority_init 1 b5 = Ok (0, set_qs (mkQs [] [[]] [] [] [] 0 0 0) (set_mem ms b5))) by (by apply priority_init_run).
  rewrite (bind_ok _ _ _ _ _ E6). change (Z.ltb 0 0) with false. cbn match. exists c3, x. split; [|by rewrite Hch].
  unfold ret. do 2 f_equal. transitivity (mkBase
    (MinHeap.mkSt MinHeap.min_heap_ctor (<[sig_ev := MinHeap.mkEv 0 0 (-1)]> (<[sig_ev := MinHeap.mkEv 0 0 0]> (MinHeap.evs (th b)))) ms)
    (<[sig_ev := signal_event (snd p)]> (<[sig_ev := mkEvent 0 false 0 0 0 0 0 (0, 0) 0 false 0 0]> (evs b)))
    (mkQs [] [[]] [] [] [] 0 0 0) c3 (mkCtrl false false false 0 false None 0 0 (id_fn (ctrl b)) 0 false) x); [reflexivity|].
  by rewrite !insert_insert_eq, Hv, Hh, Ht.
Qed.

Lemma new_base_ok (e : loc) fd v h ms c x :
  fd < 1073741824 -> kern x = ∅ -> e <> sig_ev -> idle v -> ev_ok 1 v -> MinHeap.min_heap_idx h = -1 ->
  base_ok (retime (retime (fun _ => (0, 0)) sig_ev (0, 0)) e (MinHeap.tv_sec h, MinHeap.tv_usec h))
    (new_base (<[e := v]> {[sig_ev := signal_event fd]}) (<[e := h]> {[sig_ev := MinHeap.mkEv 0 0 (-1)]}) ms c x).
Proof.
  intros Hfd Hk He Hid Hok Hi. eapply (remember _ _ e v h); try done; [|apply lookup_insert_eq|apply lookup_insert_eq].
  assert (D : forall A (y z : A), delete e (<[e := y]> {[sig_ev := z]} : gmap loc A) = {[sig_ev := z]}).
  { intros A y z. by rewrite delete_insert_eq, delete_id by by rewrite lookup_singleton_ne. }
  unfold forget, set_th, set_evs. cbn. rewrite !D.
  eapply (remember (fun _ => (0, 0)) _ sig_ev (signal_event fd) (MinHeap.mkEv 0 0 (-1))); try apply lookup_singleton_eq; try done.
  - unfold forget, set_th, set_evs. cbn. rewrite !delete_singleton_eq. split; try done.
    + split; try done; cbn.
      * apply NoDup_nil_2.
      * intros y. split; [by intros ?%not_elem_of_nil|by intros (w & ? & _)].
      * intros p l [_ <-]%list_lookup_singleton_Some. apply NoDup_nil_2.
      * intros p l y [_ <-]%list_lookup_singleton_Some. split; [by intros ?%not_elem_of_nil|by intros (w & ? & _)].
    + cbn. intros y [w Hw]. done.
    + eapply timeheap_ext; [|apply MinHeap.timeheap_empty; done]. intros l. split; [done|]. by intros (w & ? & _).
    + cbn. split; [done| |].
      * intros k y _ [(w & ? & _) _]. done.
      * intros k _. cbn. by rewrite Hk.
  - by intros q [->|[->| ->]].
Qed.

(** ** setup_thread *)

Definition handler_event (fd handler me : Z) : event := assigned 1 fd (Z.lor EV_READ EV_PERSIST) handler me.

Lemma event_init_run initialized e b :
  starting initialized e b ->
  exists v h fd ms c x, event_init notify_fn ad event_changelist_init sig_ev [epoll_method true] getenv initialized b =
    Ok ((epoll_method true, epollops),
      new_base (<[sig_ev := signal_event fd]> {[e := v]}) (<[sig_ev := MinHeap.mkEv 0 0 (-1)]> {[e := h]}) ms c x) /\
    fd < 1073741824 /\ kern x = ∅ /\ changes x = [] /\ nevents x = INITIAL_NEVENT.
Proof.
  intros H. destruct (base_new_run initialized e b H) as (v & h & fd & ms & c & x & E & Hr). exists v, h, fd, ms, c, x. split; [|done].
  unfold event_init. by rewrite (bind_ok _ _ _ _ _ E).
Qed.

Lemma overwrite {A} (e s : loc) (x y z : A) : e <> s -> <[e := x]> (<[s := y]> {[e := z]}) =@{gmap loc A} <[e := x]> {[s := y]}.
Proof.
  intros He. apply map_eq. intros k. destruct (decide (k = e)) as [->|Hk]; [by rewrite !lookup_insert_eq|].
  rewrite !(lookup_insert_ne _ e) by done. destruct (decide (k = s)) as [->|Hs]; [by rewrite lookup_insert_eq, lookup_singleton_eq|].
  by rewrite lookup_insert_ne, !lookup_singleton_ne by done.
Qed.

(** event_set and event_base_set on the new base. *)
Lemma event_set_run e v h sfd ms c x fd handler me :
  e <> sig_ev ->
  let b := new_base (<[sig_ev := signal_event sfd]> {[e := v]}) (<[sig_ev := MinHeap.mkEv 0 0 (-1)]> {[e := h]}) ms c x in
  let b' := new_base (<[e := handler_event fd handler me]> {[sig_ev := signal_event sfd]})
    (<[e := MinHeap.mkEv (MinHeap.tv_sec h) (MinHeap.tv_usec h) (-1)]> {[sig_ev := MinHeap.mkEv 0 0 (-1)]}) ms c x in
  event_set e true fd (Z.lor EV_READ EV_PERSIST) handler me b = Ok (tt, b') /\ event_base_set e b' = Ok (0, b').
Proof.
  intros He b b'. split.
  - unfold event_set. rewrite (bind_ok _ _ _ _ _ (assign_run b e v h fd (Z.lor EV_READ EV_PERSIST) handler me
      ltac:(unfold b; cbn; by rewrite lookup_insert_ne, lookup_singleton_eq by done) ltac:(unfold b; cbn; by rewrite lookup_insert_ne, lookup_singleton_eq by done) eq_refl eq_refl)).
    change (Z.eqb 0 0) with true. cbn match. unfold ret. do 2 f_equal. unfold with_event, b, b', new_base, set_th, set_evs. cbn. f_equal.
    + by rewrite overwrite.
    + by apply overwrite.
  - unfold event_base_set. rewrite (bind_ok _ _ _ _ _ (rd_event_run b' e (handler_event fd handler me) (lookup_insert_eq _ _ _))).
    change (negb _) with false. cbn match. rewrite (bind_ok _ _ _ _ _ (gets_run qs b')).
    rewrite (bind_ok _ _ _ _ _ (upd_run b' e (handler_event fd handler me) _ (lookup_insert_eq _ _ _))). unfold ret. do 2 f_equal.
    unfold set_evs, b', new_base. cbn. by rewrite insert_insert_eq.
Qed.

(** The only event that is added is that of the thread. *)
Lemma only_handler (m : gmap loc event) e fd handler me sfd x v :
  e <> sig_ev -> m = <[e := listed (handler_event fd handler me)]> {[sig_ev := signal_event sfd]} ->
  m !! x = Some v -> has (ev_flags v) EVLIST_INSERTED = true -> x = e /\ v = listed (handler_event fd handler me).
Proof.
  intros He ->. rewrite lookup_insert_Some. intros [[<- <-]|[Hne [<- <-]%lookup_singleton_Some]]; [done|]. done.
Qed.

Lemma setup_run initialized e fd handler me b :
  notify_fn = None -> starting initialized e b -> 0 <= fd < 1073741824 ->
  setup_base true initialized e fd handler me b = Fault Exited \/
  exists K sfd b', setup_base true initialized e fd handler me b = Ok (tt, b') /\
    waiting (EvSig.evsig_add epollops notify_fn ad) EvSig.evsig_del notify_fn ad K b' /\
    evs b' = <[e := listed (handler_event fd handler me)]> {[sig_ev := signal_event sfd]} /\ nevents (evbase b') = INITIAL_NEVENT.
Proof.
  intros Hn Hst Hfd. pose proof (st_other _ _ _ Hst) as He.
  destruct (event_init_run initialized e b Hst) as (v & h & sfd & ms & c & x & E & Hs & Hk & Hch & Hne). unfold setup_base. rewrite (bind_ok _ _ _ _ _ E).
  set (h' := MinHeap.mkEv (MinHeap.tv_sec h) (MinHeap.tv_usec h) (-1)). set (ev := handler_event fd handler me).
  destruct (event_set_run e v h sfd ms c x fd handler me He) as [E1 E2]. unfold watch. fold h' ev in E1, E2. set (b1 := new_base (<[e := ev]> _) _ ms c x) in *.
  assert (Hok : ev_ok 1 ev) by (split; (done || cbn; lia)). assert (Hid : idle ev) by (by intros q [->|[->| ->]]).
  pose proof (new_base_ok e sfd ev h' ms c x Hs Hk He Hid Hok eq_refl) as H1. fold b1 in H1. set (K := retime _ e _) in H1.
  assert (Hv1 : evs b1 !! e = Some ev) by apply lookup_insert_eq.
  destruct (add_run K b1 e ev None false (0, 0) c H1 Hv1 (fun H => False_ind _ (is_Some_None H)) eq_refl) as (r & b2 & E3 & C2 & Hr).
  assert (Ea : event_add e None b1 = Ok (r, b2)) by (unfold event_add; by rewrite (bind_ok _ _ _ _ _ (rd_event_run b1 e ev Hv1))).
  pose proof (event_add_outer b1 e ev r b2 Hn Hv1 eq_refl eq_refl eq_refl Ea) as [= O1 O2 O3 O4 O5 O6].
  match goal with |- context [bind ?m _ ?s] => assert (Ew : m s = Ok (r, b2)) by (by rewrite (bind_ok _ _ _ _ _ E1), (bind_ok _ _ _ _ _ E2)) end.
  rewrite (bind_ok _ _ _ _ _ Ew). destruct Hr as [[-> _]|(-> & V & H2)]; [by left|right].
  change (Z.eqb 0 (-1)) with false. cbn match. exists K, sfd, b2.
  assert (V' : evs b2 = <[e := listed ev]> {[sig_ev := signal_event sfd]}) by (rewrite V; unfold b1, new_base; cbn; by rewrite insert_insert_eq).
  split; [done|]. split; [|split; [exact V'|by rewrite O2]].
  pose proof (only_handler (evs b2) e fd handler me sfd) as Hone. split.
  - exact H2.
  - by rewrite O5.
  - exact O4.
  - by rewrite C2.
  - by rewrite C2.
  - intros y w Hy Hi. destruct (Hone y w He V' Hy Hi) as [-> ->]. by repeat split.
  - exists e, (listed ev). rewrite V. split; [apply lookup_insert_eq|done].
  - by rewrite O1.
Qed.

(** ** The rounds of a thread *)

(** epoll_wait will report [l], and the clocks will answer as in [c]. *)
Definition will_report (l : list (Z * Z)) (x : epollop) : epollop :=
  mkEp (nevents x) (changes x) (changes_size x) (idxplus1 x) (kern x) (ctls x) [inr l] (ch_mem x) (waited x) (sg x).
Definition with_report (l : list (Z * Z)) (c : clock) (b : base epollop) : base epollop := set_clk c (set_evbase (will_report l (evbase b)) b).

Abbreviation thread_waiting := (waiting (EvSig.evsig_add epollops notify_fn ad) EvSig.evsig_del notify_fn ad).

Lemma waiting_with_report K l c b : thread_waiting K b -> thread_waiting K (with_report l c b).
Proof. intros [H1 H2 H3 H4 H5 H6 H7 H8]. split; try done. apply base_ok_clk. by apply base_ok_backend. Qed.

(** A thread between two rounds: it waits, its event [e] is the one for the
    notify pipe, with descriptor, callback and argument as they were set, and
    no other event is added. *)
Record serving (K : loc -> timeval) (e : loc) (hv : event) (b : base epollop) : Prop := {
  sv_wait : thread_waiting K b;
  sv_event : exists v, evs b !! e = Some v /\ same_event hv v;
  sv_only : forall y v, evs b !! y = Some v -> has (ev_flags v) EVLIST_INSERTED = true -> y = e;
  sv_size : (size (evs b) < 3)%nat;
  sv_room : 1 <= nevents (evbase b)
}.

(** The kernel watches the descriptor of the thread for reading. *)
Lemma serving_watched K e fd handler me b :
  0 <= fd -> serving K e (listed (handler_event fd handler me)) b -> kernel_watch (kern (evbase b)) fd = EV_READ.
Proof.
  intros Hfd [Hw (v & Hv & Hs) Ho _ _]. assert (H : base_ok K b) by (exact (wt_ok _ _ _ _ _ _ Hw)).
  destruct (b_io _ _ _ H) as [I1 I2 I3].
  destruct Hs as [F1 F2 _ _ _ _ _ F8].
  assert (Hin : has (ev_flags v) EVLIST_INSERTED = true) by (by rewrite F8).
  assert (Hon : forall x, on_fd (on (evs b) EVLIST_INSERTED) (evs b) fd x <-> x = e).
  { intros x. split; [|intros ->; split; exists v; [by split|split_and!; [done|by rewrite F2|by rewrite F1]]].
    intros [(w & Hw' & Hf) _]. by eapply Ho. }
  destruct (I2 fd e Hfd (proj2 (Hon e) eq_refl)) as [c Hc]. destruct (I1 fd c Hfd Hc) as [N1 N2 N3 N4 _].
  assert (Hl : io_events c = [e]).
  { assert (Hall : forall x, x ∈ io_events c <-> x = e) by (intros x; by rewrite N2, Hon).
    destruct (io_events c) as [|x [|y l]]; [by destruct (not_elem_of_nil e); apply Hall|f_equal; apply Hall; set_solver|].
    assert (x = e) as -> by (apply Hall; set_solver). assert (y = e) as -> by (apply Hall; set_solver). apply NoDup_cons in N1 as [[] _]. set_solver. }
  change (kernel_watch (kern (evbase b)) fd) with (watched (evbase b) fd). rewrite (I3 fd Hfd), Hc. unfold old_events. rewrite N3, N4, Hl.
  unfold count, wants. rewrite !filter_cons, Hv, F2. by rewrite decide_True, decide_False by done.
Qed.

Lemma what_read what : Z.land (Z.lor EV_READ EV_PERSIST) (Z.lor (what_events what) EV_ET) = Z.land (what_events what) EV_READ.
Proof. unfold what_events. by destruct (has what _), (has what EPOLLIN), (has what EPOLLOUT). Qed.

(** A report for the descriptor of the thread. *)
Lemma handler_ready fd handler me what v :
  same_event (listed (handler_event fd handler me)) v -> has (ev_flags v) EVLIST_ACTIVE = false ->
  ready [(fd, what)] v = has (what_events what) EV_READ /\
  (has (what_events what) EV_READ = true -> ev_res (reported [(fd, what)] v) = EV_READ).
Proof.
  intros [F1 F2 _ _ _ _ _ F8] Ha. assert (Hl : listens fd v = true) by (unfold listens; rewrite F8, F1 by done; cbn; by rewrite Z.eqb_refl).
  cbn [ready existsb reported foldl]. unfold wants_report, hears, activated. cbn [fst snd]. unfold has at 1, woken_on, woken, activated.
  rewrite Hl, Ha, F2. change (ev_events (listed (handler_event fd handler me))) with (Z.lor EV_READ EV_PERSIST). rewrite what_read.
  unfold what_events. by destruct (has what _), (has what EPOLLIN), (has what EPOLLOUT).
Qed.

Lemma rested_same l v : same_event v (rested l v).
Proof.
  destruct (reported_same l v) as [F1 F2 F3 F4 F5 F6 F7 F8]. split; try done.
  intros q Hq. rewrite <-F8 by done. unfold rested, has. cbn. f_equal. f_equal. apply Z.bits_inj'. intros n Hn.
  assert (Hb : Z.testbit (Z.land EVLIST_ACTIVE q) n = false) by (by rewrite Hq, Z.bits_0). rewrite Z.land_spec in Hb.
  rewrite !Z.land_spec, Z.ldiff_spec. by destruct (Z.testbit (ev_flags (reported l v)) n), (Z.testbit EVLIST_ACTIVE n), (Z.testbit q n).
Qed.

(** What a round with the report [what] does to the backend: [n] is the room
    for the next report. *)
Definition served (note : Z -> Z -> Z -> Z -> epollop -> epollop) (fd handler me : Z) (x : epollop) (round : Z * Z) : epollop :=
  let (what, n) := round in
  let x := waited_for None [] n (will_report [(fd, what)] x) in
  if has (what_events what) EV_READ then note handler fd EV_READ me x else x.

Section Rounds.
Context (sig_base : M (base epollop) unit) (cb : Z -> Z -> Z -> Z -> M (base epollop) unit).
Context (note : Z -> Z -> Z -> Z -> epollop -> epollop).
#[local] Instance rounds_env : LoopEnv epollop := epoll_loop (EvSig.evsig_add epollops notify_fn ad) EvSig.evsig_del notify_fn ad sig_base cb.
Context (Hq : @quiet epollop rounds_env epollops_ok note).
Context (Hch : forall a f r g x, changes x = [] -> changes (note a f r g x) = []).
Context (fd handler me : Z) (Hfd : 0 <= fd).
Context (Hroom : forall x, 1 <= nevents x -> 1 <= nevents (note handler fd EV_READ me x)).

Lemma serving_round K e b what c k :
  let hv := listed (handler_event fd handler me) in
  serving K e hv b -> answers (2 + k) c ->
  exists n b2, loop_round 3 0 (with_report [(fd, what)] c b) = Ok (inr false, b2) /\ serving K e hv b2 /\ answers k (clk b2) /\
    evbase b2 = served note fd handler me (evbase b) (what, n).
Proof.
  intros hv H Hc. pose proof (serving_watched K e fd handler me b Hfd H) as Hk. destruct H as [Hw (v & Hv & Hs) Ho Hsz Hr].
  set (b1 := with_report [(fd, what)] c b).
  destruct (round_run _ _ _ _ sig_base cb note Hq Hch K b1 [(fd, what)] [] k 3) as (n & q & b2 & E2 & Hw2 & Hc2 & Gn & Hnd & Hin & Hx & V2); try done.
  - by apply waiting_with_report.
  - intros f w [= -> ->]%list_elem_of_singleton. split; [lia|]. cbn. by rewrite Hk.
  - exists n, b2. assert (Ha : has (ev_flags v) EVLIST_ACTIVE = false) by (exact (waiting_calm _ _ _ _ _ _ _ _ Hw Hv)).
    destruct (handler_ready fd handler me what v Hs Ha) as [Hrd Hres].
    assert (Hq1 : forall y, y ∈ q <-> y = e /\ has (what_events what) EV_READ = true).
    { intros y. rewrite Hin. split.
      - intros (w & Hy & Hrw). pose proof (Ho y w Hy (ready_inserted _ _ Hrw)) as ->. assert (w = v) as -> by (change (evs b !! e = Some w) in Hy; congruence). by rewrite <-Hrd.
      - intros [-> Hx']. exists v. by rewrite Hrd. }
    assert (X : evbase b2 = served note fd handler me (evbase b) (what, n)).
    { rewrite Hx. unfold served. destruct (has (what_events what) EV_READ) eqn:Hrd'.
      - assert (q = [e]) as ->.
        { apply Permutation_singleton_r, NoDup_Permutation; [done|apply NoDup_singleton|]. intros y. rewrite Hq1, list_elem_of_singleton. naive_solver. }
        cbn [foldl]. unfold noted. rewrite lookup_fmap. change (evs b1 !! e) with (evs b !! e). rewrite Hv. cbn [fmap option_fmap option_map]. rewrite Hres by done.
        destruct (reported_same [(fd, what)] v) as [-> _ _ _ _ -> -> _]. by destruct Hs as [-> _ _ _ _ -> -> _].
      - assert (q = []) as -> by (apply elem_of_nil_inv; intros y Hy%Hq1; naive_solver). done. }
    split_and!; [done| |done|done]. split; [done| | | |].
    + exists (rested [(fd, what)] v). rewrite V2. change (evs b1 !! e) with (evs b !! e). rewrite Hv. split; [done|].
      etransitivity; [exact Hs|apply rested_same].
    + intros y w. rewrite V2. change (evs b1 !! y) with (evs b !! y). intros (w0 & Hw0 & ->)%fmap_Some Hi.
      apply (Ho y w0 Hw0). by rewrite <-(se_flags _ _ (rested_same [(fd, what)] w0)).
    + assert (evs b2 = rested [(fd, what)] <$> evs b) as -> by (apply map_eq; intros y; rewrite lookup_fmap; apply V2). by rewrite map_size_fmap.
    + assert (G : 1 <= n) by (cbn in Gn; lia). rewrite X. unfold served. destruct (has (what_events what) EV_READ); [apply Hroom|]; exact G.
Qed.

(** Rounds of event_base_loop, one for each report of epoll_wait and with the
    answers of the clocks then. *)
Fixpoint rounds (rs : list (Z * clock)) : M (base epollop) unit :=
  match rs with
  | [] => ret tt
  | (what, c) :: rs =>
      let! r := (fun b => loop_round 3 0 (with_report [(fd, what)] c b)) in
      match r with inr false => rounds rs | _ => fail Exited end
  end.

Lemma rounds_run K e rs : forall b,
  serving K e (listed (handler_event fd handler me)) b -> Forall (fun r => answers 2 (snd r)) rs ->
  exists ns b2, rounds rs b = Ok (tt, b2) /\ serving K e (listed (handler_event fd handler me)) b2 /\ length ns = length rs /\
    evbase b2 = foldl (served note fd handler me) (evbase b) (zip (fst <$> rs) ns).
Proof.
  induction rs as [|[what c] rs IH]; intros b H Hc; [by exists [], b|]. apply Forall_cons in Hc as [Hc Hcs].
  destruct (serving_round K e b what c 0 H Hc) as (n & b1 & E1 & H1 & _ & X1).
  destruct (IH b1 H1 Hcs) as (ns & b2 & E2 & H2 & L2 & X2). exists (n :: ns), b2. split_and!; [|done|cbn; lia|].
  - cbn [rounds]. erewrite bind_ok by exact E1. exact E2.
  - rewrite X2, X1. done.
Qed.
End Rounds.

(** C17: a thread that is set up (event_init, then event_set, event_base_set and
    event_add for the descriptor of its notify pipe, as in setup_thread) either
    ends the process, because event_add fails, or waits, with the kernel
    watching the descriptor for reading. In every later round of
    event_base_loop the handler is called once, with the descriptor and
    EV_READ, if epoll_wait reports that the descriptor can be read or is broken, and not
    otherwise; after any number of rounds the thread still waits, with its one
    event as it was set and the kernel watching the descriptor. The callbacks
    are [quiet]: they leave the base alone but for notes in its backend. *)
Theorem setup_thread_serves sig_base cb note initialized e fd handler me b :
  let env := epoll_loop (EvSig.evsig_add epollops notify_fn ad) EvSig.evsig_del notify_fn ad sig_base cb in
  let hv := listed (handler_event fd handler me) in
  @quiet epollop env epollops_ok note -> (forall a f r g x, changes x = [] -> changes (note a f r g x) = []) ->
  (forall x, 1 <= nevents x -> 1 <= nevents (note handler fd EV_READ me x)) ->
  notify_fn = None -> starting initialized e b -> 0 <= fd < 1073741824 ->
  setup_base true initialized e fd handler me b = Fault Exited \/
  exists K b', setup_base true initialized e fd handler me b = Ok (tt, b') /\ serving K e hv b' /\
    kernel_watch (kern (evbase b')) fd = EV_READ /\
    forall rs, Forall (fun r => answers 2 (snd r)) rs ->
    exists ns b2, rounds sig_base cb fd rs b' = Ok (tt, b2) /\ serving K e hv b2 /\ kernel_watch (kern (evbase b2)) fd = EV_READ /\
      length ns = length rs /\ evbase b2 = foldl (served note fd handler me) (evbase b') (zip (fst <$> rs) ns).
Proof.
  intros env hv Hq Hch Hroom Hn Hst Hfd. pose proof (st_other _ _ _ Hst) as He.
  destruct (setup_run initialized e fd handler me b Hn Hst Hfd) as [E|(K & sfd & b' & E & Hw & HV & Hne)]; [by left|right].
  assert (H : serving K e hv b').
  { split; [done|exists hv; by rewrite HV, lookup_insert_eq| | |by rewrite Hne].
    - intros y v Hy Hf. by destruct (only_handler (evs b') e fd handler me sfd y v He HV Hy Hf).
    - rewrite HV, map_size_insert_None, map_size_singleton by (by rewrite lookup_singleton_ne). lia. }
  exists K, b'. split_and!; [done|done|by eapply (serving_watched K e fd handler me); [lia|]|].
  intros rs Hrs. destruct (rounds_run sig_base cb note Hq Hch fd handler me (proj1 Hfd) Hroom K e rs b' H Hrs) as (ns & b2 & E2 & H2 & L2 & X2).
  exists ns, b2. split_and!; try done. by eapply (serving_watched K e fd handler me); [lia|].
Qed.
End Start.
End EvStart.
