(* ===== verification/Poll.v ===== *)
(** * The poll backend (src/libevent/poll.c)

    An array of struct pollfd, of which the first nfds entries are in use, and
    for every descriptor the index (plus one) of its entry. The index is what
    evmap_io_get_fdinfo gives: it lives with the entry of the descriptor and is
    0 in a new one. An entry of the array that was never written is [None].
    poll and random answer from lists; mm_realloc refuses a size that is larger
    than PTRDIFF_MAX. The base has no lock, so poll_dispatch works on event_set
    itself. *)

From stdpp Require Import prelude gmap.
From S2P Require Import Prelude MinHeap EvBase EvOps EvLoop EvSig EvNew EvInv EvRun EvFacts Epoll EpollFacts EvPoll.
Open Scope Z_scope.

Module Poll.
Import EvBase EvOps EvNew EvInv EvRun EvFacts EpollFacts EvPoll.
Import EvSig (signals, HasSig, evsig_init, evsig_dealloc).
Import Epoll (EINTR).

Definition POLLIN : Z := 0x001.
Definition POLLOUT : Z := 0x004.
Definition POLLERR : Z := 0x008.
Definition POLLHUP : Z := 0x010.

Record pollfd := mkPfd { pfd_fd : Z; pfd_events : Z; pfd_revents : Z }.

(** struct pollop, the indexes, and the answers to come: poll (an error, or the
    revents of the entries), random, mm_realloc. *)
Record pollop := mkPoll {
  event_count : Z; nfds : Z; realloc_copy : bool; event_set : list (option pollfd); idxplus1 : gmap Z Z;
  polls : list (Z + list Z); randoms : list Z; p_mem : list bool; p_sg : signals }.

Abbreviation P := (M pollop).

#[export] Instance poll_sig : HasSig pollop :=
  { get_sig := p_sg;
    put_sig := fun s x => mkPoll (event_count x) (nfds x) (realloc_copy x) (event_set x) (idxplus1 x) (polls x) (randoms x) (p_mem x) s }.

Definition set_set (n : Z) (l : list (option pollfd)) (m : gmap Z Z) (x : pollop) : pollop :=
  mkPoll (event_count x) n (realloc_copy x) l m (polls x) (randoms x) (p_mem x) (p_sg x).
Definition set_room (n : Z) (c : bool) (l : list (option pollfd)) (mem : list bool) (x : pollop) : pollop :=
  mkPoll n (nfds x) c l (idxplus1 x) (polls x) (randoms x) mem (p_sg x).
Definition set_answers (a : list (Z + list Z)) (r : list Z) (x : pollop) : pollop :=
  mkPoll (event_count x) (nfds x) (realloc_copy x) (event_set x) (idxplus1 x) a r (p_mem x) (p_sg x).

(** event_set[i] *)
Definition pfd_get (i : Z) : P pollfd := fun x =>
  match (if Z.ltb i 0 then None else event_set x !! Z.to_nat i) with
  | Some (Some p) => Ok (p, x)
  | Some None => Fault Uninit
  | None => Fault Overread
  end.
Definition pfd_put (i : Z) (p : pollfd) : P unit := fun x =>
  if Z.ltb i 0 || Z.leb (Z.of_nat (length (event_set x))) i then Fault Overrun
  else Ok (tt, set_set (nfds x) (<[Z.to_nat i := Some p]> (event_set x)) (idxplus1 x) x).

(** idx->idxplus1 of [fd] *)
Definition idx_get (fd : Z) : P Z := gets (fun x => default 0 (idxplus1 x !! fd)).
Definition idx_put (fd i : Z) : P unit := modify (fun x => set_set (nfds x) (event_set x) (<[fd := i]> (idxplus1 x)) x).
Definition nfds_put (n : Z) : P unit := modify (fun x => set_set n (event_set x) (idxplus1 x) x).

(** sizeof(struct pollfd), and the size that is asked for: an int times a size_t. *)
Definition sizeof_pollfd : Z := 8.
Definition set_size (n : Z) : Z := u64 (u64 n * sizeof_pollfd).
Definition PTRDIFF_MAX : Z := 9223372036854775807.

(** More room, if there is none for another descriptor: -1 without memory. *)
Definition poll_grow : P Z := fun x =>
  if Z.leb (event_count x) (nfds x + 1) then
    let n := if Z.ltb (event_count x) 32 then 32 else s32 (event_count x * 2) in
    let mem := tail (p_mem x) in
    match p_mem x with
    | true :: _ =>
        if Z.ltb PTRDIFF_MAX (set_size n) then Ok (-1, set_room (event_count x) (realloc_copy x) (event_set x) mem x)
        else Ok (0, set_room n true (event_set x ++ replicate (Z.to_nat n - length (event_set x)) None) mem x)
    | _ => Ok (-1, set_room (event_count x) (realloc_copy x) (event_set x) mem x)
    end
  else Ok (0, x).

(** The entry of [fd], a new one if it has none. *)
Definition poll_entry (fd : Z) : P Z :=
  let! k := idx_get fd in
  if Z.leb 0 (k - 1) then ret (k - 1)
  else
    let! n := gets nfds in
    nfds_put (n + 1) ;;
    pfd_put n (mkPfd fd 0 0) ;;
    idx_put fd (n + 1) ;;
    ret n.

Definition poll_mask (events : Z) : Z := Z.lor (if has events EV_WRITE then POLLOUT else 0) (if has events EV_READ then POLLIN else 0).

Definition poll_add (fd old events : Z) : P Z :=
  if has events EV_SIGNAL then fail AssertFailed
  else if negb (has events (Z.lor EV_READ EV_WRITE)) then ret 0
  else
    let! r := poll_grow in
    if Z.eqb r (-1) then ret (-1)
    else
      let! i := poll_entry fd in
      let! p := pfd_get i in
      pfd_put i (mkPfd (pfd_fd p) (Z.lor (pfd_events p) (poll_mask events)) 0) ;;
      ret 0.

(** The entry [i] of [fd] goes; the last one takes its place. *)
Definition poll_remove (fd i : Z) : P unit :=
  idx_put fd 0 ;;
  let! n := gets nfds in
  nfds_put (n - 1) ;;
  if Z.eqb i (n - 1) then ret tt
  else
    let! q := pfd_get (n - 1) in
    pfd_put i q ;;
    let! k := idx_get (pfd_fd q) in
    if negb (Z.eqb k n) then fail AssertFailed else idx_put (pfd_fd q) (i + 1).

Definition poll_del (fd old events : Z) : P Z :=
  if has events EV_SIGNAL then fail AssertFailed
  else if negb (has events (Z.lor EV_READ EV_WRITE)) then ret 0
  else
    let! k := idx_get fd in
    let i := k - 1 in
    if Z.ltb i 0 then ret (-1)
    else
      let! p := pfd_get i in
      let ev := Z.ldiff (pfd_events p) (poll_mask events) in
      pfd_put i (mkPfd (pfd_fd p) ev (pfd_revents p)) ;;
      if negb (Z.eqb ev 0) then ret 0
      else poll_remove fd i ;; ret 0.

Definition pollops : eventop pollop := mkOp poll_add poll_del.

(** ** Waiting *)

Definition INT_MAX : Z := 2147483647.

(** The time-out for poll. *)
Definition poll_msec (tv : option timeval) : Z :=
  match tv with
  | None => -1
  | Some t => let m := Epoll.evutil_tv_to_msec t in if Z.ltb m 0 || Z.ltb INT_MAX m then INT_MAX else m
  end.

Definition put_revents (rs : list Z) (l : list (option pollfd)) : list (option pollfd) :=
  zip_with (fun p r => (fun p => mkPfd (pfd_fd p) (pfd_events p) r) <$> p) (take (length rs) l) rs ++ drop (length rs) l.

(** poll(event_set, nfds, msec): an error, or the number of entries with
    revents. The list of revents is cut, or filled with 0, to nfds entries. *)
Definition poll (n msec : Z) : P (Z + Z) := fun x =>
  match polls x with
  | [] => Fault Blocked
  | inl err :: a => Ok (inl err, set_answers a (randoms x) x)
  | inr rs :: a =>
      let rs := resize (Z.to_nat n) 0 rs in
      Ok (inr (Z.of_nat (length (filter (fun r => r <> 0) rs))),
          set_answers a (randoms x) (set_set (nfds x) (put_revents rs (event_set x)) (idxplus1 x) x))
  end.

Definition random : P Z := fun x => Ok (match randoms x with r :: _ => r | [] => 0 end, set_answers (polls x) (tail (randoms x)) x).

(** The events of libevent for revents. *)
Definition poll_events (what : Z) : Z :=
  let what := if has what (Z.lor POLLHUP POLLERR) then Z.lor what (Z.lor POLLIN POLLOUT) else what in
  Z.lor (if has what POLLIN then EV_READ else 0) (if has what POLLOUT then EV_WRITE else 0).

(** The loops of poll_dispatch and select_dispatch: [j] rounds, the first one
    at the index after [i]; [full] is the test that ends the array. *)
Fixpoint rotate {S : Type} (full : Z -> Z -> bool) (body : Z -> M S unit) (j : nat) (i n : Z) : M S unit :=
  match j with
  | O => ret tt
  | Datatypes.S j' => let i := if full (i + 1) n then 0 else i + 1 in body i ;; rotate full body j' i n
  end.

Section Dispatch.
Context `{!Env pollop}.

Definition poll_report (i : Z) : M (base pollop) unit :=
  let! p := backend (pfd_get i) in
  if Z.eqb (pfd_revents p) 0 then ret tt
  else if Z.eqb (poll_events (pfd_revents p)) 0 then ret tt
  else evmap_io_active (pfd_fd p) (poll_events (pfd_revents p)).

Definition poll_dispatch (tv : option timeval) : M (base pollop) Z :=
  let! x := gets evbase in
  let n := nfds x in
  let! res := backend (poll n (poll_msec tv)) in
  match res with
  | inl err => ret (if Z.eqb err EINTR then 0 else -1)
  | inr res =>
      if Z.eqb res 0 || Z.eqb n 0 then ret 0
      else
        let! r := backend random in
        rotate Z.eqb poll_report (Z.to_nat n) (Z.rem r n) n ;;
        ret 0
  end.
End Dispatch.

Section Init.
Context (notify_fn : option (M pollop Z)) (ad : loc -> Z).

(** The new struct is zero; event_set is NULL. *)
Definition poll_init (flags : Z) : M (base pollop) (option (eventop pollop)) :=
  let! ok := alloc in
  if negb ok then ret None
  else
    backend (modify (fun x => mkPoll 0 0 false [] (idxplus1 x) (polls x) (randoms x) (p_mem x) (p_sg x))) ;;
    let! _ := evsig_init in
    ret (Some pollops).

Definition poll_dealloc : M (base pollop) unit :=
  evsig_dealloc pollops notify_fn ad ;;
  backend (modify (fun x => mkPoll 0 0 false [] (idxplus1 x) (polls x) (randoms x) (p_mem x) (p_sg x))).

Definition poll_method : method := mkMethod [112; 111; 108; 108] 4 pollops poll_init poll_dealloc.
End Init.

(** ** The array as a map from descriptors to entries *)

Implicit Types x : pollop.

Definition entry_of (x : pollop) (fd : Z) : option pollfd :=
  match idxplus1 x !! fd with
  | Some k => if Z.eqb k 0 then None else mjoin (event_set x !! Z.to_nat (k - 1))
  | None => None
  end.

(** The used entries and the indexes point to each other. *)
Record indexed (x : pollop) : Prop := {
  ix_room : event_count x = Z.of_nat (length (event_set x));
  ix_int : event_count x < 2147483648;
  ix_n : 0 <= nfds x <= event_count x;
  ix_used : forall i, 0 <= i < nfds x -> exists p, event_set x !! Z.to_nat i = Some (Some p) /\ idxplus1 x !! pfd_fd p = Some (i + 1) /\ 0 <= pfd_fd p;
  ix_idx : forall fd k, idxplus1 x !! fd = Some k -> k <> 0 ->
    1 <= k <= nfds x /\ exists p, event_set x !! Z.to_nat (k - 1) = Some (Some p) /\ pfd_fd p = fd
}.

Lemma entry_of_idx x fd p : indexed x ->
  entry_of x fd = Some p <-> exists i, 0 <= i < nfds x /\ idxplus1 x !! fd = Some (i + 1) /\ event_set x !! Z.to_nat i = Some (Some p) /\ pfd_fd p = fd.
Proof.
  intros H. unfold entry_of. split.
  - destruct (idxplus1 x !! fd) as [k|] eqn:Ek; [|done]. destruct (Z.eqb_spec k 0) as [->|Hk]; [done|]. intros Hp.
    destruct (ix_idx _ H fd k Ek Hk) as [Hr (q & Hq & Hf)]. rewrite Hq in Hp. injection Hp as ->. exists (k - 1). split_and!; try done; try lia. by rewrite Z.sub_add.
  - intros (i & Hi & Ek & Hp & _). rewrite Ek, (proj2 (Z.eqb_neq _ _)) by lia. by rewrite Z.add_simpl_r, Hp.
Qed.

Lemma entry_of_none x fd : indexed x -> entry_of x fd = None <-> default 0 (idxplus1 x !! fd) = 0.
Proof.
  intros H. unfold entry_of. destruct (idxplus1 x !! fd) as [k|] eqn:Ek; [|done]. cbn. destruct (Z.eqb_spec k 0) as [->|Hk]; [done|].
  destruct (ix_idx _ H fd k Ek Hk) as [Hr (q & Hq & Hf)]. by rewrite Hq.
Qed.

Lemma pfd_get_run x i p : 0 <= i -> event_set x !! Z.to_nat i = Some (Some p) -> pfd_get i x = Ok (p, x).
Proof. intros Hi Hp. unfold pfd_get. by rewrite (proj2 (Z.ltb_ge _ _)), Hp by lia. Qed.

Definition put_at (i : Z) (p : pollfd) (x : pollop) : pollop := set_set (nfds x) (<[Z.to_nat i := Some p]> (event_set x)) (idxplus1 x) x.

Lemma pfd_put_run x i p : 0 <= i < Z.of_nat (length (event_set x)) -> pfd_put i p x = Ok (tt, put_at i p x).
Proof. intros Hi. unfold pfd_put. by rewrite (proj2 (Z.ltb_ge _ _)), (proj2 (Z.leb_gt _ _)) by lia. Qed.

(** Writing an entry of the same descriptor. *)
Lemma put_at_ok x i p q :
  indexed x -> 0 <= i < nfds x -> event_set x !! Z.to_nat i = Some (Some p) -> pfd_fd q = pfd_fd p ->
  indexed (put_at i q x) /\ forall fd, entry_of (put_at i q x) fd = if Z.eqb fd (pfd_fd p) then Some q else entry_of x fd.
Proof.
  intros [H1 H2 H3 H4 H5] Hi Hp Hq.
  assert (Hl : forall j, 0 <= j -> event_set (put_at i q x) !! Z.to_nat j = if Z.eqb j i then Some (Some q) else event_set x !! Z.to_nat j).
  { intros j Hj. cbn. destruct (Z.eqb_spec j i) as [->|Hne].
    - apply list_lookup_insert_eq. by eapply lookup_lt_Some.
    - apply list_lookup_insert_ne. lia. }
  split.
  - split; try done.
    + cbn. by rewrite length_insert.
    + cbn [nfds put_at set_set]. intros j Hj. rewrite Hl by lia. destruct (Z.eqb_spec j i) as [->|Hne]; [|by apply H4].
      exists q. destruct (H4 i Hi) as (p' & Hp' & Hx & Hf). rewrite Hp in Hp'. injection Hp' as <-. by rewrite Hq.
    + cbn [nfds put_at set_set]. intros fd k Hk Hk0. destruct (H5 fd k Hk Hk0) as [Hr (p' & Hp' & Hf)]. split; [done|].
      rewrite Hl by lia. destruct (Z.eqb_spec (k - 1) i) as [<-|Hne]; [|by exists p']. exists q. split; [done|]. rewrite Hp in Hp'. injection Hp' as <-. congruence.
  - intros fd. unfold entry_of. change (idxplus1 (put_at i q x)) with (idxplus1 x). destruct (idxplus1 x !! fd) as [k|] eqn:Ek.
    + destruct (Z.eqb_spec k 0) as [->|Hk].
      * destruct (Z.eqb_spec fd (pfd_fd p)) as [->|]; [|done]. destruct (H4 i Hi) as (p' & Hp' & Hx & _). rewrite Hp in Hp'. injection Hp' as <-.
        rewrite Ek in Hx. injection Hx as Hx. lia.
      * destruct (H5 fd k Ek Hk) as [Hr (p' & Hp' & Hf)]. rewrite Hl by lia. destruct (Z.eqb_spec (k - 1) i) as [<-|Hne].
        -- rewrite Hp in Hp'. injection Hp' as <-. by rewrite Hf, Z.eqb_refl.
        -- destruct (Z.eqb_spec fd (pfd_fd p)) as [->|]; [|done]. destruct (H4 i Hi) as (p2 & Hp2 & Hx & _). rewrite Hp in Hp2. injection Hp2 as <-.
           rewrite Ek in Hx. injection Hx as Hx. lia.
    + destruct (Z.eqb_spec fd (pfd_fd p)) as [->|]; [|done]. destruct (H4 i Hi) as (p' & Hp' & Hx & _). rewrite Hp in Hp'. injection Hp' as <-. congruence.
Qed.

Lemma poll_grow_run x :
  indexed x -> exists r x', poll_grow x = Ok (r, x') /\ indexed x' /\ nfds x' = nfds x /\ (forall fd, entry_of x' fd = entry_of x fd) /\
    idxplus1 x' = idxplus1 x /\ (r = -1 \/ (r = 0 /\ nfds x < event_count x')).
Proof.
  intros H. pose proof H as [H1 H2 H3 H4 H5]. unfold poll_grow. destruct (Z.leb_spec (event_count x) (nfds x + 1)) as [Hle|Hgt].
  2: { exists 0, x. split_and!; try done. right. split; [done|lia]. }
  assert (Hfail : forall mem, indexed (set_room (event_count x) (realloc_copy x) (event_set x) mem x)) by (intros mem; by split).
  destruct (p_mem x) as [|[|] mem]; [by exists (-1); eexists; split_and!; try done; left| |by exists (-1); eexists; split_and!; try done; left].
  set (n := if Z.ltb (event_count x) 32 then 32 else s32 (event_count x * 2)).
  destruct (Z.ltb_spec PTRDIFF_MAX (set_size n)) as [Hs|Hs]; [by exists (-1); eexists; split_and!; try done; left|].
  assert (Hn : event_count x < n < 2147483648).
  { subst n. destruct (Z.ltb_spec (event_count x) 32); [lia|]. destruct (Z.ltb_spec (event_count x) 1073741824).
    - rewrite s32_id by lia. lia.
    - exfalso. unfold s32, set_size, sizeof_pollfd, PTRDIFF_MAX, u64 in Hs. Z.div_mod_to_equations. lia. }
  assert (Hl : forall j e, event_set x !! j = Some e -> (event_set x ++ replicate (Z.to_nat n - length (event_set x)) None) !! j = Some e)
    by (intros j e Hj; by apply lookup_app_l_Some).
  exists 0. eexists. split; [reflexivity|]. assert (Hix : indexed (set_room n true (event_set x ++ replicate (Z.to_nat n - length (event_set x)) None) mem x)).
  { split; cbn; try done; try lia.
    - rewrite length_app, length_replicate. lia.
    - intros i Hi. destruct (H4 i Hi) as (p & Hp & Hr). exists p. split; [by apply Hl|done].
    - intros fd k Hk Hk0. destruct (H5 fd k Hk Hk0) as [Hr (p & Hp & Hf)]. split; [done|]. exists p. split; [by apply Hl|done]. }
  split_and!; try done.
  - intros fd. unfold entry_of. cbn. destruct (idxplus1 x !! fd) as [k|] eqn:Ek; [|done]. destruct (Z.eqb_spec k 0) as [|Hk]; [done|].
    destruct (H5 fd k Ek Hk) as [_ (p & Hp & _)]. by rewrite (Hl _ _ Hp), Hp.
  - right. cbn. split; [done|lia].
Qed.

(** A new entry at the end. *)
Definition appended (fd : Z) (x : pollop) : pollop :=
  set_set (nfds x + 1) (<[Z.to_nat (nfds x) := Some (mkPfd fd 0 0)]> (event_set x)) (<[fd := nfds x + 1]> (idxplus1 x)) x.

Lemma appended_ok x fd :
  indexed x -> nfds x < event_count x -> 0 <= fd -> entry_of x fd = None ->
  indexed (appended fd x) /\ forall k, entry_of (appended fd x) k = if Z.eqb k fd then Some (mkPfd fd 0 0) else entry_of x k.
Proof.
  intros H Hn Hfd He. pose proof H as [H1 H2 H3 H4 H5]. apply (entry_of_none x fd H) in He.
  assert (Hl : forall j, 0 <= j -> event_set (appended fd x) !! Z.to_nat j = if Z.eqb j (nfds x) then Some (Some (mkPfd fd 0 0)) else event_set x !! Z.to_nat j).
  { intros j Hj. cbn. destruct (Z.eqb_spec j (nfds x)) as [->|Hne]; [apply list_lookup_insert_eq; lia|apply list_lookup_insert_ne; lia]. }
  assert (Hix : forall k i, idxplus1 x !! k = Some i -> i <> 0 -> k <> fd) by (intros k i Hk Hi ->; rewrite Hk in He; done).
  split.
  - split; try done; cbn [nfds appended set_set event_count idxplus1].
    + cbn. by rewrite length_insert.
    + lia.
    + intros i Hi. rewrite Hl by lia. destruct (Z.eqb_spec i (nfds x)) as [->|Hne].
      * exists (mkPfd fd 0 0). cbn [pfd_fd]. by rewrite lookup_insert_eq.
      * destruct (H4 i) as (p & Hp & Hx & Hf); [lia|]. exists p. split_and!; [done| |done]. rewrite lookup_insert_ne; [done|]. intros Ef. by apply (Hix _ _ Hx); [lia|].
    + intros k i Hk Hi0. rewrite lookup_insert_Some in Hk. destruct Hk as [[<- <-]|[Hne Hk]].
      * split; [lia|]. rewrite Hl, Z.add_simpl_r, Z.eqb_refl by lia. by eexists.
      * destruct (H5 k i Hk Hi0) as [Hr (p & Hp & Hf)]. split; [lia|]. rewrite Hl by lia. rewrite (proj2 (Z.eqb_neq _ _)) by lia. by exists p.
  - intros k. unfold entry_of. cbn [idxplus1 appended set_set]. destruct (Z.eqb_spec k fd) as [->|Hne].
    + rewrite lookup_insert_eq, (proj2 (Z.eqb_neq _ _)) by lia. fold (appended fd x). by rewrite Hl, Z.add_simpl_r, Z.eqb_refl by lia.
    + rewrite lookup_insert_ne by done. destruct (idxplus1 x !! k) as [i|] eqn:Ei; [|done]. destruct (Z.eqb_spec i 0) as [|Hi0]; [done|].
      destruct (H5 k i Ei Hi0) as [Hr _]. rewrite Hl by lia. by rewrite (proj2 (Z.eqb_neq (i - 1) _)) by lia.
Qed.

(** The entry of [fd] and its index, made if there was none. *)
Lemma poll_entry_run x fd :
  indexed x -> nfds x < event_count x -> 0 <= fd ->
  exists i p x', poll_entry fd x = Ok (i, x') /\ indexed x' /\ 0 <= i < nfds x' /\ event_set x' !! Z.to_nat i = Some (Some p) /\ pfd_fd p = fd /\
    pfd_events p = match entry_of x fd with Some q => pfd_events q | None => 0 end /\
    forall k, k <> fd -> entry_of x' k = entry_of x k.
Proof.
  intros H Hn Hfd. unfold poll_entry. rewrite (bind_ok _ _ _ _ _ (eq_refl : idx_get fd x = Ok (default 0 (idxplus1 x !! fd), x))).
  destruct (entry_of x fd) as [q|] eqn:Eq.
  - apply (entry_of_idx x fd q H) in Eq as (i & Hi & Ei & Hq & Hf). rewrite Ei. change (default 0 (Some (i + 1))) with (i + 1). rewrite Z.add_simpl_r, (proj2 (Z.leb_le 0 i)) by lia.
    by exists i, q, x.
  - rewrite (proj1 (entry_of_none x fd H) Eq). cbn [Z.leb Z.sub]. change (Z.leb 0 (0 - 1)) with false. cbn match.
    destruct (appended_ok x fd H Hn Hfd Eq) as [Ha Hx].
    exists (nfds x), (mkPfd fd 0 0), (appended fd x). split_and!; try done.
    + rewrite (bind_ok _ _ _ _ _ (eq_refl : gets nfds x = Ok (nfds x, x))).
      rewrite (bind_ok _ _ _ _ _ (eq_refl : nfds_put (nfds x + 1) x = Ok (tt, set_set (nfds x + 1) (event_set x) (idxplus1 x) x))).
      by rewrite (bind_ok _ _ _ _ _ (pfd_put_run (set_set (nfds x + 1) (event_set x) (idxplus1 x) x) (nfds x) (mkPfd fd 0 0)
        ltac:(cbn; pose proof (ix_n _ H); pose proof (ix_room _ H); lia))).
    + apply H.
    + cbn. lia.
    + cbn. apply list_lookup_insert_eq. pose proof (ix_n _ H). pose proof (ix_room _ H). lia.
    + intros k Hk. by rewrite Hx, (proj2 (Z.eqb_neq _ _)).
Qed.

(** Without the last entry, which is that of [fd]. *)
Definition dropped (fd : Z) (x : pollop) : pollop := set_set (nfds x - 1) (event_set x) (<[fd := 0]> (idxplus1 x)) x.

Lemma dropped_ok x fd :
  indexed x -> idxplus1 x !! fd = Some (nfds x) -> 0 < nfds x ->
  indexed (dropped fd x) /\ forall k, entry_of (dropped fd x) k = if Z.eqb k fd then None else entry_of x k.
Proof.
  intros [H1 H2 H3 H4 H5] Hfd Hn. split.
  - split; try done; cbn [nfds dropped set_set event_count idxplus1 event_set]; [lia| |].
    + intros i Hi. destruct (H4 i) as (p & Hp & Hx & Hf); [lia|]. exists p. split_and!; [done| |done]. rewrite lookup_insert_ne; [done|].
      intros ->. rewrite Hfd in Hx. injection Hx as Hx. lia.
    + intros k i Hk Hi0. rewrite lookup_insert_Some in Hk. destruct Hk as [[_ <-]|[Hne Hk]]; [done|].
      destruct (H5 k i Hk Hi0) as [Hr (p & Hp & Hf)]. split; [|by exists p]. enough (i <> nfds x) by lia. intros ->.
      destruct (H5 fd _ Hfd) as [_ (p' & Hp' & Hf')]; [lia|]. rewrite Hp in Hp'. injection Hp' as <-. congruence.
  - intros k. unfold entry_of. cbn [idxplus1 dropped set_set event_set]. destruct (Z.eqb_spec k fd) as [->|Hne]; [by rewrite lookup_insert_eq|by rewrite lookup_insert_ne].
Qed.

(** The last entry, [q], takes the place [i] of the entry of [fd]. *)
Definition replaced (fd i : Z) (q : pollfd) (x : pollop) : pollop :=
  set_set (nfds x - 1) (<[Z.to_nat i := Some q]> (event_set x)) (<[pfd_fd q := i + 1]> (<[fd := 0]> (idxplus1 x))) x.

Lemma replaced_ok x fd i q :
  indexed x -> idxplus1 x !! fd = Some (i + 1) -> 0 <= i < nfds x - 1 -> event_set x !! Z.to_nat (nfds x - 1) = Some (Some q) ->
  pfd_fd q <> fd /\ idxplus1 x !! pfd_fd q = Some (nfds x) /\ indexed (replaced fd i q x) /\
  forall k, entry_of (replaced fd i q x) k = if Z.eqb k fd then None else entry_of x k.
Proof.
  intros [H1 H2 H3 H4 H5] Hfd Hi Hq. destruct (H4 (nfds x - 1)) as (q' & Hq' & Hx & Hf); [lia|]. rewrite Hq in Hq'. injection Hq' as <-. rewrite Z.sub_add in Hx.
  assert (Hqf : pfd_fd q <> fd) by (intros Ef; rewrite Ef, Hfd in Hx; injection Hx as Hx; lia).
  assert (Hl : forall j, 0 <= j -> event_set (replaced fd i q x) !! Z.to_nat j = if Z.eqb j i then Some (Some q) else event_set x !! Z.to_nat j).
  { intros j Hj. cbn. destruct (Z.eqb_spec j i) as [->|Hne]; [apply list_lookup_insert_eq; lia|apply list_lookup_insert_ne; lia]. }
  assert (Hnot : forall k j, idxplus1 x !! k = Some j -> j <> 0 -> k <> pfd_fd q -> k <> fd -> j - 1 <> i /\ j <> nfds x).
  { intros k j Hk Hj Hkq Hkf. destruct (H5 k j Hk Hj) as [Hr (p & Hp & Hpf)]. split; intros E.
    - destruct (H5 fd _ Hfd) as [_ (p' & Hp' & Hf')]; [lia|]. rewrite Z.add_simpl_r, <-E, Hp in Hp'. injection Hp' as <-. congruence.
    - subst j. rewrite Hq in Hp. injection Hp as <-. congruence. }
  split_and!; [done|done| |].
  - split; try done; cbn [nfds replaced set_set event_count idxplus1]; [by cbn; rewrite length_insert|lia| |].
    + intros j Hj. rewrite Hl by lia. destruct (Z.eqb_spec j i) as [->|Hne]; [exists q; by rewrite lookup_insert_eq|].
      destruct (H4 j) as (p & Hp & Hpx & Hpf); [lia|]. exists p. split_and!; [done| |done].
      assert (Hpq : pfd_fd q <> pfd_fd p) by (intros Ef; rewrite <-Ef, Hx in Hpx; injection Hpx as Hpx; lia).
      assert (Hpfd : fd <> pfd_fd p) by (intros Ef; rewrite <-Ef, Hfd in Hpx; injection Hpx as Hpx; lia).
      by rewrite !lookup_insert_ne.
    + intros k j Hk Hj0. rewrite lookup_insert_Some in Hk. destruct Hk as [[<- <-]|[Hne Hk]].
      { split; [lia|]. rewrite Hl, Z.add_simpl_r, Z.eqb_refl by lia. by exists q. }
      rewrite lookup_insert_Some in Hk. destruct Hk as [[_ <-]|[Hne2 Hk]]; [done|].
      destruct (H5 k j Hk Hj0) as [Hr (p & Hp & Hpf)]. destruct (Hnot k j Hk Hj0) as [N1 N2]; [done|done|]. split; [lia|].
      rewrite Hl, (proj2 (Z.eqb_neq _ _)) by lia. by exists p.
  - intros k. unfold entry_of. cbn [idxplus1 replaced set_set]. destruct (Z.eqb_spec k fd) as [->|Hne]; [by rewrite lookup_insert_ne, lookup_insert_eq|].
    fold (replaced fd i q x). destruct (decide (k = pfd_fd q)) as [->|Hkq].
    + rewrite lookup_insert_eq, Hx, !(proj2 (Z.eqb_neq _ 0)) by lia. rewrite Hl, Z.add_simpl_r, Z.eqb_refl by lia. by rewrite Hq.
    + rewrite !lookup_insert_ne by done. destruct (idxplus1 x !! k) as [j|] eqn:Ej; [|done]. destruct (Z.eqb_spec j 0) as [|Hj0]; [done|].
      destruct (Hnot k j Ej Hj0) as [N1 N2]; [done|done|]. destruct (H5 k j Ej Hj0) as [Hr _]. rewrite Hl by lia. by rewrite (proj2 (Z.eqb_neq (j - 1) i)).
Qed.

Lemma remove_run x fd i :
  indexed x -> idxplus1 x !! fd = Some (i + 1) -> 0 <= i < nfds x ->
  exists x', poll_remove fd i x = Ok (tt, x') /\ indexed x' /\ forall k, entry_of x' k = if Z.eqb k fd then None else entry_of x k.
Proof.
  intros H Hfd Hi. pose proof H as [H1 H2 H3 H4 H5]. unfold poll_remove.
  set (x1 := set_set (nfds x) (event_set x) (<[fd := 0]> (idxplus1 x)) x). rewrite (bind_ok _ _ _ _ _ (eq_refl : idx_put fd 0 x = Ok (tt, x1))).
  rewrite (bind_ok _ _ _ _ _ (eq_refl : gets nfds x1 = Ok (nfds x, x1))), (bind_ok _ _ _ _ _ (eq_refl : nfds_put (nfds x - 1) x1 = Ok (tt, dropped fd x))).
  destruct (Z.eqb_spec i (nfds x - 1)) as [->|Hne].
  - exists (dropped fd x). split; [done|]. rewrite Z.sub_add in Hfd. apply dropped_ok; [done|done|lia].
  - destruct (H4 (nfds x - 1)) as (q & Hq & _); [lia|]. destruct (replaced_ok x fd i q H Hfd ltac:(lia) Hq) as (Hqf & Hqx & Ha & Hx).
    rewrite (bind_ok _ _ _ _ _ (pfd_get_run (dropped fd x) (nfds x - 1) q ltac:(lia) Hq)).
    rewrite (bind_ok _ _ _ _ _ (pfd_put_run (dropped fd x) i q ltac:(cbn; lia))). set (x2 := put_at i q (dropped fd x)).
    assert (E : idx_get (pfd_fd q) x2 = Ok (nfds x, x2)) by (unfold idx_get, gets; cbn; by rewrite lookup_insert_ne, Hqx).
    rewrite (bind_ok _ _ _ _ _ E), Z.eqb_refl. exists (replaced fd i q x). by split.
Qed.

(** ** The promise to the event map *)

Definition good (m : Z) : Prop := m = POLLIN \/ m = POLLOUT \/ m = Z.lor POLLIN POLLOUT.

(** The events of libevent that an entry waits for. *)
Definition unmask (m : Z) : Z := Z.lor (if has m POLLIN then EV_READ else 0) (if has m POLLOUT then EV_WRITE else 0).

Definition poll_watch (x : pollop) (fd : Z) : Z := match entry_of x fd with Some p => unmask (pfd_events p) | None => 0 end.

Definition poll_ok (x : pollop) : Prop := indexed x /\ forall fd p, entry_of x fd = Some p -> good (pfd_events p).

Lemma unmask_small m : m = 0 \/ good m -> small (unmask m).
Proof. unfold small. intros [->|[->|[->| ->]]]; cbn; auto. Qed.

Lemma add_mask m ev : m = 0 \/ good m -> Z.land ev rw <> 0 ->
  good (Z.lor m (poll_mask ev)) /\ unmask (Z.lor m (poll_mask ev)) = Z.lor (unmask m) (Z.land ev rw).
Proof.
  intros Hm Hev. rewrite land_small in Hev |- *. unfold good, poll_mask.
  destruct (has ev EV_READ), (has ev EV_WRITE); (destruct Hm as [->|[->|[->| ->]]]; [..]); try done; (split; [|done]); cbn; auto.
Qed.

Lemma del_mask m ev : good m -> ev <> 0 -> Z.land (unmask m) ev = ev ->
  Z.land ev rw <> 0 /\ has ev EV_SIGNAL = false /\
  (Z.ldiff m (poll_mask ev) = 0 \/ good (Z.ldiff m (poll_mask ev))) /\ unmask (Z.ldiff m (poll_mask ev)) = Z.ldiff (unmask m) ev.
Proof.
  intros Hm H0 Hs. assert (Hev : small ev /\ (Z.land (unmask m) ev = ev)).
  { split; [|done]. rewrite <-Hs. unfold small. assert (Hl : Z.land (unmask m) ev = Z.land (unmask m) (Z.land ev rw)).
    { rewrite (Z.land_comm ev), Z.land_assoc. f_equal. by destruct Hm as [->|[->| ->]]. }
    rewrite Hl, land_small. destruct (has ev EV_READ), (has ev EV_WRITE); destruct Hm as [->|[->| ->]]; cbn; auto. }
  destruct Hev as [He Hs']. unfold good, poll_mask in *.
  destruct He as [->|[->|[->| ->]]]; [done|..]; destruct Hm as [->|[->| ->]]; try done; (split_and!; [done|done| |done]); cbn; auto.
Qed.

Lemma watch_zero x fd : poll_ok x -> poll_watch x fd <> 0 -> exists p, entry_of x fd = Some p /\ good (pfd_events p).
Proof. intros [_ Hg] Hw. unfold poll_watch in Hw. destruct (entry_of x fd) as [p|] eqn:E; [|done]. eauto. Qed.

(** An entry after poll_add or poll_del. *)
Lemma put_entry_ok x x' fd q :
  indexed x' -> (forall k, k <> fd -> entry_of x' k = entry_of x k) -> entry_of x' fd = Some q -> good (pfd_events q) -> poll_ok x ->
  poll_ok x' /\ forall k, poll_watch x' k = if Z.eqb k fd then unmask (pfd_events q) else poll_watch x k.
Proof.
  intros Hi Hk Hq Hg [_ Hx]. split.
  - split; [done|]. intros k p. destruct (decide (k = fd)) as [->|Hne]; [rewrite Hq; by intros [= <-]|rewrite Hk by done; apply Hx].
  - intros k. unfold poll_watch. destruct (Z.eqb_spec k fd) as [->|Hne]; [by rewrite Hq|by rewrite Hk].
Qed.

Lemma poll_add_run x fd ev :
  poll_ok x -> 0 <= fd -> Z.land ev rw <> 0 -> has ev EV_SIGNAL = false ->
  exists r x', poll_add fd (poll_watch x fd) ev x = Ok (r, x') /\ poll_ok x' /\
    ((r = 0 /\ forall k, poll_watch x' k = if Z.eqb k fd then Z.lor (poll_watch x fd) (Z.land ev rw) else poll_watch x k) \/
     (r = -1 /\ forall k, poll_watch x' k = poll_watch x k)).
Proof.
  intros [H Hg] Hfd Hev Hs. unfold poll_add. rewrite Hs. assert (Hrw : has ev (Z.lor EV_READ EV_WRITE) = true) by (unfold has; apply negb_true_iff, Z.eqb_neq, Hev).
  rewrite Hrw. cbn [negb]. destruct (poll_grow_run x H) as (r & x1 & E1 & H1 & N1 & X1 & I1 & Hr). rewrite (bind_ok _ _ _ _ _ E1).
  assert (Hw1 : forall k, poll_watch x1 k = poll_watch x k) by (intros k; unfold poll_watch; by rewrite X1).
  assert (Hok1 : poll_ok x1) by (split; [done|]; intros k p; rewrite X1; apply Hg).
  destruct Hr as [->|[-> Hroom]]; [exists (-1), x1; split_and!; [done|done|by right]|]. change (Z.eqb 0 (-1)) with false. cbn match.
  destruct (poll_entry_run x1 fd H1 ltac:(lia) Hfd) as (i & p & x2 & E2 & H2 & Hi & Hp & Hpf & Hpe & X2). rewrite (bind_ok _ _ _ _ _ E2).
  rewrite (bind_ok _ _ _ _ _ (pfd_get_run x2 i p ltac:(lia) Hp)).
  rewrite (bind_ok _ _ _ _ _ (pfd_put_run x2 i _ ltac:(pose proof (ix_n _ H2); pose proof (ix_room _ H2); lia))).
  assert (Hm : pfd_events p = 0 \/ good (pfd_events p)).
  { rewrite Hpe, X1. destruct (entry_of x fd) as [q|] eqn:Eq; [right; eauto|by left]. }
  destruct (add_mask (pfd_events p) ev Hm Hev) as [Hgood Hun]. set (q := mkPfd (pfd_fd p) (Z.lor (pfd_events p) (poll_mask ev)) 0).
  destruct (put_at_ok x2 i p q H2 Hi Hp eq_refl) as [H3 X3]. rewrite Hpf in X3.
  destruct (put_entry_ok x (put_at i q x2) fd q) as [Hok3 W3]; try done.
  { intros k Hk. by rewrite X3, (proj2 (Z.eqb_neq _ _)), X2, X1. }
  { by rewrite X3, Z.eqb_refl. }
  exists 0, (put_at i q x2). split_and!; [done|done|left]. split; [done|]. intros k. rewrite W3. destruct (Z.eqb_spec k fd); [|done].
  unfold q. cbn [pfd_events]. rewrite Hun. f_equal. unfold poll_watch. rewrite Hpe, X1. by destruct (entry_of x fd).
Qed.

Lemma poll_del_run x fd ev :
  poll_ok x -> ev <> 0 -> Z.land (poll_watch x fd) ev = ev ->
  exists x', poll_del fd (poll_watch x fd) ev x = Ok (0, x') /\ poll_ok x' /\
    forall k, poll_watch x' k = if Z.eqb k fd then Z.ldiff (poll_watch x fd) ev else poll_watch x k.
Proof.
  intros Hok H0 Hs. destruct (watch_zero x fd Hok) as (p & Hp & Hgp); [intros E; rewrite E in Hs; by rewrite <-Hs in H0|].
  pose proof Hok as [H Hg]. assert (Hw : poll_watch x fd = unmask (pfd_events p)) by (unfold poll_watch; by rewrite Hp). rewrite Hw in Hs |- *.
  destruct (del_mask (pfd_events p) ev Hgp H0 Hs) as (Hev & Hsig & Hm & Hun). unfold poll_del. rewrite Hsig.
  assert (Hrw : has ev (Z.lor EV_READ EV_WRITE) = true) by (unfold has; apply negb_true_iff, Z.eqb_neq, Hev). rewrite Hrw. cbn [negb].
  apply (entry_of_idx x fd p H) in Hp as Hi. destruct Hi as (i & Hi & Ei & Hpi & Hpf).
  assert (Eg : idx_get fd x = Ok (i + 1, x)) by (unfold idx_get, gets; by rewrite Ei). rewrite (bind_ok _ _ _ _ _ Eg). cbn zeta.
  rewrite Z.add_simpl_r, (proj2 (Z.ltb_ge i 0)) by lia. rewrite (bind_ok _ _ _ _ _ (pfd_get_run x i p ltac:(lia) Hpi)).
  set (q := mkPfd (pfd_fd p) (Z.ldiff (pfd_events p) (poll_mask ev)) (pfd_revents p)).
  rewrite (bind_ok _ _ _ _ _ (pfd_put_run x i q ltac:(pose proof (ix_n _ H); pose proof (ix_room _ H); lia))).
  destruct (put_at_ok x i p q H Hi Hpi eq_refl) as [H1 X1]. rewrite Hpf in X1.
  destruct (Z.eqb_spec (Z.ldiff (pfd_events p) (poll_mask ev)) 0) as [Hz|Hnz]; cbn [negb].
  - destruct (remove_run (put_at i q x) fd i H1 Ei Hi) as (x2 & E2 & H2 & X2). rewrite (bind_ok _ _ _ _ _ E2). exists x2. split; [done|].
    assert (Hx : forall k, entry_of x2 k = if Z.eqb k fd then None else entry_of x k) by (intros k; rewrite X2, X1; by destruct (Z.eqb k fd)).
    split; [split; [done|]; intros k p'; rewrite Hx; destruct (Z.eqb k fd); [done|apply Hg]|].
    intros k. unfold poll_watch. rewrite Hx. destruct (Z.eqb k fd); [|done]. rewrite <-Hun, Hz. done.
  - destruct Hm as [Hm|Hm]; [done|]. destruct (put_entry_ok x (put_at i q x) fd q) as [Hok1 W1]; try done.
    { intros k Hk. by rewrite X1, (proj2 (Z.eqb_neq _ _)). }
    { by rewrite X1, Z.eqb_refl. }
    exists (put_at i q x). split_and!; [done|done|]. intros k. rewrite W1. destruct (Z.eqb k fd); [|done]. by rewrite <-Hun.
Qed.

#[export, refine] Instance pollops_ok : BackendOk pollops := { b_inv := poll_ok; watched := poll_watch }.
Proof.
  - intros x fd old ev H Hfd -> Hev Hs. destruct (poll_add_run x fd ev H (proj1 Hfd) Hev Hs) as (r & x' & E & H' & Hr).
    exists r, x'. split_and!; [done|done|]. destruct Hr as [[-> Hw]|[-> Hw]]; [left|right]; split; eauto.
  - intros x fd old ev H Hfd -> Hev Hs. destruct (poll_del_run x fd ev H Hev Hs) as (x' & E & H' & Hw). exists 0, x'. split_and!; [done|done|]. left. split; eauto.
Defined.

(** ** The loop over the array *)

(** The indexes that [rotate] visits. *)
Fixpoint order (n : Z) (j : nat) (i : Z) : list Z :=
  match j with
  | O => []
  | S j' => let i := if Z.eqb (i + 1) n then 0 else i + 1 in i :: order n j' i
  end.

Lemma order_lookup n j : forall i t, 0 <= i < n -> (t < j)%nat -> order n j i !! t = Some ((i + 1 + Z.of_nat t) mod n).
Proof.
  induction j as [|j IH]; intros i t Hi Ht; [lia|]. cbn [order].
  assert (Hm : (if Z.eqb (i + 1) n then 0 else i + 1) = (i + 1) mod n).
  { destruct (Z.eqb_spec (i + 1) n) as [<-|Hne]; [by rewrite Z.mod_same by lia|by rewrite Z.mod_small by lia]. }
  rewrite Hm. destruct t as [|t]; [cbn; by rewrite Z.add_0_r|]. cbn [lookup list_lookup].
  change (order n j ((i + 1) mod n) !! t = Some ((i + 1 + Z.of_nat (S t)) mod n)). rewrite IH; [|apply Z.mod_pos_bound; lia|lia]. f_equal.
  rewrite <-Z.add_assoc, Zplus_mod_idemp_l. f_equal. lia.
Qed.

Lemma order_all n i k : 0 <= i < n -> 0 <= k < n -> k ∈ order n (Z.to_nat n) i.
Proof.
  intros Hi Hk. apply list_elem_of_lookup. exists (Z.to_nat ((k - i - 1) mod n)). pose proof (Z.mod_pos_bound (k - i - 1) n ltac:(lia)).
  rewrite order_lookup by lia. f_equal. rewrite Z2Nat.id, Zplus_mod_idemp_r by lia. replace (i + 1 + (k - i - 1)) with k by lia. by apply Z.mod_small.
Qed.

Lemma order_range n j : forall i k, 0 <= i < n -> k ∈ order n j i -> 0 <= k < n.
Proof.
  induction j as [|j IH]; intros i k Hi; cbn [order]; [by intros ?%not_elem_of_nil|].
  assert (Hi' : 0 <= (if Z.eqb (i + 1) n then 0 else i + 1) < n) by (destruct (Z.eqb_spec (i + 1) n); lia).
  rewrite elem_of_cons. intros [->|Hk]; [done|by eapply IH].
Qed.

Lemma woken_idem ev v : woken ev (woken ev v) = woken ev v.
Proof.
  unfold woken at 2 3. destruct (Z.eqb_spec (Z.land (ev_events v) ev) 0) as [E|E]; [unfold woken; by rewrite (proj2 (Z.eqb_eq _ _))|].
  unfold woken. rewrite (se_events _ _ (activated_same _ v)), (proj2 (Z.eqb_neq _ _)) by done.
  unfold activated at 2 3. destruct (has (ev_flags v) EVLIST_ACTIVE) eqn:Ha.
  - unfold activated. cbn. rewrite Ha. unfold set_res. cbn. f_equal. rewrite <-Z.lor_assoc. by rewrite Z.lor_diag.
  - unfold activated. rewrite has_marked, orb_true_r by done. unfold set_res, marked, set_flags. cbn. by rewrite Z.lor_diag.
Qed.

Section Rotate.
Context {B : Type} `{!Env B} `{!BackendOk (evsel (B := B))}.
Implicit Types b : base B.
Context (x : B) (n : Z) (full : Z -> Z -> bool) (body : Z -> M (base B) unit) (fdof evof : Z -> Z) (f : Z -> Z).
Context (Hfull : forall i, 0 <= i < n -> full (i + 1) n = Z.eqb (i + 1) n).
Context (Hbody : forall K b i, base_ok K b -> evbase b = x -> 0 <= i < n ->
  exists b', body i b = Ok (tt, b') /\ base_ok K b' /\ wakes b b' /\ forall e, evs b' !! e = woken_on (fdof i) (evof i) <$> evs b !! e).
Context (Hf : forall i, 0 <= i < n -> evof i = f (fdof i)).

(** An event after the visits of the indexes [l]. *)
Definition visited (l : list Z) (v : event) : event := foldl (fun v i => woken_on (fdof i) (evof i) v) v l.

Lemma rotate_run K j : forall i b,
  0 <= i < n -> base_ok K b -> evbase b = x ->
  exists b', rotate full body j i n b = Ok (tt, b') /\ base_ok K b' /\ wakes b b' /\ forall e, evs b' !! e = visited (order n j i) <$> evs b !! e.
Proof.
  induction j as [|j IH]; intros i b Hi H Hx; cbn [rotate order].
  { exists b. split_and!; [done|done|apply wakes_refl|]. intros e. by rewrite option_fmap_id. }
  cbn zeta. rewrite Hfull by done. set (i' := if Z.eqb (i + 1) n then 0 else i + 1).
  assert (Hi' : 0 <= i' < n) by (unfold i'; destruct (Z.eqb_spec (i + 1) n); lia).
  destruct (Hbody K b i' H Hx Hi') as (b1 & E1 & H1 & W1 & V1). rewrite (bind_ok _ _ _ _ _ E1).
  destruct (IH i' b1 Hi' H1) as (b2 & E2 & H2 & W2 & V2); [by rewrite (wk_evbase _ _ W1)|].
  exists b2. split_and!; [done|done|by eapply wakes_trans|]. intros e. rewrite V2, V1, <-option_fmap_compose. done.
Qed.

Lemma visited_spec l v : (forall i, i ∈ l -> 0 <= i < n) ->
  visited l v = if decide (ev_fd v ∈ map fdof l) then woken_on (ev_fd v) (f (ev_fd v)) v else v.
Proof.
  revert v. induction l as [|i l IH]; intros v Hl; [by rewrite decide_False by apply not_elem_of_nil|].
  change (visited (i :: l) v) with (visited l (woken_on (fdof i) (evof i) v)). rewrite IH by (intros; apply Hl; set_solver). cbn [map].
  rewrite (Hf i) by (apply Hl; set_solver). destruct (decide (ev_fd v = fdof i)) as [E|E].
  - rewrite E, (decide_True (P := fdof i ∈ _)) by set_solver. rewrite (se_fd _ _ (woken_on_same _ _ v)), E.
    destruct (decide (fdof i ∈ map fdof l)); [|done]. unfold woken_on. destruct (listens (fdof i) v) eqn:El; [|by rewrite El].
    assert (El' : listens (fdof i) (woken (f (fdof i)) v) = true).
    { revert El. unfold listens. by rewrite (se_fd _ _ (woken_same _ v)), (se_flags _ _ (woken_same _ v)). }
    by rewrite El', woken_idem.
  - assert (Hw : woken_on (fdof i) (f (fdof i)) v = v) by (unfold woken_on, listens; rewrite (proj2 (Z.eqb_neq _ _)) by done; by rewrite andb_false_r).
    rewrite Hw. destruct (decide (ev_fd v ∈ map fdof l)); [by rewrite decide_True by set_solver|by rewrite decide_False by set_solver].
Qed.

(** A whole turn visits every index. *)
Lemma turn_run K i b :
  0 <= i < n -> base_ok K b -> evbase b = x ->
  exists b', rotate full body (Z.to_nat n) i n b = Ok (tt, b') /\ base_ok K b' /\ wakes b b' /\
    (forall e, evs b !! e = None -> evs b' !! e = None) /\
    forall e v, evs b !! e = Some v ->
      ((exists k, 0 <= k < n /\ fdof k = ev_fd v) -> evs b' !! e = Some (woken_on (ev_fd v) (f (ev_fd v)) v)) /\
      (~ (exists k, 0 <= k < n /\ fdof k = ev_fd v) -> evs b' !! e = Some v).
Proof.
  intros Hi H Hx. destruct (rotate_run K (Z.to_nat n) i b Hi H Hx) as (b' & E & H' & W & V). exists b'. split_and!; try done; [intros e He; by rewrite V, He|].
  intros e v Hv. rewrite V, Hv. cbn. rewrite visited_spec by (intros k; by apply order_range).
  assert (Hin : ev_fd v ∈ map fdof (order n (Z.to_nat n) i) <-> exists k, 0 <= k < n /\ fdof k = ev_fd v).
  { rewrite list_elem_of_In, in_map_iff. split.
    - intros (k & Hk & Hin%list_elem_of_In). exists k. split; [by eapply order_range|done].
    - intros (k & Hk & Hfk). exists k. split; [done|]. by apply list_elem_of_In, order_all. }
  destruct (decide _) as [Hd|Hd]; rewrite Hin in Hd; naive_solver.
Qed.
End Rotate.

(** ** poll_dispatch *)

(** The revents of the entry of [fd]. *)
Definition revents_of (x : pollop) (rs : list Z) (fd : Z) : Z :=
  match idxplus1 x !! fd with
  | Some k => if Z.eqb k 0 then 0 else nth (Z.to_nat (k - 1)) rs 0
  | None => 0
  end.

Definition with_revents (rs : list Z) (x : pollop) : pollop := set_set (nfds x) (put_revents rs (event_set x)) (idxplus1 x) x.

Lemma put_revents_lookup rs l i p : l !! i = Some (Some p) -> (length rs <= length l)%nat ->
  put_revents rs l !! i = Some (Some (if decide (i < length rs)%nat then mkPfd (pfd_fd p) (pfd_events p) (nth i rs 0) else p)).
Proof.
  intros Hp Hl. unfold put_revents. set (g := fun p r => _). assert (Hz : length (zip_with g (take (length rs) l) rs) = length rs).
  { rewrite length_zip_with, length_take. lia. }
  destruct (decide _) as [Hi|Hi].
  - rewrite lookup_app_l by lia. destruct (lookup_lt_is_Some_2 rs i Hi) as [r Hr]. rewrite (nth_lookup_Some _ _ _ _ Hr).
    apply lookup_zip_with_Some. exists (Some p), r. split_and!; [done| |done]. by rewrite lookup_take, decide_True.
  - rewrite lookup_app_r, Hz, lookup_drop by lia. by replace (length rs + (i - length rs))%nat with i by lia.
Qed.

Lemma length_put_revents rs l : (length rs <= length l)%nat -> length (put_revents rs l) = length l.
Proof. intros Hl. unfold put_revents. rewrite length_app, length_zip_with, length_take, length_drop. lia. Qed.

Lemma with_revents_ok x rs :
  poll_ok x -> length rs = Z.to_nat (nfds x) ->
  poll_ok (with_revents rs x) /\ (forall fd, poll_watch (with_revents rs x) fd = poll_watch x fd) /\
  forall i, 0 <= i < nfds x -> exists p, event_set (with_revents rs x) !! Z.to_nat i = Some (Some p) /\ 0 <= pfd_fd p /\
    poll_watch x (pfd_fd p) <> 0 /\ idxplus1 x !! pfd_fd p = Some (i + 1) /\ pfd_revents p = revents_of x rs (pfd_fd p).
Proof.
  intros [H Hg] Hlen. pose proof H as [H1 H2 H3 H4 H5]. assert (Hll : (length rs <= length (event_set x))%nat) by lia.
  assert (Hix : indexed (with_revents rs x)).
  { split; try done; cbn [nfds with_revents set_set event_count idxplus1 event_set].
    - by rewrite length_put_revents.
    - intros i Hi. destruct (H4 i Hi) as (p & Hp & Hr). rewrite (put_revents_lookup rs _ _ p Hp Hll). eexists. split; [done|]. by destruct (decide _).
    - intros fd k Hk Hk0. destruct (H5 fd k Hk Hk0) as [Hr (p & Hp & Hf)]. split; [done|]. rewrite (put_revents_lookup rs _ _ p Hp Hll).
      eexists. split; [done|]. by destruct (decide _). }
  assert (He : forall fd, pfd_events <$> entry_of (with_revents rs x) fd = pfd_events <$> entry_of x fd).
  { intros fd. unfold entry_of. cbn [idxplus1 with_revents set_set event_set]. destruct (idxplus1 x !! fd) as [k|] eqn:Ek; [|done].
    destruct (Z.eqb_spec k 0) as [|Hk0]; [done|]. destruct (H5 fd k Ek Hk0) as [_ (p & Hp & _)]. rewrite (put_revents_lookup rs _ _ p Hp Hll), Hp. cbn. by destruct (decide _). }
  split_and!.
  - split; [done|]. intros fd p Hp. specialize (He fd). rewrite Hp in He. cbn in He. destruct (entry_of x fd) as [q|] eqn:Eq; [|done].
    injection He as ->. eauto.
  - intros fd. unfold poll_watch. specialize (He fd). destruct (entry_of (with_revents rs x) fd), (entry_of x fd); cbn in He; congruence.
  - intros i Hi. destruct (H4 i Hi) as (p & Hp & Hx & Hf). cbn [with_revents set_set event_set]. rewrite (put_revents_lookup rs _ _ p Hp Hll), decide_True by lia.
    eexists. split; [done|]. cbn [pfd_fd pfd_revents]. split_and!; [done| |done|].
    + unfold poll_watch. assert (Ee : entry_of x (pfd_fd p) = Some p) by (apply (entry_of_idx x _ _ H); by exists i).
      rewrite Ee. destruct (Hg _ _ Ee) as [->|[->| ->]]; done.
    + unfold revents_of. by rewrite Hx, (proj2 (Z.eqb_neq _ _)), Z.add_simpl_r by lia.
Qed.

Lemma poll_ok_answers a r x : poll_ok x -> poll_ok (set_answers a r x).
Proof. intros [[H1 H2 H3 H4 H5] Hg]. by split; [split|]. Qed.

Lemma woken_on_zero fd v : woken_on fd 0 v = v.
Proof. unfold woken_on, woken. rewrite Z.land_0_r. by destruct (listens fd v). Qed.

Section Waits.
Context (sig_add sig_del : Z -> M (base pollop) Z) (notify_fn : option (M pollop Z)) (ad : loc -> Z).

#[local] Instance poll_env : Env pollop :=
  { evsel := pollops; evsig_add := sig_add; evsig_del := sig_del; th_notify_fn := notify_fn; addr := ad }.
#[local] Instance poll_backend : BackendOk evsel := pollops_ok.
Implicit Types b : base pollop.

Lemma poll_base_ok K b x : base_ok K b -> poll_ok x -> (forall fd, poll_watch x fd = poll_watch (evbase b) fd) -> base_ok K (set_evbase x b).
Proof. intros [H1 H2 H3 H4 H5 H6] Hx Hw. split; try done. eapply io_ok_watch; [|exact H4]. intros k _. apply Hw. Qed.

Lemma poll_report_run x0 x rs K b i :
  length rs = Z.to_nat (nfds x0) -> poll_ok x0 -> event_set x = event_set (with_revents rs x0) -> (forall fd, poll_watch x fd = poll_watch x0 fd) ->
  base_ok K b -> evbase b = x -> 0 <= i < nfds x0 ->
  exists b', poll_report i b = Ok (tt, b') /\ base_ok K b' /\ wakes b b' /\
    let p := default (mkPfd 0 0 0) (mjoin (event_set x !! Z.to_nat i)) in
    forall e, evs b' !! e = woken_on (pfd_fd p) (poll_events (pfd_revents p)) <$> evs b !! e.
Proof.
  intros Hlen H0 Hset Hw H Hx Hi. destruct (with_revents_ok x0 rs H0 Hlen) as (_ & _ & Hp). destruct (Hp i Hi) as (p & Ep & Hfd & Hpw & _ & _).
  rewrite <-Hset in Ep. unfold poll_report.
  rewrite (bind_ok _ _ _ _ _ (backend_run (pfd_get i) b p x ltac:(rewrite Hx; apply pfd_get_run; [lia|done]))).
  replace (set_evbase x b) with b by (subst x; by destruct b). rewrite Ep. cbn [mjoin option_join default].
  assert (Hnone : forall r, poll_events r = 0 -> exists b', Ok (tt, b) = Ok (tt, b') /\ base_ok K b' /\ wakes b b' /\
    forall e, evs b' !! e = woken_on (pfd_fd p) (poll_events r) <$> evs b !! e).
  { intros r ->. exists b. split_and!; [done|done|apply wakes_refl|]. intros e. destruct (evs b !! e); [|done]. cbn. by rewrite woken_on_zero. }
  destruct (Z.eqb_spec (pfd_revents p) 0) as [E|E]; [apply (Hnone (pfd_revents p)); by rewrite E|].
  destruct (Z.eqb_spec (poll_events (pfd_revents p)) 0) as [E2|E2]; [by apply (Hnone (pfd_revents p))|].
  apply io_active_run; [done|done|]. rewrite Hx. change (poll_watch x (pfd_fd p) <> 0). by rewrite Hw.
Qed.

(** The event after poll_dispatch: what poll reported for its descriptor. *)
Definition polled (x : pollop) (rs : list Z) (v : event) : event :=
  woken_on (ev_fd v) (poll_events (revents_of x (resize (Z.to_nat (nfds x)) 0 rs) (ev_fd v))) v.

(** When poll returns, poll_dispatch returns 0 and makes active exactly the
    events that wait for what was reported on their descriptor, with that
    result, whichever entry the loop begins with (random), and changes no other
    event; the base stays well-formed and the same descriptors are watched. *)
Lemma poll_dispatch_spec K b tv rs a r rnd :
  base_ok K b -> polls (evbase b) = inr rs :: a -> randoms (evbase b) = r :: rnd -> 0 <= r ->
  exists b', poll_dispatch tv b = Ok (0, b') /\ base_ok K b' /\ (forall fd, poll_watch (evbase b') fd = poll_watch (evbase b) fd) /\
    forall e, evs b' !! e = polled (evbase b) rs <$> evs b !! e.
Proof.
  intros H Ha Hr Hpos. pose proof (b_back _ _ _ H) as Hx. set (x := evbase b) in *. set (n := nfds x). set (rs' := resize (Z.to_nat n) 0 rs).
  assert (Hlen : length rs' = Z.to_nat (nfds x)) by apply length_resize.
  destruct (with_revents_ok x rs' Hx Hlen) as (Hx1 & Hw1 & Hp1). unfold poll_dispatch. rewrite (bind_ok _ _ _ _ _ (gets_run evbase b)). fold x n. cbn zeta.
  set (x1 := set_answers a (randoms x) (with_revents rs' x)). set (res := Z.of_nat (length (filter (fun r => r <> 0) rs'))).
  assert (E1 : poll n (poll_msec tv) x = Ok (inr res, x1)) by (unfold poll; by rewrite Ha).
  rewrite (bind_ok _ _ _ _ _ (backend_run _ b _ _ E1)).
  assert (Hb1 : base_ok K (set_evbase x1 b)) by (apply poll_base_ok; [done|by apply poll_ok_answers|done]).
  destruct (Z.eqb res 0 || Z.eqb n 0) eqn:Ez.
  { exists (set_evbase x1 b). split_and!; [done|done|done|]. intros e. cbn. destruct (evs b !! e) as [v|]; [|done]. cbn. f_equal. symmetry. unfold polled. fold x n rs'.
    assert (Hz : revents_of x rs' (ev_fd v) = 0); [|by rewrite Hz, woken_on_zero]. unfold revents_of. destruct (idxplus1 x !! ev_fd v) as [k|]; [|done].
    destruct (Z.eqb k 0); [done|]. apply orb_true_iff in Ez as [Ez|Ez]; apply Z.eqb_eq in Ez.
    - destruct (rs' !! Z.to_nat (k - 1)) as [w|] eqn:Ew; [|by apply nth_overflow, lookup_ge_None]. rewrite (nth_lookup_Some _ _ _ _ Ew).
      destruct (decide (w = 0)) as [|Hw]; [done|]. assert (Hin : w ∈ filter (fun r => r <> 0) rs') by (apply list_elem_of_filter; split; [done|by eapply list_elem_of_lookup_2]).
      unfold res in Ez. destruct (filter _ rs'); [by apply not_elem_of_nil in Hin|cbn in Ez; lia].
    - apply nth_overflow. unfold n in Ez. lia. }
  apply orb_false_iff in Ez as [_ Hn]. apply Z.eqb_neq in Hn. pose proof (ix_n _ (proj1 Hx)) as Hn0. fold n in Hn0.
  set (x2 := set_answers a rnd (with_revents rs' x)). set (b2 := set_evbase x2 b).
  assert (E2 : backend random (set_evbase x1 b) = Ok (r, b2)) by (unfold backend, random; cbn; by rewrite Hr).
  rewrite (bind_ok _ _ _ _ _ E2). assert (Hb2 : base_ok K b2) by (apply poll_base_ok; [done|by apply poll_ok_answers|done]).
  set (pf := fun i => default (mkPfd 0 0 0) (mjoin (event_set x2 !! Z.to_nat i))).
  destruct (turn_run x2 n Z.eqb poll_report (fun i => pfd_fd (pf i)) (fun i => poll_events (pfd_revents (pf i))) (fun fd => poll_events (revents_of x rs' fd))) with (K := K) (i := Z.rem r n) (b := b2)
    as (b' & E & H' & W & VN & V); try done.
  - intros K' b0 i Hb0 Hx0 Hi. by apply (poll_report_run x x2 rs' K' b0 i).
  - intros i Hi. destruct (Hp1 i Hi) as (p & Ep & _ & _ & _ & Hrev). unfold pf. change (event_set x2) with (event_set (with_revents rs' x)). rewrite Ep. change (poll_events (pfd_revents p) = poll_events (revents_of x rs' (pfd_fd p))). by rewrite Hrev.
  - apply Z.rem_bound_pos; lia.
  - rewrite (bind_ok _ _ _ _ _ E). exists b'. split_and!; [done|done|by rewrite (wk_evbase _ _ W)|]. intros e. change (evs b) with (evs b2).
    destruct (evs b2 !! e) as [v|] eqn:Hv.
    + destruct (V e v Hv) as [V1 V2]. cbn. unfold polled. fold x n rs'.
      destruct (decide (default 0 (idxplus1 x !! ev_fd v) = 0)) as [Hd|Hd].
      * assert (Hz : revents_of x rs' (ev_fd v) = 0) by (unfold revents_of; destruct (idxplus1 x !! ev_fd v); [cbn in Hd; by subst|done]).
        rewrite Hz, woken_on_zero. apply V2. intros (k & Hk & Hkf). destruct (Hp1 k Hk) as (p & Ep & _ & _ & Hix & _).
        unfold pf in Hkf. change (event_set x2) with (event_set (with_revents rs' x)) in Hkf. rewrite Ep in Hkf. cbn in Hkf. rewrite Hkf in Hix. rewrite Hix in Hd. cbn in Hd. lia.
      * apply V1. destruct (idxplus1 x !! ev_fd v) as [k|] eqn:Ek; [|done]. cbn in Hd. destruct (ix_idx _ (proj1 Hx) _ _ Ek Hd) as [Hk (p & Hp & Hpf)].
        exists (k - 1). split; [unfold n; lia|]. unfold pf. change (event_set x2) with (put_revents rs' (event_set x)).
        rewrite (put_revents_lookup rs' _ _ p Hp) by (rewrite Hlen; pose proof (ix_room _ (proj1 Hx)); unfold n in Hn0; lia). cbn. by destruct (decide _).
    + by apply VN.
Qed.
End Waits.
End Poll.
