(* ===== verification/Select.v ===== *)
(** * The select backend (src/libevent/select.c)

    Two sets of descriptors to watch and two that select fills, each an array
    of bits; a bit of memory that was never written is [None]. select and
    random answer from lists, mm_realloc from another. *)

From stdpp Require Import prelude gmap.
From S2P Require Import Prelude MinHeap EvBase EvOps EvLoop EvSig EvNew EvInv EvRun EvFacts Epoll EpollFacts EvPoll Poll.
Open Scope Z_scope.

Module Select.
Import EvBase EvOps EvNew EvInv EvRun EvFacts EpollFacts EvPoll.
Import EvSig (signals, HasSig, evsig_init, evsig_dealloc).
Import Poll (rotate).
Import Epoll (EINTR).

Definition sizeof_fd_mask : Z := 8.
Definition NFDBITS : Z := sizeof_fd_mask * 8.
Definition DIV_ROUNDUP (x y : Z) : Z := (x + (y - 1)) / y.
Definition SELECT_ALLOC_SIZE (n : Z) : Z := DIV_ROUNDUP n NFDBITS * sizeof_fd_mask.

Abbreviation fd_set := (list (option bool)).

(** struct selectop, and the answers to come: select (an error, or the
    descriptors that can be read and those that can be written), random,
    mm_realloc. *)
Record selectop := mkSel {
  event_fds : Z; event_fdsz : Z; resize_out_sets : bool;
  event_readset_in : fd_set; event_writeset_in : fd_set; event_readset_out : fd_set; event_writeset_out : fd_set;
  selects : list (Z + list Z * list Z); s_randoms : list Z; s_mem : list bool; s_sg : signals }.

Abbreviation S := (M selectop).

Definition put_in (fds : Z) (r w : fd_set) (x : selectop) : selectop :=
  mkSel fds (event_fdsz x) (resize_out_sets x) r w (event_readset_out x) (event_writeset_out x) (selects x) (s_randoms x) (s_mem x) (s_sg x).
Definition put_size (n : Z) (o : bool) (x : selectop) : selectop :=
  mkSel (event_fds x) n o (event_readset_in x) (event_writeset_in x) (event_readset_out x) (event_writeset_out x) (selects x) (s_randoms x) (s_mem x) (s_sg x).
Definition put_out (o : bool) (r w : fd_set) (x : selectop) : selectop :=
  mkSel (event_fds x) (event_fdsz x) o (event_readset_in x) (event_writeset_in x) r w (selects x) (s_randoms x) (s_mem x) (s_sg x).
Definition put_answers (a : list (Z + list Z * list Z)) (r : list Z) (m : list bool) (x : selectop) : selectop :=
  mkSel (event_fds x) (event_fdsz x) (resize_out_sets x) (event_readset_in x) (event_writeset_in x) (event_readset_out x) (event_writeset_out x) a r m (s_sg x).

#[export] Instance select_sig : HasSig selectop :=
  { get_sig := s_sg;
    put_sig := fun s x => mkSel (event_fds x) (event_fdsz x) (resize_out_sets x) (event_readset_in x) (event_writeset_in x)
      (event_readset_out x) (event_writeset_out x) (selects x) (s_randoms x) (s_mem x) s }.

Definition s_alloc : S bool := fun x =>
  Ok (match s_mem x with m :: _ => m | [] => false end, put_answers (selects x) (s_randoms x) (tail (s_mem x)) x).

(** The memory after mm_realloc to [sz] bytes. *)
Definition realloc (l : fd_set) (sz : Z) : fd_set := resize (Z.to_nat (8 * sz)) None l.

(** memset((char * )l + from, 0, to - from) *)
Definition clear (from to : Z) (l : fd_set) : res fd_set :=
  if Z.ltb from 0 || Z.ltb to from || Z.ltb (Z.of_nat (length l)) (8 * to) then Fault Overrun
  else Ok (take (Z.to_nat (8 * from)) l ++ replicate (Z.to_nat (8 * (to - from))) (Some false) ++ drop (Z.to_nat (8 * to)) l).

(** FD_SET and FD_CLR, FD_ISSET *)
Definition FD_PUT (fd : Z) (v : bool) (l : fd_set) : res fd_set :=
  if Z.ltb fd 0 || Z.leb (Z.of_nat (length l)) fd then Fault Overrun else Ok (<[Z.to_nat fd := Some v]> l).
Definition FD_ISSET (fd : Z) (l : fd_set) : res bool :=
  match (if Z.ltb fd 0 then None else l !! Z.to_nat fd) with
  | Some (Some v) => Ok v
  | Some None => Fault Uninit
  | None => Fault Overread
  end.

Definition select_resize (fdsz : Z) : S Z :=
  let! ok := s_alloc in
  if negb ok then ret (-1)
  else
    modify (fun x => put_in (event_fds x) (realloc (event_readset_in x) fdsz) (event_writeset_in x) x) ;;
    let! ok := s_alloc in
    if negb ok then ret (-1)
    else
      modify (fun x => put_in (event_fds x) (event_readset_in x) (realloc (event_writeset_in x) fdsz) x) ;;
      modify (fun x => put_size (event_fdsz x) true x) ;;
      let! x := get in
      let! r := lift (clear (event_fdsz x) fdsz (event_readset_in x)) in
      let! w := lift (clear (event_fdsz x) fdsz (event_writeset_in x)) in
      modify (fun x => put_size fdsz (resize_out_sets x) (put_in (event_fds x) r w x)) ;;
      ret 0.

(** while (fdsz < need) fdsz *= 2 *)
Fixpoint double_to (fuel : nat) (fdsz need : Z) : res Z :=
  match fuel with
  | O => Fault NoFuel
  | Datatypes.S f => if Z.ltb fdsz need then double_to f (s32 (fdsz * 2)) need else Ok fdsz
  end.

(** Room for [fd]: -1 without memory. *)
Definition select_room (fd : Z) : S Z :=
  let! x := get in
  if Z.ltb (event_fds x) fd then
    let fdsz := if Z.ltb (event_fdsz x) sizeof_fd_mask then sizeof_fd_mask else event_fdsz x in
    let! fdsz := lift (double_to 32 fdsz (s32 (SELECT_ALLOC_SIZE (fd + 1)))) in
    let! r := (if negb (Z.eqb fdsz (event_fdsz x)) then select_resize fdsz else ret 0) in
    if negb (Z.eqb r 0) then ret (-1)
    else modify (fun x => put_in fd (event_readset_in x) (event_writeset_in x) x) ;; ret 0
  else ret 0.

(** if (events & mask) FD_SET or FD_CLR *)
Definition set_if (events mask fd : Z) (v : bool) (l : fd_set) : res fd_set := if has events mask then FD_PUT fd v l else Ok l.

Definition select_put (fd events : Z) (v : bool) : S unit :=
  let! x := get in
  let! r := lift (set_if events EV_READ fd v (event_readset_in x)) in
  let! w := lift (set_if events EV_WRITE fd v (event_writeset_in x)) in
  modify (fun x => put_in (event_fds x) r w x).

Definition select_add (fd old events : Z) : S Z :=
  if has events EV_SIGNAL then fail AssertFailed
  else
    let! r := select_room fd in
    if Z.eqb r (-1) then ret (-1)
    else select_put fd events true ;; ret 0.

Definition select_del (fd old events : Z) : S Z :=
  if has events EV_SIGNAL then fail AssertFailed
  else
    let! x := get in
    if Z.ltb (event_fds x) fd then ret 0
    else select_put fd events false ;; ret 0.

Definition selectops : eventop selectop := mkOp select_add select_del.

(** ** Waiting *)

(** memcpy of [sz] bytes between sets *)
Definition copy_set (dst src : fd_set) (sz : Z) : res fd_set :=
  if Z.ltb (Z.of_nat (length src)) (8 * sz) then Fault Overread
  else if Z.ltb (Z.of_nat (length dst)) (8 * sz) then Fault Overrun
  else Ok (take (Z.to_nat (8 * sz)) src ++ drop (Z.to_nat (8 * sz)) dst).

(** The out sets, made larger if the in sets were: -1 without memory. *)
Definition resize_out : S Z :=
  let! x := get in
  if resize_out_sets x then
    let! ok := s_alloc in
    if negb ok then ret (-1)
    else
      modify (fun x => put_out (resize_out_sets x) (realloc (event_readset_out x) (event_fdsz x)) (event_writeset_out x) x) ;;
      let! ok := s_alloc in
      if negb ok then ret (-1)
      else modify (fun x => put_out false (event_readset_out x) (realloc (event_writeset_out x) (event_fdsz x)) x) ;; ret 0
  else ret 0.

(** The bits below [n] that stay set: those of the descriptors [l]. *)
Definition keep_bits (n : Z) (l : list Z) (s : fd_set) : fd_set :=
  imap (fun i o => if Z.ltb (Z.of_nat i) n then (fun v : bool => v && bool_decide (Z.of_nat i ∈ l)) <$> o else o) s.

(** select(nfds, readset, writeset, NULL, tv): an error, or 0. *)
Definition select (n : Z) : S (option Z) := fun x =>
  match selects x with
  | [] => Fault Blocked
  | inl err :: a => Ok (Some err, put_answers a (s_randoms x) (s_mem x) x)
  | inr (r, w) :: a =>
      Ok (None, put_out (resize_out_sets x) (keep_bits n r (event_readset_out x)) (keep_bits n w (event_writeset_out x))
                  (put_answers a (s_randoms x) (s_mem x) x))
  end.

Definition s_random : S Z := fun x =>
  Ok (match s_randoms x with r :: _ => r | [] => 0 end, put_answers (selects x) (tail (s_randoms x)) (s_mem x) x).

Section Dispatch.
Context `{!Env selectop}.

Definition select_report (i : Z) : M (base selectop) unit :=
  let! x := gets evbase in
  let! r := lift (FD_ISSET i (event_readset_out x)) in
  let! w := lift (FD_ISSET i (event_writeset_out x)) in
  let res := Z.lor (if r : bool then EV_READ else 0) (if w : bool then EV_WRITE else 0) in
  if Z.eqb res 0 then ret tt else evmap_io_active i res.

Definition select_dispatch (tv : option timeval) : M (base selectop) Z :=
  let! r := backend resize_out in
  if Z.eqb r (-1) then ret (-1)
  else
    let! x := gets evbase in
    let! ro := lift (copy_set (event_readset_out x) (event_readset_in x) (event_fdsz x)) in
    let! wo := lift (copy_set (event_writeset_out x) (event_writeset_in x) (event_fdsz x)) in
    backend (modify (fun x => put_out (resize_out_sets x) ro wo x)) ;;
    let nfds := event_fds x + 1 in
    let! err := backend (select nfds) in
    match err with
    | Some err => ret (if Z.eqb err EINTR then 0 else -1)
    | None =>
        let! k := backend s_random in
        rotate (fun i n => Z.leb n i) select_report (Z.to_nat nfds) (Z.rem k nfds) nfds ;;
        ret 0
    end.
End Dispatch.

Section Init.
Context (notify_fn : option (M selectop Z)) (ad : loc -> Z).

Definition zeroed (x : selectop) : selectop := mkSel 0 0 false [] [] [] [] (selects x) (s_randoms x) (s_mem x) (s_sg x).

Definition select_init (flags : Z) : M (base selectop) (option (eventop selectop)) :=
  let! ok := alloc in
  if negb ok then ret None
  else
    backend (modify zeroed) ;;
    let! r := backend (select_resize (SELECT_ALLOC_SIZE (32 + 1))) in
    if negb (Z.eqb r 0) then backend (modify zeroed) ;; ret None
    else
      let! _ := evsig_init in
      ret (Some selectops).

Definition select_dealloc : M (base selectop) unit :=
  evsig_dealloc selectops notify_fn ad ;;
  backend (modify zeroed).

Definition select_method : method := mkMethod [115; 101; 108; 101; 99; 116] 4 selectops select_init select_dealloc.
End Init.

(** ** The sets *)

Implicit Types x : selectop.

Definition bit (l : fd_set) (fd : Z) : bool := default false (mjoin (l !! Z.to_nat fd)).

(** The first [sz] bytes have been written. *)
Definition written (sz : Z) (l : fd_set) : Prop := forall i, 0 <= i < 8 * sz -> exists v, l !! Z.to_nat i = Some (Some v).

Record sel_ok (x : selectop) : Prop := {
  sl_size : 8 <= event_fdsz x < 536870912;
  sl_fds : 0 <= event_fds x < 8 * event_fdsz x;
  sl_read : written (event_fdsz x) (event_readset_in x);
  sl_write : written (event_fdsz x) (event_writeset_in x);
  sl_high : forall fd, event_fds x < fd -> bit (event_readset_in x) fd = false /\ bit (event_writeset_in x) fd = false;
  sl_out : resize_out_sets x = false ->
    Z.of_nat (length (event_readset_out x)) = 8 * event_fdsz x /\ Z.of_nat (length (event_writeset_out x)) = 8 * event_fdsz x
}.

Definition select_watch (x : selectop) (fd : Z) : Z :=
  Z.lor (if bit (event_readset_in x) fd then EV_READ else 0) (if bit (event_writeset_in x) fd then EV_WRITE else 0).

Lemma written_length sz l : 0 < sz -> written sz l -> 8 * sz <= Z.of_nat (length l).
Proof. intros Hs H. destruct (H (8 * sz - 1)) as [v Hv]; [lia|]. apply lookup_lt_Some in Hv. lia. Qed.

Lemma lookup_realloc l sz i :
  realloc l sz !! i = if decide (i < Z.to_nat (8 * sz))%nat then (if decide (i < length l)%nat then l !! i else Some None) else None.
Proof.
  unfold realloc. rewrite resize_spec. destruct (decide (i < Z.to_nat (8 * sz))%nat) as [Hi|Hi].
  - destruct (decide _) as [Hl|Hl].
    + rewrite lookup_app_l by (rewrite length_take; lia). by rewrite lookup_take, decide_True.
    + rewrite lookup_app_r by (rewrite length_take; lia). rewrite length_take. apply lookup_replicate_2. lia.
  - apply lookup_ge_None. rewrite length_app, length_take, length_replicate. lia.
Qed.

Lemma length_realloc l sz : length (realloc l sz) = Z.to_nat (8 * sz).
Proof. apply length_resize. Qed.

Lemma bit_realloc l sz fd : 0 <= fd -> bit (realloc l sz) fd = if Z.ltb fd (8 * sz) then bit l fd else false.
Proof.
  intros Hfd. unfold bit. rewrite lookup_realloc. destruct (Z.ltb_spec fd (8 * sz)); [|by rewrite decide_False by lia].
  rewrite decide_True by lia. destruct (decide _) as [|Hi]; [done|]. by rewrite (lookup_ge_None_2 l) by lia.
Qed.

Lemma written_realloc l sz sz' : written sz l -> sz <= sz' -> written sz (realloc l sz').
Proof.
  intros H Hs i Hi. destruct (H i Hi) as [v Hv]. exists v. rewrite lookup_realloc, decide_True by lia. by rewrite decide_True by (by eapply lookup_lt_Some).
Qed.

(** The bytes from [sz] to [sz'] cleared. *)
Lemma clear_run l sz sz' : 0 <= sz <= sz' -> 8 * sz' <= Z.of_nat (length l) ->
  exists l', clear sz sz' l = Ok l' /\ length l' = length l /\
    forall i, l' !! i = if decide (Z.to_nat (8 * sz) <= i < Z.to_nat (8 * sz'))%nat then Some (Some false) else l !! i.
Proof.
  intros Hs Hl. unfold clear. rewrite !(proj2 (Z.ltb_ge _ _)) by lia. cbn [orb]. eexists. split; [done|]. split.
  { rewrite !length_app, length_take, length_replicate, length_drop. lia. }
  intros i. destruct (decide (i < Z.to_nat (8 * sz))%nat) as [Hi|Hi].
  - rewrite decide_False by lia. rewrite lookup_app_l by (rewrite length_take; lia). by rewrite lookup_take, decide_True.
  - rewrite lookup_app_r by (rewrite length_take; lia). rewrite length_take, Nat.min_l by lia.
    destruct (decide (Z.to_nat (8 * sz) <= i < Z.to_nat (8 * sz'))%nat) as [Hj|Hj].
    + rewrite lookup_app_l by (rewrite length_replicate; lia). apply lookup_replicate_2. lia.
    + rewrite lookup_app_r by (rewrite length_replicate; lia). rewrite length_replicate, lookup_drop. f_equal. lia.
Qed.

Lemma double_to_run f : forall fdsz need, 0 < fdsz -> need <= 2 ^ Z.of_nat f * fdsz -> 0 <= need < 268435456 ->
  exists k, double_to (Datatypes.S f) fdsz need = Ok k /\ fdsz <= k /\ need <= k /\ (k = fdsz \/ k < 2 * need).
Proof.
  induction f as [|f IH]; intros fdsz need Hp Hn Hb; cbn [double_to].
  - rewrite (proj2 (Z.ltb_ge _ _)) by (cbn in Hn; lia). exists fdsz. split_and!; [done|lia|cbn in Hn; lia|by left].
  - destruct (Z.ltb_spec fdsz need) as [Hl|Hl]; [|exists fdsz; split_and!; [done|lia|lia|by left]].
    rewrite s32_id by lia. rewrite Nat2Z.inj_succ, Z.pow_succ_r in Hn by lia.
    destruct (IH (fdsz * 2) need) as (k & E & K1 & K2 & K3); [lia|lia|done|].
    exists k. split; [exact E|]. split_and!; [lia|done|]. right. destruct K3 as [->|]; lia.
Qed.

(** The sets of [x'] hold the same descriptors. *)
Definition same_sets (x x' : selectop) : Prop :=
  forall fd, 0 <= fd -> bit (event_readset_in x') fd = bit (event_readset_in x) fd /\ bit (event_writeset_in x') fd = bit (event_writeset_in x) fd.

Lemma same_sets_watch x x' : same_sets x x' -> forall fd, 0 <= fd -> select_watch x' fd = select_watch x fd.
Proof. intros H fd Hfd. unfold select_watch. by destruct (H fd Hfd) as [-> ->]. Qed.

(** A set after realloc and memset. *)
Lemma grown_set l sz sz' : written sz l -> 0 <= sz <= sz' -> (forall fd, 8 * sz <= fd -> bit l fd = false) ->
  exists l', clear sz sz' (realloc l sz') = Ok l' /\ written sz' l' /\ forall fd, 0 <= fd -> bit l' fd = bit l fd.
Proof.
  intros Hw Hs Hh. destruct (clear_run (realloc l sz') sz sz') as (l' & E & _ & Hl'); [done|rewrite length_realloc; lia|].
  exists l'. split; [done|]. split.
  - intros i Hi. rewrite Hl'. destruct (decide _) as [Hd|Hd]; [by exists false|]. apply (written_realloc l sz sz' Hw); lia.
  - intros fd Hfd. unfold bit at 1. rewrite Hl'. destruct (decide _) as [Hd|Hd]; [cbn; rewrite Hh; [done|lia]|].
    change (bit (realloc l sz') fd = bit l fd). rewrite bit_realloc by done. destruct (Z.ltb_spec fd (8 * sz')); [done|]. rewrite Hh; [done|lia].
Qed.

Lemma resize_run x fdsz :
  sel_ok x -> event_fdsz x < fdsz < 536870912 ->
  exists r x', select_resize fdsz x = Ok (r, x') /\ sel_ok x' /\ same_sets x x' /\ event_fds x' = event_fds x /\
    (r = -1 \/ (r = 0 /\ event_fdsz x' = fdsz)).
Proof.
  intros [H1 H2 H3 H4 H5 H6] Hf. unfold select_resize.
  set (x1 := put_answers (selects x) (s_randoms x) (tail (s_mem x)) x). unfold bind at 1, s_alloc at 1. fold x1.
  assert (Hx1 : sel_ok x1) by (by split).
  destruct (match s_mem x with m :: _ => m | [] => false end); cbn [negb].
  2: { exists (-1), x1. split_and!; try done. by left. }
  set (x2 := put_in (event_fds x1) (realloc (event_readset_in x1) fdsz) (event_writeset_in x1) x1).
  assert (Hhr : forall fd, 8 * event_fdsz x <= fd -> bit (event_readset_in x) fd = false) by (intros fd Hfd; apply H5; lia).
  assert (Hhw : forall fd, 8 * event_fdsz x <= fd -> bit (event_writeset_in x) fd = false) by (intros fd Hfd; apply H5; lia).
  assert (Hsame : forall fd, 0 <= fd -> bit (realloc (event_readset_in x) fdsz) fd = bit (event_readset_in x) fd).
  { intros fd Hfd. rewrite bit_realloc by done. destruct (Z.ltb_spec fd (8 * fdsz)); [done|]. rewrite Hhr; [done|lia]. }
  rewrite (bind_ok _ _ _ _ _ (eq_refl : modify (fun x => put_in (event_fds x) (realloc (event_readset_in x) fdsz) (event_writeset_in x) x) x1 = Ok (tt, x2))).
  set (x3 := put_answers (selects x2) (s_randoms x2) (tail (s_mem x2)) x2). unfold bind at 1, s_alloc at 1. fold x3.
  destruct (match s_mem x2 with m :: _ => m | [] => false end); cbn [negb].
  2: { exists (-1), x3. split_and!; try done; [|by intros fd Hfd; split; [apply Hsame|]|by left]. split; try done; cbn.
       - apply written_realloc; [done|lia].
       - intros fd Hfd. rewrite Hsame by lia. by apply H5. }
  destruct (grown_set (event_readset_in x) (event_fdsz x) fdsz H3 ltac:(lia) Hhr) as (r & Er & Wr & Br).
  destruct (grown_set (event_writeset_in x) (event_fdsz x) fdsz H4 ltac:(lia) Hhw) as (w & Ew & Ww & Bw).
  set (x4 := put_in (event_fds x3) (event_readset_in x3) (realloc (event_writeset_in x3) fdsz) x3).
  rewrite (bind_ok _ _ _ _ _ (eq_refl : modify (fun x => put_in (event_fds x) (event_readset_in x) (realloc (event_writeset_in x) fdsz) x) x3 = Ok (tt, x4))).
  set (x5 := put_size (event_fdsz x4) true x4). rewrite (bind_ok _ _ _ _ _ (eq_refl : modify (fun x => put_size (event_fdsz x) true x) x4 = Ok (tt, x5))).
  rewrite (bind_ok _ _ _ _ _ (eq_refl : get x5 = Ok (x5, x5))). unfold bind at 1, lift at 1.
  change (event_fdsz x5) with (event_fdsz x). change (event_readset_in x5) with (realloc (event_readset_in x) fdsz). rewrite Er.
  unfold bind at 1, lift at 1. change (event_writeset_in x5) with (realloc (event_writeset_in x) fdsz). rewrite Ew.
  exists 0, (put_size fdsz true (put_in (event_fds x5) r w x5)). split; [done|]. split_and!; [|intros fd Hfd; split; [by apply Br|by apply Bw]|done|by right].
  split; try done; cbn; try lia. intros fd Hfd. rewrite Br, Bw by lia. by apply H5.
Qed.

Lemma room_run x fd :
  sel_ok x -> 0 <= fd < 1073741824 ->
  exists r x', select_room fd x = Ok (r, x') /\ sel_ok x' /\ same_sets x x' /\ (r = -1 \/ (r = 0 /\ fd <= event_fds x')).
Proof.
  intros H Hfd. pose proof H as [H1 H2 H3 H4 H5 H6]. unfold select_room. rewrite (bind_ok _ _ _ _ _ (eq_refl : get x = Ok (x, x))).
  destruct (Z.ltb_spec (event_fds x) fd) as [Hlt|Hge]; [|by exists 0, x; split_and!; try done; right].
  rewrite (proj2 (Z.ltb_ge (event_fdsz x) sizeof_fd_mask)) by (unfold sizeof_fd_mask; lia). cbn zeta.
  assert (Hneed : 0 <= SELECT_ALLOC_SIZE (fd + 1) < 268435456 /\ fd < 8 * SELECT_ALLOC_SIZE (fd + 1)).
  { unfold SELECT_ALLOC_SIZE, DIV_ROUNDUP, NFDBITS, sizeof_fd_mask. Z.div_mod_to_equations. lia. }
  rewrite s32_id by lia. destruct (double_to_run 31 (event_fdsz x) (SELECT_ALLOC_SIZE (fd + 1))) as (k & E & K1 & K2 & K3); [lia| |lia|].
  { change (2 ^ Z.of_nat 31) with 2147483648. lia. }
  unfold bind at 1, lift at 1. rewrite E. destruct (Z.eqb_spec k (event_fdsz x)) as [->|Hk]; cbn [negb].
  - rewrite (bind_ok _ _ _ _ _ (eq_refl : ret 0 x = Ok (0, x))). cbn [negb Z.eqb].
    exists 0, (put_in fd (event_readset_in x) (event_writeset_in x) x). split; [done|]. split_and!; try done; [|right; cbn; lia].
    split; try done; cbn; [lia|]. intros f Hf. apply H5. lia.
  - destruct (resize_run x k H ltac:(lia)) as (r & x1 & E1 & [G1 G2 G3 G4 G5 G6] & Hs & Hf & Hr). rewrite (bind_ok _ _ _ _ _ E1).
    destruct Hr as [->|[-> Hz]]; cbn [negb Z.eqb]; [by exists (-1), x1; split_and!; try done; left|].
    exists 0, (put_in fd (event_readset_in x1) (event_writeset_in x1) x1). split; [done|]. split_and!; try done; [|right; cbn; lia].
    split; try done; cbn; [lia|]. intros f Hf'. apply G5. lia.
Qed.

(** FD_SET or FD_CLR, if asked for. *)
Lemma set_if_run events mask fd v l sz : written sz l -> 0 <= fd < 8 * sz ->
  exists l', set_if events mask fd v l = Ok l' /\ written sz l' /\
    forall k, 0 <= k -> bit l' k = if has events mask && Z.eqb k fd then v else bit l k.
Proof.
  intros Hw Hfd. unfold set_if. destruct (has events mask); [|by exists l]. unfold FD_PUT.
  pose proof (written_length sz l ltac:(lia) Hw) as Hl. rewrite (proj2 (Z.ltb_ge _ _)), (proj2 (Z.leb_gt _ _)) by lia. eexists. split; [done|].
  assert (Hb : forall k, 0 <= k -> <[Z.to_nat fd := Some v]> l !! Z.to_nat k = if Z.eqb k fd then Some (Some v) else l !! Z.to_nat k).
  { intros k Hk. destruct (Z.eqb_spec k fd) as [->|Hne]; [apply list_lookup_insert_eq; lia|apply list_lookup_insert_ne; lia]. }
  split.
  - intros i Hi. rewrite Hb by lia. destruct (Z.eqb i fd); [by exists v|by apply Hw].
  - intros k Hk. unfold bit at 1. rewrite Hb by done. cbn [andb]. by destruct (Z.eqb k fd).
Qed.

Lemma put_run x fd events v :
  sel_ok x -> 0 <= fd <= event_fds x ->
  exists x', select_put fd events v x = Ok (tt, x') /\ sel_ok x' /\
    forall k, 0 <= k -> select_watch x' k =
      if Z.eqb k fd then Z.lor (if (if has events EV_READ then v else bit (event_readset_in x) k) then EV_READ else 0)
                               (if (if has events EV_WRITE then v else bit (event_writeset_in x) k) then EV_WRITE else 0)
      else select_watch x k.
Proof.
  intros [H1 H2 H3 H4 H5 H6] Hfd. unfold select_put. rewrite (bind_ok _ _ _ _ _ (eq_refl : get x = Ok (x, x))).
  destruct (set_if_run events EV_READ fd v _ _ H3 ltac:(lia)) as (r & Er & Wr & Br).
  destruct (set_if_run events EV_WRITE fd v _ _ H4 ltac:(lia)) as (w & Ew & Ww & Bw).
  unfold bind at 1, lift at 1. rewrite Er. unfold bind at 1, lift at 1. rewrite Ew.
  exists (put_in (event_fds x) r w x). split; [done|]. split.
  - split; try done. cbn. intros k Hk. rewrite Br, Bw, (proj2 (Z.eqb_neq k fd)), !andb_false_r by lia. by apply H5.
  - intros k Hk. unfold select_watch. cbn [event_readset_in event_writeset_in put_in]. rewrite Br, Bw by done.
    destruct (Z.eqb k fd); rewrite ?andb_true_r, ?andb_false_r; [|done]. by destruct (has events EV_READ), (has events EV_WRITE).
Qed.

Lemma watch_bits x fd : bit (event_readset_in x) fd = has (select_watch x fd) EV_READ /\ bit (event_writeset_in x) fd = has (select_watch x fd) EV_WRITE.
Proof. unfold select_watch. by destruct (bit (event_readset_in x) fd), (bit (event_writeset_in x) fd). Qed.

Lemma watch_small x fd : small (select_watch x fd).
Proof. unfold select_watch, small. destruct (bit (event_readset_in x) fd), (bit (event_writeset_in x) fd); cbn; auto. Qed.

#[export, refine] Instance selectops_ok : BackendOk selectops := { b_inv := sel_ok; watched := select_watch }.
Proof.
  - intros x fd old ev H Hfd -> Hev Hs. cbn [op_add selectops]. unfold select_add. rewrite Hs.
    destruct (room_run x fd H Hfd) as (r & x1 & E1 & H1 & S1 & Hr). rewrite (bind_ok _ _ _ _ _ E1). pose proof (same_sets_watch x x1 S1) as W1.
    destruct Hr as [->|[-> Hle]].
    + exists (-1), x1. split_and!; [done|done|]. by right.
    + change (Z.eqb 0 (-1)) with false. cbn match. destruct (put_run x1 fd ev true H1 ltac:(lia)) as (x2 & E2 & H2 & W2). rewrite (bind_ok _ _ _ _ _ E2).
      exists 0, x2. split_and!; [done|done|]. left. split; [done|]. intros k Hk. rewrite W2 by done. destruct (Z.eqb_spec k fd) as [->|]; [|by apply W1].
      destruct (watch_bits x1 fd) as [-> ->]. rewrite W1 by lia. rewrite land_small.
      destruct (has ev EV_READ), (has ev EV_WRITE); destruct (watch_small x fd) as [->|[->|[->| ->]]]; done.
  - intros x fd old ev H Hfd -> Hev Hs. cbn [op_del selectops]. unfold select_del.
    assert (Hsm : small ev).
    { rewrite <-Hs. assert (Hl : Z.land (select_watch x fd) ev = Z.land (select_watch x fd) (Z.land ev rw)).
      { rewrite (Z.land_comm ev), Z.land_assoc. f_equal. by destruct (watch_small x fd) as [->|[->|[->| ->]]]. }
      rewrite Hl, land_small. unfold small. destruct (has ev EV_READ), (has ev EV_WRITE); destruct (watch_small x fd) as [->|[->|[->| ->]]]; cbn; auto. }
    assert (Hsig : has ev EV_SIGNAL = false) by (by destruct Hsm as [->|[->|[->| ->]]]). rewrite Hsig, (bind_ok _ _ _ _ _ (eq_refl : get x = Ok (x, x))).
    destruct (Z.ltb_spec (event_fds x) fd) as [Hlt|Hge].
    { destruct (sl_high _ H fd Hlt) as [E1 E2]. exfalso. apply Hev. rewrite <-Hs. unfold select_watch. by rewrite E1, E2. }
    destruct (put_run x fd ev false H ltac:(lia)) as (x2 & E2 & H2 & W2). rewrite (bind_ok _ _ _ _ _ E2).
    exists 0, x2. split_and!; [done|done|]. left. split; [done|]. intros k Hk. rewrite W2 by done. destruct (Z.eqb_spec k fd) as [->|]; [|done].
    destruct (watch_bits x fd) as [-> ->]. destruct (watch_small x fd) as [E|[E|[E|E]]]; rewrite E in Hs |- *; destruct Hsm as [->|[->|[->| ->]]]; done.
Defined.

(** ** select_dispatch *)

(** Only the out sets and the answers differ. *)
Record same_in (x x' : selectop) : Prop := {
  si_fds : event_fds x' = event_fds x; si_fdsz : event_fdsz x' = event_fdsz x;
  si_read : event_readset_in x' = event_readset_in x; si_write : event_writeset_in x' = event_writeset_in x }.

Lemma same_in_watch x x' fd : same_in x x' -> select_watch x' fd = select_watch x fd.
Proof. intros [_ _ E1 E2]. unfold select_watch. by rewrite E1, E2. Qed.

Lemma same_in_ok x x' : sel_ok x -> same_in x x' ->
  (resize_out_sets x' = false -> Z.of_nat (length (event_readset_out x')) = 8 * event_fdsz x /\ Z.of_nat (length (event_writeset_out x')) = 8 * event_fdsz x) ->
  sel_ok x'.
Proof. intros [H1 H2 H3 H4 H5 H6] [E1 E2 E3 E4] Ho. split; rewrite ?E1, ?E2, ?E3, ?E4; done. Qed.

Lemma resize_out_run x :
  sel_ok x -> exists r x', resize_out x = Ok (r, x') /\ sel_ok x' /\ same_in x x' /\ selects x' = selects x /\ s_randoms x' = s_randoms x /\
    (r = -1 \/ (r = 0 /\ resize_out_sets x' = false)).
Proof.
  intros H. pose proof (sl_size _ H) as Hs. unfold resize_out. rewrite (bind_ok _ _ _ _ _ (eq_refl : get x = Ok (x, x))).
  destruct (resize_out_sets x) eqn:Ho; [|by exists 0, x; split_and!; try done; right].
  set (x1 := put_answers (selects x) (s_randoms x) (tail (s_mem x)) x). unfold bind at 1, s_alloc at 1. fold x1.
  destruct (match s_mem x with m :: _ => m | [] => false end); cbn [negb].
  2: { exists (-1), x1. split_and!; try done; [|by left]. apply (same_in_ok x); [done|done|]. cbn. by rewrite Ho. }
  set (x2 := put_out (resize_out_sets x1) (realloc (event_readset_out x1) (event_fdsz x1)) (event_writeset_out x1) x1).
  rewrite (bind_ok _ _ _ _ _ (eq_refl : modify (fun x => put_out (resize_out_sets x) (realloc (event_readset_out x) (event_fdsz x)) (event_writeset_out x) x) x1 = Ok (tt, x2))).
  set (x3 := put_answers (selects x2) (s_randoms x2) (tail (s_mem x2)) x2). unfold bind at 1, s_alloc at 1. fold x3.
  destruct (match s_mem x2 with m :: _ => m | [] => false end); cbn [negb].
  2: { exists (-1), x3. split_and!; try done; [|by left]. apply (same_in_ok x); [done|done|]. cbn. by rewrite Ho. }
  exists 0, (put_out false (event_readset_out x3) (realloc (event_writeset_out x3) (event_fdsz x3)) x3). split; [done|]. split_and!; try done; [|by right].
  apply (same_in_ok x); [done|done|]. intros _. cbn. rewrite !length_realloc. lia.
Qed.

Lemma copy_run sz src dst : 0 < sz -> written sz src -> Z.of_nat (length dst) = 8 * sz -> copy_set dst src sz = Ok (take (Z.to_nat (8 * sz)) src).
Proof.
  intros Hs Hw Hd. pose proof (written_length sz src Hs Hw) as Hl. unfold copy_set. rewrite !(proj2 (Z.ltb_ge _ _)) by lia.
  by rewrite (drop_ge dst), app_nil_r by lia.
Qed.

(** The bits that select leaves. *)
Lemma isset_run n l i sz src : written sz src -> 0 <= i < n -> n <= 8 * sz ->
  FD_ISSET i (keep_bits n l (take (Z.to_nat (8 * sz)) src)) = Ok (bit src i && bool_decide (i ∈ l)).
Proof.
  intros Hw Hi Hn. unfold FD_ISSET. rewrite (proj2 (Z.ltb_ge i 0)) by lia. unfold keep_bits. rewrite list_lookup_imap, lookup_take, decide_True by lia.
  destruct (Hw i) as [v Hv]; [lia|]. unfold bit. rewrite Hv. cbn. rewrite Z2Nat.id, (proj2 (Z.ltb_lt _ _)) by lia. done.
Qed.

Section Waits.
Context (sig_add sig_del : Z -> M (base selectop) Z) (notify_fn : option (M selectop Z)) (ad : loc -> Z).

#[local] Instance select_env : Env selectop :=
  { evsel := selectops; evsig_add := sig_add; evsig_del := sig_del; th_notify_fn := notify_fn; addr := ad }.
#[local] Instance select_backend : BackendOk evsel := selectops_ok.
Implicit Types b : base selectop.

Lemma select_base_ok K b x : base_ok K b -> sel_ok x -> (forall fd, select_watch x fd = select_watch (evbase b) fd) -> base_ok K (set_evbase x b).
Proof. intros [H1 H2 H3 H4 H5 H6] Hx Hw. split; try done. eapply io_ok_watch; [|exact H4]. intros k _. apply Hw. Qed.

(** What select reports for [fd], of what is watched. *)
Definition selected_events (x : selectop) (rl wl : list Z) (fd : Z) : Z :=
  if Z.ltb fd 0 then 0
  else Z.lor (if bit (event_readset_in x) fd && bool_decide (fd ∈ rl) then EV_READ else 0) (if bit (event_writeset_in x) fd && bool_decide (fd ∈ wl) then EV_WRITE else 0).

Definition selected (x : selectop) (rl wl : list Z) (v : event) : event := woken_on (ev_fd v) (selected_events x rl wl (ev_fd v)) v.

Lemma select_report_run x0 x rl wl K b i :
  sel_ok x0 -> (forall fd, select_watch x fd = select_watch x0 fd) ->
  event_readset_out x = keep_bits (event_fds x0 + 1) rl (take (Z.to_nat (8 * event_fdsz x0)) (event_readset_in x0)) ->
  event_writeset_out x = keep_bits (event_fds x0 + 1) wl (take (Z.to_nat (8 * event_fdsz x0)) (event_writeset_in x0)) ->
  base_ok K b -> evbase b = x -> 0 <= i < event_fds x0 + 1 ->
  exists b', select_report i b = Ok (tt, b') /\ base_ok K b' /\ wakes b b' /\ forall e, evs b' !! e = woken_on i (selected_events x0 rl wl i) <$> evs b !! e.
Proof.
  intros H0 Hw Hr Hwr H Hx Hi. pose proof H0 as [H1 H2 H3 H4 H5 H6]. unfold select_report. rewrite (bind_ok _ _ _ _ _ (gets_run evbase b)), Hx, Hr, Hwr.
  rewrite !(isset_run (event_fds x0 + 1) _ i (event_fdsz x0)) by (done || lia). unfold bind at 1, lift at 1. unfold bind at 1, lift at 1.
  unfold selected_events. rewrite (proj2 (Z.ltb_ge i 0)) by lia. set (res := Z.lor _ _).
  destruct (Z.eqb_spec res 0) as [->|Hne].
  - exists b. split_and!; [done|done|apply wakes_refl|]. intros e. destruct (evs b !! e); [|done]. cbn. by rewrite Poll.woken_on_zero.
  - apply io_active_run; [done|lia|]. rewrite Hx. change (select_watch x i <> 0). rewrite Hw. unfold select_watch. subst res.
    by destruct (bit (event_readset_in x0) i), (bit (event_writeset_in x0) i), (bool_decide (i ∈ rl)), (bool_decide (i ∈ wl)).
Qed.

(** When select returns, select_dispatch returns -1 because there is no
    memory for the sets it gives to select, and changes no event; or it returns
    0 and makes active exactly the events that wait for what was reported on
    their descriptor, whichever descriptor the loop begins with. The base stays
    well-formed and the same descriptors are watched. *)
Lemma select_dispatch_spec K b tv rl wl a k rnd :
  base_ok K b -> selects (evbase b) = inr (rl, wl) :: a -> s_randoms (evbase b) = k :: rnd -> 0 <= k ->
  exists r b', select_dispatch tv b = Ok (r, b') /\ base_ok K b' /\ (forall fd, select_watch (evbase b') fd = select_watch (evbase b) fd) /\
    ((r = -1 /\ evs b' = evs b) \/ (r = 0 /\ forall e, evs b' !! e = selected (evbase b) rl wl <$> evs b !! e)).
Proof.
  intros H Ha Hk Hpos. pose proof (b_back _ _ _ H) as Hx. set (x := evbase b) in *. unfold select_dispatch.
  destruct (resize_out_run x Hx) as (r & x1 & E1 & H1 & S1 & A1 & R1 & Hr). rewrite (bind_ok _ _ _ _ _ (backend_run _ b _ _ E1)).
  assert (Hb1 : base_ok K (set_evbase x1 b)) by (apply select_base_ok; [done|done|intros fd; by apply same_in_watch]).
  destruct Hr as [->|[-> Hout]].
  { exists (-1), (set_evbase x1 b). split_and!; [done|done|intros fd; by apply same_in_watch|]. by left. }
  change (Z.eqb 0 (-1)) with false. cbn match. rewrite (bind_ok _ _ _ _ _ (gets_run evbase (set_evbase x1 b))). change (evbase (set_evbase x1 b)) with x1.
  pose proof H1 as [G1 G2 G3 G4 G5 G6]. destruct (G6 Hout) as [Lr Lw]. set (t := Z.to_nat (8 * event_fdsz x1)).
  unfold bind at 1, lift at 1. rewrite (copy_run (event_fdsz x1)) by (done || lia). unfold bind at 1, lift at 1. rewrite (copy_run (event_fdsz x1)) by (done || lia). fold t.
  set (x2 := put_out (resize_out_sets x1) (take t (event_readset_in x1)) (take t (event_writeset_in x1)) x1).
  rewrite (bind_ok _ _ _ _ _ (eq_refl : backend (modify (fun x => put_out (resize_out_sets x) (take t (event_readset_in x1)) (take t (event_writeset_in x1)) x)) (set_evbase x1 b) = Ok (tt, set_evbase x2 b))).
  cbn zeta. set (n := event_fds x1 + 1).
  set (x3 := put_out false (keep_bits n rl (take t (event_readset_in x1))) (keep_bits n wl (take t (event_writeset_in x1))) (put_answers a (s_randoms x1) (s_mem x1) x1)).
  assert (E3 : backend (select n) (set_evbase x2 b) = Ok (None, set_evbase x3 b)).
  { unfold backend, select. cbn [evbase set_evbase]. change (selects x2) with (selects x1). rewrite A1, Ha. unfold x3. by rewrite <-Hout. }
  rewrite (bind_ok _ _ _ _ _ E3). set (x4 := put_answers a rnd (s_mem x1) x3). set (b4 := set_evbase x4 b).
  assert (E4 : backend s_random (set_evbase x3 b) = Ok (k, b4)).
  { unfold backend, s_random. cbn [evbase set_evbase]. change (s_randoms x3) with (s_randoms x1). by rewrite R1, Hk. }
  rewrite (bind_ok _ _ _ _ _ E4).
  assert (S4 : same_in x x4) by (destruct S1 as [Q1 Q2 Q3 Q4]; by split).
  assert (Hx4 : sel_ok x4).
  { apply (same_in_ok x); [done|done|]. intros _. cbn. unfold keep_bits. rewrite !length_imap, !length_take, <-(si_fdsz _ _ S1).
    pose proof (written_length (event_fdsz x1) _ ltac:(lia) G3). pose proof (written_length (event_fdsz x1) _ ltac:(lia) G4). lia. }
  assert (Hb4 : base_ok K b4) by (apply select_base_ok; [done|done|intros fd; by apply same_in_watch]).
  assert (Hsel : forall fd, selected_events x1 rl wl fd = selected_events x rl wl fd) by (intros fd; unfold selected_events; by rewrite (si_read _ _ S1), (si_write _ _ S1)).
  destruct (Poll.turn_run x4 n (fun i n => Z.leb n i) select_report (fun i => i) (selected_events x1 rl wl) (selected_events x1 rl wl)) with (K := K) (i := Z.rem k n) (b := b4)
    as (b' & E & H' & W & VN & V); try done.
  - intros i Hi. destruct (Z.leb_spec n (i + 1)), (Z.eqb_spec (i + 1) n); first [done|unfold n in *; lia].
  - intros K' b0 i Hb0 Hx0 Hi. by apply (select_report_run x1 x4 rl wl K' b0 i).
  - apply Z.rem_bound_pos; [lia|unfold n; lia].
  - rewrite (bind_ok _ _ _ _ _ E). exists 0, b'. split_and!; [done|done|intros fd; rewrite (wk_evbase _ _ W); by apply same_in_watch|]. right. split; [done|].
    intros e. change (evs b) with (evs b4). destruct (evs b4 !! e) as [v|] eqn:Hv; [|by apply VN]. destruct (V e v Hv) as [V1 V2]. cbn. unfold selected. rewrite <-Hsel.
    destruct (decide (0 <= ev_fd v < n)) as [Hd|Hd]; [apply V1; by exists (ev_fd v)|]. rewrite V2 by (intros (j & Hj & Hjv); lia). f_equal.
    enough (Hz : selected_events x1 rl wl (ev_fd v) = 0) by (by rewrite Hz, Poll.woken_on_zero). unfold selected_events.
    destruct (Z.ltb_spec (ev_fd v) 0); [done|]. destruct (G5 (ev_fd v)) as [-> ->]; [unfold n in Hd; lia|done].
Qed.
End Waits.
End Select.
