(* ===== verification/EvThms.v ===== *)
(** * The event base of the server: theorems

    What event_add, event_del, timeout_process and the loop over the active
    events do on every well-formed base, for every backend that keeps the
    promise [BackendOk], and what a changelist tells the kernel. The witnesses
    use the epoll backend. *)

From stdpp Require Import prelude gmap.
From S2P Require Import Prelude MinHeap EvBase EvOps EvLoop EvSig EvNew EvInv EvRun EvFacts EvCheck EvServe Epoll EpollFacts EvPoll EvStart.
Open Scope Z_scope.

Module EvThms.
Import EvSig (signals, mkSignals, mkSigInfo).
Import EvBase EvOps EvLoop EvInv EvRun EvFacts EvServe Epoll EpollFacts EvPoll.

(** ** A base with one event: the server's read event of a connection *)

Definition no_threads : control := mkCtrl false false false (-1) false None 0 0 None 0 false.
Definition at_100 : clock := mkClk (100, 0) (100, 0) (0, 0) 0 true false [] [].
Definition conn_event : event := mkEvent 5 true (Z.lor EV_READ EV_PERSIST) 0 EVLIST_INIT 0 EV_CLOSURE_PERSIST (0, 0) 0 false 77 9.
Definition no_signals : signals := mkSignals (mkSigInfo 1 (-1, -1) false 0 []) None 0 (-1) ∅ [] [] [] [].
Definition fresh_epoll : epollop := mkEp 32 [] 0 ∅ ∅ [] [] [true] None no_signals.
(** That base, with the state [x] behind the backend. *)
Definition one_event_of {B : Type} (x : B) : base B :=
  mkBase (MinHeap.mkSt MinHeap.min_heap_ctor {[1%positive := MinHeap.mkEv 0 0 (-1)]} [true; true; true])
    {[1%positive := conn_event]} (mkQs [] [[]] [] [] [] 0 0 0) at_100 no_threads x.
Definition one_event : base epollop := one_event_of fresh_epoll.

Lemma on_one {B : Type} (x : B) q e : on (evs (one_event_of x)) q e <-> e = 1%positive /\ has EVLIST_INIT q = true.
Proof.
  unfold on. cbn. split.
  - intros (v & [<- <-]%lookup_singleton_Some & Hf). done.
  - intros [-> Hf]. exists conn_event. by rewrite lookup_singleton_eq.
Qed.

Lemma one_event_of_ok {B : Type} `{!Env B} `{!BackendOk (evsel (B := B))} (x : B) :
  b_inv x -> (forall fd, 0 <= fd -> watched x fd = 0) -> base_ok (fun _ => (0, 0)) (one_event_of x).
Proof.
  intros Hx Hw. split.
  - split; cbn; try done; try (apply NoDup_nil_2).
    + intros e v [<- <-]%lookup_singleton_Some. split; done.
    + intros e. split; [by intros ?%not_elem_of_nil|]. intros [_ Hf]%(on_one x). done.
    + intros p l [_ <-]%list_lookup_singleton_Some. apply NoDup_nil_2.
    + intros p l e [_ <-]%list_lookup_singleton_Some. split; [by intros ?%not_elem_of_nil|].
      intros (v & [<- <-]%lookup_singleton_Some & Hf & _). done.
  - intros e. cbn. intros [v [<- _]%lookup_singleton_Some]. rewrite lookup_singleton_eq. done.
  - eapply timeheap_ext; [|apply MinHeap.timeheap_empty].
    + intros l. split; [done|]. intros [_ Hf]%(on_one x). done.
    + by intros l v [<- <-]%lookup_singleton_Some.
    + by intros l v [<- <-]%lookup_singleton_Some.
  - split; [done| |by intros fd Hfd; cbn; rewrite Hw]. intros fd e _ [[_ Hf]%(on_one x) _]. done.
  - done.
  - done.
Qed.

#[local] Instance server_env : Env epollop :=
  { evsel := epollops; evsig_add := fun _ => ret (-1); evsig_del := fun _ => ret (-1); th_notify_fn := None; addr := fun _ => 0 }.
#[local] Instance server_backend : BackendOk evsel := epollops_ok.

Lemma one_event_ok : base_ok (fun _ => (0, 0)) one_event.
Proof. by apply one_event_of_ok. Qed.

Section Thms.
Context {B : Type} `{!Env B} `{!BackendOk (evsel (B := B))}.
Implicit Types b : base B.

(** C18: event_add on a well-formed base succeeds or returns -1. When it
    succeeds, the event is on the queues that it asks for (in the map of its
    descriptor unless it is active, in the heap when a timeout is given, which
    is then due after that time, and no longer active by an old timeout), the
    backend watches what the events on each descriptor ask for, and the base
    is well-formed. When it fails, no event has changed. *)
Theorem event_add_spec K b e v tv now c :
  base_ok K b -> evs b !! e = Some v -> (is_Some tv -> gettime_ (clk b) = Ok (Some now, c)) -> MinHeap.n (MinHeap.hp (th b)) < 1073741824 ->
  exists r b', event_add e tv b = Ok (r, b') /\ ctrl b' = ctrl b /\
    ((r = -1 /\ base_ok K b' /\ evs b' = evs b) \/
     (r = 0 /\ evs b' = <[e := added v tv false]> (evs b) /\
      base_ok (match tv with Some t => retime K e (timeradd now t) | None => K end) b')).
Proof.
  intros H Hv Hc Hn. unfold event_add. rewrite (bind_ok _ _ _ _ _ (rd_event_run b e v Hv)).
  rewrite (eo_base _ _ (q_ev _ _ (b_queues _ _ _ H) e v Hv)). exact (add_run K b e v tv false now c H Hv Hc Hn).
Qed.

(** C19: event_del on a well-formed base takes the event off every queue and
    changes no other event. It returns 0, and the base is well-formed; or -1,
    when the backend refuses: then the entry of the descriptor still holds the
    event, which is on no queue. *)
Theorem event_del_spec K b e v :
  base_ok K b -> evs b !! e = Some v ->
  exists r b', event_del e b = Ok (r, b') /\ evs b' = <[e := cleared v]> (evs b) /\
    (forall q, is_queue q -> ~ on (evs b') q e) /\
    ((r = 0 /\ base_ok K b') \/
     (r = -1 /\ has (ev_flags v) EVLIST_INSERTED = true /\ base_inv (on (evs b) EVLIST_INSERTED) K b')).
Proof.
  intros H Hv. unfold event_del. rewrite (bind_ok _ _ _ _ _ (rd_event_run b e v Hv)).
  rewrite (eo_base _ _ (q_ev _ _ (b_queues _ _ _ H) e v Hv)). cbn [negb].
  destruct (del_run _ K b e v H (covers_on b) Hv) as (r & b' & E & R & H' & Hr). exists r, b'. split; [done|].
  split; [apply R|]. split.
  - intros q Hq (w & Hw & Hf). rewrite (rm_evs _ _ _ _ _ R), lookup_insert_eq in Hw. injection Hw as <-. by rewrite cleared_flags in Hf.
  - destruct Hr as [->|[-> Hf]]; [left|right].
    + split; [done|]. by eapply del_ok_base.
    + split_and!; [done|done|]. eapply base_inv_ext; [|exact H']. unfold without. naive_solver.
Qed.

(** C20: timeout_process activates exactly the events whose timeout has passed,
    with the result EV_TIMEOUT, takes them off all other queues, and leaves
    every other event as it is. *)
Theorem timeout_process_spec K b now c :
  base_ok K b -> gettime_ (clk b) = Ok (Some now, c) ->
  exists b', timeout_process b = Ok (tt, b') /\ (forall e, evs b' !! e = expired K now e <$> evs b !! e) /\
    exists I, base_inv I K b' /\ covers I b' /\ forall x, I x -> on (evs b) EVLIST_INSERTED x.
Proof.
  intros H Hc. destruct (timeout_process_run _ K b now c H (covers_on b) Hc) as (b' & [(E & [T1 T2 T3])|[E Hno]]).
  - exists b'. split_and!; [done|done|]. exact T2.
  - exists b. split_and!; [done| |exists (on (evs b) EVLIST_INSERTED); split_and!; [exact H|apply covers_on|done]]. intros e. destruct (evs b !! e) as [v|] eqn:Hv; [|done].
    cbn. f_equal. unfold expired. destruct (has (ev_flags v) EVLIST_TIMEOUT) eqn:Hf; [|done]. destruct (Hno e). by exists v.
Qed.
End Thms.

(** C21: event_process_active, with persistent events and callbacks that leave
    the base alone, calls the callback of each event of the most urgent
    non-empty queue once, in the order of activation, with its descriptor and
    result; takes these events off that queue and nothing else; and returns how
    many of them are not internal. *)
Theorem active_events_served {B : Type} `{!LoopEnv B} `{!BackendOk (evsel (B := B))} note K (b : base B) q l fuel :
  quiet note -> base_ok K b -> (forall j, (j < q)%nat -> activequeues (qs b) !! j = Some []) -> activequeues (qs b) !! q = Some l ->
  (length l < fuel)%nat -> (forall e v, e ∈ l -> evs b !! e = Some v -> persistent v) -> 0 < outside (evs b) l ->
  event_break (ctrl b) = false -> event_continue (ctrl b) = false ->
  exists b', event_process_active fuel b = Ok (outside (evs b) l, b') /\ base_ok K b' /\
    evbase b' = foldl (noted note (evs b)) (evbase b) l /\ (forall e, evs b' !! e = calmed (evs b) l e).
Proof.
  intros Hq H Hj Hp Hf Hpers Ho Hb Hc.
  destruct (process_active_run note Hq K b q l fuel H Hj Hp Hf Hpers Ho Hb Hc) as (b' & E & H' & X & V & _). by exists b'.
Qed.

(** Nothing is pending while the list is empty. *)
Lemma none_pending x fd : changes_ok x -> changes x = [] -> pending x fd = None.
Proof.
  intros H E. destruct (pending x fd) as [ch|] eqn:Ep; [|done].
  destruct (pending_fd _ fd ch H Ep) as (_ & i & Hi). by rewrite E in Hi.
Qed.

(** C22: any sequence of requests to add and delete events, from an empty
    changelist: told at once (epoll_nochangelist_add and _del) or collected
    (event_changelist_add and _del) and told together before the wait
    (epoll_apply_changes, event_changelist_remove_all), the kernel ends up
    watching the same events on every descriptor, those that were asked for;
    while the changes are collected it is told nothing, and afterwards none is
    left. This holds as long as no request fails ([ok1], [ok2]) and no change
    is refused ([r]); a kernel that refuses nothing ([ctls x = []]) makes no
    request at once fail, and carries out every collected change. *)
Theorem changelist_flush_spec rs h x :
  changes_ok x -> changes x = [] -> (forall fd, 0 <= fd -> kernel_watch (kern x) fd = have h fd) -> requests_ok rs h ->
  exists ok1 h1 y1 ok2 h2 y2 r z z',
    tell epollops rs h x = Ok ((ok1, h1), y1) /\ tell epollops_changelist rs h x = Ok ((ok2, h2), y2) /\ kern y2 = kern x /\
    epoll_apply_changes y2 = Ok (r, z) /\ event_changelist_remove_all z = Ok (tt, z') /\
    changes z' = [] /\ changes_ok z' /\ (forall fd, pending z' fd = None) /\
    (forall fd, 0 <= fd -> kernel_watch (kern y1) fd = have h1 fd) /\
    (r = 0 -> forall fd, 0 <= fd -> kernel_watch (kern z') fd = have h2 fd) /\
    (ok1 = true -> ok2 = true -> h1 = h2) /\ (ctls x = [] -> ok1 = true /\ r = 0).
Proof.
  intros H He Hw Hr.
  destruct (tell_run epollops rs h x (I : @b_inv _ _ epollops_ok x) Hw Hr) as (ok1 & h1 & y1 & E1 & _ & W1 & O1).
  assert (Hw2 : forall fd, 0 <= fd -> @watched _ _ epollops_changelist_ok x fd = have h fd).
  { intros fd Hfd. change (effective x fd = have h fd). unfold effective. rewrite none_pending by done. by apply Hw. }
  destruct (@tell_run epollops_changelist epollops_changelist_ok rs h x H Hw2 Hr) as (ok2 & h2 & y2 & E2 & H2 & W2 & O2).
  destruct (tell_quiet rs h x ok2 h2 y2 E2) as [Hk Hc].
  destruct (flush_run y2 H2) as (r & k & c & m & z' & E3 & E4 & -> & H' & _ & Hf).
  exists ok1, h1, y1, ok2, h2, y2, r. do 2 eexists.
  split_and!; [exact E1|exact E2|done|exact E3|exact E4|done|done|intros fd; by apply none_pending|exact W1| | |].
  - intros Hr0 fd Hfd. rewrite Hf by done. by apply W2.
  - intros Ho1 Ho2. by rewrite O1, O2.
  - intros Hx. destruct (tell_willing rs h x Hx Hw Hr) as [y E]. rewrite E in E1. split; [by injection E1|].
    destruct (apply_each_willing (changes y2) 0 y2) as [k' E']; [congruence| |].
    { intros ch [i Hi]%list_elem_of_lookup. rewrite (c_old _ H2 i ch Hi). apply kernel_watch_small. }
    unfold epoll_apply_changes, bind, get in E3. rewrite E' in E3. by injection E3.
Qed.

Lemma event_add_spec_witness :
  exists r b', event_add 1 (Some (5, 0)) one_event = Ok (r, b') /\ ctrl b' = ctrl one_event /\
    ((r = -1 /\ base_ok (fun _ => (0, 0)) b' /\ evs b' = evs one_event) \/
     (r = 0 /\ evs b' = <[1%positive := added conn_event (Some (5, 0)) false]> (evs one_event) /\
      base_ok (retime (fun _ => (0, 0)) 1 (105, 0)) b')).
Proof.
  apply (event_add_spec (fun _ => (0, 0)) one_event 1 conn_event (Some (5, 0)) (100, 0) at_100); [exact one_event_ok|reflexivity|intros _; reflexivity|reflexivity].
Defined.

(** The base after that event_add. *)
Definition two_queues : base epollop := match event_add 1 (Some (5, 0)) one_event with Ok (_, b) => b | Fault _ => one_event end.

Lemma two_queues_ok : base_ok (retime (fun _ => (0, 0)) 1 (105, 0)) two_queues.
Proof.
  destruct (add_run (fun _ => (0, 0)) one_event 1 conn_event (Some (5, 0)) false (100, 0) at_100 one_event_ok eq_refl (fun _ => eq_refl) eq_refl)
    as (r & b' & E & _ & Hr).
  assert (E2 : event_add_internal 1 (Some (5, 0)) false one_event = Ok (0, two_queues)) by (vm_compute; reflexivity).
  revert E2. generalize two_queues. intros q E2. rewrite E2 in E. injection E as <- <-. by destruct Hr as [[? _]|(_ & _ & H)].
Qed.

Lemma event_del_spec_witness :
  exists r b', event_del 1 two_queues = Ok (r, b') /\ evs b' = <[1%positive := cleared (added conn_event (Some (5, 0)) false)]> (evs two_queues) /\
    (forall q, is_queue q -> ~ on (evs b') q 1) /\
    ((r = 0 /\ base_ok (retime (fun _ => (0, 0)) 1 (105, 0)) b') \/
     (r = -1 /\ has (ev_flags (added conn_event (Some (5, 0)) false)) EVLIST_INSERTED = true /\
      base_inv (on (evs two_queues) EVLIST_INSERTED) (retime (fun _ => (0, 0)) 1 (105, 0)) b')).
Proof. apply event_del_spec; [exact two_queues_ok|reflexivity]. Defined.

(** Six seconds later. *)
Definition at_106 : clock := mkClk (100, 0) (106, 0) (0, 0) 0 true false [] [].

Lemma later_ok : base_ok (retime (fun _ => (0, 0)) 1 (105, 0)) (set_clk at_106 two_queues).
Proof. destruct two_queues_ok as [H1 H2 H3 H4 H5 H6]. by split. Qed.

Lemma timeout_process_spec_witness :
  let b := set_clk at_106 two_queues in
  exists b', timeout_process b = Ok (tt, b') /\
    (forall e, evs b' !! e = expired (retime (fun _ => (0, 0)) 1 (105, 0)) (106, 0) e <$> evs b !! e) /\
    exists I, base_inv I (retime (fun _ => (0, 0)) 1 (105, 0)) b' /\ covers I b' /\ forall x, I x -> on (evs b) EVLIST_INSERTED x.
Proof. apply (timeout_process_spec _ (set_clk at_106 two_queues) (106, 0) at_106); [exact later_ok|reflexivity]. Defined.

(** Callbacks that count. *)
Definition tally (cb fd r a : Z) (x : epollop) : epollop := set_nevents (nevents x + fd) x.

#[local] Instance server_loop : LoopEnv epollop :=
  { loop_env := server_env; dispatch := epoll_dispatch; resume_signals := ret tt;
    call := fun cb fd r a b => Ok (tt, set_evbase (tally cb fd r a (evbase b)) b) }.

Lemma tally_quiet : quiet tally.
Proof. by split. Qed.

(** The event is ready for reading. *)
Definition ready_base : base epollop := match event_active_nolock 1 EV_READ 1 one_event with Ok (_, b) => b | Fault _ => one_event end.

Lemma ready_base_ok : base_ok (fun _ => (0, 0)) ready_base.
Proof.
  destruct (active_run _ _ one_event 1 conn_event EV_READ 1 one_event_ok eq_refl) as (b' & E & H & [A1 A2 A3 A4 _ _ _]).
  assert (E2 : event_active_nolock 1 EV_READ 1 one_event = Ok (tt, ready_base)) by (vm_compute; reflexivity).
  revert E2. generalize ready_base. intros q E2. rewrite E2 in E. injection E as <-. eapply base_inv_ext; [|exact H].
  intros x. rewrite A1. symmetry. by apply (on_unchanged _ _ _ conn_event).
Qed.

Lemma active_events_served_witness :
  exists b', event_process_active 2 ready_base = Ok (1, b') /\ base_ok (fun _ => (0, 0)) b' /\
    evbase b' = foldl (noted tally (evs ready_base)) (evbase ready_base) [1%positive] /\
    (forall e, evs b' !! e = calmed (evs ready_base) [1%positive] e).
Proof.
  apply (active_events_served tally (fun _ => (0, 0)) ready_base 0 [1%positive] 2 tally_quiet ready_base_ok);
    [lia|reflexivity|cbn; lia| |reflexivity|reflexivity|reflexivity].
  intros e v ->%list_elem_of_singleton [= <-]. by split_and!.
Defined.

(** ** A round: the kernel reports that descriptor 5 is readable *)

Definition ticking : clock := mkClk (100, 0) (0, 0) (0, 0) 0 true false [Some (101, 0); Some (102, 0)] [Some (1000, 0); Some (1001, 0)].
Definition added_base : base epollop := match event_add 1 None one_event with Ok (_, b) => b | Fault _ => one_event end.
Definition told_base : base epollop :=
  set_clk ticking (set_evbase (set_waits [inr [(5, EPOLLIN)]] 0 (evbase added_base)) added_base).

Lemma added_base_ok : base_ok (fun _ => (0, 0)) added_base.
Proof.
  destruct (add_run (fun _ => (0, 0)) one_event 1 conn_event None false (100, 0) at_100 one_event_ok eq_refl (fun _ => eq_refl) eq_refl)
    as (r & b' & E & _ & Hr).
  assert (E2 : event_add_internal 1 None false one_event = Ok (0, added_base)) by (vm_compute; reflexivity).
  revert E2. generalize added_base. intros q E2. rewrite E2 in E. injection E as <- <-. by destruct Hr as [[? _]|(_ & _ & H)].
Qed.

Definition failing (_ : Z) : M (base epollop) Z := ret (-1).
Definition tallying (cb fd r a : Z) : M (base epollop) unit := fun b => Ok (tt, set_evbase (tally cb fd r a (evbase b)) b).

Lemma told_base_waiting : waiting failing failing None (fun _ => 0) (fun _ => (0, 0)) told_base.
Proof.
  split; try done.
  - apply base_ok_clk. apply base_ok_backend; [exact added_base_ok|done].
  - intros e v Hv. assert (E : evs told_base = {[1%positive := added conn_event None false]}) by (vm_compute; reflexivity).
    rewrite E in Hv. apply lookup_singleton_Some in Hv as [<- <-]. by repeat split.
  - exists 1%positive, (added conn_event None false). by split.
Qed.

Lemma round_serves_witness :
  exists n q b', loop_round (LoopEnv0 := epoll_loop failing failing None (fun _ => 0) (ret tt) tallying) 2 0 told_base = Ok (inr false, b') /\
    waiting failing failing None (fun _ => 0) (fun _ => (0, 0)) b' /\ answers 0 (clk b') /\ NoDup q /\
    (forall e, e ∈ q <-> exists v, evs told_base !! e = Some v /\ ready [(5, EPOLLIN)] v = true) /\
    evbase b' = foldl (noted tally (reported [(5, EPOLLIN)] <$> evs told_base)) (waited_for None [] n (evbase told_base)) q /\
    forall e, evs b' !! e = rested [(5, EPOLLIN)] <$> evs told_base !! e.
Proof.
  apply (round_serves failing failing None (fun _ => 0) (ret tt) tallying tally); [by split|done|exact told_base_waiting| |reflexivity|vm_compute; done| |vm_compute; lia].
  - split_and!; [done|vm_compute; lia..|repeat constructor; eauto|repeat constructor; eauto].
  - intros fd what [= -> ->]%list_elem_of_singleton. split; [done|]. vm_compute. done.
Defined.

(** A backend that watches nothing, and requests that take some back. *)
Definition unwatched : epollop := mkEp 32 [] 0 ∅ ∅ [] [] [true] None no_signals.
Definition some_requests : list request :=
  [mkReq true 5 EV_READ; mkReq true 7 EV_WRITE; mkReq false 5 EV_READ; mkReq true 5 (Z.lor EV_WRITE EV_ET)].

Lemma unwatched_ok : changes_ok unwatched.
Proof. split; cbn; try done; lia. Qed.

Lemma changelist_flush_spec_witness :
  exists ok1 h1 y1 ok2 h2 y2 r z z',
    tell epollops some_requests ∅ unwatched = Ok ((ok1, h1), y1) /\
    tell epollops_changelist some_requests ∅ unwatched = Ok ((ok2, h2), y2) /\ kern y2 = kern unwatched /\
    epoll_apply_changes y2 = Ok (r, z) /\ event_changelist_remove_all z = Ok (tt, z') /\
    changes z' = [] /\ changes_ok z' /\ (forall fd, pending z' fd = None) /\
    (forall fd, 0 <= fd -> kernel_watch (kern y1) fd = have h1 fd) /\
    (r = 0 -> forall fd, 0 <= fd -> kernel_watch (kern z') fd = have h2 fd) /\
    (ok1 = true -> ok2 = true -> h1 = h2) /\ (ctls unwatched = [] -> ok1 = true /\ r = 0).
Proof.
  apply (changelist_flush_spec some_requests ∅ unwatched unwatched_ok); [reflexivity|done|].
  repeat split; vm_compute; done.
Defined.

(** The collected requests of the example do not fail either. *)
Example some_requests_told :
  match tell epollops_changelist some_requests ∅ unwatched with Ok ((ok, _), y) => ok && Nat.eqb (length (changes y)) 2 | _ => false end = true.
Proof. vm_compute. reflexivity. Qed.

(** ** The library's checks, on the base with a reader and a timeout *)

Lemma two_queues_checked :
  base_ok (Env0 := EvCheck.check_env None (fun _ => 0) epollops) (BackendOk0 := EvCheck.check_backend None (fun _ => 0) epollops) (retime (fun _ => (0, 0)) 1 (105, 0)) two_queues.
Proof. destruct two_queues_ok as [H1 H2 H3 H4 H5 H6]. by split. Qed.

Lemma assert_ok_passes_witness :
  EvNew.event_base_assert_ok two_queues = Ok (tt, set_evs (EvCheck.after_check <$> evs two_queues) two_queues) /\
  forall v, EvCheck.marked_only v (EvCheck.after_check v).
Proof.
  apply (EvCheck.assert_ok_passes None (fun _ => 0) epollops _ two_queues two_queues_checked). split.
  - intros e v Hv _. assert (E : evs two_queues = {[1%positive := added conn_event (Some (5, 0)) false]}) by (vm_compute; reflexivity).
    rewrite E in Hv. apply lookup_singleton_Some in Hv as [<- <-]. by split.
  - vm_compute. constructor.
Defined.

(** ** A thread starts: event 1 is in its memory, event 2 is that of the signals *)

Definition process : base epollop :=
  mkBase (MinHeap.mkSt MinHeap.min_heap_ctor {[1%positive := MinHeap.mkEv 0 0 0]} [true; true; true; true; true; true])
    {[1%positive := mkEvent 0 false 0 0 0 0 0 (0, 0) 0 false 0 0]} (mkQs [] [] [] [] [] 0 0 0)
    (mkClk (0, 0) (0, 0) (0, 0) 0 false false [Some (100, 0); Some (100, 500)] [Some (1000, 0)]) no_threads
    (mkEp 0 [] 0 ∅ ∅ [] [] [] None (mkSignals (mkSigInfo 1 (-1, -1) false 0 []) None 0 (-1) ∅ [] [Some (8, 9)] [] [])).

Lemma process_starting : EvStart.starting 2 (fun _ => false) false 1 process.
Proof.
  split; try (eexists; reflexivity); try done; [by exists (8, 9), []|].
  exists (100, 0). eexists. vm_compute. reflexivity.
Qed.

Lemma setup_thread_serves_witness :
  is_ok (EvStart.setup_base None (fun _ => 0) 2 (fun _ => false) true false 1 6 77 3 process) = true /\
  let hv := listed (EvStart.handler_event 6 77 3) in
  EvStart.setup_base None (fun _ => 0) 2 (fun _ => false) true false 1 6 77 3 process = Fault Exited \/
  exists K b', EvStart.setup_base None (fun _ => 0) 2 (fun _ => false) true false 1 6 77 3 process = Ok (tt, b') /\
    EvStart.serving None (fun _ => 0) K 1 hv b' /\ kernel_watch (kern (evbase b')) 6 = EV_READ /\
    forall rs, Forall (fun r => answers 2 (snd r)) rs ->
    exists ns b2, EvStart.rounds None (fun _ => 0) (ret tt) tallying 6 rs b' = Ok (tt, b2) /\
      EvStart.serving None (fun _ => 0) K 1 hv b2 /\ kernel_watch (kern (evbase b2)) 6 = EV_READ /\
      length ns = length rs /\ evbase b2 = foldl (EvStart.served tally 6 77 3) (evbase b') (zip (fst <$> rs) ns).
Proof.
  split; [vm_compute; reflexivity|].
  apply (EvStart.setup_thread_serves None (fun _ => 0) 2 (fun _ => false) (ret tt) tallying tally false 1 6 77 3 process);
    [by split|done|intros x Hx; cbn; lia|reflexivity|exact process_starting|lia].
Defined.
End EvThms.
