(* ===== verification/EvReinit.v ===== *)
(** * An event base after fork (src/libevent/event.c: event_reinit)

    event_reinit gives a base a new backend and tells it every event that is
    added. The base has no notification event, as in [EvNew]. The theorem is
    for every backend with [BackendOk]; its witness is the epoll backend. *)

From stdpp Require Import prelude gmap.
From S2P Require Import Prelude MinHeap EvBase EvOps EvLoop EvSig EvNew EvInv EvRun EvFacts Epoll EpollFacts EvPoll EvStart EvThms.
Open Scope Z_scope.

Module EvReinit.
Import EvBase EvOps EvLoop EvInv EvRun.
Import EvSig (HasSig, get_sig, siget, siupd, set_signal_added).
Import EvNew (method, m_init, m_dealloc, env_of, tq_next).

Section Reinit.
Context {B : Type} `{!HasSig B}.
Abbreviation T := (M (base B)).
(** As in [EvNew]; [evsel] is the entry of the table that the base uses and
    [flags] its member flags. *)
Context (notify_fn : option (M B Z)) (ad : loc -> Z) (changelist_freemem : M B unit) (sig_ev : loc).
Context (evsel : @method B) (flags : Z).

(** The loop over eventqueue: [ev] is the next event. evsig_add may put
    ev_signal at the end of the queue, so the queue is read again. *)
Fixpoint readd (op : eventop B) (fuel : nat) (ev : option loc) (res : Z) : T Z :=
  match ev with
  | None => ret res
  | Some e =>
      match fuel with
      | O => fail NoFuel
      | S f =>
          let! v := rd e in
          let! r := (if has (ev_events v) (Z.lor EV_READ EV_WRITE) then
                       if decide (e = sig_ev) then ret 0 else evmap_io_add op (ev_fd v) e
                     else if has (ev_events v) EV_SIGNAL then @evmap_signal_add B (env_of notify_fn ad op) (ev_fd v) e
                     else ret 0) in
          let! q := gets qs in
          readd op f (tq_next e (eventqueue q)) (if Z.eqb r (-1) then -1 else res)
      end
  end.

(** The event ev_signal leaves its queues before the backend goes. *)
Definition drop_signal_event : T unit :=
  let! s := siget in
  when (EvSig.ev_signal_added (EvSig.sig s))
    (event_queue_remove ad sig_ev EVLIST_INSERTED ;;
     let! v := rd sig_ev in
     when (has (ev_flags v) EVLIST_ACTIVE) (event_queue_remove ad sig_ev EVLIST_ACTIVE) ;;
     siupd (set_signal_added false)).

(** dealloc, init and event_changelist_freemem; [None] is NULL. *)
Definition renew : T (option (eventop B)) :=
  m_dealloc evsel ;;
  let! r := m_init evsel flags in
  match r with None => ret None | Some op => backend changelist_freemem ;; ret (Some op) end.

(** event_errx ends the process. *)
Definition event_reinit : T Z :=
  drop_signal_event ;;
  let! r := renew in
  match r with
  | None => fail Exited
  | Some op =>
      qset (fun q => put_io [] (put_sigmap [] q)) ;;
      let! q := gets qs in
      readd op (S (length (eventqueue q))) (head (eventqueue q)) 0
  end.
End Reinit.

(** ** The loop *)

Lemma tq_next_app pre (e : loc) l : e ∉ pre -> tq_next e (pre ++ e :: l) = head l.
Proof.
  induction pre as [|x pre IH]; cbn; [by rewrite decide_True|]. intros [Hx He]%not_elem_of_cons.
  rewrite decide_False by done. by apply IH.
Qed.

Section Facts.
Context {B : Type} `{!HasSig B} (notify_fn : option (M B Z)) (ad : loc -> Z) (sig_ev : loc) (op : eventop B) `{Hok : !BackendOk op}.
#[local] Instance reinit_env : Env B := env_of notify_fn ad op.
#[local] Instance reinit_backend : BackendOk EvOps.evsel := Hok.
Implicit Types b : base B.

(** An event that the loop gives to the map of descriptors. *)
Definition addable b (e : loc) : Prop :=
  exists v, evs b !! e = Some v /\ has (ev_events v) rw = true /\ ev_fd v < 1073741824 /\ e <> sig_ev.

Lemma addable_step b b' e : io_step b b' -> addable b e -> addable b' e.
Proof. intros S (v & ?). exists v. by rewrite (is_evs _ _ S). Qed.

Lemma map_ok_ext I I' b : (forall e, I e <-> I' e) -> map_ok I b -> map_ok I' b.
Proof. intros H. by apply io_ok_ext. Qed.

Lemma io_step_queue b b' : io_step b b' -> eventqueue (qs b') = eventqueue (qs b).
Proof. intros S. by rewrite (is_qs _ _ S). Qed.

(** The events [l] are still to be added, those of [I] are in the map. *)
Lemma readd_run l : forall pre (I : loc -> Prop) b res,
  eventqueue (qs b) = pre ++ l -> NoDup (pre ++ l) -> Forall (addable b) l -> (forall e, I e -> e ∈ pre) ->
  map_ok I b -> b_inv (evbase b) ->
  exists r b' J, readd notify_fn ad sig_ev op (S (length l)) (head l) res b = Ok (r, b') /\ io_step b b' /\ map_ok J b' /\
    (forall e, J e -> I e \/ e ∈ l) /\ (r = res \/ r = -1) /\ (r = res -> res <> -1 -> forall e, J e <-> I e \/ e ∈ l).
Proof.
  induction l as [|e l IH]; intros pre I b res El Hn Ha HI Hm Hx.
  { exists res, b, I. split_and!; [done|by apply io_step_refl|done|by left|by left|]. intros _ _ e. set_solver. }
  apply Forall_cons in Ha as [(v & Ev & Hrw & Hfd & Hs) Ha].
  assert (Hpre : e ∉ pre) by (apply NoDup_app in Hn as (_ & Hn & _); intros ?; by eapply Hn; [|left]).
  change (length (e :: l)) with (S (length l)). cbn [readd head]. rewrite (bind_ok _ _ _ _ _ (rd_event_run b e v Ev)).
  change (Z.lor EV_READ EV_WRITE) with rw. rewrite Hrw, decide_False by done.
  destruct (evmap_io_add_run I b e v Hm Hx Ev Hfd Hrw) as (r & b1 & E1 & S1 & Hr); [by intros ?%HI|].
  change (evmap_io_add EvOps.evsel) with (evmap_io_add op) in E1. rewrite (bind_ok _ _ _ _ _ E1), (bind_ok _ _ _ _ _ (gets_run qs b1)).
  rewrite (io_step_queue b b1 S1), El, (tq_next_app pre e l Hpre).
  assert (exists I1, map_ok I1 b1 /\ (forall x, I1 x -> I x \/ x = e) /\ (r <> -1 -> forall x, I1 x <-> I x \/ x = e)) as (I1 & M1 & L1 & C1).
  { destruct Hr as [[-> Hr]|[Hr0 Hr]]; [exists I; naive_solver|]. exists (fun x => x = e \/ I x). naive_solver. }
  destruct (IH (pre ++ [e]) I1 b1 (if Z.eqb r (-1) then -1 else res)) as (r2 & b2 & J & E2 & S2 & M2 & L2 & R2 & C2).
  - by rewrite (io_step_queue b b1 S1), El, <- app_assoc.
  - by rewrite <- app_assoc.
  - eapply Forall_impl; [exact Ha|]. intros x. by apply addable_step.
  - intros x [?%HI| ->]%L1; set_solver.
  - done.
  - apply S1.
  - exists r2, b2, J. split_and!; [exact E2|by eapply io_step_trans|done| | |].
    + intros x [[?| ->]%L1|?]%L2; set_solver.
    + destruct R2 as [->|?]; [|by right]. destruct (Z.eqb_spec r (-1)); auto.
    + intros -> Hne x. destruct (Z.eqb_spec r (-1)) as [->|Hr1]; [by destruct R2|]. rewrite (C2 eq_refl Hne x), (C1 Hr1). set_solver.
Qed.

(** ** What is watched depends on the added events only *)

Lemma count_perm m k l l' : l ≡ₚ l' -> count m k l = count m k l'.
Proof. intros H. unfold count. by rewrite H. Qed.

Lemma no_events I m fd c : entry_ok I m fd c -> (forall e, ~ on_fd I m fd e) -> old_events c = 0.
Proof.
  intros [_ H2 H3 H4 _] Hno. assert (El : io_events c = []) by (apply elem_of_nil_inv; intros e ?%H2; by eapply Hno).
  unfold old_events. by rewrite H3, H4, El.
Qed.

Lemma watch_determined (I : loc -> Prop) m m' l l' w w' fd : io_ok I m l w -> io_ok I m' l' w' ->
  (forall e, I e -> m' !! e = m !! e) -> 0 <= fd -> w' fd = w fd.
Proof.
  intros H H' Hm Hfd. assert (Hon : forall e, on_fd I m fd e <-> on_fd I m' fd e).
  { intros e. unfold on_fd. split; intros [He Hv]; (split; [done|]); [by rewrite (Hm e He)|by rewrite (Hm e He) in Hv]. }
  rewrite (i_watch _ _ _ _ H fd Hfd), (i_watch _ _ _ _ H' fd Hfd).
  destruct (entry l fd) as [c|] eqn:Ec, (entry l' fd) as [c'|] eqn:Ec'; [| | |done].
  - pose proof (i_entry _ _ _ _ H fd c Hfd Ec) as [N1 N2 N3 N4 _]. pose proof (i_entry _ _ _ _ H' fd c' Hfd Ec') as [N1' N2' N3' N4' _].
    assert (Hp : io_events c' ≡ₚ io_events c) by (apply NoDup_Permutation; [done|done|]; intros e; by rewrite N2, N2', Hon).
    assert (Hc : forall k, count m' k (io_events c') = count m k (io_events c)).
    { intros k. rewrite (count_perm _ _ _ _ Hp). apply count_ext. intros e [He _]%N2. unfold wants. by rewrite (Hm e He). }
    unfold old_events. by rewrite N3, N4, N3', N4', !Hc.
  - symmetry. eapply no_events; [by eapply (i_entry _ _ _ _ H)|]. intros e He%Hon. destruct (i_in _ _ _ _ H' fd e Hfd He). congruence.
  - eapply no_events; [by eapply (i_entry _ _ _ _ H')|]. intros e He%Hon. destruct (i_in _ _ _ _ H fd e Hfd He). congruence.
Qed.

(** The new backend: nothing is watched, and the added events are as before. *)
Record renewed b b1 : Prop := {
  rn_qs : qs b1 = qs b;
  rn_evs : forall e, on (evs b) EVLIST_INSERTED e -> evs b1 !! e = evs b !! e;
  rn_inv : b_inv (evbase b1);
  rn_watched : forall fd, 0 <= fd -> watched (evbase b1) fd = 0
}.

Lemma inserted_addable K b b1 : base_ok K b -> ~ on (evs b) EVLIST_INSERTED sig_ev -> renewed b b1 -> Forall (addable b1) (eventqueue (qs b)).
Proof.
  intros H Hs R. apply Forall_forall. intros e He. apply (q_ins _ _ (b_queues _ _ _ H)) in He as Hon. pose proof Hon as (v & Ev & Hf).
  destruct (q_ev _ _ (b_queues _ _ _ H) e v Ev) as [_ _ _ _ Hfd Hi]. exists v. split_and!; [by rewrite (rn_evs _ _ R)|auto|done|]. by intros ->.
Qed.

(** C25: event_reinit, with a backend whose dealloc and init give one that
    watches nothing, tells it of every added event: when it returns 0, the
    maps of descriptors hold exactly the added events and the new backend
    watches on every descriptor what the old one watched; when it returns -1
    the maps and the backend still agree, on some of the added events. No
    event and no queue is changed. *)
Theorem event_reinit_restores changelist_freemem evsel flags K b b1 :
  base_ok K b -> EvSig.ev_signal_added (EvSig.sig (get_sig (evbase b))) = false -> ~ on (evs b) EVLIST_INSERTED sig_ev ->
  renew changelist_freemem evsel flags b = Ok (Some op, b1) -> renewed b b1 ->
  exists r b' J, event_reinit notify_fn ad changelist_freemem sig_ev evsel flags b = Ok (r, b') /\
    evs b' = evs b1 /\ eventqueue (qs b') = eventqueue (qs b) /\ activequeues (qs b') = activequeues (qs b) /\ map_ok J b' /\
    ((r = 0 /\ (forall e, J e <-> e ∈ eventqueue (qs b)) /\ forall fd, 0 <= fd -> watched (evbase b') fd = watched (evbase b) fd) \/
     (r = -1 /\ forall e, J e -> e ∈ eventqueue (qs b))).
Proof.
  intros H Hsig Hs Er R. set (b2 := set_qs (put_io [] (put_sigmap [] (qs b1))) b1).
  assert (Hq : eventqueue (qs b2) = eventqueue (qs b)) by (cbn; by rewrite (rn_qs _ _ R)).
  assert (M2 : map_ok (fun _ => False) b2).
  { split; cbn; [done|by intros ? ? ? [[] _]|]. intros fd Hfd. by rewrite (rn_watched _ _ R). }
  destruct (readd_run (eventqueue (qs b)) [] (fun _ => False) b2 0) as (r & b' & J & E & S & M & L & R0 & C);
    [done|apply (q_ins_nd _ _ (b_queues _ _ _ H))|by apply (inserted_addable K b b1)|done|done|apply (rn_inv _ _ R)|].
  exists r, b', J. split.
  { unfold event_reinit, drop_signal_event. unfold bind at 1, siget, gets at 1. unfold bind at 1. rewrite Hsig. cbn [when]. unfold ret at 1. cbn match.
    rewrite (bind_ok _ _ _ _ _ Er). rewrite <- Hq in E. exact E. }
  split_and!; [apply S|by rewrite (io_step_queue b2 b' S)|rewrite (is_qs _ _ S); cbn; by rewrite (rn_qs _ _ R)|done|].
  destruct R0 as [->| ->]; [left|right; split; [done|]; intros e [[]|?]%L; done].
  assert (HJ : forall e, J e <-> e ∈ eventqueue (qs b)) by (intros e; rewrite (C eq_refl); [naive_solver|done]).
  split_and!; [done|done|]. intros fd Hfd. pose proof (q_ins _ _ (b_queues _ _ _ H)) as Hins.
  eapply (watch_determined (on (evs b) EVLIST_INSERTED) (evs b) (evs b')); [apply (b_io _ _ _ H)| | |done].
  - eapply io_ok_ext; [|done|exact M]. intros e. by rewrite HJ, Hins.
  - intros e He. rewrite (is_evs _ _ S). by apply (rn_evs _ _ R).
Qed.
End Facts.

(** ** A thread that is set up, as in [EvThms], and then gets a new epoll
    descriptor and a new pair of sockets *)

Import Epoll EpollFacts EvPoll.

Definition forked : base epollop :=
  set_th (MinHeap.mkSt MinHeap.min_heap_ctor {[1%positive := MinHeap.mkEv 0 0 0]} (replicate 12 true))
    (set_evbase (mkEp 0 [] 0 ∅ ∅ [] [] [] None
      (EvSig.mkSignals (EvSig.mkSigInfo 1 (-1, -1) false 0 []) None 0 (-1) ∅ [] [Some (8, 9); Some (10, 11)] [] [])) EvThms.process).

Lemma forked_starting : EvStart.starting 2 (fun _ => false) false 1 forked.
Proof.
  split; try (eexists; reflexivity); try done; [by exists (8, 9), [Some (10, 11)]|].
  exists (100, 0). eexists. vm_compute. reflexivity.
Qed.

Definition thread_base : base epollop :=
  match EvStart.setup_base None (fun _ => 0) 2 (fun _ => false) true false 1 6 77 3 forked with Ok (_, b) => b | Fault _ => forked end.

Lemma thread_base_ok : exists K, @base_ok epollop (EvSig.sig_env epollops None (fun _ => 0)) epollops_ok K thread_base /\
  exists sfd, evs thread_base = <[1%positive := EvFacts.EvFacts.listed (EvStart.handler_event 6 77 3)]> {[2%positive := EvStart.signal_event sfd]}.
Proof.
  assert (E0 : EvStart.setup_base None (fun _ => 0) 2 (fun _ => false) true false 1 6 77 3 forked = Ok (tt, thread_base)) by (vm_compute; reflexivity).
  destruct (EvStart.setup_run None (fun _ => 0) 2 (fun _ => false) false 1 6 77 3 forked eq_refl forked_starting) as [E|(K & sfd & b & E & Hw & HV & _)];
    [lia|rewrite E0 in E; discriminate E|]. rewrite E0 in E. apply (f_equal (fun r => match r with Ok (_, b) => Some b | Fault _ => None end)), Some_inj in E. cbn match in E. subst b. exists K. split; [apply (wt_ok _ _ _ _ _ _ Hw)|eauto].
Qed.

Definition reinit_epoll : M (base epollop) Z :=
  event_reinit None (fun _ => 0) EvStart.event_changelist_init 2 (EvStart.epoll_method None (fun _ => 0) (fun _ => false) true) 0.
Definition renewed_base : base epollop :=
  match renew EvStart.event_changelist_init (EvStart.epoll_method None (fun _ => 0) (fun _ => false) true) 0 thread_base with Ok (_, b) => b | Fault _ => forked end.

Lemma thread_inserted e : on (evs thread_base) EVLIST_INSERTED e -> e = 1%positive.
Proof.
  destruct thread_base_ok as (K & _ & sfd & HV). intros (v & Hv & Hf). rewrite HV in Hv.
  apply lookup_insert_Some in Hv as [[<- _]|[_ [<- <-]%lookup_singleton_Some]]; done.
Qed.

#[local] Opaque thread_base renewed_base.

Lemma event_reinit_restores_witness :
  is_ok (reinit_epoll thread_base) = true /\
  exists r b' J, event_reinit None (fun _ => 0) EvStart.event_changelist_init 2
      (EvStart.epoll_method None (fun _ => 0) (fun _ => false) true) 0 thread_base = Ok (r, b') /\
    evs b' = evs renewed_base /\ eventqueue (qs b') = eventqueue (qs thread_base) /\ activequeues (qs b') = activequeues (qs thread_base) /\
    @map_ok epollop (env_of None (fun _ => 0) epollops) epollops_ok J b' /\
    ((r = 0 /\ (forall e, J e <-> e ∈ eventqueue (qs thread_base)) /\
       forall fd, 0 <= fd -> @watched epollop epollops epollops_ok (evbase b') fd = @watched epollop epollops epollops_ok (evbase thread_base) fd) \/
     (r = -1 /\ forall e, J e -> e ∈ eventqueue (qs thread_base))).
Proof.
  split; [vm_compute; reflexivity|]. destruct thread_base_ok as (K & Hok & _).
  apply (@event_reinit_restores epollop _ None (fun _ => 0) 2 epollops epollops_ok EvStart.event_changelist_init
    (EvStart.epoll_method None (fun _ => 0) (fun _ => false) true) 0 K thread_base renewed_base); [exact Hok|vm_compute; reflexivity| |vm_compute; reflexivity|].
  - intros H%thread_inserted. done.
  - split; [vm_compute; reflexivity| |exact I|].
    + intros e ->%thread_inserted. vm_compute. reflexivity.
    + intros fd _. assert (Ek : kern (evbase renewed_base) = ∅) by (vm_compute; reflexivity). cbn. rewrite Ek. done.
Defined.
End EvReinit.
