(* ===== verification/Backends.v ===== *)
(** * The other backends: poll and select on a base with one event

    Both keep the promise [BackendOk] of the event map (instances
    [Poll.pollops_ok] and [Select.selectops_ok]), so what EvThms shows of
    event_add and event_del holds with them too. Here event_add is run with
    each of them, and the dispatch functions on the result. *)

From stdpp Require Import prelude gmap.
From S2P Require Import Prelude MinHeap EvBase EvOps EvSig EvInv EvRun EvFacts Epoll EvPoll Poll Select EvThms.
Open Scope Z_scope.

Module Backends.
Import EvBase EvOps EvInv EvRun EvFacts EvThms.

Definition refuse {B : Type} (_ : Z) : M (base B) Z := ret (-1).

(** The event of descriptor 5 after event_add. *)
Definition after_add {B : Type} `{!Env B} (x : B) : base B :=
  match event_add 1 None (one_event_of x) with Ok (_, b) => b | Fault _ => one_event_of x end.

Lemma after_add_ok {B : Type} `{!Env B} `{!BackendOk (evsel (B := B))} (x : B) :
  b_inv x -> (forall fd, 0 <= fd -> watched x fd = 0) ->
  (exists b', event_add_internal 1 None false (one_event_of x) = Ok (0, b')) -> base_ok (fun _ => (0, 0)) (after_add x).
Proof.
  intros Hx Hw (b' & E). pose proof (one_event_of_ok x Hx Hw) as H.
  destruct (add_run (fun _ => (0, 0)) (one_event_of x) 1 conn_event None false (100, 0) at_100 H eq_refl (fun _ => eq_refl) eq_refl) as (r & b2 & E2 & _ & Hr).
  rewrite E in E2. injection E2 as <- <-. unfold after_add, event_add.
  rewrite (bind_ok _ _ _ _ _ (rd_event_run (one_event_of x) 1 conn_event eq_refl)). cbn [negb ev_base conn_event]. rewrite E. by destruct Hr as [[? _]|(_ & _ & Hb)].
Qed.

(** ** poll: descriptor 5 is readable *)

Definition fresh_poll : Poll.pollop := Poll.mkPoll 0 0 false [] ∅ [inr [Poll.POLLIN]] [7] [true] no_signals.

Lemma fresh_poll_ok : Poll.poll_ok fresh_poll.
Proof. split; [split; cbn; try lia; done|done]. Qed.

Abbreviation penv := (Poll.poll_env refuse refuse None (fun _ => 0)).
Abbreviation pback := (Poll.poll_backend refuse refuse None (fun _ => 0)).
Definition poll_base : base Poll.pollop := @after_add _ penv fresh_poll.

Lemma poll_base_good : @base_ok _ penv pback (fun _ => (0, 0)) poll_base.
Proof. apply (@after_add_ok _ penv pback); [exact fresh_poll_ok|done|]. eexists. vm_compute. reflexivity. Qed.

Lemma poll_dispatch_spec_witness :
  exists b', @Poll.poll_dispatch penv None poll_base = Ok (0, b') /\ @base_ok _ penv pback (fun _ => (0, 0)) b' /\
    (forall fd, Poll.poll_watch (evbase b') fd = Poll.poll_watch (evbase poll_base) fd) /\
    forall e, evs b' !! e = Poll.polled (evbase poll_base) [Poll.POLLIN] <$> evs poll_base !! e.
Proof.
  apply (Poll.poll_dispatch_spec refuse refuse None (fun _ => 0) (fun _ => (0, 0)) poll_base None [Poll.POLLIN] [] 7 []);
    [exact poll_base_good|vm_compute; reflexivity|vm_compute; reflexivity|lia].
Defined.

(** ** select: descriptor 5 is readable *)

Definition fresh_select : Select.selectop :=
  Select.mkSel 0 8 true (replicate 64 (Some false)) (replicate 64 (Some false)) [] [] [inr ([5], [])] [7] [true; true] no_signals.

Lemma fresh_select_ok : Select.sel_ok fresh_select /\ forall fd, 0 <= fd -> Select.select_watch fresh_select fd = 0.
Proof.
  assert (Hb : forall fd, Select.bit (replicate 64 (Some false)) fd = false).
  { intros fd. unfold Select.bit. destruct (replicate 64 (Some false) !! Z.to_nat fd) as [o|] eqn:E; [|done]. by apply lookup_replicate in E as [-> _]. }
  assert (Hw : Select.written 8 (replicate 64 (Some false))).
  { intros i Hi. exists false. apply lookup_replicate_2. lia. }
  split; [|intros fd _; unfold Select.select_watch; cbn [Select.event_readset_in Select.event_writeset_in fresh_select]; by rewrite !Hb].
  split; cbn [Select.event_fds Select.event_fdsz fresh_select]; try lia; [exact Hw|exact Hw| |done].
  intros fd _. split; apply Hb.
Qed.

Abbreviation senv := (Select.select_env refuse refuse None (fun _ => 0)).
Abbreviation sback := (Select.select_backend refuse refuse None (fun _ => 0)).
Definition select_base : base Select.selectop := @after_add _ senv fresh_select.

Lemma select_base_good : @base_ok _ senv sback (fun _ => (0, 0)) select_base.
Proof. apply (@after_add_ok _ senv sback); [apply fresh_select_ok|apply fresh_select_ok|]. eexists. vm_compute. reflexivity. Qed.

Lemma select_dispatch_spec_witness :
  exists r b', @Select.select_dispatch senv None select_base = Ok (r, b') /\ @base_ok _ senv sback (fun _ => (0, 0)) b' /\
    (forall fd, Select.select_watch (evbase b') fd = Select.select_watch (evbase select_base) fd) /\
    ((r = -1 /\ evs b' = evs select_base) \/ (r = 0 /\ forall e, evs b' !! e = Select.selected (evbase select_base) [5] [] <$> evs select_base !! e)).
Proof.
  apply (Select.select_dispatch_spec refuse refuse None (fun _ => 0) (fun _ => (0, 0)) select_base None [5] [] [] 7 []);
    [exact select_base_good|vm_compute; reflexivity|vm_compute; reflexivity|lia].
Defined.
End Backends.
