(* ===== verification/Buffer.v ===== *)
(** * Event buffers (src/libevent/buffer.c, evbuffer-internal.h)

    A buffer is a linked list of chains, each a piece of memory of which the
    part from misalign, off bytes long, holds data. The list belongs to the
    buffer: it is a Rocq list, its last element is the member last, and
    last_with_datap is the number of the chain that the pointer leads to (0 for
    &first, i for the member next of chain i - 1). Memory that malloc gives is
    zero here; only bytes below off are ever read.

    The callbacks of a buffer are calls that leave a note ([called]); they do
    not change the buffer. Cleanup functions of referenced memory leave a note
    too. Chains that are freed while they are pinned stay in [dangling]. The
    answers of malloc are the function [mem] of the number of calls so far. The
    buffer has no lock. *)

From stdpp Require Import prelude.
From S2P Require Import Prelude.
Open Scope Z_scope.

Module Buffer.

Definition has (x m : Z) : bool := negb (Z.eqb (Z.land x m) 0).

Definition EV_SIZE_MAX : Z := 18446744073709551615.
Definition EVBUFFER_CHAIN_MAX : Z := 9223372036854775807.
Definition EVBUFFER_CHAIN_SIZE : Z := 48.
Definition MIN_BUFFER_SIZE : Z := 1024.
Definition EVBUFFER_CHAIN_MAX_AUTO_SIZE : Z := 4096.
Definition MAX_TO_COPY_IN_EXPAND : Z := 4096.
Definition MAX_TO_REALIGN_IN_EXPAND : Z := 2048.

Definition EVBUFFER_MMAP : Z := 0x0001.
Definition EVBUFFER_SENDFILE : Z := 0x0002.
Definition EVBUFFER_REFERENCE : Z := 0x0004.
Definition EVBUFFER_IMMUTABLE : Z := 0x0008.
Definition EVBUFFER_MEM_PINNED_R : Z := 0x0010.
Definition EVBUFFER_MEM_PINNED_W : Z := 0x0020.
Definition EVBUFFER_MEM_PINNED_ANY : Z := Z.lor EVBUFFER_MEM_PINNED_R EVBUFFER_MEM_PINNED_W.
Definition EVBUFFER_DANGLING : Z := 0x0040.

(** struct evbuffer_chain without next; [cleanupfn]: of struct
    evbuffer_chain_reference, [None] for NULL. buffer_len is the length of
    [buffer]. *)
Record chain := mkChain { buffer : bytes; misalign : Z; off : Z; cflags : Z; cleanupfn : option Z }.

Definition buffer_len (c : chain) : Z := Z.of_nat (length (buffer c)).
Definition CHAIN_SPACE_LEN (c : chain) : Z :=
  if has (cflags c) EVBUFFER_IMMUTABLE then 0 else buffer_len c - (misalign c + off c).
Definition CHAIN_PINNED (c : chain) : bool := has (cflags c) EVBUFFER_MEM_PINNED_ANY.
Definition CHAIN_PINNED_R (c : chain) : bool := has (cflags c) EVBUFFER_MEM_PINNED_R.

Definition set_off (m o : Z) (c : chain) : chain := mkChain (buffer c) m o (cflags c) (cleanupfn c).
Definition set_cflags (f : Z) (c : chain) : chain := mkChain (buffer c) (misalign c) (off c) f (cleanupfn c).

(** struct evbuffer_cb_entry: the function and its argument, and the flags *)
Record cb_entry := mkCb { cb_func : Z; cb_arg : Z; cb_flags : Z }.

Definition EVBUFFER_CB_ENABLED : Z := 1.
Definition EVBUFFER_CB_NODEFER : Z := 2.
Definition EVBUFFER_CB_OBSOLETE : Z := 0x00040000.
Definition EVBUFFER_CB_INTERNAL_FLAGS : Z := 0xffff0000.

(** A call of a callback: the function, its argument, and orig_size, n_added,
    n_deleted. *)
Abbreviation cb_call := (Z * Z * (Z * Z * Z))%type.

Record evbuffer := mkBuf {
  chains : list chain; last_with_datap : nat; total_len : Z; n_add_for_cb : Z; n_del_for_cb : Z;
  freeze_start : bool; freeze_end : bool; deferred_cbs : bool; queued : bool; refcnt : Z; callbacks : list cb_entry;
  called : list cb_call; cleaned : list Z; dangling : list chain; mem : nat -> bool; nalloc : nat }.

Abbreviation T := (M evbuffer).

Definition put_chains (l : list chain) (d : nat) (b : evbuffer) : evbuffer :=
  mkBuf l d (total_len b) (n_add_for_cb b) (n_del_for_cb b) (freeze_start b) (freeze_end b) (deferred_cbs b) (queued b) (refcnt b) (callbacks b)
    (called b) (cleaned b) (dangling b) (mem b) (nalloc b).
Definition put_total (n : Z) (b : evbuffer) : evbuffer :=
  mkBuf (chains b) (last_with_datap b) n (n_add_for_cb b) (n_del_for_cb b) (freeze_start b) (freeze_end b) (deferred_cbs b) (queued b) (refcnt b) (callbacks b)
    (called b) (cleaned b) (dangling b) (mem b) (nalloc b).
Definition put_counts (a d : Z) (b : evbuffer) : evbuffer :=
  mkBuf (chains b) (last_with_datap b) (total_len b) a d (freeze_start b) (freeze_end b) (deferred_cbs b) (queued b) (refcnt b) (callbacks b)
    (called b) (cleaned b) (dangling b) (mem b) (nalloc b).
Definition put_queued (q : bool) (r : Z) (b : evbuffer) : evbuffer :=
  mkBuf (chains b) (last_with_datap b) (total_len b) (n_add_for_cb b) (n_del_for_cb b) (freeze_start b) (freeze_end b) (deferred_cbs b) q r (callbacks b)
    (called b) (cleaned b) (dangling b) (mem b) (nalloc b).
Definition put_called (l : list cb_call) (b : evbuffer) : evbuffer :=
  mkBuf (chains b) (last_with_datap b) (total_len b) (n_add_for_cb b) (n_del_for_cb b) (freeze_start b) (freeze_end b) (deferred_cbs b) (queued b) (refcnt b) (callbacks b)
    l (cleaned b) (dangling b) (mem b) (nalloc b).
Definition put_callbacks (l : list cb_entry) (b : evbuffer) : evbuffer :=
  mkBuf (chains b) (last_with_datap b) (total_len b) (n_add_for_cb b) (n_del_for_cb b) (freeze_start b) (freeze_end b) (deferred_cbs b) (queued b) (refcnt b) l
    (called b) (cleaned b) (dangling b) (mem b) (nalloc b).
Definition put_released (c : list Z) (d : list chain) (b : evbuffer) : evbuffer :=
  mkBuf (chains b) (last_with_datap b) (total_len b) (n_add_for_cb b) (n_del_for_cb b) (freeze_start b) (freeze_end b) (deferred_cbs b) (queued b) (refcnt b) (callbacks b)
    (called b) c d (mem b) (nalloc b).
Definition put_freeze (s e : bool) (b : evbuffer) : evbuffer :=
  mkBuf (chains b) (last_with_datap b) (total_len b) (n_add_for_cb b) (n_del_for_cb b) s e (deferred_cbs b) (queued b) (refcnt b) (callbacks b)
    (called b) (cleaned b) (dangling b) (mem b) (nalloc b).
Definition put_nalloc (n : nat) (b : evbuffer) : evbuffer :=
  mkBuf (chains b) (last_with_datap b) (total_len b) (n_add_for_cb b) (n_del_for_cb b) (freeze_start b) (freeze_end b) (deferred_cbs b) (queued b) (refcnt b) (callbacks b)
    (called b) (cleaned b) (dangling b) (mem b) n.

Definition assert_that (x : bool) : T unit := if x then ret tt else fail AssertFailed.

(** ** Chains *)

Definition malloc : T bool := fun b => Ok (mem b (nalloc b), put_nalloc (S (nalloc b)) b).

(** while (to_alloc < size) to_alloc <<= 1 *)
Fixpoint alloc_size (fuel : nat) (to_alloc size : Z) : Z :=
  match fuel with
  | O => to_alloc
  | S f => if Z.ltb to_alloc size then alloc_size f (u64 (to_alloc * 2)) size else to_alloc
  end.

Definition evbuffer_chain_new (size : Z) : T (option chain) :=
  if Z.ltb (EVBUFFER_CHAIN_MAX - EVBUFFER_CHAIN_SIZE) size then ret None
  else
    let size := size + EVBUFFER_CHAIN_SIZE in
    let to_alloc := if Z.ltb size (EVBUFFER_CHAIN_MAX / 2) then alloc_size 64 MIN_BUFFER_SIZE size else size in
    let! ok := malloc in
    ret (if ok : bool then Some (mkChain (zeros (Z.to_nat (to_alloc - EVBUFFER_CHAIN_SIZE))) 0 0 0 None) else None).

(** munmap and close of the chains of files are not shown. *)
Definition evbuffer_chain_free (c : chain) : T unit :=
  if CHAIN_PINNED c then modify (fun b => put_released (cleaned b) (dangling b ++ [set_cflags (Z.lor (cflags c) EVBUFFER_DANGLING) c]) b)
  else if has (cflags c) EVBUFFER_REFERENCE then
    match cleanupfn c with
    | Some f => modify (fun b => put_released (cleaned b ++ [f]) (dangling b) b)
    | None => ret tt
    end
  else ret tt.

Fixpoint evbuffer_free_all_chains (l : list chain) : T unit :=
  match l with
  | [] => ret tt
  | c :: l' => evbuffer_chain_free c ;; evbuffer_free_all_chains l'
  end.

Definition evbuffer_chains_all_empty (l : list chain) : bool := forallb (fun c => Z.eqb (off c) 0) l.

(** The number of the first chain from [i] on that is empty and not pinned. *)
Fixpoint victim (l : list chain) (i : nat) : nat :=
  match l with
  | [] => i
  | c :: l' => if negb (Z.eqb (off c) 0) || CHAIN_PINNED c then victim l' (S i) else i
  end.

Definition find_victim (b : evbuffer) : nat := victim (drop (last_with_datap b) (chains b)) (last_with_datap b).

(** The result is the number of the chain that the new one will be. *)
Definition evbuffer_free_trailing_empty_chains : T nat :=
  let! b := get in
  let i := find_victim b in
  when (Nat.ltb i (length (chains b)))
    (assert_that (evbuffer_chains_all_empty (drop i (chains b))) ;;
     evbuffer_free_all_chains (drop i (chains b)) ;;
     modify (fun b => put_chains (take i (chains b)) (last_with_datap b) b)) ;;
  ret i.

Definition evbuffer_chain_insert (c : chain) : T unit :=
  let! b := get in
  (match chains b !! last_with_datap b with
   | None =>
       assert_that (Nat.eqb (last_with_datap b) 0) ;;
       assert_that (match chains b with [] => true | _ => false end) ;;
       modify (put_chains [c] (last_with_datap b))
   | Some _ =>
       let i := find_victim b in
       if Nat.leb (length (chains b)) i then
         modify (put_chains (chains b ++ [c]) (if Z.eqb (off c) 0 then last_with_datap b else length (chains b)))
       else
         assert_that (evbuffer_chains_all_empty (drop i (chains b))) ;;
         evbuffer_free_all_chains (drop i (chains b)) ;;
         modify (put_chains (take i (chains b) ++ [c]) (last_with_datap b))
   end) ;;
  modify (fun b => put_total (u64 (total_len b + off c)) b).

(** The number of the new chain, which is the last. *)
Definition evbuffer_chain_insert_new (datlen : Z) : T (option nat) :=
  let! c := evbuffer_chain_new datlen in
  match c with
  | None => ret None
  | Some c =>
      evbuffer_chain_insert c ;;
      let! b := get in
      ret (Some (length (chains b) - 1)%nat)
  end.

(** The member [f] of chain [i]; the chain must be there. *)
Definition chain_at (i : nat) : T chain := fun b => match chains b !! i with Some c => Ok (c, b) | None => Fault NullDeref end.
Definition put_chain (i : nat) (c : chain) : T unit := modify (fun b => put_chains (<[i := c]> (chains b)) (last_with_datap b) b).

(** ** Callbacks *)

Definition evbuffer_new (mem : nat -> bool) : evbuffer :=
  mkBuf [] 0 0 0 0 false false false false 1 [] [] [] [] mem 0.

(** The calls of the enabled callbacks, in order. *)
Definition cb_calls (mask masked_val : Z) (info : Z * Z * Z) (l : list cb_entry) : list cb_call :=
  map (fun e => (cb_func e, cb_arg e, info)) (filter (fun e => Z.land (cb_flags e) mask = masked_val) l).

Definition evbuffer_run_callbacks (running_deferred : bool) : T unit :=
  let! b := get in
  let both := Z.lor EVBUFFER_CB_NODEFER EVBUFFER_CB_ENABLED in
  let '(mask, masked_val, clear) :=
    if running_deferred then (both, EVBUFFER_CB_ENABLED, true)
    else if deferred_cbs b then (both, both, false)
    else (EVBUFFER_CB_ENABLED, EVBUFFER_CB_ENABLED, true) in
  match callbacks b with
  | [] => modify (put_counts 0 0)
  | _ =>
      if Z.eqb (n_add_for_cb b) 0 && Z.eqb (n_del_for_cb b) 0 then ret tt
      else
        let info := (u64 (total_len b + n_del_for_cb b - n_add_for_cb b), n_add_for_cb b, n_del_for_cb b) in
        when clear (modify (put_counts 0 0)) ;;
        modify (fun b => put_called (called b ++ cb_calls mask masked_val info (callbacks b)) b)
  end.

(** event_deferred_cb_schedule marks the callback of the buffer as queued. *)
Definition evbuffer_invoke_callbacks : T unit :=
  let! b := get in
  match callbacks b with
  | [] => modify (put_counts 0 0)
  | _ =>
      if deferred_cbs b && queued b then ret tt
      else
        when (deferred_cbs b) (modify (fun b => put_queued true (refcnt b + 1) b)) ;;
        evbuffer_run_callbacks false
  end.

Definition evbuffer_add_cb (cb cbarg : Z) : T bool :=
  let! ok := malloc in
  if ok : bool then modify (fun b => put_callbacks (mkCb cb cbarg EVBUFFER_CB_ENABLED :: callbacks b) b) ;; ret true
  else ret false.

(** The list without its first entry of the callback. *)
Fixpoint drop_cb (cb cbarg : Z) (l : list cb_entry) : option (list cb_entry) :=
  match l with
  | [] => None
  | e :: l' => if Z.eqb cb (cb_func e) && Z.eqb cbarg (cb_arg e) then Some l' else cons e <$> drop_cb cb cbarg l'
  end.

Definition evbuffer_remove_cb (cb cbarg : Z) : T Z :=
  let! b := get in
  match drop_cb cb cbarg (callbacks b) with
  | Some l => modify (put_callbacks l) ;; ret 0
  | None => ret (-1)
  end.

Definition evbuffer_freeze (start : bool) : T Z :=
  modify (fun b => if start then put_freeze true (freeze_end b) b else put_freeze (freeze_start b) true b) ;; ret 0.
Definition evbuffer_unfreeze (start : bool) : T Z :=
  modify (fun b => if start then put_freeze false (freeze_end b) b else put_freeze (freeze_start b) false b) ;; ret 0.

Definition evbuffer_get_length (b : evbuffer) : Z := total_len b.
Definition evbuffer_get_contiguous_space (b : evbuffer) : Z := match chains b with c :: _ => off c | [] => 0 end.

(** total_len and n_add_for_cb grow by [n]. *)
Definition count_added (n : Z) : T unit :=
  modify (fun b => put_counts (u64 (n_add_for_cb b + n)) (n_del_for_cb b) (put_total (u64 (total_len b + n)) b)).

(** ** Adding *)

(** memcpy into the memory of a chain *)
Definition chain_write (c : chain) (pos : Z) (d : bytes) : T chain :=
  if Z.ltb pos 0 then fail Overrun
  else let! m := lift (mwrite (buffer c) (Z.to_nat pos) d) in ret (mkChain m (misalign c) (off c) (cflags c) (cleanupfn c)).

(** [n] bytes of the data of a chain *)
Definition chain_read (c : chain) (n : Z) : T bytes :=
  if Z.ltb (misalign c) 0 || Z.ltb n 0 then fail Overread else lift (mread (buffer c) (Z.to_nat (misalign c)) (Z.to_nat n)).

Definition evbuffer_chain_align (c : chain) : T chain :=
  assert_that (negb (has (cflags c) EVBUFFER_IMMUTABLE)) ;;
  assert_that (negb (has (cflags c) EVBUFFER_MEM_PINNED_ANY)) ;;
  let! d := chain_read c (off c) in
  let! c := chain_write c 0 d in
  ret (set_off 0 (off c) c).

Definition evbuffer_chain_should_realign (c : chain) (datlen : Z) : bool :=
  Z.leb datlen (buffer_len c - off c) && Z.ltb (off c) (buffer_len c / 2) && Z.leb (off c) MAX_TO_REALIGN_IN_EXPAND.

(** A new last chain for the data that does not fit into [c], chain [i]; the
    first [remain] bytes do. *)
Definition add_new_chain (i : nat) (c : chain) (data : bytes) (remain : Z) : T Z :=
  let datlen := Z.of_nat (length data) in
  let to_alloc := buffer_len c in
  let to_alloc := if Z.leb to_alloc (EVBUFFER_CHAIN_MAX_AUTO_SIZE / 2) then to_alloc * 2 else to_alloc in
  let to_alloc := if Z.ltb to_alloc datlen then datlen else to_alloc in
  let! tmp := evbuffer_chain_new to_alloc in
  match tmp with
  | None => ret (-1)
  | Some tmp =>
      when (negb (Z.eqb remain 0))
        (let! c := chain_write c (misalign c + off c) (take (Z.to_nat remain) data) in
         put_chain i (set_off (misalign c) (off c + remain) c) ;;
         count_added remain) ;;
      let rest := drop (Z.to_nat remain) data in
      let! tmp := chain_write tmp 0 rest in
      evbuffer_chain_insert (set_off (misalign tmp) (Z.of_nat (length rest)) tmp) ;;
      modify (fun b => put_counts (u64 (n_add_for_cb b + Z.of_nat (length rest))) (n_del_for_cb b) b) ;;
      evbuffer_invoke_callbacks ;;
      ret 0
  end.

Definition evbuffer_add (data : bytes) : T Z :=
  let datlen := Z.of_nat (length data) in
  let! b := get in
  if freeze_end b then ret (-1)
  else if Z.ltb (EV_SIZE_MAX - total_len b) datlen then ret (-1)
  else
    let! ok := (match chains b with
       | [] => let! r := evbuffer_chain_insert_new datlen in ret (match r with Some _ => true | None => false end)
       | _ => ret true
       end) in
    if negb ok then ret (-1)
    else
      let! b := get in
      let i := (length (chains b) - 1)%nat in
      let! c := chain_at i in
      if negb (has (cflags c) EVBUFFER_IMMUTABLE) then
        assert_that (Z.leb 0 (misalign c) && Z.leb (misalign c) EVBUFFER_CHAIN_MAX) ;;
        let remain := buffer_len c - misalign c - off c in
        if Z.leb datlen remain then
          let! c := chain_write c (misalign c + off c) data in
          put_chain i (set_off (misalign c) (off c + datlen) c) ;;
          count_added datlen ;;
          evbuffer_invoke_callbacks ;; ret 0
        else if negb (CHAIN_PINNED c) && evbuffer_chain_should_realign c datlen then
          let! c := evbuffer_chain_align c in
          let! c := chain_write c (off c) data in
          put_chain i (set_off (misalign c) (off c + datlen) c) ;;
          count_added datlen ;;
          evbuffer_invoke_callbacks ;; ret 0
        else add_new_chain i c data remain
      else add_new_chain i c data 0.

(** ** Adding at the front *)

(** Putting data into the first chain: [None] when all of it went there, else
    how much did not. *)
Definition to_first (c : chain) (data : bytes) : T (option Z) :=
  let datlen := Z.of_nat (length data) in
  if negb (has (cflags c) EVBUFFER_IMMUTABLE) then
    assert_that (Z.leb 0 (misalign c) && Z.leb (misalign c) EVBUFFER_CHAIN_MAX) ;;
    let c := if Z.eqb (off c) 0 then set_off (buffer_len c) (off c) c else c in
    if Z.leb datlen (misalign c) then
      let! c := chain_write c (misalign c - datlen) data in
      put_chain 0 (set_off (misalign c - datlen) (off c + datlen) c) ;;
      count_added datlen ;; ret None
    else if negb (Z.eqb (misalign c) 0) then
      let n := misalign c in
      let! c := chain_write c 0 (drop (length data - Z.to_nat n) data) in
      put_chain 0 (set_off 0 (off c + n) c) ;;
      count_added n ;; ret (Some (datlen - n))
    else put_chain 0 c ;; ret (Some datlen)
  else ret (Some datlen).

Definition evbuffer_prepend (data : bytes) : T Z :=
  let datlen := Z.of_nat (length data) in
  let! b := get in
  if freeze_start b then ret (-1)
  else if Z.ltb (EV_SIZE_MAX - total_len b) datlen then ret (-1)
  else
    let! ok := (match chains b with
       | [] => let! r := evbuffer_chain_insert_new datlen in ret (match r with Some _ => true | None => false end)
       | _ => ret true
       end) in
    if negb ok then ret (-1)
    else
      let! c := chain_at 0 in
      let! r := to_first c data in
      match r with
      | None => evbuffer_invoke_callbacks ;; ret 0
      | Some datlen =>
          let! tmp := evbuffer_chain_new datlen in
          match tmp with
          | None => ret (-1)
          | Some tmp =>
              assert_that (Z.leb datlen (buffer_len tmp)) ;;
              let m := buffer_len tmp - datlen in
              let! tmp := chain_write tmp m (take (Z.to_nat datlen) data) in
              let! c := chain_at 0 in
              modify (fun b => put_chains (set_off m datlen tmp :: chains b) (S (last_with_datap b)) b) ;;
              modify (fun b => put_counts (u64 (n_add_for_cb b + misalign c)) (n_del_for_cb b) (put_total (u64 (total_len b + datlen)) b)) ;;
              evbuffer_invoke_callbacks ;; ret 0
          end
      end.

(** ** Removing *)

Definition HAS_PINNED_R (b : evbuffer) : bool := match last (chains b) with Some c => CHAIN_PINNED_R c | None => false end.
Definition ZERO_CHAIN (b : evbuffer) : evbuffer := put_total 0 (put_chains [] 0 b).

(** The loop of evbuffer_drain from chain [i] on: the list that is left, and
    what remains to be taken from its first chain. last_with_datap keeps
    counting from the old first chain. *)
Fixpoint drain_loop (l : list chain) (i : nat) (remaining : Z) : T (list chain * Z) :=
  match l with
  | [] => fail NullDeref
  | c :: l' =>
      if Z.leb (off c) remaining then
        let remaining := remaining - off c in
        modify (fun b => if Nat.eqb (last_with_datap b) i || Nat.eqb (last_with_datap b) (S i) then put_chains (chains b) 0 b else b) ;;
        if CHAIN_PINNED_R c then
          assert_that (Z.eqb remaining 0) ;; ret (set_off (misalign c + off c) 0 c :: l', remaining)
        else
          evbuffer_chain_free c ;; drain_loop l' (S i) remaining
      else ret (l, remaining)
  end.

Definition evbuffer_drain (len : Z) : T Z :=
  let! b := get in
  let old_len := total_len b in
  if Z.eqb old_len 0 then ret 0
  else if freeze_start b then ret (-1)
  else
    let! len := (if Z.leb old_len len && negb (HAS_PINNED_R b) then
        evbuffer_free_all_chains (chains b) ;;
        modify ZERO_CHAIN ;; ret old_len
      else
        let len := if Z.leb old_len len then old_len else len in
        modify (fun b => put_total (total_len b - len) b) ;;
        let! (l, remaining) := drain_loop (chains b) 0 len in
        (match l with
         | c :: l' =>
             assert_that (Z.leb remaining (off c)) ;;
             modify (fun b' => put_chains (set_off (misalign c + remaining) (off c - remaining) c :: l')
                                 (last_with_datap b' - (length (chains b) - length l))%nat b')
         | [] => modify (put_chains [] 0)
         end) ;;
        ret len) in
    modify (fun b => put_counts (n_add_for_cb b) (u64 (n_del_for_cb b + len)) b) ;;
    evbuffer_invoke_callbacks ;;
    ret 0.

(** The loop of evbuffer_copyout. *)
Fixpoint copy_loop (l : list chain) (datlen : Z) : T bytes :=
  if Z.eqb datlen 0 then ret []
  else
    match l with
    | [] => fail AssertFailed
    | c :: l' =>
        if Z.leb (off c) datlen then
          let! d := chain_read c (off c) in
          let! r := copy_loop l' (datlen - off c) in
          ret (d ++ r)
        else chain_read c datlen
    end.

(** The result and the bytes; the caller's memory has [datlen] bytes. *)
Definition evbuffer_copyout (datlen : Z) : T (Z * bytes) :=
  let! b := get in
  let datlen := if Z.leb (total_len b) datlen then total_len b else datlen in
  if Z.eqb datlen 0 then ret (0, [])
  else if freeze_start b then ret (-1, [])
  else
    let! d := copy_loop (chains b) datlen in
    ret (datlen, d).

Definition evbuffer_remove (datlen : Z) : T (Z * bytes) :=
  let! (n, d) := evbuffer_copyout datlen in
  if Z.ltb 0 n then
    let! r := evbuffer_drain n in
    ret (if Z.ltb r 0 then -1 else s32 n, d)
  else ret (s32 n, d).

(** ** Making the front contiguous *)

(** Is a chain pinned that evbuffer_pullup would copy from? *)
Fixpoint pinned_ahead (l : list chain) (remaining : Z) : bool :=
  match l with
  | [] => false
  | c :: l' => if CHAIN_PINNED c then true else if Z.leb remaining (off c) then false else pinned_ahead l' (remaining - off c)
  end.

(** The loop that copies whole chains from chain [i] on: the bytes, the chains
    left, what is still to be copied, and whether the chain that
    last_with_datap leads to, and the one before it, are gone. *)
Fixpoint pull_loop (l : list chain) (i d : nat) (size : Z) : T (bytes * list chain * Z * bool * bool) :=
  match l with
  | [] => ret ([], [], size, false, false)
  | c :: l' =>
      if Z.leb (off c) size then
        let! x := chain_read c (off c) in
        evbuffer_chain_free c ;;
        let! (y, l2, size, r1, r2) := pull_loop l' (S i) d (size - off c) in
        ret (x ++ y, l2, size, Nat.eqb d i || r1, Nat.eqb d (S i) || r2)
      else ret ([], l, size, false, false)
  end.

(** From the chains [l] (the first is number [i]) into [tmp] at [pos]: [size]
    bytes. *)
Definition pull_into (tmp : chain) (pos : Z) (l : list chain) (i : nat) (size : Z) : T unit :=
  let! b := get in
  let! (x, l2, size, r1, r2) := pull_loop l i (last_with_datap b) size in
  let! (y, l2) := (match l2 with
     | c :: l3 => let! y := chain_read c size in ret (y, set_off (misalign c + size) (off c - size) c :: l3)
     | [] => ret ([], [])
     end) in
  let! tmp := chain_write tmp pos (x ++ y) in
  let d := if r1 : bool then 0%nat
           else if r2 : bool then (match l2 with c :: _ => if Z.eqb (off c) 0 then 0%nat else 1%nat | [] => 0%nat end)
           else (last_with_datap b - (length (chains b) - length (tmp :: l2)))%nat in
  modify (put_chains (tmp :: l2) d).

(** [None] is NULL; otherwise the data of the first chain, to which the result
    points. *)
Definition evbuffer_pullup (size : Z) : T (option bytes) :=
  let! b := get in
  let size := if Z.ltb size 0 then total_len b else size in
  if Z.eqb size 0 || Z.ltb (total_len b) size then ret None
  else
    match chains b with
    | [] => fail NullDeref
    | c :: l =>
        if Z.leb size (off c) then let! d := chain_read c (off c) in ret (Some d)
        else if pinned_ahead l (size - off c) then ret None
        else
          let! ok := (if CHAIN_PINNED c then
              if Z.ltb (CHAIN_SPACE_LEN c) (size - off c) then ret false
              else pull_into (set_off (misalign c) size c) (misalign c + off c) l 1 (size - off c) ;; ret true
            else if Z.leb size (buffer_len c - misalign c) then
              pull_into (set_off (misalign c) size c) (misalign c + off c) l 1 (size - off c) ;; ret true
            else
              let! tmp := evbuffer_chain_new size in
              match tmp with
              | None => ret false
              | Some tmp => pull_into (set_off (misalign tmp) size tmp) 0 (c :: l) 0 size ;; ret true
              end) in
          if negb ok then ret None
          else
            let! c := chain_at 0 in
            let! d := chain_read c (off c) in ret (Some d)
    end.

(** ** Making room *)

(** The chain that has room for [datlen] bytes, by number; [None] without
    memory. *)
Definition evbuffer_expand_singlechain (datlen : Z) : T (option nat) :=
  let insert_new :=
    let! r := evbuffer_chain_insert_new datlen in
    match r with
    | None => ret None
    | Some i => let! c := chain_at i in assert_that (Z.leb datlen (CHAIN_SPACE_LEN c)) ;; ret (Some i)
    end in
  let! b := get in
  let p := match chains b !! last_with_datap b with
           | Some c => if Z.eqb (CHAIN_SPACE_LEN c) 0 then S (last_with_datap b) else last_with_datap b
           | None => last_with_datap b
           end in
  match chains b !! p with
  | None => insert_new
  | Some c =>
      if has (cflags c) (Z.lor EVBUFFER_IMMUTABLE EVBUFFER_MEM_PINNED_ANY) then insert_new
      else if Z.leb datlen (CHAIN_SPACE_LEN c) then ret (Some p)
      else if Z.eqb (off c) 0 then insert_new
      else if evbuffer_chain_should_realign c datlen then
        let! c := evbuffer_chain_align c in
        put_chain p c ;;
        assert_that (Z.leb datlen (CHAIN_SPACE_LEN c)) ;; ret (Some p)
      else if Z.ltb (CHAIN_SPACE_LEN c) (buffer_len c / 8) || Z.ltb MAX_TO_COPY_IN_EXPAND (off c) ||
              (Z.ltb datlen EVBUFFER_CHAIN_MAX && Z.leb (off c) (EVBUFFER_CHAIN_MAX - datlen)) then
        match chains b !! S p with
        | Some c' => if Z.leb datlen (CHAIN_SPACE_LEN c') then ret (Some (S p)) else insert_new
        | None => insert_new
        end
      else
        let! tmp := evbuffer_chain_new (off c + datlen) in
        match tmp with
        | None => ret None
        | Some tmp =>
            let! d := chain_read c (off c) in
            let! tmp := chain_write tmp 0 d in
            let tmp := set_off (misalign tmp) (off c) tmp in
            put_chain p tmp ;;
            evbuffer_chain_free c ;;
            assert_that (Z.leb datlen (CHAIN_SPACE_LEN tmp)) ;; ret (Some p)
        end
  end.

Definition evbuffer_expand (datlen : Z) : T Z :=
  let! r := evbuffer_expand_singlechain datlen in
  ret (match r with Some _ => 0 | None => -1 end).

(** Memory that is not copied. *)
Definition evbuffer_add_reference (data : bytes) (cleanup : option Z) : T Z :=
  let! c := evbuffer_chain_new 16 in
  match c with
  | None => ret (-1)
  | Some _ =>
      let! b := get in
      if freeze_end b then ret (-1)
      else
        evbuffer_chain_insert (mkChain data 0 (Z.of_nat (length data)) (Z.lor EVBUFFER_REFERENCE EVBUFFER_IMMUTABLE) cleanup) ;;
        modify (fun b => put_counts (u64 (n_add_for_cb b + Z.of_nat (length data))) (n_del_for_cb b) b) ;;
        evbuffer_invoke_callbacks ;; ret 0
  end.

(** ** Two buffers *)

(** The chains that are pinned for reading stay in the buffer: the result is
    -1 without memory, or 0 with the chains that stay. *)
Definition PRESERVE_PINNED : T (Z * list chain) :=
  let! b := get in
  if negb (HAS_PINNED_R b) then ret (0, [])
  else
    let! c := chain_at (last_with_datap b) in
    let p := if CHAIN_PINNED_R c then last_with_datap b else S (last_with_datap b) in
    let! c := chain_at p in
    assert_that (CHAIN_PINNED_R c) ;;
    if negb (Z.eqb (off c) 0) then
      assert_that (Nat.eqb p (last_with_datap b)) ;;
      let! tmp := evbuffer_chain_new (off c) in
      match tmp with
      | None => ret (-1, [])
      | Some tmp =>
          let! d := chain_read c (off c) in
          let! tmp := chain_write tmp 0 d in
          modify (fun b => put_chains (take p (chains b) ++ [set_off (misalign tmp) (off c) tmp]) (last_with_datap b) b) ;;
          ret (0, set_off (misalign c + off c) 0 c :: drop (S p) (chains b))
      end
    else
      modify (fun b => put_chains (take p (chains b)) (last_with_datap b) b) ;;
      ret (0, drop p (chains b)).

Definition RESTORE_PINNED (pinned : list chain) (b : evbuffer) : evbuffer :=
  match pinned with [] => ZERO_CHAIN b | _ => put_total 0 (put_chains pinned 0 b) end.

Definition COPY_CHAIN (src dst : evbuffer) : evbuffer := put_total (total_len src) (put_chains (chains src) (last_with_datap src) dst).
Definition APPEND_CHAIN (src dst : evbuffer) : evbuffer :=
  put_total (u64 (total_len dst + total_len src)) (put_chains (chains dst ++ chains src) (length (chains dst) + last_with_datap src) dst).
Definition PREPEND_CHAIN (src dst : evbuffer) : evbuffer :=
  put_total (u64 (total_len dst + total_len src))
    (put_chains (chains src ++ chains dst)
       (match chains dst !! last_with_datap dst with
        | None => last_with_datap src
        | Some _ => (length (chains src) + last_with_datap dst)%nat
        end) dst).

(** An operation on the first or on the second of two states. *)
Definition fst_ {S1 S2 A} (m : M S1 A) : M (S1 * S2) A := fun s =>
  match m (fst s) with Ok (a, x) => Ok (a, (x, snd s)) | Fault f => Fault f end.
Definition snd_ {S1 S2 A} (m : M S2 A) : M (S1 * S2) A := fun s =>
  match m (snd s) with Ok (a, x) => Ok (a, (fst s, x)) | Fault f => Fault f end.

(** evbuffer_add_buffer and evbuffer_prepend_buffer of two different buffers,
    outbuf first: [frozen] is the member of outbuf that forbids it, [join] what
    is done when outbuf has data. *)
Definition move_buffer (frozen : evbuffer -> bool) (join : evbuffer -> evbuffer -> evbuffer) : M (evbuffer * evbuffer) Z :=
  let! (outbuf, inbuf) := get in
  let n := total_len inbuf in
  if Z.eqb n 0 then ret 0
  else if frozen outbuf || freeze_start inbuf then ret (-1)
  else
    let! (r, pinned) := snd_ PRESERVE_PINNED in
    if Z.ltb r 0 then ret (-1)
    else
      let! (_, inbuf) := get in
      (if Z.eqb (total_len outbuf) 0 then
         fst_ (evbuffer_free_all_chains (chains outbuf)) ;; fst_ (modify (COPY_CHAIN inbuf))
       else fst_ (modify (join inbuf))) ;;
      snd_ (modify (RESTORE_PINNED pinned)) ;;
      snd_ (modify (fun b => put_counts (n_add_for_cb b) (u64 (n_del_for_cb b + n)) b)) ;;
      fst_ (modify (fun b => put_counts (u64 (n_add_for_cb b + n)) (n_del_for_cb b) b)) ;;
      snd_ evbuffer_invoke_callbacks ;;
      fst_ evbuffer_invoke_callbacks ;;
      ret 0.

Definition evbuffer_add_buffer : M (evbuffer * evbuffer) Z := move_buffer freeze_end APPEND_CHAIN.
Definition evbuffer_prepend_buffer : M (evbuffer * evbuffer) Z := move_buffer freeze_start PREPEND_CHAIN.

(** while (next chain has data) last_with_datap = &( *last_with_datap)->next *)
Fixpoint advance (l : list chain) (d : nat) : nat :=
  match l with
  | [] => d
  | c :: l' => if Z.eqb (off c) 0 then d else advance l' (S d)
  end.

Definition advance_last_with_data : T unit :=
  modify (fun b => put_chains (chains b) (match chains b !! last_with_datap b with
    | None => last_with_datap b
    | Some _ => advance (drop (S (last_with_datap b)) (chains b)) (last_with_datap b)
    end) b).

(** The loop of evbuffer_remove_buffer from chain [i] on: the number of chains
    that go, how many bytes they hold, and what is still wanted. *)
Fixpoint whole_chains (l : list chain) (i : nat) (datlen nread : Z) : T (nat * Z * Z) :=
  match l with
  | [] => fail NullDeref
  | c :: l' =>
      if Z.leb (off c) datlen then
        let! b := get in
        assert_that (negb (Nat.eqb (last_with_datap b) i)) ;;
        when (Nat.eqb (last_with_datap b) (S i)) (modify (fun b => put_chains (chains b) 0 b)) ;;
        whole_chains l' (S i) (datlen - off c) (nread + off c)
      else ret (i, nread, datlen)
  end.

(** src first, then dst: different buffers. *)
Definition evbuffer_remove_buffer (datlen : Z) : M (evbuffer * evbuffer) Z :=
  let! (src, dst) := get in
  if Z.eqb datlen 0 then ret 0
  else if freeze_end dst || freeze_start src then ret (-1)
  else if Z.leb (total_len src) datlen then
    let n := total_len src in
    let! _ := (fun s => match evbuffer_add_buffer (snd s, fst s) with Ok (r, (d, s)) => Ok (r, (s, d)) | Fault f => Fault f end) in
    ret (s32 n)
  else
    let! (k, nread, datlen) := fst_ (whole_chains (chains src) 0 datlen 0) in
    when (negb (Z.eqb nread 0))
      (let! i := snd_ evbuffer_free_trailing_empty_chains in
       snd_ (modify (fun b => put_chains (chains b ++ take k (chains src)) (last_with_datap b) b)) ;;
       fst_ (modify (fun b => put_chains (drop k (chains b)) (last_with_datap b - k) b)) ;;
       snd_ advance_last_with_data ;;
       snd_ (count_added nread)) ;;
    let! c := fst_ (chain_at (if Z.eqb nread 0 then k else 0)) in
    let! d := fst_ (chain_read c datlen) in
    let! _ := snd_ (evbuffer_add d) in
    fst_ (put_chain (if Z.eqb nread 0 then k else 0) (set_off (misalign c + datlen) (off c - datlen) c)) ;;
    let nread := nread + datlen in
    fst_ (modify (fun b => put_counts (n_add_for_cb b) (u64 (n_del_for_cb b + nread)) (put_total (total_len b - nread) b))) ;;
    when (negb (Z.eqb nread 0)) (snd_ evbuffer_invoke_callbacks ;; fst_ evbuffer_invoke_callbacks) ;;
    ret (s32 nread).
End Buffer.
