(* ===== verification/BufferFacts.v ===== *)
(** * Event buffers are byte strings

    [contents] is the data of the chains in order. The invariant [buf_ok] says
    that the chains stay inside their memory, that total_len counts the data,
    and that from last_with_datap on only the last chain may be empty. Chains
    are not pinned (that happens for overlapped I/O only). Every operation
    keeps the invariant and does to [contents] what its name says. *)

From stdpp Require Import prelude.
From S2P Require Import Prelude Buffer.
Open Scope Z_scope.

Module BufferFacts.
Import Buffer.

Definition cdata (c : chain) : bytes := take (Z.to_nat (off c)) (drop (Z.to_nat (misalign c)) (buffer c)).
Definition data_of (l : list chain) : bytes := concat (map cdata l).
Definition contents (b : evbuffer) : bytes := data_of (chains b).
Arguments cdata c : simpl never.
Arguments data_of l : simpl never.
Arguments contents b : simpl never.

(** Requests stay below 2 EiB, then so do the chains. *)
Definition LIMIT : Z := 2 ^ 61 - EVBUFFER_CHAIN_SIZE.

Record chain_ok (c : chain) : Prop := {
  co_mis : 0 <= misalign c;
  co_off : 0 <= off c;
  co_in : misalign c + off c <= buffer_len c;
  co_max : buffer_len c <= LIMIT;
  co_free : CHAIN_PINNED c = false
}.

Record buf_ok (b : evbuffer) : Prop := {
  bo_chains : Forall chain_ok (chains b);
  bo_total : total_len b = Z.of_nat (length (contents b));
  bo_size : total_len b <= EV_SIZE_MAX;
  bo_lwd : last_with_datap b = 0%nat \/ (last_with_datap b < length (chains b))%nat;
  bo_tidy : forall i c, (last_with_datap b <= i)%nat -> (S i < length (chains b))%nat -> chains b !! i = Some c -> off c <> 0
}.

(** What the operations leave alone unless they are about it. *)
Record same_core (b b' : evbuffer) : Prop := {
  sc_chains : chains b' = chains b; sc_lwd : last_with_datap b' = last_with_datap b; sc_total : total_len b' = total_len b;
  sc_start : freeze_start b' = freeze_start b; sc_end : freeze_end b' = freeze_end b; sc_mem : mem b' = mem b }.

Record same_rest (b b' : evbuffer) : Prop := {
  sr_start : freeze_start b' = freeze_start b; sr_end : freeze_end b' = freeze_end b; sr_mem : mem b' = mem b }.

#[export] Instance same_core_refl : Reflexive same_core.
Proof. by intros b. Qed.
#[export] Instance same_core_trans : Transitive same_core.
Proof. intros a b c [F1 F2 F3 F4 F5 F6] [G1 G2 G3 G4 G5 G6]. split; congruence. Qed.
#[export] Instance same_rest_refl : Reflexive same_rest.
Proof. by intros b. Qed.
#[export] Instance same_rest_trans : Transitive same_rest.
Proof. intros a b c [F1 F2 F3] [G1 G2 G3]. split; congruence. Qed.

Lemma core_rest b b' : same_core b b' -> same_rest b b'.
Proof. intros [F1 F2 F3 F4 F5 F6]. by split. Qed.

Lemma core_ok b b' : same_core b b' -> buf_ok b -> buf_ok b'.
Proof.
  intros [F1 F2 F3 _ _ _] [H1 H2 H3 H4 H5]. unfold contents in *. split; unfold contents; rewrite ?F1, ?F2, ?F3; done.
Qed.

Lemma core_contents b b' : same_core b b' -> contents b' = contents b.
Proof. intros H. unfold contents. by rewrite (sc_chains _ _ H). Qed.

(** The next operation is a [modify] that makes [b1] of [b]. *)
Ltac modified b b1 :=
  match goal with |- context [bind (modify ?f) _ b] => rewrite (bind_ok (modify f) _ _ _ _ (eq_refl : modify f b = Ok (tt, b1))) end.
Ltac gotten b := rewrite (bind_ok _ _ _ _ _ (eq_refl : get b = Ok (b, b))).

(** ** Data of chains *)

Lemma length_cdata c : chain_ok c -> length (cdata c) = Z.to_nat (off c).
Proof. intros [H1 H2 H3 _ _]. unfold cdata, buffer_len in *. rewrite length_take, length_drop. lia. Qed.

Lemma cdata_empty c : off c = 0 -> cdata c = [].
Proof. intros H. unfold cdata. by rewrite H. Qed.

Lemma data_of_app l1 l2 : data_of (l1 ++ l2) = data_of l1 ++ data_of l2.
Proof. unfold data_of. by rewrite map_app, concat_app. Qed.

Lemma data_of_cons c l : data_of (c :: l) = cdata c ++ data_of l.
Proof. done. Qed.

Lemma data_of_one c : data_of [c] = cdata c.
Proof. unfold data_of. cbn. apply app_nil_r. Qed.

Lemma data_of_empty l : evbuffer_chains_all_empty l = true -> data_of l = [].
Proof.
  unfold evbuffer_chains_all_empty. induction l as [|c l IH]; [done|]. cbn [forallb]. rewrite andb_true_iff, Z.eqb_eq. intros [Hc Hl].
  by rewrite data_of_cons, cdata_empty, IH.
Qed.

Lemma chain_read_run c b n : chain_ok c -> 0 <= n <= off c -> chain_read c n b = Ok (take (Z.to_nat n) (cdata c), b).
Proof.
  intros [H1 H2 H3 _ _] Hn. unfold chain_read, buffer_len in *. rewrite !(proj2 (Z.ltb_ge _ _)) by lia. cbn [orb]. unfold lift.
  rewrite mread_ok by lia. unfold cdata. rewrite take_take. by replace (Z.to_nat n `min` Z.to_nat (off c))%nat with (Z.to_nat n) by lia.
Qed.

Lemma chain_read_all c b : chain_ok c -> chain_read c (off c) b = Ok (cdata c, b).
Proof. intros H. rewrite chain_read_run by (done || pose proof (co_off _ H); lia). unfold cdata. by rewrite take_take, Nat.min_id. Qed.

(** Writing behind the data, and in front of it. *)
Definition written (c : chain) (m : bytes) : chain := mkChain m (misalign c) (off c) (cflags c) (cleanupfn c).

Lemma chain_write_run c b pos d : 0 <= pos -> pos + Z.of_nat (length d) <= buffer_len c ->
  chain_write c pos d b = Ok (written c (patch (buffer c) (Z.to_nat pos) d), b).
Proof.
  intros Hp Hd. unfold chain_write, buffer_len in *. rewrite (proj2 (Z.ltb_ge _ _)) by lia. unfold bind, lift. by rewrite mwrite_ok by lia.
Qed.

Lemma patch_buffer_len c pos d : 0 <= pos -> pos + Z.of_nat (length d) <= buffer_len c ->
  Z.of_nat (length (patch (buffer c) (Z.to_nat pos) d)) = buffer_len c.
Proof. intros Hp Hd. unfold buffer_len in *. rewrite length_patch by lia. done. Qed.

Lemma append_chain c d : chain_ok c -> misalign c + off c + Z.of_nat (length d) <= buffer_len c ->
  let c' := set_off (misalign c) (off c + Z.of_nat (length d)) (written c (patch (buffer c) (Z.to_nat (misalign c + off c)) d)) in
  chain_ok c' /\ cdata c' = cdata c ++ d.
Proof.
  intros [H1 H2 H3 H4 H5] Hd c'. assert (Hl : buffer_len c' = buffer_len c) by (apply patch_buffer_len; lia). split.
  - split; try done; cbn [misalign off set_off written c']; rewrite ?Hl; lia || done.
  - unfold cdata. cbn [misalign off buffer set_off written c']. unfold patch, buffer_len in *.
    rewrite (drop_app_le (take _ _)) by (rewrite length_take; lia). rewrite skipn_firstn_comm.
    replace (Z.to_nat (misalign c + off c) - Z.to_nat (misalign c))%nat with (Z.to_nat (off c)) by lia.
    rewrite Z2Nat.inj_add, Nat2Z.id by lia. rewrite take_app_ge by (rewrite length_take, length_drop; lia). f_equal.
    rewrite length_take, length_drop. replace (Z.to_nat (off c) + length d - Z.to_nat (off c) `min` (length (buffer c) - Z.to_nat (misalign c)))%nat with (length d) by lia.
    by rewrite take_app_length.
Qed.

Lemma prepend_chain c d : chain_ok c -> Z.of_nat (length d) <= misalign c ->
  let m := misalign c - Z.of_nat (length d) in
  let c' := set_off m (off c + Z.of_nat (length d)) (written c (patch (buffer c) (Z.to_nat m) d)) in
  chain_ok c' /\ cdata c' = d ++ cdata c.
Proof.
  intros [H1 H2 H3 H4 H5] Hd m c'. assert (Hl : buffer_len c' = buffer_len c) by (apply patch_buffer_len; lia). split.
  - split; try done; cbn [misalign off set_off written c']; rewrite ?Hl; lia || done.
  - unfold cdata. cbn [misalign off buffer set_off written c']. unfold patch, buffer_len in *. subst m.
    rewrite drop_app_length' by (rewrite length_take; lia). rewrite Z2Nat.inj_add, Nat2Z.id by lia.
    rewrite take_app_ge by lia. f_equal. replace (Z.to_nat (off c) + length d - length d)%nat with (Z.to_nat (off c)) by lia. f_equal. f_equal. lia.
Qed.

(** ** Allocation and release *)

Lemma chain_free_run c b : exists b', evbuffer_chain_free c b = Ok (tt, b') /\ same_core b b'.
Proof.
  unfold evbuffer_chain_free. destruct (CHAIN_PINNED c); [by eexists|]. destruct (has (cflags c) EVBUFFER_REFERENCE); [|by exists b].
  destruct (cleanupfn c); [by eexists|by exists b].
Qed.

Lemma free_all_run l : forall b, exists b', evbuffer_free_all_chains l b = Ok (tt, b') /\ same_core b b'.
Proof.
  induction l as [|c l IH]; intros b; cbn [evbuffer_free_all_chains]; [by exists b|].
  destruct (chain_free_run c b) as (b1 & E1 & S1). rewrite (bind_ok _ _ _ _ _ E1). destruct (IH b1) as (b2 & E2 & S2). exists b2. split; [done|]. by etransitivity.
Qed.

(** to_alloc stays a power of two, so it does not pass 2^61. *)
Lemma alloc_size_run f : forall n size k,
  0 < n -> 0 <= k -> n * 2 ^ k = 2 ^ 61 -> size <= 2 ^ Z.of_nat f * n -> size <= 2 ^ 61 -> size <= alloc_size f n size <= 2 ^ 61.
Proof.
  induction f as [|f IH]; intros n size k Hn Hk E Hf Hs; cbn [alloc_size].
  { change (2 ^ Z.of_nat 0) with 1 in Hf. pose proof (Z.pow_pos_nonneg 2 k). nia. }
  destruct (Z.ltb_spec n size) as [H|H]; [|pose proof (Z.pow_pos_nonneg 2 k); nia].
  assert (Hk0 : k <> 0) by (intros ->; change (2 ^ 0) with 1 in E; lia).
  unfold u64. rewrite Z.mod_small by (change (2 ^ 61) with 2305843009213693952 in *; lia).
  apply (IH _ _ (k - 1)); [lia|lia| |rewrite Nat2Z.inj_succ, Z.pow_succ_r in Hf by lia; lia|done].
  rewrite <-E. replace k with (Z.succ (k - 1)) at 2 by lia. rewrite Z.pow_succ_r by lia. lia.
Qed.

(** An empty chain with room for [size] bytes. *)
Record fresh (size : Z) (c : chain) : Prop := {
  fr_mis : misalign c = 0; fr_off : off c = 0; fr_flags : cflags c = 0; fr_len : size <= buffer_len c; fr_max : buffer_len c <= LIMIT }.

Lemma fresh_ok size c : fresh size c -> chain_ok c.
Proof. intros [F1 F2 F3 F4 F5]. split; rewrite ?F1, ?F2; try lia; [unfold buffer_len; lia|unfold CHAIN_PINNED; by rewrite F3]. Qed.

(** No call of malloc fails. *)
Definition enough_memory (b : evbuffer) : Prop := forall n, mem b n = true.

Lemma chain_new_run size b : 0 <= size <= LIMIT ->
  exists r b', evbuffer_chain_new size b = Ok (r, b') /\ same_core b b' /\ (forall c, r = Some c -> fresh size c) /\ (enough_memory b -> is_Some r).
Proof.
  intros [Hs Hl]. unfold evbuffer_chain_new. rewrite (proj2 (Z.ltb_ge _ _)) by (transitivity LIMIT; [done|by vm_compute]).
  unfold LIMIT in Hl. rewrite (proj2 (Z.ltb_lt _ _)) by (apply (Z.le_lt_trans _ (2 ^ 61)); [lia|by vm_compute]).
  set (n := alloc_size 64 MIN_BUFFER_SIZE (size + EVBUFFER_CHAIN_SIZE)).
  assert (Hn : size + EVBUFFER_CHAIN_SIZE <= n <= 2 ^ 61).
  { apply (alloc_size_run _ _ _ 51); [done|done|done| |lia]. transitivity (2 ^ 61); [lia|by vm_compute]. }
  clearbody n. rewrite (bind_ok _ _ _ _ _ (eq_refl : malloc b = Ok (mem b (nalloc b), put_nalloc (S (nalloc b)) b))).
  eexists _, _. split; [reflexivity|]. split_and!; [done| |intros Hm; by rewrite Hm].
  intros c. destruct (mem b (nalloc b)); [|done]. intros [= <-].
  split; try done; unfold buffer_len, zeros, LIMIT; cbn [buffer]; rewrite length_replicate; unfold EVBUFFER_CHAIN_SIZE in *; lia.
Qed.

(** ** Inserting a chain *)

(** With the invariant, the chain to be replaced can only be the last one. *)
Lemma victim_last l : forall i, Forall chain_ok l -> (forall j c, (S j < length l)%nat -> l !! j = Some c -> off c <> 0) ->
  (victim l i = (i + length l)%nat /\ Forall (fun c => off c <> 0) l) \/ exists l' c, l = l' ++ [c] /\ off c = 0 /\ victim l i = (i + length l')%nat.
Proof.
  induction l as [|c l IH]; intros i Hf Ht; cbn [victim length]; [left; split; [lia|constructor]|].
  apply Forall_cons in Hf as [Hc Hf]. rewrite (co_free _ Hc), orb_false_r.
  destruct (Z.eqb_spec (off c) 0) as [E|E]; cbn [negb].
  - destruct l as [|c2 l]; [right; exists [], c; cbn; split_and!; [done|done|lia]|]. exfalso. apply (Ht 0%nat c); [cbn; lia|done|done].
  - destruct (IH (S i) Hf) as [[V Hn]|(l' & c' & -> & E' & V)].
    + intros j c' Hj Hc'. apply (Ht (S j) c'); [cbn; lia|done].
    + left. split; [rewrite V; lia|by constructor].
    + right. exists (c :: l'), c'. split_and!; [done|done|]. rewrite V. cbn. lia.
Qed.

Lemma lwd_lt b : buf_ok b -> chains b <> [] -> (last_with_datap b < length (chains b))%nat.
Proof. intros H Hne. destruct (bo_lwd _ H) as [->|]; [destruct (chains b); [done|cbn; lia]|done]. Qed.

Lemma find_victim_cases b : buf_ok b -> chains b <> [] ->
  (find_victim b = length (chains b) /\ forall j c, (last_with_datap b <= j)%nat -> chains b !! j = Some c -> off c <> 0) \/
  exists l c, chains b = l ++ [c] /\ off c = 0 /\ find_victim b = length l /\ (last_with_datap b <= length l)%nat.
Proof.
  intros H Hne. pose proof (lwd_lt b H Hne) as Hl. destruct H as [H1 H2 H3 H4 H5]. unfold find_victim.
  destruct (victim_last (drop (last_with_datap b) (chains b)) (last_with_datap b)) as [[V Hn]|(l & c & E & E0 & V)].
  - by apply Forall_drop.
  - intros j c Hj Hc. rewrite lookup_drop in Hc. rewrite length_drop in Hj. eapply (H5 (last_with_datap b + j)%nat); [lia|lia|done].
  - left. split; [rewrite V, length_drop; lia|]. intros j c Hj Hc. rewrite Forall_lookup in Hn. apply (Hn (j - last_with_datap b)%nat).
    rewrite lookup_drop. by replace (last_with_datap b + (j - last_with_datap b))%nat with j by lia.
  - right. exists (take (last_with_datap b) (chains b) ++ l), c. rewrite length_app, length_take, Nat.min_l by lia. split_and!; [|done|done|lia].
    by rewrite <-app_assoc, <-E, take_drop.
Qed.

(** The state after evbuffer_chain_insert: [l] holds the old data. *)
Lemma inserted_ok b b1 l d c :
  buf_ok b -> chain_ok c -> total_len b + off c <= EV_SIZE_MAX -> same_rest b b1 -> total_len b1 = total_len b -> Forall chain_ok l -> data_of l = contents b ->
  (d <= length l)%nat -> (forall i x, (d <= i)%nat -> l !! i = Some x -> off x <> 0) ->
  let b' := put_total (u64 (total_len b1 + off c)) (put_chains (l ++ [c]) d b1) in
  buf_ok b' /\ same_rest b b' /\ chains b' = l ++ [c] /\ data_of l = contents b.
Proof.
  intros H Hc Ht [S1 S2 S3] Ht1 Hl Hd Hd0 Htd b'. pose proof (co_off _ Hc) as Ho. pose proof H as [H1 H2 H3 H4 H5].
  assert (Hu : u64 (total_len b1 + off c) = total_len b + off c) by (rewrite Ht1; unfold u64, EV_SIZE_MAX in *; apply Z.mod_small; lia).
  split_and!; try done. unfold b'. rewrite Hu. split; cbn.
  - apply Forall_app. split; [done|]. by apply Forall_singleton.
  - change (contents (put_total _ _)) with (data_of (l ++ [c])). rewrite data_of_app, data_of_one, Hd, length_app, length_cdata, H2 by done. lia.
  - done.
  - right. rewrite length_app. cbn. lia.
  - intros i x Hi Hi2 Hx. rewrite length_app in Hi2. cbn in Hi2. rewrite lookup_app_l in Hx by lia. by apply (Htd i).
Qed.

Lemma insert_run c b :
  buf_ok b -> chain_ok c -> total_len b + off c <= EV_SIZE_MAX ->
  exists b' l, evbuffer_chain_insert c b = Ok (tt, b') /\ buf_ok b' /\ same_rest b b' /\ chains b' = l ++ [c] /\ data_of l = contents b.
Proof.
  intros H Hc Ht. pose proof H as [H1 H2 H3 H4 H5]. unfold evbuffer_chain_insert. gotten b.
  destruct (decide (chains b = [])) as [El|Hne].
  - assert (Hd : last_with_datap b = 0%nat) by (destruct H4 as [|H4]; [done|rewrite El in H4; cbn in H4; lia]). rewrite Hd, El. cbn [lookup list_lookup].
    eexists _, []. split; [reflexivity|]. assert (Hz : contents b = []) by (unfold contents; by rewrite El).
    apply (inserted_ok b b [] 0%nat c); try done; by rewrite Hz.
  - destruct (lookup_lt_is_Some_2 _ _ (lwd_lt b H Hne)) as [x ->]. destruct (find_victim_cases b H Hne) as [[-> Hn]|(l & y & El & E0 & -> & Hle)].
    + rewrite (proj2 (Nat.leb_le _ _)) by lia. eexists _, (chains b). split; [reflexivity|]. apply (inserted_ok b b (chains b) (if Z.eqb (off c) 0 then last_with_datap b else length (chains b)) c); try done.
      * destruct (Z.eqb (off c) 0); [|done]. pose proof (lwd_lt b H Hne). lia.
      * intros i z Hi Hz. destruct (Z.eqb (off c) 0); [by apply (Hn i)|]. apply lookup_lt_Some in Hz. lia.
    + assert (Hlen : length (chains b) = S (length l)) by (rewrite El, length_app; cbn; lia). rewrite (proj2 (Nat.leb_gt _ _)) by lia.
      assert (Hdr : drop (length l) (chains b) = [y]) by (by rewrite El, drop_app_length). assert (Htk : take (length l) (chains b) = l) by (by rewrite El, take_app_length).
      rewrite Hdr, Htk. destruct (free_all_run [y] b) as (b1 & E1 & S1).
      assert (E2 : (assert_that (evbuffer_chains_all_empty [y]) ;; evbuffer_free_all_chains [y] ;; modify (put_chains (l ++ [c]) (last_with_datap b))) b = Ok (tt, put_chains (l ++ [c]) (last_with_datap b) b1)).
      { unfold evbuffer_chains_all_empty. cbn [forallb]. rewrite E0. rewrite (bind_ok _ _ _ _ _ (eq_refl : assert_that (Z.eqb 0 0 && true) b = Ok (tt, b))). by rewrite (bind_ok _ _ _ _ _ E1). }
      rewrite (bind_ok _ _ _ _ _ E2). eexists _, l. split; [reflexivity|]. apply (inserted_ok b b1 l (last_with_datap b) c); try done.
      * by apply core_rest.
      * by rewrite (sc_total _ _ S1).
      * rewrite El in H1. by apply Forall_app in H1 as [? _].
      * unfold contents. by rewrite El, data_of_app, data_of_one, (cdata_empty y E0), app_nil_r.
      * intros i z Hi Hz. apply lookup_lt_Some in Hz as Hz2. apply (H5 i z); [done|lia|]. by rewrite El, lookup_app_l.
Qed.

Lemma invoke_run b : exists b', evbuffer_invoke_callbacks b = Ok (tt, b') /\ same_core b b'.
Proof.
  unfold evbuffer_invoke_callbacks. gotten b. destruct (callbacks b) as [|e l] eqn:El; [by eexists|].
  destruct (deferred_cbs b && queued b); [by eexists|].
  set (b1 := if deferred_cbs b then put_queued true (refcnt b + 1) b else b).
  assert (E1 : when (deferred_cbs b) (modify (fun b => put_queued true (refcnt b + 1) b)) b = Ok (tt, b1)) by (unfold b1; by destruct (deferred_cbs b)).
  assert (S1 : same_core b b1) by (unfold b1; by destruct (deferred_cbs b)). assert (Hcb : callbacks b1 = e :: l) by (unfold b1; by destruct (deferred_cbs b)).
  rewrite (bind_ok _ _ _ _ _ E1). unfold evbuffer_run_callbacks. rewrite (bind_ok _ _ _ _ _ (eq_refl : get b1 = Ok (b1, b1))), Hcb.
  destruct (deferred_cbs b1); (destruct (Z.eqb (n_add_for_cb b1) 0 && Z.eqb (n_del_for_cb b1) 0); [by exists b1|]); eexists; (split; [reflexivity|]); (etransitivity; [exact S1|]); done.
Qed.

(** ** Adding *)

Lemma app_last (l : list chain) c : (length (l ++ [c]) - 1)%nat = length l.
Proof. rewrite length_app. cbn. lia. Qed.

Lemma chain_at_last b l c : chains b = l ++ [c] -> chain_at (length (chains b) - 1) b = Ok (c, b).
Proof. intros E. unfold chain_at. by rewrite E, app_last, lookup_app_r, Nat.sub_diag. Qed.

(** The last chain gets [d] more. *)
Lemma grow_last b l c c' d :
  buf_ok b -> chains b = l ++ [c] -> chain_ok c' -> cdata c' = cdata c ++ d -> total_len b + Z.of_nat (length d) <= EV_SIZE_MAX ->
  exists b', (put_chain (length (chains b) - 1) c' ;; count_added (Z.of_nat (length d))) b = Ok (tt, b') /\
    buf_ok b' /\ same_rest b b' /\ contents b' = contents b ++ d /\ chains b' = l ++ [c'].
Proof.
  intros [H1 H2 H3 H4 H5] El Hc Hd Ht. eexists. split; [reflexivity|].
  assert (Ei : <[(length (chains b) - 1)%nat := c']> (chains b) = l ++ [c']) by (by rewrite El, app_last, insert_app_r_alt, Nat.sub_diag by lia).
  assert (Hcn : data_of (l ++ [c']) = contents b ++ d) by (unfold contents; by rewrite El, !data_of_app, !data_of_one, Hd, app_assoc).
  cbn. rewrite Ei. assert (Hu : u64 (total_len b + Z.of_nat (length d)) = total_len b + Z.of_nat (length d)) by (unfold u64, EV_SIZE_MAX in *; apply Z.mod_small; lia).
  rewrite Hu. assert (Hlen : length (chains b) = S (length l)) by (rewrite El, length_app; cbn; lia).
  split_and!; try done; cbn. split; cbn.
  - rewrite El in H1. apply Forall_app in H1 as [Hl _]. apply Forall_app. split; [done|]. by apply Forall_singleton.
  - change (contents _) with (data_of (l ++ [c'])). rewrite Hcn, length_app. lia.
  - done.
  - rewrite length_app. cbn. lia.
  - intros i x Hi Hi2 Hx. rewrite length_app in Hi2. cbn in Hi2. rewrite lookup_app_l in Hx by lia. apply (H5 i); [done|lia|]. by rewrite El, lookup_app_l by lia.
Qed.

(** How an operation ends that has changed the buffer. *)
Lemma then_invoke {A} (a : A) b b1 :
  buf_ok b1 -> same_rest b b1 -> exists b', (evbuffer_invoke_callbacks ;; ret a) b1 = Ok (a, b') /\ buf_ok b' /\ same_rest b b' /\ contents b' = contents b1.
Proof.
  intros H S1. destruct (invoke_run b1) as (b2 & E & S2). rewrite (bind_ok _ _ _ _ _ E). exists b2.
  split_and!; [done|by eapply core_ok|etransitivity; [exact S1|by apply core_rest]|by apply core_contents].
Qed.

(** The result of an operation that appends [d]: all of it or nothing, and
    nothing only for want of memory, or because [forbidden]. *)
Definition appends (d : bytes) (forbidden : bool) (b : evbuffer) (r : Z) (b' : evbuffer) : Prop :=
  buf_ok b' /\ same_rest b b' /\
  ((forbidden = false /\ r = 0 /\ contents b' = contents b ++ d) \/
   (r = -1 /\ contents b' = contents b /\ (enough_memory b -> forbidden = true \/ EV_SIZE_MAX < total_len b + Z.of_nat (length d)))).

Lemma add_new_chain_run b l c d remain :
  buf_ok b -> chains b = l ++ [c] -> 0 <= remain <= Z.of_nat (length d) -> Z.of_nat (length d) <= LIMIT -> misalign c + off c + remain <= buffer_len c ->
  total_len b + Z.of_nat (length d) <= EV_SIZE_MAX -> exists r b', add_new_chain (length (chains b) - 1) c d remain b = Ok (r, b') /\ appends d false b r b'.
Proof.
  intros H El Hrem Hdl Hin Ht. pose proof H as [H1 H2 H3 H4 H5]. unfold add_new_chain. cbn zeta.
  assert (Hck : chain_ok c) by (rewrite El in H1; apply Forall_app in H1 as [_ H1]; by inversion H1).
  set (n0 := if Z.leb (buffer_len c) (EVBUFFER_CHAIN_MAX_AUTO_SIZE / 2) then buffer_len c * 2 else buffer_len c).
  set (n := if Z.ltb n0 (Z.of_nat (length d)) then Z.of_nat (length d) else n0).
  assert (Hn : Z.of_nat (length d) <= n <= LIMIT).
  { pose proof (co_max _ Hck) as Hm. assert (H4096 : 4096 <= LIMIT) by by vm_compute.
    assert (Hn0 : n0 <= LIMIT) by (unfold n0; change (EVBUFFER_CHAIN_MAX_AUTO_SIZE / 2) with 2048; destruct (Z.leb_spec (buffer_len c) 2048); lia).
    unfold n. destruct (Z.ltb_spec n0 (Z.of_nat (length d))); lia. }
  destruct (chain_new_run n b ltac:(lia)) as (r & b1 & E1 & S1 & Hf & Hm). rewrite (bind_ok _ _ _ _ _ E1).
  pose proof (core_ok _ _ S1 H) as Hb1. pose proof (sc_chains _ _ S1) as C1.
  destruct r as [tmp|].
  2: { exists (-1), b1. split; [done|]. split_and!; [done|by apply core_rest|]. right. split_and!; [done|by apply core_contents|].
    intros He. by destruct (Hm He). }
  pose proof (Hf tmp eq_refl) as [F1 F2 F3 F4 F5]. pose proof (fresh_ok _ _ (Hf tmp eq_refl)) as Htmp.
  assert (Hfill : exists b2, when (negb (Z.eqb remain 0))
      (let! c := chain_write c (misalign c + off c) (take (Z.to_nat remain) d) in
       put_chain (length (chains b) - 1) (set_off (misalign c) (off c + remain) c) ;; count_added remain) b1 = Ok (tt, b2) /\ buf_ok b2 /\ same_rest b b2 /\
      contents b2 = contents b ++ take (Z.to_nat remain) d /\ total_len b2 = total_len b + remain).
  { destruct (Z.eqb_spec remain 0) as [->|Hr0]; cbn [negb when].
    - exists b1. split_and!; [done|done|by apply core_rest|by rewrite app_nil_r, (core_contents _ _ S1)|rewrite (sc_total _ _ S1); lia].
    - assert (Hlt : Z.of_nat (length (take (Z.to_nat remain) d)) = remain) by (rewrite length_take; lia).
      destruct (append_chain c (take (Z.to_nat remain) d) Hck) as [Hc' Hd']; [lia|]. rewrite Hlt in Hc', Hd'.
      rewrite (bind_ok _ _ _ _ _ (chain_write_run c b1 (misalign c + off c) (take (Z.to_nat remain) d) ltac:(pose proof (co_mis _ Hck); pose proof (co_off _ Hck); lia) ltac:(lia))).
      destruct (grow_last b1 l c _ (take (Z.to_nat remain) d) Hb1 ltac:(congruence) Hc' Hd') as (b2 & E2 & G1 & G2 & G3 & G4); [rewrite (sc_total _ _ S1); lia|].
      rewrite Hlt, C1 in E2. exists b2. split_and!; [exact E2|done|etransitivity; [by apply core_rest|done]|by rewrite G3, (core_contents _ _ S1)|].
      rewrite (bo_total _ G1), G3, length_app, (core_contents _ _ S1), Nat2Z.inj_add, Hlt, H2. done. }
  destruct Hfill as (b2 & E2 & Hb2 & S2 & C2 & T2). rewrite (bind_ok _ _ _ _ _ E2).
  set (rest := drop (Z.to_nat remain) d). assert (Hrl : Z.of_nat (length rest) = Z.of_nat (length d) - remain) by (unfold rest; rewrite length_drop; lia).
  destruct (append_chain tmp rest Htmp) as [Hc' Hd']; [rewrite F1, F2; lia|]. rewrite F1, F2, !Z.add_0_l in Hc', Hd'.
  rewrite (bind_ok _ _ _ _ _ (chain_write_run tmp b2 0 rest ltac:(lia) ltac:(lia))). cbn [misalign written].
  destruct (insert_run (set_off (misalign tmp) (Z.of_nat (length rest)) (written tmp (patch (buffer tmp) (Z.to_nat 0) rest))) b2 Hb2) as (b3 & l3 & E3 & Hb3 & S3 & C3 & D3).
  { by rewrite F1. } { cbn. rewrite T2. lia. }
  rewrite (bind_ok _ _ _ _ _ E3).
  set (b4 := put_counts (u64 (n_add_for_cb b3 + Z.of_nat (length rest))) (n_del_for_cb b3) b3).
  rewrite (bind_ok _ _ _ _ _ (eq_refl : modify (fun b => put_counts (u64 (n_add_for_cb b + Z.of_nat (length rest))) (n_del_for_cb b) b) b3 = Ok (tt, b4))).
  assert (S4 : same_core b3 b4) by done. destruct (then_invoke 0 b b4) as (b5 & E5 & Hb5 & S5 & C5); [by eapply core_ok| |].
  { etransitivity; [exact S2|]. etransitivity; [exact S3|]. by apply core_rest. }
  exists 0, b5. split; [done|]. split_and!; [done|done|]. left. split_and!; [done|done|]. rewrite C5, (core_contents _ _ S4). unfold contents at 1. rewrite C3, data_of_app, data_of_one, D3, C2.
  rewrite F1, Hd', (cdata_empty tmp F2), <-app_assoc. cbn [app]. unfold rest. by rewrite take_drop.
Qed.

(** Moving the data of a chain to the start of its memory. *)
Lemma align_run c b : chain_ok c -> has (cflags c) EVBUFFER_IMMUTABLE = false ->
  exists c', evbuffer_chain_align c b = Ok (c', b) /\ chain_ok c' /\ misalign c' = 0 /\ off c' = off c /\ buffer_len c' = buffer_len c /\ cdata c' = cdata c /\ cflags c' = cflags c.
Proof.
  intros Hc Hi. pose proof Hc as [H1 H2 H3 H4 H5]. pose proof (length_cdata c Hc) as Hl. unfold evbuffer_chain_align. rewrite Hi.
  rewrite (bind_ok _ _ _ _ _ (eq_refl : assert_that (negb false) b = Ok (tt, b))). unfold CHAIN_PINNED in H5. rewrite H5.
  rewrite (bind_ok _ _ _ _ _ (eq_refl : assert_that (negb false) b = Ok (tt, b))).
  rewrite (bind_ok _ _ _ _ _ (chain_read_all c b Hc)), (bind_ok _ _ _ _ _ (chain_write_run c b 0 (cdata c) ltac:(lia) ltac:(lia))).
  eexists. split; [reflexivity|]. pose proof (patch_buffer_len c 0 (cdata c) ltac:(lia) ltac:(lia)) as Hp.
  split_and!; try done.
  - split; cbn [misalign off set_off written]; try done; unfold buffer_len at 1; cbn [buffer set_off written]; rewrite Hp; lia.
  - unfold cdata at 1. cbn [misalign off buffer set_off written]. change (Z.to_nat 0) with 0%nat. unfold patch. rewrite take_0, drop_0. cbn [app].
    by rewrite take_app_length' by done.
Qed.

Lemma same_total b b' : buf_ok b -> buf_ok b' -> contents b' = contents b -> total_len b' = total_len b.
Proof. intros H H' E. by rewrite (bo_total _ H), (bo_total _ H'), E. Qed.

(** A new empty chain at the end. *)
Lemma insert_new_run n b : buf_ok b -> 0 <= n <= LIMIT ->
  exists r b', evbuffer_chain_insert_new n b = Ok (r, b') /\ buf_ok b' /\ same_rest b b' /\ contents b' = contents b /\ (enough_memory b -> is_Some r) /\
    (forall i, r = Some i -> exists l c, chains b' = l ++ [c] /\ i = length l /\ fresh n c).
Proof.
  intros H Hn. unfold evbuffer_chain_insert_new. destruct (chain_new_run n b Hn) as (r & b1 & E1 & S1 & Hf & Hm). rewrite (bind_ok _ _ _ _ _ E1).
  assert (Hb1 : buf_ok b1) by by eapply core_ok. destruct r as [c|].
  2: { exists None, b1. split_and!; try done; [by apply core_rest|by apply core_contents|]. intros He. by destruct (Hm He). }
  pose proof (Hf c eq_refl) as F. pose proof (fr_off _ _ F) as F2.
  destruct (insert_run c b1 Hb1 (fresh_ok _ _ F)) as (b2 & l & E2 & Hb2 & S2 & C2 & D2); [rewrite F2, Z.add_0_r; apply (bo_size _ Hb1)|].
  rewrite (bind_ok _ _ _ _ _ E2). exists (Some (length (chains b2) - 1)%nat), b2. split_and!; try done.
  - etransitivity; [by apply core_rest|done].
  - unfold contents at 1. by rewrite C2, data_of_app, data_of_one, (cdata_empty c F2), app_nil_r, D2, (core_contents _ _ S1).
  - intros i [= <-]. exists l, c. by rewrite C2, app_last.
Qed.

(** The first chain of an empty buffer. *)
Lemma first_chain_run n b : buf_ok b -> 0 <= n <= LIMIT ->
  exists ok b1, (match chains b with
       | [] => let! r := evbuffer_chain_insert_new n in ret (match r with Some _ => true | None => false end)
       | _ => ret true
       end) b = Ok (ok, b1) /\ buf_ok b1 /\ same_rest b b1 /\ contents b1 = contents b /\ total_len b1 = total_len b /\
    (ok = true -> chains b1 <> []) /\ (enough_memory b -> ok = true).
Proof.
  intros H Hn. destruct (chains b) as [|c0 l0] eqn:El.
  2: { exists true, b. split; [done|]. split_and!; try done. by rewrite El. }
  destruct (insert_new_run n b H Hn) as (r & b1 & E1 & Hb1 & S1 & C1 & Hm & Hf). rewrite (bind_ok _ _ _ _ _ E1).
  eexists _, b1. split; [reflexivity|]. split_and!; try done.
  - by apply same_total.
  - destruct r as [i|]; [|done]. intros _. destruct (Hf i eq_refl) as (l & c & -> & _). by destruct l.
  - intros He. by destruct (Hm He) as [i ->].
Qed.

Lemma Forall_app_last (P : chain -> Prop) l l' c : Forall P l -> l = l' ++ [c] -> P c.
Proof. intros H ->. apply Forall_app in H as [_ H]. by inversion H. Qed.

Lemma appends_from d f b b1 r b' : same_rest b b1 -> contents b1 = contents b -> total_len b1 = total_len b -> appends d f b1 r b' -> appends d f b r b'.
Proof.
  intros S1 C1 T1 (A1 & A2 & A3). split_and!; [done|by etransitivity|]. destruct A3 as [(-> & -> & A3)|(-> & A3 & A4)]; [left; split_and!; congruence|].
  right. split_and!; [done|congruence|]. unfold enough_memory in *. rewrite <-T1, <-(sr_mem _ _ S1). done.
Qed.

Lemma last_split (l : list chain) : l <> [] -> exists l' c, l = l' ++ [c].
Proof. intros H. destruct (exists_last H) as (l' & c & E). eauto. Qed.

(** Writing [d] behind the data of the last chain. *)
Lemma add_here c2 (b0 b : evbuffer) l c d :
  buf_ok b -> same_rest b0 b -> contents b = contents b0 -> chains b = l ++ [c] -> chain_ok c2 -> cdata c2 = cdata c -> misalign c2 + off c2 + Z.of_nat (length d) <= buffer_len c2 ->
  total_len b + Z.of_nat (length d) <= EV_SIZE_MAX ->
  exists r b', (let! c := chain_write c2 (misalign c2 + off c2) d in
    put_chain (length (chains b) - 1) (set_off (misalign c) (off c + Z.of_nat (length d)) c) ;; count_added (Z.of_nat (length d)) ;;
    evbuffer_invoke_callbacks ;; ret 0) b = Ok (r, b') /\ appends d false b0 r b'.
Proof.
  intros H S0 C0 El Hc Hd Hin Ht. destruct (append_chain c2 d Hc Hin) as [Hc' Hd'].
  rewrite (bind_ok _ _ _ _ _ (chain_write_run c2 b (misalign c2 + off c2) d ltac:(pose proof (co_mis _ Hc); pose proof (co_off _ Hc); lia) ltac:(lia))).
  destruct (grow_last b l c _ d H El Hc' ltac:(rewrite <-Hd; exact Hd') Ht) as (b1 & E1 & Hb1 & S1 & C1 & _).
  destruct (then_invoke 0 b0 b1) as (b2 & E2 & Hb2 & S2 & C2); [done|by etransitivity|].
  exists 0, b2. split; [|split_and!; [done|done|left; split_and!; [done|done|congruence]]].
  unfold bind in E1 at 1. unfold bind at 1. cbn in E1 |- *. unfold bind in E1 |- *. injection E1 as <-. exact E2.
Qed.
Lemma buffer_add_run d b : buf_ok b -> Z.of_nat (length d) <= LIMIT -> exists r b', evbuffer_add d b = Ok (r, b') /\ appends d (freeze_end b) b r b'.
Proof.
  intros H Hd. unfold evbuffer_add. cbn zeta. gotten b.
  assert (Hno : forall b', buf_ok b' -> same_rest b b' -> contents b' = contents b ->
    (enough_memory b -> freeze_end b = true \/ EV_SIZE_MAX < total_len b + Z.of_nat (length d)) -> appends d (freeze_end b) b (-1) b').
  { intros b' A1 A2 A3 A4. split_and!; [done|done|right; done]. }
  destruct (freeze_end b) eqn:Ef; [exists (-1), b; split; [done|apply Hno; try done; intros _; by left]|].
  destruct (Z.ltb_spec (EV_SIZE_MAX - total_len b) (Z.of_nat (length d))) as [Ht|Ht]; [exists (-1), b; split; [done|apply Hno; try done; intros; right; lia]|].
  destruct (first_chain_run (Z.of_nat (length d)) b H ltac:(lia)) as (ok & b1 & E1 & Hb1 & S1 & C1 & T1 & Hne & Hok). rewrite (bind_ok _ _ _ _ _ E1).
  destruct ok; cbn [negb]; [|exists (-1), b1; split; [done|apply Hno; try done; intros He; by specialize (Hok He)]].
  destruct (last_split (chains b1) (Hne eq_refl)) as (l & c & El). assert (Hck : chain_ok c) by (eapply Forall_app_last, El; apply Hb1).
  rewrite (bind_ok _ _ _ _ _ (eq_refl : get b1 = Ok (b1, b1))), (bind_ok _ _ _ _ _ (chain_at_last b1 l c El)).
  assert (Hnew : forall remain, 0 <= remain <= Z.of_nat (length d) -> misalign c + off c + remain <= buffer_len c ->
    exists r b', add_new_chain (length (chains b1) - 1) c d remain b1 = Ok (r, b') /\ appends d false b r b').
  { intros remain A1 A2. destruct (add_new_chain_run b1 l c d remain Hb1 El A1 Hd A2 ltac:(lia)) as (r & b' & E & A). exists r, b'. split; [done|by eapply appends_from]. }
  pose proof Hck as [K1 K2 K3 K4 K5]. destruct (has (cflags c) EVBUFFER_IMMUTABLE) eqn:Ei; cbn [negb]; [apply Hnew; lia|].
  assert (Ha : (Z.leb 0 (misalign c) && Z.leb (misalign c) EVBUFFER_CHAIN_MAX) = true).
  { rewrite andb_true_iff, !Z.leb_le. split; [done|]. transitivity LIMIT; [lia|by vm_compute]. }
  rewrite Ha, (bind_ok _ _ _ _ _ (eq_refl : assert_that true b1 = Ok (tt, b1))).
  destruct (Z.leb_spec (Z.of_nat (length d)) (buffer_len c - misalign c - off c)) as [Hfit|Hfit].
  { apply (add_here c b b1 l c d); try done; lia. }
  destruct (negb (CHAIN_PINNED c) && evbuffer_chain_should_realign c (Z.of_nat (length d))) eqn:Er; [|apply Hnew; lia].
  apply andb_true_iff in Er as [_ Er]. unfold evbuffer_chain_should_realign in Er. rewrite !andb_true_iff, Z.leb_le in Er. destruct Er as [[Er _] _].
  destruct (align_run c b1 Hck Ei) as (c2 & E2 & Hc2 & M2 & O2 & L2 & D2 & _). rewrite (bind_ok _ _ _ _ _ E2).
  pose proof (add_here c2 b b1 l c d Hb1 S1 C1 El Hc2 D2 ltac:(lia) ltac:(lia)) as Hh. by rewrite M2, Z.add_0_l in Hh.
Qed.
(** ** Removing *)

Lemma not_pinned_r c : chain_ok c -> CHAIN_PINNED_R c = false.
Proof.
  intros H. pose proof (co_free _ H) as Hp. unfold CHAIN_PINNED_R, CHAIN_PINNED, has in *. rewrite negb_false_iff, Z.eqb_eq in *.
  change EVBUFFER_MEM_PINNED_R with (Z.land EVBUFFER_MEM_PINNED_ANY EVBUFFER_MEM_PINNED_R). by rewrite Z.land_assoc, Hp.
Qed.

Lemma no_pinned b : Forall chain_ok (chains b) -> HAS_PINNED_R b = false.
Proof.
  intros H. unfold HAS_PINNED_R. destruct (last (chains b)) as [c|] eqn:E; [|done]. apply not_pinned_r. apply last_Some in E as [l E].
  by apply (Forall_app_last _ (chains b) l).
Qed.

(** The first [n] bytes of a chain gone. *)
Lemma drop_chain c n : chain_ok c -> 0 <= n <= off c ->
  let c' := set_off (misalign c + n) (off c - n) c in chain_ok c' /\ cdata c' = drop (Z.to_nat n) (cdata c).
Proof.
  intros [H1 H2 H3 H4 H5] Hn c'. split; [split; cbn [misalign off set_off c']; try done; unfold buffer_len in *; cbn [buffer set_off c']; lia|].
  unfold cdata. cbn [misalign off buffer set_off c']. rewrite skipn_firstn_comm, drop_drop. f_equal; [lia|]. f_equal. lia.
Qed.

Record same_list (b b' : evbuffer) : Prop := { sl_chains : chains b' = chains b; sl_total : total_len b' = total_len b; sl_rest : same_rest b b' }.

Lemma core_list b b' : same_core b b' -> same_list b b'.
Proof. intros H. split; [apply H|apply H|by apply core_rest]. Qed.
Lemma same_list_trans a b c : same_list a b -> same_list b c -> same_list a c.
Proof. intros [F1 F2 F3] [G1 G2 G3]. split; [congruence|congruence|by etransitivity]. Qed.

(** last_with_datap of [b'] after the chains [i] to [i] + [n] - 1 went. *)
Definition lwd_after (i n : nat) (b b' : evbuffer) : Prop :=
  (last_with_datap b' = 0%nat /\ (last_with_datap b = 0%nat \/ (i <= last_with_datap b <= i + n)%nat)) \/
  (last_with_datap b' = last_with_datap b /\ (n = 0%nat \/ (last_with_datap b < i)%nat \/ (i + n < last_with_datap b)%nat)).

Lemma drain_loop_run l : forall i n b, Forall chain_ok l -> 0 <= n < Z.of_nat (length (data_of l)) ->
  exists l1 c l2 b', drain_loop l i n b = Ok ((c :: l2, n - Z.of_nat (length (data_of l1))), b') /\ l = l1 ++ c :: l2 /\
    0 <= n - Z.of_nat (length (data_of l1)) < off c /\ same_list b b' /\ lwd_after i (length l1) b b'.
Proof.
  induction l as [|c l IH]; intros i n b Hf Hn; [change (data_of []) with (@nil Z) in Hn; cbn in Hn; lia|]. apply Forall_cons in Hf as [Hc Hf]. cbn [drain_loop].
  pose proof (length_cdata c Hc) as Hl. pose proof (co_off _ Hc) as Ho. rewrite data_of_cons, length_app in Hn.
  destruct (Z.leb_spec (off c) n) as [H|H].
  2: { exists [], c, l, b. change (data_of []) with (@nil Z). cbn [length app Z.of_nat]. rewrite Z.sub_0_r. split_and!; [done|done|lia|lia|done|right; auto]. }
  set (b1 := if Nat.eqb (last_with_datap b) i || Nat.eqb (last_with_datap b) (S i) then put_chains (chains b) 0 b else b).
  modified b b1. rewrite (not_pinned_r c Hc).
  destruct (chain_free_run c b1) as (b2 & E2 & S2). rewrite (bind_ok _ _ _ _ _ E2).
  destruct (IH (S i) (n - off c) b2 Hf ltac:(lia)) as (l1 & c' & l2 & b3 & E3 & -> & Hr & S3 & W3).
  exists (c :: l1), c', l2, b3. rewrite data_of_cons, length_app.
  replace (n - Z.of_nat (length (cdata c) + length (data_of l1))) with (n - off c - Z.of_nat (length (data_of l1))) by lia.
  split_and!; [done|done|lia|lia| |].
  - eapply same_list_trans; [|exact S3]. eapply same_list_trans; [|apply core_list, S2]. unfold b1. by case_match.
  - unfold lwd_after in *. cbn [length]. rewrite (sc_lwd _ _ S2) in W3.
    assert (Hb1 : (last_with_datap b1 = 0 /\ (i <= last_with_datap b <= S i))%nat \/ (last_with_datap b1 = last_with_datap b /\ (last_with_datap b < i \/ S i < last_with_datap b)%nat)).
    { unfold b1. destruct (Nat.eqb_spec (last_with_datap b) i), (Nat.eqb_spec (last_with_datap b) (S i)); cbn; lia. }
    lia.
Qed.
(** The state after chains [l1] went and [n] bytes of [c]. *)
Lemma drained_ok b b1 l1 c l2 n :
  buf_ok b -> chains b = l1 ++ c :: l2 -> 0 <= n < off c -> lwd_after 0 (length l1) b b1 -> same_rest b b1 ->
  total_len b1 = total_len b - (Z.of_nat (length (data_of l1)) + n) ->
  let b' := put_chains (set_off (misalign c + n) (off c - n) c :: l2) (last_with_datap b1 - length l1)%nat b1 in
  buf_ok b' /\ same_rest b b' /\ contents b' = drop (Z.to_nat (Z.of_nat (length (data_of l1)) + n)) (contents b).
Proof.
  intros H El Hn Hw S1 T1 b'. pose proof H as [H1 H2 H3 H4 H5]. rewrite El in H1, H4, H5. apply Forall_app in H1 as [Hl1 H1]. apply Forall_cons in H1 as [Hc Hl2].
  destruct (drop_chain c n Hc ltac:(lia)) as [Hc' Hd'].
  assert (Hcon : contents b' = drop (Z.to_nat (Z.of_nat (length (data_of l1)) + n)) (contents b)).
  { change (contents b') with (data_of (set_off (misalign c + n) (off c - n) c :: l2)). unfold contents. rewrite El, data_of_app, !data_of_cons, Hd'.
    replace (Z.to_nat (Z.of_nat (length (data_of l1)) + n)) with (length (data_of l1) + Z.to_nat n)%nat by lia.
    rewrite <-drop_drop, drop_app_length, drop_app_le; [done|]. rewrite length_cdata by done. lia. }
  split_and!; [|by destruct S1|done]. unfold lwd_after in Hw. rewrite length_app in H4, H5. cbn [length] in *. split; cbn [chains last_with_datap total_len put_chains b'].
  - by constructor.
  - rewrite Hcon, T1, H2, length_drop. cut (Z.of_nat (length (data_of l1)) + n <= Z.of_nat (length (contents b))); [lia|].
    unfold contents. rewrite El, data_of_app, data_of_cons, !length_app, (length_cdata c Hc). lia.
  - rewrite T1. lia.
  - cbn [length]. lia.
  - intros i x Hi Hi2 Hx. destruct i as [|i]; [injection Hx as <-; cbn; lia|]. cbn [length] in Hi2. cbn [lookup list_lookup] in Hx.
    apply (H5 (length l1 + S i)%nat); [lia|lia|]. by rewrite lookup_app_r, Nat.add_comm, Nat.add_sub by lia.
Qed.

Lemma zero_ok b b1 : buf_ok b -> same_core b b1 -> buf_ok (ZERO_CHAIN b1) /\ same_rest b (ZERO_CHAIN b1) /\ contents (ZERO_CHAIN b1) = [].
Proof. intros H S1. split_and!; [|by destruct S1|done]. split; cbn; [constructor|done|done|by left|done]. Qed.

(** The loop of evbuffer_drain, and what it does with the result. *)
Lemma drain_some_run n b : buf_ok b -> 0 <= n < total_len b ->
  exists b', (modify (fun b => put_total (total_len b - n) b) ;;
        let! (l, remaining) := drain_loop (chains b) 0 n in
        (match l with
         | c :: l' =>
             assert_that (Z.leb remaining (off c)) ;;
             modify (fun b' => put_chains (set_off (misalign c + remaining) (off c - remaining) c :: l')
                                 (last_with_datap b' - (length (chains b) - length l))%nat b')
         | [] => modify (put_chains [] 0)
         end) ;;
        ret n) b = Ok (n, b') /\ buf_ok b' /\ same_rest b b' /\ contents b' = drop (Z.to_nat n) (contents b).
Proof.
  intros H Hn. pose proof H as [H1 H2 H3 H4 H5]. set (b1 := put_total (total_len b - n) b). modified b b1.
  destruct (drain_loop_run (chains b) 0 n b1 H1) as (l1 & c & l2 & b2 & E2 & El & Hr & S2 & W2); [unfold contents in H2; lia|].
  rewrite (bind_ok _ _ _ _ _ E2). cbv beta iota. rewrite (proj2 (Z.leb_le _ _)) by lia.
  set (m := n - Z.of_nat (length (data_of l1))) in *.
  destruct (drained_ok b b2 l1 c l2 m H El Hr W2) as (G1 & G2 & G3).
  { destruct S2 as [_ _ [? ? ?]]. by split. } { rewrite (sl_total _ _ S2). cbn. lia. }
  replace (length (chains b) - length (c :: l2))%nat with (length l1) by (rewrite El, length_app; lia).
  eexists. split; [reflexivity|]. split_and!; [exact G1|exact G2|]. etransitivity; [exact G3|]. f_equal. lia.
Qed.

Lemma drain_run n b : buf_ok b -> 0 <= n ->
  exists r b', evbuffer_drain n b = Ok (r, b') /\ buf_ok b' /\ same_rest b b' /\
    if freeze_start b && negb (Z.eqb (total_len b) 0) then r = -1 /\ contents b' = contents b else r = 0 /\ contents b' = drop (Z.to_nat n) (contents b).
Proof.
  intros H Hn. pose proof H as [H1 H2 H3 H4 H5]. unfold evbuffer_drain. gotten b. destruct (Z.eqb_spec (total_len b) 0) as [E|E].
  { exists 0, b. rewrite andb_false_r. split_and!; try done. assert (Hl : length (contents b) = 0%nat) by lia. apply nil_length_inv in Hl. by rewrite Hl, drop_nil. }
  destruct (freeze_start b) eqn:Ef; cbn [negb andb]; [by exists (-1), b|]. rewrite (no_pinned b H1), andb_true_r.
  match goal with |- exists r b', (let! len := ?m in _) b = _ /\ _ => assert (Hm : exists n' b', m b = Ok (n', b') /\ buf_ok b' /\ same_rest b b' /\ contents b' = drop (Z.to_nat n) (contents b)) end.
  { destruct (Z.leb_spec (total_len b) n) as [Ht|Ht].
    - destruct (free_all_run (chains b) b) as (b1 & E1 & S1). rewrite (bind_ok _ _ _ _ _ E1). destruct (zero_ok b b1 H S1) as (G1 & G2 & G3).
      eexists _, _. split; [reflexivity|]. split_and!; [done|done|]. by rewrite G3, drop_ge by lia.
    - destruct (drain_some_run n b H ltac:(lia)) as (b' & G). eexists _, b'. exact G. }
  destruct Hm as (n' & b1 & E1 & Hb1 & S1 & C1). rewrite (bind_ok _ _ _ _ _ E1).
  set (b2 := put_counts (n_add_for_cb b1) (u64 (n_del_for_cb b1 + n')) b1). modified b1 b2. assert (S2 : same_core b1 b2) by done.
  destruct (then_invoke 0 b b2) as (b3 & E3 & Hb3 & S3 & C3); [by eapply core_ok|etransitivity; [exact S1|by apply core_rest]|].
  exists 0, b3. split_and!; try done. by rewrite C3, (core_contents _ _ S2).
Qed.

Lemma copy_loop_run l : forall n b, Forall chain_ok l -> 0 <= n <= Z.of_nat (length (data_of l)) -> copy_loop l n b = Ok (take (Z.to_nat n) (data_of l), b).
Proof.
  induction l as [|c l IH]; intros n b Hf Hn; cbn [copy_loop]; destruct (Z.eqb_spec n 0) as [->|Hn0]; try done.
  { change (data_of []) with (@nil Z) in Hn. cbn in Hn. lia. }
  apply Forall_cons in Hf as [Hc Hf]. pose proof (length_cdata c Hc) as Hl. pose proof (co_off _ Hc) as Ho. rewrite data_of_cons in *. rewrite length_app in Hn.
  destruct (Z.leb_spec (off c) n) as [H|H].
  - rewrite (bind_ok _ _ _ _ _ (chain_read_all c b Hc)), (bind_ok _ _ _ _ _ (IH (n - off c) b Hf ltac:(lia))). unfold ret. rewrite take_app_ge by lia.
    repeat f_equal. lia.
  - rewrite chain_read_run by (done || lia). by rewrite take_app_le by lia.
Qed.

Lemma copyout_run n b : buf_ok b -> 0 <= n ->
  evbuffer_copyout n b =
    Ok (if freeze_start b && negb (Z.eqb (Z.min n (total_len b)) 0) then (-1, []) else (Z.min n (total_len b), take (Z.to_nat n) (contents b)), b).
Proof.
  intros [H1 H2 H3 H4 H5] Hn. unfold evbuffer_copyout. gotten b.
  assert (Em : (if Z.leb (total_len b) n then total_len b else n) = Z.min n (total_len b)) by (destruct (Z.leb_spec (total_len b) n); lia).
  assert (Et : take (Z.to_nat (Z.min n (total_len b))) (contents b) = take (Z.to_nat n) (contents b)).
  { destruct (Z.leb_spec (total_len b) n); [rewrite !take_ge by lia; done|]. do 2 f_equal. lia. }
  rewrite Em. cbv zeta. destruct (Z.eqb_spec (Z.min n (total_len b)) 0) as [E|E]; cbn [negb].
  { rewrite andb_false_r, <-Et, E. done. }
  rewrite andb_true_r. destruct (freeze_start b); [done|].
  rewrite (bind_ok _ _ _ _ _ (copy_loop_run (chains b) (Z.min n (total_len b)) b H1 ltac:(unfold contents in H2; lia))). by rewrite <-Et.
Qed.

(** The result of evbuffer_remove, an int, for less than 2 GiB. *)
Lemma remove_bytes_run n b : buf_ok b -> 0 <= n < 2 ^ 31 ->
  exists r d b', evbuffer_remove n b = Ok ((r, d), b') /\ buf_ok b' /\ same_rest b b' /\
    if freeze_start b && negb (Z.eqb (Z.min n (total_len b)) 0) then r = -1 /\ d = [] /\ contents b' = contents b
    else r = Z.of_nat (length d) /\ d = take (Z.to_nat n) (contents b) /\ contents b' = drop (Z.to_nat n) (contents b).
Proof.
  intros H Hn. pose proof (bo_total _ H) as Ht. unfold evbuffer_remove. rewrite (bind_ok _ _ _ _ _ (copyout_run n b H ltac:(lia))).
  assert (Hs : s32 (Z.min n (total_len b)) = Z.of_nat (length (take (Z.to_nat n) (contents b)))).
  { rewrite length_take, s32_id by (change (2 ^ 31) with 2147483648 in Hn; lia). lia. }
  destruct (freeze_start b && negb (Z.eqb (Z.min n (total_len b)) 0)) eqn:Ef; [by exists (-1), [], b|]. cbv beta iota.
  destruct (Z.ltb_spec 0 (Z.min n (total_len b))) as [Hp|Hp].
  - assert (Hz : Z.eqb (Z.min n (total_len b)) 0 = false) by (apply Z.eqb_neq; lia). rewrite Hz, andb_true_r in Ef.
    destruct (drain_run (Z.min n (total_len b)) b H ltac:(lia)) as (r & b' & E & Hb & S & G). rewrite Ef in G. cbn in G. destruct G as [-> G].
    rewrite (bind_ok _ _ _ _ _ E). eexists _, _, b'. split; [reflexivity|]. split_and!; try done. rewrite G.
    destruct (Z.leb_spec n (total_len b)); [by rewrite Z.min_l by lia|]. by rewrite !drop_ge by lia.
  - eexists _, _, b. split; [reflexivity|]. split_and!; try done. assert (Hz : n = 0 \/ length (contents b) = 0%nat) by lia.
    destruct Hz as [->|Hz]; [done|]. apply nil_length_inv in Hz. by rewrite Hz, drop_nil.
Qed.
End BufferFacts.
