(* ===== verification/BufferOps.v ===== *)
(** * Event buffers: evbuffer_pullup, evbuffer_prepend, references, expansion,
      and moving data between buffers (src/libevent/buffer.c)

    Continues [BufferFacts]; the theorem that the operations refine operations
    on byte strings is in [BufferThms]. *)

From stdpp Require Import prelude.
From S2P Require Import Prelude Buffer BufferFacts.
Open Scope Z_scope.

Module BufferOps.
Import Buffer BufferFacts.

(** ** evbuffer_pullup *)

(** The chains that evbuffer_pullup copies whole: [l1], which are number [i]
    and the following. *)
Lemma pull_loop_run l d : forall i n b, Forall chain_ok l -> 0 <= n <= Z.of_nat (length (data_of l)) ->
  exists l1 l2 b' r1 r2, pull_loop l i d n b = Ok ((data_of l1, l2, n - Z.of_nat (length (data_of l1)), r1, r2), b') /\ l = l1 ++ l2 /\ same_core b b' /\
    0 <= n - Z.of_nat (length (data_of l1)) /\ (forall c, head l2 = Some c -> n - Z.of_nat (length (data_of l1)) < off c) /\
    (r1 = true <-> (i <= d < i + length l1)%nat) /\ (r2 = true <-> (i < d <= i + length l1)%nat).
Proof.
  induction l as [|c l IH]; intros i n b Hf Hn; cbn [pull_loop].
  { exists [], [], b, false, false. change (data_of []) with (@nil Z) in *. cbn in *. rewrite Z.sub_0_r. split_and!; try done; lia. }
  apply Forall_cons in Hf as [Hc Hf]. pose proof (length_cdata c Hc) as Hl. pose proof (co_off _ Hc) as Ho. rewrite data_of_cons, length_app in Hn.
  destruct (Z.leb_spec (off c) n) as [H|H].
  - rewrite (bind_ok _ _ _ _ _ (chain_read_all c b Hc)). destruct (chain_free_run c b) as (b1 & E1 & S1). rewrite (bind_ok _ _ _ _ _ E1).
    destruct (IH (S i) (n - off c) b1 Hf ltac:(lia)) as (l1 & l2 & b2 & r1 & r2 & E2 & -> & S2 & Hr & Hh & R1 & R2). rewrite (bind_ok _ _ _ _ _ E2).
    exists (c :: l1), l2, b2, (Nat.eqb d i || r1), (Nat.eqb d (S i) || r2). rewrite data_of_cons, length_app. cbn [length].
    replace (n - Z.of_nat (length (cdata c) + length (data_of l1))) with (n - off c - Z.of_nat (length (data_of l1))) by lia.
    split_and!; [done|done|by etransitivity|lia|done| |]; rewrite orb_true_iff, Nat.eqb_eq, ?R1, ?R2; lia.
  - exists [], (c :: l), b, false, false. change (data_of []) with (@nil Z) in *. cbn [length app Z.of_nat head]. rewrite Z.sub_0_r.
    split_and!; try done; [lia|by intros x [= <-]|lia|lia].
Qed.

(** The rest of the bytes come from the chain after those. *)
Lemma pull_part_run (l2 : list chain) n b : Forall chain_ok l2 -> 0 <= n <= Z.of_nat (length (data_of l2)) -> (forall c, head l2 = Some c -> n < off c) ->
  exists l3, (match l2 with
     | c :: l3 => let! y := chain_read c n in ret (y, set_off (misalign c + n) (off c - n) c :: l3)
     | [] => ret ([], [])
     end) b = Ok ((take (Z.to_nat n) (data_of l2), l3), b) /\ Forall chain_ok l3 /\ data_of l3 = drop (Z.to_nat n) (data_of l2) /\ length l3 = length l2 /\
    (forall c, head l3 = Some c -> off c <> 0) /\ (forall i, l3 !! S i = l2 !! S i).
Proof.
  intros Hf Hn Hh. destruct l2 as [|c l]; [exists []; change (data_of []) with (@nil Z); rewrite take_nil, drop_nil; by split_and!|]. apply Forall_cons in Hf as [Hc Hf]. specialize (Hh c eq_refl).
  pose proof (length_cdata c Hc) as Hl. rewrite (bind_ok _ _ _ _ _ (chain_read_run c b n Hc ltac:(lia))). destruct (drop_chain c n Hc ltac:(lia)) as [Hc' Hd'].
  exists (set_off (misalign c + n) (off c - n) c :: l). rewrite data_of_cons. rewrite take_app_le by (rewrite Hl; lia).
  split; [reflexivity|]. split_and!; [by constructor| |done| |done].
  - rewrite data_of_cons, Hd'. by rewrite drop_app_le by (rewrite Hl; lia).
  - intros x [= <-]. cbn. lia.
Qed.
(** The list after the bytes went into [t], its new first chain: [pre] are the
    chains before [l1], which is number [i]. *)
Lemma pulled_ok b b1 (pre l1 l2 l3 : list chain) t r1 r2 :
  buf_ok b -> same_core b b1 -> chains b = pre ++ l1 ++ l2 -> (length pre = 1%nat \/ (length pre = 0%nat /\ l1 <> [])) ->
  chain_ok t -> off t <> 0 -> Forall chain_ok l3 -> length l3 = length l2 -> (forall c, head l3 = Some c -> off c <> 0) -> (forall i, l3 !! S i = l2 !! S i) ->
  cdata t ++ data_of l3 = contents b ->
  (r1 = true <-> (length pre <= last_with_datap b < length pre + length l1)%nat) -> (r2 = true <-> (length pre < last_with_datap b <= length pre + length l1)%nat) ->
  let d := if r1 : bool then 0%nat
           else if r2 : bool then (match l3 with c :: _ => if Z.eqb (off c) 0 then 0%nat else 1%nat | [] => 0%nat end)
           else (last_with_datap b - (length (chains b) - length (t :: l3)))%nat in
  let b' := put_chains (t :: l3) d b1 in buf_ok b' /\ same_rest b b' /\ contents b' = contents b.
Proof.
  intros H S1 El Hpre Ht Ht0 Hl3 Hlen Hh Htl Hcon R1 R2 d b'. pose proof H as [H1 H2 H3 H4 H5].
  assert (Hc : contents b' = contents b) by exact Hcon. split_and!; [|by destruct S1|done].
  rewrite El in H4, H5. rewrite !length_app in H4, H5.
  (* d is behind the chains whose number has changed, or 0 *)
  assert (Hd : (d = 0%nat \/ (d < length (t :: l3))%nat) /\ (last_with_datap b <= length pre + length l1 + 1 + (d - 2))%nat /\ (2 <= d -> last_with_datap b = d + (length pre + length l1 - 1))%nat).
  { unfold d. rewrite El, !length_app. cbn [length]. rewrite Hlen. assert (Hll : (length pre = 0 -> 1 <= length l1)%nat) by (destruct l1; cbn; [|lia]; intros E; destruct Hpre as [|[_ []]]; [lia|done]).
    destruct r1; [pose proof (proj1 R1 eq_refl); lia|]. destruct r2.
    - pose proof (proj1 R2 eq_refl). destruct l3 as [|c l3]; cbn in Hlen; [lia|]. rewrite (proj2 (Z.eqb_neq _ _)) by (by apply Hh). lia.
    - assert (N1 : ~ (length pre <= last_with_datap b < length pre + length l1)%nat) by (intros A; by apply R1 in A).
      assert (N2 : ~ (length pre < last_with_datap b <= length pre + length l1)%nat) by (intros A; by apply R2 in A). lia. }
  split; cbn [chains last_with_datap total_len put_chains b'].
  - by constructor.
  - by rewrite Hc, (sc_total _ _ S1).
  - by rewrite (sc_total _ _ S1).
  - apply Hd.
  - intros i x Hi Hi2 Hx. destruct i as [|[|i]]; [by injection Hx as <-|apply Hh; by destruct l3|]. cbn [length] in Hi2. cbn [lookup list_lookup] in Hx.
    change (l3 !! S i = Some x) in Hx. rewrite Htl in Hx. apply (H5 (length pre + (length l1 + S i))%nat); [lia|lia|].
    rewrite !lookup_app_r by lia. by replace (length pre + (length l1 + S i) - length pre - length l1)%nat with (S i) by lia.
Qed.
Lemma pinned_none l : forall n, Forall chain_ok l -> pinned_ahead l n = false.
Proof.
  induction l as [|c l IH]; intros n Hf; [done|]. apply Forall_cons in Hf as [Hc Hf]. cbn [pinned_ahead]. rewrite (co_free _ Hc). case_match; [done|by apply IH].
Qed.

Lemma pull_into_run b (pre l : list chain) t n :
  buf_ok b -> chains b = pre ++ l -> (length pre = 1%nat \/ (length pre = 0%nat /\ exists c l', l = c :: l' /\ off c < n)) ->
  chain_ok t -> data_of pre = cdata t -> 0 < n -> misalign t + off t + n <= buffer_len t -> off t + n <= total_len b ->
  exists b' c l', pull_into (set_off (misalign t) (off t + n) t) (misalign t + off t) l (length pre) n b = Ok (tt, b') /\
    buf_ok b' /\ same_rest b b' /\ contents b' = contents b /\ chains b' = c :: l' /\ chain_ok c /\ cdata c = take (Z.to_nat (off t + n)) (contents b).
Proof.
  intros H El Hpre Ht Hdt Hn Hin Htot. pose proof H as [H1 H2 H3 H4 H5]. pose proof (length_cdata t Ht) as Hlt. pose proof (co_off _ Ht) as Hot.
  assert (Hcon : contents b = cdata t ++ data_of l) by (unfold contents; by rewrite El, data_of_app, Hdt).
  assert (Hll : Z.of_nat (length (contents b)) = off t + Z.of_nat (length (data_of l))) by (rewrite Hcon, length_app; lia).
  rewrite El in H1. apply Forall_app in H1 as [_ Hl].
  unfold pull_into. gotten b. destruct (pull_loop_run l (last_with_datap b) (length pre) n b Hl ltac:(lia)) as (l1 & l2 & b1 & r1 & r2 & E1 & El12 & S1 & Hr & Hh & R1 & R2).
  rewrite (bind_ok _ _ _ _ _ E1). cbv beta iota. set (m := n - Z.of_nat (length (data_of l1))) in *.
  assert (Hd12 : data_of l = data_of l1 ++ data_of l2) by (by rewrite El12, data_of_app). rewrite El12 in Hl. apply Forall_app in Hl as [Hl1 Hl2].
  assert (Hm : 0 <= m <= Z.of_nat (length (data_of l2))) by (rewrite Hd12, length_app in Hll; lia).
  destruct (pull_part_run l2 m b1 Hl2 Hm Hh) as (l3 & E2 & Hl3 & D3 & Ln3 & Hh3 & Ht3). rewrite (bind_ok _ _ _ _ _ E2). cbv beta iota.
  set (xy := data_of l1 ++ take (Z.to_nat m) (data_of l2)). assert (Hxy : Z.of_nat (length xy) = n) by (unfold xy; rewrite length_app, length_take; lia).
  destruct (append_chain t xy Ht ltac:(lia)) as [Hc' Hd']. rewrite Hxy in Hc', Hd'.
  rewrite (bind_ok _ _ _ _ _ (chain_write_run (set_off (misalign t) (off t + n) t) b1 (misalign t + off t) xy ltac:(pose proof (co_mis _ Ht); lia) ltac:(change (buffer_len (set_off (misalign t) (off t + n) t)) with (buffer_len t); lia))).
  set (t' := written _ _). change (chain_ok t') in Hc'. change (cdata t' = cdata t ++ xy) in Hd'.
  assert (Hj : cdata t' ++ data_of l3 = contents b) by (rewrite Hd', D3, Hcon, Hd12; unfold xy; by rewrite <-!app_assoc, take_drop).
  destruct (pulled_ok b b1 pre l1 l2 l3 t' r1 r2 H S1 ltac:(by rewrite El, El12)) as (G1 & G2 & G3); try done.
  - destruct Hpre as [Hp|(Hp & c & l' & E & Hc)]; [by left|right]. split; [done|]. intros ->. cbn in El12. subst l2. rewrite E in Hh. specialize (Hh c eq_refl).
    unfold m in Hh. change (data_of []) with (@nil Z) in Hh. cbn in Hh. lia.
  - cbn. lia.
  - eexists _, t', l3. split; [reflexivity|]. split_and!; try done. rewrite <-Hj. rewrite take_app_le by (rewrite length_cdata by done; cbn; lia).
    symmetry. apply take_ge. rewrite length_cdata by done. cbn. lia.
Qed.

(** The result of evbuffer_pullup: nothing when [m] bytes are not there, else
    at least [m] bytes from the start of the contents. *)
Definition pulls (m : Z) (b : evbuffer) (r : option bytes) : Prop :=
  match r with
  | None => m = 0 \/ total_len b < m \/ ~ enough_memory b
  | Some d => 0 < m <= Z.of_nat (length d) /\ d `prefix_of` contents b
  end.

Lemma pullup_run size b : buf_ok b -> total_len b <= LIMIT ->
  exists r b', evbuffer_pullup size b = Ok (r, b') /\ buf_ok b' /\ same_rest b b' /\ contents b' = contents b /\
    pulls (if Z.ltb size 0 then total_len b else size) b r.
Proof.
  intros H Hlim. pose proof H as [H1 H2 H3 H4 H5]. unfold evbuffer_pullup. gotten b. cbv zeta. set (m := if Z.ltb size 0 then total_len b else size).
  assert (Hm : 0 <= m) by (unfold m; destruct (Z.ltb_spec size 0); lia).
  destruct (Z.eqb_spec m 0) as [E0|E0]; [exists None, b; split_and!; try done; by left|].
  destruct (Z.ltb_spec (total_len b) m) as [Ht|Ht]; cbn [orb]; [exists None, b; split_and!; try done; right; by left|].
  destruct (chains b) as [|c l] eqn:El; [unfold contents in H2; rewrite El in H2; change (data_of []) with (@nil Z) in H2; cbn in H2; lia|].
  assert (Hcon : contents b = cdata c ++ data_of l) by (unfold contents; by rewrite El). apply Forall_cons in H1 as [Hc Hl]. pose proof (length_cdata c Hc) as Hlc.
  pose proof (co_off _ Hc) as Ho. destruct (Z.leb_spec m (off c)) as [Hfit|Hfit].
  { rewrite (bind_ok _ _ _ _ _ (chain_read_all c b Hc)). eexists _, b. split; [reflexivity|]. split_and!; try done. split; [lia|]. exists (data_of l). done. }
  rewrite (pinned_none l) by done. rewrite (co_free _ Hc).
  assert (Hdone : forall b1 c1 l1, buf_ok b1 -> same_rest b b1 -> contents b1 = contents b -> chains b1 = c1 :: l1 -> chain_ok c1 -> cdata c1 = take (Z.to_nat m) (contents b) ->
    exists r b', (let! c := chain_at 0 in let! d := chain_read c (off c) in ret (Some d)) b1 = Ok (r, b') /\ buf_ok b' /\ same_rest b b' /\ contents b' = contents b /\ pulls m b r).
  { intros b1 c1 l1 A1 A2 A3 A4 A5 A6. assert (Ea : chain_at 0 b1 = Ok (c1, b1)) by (unfold chain_at; by rewrite A4).
    rewrite (bind_ok _ _ _ _ _ Ea), (bind_ok _ _ _ _ _ (chain_read_all c1 b1 A5)). eexists _, b1. split; [reflexivity|]. split_and!; try done.
    rewrite A6. split; [rewrite length_take; lia|]. exists (drop (Z.to_nat m) (contents b)). by rewrite take_drop. }
  destruct (Z.leb_spec m (buffer_len c - misalign c)) as [Hsp|Hsp].
  - destruct (pull_into_run b [c] l c (m - off c) H El ltac:(by left) Hc (data_of_one c) ltac:(lia) ltac:(lia) ltac:(lia)) as (b1 & c1 & l1 & E1 & G1 & G2 & G3 & G4 & G5 & G6).
    replace (off c + (m - off c)) with m in * by lia. erewrite bind_ok; [|rewrite (bind_ok _ _ _ _ _ E1); reflexivity]. cbn [negb]. by apply (Hdone b1 c1 l1).
  - destruct (chain_new_run m b ltac:(lia)) as (r & b1 & E1 & S1 & Hf & Hmem). destruct r as [t|].
    2: { erewrite bind_ok; [|rewrite (bind_ok _ _ _ _ _ E1); reflexivity]. cbn [negb]. exists None, b1.
      split_and!; [done|by eapply core_ok|by apply core_rest|by apply core_contents|]. right. right. intros He. by destruct (Hmem He). }
    destruct (Hf t eq_refl) as [F1 F2 F3 F4 F5]. pose proof (fresh_ok _ _ (Hf t eq_refl)) as Ht'. pose proof (core_ok _ _ S1 H) as Hb1.
    destruct (pull_into_run b1 [] (c :: l) t m Hb1) as (b2 & c1 & l1 & E2 & G1 & G2 & G3 & G4 & G5 & G6); try done.
    + by rewrite (sc_chains _ _ S1), El.
    + right. split; [done|]. exists c, l. split; [done|lia].
    + by rewrite cdata_empty.
    + lia.
    + lia.
    + rewrite (sc_total _ _ S1). lia.
    + rewrite F1, F2, !Z.add_0_l in E2. rewrite F2, Z.add_0_l in G6.
      erewrite bind_ok; [|rewrite (bind_ok _ _ _ _ _ E1), F1, (bind_ok _ _ _ _ _ E2); reflexivity]. cbn [negb].
      apply (Hdone b2 c1 l1); try done; rewrite ?G3, ?G6; [etransitivity; [by apply core_rest|done]|by apply core_contents|by rewrite (core_contents _ _ S1)].
Qed.
(** ** evbuffer_prepend *)

Lemma u64_sum b n : buf_ok b -> 0 <= n -> total_len b + n <= EV_SIZE_MAX -> u64 (total_len b + n) = total_len b + n.
Proof. intros H Hn Ht. pose proof (bo_total _ H). unfold u64, EV_SIZE_MAX in *. apply Z.mod_small. lia. Qed.

(** The first chain gets [d] in front of its data. *)
Lemma grow_first b l c c' d :
  buf_ok b -> chains b = c :: l -> chain_ok c' -> cdata c' = d ++ cdata c -> off c' = off c + Z.of_nat (length d) -> total_len b + Z.of_nat (length d) <= EV_SIZE_MAX ->
  let b' := put_total (total_len b + Z.of_nat (length d)) (put_chains (<[0%nat := c']> (chains b)) (last_with_datap b) b) in
  buf_ok b' /\ same_rest b b' /\ contents b' = d ++ contents b /\ chains b' = c' :: l.
Proof.
  intros H El Hc Hd Ho Ht. pose proof H as [H1 H2 H3 H4 H5]. intros b'.
  assert (Eb : b' = put_total (total_len b + Z.of_nat (length d)) (put_chains (c' :: l) (last_with_datap b) b)) by (unfold b'; by rewrite El).
  clearbody b'. subst b'. rewrite El in H1, H4, H5. set (b' := put_total _ _).
  assert (Hcon : contents b' = d ++ contents b) by (change (contents b') with (data_of (c' :: l)); unfold contents; by rewrite El, !data_of_cons, Hd, app_assoc).
  apply Forall_cons in H1 as [Hc0 Hl]. pose proof (co_off _ Hc0) as Hp. split_and!; try done. split; cbn [chains last_with_datap total_len put_chains put_total b']; try done.
  - by constructor.
  - rewrite Hcon, length_app. lia.
  - intros [|i] x Hi Hi2 Hx; [|by apply (H5 (S i))]. injection Hx as <-. specialize (H5 0%nat c Hi Hi2 eq_refl). lia.
Qed.

Lemma to_first_run c l d b : buf_ok b -> chains b = c :: l -> total_len b + Z.of_nat (length d) <= EV_SIZE_MAX ->
  exists r b', to_first c d b = Ok (r, b') /\ buf_ok b' /\ same_rest b b' /\ chains b' <> [] /\
    contents b' = match r with None => d | Some n => drop (Z.to_nat n) d end ++ contents b /\ (forall n, r = Some n -> 0 <= n <= Z.of_nat (length d)).
Proof.
  intros H El Ht. pose proof H as [H1 H2 H3 H4 H5]. rewrite El in H1. apply Forall_cons in H1 as [Hc Hl]. unfold to_first. cbv zeta.
  assert (Hend : drop (Z.to_nat (Z.of_nat (length d))) d = []) by (apply drop_ge; lia).
  destruct (has (cflags c) EVBUFFER_IMMUTABLE); cbn [negb].
  { exists (Some (Z.of_nat (length d))), b. split; [reflexivity|]. cbv beta iota. rewrite Hend. split_and!; try done; [by rewrite El|intros n [= <-]; lia]. }
  assert (Ha : (Z.leb 0 (misalign c) && Z.leb (misalign c) EVBUFFER_CHAIN_MAX) = true).
  { pose proof Hc as [K1 K2 K3 K4 K5]. rewrite andb_true_iff, !Z.leb_le. split; [done|]. transitivity LIMIT; [lia|by vm_compute]. }
  rewrite Ha, (bind_ok _ _ _ _ _ (eq_refl : assert_that true b = Ok (tt, b))).
  set (c1 := if Z.eqb (off c) 0 then _ else c).
  assert (Hc1 : chain_ok c1 /\ cdata c1 = cdata c /\ off c1 = off c).
  { unfold c1. destruct (Z.eqb_spec (off c) 0) as [E|E]; [|done]. pose proof Hc as [K1 K2 K3 K4 K5]. rewrite !cdata_empty by done. split_and!; try done.
    split; cbn [misalign off set_off]; try done; change (buffer_len (set_off (buffer_len c) (off c) c)) with (buffer_len c); lia. }
  destruct Hc1 as (Hc1 & D1 & O1). clearbody c1. pose proof Hc1 as [K1 K2 K3 K4 K5].
  (* writing the end of d *)
  assert (Hw : forall x, Z.of_nat (length x) <= misalign c1 -> Z.of_nat (length x) <= Z.of_nat (length d) -> exists b',
    (let! c := chain_write c1 (misalign c1 - Z.of_nat (length x)) x in put_chain 0 (set_off (misalign c1 - Z.of_nat (length x)) (off c1 + Z.of_nat (length x)) c) ;; count_added (Z.of_nat (length x))) b
      = Ok (tt, b') /\ buf_ok b' /\ same_rest b b' /\ contents b' = x ++ contents b /\ chains b' <> []).
  { intros x Hx Hx2. destruct (prepend_chain c1 x Hc1 Hx) as [Hc' Hd'].
    rewrite (bind_ok _ _ _ _ _ (chain_write_run c1 b (misalign c1 - Z.of_nat (length x)) x ltac:(lia) ltac:(lia))).
    destruct (grow_first b l c _ x H El Hc' ltac:(rewrite <-D1; exact Hd') ltac:(cbn; lia) ltac:(lia)) as (G1 & G2 & G3 & G4).
    set (b1 := put_total _ _) in *. exists (put_counts (u64 (n_add_for_cb b + Z.of_nat (length x))) (n_del_for_cb b) b1).
    assert (S1 : same_core b1 (put_counts (u64 (n_add_for_cb b + Z.of_nat (length x))) (n_del_for_cb b) b1)) by done. split; [|split_and!].
    - unfold b1. rewrite <-(u64_sum b (Z.of_nat (length x)) H) by lia. done.
    - by eapply core_ok.
    - done.
    - by rewrite (core_contents _ _ S1).
    - rewrite (sc_chains _ _ S1). by rewrite G4. }
  destruct (Z.leb_spec (Z.of_nat (length d)) (misalign c1)) as [Hfit|Hfit].
  - destruct (Hw d Hfit ltac:(lia)) as (b' & E & G1 & G2 & G3 & G4). exists None, b'. split; [|split_and!; done].
    unfold bind in E |- *. destruct (chain_write c1 _ d b) as [[c2 b2]|] eqn:Ew; [|done]. rewrite (chain_write_run c1 b) in Ew by lia. injection Ew as <- <-.
    cbn in E |- *. by injection E as <-.
  - destruct (Z.eqb_spec (misalign c1) 0) as [E0|E0]; cbn [negb].
    + destruct (grow_first b l c c1 [] H El Hc1 D1 ltac:(cbn; lia) ltac:(cbn; lia)) as (G1 & G2 & G3 & G4).
      eexists (Some (Z.of_nat (length d))), _. split; [reflexivity|]. cbv beta iota. rewrite Hend. split_and!; [|done|cbn; by rewrite El|exact G3|intros n [= <-]; lia].
      eapply core_ok; [|exact G1]. split; cbn; try done; lia.
    + set (x := drop (length d - Z.to_nat (misalign c1)) d). assert (Hx : Z.of_nat (length x) = misalign c1) by (unfold x; rewrite length_drop; lia).
      destruct (Hw x ltac:(lia) ltac:(lia)) as (b' & E & G1 & G2 & G3 & G4). rewrite Hx, Z.sub_diag in E. exists (Some (Z.of_nat (length d) - misalign c1)), b'.
      split; [|split_and!; [done|done|done| |intros n [= <-]; lia]].
      * unfold bind in E |- *. destruct (chain_write c1 0 x b) as [[c2 b2]|] eqn:Ew; [|done]. rewrite (chain_write_run c1 b) in Ew by lia. injection Ew as <- <-.
        cbn in E |- *. by injection E as <-.
      * rewrite G3. f_equal. unfold x. f_equal. lia.
Qed.
(** The result of an operation that puts [d] in front: without memory for a new
    chain, its end may be there already. *)
Definition prepends (d : bytes) (b : evbuffer) (r : Z) (b' : evbuffer) : Prop :=
  buf_ok b' /\ same_rest b b' /\
  ((freeze_start b = false /\ r = 0 /\ contents b' = d ++ contents b) \/
   (r = -1 /\ (exists n, contents b' = drop n d ++ contents b) /\ (freeze_start b = true -> contents b' = contents b) /\
    (enough_memory b -> (freeze_start b = true \/ EV_SIZE_MAX < total_len b + Z.of_nat (length d)) /\ contents b' = contents b))).

(** A new first chain. *)
Lemma new_first_ok b t d : buf_ok b -> chains b <> [] -> chain_ok t -> cdata t = d -> total_len b + Z.of_nat (length d) <= EV_SIZE_MAX ->
  let b' := put_total (total_len b + Z.of_nat (length d)) (put_chains (t :: chains b) (S (last_with_datap b)) b) in
  buf_ok b' /\ same_rest b b' /\ contents b' = d ++ contents b.
Proof.
  intros H Hne Ht <- Htot b'. pose proof H as [H1 H2 H3 H4 H5]. pose proof (lwd_lt b H Hne) as Hl.
  assert (Hcon : contents b' = cdata t ++ contents b) by done. split_and!; try done. split; cbn [chains last_with_datap total_len put_chains put_total b']; try done.
  - by constructor.
  - rewrite Hcon, length_app. lia.
  - right. cbn. lia.
  - intros [|i] x Hi Hi2 Hx; [lia|]. cbn in Hi2. apply (H5 i); [lia|lia|done].
Qed.

(** evbuffer_prepend when there is a first chain. *)
Lemma prepend_chains_run c l d b : buf_ok b -> chains b = c :: l -> Z.of_nat (length d) <= LIMIT -> total_len b + Z.of_nat (length d) <= EV_SIZE_MAX ->
  exists r b', (let! r := to_first c d in
      match r with
      | None => evbuffer_invoke_callbacks ;; ret 0
      | Some datlen =>
          let! tmp := evbuffer_chain_new datlen in
          match tmp with
          | None => ret (-1)
          | Some tmp =>
              assert_that (Z.leb datlen (buffer_len tmp)) ;;
              let m := buffer_len tmp - datlen in
              let! tmp := chain_write tmp m (take (Z.to_nat datlen) d) in
              let! c := chain_at 0 in
              modify (fun b => put_chains (set_off m datlen tmp :: chains b) (S (last_with_datap b)) b) ;;
              modify (fun b => put_counts (u64 (n_add_for_cb b + misalign c)) (n_del_for_cb b) (put_total (u64 (total_len b + datlen)) b)) ;;
              evbuffer_invoke_callbacks ;; ret 0
          end
      end) b = Ok (r, b') /\ buf_ok b' /\ same_rest b b' /\
    ((r = 0 /\ contents b' = d ++ contents b) \/ (r = -1 /\ (exists n, contents b' = drop n d ++ contents b) /\ ~ enough_memory b)).
Proof.
  intros H El Hd Ht. destruct (to_first_run c l d b H El Ht) as (r & b1 & E1 & Hb1 & S1 & Hne & C1 & Hr). rewrite (bind_ok _ _ _ _ _ E1).
  destruct r as [n|].
  2: { destruct (then_invoke 0 b b1 Hb1 S1) as (b2 & E2 & Hb2 & S2 & C2). exists 0, b2. split_and!; try done. left. split; [done|congruence]. }
  specialize (Hr n eq_refl). destruct (chain_new_run n b1 ltac:(lia)) as (r & b2 & E2 & S2 & Hf & Hm). rewrite (bind_ok _ _ _ _ _ E2).
  pose proof (core_ok _ _ S2 Hb1) as Hb2. assert (S12 : same_rest b b2) by (etransitivity; [exact S1|by apply core_rest]).
  assert (Hmem : enough_memory b -> enough_memory b1) by (unfold enough_memory; by rewrite (sr_mem _ _ S1)).
  destruct r as [t|].
  2: { exists (-1), b2. split_and!; try done. right. split_and!; [done|exists (Z.to_nat n); by rewrite (core_contents _ _ S2)|]. intros He. by destruct (Hm (Hmem He)). }
  destruct (Hf t eq_refl) as [F1 F2 F3 F4 F5]. pose proof (fresh_ok _ _ (Hf t eq_refl)) as Hct.
  rewrite (proj2 (Z.leb_le _ _)) by done. rewrite (bind_ok _ _ _ _ _ (eq_refl : assert_that true b2 = Ok (tt, b2))). cbv zeta.
  set (x := take (Z.to_nat n) d). assert (Hx : Z.of_nat (length x) = n) by (unfold x; rewrite length_take; lia). set (m := buffer_len t - n).
  rewrite (bind_ok _ _ _ _ _ (chain_write_run t b2 m x ltac:(unfold m; lia) ltac:(unfold m; lia))).
  destruct (chains b2) as [|c2 l2] eqn:E2c; [exfalso; apply Hne; by rewrite <-(sc_chains _ _ S2)|].
  assert (Ea : chain_at 0 b2 = Ok (c2, b2)) by (unfold chain_at; by rewrite E2c). rewrite (bind_ok _ _ _ _ _ Ea).
  set (t0 := set_off (buffer_len t) 0 t). assert (Ht0 : chain_ok t0).
  { pose proof Hct as [K1 K2 K3 K4 K5]. split; cbn; try done; change (buffer_len t0) with (buffer_len t); lia. }
  destruct (prepend_chain t0 x Ht0) as [Hc' Hd']; [cbn; lia|]. rewrite (cdata_empty t0 eq_refl), app_nil_r in Hd'. cbn [misalign off set_off t0] in Hc', Hd'.
  rewrite Hx in Hc', Hd'. change (buffer_len t - n) with m in Hc', Hd'. rewrite Z.add_0_l in Hc', Hd'.
  assert (T2 : total_len b2 + Z.of_nat (length x) <= EV_SIZE_MAX).
  { rewrite (bo_total _ Hb2), (core_contents _ _ S2), C1, length_app, length_drop. rewrite (bo_total _ H) in Ht. lia. }
  destruct (new_first_ok b2 _ x Hb2 ltac:(by rewrite E2c) Hc' Hd' T2) as (G1 & G2 & G3). rewrite Hx in G1, G2, G3, T2.
  set (b3 := put_total _ _) in *.
  set (b4 := put_counts (u64 (n_add_for_cb b2 + misalign c2)) (n_del_for_cb b2) b3). assert (S4 : same_core b3 b4) by done.
  destruct (then_invoke 0 b b4) as (b5 & E5 & Hb5 & S5 & C5); [by eapply core_ok|etransitivity; [exact S12|]; by etransitivity; [exact G2|apply core_rest]|].
  exists 0, b5. split.
  - unfold b4, b3 in E5. rewrite <-(u64_sum b2 n Hb2) in E5 by lia. rewrite <-E5. reflexivity.
  - split_and!; try done. left. split; [done|]. rewrite C5, (core_contents _ _ S4), G3, (core_contents _ _ S2), C1, app_assoc. unfold x. by rewrite take_drop.
Qed.

Lemma prepend_run d b : buf_ok b -> Z.of_nat (length d) <= LIMIT -> exists r b', evbuffer_prepend d b = Ok (r, b') /\ prepends d b r b'.
Proof.
  intros H Hd. unfold evbuffer_prepend. cbv zeta. gotten b.
  assert (Hno : forall b', buf_ok b' -> same_rest b b' -> contents b' = contents b ->
    (enough_memory b -> freeze_start b = true \/ EV_SIZE_MAX < total_len b + Z.of_nat (length d)) -> prepends d b (-1) b').
  { intros b' A1 A2 A3 A4. split_and!; [done|done|right]. split_and!; [done| |done|by split; [apply A4|]]. exists (length d). by rewrite drop_all, A3. }
  destruct (freeze_start b) eqn:Ef; [exists (-1), b; split; [done|apply Hno; try done; intros _; by left]|].
  destruct (Z.ltb_spec (EV_SIZE_MAX - total_len b) (Z.of_nat (length d))) as [Ht|Ht]; [exists (-1), b; split; [done|apply Hno; try done; intros; right; lia]|].
  destruct (first_chain_run (Z.of_nat (length d)) b H ltac:(lia)) as (ok & b1 & E1 & Hb1 & S1 & C1 & T1 & Hne & Hok). rewrite (bind_ok _ _ _ _ _ E1).
  destruct ok; cbn [negb]; [|exists (-1), b1; split; [done|apply Hno; try done; intros He; by specialize (Hok He)]].
  destruct (chains b1) as [|c l] eqn:El; [by specialize (Hne eq_refl)|].
  assert (Ea : chain_at 0 b1 = Ok (c, b1)) by (unfold chain_at; by rewrite El). rewrite (bind_ok _ _ _ _ _ Ea).
  destruct (prepend_chains_run c l d b1 Hb1 El Hd ltac:(lia)) as (r & b2 & E2 & Hb2 & S2 & G). exists r, b2. split; [exact E2|].
  rewrite C1 in G. split_and!; [done|by etransitivity|]. destruct G as [[G1 G2]|(G1 & G2 & G3)]; [left; by split_and!|right]. split_and!; [done|done|by rewrite Ef|].
  intros He. destruct G3. unfold enough_memory in *. by rewrite (sr_mem _ _ S1).
Qed.
(** ** References and room *)

Lemma reference_run d f b : buf_ok b -> Z.of_nat (length d) <= LIMIT -> total_len b + Z.of_nat (length d) <= EV_SIZE_MAX ->
  exists r b', evbuffer_add_reference d f b = Ok (r, b') /\ appends d (freeze_end b) b r b'.
Proof.
  intros H Hd Ht. unfold evbuffer_add_reference. destruct (chain_new_run 16 b ltac:(split; [done|by vm_compute])) as (r & b1 & E1 & S1 & Hf & Hm).
  rewrite (bind_ok _ _ _ _ _ E1). pose proof (core_ok _ _ S1 H) as Hb1. destruct r as [t|].
  2: { exists (-1), b1. split; [done|]. split_and!; [done|by apply core_rest|right]. split_and!; [done|by apply core_contents|]. intros He. by destruct (Hm He). }
  gotten b1. rewrite (sc_end _ _ S1). destruct (freeze_end b) eqn:Ef.
  { exists (-1), b1. split; [done|]. split_and!; [done|by apply core_rest|right]. split_and!; [done|by apply core_contents|by left]. }
  set (c := mkChain d 0 _ _ f). assert (Hc : chain_ok c) by (split; try done; unfold buffer_len; cbn [buffer off misalign c]; lia).
  destruct (insert_run c b1 Hb1 Hc) as (b2 & l & E2 & Hb2 & S2 & C2 & D2); [rewrite (sc_total _ _ S1); cbn; lia|]. rewrite (bind_ok _ _ _ _ _ E2).
  set (b3 := put_counts (u64 (n_add_for_cb b2 + Z.of_nat (length d))) (n_del_for_cb b2) b2). modified b2 b3. assert (S3 : same_core b2 b3) by done.
  destruct (then_invoke 0 b b3) as (b4 & E4 & Hb4 & S4 & C4); [by eapply core_ok|etransitivity; [by apply core_rest, S1|]; etransitivity; [exact S2|by apply core_rest]|].
  exists 0, b4. split; [done|]. split_and!; [done|done|left]. split_and!; [done|done|]. rewrite C4, (core_contents _ _ S3). unfold contents at 1.
  rewrite C2, data_of_app, data_of_one, D2, (core_contents _ _ S1). f_equal. unfold cdata. cbn. rewrite Nat2Z.id. by apply firstn_all.
Qed.

(** A chain replaced by one with the same data. *)
Lemma replace_ok b i c c' : buf_ok b -> chains b !! i = Some c -> chain_ok c' -> cdata c' = cdata c -> off c' = off c ->
  let b' := put_chains (<[i := c']> (chains b)) (last_with_datap b) b in buf_ok b' /\ contents b' = contents b.
Proof.
  intros H Hi Hc Hd Ho b'. pose proof H as [H1 H2 H3 H4 H5]. assert (Hcon : contents b' = contents b).
  { change (contents b') with (data_of (<[i := c']> (chains b))). unfold contents, data_of. rewrite list_fmap_insert, Hd. f_equal. apply list_insert_id. by rewrite list_lookup_fmap, Hi. }
  split; [|done]. split; cbn [chains last_with_datap total_len put_chains b'].
  - by apply Forall_insert.
  - by rewrite Hcon.
  - done.
  - by rewrite length_insert.
  - intros j x Hj Hj2 Hx. rewrite length_insert in Hj2. destruct (decide (i = j)) as [<-|Hn].
    + rewrite list_lookup_insert_eq in Hx by (by eapply lookup_lt_Some). injection Hx as <-. rewrite Ho. by apply (H5 i).
    + rewrite list_lookup_insert_ne in Hx by done. by apply (H5 j).
Qed.

(** The result of evbuffer_expand_singlechain: the data is the same, and the
    chain has room for [n] bytes. *)
Definition expands (n : Z) (b : evbuffer) (r : option nat) (b' : evbuffer) : Prop :=
  buf_ok b' /\ same_rest b b' /\ contents b' = contents b /\ (enough_memory b -> is_Some r) /\
  (forall i, r = Some i -> exists c, chains b' !! i = Some c /\ n <= CHAIN_SPACE_LEN c).

Lemma fresh_space n c : fresh n c -> n <= CHAIN_SPACE_LEN c.
Proof. intros [F1 F2 F3 F4 F5]. unfold CHAIN_SPACE_LEN. rewrite F3, F1, F2. change (has 0 EVBUFFER_IMMUTABLE) with false. cbv iota. lia. Qed.

Lemma expand_new_run n b : buf_ok b -> 0 <= n <= LIMIT -> exists r b',
  (let! r := evbuffer_chain_insert_new n in
    match r with
    | None => ret None
    | Some i => let! c := chain_at i in assert_that (Z.leb n (CHAIN_SPACE_LEN c)) ;; ret (Some i)
    end) b = Ok (r, b') /\ expands n b r b'.
Proof.
  intros H Hn. destruct (insert_new_run n b H Hn) as (r & b1 & E1 & Hb1 & S1 & C1 & Hm & Hf). rewrite (bind_ok _ _ _ _ _ E1). exists r, b1.
  destruct r as [i|]; [|split; [done|]; by split_and!]. destruct (Hf i eq_refl) as (l & c & El & -> & F).
  assert (Hl : chains b1 !! length l = Some c) by (by rewrite El, lookup_app_r, Nat.sub_diag).
  assert (Ea : chain_at (length l) b1 = Ok (c, b1)) by (unfold chain_at; by rewrite Hl). rewrite (bind_ok _ _ _ _ _ Ea), (proj2 (Z.leb_le _ _)) by (by apply fresh_space).
  split; [done|]. split_and!; try done. intros i [= <-]. exists c. split; [done|by apply fresh_space].
Qed.

Lemma expand_run n b : buf_ok b -> 0 <= n <= LIMIT -> exists r b', evbuffer_expand_singlechain n b = Ok (r, b') /\ expands n b r b'.
Proof.
  intros H Hn. unfold evbuffer_expand_singlechain. gotten b. set (p := match chains b !! last_with_datap b with Some c => _ | None => _ end).
  assert (Hhere : forall i c, chains b !! i = Some c -> n <= CHAIN_SPACE_LEN c -> exists r b', ret (Some i) b = Ok (r, b') /\ expands n b r b').
  { intros i c Hi Hs. exists (Some i), b. split; [done|]. split_and!; try done. intros j [= <-]. eauto. }
  destruct (chains b !! p) as [c|] eqn:Ep; [|by apply expand_new_run].
  destruct (has (cflags c) (Z.lor EVBUFFER_IMMUTABLE EVBUFFER_MEM_PINNED_ANY)) eqn:Ei; [by apply expand_new_run|].
  destruct (Z.leb_spec n (CHAIN_SPACE_LEN c)) as [Hs|Hs]; [by apply (Hhere p c)|]. destruct (Z.eqb (off c) 0); [by apply expand_new_run|].
  assert (Hc : chain_ok c) by (pose proof (bo_chains _ H) as Hf; rewrite Forall_lookup in Hf; by apply (Hf p)). pose proof Hc as [K1 K2 K3 K4 K5].
  assert (Him : has (cflags c) EVBUFFER_IMMUTABLE = false).
  { unfold has in *. rewrite negb_false_iff, Z.eqb_eq in *. change EVBUFFER_IMMUTABLE with (Z.land (Z.lor EVBUFFER_IMMUTABLE EVBUFFER_MEM_PINNED_ANY) EVBUFFER_IMMUTABLE).
    by rewrite Z.land_assoc, Ei. }
  destruct (evbuffer_chain_should_realign c n) eqn:Er.
  - unfold evbuffer_chain_should_realign in Er. rewrite !andb_true_iff, Z.leb_le in Er. destruct Er as [[Er _] _].
    destruct (align_run c b Hc Him) as (c' & E1 & Hc' & M' & O' & L' & D' & F'). rewrite (bind_ok _ _ _ _ _ E1).
    destruct (replace_ok b p c c' H Ep Hc' D' O') as [G1 G2]. set (b1 := put_chains _ _ b) in *. unfold put_chain. modified b b1.
    assert (Hs' : n <= CHAIN_SPACE_LEN c').
    { unfold CHAIN_SPACE_LEN. rewrite F', Him, M', O', L'. lia. }
    rewrite (proj2 (Z.leb_le _ _)) by done. exists (Some p), b1. split; [done|]. split_and!; try done. intros i [= <-]. exists c'. split; [|done].
    cbn. apply list_lookup_insert_eq. by eapply lookup_lt_Some.
  - assert (Hb : (Z.ltb n EVBUFFER_CHAIN_MAX && Z.leb (off c) (EVBUFFER_CHAIN_MAX - n)) = true).
    { rewrite andb_true_iff, Z.ltb_lt, Z.leb_le. assert (2 * LIMIT < EVBUFFER_CHAIN_MAX) by by vm_compute. lia. }
    rewrite Hb, orb_true_r. destruct (chains b !! S p) as [c2|] eqn:E2; [|by apply expand_new_run].
    destruct (Z.leb_spec n (CHAIN_SPACE_LEN c2)); [by apply (Hhere (S p) c2)|by apply expand_new_run].
Qed.
(** ** Two buffers *)

Lemma fst_ok {S1 S2 A} (m : M S1 A) x (y : S2) a x' : m x = Ok (a, x') -> fst_ m (x, y) = Ok (a, (x', y)).
Proof. intros E. unfold fst_. cbn. by rewrite E. Qed.
Lemma snd_ok {S1 S2 A} (m : M S2 A) (x : S1) y a y' : m y = Ok (a, y') -> snd_ m (x, y) = Ok (a, (x, y')).
Proof. intros E. unfold snd_. cbn. by rewrite E. Qed.

(** Two lists of chains one after the other; [d] leads into the second. *)
Lemma joined_ok b1 b2 b : buf_ok b1 -> buf_ok b2 -> chains b2 <> [] -> total_len b1 + total_len b2 <= EV_SIZE_MAX ->
  let b' := put_total (total_len b1 + total_len b2) (put_chains (chains b1 ++ chains b2) (length (chains b1) + last_with_datap b2) b) in
  buf_ok b' /\ contents b' = contents b1 ++ contents b2.
Proof.
  intros H H' Hne Ht b'. pose proof (lwd_lt b2 H' Hne) as Hl. assert (Hcon : contents b' = contents b1 ++ contents b2) by apply data_of_app. split; [|done].
  split; cbn [chains last_with_datap total_len put_chains put_total b'].
  - apply Forall_app. split; [apply H|apply H'].
  - rewrite Hcon, length_app, (bo_total _ H), (bo_total _ H'). lia.
  - done.
  - right. rewrite length_app. lia.
  - intros i c Hi Hi2 Hc. rewrite length_app in Hi2. rewrite lookup_app_r in Hc by lia. apply (bo_tidy _ H' (i - length (chains b1))%nat); [lia|lia|done].
Qed.

(** What joining [src] to [dst] makes of the contents. *)
Definition joins (join : evbuffer -> evbuffer -> evbuffer) (g : bytes -> bytes -> bytes) : Prop :=
  (forall x, g x [] = x /\ g [] x = x) /\
  forall src dst, buf_ok src -> buf_ok dst -> total_len src <> 0 -> total_len dst <> 0 -> total_len dst + total_len src <= EV_SIZE_MAX ->
    buf_ok (join src dst) /\ same_rest dst (join src dst) /\ contents (join src dst) = g (contents dst) (contents src).

Lemma some_chain b : buf_ok b -> total_len b <> 0 -> chains b <> [].
Proof. intros H Ht E. rewrite (bo_total _ H) in Ht. unfold contents in Ht. by rewrite E in Ht. Qed.

Lemma append_joins : joins APPEND_CHAIN app.
Proof.
  split; [by intros x; rewrite app_nil_r|]. intros src dst H H' Hs Hd Ht. unfold APPEND_CHAIN. pose proof (bo_total _ H). rewrite u64_sum by (done || lia).
  destruct (joined_ok dst src dst H' H) as [G1 G2]; [by apply some_chain|done|]. by split_and!.
Qed.

Lemma prepend_joins : joins PREPEND_CHAIN (fun x y => y ++ x).
Proof.
  split; [by intros x; rewrite app_nil_r|]. intros src dst H H' Hs Hd Ht. unfold PREPEND_CHAIN. pose proof (bo_total _ H). rewrite u64_sum by (done || lia).
  assert (Hne : chains dst <> []) by by apply some_chain. destruct (lookup_lt_is_Some_2 _ _ (lwd_lt dst H' Hne)) as [c ->].
  destruct (joined_ok src dst dst H H' Hne) as [G1 G2]; [lia|]. rewrite (Z.add_comm (total_len src)) in G1, G2. by split_and!.
Qed.

Lemma preserve_run b : buf_ok b -> PRESERVE_PINNED b = Ok ((0, []), b).
Proof. intros H. unfold PRESERVE_PINNED. gotten b. by rewrite no_pinned by apply H. Qed.

Lemma copy_ok src dst : buf_ok src -> buf_ok (COPY_CHAIN src dst) /\ contents (COPY_CHAIN src dst) = contents src.
Proof. intros [H1 H2 H3 H4 H5]. split; [by split|done]. Qed.

(** The result of moving what is in [src] to [dst]. *)
Definition moves (g : bytes -> bytes -> bytes) (forbidden : bool) (dst src : evbuffer) (r : Z) (dst' src' : evbuffer) : Prop :=
  buf_ok dst' /\ buf_ok src' /\ same_rest dst dst' /\ same_rest src src' /\
  (if forbidden && negb (Z.eqb (total_len src) 0) then r = -1 /\ contents dst' = contents dst /\ contents src' = contents src
   else r = 0 /\ contents dst' = g (contents dst) (contents src) /\ contents src' = []).

Lemma empty_contents b : buf_ok b -> total_len b = 0 -> contents b = [].
Proof. intros H E. rewrite (bo_total _ H) in E. apply nil_length_inv. lia. Qed.

Lemma move_run frozen join g dst src : joins join g -> buf_ok dst -> buf_ok src -> total_len dst + total_len src <= EV_SIZE_MAX ->
  exists r dst' src', move_buffer frozen join (dst, src) = Ok (r, (dst', src')) /\ moves g (frozen dst || freeze_start src) dst src r dst' src'.
Proof.
  intros [Hg Hj] Hd Hs Ht. unfold move_buffer. rewrite (bind_ok _ _ _ _ _ (eq_refl : get (dst, src) = Ok ((dst, src), (dst, src)))). cbv beta iota zeta. unfold moves.
  destruct (Z.eqb_spec (total_len src) 0) as [E|E]; cbn [negb].
  { exists 0, dst, src. rewrite andb_false_r, (empty_contents src Hs E), (proj1 (Hg _)). by split_and!. }
  rewrite andb_true_r. destruct (frozen dst || freeze_start src); [by exists (-1), dst, src|].
  rewrite (bind_ok _ _ _ _ _ (snd_ok _ _ _ _ _ (preserve_run src Hs))). cbv beta iota. change (Z.ltb 0 0) with false. cbv iota.
  rewrite (bind_ok _ _ _ _ _ (eq_refl : get (dst, src) = Ok ((dst, src), (dst, src)))). cbv beta iota.
  match goal with |- context [bind ?m _ (dst, src)] => assert (Hm : exists d1, m (dst, src) = Ok (tt, (d1, src)) /\ buf_ok d1 /\ same_rest dst d1 /\ contents d1 = g (contents dst) (contents src)) end.
  { destruct (Z.eqb_spec (total_len dst) 0) as [E0|E0].
    - destruct (free_all_run (chains dst) dst) as (d1 & E1 & S1). rewrite (bind_ok _ _ _ _ _ (fst_ok _ _ _ _ _ E1)). destruct (copy_ok src d1 Hs) as [G1 G2].
      eexists. split; [reflexivity|]. rewrite (empty_contents dst Hd E0), (proj2 (Hg _)). split_and!; [done|by destruct S1|done].
    - destruct (Hj src dst Hs Hd E E0 Ht) as (G1 & G2 & G3). eexists. split; [reflexivity|]. by split_and!. }
  destruct Hm as (d1 & E1 & Hd1 & Sd1 & Cd1). rewrite (bind_ok _ _ _ _ _ E1).
  destruct (zero_ok src src Hs ltac:(done)) as (Hz & Sz & Cz). set (s1 := ZERO_CHAIN src) in *.
  set (s2 := put_counts (n_add_for_cb s1) (u64 (n_del_for_cb s1 + total_len src)) s1). set (d2 := put_counts (u64 (n_add_for_cb d1 + total_len src)) (n_del_for_cb d1) d1).
  rewrite (bind_ok _ _ _ _ _ (snd_ok _ _ _ _ _ (eq_refl : modify (RESTORE_PINNED []) src = Ok (tt, s1)))).
  match goal with |- context [bind (snd_ (modify ?f)) _ (d1, s1)] => rewrite (bind_ok _ _ _ _ _ (snd_ok (modify f) d1 s1 tt s2 eq_refl)) end.
  match goal with |- context [bind (fst_ (modify ?f)) _ (d1, s2)] => rewrite (bind_ok _ _ _ _ _ (fst_ok (modify f) d1 s2 tt d2 eq_refl)) end.
  destruct (invoke_run s2) as (s3 & E3 & S3). destruct (invoke_run d2) as (d3 & E4 & S4).
  rewrite (bind_ok _ _ _ _ _ (snd_ok _ _ _ _ _ E3)), (bind_ok _ _ _ _ _ (fst_ok _ _ _ _ _ E4)).
  assert (Ss : same_core s1 s3) by (etransitivity; [|exact S3]; done). assert (Sd : same_core d1 d3) by (etransitivity; [|exact S4]; done).
  exists 0, d3, s3. split; [done|]. rewrite (core_contents _ _ Ss), (core_contents _ _ Sd).
  split_and!; [by eapply core_ok|by eapply core_ok|etransitivity; [exact Sd1|by apply core_rest]|etransitivity; [exact Sz|by apply core_rest]|done|done|done].
Qed.
End BufferOps.
