(* ===== verification/BufferMem.v ===== *)
(** * Which answers of malloc an operation uses (src/libevent/buffer.c)

    malloc is asked one call after the other; [nalloc] counts the calls. An
    operation that makes the calls from [nalloc b] up to [nalloc b'] has the same
    result whatever the other calls would answer ([local]). So when none of its
    own calls fails it behaves as if memory never ran out. *)

From stdpp Require Import prelude.
From S2P Require Import Prelude Buffer BufferFacts.
Open Scope Z_scope.

Module BufferMem.
Import Buffer BufferFacts.

Definition put_mem (f : nat -> bool) (b : evbuffer) : evbuffer :=
  mkBuf (chains b) (last_with_datap b) (total_len b) (n_add_for_cb b) (n_del_for_cb b) (freeze_start b) (freeze_end b) (deferred_cbs b) (queued b)
    (refcnt b) (callbacks b) (called b) (cleaned b) (dangling b) f (nalloc b).

Definition local {A} (m : T A) : Prop := forall b a b', m b = Ok (a, b') ->
  (nalloc b <= nalloc b')%nat /\ mem b' = mem b /\
  forall f, (forall n, (nalloc b <= n < nalloc b')%nat -> f n = mem b n) -> m (put_mem f b) = Ok (a, put_mem f b').

Section Local.
Context {A C : Type}.

Lemma local_ret (a : A) : local (ret a).
Proof. intros b x b' [= <- <-]. by split_and!. Qed.

Lemma local_fail w : local (fail w : T A).
Proof. done. Qed.

Lemma local_lift (r : res A) : local (lift r).
Proof. intros b x b' E. unfold lift in *. destruct r; [|done]. injection E as <- <-. by split_and!. Qed.

Lemma local_bind (m : T A) (k : A -> T C) : local m -> (forall a, local (k a)) -> local (bind m k).
Proof.
  intros Hm Hk b c b2 E. apply bind_inv in E as (a & b1 & E1 & E2).
  destruct (Hm b a b1 E1) as (L1 & M1 & F1), (Hk a b1 c b2 E2) as (L2 & M2 & F2).
  split_and!; [lia|congruence|]. intros f Hf. unfold bind. rewrite F1; [|intros n Hn; apply Hf; lia].
  apply F2. intros n Hn. rewrite M1. apply Hf. lia.
Qed.

(** What is read with [get] is not the memory. *)
Lemma local_get (k : evbuffer -> T C) : (forall f b, k (put_mem f b) = k b) -> (forall b, local (k b)) -> local (bind get k).
Proof.
  intros He Hk b c b' E. destruct (Hk b b c b' E) as (L & M & F). split_and!; [done|done|]. intros f Hf.
  unfold bind, get. rewrite He. by apply F.
Qed.

Lemma local_modify (g : evbuffer -> evbuffer) :
  (forall b, nalloc (g b) = nalloc b) -> (forall b, mem (g b) = mem b) -> (forall f b, g (put_mem f b) = put_mem f (g b)) -> local (modify g).
Proof. intros H1 H2 H3 b x b' [= <- <-]. rewrite H1, H2. split_and!; [done|done|]. intros f _. unfold modify. by rewrite H3. Qed.

Lemma local_if (c : bool) (m1 m2 : T A) : local m1 -> local m2 -> local (if c then m1 else m2).
Proof. by destruct c. Qed.
End Local.

Lemma local_when c (m : T unit) : local m -> local (when c m).
Proof. intros Hm. destruct c; [done|apply local_ret]. Qed.

Lemma local_assert c : local (assert_that c).
Proof. destruct c; [apply local_ret|apply local_fail]. Qed.

Lemma local_malloc : local malloc.
Proof. intros b x b' [= <- <-]. split_and!; [cbn; lia|done|]. intros f Hf. unfold malloc. cbn. rewrite Hf by (cbn; lia). done. Qed.

Lemma local_chain_at i : local (chain_at i).
Proof. intros b x b' E. unfold chain_at in *. cbn. destruct (chains b !! i); [|done]. injection E as <- <-. by split_and!. Qed.

Create HintDb local.
#[local] Hint Resolve local_ret local_fail local_lift local_assert local_malloc local_chain_at : local.

(** [locally]: step by step. *)
Ltac locally :=
  repeat match goal with
  | |- local (bind get _) => apply local_get; [reflexivity|intros ?]
  | |- local (bind _ _) => apply local_bind; [|intros ?]
  | |- local (modify _) => apply local_modify; [intros ?; repeat case_match; reflexivity..|intros ? ?; cbn; repeat case_match; reflexivity]
  | |- local (when _ _) => apply local_when
  | |- local (match ?x with _ => _ end) => destruct x
  | |- local (let '(_, _) := ?x in _) => destruct x
  | |- local _ => solve [auto with local]
  end.

Lemma local_chain_new n : local (evbuffer_chain_new n).
Proof. unfold evbuffer_chain_new. locally. Qed.
Lemma local_chain_free c : local (evbuffer_chain_free c).
Proof. unfold evbuffer_chain_free. locally. Qed.
#[local] Hint Resolve local_chain_new local_chain_free : local.

Lemma local_free_all l : local (evbuffer_free_all_chains l).
Proof. induction l as [|c l IH]; cbn [evbuffer_free_all_chains]; locally. Qed.
#[local] Hint Resolve local_free_all : local.

Lemma local_chain_insert c : local (evbuffer_chain_insert c).
Proof. unfold evbuffer_chain_insert. locally. Qed.
#[local] Hint Resolve local_chain_insert : local.
Lemma local_insert_new n : local (evbuffer_chain_insert_new n).
Proof. unfold evbuffer_chain_insert_new. locally. Qed.
Lemma local_put_chain i c : local (put_chain i c).
Proof. unfold put_chain. locally. Qed.
Lemma local_callbacks : local evbuffer_invoke_callbacks.
Proof. unfold evbuffer_invoke_callbacks, evbuffer_run_callbacks. locally. Qed.
Lemma local_count n : local (count_added n).
Proof. unfold count_added. locally. Qed.
Lemma local_write c pos d : local (chain_write c pos d).
Proof. unfold chain_write. locally. Qed.
Lemma local_read c n : local (chain_read c n).
Proof. unfold chain_read. locally. Qed.
#[local] Hint Resolve local_insert_new local_put_chain local_callbacks local_count local_write local_read : local.
Lemma local_align c : local (evbuffer_chain_align c).
Proof. unfold evbuffer_chain_align. locally. Qed.
Lemma local_add_new i c d n : local (add_new_chain i c d n).
Proof. unfold add_new_chain. cbn zeta. locally. Qed.
#[local] Hint Resolve local_align local_add_new : local.

Lemma local_add d : local (evbuffer_add d).
Proof. unfold evbuffer_add. cbn zeta. locally. Qed.
Lemma local_to_first c d : local (to_first c d).
Proof. unfold to_first. cbn zeta. locally. Qed.
#[local] Hint Resolve local_to_first : local.
Lemma local_prepend d : local (evbuffer_prepend d).
Proof. unfold evbuffer_prepend. cbn zeta. locally. Qed.
Lemma local_reference d f : local (evbuffer_add_reference d f).
Proof. unfold evbuffer_add_reference. locally. Qed.

Lemma local_drain_loop l : forall i n, local (drain_loop l i n).
Proof. induction l as [|c l IH]; intros i n; cbn [drain_loop]; cbn zeta; locally. Qed.
#[local] Hint Resolve local_drain_loop : local.
Lemma local_drain n : local (evbuffer_drain n).
Proof. unfold evbuffer_drain. cbn zeta. locally. Qed.
Lemma local_copy_loop l : forall n, local (copy_loop l n).
Proof. induction l as [|c l IH]; intros n; cbn [copy_loop]; locally. Qed.
#[local] Hint Resolve local_drain local_copy_loop : local.
Lemma local_copyout n : local (evbuffer_copyout n).
Proof. unfold evbuffer_copyout. cbn zeta. locally. Qed.
#[local] Hint Resolve local_copyout : local.
Lemma local_remove n : local (evbuffer_remove n).
Proof. unfold evbuffer_remove. locally. Qed.

Lemma local_pull_loop l : forall i d n, local (pull_loop l i d n).
Proof. induction l as [|c l IH]; intros i d n; cbn [pull_loop]; locally. Qed.
#[local] Hint Resolve local_pull_loop : local.
Lemma local_pull_into c p l i n : local (pull_into c p l i n).
Proof. unfold pull_into. cbn zeta. locally. Qed.
#[local] Hint Resolve local_pull_into : local.
Lemma local_pullup n : local (evbuffer_pullup n).
Proof. unfold evbuffer_pullup. cbn zeta. locally. Qed.
Lemma local_expand n : local (evbuffer_expand n).
Proof. unfold evbuffer_expand, evbuffer_expand_singlechain. cbn zeta. locally. Qed.
Lemma local_freeze s : local (evbuffer_freeze s).
Proof. unfold evbuffer_freeze. locally. Qed.
Lemma local_unfreeze s : local (evbuffer_unfreeze s).
Proof. unfold evbuffer_unfreeze. locally. Qed.
#[export] Hint Resolve local_ret local_add local_prepend local_reference local_drain local_copyout local_remove local_pullup local_expand
  local_freeze local_unfreeze : local.

(** An operation none of whose own calls of malloc fails. *)
Definition served (b b' : evbuffer) : Prop := forall n, (nalloc b <= n < nalloc b')%nat -> mem b n = true.

Lemma local_served {A} (m : T A) b a b' :
  local m -> m b = Ok (a, b') -> served b b' -> m (put_mem (fun _ => true) b) = Ok (a, put_mem (fun _ => true) b').
Proof. intros Hm E Hs. apply (Hm b a b' E). intros n Hn. symmetry. by apply Hs. Qed.
End BufferMem.
