(* ===== verification/BufferThms.v ===== *)
(** * Event buffers refine byte strings (src/libevent/buffer.c)

    The abstract buffer is a byte string with two flags, [spec] what each
    operation does to it. The operations on chains do the same, for every list
    of the operations of [op] and whatever malloc answers ([simulates]); an
    operation fails for want of memory only when one of its own calls of malloc
    failed, and of these operations only evbuffer_prepend then changes the
    string. *)

From stdpp Require Import prelude.
From S2P Require Import Prelude Buffer BufferFacts BufferOps BufferMem.
Open Scope Z_scope.

Module BufferThms.
Import Buffer BufferFacts BufferOps BufferMem.

Inductive op :=
| Add (d : bytes) | Prepend (d : bytes) | Reference (d : bytes) (cleanup : option Z)
| Drain (n : Z) | Remove (n : Z) | Copyout (n : Z) | Pullup (n : Z) | Expand (n : Z)
| Freeze (start : bool) | Unfreeze (start : bool) | Get_length.

(** The result of a call; [Data]: and the bytes it has written, or points to. *)
Inductive answer := Int (r : Z) | Data (r : Z) (d : bytes) | Ptr (d : option bytes).

(** How many bytes of memory the operation may ask for. *)
Definition size_of (o : op) : Z :=
  match o with
  | Add d | Prepend d | Reference d _ => Z.of_nat (length d)
  | Expand n => n
  | _ => 0
  end.

(** The length of a size_t; evbuffer_remove returns an int. *)
Definition op_ok (o : op) : Prop :=
  match o with
  | Drain n | Copyout n | Expand n => 0 <= n
  | Remove n => 0 <= n < 2 ^ 31
  | _ => True
  end.

(** ** The abstract buffer *)

Record abuf := mkAbuf { str : bytes; at_start : bool; at_end : bool }.

Definition with_str (d : bytes) (s : abuf) : abuf := mkAbuf d (at_start s) (at_end s).
Definition alen (s : abuf) : Z := Z.of_nat (length (str s)).

(** evbuffer_pullup counts a negative size as everything. *)
Definition wanted (n : Z) (len : Z) : Z := if Z.ltb n 0 then len else n.

Definition spec (o : op) (s : abuf) : answer * abuf :=
  match o with
  | Add d | Reference d _ => if at_end s then (Int (-1), s) else (Int 0, with_str (str s ++ d) s)
  | Prepend d => if at_start s then (Int (-1), s) else (Int 0, with_str (d ++ str s) s)
  | Drain n => if at_start s && negb (Z.eqb (alen s) 0) then (Int (-1), s) else (Int 0, with_str (drop (Z.to_nat n) (str s)) s)
  | Remove n =>
      if at_start s && negb (Z.eqb (Z.min n (alen s)) 0) then (Data (-1) [], s)
      else (Data (Z.min n (alen s)) (take (Z.to_nat n) (str s)), with_str (drop (Z.to_nat n) (str s)) s)
  | Copyout n =>
      if at_start s && negb (Z.eqb (Z.min n (alen s)) 0) then (Data (-1) [], s)
      else (Data (Z.min n (alen s)) (take (Z.to_nat n) (str s)), s)
  | Pullup n =>
      let m := wanted n (alen s) in
      (Ptr (if Z.eqb m 0 || Z.ltb (alen s) m then None else Some (take (Z.to_nat m) (str s))), s)
  | Expand n => (Int 0, s)
  | Freeze start => (Int 0, if start then mkAbuf (str s) true (at_end s) else mkAbuf (str s) (at_start s) true)
  | Unfreeze start => (Int 0, if start then mkAbuf (str s) false (at_end s) else mkAbuf (str s) (at_start s) false)
  | Get_length => (Int (alen s), s)
  end.

(** Without memory. *)
Inductive failed : op -> abuf -> answer -> abuf -> Prop :=
| fail_add d s : failed (Add d) s (Int (-1)) s
| fail_reference d f s : failed (Reference d f) s (Int (-1)) s
| fail_expand n s : failed (Expand n) s (Int (-1)) s
| fail_pullup n s : failed (Pullup n) s (Ptr None) s
| fail_prepend d s n : failed (Prepend d) s (Int (-1)) (with_str (drop n d ++ str s) s).

(** [simulates f l n s r m s']: the operations [l] in order, with the answers
    [r], from the call number [n] of malloc up to [m]; [f] is what malloc
    answers. An operation that fails made a call that failed. *)
Inductive simulates (f : nat -> bool) : list op -> nat -> abuf -> list answer -> nat -> abuf -> Prop :=
| sim_nil n s : simulates f [] n s [] n s
| sim_step o l n k m s r s' :
    (n <= k)%nat -> simulates f l k (snd (spec o s)) r m s' -> simulates f (o :: l) n s (fst (spec o s) :: r) m s'
| sim_fail o l n i k m s a s1 r s' :
    (n <= i < k)%nat -> f i = false -> failed o s a s1 -> simulates f l k s1 r m s' -> simulates f (o :: l) n s (a :: r) m s'.

(** ** The operations on chains *)

Definition exec (o : op) : T answer :=
  match o with
  | Add d => let! r := evbuffer_add d in ret (Int r)
  | Prepend d => let! r := evbuffer_prepend d in ret (Int r)
  | Reference d f => let! r := evbuffer_add_reference d f in ret (Int r)
  | Drain n => let! r := evbuffer_drain n in ret (Int r)
  | Remove n => let! (r, d) := evbuffer_remove n in ret (Data r d)
  | Copyout n => let! (r, d) := evbuffer_copyout n in ret (Data r d)
  | Pullup n =>
      let! b := get in
      let! r := evbuffer_pullup n in
      ret (Ptr (take (Z.to_nat (wanted n (total_len b))) <$> r))
  | Expand n => let! r := evbuffer_expand n in ret (Int r)
  | Freeze start => let! r := evbuffer_freeze start in ret (Int r)
  | Unfreeze start => let! r := evbuffer_unfreeze start in ret (Int r)
  | Get_length => let! b := get in ret (Int (evbuffer_get_length b))
  end.

Fixpoint run (l : list op) : T (list answer) :=
  match l with
  | [] => ret []
  | o :: l' => let! a := exec o in let! r := run l' in ret (a :: r)
  end.

Definition abs (b : evbuffer) : abuf := mkAbuf (contents b) (freeze_start b) (freeze_end b).

Lemma abs_same b b' : same_rest b b' -> abs b' = with_str (contents b') (abs b).
Proof. intros [S1 S2 S3]. unfold abs, with_str. cbn. by rewrite S1, S2. Qed.

Lemma abs_eq b b' d : same_rest b b' -> contents b' = d -> abs b' = with_str d (abs b).
Proof. intros S <-. by apply abs_same. Qed.

Lemma alen_abs b : buf_ok b -> alen (abs b) = total_len b.
Proof. intros H. symmetry. apply (bo_total _ H). Qed.

Lemma abs_id b : with_str (contents b) (abs b) = abs b.
Proof. done. Qed.

(** The outcome of one operation. *)
Definition outcome (o : op) (b : evbuffer) (a : answer) (b' : evbuffer) : Prop :=
  buf_ok b' /\ mem b' = mem b /\ ((a, abs b') = spec o (abs b) \/ (~ enough_memory b /\ failed o (abs b) a (abs b'))).

Lemma appends_outcome o d b r b' : o = Add d \/ (exists f, o = Reference d f) -> total_len b + Z.of_nat (length d) <= EV_SIZE_MAX ->
  appends d (freeze_end b) b r b' -> outcome o b (Int r) b'.
Proof.
  intros Ho Ht (H1 & S1 & HC). split_and!; [done|apply S1|].
  assert (Hs : spec o (abs b) = if freeze_end b then (Int (-1), abs b) else (Int 0, with_str (contents b ++ d) (abs b))) by (by destruct Ho as [->|[f ->]]).
  assert (Hf : failed o (abs b) (Int (-1)) (abs b)) by (destruct Ho as [->|[f ->]]; constructor).
  rewrite Hs. destruct HC as [(Ef & -> & C)|(-> & C & Hm)].
  - left. by rewrite Ef, (abs_eq b b' _ S1 C).
  - assert (Ha : abs b' = abs b) by (rewrite (abs_eq b b' _ S1 C); apply (abs_id b)). rewrite Ha. destruct (freeze_end b); [by left|right].
    split; [|done]. intros He. destruct (Hm He); [done|lia].
Qed.

Lemma prepends_outcome d b r b' : total_len b + Z.of_nat (length d) <= EV_SIZE_MAX -> prepends d b r b' -> outcome (Prepend d) b (Int r) b'.
Proof.
  intros Ht (H1 & S1 & HC). split_and!; [done|apply S1|]. cbn [spec]. change (at_start (abs b)) with (freeze_start b).
  destruct HC as [(Ef & -> & C)|(-> & [n C] & Hz & Hm)].
  - left. by rewrite Ef, (abs_eq b b' _ S1 C).
  - destruct (freeze_start b).
    + left. by rewrite (abs_eq b b' _ S1 (Hz eq_refl)), (abs_id b).
    + right. split; [intros He; destruct (Hm He) as [[|] _]; [done|lia]|]. rewrite (abs_eq b b' _ S1 C). apply (fail_prepend d (abs b)).
Qed.

Lemma exec_run o b : buf_ok b -> op_ok o -> total_len b + size_of o <= LIMIT -> exists a b', exec o b = Ok (a, b') /\ outcome o b a b'.
Proof.
  intros H Ho Ht. assert (HL : LIMIT <= EV_SIZE_MAX) by by vm_compute. pose proof (bo_total _ H) as Hl. pose proof (alen_abs b H) as Ha.
  destruct o as [d|d|d f|n|n|n|n|n|s|s|]; cbn [size_of op_ok exec] in *.
  - destruct (buffer_add_run d b H ltac:(lia)) as (r & b' & E & G). rewrite (bind_ok _ _ _ _ _ E). eexists _, b'. split; [done|]. eapply appends_outcome; [by left|lia|done].
  - destruct (prepend_run d b H ltac:(lia)) as (r & b' & E & G). rewrite (bind_ok _ _ _ _ _ E). eexists _, b'. split; [done|]. apply prepends_outcome; [lia|done].
  - destruct (reference_run d f b H ltac:(lia) ltac:(lia)) as (r & b' & E & G). rewrite (bind_ok _ _ _ _ _ E). eexists _, b'. split; [done|].
    eapply appends_outcome; [right; by eexists|lia|done].
  - destruct (drain_run n b H Ho) as (r & b' & E & Hb & S & G). rewrite (bind_ok _ _ _ _ _ E). eexists _, b'. split; [done|]. split_and!; [done|apply S|left].
    cbn [spec]. rewrite Ha. change (at_start (abs b)) with (freeze_start b). destruct (freeze_start b && negb (Z.eqb (total_len b) 0)); destruct G as [-> C]; by rewrite (abs_eq b b' _ S C), ?(abs_id b).
  - destruct (remove_bytes_run n b H Ho) as (r & d & b' & E & Hb & S & G). rewrite (bind_ok _ _ _ _ _ E). eexists _, b'. split; [done|]. split_and!; [done|apply S|left].
    cbn [spec]. rewrite Ha. change (at_start (abs b)) with (freeze_start b). destruct (freeze_start b && negb (Z.eqb (Z.min n (total_len b)) 0)); destruct G as (-> & -> & C); rewrite (abs_eq b b' _ S C), ?(abs_id b); [done|].
    rewrite length_take. change (str (abs b)) with (contents b). do 2 f_equal. lia.
  - rewrite (bind_ok _ _ _ _ _ (copyout_run n b H Ho)). cbn [spec]. unfold outcome. cbn [spec]. rewrite Ha. change (at_start (abs b)) with (freeze_start b).
    destruct (freeze_start b && negb (Z.eqb (Z.min n (total_len b)) 0)); (eexists _, b; split; [reflexivity|]; split_and!; [done|done|by left]).
  - gotten b. destruct (pullup_run n b H ltac:(lia)) as (r & b' & E & Hb & S & C & G). rewrite (bind_ok _ _ _ _ _ E). eexists _, b'. split; [done|]. split_and!; [done|apply S|].
    assert (Hab : abs b' = abs b) by (rewrite (abs_eq b b' _ S C); apply (abs_id b)). rewrite Hab. cbn [spec]. rewrite Ha. fold (wanted n (total_len b)) in G. destruct r as [d|]; cbn [pulls] in G.
    + destruct G as [Hm [x Hp]]. left. assert (Hc : Z.of_nat (length (contents b)) = Z.of_nat (length d) + Z.of_nat (length x)) by (rewrite Hp, length_app; lia).
      rewrite (proj2 (Z.eqb_neq _ _)), (proj2 (Z.ltb_ge _ _)) by lia. cbn. rewrite Hp. by rewrite take_app_le by lia.
    + destruct (Z.eqb_spec (wanted n (total_len b)) 0); [by left|]. destruct (Z.ltb_spec (total_len b) (wanted n (total_len b))); [by left|]. right. split; [|constructor].
      destruct G as [?|[?|?]]; [done|lia|done].
  - unfold evbuffer_expand. destruct (expand_run n b H ltac:(lia)) as (r & b' & E & Hb & S & C & Hm & _).
    erewrite bind_ok; [|rewrite (bind_ok _ _ _ _ _ E); reflexivity]. eexists _, b'. split; [done|]. split_and!; [done|apply S|].
    assert (Hab : abs b' = abs b) by (rewrite (abs_eq b b' _ S C); apply (abs_id b)). rewrite Hab. destruct r; [by left|right]. split; [|constructor]. intros He. by destruct (Hm He).
  - eexists _, _. split; [reflexivity|]. split_and!; [|by destruct s|left; by destruct s]. destruct H as [H1 H2 H3 H4 H5]. destruct s; by split.
  - eexists _, _. split; [reflexivity|]. split_and!; [|by destruct s|left; by destruct s]. destruct H as [H1 H2 H3 H4 H5]. destruct s; by split.
  - eexists _, b. split; [reflexivity|]. split_and!; [done|done|left]. cbn [spec]. by rewrite Ha.
Qed.

(** The outcome, with the calls of malloc that the operation made itself. *)
Definition result (o : op) (b : evbuffer) (a : answer) (b' : evbuffer) : Prop :=
  buf_ok b' /\ mem b' = mem b /\ (nalloc b <= nalloc b')%nat /\
  ((a, abs b') = spec o (abs b) \/ ((exists i, (nalloc b <= i < nalloc b')%nat /\ mem b i = false) /\ failed o (abs b) a (abs b'))).

Lemma exec_local o : local (exec o).
Proof.
  assert (R : forall (m : T Z), local m -> local (let! r := m in ret (Int r))) by (intros m Hm; apply local_bind; [done|intros ?; apply local_ret]).
  assert (D : forall (m : T (Z * bytes)), local m -> local (let! (r, d) := m in ret (Data r d))) by (intros m Hm; apply local_bind; [done|intros [??]; apply local_ret]).
  destruct o; cbn [exec]; [apply R, local_add|apply R, local_prepend|apply R, local_reference|apply R, local_drain|apply D, local_remove|apply D, local_copyout
    | |apply R, local_expand|apply R, local_freeze|apply R, local_unfreeze|].
  - apply local_get; [by intros|intros b]. apply local_bind; [apply local_pullup|intros ?; apply local_ret].
  - apply local_get; [by intros|intros b; apply local_ret].
Qed.

Lemma served_or b b' : served b b' \/ exists i, (nalloc b <= i < nalloc b')%nat /\ mem b i = false.
Proof.
  destruct (decide (Forall (fun i => mem b i = true) (seq (nalloc b) (nalloc b' - nalloc b)))) as [H|H].
  - left. intros n Hn. rewrite Forall_forall in H. apply H, elem_of_seq. lia.
  - right. apply not_Forall_Exists, Exists_exists in H as (i & Hi%elem_of_seq & Hm); [|apply _].
    exists i. split; [lia|]. by apply not_true_iff_false.
Qed.

Lemma exec_result o b : buf_ok b -> op_ok o -> total_len b + size_of o <= LIMIT -> exists a b', exec o b = Ok (a, b') /\ result o b a b'.
Proof.
  intros H Ho Ht. destruct (exec_run o b H Ho Ht) as (a & b' & E & Hb & M & G). exists a, b'. split; [done|].
  destruct (exec_local o b a b' E) as (L & _ & F). split_and!; [done|done|done|].
  destruct (served_or b b') as [Hs|Hf]; [|destruct G as [G|[_ G]]; [by left|by right]]. left.
  pose proof (local_served _ _ _ _ (exec_local o) E Hs) as E'.
  assert (H' : buf_ok (put_mem (fun _ => true) b)) by (by destruct H).
  destruct (exec_run o _ H' Ho Ht) as (a2 & b2 & E2 & _ & _ & G2). rewrite E' in E2. injection E2 as <- <-.
  destruct G2 as [G2|[Hm _]]; [exact G2|]. by destruct Hm.
Qed.

Lemma spec_length o s : op_ok o -> alen (snd (spec o s)) <= alen s + Z.max 0 (size_of o).
Proof.
  intros Ho. unfold alen. destruct o as [d|d|d f|n|n|n|n|n|x|x|]; cbn [spec size_of]; repeat case_match; cbn [snd with_str str]; rewrite ?length_app, ?length_drop; lia.
Qed.

Lemma failed_length o s a s' : failed o s a s' -> alen s' <= alen s + Z.max 0 (size_of o).
Proof. intros F. unfold alen. destruct F; cbn [with_str str size_of]; rewrite ?length_app, ?length_drop; lia. Qed.

Lemma result_total o b a b' : op_ok o -> buf_ok b -> result o b a b' -> total_len b' <= total_len b + Z.max 0 (size_of o).
Proof.
  intros Ho H (H' & _ & _ & [E|[_ F]]); rewrite <-!alen_abs by done; [|by eapply failed_length].
  replace (abs b') with (snd (spec o (abs b))) by (by rewrite <-E). by apply spec_length.
Qed.

Definition sizes (l : list op) : Z := foldr (fun o n => Z.max 0 (size_of o) + n) 0 l.

Lemma sizes_pos l : 0 <= sizes l.
Proof. induction l as [|o l IH]; cbn; [done|]. fold (sizes l). lia. Qed.

(** C26: The event buffer of libevent is a byte string. Whatever list of
    evbuffer_add, evbuffer_prepend, evbuffer_add_reference, evbuffer_drain,
    evbuffer_remove, evbuffer_copyout, evbuffer_pullup, evbuffer_expand,
    evbuffer_freeze, evbuffer_unfreeze and evbuffer_get_length is run on a
    buffer, and whatever malloc answers, the chains stay well formed, no
    assertion of these operations fails, no access leaves the memory of a
    chain, and the answers and the contents are those of the operations on the
    byte string. An operation answers otherwise only when a call of malloc that
    it made itself failed, and then changes nothing, but for evbuffer_prepend,
    which may have put an end of its data in front. *)
Theorem evbuffer_refines l b :
  buf_ok b -> Forall op_ok l -> total_len b + sizes l <= LIMIT ->
  exists r b', run l b = Ok (r, b') /\ buf_ok b' /\ simulates (mem b) l (nalloc b) (abs b) r (nalloc b') (abs b').
Proof.
  revert b. induction l as [|o l IH]; intros b H Ho Ht; [exists [], b; split_and!; [done|done|constructor]|].
  apply Forall_cons in Ho as [Ho Hl]. cbn [sizes foldr] in Ht. fold (sizes l) in Ht. pose proof (sizes_pos l) as Hp. cbn [run].
  destruct (exec_result o b H Ho ltac:(lia)) as (a & b1 & E1 & G). pose proof (result_total o b a b1 Ho H G) as T1. destruct G as (Hb1 & M1 & L1 & G).
  destruct (IH b1 Hb1 Hl ltac:(lia)) as (r & b2 & E2 & Hb2 & Hs). rewrite (bind_ok _ _ _ _ _ E1), (bind_ok _ _ _ _ _ E2). exists (a :: r), b2. split_and!; [done|done|].
  rewrite M1 in Hs.
  destruct G as [E|[(i & Hi & Hm) F]]; [|by eapply sim_fail]. replace a with (fst (spec o (abs b))) by (by rewrite <-E). eapply sim_step; [done|]. by rewrite <-E.
Qed.

(** A first string of 976 bytes fills a chain. *)
Definition some_ops : list op :=
  [Add (replicate 976 1); Add [2; 3]; Prepend [4; 5]; Drain 3; Pullup 976; Freeze true; Remove 5; Unfreeze true; Reference [6; 7] (Some 9); Remove 975; Copyout 10; Get_length].

Lemma new_ok m : buf_ok (evbuffer_new m).
Proof. split; cbn; [constructor|done|done|by left|done]. Qed.

Lemma evbuffer_refines_witness :
  let b := evbuffer_new (fun n => Nat.ltb n 2) in
  exists r b', run some_ops b = Ok (r, b') /\ buf_ok b' /\ simulates (mem b) some_ops (nalloc b) (abs b) r (nalloc b') (abs b').
Proof. apply evbuffer_refines; [apply new_ok|repeat constructor; done|by vm_compute]. Defined.

(** What the run above answers. *)
Example some_ops_run : exists b', run some_ops (evbuffer_new (fun _ => true)) =
  Ok ([Int 0; Int 0; Int 0; Int 0; Ptr (Some (replicate 975 1 ++ [2])); Int 0; Data (-1) []; Int 0; Int 0; Data 975 (replicate 975 1); Data 4 [2; 3; 6; 7]; Int 4], b').
Proof. eexists. vm_compute. reflexivity. Qed.

(** Evbuffer_add_buffer appends all data of one buffer to another,
    evbuffer_prepend_buffer puts it in front; the source buffer is empty
    afterwards, and no memory is needed. A frozen end makes both return -1 and
    change nothing. *)
Lemma evbuffer_moves dst src :
  buf_ok dst -> buf_ok src -> total_len dst + total_len src <= EV_SIZE_MAX ->
  (exists r dst' src', evbuffer_add_buffer (dst, src) = Ok (r, (dst', src')) /\ moves app (freeze_end dst || freeze_start src) dst src r dst' src') /\
  (exists r dst' src', evbuffer_prepend_buffer (dst, src) = Ok (r, (dst', src')) /\ moves (fun x y => y ++ x) (freeze_start dst || freeze_start src) dst src r dst' src').
Proof. intros Hd Hs Ht. split; apply move_run; auto using append_joins, prepend_joins. Qed.

(** A buffer with the string [d]. *)
Definition buf_of (d : bytes) : evbuffer :=
  match evbuffer_add d (evbuffer_new (fun _ => true)) with Ok (_, b) => b | Fault _ => evbuffer_new (fun _ => true) end.

Lemma buf_of_ok d : Z.of_nat (length d) <= LIMIT -> buf_ok (buf_of d).
Proof.
  intros H. unfold buf_of. destruct (buffer_add_run d (evbuffer_new (fun _ => true)) (new_ok _) H) as (r & b & -> & G). apply G.
Qed.

Lemma evbuffer_moves_witness :
  (exists r dst' src', evbuffer_add_buffer (buf_of [1; 2], buf_of [3]) = Ok (r, (dst', src')) /\ moves app false (buf_of [1; 2]) (buf_of [3]) r dst' src') /\
  (exists r dst' src', evbuffer_prepend_buffer (buf_of [1; 2], buf_of [3]) = Ok (r, (dst', src')) /\ moves (fun x y => y ++ x) false (buf_of [1; 2]) (buf_of [3]) r dst' src').
Proof. apply (evbuffer_moves (buf_of [1; 2]) (buf_of [3])); [apply buf_of_ok; by vm_compute|apply buf_of_ok; by vm_compute|by vm_compute]. Defined.

(** Room made with evbuffer_expand is a chain behind the one that
    last_with_datap leads to. evbuffer_add fills it and leaves last_with_datap,
    and evbuffer_remove_buffer of more than the first chain then finds the chain
    of last_with_datap among those that go: its assertion fails. *)
Example remove_buffer_aborts :
  exists b, (evbuffer_add (replicate 976 1) ;; evbuffer_expand 100 ;; evbuffer_add [2; 3; 4]) (evbuffer_new (fun _ => true)) = Ok (0, b) /\
    evbuffer_get_length b = 979 /\ evbuffer_remove_buffer 977 (b, evbuffer_new (fun _ => true)) = Fault AssertFailed.
Proof. eexists. split; [vm_compute; reflexivity|]. by vm_compute. Qed.

(** Without memory for a second chain, evbuffer_prepend returns -1 with part of
    the data in the buffer. *)
Example prepend_partly :
  exists b, (evbuffer_add (replicate 976 1) ;; evbuffer_drain 1 ;; evbuffer_prepend [2; 3]) (evbuffer_new (Nat.eqb 0)) = Ok (-1, b) /\
    take 2 (contents b) = [3; 1] /\ evbuffer_get_length b = 976.
Proof. eexists. split; [vm_compute; reflexivity|]. by vm_compute. Qed.
End BufferThms.
