(* ===== verification/BufferSearch.v ===== *)
(** * Searching in event buffers and reading lines (src/libevent/buffer.c)

    evbuffer_ptr_set, evbuffer_search, evbuffer_search_eol, evbuffer_readln and
    what they call. They read the chains of [Buffer.evbuffer]; a pointer into a
    chain is the number of the chain and an offset into its data. *)

From stdpp Require Import prelude.
From S2P Require Import Prelude CLib Buffer.
Open Scope Z_scope.

Module BufferSearch.
Import Buffer.

(** struct evbuffer_ptr; [pchain]: the number of _internal.chain, [None] is
    NULL. *)
Record evbuffer_ptr := mkPtr { pos : Z; pchain : option nat; pos_in_chain : Z }.

(** enum evbuffer_eol_style *)
Inductive eol_style := EVBUFFER_EOL_ANY | EVBUFFER_EOL_CRLF | EVBUFFER_EOL_CRLF_STRICT | EVBUFFER_EOL_LF.

Definition CR : Z := 13.
Definition LF : Z := 10.

(** The data of a chain from offset [i] on: memory from buffer + misalign + i,
    off - i bytes, where a negative number is a huge size_t. *)
Definition piece (c : chain) (i : Z) : res bytes :=
  if Z.ltb (misalign c + i) 0 || Z.ltb (off c) i then Fault Overread
  else mread (buffer c) (Z.to_nat (misalign c + i)) (Z.to_nat (off c - i)).

Definition CHUNK_SZ : nat := 128.

(** The loop of find_eol_char; [n]: the bytes before [s]. *)
Fixpoint eol_chunks (fuel : nat) (s : bytes) (n : nat) : option nat :=
  match fuel, s with
  | O, _ | _, [] => None
  | S f, _ =>
      let chunk := take CHUNK_SZ s in
      match memchr CR chunk, memchr LF chunk with
      | Some cr, Some lf => Some (n + if Nat.ltb lf cr then lf else cr)%nat
      | Some cr, None => Some (n + cr)%nat
      | None, Some lf => Some (n + lf)%nat
      | None, None => eol_chunks f (drop CHUNK_SZ s) (n + CHUNK_SZ)
      end
  end.

Definition find_eol_char (s : bytes) : option nat := eol_chunks (length s) s 0.

(** The loop of evbuffer_strchr and of evbuffer_find_eol_char over the chains
    from number [k] on: the pointer, or [None] for -1. *)
Fixpoint scan (find : bytes -> option nat) (l : list chain) (k : nat) (i p : Z) : res (option evbuffer_ptr) :=
  match l with
  | [] => Ok None
  | c :: l' =>
      let? s := piece c i in
      match find s with
      | Some n => Ok (Some (mkPtr (p + Z.of_nat n) (Some k) (i + Z.of_nat n)))
      | None => scan find l' (S k) 0 (p + (off c - i))
      end
  end.

(** The chains from the pointer on. *)
Definition from_ptr (b : evbuffer) (it : evbuffer_ptr) : list chain := match pchain it with Some k => drop k (chains b) | None => [] end.
Definition chain_no (it : evbuffer_ptr) : nat := default 0%nat (pchain it).

Definition evbuffer_strchr (b : evbuffer) (it : evbuffer_ptr) (chr : Z) : res (option evbuffer_ptr) :=
  scan (memchr chr) (from_ptr b it) (chain_no it) (pos_in_chain it) (pos it).
Definition evbuffer_find_eol_char (b : evbuffer) (it : evbuffer_ptr) : res (option evbuffer_ptr) :=
  scan find_eol_char (from_ptr b it) (chain_no it) (pos_in_chain it) (pos it).

(** The bytes at the start of [s] that are in [chrset]: how many, and whether
    these are all. *)
Fixpoint span (chrset s : bytes) : nat * bool :=
  match s with
  | [] => (0%nat, true)
  | x :: s' => if existsb (Z.eqb x) chrset then let '(n, e) := span chrset s' in (S n, e) else (0%nat, false)
  end.

(** evbuffer_strspn: the count; its caller does not use the pointer. *)
Fixpoint strspn_loop (chrset : bytes) (l : list chain) (i count : Z) : res Z :=
  match l with
  | [] => Ok count
  | c :: l' =>
      let? s := (if Z.ltb i (off c) then piece c i else Ok []) in
      let '(n, e) := span chrset s in
      if e then strspn_loop chrset l' 0 (count + Z.of_nat n) else Ok (count + Z.of_nat n)
  end.

Definition evbuffer_strspn (b : evbuffer) (it : evbuffer_ptr) (chrset : bytes) : res Z :=
  match from_ptr b it with [] => Ok (-1) | l => strspn_loop chrset l (pos_in_chain it) 0 end.

Definition evbuffer_getchr (b : evbuffer) (it : evbuffer_ptr) : res Z :=
  match from_ptr b it with
  | [] => Fault NullDeref
  | c :: _ =>
      if Z.ltb (misalign c + pos_in_chain it) 0 then Fault Overread
      else match buffer c !! Z.to_nat (misalign c + pos_in_chain it) with Some x => Ok x | None => Fault Overread end
  end.

(** ** Positions *)

Inductive ptr_how := EVBUFFER_PTR_SET | EVBUFFER_PTR_ADD.

(** The loop of evbuffer_ptr_set over the chains from number [k] on: chain and
    offset. *)
Fixpoint ptr_loop (l : list chain) (k : nat) (position left : Z) : option (nat * Z) :=
  match l with
  | [] => None
  | c :: l' => if Z.leb (off c) (position + left) then ptr_loop l' (S k) 0 (left - (off c - position)) else Some (k, position + left)
  end.

Definition ptr_move (it : evbuffer_ptr) (l : list chain) (k : nat) (p position left : Z) : res (Z * evbuffer_ptr) :=
  if Z.ltb (EV_SIZE_MAX - left) position then Fault AssertFailed
  else
    Ok (match ptr_loop l k position left with
        | Some (k, i) => (0, mkPtr p (Some k) i)
        | None => (-1, mkPtr (-1) None (pos_in_chain it))
        end).

Definition evbuffer_ptr_set (b : evbuffer) (it : evbuffer_ptr) (position : Z) (how : ptr_how) : res (Z * evbuffer_ptr) :=
  match how with
  | EVBUFFER_PTR_SET => ptr_move it (chains b) 0 position 0 position
  | EVBUFFER_PTR_ADD =>
      if Z.ltb (pos it) 0 || Z.ltb (EV_SIZE_MAX - position) (pos it) then Ok (-1, it)
      else ptr_move it (from_ptr b it) (chain_no it) (pos it + position) (pos_in_chain it) position
  end.

(** The loop of evbuffer_ptr_memcmp. *)
Fixpoint cmp_loop (l : list chain) (position : Z) (m : bytes) : res Z :=
  match m, l with
  | [], _ | _, [] => Ok 0
  | _, c :: l' =>
      let len := Z.of_nat (length m) in
      let n := if Z.ltb (off c) (len + position) then off c - position else len in
      let? s := piece c position in
      let r := memcmp (take (Z.to_nat n) s) (take (Z.to_nat n) m) in
      if negb (Z.eqb r 0) then Ok r else cmp_loop l' 0 (drop (Z.to_nat n) m)
  end.

Definition evbuffer_ptr_memcmp (b : evbuffer) (it : evbuffer_ptr) (m : bytes) : res Z :=
  let len := Z.of_nat (length m) in
  if Z.ltb (pos it) 0 || Z.ltb (EV_SIZE_MAX - len) (pos it) || Z.ltb (total_len b) (pos it + len) then Ok (-1)
  else cmp_loop (from_ptr b it) (pos_in_chain it) m.

Definition not_found (it : evbuffer_ptr) : evbuffer_ptr := mkPtr (-1) None (pos_in_chain it).

(** The next position in the chain, or the start of the next chain. *)
Definition next_ptr (b : evbuffer) (k : nat) (c : chain) (it : evbuffer_ptr) : evbuffer_ptr :=
  if Z.eqb (pos_in_chain it + 1) (off c) then mkPtr (pos it + 1) (match chains b !! S k with Some _ => Some (S k) | None => None end) 0
  else mkPtr (pos it + 1) (Some k) (pos_in_chain it + 1).

(** The loop of evbuffer_search_range. *)
Fixpoint search_loop (fuel : nat) (b : evbuffer) (first : Z) (what : bytes) (end_ : option evbuffer_ptr) (it : evbuffer_ptr) : res evbuffer_ptr :=
  match pchain it with
  | None => Ok (not_found it)
  | Some k =>
      match fuel, chains b !! k with
      | O, _ => Fault NoFuel
      | _, None => Fault NullDeref
      | S f, Some c =>
          let? s := piece c (pos_in_chain it) in
          match memchr first s with
          | Some n =>
              let it := mkPtr (pos it + Z.of_nat n) (Some k) (pos_in_chain it + Z.of_nat n) in
              let? r := evbuffer_ptr_memcmp b it what in
              if Z.eqb r 0 then
                Ok (match end_ with Some e => if Z.ltb (pos e) (pos it + Z.of_nat (length what)) then not_found it else it | None => it end)
              else search_loop f b first what end_ (next_ptr b k c it)
          | None =>
              if match end_ with Some e => bool_decide (pchain e = Some k) | None => false end then Ok (not_found it)
              else search_loop f b first what end_ (mkPtr (pos it + (off c - pos_in_chain it)) (match chains b !! S k with Some _ => Some (S k) | None => None end) 0)
          end
      end
  end.

(** The start of the buffer. *)
Definition ptr_start (b : evbuffer) : evbuffer_ptr := mkPtr 0 (match chains b with [] => None | _ => Some 0%nat end) 0.

Definition EV_SSIZE_MAX : Z := 9223372036854775807.

(** The fuel is enough: a round goes on by a byte or to the next chain. *)
Definition evbuffer_search_range (b : evbuffer) (what : bytes) (start end_ : option evbuffer_ptr) : res evbuffer_ptr :=
  let it := default (ptr_start b) start in
  match what with
  | [] => Ok it
  | first :: _ =>
      if Z.ltb EV_SSIZE_MAX (Z.of_nat (length what)) then Ok it
      else search_loop (S (Z.to_nat (total_len b) + length (chains b))) b first what end_ it
  end.

Definition evbuffer_search (b : evbuffer) (what : bytes) (start : option evbuffer_ptr) : res evbuffer_ptr :=
  evbuffer_search_range b what start None.

(** ** Lines *)

(** The loop for EVBUFFER_EOL_CRLF: the pointer and the bytes to drain. *)
Fixpoint crlf_loop (fuel : nat) (b : evbuffer) (it : evbuffer_ptr) : res (option (evbuffer_ptr * Z)) :=
  match fuel with
  | O => Fault NoFuel
  | S f =>
      let? r := evbuffer_find_eol_char b it in
      match r with
      | None => Ok None
      | Some it =>
          let? c := evbuffer_getchr b it in
          if Z.eqb c LF then Ok (Some (it, 1))
          else
            let? r := evbuffer_ptr_memcmp b it [CR; LF] in
            if Z.eqb r 0 then Ok (Some (it, 2))
            else
              let? r := evbuffer_ptr_set b it 1 EVBUFFER_PTR_ADD in
              let '(r, it) := r in
              if Z.ltb r 0 then Ok None else crlf_loop f b it
      end
  end.

(** The pointer and *eol_len_out; [None] when pos is -1. *)
Definition evbuffer_search_eol (b : evbuffer) (start : option evbuffer_ptr) (style : eol_style) : res (option (evbuffer_ptr * Z)) :=
  let it := default (ptr_start b) start in
  match style with
  | EVBUFFER_EOL_ANY =>
      let? r := evbuffer_find_eol_char b it in
      match r with
      | None => Ok None
      | Some it => let? n := evbuffer_strspn b it [CR; LF] in Ok (Some (it, n))
      end
  | EVBUFFER_EOL_CRLF_STRICT =>
      let? it := evbuffer_search b [CR; LF] (Some it) in
      Ok (if Z.ltb (pos it) 0 then None else Some (it, 2))
  | EVBUFFER_EOL_CRLF => crlf_loop (S (Z.to_nat (total_len b))) b it
  | EVBUFFER_EOL_LF =>
      let? r := evbuffer_strchr b it LF in
      Ok (match r with None => None | Some it => Some (it, 1) end)
  end.

(** The line with its NUL; *n_read_out is the length without it. *)
Definition evbuffer_readln (style : eol_style) : T (option bytes) :=
  let! b := get in
  if freeze_start b then ret None
  else
    let! r := lift (evbuffer_search_eol b None style) in
    match r with
    | None => ret None
    | Some (it, extra_drain) =>
        let! ok := malloc in
        if negb ok then ret None
        else
          let! (_, line) := evbuffer_remove (pos it) in
          let! _ := evbuffer_drain extra_drain in
          ret (Some (line ++ [0]))
    end.

Definition evbuffer_readline : T (option bytes) := evbuffer_readln EVBUFFER_EOL_ANY.

(** evbuffer_find: the bytes from the match on that are in one piece. *)
Definition evbuffer_find (what : bytes) : T (option bytes) :=
  let! b := get in
  let! it := lift (evbuffer_search b what None) in
  if Z.ltb (pos it) 0 then ret None
  else
    let! d := evbuffer_pullup (pos it + Z.of_nat (length what)) in
    ret (drop (Z.to_nat (pos it)) <$> d).
End BufferSearch.
