(* ===== verification/BufferLines.v ===== *)
(** * Event buffers: search finds the first occurrence, lines are what they are
      in the text (src/libevent/buffer.c)

    The reference definitions work on the byte string of a buffer: [index_of]
    for single bytes, [first_at] for what is recognised at a place. *)

From stdpp Require Import prelude.
From S2P Require Import Prelude CLib Buffer BufferFacts BufferOps BufferSearch.
Open Scope Z_scope.

Module BufferLines.
Import Buffer BufferFacts BufferSearch.

(** ** Reference definitions *)

Fixpoint index_of (P : Z -> bool) (d : bytes) : option nat :=
  match d with [] => None | x :: d' => if P x then Some 0%nat else S <$> index_of P d' end.

(** The first place where [f] recognises something, and how long that is. *)
Fixpoint first_at (f : bytes -> option nat) (d : bytes) : option (nat * nat) :=
  match f d with
  | Some e => Some (0%nat, e)
  | None => match d with [] => None | _ :: d' => prod_map S id <$> first_at f d' end
  end.

Definition is_eol (x : Z) : bool := Z.eqb x CR || Z.eqb x LF.

(** How many bytes at the start satisfy [P]. *)
Fixpoint run_length (P : Z -> bool) (d : bytes) : nat :=
  match d with [] => 0%nat | x :: d' => if P x then S (run_length P d') else 0%nat end.

(** What ends a line, and its length. *)
Definition terminator (style : eol_style) (d : bytes) : option nat :=
  match style, d with
  | EVBUFFER_EOL_ANY, x :: _ => if is_eol x then Some (run_length is_eol d) else None
  | EVBUFFER_EOL_CRLF, x :: d' => if Z.eqb x LF then Some 1%nat else if Z.eqb x CR && bool_decide (head d' = Some LF) then Some 2%nat else None
  | EVBUFFER_EOL_CRLF_STRICT, x :: d' => if Z.eqb x CR && bool_decide (head d' = Some LF) then Some 2%nat else None
  | EVBUFFER_EOL_LF, x :: _ => if Z.eqb x LF then Some 1%nat else None
  | _, [] => None
  end.

Definition line_end (style : eol_style) (d : bytes) : option (nat * nat) := first_at (terminator style) d.
(** ** First places *)

Lemma index_app P a b : index_of P (a ++ b) = match index_of P a with Some n => Some n | None => Nat.add (length a) <$> index_of P b end.
Proof.
  induction a as [|x a IH]; cbn [app index_of length]; [by destruct (index_of P b)|]. destruct (P x); [done|]. rewrite IH. by destruct (index_of P a), (index_of P b).
Qed.

Lemma index_lt P d n : index_of P d = Some n -> (n < length d)%nat.
Proof.
  revert n. induction d as [|x d IH]; intros n; cbn [index_of length]; [done|]. destruct (P x); [intros [= <-]; lia|]. destruct (index_of P d) as [m|]; [|done]. intros [= <-]. specialize (IH m eq_refl). lia.
Qed.

Lemma memchr_index c d : memchr c d = index_of (fun x => Z.eqb x c) d.
Proof. induction d as [|x d IH]; cbn [memchr index_of]; [done|]. by rewrite IH. Qed.

(** The first of two kinds of bytes. *)
Lemma index_or P Q d : index_of (fun x => P x || Q x) d =
  match index_of P d, index_of Q d with
  | Some p, Some q => Some (if Nat.ltb q p then q else p) | Some p, None => Some p | None, Some q => Some q | None, None => None
  end.
Proof.
  induction d as [|x d IH]; cbn [index_of]; [done|]. destruct (P x), (Q x); cbn [orb]; try done.
  - by destruct (index_of Q d).
  - by destruct (index_of P d).
  - rewrite IH. destruct (index_of P d) as [p|], (index_of Q d) as [q|]; try done. cbn [fmap option_fmap option_map]. change (Nat.ltb (S q) (S p)) with (Nat.ltb q p). by destruct (Nat.ltb q p).
Qed.

Lemma eol_memchr d : index_of is_eol d =
  match memchr CR d, memchr LF d with
  | Some p, Some q => Some (if Nat.ltb q p then q else p) | Some p, None => Some p | None, Some q => Some q | None, None => None
  end.
Proof. rewrite !memchr_index. apply (index_or (fun x => Z.eqb x CR) (fun x => Z.eqb x LF)). Qed.

(** find_eol_char, in pieces of 128 bytes, finds the first CR or LF. *)
Lemma find_eol_index d : find_eol_char d = index_of is_eol d.
Proof.
  assert (H : forall f d n, (length d <= f * CHUNK_SZ)%nat -> eol_chunks f d n = Nat.add n <$> index_of is_eol d).
  { induction f as [|f IH]; intros s n Hf.
    - assert (E : s = []) by (apply nil_length_inv; lia). by subst s.
    - destruct s as [|x s]; [done|]. cbn [eol_chunks]. pose proof (index_app is_eol (take CHUNK_SZ (x :: s)) (drop CHUNK_SZ (x :: s))) as Ha. rewrite take_drop in Ha. rewrite Ha.
      rewrite eol_memchr. destruct (memchr CR _) as [cr|] eqn:E1, (memchr LF _) as [lf|] eqn:E2; try done.
      rewrite IH by (rewrite length_drop; cbn [length] in *; unfold CHUNK_SZ in *; lia).
      destruct (index_of is_eol (drop CHUNK_SZ (x :: s))) as [m|] eqn:Em; [|done]. cbn [fmap option_fmap option_map]. f_equal. rewrite length_take.
      assert (Hm : (m < length (drop CHUNK_SZ (x :: s)))%nat) by by eapply index_lt. rewrite length_drop in Hm. unfold CHUNK_SZ in *. lia. }
  unfold find_eol_char. rewrite H by (unfold CHUNK_SZ; lia). by destruct (index_of is_eol d).
Qed.

Lemma first_hit f d e : f d = Some e -> first_at f d = Some (0%nat, e).
Proof. intros H. destruct d; cbn [first_at]; by rewrite H. Qed.

Lemma first_skip f m : forall d, (m <= length d)%nat -> (forall j, (j < m)%nat -> f (drop j d) = None) -> first_at f d = prod_map (Nat.add m) id <$> first_at f (drop m d).
Proof.
  induction m as [|m IH]; intros d Hm Hf; [rewrite drop_0; by destruct (first_at f d) as [[k e]|]|]. destruct d as [|x d]; [cbn in Hm; lia|].
  pose proof (Hf 0%nat ltac:(lia)) as H0. rewrite drop_0 in H0. cbn [first_at]. rewrite H0. cbn [drop]. change (drop (S m) (x :: d)) with (drop m d).
  rewrite (IH d); [by destruct (first_at f (drop m d)) as [[k e]|]|cbn in Hm; lia|]. intros j Hj. apply (Hf (S j)). lia.
Qed.

Lemma first_none f d : (forall j, (j <= length d)%nat -> f (drop j d) = None) -> first_at f d = None.
Proof.
  induction d as [|x d IH]; intros H; cbn [first_at]; pose proof (H 0%nat ltac:(lia)) as H0; rewrite drop_0 in H0; rewrite H0; [done|].
  rewrite IH; [done|]. intros j Hj. apply (H (S j)). cbn. lia.
Qed.

(** What begins with a byte of [P] begins at the first such byte or later. *)
Lemma first_index f P d : f [] = None -> (forall x d, P x = false -> f (x :: d) = None) ->
  first_at f d = match index_of P d with None => None | Some n => prod_map (Nat.add n) id <$> first_at f (drop n d) end.
Proof.
  intros H0 Hf. induction d as [|x d IH]; cbn [first_at index_of]; [by rewrite H0|]. destruct (P x) eqn:Ex.
  - rewrite drop_0. cbn [first_at]. destruct (f (x :: d)); [done|]. by destruct (first_at f d) as [[k e]|].
  - rewrite (Hf x d Ex), IH. destruct (index_of P d) as [n|]; [|done]. cbn [fmap option_fmap option_map]. change (drop (S n) (x :: d)) with (drop n d). by destruct (first_at f (drop n d)) as [[k e]|].
Qed.

(** ** Pointers *)

Lemma piece_run c i : chain_ok c -> 0 <= i <= off c -> piece c i = Ok (drop (Z.to_nat i) (cdata c)).
Proof.
  intros [H1 H2 H3 _ _] Hi. unfold piece, buffer_len in *. rewrite !(proj2 (Z.ltb_ge _ _)) by lia. cbn [orb]. rewrite mread_ok by lia. unfold cdata.
  rewrite skipn_firstn_comm, drop_drop. do 2 f_equal; [lia|]. f_equal. lia.
Qed.

(** [it] is at byte [n] of the buffer; NULL is the end. *)
Definition at_ptr (b : evbuffer) (it : evbuffer_ptr) (n : Z) : Prop :=
  pos it = n /\
  match pchain it with
  | None => n = total_len b
  | Some k => exists l1 c l2, chains b = l1 ++ c :: l2 /\ k = length l1 /\ 0 <= pos_in_chain it <= off c /\ n = Z.of_nat (length (data_of l1)) + pos_in_chain it
  end.

(** There is a byte at the pointer. *)
Definition at_byte (b : evbuffer) (it : evbuffer_ptr) (n : Z) : Prop :=
  at_ptr b it n /\ exists c l, from_ptr b it = c :: l /\ pos_in_chain it < off c.

Lemma drop_chains c l i : chain_ok c -> 0 <= i <= off c -> drop (Z.to_nat i) (data_of (c :: l)) = drop (Z.to_nat i) (cdata c) ++ data_of l.
Proof. intros H Hi. rewrite data_of_cons, drop_app_le; [done|]. rewrite length_cdata by done. lia. Qed.

Lemma scan_run find P l : (forall s, find s = index_of P s) -> forall k i p, Forall chain_ok l -> (forall c, head l = Some c -> 0 <= i <= off c) ->
  match index_of P (drop (Z.to_nat i) (data_of l)) with
  | None => scan find l k i p = Ok None
  | Some n => exists it l1 c l2, scan find l k i p = Ok (Some it) /\ pos it = p + Z.of_nat n /\ l = l1 ++ c :: l2 /\ pchain it = Some (k + length l1)%nat /\
      0 <= pos_in_chain it < off c /\ i + Z.of_nat n = Z.of_nat (length (data_of l1)) + pos_in_chain it
  end.
Proof.
  intros Hfind. induction l as [|c l IH]; intros k i p Hf Hi; cbn [scan]; [change (data_of []) with (@nil Z); by rewrite drop_nil|].
  apply Forall_cons in Hf as [Hc Hf]. specialize (Hi c eq_refl). pose proof (length_cdata c Hc) as Hl. rewrite piece_run, drop_chains by done. cbn [res_bind]. rewrite Hfind, index_app.
  destruct (index_of P (drop (Z.to_nat i) (cdata c))) as [n|] eqn:En.
  - apply index_lt in En. rewrite length_drop in En. eexists _, [], c, l. split; [reflexivity|]. cbn [pos pchain pos_in_chain length app]. change (data_of []) with (@nil Z). cbn [length].
    rewrite Nat.add_0_r. split_and!; try done; lia.
  - specialize (IH (S k) 0 (p + (off c - i)) Hf ltac:(intros x Hx; destruct l; [done|]; injection Hx as <-; apply Forall_cons in Hf as [Hx _]; pose proof (co_off _ Hx); lia)).
    change (Z.to_nat 0) with 0%nat in IH. rewrite drop_0 in IH. rewrite length_drop. destruct (index_of P (data_of l)) as [n|]; [|done]. cbn [fmap option_fmap option_map].
    destruct IH as (it & l1 & c2 & l2 & E & Ep & -> & Ek & Hp & En2). exists it, (c :: l1), c2, l2. rewrite data_of_cons, length_app. cbn [length]. split_and!; try done; [lia|rewrite Ek; f_equal; lia|lia|lia|lia].
Qed.
(** The chains at a pointer hold the rest of the text. *)
Lemma from_at b it n : buf_ok b -> at_ptr b it n ->
  0 <= n <= total_len b /\ Forall chain_ok (from_ptr b it) /\ (forall c, head (from_ptr b it) = Some c -> 0 <= pos_in_chain it <= off c) /\
  drop (Z.to_nat n) (contents b) = drop (Z.to_nat (pos_in_chain it)) (data_of (from_ptr b it)).
Proof.
  intros [H1 H2 H3 H4 H5] [_ Hp]. unfold from_ptr. destruct (pchain it) as [k|].
  - destruct Hp as (l1 & c & l2 & El & -> & Hi & ->). assert (Hd : drop (length l1) (chains b) = c :: l2) by (by rewrite El, drop_app_length). rewrite Hd.
    rewrite El in H1. apply Forall_app in H1 as [Hl1 Hl2]. assert (Hcon : contents b = data_of l1 ++ data_of (c :: l2)) by (unfold contents; by rewrite El, data_of_app).
    assert (Hc : chain_ok c) by by inversion Hl2. split_and!; [lia| |done|by intros x [= <-]|].
    + rewrite H2, Hcon, length_app, data_of_cons, length_app, (length_cdata c Hc). lia.
    + rewrite Hcon, Z2Nat.inj_add, Nat2Z.id, <-drop_drop, drop_app_length by lia. done.
  - rewrite Hp, H2, Nat2Z.id, drop_all. change (data_of []) with (@nil Z). rewrite drop_nil. split_and!; try done; lia.
Qed.

Lemma start_at b : buf_ok b -> at_ptr b (ptr_start b) 0.
Proof.
  intros H. split; [done|]. unfold ptr_start. cbn [pchain pos_in_chain]. destruct (chains b) as [|c l] eqn:El.
  - pose proof (bo_total _ H) as Ht. unfold contents in Ht. rewrite El in Ht. by rewrite Ht.
  - exists [], c, l. split_and!; try done. pose proof (bo_chains _ H) as Hf. rewrite El in Hf. apply Forall_cons in Hf as [Hc _]. apply (co_off _ Hc).
Qed.

Lemma scan_at find P b it n : (forall s, find s = index_of P s) -> buf_ok b -> at_ptr b it n ->
  match index_of P (drop (Z.to_nat n) (contents b)) with
  | None => scan find (from_ptr b it) (chain_no it) (pos_in_chain it) (pos it) = Ok None
  | Some j => exists it', scan find (from_ptr b it) (chain_no it) (pos_in_chain it) (pos it) = Ok (Some it') /\ at_byte b it' (n + Z.of_nat j)
  end.
Proof.
  intros Hf H Hat. destruct (from_at b it n H Hat) as (Hn & Hl & Hh & ->). pose proof (scan_run find P (from_ptr b it) Hf (chain_no it) (pos_in_chain it) (pos it) Hl Hh) as Hs.
  destruct (index_of P _) as [j|]; [|done]. destruct Hs as (it' & l1 & c & l2 & E & Ep & El & Ek & Hi & Ej). exists it'. split; [done|].
  destruct Hat as [<- Hp]. unfold from_ptr, chain_no in *. destruct (pchain it) as [k|]; [|by destruct l1]. destruct Hp as (l0 & c0 & l3 & Ec & -> & _ & Hpos). cbn [default from_option id] in Ek.
  rewrite Ec, drop_app_length in El. assert (Ec2 : chains b = (l0 ++ l1) ++ c :: l2) by (by rewrite Ec, El, app_assoc).
  assert (Hk : pchain it' = Some (length (l0 ++ l1))) by (by rewrite Ek, length_app). split.
  - split; [done|]. rewrite Hk. exists (l0 ++ l1), c, l2. split_and!; [done|done|lia|lia|]. rewrite data_of_app, length_app. lia.
  - exists c, l2. unfold from_ptr. rewrite Hk, Ec2, drop_app_length. split; [done|lia].
Qed.

Lemma strchr_at b it n chr : buf_ok b -> at_ptr b it n ->
  match index_of (fun x => Z.eqb x chr) (drop (Z.to_nat n) (contents b)) with
  | None => evbuffer_strchr b it chr = Ok None
  | Some j => exists it', evbuffer_strchr b it chr = Ok (Some it') /\ at_byte b it' (n + Z.of_nat j)
  end.
Proof. apply scan_at. apply memchr_index. Qed.

Lemma find_eol_at b it n : buf_ok b -> at_ptr b it n ->
  match index_of is_eol (drop (Z.to_nat n) (contents b)) with
  | None => evbuffer_find_eol_char b it = Ok None
  | Some j => exists it', evbuffer_find_eol_char b it = Ok (Some it') /\ at_byte b it' (n + Z.of_nat j)
  end.
Proof. apply scan_at. apply find_eol_index. Qed.

(** The byte at the pointer. *)
Lemma getchr_at b it n : buf_ok b -> at_byte b it n -> exists x, evbuffer_getchr b it = Ok x /\ contents b !! Z.to_nat n = Some x.
Proof.
  intros H [Hat (c & l & Ef & Hlt)]. destruct (from_at b it n H Hat) as (Hn & Hl & Hh & Hd). unfold evbuffer_getchr. rewrite Ef in *. specialize (Hh c eq_refl).
  apply Forall_cons in Hl as [Hc _]. pose proof Hc as [K1 K2 K3 _ _]. rewrite (proj2 (Z.ltb_ge _ _)) by lia.
  assert (E : contents b !! Z.to_nat n = drop (Z.to_nat n) (contents b) !! 0%nat) by (by rewrite lookup_drop, Nat.add_0_r). rewrite E, Hd, lookup_drop, Nat.add_0_r, data_of_cons.
  rewrite lookup_app_l by (rewrite length_cdata by done; lia). unfold cdata. rewrite lookup_take_lt, lookup_drop by lia.
  replace (Z.to_nat (misalign c) + Z.to_nat (pos_in_chain it))%nat with (Z.to_nat (misalign c + pos_in_chain it)) by lia. unfold buffer_len in K3.
  destruct (lookup_lt_is_Some_2 (buffer c) (Z.to_nat (misalign c + pos_in_chain it)) ltac:(lia)) as [x ->]. eauto.
Qed.

(** ** Comparing *)

Lemma cmp_run l : forall i m, Forall chain_ok l -> (forall c, head l = Some c -> 0 <= i <= off c) -> (length m <= length (drop (Z.to_nat i) (data_of l)))%nat ->
  exists r, cmp_loop l i m = Ok r /\ (r = 0 <-> take (length m) (drop (Z.to_nat i) (data_of l)) = m).
Proof.
  induction l as [|c l IH]; intros i m Hf Hi Hm.
  { change (data_of []) with (@nil Z) in *. rewrite drop_nil in *. assert (E : m = []) by (apply nil_length_inv; cbn in Hm; lia). subst m. by exists 0. }
  apply Forall_cons in Hf as [Hc Hf]. specialize (Hi c eq_refl). pose proof (length_cdata c Hc) as Hl. rewrite drop_chains in * by done. rewrite length_app, length_drop in Hm.
  destruct m as [|x m']; [by exists 0|]. set (m := x :: m') in *. cbn [cmp_loop]. fold m. change (cmp_loop (c :: l) i m) with (cmp_loop (c :: l) i m). rewrite piece_run by done.
  set (s := drop (Z.to_nat i) (cdata c)). assert (Hs : Z.of_nat (length s) = off c - i) by (unfold s; rewrite length_drop; lia).
  cbn [res_bind]. destruct (Z.ltb_spec (off c) (Z.of_nat (length m) + i)) as [Hlt|Hge].
  - rewrite <-Hs, Nat2Z.id, firstn_all. rewrite (take_app_ge s) by lia. pose proof (memcmp_zero s (take (length s) m) ltac:(rewrite length_take; lia)) as Hz.
    destruct (Z.eqb_spec (memcmp s (take (length s) m)) 0) as [E|E]; cbn [negb].
    + destruct (IH 0 (drop (length s) m) Hf) as (r & E2 & G).
      * intros z Hz2. destruct l; [done|]. injection Hz2 as <-. apply Forall_cons in Hf as [Hz2 _]. pose proof (co_off _ Hz2). lia.
      * change (Z.to_nat 0) with 0%nat. rewrite drop_0, length_drop. lia.
      * exists r. split; [done|]. rewrite G. change (Z.to_nat 0) with 0%nat. rewrite drop_0, length_drop. apply Hz in E. rewrite <-(take_drop (length s) m) at 4. rewrite <-E.
        split; [by intros ->|]. intros Ea. by apply app_inv_head in Ea.
    + eexists. split; [reflexivity|]. split; [done|]. intros Ea. exfalso. apply E, Hz. rewrite <-Ea. by rewrite take_app_length.
  - rewrite Nat2Z.id, firstn_all. rewrite take_app_le by lia. pose proof (memcmp_zero (take (length m) s) m ltac:(rewrite length_take; lia)) as Hz.
    destruct (Z.eqb_spec (memcmp (take (length m) s) m) 0) as [E|E]; cbn [negb]; [|eexists; split; [reflexivity|]; by rewrite <-Hz].
    rewrite drop_all. assert (En : cmp_loop l 0 [] = Ok 0) by (by destruct l). rewrite En. exists 0. split; [done|]. by rewrite <-Hz, E.
Qed.

(** Is [m] at this place? *)
Definition here (m d : bytes) : bool := bool_decide (take (length m) d = m).

Lemma memcmp_at b it n m : buf_ok b -> at_ptr b it n -> Z.of_nat (length m) <= EV_SSIZE_MAX ->
  exists r, evbuffer_ptr_memcmp b it m = Ok r /\ (r = 0 <-> here m (drop (Z.to_nat n) (contents b)) = true).
Proof.
  intros H Hat Hm. destruct (from_at b it n H Hat) as (Hn & Hl & Hh & Hd). pose proof (bo_total _ H) as Ht. pose proof (bo_size _ H) as Hs. pose proof (proj1 Hat) as Hp. unfold evbuffer_ptr_memcmp, here. rewrite Hp.
  assert (G : forall y, (exists r, y = Ok r /\ (r = 0 <-> take (length m) (drop (Z.to_nat n) (contents b)) = m)) -> exists r, y = Ok r /\ (r = 0 <-> bool_decide (take (length m) (drop (Z.to_nat n) (contents b)) = m) = true)).
  { intros y (r & E & Hr). exists r. by rewrite bool_decide_eq_true. }
  apply G. clear G.
  rewrite (proj2 (Z.ltb_ge n 0)) by lia. cbn [orb]. destruct (Z.ltb_spec (total_len b) (n + Z.of_nat (length m))) as [Ho|Ho].
  - rewrite orb_true_r. exists (-1). split; [done|]. split; [done|]. intros E. apply (f_equal length) in E. rewrite length_take, length_drop in E. lia.
  - rewrite (proj2 (Z.ltb_ge (EV_SIZE_MAX - _) n)) by lia. cbn [orb]. rewrite Hd. apply cmp_run; [done|done|]. rewrite <-Hd, length_drop. lia.
Qed.
(** ** Runs of bytes, moving on *)

Lemma run_app P a b : run_length P (a ++ b) = if Nat.eqb (run_length P a) (length a) then (length a + run_length P b)%nat else run_length P a.
Proof. induction a as [|x a IH]; cbn [app run_length length]; [done|]. destruct (P x); [|done]. rewrite IH. cbn [Nat.eqb]. by destruct (Nat.eqb (run_length P a) (length a)). Qed.

Lemma run_ext P Q d : (forall x, P x = Q x) -> run_length P d = run_length Q d.
Proof. intros H. induction d as [|x d IH]; cbn [run_length]; [done|]. by rewrite H, IH. Qed.

Lemma span_run chrset s : span chrset s = (run_length (fun x => existsb (Z.eqb x) chrset) s, Nat.eqb (run_length (fun x => existsb (Z.eqb x) chrset) s) (length s)).
Proof. induction s as [|x s IH]; cbn [span run_length length]; [done|]. rewrite IH. by destruct (existsb (Z.eqb x) chrset). Qed.

Lemma strspn_run chrset l : forall i count, Forall chain_ok l -> (forall c, head l = Some c -> 0 <= i <= off c) ->
  strspn_loop chrset l i count = Ok (count + Z.of_nat (run_length (fun x => existsb (Z.eqb x) chrset) (drop (Z.to_nat i) (data_of l)))).
Proof.
  induction l as [|c l IH]; intros i count Hf Hi; cbn [strspn_loop]; [change (data_of []) with (@nil Z); rewrite drop_nil; cbn; f_equal; lia|].
  apply Forall_cons in Hf as [Hc Hf]. specialize (Hi c eq_refl). pose proof (length_cdata c Hc) as Hl. rewrite drop_chains by done. set (s := drop (Z.to_nat i) (cdata c)).
  assert (Es : (if Z.ltb i (off c) then piece c i else Ok []) = Ok s).
  { destruct (Z.ltb_spec i (off c)); [by apply piece_run|]. unfold s. by rewrite drop_ge by lia. }
  rewrite Es. cbn [res_bind]. rewrite span_run, run_app. set (k := run_length _ s). destruct (Nat.eqb_spec k (length s)) as [E|E]; [|done].
  rewrite IH by (done || (intros x Hx; destruct l; [done|]; injection Hx as <-; apply Forall_cons in Hf as [Hx _]; pose proof (co_off _ Hx); lia)).
  change (Z.to_nat 0) with 0%nat. rewrite drop_0. f_equal. lia.
Qed.

Lemma strspn_at b it n : buf_ok b -> at_byte b it n -> evbuffer_strspn b it [CR; LF] = Ok (Z.of_nat (run_length is_eol (drop (Z.to_nat n) (contents b)))).
Proof.
  intros H [Hat (c & l & Ef & _)]. destruct (from_at b it n H Hat) as (_ & Hl & Hh & ->). unfold evbuffer_strspn. rewrite Ef in *. rewrite strspn_run, Z.add_0_l by done. do 2 f_equal. apply run_ext.
  intros x. unfold is_eol. cbn. by rewrite orb_false_r.
Qed.

Lemma ptr_loop_run l : forall k i left_, Forall chain_ok l -> (forall c, head l = Some c -> 0 <= i <= off c) -> 0 <= left_ ->
  match ptr_loop l k i left_ with
  | None => l = [] \/ Z.of_nat (length (data_of l)) <= i + left_
  | Some (k', j) => exists l1 c l2, l = l1 ++ c :: l2 /\ k' = (k + length l1)%nat /\ 0 <= j < off c /\ i + left_ = Z.of_nat (length (data_of l1)) + j
  end.
Proof.
  induction l as [|c l IH]; intros k i left_ Hf Hi Hle; cbn [ptr_loop]; [by left|]. apply Forall_cons in Hf as [Hc Hf]. specialize (Hi c eq_refl). pose proof (length_cdata c Hc) as Hl.
  destruct (Z.leb_spec (off c) (i + left_)) as [H|H].
  - assert (Hh : forall x, head l = Some x -> 0 <= 0 <= off x) by (intros x Hx; destruct l; [done|]; injection Hx as <-; apply Forall_cons in Hf as [Hx _]; pose proof (co_off _ Hx); lia).
    specialize (IH (S k) 0 (left_ - (off c - i)) Hf Hh ltac:(lia)). destruct (ptr_loop l (S k) 0 (left_ - (off c - i))) as [[k' j]|].
    + destruct IH as (l1 & c2 & l2 & -> & -> & Hj & E). exists (c :: l1), c2, l2. rewrite data_of_cons, length_app. cbn [length]. split_and!; [done|lia|lia|lia|lia].
    + right. rewrite data_of_cons, length_app. destruct IH as [->|IH]; [change (data_of []) with (@nil Z); cbn [length]; lia|lia].
  - exists [], c, l. change (data_of []) with (@nil Z). cbn [length app]. split_and!; [done|lia|lia|lia|lia].
Qed.

(** One byte on. *)
Lemma next_at b it n : buf_ok b -> total_len b < EV_SIZE_MAX -> at_byte b it n ->
  exists r it', evbuffer_ptr_set b it 1 EVBUFFER_PTR_ADD = Ok (r, it') /\ ((r = 0 /\ at_ptr b it' (n + 1)) \/ (r = -1 /\ total_len b <= n + 1)).
Proof.
  intros H Ht [Hat (c0 & l0 & Ef & Hlt)]. destruct (from_at b it n H Hat) as (Hn & Hl & Hh & Hd). pose proof Hat as [Hp Hk]. unfold evbuffer_ptr_set. rewrite Hp.
  rewrite (proj2 (Z.ltb_ge n 0)), (proj2 (Z.ltb_ge (EV_SIZE_MAX - 1) n)) by lia. cbn [orb]. unfold ptr_move.
  pose proof (Hh c0 ltac:(by rewrite Ef)) as Hi. pose proof (bo_total _ H) as Hto.
  assert (Hpic : pos_in_chain it <= n) by (unfold from_ptr in Ef; destruct (pchain it); [|done]; destruct Hk as (l1 & c & l2 & _ & _ & _ & ->); lia).
  rewrite (proj2 (Z.ltb_ge (EV_SIZE_MAX - 1) (pos_in_chain it))) by lia.
  pose proof (ptr_loop_run (from_ptr b it) (chain_no it) (pos_in_chain it) 1 Hl Hh ltac:(lia)) as Hloop. destruct (ptr_loop _ _ _ _) as [[k j]|].
  - destruct Hloop as (l1 & c & l2 & El & -> & Hj & Ej). eexists _, _. split; [reflexivity|]. left. split; [done|]. split; [done|]. cbn [pchain pos_in_chain].
    unfold from_ptr, chain_no in *. destruct (pchain it) as [k|]; [|done]. destruct Hk as (l3 & c3 & l4 & Ec & -> & _ & Hn3). cbn [default from_option id].
    rewrite Ec, drop_app_length in El. exists (l3 ++ l1), c, l2. rewrite data_of_app, !length_app, Ec, El, app_assoc. split_and!; [done|done|lia|lia|lia].
  - eexists _, _. split; [reflexivity|]. right. split; [done|]. destruct Hloop as [E|E]; [by rewrite Ef in E|].
    apply (f_equal length) in Hd. rewrite !length_drop in Hd. lia.
Qed.
(** ** Searching *)

Definition found (what d : bytes) : option nat := if here what d then Some (length what) else None.

Lemma index_before P d n : index_of P d = Some n -> exists x, d !! n = Some x /\ P x = true /\ forall j, (j < n)%nat -> exists y, d !! j = Some y /\ P y = false.
Proof.
  revert n. induction d as [|x d IH]; intros n; cbn [index_of]; [done|]. destruct (P x) eqn:E.
  - intros [= <-]. exists x. split_and!; [done|done|lia].
  - destruct (index_of P d) as [m|]; [|done]. intros [= <-]. destruct (IH m eq_refl) as (y & Hy & Py & Hb). exists y. split_and!; [done|done|].
    intros [|j] Hj; [by exists x|]. apply Hb. lia.
Qed.

Lemma index_none P d : index_of P d = None -> forall j, (j < length d)%nat -> exists y, d !! j = Some y /\ P y = false.
Proof.
  induction d as [|x d IH]; cbn [index_of length]; [lia|]. destruct (P x) eqn:E; [done|]. destruct (index_of P d); [done|]. intros _ [|j] Hj; [by exists x|]. apply IH; [done|lia].
Qed.

(** Bytes with which nothing begins are passed over. *)
Lemma skip_bytes f P d m : (forall x d, P x = false -> f (x :: d) = None) -> (m <= length d)%nat -> (forall j, (j < m)%nat -> exists y, d !! j = Some y /\ P y = false) ->
  first_at f d = prod_map (Nat.add m) id <$> first_at f (drop m d).
Proof. intros Hf Hm Hb. apply first_skip; [done|]. intros j Hj. destruct (Hb j Hj) as (y & Hy & Py). rewrite (drop_S d y j Hy). by apply Hf. Qed.

Lemma found_head x w y d : Z.eqb y x = false -> found (x :: w) (y :: d) = None.
Proof. intros E. unfold found, here. cbn [length]. rewrite bool_decide_false; [done|]. cbn. intros [= -> _]. by rewrite Z.eqb_refl in E. Qed.

Lemma found_nil x w : found (x :: w) [] = None.
Proof. done. Qed.

Lemma at_after b l1 c l2 i : chains b = l1 ++ c :: l2 -> chain_ok c -> 0 <= i <= off c ->
  at_ptr b (mkPtr (Z.of_nat (length (data_of l1)) + i) (Some (length l1)) i) (Z.of_nat (length (data_of l1)) + i) /\
  (buf_ok b -> at_ptr b (mkPtr (Z.of_nat (length (data_of l1)) + off c) (match chains b !! S (length l1) with Some _ => Some (S (length l1)) | None => None end) 0)
    (Z.of_nat (length (data_of l1)) + off c)).
Proof.
  intros El Hc Hi. split; [split; [done|]; cbn [pchain pos_in_chain]; by exists l1, c, l2|]. intros H. split; [done|]. cbn [pchain pos_in_chain]. pose proof (length_cdata c Hc) as Hl. pose proof (co_off _ Hc) as Ho.
  replace (chains b !! S (length l1)) with (l2 !! 0%nat) by (rewrite El, lookup_app_r by lia; by replace (S (length l1) - length l1)%nat with 1%nat by lia).
  destruct l2 as [|c2 l2]; cbn [lookup list_lookup].
  - rewrite (bo_total _ H). unfold contents. rewrite El, data_of_app, data_of_one, length_app. lia.
  - exists (l1 ++ [c]), c2, l2. rewrite El, <-app_assoc, data_of_app, data_of_one, !length_app. cbn [length app]. split_and!; [done|lia|done| |lia].
    pose proof (bo_chains _ H) as Hf. rewrite El in Hf. apply Forall_app in Hf as [_ Hf]. apply Forall_cons in Hf as [_ Hf]. apply Forall_cons in Hf as [Hc2 _]. apply (co_off _ Hc2).
Qed.

(** What is left for the search: bytes and chains. *)
Definition left_over (b : evbuffer) (it : evbuffer_ptr) (n : Z) : Z := (total_len b - n) + Z.of_nat (match pchain it with Some k => length (chains b) - k | None => 0 end)%nat.

Lemma search_run b x w fuel : buf_ok b -> Z.of_nat (length (x :: w)) <= EV_SSIZE_MAX -> forall it n, at_ptr b it n -> left_over b it n < Z.of_nat fuel ->
  match first_at (found (x :: w)) (drop (Z.to_nat n) (contents b)) with
  | None => exists it', search_loop fuel b x (x :: w) None it = Ok it' /\ pos it' = -1
  | Some (j, _) => exists it', search_loop fuel b x (x :: w) None it = Ok it' /\ at_ptr b it' (n + Z.of_nat j)
  end.
Proof.
  intros H Hw. induction fuel as [|fuel IH]; intros it n Hat Hf.
  { destruct (from_at b it n H Hat) as (Hn & _). unfold left_over in Hf. lia. }
  destruct (from_at b it n H Hat) as (Hn & Hl & Hh & Hd). pose proof Hat as [Hp Hk]. cbn [search_loop]. unfold left_over in Hf. destruct (pchain it) as [k|] eqn:Ek.
  2: { rewrite Hk, (bo_total _ H), Nat2Z.id, drop_all. cbn [first_at]. rewrite found_nil. eexists. by split. }
  destruct Hk as (l1 & c & l2 & El & -> & Hi & Hn1). assert (Ec : chains b !! length l1 = Some c) by (by rewrite El, lookup_app_r, Nat.sub_diag). rewrite Ec.
  assert (Hlen : length (chains b) = (length l1 + S (length l2))%nat) by (by rewrite El, length_app).
  unfold from_ptr in Hl, Hh, Hd. rewrite Ek, El, drop_app_length in Hl, Hh, Hd. apply Forall_cons in Hl as [Hc _]. rewrite drop_chains in Hd by done. rewrite piece_run by done. cbn [res_bind].
  set (s := drop (Z.to_nat (pos_in_chain it)) (cdata c)) in *. assert (Hs : Z.of_nat (length s) = off c - pos_in_chain it) by (unfold s; rewrite length_drop, length_cdata by done; lia).
  rewrite memchr_index. pose proof (bo_total _ H) as Ht. set (rest := drop (Z.to_nat n) (contents b)) in *.
  assert (Hrest : Z.of_nat (length rest) = total_len b - n) by (unfold rest; rewrite length_drop; lia).
  assert (Hsr : Z.of_nat (length s) <= total_len b - n) by (rewrite <-Hrest, Hd, length_app; lia).
  assert (Hskip : forall m, (m <= length s)%nat -> (forall j, (j < m)%nat -> exists y, s !! j = Some y /\ Z.eqb y x = false) ->
    first_at (found (x :: w)) rest = prod_map (Nat.add m) id <$> first_at (found (x :: w)) (drop (Z.to_nat (n + Z.of_nat m)) (contents b))).
  { intros m Hm Hb. rewrite (skip_bytes (found (x :: w)) (fun y => Z.eqb y x) rest m); [|by intros; apply found_head|rewrite Hd, length_app; lia|].
    - do 2 f_equal. unfold rest. rewrite drop_drop. f_equal. lia.
    - intros j Hj. destruct (Hb j Hj) as (y & Hy & Py). exists y. split; [|done]. rewrite Hd, lookup_app_l by (by eapply lookup_lt_Some). done. }
  destruct (index_of (fun y => Z.eqb y x) s) as [j|] eqn:Ej.
  - pose proof (index_lt _ _ _ Ej) as Hjl. destruct (index_before _ _ _ Ej) as (y & Hy & Py & Hb). rewrite (Hskip j ltac:(lia) Hb).
    set (it1 := mkPtr (pos it + Z.of_nat j) (Some (length l1)) (pos_in_chain it + Z.of_nat j)).
    assert (Hat1 : at_ptr b it1 (n + Z.of_nat j)) by (split; [cbn; lia|]; cbn [pchain pos_in_chain it1]; exists l1, c, l2; split_and!; [done|done|lia|lia|lia]).
    destruct (memcmp_at b it1 (n + Z.of_nat j) (x :: w) H Hat1 Hw) as (r & Er & Hr). rewrite Er. cbn [res_bind]. destruct (Z.eqb_spec r 0) as [E0|E0].
    + apply Hr in E0. assert (Hhit : found (x :: w) (drop (Z.to_nat (n + Z.of_nat j)) (contents b)) = Some (length (x :: w))) by (unfold found; by rewrite E0).
      rewrite (first_hit _ _ _ Hhit). cbn [prod_map fmap option_fmap option_map]. rewrite Nat.add_0_r. by exists it1.
    + assert (Hno : found (x :: w) (drop (Z.to_nat (n + Z.of_nat j)) (contents b)) = None) by (unfold found; destruct (here _ _); [exfalso; by apply E0, Hr|done]).
      assert (Hnext : at_ptr b (next_ptr b (length l1) c it1) (n + Z.of_nat j + 1) /\ left_over b (next_ptr b (length l1) c it1) (n + Z.of_nat j + 1) < Z.of_nat fuel).
      { destruct (at_after b l1 c l2 (pos_in_chain it1 + 1) El Hc ltac:(cbn; lia)) as (A1 & A2). unfold next_ptr, left_over. cbn [pos pos_in_chain it1] in *. rewrite Hp.
        destruct (Z.eqb_spec (pos_in_chain it + Z.of_nat j + 1) (off c)) as [Eo|Eo].
        - specialize (A2 H). replace (Z.of_nat (length (data_of l1)) + off c) with (n + Z.of_nat j + 1) in A2 by lia. split; [exact A2|]. cbn [pchain]. case_match; lia.
        - replace (Z.of_nat (length (data_of l1)) + (pos_in_chain it + Z.of_nat j + 1)) with (n + Z.of_nat j + 1) in A1 by lia. split; [exact A1|]. cbn [pchain]. lia. }
      destruct Hnext as [Hat2 Hm2]. specialize (IH _ _ Hat2 Hm2). assert (Hlt : (Z.to_nat (n + Z.of_nat j) < length (contents b))%nat) by lia.
      rewrite (first_skip (found (x :: w)) 1); [|rewrite length_drop; lia|intros i Hi2; replace i with 0%nat by lia; by rewrite drop_0].
      rewrite drop_drop. replace (Z.to_nat (n + Z.of_nat j) + 1)%nat with (Z.to_nat (n + Z.of_nat j + 1)) by lia.
      destruct (first_at (found (x :: w)) (drop (Z.to_nat (n + Z.of_nat j + 1)) (contents b))) as [[i e]|]; [|exact IH]. cbn [prod_map fmap option_fmap option_map].
      destruct IH as (it' & E & A). exists it'. split; [done|]. cbn [fst snd]. match goal with |- at_ptr _ _ ?k => replace k with (n + Z.of_nat j + 1 + Z.of_nat i) by lia end. done.
  - rewrite (Hskip (length s) ltac:(lia) (index_none _ _ Ej)). destruct (at_after b l1 c l2 0 El Hc ltac:(lia)) as (_ & A2). specialize (A2 H).
    replace (Z.of_nat (length (data_of l1)) + off c) with (n + Z.of_nat (length s)) in A2 by lia. rewrite Hp, <-Hs.
    specialize (IH _ _ A2). unfold left_over in IH. cbn [pchain] in IH. specialize (IH ltac:(case_match; lia)).
    destruct (first_at (found (x :: w)) (drop (Z.to_nat (n + Z.of_nat (length s))) (contents b))) as [[i e]|]; [|exact IH]. cbn [prod_map fmap option_fmap option_map].
    destruct IH as (it' & E & A). exists it'. split; [done|]. cbn [fst snd]. match goal with |- at_ptr _ _ ?k => replace k with (n + Z.of_nat (length s) + Z.of_nat i) by lia end. done.
Qed.
(** evbuffer_search finds the first occurrence from a position on. *)
Lemma search_at b x w it n : buf_ok b -> Z.of_nat (length (x :: w)) <= EV_SSIZE_MAX -> at_ptr b it n ->
  match first_at (found (x :: w)) (drop (Z.to_nat n) (contents b)) with
  | None => exists it', evbuffer_search b (x :: w) (Some it) = Ok it' /\ pos it' = -1
  | Some (j, _) => exists it', evbuffer_search b (x :: w) (Some it) = Ok it' /\ at_ptr b it' (n + Z.of_nat j)
  end.
Proof.
  intros H Hw Hat. unfold evbuffer_search, evbuffer_search_range. cbv beta zeta iota. rewrite (proj2 (Z.ltb_ge _ _)) by done. apply search_run; [done|done|done|].
  destruct (from_at b it n H Hat) as (Hn & _). unfold left_over. case_match; lia.
Qed.

(** ** Lines *)

Lemma first_ext f g d : (forall d, f d = g d) -> first_at f d = first_at g d.
Proof. intros H. induction d as [|x d IH]; cbn [first_at]; rewrite H; [done|by rewrite IH]. Qed.

Lemma crlf_here x d : here [CR; LF] (x :: d) = Z.eqb x CR && bool_decide (head d = Some LF).
Proof.
  unfold here. apply eq_true_iff_eq. rewrite andb_true_iff, !bool_decide_eq_true, Z.eqb_eq. cbn. destruct d as [|y d]; cbn; [split; [done|by intros [_ ?]]|].
  split; [by intros [= -> ->]|by intros [-> [= ->]]].
Qed.

Lemma strict_found d : terminator EVBUFFER_EOL_CRLF_STRICT d = found [CR; LF] d.
Proof. destruct d as [|x d]; [done|]. unfold found. rewrite crlf_here. done. Qed.

Lemma lookup_drop_cons (d : bytes) n x : d !! n = Some x -> drop n d = x :: drop (S n) d.
Proof. apply drop_S. Qed.

Lemma crlf_run b fuel : buf_ok b -> total_len b < EV_SIZE_MAX -> forall it n, at_ptr b it n -> total_len b - n < Z.of_nat fuel ->
  match first_at (terminator EVBUFFER_EOL_CRLF) (drop (Z.to_nat n) (contents b)) with
  | None => crlf_loop fuel b it = Ok None
  | Some (j, e) => exists it', crlf_loop fuel b it = Ok (Some (it', Z.of_nat e)) /\ pos it' = n + Z.of_nat j
  end.
Proof.
  intros H Hmax. pose proof (bo_total _ H) as Ht. induction fuel as [|fuel IH]; intros it n Hat Hf; destruct (from_at b it n H Hat) as (Hn & _); [lia|].
  cbn [crlf_loop]. set (rest := drop (Z.to_nat n) (contents b)). pose proof (find_eol_at b it n H Hat) as Hfind. fold rest in Hfind.
  rewrite (first_index (terminator EVBUFFER_EOL_CRLF) is_eol rest); [|done|].
  2: { intros x d Hx. apply orb_false_iff in Hx as [H1 H2]. cbn [terminator]. by rewrite H1, H2. }
  destruct (index_of is_eol rest) as [j|] eqn:Ej; [|by rewrite Hfind]. destruct Hfind as (it1 & -> & Hb1). cbn [res_bind]. destruct (index_before _ _ _ Ej) as (y & Hy & Py & _).
  assert (Hd : drop j rest = drop (Z.to_nat (n + Z.of_nat j)) (contents b)) by (unfold rest; rewrite drop_drop; f_equal; lia).
  destruct (getchr_at b it1 _ H Hb1) as (x & -> & Hx). cbn [res_bind]. pose proof (lookup_drop_cons _ _ _ Hx) as Hcons. pose proof (lookup_lt_Some _ _ _ Hx) as Hlt.
  assert (Hxy : y = x) by (apply (lookup_drop_cons rest) in Hy; rewrite Hd, Hcons in Hy; by injection Hy). subst y. rewrite Hd. pose proof (proj1 (proj1 Hb1)) as Hp1.
  assert (Hhit : forall e, terminator EVBUFFER_EOL_CRLF (drop (Z.to_nat (n + Z.of_nat j)) (contents b)) = Some e -> prod_map (Nat.add j) id <$> first_at (terminator EVBUFFER_EOL_CRLF) (drop (Z.to_nat (n + Z.of_nat j)) (contents b)) = Some (j, e)).
  { intros e He. rewrite (first_hit _ _ _ He). cbn. by rewrite Nat.add_0_r. }
  destruct (Z.eqb_spec x LF) as [->|Hlf].
  { rewrite (Hhit 1%nat) by (by rewrite Hcons). by exists it1. }
  destruct (memcmp_at b it1 _ [CR; LF] H (proj1 Hb1)) as (r & -> & Hr); [by vm_compute|]. cbn [res_bind]. rewrite Hcons, crlf_here in Hr.
  assert (Hcr : Z.eqb x CR = true) by (unfold is_eol in Py; apply orb_true_iff in Py as [?|E]; [done|by apply Z.eqb_eq in E]). rewrite Hcr in Hr. cbn [andb] in Hr.
  destruct (Z.eqb_spec r 0) as [E0|E0].
  { rewrite (Hhit 2%nat); [by exists it1|]. rewrite Hcons. cbn [terminator]. rewrite (proj2 (Z.eqb_neq _ _) Hlf), Hcr, (proj1 Hr E0). done. }
  assert (Hno : terminator EVBUFFER_EOL_CRLF (drop (Z.to_nat (n + Z.of_nat j)) (contents b)) = None).
  { rewrite Hcons. cbn [terminator]. rewrite (proj2 (Z.eqb_neq _ _) Hlf), Hcr. cbn [andb]. case_match; [exfalso; by apply E0, Hr|done]. }
  rewrite (first_skip _ 1); [|rewrite length_drop; lia|intros i Hi; replace i with 0%nat by lia; by rewrite drop_0]. rewrite drop_drop.
  replace (Z.to_nat (n + Z.of_nat j) + 1)%nat with (Z.to_nat (n + Z.of_nat j + 1)) by lia.
  destruct (next_at b it1 _ H Hmax Hb1) as (r2 & it2 & -> & [[-> Hat2]|[-> Hend]]); cbn [res_bind].
  - change (Z.ltb 0 0) with false. cbv iota. specialize (IH it2 _ Hat2 ltac:(lia)).
    destruct (first_at _ (drop (Z.to_nat (n + Z.of_nat j + 1)) (contents b))) as [[i e]|]; [|exact IH]. destruct IH as (it' & E & Hp). exists it'. cbn. split; [done|]. lia.
  - rewrite drop_ge by lia. done.
Qed.

Lemma first_length f k d j e : (forall d z, f d = Some z -> z = k) -> first_at f d = Some (j, e) -> e = k.
Proof.
  intros Hf. revert j. induction d as [|x d IH]; intros j; cbn [first_at]; destruct (f _) as [z|] eqn:E; try done; [intros [= _ <-]; by eapply Hf|intros [= _ <-]; by eapply Hf|].
  destruct (first_at f d) as [[i e']|]; [|done]. cbn. intros [= _ <-]. by apply (IH i).
Qed.

Lemma first_lt f d j e : first_at f d = Some (j, e) -> (j <= length d)%nat.
Proof.
  revert j. induction d as [|x d IH]; intros j; cbn [first_at length]; (destruct (f _) as [z|]; [intros [= <- _]; lia|]); [done|].
  destruct (first_at f d) as [[i e']|]; [|done]. cbn. intros [= <- <-]. specialize (IH i eq_refl). lia.
Qed.

(** evbuffer_search_eol from the start of the buffer. *)
Lemma search_eol_run b style : buf_ok b -> total_len b < EV_SIZE_MAX ->
  match line_end style (contents b) with
  | None => evbuffer_search_eol b None style = Ok None
  | Some (j, e) => exists it, evbuffer_search_eol b None style = Ok (Some (it, Z.of_nat e)) /\ pos it = Z.of_nat j
  end.
Proof.
  intros H Hmax. pose proof (start_at b H) as Hat. unfold line_end, evbuffer_search_eol. cbn [default from_option id]. destruct style.
  - pose proof (find_eol_at b _ 0 H Hat) as Hf. change (Z.to_nat 0) with 0%nat in Hf. rewrite drop_0 in Hf.
    rewrite (first_index (terminator EVBUFFER_EOL_ANY) is_eol) by (done || (intros x d Hx; cbn [terminator]; by rewrite Hx)).
    destruct (index_of is_eol (contents b)) as [j|] eqn:Ej; [|by rewrite Hf]. destruct Hf as (it & -> & Hb). cbn [res_bind]. rewrite (strspn_at b it _ H Hb). cbn [res_bind].
    destruct (index_before _ _ _ Ej) as (y & Hy & Py & _). pose proof (lookup_drop_cons _ _ _ Hy) as Hcons. rewrite Z.add_0_l, Nat2Z.id in *.
    rewrite (first_hit _ _ (run_length is_eol (drop j (contents b)))) by (rewrite Hcons; cbn [terminator]; by rewrite Py).
    cbn [prod_map fmap option_fmap option_map fst snd id]. exists it. split; [done|]. rewrite (proj1 (proj1 Hb)). lia.
  - pose proof (crlf_run b (S (Z.to_nat (total_len b))) H Hmax (ptr_start b) 0 Hat) as Hc. change (Z.to_nat 0) with 0%nat in Hc. rewrite drop_0 in Hc. apply Hc. pose proof (bo_total _ H). lia.
  - pose proof (search_at b CR [LF] _ 0 H ltac:(by vm_compute) Hat) as Hs. change (Z.to_nat 0) with 0%nat in Hs. rewrite drop_0 in Hs. rewrite (first_ext _ _ _ strict_found).
    destruct (first_at (found [CR; LF]) (contents b)) as [[j e]|] eqn:Ef.
    + destruct Hs as (it & -> & Hp & _). cbn [res_bind]. rewrite Hp, Z.add_0_l, (proj2 (Z.ltb_ge _ _)) by lia. exists it. split; [|lia].
      assert (He : e = 2%nat) by (apply (first_length (found [CR; LF]) 2 (contents b) j); [|done]; intros d z; unfold found; case_match; [by intros [= <-]|done]). by rewrite He.
    + destruct Hs as (it & -> & Hp). cbn [res_bind]. by rewrite Hp.
  - pose proof (strchr_at b _ 0 LF H Hat) as Hs. change (Z.to_nat 0) with 0%nat in Hs. rewrite drop_0 in Hs.
    rewrite (first_index (terminator EVBUFFER_EOL_LF) (fun x => Z.eqb x LF)) by (done || (intros x d Hx; cbn [terminator]; by rewrite Hx)).
    destruct (index_of (fun x => Z.eqb x LF) (contents b)) as [j|] eqn:Ej; [|by rewrite Hs]. destruct Hs as (it & -> & Hb). cbn [res_bind].
    destruct (index_before _ _ _ Ej) as (y & Hy & Py & _). pose proof (lookup_drop_cons _ _ _ Hy) as Hcons.
    rewrite (first_hit _ _ 1%nat) by (rewrite Hcons; cbn [terminator]; by rewrite Py). cbn [prod_map fmap option_fmap option_map fst snd id]. exists it. split; [done|]. rewrite (proj1 (proj1 Hb)). lia.
Qed.
(** C28: evbuffer_readln reads lines. For each of the four styles, the search
    over the chains (for a CR or LF by pieces of 128 bytes, for CR LF across the
    ends of chains) finds the end of the first line that the definition on the
    byte string has; the line is returned with a NUL, it and its terminator
    leave the buffer, and everything behind stays. Without a line end the
    result is NULL and nothing changes. *)
Theorem evbuffer_readln_spec style b :
  buf_ok b -> freeze_start b = false -> total_len b < 2 ^ 31 -> mem b (nalloc b) = true ->
  match line_end style (contents b) with
  | None => evbuffer_readln style b = Ok (None, b)
  | Some (k, e) => exists b', evbuffer_readln style b = Ok (Some (take k (contents b) ++ [0]), b') /\ buf_ok b' /\ contents b' = drop (k + e) (contents b)
  end.
Proof.
  intros H Hfr Ht Hm. pose proof (bo_total _ H) as Hl. unfold evbuffer_readln. gotten b. rewrite Hfr. change (2 ^ 31) with 2147483648 in Ht.
  pose proof (search_eol_run b style H ltac:(unfold EV_SIZE_MAX; lia)) as Hs. destruct (line_end style (contents b)) as [[k e]|] eqn:Ee; [|by rewrite Hs].
  destruct Hs as (it & -> & Hp). rewrite (bind_ok _ _ _ _ _ (eq_refl : lift (Ok (Some (it, Z.of_nat e))) b = Ok (Some (it, Z.of_nat e), b))). cbv beta iota.
  set (b1 := put_nalloc (S (nalloc b)) b). rewrite (bind_ok _ _ _ _ _ (eq_refl : malloc b = Ok (mem b (nalloc b), b1))), Hm. cbn [negb].
  assert (S1 : same_core b b1) by done. pose proof (core_ok _ _ S1 H) as Hb1. pose proof (first_lt _ _ _ _ Ee) as Hk.
  destruct (remove_bytes_run (pos it) b1 Hb1 ltac:(change (2 ^ 31) with 2147483648; lia)) as (r & d & b2 & E2 & Hb2 & S2 & G). change (freeze_start b1) with (freeze_start b) in G. rewrite Hfr in G. cbn [andb] in G.
  destruct G as (-> & -> & C2). rewrite (bind_ok _ _ _ _ _ E2). cbv beta iota. destruct (drain_run (Z.of_nat e) b2 Hb2 ltac:(lia)) as (r3 & b3 & E3 & Hb3 & S3 & G).
  rewrite (sr_start _ _ S2) in G. change (freeze_start b1) with (freeze_start b) in G. rewrite Hfr in G. cbn [andb] in G. destruct G as [-> C3]. rewrite (bind_ok _ _ _ _ _ E3).
  rewrite C2 in C3. change (contents b1) with (contents b) in *. rewrite Hp, !Nat2Z.id in *. exists b3. split_and!; [done|done|]. by rewrite C3, drop_drop.
Qed.

(** A text of two lines over two chains: CR LF is cut by the end of a chain of
    976 bytes. *)
Definition two_lines : evbuffer :=
  match (evbuffer_add (replicate 975 97 ++ [CR]) ;; evbuffer_add [LF; 98; LF]) (evbuffer_new (fun _ => true)) with Ok (_, b) => b | Fault _ => evbuffer_new (fun _ => true) end.

Lemma new_buf_ok m : buf_ok (evbuffer_new m).
Proof. split; cbn; [constructor|done|done|by left|done]. Qed.

Lemma two_lines_ok : buf_ok two_lines.
Proof.
  unfold two_lines. destruct (buffer_add_run (replicate 975 97 ++ [CR]) (evbuffer_new (fun _ => true)) (new_buf_ok _) ltac:(by vm_compute)) as (r & b & E & Hb & _). rewrite (bind_ok _ _ _ _ _ E).
  destruct (buffer_add_run [LF; 98; LF] b Hb ltac:(by vm_compute)) as (r2 & b2 & -> & Hb2 & _). exact Hb2.
Qed.

Lemma evbuffer_readln_spec_witness : exists b', evbuffer_readln EVBUFFER_EOL_CRLF two_lines = Ok (Some (replicate 975 97 ++ [0]), b') /\ buf_ok b' /\ contents b' = [98; LF].
Proof.
  assert (E : line_end EVBUFFER_EOL_CRLF (contents two_lines) = Some (975%nat, 2%nat)) by (vm_compute; reflexivity).
  assert (Ec : contents two_lines = replicate 975 97 ++ [CR; LF; 98; LF]) by (vm_compute; reflexivity).
  pose proof (evbuffer_readln_spec EVBUFFER_EOL_CRLF two_lines two_lines_ok ltac:(vm_compute; reflexivity) ltac:(vm_compute; reflexivity) ltac:(vm_compute; reflexivity)) as Hr.
  rewrite E in Hr. rewrite Ec in Hr. exact Hr.
Defined.
End BufferLines.
