(* ===== verification/BufferIO.v ===== *)
(** * Input and output of event buffers (src/libevent/buffer.c)

    evbuffer_read and evbuffer_write_atmost against a socket; space that is
    reserved and committed; looking at the data and printing into it; the end
    of a buffer and of its callbacks.

    An iovec is the number of a chain, an index into its memory and a length;
    two iov_base are the same pointer when number and index agree. The socket
    has the bytes that will arrive and the answers of ioctl(FIONREAD), readv
    and writev: how many bytes at most, or an error. readv stores the next
    bytes through the iovecs in order and never more than there is room for;
    writev takes bytes from the front of what it is given. *)

From stdpp Require Import prelude.
From S2P Require Import Prelude Buffer BufferSearch.
Open Scope Z_scope.

Module BufferIO.
Import Buffer BufferSearch.

Definition NUM_READ_IOVEC : nat := 4.
Definition NUM_WRITE_IOVEC : nat := 128.
Definition EVBUFFER_MAX_READ : Z := 4096.

(** ** Room in several chains *)

(** The loop over the chains from last_with_datap on: [None] when there is
    enough space, else the space found, the number of chains it is in, and
    whether the loop ran off the end. *)
Fixpoint space_loop (l : list chain) (i : nat) (datlen avail : Z) (used n : nat) : T (option (Z * nat * bool)) :=
  match l with
  | [] => ret (Some (avail, used, true))
  | c :: l' =>
      let! (avail, used) :=
        (if negb (Z.eqb (off c) 0) then
           let space := CHAIN_SPACE_LEN c in
           let! b := get in
           assert_that (Nat.eqb i (last_with_datap b)) ;;
           ret (if Z.eqb space 0 then (avail, used) else (u64 (avail + space), S used))
         else
           put_chain i (set_off 0 (off c) c) ;;
           ret (u64 (avail + buffer_len c), S used)) in
      if Z.leb datlen avail then ret None
      else if Nat.eqb used n then ret (Some (avail, used, false))
      else space_loop l' (S i) datlen avail used n
  end.

Definition _evbuffer_expand_fast (datlen : Z) (n : nat) : T Z :=
  assert_that (Nat.leb 2 n) ;;
  let! b := get in
  if match last (chains b) with None => true | Some c => has (cflags c) EVBUFFER_IMMUTABLE end then
    let! c := evbuffer_chain_new datlen in
    match c with
    | None => ret (-1)
    | Some c => evbuffer_chain_insert c ;; ret 0
    end
  else
    let d := last_with_datap b in
    let! r := space_loop (drop d (chains b)) d datlen 0 0 n in
    match r with
    | None => ret 0
    | Some (avail, used, ended) =>
        if Nat.ltb used n then
          assert_that ended ;;
          let! tmp := evbuffer_chain_new (u64 (datlen - avail)) in
          match tmp with
          | None => ret (-1)
          | Some tmp => modify (fun b => put_chains (chains b ++ [tmp]) (last_with_datap b) b) ;; ret 0
          end
        else
          let! c := chain_at d in
          let! (rmv_all, avail, gone) :=
            (if Z.eqb (off c) 0 then assert_that (Nat.eqb d 0) ;; ret (true, 0, d)
             else ret (false, CHAIN_SPACE_LEN c, S d)) in
          let! b := get in
          assert_that (evbuffer_chains_all_empty (drop gone (chains b))) ;;
          evbuffer_free_all_chains (drop gone (chains b)) ;;
          assert_that (Z.leb avail datlen) ;;
          let! tmp := evbuffer_chain_new (datlen - avail) in
          match tmp with
          | None =>
              modify (fun b => if rmv_all : bool then ZERO_CHAIN b else put_chains (take gone (chains b)) (last_with_datap b) b) ;;
              ret (-1)
          | Some tmp =>
              modify (fun b => if rmv_all : bool then put_chains [tmp] 0 b else put_chains (take gone (chains b) ++ [tmp]) (last_with_datap b) b) ;;
              ret 0
          end
    end.

(** struct evbuffer_iovec *)
Abbreviation iovec := (nat * Z * Z)%type.

Fixpoint setup_loop (k : nat) (l : list chain) (i : nat) (howmuch so_far : Z) (exact : bool) : T (list iovec) :=
  match k with
  | O => ret []
  | S k' =>
      if Z.ltb so_far howmuch then
        match l with
        | [] => fail NullDeref
        | c :: l' =>
            let avail := CHAIN_SPACE_LEN c in
            let avail := if Z.ltb (howmuch - so_far) avail && exact then howmuch - so_far else avail in
            let! r := setup_loop k' l' (S i) howmuch (so_far + avail) exact in
            ret ((i, misalign c + off c, avail) :: r)
        end
      else ret []
  end.

(** The iovecs, and the number of the first chain; [None] for -1. *)
Definition _evbuffer_read_setup_vecs (howmuch : Z) (n_vecs_avail : nat) (exact : bool) : T (option (list iovec * nat)) :=
  if Z.ltb howmuch 0 then ret None
  else
    let! b := get in
    let! c := chain_at (last_with_datap b) in
    let first := if Z.eqb (CHAIN_SPACE_LEN c) 0 then S (last_with_datap b) else last_with_datap b in
    let! v := setup_loop n_vecs_avail (drop first (chains b)) first howmuch 0 exact in
    ret (Some (v, first)).

(** ** Reserving and committing *)

(** The number of iovecs that are filled, or -1. *)
Definition evbuffer_reserve_space (size : Z) (n_vecs : Z) : T (Z * list iovec) :=
  let! b := get in
  if freeze_end b then ret (-1, [])
  else if Z.ltb n_vecs 1 then ret (-1, [])
  else if Z.eqb n_vecs 1 then
    let! r := evbuffer_expand_singlechain (u64 size) in
    match r with
    | None => ret (-1, [])
    | Some i =>
        let! c := chain_at i in
        assert_that (Z.ltb size 0 || Z.leb size (CHAIN_SPACE_LEN c)) ;;
        ret (1, [(i, misalign c + off c, CHAIN_SPACE_LEN c)])
    end
  else
    let! r := _evbuffer_expand_fast (u64 size) (Z.to_nat n_vecs) in
    if Z.ltb r 0 then ret (-1, [])
    else
      let! v := _evbuffer_read_setup_vecs size (Z.to_nat n_vecs) false in
      ret (match v with None => (-1, []) | Some (v, _) => (Z.of_nat (length v), v) end).

(** What the caller stores through iovecs. *)
Fixpoint scatter (v : list iovec) (d : bytes) : T unit :=
  match v with
  | [] => ret tt
  | (i, p, n) :: v' =>
      let! c := chain_at i in
      let! c := chain_write c p (take (Z.to_nat n) d) in
      put_chain i c ;;
      scatter v' (drop (Z.to_nat n) d)
  end.

(** pass 1: are the iovecs those of the chains from [i] on? *)
Fixpoint vecs_fit (l : list chain) (i : nat) (v : list iovec) : bool :=
  match v with
  | [] => true
  | (j, p, n) :: v' =>
      match l with
      | [] => false
      | c :: l' => Nat.eqb j i && Z.eqb p (misalign c + off c) && negb (Z.ltb (CHAIN_SPACE_LEN c) n) && vecs_fit l' (S i) v'
      end
  end.

(** pass 2: the number of bytes added. *)
Fixpoint commit_loop (i : nat) (v : list iovec) (added : Z) : T Z :=
  match v with
  | [] => ret added
  | (_, _, n) :: v' =>
      let! c := chain_at i in
      put_chain i (set_off (misalign c) (off c + n) c) ;;
      when (negb (Z.eqb n 0)) (modify (fun b => put_chains (chains b) i b)) ;;
      commit_loop (S i) v' (added + n)
  end.

Definition evbuffer_commit_space (v : list iovec) : T Z :=
  let okay (added : Z) : T Z := count_added added ;; evbuffer_invoke_callbacks ;; ret 0 in
  let! b := get in
  if freeze_end b then ret (-1)
  else
    match v with
    | [] => ret 0
    | (j, p, n) :: v' =>
        let k := (length (chains b) - 1)%nat in
        if match v', last (chains b) with
           | [], Some c => Nat.eqb j k && Z.eqb p (misalign c + off c)
           | _, _ => false
           end then
          let! c := chain_at k in
          if Z.ltb (CHAIN_SPACE_LEN c) n then ret (-1)
          else
            put_chain k (set_off (misalign c) (off c + n) c) ;;
            when (negb (Z.eqb n 0)) advance_last_with_data ;;
            okay n
        else
          match chains b !! last_with_datap b with
          | None => ret (-1)
          | Some c =>
              let first := if Z.eqb (CHAIN_SPACE_LEN c) 0 then S (last_with_datap b) else last_with_datap b in
              if vecs_fit (drop first (chains b)) first v then
                let! added := commit_loop first v 0 in okay added
              else ret (-1)
          end
    end.

(** ** A socket *)

Record sock := mkSock { incoming : bytes; sent : bytes; readable : list (option Z); reads : list (option nat); writes : list (option nat) }.

(** ioctl(fd, FIONREAD, &n): [None] where it fails. *)
Definition get_n_bytes_readable_on_socket : M sock Z := fun k =>
  match readable k with
  | Some n :: r => Ok (n, mkSock (incoming k) (sent k) r (reads k) (writes k))
  | None :: r => Ok (-1, mkSock (incoming k) (sent k) r (reads k) (writes k))
  | [] => Ok (-1, k)
  end.

Definition room (v : list iovec) : nat := list_sum (map (fun x => Z.to_nat (snd x)) v).

(** The bytes that readv takes from the socket; [None] for -1. *)
Definition sock_read (cap : nat) : M sock (option bytes) := fun k =>
  match reads k with
  | Some n :: r => let n := (n `min` cap)%nat in
      Ok (Some (take n (incoming k)), mkSock (drop n (incoming k)) (sent k) (readable k) r (writes k))
  | None :: r => Ok (None, mkSock (incoming k) (sent k) (readable k) r (writes k))
  | [] => Ok (None, k)
  end.

(** writev of the bytes [d]: how many were taken, or -1. *)
Definition sock_write (d : bytes) : M sock Z := fun k =>
  match writes k with
  | Some n :: r => let d := take n d in
      Ok (Z.of_nat (length d), mkSock (incoming k) (sent k ++ d) (readable k) (reads k) r)
  | None :: r => Ok (-1, mkSock (incoming k) (sent k) (readable k) (reads k) r)
  | [] => Ok (-1, k)
  end.

Abbreviation IO := (M (evbuffer * sock)).

Definition readv (v : list iovec) : IO Z :=
  let! d := snd_ (sock_read (room v)) in
  match d with
  | None => ret (-1)
  | Some d => fst_ (scatter v d) ;; ret (Z.of_nat (length d))
  end.

(** ** Reading *)

(** The loop that gives [remaining] bytes to the chains from [i] on. *)
Fixpoint spread (nvecs : nat) (i : nat) (remaining : Z) : T unit :=
  match nvecs with
  | O => ret tt
  | S k =>
      let! c := chain_at i in
      let space := Z.min (CHAIN_SPACE_LEN c) EVBUFFER_CHAIN_MAX in
      if Z.ltb space remaining then
        put_chain i (set_off (misalign c) (off c + space) c) ;; spread k (S i) (remaining - space)
      else
        put_chain i (set_off (misalign c) (off c + remaining) c) ;;
        modify (fun b => put_chains (chains b) i b)
  end.

Definition evbuffer_read (howmuch : Z) : IO Z :=
  let! (b, _) := get in
  if freeze_end b then ret (-1)
  else
    let! n := snd_ get_n_bytes_readable_on_socket in
    let n := if Z.leb n 0 || Z.ltb EVBUFFER_MAX_READ n then EVBUFFER_MAX_READ else n in
    let howmuch := if Z.ltb howmuch 0 || Z.ltb n howmuch then n else howmuch in
    let! r := fst_ (_evbuffer_expand_fast howmuch NUM_READ_IOVEC) in
    if Z.eqb r (-1) then ret (-1)
    else
      let! v := fst_ (_evbuffer_read_setup_vecs howmuch NUM_READ_IOVEC true) in
      match v with
      | None => ret (-1)
      | Some (v, first) =>
          let! n := readv v in
          if Z.eqb n (-1) then ret (-1)
          else if Z.eqb n 0 then ret 0
          else
            fst_ (spread (length v) first n) ;;
            fst_ (count_added n) ;;
            fst_ evbuffer_invoke_callbacks ;;
            ret n
      end.

(** ** Writing *)

(** The bytes that the iovecs of evbuffer_write_iovec lead to, and how many
    iovecs there are. *)
Fixpoint gather (k : nat) (l : list chain) (howmuch : Z) : T (list bytes) :=
  match k, l with
  | O, _ | _, [] => ret []
  | S k', c :: l' =>
      if Z.eqb howmuch 0 then ret []
      else if has (cflags c) EVBUFFER_SENDFILE then ret []
      else if Z.leb (off c) howmuch then
        let! d := chain_read c (off c) in
        let! r := gather k' l' (howmuch - off c) in
        ret (d :: r)
      else
        let! d := chain_read c howmuch in ret [d]
  end.

Definition evbuffer_write_iovec (howmuch : Z) : IO Z :=
  if Z.ltb howmuch 0 then ret (-1)
  else
    let! (b, _) := get in
    let! iov := fst_ (gather NUM_WRITE_IOVEC (chains b) howmuch) in
    match iov with
    | [] => ret 0
    | _ => snd_ (sock_write (concat iov))
    end.

(** A first chain that is a file is sent by sendfile, which is not shown: the
    argument is what evbuffer_write_sendfile returns. *)
Definition evbuffer_write_atmost (sendfile : Z) (howmuch : Z) : IO Z :=
  let! (b, _) := get in
  if freeze_start b then ret (-1)
  else
    let howmuch := if Z.ltb howmuch 0 || Z.ltb (total_len b) howmuch then s64 (total_len b) else howmuch in
    let! n := (if Z.ltb 0 howmuch then
        if match chains b with c :: _ => has (cflags c) EVBUFFER_SENDFILE | [] => false end then ret sendfile
        else evbuffer_write_iovec howmuch
      else ret (-1)) in
    (if Z.ltb 0 n then let! _ := fst_ (evbuffer_drain n) in ret tt else ret tt) ;;
    ret n.

Definition evbuffer_write (sendfile : Z) : IO Z := evbuffer_write_atmost sendfile (-1).

(** ** Looking and printing *)

(** The loop of evbuffer_peek: the iovecs filled, as the bytes they lead to,
    and the number of iovecs that would be needed. *)
Fixpoint peek_loop (l : list chain) (len len_so_far : Z) (idx n_vec : nat) : T (nat * list bytes) :=
  match l with
  | [] => ret (idx, [])
  | c :: l' =>
      if Z.leb 0 len && Z.leb len len_so_far then ret (idx, [])
      else if Nat.ltb idx n_vec then
        let! d := chain_read c (off c) in
        let! (k, r) := peek_loop l' len (len_so_far + off c) (S idx) n_vec in
        ret (k, d :: r)
      else if Z.ltb len 0 then ret (idx, [])
      else peek_loop l' len (len_so_far + off c) (S idx) n_vec
  end.

Definition evbuffer_peek (len : Z) (start_at : option evbuffer_ptr) (n_vec : nat) : T (nat * list bytes) :=
  let! b := get in
  let len := if Nat.eqb n_vec 0 && Z.ltb len 0 then s64 (total_len b) - match start_at with Some p => pos p | None => 0 end else len in
  match start_at with
  | None => peek_loop (chains b) len 0 0 n_vec
  | Some p =>
      match pchain p with
      | None => fail NullDeref
      | Some i =>
          let! c := chain_at i in
          let! front := (if Nat.ltb 0 n_vec then let! d := lift (piece c (pos_in_chain p)) in ret [d] else ret []) in
          let! (k, r) := peek_loop (drop (S i) (chains b)) len (off c - pos_in_chain p) 1 n_vec in
          ret (k, front ++ r)
      end
  end.

(** Printing the text [t] into chain [i]; the loop tries again with a chain
    that is large enough. *)
Fixpoint print_loop (fuel : nat) (i : nat) (t : bytes) : T Z :=
  match fuel with
  | O => fail NoFuel
  | S f =>
      let! c := chain_at i in
      let space := CHAIN_SPACE_LEN c in
      let sz := Z.of_nat (length t) in
      (if Z.eqb space 0 then ret tt
       else
         let! c := chain_write c (misalign c + off c) (take (Z.to_nat (space - 1)) t ++ [0]) in
         let! c := chain_write c (misalign c + off c + space - 1) [0] in
         put_chain i c) ;;
      let sz := if Z.eqb space 0 then 0 else sz in
      if Z.ltb sz space then
        let! c := chain_at i in
        put_chain i (set_off (misalign c) (off c + sz) c) ;;
        count_added sz ;;
        advance_last_with_data ;;
        evbuffer_invoke_callbacks ;;
        ret sz
      else
        let! r := evbuffer_expand_singlechain (sz + 1) in
        match r with
        | None => ret (-1)
        | Some i => print_loop f i t
        end
  end.

(** evutil_vsnprintf never fails here, and its result is an int. *)
Definition evbuffer_add_vprintf (t : bytes) : T Z :=
  let! b := get in
  if freeze_end b then ret (-1)
  else
    let! r := evbuffer_expand_singlechain 64 in
    match r with
    | None => ret (-1)
    | Some i => print_loop 3 i t
    end.

Definition evbuffer_add_printf (t : bytes) : T Z := evbuffer_add_vprintf t.
(** ** Pinned chains *)

Definition _evbuffer_chain_pin (c : chain) (flag : Z) : T chain :=
  assert_that (negb (has (cflags c) flag)) ;; ret (set_cflags (Z.lor (cflags c) flag) c).

(** [None] when the chain was freed. *)
Definition _evbuffer_chain_unpin (c : chain) (flag : Z) : T (option chain) :=
  assert_that (has (cflags c) flag) ;;
  let c := set_cflags (Z.ldiff (cflags c) flag) c in
  if has (cflags c) EVBUFFER_DANGLING then evbuffer_chain_free c ;; ret None else ret (Some c).

(** ** The end of a buffer *)

Definition _evbuffer_incref : T unit := modify (fun b => put_queued (queued b) (refcnt b + 1) b).

Definition evbuffer_remove_all_callbacks : T unit := modify (put_callbacks []).

(** Has the buffer been freed? The lock and the parent are not shown. *)
Definition _evbuffer_decref_and_unlock : T bool :=
  let! b := get in
  assert_that (Z.ltb 0 (refcnt b)) ;;
  modify (fun b => put_queued (queued b) (refcnt b - 1) b) ;;
  if Z.ltb 0 (refcnt b - 1) then ret false
  else
    evbuffer_free_all_chains (chains b) ;;
    modify (put_chains [] 0) ;;
    evbuffer_remove_all_callbacks ;;
    when (deferred_cbs b) (modify (fun b => put_queued false (refcnt b) b)) ;;
    ret true.

Definition evbuffer_free : T bool := _evbuffer_decref_and_unlock.

(** The function that the queue of deferred callbacks calls. *)
Definition evbuffer_deferred_callback : T bool := evbuffer_run_callbacks true ;; _evbuffer_decref_and_unlock.

(** ** Callbacks by entry *)

(** evbuffer_setcb with a function ([Some]) or without one. *)
Definition evbuffer_setcb (cb : option Z) (cbarg : Z) : T unit :=
  let! b := get in
  when (match callbacks b with [] => false | _ => true end) evbuffer_remove_all_callbacks ;;
  match cb with
  | None => ret tt
  | Some cb =>
      let! ok := evbuffer_add_cb 0 cbarg in
      if ok : bool then
        modify (fun b => match callbacks b with
                         | e :: l => put_callbacks (mkCb cb (cb_arg e) (Z.lor (cb_flags e) EVBUFFER_CB_OBSOLETE) :: l) b
                         | [] => b
                         end)
      else fail NullDeref
  end.

(** The entry is number [k] of the list. *)
Definition evbuffer_remove_cb_entry (k : nat) : T Z := modify (fun b => put_callbacks (delete k (callbacks b)) b) ;; ret 0.

Definition evbuffer_cb_set_flags (k : nat) (flags : Z) : T Z :=
  let flags := Z.ldiff flags EVBUFFER_CB_INTERNAL_FLAGS in
  modify (fun b => put_callbacks (alter (fun e => mkCb (cb_func e) (cb_arg e) (Z.lor (cb_flags e) flags)) k (callbacks b)) b) ;; ret 0.

Definition evbuffer_cb_clear_flags (k : nat) (flags : Z) : T Z :=
  let flags := Z.ldiff flags EVBUFFER_CB_INTERNAL_FLAGS in
  modify (fun b => put_callbacks (alter (fun e => mkCb (cb_func e) (cb_arg e) (Z.ldiff (cb_flags e) flags)) k (callbacks b)) b) ;; ret 0.
End BufferIO.
