(* ===== verification/BufferStream.v ===== *)
(** * A buffer between the reads and the writes of a socket

    evbuffer_read appends exactly the bytes that readv delivered, wherever the
    free memory lies, and evbuffer_write_atmost removes exactly the bytes that
    writev took. The invariant [settled]: behind the chain that
    last_with_datap leads to there are empty chains only. (The invariant
    [buf_ok] of the other operations allows one such chain, but lets the last
    chain have data.) *)

From stdpp Require Import prelude.
From S2P Require Import Prelude Buffer BufferFacts BufferOps BufferSearch BufferIO.
Open Scope Z_scope.

Module BufferStream.
Import Buffer BufferFacts BufferOps BufferIO.

Definition mutable (c : chain) : Prop := has (cflags c) EVBUFFER_IMMUTABLE = false.

(** A chain of memory, not of a file. *)
Record plain (c : chain) : Prop := { pl_ok : chain_ok c; pl_mem : has (cflags c) EVBUFFER_SENDFILE = false }.

(** An empty chain that can be filled. *)
Record spare (c : chain) : Prop := { sp_off : off c = 0; sp_mut : mutable c }.

Inductive settled_list : list chain -> nat -> Prop :=
| settled_nil : settled_list [] 0
| settled_cons pre c es :
    Forall plain (pre ++ c :: es) -> Forall spare es -> (off c = 0 -> pre = [] /\ mutable c) ->
    settled_list (pre ++ c :: es) (length pre).

Record settled (b : evbuffer) : Prop := {
  se_list : settled_list (chains b) (last_with_datap b);
  se_total : total_len b = Z.of_nat (length (contents b));
  se_size : total_len b <= EV_SIZE_MAX
}.

Lemma settled_plain l d : settled_list l d -> Forall plain l.
Proof. by destruct 1. Qed.

Lemma plain_chain_ok l : Forall plain l -> Forall chain_ok l.
Proof. intros H. eapply Forall_impl; [exact H|]. intros c Hc. apply Hc. Qed.

Lemma settled_ok b : settled b -> Forall chain_ok (chains b).
Proof. intros [H _ _]. by eapply plain_chain_ok, settled_plain. Qed.

Lemma settled_core b b' : same_core b b' -> settled b -> settled b'.
Proof. intros [F1 F2 F3 _ _ _] [H1 H2 H3]. unfold contents in *. split; unfold contents; rewrite ?F1, ?F2, ?F3; done. Qed.

Lemma data_of_spare es : Forall spare es -> data_of es = [].
Proof. induction 1 as [|c es Hc _ IH]; [done|]. by rewrite data_of_cons, cdata_empty, IH by apply Hc. Qed.

(** ** Free memory *)

Lemma space_mutable c : mutable c -> CHAIN_SPACE_LEN c = buffer_len c - (misalign c + off c).
Proof. unfold mutable, CHAIN_SPACE_LEN. by intros ->. Qed.

Lemma space_range c : chain_ok c -> 0 <= CHAIN_SPACE_LEN c <= LIMIT.
Proof.
  intros [H1 H2 H3 H4 H5]. assert (0 <= LIMIT) by (by vm_compute). unfold CHAIN_SPACE_LEN. case_match; lia.
Qed.

Definition space (l : list chain) : Z := foldr (fun c n => CHAIN_SPACE_LEN c + n) 0 l.

Lemma space_app l1 l2 : space (l1 ++ l2) = space l1 + space l2.
Proof. induction l1 as [|c l1 IH]; cbn; [done|]. unfold space in *. cbn [foldr app]. rewrite IH. lia. Qed.

Lemma space_cons c l : space (c :: l) = CHAIN_SPACE_LEN c + space l.
Proof. done. Qed.

Lemma space_nonneg l : Forall plain l -> 0 <= space l.
Proof. induction 1 as [|c l Hc _ IH]; [done|]. rewrite space_cons. pose proof (space_range c (pl_ok _ Hc)). lia. Qed.

(** What the search for space does to an empty chain: its memory is used from
    the start. *)
Definition realigned (c c' : chain) : Prop := c' = c \/ (off c = 0 /\ c' = set_off 0 (off c) c).

Lemma realigned_plain c c' : realigned c c' -> plain c -> plain c'.
Proof.
  intros [->|[E ->]] [H1 H2]; [done|]. split; [|done]. destruct H1 as [K1 K2 K3 K4 K5]. split; cbn; try done; unfold buffer_len in *; cbn; lia.
Qed.

Lemma realigned_off c c' : realigned c c' -> off c' = off c.
Proof. by intros [->|[E ->]]. Qed.

Lemma realigned_mutable c c' : realigned c c' -> mutable c -> mutable c'.
Proof. by intros [->|[E ->]]. Qed.

Lemma realigned_spare c c' : realigned c c' -> spare c -> spare c'.
Proof. intros R [H1 H2]. split; [by rewrite (realigned_off _ _ R)|by eapply realigned_mutable]. Qed.

Lemma realigned_data l l' : Forall2 realigned l l' -> data_of l' = data_of l.
Proof.
  induction 1 as [|c c' l l' R _ IH]; [done|]. rewrite !data_of_cons, IH. f_equal. destruct R as [->|[E ->]]; [done|].
  by rewrite !cdata_empty by done.
Qed.

Lemma Forall2_realigned_refl l : Forall2 realigned l l.
Proof. apply Forall_Forall2_diag. apply Forall_true. by left. Qed.

Lemma Forall2_keep (P : chain -> Prop) l l' : (forall c c', realigned c c' -> P c -> P c') -> Forall2 realigned l l' -> Forall P l -> Forall P l'.
Proof. intros Hk. induction 1 as [|c c' l l' R _ IH]; intros H; [done|]. apply Forall_cons in H as [Hc H]. constructor; eauto. Qed.

Lemma put_chain_at b pre c l c' d : chains b = pre ++ c :: l -> last_with_datap b = d ->
  put_chain (length pre) c' b = Ok (tt, put_chains (pre ++ c' :: l) d b).
Proof. intros E <-. unfold put_chain, modify. rewrite E. by rewrite insert_app_r_alt, Nat.sub_diag by lia. Qed.

Lemma chain_at_app b pre c l : chains b = pre ++ c :: l -> chain_at (length pre) b = Ok (c, b).
Proof. intros E. unfold chain_at. by rewrite E, list_lookup_middle. Qed.

(** The search for space: the chains it passes are realigned. *)
Lemma space_loop_run l : forall pre b datlen avail used n,
  chains b = pre ++ l -> Forall plain l ->
  (forall c l', l = c :: l' -> Forall spare l' /\ (off c = 0 -> mutable c) /\ (off c <> 0 -> last_with_datap b = length pre)) ->
  0 <= datlen <= LIMIT -> 0 <= avail <= LIMIT -> (used < n)%nat ->
  exists r l', space_loop l (length pre) datlen avail used n b = Ok (r, put_chains (pre ++ l') (last_with_datap b) b) /\
    Forall2 realigned l l' /\
    match r with
    | None => datlen <= avail + space l'
    | Some (avail', used', ended) =>
        (used' <= n)%nat /\ ((used' < n)%nat -> ended = true) /\ (ended = true -> avail' = avail + space l') /\
        (l <> [] -> avail' < datlen /\ forall c l'', l' = c :: l'' -> avail + CHAIN_SPACE_LEN c <= avail')
    end.
Proof.
  induction l as [|c l IH]; intros pre b datlen avail used n Eb Hp Hs Hd Ha Hu; cbn [space_loop].
  { exists (Some (avail, used, true)), []. rewrite app_nil_r in Eb. split; [by rewrite app_nil_r, <-Eb; destruct b|].
    split; [constructor|]. split_and!; [lia|done|cbn; lia|done]. }
  apply Forall_cons in Hp as [Hc Hp]. destruct (Hs c l eq_refl) as (Hes & Hmut & Hlwd). pose proof (space_range c (pl_ok _ Hc)) as Hsp.
  assert (Hlim : 2 * LIMIT < 18446744073709551616) by (by vm_compute).
  assert (Hstep : exists avail1 used1 c', realigned c c' /\ avail1 = avail + CHAIN_SPACE_LEN c' /\ (used1 = used \/ used1 = S used) /\ 0 <= CHAIN_SPACE_LEN c' <= LIMIT /\
    (if negb (Z.eqb (off c) 0) then
           let space := CHAIN_SPACE_LEN c in
           let! b := get in
           assert_that (Nat.eqb (length pre) (last_with_datap b)) ;;
           ret (if Z.eqb space 0 then (avail, used) else (u64 (avail + space), S used))
         else
           put_chain (length pre) (set_off 0 (off c) c) ;;
           ret (u64 (avail + buffer_len c), S used)) b = Ok ((avail1, used1), put_chains (pre ++ c' :: l) (last_with_datap b) b)).
  { destruct (Z.eqb_spec (off c) 0) as [E|E]; cbn [negb].
    - assert (Esp : CHAIN_SPACE_LEN (set_off 0 (off c) c) = buffer_len c).
      { rewrite space_mutable by (by apply Hmut). cbn. rewrite E. unfold buffer_len. cbn. lia. }
      pose proof (co_max _ (pl_ok _ Hc)). assert (0 <= buffer_len c) by (unfold buffer_len; lia).
      exists (avail + buffer_len c), (S used), (set_off 0 (off c) c). split_and!; [by right|by rewrite Esp|by right|by rewrite Esp|by rewrite Esp|].
      rewrite (bind_ok _ _ _ _ _ (put_chain_at b pre c l _ _ Eb eq_refl)). unfold ret, u64. rewrite Z.mod_small by lia. done.
    - exists (avail + CHAIN_SPACE_LEN c), (if Z.eqb (CHAIN_SPACE_LEN c) 0 then used else S used), c. split_and!; [by left|done|by case_match; auto|lia|lia|].
      gotten b. rewrite Hlwd by done. rewrite Nat.eqb_refl. rewrite <-Eb. unfold bind, assert_that, ret.
      destruct (Z.eqb_spec (CHAIN_SPACE_LEN c) 0) as [E0|E0]; [rewrite E0, Z.add_0_r|unfold u64; rewrite Z.mod_small by lia]; rewrite <-(Hlwd E); by destruct b. }
  destruct Hstep as (avail1 & used1 & c' & R & Ea1 & Hu1 & Hsp' & Estep). rewrite (bind_ok _ _ _ _ _ Estep). cbv beta iota.
  destruct (Z.leb_spec datlen avail1) as [Hle|Hlt].
  { exists None, (c' :: l). split; [done|]. split; [constructor; [done|apply Forall2_realigned_refl]|]. rewrite space_cons. pose proof (space_nonneg l Hp). lia. }
  destruct (Nat.eqb_spec used1 n) as [En|En].
  { exists (Some (avail1, used1, false)), (c' :: l). split; [done|]. split; [constructor; [done|apply Forall2_realigned_refl]|].
    split_and!; [lia|lia|done|]. intros _. split; [done|]. intros ? ? [= <- _]. lia. }
  set (b1 := put_chains (pre ++ c' :: l) (last_with_datap b) b).
  destruct (IH (pre ++ [c']) b1 datlen avail1 used1 n) as (r & l' & E & R' & G); try done; try lia.
  { unfold b1. cbn. by rewrite <-app_assoc. }
  { intros c2 l2 ->. apply Forall_cons in Hes as [[K1 K2] Hes]. split_and!; [done|done|done]. }
  rewrite length_app, Nat.add_1_r in E. exists r, (c' :: l'). rewrite E. split; [by rewrite <-app_assoc|]. split; [by constructor|].
  destruct r as [[[av us] en]|]; rewrite space_cons; [|lia]. destruct G as (G1 & G2 & G3 & G4). split_and!; [done|done|intros He; specialize (G3 He); lia|].
  intros _. destruct l as [|c2 l2].
  - assert (l' = []) as -> by (by inversion R').
    assert (en = true /\ av = avail1) as [-> ->]. { cbn [space_loop] in E. injection E as <- <- <-. done. }
    split; [lia|]. intros ? ? [= <- _]. lia.
  - destruct (G4 ltac:(done)) as [G5 G6]. split; [done|]. intros ? ? [= <- _]. destruct l' as [|c3 l3]; [by apply Forall2_length in R'|].
    specialize (G6 c3 l3 eq_refl). assert (0 <= CHAIN_SPACE_LEN c3); [|lia]. apply Forall_cons in Hp as [Hp2 _].
    inversion R' as [|? ? ? ? R2]; subst. pose proof (space_range c3 (pl_ok _ (realigned_plain _ _ R2 Hp2))). lia.
Qed.

(** ** Making room *)

Lemma settled_cases b : settled b ->
  (chains b = [] /\ last_with_datap b = 0%nat) \/
  exists pre c es, chains b = pre ++ c :: es /\ last_with_datap b = length pre /\
    Forall plain (pre ++ c :: es) /\ Forall spare es /\ (off c = 0 -> pre = [] /\ mutable c).
Proof.
  intros [H _ _]. inversion H as [El Ed|pre c es Hp Hs Hc El Ed]; [by left|]. right. by exists pre, c, es.
Qed.

(** The same data in other chains. *)
Record kept (b b' : evbuffer) : Prop := {
  ke_settled : settled b'; ke_rest : same_rest b b'; ke_data : contents b' = contents b; ke_total : total_len b' = total_len b }.

Lemma kept_put b b1 l d : settled b -> same_rest b b1 -> total_len b1 = total_len b -> settled_list l d -> data_of l = contents b ->
  kept b (put_chains l d b1).
Proof.
  intros [H1 H2 H3] [S1 S2 S3] Ht Hl Hd. split; [|done|done|done]. split; [done| |by cbn; rewrite Ht]. cbn. change (contents (put_chains l d b1)) with (data_of l). by rewrite Hd, Ht.
Qed.

Lemma kept_core b b1 b2 : kept b b1 -> same_core b1 b2 -> kept b b2.
Proof.
  intros [K1 K2 K3 K4] S. split; [by eapply settled_core|etransitivity; [exact K2|by apply core_rest]|by rewrite (core_contents _ _ S)|by rewrite (sc_total _ _ S)].
Qed.

Lemma kept_trans b b1 b2 : kept b b1 -> kept b1 b2 -> kept b b2.
Proof. intros [K1 K2 K3 K4] [G1 G2 G3 G4]. split; [done|by etransitivity|congruence|congruence]. Qed.

Lemma fresh_plain n c : fresh n c -> plain c.
Proof. intros F. split; [by eapply fresh_ok|]. by rewrite (fr_flags _ _ F). Qed.

Lemma fresh_spare n c : fresh n c -> spare c.
Proof. intros F. split; [apply F|]. unfold mutable. by rewrite (fr_flags _ _ F). Qed.

(** The space that there is from last_with_datap on. *)
Definition roomy (n : Z) (b : evbuffer) : Prop := chains b <> [] /\ n <= space (drop (last_with_datap b) (chains b)).

(** A new chain behind the others. *)
Lemma settled_snoc pre c es t n :
  settled_list (pre ++ c :: es) (length pre) -> fresh n t -> settled_list ((pre ++ c :: es) ++ [t]) (length pre) /\
  data_of ((pre ++ c :: es) ++ [t]) = data_of (pre ++ c :: es) /\
  n <= space (drop (length pre) ((pre ++ c :: es) ++ [t])) - space (c :: es).
Proof.
  intros H F. inversion H as [E|pre' c' es' Hp Hs Hc El Ed]; [by destruct pre|].
  apply app_inj_1 in El as [<- [= <- <-]]; [|done]. split_and!.
  - rewrite <-app_assoc. cbn [app]. apply settled_cons; [|apply Forall_app; split; [done|]; constructor; [by eapply fresh_spare|constructor]|done].
    change (pre' ++ c' :: es' ++ [t]) with (pre' ++ (c' :: es') ++ [t]). rewrite app_assoc. apply Forall_app. split; [done|]. constructor; [by eapply fresh_plain|constructor].
  - rewrite data_of_app, data_of_one, cdata_empty, app_nil_r; [done|apply F].
  - rewrite <-app_assoc, drop_app_length. change ((c' :: es') ++ [t]) with ((c' :: es') ++ [t]). rewrite space_app, (space_cons t). pose proof (fresh_space n t F). cbn. lia.
Qed.

Lemma settled_fresh n t : fresh n t -> settled_list [t] 0 /\ data_of [t] = [] /\ n <= space [t].
Proof.
  intros F. split_and!.
  - apply (settled_cons [] t []); [|constructor|by intros _; split; [|apply (fresh_spare n)]]. constructor; [by eapply fresh_plain|constructor].
  - rewrite data_of_one, cdata_empty; [done|apply F].
  - rewrite space_cons. pose proof (fresh_space n t F). cbn. lia.
Qed.

(** No chain yet, or a last chain that cannot be written to. *)
Lemma expand_insert_run datlen b :
  settled b -> 0 <= datlen <= LIMIT -> match last (chains b) with None => true | Some c => has (cflags c) EVBUFFER_IMMUTABLE end = true ->
  exists r b', (let! c := evbuffer_chain_new datlen in
    match c with
    | None => ret (-1)
    | Some c => evbuffer_chain_insert c ;; ret 0
    end) b = Ok (r, b') /\ kept b b' /\ ((r = -1 /\ ~ enough_memory b) \/ (r = 0 /\ roomy datlen b')).
Proof.
  intros H Hd Hlast. destruct (chain_new_run datlen b Hd) as (o & b1 & E1 & S1 & Hf & Hm). rewrite (bind_ok _ _ _ _ _ E1).
  assert (K1 : kept b b1) by (eapply kept_core; [|exact S1]; by split).
  destruct o as [t|]; [|exists (-1), b1; split_and!; [done|done|left; split; [done|]; intros He; by destruct (Hm He)]].
  specialize (Hf t eq_refl). pose proof (ke_settled _ _ K1) as [L1 T1 Z1]. rewrite <-(sc_chains _ _ S1) in Hlast.
  assert (Hoff : off t = 0) by apply Hf. assert (Hu : u64 (total_len b1 + off t) = total_len b1).
  { rewrite Hoff, Z.add_0_r. apply Z.mod_small. unfold EV_SIZE_MAX in Z1. lia. }
  assert (Hput : forall l d, settled_list l d -> data_of l = contents b -> kept b (put_total (u64 (total_len b1 + off t)) (put_chains l d b1))).
  { intros l d Hl Hdd. rewrite Hu. eapply kept_core; [apply (kept_put b b1 l d H (ke_rest _ _ K1) (ke_total _ _ K1) Hl Hdd)|]. done. }
  rewrite <-(core_contents _ _ S1) in Hput. unfold contents in Hput. unfold evbuffer_chain_insert.
  destruct (settled_cases _ (ke_settled _ _ K1)) as [[El Ed]|(pre & c & es & El & Ed & Hp & Hs & Hc)].
  - destruct (settled_fresh datlen t Hf) as (F1 & F2 & F3). exists 0. eexists. split.
    { unfold bind, get. rewrite El, Ed. cbn [lookup list_lookup]. reflexivity. }
    split; [apply Hput; [done|by rewrite El, F2]|]. right. split; [done|]. split; [done|exact F3].
  - assert (es = []) as ->.
    { destruct es as [|es x _] using rev_ind; [done|]. apply Forall_app in Hs as [_ Hs]. apply Forall_cons in Hs as [Hx _].
      rewrite El, app_comm_cons, app_assoc, last_snoc, (sp_mut _ Hx) in Hlast. done. }
    assert (Hne : off c <> 0). { intros E0. destruct (Hc E0) as [_ Hm0]. rewrite El, last_snoc, Hm0 in Hlast. done. }
    rewrite El in Hput, L1. rewrite Ed in L1. destruct (settled_snoc pre c [] t datlen L1 Hf) as (F1 & F2 & F3).
    exists 0, (put_total (u64 (total_len b1 + off t)) (put_chains ((pre ++ [c]) ++ [t]) (length pre) b1)). split.
    { unfold bind, get, find_victim. rewrite El, Ed, list_lookup_middle, drop_app_length by done. cbn [victim].
      rewrite (proj2 (Z.eqb_neq (off c) 0) Hne). cbn [negb orb]. rewrite (proj2 (Nat.leb_le _ _)) by (rewrite length_app; simpl; lia).
      unfold modify. rewrite Hoff. cbn [Z.eqb]. rewrite Z.eqb_refl. reflexivity. }
    split; [by apply Hput|]. right. split; [done|]. split; [by destruct pre|].
    apply Forall_app in Hp as [_ Hp]. pose proof (space_nonneg [c] Hp). change (datlen <= space (drop (length pre) ((pre ++ [c]) ++ [t]))). lia.
Qed.

Lemma spare_empty es : Forall spare es -> evbuffer_chains_all_empty es = true.
Proof.
  induction 1 as [|c es Hc _ IH]; [done|]. unfold evbuffer_chains_all_empty in *. cbn [forallb]. by rewrite IH, (sp_off _ Hc).
Qed.

(** All chains without data are replaced by one that is large enough. *)
Lemma replace_empty_run datlen b pre c es :
  settled b -> chains b = pre ++ c :: es -> last_with_datap b = length pre -> CHAIN_SPACE_LEN c <= datlen <= LIMIT ->
  exists r b',
    (let! c := chain_at (length pre) in
     let! (rmv_all, avail, gone) :=
       (if Z.eqb (off c) 0 then assert_that (Nat.eqb (length pre) 0) ;; ret (true, 0, length pre)
        else ret (false, CHAIN_SPACE_LEN c, S (length pre))) in
     let! b := get in
     assert_that (evbuffer_chains_all_empty (drop gone (chains b))) ;;
     evbuffer_free_all_chains (drop gone (chains b)) ;;
     assert_that (Z.leb avail datlen) ;;
     let! tmp := evbuffer_chain_new (datlen - avail) in
     match tmp with
     | None =>
         modify (fun b => if rmv_all : bool then ZERO_CHAIN b else put_chains (take gone (chains b)) (last_with_datap b) b) ;;
         ret (-1)
     | Some tmp =>
         modify (fun b => if rmv_all : bool then put_chains [tmp] 0 b else put_chains (take gone (chains b) ++ [tmp]) (last_with_datap b) b) ;;
         ret 0
     end) b = Ok (r, b') /\ kept b b' /\ ((r = -1 /\ ~ enough_memory b) \/ (r = 0 /\ roomy datlen b')).
Proof.
  intros H El Ed Hd. pose proof (se_list _ H) as L. rewrite El, Ed in L. inversion L as [E|pre' c2 es2 Hp Hs Hc E1 E2]; [by destruct pre|].
  apply app_inj_1 in E1 as [-> [= -> ->]]; [|done]. clear E2. assert (Hcp : plain c) by (apply Forall_app in Hp as [_ Hp]; by apply Forall_cons in Hp as [? _]).
  pose proof (space_range c (pl_ok _ Hcp)) as Hsp. assert (Hes : data_of es = []) by (by apply data_of_spare).
  rewrite (bind_ok _ _ _ _ _ (chain_at_app b pre c es El)).
  set (rmv := Z.eqb (off c) 0). set (avail := if rmv then 0 else CHAIN_SPACE_LEN c). set (gone := if rmv then length pre else S (length pre)).
  assert (E1 : (if Z.eqb (off c) 0 then assert_that (Nat.eqb (length pre) 0) ;; ret (true, 0, length pre) else ret (false, CHAIN_SPACE_LEN c, S (length pre))) b = Ok ((rmv, avail, gone), b)).
  { unfold gone, avail, rmv. destruct (Z.eqb_spec (off c) 0) as [E0|]; [|done]. by destruct (Hc E0) as [-> _]. }
  rewrite (bind_ok _ _ _ _ _ E1). cbv beta iota. gotten b. assert (Hav : 0 <= avail <= datlen) by (unfold avail; destruct rmv; lia).
  assert (Hdrop : evbuffer_chains_all_empty (drop gone (chains b)) = true).
  { apply spare_empty. rewrite El. unfold gone, rmv. destruct (Z.eqb_spec (off c) 0) as [E0|].
    - rewrite drop_app_length. constructor; [|done]. by split; [|apply Hc].
    - change (S (length pre)) with (1 + length pre)%nat. rewrite Nat.add_comm, <-drop_drop, drop_app_length. done. }
  rewrite Hdrop. unfold bind at 1, assert_that at 1, ret at 1. destruct (free_all_run (drop gone (chains b)) b) as (b2 & E2 & S2). rewrite (bind_ok _ _ _ _ _ E2).
  rewrite (proj2 (Z.leb_le avail datlen)) by lia. unfold bind at 1, assert_that at 1, ret at 1.
  destruct (chain_new_run (datlen - avail) b2) as (o & b3 & E3 & S3 & Hf & Hm); [lia|]. rewrite (bind_ok _ _ _ _ _ E3).
  assert (S23 : same_core b b3) by (by etransitivity). assert (Hr : same_rest b b3) by (by apply core_rest). assert (Ht3 : total_len b3 = total_len b) by apply S23.
  assert (Hmem : enough_memory b -> is_Some o) by (intros He; apply Hm; intros k; rewrite (sc_mem _ _ S2); apply He).
  assert (Hlist : rmv = false -> take gone (chains b3) = pre ++ [c] /\ data_of (pre ++ [c]) = contents b /\ settled_list (pre ++ [c]) (length pre)).
  { intros Er. unfold gone. rewrite Er, (sc_chains _ _ S23), El. unfold contents. rewrite El, !data_of_app, (data_of_cons c es), Hes, app_nil_r, data_of_one. split_and!; [|done|].
    - rewrite <-Nat.add_1_r, take_app_add. done.
    - apply settled_cons; [|constructor|done]. apply Forall_app in Hp as [Hp1 Hp2]. apply Forall_cons in Hp2 as [Hp2 _]. apply Forall_app. split; [done|by constructor]. }
  assert (Hall : rmv = true -> contents b = []).
  { intros Er%Z.eqb_eq. destruct (Hc Er) as [-> _]. unfold contents. rewrite El; cbn [app]; by rewrite data_of_cons, cdata_empty. }
  destruct o as [t|].
  - specialize (Hf t eq_refl). exists 0. eexists. split; [reflexivity|]. destruct rmv eqn:Er.
    + destruct (settled_fresh _ t Hf) as (F1 & F2 & F3). split; [apply kept_put; try done; by rewrite F2, Hall|]. right. split; [done|]. split; [done|].
      unfold avail in F3. rewrite Z.sub_0_r in F3. exact F3.
    + destruct (Hlist eq_refl) as (-> & D & L'). destruct (settled_snoc pre c [] t _ L' Hf) as (F1 & F2 & F3). rewrite (sc_lwd _ _ S23), Ed.
      split; [apply kept_put; try done; by rewrite F2|]. right. split; [done|]. split; [by destruct pre|]. cbn [chains last_with_datap put_chains].
      unfold avail in F3. rewrite space_cons in F3. cbn [space foldr] in F3. lia.
  - exists (-1). eexists. split; [reflexivity|]. split; [|left; split; [done|]; intros He; by destruct (Hmem He)]. destruct rmv eqn:Er.
    + specialize (Hall eq_refl). assert (Hz : total_len b = 0) by (rewrite (se_total _ H), Hall; done). split; [|by destruct Hr|by rewrite Hall|by cbn].
      split; [apply settled_nil|done|done].
    + destruct (Hlist eq_refl) as (-> & D & L'). rewrite (sc_lwd _ _ S23), Ed. by apply kept_put.
Qed.

(** The search ended: there is room, a chain is added, or the empty chains are
    replaced. *)
Lemma _expand_fast_run datlen n b :
  settled b -> (2 <= n)%nat -> 0 <= datlen <= LIMIT ->
  exists r b', _evbuffer_expand_fast datlen n b = Ok (r, b') /\ kept b b' /\ ((r = -1 /\ ~ enough_memory b) \/ (r = 0 /\ roomy datlen b')).
Proof.
  intros H Hn Hd. unfold _evbuffer_expand_fast. rewrite (proj2 (Nat.leb_le 2 n) Hn). unfold bind at 1, assert_that at 1, ret at 1. gotten b.
  destruct (match last (chains b) with None => true | Some c => has (cflags c) EVBUFFER_IMMUTABLE end) eqn:Hlast; [by apply expand_insert_run|].
  destruct (settled_cases b H) as [[El Ed]|(pre & c & es & El & Ed & Hp & Hs & Hc)]; [by rewrite El in Hlast|].
  pose proof Hp as Hp'. apply Forall_app in Hp' as [Hpre Hces].
  destruct (space_loop_run (c :: es) pre b datlen 0 0 n) as (r & l' & E & R & G); try done; try lia.
  { intros c2 l2 [= <- <-]. split_and!; [done|intros E0; by apply Hc|by rewrite Ed]. }
  assert (HL : 0 <= LIMIT) by (by vm_compute).
  cbv zeta. rewrite Ed, El, drop_app_length. rewrite (bind_ok _ _ _ _ _ E). rewrite Ed.
  inversion R as [|? c' ? es' Rc Res]; subst. set (b1 := put_chains (pre ++ c' :: es') (length pre) b) in *.
  assert (L1 : settled_list (pre ++ c' :: es') (length pre)).
  { apply settled_cons; [|by eapply (Forall2_keep spare); [apply realigned_spare|exact Res|]|].
    - apply Forall_app. split; [done|]. eapply (Forall2_keep plain); [apply realigned_plain|exact R|done].
    - intros E0. rewrite (realigned_off _ _ Rc) in E0. destruct (Hc E0) as [-> Hm]. split; [done|by eapply realigned_mutable]. }
  assert (D1 : data_of (pre ++ c' :: es') = contents b) by (unfold contents; rewrite El, !data_of_app; f_equal; by apply realigned_data).
  assert (K1 : kept b b1) by (by apply kept_put).
  destruct r as [[[avail used] ended]|]; [|exists 0, b1; split_and!; [done|done|right; split; [done|]]; split; [by destruct pre|change (datlen <= space (drop (length pre) (pre ++ c' :: es'))); rewrite drop_app_length; lia]].
  destruct G as (G1 & G2 & G3 & G4). destruct (G4 ltac:(done)) as [G5 G6]. specialize (G6 c' es' eq_refl). clear G4.
  destruct (Nat.ltb_spec used n) as [Hu|Hu].
  - rewrite (G2 Hu). unfold bind at 1, assert_that at 1, ret at 1. specialize (G3 (G2 Hu)).
    apply Forall_app in Hp as [_ Hp]. pose proof (Forall2_keep plain _ _ realigned_plain R Hp) as Hp'. pose proof (space_nonneg _ Hp') as Hsn.
    assert (Hu64 : u64 (datlen - avail) = datlen - avail) by (apply Z.mod_small; unfold LIMIT in Hd; change (2 ^ 61) with 2305843009213693952 in Hd; unfold EVBUFFER_CHAIN_SIZE in Hd; lia).
    rewrite Hu64. destruct (chain_new_run (datlen - avail) b1) as (o & b2 & E2 & S2 & Hf & Hm); [lia|]. rewrite (bind_ok _ _ _ _ _ E2).
    destruct o as [t|].
    + specialize (Hf t eq_refl). destruct (settled_snoc pre c' es' t _ L1 Hf) as (F1 & F2 & F3). exists 0. eexists. split; [reflexivity|].
      rewrite (sc_chains _ _ S2), (sc_lwd _ _ S2). split; [apply kept_put; try done; [by destruct S2|by rewrite (sc_total _ _ S2)|exact (eq_trans F2 D1)]|].
      right. split; [done|]. split; [by destruct pre|]. cbn [chains last_with_datap put_chains b1] in *. lia.
    + exists (-1), b2. split_and!; [done|by eapply kept_core|left; split; [done|]; intros He; by destruct (Hm He)].
  - destruct (replace_empty_run datlen b1 pre c' es' (ke_settled _ _ K1) eq_refl eq_refl) as (r & b2 & E2 & K2 & G7); [lia|].
    exists r, b2. split_and!; [exact E2|by eapply kept_trans|]. exact G7.
Qed.

(** ** Filling the free memory *)

(** The iovecs of the chains [l], the first of which is number [i]: all of
    their space, but for the last perhaps only a part. *)
Inductive vecs_ok : nat -> list iovec -> list chain -> Prop :=
| vecs_nil i l : vecs_ok i [] l
| vecs_last i c l n : 0 <= n <= CHAIN_SPACE_LEN c -> vecs_ok i [(i, misalign c + off c, n)] (c :: l)
| vecs_cons i c l v : vecs_ok (S i) v l -> vecs_ok i ((i, misalign c + off c, CHAIN_SPACE_LEN c) :: v) (c :: l).

Lemma setup_loop_run k : forall l i howmuch so_far exact b,
  Forall plain l -> 0 <= so_far -> howmuch <= so_far + space l ->
  exists v, setup_loop k l i howmuch so_far exact b = Ok (v, b) /\ vecs_ok i v l.
Proof.
  induction k as [|k IH]; intros l i howmuch so_far exact b Hp Hs Hh; cbn [setup_loop]; [exists []; split; [done|constructor]|].
  destruct (Z.ltb_spec so_far howmuch) as [Hlt|Hge]; [|exists []; split; [done|constructor]].
  destruct l as [|c l]; [cbn in Hh; lia|]. apply Forall_cons in Hp as [Hc Hp]. rewrite space_cons in Hh. pose proof (space_range c (pl_ok _ Hc)) as Hsp.
  destruct (Z.ltb (howmuch - so_far) (CHAIN_SPACE_LEN c) && exact) eqn:E.
  - apply andb_prop in E as [E%Z.ltb_lt _]. assert (E0 : setup_loop k l (S i) howmuch (so_far + (howmuch - so_far)) exact b = Ok ([], b)).
    { destruct k as [|k]; [done|]. cbn [setup_loop]. by rewrite (proj2 (Z.ltb_ge _ _)) by lia. }
    rewrite (bind_ok _ _ _ _ _ E0). eexists. split; [done|]. apply vecs_last. lia.
  - destruct (IH l (S i) howmuch (so_far + CHAIN_SPACE_LEN c) exact b Hp) as (v & Ev & Hv); [lia|lia|]. rewrite (bind_ok _ _ _ _ _ Ev).
    eexists. split; [done|]. by apply vecs_cons.
Qed.

Lemma fits c n : chain_ok c -> 0 <= n <= CHAIN_SPACE_LEN c -> misalign c + off c + n <= buffer_len c.
Proof. intros [H1 H2 H3 _ _] Hn. unfold CHAIN_SPACE_LEN in Hn. case_match; lia. Qed.

(** [d] stored behind the data of a chain, and counted. *)
Definition stored (c : chain) (d : bytes) : chain := written c (patch (buffer c) (Z.to_nat (misalign c + off c)) d).
Definition filled (c : chain) (d : bytes) : chain := set_off (misalign c) (off c + Z.of_nat (length d)) (stored c d).

Lemma filled_plain c d : plain c -> Z.of_nat (length d) <= CHAIN_SPACE_LEN c -> plain (filled c d) /\ cdata (filled c d) = cdata c ++ d.
Proof.
  intros [Hc Hm] Hd. destruct (append_chain c d Hc) as [G1 G2]; [apply fits; [done|lia]|]. by split.
Qed.

Lemma stored_plain c d : plain c -> Z.of_nat (length d) <= CHAIN_SPACE_LEN c -> plain (stored c d) /\ cdata (stored c d) = cdata c.
Proof.
  intros Hc Hd. pose proof (pl_ok _ Hc) as [H1 H2 H3 H4 H5]. pose proof (fits c (Z.of_nat (length d)) (pl_ok _ Hc) ltac:(lia)) as Hf.
  assert (Hb : buffer_len (stored c d) = buffer_len c) by (apply patch_buffer_len; lia).
  split; [split; [|apply Hc]; split; rewrite ?Hb; done|]. unfold cdata, stored, patch. cbn. unfold buffer_len in *.
  rewrite drop_app_le by (rewrite length_take; lia). rewrite take_app_le by (rewrite length_drop, length_take; lia).
  rewrite skipn_firstn_comm, take_take. do 2 f_equal. lia.
Qed.

Lemma stored_space c d : chain_ok c -> Z.of_nat (length d) <= CHAIN_SPACE_LEN c -> CHAIN_SPACE_LEN (stored c d) = CHAIN_SPACE_LEN c.
Proof.
  intros Hc Hd. pose proof (fits c (Z.of_nat (length d)) Hc ltac:(lia)). unfold CHAIN_SPACE_LEN, stored. cbn. case_match; [done|]. f_equal.
  apply patch_buffer_len; [|lia]. destruct Hc. lia.
Qed.

Lemma chain_store_run b pre c l d p : chains b = pre ++ c :: l -> chain_ok c -> p = misalign c + off c -> Z.of_nat (length d) <= CHAIN_SPACE_LEN c ->
  (let! c := chain_at (length pre) in let! c := chain_write c p d in put_chain (length pre) c) b
  = Ok (tt, put_chains (pre ++ stored c d :: l) (last_with_datap b) b).
Proof.
  intros Eb Hc -> Hd. rewrite (bind_ok _ _ _ _ _ (chain_at_app b pre c l Eb)). pose proof (fits c (Z.of_nat (length d)) Hc ltac:(lia)) as Hf.
  rewrite (bind_ok _ _ _ _ _ (chain_write_run c b (misalign c + off c) d ltac:(destruct Hc; lia) Hf)). by apply (put_chain_at b pre c l).
Qed.

Lemma stored_nil c : stored c [] = c.
Proof. unfold stored, written. rewrite patch_nil. by destruct c. Qed.

Lemma scatter_cons i p n v d b b1 : (let! c := chain_at i in let! c := chain_write c p (take (Z.to_nat n) d) in put_chain i c) b = Ok (tt, b1) ->
  scatter ((i, p, n) :: v) d b = scatter v (drop (Z.to_nat n) d) b1.
Proof.
  intros E. cbn [scatter]. unfold bind in *. destruct (chain_at i b) as [[c b']|]; [|done]. destruct (chain_write c p _ b') as [[c' b'']|]; [|done].
  by rewrite E.
Qed.

Lemma put_same b : put_chains (chains b) (last_with_datap b) b = b.
Proof. by destruct b. Qed.

(** Storing nothing. *)
Lemma scatter_nil i v l : vecs_ok i v l -> forall pre b, length pre = i -> chains b = pre ++ l -> Forall plain l -> scatter v [] b = Ok (tt, b).
Proof.
  induction 1 as [i l|i c l n Hn|i c l v _ IH]; intros pre b <- Eb Hp; [done|..]; apply Forall_cons in Hp as [Hc Hp].
  - pose proof (space_range c (pl_ok _ Hc)). pose proof (chain_store_run b pre c l [] _ Eb (pl_ok _ Hc) eq_refl ltac:(cbn; lia)) as E. rewrite stored_nil, <-Eb, put_same in E.
    erewrite scatter_cons; [|rewrite take_nil; exact E]. done.
  - pose proof (space_range c (pl_ok _ Hc)). pose proof (chain_store_run b pre c l [] _ Eb (pl_ok _ Hc) eq_refl ltac:(cbn; lia)) as E. rewrite stored_nil, <-Eb, put_same in E.
    erewrite scatter_cons; [|rewrite take_nil; exact E]. rewrite drop_nil. apply (IH (pre ++ [c])); [rewrite length_app; cbn; lia| |done].
    by rewrite <-app_assoc.
Qed.

Lemma data_of_spares c l : Forall spare l -> data_of (c :: l) = cdata c.
Proof. intros H. by rewrite data_of_cons, (data_of_spare l H), app_nil_r. Qed.

Lemma spread_full k i b pre c l r : chains b = pre ++ c :: l -> length pre = i -> chain_ok c -> CHAIN_SPACE_LEN c < r ->
  spread (S k) i r b = spread k (S i) (r - CHAIN_SPACE_LEN c) (put_chains (pre ++ set_off (misalign c) (off c + CHAIN_SPACE_LEN c) c :: l) (last_with_datap b) b).
Proof.
  intros Eb <- Hc Hr. cbn [spread]. rewrite (bind_ok _ _ _ _ _ (chain_at_app b pre c l Eb)). pose proof (space_range c Hc) as Hs.
  rewrite Z.min_l by (transitivity LIMIT; [lia|by vm_compute]). rewrite (proj2 (Z.ltb_lt _ _)) by done.
  by rewrite (bind_ok _ _ _ _ _ (put_chain_at b pre c l _ _ Eb eq_refl)).
Qed.

Lemma spread_last k i b pre c l r : chains b = pre ++ c :: l -> length pre = i -> chain_ok c -> r <= CHAIN_SPACE_LEN c ->
  spread (S k) i r b = Ok (tt, put_chains (pre ++ set_off (misalign c) (off c + r) c :: l) i b).
Proof.
  intros Eb <- Hc Hr. cbn [spread]. rewrite (bind_ok _ _ _ _ _ (chain_at_app b pre c l Eb)). pose proof (space_range c Hc) as Hs.
  rewrite Z.min_l by (transitivity LIMIT; [lia|by vm_compute]). rewrite (proj2 (Z.ltb_ge _ _)) by done.
  by rewrite (bind_ok _ _ _ _ _ (put_chain_at b pre c l _ _ Eb eq_refl)).
Qed.

(** What storing [d] and counting it does: the bytes are behind the data, and
    last_with_datap leads to the last of them. *)
Definition takes_in (i : nat) (v : list iovec) (l : list chain) (d : bytes) : Prop :=
  exists l' pre2 c2 es2,
    (forall pre b, length pre = i -> chains b = pre ++ l -> scatter v d b = Ok (tt, put_chains (pre ++ l') (last_with_datap b) b)) /\
    (forall pre b, length pre = i -> chains b = pre ++ l' ->
       spread (length v) i (Z.of_nat (length d)) b = Ok (tt, put_chains (pre ++ pre2 ++ c2 :: es2) (i + length pre2) b)) /\
    Forall plain (pre2 ++ c2 :: es2) /\ Forall spare es2 /\ off c2 <> 0 /\ data_of (pre2 ++ c2 :: es2) = data_of l ++ d.

(** All of it fits into the first chain. *)
Lemma takes_in_here i v c l n d :
  vecs_ok (S i) v l -> plain c -> Forall plain l -> Forall spare l -> d <> [] -> Z.of_nat (length d) <= n <= CHAIN_SPACE_LEN c ->
  takes_in i ((i, misalign c + off c, n) :: v) (c :: l) d.
Proof.
  intros Hv Hc Hp Hs Hd Hn. pose proof (co_off _ (pl_ok _ Hc)) as Ho. destruct (filled_plain c d Hc ltac:(lia)) as [Fp Fd].
  exists (stored c d :: l), [], (filled c d), l. split_and!; try done.
  - intros pre b <- Eb. pose proof (chain_store_run b pre c l d _ Eb (pl_ok _ Hc) eq_refl ltac:(lia)) as E. erewrite scatter_cons; [|rewrite take_ge by lia; exact E].
    rewrite drop_ge by lia. apply (scatter_nil (S (length pre)) v l Hv (pre ++ [stored c d])); [rewrite length_app; cbn; lia|cbn; by rewrite <-app_assoc|done].
  - intros pre b Hpre Eb. rewrite Nat.add_0_r. cbn [length app]. apply (spread_last _ i b pre (stored c d) l); [done|done| |rewrite stored_space by (apply Hc || lia); lia].
    apply (pl_ok _ (proj1 (stored_plain c d Hc ltac:(lia)))).
  - by constructor.
  - destruct d; [done|]. cbn. lia.
  - cbn [app]. rewrite !data_of_spares, Fd by done. done.
Qed.

(** The first chain is filled, the rest of the bytes goes on. *)
Lemma takes_in_next i v c l d1 d2 :
  plain c -> Forall spare l -> Z.of_nat (length d1) = CHAIN_SPACE_LEN c -> d2 <> [] -> takes_in (S i) v l d2 ->
  takes_in i ((i, misalign c + off c, CHAIN_SPACE_LEN c) :: v) (c :: l) (d1 ++ d2).
Proof.
  intros Hc Hs H1 H2 (l' & pre2 & c2 & es2 & A & B & Hp & Hes & Hne & Hdata). destruct (filled_plain c d1 Hc ltac:(lia)) as [Fp Fd].
  assert (Hz : Z.to_nat (CHAIN_SPACE_LEN c) = length d1) by lia.
  exists (stored c d1 :: l'), (filled c d1 :: pre2), c2, es2. split_and!; try done.
  - intros pre b <- Eb. pose proof (chain_store_run b pre c l d1 _ Eb (pl_ok _ Hc) eq_refl ltac:(lia)) as E.
    erewrite scatter_cons; [|rewrite Hz, take_app_length; exact E]. rewrite Hz, drop_app_length.
    rewrite (A (pre ++ [stored c d1])); [|rewrite length_app; cbn; lia|cbn; by rewrite <-app_assoc]. by rewrite <-app_assoc.
  - intros pre b Hpre Eb. cbn [length]. destruct (stored_plain c d1 Hc ltac:(lia)) as [Sp _]. pose proof (stored_space c d1 (pl_ok _ Hc) ltac:(lia)) as Ss.
    rewrite (spread_full _ i b pre (stored c d1) l'); [|done|done|apply Sp|rewrite Ss, length_app; destruct d2; [done|cbn; lia]].
    rewrite Ss, length_app, <-H1. replace (Z.of_nat (length d1 + length d2) - Z.of_nat (length d1)) with (Z.of_nat (length d2)) by lia.
    rewrite (B (pre ++ [filled c d1])); [|rewrite length_app; cbn; lia|cbn; by rewrite <-app_assoc].
    rewrite <-app_assoc. cbn [app length]. by rewrite Nat.add_succ_r.
  - cbn [app]. by constructor.
  - cbn [app]. rewrite data_of_cons, Hdata, Fd, data_of_spares, (data_of_spare l Hs) by done. by rewrite <-app_assoc.
Qed.

Lemma room_cons i p n v : room ((i, p, n) :: v) = (Z.to_nat n + room v)%nat.
Proof. done. Qed.

Lemma takes_in_run i v l : vecs_ok i v l -> forall d,
  Forall plain l -> Forall spare (tail l) -> d <> [] -> (length d <= room v)%nat -> takes_in i v l d.
Proof.
  induction 1 as [i l|i c l n Hn|i c l v Hv IH]; intros d Hp Hs Hd Hr; [destruct d; [done|cbn in Hr; lia]|..];
    apply Forall_cons in Hp as [Hc Hp]; cbn [tail] in Hs; rewrite room_cons in Hr.
  - apply takes_in_here; try done; [constructor|]. change (room []) with 0%nat in Hr. lia.
  - pose proof (space_range c (pl_ok _ Hc)). destruct (Z.leb_spec (Z.of_nat (length d)) (CHAIN_SPACE_LEN c)) as [Hle|Hgt]; [by apply takes_in_here|].
    rewrite <-(take_drop (Z.to_nat (CHAIN_SPACE_LEN c)) d). apply takes_in_next; try done; [rewrite length_take; lia| |].
    + intros E%(f_equal length). rewrite length_drop in E. cbn in E. lia.
    + apply IH; [done|by destruct Hs| |rewrite length_drop; lia].
      intros E%(f_equal length). rewrite length_drop in E. cbn in E. lia.
Qed.

(** ** evbuffer_read *)

Lemma bind_assoc_run {S A B C} (m : M S A) (f : A -> M S B) (g : B -> M S C) s a s' :
  m s = Ok (a, s') -> bind (bind m f) g s = bind (f a) g s'.
Proof. intros E. unfold bind. by rewrite E. Qed.

(** The iovecs cover free memory of the chains from [first] on. *)
Lemma setup_vecs_run howmuch n exact b :
  settled b -> 0 <= howmuch -> roomy howmuch b ->
  exists v first, _evbuffer_read_setup_vecs howmuch n exact b = Ok (Some (v, first), b) /\
    vecs_ok first v (drop first (chains b)) /\ (first <= length (chains b))%nat /\
    Forall plain (drop first (chains b)) /\ Forall spare (tail (drop first (chains b))) /\
    settled_list (take first (chains b) ++ drop first (chains b)) (last_with_datap b) /\ (last_with_datap b <= first)%nat.
Proof.
  intros H Hh [Hne Hr]. destruct (settled_cases b H) as [[El _]|(pre & c & es & El & Ed & Hp & Hs & Hc)]; [done|].
  unfold _evbuffer_read_setup_vecs. rewrite (proj2 (Z.ltb_ge _ _)) by done. gotten b. rewrite Ed, (bind_ok _ _ _ _ _ (chain_at_app b pre c es El)).
  rewrite El, Ed, drop_app_length, space_cons in Hr. pose proof Hp as Hp'. apply Forall_app in Hp' as [_ Hp']. pose proof Hp' as Hces. apply Forall_cons in Hp' as [Hcp Hes].
  set (first := if Z.eqb (CHAIN_SPACE_LEN c) 0 then S (length pre) else length pre).
  assert (Hdr : drop first (chains b) = if Z.eqb (CHAIN_SPACE_LEN c) 0 then es else c :: es).
  { rewrite El. unfold first. destruct (Z.eqb _ 0); [|apply drop_app_length]. rewrite <-Nat.add_1_r, <-drop_drop, drop_app_length. done. }
  assert (Hpl : Forall plain (drop first (chains b))) by (rewrite Hdr; by destruct (Z.eqb _ 0)).
  destruct (setup_loop_run n (drop first (chains b)) first howmuch 0 exact b Hpl) as (v & Ev & Hv); [lia|rewrite Hdr; destruct (Z.eqb_spec (CHAIN_SPACE_LEN c) 0); [lia|rewrite space_cons; lia]|].
  cbv zeta. rewrite (bind_ok _ _ _ _ _ Ev). exists v, first. split_and!; try done.
  - rewrite El, length_app. unfold first. destruct (Z.eqb _ 0); cbn; lia.
  - rewrite Hdr. destruct (Z.eqb _ 0); [|done]. destruct es; [done|]. by apply Forall_cons in Hs as [_ ?].
  - rewrite take_drop, <-Ed. apply H.
  - unfold first. destruct (Z.eqb _ 0); lia.
Qed.

(** The bytes are counted. *)
Lemma count_run d b : settled b -> total_len b + Z.of_nat (length d) <= EV_SIZE_MAX -> forall b1,
  same_rest b b1 -> total_len b1 = total_len b -> settled_list (chains b1) (last_with_datap b1) -> contents b1 = contents b ++ d ->
  exists b', (count_added (Z.of_nat (length d)) ;; evbuffer_invoke_callbacks) b1 = Ok (tt, b') /\ settled b' /\ same_rest b b' /\ contents b' = contents b ++ d.
Proof.
  intros [H1 H2 H3] Hd b1 S1 T1 L1 C1. assert (Hu : u64 (total_len b1 + Z.of_nat (length d)) = total_len b + Z.of_nat (length d)).
  { rewrite T1. apply Z.mod_small. unfold EV_SIZE_MAX in Hd. lia. }
  set (b2 := put_counts (u64 (n_add_for_cb b1 + Z.of_nat (length d))) (n_del_for_cb b1) (put_total (u64 (total_len b1 + Z.of_nat (length d))) b1)).
  rewrite (bind_ok _ _ _ _ _ (eq_refl : count_added (Z.of_nat (length d)) b1 = Ok (tt, b2))). destruct (invoke_run b2) as (b3 & E3 & S3). exists b3. split; [done|].
  assert (Hs2 : settled b2). { split; [done| |by cbn; rewrite Hu]. cbn. rewrite Hu. change (contents b2) with (contents b1). rewrite C1, length_app. lia. }
  split_and!; [by eapply settled_core| |].
  - etransitivity; [exact S1|]. etransitivity; [|by apply core_rest]. by destruct S1.
  - by rewrite (core_contents _ _ S3).
Qed.

(** How much evbuffer_read asks for. *)
Lemma read_size n howmuch :
  let n := if Z.leb n 0 || Z.ltb EVBUFFER_MAX_READ n then EVBUFFER_MAX_READ else n in
  0 <= (if Z.ltb howmuch 0 || Z.ltb n howmuch then n else howmuch) <= LIMIT.
Proof.
  cbv zeta. assert (HL : EVBUFFER_MAX_READ <= LIMIT) by (by vm_compute).
  assert (Hn : 0 < (if Z.leb n 0 || Z.ltb EVBUFFER_MAX_READ n then EVBUFFER_MAX_READ else n) <= EVBUFFER_MAX_READ).
  { unfold EVBUFFER_MAX_READ. destruct (Z.leb_spec n 0), (Z.ltb_spec 4096 n); cbn [orb]; lia. }
  revert Hn. generalize (if Z.leb n 0 || Z.ltb EVBUFFER_MAX_READ n then EVBUFFER_MAX_READ else n). intros m Hm.
  destruct (Z.ltb_spec howmuch 0), (Z.ltb_spec m howmuch); cbn [orb]; lia.
Qed.

Lemma ioctl_run k : exists n k', get_n_bytes_readable_on_socket k = Ok (n, k') /\ incoming k' = incoming k /\ sent k' = sent k.
Proof. unfold get_n_bytes_readable_on_socket. destruct (readable k) as [|[n|] r]; by eexists _, _. Qed.

Lemma sock_read_run cap k : exists o k', sock_read cap k = Ok (o, k') /\ sent k' = sent k /\
  match o with None => incoming k' = incoming k | Some d => incoming k = d ++ incoming k' /\ (length d <= cap)%nat end.
Proof.
  unfold sock_read. destruct (reads k) as [|[n|] r]; [by eexists None, k| |by eexists None, _].
  eexists (Some _), _. split; [reflexivity|]. split_and!; [done|by cbn; rewrite take_drop|rewrite length_take; lia].
Qed.

(** What evbuffer_read does: [d] came from the socket and is at the end of
    the buffer. *)
Definition read_outcome (b : evbuffer) (k : sock) (r : Z) (b' : evbuffer) (k' : sock) : Prop :=
  settled b' /\ same_rest b b' /\ sent k' = sent k /\
  exists d, contents b' = contents b ++ d /\ incoming k = d ++ incoming k' /\ (r = Z.of_nat (length d) \/ (r = -1 /\ d = [])).

Lemma nothing_read b k b' k' : kept b b' -> sent k' = sent k -> incoming k' = incoming k -> read_outcome b k (-1) b' k'.
Proof. intros [K1 K2 K3 K4] Hs Hi. split_and!; try done. exists []. rewrite app_nil_r. split_and!; [done|done|by right]. Qed.

(** readv and the loop after it. *)
Lemma readv_run howmuch b b0 k k0 :
  kept b0 b -> sent k = sent k0 -> incoming k = incoming k0 -> total_len b0 + Z.of_nat (length (incoming k0)) <= EV_SIZE_MAX -> 0 <= howmuch -> roomy howmuch b ->
  exists r b' k', (let! v := fst_ (_evbuffer_read_setup_vecs howmuch NUM_READ_IOVEC true) in
      match v with
      | None => ret (-1)
      | Some (v, first) =>
          let! n := readv v in
          if Z.eqb n (-1) then ret (-1)
          else if Z.eqb n 0 then ret 0
          else
            fst_ (spread (length v) first n) ;;
            fst_ (count_added n) ;;
            fst_ evbuffer_invoke_callbacks ;;
            ret n
      end) (b, k) = Ok (r, (b', k')) /\ read_outcome b0 k0 r b' k'.
Proof.
  intros K Hsent Hin Hmax Hh Hroom. pose proof (ke_settled _ _ K) as H.
  destruct (setup_vecs_run howmuch NUM_READ_IOVEC true b H Hh Hroom) as (v & first & E1 & Hv & Hle & Hp & Hs & HL & Hfirst).
  rewrite (bind_ok _ _ _ _ _ (fst_ok _ _ k _ _ E1)). cbv beta iota. unfold readv.
  destruct (sock_read_run (room v) k) as (o & k2 & E2 & Hs2 & Ho). rewrite (bind_assoc_run _ _ _ _ _ _ (snd_ok _ b _ _ _ E2)).
  destruct o as [d|]; [|exists (-1), b, k2; split; [done|]; apply nothing_read; [done|congruence|congruence]].
  destruct Ho as [Hd Hcap]. assert (Hpre : length (take first (chains b)) = first) by (rewrite length_take; lia). assert (Eb : chains b = take first (chains b) ++ drop first (chains b)) by (by rewrite take_drop).
  destruct (decide (d = [])) as [->|Hne].
  - rewrite (bind_assoc_run _ _ _ _ _ _ (fst_ok _ _ k2 _ _ (scatter_nil _ v _ Hv _ b Hpre Eb Hp))). exists 0, b, k2. split; [done|].
    destruct K as [K1 K2 K3 K4]. split_and!; try done; [congruence|]. exists []. rewrite app_nil_r. split_and!; [done|by rewrite <-Hin|by left].
  - destruct (takes_in_run first v _ Hv d Hp Hs Hne Hcap) as (l' & pre2 & c2 & es2 & A & B & Hp2 & Hes2 & Hne2 & Hdata).
    rewrite (bind_assoc_run _ _ _ _ _ _ (fst_ok _ _ k2 _ _ (A _ b Hpre Eb))). unfold bind at 1, ret at 1.
    rewrite (proj2 (Z.eqb_neq _ (-1))) by lia. rewrite (proj2 (Z.eqb_neq _ 0)) by (destruct d; [done|cbn; lia]).
    set (b1 := put_chains (take first (chains b) ++ l') (last_with_datap b) b). rewrite (bind_ok _ _ _ _ _ (fst_ok _ _ k2 _ _ (B _ b1 Hpre eq_refl))).
    set (l2 := take first (chains b) ++ pre2 ++ c2 :: es2). set (b2 := put_chains l2 (first + length pre2) b1).
    assert (Hc2 : contents b2 = contents b ++ d).
    { change (contents b2) with (data_of l2). unfold l2. rewrite data_of_app, Hdata, app_assoc, <-data_of_app, take_drop. done. }
    assert (HL2 : settled_list (chains b2) (last_with_datap b2)).
    { change (settled_list l2 (first + length pre2)). unfold l2. rewrite app_assoc.
      replace (first + length pre2)%nat with (length (take first (chains b) ++ pre2)) by (by rewrite length_app, Hpre). apply settled_cons; [|done|done].
      rewrite <-app_assoc. apply Forall_app. split; [|done]. apply Forall_take. by eapply settled_plain, H. }
    destruct (count_run d b H) with (b1 := b2) as (b3 & E3 & G1 & G2 & G3); [rewrite (ke_total _ _ K), Hin, Hd, length_app in *; lia|done|done|done|done|].
    apply bind_inv in E3 as (u & b4 & E4 & E5). destruct u. rewrite (bind_ok _ _ _ _ _ (fst_ok _ _ k2 _ _ E4)), (bind_ok _ _ _ _ _ (fst_ok _ _ k2 _ _ E5)).
    exists (Z.of_nat (length d)), b3, k2. split; [done|]. split_and!; [done|etransitivity; [apply K|done]|congruence|].
    exists d. rewrite G3, (ke_data _ _ K). split_and!; [done|by rewrite <-Hin|by left].
Qed.

Lemma stream_read_run howmuch b k :
  settled b -> total_len b + Z.of_nat (length (incoming k)) <= EV_SIZE_MAX ->
  exists r b' k', evbuffer_read howmuch (b, k) = Ok (r, (b', k')) /\ read_outcome b k r b' k'.
Proof.
  intros H Hmax. unfold evbuffer_read. rewrite (bind_ok _ _ _ _ _ (eq_refl : get (b, k) = Ok ((b, k), (b, k)))). cbv beta iota.
  assert (K0 : kept b b) by (by split). destruct (freeze_end b); [exists (-1), b, k; split; [done|by apply nothing_read]|].
  destruct (ioctl_run k) as (n & k1 & E1 & Hi & Hs). rewrite (bind_ok _ _ _ _ _ (snd_ok _ b _ _ _ E1)). cbv zeta. pose proof (read_size n howmuch) as Hh. cbv zeta in Hh.
  revert Hh. generalize (if Z.ltb howmuch 0 || Z.ltb (if Z.leb n 0 || Z.ltb EVBUFFER_MAX_READ n then EVBUFFER_MAX_READ else n) howmuch then if Z.leb n 0 || Z.ltb EVBUFFER_MAX_READ n then EVBUFFER_MAX_READ else n else howmuch).
  intros h Hh. destruct (_expand_fast_run h NUM_READ_IOVEC b H ltac:(unfold NUM_READ_IOVEC; lia) Hh) as (r & b1 & E2 & K & [[-> _]|[-> Hroom]]);
    rewrite (bind_ok _ _ _ _ _ (fst_ok _ _ k1 _ _ E2)).
  - exists (-1), b1, k1. split; [done|by apply nothing_read].
  - apply readv_run; try done. lia.
Qed.

(** ** evbuffer_write_atmost *)

Lemma set_off_plain c m o : plain c -> chain_ok (set_off m o c) -> plain (set_off m o c).
Proof. intros [_ H] Hc. by split. Qed.

(** The chains [l1] went and [n] bytes of [c]: what is left is settled. *)
Lemma drained_list l d l1 c l2 n d' :
  settled_list l d -> l = l1 ++ c :: l2 -> 0 <= n < off c ->
  (d' = 0%nat /\ (d = 0 \/ d <= length l1)%nat) \/ (d' = d /\ (length l1 = 0 \/ length l1 < d)%nat) ->
  settled_list (set_off (misalign c + n) (off c - n) c :: l2) (d' - length l1).
Proof.
  intros H -> Hn Hd. inversion H as [E|pre x es Hp Hs Hx El E2]; [by destruct l1|]. subst d.
  assert (Hc : plain c) by (rewrite El in Hp; apply Forall_app in Hp as [_ Hp]; by apply Forall_cons in Hp as [? _]).
  assert (Hc' : plain (set_off (misalign c + n) (off c - n) c)) by (apply set_off_plain; [done|]; apply drop_chain; [apply Hc|lia]).
  destruct (decide (length l1 <= length pre)%nat) as [Hle|Hgt].
  2: { exfalso. assert (Hl : (pre ++ x :: es) !! length l1 = Some c) by (rewrite El; by apply list_lookup_middle).
    rewrite lookup_app_r in Hl by lia. destruct (length l1 - length pre)%nat as [|j] eqn:Ej; [lia|]. cbn in Hl. pose proof (sp_off _ (proj1 (Forall_lookup _ _) Hs _ _ Hl)). lia. }
  destruct (decide (length l1 = length pre)) as [Heq|Hlt].
  - apply app_inj_1 in El as [-> [= -> ->]]; [|done]. replace (d' - length l1)%nat with 0%nat by lia.
    apply (settled_cons [] _ l2); [|done|cbn; lia]. cbn [app]. constructor; [done|]. apply Forall_app in Hp as [_ Hp]. by apply Forall_cons in Hp as [_ ?].
  - assert (Hpre : exists q, pre = l1 ++ c :: q /\ l2 = q ++ x :: es).
    { pose proof (f_equal (take (length l1)) El) as Et. rewrite take_app_length, take_app_le in Et by lia. pose proof (f_equal (drop (length l1)) El) as Edr. rewrite drop_app_length, drop_app_le in Edr by lia.
      destruct (drop (length l1) pre) as [|y q] eqn:Ey; [apply (f_equal length) in Ey; rewrite length_drop in Ey; cbn in Ey; lia|]. injection Edr as -> <-. exists q. split; [|done].
      by rewrite <-Et, <-Ey, take_drop. }
    destruct Hpre as (q & -> & ->). rewrite length_app in *. cbn [length] in *. replace (d' - length l1)%nat with (length (set_off (misalign c + n) (off c - n) c :: q)) by (cbn; lia).
    apply (settled_cons (_ :: q) x es); [|done|intros E0; destruct (Hx E0) as [E1 _]; by destruct l1].
    rewrite <-app_assoc in Hp. apply Forall_app in Hp as [_ Hp]. cbn [app] in *. apply Forall_cons in Hp as [_ Hp]. by constructor.
Qed.

Lemma contents_drained (l1 l2 : list chain) c n : chain_ok c -> 0 <= n <= off c ->
  data_of (set_off (misalign c + n) (off c - n) c :: l2) = drop (length (data_of l1) + Z.to_nat n) (data_of (l1 ++ c :: l2)).
Proof.
  intros Hc Hn. destruct (drop_chain c n Hc Hn) as [_ Hd]. rewrite data_of_app, !data_of_cons, Hd, <-drop_drop, drop_app_length, drop_app_le; [done|].
  rewrite length_cdata by done. lia.
Qed.

Lemma drain_settled_run n b : settled b -> 0 <= n -> freeze_start b = false ->
  exists r b', evbuffer_drain n b = Ok (r, b') /\ settled b' /\ same_rest b b' /\ contents b' = drop (Z.to_nat n) (contents b).
Proof.
  intros H Hn Hfr. pose proof H as [HL HT HM]. pose proof (settled_ok b H) as Hok. unfold evbuffer_drain. gotten b. destruct (Z.eqb_spec (total_len b) 0) as [E|E].
  { exists 0, b. split_and!; try done. assert (Hl : length (contents b) = 0%nat) by lia. apply nil_length_inv in Hl. by rewrite Hl, drop_nil. }
  rewrite Hfr, (no_pinned b Hok), andb_true_r. cbn [negb].
  match goal with |- exists r b', (let! len := ?m in _) b = _ /\ _ => assert (Hm : exists n' b', m b = Ok (n', b') /\ settled b' /\ same_rest b b' /\ contents b' = drop (Z.to_nat n) (contents b)) end.
  { destruct (Z.leb_spec (total_len b) n) as [Ht|Ht].
    - destruct (free_all_run (chains b) b) as (b1 & E1 & S1). rewrite (bind_ok _ _ _ _ _ E1). eexists _, _. split; [reflexivity|].
      split_and!; [split; [apply settled_nil|done|done]|by destruct S1|]. by rewrite drop_ge by lia.
    - set (b1 := put_total (total_len b - n) b). modified b b1.
      destruct (drain_loop_run (chains b) 0 n b1 Hok) as (l1 & c & l2 & b2 & E2 & El & Hr & S2 & W2); [unfold contents in HT; lia|].
      rewrite (bind_ok _ _ _ _ _ E2). cbv beta iota. rewrite (proj2 (Z.leb_le _ _)) by lia. set (m := n - Z.of_nat (length (data_of l1))) in *.
      replace (length (chains b) - length (c :: l2))%nat with (length l1) by (rewrite El, length_app; cbn; lia). eexists _, _. split; [reflexivity|].
      assert (Hc : chain_ok c) by (rewrite El in Hok; apply Forall_app in Hok as [_ Hok]; by apply Forall_cons in Hok as [? _]).
      set (l' := set_off (misalign c + m) (off c - m) c :: l2). assert (Hcon : data_of l' = drop (Z.to_nat n) (contents b)).
      { unfold l', contents. rewrite El, (contents_drained l1 l2 c m Hc ltac:(lia)). f_equal. lia. }
      split_and!; [|destruct S2 as [_ _ [? ? ?]]; by split|exact Hcon].
      assert (Ht2 : total_len b2 = total_len b - n) by (by rewrite (sl_total _ _ S2)). split; cbn.
      + eapply drained_list; [exact HL|done|lia|]. unfold lwd_after in W2. cbn in W2. lia.
      + rewrite Ht2. change (contents (put_chains l' (last_with_datap b2 - length l1) b2)) with (data_of l'). rewrite Hcon, length_drop. lia.
      + lia. }
  destruct Hm as (n' & b1 & E1 & Hb1 & S1 & C1). rewrite (bind_ok _ _ _ _ _ E1).
  set (b2 := put_counts (n_add_for_cb b1) (u64 (n_del_for_cb b1 + n')) b1). modified b1 b2. assert (S2 : same_core b1 b2) by done.
  destruct (invoke_run b2) as (b3 & E3 & S3). rewrite (bind_ok _ _ _ _ _ E3). exists 0, b3. assert (S13 : same_core b1 b3) by (by etransitivity).
  split_and!; [done|by eapply settled_core|etransitivity; [exact S1|by apply core_rest]|by rewrite (core_contents _ _ S13)].
Qed.

(** The iovecs lead to the front of the data. *)
Lemma gather_run k : forall l howmuch b, Forall plain l -> 0 <= howmuch ->
  exists iov m, gather k l howmuch b = Ok (iov, b) /\ concat iov = take m (data_of l).
Proof.
  induction k as [|k IH]; intros l howmuch b Hp Hh; [by exists [], 0%nat|]. destruct l as [|c l]; [by exists [], 0%nat|].
  apply Forall_cons in Hp as [Hc Hp]. cbn [gather]. destruct (Z.eqb howmuch 0); [by exists [], 0%nat|]. rewrite (pl_mem _ Hc).
  pose proof (length_cdata c (pl_ok _ Hc)) as Hl. pose proof (co_off _ (pl_ok _ Hc)) as Ho. destruct (Z.leb_spec (off c) howmuch) as [Hle|Hgt].
  - destruct (IH l (howmuch - off c) b Hp ltac:(lia)) as (iov & m & E & Em). rewrite (bind_ok _ _ _ _ _ (chain_read_all c b (pl_ok _ Hc))), (bind_ok _ _ _ _ _ E).
    eexists _, (length (cdata c) + m)%nat. split; [done|]. cbn [concat]. by rewrite Em, data_of_cons, take_app_add.
  - rewrite (bind_ok _ _ _ _ _ (chain_read_run c b howmuch (pl_ok _ Hc) ltac:(lia))). eexists _, (Z.to_nat howmuch). split; [done|]. cbn [concat].
    by rewrite app_nil_r, data_of_cons, take_app_le by lia.
Qed.

(** What evbuffer_write_atmost does: [d] went from the front of the buffer to
    the socket. *)
Definition write_outcome (b : evbuffer) (k : sock) (r : Z) (b' : evbuffer) (k' : sock) : Prop :=
  settled b' /\ same_rest b b' /\ incoming k' = incoming k /\
  exists d, contents b = d ++ contents b' /\ sent k' = sent k ++ d /\ (r = Z.of_nat (length d) \/ (r = -1 /\ d = [])).

Lemma sock_write_run d k : exists n k', sock_write d k = Ok (n, k') /\ incoming k' = incoming k /\
  ((n = -1 /\ sent k' = sent k) \/ exists m, n = Z.of_nat (length (take m d)) /\ sent k' = sent k ++ take m d).
Proof.
  unfold sock_write. destruct (writes k) as [|[n|] r]; [by eexists _, _; split_and!; [..|left]| |by eexists _, _; split_and!; [..|left]].
  eexists _, _. split; [reflexivity|]. split; [done|]. right. by exists n.
Qed.

Lemma stream_write_run sendfile howmuch b k :
  settled b -> total_len b <= LIMIT ->
  exists r b' k', evbuffer_write_atmost sendfile howmuch (b, k) = Ok (r, (b', k')) /\ write_outcome b k r b' k'.
Proof.
  intros H Hmax. unfold evbuffer_write_atmost. rewrite (bind_ok _ _ _ _ _ (eq_refl : get (b, k) = Ok ((b, k), (b, k)))). cbv beta iota.
  assert (Hno : write_outcome b k (-1) b k) by (split_and!; try done; exists []; rewrite app_nil_r; split_and!; [done|done|by right]).
  destruct (freeze_start b) eqn:Hfr; [by exists (-1), b, k|]. pose proof (settled_plain _ _ (se_list _ H)) as Hp.
  pose proof (se_total _ H) as HT. set (h := if Z.ltb howmuch 0 || Z.ltb (total_len b) howmuch then s64 (total_len b) else howmuch).
  destruct (Z.ltb_spec 0 h) as [Hh|Hh]; [|by exists (-1), b, k].
  assert (Hf : match chains b with c :: _ => has (cflags c) EVBUFFER_SENDFILE | [] => false end = false) by (destruct Hp as [|c l Hc _]; [done|apply Hc]). rewrite Hf.
  unfold evbuffer_write_iovec. rewrite (proj2 (Z.ltb_ge h 0)) by lia. destruct (gather_run NUM_WRITE_IOVEC (chains b) h b Hp ltac:(lia)) as (iov & m & E & Em).
  rewrite (bind_assoc_run _ _ _ _ _ _ (eq_refl : get (b, k) = Ok ((b, k), (b, k)))). cbv beta iota. rewrite (bind_assoc_run _ _ _ _ _ _ (fst_ok _ _ k _ _ E)).
  destruct iov as [|x iov]; [exists 0, b, k; split; [done|]; split_and!; try done; exists []; rewrite app_nil_r; split_and!; [done|done|by left]|].
  destruct (sock_write_run (concat (x :: iov)) k) as (n & k1 & E1 & Hi & Hn). rewrite (bind_ok _ _ _ _ _ (snd_ok _ b _ _ _ E1)).
  destruct Hn as [[-> Hs]|(j & Hn & Hs)].
  { exists (-1), b, k1. split; [done|]. split_and!; try done. exists []. rewrite app_nil_r. split_and!; [done|done|by right]. }
  rewrite Em, take_take in Hn, Hs. fold (contents b) in Hn, Hs. set (d := take (j `min` m) (contents b)) in *.
  destruct (Z.ltb_spec 0 n) as [Hpos|Hz].
  - destruct (drain_settled_run n b H ltac:(lia) Hfr) as (r & b' & E2 & G1 & G2 & G3). rewrite (bind_assoc_run _ _ _ _ _ _ (fst_ok _ _ k1 _ _ E2)).
    exists n, b', k1. split; [done|]. split_and!; try done. exists d. split_and!; [|done|by left]. rewrite G3, Hn, Nat2Z.id. unfold d. rewrite length_take.
    rewrite <-(take_drop (j `min` m) (contents b)) at 1. f_equal. destruct (decide (j `min` m <= length (contents b))%nat); [f_equal; lia|by rewrite !drop_ge by lia].
  - exists n, b, k1. split; [done|]. split_and!; try done. assert (Hd : d = []) by (destruct d; [done|cbn in Hn; lia]). exists []. rewrite Hd in *. cbn in Hn. split_and!; [done|done|left; done].
Qed.

(** ** The stream *)

Inductive io := Read (howmuch : Z) | Write (howmuch : Z).

Definition io_step (o : io) : IO Z :=
  match o with
  | Read h => evbuffer_read h
  | Write h => evbuffer_write_atmost 0 h
  end.

(** The results, each with its operation. *)
Fixpoint pump (l : list io) : IO (list (io * Z)) :=
  match l with
  | [] => ret []
  | o :: l' => let! r := io_step o in let! rs := pump l' in ret ((o, r) :: rs)
  end.

(** How many bytes the results say were read, and were written. *)
Definition bytes_read (rs : list (io * Z)) : Z := foldr (fun x n => match x with (Read _, r) => Z.max 0 r + n | _ => n end) 0 rs.
Definition bytes_written (rs : list (io * Z)) : Z := foldr (fun x n => match x with (Write _, r) => Z.max 0 r + n | _ => n end) 0 rs.

Lemma pump_run l : forall b k,
  settled b -> total_len b + Z.of_nat (length (incoming k)) <= LIMIT ->
  exists rs b' k', pump l (b, k) = Ok (rs, (b', k')) /\ settled b' /\
    sent k ++ contents b ++ incoming k = sent k' ++ contents b' ++ incoming k' /\
    bytes_read rs = Z.of_nat (length (incoming k)) - Z.of_nat (length (incoming k')) /\
    bytes_written rs = Z.of_nat (length (sent k')) - Z.of_nat (length (sent k)).
Proof.
  assert (HL : LIMIT <= EV_SIZE_MAX) by (by vm_compute).
  induction l as [|o l IH]; intros b k H Hmax; [exists [], b, k; split_and!; try done; cbn; lia|]. cbn [pump].
  destruct o as [h|h]; cbn [io_step].
  - destruct (stream_read_run h b k H ltac:(lia)) as (r & b1 & k1 & E & G1 & _ & G3 & d & G4 & G5 & G6). rewrite (bind_ok _ _ _ _ _ E).
    pose proof (f_equal length G4) as L4. pose proof (f_equal length G5) as L5. rewrite length_app in L4, L5.
    destruct (IH b1 k1 G1) as (rs & b2 & k2 & E2 & F1 & F2 & F3 & F4); [rewrite (se_total _ G1), (se_total _ H) in *; lia|]. rewrite (bind_ok _ _ _ _ _ E2).
    exists ((Read h, r) :: rs), b2, k2. split; [done|]. split_and!; [done| | |].
    + rewrite <-F2, G3, G4, G5. by rewrite <-!app_assoc.
    + cbn [bytes_read foldr]. fold (bytes_read rs). destruct G6 as [->|[-> ->]]; [lia|cbn in L5; lia].
    + cbn [bytes_written foldr]. fold (bytes_written rs). by rewrite F4, G3.
  - destruct (stream_write_run 0 h b k H ltac:(lia)) as (r & b1 & k1 & E & G1 & _ & G3 & d & G4 & G5 & G6). rewrite (bind_ok _ _ _ _ _ E).
    pose proof (f_equal length G4) as L4. pose proof (f_equal length G5) as L5. rewrite length_app in L4, L5.
    destruct (IH b1 k1 G1) as (rs & b2 & k2 & E2 & F1 & F2 & F3 & F4); [rewrite (se_total _ G1), (se_total _ H), G3 in *; lia|]. rewrite (bind_ok _ _ _ _ _ E2).
    exists ((Write h, r) :: rs), b2, k2. split; [done|]. split_and!; [done| | |].
    + rewrite <-F2, G3, G5, G4. by rewrite <-!app_assoc.
    + cbn [bytes_read foldr]. fold (bytes_read rs). by rewrite F3, G3.
    + cbn [bytes_written foldr]. fold (bytes_written rs). destruct G6 as [->|[-> ->]]; [lia|cbn in L5; lia].
Qed.

Lemma settled_new m : settled (evbuffer_new m).
Proof. split; [apply settled_nil|done|done]. Qed.

(** C27: A buffer between a socket's input and output is a queue of bytes. For
    every sequence of evbuffer_read and evbuffer_write calls, whatever malloc,
    ioctl, readv and writev answer and however the chains cut the data: no
    call fails an assertion or leaves the memory of a chain, what was sent
    followed by what the buffer holds is exactly what was received, in order,
    and the results of the calls count the bytes. *)
Theorem evbuffer_stream l m k :
  sent k = [] -> Z.of_nat (length (incoming k)) <= LIMIT ->
  exists rs b' k', pump l (evbuffer_new m, k) = Ok (rs, (b', k')) /\
    incoming k = sent k' ++ contents b' ++ incoming k' /\
    total_len b' = bytes_read rs - bytes_written rs /\ bytes_written rs = Z.of_nat (length (sent k')).
Proof.
  intros Hs Hmax. destruct (pump_run l (evbuffer_new m) k (settled_new m)) as (rs & b' & k' & E & G1 & G2 & G3 & G4); [cbn; lia|].
  rewrite Hs in *. cbn [app] in G2. change (contents (evbuffer_new m)) with (@nil Z) in G2. cbn [app length] in *.
  exists rs, b', k'. split_and!; [done|done| |lia]. rewrite (se_total _ G1), G3, G4. apply (f_equal length) in G2. rewrite !length_app in G2. lia.
Qed.

Lemma evbuffer_stream_witness :
  exists rs b' k', pump [Read (-1); Write 2; Read 4; Write (-1)] (evbuffer_new (fun _ => true), mkSock [1; 2; 3; 4; 5] [] [] [Some 3%nat; Some 9%nat] [Some 1%nat; None]) = Ok (rs, (b', k')) /\
    [1; 2; 3; 4; 5] = sent k' ++ contents b' ++ incoming k' /\
    total_len b' = bytes_read rs - bytes_written rs /\ bytes_written rs = Z.of_nat (length (sent k')).
Proof. apply (evbuffer_stream _ _ (mkSock [1; 2; 3; 4; 5] [] [] [Some 3%nat; Some 9%nat] [Some 1%nat; None])); [reflexivity|by vm_compute]. Defined.

(** evbuffer_add between two reads breaks this: it puts its data into the last
    chain without moving last_with_datap, which leads to the chain before, and
    the next evbuffer_read fails an assertion. *)
Lemma read_after_add_aborts :
  (fst_ (evbuffer_add [1]) ;; evbuffer_read (-1) ;; fst_ (evbuffer_add [2]) ;; evbuffer_read (-1))
    (evbuffer_new (fun _ => true), mkSock [7; 8] [] [] [Some 1%nat; Some 1%nat] []) = Fault AssertFailed.
Proof. vm_compute. reflexivity. Qed.

End BufferStream.
