(* ===== verification/Tagging.v ===== *)
(** * Tagged data in a buffer (src/libevent/event_tagging.c)

    Records of a tag, a length and data, written to and read from a buffer. The
    functions are clients of buffers: [Evbuf] has the operations they use,
    [EvbufOk] what these promise. [TagThms] shows that the buffers of [Buffer]
    keep the promise.

    A result of -1 is [None]; what a failing function has stored for its caller
    by then is not shown. An array on the stack is the list of its bytes. evbuffer_pullup gives the data that
    are in one piece from the start of the buffer; a read behind them is
    [Overread]. *)

From stdpp Require Import prelude.
From S2P Require Import Prelude Buffer.
Open Scope Z_scope.

Module Tagging.
Import Buffer (fst_, snd_).

(** ** What the functions use of a buffer *)

Class Evbuf (S : Type) := {
  ev_length : S -> Z;
  ev_add : bytes -> M S Z;
  ev_drain : Z -> M S Z;
  ev_pullup : Z -> M S (option bytes);
  ev_remove : Z -> M S (Z * bytes);
  (** the first buffer gets the data of the second *)
  ev_add_buffer : M (S * S) Z
}.

(** [room n s]: [n] more bytes fit into [s], and it can be changed. *)
Class EvbufOk (S : Type) `{!Evbuf S} := {
  text : S -> bytes;
  room : Z -> S -> Prop;
  room_le n m s : room n s -> 0 <= m <= n -> room m s;
  length_law n s : room n s -> ev_length s = Z.of_nat (length (text s)) /\ 0 <= n;
  add_law n s d : room n s -> Z.of_nat (length d) <= n ->
    exists s', ev_add d s = Ok (0, s') /\ room (n - Z.of_nat (length d)) s' /\ text s' = text s ++ d;
  drain_law n s k : room n s -> 0 <= k -> exists s', ev_drain k s = Ok (0, s') /\ room n s' /\ text s' = drop (Z.to_nat k) (text s);
  pullup_law n s k : room n s -> 0 <= k ->
    exists r s', ev_pullup k s = Ok (r, s') /\ room n s' /\ text s' = text s /\
      if Z.eqb k 0 || Z.ltb (ev_length s) k then r = None else exists d, r = Some d /\ d `prefix_of` text s /\ k <= Z.of_nat (length d);
  remove_law n s k : room n s -> 0 <= k < 2 ^ 31 ->
    exists s', ev_remove k s = Ok ((Z.min k (ev_length s), take (Z.to_nat k) (text s)), s') /\ room n s' /\ text s' = drop (Z.to_nat k) (text s);
  add_buffer_law n s t : room n s -> room 0 t -> ev_length t <= n ->
    exists s' t', ev_add_buffer (s, t) = Ok (0, (s', t')) /\ room (n - ev_length t) s' /\ text s' = text s ++ text t /\ room 0 t' /\ text t' = []
}.

(** ** Numbers in nibbles *)

(** Nibble [k] of an array: the high nibble of a byte comes first. *)
Definition nibble (data : bytes) (k : nat) : Z :=
  let b := default 0 (data !! (k / 2)%nat) in
  if Nat.odd k then Z.land b 0x0f else Z.shiftr (Z.land b 0xf0) 4.

Definition set_nibble (data : bytes) (k : nat) (v : Z) : res bytes :=
  match data !! (k / 2)%nat with
  | None => Fault Overrun
  | Some b => Ok (<[(k / 2)%nat := if Nat.odd k then Z.lor (Z.land b 0xf0) v else Z.lor (Z.land b 0x0f) (Z.shiftl v 4)]> data)
  end.

(** while (number) of ENCODE_INT_INTERNAL: the array, and the number [off] of the
    next nibble. [w]: the nibbles of the type, which end the loop. *)
Fixpoint encode_nibbles (w : nat) (data : bytes) (off : nat) (number : Z) : res (bytes * nat) :=
  if Z.eqb number 0 then Ok (data, off)
  else
    match w with
    | O => Fault NoFuel
    | S w' =>
        let? data := set_nibble data off (Z.land number 0x0f) in
        encode_nibbles w' data (S off) (Z.shiftr number 4)
    end.

(** ENCODE_INT_INTERNAL for a type of [w] nibbles: the bytes it returns the
    number of. *)
Definition encode_internal (w : nat) (number : Z) : res bytes :=
  let? r := encode_nibbles w (zeros (w / 2 + 1)) 1 number in
  let '(data, off) := r in
  let nibbles := if Nat.ltb 2 off then Z.of_nat (off - 2) else 0 in
  let? data := set_nibble data 0 (Z.land nibbles 0x0f) in
  Ok (take ((off + 1) / 2) data).

Definition encode_int_internal (number : Z) : res bytes := encode_internal 8 number.
Definition encode_int64_internal (number : Z) : res bytes := encode_internal 16 number.

(** while (nibbles > 0) of DECODE_INT_INTERNAL *)
Fixpoint decode_nibbles (w : nat) (data : bytes) (nibbles : nat) (number : Z) : Z :=
  match nibbles with
  | O => number
  | S n => decode_nibbles w data n (Z.lor (Z.shiftl number 4 mod 16 ^ Z.of_nat w) (nibble data nibbles))
  end.

(** The bytes of a tag: seven bits each, and whether another byte follows. *)
Fixpoint tag_bytes (fuel : nat) (tag : Z) : bytes :=
  let lower := Z.land tag 0x7f in
  let tag := Z.shiftr tag 7 in
  match fuel with
  | O => [lower]
  | S f => if Z.eqb tag 0 then [lower] else Z.lor lower 0x80 :: tag_bytes f tag
  end.

(** The loop of decode_tag_internal: [left] bytes are in the buffer, [data] in
    one piece. [None]: the last byte announces another. *)
Fixpoint tag_loop (left : nat) (data : bytes) (count shift : nat) (number : Z) : res (option (nat * Z)) :=
  match left with
  | O => Ok None
  | S l =>
      match data with
      | [] => Fault Overread
      | lower :: data =>
          if Nat.leb 32 shift then Fault BadShift
          else
            let number := Z.lor number (u32 (Z.shiftl (Z.land lower 0x7f) (Z.of_nat shift))) in
            if Z.eqb (Z.land lower 0x80) 0 then Ok (Some (S count, number))
            else tag_loop l data (S count) (shift + 7) number
      end
  end.

Definition INT_MAX : Z := 2147483647.

Section Ops.
Context {S : Type} `{!Evbuf S}.

(** ** Writing *)

Definition evtag_encode_int (number : Z) : M S unit :=
  let! data := lift (encode_int_internal number) in
  let! _ := ev_add data in ret tt.
Definition evtag_encode_int64 (number : Z) : M S unit :=
  let! data := lift (encode_int64_internal number) in
  let! _ := ev_add data in ret tt.

Definition evtag_encode_tag (tag : Z) : M S Z :=
  let data := tag_bytes 4 tag in
  let! _ := ev_add data in
  ret (Z.of_nat (length data)).

(** [len] bytes of [data] *)
Definition evtag_marshal (tag : Z) (data : bytes) : M S unit :=
  evtag_encode_tag tag ;;
  evtag_encode_int (u32 (Z.of_nat (length data))) ;;
  let! _ := ev_add data in ret tt.

Definition evtag_marshal_buffer (tag : Z) : M (S * S) unit :=
  fst_ (evtag_encode_tag tag) ;;
  let! (_, data) := get in
  fst_ (evtag_encode_int (u32 (ev_length data))) ;;
  let! _ := ev_add_buffer in ret tt.

Definition marshal_number (enc : Z -> res bytes) (tag integer : Z) : M S unit :=
  let! data := lift (enc integer) in
  evtag_encode_tag tag ;;
  evtag_encode_int (Z.of_nat (length data)) ;;
  let! _ := ev_add data in ret tt.

Definition evtag_marshal_int (tag integer : Z) : M S unit := marshal_number encode_int_internal tag integer.
Definition evtag_marshal_int64 (tag integer : Z) : M S unit := marshal_number encode_int64_internal tag integer.

(** A string without its NUL *)
Definition evtag_marshal_string (tag : Z) (string : bytes) : M S unit := evtag_marshal tag string.

Definition evtag_marshal_timeval (tag tv_sec tv_usec : Z) : M S unit :=
  let! d1 := lift (encode_int_internal (u32 tv_sec)) in
  let! d2 := lift (encode_int_internal (u32 tv_usec)) in
  evtag_marshal tag (d1 ++ d2).

(** ** Reading *)

(** The number of bytes, and the tag *)
Definition decode_tag_internal (dodrain : bool) : M S (option (Z * Z)) :=
  let! s := get in
  let len := ev_length s in
  let! data := ev_pullup (if Z.ltb len 5 then len else 5) in
  match data with
  | None => ret None
  | Some data =>
      let! r := lift (tag_loop (Z.to_nat len) data 0 0 0) in
      match r with
      | None => ret None
      | Some (count, number) =>
          (if dodrain then let! _ := ev_drain (Z.of_nat count) in ret tt else ret tt) ;;
          ret (Some (if Z.ltb INT_MAX (Z.of_nat count) then INT_MAX else Z.of_nat count, number))
      end
  end.

Definition evtag_decode_tag : M S (option (Z * Z)) := decode_tag_internal true.
Definition evtag_peek : M S (option (Z * Z)) := decode_tag_internal false.

(** data[i] for all [i] the macro uses, behind the first [offset] bytes of what
    evbuffer_pullup gives. NULL plus a positive offset passes the test for
    NULL. *)
Definition pulled (offset : Z) (data : option bytes) : M S (option bytes) :=
  match data with
  | Some d => ret (Some (drop (Z.to_nat offset) d))
  | None => if Z.eqb offset 0 then ret None else fail NullDeref
  end.

(** DECODE_INT_INTERNAL for a type of [w] nibbles: how many bytes, and the
    number *)
Definition decode_internal (w : nat) (offset : Z) : M S (option (Z * Z)) :=
  let! s := get in
  let len := ev_length s - offset in
  if Z.leb len 0 then ret None
  else
    let! p := ev_pullup (offset + 1) in
    let! data := pulled offset p in
    match data with
    | None => ret None
    | Some data =>
        let nibbles := Z.shiftr (Z.land (default 0 (data !! 0%nat)) 0xf0) 4 + 1 in
        if Z.ltb (Z.of_nat w) nibbles || Z.ltb len (Z.shiftr nibbles 1 + 1) then ret None
        else
          let len := Z.shiftr nibbles 1 + 1 in
          let! p := ev_pullup (offset + len) in
          let! data := pulled offset p in
          match data with
          | None => ret None
          | Some data => ret (Some (len, decode_nibbles w data (Z.to_nat nibbles) 0))
          end
    end.

Definition decode_int_internal (offset : Z) : M S (option (Z * Z)) := decode_internal 8 offset.
Definition decode_int64_internal (offset : Z) : M S (option (Z * Z)) := decode_internal 16 offset.

Definition drain_number (m : M S (option (Z * Z))) : M S (option Z) :=
  let! r := m in
  match r with
  | None => ret None
  | Some (res, number) => let! _ := ev_drain res in ret (Some number)
  end.

Definition evtag_decode_int : M S (option Z) := drain_number (decode_int_internal 0).
Definition evtag_decode_int64 : M S (option Z) := drain_number (decode_int64_internal 0).

(** The length of the tag and what decode_int_internal gives behind it *)
Definition length_behind_tag : M S (option (Z * Z * Z)) :=
  let! r := decode_tag_internal false in
  match r with
  | None => ret None
  | Some (len, _) =>
      let! r := decode_int_internal len in
      ret (match r with None => None | Some (res, number) => Some (len, res, number) end)
  end.

Definition evtag_peek_length : M S (option Z) :=
  let! r := length_behind_tag in
  ret (match r with None => None | Some (len, res, number) => Some (u32 (number + res + len)) end).

Definition evtag_payload_length : M S (option Z) :=
  let! r := length_behind_tag in
  ret (match r with None => None | Some (_, _, number) => Some number end).

(** The length, which becomes an int, and the tag *)
Definition evtag_unmarshal_header : M S (option (Z * Z)) :=
  let! r := decode_tag_internal true in
  match r with
  | None => ret None
  | Some (_, tag) =>
      let! r := evtag_decode_int in
      match r with
      | None => ret None
      | Some len =>
          let! s := get in
          ret (if Z.ltb (ev_length s) len || Z.eqb (s32 len) (-1) then None else Some (s32 len, tag))
      end
  end.

Definition evtag_consume : M S bool :=
  let! r := evtag_unmarshal_header in
  match r with
  | None => ret false
  | Some (len, _) => let! _ := ev_drain (u64 len) in ret true
  end.

(** evbuffer_add of [len] bytes at the address that evbuffer_pullup gave: for a
    negative [len] its size_t is larger than every chain, and it fails before it
    reads. *)
Definition add_pulled (data : option bytes) (len : Z) : M S Z :=
  if Z.ltb len 0 then ret (-1)
  else if Z.eqb len 0 then ev_add []
  else match data with Some d => ev_add (take (Z.to_nat len) d) | None => fail NullDeref end.

(** src first, then dst; the result is the length and the tag. *)
Definition evtag_unmarshal : M (S * S) (option (Z * Z)) :=
  let! r := fst_ evtag_unmarshal_header in
  match r with
  | None => ret None
  | Some (len, tag) =>
      let! data := fst_ (ev_pullup len) in
      let! r := snd_ (add_pulled data len) in
      if Z.eqb r (-1) then ret None
      else
        let! _ := fst_ (ev_drain (u64 len)) in
        ret (Some (len, tag))
  end.

(** The number of bytes and the integer *)
Definition unmarshal_number (dec : Z -> M S (option (Z * Z))) (need_tag : Z) : M S (option (Z * Z)) :=
  let! r := decode_tag_internal true in
  match r with
  | None => ret None
  | Some (_, tag) =>
      if negb (Z.eqb need_tag tag) then ret None
      else
        let! r := evtag_decode_int in
        match r with
        | None => ret None
        | Some len =>
            let! s := get in
            if Z.ltb (ev_length s) len then ret None
            else
              let! result := dec 0 in
              let! _ := ev_drain len in
              ret (match result with Some (n, v) => if Z.ltb len n then None else Some (n, v) | None => None end)
        end
  end.

Definition evtag_unmarshal_int (need_tag : Z) : M S (option (Z * Z)) := unmarshal_number decode_int_internal need_tag.
Definition evtag_unmarshal_int64 (need_tag : Z) : M S (option (Z * Z)) := unmarshal_number decode_int64_internal need_tag.

(** [len] bytes for the caller's array *)
Definition evtag_unmarshal_fixed (need_tag len : Z) : M S (option bytes) :=
  let! r := evtag_unmarshal_header in
  match r with
  | None => ret None
  | Some (tag_len, tag) =>
      if Z.ltb tag_len 0 || negb (Z.eqb tag need_tag) || negb (Z.eqb tag_len len) then ret None
      else let! (_, d) := ev_remove len in ret (Some d)
  end.

(** [ok]: malloc succeeds; it does not for a negative length, which becomes a
    huge size. The string has a NUL behind its bytes. *)
Definition evtag_unmarshal_string (ok : bool) (need_tag : Z) : M S (option bytes) :=
  let! r := evtag_unmarshal_header in
  match r with
  | None => ret None
  | Some (tag_len, tag) =>
      if negb (Z.eqb tag need_tag) then ret None
      else if negb ok || Z.ltb tag_len 0 then ret None
      else let! (_, d) := ev_remove tag_len in ret (Some (d ++ [0]))
  end.

Definition evtag_unmarshal_timeval (need_tag : Z) : M S (option (Z * Z)) :=
  let! r := evtag_unmarshal_header in
  match r with
  | None => ret None
  | Some (len, tag) =>
      let! result := (if negb (Z.eqb tag need_tag) then ret None
        else
          let! r1 := decode_int_internal 0 in
          match r1 with
          | None => ret None
          | Some (offset, sec) =>
              let! r2 := decode_int_internal offset in
              match r2 with
              | None => ret None
              | Some (offset2, usec) => ret (if Z.ltb len (offset + offset2) then None else Some (sec, usec))
              end
          end) in
      let! _ := ev_drain (u64 len) in
      ret result
  end.
End Ops.
End Tagging.
