(* ===== verification/TagFacts.v ===== *)
(** * Tagged data: numbers and tags are read as they were written

    The coding of src/libevent/event_tagging.c, without buffers. *)

From stdpp Require Import prelude.
From S2P Require Import Prelude Buffer Tagging.
Open Scope Z_scope.

Module TagFacts.
Import Tagging.

(** ** Nibbles *)

Lemma in_range n z : 0 <= z < Z.of_nat n -> In z (map Z.of_nat (seq 0 n)).
Proof. intros H. apply in_map_iff. exists (Z.to_nat z). split; [lia|]. apply in_seq. lia. Qed.

(** Both nibbles of a byte that gets the nibble [v]. *)
Definition nibbles_ok (b v : Z) : bool :=
  let h := Z.lor (Z.land b 0x0f) (Z.shiftl v 4) in
  let l := Z.lor (Z.land b 0xf0) v in
  Z.eqb (Z.shiftr (Z.land h 0xf0) 4) v && Z.eqb (Z.land h 0x0f) (Z.land b 0x0f) && Z.leb 0 h && Z.ltb h 256 &&
  (Z.eqb (Z.land l 0x0f) v && Z.eqb (Z.land l 0xf0) (Z.land b 0xf0) && Z.leb 0 l && Z.ltb l 256).

Lemma nibbles_all b v : is_byte b -> 0 <= v < 16 -> nibbles_ok b v = true.
Proof.
  intros Hb Hv. assert (A : forallb (fun b => forallb (nibbles_ok b) (map Z.of_nat (seq 0 16))) (map Z.of_nat (seq 0 256)) = true) by (vm_compute; reflexivity).
  rewrite forallb_forall in A. specialize (A b (in_range 256 b ltac:(unfold is_byte in Hb; lia))). cbv beta in A. rewrite forallb_forall in A. apply A. by apply in_range.
Qed.

Lemma odd_mod k : Nat.odd k = Nat.eqb (k mod 2) 1.
Proof. apply eq_true_iff_eq. rewrite Nat.odd_spec, Nat.eqb_eq. split; [intros [m ->]; by rewrite Nat.add_comm, Nat.mul_comm, Nat.Div0.mod_add|]. intros E. exists (k / 2)%nat. pose proof (Nat.div_mod_eq k 2). lia. Qed.

Lemma tag_nibble_range data k : bytes_ok data -> 0 <= nibble data k < 16.
Proof.
  intros H. unfold nibble. assert (Hb : is_byte (default 0 (data !! (k / 2)%nat))).
  { destruct (data !! (k / 2)%nat) as [b|] eqn:E; [|unfold is_byte; cbn; lia]. rewrite Forall_lookup in H. by eapply H. }
  set (b := default 0 _) in *. clearbody b.
  assert (A : forallb (fun b => Z.leb 0 (Z.land b 0x0f) && Z.ltb (Z.land b 0x0f) 16 && (Z.leb 0 (Z.shiftr (Z.land b 0xf0) 4) && Z.ltb (Z.shiftr (Z.land b 0xf0) 4) 16)) (map Z.of_nat (seq 0 256)) = true) by (vm_compute; reflexivity).
  rewrite forallb_forall in A. specialize (A b (in_range 256 b ltac:(unfold is_byte in Hb; lia))). rewrite !andb_true_iff, !Z.leb_le, !Z.ltb_lt in A. case_match; lia.
Qed.

Lemma set_nibble_run data k v : bytes_ok data -> 0 <= v < 16 -> (k / 2 < length data)%nat ->
  exists data', set_nibble data k v = Ok data' /\ bytes_ok data' /\ length data' = length data /\
    (forall j, nibble data' j = if Nat.eqb j k then v else nibble data j).
Proof.
  intros H Hv Hk. unfold set_nibble. destruct (lookup_lt_is_Some_2 data (k / 2)%nat Hk) as [b Eb]. rewrite Eb.
  assert (Hb : is_byte b) by (rewrite Forall_lookup in H; by eapply H). pose proof (nibbles_all b v Hb Hv) as A. unfold nibbles_ok in A.
  rewrite !andb_true_iff, !Z.eqb_eq, !Z.leb_le, !Z.ltb_lt in A. destruct A as [[[[A1 A2] A3] A4] [[[B1 B2] B3] B4]].
  eexists. split; [reflexivity|]. split_and!.
  - apply Forall_insert; [done|]. unfold is_byte. case_match; lia.
  - apply length_insert.
  - intros j. unfold nibble. destruct (decide (j / 2 = k / 2)%nat) as [E|E].
    + rewrite E, list_lookup_insert_eq, Eb by done. cbn [default from_option id].
      pose proof (Nat.div_mod_eq j 2). pose proof (Nat.div_mod_eq k 2). pose proof (Nat.mod_upper_bound j 2). pose proof (Nat.mod_upper_bound k 2).
      rewrite !odd_mod. destruct (Nat.eqb_spec (j mod 2) 1), (Nat.eqb_spec (k mod 2) 1), (Nat.eqb_spec j k); try lia; congruence.
    + rewrite list_lookup_insert_ne by done. destruct (Nat.eqb_spec j k) as [->|]; [done|done].
Qed.

(** The number in [n] nibbles from [k] on, the least significant first. *)
Fixpoint nval (data : bytes) (k n : nat) : Z :=
  match n with O => 0 | S n' => nibble data k + 16 * nval data (S k) n' end.

Lemma nval_snoc data n : forall k, nval data k (S n) = nval data k n + 16 ^ Z.of_nat n * nibble data (k + n)%nat.
Proof.
  induction n as [|n IH]; intros k; [cbn [nval]; change (16 ^ Z.of_nat 0) with 1; rewrite Nat.add_0_r; lia|].
  cbn [nval] in IH |- *. rewrite (IH (S k)), Nat2Z.inj_succ, Z.pow_succ_r by lia. replace (S k + n)%nat with (k + S n)%nat by lia. lia.
Qed.

Lemma nval_range data n : forall k, bytes_ok data -> 0 <= nval data k n < 16 ^ Z.of_nat n.
Proof.
  induction n as [|n IH]; intros k H; [cbn; lia|]. cbn [nval]. specialize (IH (S k) H). pose proof (tag_nibble_range data k H). rewrite Nat2Z.inj_succ, Z.pow_succ_r by lia. lia.
Qed.

Lemma nval_ext data data' n : forall k, (forall j, (k <= j < k + n)%nat -> nibble data' j = nibble data j) -> nval data' k n = nval data k n.
Proof. induction n as [|n IH]; intros k H; [done|]. cbn [nval]. rewrite (H k) by lia. rewrite IH; [done|]. intros j Hj. apply H. lia. Qed.

Lemma low_nibble n : Z.land n 15 = n mod 16.
Proof. change 15 with (Z.ones 4). by rewrite Z.land_ones. Qed.

Lemma encode_nibbles_run w : forall data off number, bytes_ok data -> 0 <= number < 16 ^ Z.of_nat w -> (off + w <= 2 * length data)%nat ->
  exists data' n, encode_nibbles w data off number = Ok (data', (off + n)%nat) /\ bytes_ok data' /\ length data' = length data /\ (n <= w)%nat /\
    (forall j, (j < off)%nat \/ number = 0 -> nibble data' j = nibble data j) /\ nval data' off n = number /\ (n = 0%nat <-> number = 0).
Proof.
  induction w as [|w IH]; intros data off number Hd Hn Hl; cbn [encode_nibbles]; destruct (Z.eqb_spec number 0) as [->|E].
  - exists data, 0%nat. rewrite Nat.add_0_r. by split_and!.
  - change (16 ^ Z.of_nat 0) with 1 in Hn. lia.
  - exists data, 0%nat. rewrite Nat.add_0_r. split_and!; try done. lia.
  - rewrite low_nibble, Z.shiftr_div_pow2 by lia. change (2 ^ 4) with 16. pose proof (Z.mod_pos_bound number 16). pose proof (Z.div_mod number 16).
    destruct (set_nibble_run data off (number mod 16) Hd ltac:(lia)) as (d1 & E1 & H1 & L1 & N1); [apply Nat.Div0.div_lt_upper_bound; lia|]. rewrite E1. cbn [res_bind].
    rewrite Nat2Z.inj_succ, Z.pow_succ_r in Hn by lia.
    destruct (IH d1 (S off) (number / 16) H1) as (d2 & n & E2 & H2 & L2 & Hw & N2 & V2 & Z2).
    { split; [apply Z.div_pos; lia|]. apply Z.div_lt_upper_bound; lia. } { lia. }
    exists d2, (S n). rewrite E2. split_and!; [f_equal; f_equal; lia|done|congruence|lia| | |lia].
    + intros j [Hj|Hj]; [|done]. rewrite N2 by lia. rewrite N1. destruct (Nat.eqb_spec j off); [lia|done].
    + cbn [nval]. rewrite V2, N2 by lia. rewrite N1, Nat.eqb_refl. lia.
Qed.

Lemma lor_nibble x v : 0 <= v < 16 -> Z.lor (x * 16) v = x * 16 + v.
Proof.
  intros Hv. rewrite <-Z.add_lor_land. cut (Z.land (x * 16) v = 0); [lia|]. apply Z.bits_inj'. intros i Hi. rewrite Z.land_spec, Z.bits_0.
  destruct (Z.ltb_spec i 4) as [H|H].
  - change 16 with (2 ^ 4). by rewrite Z.mul_pow2_bits_low.
  - rewrite (Z.bits_above_log2 v i); [apply andb_false_r|lia|]. destruct (Z.eqb_spec v 0) as [->|]; [cbn; lia|]. apply Z.log2_lt_pow2; [lia|].
    apply (Z.lt_le_trans _ (2 ^ 4)); [lia|]. apply Z.pow_le_mono_r; lia.
Qed.

Lemma decode_nibbles_run w data n : forall acc, bytes_ok data -> (n <= w)%nat -> 0 <= acc < 16 ^ Z.of_nat (w - n) ->
  decode_nibbles w data n acc = acc * 16 ^ Z.of_nat n + nval data 1 n.
Proof.
  induction n as [|n IH]; intros acc H Hn Ha; [cbn [decode_nibbles nval]; change (16 ^ Z.of_nat 0) with 1; lia|].
  pose proof (tag_nibble_range data (S n) H) as Hb. cbn [decode_nibbles]. rewrite Z.shiftl_mul_pow2 by lia. change (2 ^ 4) with 16.
  assert (Hp : 16 ^ Z.of_nat (w - n) = 16 * 16 ^ Z.of_nat (w - S n)) by (replace (w - n)%nat with (S (w - S n)) by lia; by rewrite Nat2Z.inj_succ, Z.pow_succ_r by lia).
  assert (Hq : 16 ^ Z.of_nat (w - n) <= 16 ^ Z.of_nat w) by (apply Z.pow_le_mono_r; lia).
  rewrite Z.mod_small by lia. rewrite lor_nibble by done. rewrite IH by (done || lia). rewrite nval_snoc, (Nat2Z.inj_succ n), Z.pow_succ_r by lia.
  change (1 + n)%nat with (S n). lia.
Qed.

(** ** Numbers *)

(** [d] is the encoding of [v] in [c] nibbles. *)
Record encodes (w : nat) (v : Z) (d : bytes) (c : nat) : Prop := {
  en_bytes : bytes_ok d; en_count : (1 <= c <= w)%nat; en_length : length d = (c / 2 + 1)%nat; en_first : nibble d 0 = Z.of_nat c - 1; en_val : nval d 1 c = v }.

Lemma nibble_take n data j : (j / 2 < n)%nat -> nibble (take n data) j = nibble data j.
Proof. intros H. unfold nibble. by rewrite lookup_take_lt by done. Qed.

Lemma nibble_zeros n k : nibble (zeros n) k = 0.
Proof.
  unfold nibble, zeros. destruct (replicate n 0 !! (k / 2)%nat) as [b|] eqn:E; [apply lookup_replicate in E as [-> _]|]; by destruct (Nat.odd k).
Qed.

Lemma encode_run w v : (2 <= w <= 16)%nat -> 0 <= v < 16 ^ Z.of_nat w -> exists d c, encode_internal w v = Ok d /\ encodes w v d c.
Proof.
  intros Hw Hv. unfold encode_internal. assert (Hz : bytes_ok (zeros (w / 2 + 1))) by apply bytes_ok_zeros.
  destruct (encode_nibbles_run w (zeros (w / 2 + 1)) 1 v Hz Hv) as (d & n & E & Hd & Ld & Hn & N & V & Z0).
  { rewrite length_zeros. pose proof (Nat.div_mod_eq w 2). pose proof (Nat.mod_upper_bound w 2). lia. }
  rewrite E. cbn [res_bind]. rewrite length_zeros in Ld.
  set (nib := if Nat.ltb 2 (1 + n) then Z.of_nat (1 + n - 2) else 0). set (c := Nat.max 1 n).
  assert (Hnib : nib = Z.of_nat c - 1) by (unfold nib, c; destruct (Nat.ltb_spec 2 (1 + n)); lia).
  assert (Hl : Z.land nib 15 = nib) by (rewrite low_nibble; apply Z.mod_small; lia). rewrite Hl.
  destruct (set_nibble_run d 0 nib Hd ltac:(lia) ltac:(rewrite Ld; cbn; lia)) as (d' & E' & Hd' & Ld' & N'). rewrite E'. cbn [res_bind].
  assert (Hlen : ((1 + n + 1) / 2 = c / 2 + 1)%nat).
  { unfold c. destruct n as [|n]; [done|]. rewrite Nat.max_r by lia. replace (1 + S n + 1)%nat with (S n + 1 * 2)%nat by lia. by rewrite Nat.div_add. }
  assert (Hcw : (c / 2 <= w / 2)%nat) by (apply Nat.Div0.div_le_mono; lia).
  eexists _, c. split; [reflexivity|]. rewrite Hlen. split.
  - by apply Forall_take.
  - lia.
  - rewrite length_take, Ld', Ld. lia.
  - rewrite nibble_take by (cbn; lia). rewrite N'. cbn. lia.
  - rewrite (nval_ext d').
    2: { intros j Hj. apply nibble_take. apply Nat.Div0.div_lt_upper_bound. pose proof (Nat.div_mod_eq c 2). pose proof (Nat.mod_upper_bound c 2). lia. }
    rewrite (nval_ext d) by (intros j Hj; rewrite N'; destruct (Nat.eqb_spec j 0); [lia|done]). unfold c. destruct n as [|n]; [|by rewrite Nat.max_r by lia].
    assert (Hv0 : v = 0) by by apply Z0. change (Nat.max 1 0) with 1%nat. cbn [nval]. rewrite N by (by right). rewrite nibble_zeros, Hv0. done.
Qed.

(** The first byte tells how many bytes there are; they give the number. *)
Lemma encodes_first w v d c rest : encodes w v d c -> Z.shiftr (Z.land (default 0 ((d ++ rest) !! 0%nat)) 0xf0) 4 + 1 = Z.of_nat c.
Proof.
  intros [H1 H2 H3 H4 H5]. assert (E : (d ++ rest) !! 0%nat = d !! 0%nat) by (apply lookup_app_l; lia). rewrite E.
  unfold nibble in H4. change (0 / 2)%nat with 0%nat in H4. change (Nat.odd 0) with false in H4. cbv iota in H4. lia.
Qed.

Lemma decode_ext w data data' n : forall acc, (forall j, (1 <= j <= n)%nat -> nibble data' j = nibble data j) -> decode_nibbles w data' n acc = decode_nibbles w data n acc.
Proof. induction n as [|n IH]; intros acc H; [done|]. cbn [decode_nibbles]. rewrite (H (S n)) by lia. apply IH. intros j Hj. apply H. lia. Qed.

Lemma encodes_decode w v d c rest : encodes w v d c -> decode_nibbles w (d ++ rest) c 0 = v.
Proof.
  intros [H1 H2 H3 H4 H5]. rewrite (decode_ext w d).
  - rewrite decode_nibbles_run; [by rewrite Z.mul_0_l, Z.add_0_l|done|lia|]. split; [lia|apply Z.pow_pos_nonneg; lia].
  - intros j Hj. unfold nibble. rewrite lookup_app_l; [done|]. rewrite H3.
    apply Nat.Div0.div_lt_upper_bound. pose proof (Nat.div_mod_eq c 2). pose proof (Nat.mod_upper_bound c 2). lia.
Qed.

(** ** Tags *)

Lemma low_seven n : Z.land n 127 = n mod 128.
Proof. change 127 with (Z.ones 7). by rewrite Z.land_ones. Qed.

(** A byte of a tag, with and without the bit that announces another. *)
Lemma tag_byte v : 0 <= v < 128 -> Z.land v 127 = v /\ Z.land v 128 = 0 /\ Z.land (Z.lor v 128) 127 = v /\ Z.land (Z.lor v 128) 128 = 128.
Proof.
  intros Hv. assert (A : forallb (fun v => Z.eqb (Z.land v 127) v && Z.eqb (Z.land v 128) 0 && Z.eqb (Z.land (Z.lor v 128) 127) v && Z.eqb (Z.land (Z.lor v 128) 128) 128) (map Z.of_nat (seq 0 128)) = true) by (vm_compute; reflexivity).
  rewrite forallb_forall in A. specialize (A v (in_range 128 v ltac:(lia))). rewrite !andb_true_iff, !Z.eqb_eq in A. tauto.
Qed.

(** Adding a number above the bits of another. *)
Lemma lor_above a x k : 0 <= k -> 0 <= a < 2 ^ k -> 0 <= x -> Z.lor a (x * 2 ^ k) = a + x * 2 ^ k.
Proof.
  intros Hk Ha Hx. destruct (Z.eqb_spec a 0) as [->|Ha0]; [by rewrite Z.lor_0_l|]. rewrite <-Z.add_lor_land. cut (Z.land a (x * 2 ^ k) = 0); [lia|]. apply Z.bits_inj'. intros i Hi. rewrite Z.land_spec, Z.bits_0.
  destruct (Z.ltb_spec i k) as [H|H].
  - rewrite (Z.mul_pow2_bits_low _ k i) by done. apply andb_false_r.
  - rewrite (Z.bits_above_log2 a i); [done|lia|]. apply Z.log2_lt_pow2; [lia|].
    apply (Z.lt_le_trans _ (2 ^ k)); [lia|]. apply Z.pow_le_mono_r; lia.
Qed.

Lemma tag_bytes_length f : forall tag, (1 <= length (tag_bytes f tag) <= S f)%nat.
Proof. induction f as [|f IH]; intros tag; cbn [tag_bytes]; [cbn; lia|]. case_match; [cbn; lia|]. cbn [length]. specialize (IH (Z.shiftr tag 7)). lia. Qed.

Lemma tag_loop_run f : forall left tag rest count shift number,
  0 <= tag < 2 ^ (7 * (Z.of_nat f + 1)) -> (shift + 7 * f < 32)%nat -> 0 <= number < 2 ^ Z.of_nat shift -> number + tag * 2 ^ Z.of_nat shift < 2 ^ 32 ->
  (length (tag_bytes f tag) <= left)%nat ->
  tag_loop left (tag_bytes f tag ++ rest) count shift number = Ok (Some ((count + length (tag_bytes f tag))%nat, number + tag * 2 ^ Z.of_nat shift)).
Proof.
  induction f as [|f IH]; intros left tag rest count shift number Ht Hs Hn Hsum Hl.
  - cbn [tag_bytes length app] in *. destruct left as [|left]; [lia|]. cbn [tag_loop]. rewrite (proj2 (Nat.leb_gt _ _)) by lia.
    change (2 ^ (7 * (Z.of_nat 0 + 1))) with 128 in Ht. destruct (tag_byte tag Ht) as (A1 & A2 & _ & _). rewrite !A1, A2, Z.shiftl_mul_pow2 by lia.
    change (0 =? 0) with true. cbv iota. unfold u32. rewrite Z.mod_small by (change (2 ^ 32) with 4294967296 in Hsum; nia).
    rewrite lor_above by lia. do 3 f_equal. lia.
  - cbn [tag_bytes] in *. rewrite low_seven, Z.shiftr_div_pow2 in * by lia. change (2 ^ 7) with 128 in *.
    pose proof (Z.mod_pos_bound tag 128). pose proof (Z.div_mod tag 128). pose proof (Z.div_pos tag 128).
    assert (Hp : 0 < 2 ^ Z.of_nat shift) by (apply Z.pow_pos_nonneg; lia).
    destruct (tag_byte (tag mod 128) ltac:(lia)) as (A1 & A2 & A3 & A4).
    assert (Hu : forall x, 0 <= x <= tag -> u32 (x * 2 ^ Z.of_nat shift) = x * 2 ^ Z.of_nat shift) by (intros x Hx; unfold u32; apply Z.mod_small; change (2 ^ 32) with 4294967296 in Hsum; nia).
    destruct (Z.eqb_spec (tag / 128) 0) as [E|E]; cbn [length app] in *; (destruct left as [|left]; [lia|]); cbn [tag_loop]; rewrite (proj2 (Nat.leb_gt _ _)) by lia.
    + rewrite A1, A2, Z.shiftl_mul_pow2, Hu, lor_above by lia. change (0 =? 0) with true. cbv iota. do 3 f_equal; [lia|]. f_equal. lia.
    + rewrite A3, A4, Z.shiftl_mul_pow2, Hu, lor_above by lia. change (128 =? 0) with false. cbv iota.
      assert (Hsh : 2 ^ Z.of_nat (shift + 7) = 128 * 2 ^ Z.of_nat shift) by (rewrite Nat2Z.inj_add, Z.pow_add_r by lia; lia).
      rewrite IH; [|split; [lia|]|lia| | |lia].
      * do 3 f_equal; [lia|]. rewrite Hsh. nia.
      * apply Z.div_lt_upper_bound; [lia|]. replace (128 * 2 ^ (7 * (Z.of_nat f + 1))) with (2 ^ (7 * (Z.of_nat (S f) + 1))); [lia|].
        replace (7 * (Z.of_nat (S f) + 1)) with (7 + 7 * (Z.of_nat f + 1)) by lia. by rewrite Z.pow_add_r by lia.
      * rewrite Hsh. nia.
      * rewrite Hsh. nia.
Qed.
End TagFacts.
