(* ===== verification/TagThms.v ===== *)
(** * Tagged data: what is written is read back

    The functions of src/libevent/event_tagging.c against the interface of
    buffers, and the buffers of buffer.c as an instance of it. *)

From stdpp Require Import prelude.
From S2P Require Import Prelude Buffer BufferFacts BufferOps Tagging TagFacts.
Open Scope Z_scope.

Module TagThms.
Import Buffer (fst_, snd_) BufferOps (fst_ok, snd_ok) Tagging TagFacts.

(** ** Records of all kinds *)

Inductive value :=
| Data (d : bytes)                (* evtag_marshal, evtag_unmarshal *)
| Fixed (d : bytes)               (* evtag_marshal, evtag_unmarshal_fixed *)
| Str (d : bytes)                 (* evtag_marshal_string, evtag_unmarshal_string *)
| Int (v : Z) | Int64 (v : Z)     (* ..._int, ..._int64 *)
| Timeval (tv_sec tv_usec : Z).   (* ..._timeval *)

(** What reading a record gives. *)
Inductive answer := Length (r : option (Z * Z)) | Bytes (r : option bytes) | Number (r : option (Z * Z)) | Time (r : option (Z * Z)).

(** Lengths that fit an int, and numbers of the type. *)
Definition value_ok (v : value) : Prop :=
  match v with
  | Data d | Fixed d | Str d => Z.of_nat (length d) < 2 ^ 31
  | Int v => 0 <= v < 2 ^ 32
  | Int64 v => 0 <= v < 2 ^ 64
  | Timeval s u => 0 <= s < 2 ^ 32 /\ 0 <= u < 2 ^ 32
  end.
Definition record_ok (r : Z * value) : Prop := 0 <= fst r < 2 ^ 32 /\ value_ok (snd r).

(** The bytes of a number, and of a record. *)
Definition enc (w : nat) (v : Z) : bytes := match encode_internal w v with Ok d => d | Fault _ => [] end.
Definition tagged (tag : Z) (d : bytes) : bytes := tag_bytes 4 tag ++ enc 8 (Z.of_nat (length d)) ++ d.

Definition payload (v : value) : bytes :=
  match v with
  | Data d | Fixed d | Str d => d
  | Int v => enc 8 v
  | Int64 v => enc 16 v
  | Timeval s u => enc 8 s ++ enc 8 u
  end.

(** What the reader is told, and what goes into its second buffer. *)
Definition expected (r : Z * value) : answer :=
  match snd r with
  | Data d => Length (Some (Z.of_nat (length d), fst r))
  | Fixed d => Bytes (Some d)
  | Str d => Bytes (Some (d ++ [0]))
  | Int v => Number (Some (Z.of_nat (length (enc 8 v)), v))
  | Int64 v => Number (Some (Z.of_nat (length (enc 16 v)), v))
  | Timeval s u => Time (Some (s, u))
  end.
Definition copied (r : Z * value) : bytes := match snd r with Data d => d | _ => [] end.

Definition record (r : Z * value) : bytes := tagged (fst r) (payload (snd r)).

Lemma enc_ok w v : (2 <= w <= 16)%nat -> 0 <= v < 16 ^ Z.of_nat w -> encode_internal w v = Ok (enc w v) /\ exists c, encodes w v (enc w v) c.
Proof. intros Hw Hv. destruct (encode_run w v Hw Hv) as (d & c & E & H). unfold enc. rewrite E. eauto. Qed.

Lemma enc_length w v : (2 <= w <= 16)%nat -> 0 <= v < 16 ^ Z.of_nat w -> (1 <= length (enc w v) <= w / 2 + 1)%nat.
Proof.
  intros Hw Hv. destruct (enc_ok w v Hw Hv) as (_ & c & H). rewrite (en_length _ _ _ _ H). pose proof (en_count _ _ _ _ H).
  pose proof (Nat.Div0.div_le_mono c w 2). lia.
Qed.

Lemma prefix_drop (p x d : bytes) m : d `prefix_of` p ++ x -> (length p + m <= length d)%nat -> exists y, drop (length p) d = take m x ++ y.
Proof.
  intros [z E] Hl. exists (drop m (drop (length p) d)). rewrite <-(take_drop m (drop (length p) d)) at 1. f_equal.
  assert (Ed : drop (length p) d ++ z = x) by (rewrite <-drop_app_le, <-E, drop_app_length by lia; done).
  rewrite <-Ed, take_app_le; [done|]. rewrite length_drop. lia.
Qed.

Section Client.
Context {S : Type} `{!Evbuf S} `{!EvbufOk S}.
Implicit Types s t : S.

Lemma add_step n s d : room n s -> Z.of_nat (length d) <= n ->
  exists s', (let! _ := ev_add d in ret tt) s = Ok (tt, s') /\ room (n - Z.of_nat (length d)) s' /\ text s' = text s ++ d.
Proof. intros H Hd. destruct (add_law n s d H Hd) as (s' & E & G). exists s'. by rewrite (bind_ok _ _ _ _ _ E). Qed.

Lemma encode_tag_run n s tag : room n s -> Z.of_nat (length (tag_bytes 4 tag)) <= n ->
  exists s', evtag_encode_tag tag s = Ok (Z.of_nat (length (tag_bytes 4 tag)), s') /\ room (n - Z.of_nat (length (tag_bytes 4 tag))) s' /\ text s' = text s ++ tag_bytes 4 tag.
Proof.
  intros H Hl. unfold evtag_encode_tag. cbv zeta. destruct (add_law n s (tag_bytes 4 tag) H Hl) as (s' & E & G). rewrite (bind_ok _ _ _ _ _ E). by exists s'.
Qed.

Lemma encode_int_run n s v : room n s -> 0 <= v < 2 ^ 32 -> Z.of_nat (length (enc 8 v)) <= n ->
  exists s', evtag_encode_int v s = Ok (tt, s') /\ room (n - Z.of_nat (length (enc 8 v))) s' /\ text s' = text s ++ enc 8 v.
Proof.
  intros H Hv Hl. unfold evtag_encode_int, encode_int_internal. destruct (enc_ok 8 v ltac:(lia) Hv) as [E _]. rewrite E.
  rewrite (bind_ok _ _ _ _ _ (eq_refl : lift (Ok (enc 8 v)) s = Ok (enc 8 v, s))). by apply add_step.
Qed.

(** A record at the end of the buffer. *)
Lemma tagged_run n s tag d (m : M S unit) : m = (evtag_encode_tag tag ;; evtag_encode_int (Z.of_nat (length d)) ;; let! _ := ev_add d in ret tt) ->
  room n s -> Z.of_nat (length d) < 2 ^ 32 -> Z.of_nat (length (tagged tag d)) <= n ->
  exists s', m s = Ok (tt, s') /\ room (n - Z.of_nat (length (tagged tag d))) s' /\ text s' = text s ++ tagged tag d.
Proof.
  intros -> H Hd Hn. unfold tagged in *. rewrite !length_app in *.
  destruct (encode_tag_run n s tag H ltac:(lia)) as (s1 & E1 & R1 & T1). rewrite (bind_ok _ _ _ _ _ E1).
  destruct (encode_int_run _ s1 (Z.of_nat (length d)) R1 ltac:(lia) ltac:(lia)) as (s2 & E2 & R2 & T2). rewrite (bind_ok _ _ _ _ _ E2).
  destruct (add_step _ s2 d R2 ltac:(lia)) as (s3 & E3 & R3 & T3). exists s3. split_and!; [done| |by rewrite T3, T2, T1, !app_assoc].
  eapply room_le; [exact R3|]. pose proof (proj2 (length_law _ _ R3)). lia.
Qed.

(** ** Reading *)

Lemma decode_tag_run n s tag rest (dr : bool) : room n s -> 0 <= tag < 2 ^ 32 -> text s = tag_bytes 4 tag ++ rest ->
  exists s', decode_tag_internal dr s = Ok (Some (Z.of_nat (length (tag_bytes 4 tag)), tag), s') /\ room n s' /\ text s' = if dr then rest else text s.
Proof.
  intros H Ht Hs. pose proof (tag_bytes_length 4 tag) as Hl. pose proof (proj1 (length_law _ _ H)) as Hlen. unfold decode_tag_internal.
  rewrite (bind_ok _ _ _ _ _ (eq_refl : get s = Ok (s, s))). cbv zeta. rewrite Hs, length_app in Hlen.
  set (k := if Z.ltb (ev_length s) 5 then ev_length s else 5).
  assert (Hk : Z.of_nat (length (tag_bytes 4 tag)) <= k <= ev_length s) by (unfold k; destruct (Z.ltb_spec (ev_length s) 5); lia).
  destruct (pullup_law n s k H ltac:(lia)) as (r & s1 & E1 & R1 & T1 & G). rewrite (bind_ok _ _ _ _ _ E1).
  rewrite (proj2 (Z.eqb_neq _ _)), (proj2 (Z.ltb_ge _ _)) in G by lia. cbn [orb] in G. destruct G as (d & -> & Hp & Hd). rewrite Hs in Hp.
  destruct (prefix_drop [] _ d (length (tag_bytes 4 tag)) Hp ltac:(change (length (@nil Z)) with 0%nat; lia)) as [y Ey]. change (length (@nil Z)) with 0%nat in Ey. rewrite drop_0, take_app_length in Ey. subst d.
  rewrite (tag_loop_run 4 (Z.to_nat (ev_length s)) tag y 0 0 0); [|change (2 ^ (7 * (Z.of_nat 4 + 1))) with (2 ^ 35); change (2 ^ 32) with 4294967296 in Ht; change (2 ^ 35) with 34359738368; lia|lia|by vm_compute| |lia].
  2: { change (2 ^ Z.of_nat 0) with 1. lia. }
  change (2 ^ Z.of_nat 0) with 1. rewrite Z.mul_1_r, Z.add_0_l, Nat.add_0_l.
  rewrite (bind_ok _ _ _ _ _ (eq_refl : lift (Ok (Some (length (tag_bytes 4 tag), tag))) s1 = Ok (Some (length (tag_bytes 4 tag), tag), s1))). cbv beta iota.
  rewrite (proj2 (Z.ltb_ge INT_MAX _)) by (unfold INT_MAX; lia). destruct dr.
  - destruct (drain_law n s1 (Z.of_nat (length (tag_bytes 4 tag))) R1 ltac:(lia)) as (s2 & E2 & R2 & T2).
    exists s2. split; [erewrite bind_ok; [reflexivity|]; by rewrite (bind_ok _ _ _ _ _ E2)|]. split; [done|]. by rewrite T2, T1, Hs, Nat2Z.id, drop_app_length.
  - by exists s1.
Qed.

Lemma decode_run w n s (p d rest : bytes) v c : room n s -> encodes w v d c -> text s = p ++ d ++ rest ->
  exists s', decode_internal w (Z.of_nat (length p)) s = Ok (Some (Z.of_nat (length d), v), s') /\ room n s' /\ text s' = text s.
Proof.
  intros H He Hs. pose proof (proj1 (length_law _ _ H)) as Hlen. pose proof He as [H1 H2 H3 H4 H5]. unfold decode_internal.
  rewrite (bind_ok _ _ _ _ _ (eq_refl : get s = Ok (s, s))). cbv zeta. rewrite Hs, !length_app in Hlen. rewrite (proj2 (Z.leb_gt _ _)) by lia.
  assert (Hpull : forall k s0, room n s0 -> text s0 = text s -> 0 < k <= Z.of_nat (length d) -> exists s1 x y, ev_pullup (Z.of_nat (length p) + k) s0 = Ok (Some x, s1) /\ room n s1 /\ text s1 = text s /\
    pulled (Z.of_nat (length p)) (Some x) s1 = Ok (Some (take (Z.to_nat k) d ++ y), s1)).
  { intros k s0 R0 T0 Hk. destruct (pullup_law n s0 (Z.of_nat (length p) + k) R0 ltac:(lia)) as (r & s1 & E1 & R1 & T1 & G). pose proof (proj1 (length_law _ _ R0)) as Hl0.
    rewrite T0, Hs, !length_app in Hl0. rewrite (proj2 (Z.eqb_neq _ _)), (proj2 (Z.ltb_ge _ _)) in G by lia. cbn [orb] in G. destruct G as (x & -> & Hp & Hx). rewrite T0, Hs in Hp.
    destruct (prefix_drop p (d ++ rest) x (Z.to_nat k) Hp ltac:(lia)) as [y Ey]. rewrite take_app_le in Ey by lia. exists s1, x, y. split_and!; [done|done|congruence|].
    unfold pulled. by rewrite Nat2Z.id, Ey. }
  destruct (Hpull 1 s H eq_refl ltac:(lia)) as (s1 & x & y & E1 & R1 & T1 & P1). rewrite (bind_ok _ _ _ _ _ E1), (bind_ok _ _ _ _ _ P1).
  assert (Hc : Z.shiftr (Z.land (default 0 ((take (Z.to_nat 1) d ++ y) !! 0%nat)) 240) 4 + 1 = Z.of_nat c).
  { rewrite <-(encodes_first w v d c [] He), app_nil_r. change (Z.to_nat 1) with 1%nat. by destruct d as [|z d]; [cbn in H3; lia|]. }
  rewrite Hc. assert (Hsh : Z.shiftr (Z.of_nat c) 1 = Z.of_nat (c / 2)) by (rewrite Z.shiftr_div_pow2 by lia; change (2 ^ 1) with (Z.of_nat 2); by rewrite Nat2Z.inj_div).
  rewrite Hsh, (proj2 (Z.ltb_ge _ _)), (proj2 (Z.ltb_ge _ _)) by lia. cbn [orb].
  replace (Z.of_nat (c / 2) + 1) with (Z.of_nat (length d)) by lia.
  destruct (Hpull (Z.of_nat (length d)) s1 R1 T1 ltac:(lia)) as (s2 & x2 & y2 & E2 & R2 & T2 & P2). rewrite (bind_ok _ _ _ _ _ E2), (bind_ok _ _ _ _ _ P2).
  exists s2. rewrite !Nat2Z.id, firstn_all, (encodes_decode w v d c y2 He). by split_and!.
Qed.

Lemma decode_enc_run w n s (p rest : bytes) v : (2 <= w <= 16)%nat -> 0 <= v < 16 ^ Z.of_nat w -> room n s -> text s = p ++ enc w v ++ rest ->
  exists s', decode_internal w (Z.of_nat (length p)) s = Ok (Some (Z.of_nat (length (enc w v)), v), s') /\ room n s' /\ text s' = text s.
Proof. intros Hw Hv H Hs. destruct (enc_ok w v Hw Hv) as (_ & c & He). by eapply decode_run. Qed.

Lemma decode_int_run n s v rest : room n s -> 0 <= v < 2 ^ 32 -> text s = enc 8 v ++ rest ->
  exists s', evtag_decode_int s = Ok (Some v, s') /\ room n s' /\ text s' = rest.
Proof.
  intros H Hv Hs. unfold evtag_decode_int, drain_number, decode_int_internal. destruct (decode_enc_run 8 n s [] rest v ltac:(lia) Hv H Hs) as (s1 & E1 & R1 & T1).
  change (Z.of_nat (length (@nil Z))) with 0 in E1. rewrite (bind_ok _ _ _ _ _ E1). cbv beta iota.
  destruct (drain_law n s1 (Z.of_nat (length (enc 8 v))) R1 ltac:(lia)) as (s2 & E2 & R2 & T2). rewrite (bind_ok _ _ _ _ _ E2). exists s2. split_and!; [done|done|].
  by rewrite T2, T1, Hs, Nat2Z.id, drop_app_length.
Qed.

(** The header of a record; less than 2 GiB follow. *)
Lemma header_run n s tag d rest : room n s -> 0 <= tag < 2 ^ 32 -> Z.of_nat (length d) < 2 ^ 31 -> text s = tagged tag d ++ rest ->
  exists s', evtag_unmarshal_header s = Ok (Some (Z.of_nat (length d), tag), s') /\ room n s' /\ text s' = d ++ rest.
Proof.
  intros H Ht Hd Hs. unfold tagged in Hs. rewrite <-!app_assoc in Hs. unfold evtag_unmarshal_header.
  destruct (decode_tag_run n s tag _ true H Ht Hs) as (s1 & E1 & R1 & T1). rewrite (bind_ok _ _ _ _ _ E1). cbv beta iota.
  change (2 ^ 31) with 2147483648 in Hd.
  destruct (decode_int_run n s1 (Z.of_nat (length d)) (d ++ rest) R1 ltac:(change (2 ^ 32) with 4294967296; lia) T1) as (s2 & E2 & R2 & T2). rewrite (bind_ok _ _ _ _ _ E2). cbv beta iota.
  rewrite (bind_ok _ _ _ _ _ (eq_refl : get s2 = Ok (s2, s2))). pose proof (proj1 (length_law _ _ R2)) as Hl. rewrite T2, length_app in Hl.
  rewrite s32_id by lia. rewrite (proj2 (Z.ltb_ge _ _)), (proj2 (Z.eqb_neq _ _)) by lia. exists s2. by split_and!.
Qed.

(** ** Streams of records *)

Definition write (r : Z * value) : M S unit :=
  let '(tag, v) := r in
  match v with
  | Data d | Fixed d => evtag_marshal tag d
  | Str d => evtag_marshal_string tag d
  | Int v => evtag_marshal_int tag v
  | Int64 v => evtag_marshal_int64 tag v
  | Timeval s u => evtag_marshal_timeval tag s u
  end.

(** The reader knows the kind of record, its tag, and the size of a fixed one. *)
Definition read (r : Z * value) : M (S * S) answer :=
  let '(tag, v) := r in
  match v with
  | Data _ => let! a := evtag_unmarshal in ret (Length a)
  | Fixed d => let! a := fst_ (evtag_unmarshal_fixed tag (Z.of_nat (length d))) in ret (Bytes a)
  | Str _ => let! a := fst_ (evtag_unmarshal_string true tag) in ret (Bytes a)
  | Int _ => let! a := fst_ (evtag_unmarshal_int tag) in ret (Number a)
  | Int64 _ => let! a := fst_ (evtag_unmarshal_int64 tag) in ret (Number a)
  | Timeval _ _ => let! a := fst_ (evtag_unmarshal_timeval tag) in ret (Time a)
  end.

Fixpoint write_all (l : list (Z * value)) : M S unit :=
  match l with [] => ret tt | r :: l' => write r ;; write_all l' end.

Fixpoint read_all (l : list (Z * value)) : M (S * S) (list answer) :=
  match l with [] => ret [] | r :: l' => let! a := read r in let! as_ := read_all l' in ret (a :: as_) end.

Lemma payload_small v : value_ok v -> Z.of_nat (length (payload v)) < 2 ^ 31.
Proof.
  assert (H8 : forall v, 0 <= v < 2 ^ 32 -> (length (enc 8 v) <= 5)%nat) by (intros x Hx; apply (enc_length 8 x); [lia|done]).
  destruct v as [d|d|d|v|v|x y]; intros H; cbn [payload value_ok] in *; try done.
  - specialize (H8 v H). change (2 ^ 31) with 2147483648. lia.
  - pose proof (enc_length 16 v ltac:(lia) H) as H16. change (16 / 2 + 1)%nat with 9%nat in H16. change (2 ^ 31) with 2147483648. lia.
  - destruct H as [H1 H2]. apply H8 in H1, H2. rewrite length_app. change (2 ^ 31) with 2147483648. lia.
Qed.

Lemma tag_write_run n s r : room n s -> record_ok r -> Z.of_nat (length (record r)) <= n ->
  exists s', write r s = Ok (tt, s') /\ room (n - Z.of_nat (length (record r))) s' /\ text s' = text s ++ record r.
Proof.
  destruct r as [tag v]. intros H [Ht Hv] Hn. cbn [fst snd] in *. pose proof (payload_small v Hv) as Hp. unfold record in *. cbn [fst snd] in *. change (2 ^ 31) with 2147483648 in Hp.
  assert (Hm : forall d, Z.of_nat (length d) < 2147483648 -> evtag_marshal tag d = (evtag_encode_tag tag ;; evtag_encode_int (Z.of_nat (length d)) ;; let! _ := ev_add d in ret tt)).
  { intros d Hd. unfold evtag_marshal, u32. by rewrite Z.mod_small by lia. }
  assert (Hrun : forall m, m = (evtag_encode_tag tag ;; evtag_encode_int (Z.of_nat (length (payload v))) ;; let! _ := ev_add (payload v) in ret tt) -> exists s', m s = Ok (tt, s') /\
    room (n - Z.of_nat (length (tagged tag (payload v)))) s' /\ text s' = text s ++ tagged tag (payload v)) by (intros m Em; apply (tagged_run n s tag (payload v) m Em H); [change (2 ^ 32) with 4294967296; lia|done]).
  assert (Hl : forall {B} (d : bytes) (k : bytes -> M S B), (let! x := lift (Ok d) in k x) s = k d s) by done.
  destruct v as [d|d|d|v|v|x y]; cbn [write payload value_ok] in *.
  - apply Hrun. by apply Hm.
  - apply Hrun. by apply Hm.
  - unfold evtag_marshal_string. apply Hrun. by apply Hm.
  - unfold evtag_marshal_int, marshal_number, encode_int_internal. rewrite (proj1 (enc_ok 8 v ltac:(lia) Hv)), Hl. by apply Hrun.
  - unfold evtag_marshal_int64, marshal_number, encode_int64_internal. rewrite (proj1 (enc_ok 16 v ltac:(lia) Hv)), Hl. by apply Hrun.
  - destruct Hv as [Hx Hy]. unfold evtag_marshal_timeval, encode_int_internal, u32. change 4294967296 with (2 ^ 32). rewrite !Z.mod_small by done.
    rewrite (proj1 (enc_ok 8 x ltac:(lia) Hx)), (proj1 (enc_ok 8 y ltac:(lia) Hy)), !Hl. apply Hrun. by apply Hm.
Qed.

(** ** Reading the records *)

Lemma unmarshal_run n m s t tag d rest : room n s -> room m t -> 0 <= tag < 2 ^ 32 -> Z.of_nat (length d) < 2 ^ 31 -> Z.of_nat (length d) <= m -> text s = tagged tag d ++ rest ->
  exists s' t', evtag_unmarshal (s, t) = Ok (Some (Z.of_nat (length d), tag), (s', t')) /\ room n s' /\ text s' = rest /\ room (m - Z.of_nat (length d)) t' /\ text t' = text t ++ d.
Proof.
  intros H Hm Ht Hd Hdm Hs. unfold evtag_unmarshal. destruct (header_run n s tag d rest H Ht Hd Hs) as (s1 & E1 & R1 & T1).
  rewrite (bind_ok _ _ _ _ _ (fst_ok _ _ t _ _ E1)). cbv beta iota. change (2 ^ 31) with 2147483648 in Hd.
  destruct (pullup_law n s1 (Z.of_nat (length d)) R1 ltac:(lia)) as (r & s2 & E2 & R2 & T2 & G). rewrite (bind_ok _ _ _ _ _ (fst_ok _ _ t _ _ E2)).
  assert (Ha : exists t', add_pulled r (Z.of_nat (length d)) t = Ok (0, t') /\ room (m - Z.of_nat (length d)) t' /\ text t' = text t ++ d).
  { unfold add_pulled. rewrite (proj2 (Z.ltb_ge _ _)) by lia. destruct (Z.eqb_spec (Z.of_nat (length d)) 0) as [E0|E0].
    - assert (Hn : d = []) by (apply nil_length_inv; lia). subst d. by apply add_law.
    - pose proof (proj1 (length_law _ _ R1)) as Hl. rewrite T1, length_app in Hl. cbn [orb] in G. rewrite (proj2 (Z.ltb_ge _ _)) in G by lia.
      destruct G as (x & -> & Hx & Hlx). rewrite T1 in Hx. destruct (prefix_drop [] (d ++ rest) x (length d) Hx ltac:(cbn [length]; lia)) as [y Ey].
      change (length (@nil Z)) with 0%nat in Ey. rewrite drop_0, take_app_length in Ey. subst x. rewrite Nat2Z.id, take_app_length. by apply add_law. }
  destruct Ha as (t' & E3 & R3 & T3). rewrite (bind_ok _ _ _ _ _ (snd_ok _ s2 _ _ _ E3)). change (0 =? -1) with false. cbv iota.
  assert (Hu : u64 (Z.of_nat (length d)) = Z.of_nat (length d)) by (unfold u64; apply Z.mod_small; lia). rewrite Hu.
  destruct (drain_law n s2 (Z.of_nat (length d)) R2 ltac:(lia)) as (s3 & E4 & R4 & T4). rewrite (bind_ok _ _ _ _ _ (fst_ok _ _ t' _ _ E4)).
  exists s3, t'. split_and!; try done. by rewrite T4, T2, T1, Nat2Z.id, drop_app_length.
Qed.

Lemma tag_remove_run n s d rest : room n s -> Z.of_nat (length d) < 2 ^ 31 -> text s = d ++ rest ->
  exists s', ev_remove (Z.of_nat (length d)) s = Ok ((Z.of_nat (length d), d), s') /\ room n s' /\ text s' = rest.
Proof.
  intros H Hd Hs. destruct (remove_law n s (Z.of_nat (length d)) H ltac:(lia)) as (s' & E & R & T). pose proof (proj1 (length_law _ _ H)) as Hl. rewrite Hs, length_app in Hl.
  rewrite Hs, Nat2Z.id, take_app_length, Z.min_l in E by lia. rewrite Hs, Nat2Z.id, drop_app_length in T. by exists s'.
Qed.

Lemma number_run w n s tag v rest : (2 <= w <= 16)%nat -> 0 <= v < 16 ^ Z.of_nat w -> room n s -> 0 <= tag < 2 ^ 32 -> text s = tagged tag (enc w v) ++ rest ->
  exists s', unmarshal_number (decode_internal w) tag s = Ok (Some (Z.of_nat (length (enc w v)), v), s') /\ room n s' /\ text s' = rest.
Proof.
  intros Hw Hv H Ht Hs. unfold tagged in Hs. rewrite <-!app_assoc in Hs. unfold unmarshal_number. pose proof (enc_length w v Hw Hv) as Hl.
  assert (Hw2 : (w / 2 <= 8)%nat) by (change 8%nat with (16 / 2)%nat; apply Nat.Div0.div_le_mono; lia).
  destruct (decode_tag_run n s tag _ true H Ht Hs) as (s1 & E1 & R1 & T1). rewrite (bind_ok _ _ _ _ _ E1). cbv beta iota. rewrite Z.eqb_refl. cbn [negb].
  destruct (decode_int_run n s1 (Z.of_nat (length (enc w v))) _ R1 ltac:(change (2 ^ 32) with 4294967296; lia) T1) as (s2 & E2 & R2 & T2). rewrite (bind_ok _ _ _ _ _ E2). cbv beta iota.
  rewrite (bind_ok _ _ _ _ _ (eq_refl : get s2 = Ok (s2, s2))). pose proof (proj1 (length_law _ _ R2)) as Hl2. rewrite T2, length_app in Hl2. rewrite (proj2 (Z.ltb_ge _ _)) by lia.
  destruct (decode_enc_run w n s2 [] rest v Hw Hv R2 T2) as (s3 & E3 & R3 & T3). change (Z.of_nat (length (@nil Z))) with 0 in E3. rewrite (bind_ok _ _ _ _ _ E3).
  destruct (drain_law n s3 (Z.of_nat (length (enc w v))) R3 ltac:(lia)) as (s4 & E4 & R4 & T4). rewrite (bind_ok _ _ _ _ _ E4). exists s4.
  rewrite (proj2 (Z.ltb_ge _ _)) by lia. split_and!; [done|done|]. by rewrite T4, T3, T2, Nat2Z.id, drop_app_length.
Qed.

Lemma timeval_run n s tag x y rest : 0 <= x < 2 ^ 32 -> 0 <= y < 2 ^ 32 -> room n s -> 0 <= tag < 2 ^ 32 -> text s = tagged tag (enc 8 x ++ enc 8 y) ++ rest ->
  exists s', evtag_unmarshal_timeval tag s = Ok (Some (x, y), s') /\ room n s' /\ text s' = rest.
Proof.
  intros Hx Hy H Ht Hs. pose proof (payload_small (Timeval x y) (conj Hx Hy)) as Hd. cbn [payload] in Hd. unfold evtag_unmarshal_timeval.
  destruct (header_run n s tag _ rest H Ht Hd Hs) as (s1 & E1 & R1 & T1). rewrite (bind_ok _ _ _ _ _ E1). cbv beta iota. rewrite Z.eqb_refl. cbn [negb].
  rewrite <-app_assoc in T1. destruct (decode_enc_run 8 n s1 [] _ x ltac:(lia) Hx R1 T1) as (s2 & E2 & R2 & T2).
  destruct (decode_enc_run 8 n s2 (enc 8 x) rest y ltac:(lia) Hy R2 ltac:(by rewrite T2, T1)) as (s3 & E3 & R3 & T3).
  set (len := length (enc 8 x ++ enc 8 y)) in *. assert (Hlen : (len = length (enc 8 x) + length (enc 8 y))%nat) by apply length_app.
  assert (Hu : u64 (Z.of_nat len) = Z.of_nat len) by (unfold u64; apply Z.mod_small; change (2 ^ 31) with 2147483648 in Hd; lia). rewrite Hu.
  destruct (drain_law n s3 (Z.of_nat len) R3 ltac:(lia)) as (s4 & E4 & R4 & T4). exists s4. split_and!; [|done|].
  - erewrite bind_ok; [rewrite (bind_ok _ _ _ _ _ E4); reflexivity|]. unfold decode_int_internal. change (Z.of_nat (length (@nil Z))) with 0 in E2. rewrite (bind_ok _ _ _ _ _ E2). cbv beta iota.
    rewrite (bind_ok _ _ _ _ _ E3). cbv beta iota. rewrite (proj2 (Z.ltb_ge _ _)) by lia. done.
  - rewrite T4, T3, T2, T1, Nat2Z.id, Hlen, app_assoc. by rewrite <-length_app, drop_app_length.
Qed.

Lemma read_run n m s t r rest : room n s -> room m t -> record_ok r -> Z.of_nat (length (copied r)) <= m -> text s = record r ++ rest ->
  exists s' t', read r (s, t) = Ok (expected r, (s', t')) /\ room n s' /\ text s' = rest /\ room (m - Z.of_nat (length (copied r))) t' /\ text t' = text t ++ copied r.
Proof.
  destruct r as [tag v]. intros H Hm [Ht Hv] Hc Hs. unfold record in Hs. cbn [fst snd] in *.
  assert (Hone : forall {A} (g : A -> answer) (k : M S A) a, (exists s', k s = Ok (a, s') /\ room n s' /\ text s' = rest) -> copied (tag, v) = [] ->
    exists s' t', (let! x := fst_ k in ret (g x)) (s, t) = Ok (g a, (s', t')) /\ room n s' /\ text s' = rest /\ room (m - Z.of_nat (length (copied (tag, v)))) t' /\ text t' = text t ++ copied (tag, v)).
  { intros A g k a (s' & E & R & T) ->. exists s', t. rewrite (bind_ok _ _ _ _ _ (fst_ok _ _ t _ _ E)), app_nil_r, Z.sub_0_r. by split_and!. }
  destruct v as [d|d|d|v|v|x y]; cbn [read payload value_ok expected fst snd] in *.
  - destruct (unmarshal_run n m s t tag d rest H Hm Ht Hv Hc Hs) as (s' & t' & E & G). exists s', t'. by rewrite (bind_ok _ _ _ _ _ E).
  - apply Hone; [|done]. unfold evtag_unmarshal_fixed. destruct (header_run n s tag d rest H Ht Hv Hs) as (s1 & E1 & R1 & T1). rewrite (bind_ok _ _ _ _ _ E1). cbv beta iota.
    rewrite (proj2 (Z.ltb_ge _ _)), !Z.eqb_refl by lia. cbn [negb orb]. destruct (tag_remove_run n s1 d rest R1 Hv T1) as (s2 & E2 & G). rewrite (bind_ok _ _ _ _ _ E2). by exists s2.
  - apply Hone; [|done]. unfold evtag_unmarshal_string. destruct (header_run n s tag d rest H Ht Hv Hs) as (s1 & E1 & R1 & T1). rewrite (bind_ok _ _ _ _ _ E1). cbv beta iota.
    rewrite Z.eqb_refl. cbn [negb orb]. rewrite (proj2 (Z.ltb_ge _ _)) by lia. destruct (tag_remove_run n s1 d rest R1 Hv T1) as (s2 & E2 & G). rewrite (bind_ok _ _ _ _ _ E2). by exists s2.
  - apply Hone; [|done]. by apply number_run; [lia| | | |].
  - apply Hone; [|done]. by apply number_run; [lia| | | |].
  - apply Hone; [|done]. by apply timeval_run; [apply Hv|apply Hv| | |].
Qed.

Lemma write_all_run l : forall n s, room n s -> Forall record_ok l -> Z.of_nat (length (concat (map record l))) <= n ->
  exists s', write_all l s = Ok (tt, s') /\ room 0 s' /\ text s' = text s ++ concat (map record l).
Proof.
  induction l as [|r l IH]; intros n s H Hl Hn; cbn [write_all map concat] in *.
  { exists s. rewrite app_nil_r. split_and!; [done|eapply room_le; [exact H|cbn in Hn; lia]|done]. }
  apply Forall_cons in Hl as [Hr Hl]. rewrite length_app in Hn. destruct (tag_write_run n s r H Hr ltac:(lia)) as (s1 & E1 & R1 & T1). rewrite (bind_ok _ _ _ _ _ E1).
  destruct (IH _ s1 R1 Hl ltac:(lia)) as (s2 & E2 & R2 & T2). exists s2. split_and!; [done|done|]. by rewrite T2, T1, app_assoc.
Qed.

Lemma read_all_run l : forall n m s t rest, room n s -> room m t -> Forall record_ok l -> Z.of_nat (length (concat (map copied l))) <= m -> text s = concat (map record l) ++ rest ->
  exists s' t', read_all l (s, t) = Ok (map expected l, (s', t')) /\ text s' = rest /\ text t' = text t ++ concat (map copied l).
Proof.
  induction l as [|r l IH]; intros n m s t rest H Hm Hl Hn Hs; cbn [read_all map concat] in *.
  { exists s, t. by rewrite app_nil_r. }
  apply Forall_cons in Hl as [Hr Hl]. rewrite length_app in Hn. rewrite <-app_assoc in Hs.
  destruct (read_run n m s t r _ H Hm Hr ltac:(lia) Hs) as (s1 & t1 & E1 & R1 & T1 & R2 & T2). rewrite (bind_ok _ _ _ _ _ E1).
  destruct (IH n _ s1 t1 rest R1 R2 Hl ltac:(lia) T1) as (s2 & t2 & E2 & G1 & G2). rewrite (bind_ok _ _ _ _ _ E2). exists s2, t2. split_and!; [done|done|]. by rewrite G2, T2, app_assoc.
Qed.

(** C29: What the functions of event_tagging.c write they read back. A list of
    records (data, fixed data, strings, 32 and 64 bit numbers, times), each with
    its tag, is written to an empty buffer and read again by kind and tag, one
    after the other: every record gives its tag, its length and its value, data
    records go to a second buffer in order, and nothing is left behind. This
    holds for every buffer with the interface. *)
Theorem tagged_round_trip (n m : Z) (l : list (Z * value)) s t :
  room n s -> room m t -> text s = [] -> Forall record_ok l -> Z.of_nat (length (concat (map record l))) <= n -> Z.of_nat (length (concat (map copied l))) <= m ->
  exists s1 s' t', write_all l s = Ok (tt, s1) /\ read_all l (s1, t) = Ok (map expected l, (s', t')) /\ text s' = [] /\ text t' = text t ++ concat (map copied l).
Proof.
  intros H Hm Hs Hl Hn Hc. destruct (write_all_run l n s H Hl Hn) as (s1 & E1 & R1 & T1). rewrite Hs, app_nil_l in T1.
  destruct (read_all_run l 0 m s1 t [] R1 Hm Hl Hc ltac:(by rewrite T1, app_nil_r)) as (s' & t' & G). by exists s1, s', t'.
Qed.
End Client.

(** ** The buffers of buffer.c *)

Import Buffer BufferFacts BufferOps.

#[export] Instance evbuffer_evbuf : Evbuf evbuffer := {
  ev_length := evbuffer_get_length; ev_add := evbuffer_add; ev_drain := evbuffer_drain; ev_pullup := evbuffer_pullup; ev_remove := evbuffer_remove;
  ev_add_buffer := evbuffer_add_buffer }.

(** Without lack of memory and not frozen. *)
Record evbuffer_room (n : Z) (b : evbuffer) : Prop := {
  er_ok : buf_ok b; er_mem : enough_memory b; er_start : freeze_start b = false; er_end : freeze_end b = false; er_pos : 0 <= n; er_fit : total_len b + n <= LIMIT }.

Lemma er_after n b n' b' : evbuffer_room n b -> buf_ok b' -> same_rest b b' -> 0 <= n' -> total_len b' + n' <= LIMIT -> evbuffer_room n' b'.
Proof. intros [R1 R2 R3 R4 R5 R6] H [S1 S2 S3] Hn Hf. split; try done; [unfold enough_memory; by rewrite S3|congruence|congruence]. Qed.

Lemma LIMIT_size : LIMIT <= EV_SIZE_MAX.
Proof. by vm_compute. Qed.

#[export] Program Instance evbuffer_evbuf_ok : EvbufOk evbuffer := { text := contents; room := evbuffer_room }.
Next Obligation. intros n m b [R1 R2 R3 R4 R5 R6] H. split; try done; lia. Qed.
Next Obligation. intros n b R. split; [apply (bo_total _ (er_ok _ _ R))|apply R]. Qed.
Next Obligation.
  intros n b d R Hd. pose proof R as [R1 R2 R3 R4 R5 R6]. pose proof (bo_total _ R1) as Ht. pose proof LIMIT_size. destruct (buffer_add_run d b R1 ltac:(lia)) as (r & b' & E & Hb & S1 & G).
  destruct G as [(_ & -> & C)|(_ & _ & Hno)]; [|exfalso; destruct (Hno R2) as [F|F]; [congruence|lia]].
  exists b'. split_and!; [done| |done]. eapply er_after; [done|done|done|lia|]. rewrite (bo_total _ Hb), C, length_app. lia.
Qed.
Next Obligation.
  intros n b k R Hk. pose proof R as [R1 R2 R3 R4 R5 R6]. pose proof (bo_total _ R1) as Ht. destruct (drain_run k b R1 Hk) as (r & b' & E & Hb & S1 & G).
  rewrite R3 in G. cbn [andb] in G. destruct G as [-> C]. exists b'. split_and!; [done| |done]. eapply er_after; [done|done|done|done|]. rewrite (bo_total _ Hb), C, length_drop. lia.
Qed.
Next Obligation.
  intros n b k R Hk. pose proof R as [R1 R2 R3 R4 R5 R6]. pose proof (bo_total _ R1) as Ht. destruct (pullup_run k b R1 ltac:(lia)) as (r & b' & E & Hb & S1 & C & G).
  exists r, b'. split_and!; [done| |done|].
  { eapply er_after; [done|done|done|done|]. rewrite (bo_total _ Hb), C. lia. }
  rewrite (proj2 (Z.ltb_ge _ _)) in G by lia. change (ev_length b) with (total_len b). destruct r as [d|]; cbn [pulls] in G.
  - destruct G as [G1 [z Hz]]. rewrite (proj2 (Z.eqb_neq _ _)) by lia. cbn [orb]. assert (Hl : Z.of_nat (length (contents b)) = Z.of_nat (length d) + Z.of_nat (length z)) by (rewrite Hz, length_app; lia).
    rewrite (proj2 (Z.ltb_ge _ _)) by lia. exists d. split_and!; [done|by exists z|lia].
  - destruct G as [->|[G|G]]; [done|by rewrite (proj2 (Z.ltb_lt _ _) G), orb_true_r|done].
Qed.
Next Obligation.
  intros n b k R Hk. pose proof R as [R1 R2 R3 R4 R5 R6]. pose proof (bo_total _ R1) as Ht. destruct (remove_bytes_run k b R1 Hk) as (r & d & b' & E & Hb & S1 & G).
  rewrite R3 in G. cbn [andb] in G. destruct G as (-> & -> & C). exists b'. split_and!; [|eapply er_after; [done|done|done|done|]; rewrite (bo_total _ Hb), C, length_drop; lia|done].
  etransitivity; [exact E|]. do 3 f_equal. rewrite length_take. change (ev_length b) with (total_len b). lia.
Qed.
Next Obligation.
  intros n b t R Rt Hn. pose proof R as [R1 R2 R3 R4 R5 R6]. pose proof (er_ok _ _ Rt) as Ht. change (ev_length t) with (total_len t) in *. pose proof LIMIT_size.
  pose proof (bo_total _ R1). pose proof (bo_total _ Ht).
  destruct (move_run freeze_end APPEND_CHAIN app b t append_joins R1 Ht ltac:(lia)) as (r & b' & t' & E & Hb & Ht' & S1 & S2 & G). rewrite R4, (er_start _ _ Rt) in G. cbn [orb andb] in G. destruct G as (-> & C1 & C2).
  exists b', t'. split_and!; [done|apply (er_after n b); try done; [lia|]|done|apply (er_after 0 t); try done|done].
  - rewrite (bo_total _ Hb), C1, length_app. lia.
  - rewrite (bo_total _ Ht'), C2. by vm_compute.
Qed.

(** ** An example *)

Definition some_records : list (Z * value) := [(1, Int 300); (70000, Str [104; 105]); (2, Data [1; 2; 3]); (3, Timeval 10 999999); (4294967295, Int64 (2 ^ 64 - 1)); (5, Fixed []); (6, Data [])].

Lemma new_room : evbuffer_room 1000 (evbuffer_new (fun _ => true)).
Proof. split; try done. split; cbn; [constructor|done|done|by left|done]. Qed.

Lemma tagged_round_trip_witness :
  exists s1 s' t', write_all some_records (evbuffer_new (fun _ => true)) = Ok (tt, s1) /\ read_all some_records (s1, evbuffer_new (fun _ => true)) = Ok (map expected some_records, (s', t')) /\
    text s' = [] /\ text t' = text (evbuffer_new (fun _ => true)) ++ concat (map copied some_records).
Proof.
  apply (tagged_round_trip 1000 1000 some_records (evbuffer_new (fun _ => true)) (evbuffer_new (fun _ => true)));
    [apply new_room|apply new_room|reflexivity|repeat constructor; done|by vm_compute|by vm_compute].
Defined.

(** The bytes of a record: the low bits come first, in tags and in numbers. *)
Example record_bytes : record (0x166, Int 0x1234) = [0xe6; 0x02; 0x03; 0x34; 0x32; 0x10].
Proof. by vm_compute. Qed.

(** Six bytes that announce another: the tag is read behind the five bytes that
    evbuffer_pullup made contiguous, with a shift of 35. *)
Example long_tag_shifts : (evbuffer_add (replicate 6 0x80) ;; evtag_decode_tag) (evbuffer_new (fun _ => true)) = Fault BadShift.
Proof. by vm_compute. Qed.
End TagThms.
