(* ===== verification/AddrFacts.v ===== *)
(** * Facts about addresses as text

    The lemmas behind [AddrThms]: numbers in base ten and sixteen are read
    back, the loop of evutil_inet_pton stays inside its arrays on every text,
    and it collects the words that evutil_inet_ntop printed. *)

From stdpp Require Import prelude gmap strings.
From S2P Require Import Prelude CLib EvAddr.
Open Scope Z_scope.

Module AddrFacts.
Import EvAddr.

(** What holds of the 256 bytes one by one holds of every byte. *)
Lemma byte_check (f : Z -> bool) : forallb f (Z.of_nat <$> seq 0 256) = true -> forall c, is_byte c -> f c = true.
Proof.
  intros H c Hc. unfold is_byte in Hc. rewrite forallb_forall in H. apply H, list_elem_of_In, list_elem_of_fmap.
  exists (Z.to_nat c). split; [lia|]. apply elem_of_seq. lia.
Qed.

(** ** Classes of characters *)

Definition between (a b c : Z) : bool := Z.leb a c && Z.leb c b.

(** The tables hold the classes of ASCII. *)
Lemma ctype_ascii c : is_byte c ->
  EVUTIL_ISDIGIT c = between 48 57 c /\ EVUTIL_ISUPPER c = between 65 90 c /\ EVUTIL_ISLOWER c = between 97 122 c /\
  EVUTIL_ISALPHA c = EVUTIL_ISUPPER c || EVUTIL_ISLOWER c /\ EVUTIL_ISALNUM c = EVUTIL_ISALPHA c || EVUTIL_ISDIGIT c /\
  EVUTIL_ISXDIGIT c = EVUTIL_ISDIGIT c || between 65 70 c || between 97 102 c /\
  EVUTIL_ISSPACE c = is_space c /\ EVUTIL_ISPRINT c = between 32 126 c /\
  EVUTIL_TOLOWER c = s8 (if EVUTIL_ISUPPER c then c + 32 else c) /\
  EVUTIL_TOUPPER c = s8 (if EVUTIL_ISLOWER c then c - 32 else c).
Proof.
  intros Hc. pose (f := fun c => bool_decide (
    EVUTIL_ISDIGIT c = between 48 57 c /\ EVUTIL_ISUPPER c = between 65 90 c /\ EVUTIL_ISLOWER c = between 97 122 c /\
    EVUTIL_ISALPHA c = EVUTIL_ISUPPER c || EVUTIL_ISLOWER c /\ EVUTIL_ISALNUM c = EVUTIL_ISALPHA c || EVUTIL_ISDIGIT c /\
    EVUTIL_ISXDIGIT c = EVUTIL_ISDIGIT c || between 65 70 c || between 97 102 c /\
    EVUTIL_ISSPACE c = is_space c /\ EVUTIL_ISPRINT c = between 32 126 c /\
    EVUTIL_TOLOWER c = s8 (if EVUTIL_ISUPPER c then c + 32 else c) /\
    EVUTIL_TOUPPER c = s8 (if EVUTIL_ISLOWER c then c - 32 else c))).
  pose proof (byte_check f ltac:(vm_compute; reflexivity) c Hc) as H. by apply bool_decide_eq_true in H.
Qed.

(** A character without its case. *)
Definition lower (c : Z) : Z := if between 65 90 c then c + 32 else c.

Lemma tolower_inj c d : is_byte c -> is_byte d -> EVUTIL_TOLOWER c = EVUTIL_TOLOWER d <-> lower c = lower d.
Proof.
  intros Hc Hd. destruct (ctype_ascii c Hc) as (_ & Uc & _ & _ & _ & _ & _ & _ & -> & _), (ctype_ascii d Hd) as (_ & Ud & _ & _ & _ & _ & _ & _ & -> & _).
  rewrite Uc, Ud. fold (lower c) (lower d).
  assert (Hl : forall x, is_byte x -> 0 <= lower x < 256).
  { intros x Hx. unfold lower, between, is_byte in *. destruct (Z.leb_spec 65 x), (Z.leb_spec x 90); cbn [andb]; lia. }
  pose proof (Hl c Hc). pose proof (Hl d Hd). unfold s8. split; [|congruence]. Z.to_euclidean_division_equations; lia.
Qed.

Lemma tolower_zero c : is_byte c -> EVUTIL_TOLOWER c = 0 <-> c = 0.
Proof.
  intros Hc. rewrite (tolower_inj c 0 Hc ltac:(unfold is_byte; lia) : EVUTIL_TOLOWER c = 0 <-> _).
  change (lower 0) with 0. unfold lower, between, is_byte in *. destruct (Z.leb_spec 65 c), (Z.leb_spec c 90); cbn [andb]; lia.
Qed.

(** Two names compare equal when they differ in case only; the comparison
    always ends at one of the NULs. *)
Lemma strcasecmp_spec s1 : forall s2, bytes_ok s1 -> bytes_ok s2 -> nonul s1 -> nonul s2 ->
  exists r, evutil_ascii_strcasecmp (s1 ++ [0]) (s2 ++ [0]) = Ok r /\ (r = 0 <-> lower <$> s1 = lower <$> s2).
Proof.
  assert (H0 : is_byte 0) by (unfold is_byte; lia).
  assert (Hz : forall x : Z, is_byte x -> x <> 0 -> EVUTIL_TOLOWER x <> EVUTIL_TOLOWER 0) by (intros x Hx Hn E; by apply Hn, (tolower_zero x Hx)).
  induction s1 as [|x s1 IH]; intros [|y s2] B1 B2 N1 N2; cbn [app evutil_ascii_strcasecmp].
  - by exists 0.
  - apply Forall_cons in B2 as [By _]. apply Forall_cons in N2 as [Ny _]. specialize (Hz y By Ny).
    destruct (Z.ltb_spec (EVUTIL_TOLOWER 0) (EVUTIL_TOLOWER y)); [by exists (-1)|].
    destruct (Z.ltb_spec (EVUTIL_TOLOWER y) (EVUTIL_TOLOWER 0)); [by exists 1|lia].
  - apply Forall_cons in B1 as [Bx _]. apply Forall_cons in N1 as [Nx _]. specialize (Hz x Bx Nx).
    destruct (Z.ltb_spec (EVUTIL_TOLOWER x) (EVUTIL_TOLOWER 0)); [by exists (-1)|].
    destruct (Z.ltb_spec (EVUTIL_TOLOWER 0) (EVUTIL_TOLOWER x)); [by exists 1|lia].
  - apply Forall_cons in B1 as [Bx B1]. apply Forall_cons in N1 as [Nx N1]. apply Forall_cons in B2 as [By B2]. apply Forall_cons in N2 as [_ N2].
    destruct (IH s2 B1 B2 N1 N2) as (r & E & Hr). pose proof (tolower_inj x y Bx By) as Hi. rewrite !fmap_cons.
    destruct (Z.ltb_spec (EVUTIL_TOLOWER x) (EVUTIL_TOLOWER y)).
    { exists (-1). split; [done|]. split; [done|]. intros [= Hl _]. apply Hi in Hl. lia. }
    destruct (Z.ltb_spec (EVUTIL_TOLOWER y) (EVUTIL_TOLOWER x)).
    { exists 1. split; [done|]. split; [done|]. intros [= Hl _]. apply Hi in Hl. lia. }
    rewrite (proj2 (Z.eqb_neq _ 0)) by (by rewrite tolower_zero). exists r. split; [done|]. rewrite Hr.
    assert (Hl : lower x = lower y) by (apply Hi; lia). split; [congruence|by intros [= _ ?]].
Qed.

(** ** Reading is safe on every text *)

Lemma xdigits_count s : forall acc, (snd (xdigits acc s) <= length s)%nat.
Proof.
  induction s as [|c s IH]; intros acc; cbn [xdigits length]; [simpl; lia|].
  destruct (xdigit c); [|simpl; lia]. specialize (IH (16 * acc + z)). destruct (xdigits _ s). simpl in *. lia.
Qed.

Lemma strtol16_count s : (snd (strtol16 s) <= length s)%nat.
Proof.
  assert (Hp : (snd (prod_map clamp64 id (xdigits 0 s)) <= length s)%nat).
  { pose proof (xdigits_count s 0). by destruct (xdigits 0 s). }
  unfold strtol16. destruct s as [|z [|x [|c s]]]; try done. case_match; [|done].
  pose proof (xdigits_count (drop 2 (z :: x :: c :: s)) 0) as H1. destruct (xdigits 0 _). simpl in *. lia.
Qed.

Lemma char_at_ok s i : (i <= length s)%nat -> exists c, char_at s i = Ok c.
Proof.
  intros H. unfold char_at. case_decide; [eauto|].
  destruct (lookup_lt_is_Some_2 s i ltac:(lia)) as [c ->]. eauto.
Qed.

Lemma char_at_drop s i c r : drop i s = c :: r -> char_at s i = Ok c.
Proof.
  intros H. assert (Hl : s !! i = Some c) by (by rewrite <-(Nat.add_0_r i), <-lookup_drop, H).
  unfold char_at. pose proof (lookup_lt_Some _ _ _ Hl). rewrite decide_False by lia. by rewrite Hl.
Qed.

Lemma wwrite_word (a : list Z) (r : list (option Z)) w :
  r <> [] -> wwrite ((Some <$> a) ++ r) (length a) [Some w] = Ok ((Some <$> (a ++ [w])) ++ drop 1 r).
Proof.
  intros Hr. destruct r as [|x r]; [done|]. unfold wwrite. rewrite decide_True by len.
  rewrite take_app_length' by len. rewrite drop_app_ge by len. rewrite length_map.
  replace (length a + length [Some w] - length a)%nat with 1%nat by (simpl; lia).
  by rewrite fmap_app, <-!app_assoc.
Qed.

(** What the loop over the words keeps: the words read so far are [a], and
    the IPv4 address at the end is not touched while there is room for it. *)
Definition scan_ok (tail : nat) (st : pton_st) (a : list Z) (r : list (option Z)) : Prop :=
  sc_words st = (Some <$> a) ++ r /\ length a = sc_i st /\ (length a + length r = 8)%nat /\
  sc_set st = (length a + tail)%nat /\ (forall g, sc_gap st = Some g -> g <= length a)%nat /\
  (length a + tail <= 8 -> exists t : list Z, length t = tail /\ drop (8 - tail - length a) r = Some <$> t)%nat.

Lemma scan_word tail src i n gap ws a r w src' :
  scan_ok tail (Build_pton_st src i n gap ws) a r -> (i < 8)%nat ->
  wwrite ws i [Some w] = Ok ((Some <$> (a ++ [w])) ++ drop 1 r) /\
  scan_ok tail (Build_pton_st src' (S i) (S n) gap ((Some <$> (a ++ [w])) ++ drop 1 r)) (a ++ [w]) (drop 1 r).
Proof.
  intros H Hlt. unfold scan_ok in H. simpl in H. destruct H as (-> & Hi & Hl & -> & Hg & Ht). subst i.
  destruct r as [|x r]; [simpl in *; lia|]. split; [by apply wwrite_word|].
  unfold scan_ok. simpl. rewrite length_app. simpl. split_and!; try done; try lia.
  - len.
  - intros g Eg. specialize (Hg g Eg). lia.
  - intros H8. destruct Ht as (t & Et & Hd); [lia|]. exists t. split; [done|]. rewrite <-Hd.
    replace (8 - tail - length a)%nat with (S (8 - tail - (length a + 1))) by lia. done.
Qed.

Lemma scan_gap tail src i n ws a r src' :
  scan_ok tail (Build_pton_st src i n None ws) a r -> scan_ok tail (Build_pton_st src' i n (Some i) ws) a r.
Proof.
  intros H. unfold scan_ok in H. simpl in H. destruct H as (-> & Hi & Hl & -> & Hg & Ht). subst i. repeat split; simpl; try done.
  intros g [= <-]. lia.
Qed.

(** Every round moves src, so the rounds end; no access leaves the text or
    the array. *)
Lemma scan_words_safe fuel : forall s eow tail src i n gap ws a r,
  (eow <= length s)%nat -> (eow - src < fuel)%nat -> scan_ok tail (Build_pton_st src i n gap ws) a r ->
  exists o, scan_words fuel s eow (Build_pton_st src i n gap ws) = Ok o /\
    (forall st, o = Some st -> exists a' r', scan_ok tail st a' r').
Proof.
  induction fuel as [|f IH]; intros s eow tail src i n gap ws a r He Hf H; [lia|]. cbn [scan_words].
  destruct (Nat.ltb_spec src eow) as [Hs|Hs]; cbn [negb]; [|eexists; split; [done|]; intros st [= <-]; eauto].
  destruct (Nat.ltb_spec 7 i) as [H7|H7]; [by exists None|].
  destruct (char_at_ok s src) as [c ->]; [lia|]. cbn [res_bind].
  destruct (EVUTIL_ISXDIGIT c).
  - pose proof (strtol16_count (drop src s)) as Hk. rewrite length_drop in Hk. destruct (strtol16 (drop src s)) as [v k]. simpl in Hk.
    destruct (Nat.ltb 4 k); [by exists None|]. destruct (Nat.eqb_spec k 0) as [Ek|Ek]; [by exists None|].
    destruct (Z.ltb v 0 || Z.ltb 65536 v); [by exists None|].
    destruct (scan_word tail src i n gap ws a r (u16 v) (S (src + k)) H ltac:(lia)) as [-> H']. cbn [res_bind].
    destruct (char_at_ok s (src + k)) as [c' ->]; [lia|]. cbn [res_bind].
    destruct (negb _ && negb _); [by exists None|]. eapply IH; [done| |exact H']. lia.
  - destruct (Z.eqb c 58 && Nat.ltb 0 i && bool_decide (gap = None)) eqn:E1.
    { apply andb_prop in E1 as [_ ->%bool_decide_eq_true]. eapply IH; [done| |by apply (scan_gap _ src)]. lia. }
    destruct (Z.eqb c 58 && Nat.eqb i 0) eqn:E2; cbn [andb]; [|cbn [res_bind]; by exists None].
    destruct (char_at_ok s (S src)) as [d ->]; [lia|]. cbn [res_bind].
    destruct (Z.eqb d 58 && bool_decide (gap = None)) eqn:E3; [|by exists None].
    apply andb_prop in E3 as [_ ->%bool_decide_eq_true]. eapply IH; [done| |by apply (scan_gap _ src)]. lia.
Qed.

(** The gap is opened in front of the words after it. *)
Lemma open_gap_run (a1 a2 t : list Z) (junk : list (option Z)) :
  (length a1 + length a2 + length t + length junk = 8)%nat ->
  open_gap ((Some <$> (a1 ++ a2)) ++ junk ++ (Some <$> t)) (length a1) (length a1 + length a2 + length t) (length t)
  = Ok (Some (Some <$> (a1 ++ zeros (length junk) ++ a2 ++ t))).
Proof.
  intros H. unfold open_gap. rewrite (proj2 (Z.ltb_ge _ _)) by lia.
  replace (8 - (length a1 + length a2 + length t))%nat with (length junk) by lia.
  replace (Z.to_nat _) with (length a2) by lia.
  unfold wread. rewrite decide_True by len. rewrite fmap_app, <-app_assoc, drop_app_length' by len. rewrite take_app_length' by len.
  cbn [res_bind]. unfold wwrite at 1. rewrite decide_True by len.
  assert (Ed : drop (length a1 + length junk + length (Some <$> a2)) ((Some <$> a1) ++ (Some <$> a2) ++ junk ++ (Some <$> t)) = Some <$> t).
  { replace ((Some <$> a1) ++ (Some <$> a2) ++ junk ++ (Some <$> t)) with (((Some <$> a1) ++ (Some <$> a2) ++ junk) ++ (Some <$> t)) by (by rewrite <-!app_assoc).
    apply drop_app_length'. len. }
  rewrite Ed. cbn [res_bind].
  set (front := take (length a1 + length junk) _). assert (Hf : exists x, front = (Some <$> a1) ++ x /\ length x = length junk).
  { exists (take (length junk) ((Some <$> a2) ++ junk ++ (Some <$> t))). unfold front.
    rewrite take_app_ge by len. rewrite length_map. split; [do 2 f_equal; lia|len]. }
  destruct Hf as (x & -> & Hx). unfold wwrite. rewrite decide_True by len. cbn [res_bind]. rewrite length_replicate.
  rewrite <-!app_assoc, take_app_length' by len. rewrite drop_app_ge by len. rewrite length_map, drop_app_length' by len.
  do 2 f_equal. unfold zeros. rewrite !fmap_app, fmap_replicate. done.
Qed.

Lemma word_bytes_some (ws : list Z) : exists b, word_bytes (Some <$> ws) = Ok b /\ length b = (2 * length ws)%nat.
Proof.
  induction ws as [|w ws (b & E & Hl)]; [by exists []|]. cbn [fmap list_fmap word_bytes]. change (list_fmap _ _ Some ws) with (Some <$> ws).
  rewrite E. cbn [res_bind]. eexists. split; [done|]. simpl. lia.
Qed.

(** The words at the end, as the caller gets them. *)
Definition final_words (a : list Z) (gap : option nat) (n : nat) (t : list Z) : list Z :=
  match gap with
  | None => a ++ t
  | Some g => take g a ++ zeros (8 - n) ++ drop g a ++ t
  end.

Lemma final_words_run tail src i n gap ws a r t :
  scan_ok tail (Build_pton_st src i n gap ws) a r ->
  (n <= 8)%nat -> (gap = None -> n = 8%nat) ->
  drop (8 - tail - length a) r = Some <$> t -> length t = tail ->
  match gap with Some g => open_gap ws g n tail | None => Ok (Some ws) end
  = Ok (Some (Some <$> final_words a gap n t)) /\ length (final_words a gap n t) = 8%nat.
Proof.
  intros H Hn Hg Hd Ht. unfold scan_ok in H. simpl in H. destruct H as (-> & Hi & Hl & -> & Hgap & _). subst i tail.
  pose proof (take_drop (8 - length t - length a) r) as Er. rewrite Hd in Er. unfold final_words.
  set (junk := take _ r) in *. assert (Hj : length junk = (8 - length t - length a)%nat) by (unfold junk; len).
  rewrite <-Er in *. destruct gap as [g|].
  - specialize (Hgap g eq_refl). rewrite <-(take_drop g a) at 1.
    assert (Hsum : (length (take g a) + length (drop g a) = length a)%nat) by len.
    replace g with (length (take g a)) at 3 by len.
    replace (length a + length t)%nat with (length (take g a) + length (drop g a) + length t)%nat at 1 by lia.
    replace (8 - (length a + length t))%nat with (length junk) by lia.
    rewrite open_gap_run by lia. split; [done|]. unfold zeros. len.
  - specialize (Hg eq_refl). destruct junk; [|simpl in *; lia]. split; [by rewrite fmap_app|]. len.
Qed.

(** The loop and what follows it answer 0 or 1, and store sixteen bytes
    when the answer is 1. *)
Lemma pton_words_safe s dst eow tail ws (t : list Z) :
  (eow <= length s)%nat -> (16 <= length dst)%nat -> length ws = 8%nat -> (tail <= 8)%nat ->
  drop (8 - tail) ws = Some <$> t -> length t = tail ->
  exists r dst', pton_words s dst eow tail ws = Ok (r, dst') /\ length dst' = length dst /\
    ((r = 0 /\ dst' = dst) \/ r = 1).
Proof.
  intros He Hdst Hws Htail Hd Ht. unfold pton_words.
  destruct (scan_words_safe (S eow) s eow tail 0 0 tail None ws [] ws) as (o & -> & Ho); [done|lia| |].
  { repeat split; simpl; try done. intros _. exists t. split; [done|]. by rewrite Nat.sub_0_r. }
  cbn [res_bind]. destruct o as [[src i n gap ws']|]; [|by exists 0, dst; eauto].
  destruct (Ho _ eq_refl) as (a & r & H). destruct (Nat.ltb_spec 8 n) as [H8|H8]; cbn [orb]; [by exists 0, dst; eauto|].
  case_match eqn:E; [by exists 0, dst; eauto|]. apply orb_false_iff in E as [_ E2].
  assert (Hg : gap = None -> n = 8%nat).
  { intros ->. rewrite bool_decide_eq_true_2, andb_true_r in E2 by done. apply Nat.ltb_ge in E2. lia. }
  assert (Hn : n = (length a + tail)%nat) by apply H. destruct (proj2 (proj2 (proj2 (proj2 (proj2 H)))) ltac:(lia)) as (t' & Ht' & Hd').
  destruct (final_words_run tail src i n gap ws' a r t' H H8 Hg Hd' Ht') as [-> Hl8]. cbn [res_bind].
  destruct (word_bytes_some (final_words a gap n t')) as (b & -> & Hb). cbn [res_bind].
  rewrite mwrite_ok by lia. cbn [res_bind]. eexists 1, _. split; [done|]. split; [apply length_patch; lia|by right].
Qed.

Lemma digits_back_le s i : (digits_back s i <= i)%nat.
Proof. induction i as [|i IH]; cbn [digits_back]; [done|]. case_match; lia. Qed.

Lemma memchr_lt c s i : memchr c s = Some i -> (i < length s)%nat.
Proof.
  revert i. induction s as [|x s IH]; intros i; cbn [memchr length]; [done|].
  case_match; [intros [= <-]; lia|]. destruct (memchr c s) as [j|] eqn:E; [|done]. intros [= <-]. specialize (IH j eq_refl). lia.
Qed.

Lemma pton_tail_run s eow (ws : list (option Z)) :
  length ws = 8%nat ->
  pton_tail s eow ws = Ok None \/
  exists w6 w7, pton_tail s eow ws = Ok (Some (take 6 ws ++ [Some w6; Some w7])).
Proof.
  intros Hl. unfold pton_tail. destruct (scan_dotted 4 (drop eow s)) as [|b1 [|b2 [|b3 [|b4 [|]]]]]; try by left.
  case_match; [|by left]. right. do 8 (destruct ws as [|? ws]; [done|]). destruct ws; [|done].
  eexists _, _. reflexivity.
Qed.

Lemma pton_inet6_safe s dst :
  (16 <= length dst)%nat ->
  exists r dst', pton_inet6 s dst = Ok (r, dst') /\ length dst' = length dst /\
    ((r = 0 /\ dst' = dst) \/ r = 1).
Proof.
  intros Hdst. unfold pton_inet6. destruct (memchr 46 s) as [[|dot]|] eqn:E; [by exists 0, dst; eauto| |].
  - apply memchr_lt in E. pose proof (digits_back_le s (S dot)) as Hb.
    destruct (pton_tail_run s (digits_back s (S dot)) (replicate 8 None)) as [->|(w6 & w7 & ->)]; [done|by exists 0, dst; eauto|].
    cbn [res_bind]. apply (pton_words_safe _ _ _ _ _ [w6; w7]); try done; lia.
  - by apply (pton_words_safe _ _ _ _ _ []); try done; lia.
Qed.

Lemma pton_inet_safe s dst :
  (4 <= length dst)%nat ->
  exists r dst', pton_inet s dst = Ok (r, dst') /\ length dst' = length dst /\
    ((r = 0 /\ dst' = dst) \/ r = 1).
Proof.
  intros Hdst. unfold pton_inet. destruct (scan_dotted 4 s) as [|b1 [|b2 [|b3 [|b4 [|]]]]]; try by (exists 0, dst; eauto).
  case_match; [|by exists 0, dst; eauto]. rewrite mwrite_ok by (rewrite length_le_enc; lia). cbn [res_bind].
  eexists 1, _. split; [done|]. split; [apply length_patch; rewrite length_le_enc; lia|by right].
Qed.

(** ** Numbers are read back *)

(** The characters of a printed word. *)
Definition is_hex (c : Z) : bool := (Z.leb 48 c && Z.leb c 57) || (Z.leb 97 c && Z.leb c 102).

Lemma is_hex_char d : 0 <= d < 16 -> is_hex (hex_char d) = true /\ xdigit (hex_char d) = Some d.
Proof.
  intros H. assert (Hd : (Z.to_nat d < 16)%nat) by lia. rewrite <-(Z2Nat.id d) by lia. revert Hd.
  generalize (Z.to_nat d). intros n Hn. do 16 (destruct n as [|n]; [by vm_compute|]). lia.
Qed.

Lemma is_hex_range c : is_hex c = true -> 48 <= c <= 57 \/ 97 <= c <= 102.
Proof. unfold is_hex. intros [[?%Z.leb_le ?%Z.leb_le]%andb_prop|[?%Z.leb_le ?%Z.leb_le]%andb_prop]%orb_prop; lia. Qed.

Lemma xdigits_app d : forall acc r,
  Forall (fun c => is_hex c = true) d ->
  xdigits acc (d ++ r) = prod_map id (Nat.add (length d)) (xdigits (fst (xdigits acc d)) r).
Proof.
  induction d as [|c d IH]; intros acc r H; [cbn [app xdigits fst length]; by destruct (xdigits acc r)|].
  apply Forall_cons in H as [Hc H]. cbn [app xdigits length].
  destruct (xdigit c) as [v|] eqn:E.
  - rewrite IH by done. destruct (xdigits (16 * acc + v) d). cbn. by destruct (xdigits _ r).
  - exfalso. apply is_hex_range in Hc. unfold xdigit, evutil_hex_char_to_int in E. destruct Hc.
    + rewrite (proj2 (Z.leb_le 48 c)), (proj2 (Z.leb_le c 57)) in E by lia. cbn [andb] in E. rewrite (proj2 (Z.ltb_ge _ _)) in E; [done|lia].
    + rewrite (proj2 (Z.leb_gt c 57)), (proj2 (Z.leb_gt c 70)), (proj2 (Z.leb_le 97 c)), (proj2 (Z.leb_le c 102)), !andb_false_r in E by lia.
      cbn [andb] in E. rewrite (proj2 (Z.ltb_ge _ _)) in E; [done|lia].
Qed.

Lemma hex_digits_spec fuel : forall z acc, 0 <= z < 16 ^ Z.of_nat fuel ->
  exists d, hex_digits fuel z acc = d ++ acc /\ (0 < fuel -> d <> [])%nat /\ (length d <= fuel)%nat /\
    Forall (fun c => is_hex c = true) d /\
    (forall a, fst (xdigits a d) = a * 16 ^ Z.of_nat (length d) + z).
Proof.
  induction fuel as [|f IH]; intros z acc Hz.
  - exists []. split_and!; try done; [lia|]. intros a. change (16 ^ Z.of_nat 0) with 1 in *. cbn. lia.
  - rewrite Nat2Z.inj_succ, Z.pow_succ_r in Hz by lia. cbn [hex_digits].
    destruct (is_hex_char (z mod 16)) as [Hh Hx]; [apply Z.mod_pos_bound; lia|].
    destruct (Z.ltb_spec z 16) as [Hlt|Hge].
    + exists [hex_char (z mod 16)]. split_and!; try done; [simpl; lia|by constructor|].
      intros a. cbn [xdigits length]. rewrite Hx. cbn. rewrite Z.mod_small by lia. change (16 ^ Z.of_nat 1) with 16. lia.
    + destruct (IH (z / 16) (hex_char (z mod 16) :: acc)) as (d & -> & Hne & Hl & Hd & Hv).
      { split; [apply Z.div_pos; lia|apply Z.div_lt_upper_bound; lia]. }
      exists (d ++ [hex_char (z mod 16)]). split_and!; [by rewrite <-app_assoc|by destruct d|rewrite length_app; simpl; lia| |].
      * apply Forall_app. split; [done|by constructor].
      * intros a. rewrite xdigits_app by done. cbn [xdigits]. rewrite Hx. cbn. rewrite Hv, length_app, Nat2Z.inj_add, Z.pow_add_r by lia.
        change (16 ^ Z.of_nat (length [hex_char (z mod 16)])) with 16. pose proof (Z.div_mod z 16). lia.
Qed.

Lemma hex_digits_length n : forall fuel z acc, (0 < n <= fuel)%nat -> 0 <= z < 16 ^ Z.of_nat n ->
  (length (hex_digits fuel z acc) <= n + length acc)%nat.
Proof.
  induction n as [|n IH]; intros fuel z acc Hn Hz; [lia|]. destruct fuel as [|fuel]; [lia|]. cbn [hex_digits].
  destruct (Z.ltb_spec z 16); [simpl; lia|]. rewrite Nat2Z.inj_succ, Z.pow_succ_r in Hz by lia.
  destruct n as [|n]; [change (16 ^ Z.of_nat 0) with 1 in Hz; lia|].
  etransitivity; [apply IH; [lia|]|simpl; lia].
  split; [apply Z.div_pos; lia|]. apply Z.div_lt_upper_bound; lia.
Qed.

Definition is_word (w : Z) : Prop := 0 <= w < 65536.

Lemma fmt_x_spec w : is_word w ->
  fmt_x w <> [] /\ (length (fmt_x w) <= 4)%nat /\ Forall (fun c => is_hex c = true) (fmt_x w) /\
  fst (xdigits 0 (fmt_x w)) = w.
Proof.
  intros Hw. unfold is_word in Hw. unfold fmt_x.
  assert (H4 : (length (hex_digits 8 w []) <= 4 + length (@nil Z))%nat).
  { apply hex_digits_length; [lia|]. change (16 ^ Z.of_nat 4) with 65536. lia. }
  destruct (hex_digits_spec 8 w []) as (d & E & Hne & _ & Hd & Hv); [change (16 ^ Z.of_nat 8) with 4294967296; lia|].
  rewrite E, app_nil_r in *. split_and!; [apply Hne; lia|simpl in *; lia|done|]. rewrite Hv. lia.
Qed.

(** No text that can follow a word is taken for one of its digits. *)
Definition ends_word (r : bytes) : Prop := r = [] \/ exists r', r = 58 :: r'.

Lemma strtol16_word w r : is_word w -> ends_word r -> strtol16 (fmt_x w ++ r) = (w, length (fmt_x w)).
Proof.
  intros Hw Hr. destruct (fmt_x_spec w Hw) as (Hne & H4 & Hd & Hv). unfold is_word in Hw. revert Hne H4 Hd Hv. generalize (fmt_x w). intros t Hne H4 Hd Hv.
  assert (Hplain : prod_map clamp64 id (xdigits 0 (t ++ r)) = (w, length (t))).
  { rewrite xdigits_app, Hv by done. assert (Hs : xdigits w r = (w, 0%nat)) by (by destruct Hr as [->|[r' ->]]).
    rewrite Hs. cbn. by rewrite Nat.add_0_r, clamp64_id by lia. }
  unfold strtol16. destruct (t) as [|z d]; [done|]. cbn [app] in *.
  destruct (d ++ r) as [|x [|c l]] eqn:El; [exact Hplain|exact Hplain|].
  assert (Hx : x <> 120 /\ x <> 88).
  { apply Forall_cons in Hd as [_ Hd]. destruct d as [|y d]; cbn [app] in El.
    - destruct Hr as [->|[r' ->]]; [done|]. injection El as <- _. done.
    - injection El as -> _. apply Forall_cons in Hd as [Hx _]. apply is_hex_range in Hx. lia. }
  destruct Hx. rewrite (proj2 (Z.eqb_neq x 120)), (proj2 (Z.eqb_neq x 88)), andb_false_r by done. exact Hplain.
Qed.

Lemma isxdigit_hex c : is_hex c = true -> EVUTIL_ISXDIGIT c = true.
Proof.
  intros H. assert (Hb : is_byte c) by (apply is_hex_range in H; unfold is_byte; lia). revert H. apply implb_true_iff.
  exact (byte_check (fun c => implb (is_hex c) (EVUTIL_ISXDIGIT c)) eq_refl c Hb).
Qed.

End AddrFacts.
