(* ===== verification/AddrText.v ===== *)
(** * The text of an IPv6 address

    What evutil_inet_ntop prints, as a function of the words of the address,
    and that the loop of evutil_inet_pton collects the same words. *)

From stdpp Require Import prelude gmap strings.
From S2P Require Import Prelude CLib EvAddr AddrFacts.
Open Scope Z_scope.

Module AddrText.
Import EvAddr AddrFacts.

#[local] Arguments fmt_x : simpl never.

(** Words with a colon after each, and with colons between them. *)
Fixpoint colons (ws : list Z) : bytes :=
  match ws with
  | [] => []
  | w :: ws' => fmt_x w ++ 58 :: colons ws'
  end.

Fixpoint joined (ws : list Z) : bytes :=
  match ws with
  | [] => []
  | [w] => fmt_x w
  | w :: ws' => fmt_x w ++ 58 :: joined ws'
  end.

(** The words before and after a run of zeros. *)
Definition gap_text (pre post : list Z) : bytes :=
  colons pre ++ (if pre is [] then [58] else []) ++ 58 :: joined post.

(** ** Printing *)

Lemma put_text_ok out t : (length out + length t < BUF_SIZE)%nat -> put_text out t = Ok (out ++ t).
Proof.
  intros H. unfold put_text. rewrite (proj2 (Nat.ltb_lt _ _)) by lia. by rewrite take_ge by lia.
Qed.

Lemma put_char_ok out c : (length out < BUF_SIZE)%nat -> put_char out c = Ok (out ++ [c]).
Proof. intros H. unfold put_char. by rewrite (proj2 (Nat.ltb_lt _ _)). Qed.

Lemma word_drop ws i : (i < length ws)%nat -> exists w, word ws i = Ok w /\ drop i ws = w :: drop (S i) ws /\ ws !! i = Some w.
Proof.
  intros H. destruct (lookup_lt_is_Some_2 ws i H) as [w Hw]. exists w. unfold word. rewrite Hw. split_and!; [done| |done].
  by apply drop_S.
Qed.

Lemma fmt_x_len w : is_word w -> (1 <= length (fmt_x w) <= 4)%nat.
Proof. intros H. destruct (fmt_x_spec w H) as (Hne & H4 & _). destruct (fmt_x w); [done|]. simpl in *. lia. Qed.

(** A word that is not the start of the gap. *)
Lemma print_word f ws gap i out w :
  length ws = 8%nat -> Forall is_word ws -> (i < 8)%nat -> ws !! i = Some w -> gap <> Z.of_nat i ->
  (length out + 5 < BUF_SIZE)%nat ->
  print_words (S f) ws gap i out = print_words f ws gap (S i) (out ++ fmt_x w ++ if Nat.eqb i 7 then [] else [58]).
Proof.
  intros Hl Hw Hi Hwi Hg Ho. cbn [print_words]. rewrite (proj2 (Nat.ltb_lt _ _)) by done.
  unfold word. rewrite Hwi. cbn [res_bind]. rewrite (proj2 (Z.eqb_neq _ _) Hg), andb_false_r.
  pose proof (fmt_x_len w (proj1 (Forall_lookup _ _) Hw _ _ Hwi)) as Hf.
  rewrite put_text_ok by lia. cbn [res_bind]. destruct (Nat.eqb i 7); cbn [negb].
  - cbn [res_bind]. by rewrite app_nil_r.
  - rewrite put_char_ok by (rewrite length_app; lia). cbn [res_bind]. by rewrite <-app_assoc.
Qed.

(** The rest of the words, when the gap is behind. *)
Lemma print_rest n : forall f ws gap i out,
  length ws = 8%nat -> Forall is_word ws -> (i + n = 8)%nat -> (n < f)%nat ->
  (forall j, (i <= j)%nat -> gap <> Z.of_nat j) -> (length out + 5 * n < BUF_SIZE)%nat ->
  print_words f ws gap i out = Ok (out ++ joined (drop i ws)).
Proof.
  induction n as [|n IH]; intros f ws gap i out Hl Hw Hi Hf Hg Ho; (destruct f as [|f]; [lia|]).
  - cbn [print_words]. rewrite (proj2 (Nat.ltb_ge _ _)) by lia. rewrite drop_ge by lia. cbn [joined]. by rewrite app_nil_r.
  - destruct (word_drop ws i ltac:(lia)) as (w & _ & Ed & Hwi).
    pose proof (fmt_x_len w (proj1 (Forall_lookup _ _) Hw _ _ Hwi)) as Hfx.
    rewrite (print_word f ws gap i out w) by (done || lia || by apply Hg).
    rewrite IH; [|done..|lia|lia|intros j Hj; apply Hg; lia|rewrite !length_app; case_match; simpl; lia].
    rewrite Ed, <-app_assoc. do 2 f_equal. destruct (Nat.eqb_spec i 7) as [->|H7].
    + rewrite (drop_ge ws 8) by lia. cbn [joined]. by rewrite !app_nil_r.
    + destruct (word_drop ws (S i) ltac:(lia)) as (w' & _ & Ed' & _). rewrite Ed'. cbn [joined]. by rewrite <-app_assoc.
Qed.

(** The words before the gap. *)
Lemma print_before m : forall f ws p i out,
  length ws = 8%nat -> Forall is_word ws -> (i + m = p)%nat -> (p < 8)%nat -> (length out + 5 * m < BUF_SIZE)%nat ->
  print_words (m + f) ws (Z.of_nat p) i out = print_words f ws (Z.of_nat p) p (out ++ colons (take m (drop i ws))).
Proof.
  induction m as [|m IH]; intros f ws p i out Hl Hw Hi Hp Ho.
  - rewrite take_0. cbn [colons Nat.add]. rewrite app_nil_r. by replace p with i by lia.
  - destruct (word_drop ws i ltac:(lia)) as (w & _ & Ed & Hwi).
    pose proof (fmt_x_len w (proj1 (Forall_lookup _ _) Hw _ _ Hwi)) as Hfx. cbn [Nat.add].
    rewrite (print_word _ ws _ i out w) by (done || lia). rewrite (proj2 (Nat.eqb_neq i 7)) by lia.
    rewrite IH; [|done..|lia|lia|rewrite !length_app; simpl; lia].
    rewrite Ed. cbn [take colons]. by rewrite <-!app_assoc.
Qed.

Lemma zero_run_le ws : (zero_run ws <= length ws)%nat.
Proof. induction ws as [|w ws IH]; cbn [zero_run length]; [done|]. case_match; lia. Qed.

Lemma zero_run_zeros ws : ws = zeros (zero_run ws) ++ drop (zero_run ws) ws.
Proof.
  induction ws as [|w ws IH]; [done|]. cbn [zero_run]. destruct (Z.eqb_spec w 0) as [->|]; [|done].
  cbn. f_equal. exact IH.
Qed.

(** The longest run of zeros is a run of zeros. *)
Lemma longest_gap_run fuel : forall ws i pos len,
  length ws = 8%nat -> (i <= 8)%nat -> (8 - i < fuel)%nat ->
  (len = 0%nat \/ exists p, pos = Z.of_nat p /\ (p < 8)%nat /\ zero_run (drop p ws) = len) ->
  exists pos' len', longest_gap fuel ws i pos len = Ok (pos', len') /\
    (len' = 0%nat \/ exists p, pos' = Z.of_nat p /\ (p < 8)%nat /\ zero_run (drop p ws) = len').
Proof.
  induction fuel as [|f IH]; intros ws i pos len Hl Hi Hf H; [lia|]. cbn [longest_gap].
  destruct (Nat.ltb_spec i 8) as [H8|H8]; [|by eexists _, _].
  destruct (word_drop ws i ltac:(lia)) as (w & -> & Ed & _). cbn [res_bind].
  destruct (Z.eqb_spec w 0) as [->|Hw]; [|by apply IH; try done; lia].
  pose proof (zero_run_le (drop (S i) ws)) as Hz. rewrite length_drop in Hz.
  assert (Hrun : zero_run (drop i ws) = S (zero_run (drop (S i) ws))) by (rewrite Ed; done).
  destruct (Nat.ltb len (S (zero_run (drop (S i) ws)))); apply IH; try done; try lia.
  right. by exists i.
Qed.

Lemma print_gap f ws p out :
  length ws = 8%nat -> (p < 8)%nat -> (0 < zero_run (drop p ws))%nat -> (length out + 1 < BUF_SIZE)%nat ->
  print_words (S f) ws (Z.of_nat p) p out
  = print_words f ws (Z.of_nat p) (p + zero_run (drop p ws)) (out ++ (if Nat.eqb p 0 then [58] else []) ++ [58]).
Proof.
  intros Hl Hp Hz Ho. cbn [print_words]. rewrite (proj2 (Nat.ltb_lt _ _)) by done.
  destruct (word_drop ws p ltac:(lia)) as (w & -> & Ed & _). cbn [res_bind].
  assert (Hw : Z.eqb w 0 = true) by (rewrite Ed in Hz; cbn [zero_run] in Hz; destruct (Z.eqb w 0); [done|lia]).
  rewrite Hw, Z.eqb_refl. cbn [andb]. destruct (Nat.eqb p 0).
  - rewrite put_char_ok by lia. cbn [res_bind]. rewrite put_char_ok by (rewrite length_app; simpl; lia). cbn [res_bind]. by rewrite <-app_assoc.
  - cbn [res_bind]. rewrite put_char_ok by lia. done.
Qed.

(** The two shapes of the text. *)
Definition shape (ws : list Z) (t : bytes) : Prop :=
  t = joined ws \/
  exists pre post g, ws = pre ++ zeros g ++ post /\ (0 < g)%nat /\ t = gap_text pre post.

Lemma colons_len ws : Forall is_word ws -> (2 * length ws <= length (colons ws) <= 5 * length ws)%nat.
Proof.
  induction 1 as [|w ws Hw _ IH]; [simpl; lia|]. cbn [colons]. rewrite length_app. cbn [length].
  pose proof (fmt_x_len w Hw). lia.
Qed.

Lemma joined_len ws : Forall is_word ws -> (length ws <= length (joined ws) <= 5 * length ws)%nat.
Proof.
  induction 1 as [|w ws Hw Hws IH]; [simpl; lia|]. pose proof (fmt_x_len w Hw). cbn [joined].
  destruct ws as [|w' ws]; [simpl; lia|]. rewrite length_app. cbn [length] in *. lia.
Qed.

Lemma printed_shape ws :
  length ws = 8%nat -> Forall is_word ws ->
  exists t, (let? (pos, len) := longest_gap 9 ws 0 (-1) 0 in
             let gap := if Nat.leb len 1 then -1 else pos in
             let? out := print_words 9 ws gap 0 [] in
             let? _ := put_char out 0 in Ok out) = Ok t /\ shape ws t.
Proof.
  intros Hl Hw. destruct (longest_gap_run 9 ws 0 (-1) 0) as (pos & len & -> & H); [done|lia|lia|by left|]. cbn [res_bind].
  destruct (Nat.leb_spec len 1) as [H1|H1].
  - rewrite (print_rest 8) by (done || lia || (intros; lia) || (unfold BUF_SIZE; simpl; lia)). cbn [res_bind app].
    rewrite drop_0. pose proof (joined_len ws Hw). rewrite put_char_ok by (unfold BUF_SIZE; lia). eexists. split; [done|by left].
  - destruct H as [->|(p & -> & Hp & Hz)]; [lia|].
    pose proof (zero_run_le (drop p ws)) as Hle. rewrite length_drop in Hle.
    assert (Hws : ws = take p ws ++ zeros len ++ drop (p + len) ws).
    { rewrite <-(take_drop p ws) at 1. f_equal. rewrite <-Hz at 1. rewrite <-drop_drop, <-Hz. apply zero_run_zeros. }
    pose proof (colons_len (take p ws) ltac:(by apply Forall_take)) as Hc. rewrite length_take in Hc.
    pose proof (joined_len (drop (p + len) ws) ltac:(by apply Forall_drop)) as Hj. rewrite length_drop in Hj.
    replace 9%nat with (p + S (8 - p))%nat by lia.
    rewrite print_before by (done || lia || (unfold BUF_SIZE; simpl; lia)). rewrite drop_0. cbn [app].
    rewrite print_gap by (done || lia || (unfold BUF_SIZE; lia)). rewrite Hz.
    rewrite (print_rest (8 - (p + len))); [|done|done|lia|lia|intros; lia|rewrite !length_app; case_match; unfold BUF_SIZE; simpl; lia].
    cbn [res_bind]. rewrite put_char_ok by (rewrite !length_app; case_match; unfold BUF_SIZE; simpl; lia). cbn [res_bind].
    eexists. split; [done|]. right. exists (take p ws), (drop (p + len) ws), len. split; [done|]. split; [lia|].
    unfold gap_text. rewrite <-!app_assoc. do 2 f_equal.
    destruct p as [|p]; [done|]. cbn [Nat.eqb]. by destruct ws.
Qed.

(** ** Reading *)

(** One word, followed by a colon or by the end of the words. *)
Lemma scan_one_word f s eow tail src i n gap ws a r w rest :
  (eow <= length s)%nat -> (i < 8)%nat -> is_word w -> scan_ok tail (Build_pton_st src i n gap ws) a r ->
  drop src s = fmt_x w ++ rest -> (src + length (fmt_x w) <= eow)%nat -> ends_word rest ->
  (rest = [] -> src + length (fmt_x w) = eow)%nat ->
  exists ws', scan_words (S f) s eow (Build_pton_st src i n gap ws)
      = scan_words f s eow (Build_pton_st (S (src + length (fmt_x w))) (S i) (S n) gap ws') /\
    scan_ok tail (Build_pton_st (S (src + length (fmt_x w))) (S i) (S n) gap ws') (a ++ [w]) (drop 1 r).
Proof.
  intros He Hi Hw H Hd Hle Hend Hnil. pose proof (fmt_x_len w Hw) as Hl.
  destruct (fmt_x_spec w Hw) as (_ & _ & Hh & _). cbn [scan_words].
  rewrite (proj2 (Nat.ltb_lt src eow)), (proj2 (Nat.ltb_ge 7 i)) by lia. cbn [negb].
  rewrite Hd, (strtol16_word w rest Hw Hend).
  destruct (fmt_x w) as [|c0 t0] eqn:Ef; [simpl in Hl; lia|]. cbn [app] in Hd. rewrite (char_at_drop _ _ _ _ Hd). cbn [res_bind].
  apply Forall_cons in Hh as [Hc _]. rewrite (isxdigit_hex c0 Hc).
  rewrite (proj2 (Nat.ltb_ge 4 _)), (proj2 (Nat.eqb_neq _ 0)) by lia.
  unfold is_word in Hw. rewrite (proj2 (Z.ltb_ge w 0)), (proj2 (Z.ltb_ge 65536 w)) by lia. cbn [orb].
  assert (Hu : u16 w = w) by (apply Z.mod_small; lia). rewrite Hu.
  destruct (scan_word tail src i n gap ws a r w (S (src + length (c0 :: t0))) H Hi) as [-> H']. cbn [res_bind].
  assert (Hd' : drop (src + length (c0 :: t0)) s = rest) by (rewrite <-drop_drop, Hd; exact (drop_app_length (c0 :: t0) rest)).
  destruct Hend as [->|[r' ->]].
  - rewrite (Hnil eq_refl) in *. assert (Hs : length s = eow).
    { apply (f_equal length) in Hd'. rewrite length_drop in Hd'. simpl in Hd'. lia. }
    unfold char_at. rewrite decide_True by done. cbn [res_bind]. rewrite Nat.eqb_refl, andb_false_r. eauto.
  - rewrite (char_at_drop _ _ _ _ Hd'). cbn [res_bind]. rewrite Z.eqb_refl. cbn [negb andb]. eauto.
Qed.

(** Words with colons after them. *)
Lemma scan_colons pre : forall f s eow tail src i n gap ws a r rest,
  (eow <= length s)%nat -> (i + length pre <= 8)%nat -> Forall is_word pre ->
  scan_ok tail (Build_pton_st src i n gap ws) a r ->
  drop src s = colons pre ++ rest -> (src + length (colons pre) <= eow)%nat ->
  exists ws', scan_words (length pre + f) s eow (Build_pton_st src i n gap ws)
      = scan_words f s eow (Build_pton_st (src + length (colons pre)) (i + length pre) (n + length pre) gap ws') /\
    scan_ok tail (Build_pton_st (src + length (colons pre)) (i + length pre) (n + length pre) gap ws') (a ++ pre) (drop (length pre) r).
Proof.
  induction pre as [|w pre IH]; intros f s eow tail src i n gap ws a r rest He Hi Hw H Hd Hle.
  - cbn [length colons Nat.add] in *. rewrite !Nat.add_0_r, app_nil_r, drop_0. eauto.
  - apply Forall_cons in Hw as [Hw Hpre]. cbn [colons length] in *. rewrite length_app in *. cbn [length Nat.add] in *.
    rewrite <-app_assoc in Hd. cbn [app] in Hd.
    destruct (scan_one_word (length pre + f) s eow tail src i n gap ws a r w (58 :: colons pre ++ rest)) as (ws1 & -> & H1);
      [done|lia|done|done|done|lia|right; eauto|done|].
    destruct (IH f s eow tail (S (src + length (fmt_x w))) (S i) (S n) gap ws1 (a ++ [w]) (drop 1 r) rest) as (ws2 & -> & H2);
      [done|lia|done|done| |lia|].
    { rewrite <-Nat.add_succ_r, <-drop_drop, Hd. replace (S (length (fmt_x w))) with (length (fmt_x w) + 1)%nat by lia.
      by rewrite <-drop_drop, drop_app_length. }
    exists ws2. rewrite <-app_assoc, drop_drop in H2. cbn [app] in H2.
    replace (src + (length (fmt_x w) + S (length (colons pre))))%nat with (S (src + length (fmt_x w)) + length (colons pre))%nat by lia.
    replace (i + S (length pre))%nat with (S i + length pre)%nat by lia.
    replace (n + S (length pre))%nat with (S n + length pre)%nat by lia. done.
Qed.

(** Words with colons between them, up to the end of the text. *)
Lemma scan_joined ws : forall f s tail src i n gap wa a r,
  (i + length ws <= 8)%nat -> Forall is_word ws -> (length ws < f)%nat -> (src <= length s)%nat ->
  scan_ok tail (Build_pton_st src i n gap wa) a r -> drop src s = joined ws ->
  exists src' wa', scan_words f s (length s) (Build_pton_st src i n gap wa)
      = Ok (Some (Build_pton_st src' (i + length ws) (n + length ws) gap wa')) /\
    scan_ok tail (Build_pton_st src' (i + length ws) (n + length ws) gap wa') (a ++ ws) (drop (length ws) r).
Proof.
  induction ws as [|w ws IH]; intros f s tail src i n gap wa a r Hi Hw Hf Hsrc H Hd; (destruct f as [|f]; [lia|]).
  - assert (Hs : length s = src) by (apply (f_equal length) in Hd; rewrite length_drop in Hd; simpl in Hd; lia).
    cbn [length]. rewrite !Nat.add_0_r, app_nil_r, drop_0. cbn [scan_words]. rewrite (proj2 (Nat.ltb_ge _ _)) by lia. eauto.
  - apply Forall_cons in Hw as [Hw Hws]. cbn [length] in *. pose proof (f_equal length Hd) as Hlen. rewrite length_drop in Hlen.
    assert (Hj : exists rest, joined (w :: ws) = fmt_x w ++ rest /\ ends_word rest /\ (ws = [] -> rest = []) /\ (ws <> [] -> rest = 58 :: joined ws)).
    { destruct ws as [|w' ws']; [exists []; rewrite app_nil_r; split_and!; try done; by left|].
      exists (58 :: joined (w' :: ws')). split_and!; try done. right. eauto. }
    destruct Hj as (rest & Ej & Hend & Hnil & Hcons). rewrite Ej in *. rewrite length_app in Hlen. pose proof (fmt_x_len w Hw) as Hfx.
    destruct (scan_one_word f s (length s) tail src i n gap wa a r w rest) as (ws1 & -> & H1);
      [done|lia|done|done|done|lia|done|intros ->; simpl in Hlen; lia|].
    replace (i + S (length ws))%nat with (S i + length ws)%nat by lia. replace (n + S (length ws))%nat with (S n + length ws)%nat by lia.
    destruct ws as [|w' ws'].
    + rewrite (Hnil eq_refl) in *. destruct f as [|f]; [simpl in Hf; lia|]. cbn [scan_words length] in *. rewrite (proj2 (Nat.ltb_ge _ _)) by lia.
      rewrite !Nat.add_0_r. cbn [negb]. eauto.
    + rewrite (Hcons ltac:(done)) in *.
      destruct (IH f s tail (S (src + length (fmt_x w))) (S i) (S n) gap ws1 (a ++ [w]) (drop 1 r)) as (src' & wa' & -> & H2);
        [cbn [length] in *; lia|done|cbn [length] in *; lia|cbn [length] in Hlen; lia|done| |].
      { rewrite <-Nat.add_succ_r, <-drop_drop, Hd. replace (S (length (fmt_x w))) with (length (fmt_x w) + 1)%nat by lia.
        by rewrite <-drop_drop, drop_app_length. }
      exists src', wa'. split; [done|]. rewrite <-app_assoc, drop_drop in H2. exact H2.
Qed.

(** The two colons of a gap, the first of which may belong to a word. *)
Lemma scan_two_colons f s eow tail pre src i n ws a r rest :
  (eow <= length s)%nat -> length a = length pre -> scan_ok tail (Build_pton_st src i n None ws) a r ->
  (i < 8)%nat -> drop src s = (if pre is [] then [58] else []) ++ 58 :: rest ->
  (src + length ((if pre is [] then [58] else []) ++ [58])%Z <= eow)%nat ->
  scan_words (S f) s eow (Build_pton_st src i n None ws)
  = scan_words f s eow (Build_pton_st (src + length ((if pre : list Z is [] then [58] else []) ++ [58])%Z) i n (Some i) ws).
Proof.
  intros He Ha H Hi Hd Hle. assert (Hia : length a = i) by apply H. rewrite length_app in *. cbn [length] in *. cbn [scan_words].
  rewrite (proj2 (Nat.ltb_lt src eow)), (proj2 (Nat.ltb_ge 7 i)) by lia. cbn [negb].
  destruct pre as [|w pre]; cbn [app length] in *.
  - rewrite (char_at_drop _ _ _ _ Hd). cbn [res_bind]. change (EVUTIL_ISXDIGIT 58) with false. cbn iota.
    replace i with 0%nat by lia. rewrite Z.eqb_refl. cbn [andb Nat.ltb Nat.leb Nat.eqb].
    assert (Hd2 : drop (S src) s = 58 :: rest) by (rewrite <-Nat.add_1_r, <-drop_drop, Hd; done).
    rewrite (char_at_drop _ _ _ _ Hd2). cbn [res_bind]. rewrite Z.eqb_refl, bool_decide_eq_true_2 by done. cbn [andb]. done.
  - rewrite (char_at_drop _ _ _ _ Hd). cbn [res_bind]. change (EVUTIL_ISXDIGIT 58) with false. cbn iota.
    rewrite Z.eqb_refl, (proj2 (Nat.ltb_lt 0 i)), bool_decide_eq_true_2 by (done || lia). cbn [andb]. by rewrite Nat.add_1_r.
Qed.

(** ** From words to bytes and back *)

Lemma word_of_bytes hi lo : is_byte hi -> is_byte lo ->
  u16 (Z.shiftl hi 8 + lo) = hi * 256 + lo /\ is_word (hi * 256 + lo).
Proof.
  unfold is_byte, is_word, u16. intros. rewrite Z.shiftl_mul_pow2 by lia. change (2 ^ 8) with 256.
  split; [apply Z.mod_small|]; lia.
Qed.

Lemma bytes_of_word hi lo : is_byte hi -> is_byte lo ->
  u8 (Z.shiftr (hi * 256 + lo) 8) = hi /\ u8 (Z.land (hi * 256 + lo) 255) = lo.
Proof.
  unfold is_byte, u8. intros. rewrite Z.shiftr_div_pow2 by lia. change 255 with (Z.ones 8). rewrite Z.land_ones by lia.
  change (2 ^ 8) with 256. rewrite Z.div_add_l, (Z.div_small lo), Z.add_0_r by lia.
  split; [by apply Z.mod_small|]. rewrite (Z.add_comm _ lo), Z.mod_add by lia. rewrite (Z.mod_small lo 256) by lia. by apply Z.mod_small.
Qed.

Lemma words_back k : forall s6, length s6 = (2 * k)%nat -> bytes_ok s6 ->
  length (words_of s6) = k /\ Forall is_word (words_of s6) /\ word_bytes (Some <$> words_of s6) = Ok s6.
Proof.
  induction k as [|k IH]; intros s6 Hl Hb; [by destruct s6|].
  destruct s6 as [|hi [|lo s6]]; [done|simpl in Hl; lia|]. apply Forall_cons in Hb as [Hhi Hb]. apply Forall_cons in Hb as [Hlo Hb].
  destruct (IH s6) as (E1 & E2 & E3); [simpl in Hl; lia|done|]. destruct (word_of_bytes hi lo Hhi Hlo) as [Ew Hw].
  cbn [words_of]. rewrite Ew. split_and!; [simpl; lia|by constructor|]. rewrite fmap_cons. cbn [word_bytes]. rewrite E3. cbn [res_bind].
  destruct (bytes_of_word hi lo Hhi Hlo) as [-> ->]. done.
Qed.

(** ** The whole of evutil_inet_pton on a printed text *)

(** After the loop: the words are those of the address. *)
Lemma pton_words_done s dst eow tail ws src i n gap wa a r t s6 :
  scan_words (S eow) s eow (Build_pton_st 0 0 tail None ws) = Ok (Some (Build_pton_st src i n gap wa)) ->
  scan_ok tail (Build_pton_st src i n gap wa) a r ->
  (n <= 8)%nat -> (gap = None <-> n = 8%nat) -> drop (8 - tail - length a) r = Some <$> t -> length t = tail ->
  final_words a gap n t = words_of s6 -> bytes_ok s6 -> length s6 = 16%nat -> (16 <= length dst)%nat ->
  pton_words s dst eow tail ws = Ok (1, patch dst 0 s6).
Proof.
  intros E H Hn Hg Hd Ht Hf Hb Hl Hdst. unfold pton_words. rewrite E. cbn [res_bind].
  rewrite (proj2 (Nat.ltb_ge 8 n)) by done. cbn [orb].
  assert (Hc : (Nat.eqb n 8 && bool_decide (is_Some gap)) || (Nat.ltb n 8 && bool_decide (gap = None)) = false).
  { destruct gap as [g|].
    - rewrite (proj2 (Nat.eqb_neq n 8)) by (intros H8; by apply Hg in H8). rewrite (bool_decide_eq_false_2 (Some g = None)) by done. by rewrite andb_false_r.
    - rewrite (proj1 Hg eq_refl). done. }
  rewrite Hc. destruct (final_words_run tail src i n gap wa a r t H Hn (proj1 Hg) Hd Ht) as [-> _]. cbn [res_bind].
  rewrite Hf. destruct (words_back 8 s6) as (_ & _ & ->); [done..|]. cbn [res_bind]. rewrite mwrite_ok by lia. done.
Qed.

Lemma scan_start tail ws t :
  length ws = 8%nat -> drop (8 - tail) ws = Some <$> t -> length t = tail ->
  scan_ok tail (Build_pton_st 0 0 tail None ws) [] ws.
Proof. intros Hl Hd Ht. repeat split; simpl; try done. intros _. exists t. split; [done|]. by rewrite Nat.sub_0_r. Qed.

(** A text of one of the two shapes. *)
Lemma pton_shape s6 t dst :
  length s6 = 16%nat -> bytes_ok s6 -> (16 <= length dst)%nat -> shape (words_of s6) t ->
  pton_words t dst (length t) 0 (replicate 8 None) = Ok (1, patch dst 0 s6).
Proof.
  intros Hl Hb Hdst Hsh. destruct (words_back 8 s6 Hl Hb) as (Hw8 & Hw & _).
  pose proof (scan_start 0 (replicate 8 None) [] eq_refl eq_refl eq_refl) as H0.
  destruct Hsh as [->|(pre & post & g & Ews & Hg & ->)].
  - pose proof (joined_len _ Hw) as Hj. rewrite Hw8 in Hj.
    destruct (scan_joined (words_of s6) (S (length (joined (words_of s6)))) (joined (words_of s6)) 0 0 0 0 None (replicate 8 None) [] (replicate 8 None))
      as (src' & wa' & E & H); [lia|done|lia|lia|done|done|]. cbn [app Nat.add] in *. rewrite Hw8 in *.
    eapply (pton_words_done _ _ _ _ _ _ _ _ _ _ _ _ []); [exact E|exact H|lia|done| |done| |done..]; cbn [final_words].
    + rewrite drop_ge; [done|]. rewrite length_drop. simpl. lia.
    + by rewrite app_nil_r.
  - rewrite Ews in Hw, Hw8. apply Forall_app in Hw as [Hpre Hw]. apply Forall_app in Hw as [_ Hpost].
    rewrite !length_app, length_zeros in Hw8. pose proof (colons_len pre Hpre) as Hc. pose proof (joined_len post Hpost) as Hj.
    set (two := if pre is [] then [58] else []). assert (Htwo : (length two <= 1)%nat) by (unfold two; case_match; simpl; lia).
    assert (Hlen : length (gap_text pre post) = (length (colons pre) + length two + 1 + length (joined post))%nat).
    { unfold gap_text. fold two. rewrite !length_app. cbn [length]. lia. }
    set (s := gap_text pre post) in *. set (f := (S (length s) - length pre - 1)%nat).
    assert (Hfu : S (length s) = (length pre + S f)%nat) by (unfold f; lia).
    destruct (scan_colons pre (S f) s (length s) 0 0 0 0 None (replicate 8 None) [] (replicate 8 None) (two ++ 58 :: joined post)) as (w1 & E1 & H1);
      [done|lia|done|done|done|lia|]. cbn [app Nat.add] in E1, H1.
    assert (Hd1 : drop (length (colons pre)) s = two ++ 58 :: joined post) by (unfold s, gap_text; fold two; by rewrite drop_app_length).
    assert (E2 : scan_words (S f) s (length s) (Build_pton_st (length (colons pre)) (length pre) (length pre) None w1)
      = scan_words f s (length s) (Build_pton_st (length (colons pre) + length (two ++ [58%Z])) (length pre) (length pre) (Some (length pre)) w1)).
    { eapply (scan_two_colons f s (length s) 0 pre); [lia|reflexivity|exact H1|lia|exact Hd1|]. change (length (colons pre) + length (two ++ [58%Z]) <= length s)%nat. rewrite (length_app two). cbn [length]. lia. }
    destruct (scan_joined post f s 0 (length (colons pre) + length (two ++ [58%Z])) (length pre) (length pre) (Some (length pre)) w1 pre (drop (length pre) (replicate 8 None)))
      as (src' & wa' & E3 & H3); [lia|done|unfold f; lia|rewrite length_app; cbn [length]; lia|by apply (scan_gap _ (length (colons pre)))| |].
    { rewrite <-drop_drop, Hd1. change (58 :: joined post) with ([58] ++ joined post). by rewrite app_assoc, drop_app_length. }
    eapply (pton_words_done s dst (length s) 0 _ src' _ _ _ wa' (pre ++ post) _ []); [|exact H3|lia| | | | |done|done|done].
    + rewrite Hfu, E1, E2, E3. done.
    + split; [done|lia].
    + rewrite drop_ge; [done|]. rewrite !length_drop, length_app. simpl. lia.
    + done.
    + cbn [final_words]. rewrite take_app_length, drop_app_length, app_nil_r, Ews. do 3 f_equal. lia.
Qed.

End AddrText.
