(* ===== verification/AddrThms.v ===== *)
(** * Addresses: what is printed is read back

    Dotted numbers, IPv4 addresses inside IPv6 addresses, addresses with a
    port, and the order of addresses. *)

From stdpp Require Import prelude gmap strings.
From S2P Require Import Prelude CLib EvAddr AddrFacts AddrText.
Open Scope Z_scope.

Module AddrThms.
Import EvAddr AddrFacts AddrText.

#[local] Arguments fmt_x : simpl never.
#[local] Arguments fmt_d : simpl never.

(** ** Dotted numbers *)

Lemma fmt_d_byte a : is_byte a ->
  fmt_d a <> [] /\ Forall (fun c => is_digit c = true) (fmt_d a) /\ digits_val 0 (fmt_d a) = a /\ (length (fmt_d a) <= 3)%nat.
Proof.
  unfold is_byte. intros H. assert (E : fmt_d a = fmt_u a) by (unfold fmt_d; rewrite (proj2 (Z.ltb_ge a 0)) by lia; done).
  rewrite E. destruct (fmt_u_spec a) as (Hne & Hd & Hv & _); [change (10 ^ 20) with 100000000000000000000; lia|].
  split_and!; [done..|]. apply fmt_u_length; [lia|]. change (10 ^ Z.of_nat 3) with 1000. lia.
Qed.

(** What follows a number is not a digit. *)
Definition ends_number (r : bytes) : Prop := match r with [] => True | c :: _ => is_digit c = false end.

Lemma span_number d r : Forall (fun c => is_digit c = true) d -> ends_number r -> span is_digit (d ++ r) = (d, r).
Proof. intros Hd Hr. destruct r as [|c r]; [rewrite app_nil_r; by apply span_all|by apply span_stop]. Qed.

Lemma digit_range c : is_digit c = true -> 48 <= c <= 57.
Proof. unfold is_digit. intros [?%Z.leb_le ?%Z.leb_le]%andb_prop. lia. Qed.

Lemma scan_d_number a r : is_byte a -> ends_number r -> scan_d (fmt_d a ++ r) = Some (a, r).
Proof.
  intros Ha Hr. destruct (fmt_d_byte a Ha) as (Hne & Hd & Hv & _). revert Hne Hd Hv. generalize (fmt_d a). intros t Hne Hd Hv.
  destruct t as [|c t]; [done|]. pose proof (digit_range c (Forall_inv Hd)) as Hc. unfold scan_d.
  assert (Hs : span is_space ((c :: t) ++ r) = ([], (c :: t) ++ r)).
  { cbn [app span]. unfold is_space. rewrite (proj2 (Z.eqb_neq c 32)), (proj2 (Z.leb_gt c 13)), andb_false_r by lia. done. }
  rewrite Hs. cbn [snd app]. rewrite (proj2 (Z.eqb_neq c 45)), (proj2 (Z.eqb_neq c 43)) by lia.
  change (c :: t ++ r) with ((c :: t) ++ r). rewrite (span_number (c :: t) r Hd Hr), Hv. unfold is_byte in Ha.
  by rewrite clamp64_id, s32_id by lia.
Qed.

Lemma scan_quad a b c d : is_byte a -> is_byte b -> is_byte c -> is_byte d -> scan_dotted 4 (fmt_quad a b c d) = [a; b; c; d].
Proof.
  intros Ha Hb Hc Hd. unfold fmt_quad. cbn [scan_dotted]. rewrite scan_d_number by done. cbn [app]. rewrite Z.eqb_refl.
  rewrite scan_d_number by done. rewrite Z.eqb_refl. rewrite scan_d_number by done. rewrite Z.eqb_refl.
  rewrite <-(app_nil_r (fmt_d d)), scan_d_number by done. done.
Qed.

(** The characters of addresses. *)
Definition addr_char (c : Z) : Prop := is_hex c = true \/ c = 58 \/ c = 46.

Lemma digit_hex c : is_digit c = true -> is_hex c = true.
Proof. intros H. unfold is_hex. unfold is_digit in H. by rewrite H. Qed.

Lemma quad_text a b c d : is_byte a -> is_byte b -> is_byte c -> is_byte d ->
  (length (fmt_quad a b c d) <= 15)%nat /\ Forall (fun x => is_hex x = true \/ x = 46) (fmt_quad a b c d).
Proof.
  intros Ha Hb Hc Hd. destruct (fmt_d_byte a Ha) as (_ & Fa & _ & La), (fmt_d_byte b Hb) as (_ & Fb & _ & Lb), (fmt_d_byte c Hc) as (_ & Fc & _ & Lc), (fmt_d_byte d Hd) as (_ & Fd & _ & Ld).
  unfold fmt_quad. split; [rewrite !length_app; simpl; lia|].
  assert (Hf : forall t, Forall (fun x => is_digit x = true) t -> Forall (fun x => is_hex x = true \/ x = 46) t).
  { intros t Ht. eapply Forall_impl; [exact Ht|]. intros x Hx. left. by apply digit_hex. }
  assert (Hdot : Forall (fun x => is_hex x = true \/ x = 46) [46]) by (repeat constructor; by right).
  repeat apply Forall_app_2; auto.
Qed.

Lemma isdigit_digit c : is_digit c = true -> EVUTIL_ISDIGIT c = true.
Proof.
  intros H. assert (Hb : is_byte c) by (apply digit_range in H; unfold is_byte; lia). rewrite (proj1 (ctype_ascii c Hb)). exact H.
Qed.

Lemma digits_back_run p d r :
  Forall (fun c => is_digit c = true) d ->
  digits_back (p ++ 58 :: d ++ r) (S (length p) + length d) = S (length p).
Proof.
  revert r. induction d as [|c d IH] using rev_ind; intros r Hd.
  - rewrite Nat.add_0_r. cbn [digits_back app]. rewrite nth_middle. done.
  - apply Forall_app in Hd as [Hd Hc]. rewrite length_app. cbn [length]. replace (S (length p) + (length d + 1))%nat with (S (S (length p) + length d)) by lia.
    cbn [digits_back]. rewrite <-app_assoc. cbn [app].
    assert (Hn : nth (S (length p) + length d) (p ++ 58 :: d ++ c :: r) 0 = c).
    { replace (p ++ 58 :: d ++ c :: r) with ((p ++ 58 :: d) ++ c :: r) by (by rewrite <-app_assoc).
      replace (S (length p) + length d)%nat with (length (p ++ 58 :: d)) by len. apply nth_middle. }
    rewrite Hn, (isdigit_digit c (Forall_inv Hc)). by apply IH.
Qed.

Lemma memchr_skip x p r : Forall (fun c => c <> x) p -> memchr x (p ++ x :: r) = Some (length p).
Proof.
  induction 1 as [|c p Hc _ IH]; cbn [app memchr length]; [by rewrite Z.eqb_refl|].
  rewrite (proj2 (Z.eqb_neq c x) Hc), IH. done.
Qed.

Lemma memchr_none x p : Forall (fun c => c <> x) p -> memchr x p = None.
Proof.
  induction 1 as [|c p Hc _ IH]; cbn [memchr]; [done|]. by rewrite (proj2 (Z.eqb_neq c x) Hc), IH.
Qed.

Lemma Forall_hex_or (P : Z -> Prop) t : (forall c, is_hex c = true -> P c) -> Forall (fun c => is_hex c = true) t -> Forall P t.
Proof. intros H Ht. eapply Forall_impl; [exact Ht|exact H]. Qed.

Lemma colons_chars (P : Z -> Prop) ws : (forall c, is_hex c = true -> P c) -> P 58 -> Forall is_word ws -> Forall P (colons ws).
Proof.
  intros Hh Hc. induction 1 as [|w ws Hw _ IH]; [constructor|]. cbn [colons]. destruct (fmt_x_spec w Hw) as (_ & _ & Hf & _).
  apply Forall_app. split; [by apply Forall_hex_or|by constructor].
Qed.

Lemma joined_chars (P : Z -> Prop) ws : (forall c, is_hex c = true -> P c) -> P 58 -> Forall is_word ws -> Forall P (joined ws).
Proof.
  intros Hh Hc. induction 1 as [|w ws Hw _ IH]; [constructor|]. cbn [joined]. destruct (fmt_x_spec w Hw) as (_ & _ & Hf & _).
  destruct ws; [by apply Forall_hex_or|]. apply Forall_app. split; [by apply Forall_hex_or|by constructor].
Qed.

Lemma shape_chars (P : Z -> Prop) ws t : (forall c, is_hex c = true -> P c) -> P 58 -> Forall is_word ws -> shape ws t -> Forall P t.
Proof.
  intros Hh Hc Hw [->|(pre & post & g & -> & _ & ->)]; [by apply joined_chars|].
  apply Forall_app in Hw as [Hpre Hw]. apply Forall_app in Hw as [_ Hpost]. unfold gap_text.
  apply Forall_app. split; [by apply colons_chars|]. apply Forall_app. split; [case_match; by repeat constructor|].
  constructor; [done|by apply joined_chars].
Qed.

Lemma shape_len ws t : length ws = 8%nat -> Forall is_word ws -> shape ws t -> (length t <= 42)%nat.
Proof.
  intros H8 Hw [->|(pre & post & g & -> & _ & ->)]; [pose proof (joined_len ws Hw); lia|].
  apply Forall_app in Hw as [Hpre Hw]. apply Forall_app in Hw as [_ Hpost]. rewrite !length_app in H8.
  pose proof (colons_len pre Hpre). pose proof (joined_len post Hpost). unfold gap_text. rewrite !length_app. cbn [length].
  assert (length (if pre is [] then [58%Z] else []) <= 1)%nat by (destruct pre; simpl; lia). lia.
Qed.

(** ** IPv6 addresses *)

Lemma land_shifted x y k : 0 <= k -> 0 <= y < 2 ^ k -> Z.land (Z.shiftl x k) y = 0.
Proof.
  intros Hk Hy. destruct (Z.eq_dec y 0) as [->|Hne]; [apply Z.land_0_r|]. apply Z.bits_inj'. intros n Hn. rewrite Z.land_spec, Z.bits_0, Z.shiftl_spec by done.
  destruct (Z.ltb_spec n k) as [H|H]; [by rewrite Z.testbit_neg_r by lia|].
  rewrite (Z.bits_above_log2 y n); [by rewrite andb_false_r|lia|].
  apply Z.log2_lt_pow2; [lia|]. apply (Z.lt_le_trans _ (2 ^ k)); [lia|]. apply Z.pow_le_mono_r; lia.
Qed.

(** Bits that do not meet add up. *)
Lemma lor_shifted x y k : 0 <= k -> 0 <= y < 2 ^ k -> Z.lor (Z.shiftl x k) y = x * 2 ^ k + y.
Proof.
  intros Hk Hy. rewrite <-Z.lxor_lor, <-Z.add_nocarry_lxor by (by apply land_shifted). by rewrite Z.shiftl_mul_pow2.
Qed.

Lemma colons_last ws : colons ws = [] \/ exists q, colons ws = q ++ [58].
Proof.
  induction ws as [|w ws [E|[q E]]]; [by left| |]; right; cbn [colons]; rewrite E; [by exists (fmt_x w)|].
  exists (fmt_x w ++ 58 :: q). by rewrite <-app_assoc.
Qed.

Lemma lor_word b1 b2 : is_byte b1 -> is_byte b2 -> u16 (Z.lor (Z.shiftl b1 8) b2) = b1 * 256 + b2.
Proof. unfold is_byte, u16. intros. rewrite lor_shifted by lia. apply Z.mod_small. lia. Qed.

Lemma in_byte_ok b : is_byte b -> in_byte b = true.
Proof. unfold is_byte, in_byte. intros. rewrite (proj2 (Z.leb_le 0 b)), (proj2 (Z.leb_le b 255)) by lia. done. Qed.

(** The address of four bytes at the end, after the words [post]. *)
Lemma pton_mapped post b1 b2 b3 b4 s6 dst :
  is_byte b1 -> is_byte b2 -> is_byte b3 -> is_byte b4 -> Forall is_word post -> (length post <= 5)%nat ->
  words_of s6 = zeros (6 - length post) ++ post ++ [b1 * 256 + b2; b3 * 256 + b4] ->
  bytes_ok s6 -> length s6 = 16%nat -> (16 <= length dst)%nat ->
  pton_inet6 ([58; 58] ++ colons post ++ fmt_quad b1 b2 b3 b4) dst = Ok (1, patch dst 0 s6).
Proof.
  intros H1 H2 H3 H4 Hpost Hlen Hws Hb Hl Hdst. set (quad := fmt_quad b1 b2 b3 b4). set (s := [58; 58] ++ colons post ++ quad).
  destruct (fmt_d_byte b1 H1) as (_ & Hd1 & _).
  set (k := (2 + length (colons post))%nat).
  assert (Hdrop : drop k s = quad) by (unfold s, k; rewrite app_assoc; by apply drop_app_length').
  assert (Hk : (k <= length s)%nat) by (unfold k, s; rewrite !length_app; simpl; lia).
  (* what is in front of the number ends with a colon *)
  assert (Hfront : exists p, [58; 58] ++ colons post = p ++ [58]).
  { destruct (colons_last post) as [->|[q ->]]; [by exists [58]|exists ([58; 58] ++ q); by rewrite <-app_assoc]. }
  destruct Hfront as (p & Ep). assert (Hp : k = S (length p)) by (apply (f_equal length) in Ep; rewrite !length_app in Ep; unfold k; simpl in *; lia).
  set (rest := 46 :: fmt_d b2 ++ [46] ++ fmt_d b3 ++ [46] ++ fmt_d b4).
  assert (Es : s = p ++ 58 :: fmt_d b1 ++ rest) by (unfold s; rewrite app_assoc, Ep, <-app_assoc; done).
  assert (Hchr : memchr 46 s = Some (S (length p) + length (fmt_d b1))%nat).
  { rewrite Es. unfold rest. replace (p ++ 58 :: fmt_d b1 ++ 46 :: _) with ((p ++ 58 :: fmt_d b1) ++ 46 :: fmt_d b2 ++ [46] ++ fmt_d b3 ++ [46] ++ fmt_d b4) by (by rewrite <-app_assoc).
    rewrite memchr_skip; [f_equal; len|]. change (58 :: fmt_d b1) with ([58] ++ fmt_d b1). rewrite app_assoc, <-Ep.
    apply Forall_app. split; [|eapply Forall_impl; [exact Hd1|]; intros x Hx%digit_range; lia].
    apply Forall_app. split; [by repeat constructor|]. apply colons_chars; [intros c Hc%is_hex_range; lia|lia|done]. }
  unfold pton_inet6. rewrite Hchr. cbn [Nat.add]. change (S (length p + length (fmt_d b1))) with (S (length p) + length (fmt_d b1))%nat.
  assert (Hback : digits_back s (S (length p) + length (fmt_d b1)) = k) by (rewrite Es, Hp; by apply digits_back_run). rewrite Hback.
  unfold pton_tail. rewrite Hdrop. unfold quad. rewrite scan_quad by done. rewrite !in_byte_ok by done. cbn [andb]. rewrite !lor_word by done.
  change (wwrite (replicate 8 None) 6 [Some (b1 * 256 + b2)]) with (Ok (replicate 6 None ++ [Some (b1 * 256 + b2); None])). cbn [res_bind].
  change (wwrite _ 7 [Some (b3 * 256 + b4)]) with (Ok (replicate 6 None ++ [Some (b1 * 256 + b2); Some (b3 * 256 + b4)])). cbn [res_bind].
  set (ws := replicate 6 None ++ _). set (t := [b1 * 256 + b2; b3 * 256 + b4]) in *.
  pose proof (scan_start 2 ws t eq_refl eq_refl eq_refl) as H0.
  pose proof (colons_len post Hpost) as Hc. set (f := (S k - 1 - length post)%nat). assert (Hf : exists f', f = S f') by (exists (k - 1 - length post)%nat; unfold f, k; lia).
  assert (E1 : scan_words (S k) s k (Build_pton_st 0 0 2 None ws) = scan_words k s k (Build_pton_st 2 0 2 (Some 0%nat) ws)).
  { apply (scan_two_colons k s k 2 [] 0 0 2 ws [] ws (colons post ++ quad)); try done; [lia|unfold k; simpl; lia]. }
  destruct (scan_colons post f s k 2 2 0 2 (Some 0%nat) ws [] ws quad) as (wa & E2 & H3'); [done|lia|done|by apply (scan_gap _ 0)|done|unfold k; lia|].
  cbn [app] in H3'. destruct Hf as [f' Hf].
  eapply (pton_words_done s dst k 2 ws (2 + length (colons post)) _ _ _ wa post _ t); [|exact H3'|lia| | |done| |done..].
  - rewrite E1. replace k with (length post + f)%nat at 1 by (unfold f, k; lia). rewrite E2, Hf. cbn [scan_words]. fold k. rewrite (proj2 (Nat.ltb_ge k k)) by lia. done.
  - split; [done|lia].
  - rewrite drop_drop. unfold ws. rewrite drop_app_ge by (simpl; lia). replace (_ - _)%nat with 0%nat by (simpl; lia). done.
  - cbn [final_words]. rewrite take_0, drop_0, Hws. cbn [app]. replace (8 - (2 + length post))%nat with (6 - length post)%nat by lia. done.
Qed.

(** The words of an address that is printed as one of IPv4. *)
Lemma is_v4_words ws : length ws = 8%nat -> is_v4 ws = true ->
  exists w5 w6 w7, ws = zeros 5 ++ [w5; w6; w7] /\ (w5 = 0 \/ w5 = 0xffff).
Proof.
  intros Hl. do 8 (destruct ws as [|? ws]; [done|]). destruct ws; [|done]. cbn [is_v4].
  intros [H H5]%andb_prop. repeat (apply andb_prop in H as [H ?%Z.eqb_eq]). apply Z.eqb_eq in H. subst.
  eexists _, _, _. split; [reflexivity|]. apply orb_prop in H5 as [[[H5%Z.eqb_eq _]%andb_prop _]%andb_prop|H5%Z.eqb_eq]; auto.
Qed.

Lemma words_of_app a b k : length a = (2 * k)%nat -> words_of (a ++ b) = words_of a ++ words_of b.
Proof.
  revert a. induction k as [|k IH]; intros a Hl; [by destruct a|]. destruct a as [|x [|y a]]; [done|simpl in Hl; lia|].
  cbn [app words_of]. f_equal. apply IH. simpl in Hl. lia.
Qed.

(** Addresses printed with dots. *)
Lemma text6_v4_back s6 :
  length s6 = 16%nat -> bytes_ok s6 -> is_v4 (words_of s6) = true ->
  exists t, text6 s6 = Ok t /\ (length t <= 42)%nat /\ Forall addr_char t /\
    forall dst, (16 <= length dst)%nat -> pton_inet6 t dst = Ok (1, patch dst 0 s6).
Proof.
  intros Hl Hb Ev. destruct (words_back 8 s6 Hl Hb) as (H8 & Hw & _). unfold text6. rewrite Ev.
  destruct (is_v4_words _ H8 Ev) as (w5 & w6 & w7 & Ews & H5). rewrite mread_ok by lia. cbn [res_bind].
  pose proof (take_drop 12 s6) as Es. assert (Hq : exists b1 b2 b3 b4, drop 12 s6 = [b1; b2; b3; b4]).
  { assert (Hd : length (drop 12 s6) = 4%nat) by (rewrite length_drop, Hl; done).
    destruct (drop 12 s6) as [|b1 [|b2 [|b3 [|b4 [|]]]]]; try done. by exists b1, b2, b3, b4. }
  destruct Hq as (b1 & b2 & b3 & b4 & Eq). rewrite Eq in *. cbn [take].
  assert (Hb' : bytes_ok [b1; b2; b3; b4]) by (rewrite <-Eq; by apply Forall_drop).
  apply Forall_cons in Hb' as [B1 Hb']. apply Forall_cons in Hb' as [B2 Hb']. apply Forall_cons in Hb' as [B3 Hb']. apply Forall_cons in Hb' as [B4 _].
  assert (E67 : w6 = b1 * 256 + b2 /\ w7 = b3 * 256 + b4).
  { rewrite <-Es, (words_of_app _ _ 6) in Ews by (rewrite length_take, Hl; done). apply (f_equal (drop 6)) in Ews.
    rewrite drop_app_length' in Ews by (symmetry; apply (words_back 6); [rewrite length_take, Hl; done|by apply Forall_take]).
    cbn [words_of] in Ews. rewrite (proj1 (word_of_bytes b1 b2 B1 B2)), (proj1 (word_of_bytes b3 b4 B3 B4)) in Ews. by injection Ews as <- <-. }
  destruct E67 as [-> ->]. destruct (quad_text b1 b2 b3 b4 B1 B2 B3 B4) as [Hlen Hch].
  assert (Hch' : Forall addr_char (fmt_quad b1 b2 b3 b4)) by (eapply Forall_impl; [exact Hch|]; unfold addr_char; tauto).
  assert (Hhd : word (words_of s6) 5 = Ok w5) by (rewrite Ews; done). rewrite Hhd. cbn [res_bind].
  destruct H5 as [->| ->].
  - cbn [Z.eqb]. rewrite Z.eqb_refl, put_text_ok by (rewrite length_app; unfold BUF_SIZE; simpl; lia). eexists. split; [done|]. split; [simpl; lia|]. split.
    { do 2 (constructor; [right; by left|]). done. }
    intros dst Hdst. apply (pton_mapped []); try done; simpl; lia.
  - rewrite (proj2 (Z.eqb_neq 0xffff 0)) by lia. pose proof (fmt_x_len 0xffff ltac:(unfold is_word; lia)) as Hx.
    rewrite put_text_ok by (rewrite !length_app; unfold BUF_SIZE; simpl; lia). eexists. split; [done|]. split; [cbn [app]; cbn [length]; rewrite length_app; cbn [length]; lia|]. split.
    { do 2 (constructor; [right; by left|]). apply Forall_app. split; [by apply (Forall_hex_or _ (fmt_x 0xffff)); [left|apply fmt_x_spec; unfold is_word; lia]|].
      constructor; [right; by left|done]. }
    intros dst Hdst. pose proof (pton_mapped [0xffff] b1 b2 b3 b4 s6 dst B1 B2 B3 B4) as Hp. cbn [colons] in Hp. rewrite <-app_assoc in Hp.
    apply Hp; try done; [|simpl; lia]. constructor; [unfold is_word; lia|constructor].
Qed.

(** Every address has a text, and evutil_inet_pton reads it. *)
Lemma text6_back s6 :
  length s6 = 16%nat -> bytes_ok s6 ->
  exists t, text6 s6 = Ok t /\ (length t <= 42)%nat /\ Forall addr_char t /\
    forall dst, (16 <= length dst)%nat -> pton_inet6 t dst = Ok (1, patch dst 0 s6).
Proof.
  intros Hl Hb. destruct (is_v4 (words_of s6)) eqn:Ev; [by apply text6_v4_back|].
  destruct (words_back 8 s6 Hl Hb) as (H8 & Hw & _).
  destruct (printed_shape (words_of s6) H8 Hw) as (t & E & Hsh). exists t. split; [unfold text6; rewrite Ev; exact E|]. split; [by eapply shape_len|]. split.
  { eapply (shape_chars addr_char); [by left|right; by left|exact Hw|done]. }
  intros dst Hdst. unfold pton_inet6. rewrite memchr_none; [by apply pton_shape|].
  eapply (shape_chars (fun c => c <> 46)); [intros c Hc%is_hex_range; lia|lia|exact Hw|done].
Qed.

(** ** IPv4 addresses *)

Lemma le_enc4 b1 b2 b3 b4 : is_byte b1 -> is_byte b2 -> is_byte b3 -> is_byte b4 ->
  le_enc 4 (le_dec [b1; b2; b3; b4]) = [b1; b2; b3; b4].
Proof. intros. apply (le_enc_dec [b1; b2; b3; b4]). rewrite !Forall_cons. by split_and!. Qed.

(** Host order: the first byte is the highest. *)
Lemma ntohl_bytes b1 b2 b3 b4 : is_byte b1 -> is_byte b2 -> is_byte b3 -> is_byte b4 ->
  ntohl (le_dec [b1; b2; b3; b4]) = le_dec [b4; b3; b2; b1].
Proof. intros. unfold ntohl. by rewrite le_enc4. Qed.

Lemma byte_at x k : u8 (Z.land (Z.shiftr x k) 255) = Z.shiftr x k mod 256.
Proof. change 255 with (Z.ones 8). rewrite Z.land_ones by lia. unfold u8. change (2 ^ 8) with 256. apply Z.mod_mod. lia. Qed.

Lemma quad_of_addr b1 b2 b3 b4 : is_byte b1 -> is_byte b2 -> is_byte b3 -> is_byte b4 ->
  let a := le_dec [b4; b3; b2; b1] in
  u8 (Z.land (Z.shiftr a 24) 255) = b1 /\ u8 (Z.land (Z.shiftr a 16) 255) = b2 /\
  u8 (Z.land (Z.shiftr a 8) 255) = b3 /\ u8 (Z.land a 255) = b4.
Proof.
  intros H1 H2 H3 H4 a. unfold is_byte in *. rewrite <-(Z.shiftr_0_r a) at 4. rewrite !byte_at, !Z.shiftr_div_pow2 by lia.
  change (2 ^ 24) with 16777216. change (2 ^ 16) with 65536. change (2 ^ 8) with 256. change (2 ^ 0) with 1.
  unfold a. cbn [le_dec]. split_and!; Z.to_euclidean_division_equations; lia.
Qed.

Lemma addr_of_quad b1 b2 b3 b4 : is_byte b1 -> is_byte b2 -> is_byte b3 -> is_byte b4 ->
  u32 (Z.lor (Z.lor (Z.lor (s32 (Z.shiftl b1 24)) (Z.shiftl b2 16)) (Z.shiftl b3 8)) b4) = le_dec [b4; b3; b2; b1].
Proof.
  unfold is_byte. intros H1 H2 H3 H4. set (x := if Z.ltb b1 128 then b1 else b1 - 256).
  assert (Hx : s32 (Z.shiftl b1 24) = Z.shiftl x 24).
  { unfold s32, x. rewrite !Z.shiftl_mul_pow2 by lia. change (2 ^ 24) with 16777216.
    destruct (Z.ltb_spec b1 128); Z.to_euclidean_division_equations; lia. }
  rewrite Hx, lor_shifted; [|lia|rewrite Z.shiftl_mul_pow2 by lia; change (2 ^ 24) with 16777216; change (2 ^ 16) with 65536; lia].
  replace (x * 2 ^ 24 + Z.shiftl b2 16) with (Z.shiftl (x * 256 + b2) 16) by (rewrite !Z.shiftl_mul_pow2 by lia; change (2 ^ 24) with (256 * 2 ^ 16); lia).
  rewrite lor_shifted; [|lia|rewrite Z.shiftl_mul_pow2 by lia; change (2 ^ 16) with 65536; change (2 ^ 8) with 256; lia].
  replace ((x * 256 + b2) * 2 ^ 16 + Z.shiftl b3 8) with (Z.shiftl ((x * 256 + b2) * 256 + b3) 8) by (rewrite !Z.shiftl_mul_pow2 by lia; change (2 ^ 16) with (256 * 2 ^ 8); lia).
  rewrite lor_shifted by (change (2 ^ 8) with 256; lia). change (2 ^ 8) with 256. unfold u32, x. cbn [le_dec].
  destruct (Z.ltb_spec b1 128); Z.to_euclidean_division_equations; lia.
Qed.

Lemma pton_quad b1 b2 b3 b4 dst : is_byte b1 -> is_byte b2 -> is_byte b3 -> is_byte b4 -> (4 <= length dst)%nat ->
  pton_inet (fmt_quad b1 b2 b3 b4) dst = Ok (1, patch dst 0 [b1; b2; b3; b4]).
Proof.
  intros H1 H2 H3 H4 Hd. unfold pton_inet. rewrite scan_quad by done. rewrite !in_byte_ok by done. cbn [andb].
  rewrite addr_of_quad by done. unfold htonl. rewrite ntohl_bytes, le_enc4 by done. rewrite mwrite_ok by (simpl; lia). done.
Qed.

(** ** Text in a caller's array *)

Lemma cstring_front t r : nonul t -> cstring (t ++ 0 :: r) = Ok t.
Proof.
  intros H. unfold cstring. rewrite has_nul_app. cbn [has_nul existsb]. rewrite orb_true_r. by rewrite cstr_nonul.
Qed.

Lemma patch_front d t : (length t <= length d)%nat -> patch d 0 t = t ++ drop (length t) d.
Proof. done. Qed.

Lemma snprintf_ok dst len t :
  nonul t -> (length t < len)%nat -> (len <= length dst)%nat ->
  exists dst', evutil_snprintf dst 0 len t = Ok (Z.of_nat (length t), dst') /\ cstring dst' = Ok t /\ length dst' = length dst.
Proof.
  intros Ht Hl Hd. destruct len as [|n]; [lia|]. cbn [evutil_snprintf Nat.add]. rewrite take_ge by lia.
  rewrite mwrite_ok by len. cbn [res_bind]. rewrite patch_front by len. rewrite <-app_assoc. cbn [app].
  set (r := drop _ dst). assert (Hr : length (t ++ 0 :: r) = length dst) by (unfold r; rewrite length_app; cbn [length]; rewrite length_drop, length_app; simpl; lia).
  rewrite mwrite_ok by (rewrite Hr; simpl; lia). cbn [res_bind]. eexists. split; [done|].
  split; [|rewrite length_patch by (rewrite Hr; simpl; lia); done].
  unfold patch. destruct (decide (n = length t)) as [->|Hn].
  - rewrite take_app_length. by apply cstring_front.
  - rewrite take_app_ge by lia. destruct (n - length t)%nat as [|m] eqn:Em; [lia|]. cbn [take]. rewrite <-app_assoc. cbn [app].
    by apply cstring_front.
Qed.

Lemma strlcpy_ok dst len t :
  nonul t -> (length t < len)%nat -> (len <= length dst)%nat ->
  exists dst', strlcpy dst t len = Ok (length t, dst') /\ cstring dst' = Ok t /\ length dst' = length dst.
Proof.
  intros Ht Hl Hd. destruct len as [|n]; [lia|]. cbn [strlcpy]. rewrite take_ge by lia.
  rewrite mwrite_ok by len. cbn [res_bind]. eexists. split; [done|]. split; [|apply length_patch; len].
  rewrite patch_front by len. rewrite <-app_assoc. by apply cstring_front.
Qed.

Lemma addr_nonul t : Forall addr_char t -> nonul t.
Proof. intros H. eapply Forall_impl; [exact H|]. intros c [Hc%is_hex_range|[->| ->]]; lia. Qed.

(** evutil_inet_ntop then evutil_inet_pton, for both families. *)
Definition family_size (af : Z) : nat := if Z.eqb af AF_INET then 4%nat else 16%nat.

Lemma ntop_pton af a dst len :
  af = AF_INET \/ af = AF_INET6 -> length a = family_size af -> bytes_ok a -> (43 <= len <= length dst)%nat ->
  exists dst' t, evutil_inet_ntop af a dst len = Ok (true, dst') /\ cstring dst' = Ok t /\ length dst' = length dst /\
    Forall addr_char t /\ (length t <= 42)%nat /\ (af = AF_INET -> Forall (fun x => is_hex x = true \/ x = 46) t) /\
    forall out, (length a <= length out)%nat -> evutil_inet_pton af t out = Ok (1, patch out 0 a).
Proof.
  intros [-> | ->] Hl Hb Hd; unfold evutil_inet_ntop, evutil_inet_pton.
  - rewrite Z.eqb_refl. change (family_size AF_INET) with 4%nat in Hl. destruct a as [|b1 [|b2 [|b3 [|b4 [|]]]]]; try done.
    apply Forall_cons in Hb as [B1 Hb]. apply Forall_cons in Hb as [B2 Hb]. apply Forall_cons in Hb as [B3 Hb]. apply Forall_cons in Hb as [B4 _].
    rewrite mread_ok by (simpl; lia). cbn [res_bind drop take]. unfold ntop_inet. rewrite ntohl_bytes by done.
    destruct (quad_of_addr b1 b2 b3 b4 B1 B2 B3 B4) as (-> & -> & -> & ->). destruct (quad_text b1 b2 b3 b4 B1 B2 B3 B4) as [Hq Hch].
    assert (Hch' : Forall addr_char (fmt_quad b1 b2 b3 b4)) by (eapply Forall_impl; [exact Hch|]; unfold addr_char; tauto).
    destruct (snprintf_ok dst len _ (addr_nonul _ Hch')) as (dst' & -> & Hs & Hl'); [lia|lia|]. cbn [res_bind].
    rewrite (proj2 (Z.ltb_ge _ 0)), (proj2 (Z.leb_gt _ _)) by lia. cbn [orb]. exists dst', (fmt_quad b1 b2 b3 b4).
    split_and!; try done; [lia|]. intros out Ho. by apply pton_quad.
  - change (Z.eqb AF_INET6 AF_INET) with false. rewrite Z.eqb_refl. change (family_size AF_INET6) with 16%nat in Hl.
    rewrite mread_ok by lia. cbn [res_bind]. rewrite drop_0, take_ge by lia. unfold ntop_inet6.
    destruct (text6_back a Hl Hb) as (t & -> & Ht & Hch & Hp). cbn [res_bind]. unfold copy_out. rewrite (proj2 (Nat.ltb_ge len _)) by lia.
    destruct (strlcpy_ok dst len t (addr_nonul _ Hch)) as (dst' & -> & Hs & Hl'); [lia|lia|]. cbn [res_bind]. exists dst', t.
    split_and!; try done. rewrite Hl. done.
Qed.

(** ** Addresses with a port *)

Lemma ntohs_eq z : 0 <= z -> ntohs z = z / 256 mod 256 + 256 * (z mod 256).
Proof. intros H. unfold ntohs. cbn [le_enc reverse rev_append le_dec]. change (reverse _) with [z / 256 mod 256; z mod 256]. cbn [le_dec]. lia. Qed.

Lemma ntohs_htons z : 0 <= z < 65536 -> ntohs (htons z) = z /\ 0 <= htons z < 65536.
Proof.
  intros H. unfold htons. rewrite (ntohs_eq z) by lia. assert (Hr : 0 <= z / 256 mod 256 + 256 * (z mod 256) < 65536) by (Z.to_euclidean_division_equations; lia).
  split; [|done]. rewrite ntohs_eq by lia. Z.to_euclidean_division_equations; lia.
Qed.

(** A socket address: a family, a port and the address. *)
Definition sockaddr (af port : Z) (a : bytes) : bytes :=
  if Z.eqb af AF_INET then sin (htons port) a else sin6 (htons port) a.

Lemma le_enc2 z : 0 <= z < 65536 -> le_dec (le_enc 2 z) = z.
Proof. intros H. rewrite le_dec_enc. by apply Z.mod_small. Qed.

Lemma sockaddr_fields af port a :
  af = AF_INET \/ af = AF_INET6 -> length a = family_size af -> 0 <= port < 65536 ->
  sa_family (sockaddr af port a) = Ok af /\ sa_port (sockaddr af port a) = Ok (htons port) /\
  mread (sockaddr af port a) (if Z.eqb af AF_INET then 4 else 8) (family_size af) = Ok a /\
  length (sockaddr af port a) = (if Z.eqb af AF_INET then sizeof_sin else sizeof_sin6).
Proof.
  intros Haf Hl Hp. destruct (ntohs_htons port Hp) as [_ Hh].
  assert (Hport : forall r, mread (le_enc 2 af ++ le_enc 2 (htons port) ++ r) 2 2 = Ok (le_enc 2 (htons port))).
  { intros r. rewrite mread_ok by (rewrite !length_app, !length_le_enc; lia). done. }
  unfold sockaddr, sa_family, sa_port. destruct Haf as [-> | ->].
  - rewrite Z.eqb_refl. change (family_size AF_INET) with 4%nat in *. unfold sin. rewrite Hport. cbn [res_bind]. rewrite le_enc2 by done.
    split_and!; [|done| |rewrite !length_app, !length_le_enc, length_zeros, Hl; done].
    + rewrite mread_ok by (rewrite !length_app, !length_le_enc; lia). done.
    + rewrite mread_ok by (rewrite !length_app, !length_le_enc, Hl; lia). f_equal. rewrite app_assoc, drop_app_length' by done. by rewrite take_app_length' by done.
  - change (Z.eqb AF_INET6 AF_INET) with false. change (family_size AF_INET6) with 16%nat in *. unfold sin6. rewrite Hport. cbn [res_bind]. rewrite le_enc2 by done.
    split_and!; [|done| |rewrite !length_app, !length_le_enc, !length_zeros, Hl; done].
    + rewrite mread_ok by (rewrite !length_app, !length_le_enc; lia). done.
    + rewrite mread_ok by (rewrite !length_app, !length_le_enc, !length_zeros, Hl; lia). f_equal. rewrite !app_assoc, <-(app_assoc _ a), drop_app_length' by done. by rewrite take_app_length' by done.
Qed.

(** The text of an address with its port. *)
Definition port_text (af port : Z) (t : bytes) : bytes :=
  if Z.eqb af AF_INET then t ++ [58] ++ fmt_d port else [91] ++ t ++ [93; 58] ++ fmt_d port.

Lemma fmt_port port : 1 <= port <= 65535 ->
  Forall (fun c => is_digit c = true) (fmt_d port) /\ (length (fmt_d port) <= 5)%nat /\ atoi (fmt_d port) = port.
Proof.
  intros H. assert (E : fmt_d port = fmt_u port) by (unfold fmt_d; rewrite (proj2 (Z.ltb_ge port 0)) by lia; done).
  split_and!; [| |apply atoi_fmt_d; lia]; rewrite E.
  - apply fmt_u_spec. change (10 ^ 20) with 100000000000000000000. lia.
  - apply fmt_u_length; [lia|]. change (10 ^ Z.of_nat 5) with 100000. lia.
Qed.

Lemma split_port_text af port t :
  af = AF_INET \/ af = AF_INET6 -> 1 <= port <= 65535 -> Forall addr_char t -> (length t <= 42)%nat ->
  (af = AF_INET -> Forall (fun x => is_hex x = true \/ x = 46) t) ->
  split_port (port_text af port t) = Some (t, Some (fmt_d port), bool_decide (af = AF_INET6)).
Proof.
  intros Haf Hp Ht Hl Hv4. destruct (fmt_port port Hp) as (Hd & _ & _). unfold port_text. destruct Haf as [-> | ->].
  - rewrite Z.eqb_refl. specialize (Hv4 eq_refl). unfold split_port.
    assert (Hhd : match t ++ [58] ++ fmt_d port with c :: _ => Z.eqb c 91 | [] => false end = false).
    { destruct t as [|c t]; [done|]. cbn [app]. apply Z.eqb_neq. destruct (Forall_inv Hv4) as [Hc%is_hex_range| ->]; lia. }
    rewrite Hhd. cbn [app]. rewrite memchr_skip by (eapply Forall_impl; [exact Hv4|]; intros c [Hc%is_hex_range| ->]; lia).
    assert (Edr : drop (S (length t)) (t ++ 58 :: fmt_d port) = fmt_d port) by (change (58 :: fmt_d port) with ([58] ++ fmt_d port); rewrite app_assoc; apply drop_app_length'; len).
    rewrite Edr, memchr_none by (eapply Forall_impl; [exact Hd|]; intros c Hc%digit_range; lia).
    unfold PART_MAX. rewrite (proj2 (Z.ltb_ge _ _)) by lia. rewrite take_app_length. done.
  - change (Z.eqb AF_INET6 AF_INET) with false. unfold split_port. cbn [app]. rewrite Z.eqb_refl.
    change (91 :: t ++ 93 :: 58 :: fmt_d port) with ((91 :: t) ++ 93 :: 58 :: fmt_d port).
    rewrite memchr_skip by (constructor; [lia|]; eapply Forall_impl; [exact Ht|]; intros c [Hc%is_hex_range|[->| ->]]; lia).
    cbn [length]. unfold PART_MAX. rewrite (proj2 (Z.ltb_ge _ _)) by lia. cbn [app drop Nat.sub]. rewrite drop_0, Nat.sub_0_r, take_app_length.
    assert (E58 : (91 :: t ++ 93 :: 58 :: fmt_d port) !! S (S (length t)) = Some 58).
    { change (91 :: t ++ 93 :: 58 :: fmt_d port) with ((91 :: t) ++ 93 :: 58 :: fmt_d port). rewrite lookup_app_r by (simpl; lia).
      cbn [length]. replace (S (S (length t)) - S (length t))%nat with 1%nat by lia. done. }
    rewrite E58, Z.eqb_refl. change (91 :: t ++ 93 :: 58 :: fmt_d port) with ((91 :: t) ++ [93; 58] ++ fmt_d port).
    rewrite app_assoc, drop_app_length' by len. done.
Qed.

(** What evutil_format_sockaddr_port prints. *)
Lemma format_text af port a out outlen :
  af = AF_INET \/ af = AF_INET6 -> length a = family_size af -> bytes_ok a -> 1 <= port <= 65535 ->
  (51 <= outlen <= length out)%nat ->
  exists out' t, evutil_format_sockaddr_port (sockaddr af port a) out outlen = Ok out' /\
    cstring out' = Ok (port_text af port t) /\ Forall addr_char t /\ (length t <= 42)%nat /\
    (af = AF_INET -> Forall (fun x => is_hex x = true \/ x = 46) t) /\
    forall dst, (length a <= length dst)%nat -> evutil_inet_pton af t dst = Ok (1, patch dst 0 a).
Proof.
  intros Haf Hl Hb Hp Ho. destruct (fmt_port port Hp) as (Hd & Hd5 & _). destruct (ntohs_htons port ltac:(lia)) as [Hns _].
  destruct (sockaddr_fields af port a Haf Hl ltac:(lia)) as (Ef & Epo & Ea & _).
  destruct (ntop_pton af a (zeros 128) 128 Haf Hl Hb) as (b & t & En & Ec & _ & Hch & Ht & Hv4 & Hback); [rewrite length_zeros; lia|].
  assert (Hnn : nonul (port_text af port t) /\ (length (port_text af port t) <= 50)%nat).
  { pose proof (addr_nonul t Hch) as Hn. pose proof (digit_nonul _ Hd) as Hn'. unfold port_text. case_match; split; try (rewrite !length_app; simpl; lia).
    - apply Forall_app. split; [done|]. by constructor.
    - constructor; [lia|]. apply Forall_app. split; [done|]. by repeat constructor. }
  destruct Hnn as [Hnn Hln]. destruct (snprintf_ok out outlen _ Hnn) as (out' & Eo & Hco & _); [lia|lia|].
  exists out', t. split; [|done]. unfold evutil_format_sockaddr_port. rewrite Ef. cbn [res_bind]. unfold port_text in Eo.
  destruct Haf as [-> | ->].
  - rewrite Z.eqb_refl in *. change (family_size AF_INET) with 4%nat in Ea. rewrite Ea. cbn [res_bind]. rewrite En. cbn [res_bind]. rewrite Epo. cbn [res_bind].
    rewrite Ec. cbn [res_bind]. rewrite Hns, Eo. done.
  - change (Z.eqb AF_INET6 AF_INET) with false in *. rewrite Z.eqb_refl. change (family_size AF_INET6) with 16%nat in Ea. rewrite Ea. cbn [res_bind]. rewrite En. cbn [res_bind]. rewrite Epo. cbn [res_bind].
    rewrite Ec. cbn [res_bind]. rewrite Hns, Eo. done.
Qed.

(** ** The order of addresses *)

(** Lists of numbers, compared from the front. *)
Fixpoint lex (k1 k2 : list Z) : Z :=
  match k1, k2 with
  | x :: k1', y :: k2' => if Z.ltb x y then -1 else if Z.ltb y x then 1 else lex k1' k2'
  | [], [] => 0
  | [], _ => -1
  | _, [] => 1
  end.

Lemma lex_zero k1 : forall k2, lex k1 k2 = 0 <-> k1 = k2.
Proof.
  induction k1 as [|x k1 IH]; intros [|y k2]; cbn [lex]; try done.
  destruct (Z.ltb_spec x y); [split; [done|intros [= ->]; lia]|]. destruct (Z.ltb_spec y x); [split; [done|intros [= ->]; lia]|].
  rewrite IH. assert (x = y) by lia. split; congruence.
Qed.

Lemma lex_antisym k1 : forall k2, lex k2 k1 = - lex k1 k2.
Proof.
  induction k1 as [|x k1 IH]; intros [|y k2]; cbn [lex]; try done.
  destruct (Z.ltb_spec x y), (Z.ltb_spec y x); try done; try lia; apply IH.
Qed.

Lemma lex_trans k1 : forall k2 k3, lex k1 k2 <= 0 -> lex k2 k3 <= 0 -> lex k1 k3 <= 0.
Proof.
  induction k1 as [|x k1 IH]; intros [|y k2] [|z k3]; cbn [lex]; try lia.
  destruct (Z.ltb_spec x y), (Z.ltb_spec y x), (Z.ltb_spec y z), (Z.ltb_spec z y), (Z.ltb_spec x z), (Z.ltb_spec z x); try lia. by apply IH.
Qed.

Lemma lex_memcmp a : forall b r1 r2, length a = length b ->
  lex (a ++ r1) (b ++ r2) = if Z.eqb (memcmp a b) 0 then lex r1 r2 else Z.sgn (memcmp a b).
Proof.
  induction a as [|x a IH]; intros [|y b] r1 r2 Hl; cbn [app lex memcmp]; try done. injection Hl as Hl. specialize (IH b r1 r2 Hl).
  destruct (Z.eqb_spec x y) as [->|Hn]; [by rewrite (proj2 (Z.ltb_ge y y)) by lia|].
  rewrite (proj2 (Z.eqb_neq (x - y) 0)) by lia. destruct (Z.ltb_spec x y); [rewrite Z.sgn_neg by lia; done|].
  rewrite (proj2 (Z.ltb_lt y x)), Z.sgn_pos by lia. done.
Qed.

(** What addresses are ordered by: the family, the address (of IPv4 as the
    number in memory), the port as it is in memory. *)
Definition sort_key (af port : Z) (a : bytes) : list Z :=
  af :: (if Z.eqb af AF_INET then [le_dec a] else a) ++ [htons port].

(** evutil_sockaddr_cmp has the sign of the comparison of the keys, and so
    is a total order. *)
Lemma sockaddr_cmp_lex af1 port1 a1 af2 port2 a2 :
  af1 = AF_INET \/ af1 = AF_INET6 -> af2 = AF_INET \/ af2 = AF_INET6 ->
  length a1 = family_size af1 -> length a2 = family_size af2 -> 0 <= port1 < 65536 -> 0 <= port2 < 65536 ->
  exists r, evutil_sockaddr_cmp (sockaddr af1 port1 a1) (sockaddr af2 port2 a2) true = Ok r /\
    Z.sgn r = lex (sort_key af1 port1 a1) (sort_key af2 port2 a2).
Proof.
  intros H1 H2 L1 L2 P1 P2. destruct (sockaddr_fields af1 port1 a1 H1 L1 P1) as (F1 & Po1 & A1 & _), (sockaddr_fields af2 port2 a2 H2 L2 P2) as (F2 & Po2 & A2 & _).
  unfold evutil_sockaddr_cmp, sort_key. rewrite F1, F2. cbn [res_bind lex]. rewrite Po1, Po2. cbn [res_bind].
  assert (Hs : forall x y, Z.sgn (x - y) = lex [x] [y]).
  { intros x y. cbn [lex]. destruct (Z.ltb_spec x y); [apply Z.sgn_neg; lia|]. destruct (Z.ltb_spec y x); [apply Z.sgn_pos; lia|]. by replace (x - y) with 0 by lia. }
  destruct H1 as [-> | ->], H2 as [-> | ->]; try by eexists.
  - change (negb (Z.eqb (AF_INET - AF_INET) 0)) with false. rewrite Z.eqb_refl in *. change (family_size AF_INET) with 4%nat in *. rewrite A1, A2. cbn [res_bind app lex Z.ltb].
    rewrite (proj2 (Z.ltb_ge AF_INET AF_INET)) by lia.
    destruct (Z.ltb (le_dec a1) (le_dec a2)); [by exists (-1)|]. destruct (Z.ltb (le_dec a2) (le_dec a1)); [by exists 1|]. eexists. split; [done|apply Hs].
  - change (negb (Z.eqb (AF_INET6 - AF_INET6) 0)) with false. change (Z.eqb AF_INET6 AF_INET) with false in *. rewrite Z.eqb_refl. change (family_size AF_INET6) with 16%nat in *. rewrite A1, A2.
    cbn [res_bind]. rewrite (proj2 (Z.ltb_ge AF_INET6 AF_INET6)) by lia. rewrite lex_memcmp by lia.
    destruct (Z.eqb (memcmp a1 a2) 0); eexists; (split; [done|]); [apply Hs|done].
Qed.

(** ** Main results *)

(** C30: What evutil_format_sockaddr_port prints, evutil_parse_sockaddr_port
    reads back: for every IPv4 and every IPv6 address and every port but 0,
    the text is read without an error, and the struct in the caller's array is
    the printed one byte for byte, followed by zeros. The IPv6 text leaves out
    the longest run of zeros, or ends in an IPv4 address. *)
Theorem sockaddr_text_round_trip af port a out outlen buf :
  af = AF_INET \/ af = AF_INET6 -> length a = family_size af -> bytes_ok a -> 1 <= port <= 65535 ->
  (51 <= outlen <= length out)%nat -> (28 <= length buf)%nat ->
  exists out' t,
    evutil_format_sockaddr_port (sockaddr af port a) out outlen = Ok out' /\ cstring out' = Ok t /\
    evutil_parse_sockaddr_port t buf (Z.of_nat (length buf))
    = Ok (0, padded (length buf) (sockaddr af port a), Z.of_nat (length (sockaddr af port a))).
Proof.
  intros Haf Hl Hb Hp Ho Hbuf. destruct (format_text af port a out outlen Haf Hl Hb Hp Ho) as (out' & t & Ef & Ec & Hch & Ht & Hv4 & Hback).
  exists out', (port_text af port t). split_and!; [done..|]. destruct (sockaddr_fields af port a Haf Hl ltac:(lia)) as (_ & _ & _ & Hsz).
  unfold evutil_parse_sockaddr_port. rewrite (split_port_text af port t Haf Hp Hch Ht Hv4). destruct (fmt_port port Hp) as (_ & _ & ->).
  rewrite (proj2 (Z.leb_gt port 0)), (proj2 (Z.ltb_ge 65535 port)), andb_false_r by lia.
  assert (Hst : forall size n mk, (size <= 28)%nat -> length a = n -> length (mk a) = size -> store_addr af size mk (zeros n) t buf (Z.of_nat (length buf)) = Ok (0, padded (length buf) (mk a), Z.of_nat size)).
  { intros size n mk Hsize Hn Hmk. unfold store_addr. rewrite Hback by (rewrite length_zeros; lia). cbn [res_bind]. rewrite Z.eqb_refl. cbn [negb].
    rewrite (proj2 (Z.ltb_ge _ _)), Nat2Z.id by lia. rewrite mwrite_ok by len. cbn [res_bind]. rewrite patch_front by len.
    rewrite length_zeros, drop_ge, app_nil_r by lia. rewrite patch_front by len. rewrite drop_ge, app_nil_r by (rewrite length_zeros; lia).
    rewrite mwrite_zeros by lia. done. }
  destruct Haf as [-> | ->]; unfold sockaddr in *.
  - rewrite Z.eqb_refl in *. rewrite bool_decide_eq_false_2 by done. rewrite (Hst sizeof_sin 4%nat (sin (htons port))) by (done || (unfold sizeof_sin; lia)). by rewrite Hsz.
  - change (Z.eqb AF_INET6 AF_INET) with false in *. rewrite bool_decide_eq_true_2 by done. rewrite (Hst sizeof_sin6 16%nat (sin6 (htons port))) by (done || (unfold sizeof_sin6; lia)). by rewrite Hsz.
Qed.

Lemma sockaddr_text_round_trip_witness :
  exists out' t,
    evutil_format_sockaddr_port (sockaddr AF_INET6 8080 LOOPBACK_S6) (zeros 64) 64 = Ok out' /\ cstring out' = Ok t /\
    evutil_parse_sockaddr_port t (zeros 28) 28
    = Ok (0, padded 28 (sockaddr AF_INET6 8080 LOOPBACK_S6), 28).
Proof.
  apply (sockaddr_text_round_trip AF_INET6 8080 LOOPBACK_S6 (zeros 64) 64 (zeros 28)); [by right|done| |lia|rewrite length_zeros; lia|rewrite length_zeros; lia].
  unfold LOOPBACK_S6. apply Forall_app_2; [apply bytes_ok_zeros|]. constructor; [unfold is_byte; lia|constructor].
Defined.

(** C31: evutil_inet_pton is total and safe on every text, however malformed:
    its loops end, no access leaves the text, the array of words or the
    result, no word is read before it was set, the case marked as impossible
    in the code does not occur (it returns -1 for unknown families only), and
    the result is written to only when 1 is returned. *)
Theorem inet_pton_total af s dst :
  (16 <= length dst)%nat ->
  exists r dst', evutil_inet_pton af s dst = Ok (r, dst') /\ length dst' = length dst /\
    (r = 0 \/ r = 1 \/ r = -1) /\ (r <> 1 -> dst' = dst) /\ (r = -1 <-> af <> AF_INET /\ af <> AF_INET6).
Proof.
  intros Hdst. unfold evutil_inet_pton. destruct (Z.eqb_spec af AF_INET) as [->|H4]; [|destruct (Z.eqb_spec af AF_INET6) as [->|H6]].
  - destruct (pton_inet_safe s dst) as (r & dst' & -> & Hl & Hr); [lia|]. exists r, dst'. split_and!; [done|done|lia|by intros; destruct Hr as [[]|]|lia].
  - destruct (pton_inet6_safe s dst) as (r & dst' & -> & Hl & Hr); [lia|]. exists r, dst'. split_and!; [done|done|lia|by intros; destruct Hr as [[]|]|lia].
  - exists (-1), dst. split_and!; try done. by right; right.
Qed.

Lemma inet_pton_total_witness :
  exists r dst', evutil_inet_pton AF_INET6 (str "1::2::3.") (zeros 16) = Ok (r, dst') /\ length dst' = length (zeros 16) /\
    (r = 0 \/ r = 1 \/ r = -1) /\ (r <> 1 -> dst' = zeros 16) /\ (r = -1 <-> AF_INET6 <> AF_INET /\ AF_INET6 <> AF_INET6).
Proof. apply (inet_pton_total AF_INET6 (str "1::2::3.") (zeros 16)). rewrite length_zeros. lia. Defined.

End AddrThms.
